(* ===== verification/_CoqProject ===== *)
-Q . S2P
Prelude.v
Bits.v
ByteBuffer.v
ByteBufferStream.v
ByteBufferProps.v
ObjectGuid.v
Float32.v
MovementElements.v
MovementTables.v
MovementInfo.v
MovementCodec.v
MovementProps.v
SpeedChange.v
MotionMaster.v
MotionMasterProps.v
Timer.v
TimerProps.v
EventProcessor.v
EventProcessorProps.v
UpdateMask.v
UpdateFields.v
ObjectFields.v
ObjectFieldsProps.v
ValuesUpdate.v
ValuesUpdateProps.v
VisibilityProps.v
FieldsText.v
OpcodeTable.v
WorldSocket.v
WorldSocketInput.v
WorldSocketOutput.v
WorldSocketProps.v
OpcodeTableProps.v
WorldSession.v
WorldSessionProps.v
SpeedSending.v
LoginQueue.v
LoginQueueProps.v
SessionPackets.v
SessionPacketsProps.v
AddonsProps.v
RBAC.v
RBACProps.v
Threat.v
ThreatLists.v
ThreatProps.v
BigNumber.v
RealmList.v
RealmSocket.v
AuthSocket.v
Srp6.v
AuthSocketRuns.v
AuthSocketProps.v
AuthSocketSafety.v
Utf8.v
Channel.v
ChannelMgr.v
ChannelHandler.v
ChannelRuns.v
ChannelSafety.v
ChannelProps.v
LfgRoles.v
LfgQueue.v
LfgMgr.v
LfgSafety.v
LfgProps.v
