(* ===== verification/Prelude.v ===== *)
(** * A verified model of the core of a World of Warcraft 5.4.0 server

    The repository is a game server of the TrinityCore family.  [src/src/server/shared] is the
    base library, [src/src/server/game] the world, [src/src/server/authserver] the log-on
    server; [src/dep] is vendored code, [src/src/server/scripts] content.  This development
    models the path between a client and the state of the world, and some of the machinery
    that keeps the world running:

<<
      client ==bytes==> WorldSocket --packets--> WorldSession --handlers--> units, objects
         ^                 |   ^                   |   ^  |                     |
         |                 |   |               opcode  |  permissions           | fields,
         |            encryption               table   |  (RBAC)                | movement,
         |                                             |                        | threat
         +---- output buffer and queue <-- packets <- World (login queue) <- update blocks
>>

    ** Parts, files and the code they follow

    Shared base.  Prelude.v (this file): outcomes of C++ code ([result]: a value, an
    exception, a failed assertion, undefined behaviour or divergence), three ways of threading
    state, machine integers.  Bits.v: bit strings and little-endian bytes.  Float32.v: single
    precision by representation.

    Packets.  ByteBuffer.v is [shared/Packets/ByteBuffer.h], method for method;
    ByteBufferStream.v relates a buffer to the stream of bits and bytes written to it;
    ByteBufferProps.v has round trips, [PutBits], the safety of reading.  ObjectGuid.v:
    identifiers ([ObjectDefines.h]).

    Movement packets.  MovementElements.v and MovementTables.v hold the tables of
    [Movement/MovementStructures.cpp], element for element; MovementInfo.v the interpreters
    [Unit::WriteMovementInfo], [Player::ReadMovementInfo] and [Movement::PacketSender];
    MovementCodec.v proves an executable check of a table sound; MovementProps.v: which packets
    are read back as written, and that reading is safe for all input.  SpeedChange.v:
    [Unit::SetSpeed] and the acknowledgement of the client; SpeedSending.v composes it with the
    opcode table.

    Units.  MotionMaster.v is [Movement/MotionMaster.cpp]: three slots of generators with
    delayed deletion, over an open recursion, because the virtual methods of a generator call
    the master back; MotionMasterProps.v: safety, a refinement of a priority stack, and leaks
    when [Finalize] calls back.

    Threat.v is [game/Combat]: the threat lists of creatures and the references that lead to a
    unit, heap objects that either end deletes.  ThreatLists.v has the invariant of these lists
    and what each method keeps of it; ThreatProps.v: any calls in any order leave no dangling
    pointer, and whom a creature attacks (the rules of 110 and 130 per cent).

    Time.  Timer.v, TimerProps.v: [Utilities/Timer.h].  EventProcessor.v and
    EventProcessorProps.v: [Utilities/EventProcessor.cpp].

    Objects and their updates.  UpdateMask.v, UpdateFields.v (the visibility tables),
    ObjectFields.v (the fields of [Object.cpp] and the update list of [ObjectAccessor]),
    ValuesUpdate.v ([BuildValuesUpdate], [UpdateData]), FieldsText.v (fields saved as text);
    ObjectFieldsProps.v, ValuesUpdateProps.v, VisibilityProps.v: every operation runs exactly in
    its domain, a client that sees an object converges to the server's values, and what the
    tables leave out.

    Connection and session.  WorldSocket.v is [Server/WorldSocket.cpp]; WorldSocketInput.v and
    WorldSocketOutput.v carry the proofs that packets come in and go out unchanged however the
    network cuts the bytes; WorldSocketProps.v has these theorems and the log-on.
    OpcodeTable.v: all of [Opcodes.h] and [Opcodes.cpp].  WorldSession.v: the packet queue of a
    session, dispatch, log-out, deletion.  LoginQueue.v: the sessions and the queue of
    [World/World.cpp], proved (LoginQueueProps.v) against the interface [SessionOps] with its
    laws [SessionLaws]; SessionPackets.v has the packets of [AuthHandler.cpp], and
    SessionPacketsProps.v shows that sessions of WorldSession.v implement the interface.
    AddonsProps.v follows the addon list of a client through socket and session.  RBAC.v and
    RBACProps.v: the permissions of accounts and their three tables of the database.

    Log-on server, a process of its own that a client asks first.  BigNumber.v:
    [shared/Cryptography/BigNumber.cpp] and [SHA1.cpp] over OpenSSL.  RealmList.v:
    [authserver/Realms] and [Authentication].  RealmSocket.v: [Server/RealmSocket.cpp], with
    the class [Session] that a socket hands its input to.  AuthSocket.v, its instance: the
    commands of [Server/AuthSocket.cpp].  Srp6.v: the client's side of SRP6 as a specification,
    and a small OpenSSL to compute with; AuthSocketRuns.v follows the handlers step by step;
    AuthSocketProps.v: who gets in; AuthSocketSafety.v: any commands in any order, after which
    only who proved to know a password is authenticated.

    Chat channels.  Utf8.v: the decoder and encoder of [dep/utf8cpp], the conversions and
    letter cases of [shared/Utilities/Util], [normalizePlayerName].  Channel.v is
    [Chat/Channels/Channel.cpp] with the packets that a channel sends and its row of the
    database; ChannelMgr.v has the two managers, which find channels by name, and how a player
    changes zones and leaves ([Player::UpdateLocalChannels], [CleanupChannels]);
    ChannelHandler.v the handlers of [Handlers/ChannelHandler.cpp] and the events of players as
    one step relation ([occur]).  The joined channels of a player are addresses of objects that
    managers delete, so a pointer kept too long would show.  ChannelRuns.v is a calculus to
    follow these methods ([runs]); ChannelSafety.v has the invariant [sound] and what every
    event does to a channel; ChannelProps.v its consequences.

    Dungeon finder ([game/DungeonFinding]).  LfgRoles.v: the search of [CheckGroupRoles] for one
    tank, one healer and three damage dealers, and that it is sound and complete.  LfgQueue.v:
    the data of the finder and all of [DungeonLFGQueue.cpp], which combines queued players and
    groups and caches under texts what it knows of each combination.  LfgMgr.v:
    [DungeonLFGMgr.cpp], the manager over the queues of the teams: joining and leaving, role
    checks, proposals, votes to kick, the tick, with the data of players and groups and the
    callbacks of [DungeonLFGScripts.cpp].  LfgSafety.v follows [FindGroups] with the invariant
    that each proposal is sound; LfgProps.v has the theorems.

    ** Conventions

    Effects.  [M] is state with exceptions that lose the state, [X] keeps the state made before
    an exception, for code that catches or is torn down afterwards.  A failed [ASSERT], an
    uncaught [std::out_of_range], undefined behaviour and exhausted fuel are different values
    of [exn], never a normal return.  A definition has the name of the function it follows.
    Integers are [Z], reduced by [u8] ... [i64] where the code's type wraps; signed overflow is
    [UndefinedBehaviour].  Heap objects that the code deletes by hand are addresses with the
    sets of live ones, so that use after free, double deletion and leaks can be stated.
    Floats are representations; a computed NaN is the canonical one.  [ends m s E Q] says that
    [m], started in [s], ends in a value and state of [Q] or an exception and state of [E];
    [returns] that it throws nothing.

    Parameters.  Code outside the repository and subsystems that are not modelled are arguments:
    [fuzzyEq] of G3D; the clock; uninitialised fields of fresh objects; OpenSSL ([Crypto],
    [OpenSSL] with [OpenSSLLaws]) and zlib, the peer, the reactor and the login database of a
    socket ([Env]), which answer from the history of calls; the virtual methods of generators
    and the facts that the [Move*] requests ask of a unit; [Execute] of events; what other
    objects know about a viewer ([Viewer]); what units answer during a call on their threat
    ([Facts]); what players and the configuration answer to channels ([Facts] of Channel.v), the
    channels and areas of the client data ([Stores]) and the rows that the database returns;
    clock, random numbers and ignore lists of the dungeon finder ([Facts] of LfgQueue.v), and
    who joins it, the dungeons of the client data, the formation of a group and the kick
    ([Surroundings] of LfgMgr.v); the handlers of opcodes and a script of what the network
    thread does meanwhile; the order in which unordered maps are walked.  Properties that
    restrict a parameter have a witness with a concrete one.

    Fuel and bounds.  Each bound is one that the code cannot exceed, or a theorem says so: the
    loop of [appendPackGUID] 8 (bytes of a GUID); tables of movement elements stay below 200
    rows; ByteBuffer asserts sizes below 10,000,000; [update_loop] of the event processor has
    one round per due event ([Update_runs_due]); decimal numbers have at most 10 digits; update
    masks at most 255 blocks of 32 bits; the message loop of the socket takes at least one byte
    per round, its output loop at least one message; the addon loop one byte per round; the
    session's update one packet per round plus one; the login queue's loops one session per
    round; the command loop of the log-on server one byte per round; text is converted one octet
    per round, and a player who logs out leaves one channel per round; each nested call of
    [CheckGroupRoles] takes one of three roles from a player, each round of [FindNewGroups] and
    [FindGroups] one element of a list.  The loops of the MotionMaster that empty its three
    slots get [max_rounds] (100) rounds, and its search for a generator below the array of slots
    reads at most [words_before] (64) words: [MotionMaster_sound] shows that neither is used up
    while generators call back from [Update] only.  How often the environment may send a player
    who logs out to a new map is an argument, [max_transfers]. Threat: chains of owners are as
    long as the facts say ([owners]); the loops over a list get its length, or the number of
    units where it may grow on the way.

    ** What the theorems show

    Round trips: movement state, GUID packets, typed fields, packed GUIDs, values updates, an
    SRP6 log-on, fields as text, a channel through a restart of the server, the stream of
    packets through the socket in both directions. Safety: reading of any payload, the
    MotionMaster, the update of a session, what a socket hands to it, the lists of threat, chat
    channels under any events of their players (for names without characters beyond the basic
    plane, which overrun the buffers of the code).  Refinements: the MotionMaster is a priority
    stack, a client's copy of an object converges, output is a sequence of packets, permissions
    are what the rules say. Dungeon finder: whatever is queued, each proposal is sound; the
    search for roles finds them if there are any; when a player declines, only the elements of
    players who declined lose their place. Invariants and liveness: login queue, timers, speed
    acknowledgements.  Error behaviour: who gets a session, who gets into the log-on server, who
    may change a channel, malformed tables, addon lists that stop the server, entries of
    disconnections that never expire, players in two proposals at once.  Where the code does
    something else than it says, the theorem states what it does; the manifest lists these
    places as findings.

    ** Not modelled, and why

    Vendored code ([src/dep]) and content ([scripts]).  The spell engine, combat statistics,
    players, items and the loaders ([Spells], most of [Entities], [DataStores], [Globals]): they
    interpret client files and database rows that the repository does not contain. Geometry
    ([Maps], [Grids], [collision], path generation, splines).  The database layer and logging:
    pure input and output.  Of modelled files: calendar time and packed coordinates in
    ByteBuffer.h, the geometry of [Position], [UpdateSpeed] (derives the rate from auras),
    creation blocks of objects, teleports, rewards and locks of the dungeon finder and its
    packets, account data and query callbacks of WorldSession.

    Left for later: the battleground queue, groups and guilds, reputation,
    creation blocks ([BuildMovementUpdate]). *)
From stdpp Require Export base tactics list numbers option.
From Stdlib Require Export ZArith Lia Bool.

#[global] Set Default Proof Using "Type".

Declare Scope ow_scope.
Delimit Scope ow_scope with ow.
Open Scope ow_scope.

(** * Outcomes

    C++ code that throws, fails an [ASSERT] or runs into undefined behaviour is
    given a value of [result]; the three are never confused with a normal
    return. *)

Inductive exn : Type :=
| ByteBufferPositionException
| ByteBufferSourceException
| AssertionFailed
| OutOfRange                                   (* std::out_of_range *)
| UndefinedBehaviour
| Diverges.

Inductive result (A : Type) : Type :=
| Ok (a : A)
| Throw (e : exn).
Arguments Ok {A} a.
Arguments Throw {A} e.

#[global] Instance exn_eq_dec : EqDecision exn.
Proof. solve_decision. Defined.

#[global] Instance result_ret : MRet result := λ A a, Ok a.
#[global] Instance result_bind : MBind result := λ A B f m,
  match m with Ok a => f a | Throw e => Throw e end.

(** ** State and exceptions: what a method of a mutable object is. *)

Definition M (S A : Type) : Type := S → result (A * S).

#[global] Instance M_ret S : MRet (M S) := λ A a s, Ok (a, s).
#[global] Instance M_bind S : MBind (M S) := λ A B f m s,
  match m s with Ok (a, s') => f a s' | Throw e => Throw e end.

Definition get {S} : M S S := λ s, Ok (s, s).
Definition put {S} (s : S) : M S unit := λ _, Ok (tt, s).
Definition modify {S} (f : S → S) : M S unit := λ s, Ok (tt, f s).
Definition throw {S A} (e : exn) : M S A := λ _, Throw e.

(** A pure computation that may throw, inside a method. *)
Definition lift {S A} (r : result A) : M S A := λ s,
  match r with Ok a => Ok (a, s) | Throw e => Throw e end.

Notation "'when' b 'do' m" := (if b then m else mret tt)
  (at level 20, b at level 100, m at level 20) : ow_scope.

Lemma bind_Ok {S A B} (m : M S A) (f : A → M S B) s a s' :
  m s = Ok (a, s') → (m ≫= f) s = f a s'.
Proof. unfold mbind, M_bind. by intros ->. Qed.

Lemma bind_Throw {S A B} (m : M S A) (f : A → M S B) s e :
  m s = Throw e → (m ≫= f) s = Throw e.
Proof. unfold mbind, M_bind. by intros ->. Qed.

Lemma bind_inv {S A B} (m : M S A) (f : A → M S B) s b s'' :
  (m ≫= f) s = Ok (b, s'') → ∃ a s', m s = Ok (a, s') ∧ f a s' = Ok (b, s'').
Proof.
  unfold mbind, M_bind. destruct (m s) as [[a s']|e]; [eauto | done].
Qed.

(** ** State that survives an exception

    Where the code catches an exception, the changes made before it was thrown stay. *)

Definition X (S A : Type) : Type := S → result A * S.

#[global] Instance X_ret S : MRet (X S) := λ A a s, (Ok a, s).
#[global] Instance X_bind S : MBind (X S) := λ A B f m s,
  match m s with (Ok a, s') => f a s' | (Throw e, s') => (Throw e, s') end.

Definition getX {S} : X S S := λ s, (Ok s, s).
Definition modifyX {S} (f : S → S) : X S unit := λ s, (Ok tt, f s).
Definition throwX {S A} (e : exn) : X S A := λ s, (Throw e, s).
(** A computation that does not touch the state. *)
Definition liftX {S A} (r : result A) : X S A := λ s, (r, s).

(** [catch (ByteBufferException &)] *)
Definition is_ByteBufferException (e : exn) : bool :=
  match e with ByteBufferPositionException | ByteBufferSourceException => true | _ => false end.
Definition catch_ByteBufferException {S A} (m h : X S A) : X S A := λ s,
  match m s with
  | (Throw e, s') => if is_ByteBufferException e then h s' else (Throw e, s')
  | r => r
  end.

Lemma bindX_Ok {S A B} (m : X S A) (f : A → X S B) s a s' :
  m s = (Ok a, s') → (m ≫= f) s = f a s'.
Proof. unfold mbind, X_bind. by intros ->. Qed.

Lemma bindX_Throw {S A B} (m : X S A) (f : A → X S B) s e s' :
  m s = (Throw e, s') → (m ≫= f) s = (Throw e, s').
Proof. unfold mbind, X_bind. by intros ->. Qed.

Lemma bindX_inv {S A B} (m : X S A) (f : A → X S B) s b s'' :
  (m ≫= f) s = (Ok b, s'') → ∃ a s', m s = (Ok a, s') ∧ f a s' = (Ok b, s'').
Proof. unfold mbind, X_bind. destruct (m s) as [[a|e] s']; [eauto | done]. Qed.

(** ** What methods leave alone

    A method that relates the state before and after it by a preorder, whether it throws or
    not; the relation of a composed method follows from its parts. *)

Create HintDb keeps.

Section keeps.
Context {S : Type} (R : relation S) `{!PreOrder R}.

Definition keeps {A} (m : X S A) : Prop := ∀ s, R s (m s).2.

Lemma keeps_ret {A} (a : A) : keeps (mret a).
Proof using PreOrder0. intros s. simpl. reflexivity. Qed.
Lemma keeps_bind {A B} (m : X S A) (f : A → X S B) : keeps m → (∀ a, keeps (f a)) → keeps (m ≫= f).
Proof using PreOrder0.
  intros Hm Hf s. unfold mbind, X_bind. specialize (Hm s). destruct (m s) as [[a|e] s']; [|done].
  etrans; [exact Hm|apply Hf].
Qed.
Lemma keeps_getX : keeps getX.
Proof using PreOrder0. intros s. simpl. reflexivity. Qed.
Lemma keeps_throwX {A} e : keeps (throwX (A := A) e).
Proof using PreOrder0. intros s. simpl. reflexivity. Qed.
Lemma keeps_liftX {A} (r : result A) : keeps (liftX r).
Proof using PreOrder0. intros s. simpl. reflexivity. Qed.
Lemma keeps_catch {A} (m h : X S A) : keeps m → keeps h → keeps (catch_ByteBufferException m h).
Proof using PreOrder0.
  intros Hm Hh s. unfold catch_ByteBufferException. specialize (Hm s). destruct (m s) as [[a|e] s']; [done|].
  destruct (is_ByteBufferException e); [|done]. etrans; [exact Hm|apply Hh].
Qed.
Lemma keeps_modify f : (∀ s, R s (f s)) → keeps (modifyX f).
Proof. intros Hf s. apply Hf. Qed.

End keeps.

#[export] Hint Resolve keeps_ret keeps_getX keeps_throwX keeps_liftX : keeps.
#[export] Hint Extern 2 (keeps _ (modifyX _)) => apply keeps_modify; solve [intros; done] : keeps.

(** One step along the structure of a method. *)
Ltac keeps_step :=
  match goal with
  | |- keeps _ (match ?x with _ => _ end) => destruct x
  | |- keeps _ (let '_ := ?x in _) => destruct x
  | |- keeps _ (_ ≫= _) => apply keeps_bind; [apply _| |intros]
  | |- keeps _ (catch_ByteBufferException _ _) => apply keeps_catch; [apply _| |]
  | |- keeps _ _ => solve [eauto with keeps typeclass_instances]
  end.
Ltac keeps := repeat (intros; keeps_step).

(** ** How a run ends

    [ends m s E Q]: from [s], the method returns a value and a state in [Q] or throws an
    exception in [E]; [returns] is for methods that do not throw. *)

Definition ends {S A} (m : X S A) (s : S) (E : exn → Prop) (Q : A → S → Prop) : Prop :=
  match m s with (Ok a, s') => Q a s' | (Throw e, _) => E e end.
Abbreviation returns m s Q := (ends m s (λ _ : exn, False) Q).

Section ends.
Context {S : Type}.
Implicit Types (s : S) (E : exn → Prop).

Lemma ends_ret {A} (a : A) s E (Q : A → S → Prop) : Q a s → ends (mret a) s E Q.
Proof. done. Qed.
Lemma ends_bind {A B} (m : X S A) (f : A → X S B) s E Q :
  ends m s E (λ a s', ends (f a) s' E Q) → ends (m ≫= f) s E Q.
Proof. unfold ends, mbind, X_bind. destruct (m s) as [[a|e] s']; done. Qed.
Lemma ends_mono {A} (m : X S A) s E (P Q : A → S → Prop) :
  ends m s E P → (∀ a s', P a s' → Q a s') → ends m s E Q.
Proof. unfold ends. destruct (m s) as [[a|e] s']; [auto|done]. Qed.
Lemma ends_weaken {A} (m : X S A) s (E E' : exn → Prop) (Q : A → S → Prop) :
  ends m s E Q → (∀ e, E e → E' e) → ends m s E' Q.
Proof. unfold ends. destruct (m s) as [[a|e] s']; auto. Qed.
Lemma ends_when (b : bool) m s E (Q : unit → S → Prop) :
  (b = true → ends m s E Q) → (b = false → Q tt s) → ends (when b do m) s E Q.
Proof. intros H1 H2. destruct b; [auto|]. apply ends_ret. auto. Qed.
Lemma ends_getX s E (Q : S → S → Prop) : Q s s → ends getX s E Q.
Proof. done. Qed.
Lemma ends_modifyX f s E (Q : unit → S → Prop) : Q tt (f s) → ends (modifyX f) s E Q.
Proof. done. Qed.
Lemma ends_throwX {A} e s E (Q : A → S → Prop) : E e → ends (throwX e) s E Q.
Proof. done. Qed.
Lemma ends_liftX {A} (r : result A) s E (Q : A → S → Prop) :
  match r with Ok a => Q a s | Throw e => E e end → ends (liftX r) s E Q.
Proof. by destruct r. Qed.
(** What is known of all runs, whatever they do with the rest. *)
Lemma ends_and {A} (m : X S A) s E (P Q : A → S → Prop) :
  ends m s E P → ends m s (λ _, True) Q → ends m s E (λ a s', P a s' ∧ Q a s').
Proof. unfold ends. destruct (m s) as [[a|e] s']; auto. Qed.
Lemma keeps_ends {A} (R : relation S) (m : X S A) s : keeps R m → ends m s (λ _, True) (λ _ s', R s s').
Proof. intros Hm. specialize (Hm s). unfold ends. by destruct (m s) as [[a|e] s']. Qed.
Lemma ends_inv {A} (m : X S A) s Q : returns m s Q → ∃ a s', m s = (Ok a, s') ∧ Q a s'.
Proof. unfold ends. destruct (m s) as [[a|e] s']; [eauto|done]. Qed.

End ends.

(** * Machine integers: [Z] with the wrap-around of the type written out. *)

Definition u8 (z : Z) : Z := z mod 2 ^ 8.
Definition u16 (z : Z) : Z := z mod 2 ^ 16.
Definition u32 (z : Z) : Z := z mod 2 ^ 32.
Definition u64 (z : Z) : Z := z mod 2 ^ 64.
(** Conversion to a [w]-bit two's complement type. *)
Definition wrap_signed (w z : Z) : Z := (z + 2 ^ (w - 1)) mod 2 ^ w - 2 ^ (w - 1).
Definition i8 : Z → Z := wrap_signed 8.
Definition i16 : Z → Z := wrap_signed 16.
Definition i32 : Z → Z := wrap_signed 32.
Definition i64 : Z → Z := wrap_signed 64.

(** The result of signed 32-bit arithmetic: overflow is undefined. *)
Definition int32_result (z : Z) : result Z :=
  if (- 2 ^ 31 <=? z)%Z && (z <? 2 ^ 31)%Z then Ok z else Throw UndefinedBehaviour.

(** C's conversion of an integer to [bool]. *)
Definition z2b (z : Z) : bool := negb (z =? 0)%Z.
