(* ===== verification/Bits.v ===== *)
(** * Bits: bit strings and little-endian byte strings over [Z].

    Shared arithmetic for the packet buffer, the GUID helpers and the update
    mask: the value of a most-significant-bit-first bit string, the bytes of a
    fixed-width integer in the order [EndianConvert] leaves them in a packet, and
    the bitwise lemmas the codecs rest on. *)
From S2P Require Import Prelude.
Open Scope Z_scope.

(** ** Bitwise extensionality and automation *)

Create Rewrite HintDb bits.

Lemma testbit_mod_pow2 a n i :
  0 ≤ n → 0 ≤ i → Z.testbit (a mod 2 ^ n) i = (i <? n) && Z.testbit a i.
Proof.
  intros Hn Hi. destruct (Z.ltb_spec i n).
  - by rewrite Z.mod_pow2_bits_low by lia.
  - by rewrite Z.mod_pow2_bits_high by lia.
Qed.

Lemma testbit_pow2 n i : 0 ≤ n → Z.testbit (2 ^ n) i = (i =? n).
Proof.
  intros Hn. destruct (Z.eqb_spec i n) as [->|Hne].
  - by apply Z.pow2_bits_true.
  - by apply Z.pow2_bits_false; lia.
Qed.

Lemma testbit_small a n i : 0 ≤ a < 2 ^ n → 0 ≤ n ≤ i → Z.testbit a i = false.
Proof.
  intros Ha Hi. rewrite <- (Z.mod_small a (2 ^ n)) by lia.
  apply Z.mod_pow2_bits_high; lia.
Qed.

#[export] Hint Rewrite Z.lor_spec Z.land_spec Z.lxor_spec Z.ldiff_spec
  Z.testbit_0_l : bits.
#[export] Hint Rewrite testbit_mod_pow2 testbit_pow2 Z.shiftl_spec Z.shiftr_spec
  using lia : bits.

Lemma land_1 z : Z.land z 1 = Z.b2z (Z.testbit z 0).
Proof. change 1 with (Z.ones 1). rewrite Z.land_ones, Z.bit0_mod by lia. done. Qed.

Lemma shiftr_land_1 z i : 0 ≤ i → Z.land (Z.shiftr z i) 1 = Z.b2z (Z.testbit z i).
Proof. intros. by rewrite land_1, Z.shiftr_spec, Z.add_0_l by lia. Qed.

(** A bitwise operation that maps zero bits to zero bits keeps values in range. *)
Lemma bits_bound a n :
  0 ≤ n → (∀ i, n ≤ i → Z.testbit a i = false) → 0 ≤ a < 2 ^ n.
Proof.
  intros Hn H. cut (a = a mod 2 ^ n).
  { intros ->. apply Z.mod_pos_bound. lia. }
  apply Z.bits_inj'. intros i Hi. autorewrite with bits.
  destruct (Z.ltb_spec i n); [done|]. by rewrite H.
Qed.

Lemma lor_bound a b n : 0 ≤ a < 2 ^ n → 0 ≤ b < 2 ^ n → 0 ≤ n → 0 ≤ Z.lor a b < 2 ^ n.
Proof.
  intros Ha Hb Hn. apply bits_bound; [done|]. intros i Hi.
  by rewrite Z.lor_spec, (testbit_small a n), (testbit_small b n).
Qed.

Lemma lxor_bound a b n : 0 ≤ a < 2 ^ n → 0 ≤ b < 2 ^ n → 0 ≤ n → 0 ≤ Z.lxor a b < 2 ^ n.
Proof.
  intros Ha Hb Hn. apply bits_bound; [done|]. intros i Hi.
  by rewrite Z.lxor_spec, (testbit_small a n), (testbit_small b n).
Qed.

Lemma z2b_b2z b : z2b (Z.b2z b) = b.
Proof. by destruct b. Qed.

(** ** Bit strings, most significant bit first *)

Fixpoint bits_val (l : list bool) : Z :=
  match l with
  | [] => 0
  | b :: l => Z.b2z b * 2 ^ Z.of_nat (length l) + bits_val l
  end.

Lemma bits_val_bound l : 0 ≤ bits_val l < 2 ^ Z.of_nat (length l).
Proof.
  induction l as [|b l IH]; simpl length; [simpl; lia|].
  rewrite Nat2Z.inj_succ, Z.pow_succ_r by lia. destruct b; simpl; lia.
Qed.

Lemma bits_val_app l1 l2 :
  bits_val (l1 ++ l2) = bits_val l1 * 2 ^ Z.of_nat (length l2) + bits_val l2.
Proof.
  induction l1 as [|b l1 IH]; simpl; [lia|].
  rewrite IH, length_app, Nat2Z.inj_add, Z.pow_add_r by lia. lia.
Qed.

(** The bit [i] of the value is the [i]-th bit from the right. *)
Lemma testbit_bits_val l i :
  Z.testbit (bits_val l) (Z.of_nat i) =
    default false (if decide (i < length l)%nat then l !! (length l - 1 - i)%nat else None).
Proof.
  induction l as [|b l IH]; [by rewrite Z.testbit_0_l|].
  pose proof (bits_val_bound l) as Hb. simpl bits_val.
  replace (Z.b2z b * 2 ^ Z.of_nat (length l) + bits_val l)
    with (Z.lor (bits_val l) (Z.shiftl (Z.b2z b) (Z.of_nat (length l)))).
  2:{ rewrite Z.shiftl_mul_pow2 by lia.
      rewrite Z.add_comm, <- Z.lxor_lor, Z.add_nocarry_lxor; try done;
      apply Z.bits_inj'; intros n Hn; autorewrite with bits;
      rewrite Z.mul_pow2_bits by lia;
      destruct (Z.ltb_spec n (Z.of_nat (length l)));
      try rewrite (Z.testbit_neg_r (Z.b2z b)) by lia; try apply andb_false_r;
      rewrite (testbit_small (bits_val l) (Z.of_nat (length l)) n) by lia; done. }
  autorewrite with bits. rewrite IH. simpl length.
  destruct (decide (i < length l)%nat), (decide (i < S (length l))%nat); try lia.
  - rewrite (Z.testbit_neg_r (Z.b2z b)), orb_false_r by lia.
    replace (S (length l) - 1 - i)%nat with (S (length l - 1 - i)) by lia. done.
  - replace (Z.of_nat i - Z.of_nat (length l)) with 0 by lia.
    replace (S (length l) - 1 - i)%nat with 0%nat by lia.
    rewrite Z.b2z_bit0. by destruct b.
  - simpl. destruct (Z.of_nat i - Z.of_nat (length l)) eqn:E; [lia| |lia].
    by destruct b.
Qed.

(** The [n] low bits of [v], most significant first: the order in which
    [ByteBuffer::WriteBits] emits them. *)
Fixpoint bits_of (n : nat) (v : Z) : list bool :=
  match n with
  | O => []
  | S n => Z.testbit v (Z.of_nat n) :: bits_of n v
  end.

Lemma length_bits_of n v : length (bits_of n v) = n.
Proof. induction n; simpl; congruence. Qed.

Lemma bits_val_bits_of n v : bits_val (bits_of n v) = v mod 2 ^ Z.of_nat n.
Proof.
  apply Z.bits_inj'. intros i Hi. autorewrite with bits.
  rewrite <- (Z2Nat.id i) by lia. rewrite testbit_bits_val, length_bits_of.
  destruct (decide _) as [Hlt|Hge]; [|by rewrite (proj2 (Z.ltb_ge _ _)) by lia].
  rewrite (proj2 (Z.ltb_lt _ _)) by lia. simpl. generalize (Z.to_nat i) Hlt. clear.
  induction n as [|n IH]; intros k Hk; simpl; [lia|].
  destruct (decide (k = n)) as [->|Hne].
  - by replace (n - 0 - n)%nat with 0%nat by lia.
  - replace (n - 0 - k)%nat with (S (n - 1 - k)) by lia. simpl. apply IH. lia.
Qed.

(** Padding a partial byte with zero bits on the right. *)
Definition pad8 (l : list bool) : list bool := l ++ replicate (8 - length l) false.
Definition byte_of_bits (l : list bool) : Z := bits_val (pad8 l).

Lemma length_pad8 l : (length l ≤ 8)%nat → length (pad8 l) = 8%nat.
Proof. intros. unfold pad8. rewrite length_app, length_replicate. lia. Qed.

Lemma byte_of_bits_bound l : (length l ≤ 8)%nat → 0 ≤ byte_of_bits l < 256.
Proof.
  intros Hl. pose proof (bits_val_bound (pad8 l)) as H.
  rewrite length_pad8 in H by done. exact H.
Qed.

Lemma byte_of_bits_nil : byte_of_bits [] = 0.
Proof. done. Qed.

Lemma testbit_byte_of_bits l i :
  (length l ≤ 8)%nat → (i < 8)%nat →
  Z.testbit (byte_of_bits l) (7 - Z.of_nat i) = default false (l !! i).
Proof.
  intros Hl Hi. unfold byte_of_bits.
  replace (7 - Z.of_nat i) with (Z.of_nat (7 - i)) by lia.
  rewrite testbit_bits_val, length_pad8 by done.
  destruct (decide _); [|lia]. replace (8 - 1 - (7 - i))%nat with i by lia.
  unfold pad8. destruct (decide (i < length l)%nat).
  - by rewrite lookup_app_l by done.
  - rewrite lookup_app_r, lookup_replicate_2, (lookup_ge_None_2 l) by lia. done.
Qed.

(** Appending one more bit to a partial byte sets bit [7 - length l] of it. *)
Lemma byte_of_bits_snoc l b :
  (length l < 8)%nat →
  byte_of_bits (l ++ [b]) =
    Z.lor (byte_of_bits l) (if b then 2 ^ (7 - Z.of_nat (length l)) else 0).
Proof.
  intros Hl. apply Z.bits_inj'. intros n Hn.
  assert (Hl1 : (length (l ++ [b]) ≤ 8)%nat) by (rewrite length_app; simpl; lia).
  pose proof (byte_of_bits_bound (l ++ [b]) Hl1) as Hb1.
  pose proof (byte_of_bits_bound l ltac:(lia)) as Hb2.
  rewrite Z.lor_spec. destruct (Z.ltb_spec n 8) as [Hn8|Hn8].
  - replace n with (7 - Z.of_nat (Z.to_nat (7 - n))) by lia.
    set (i := Z.to_nat (7 - n)). assert (i < 8)%nat by lia.
    rewrite !testbit_byte_of_bits by lia.
    destruct (decide (i < length l)%nat) as [?|?].
    + rewrite lookup_app_l by done. destruct b; [|by rewrite Z.testbit_0_l, orb_false_r].
      rewrite testbit_pow2, (proj2 (Z.eqb_neq _ _)), orb_false_r by lia. done.
    + rewrite (lookup_ge_None_2 l) by lia. rewrite lookup_app_r by lia.
      destruct (decide (i = length l)) as [->|?].
      * rewrite Nat.sub_diag. simpl. destruct b; [|by rewrite Z.testbit_0_l].
        by rewrite testbit_pow2, Z.eqb_refl by lia.
      * rewrite (lookup_ge_None_2 [b]) by (simpl; lia). simpl.
        destruct b; [|by rewrite Z.testbit_0_l].
        by rewrite testbit_pow2, (proj2 (Z.eqb_neq _ _)) by lia.
  - rewrite (testbit_small (byte_of_bits l) 8), (testbit_small (byte_of_bits (l ++ [b])) 8)
      by lia. destruct b; [|by rewrite Z.testbit_0_l].
    by rewrite testbit_pow2, (proj2 (Z.eqb_neq _ _)) by lia.
Qed.

(** ** Little-endian bytes *)

Definition is_byte (z : Z) : Prop := 0 ≤ z < 256.

Fixpoint le_bytes (k : nat) (v : Z) : list Z :=
  match k with
  | O => []
  | S k => v mod 256 :: le_bytes k (v / 256)
  end.

Fixpoint le_val (l : list Z) : Z :=
  match l with
  | [] => 0
  | b :: l => b + 256 * le_val l
  end.

Lemma length_le_bytes k v : length (le_bytes k v) = k.
Proof. revert v. induction k; intros v; simpl; [done|]. by rewrite IHk. Qed.

Lemma le_bytes_is_byte k v : Forall is_byte (le_bytes k v).
Proof.
  revert v. induction k; intros v; simpl; constructor; [|done].
  unfold is_byte. pose proof (Z.mod_pos_bound v 256). lia.
Qed.

Lemma le_val_le_bytes k v : le_val (le_bytes k v) = v mod 2 ^ (8 * Z.of_nat k).
Proof.
  revert v. induction k as [|k IH]; intros v; simpl le_bytes; simpl le_val.
  { by rewrite Z.mod_1_r. }
  rewrite IH. replace (8 * Z.of_nat (S k)) with (8 + 8 * Z.of_nat k) by lia.
  rewrite Z.pow_add_r by lia. change (2 ^ 8) with 256.
  rewrite Z.rem_mul_r by lia. lia.
Qed.

Lemma le_bytes_le_val l :
  Forall is_byte l → le_bytes (length l) (le_val l) = l.
Proof.
  induction 1 as [|b l Hb Hl IH]; [done|]. simpl. unfold is_byte in Hb.
  rewrite (Z.mul_comm 256), Z.mod_add, Z.mod_small, Z.div_add, Z.div_small by lia.
  by rewrite Z.add_0_l, IH.
Qed.

Lemma le_val_bound l :
  Forall is_byte l → 0 ≤ le_val l < 2 ^ (8 * Z.of_nat (length l)).
Proof.
  induction 1 as [|b l Hb Hl IH]; [simpl; lia|]. simpl length. simpl le_val.
  replace (8 * Z.of_nat (S (length l))) with (8 + 8 * Z.of_nat (length l)) by lia.
  rewrite Z.pow_add_r by lia. change (2 ^ 8) with 256. unfold is_byte in Hb. lia.
Qed.

(** Signed values survive the trip through their unsigned representation. *)
Lemma wrap_signed_mod w z :
  0 < w → - 2 ^ (w - 1) ≤ z < 2 ^ (w - 1) → wrap_signed w (z mod 2 ^ w) = z.
Proof.
  intros Hw Hz. unfold wrap_signed.
  assert (2 ^ w = 2 * 2 ^ (w - 1)) as E.
  { replace w with (Z.succ (w - 1)) at 1 by lia. rewrite Z.pow_succ_r by lia. lia. }
  rewrite Zplus_mod_idemp_l, Z.mod_small by lia. lia.
Qed.

#[export] Hint Rewrite length_le_bytes length_bits_of le_val_le_bytes
  bits_val_bits_of z2b_b2z : bits.
