(* ===== verification/ByteBuffer.v ===== *)
(** * ByteBuffer: the packet buffer of [src/src/server/shared/Packets/ByteBuffer.h].

    Module [ByteBuffer] has the buffer's state (read and write cursors, the bit
    cursor, the pending bit byte, the storage) as a record and one definition per
    method, in the exception monad of the prelude. A method that throws is a
    [Throw]; cursors are unbounded [nat]s, since the code asserts that a buffer
    stays under ten million bytes. *)
From S2P Require Import Prelude Bits.
Open Scope Z_scope.

Module ByteBuffer.

(** ** State *)

Record t : Type := mk {
  rpos : nat;        (* _rpos *)
  wpos : nat;        (* _wpos *)
  bitpos : nat;      (* _bitpos, 8 when no bit is pending *)
  curbitval : Z;     (* _curbitval, uint8 *)
  storage : list Z;  (* _storage, uint8 each *)
}.

Definition size (b : t) : nat := length (storage b).
Definition is_empty (b : t) : bool := match storage b with [] => true | _ => false end.

Definition new : t := mk 0 0 8 0 [].

(** The copy of a received packet: its payload, nothing read yet. *)
Definition received (payload : list Z) : t := mk 0 (length payload) 8 0 payload.

(** [clear] leaves [_bitpos] and [_curbitval] as they are. *)
Definition clear : M t unit := modify (λ b, mk 0 0 (bitpos b) (curbitval b) []).

Definition set_rpos (n : nat) (b : t) : t :=
  mk n (wpos b) (bitpos b) (curbitval b) (storage b).
Definition set_wpos (n : nat) (b : t) : t :=
  mk (rpos b) n (bitpos b) (curbitval b) (storage b).
Definition rfinish : M t unit := modify (λ b, set_rpos (wpos b) b).

(** ** Writing *)

(** [ASSERT(size() < 10000000)] *)
Definition MAX_SIZE : Z := 10000000.

(** [std::vector::resize]: zero-filled growth, truncation. *)
Definition vec_resize (n : nat) (l : list Z) : list Z :=
  take n l ++ replicate (n - length l) 0.

(** [memcpy(&v[pos], src, length src)], the destination being inside [v]. *)
Definition overwrite (pos : nat) (src l : list Z) : list Z :=
  take pos l ++ src ++ drop (pos + length src) l.

(** [append(const uint8* src, size_t cnt)] *)
Definition append (src : list Z) : M t unit := λ b,
  let cnt := length src in
  if decide (cnt = 0%nat) then Throw ByteBufferSourceException
  else if negb (Z.of_nat (size b) <? MAX_SIZE) then Throw AssertionFailed
  else
    let st := if (length (storage b) <? wpos b + cnt)%nat
              then vec_resize (wpos b + cnt) (storage b) else storage b in
    Ok (tt, mk (rpos b) (wpos b + cnt) (bitpos b) (curbitval b)
               (overwrite (wpos b) src st)).

Definition FlushBits : M t unit := λ b,
  if (bitpos b =? 8)%nat then Ok (tt, b)
  else
    '(_, b') ← append [curbitval b] b;
    Ok (tt, mk (rpos b') (wpos b') 8 0 (storage b')).

(** [template <typename T> append(T)] for a [k]-byte type. *)
Definition append_val (k : nat) (value : Z) : M t unit :=
  FlushBits;; append (le_bytes k value).

(** [--_bitpos] on a [size_t] that is already 0 wraps around and the shift below
    it is undefined. *)
Definition WriteBit (bit : Z) : M t bool := λ b,
  match bitpos b with
  | O => Throw UndefinedBehaviour
  | S bp =>
    let cur := if z2b bit then u8 (Z.lor (curbitval b) (Z.shiftl 1 (Z.of_nat bp)))
               else curbitval b in
    if (bp =? 0)%nat then
      '(_, b') ← append [cur] (mk (rpos b) (wpos b) 8 cur (storage b));
      Ok (z2b bit, mk (rpos b') (wpos b') (bitpos b') 0 (storage b'))
    else Ok (z2b bit, mk (rpos b) (wpos b) bp cur (storage b))
  end.

(** [for (int32 i = bits - 1; i >= 0; --i) WriteBit((value >> i) & 1)] *)
Fixpoint WriteBits (value : Z) (bits : nat) : M t unit :=
  match bits with
  | O => mret tt
  | S i => WriteBit (Z.land (Z.shiftr value (Z.of_nat i)) 1);; WriteBits value i
  end.

Definition WriteByteSeq (b : Z) : M t unit :=
  when z2b b do append_val 1 (Z.lxor b 1).

(** The stream insertion operators. *)
Definition shl_uint8 : Z → M t unit := append_val 1.
Definition shl_uint16 : Z → M t unit := append_val 2.
Definition shl_uint32 : Z → M t unit := append_val 4.
Definition shl_uint64 : Z → M t unit := append_val 8.
Definition shl_int8 : Z → M t unit := append_val 1.
Definition shl_int16 : Z → M t unit := append_val 2.
Definition shl_int32 : Z → M t unit := append_val 4.
Definition shl_int64 : Z → M t unit := append_val 8.
(** Floats are handled as their 32-bit (64-bit) representation. *)
Definition shl_float : Z → M t unit := append_val 4.
Definition shl_double : Z → M t unit := append_val 8.

(** [operator<<(const std::string&)]: the characters go through the raw [append],
    the terminator through the flushing one. *)
Definition shl_string (value : list Z) : M t unit :=
  (when negb (length value =? 0)%nat do append value);; append_val 1 0.

Definition WriteString (str : list Z) : M t unit :=
  when negb (length str =? 0)%nat do append str.

(** [put(size_t pos, const uint8* src, size_t cnt)] *)
Definition put (pos : nat) (src : list Z) : M t unit := λ b,
  if (size b <? pos + length src)%nat then Throw ByteBufferPositionException
  else Ok (tt, mk (rpos b) (wpos b) (bitpos b) (curbitval b)
                  (overwrite pos src (storage b))).
Definition put_val (k : nat) (pos : nat) (value : Z) : M t unit := put pos (le_bytes k value).

(** One iteration of the loop of [PutBits]. *)
Definition put_bit (st : list Z) (p : nat) (v : bool) : list Z :=
  let wp := (p / 8)%nat in
  let m := Z.shiftl 1 (7 - Z.of_nat (p mod 8)) in
  alter (λ x, u8 (if v then Z.lor x m else Z.land x (Z.lnot m))) wp st.

Fixpoint PutBits_loop (n bitCount : nat) (pos : nat) (value : Z) (st : list Z) : list Z :=
  match n with
  | O => st
  | S n' =>
    let i := (bitCount - n)%nat in
    PutBits_loop n' bitCount pos value
      (put_bit st (pos + i)
         (z2b (Z.land (Z.shiftr value (Z.of_nat (bitCount - i - 1))) 1)))
  end.

Definition PutBits (pos : nat) (value : Z) (bitCount : nat) : M t unit := λ b,
  if (bitCount =? 0)%nat then Throw ByteBufferSourceException
  else if (size b * 8 <? pos + bitCount)%nat then Throw ByteBufferPositionException
  else Ok (tt, mk (rpos b) (wpos b) (bitpos b) (curbitval b)
                  (PutBits_loop bitCount bitCount pos value (storage b))).

Definition bitwpos (b : t) : nat := wpos b * 8 + 8 - bitpos b.
Definition set_bitwpos (newPos : nat) : M t nat := λ b,
  let b' := mk (rpos b) (newPos / 8) (8 - newPos mod 8) (curbitval b) (storage b) in
  Ok (bitwpos b', b').

Definition resize (newsize : nat) : M t unit := λ b,
  Ok (tt, mk 0 newsize (bitpos b) (curbitval b) (vec_resize newsize (storage b))).

(** [append(const ByteBuffer&)] appends the written prefix of the other buffer; a
    write cursor moved past its storage makes [contents()] an out-of-range read. *)
Definition append_buffer (o : t) : M t unit :=
  if (size o <? wpos o)%nat then throw UndefinedBehaviour
  else when negb (wpos o =? 0)%nat do append (take (wpos o) (storage o)).

(** The loop of [appendPackGUID]: mask, bytes so far, rest of the guid. *)
Fixpoint packGUID_loop (fuel : nat) (i : nat) (mask : Z) (bytes : list Z) (guid : Z)
  : Z * list Z :=
  match fuel with
  | O => (mask, bytes)
  | S fuel =>
    if guid =? 0 then (mask, bytes)
    else if z2b (Z.land guid 255)
    then packGUID_loop fuel (S i) (Z.lor mask (u8 (Z.shiftl 1 (Z.of_nat i))))
           (bytes ++ [u8 (Z.land guid 255)]) (Z.shiftr guid 8)
    else packGUID_loop fuel (S i) mask bytes (Z.shiftr guid 8)
  end.

(** A 64-bit value is zero after eight shifts by eight. *)
Definition packGUID (guid : Z) : list Z :=
  let '(mask, bytes) := packGUID_loop 8 0 0 [] guid in mask :: bytes.

Definition appendPackGUID (guid : Z) : M t unit := append (packGUID guid).

(** ** Reading *)

(** [T read(size_t pos) const] for a [k]-byte unsigned type. *)
Definition read_at (k pos : nat) (b : t) : result Z :=
  if (size b <? pos + k)%nat then Throw ByteBufferPositionException
  else Ok (le_val (take k (drop pos (storage b)))).

(** [T read()] *)
Definition read (k : nat) : M t Z := λ b,
  r ← read_at k (rpos b) b;
  Ok (r, set_rpos (rpos b + k) b).

Definition read_signed (k : nat) : M t Z :=
  r ← read k; mret (wrap_signed (8 * Z.of_nat k) r).

Definition read_skip (skip : nat) : M t unit := λ b,
  if (size b <? rpos b + skip)%nat then Throw ByteBufferPositionException
  else Ok (tt, set_rpos (rpos b + skip) b).

(** [read(uint8* dest, size_t len)] *)
Definition read_bytes (len : nat) : M t (list Z) := λ b,
  if (size b <? rpos b + len)%nat then Throw ByteBufferPositionException
  else Ok (take len (drop (rpos b) (storage b)), set_rpos (rpos b + len) b).

(** [++_bitpos; if (_bitpos > 7) { _bitpos = 0; _curbitval = read<uint8>(); }] *)
Definition ReadBit : M t bool := λ b,
  let bp := S (bitpos b) in
  '(bp, b) ← (if (7 <? bp)%nat then
                '(v, b') ← read 1 (mk (rpos b) (wpos b) 0 (curbitval b) (storage b));
                Ok (0%nat, mk (rpos b') (wpos b') 0 v (storage b'))
              else Ok (bp, mk (rpos b) (wpos b) bp (curbitval b) (storage b)));
  Ok (z2b (Z.land (Z.shiftr (curbitval b) (7 - Z.of_nat bp)) 1), b).

(** [for (int32 i = bits - 1; i >= 0; --i) if (ReadBit()) value |= (1 << i)] *)
Fixpoint ReadBits_loop (bits : nat) (value : Z) : M t Z :=
  match bits with
  | O => mret value
  | S i =>
    v ← ReadBit;
    ReadBits_loop i (if v : bool then u32 (Z.lor value (Z.shiftl 1 (Z.of_nat i))) else value)
  end.
Definition ReadBits (bits : nat) : M t Z := ReadBits_loop bits 0.

(** Reads a byte, if needed, in place: the new value of [b]. *)
Definition ReadByteSeq (b : Z) : M t Z :=
  if z2b b then r ← read 1; mret (Z.lxor b r) else mret b.

Definition shr_bool : M t bool := r ← read_signed 1; mret (0 <? r).
Definition shr_uint8 : M t Z := read 1.
Definition shr_uint16 : M t Z := read 2.
Definition shr_uint32 : M t Z := read 4.
Definition shr_uint64 : M t Z := read 8.
Definition shr_int8 : M t Z := read_signed 1.
Definition shr_int16 : M t Z := read_signed 2.
Definition shr_int32 : M t Z := read_signed 4.
Definition shr_int64 : M t Z := read_signed 8.
Definition shr_float : M t Z := read 4.
Definition shr_double : M t Z := read 8.

(** [operator>>(std::string&)]: stops at a zero byte or at the end of the data. *)
Fixpoint shr_string_loop (fuel : nat) (value : list Z) : M t (list Z) := λ b,
  match fuel with
  | O => Ok (value, b)
  | S fuel =>
    if (rpos b <? size b)%nat then
      '(c, b') ← read 1 b;
      if c =? 0 then Ok (value, b') else shr_string_loop fuel (value ++ [c]) b'
    else Ok (value, b)
  end.
(** Each round consumes a byte of the storage, so its size bounds the rounds. *)
Definition shr_string : M t (list Z) := λ b, shr_string_loop (size b) [] b.

(** The bytes of a C string: up to the first zero. *)
Fixpoint c_string (l : list Z) : list Z :=
  match l with [] => [] | c :: l => if c =? 0 then [] else c :: c_string l end.

Definition ReadString (len : nat) : M t (list Z) :=
  if (len =? 0)%nat then mret [] else r ← read_bytes len; mret (c_string r).

(** [for (int i = 0; i < 8; ++i)] of [readPackGUID], from [i] on. *)
Fixpoint readPackGUID_loop (n : nat) (guidmark guid : Z) : M t Z := λ b,
  match n with
  | O => Ok (guid, b)
  | S n' =>
    let i := Z.of_nat (8 - n) in
    if z2b (Z.land guidmark (u8 (Z.shiftl 1 i))) then
      if (size b <? rpos b + 1)%nat then Throw ByteBufferPositionException
      else
        '(bit, b') ← read 1 b;
        readPackGUID_loop n' guidmark (Z.lor guid (u64 (Z.shiftl bit (i * 8)))) b'
    else readPackGUID_loop n' guidmark guid b
  end.

Definition readPackGUID : M t Z := λ b,
  if (size b <? rpos b + 1)%nat then Throw ByteBufferPositionException
  else '(guidmark, b') ← read 1 b; readPackGUID_loop 8 guidmark 0 b'.

(** [operator[](size_t)] *)
Definition index_at (pos : nat) : M t Z := λ b,
  if (size b <=? pos)%nat then Throw ByteBufferPositionException
  else Ok (nth pos (storage b) 0, b).

(** ** Containers

    A vector or list is its length in 32 bits and its elements, each with the
    operator of the element type; a map is its pairs in key order. *)
Fixpoint shl_each {A} (shl : A → M t unit) (v : list A) : M t unit :=
  match v with [] => mret tt | x :: v => shl x;; shl_each shl v end.
Definition shl_vector {A} (shl : A → M t unit) (v : list A) : M t unit :=
  shl_uint32 (u32 (Z.of_nat (length v)));; shl_each shl v.

Fixpoint shr_each {A} (shr : M t A) (vsize : nat) (v : list A) : M t (list A) :=
  match vsize with
  | O => mret v
  | S vsize => x ← shr; shr_each shr vsize (v ++ [x])
  end.
Definition shr_vector {A} (shr : M t A) : M t (list A) :=
  vsize ← shr_uint32; shr_each shr (Z.to_nat vsize) [].

Definition shl_map {K V} (shl_k : K → M t unit) (shl_v : V → M t unit)
    (m : list (K * V)) : M t unit :=
  shl_vector (λ '(k, v), shl_k k;; shl_v v) m.
(** [m.insert(make_pair(k, v))] keeps the entry of a key that is present. *)
Definition map_insert {K V} `{EqDecision K} (m : list (K * V)) (kv : K * V) : list (K * V) :=
  if existsb (λ p, bool_decide (p.1 = kv.1)) m then m else m ++ [kv].
Definition shr_map {K V} `{EqDecision K} (shr_k : M t K) (shr_v : M t V)
    : M t (list (K * V)) :=
  l ← shr_vector (k ← shr_k; v ← shr_v; mret (k, v));
  mret (foldl map_insert [] l).

End ByteBuffer.
