(* ===== verification/ByteBufferStream.v ===== *)
(** * ByteBufferStream: what a packet buffer holds.

    [Stream] relates the buffer of [ByteBuffer.v] to the stream of bits and bytes
    written to it: [steps] and [layout] say what a sequence of writes leaves in the
    storage, [reads] what the read methods find there. [PackGUID] has the value of
    a packed GUID. These are the lemmas that the packet codecs are proved with. *)
From S2P Require Import Prelude Bits ByteBuffer.
Open Scope Z_scope.

(** * Streams of bits and bytes *)

Module Stream.
Import ByteBuffer.

Inductive token : Type :=
| TBit (b : bool)
| TByte (z : Z).

Definition bits (l : list bool) : list token := TBit <$> l.
Definition bytes (l : list Z) : list token := TByte <$> l.

(** ** The writer

    Abstract writer state: the bytes in the storage and the pending bits. *)

Definition flush (acc : list bool) : list Z :=
  match acc with [] => [] | _ => [byte_of_bits acc] end.

Definition step (w : list Z * list bool) (k : token) : list Z * list bool :=
  let '(s, acc) := w in
  match k with
  | TBit b => if (length acc =? 7)%nat then (s ++ [byte_of_bits (acc ++ [b])], [])
              else (s, acc ++ [b])
  | TByte z => (s ++ flush acc ++ [z], [])
  end.

Definition steps : list Z * list bool → list token → list Z * list bool := foldl step.

(** The buffer [b], used for writing only, holds [w]. *)
Record writer (b : t) (w : list Z * list bool) : Prop := {
  writer_storage : storage b = w.1;
  writer_wpos : wpos b = length w.1;
  writer_bitpos : bitpos b = (8 - length w.2)%nat;
  writer_acc : (length w.2 < 8)%nat;
  writer_cur : curbitval b = byte_of_bits w.2;
}.

Lemma writer_new : writer new ([], []).
Proof. split; simpl; [done..|lia|done]. Qed.

Lemma steps_app w k1 k2 : steps w (k1 ++ k2) = steps (steps w k1) k2.
Proof. apply foldl_app. Qed.

(** Each token makes the storage grow by at most two bytes. *)
Lemma step_size w k :
  (length w.2 < 8 → length (step w k).2 < 8)%nat ∧
  (length (step w k).1 ≤ length w.1 + 2)%nat.
Proof.
  destruct w as [s acc], k as [b|z]; simpl.
  - destruct (Nat.eqb_spec (length acc) 7); simpl; rewrite ?length_app; simpl; lia.
  - rewrite !length_app. destruct acc; simpl; lia.
Qed.

Lemma steps_size w ks :
  (length w.2 < 8)%nat →
  (length (steps w ks).2 < 8)%nat ∧ (length (steps w ks).1 ≤ length w.1 + 2 * length ks)%nat.
Proof.
  revert w. induction ks as [|k ks IH]; intros w Hw; simpl; [lia|].
  destruct (step_size w k) as [H1 H2]. destruct (IH (step w k) (H1 Hw)). split; [done|lia].
Qed.

Lemma append_writer b s acc src :
  writer b (s, acc) → src ≠ [] → Z.of_nat (length s) < MAX_SIZE →
  append src b = Ok (tt, mk (rpos b) (wpos b + length src) (bitpos b) (curbitval b)
                              (s ++ src)).
Proof.
  intros [Hs Hw Hb Ha Hc] Hsrc Hlim. simpl in *. unfold append, size.
  rewrite Hs, (proj2 (Z.ltb_lt _ _)), Hw by done.
  destruct src as [|z src]; [done|]. case_decide; [done|]. simpl negb. cbv iota.
  rewrite (proj2 (Nat.ltb_lt _ _)) by (simpl; lia). do 3 f_equal.
  unfold overwrite, vec_resize.
  rewrite (take_ge s) by lia. rewrite take_app_length.
  rewrite drop_ge, app_nil_r; [done|]. rewrite length_app, length_replicate. lia.
Qed.

Lemma FlushBits_writer b s acc :
  writer b (s, acc) → Z.of_nat (length s) < MAX_SIZE →
  ∃ b', FlushBits b = Ok (tt, b') ∧ writer b' (s ++ flush acc, []) ∧ rpos b' = rpos b.
Proof.
  intros HW Hlim. pose proof HW as [Hs Hw Hb Ha Hc]. simpl in *. unfold FlushBits.
  destruct (Nat.eqb_spec (bitpos b) 8) as [H8|H8].
  - destruct acc; [|simpl in *; lia]. simpl. rewrite app_nil_r. by exists b.
  - destruct acc as [|a acc]; [simpl in *; lia|].
    rewrite (append_writer b s (a :: acc)) by done. simpl.
    eexists. split; [reflexivity|]. rewrite Hc. split; [split; simpl|done]; try done; try lia.
    rewrite length_app. simpl. lia.
Qed.

(** Writing a [k]-byte integer emits its bytes. *)
Lemma append_val_writer k v b s acc :
  writer b (s, acc) → (0 < k)%nat → Z.of_nat (length s) + 1 < MAX_SIZE →
  ∃ b', append_val k v b = Ok (tt, b') ∧ writer b' (steps (s, acc) (bytes (le_bytes k v))) ∧
    rpos b' = rpos b.
Proof.
  intros HW Hk Hlim. unfold append_val.
  destruct (FlushBits_writer b s acc HW) as (b1 & E1 & HW1 & Hr1); [lia|].
  rewrite (bind_Ok _ _ _ _ _ E1).
  rewrite (append_writer b1 (s ++ flush acc) []); [|done| |].
  - eexists. split; [reflexivity|]. destruct HW1 as [H1 H2 H3 H4 H5]. simpl in *.
    assert (steps (s, acc) (bytes (le_bytes k v)) = (s ++ flush acc ++ le_bytes k v, [])) as ->.
    { destruct k as [|k]; [lia|]. simpl. generalize (le_bytes k (v / 256)) as l.
      generalize (v mod 256) as z, (flush acc) as f. clear. intros z f l. revert s f z.
      induction l as [|y l IH]; intros s f z; [done|]. simpl.
      specialize (IH s (f ++ [z]) y). rewrite <- !(assoc_L (++)) in IH. simpl in IH.
      rewrite <- !(assoc_L (++)). simpl. exact IH. }
    split; [|done]. split; simpl; try done.
    + by rewrite (assoc_L (++)).
    + rewrite H2, !length_app. lia.
  - intros E. apply (f_equal length) in E. rewrite length_le_bytes in E. simpl in E. lia.
  - rewrite length_app. destruct acc; simpl; lia.
Qed.

Lemma WriteBit_writer z b s acc :
  writer b (s, acc) → Z.of_nat (length s) < MAX_SIZE →
  ∃ b', WriteBit z b = Ok (z2b z, b') ∧ writer b' (step (s, acc) (TBit (z2b z))) ∧
    rpos b' = rpos b.
Proof.
  intros HW Hlim. pose proof HW as [Hs Hw Hb Ha Hc]. simpl in *. unfold WriteBit.
  destruct (bitpos b) as [|bp] eqn:Ebp; [lia|].
  set (cur := if z2b z then _ else _).
  assert (cur = byte_of_bits (acc ++ [z2b z])) as Ecur.
  { unfold cur. rewrite byte_of_bits_snoc by done. rewrite Hc.
    destruct (z2b z); [|by rewrite Z.lor_0_r]. rewrite Z.shiftl_1_l.
    replace (7 - Z.of_nat (length acc)) with (Z.of_nat bp) by lia.
    replace (Z.of_nat bp) with (7 - Z.of_nat (length acc)) by lia.
    pose proof (byte_of_bits_snoc acc true Ha) as E. simpl in E. rewrite <- E.
    unfold u8. apply Z.mod_small, byte_of_bits_bound. rewrite length_app. simpl. lia. }
  clearbody cur. subst cur.
  destruct (Nat.eqb_spec bp 0) as [->|Hbp].
  - rewrite (proj2 (Nat.eqb_eq (length acc) 7)) by lia.
    set (bb := mk _ _ _ _ _). unfold append, size. simpl. rewrite Hs.
    rewrite (proj2 (Z.ltb_lt _ _)) by done. simpl.
    rewrite (proj2 (Nat.ltb_lt _ _)) by lia.
    eexists. split; [reflexivity|].
    split; [split; simpl|done]; rewrite ?length_app; simpl; try done; try lia.
    unfold overwrite, vec_resize. rewrite Hw, (take_ge s) by lia.
    rewrite take_app_length, drop_ge, app_nil_r; [done|].
    rewrite length_app, length_replicate. simpl. lia.
  - rewrite (proj2 (Nat.eqb_neq (length acc) 7)) by lia.
    eexists. split; [reflexivity|]. split; [split; simpl|done]; try done;
      rewrite length_app; simpl; lia.
Qed.

Lemma WriteBits_writer n v b s acc :
  writer b (s, acc) → Z.of_nat (length s) + 2 * Z.of_nat n < MAX_SIZE →
  ∃ b', WriteBits v n b = Ok (tt, b') ∧ writer b' (steps (s, acc) (bits (bits_of n v))) ∧
    rpos b' = rpos b.
Proof.
  revert b s acc. induction n as [|n IH]; intros b s acc HW Hlim.
  { exists b. split; [done|]. split; [exact HW|done]. }
  simpl. destruct (WriteBit_writer (Z.land (Z.shiftr v (Z.of_nat n)) 1) b s acc HW)
    as (b1 & E1 & HW1 & Hr1); [lia|].
  rewrite (bind_Ok _ _ _ _ _ E1). rewrite shiftr_land_1, z2b_b2z in HW1 by lia.
  destruct (step (s, acc) (TBit (Z.testbit v (Z.of_nat n)))) as [s1 acc1] eqn:Es.
  pose proof (step_size (s, acc) (TBit (Z.testbit v (Z.of_nat n)))) as [_ Hsz].
  rewrite Es in Hsz. simpl in Hsz.
  destruct (IH b1 s1 acc1 HW1) as (b2 & E2 & HW2 & Hr2); [lia|].
  exists b2. split; [done|]. split; [|congruence].
  rewrite <- Es in HW2. exact HW2.
Qed.

(** ** The layout of a finished stream *)

(** The bytes of a stream whose current bit byte already has the bits [acc]. *)
Fixpoint layout (acc : list bool) (ks : list token) : list Z :=
  match ks with
  | [] => flush acc
  | TBit b :: ks => if (length acc =? 7)%nat then byte_of_bits (acc ++ [b]) :: layout [] ks
                    else layout (acc ++ [b]) ks
  | TByte z :: ks => flush acc ++ z :: layout [] ks
  end.

(** What the writer leaves, pending bits flushed, is the layout of the stream. *)
Lemma steps_layout s acc ks :
  (steps (s, acc) ks).1 ++ flush (steps (s, acc) ks).2 = s ++ layout acc ks.
Proof.
  revert s acc. induction ks as [|[b|z] ks IH]; intros s acc; simpl; [done|..].
  - destruct (length acc =? 7)%nat; unfold steps in IH; rewrite IH; [|done].
    by rewrite <- (assoc_L (++)).
  - unfold steps in IH. rewrite IH, <- !(assoc_L (++)). done.
Qed.

(** The reader does not realign its bit cursor when it reads bytes, so it only
    follows streams of the form bytes, then bits, then bytes. *)
Definition is_TByte (k : token) : bool := match k with TByte _ => true | _ => false end.
Definition all_bytes : list token → bool := forallb is_TByte.
Fixpoint bits_then_bytes (ks : list token) : bool :=
  match ks with TBit _ :: ks => bits_then_bytes ks | _ => all_bytes ks end.
Fixpoint phased (ks : list token) : bool :=
  match ks with TByte _ :: ks => phased ks | _ => bits_then_bytes ks end.

Lemma all_bytes_bits_then_bytes ks : all_bytes ks = true → bits_then_bytes ks = true.
Proof. by destruct ks as [|[]]. Qed.
Lemma bits_then_bytes_phased ks : bits_then_bytes ks = true → phased ks = true.
Proof.
  destruct ks as [|[b|z] ks]; simpl; [done..|]. intros H.
  induction ks as [|[] ks IH]; simpl in *; [done|done|auto].
Qed.
Lemma bits_then_bytes_bytes l ks :
  all_bytes ks = true → bits_then_bytes (bits l ++ ks) = true.
Proof. intros. induction l; simpl; [by apply all_bytes_bits_then_bytes|done]. Qed.

Lemma flush_cons b l : flush (b :: l) = [byte_of_bits (b :: l)].
Proof. done. Qed.

Lemma flush_nonempty l : l ≠ [] → flush l = [byte_of_bits l].
Proof. by destruct l. Qed.

(** The first byte of a layout starts with the bits [acc]. *)
Lemma layout_head acc ks :
  (0 < length acc ≤ 7)%nat →
  ∃ c rest, layout acc ks = c :: rest ∧
    ∀ i, (i < length acc)%nat → Z.testbit c (7 - Z.of_nat i) = default false (acc !! i).
Proof.
  revert acc. induction ks as [|[b|z] ks IH]; intros acc Hacc; simpl.
  - rewrite flush_nonempty by (by destruct acc; simpl in *; [lia|]).
    eexists _, _. split; [done|]. intros i Hi. apply testbit_byte_of_bits; lia.
  - destruct (Nat.eqb_spec (length acc) 7) as [H7|H7].
    + eexists _, _. split; [done|]. intros i Hi.
      rewrite testbit_byte_of_bits by (rewrite ?length_app; simpl; lia).
      by rewrite lookup_app_l by lia.
    + destruct (IH (acc ++ [b])) as (c & rest & E & Hbits);
        [rewrite length_app; simpl; lia|].
      exists c, rest. split; [done|]. intros i Hi.
      rewrite Hbits by (rewrite length_app; simpl; lia). by rewrite lookup_app_l by lia.
  - rewrite flush_nonempty by (by destruct acc; simpl in *; [lia|]).
    eexists _, _. split; [done|]. intros i Hi. apply testbit_byte_of_bits; lia.
Qed.

(** The byte that the next bit is read from holds that bit at its place. *)
Lemma layout_next_bit acc x ks :
  (length acc ≤ 7)%nat →
  ∃ c rest, layout acc (TBit x :: ks) = c :: rest ∧
    Z.testbit c (7 - Z.of_nat (length acc)) = x ∧
    if (length acc =? 7)%nat then rest = layout [] ks else c :: rest = layout (acc ++ [x]) ks.
Proof.
  intros Hacc. simpl. destruct (Nat.eqb_spec (length acc) 7) as [H7|H7].
  - eexists _, _. split; [done|]. split; [|done].
    rewrite testbit_byte_of_bits by (rewrite ?length_app; simpl; lia).
    by rewrite lookup_app_r, Nat.sub_diag by lia.
  - destruct (layout_head (acc ++ [x]) ks) as (c & rest & E & Hbits);
      [rewrite length_app; simpl; lia|].
    exists c, rest. split; [done|]. split; [|done].
    rewrite Hbits by (rewrite length_app; simpl; lia).
    by rewrite lookup_app_r, Nat.sub_diag by lia.
Qed.

(** ** The reader

    [reads b ks]: the stream [ks] is what the read methods find in [b]. *)
Inductive reads (b : t) (ks : list token) : Prop :=
| reads_bytes :
    all_bytes ks = true → drop (rpos b) (storage b) = layout [] ks → reads b ks
| reads_aligned :
    (bitpos b = 7 ∨ bitpos b = 8)%nat → phased ks = true →
    drop (rpos b) (storage b) = layout [] ks → reads b ks
| reads_mid acc :
    (0 < length acc ≤ 7)%nat → bitpos b = (length acc - 1)%nat →
    bits_then_bytes ks = true →
    curbitval b :: drop (rpos b) (storage b) = layout acc ks → reads b ks.

Lemma reads_received payload ks :
  phased ks = true → payload = layout [] ks → reads (received payload) ks.
Proof. intros Hp ->. apply reads_aligned; auto. Qed.

Lemma drop_S_tail {A} n (l : list A) x r : drop n l = x :: r → drop (S n) l = r.
Proof. intros H. rewrite <- Nat.add_1_r, <- drop_drop, H. done. Qed.

Lemma reads_byte b z ks :
  reads b (TByte z :: ks) →
  ∃ rest, drop (rpos b) (storage b) = z :: rest ∧ reads (set_rpos (S (rpos b)) b) ks.
Proof.
  intros [Hb Hd | Hp Hb Hd | acc Ha Hp Hb Hd]; simpl in *.
  - eexists. split; [done|]. apply reads_bytes; [done|]. by eapply drop_S_tail.
  - eexists. split; [done|]. apply reads_aligned; [done..|]. by eapply drop_S_tail.
  - rewrite flush_nonempty in Hd by (by destruct acc; simpl in *; [lia|]).
    simpl in Hd. injection Hd as Hc Hd. rewrite Hd. eexists. split; [done|].
    apply reads_bytes; [done|]. simpl. by eapply drop_S_tail.
Qed.

Lemma reads_take b l ks :
  reads b (bytes l ++ ks) →
  (rpos b + length l ≤ size b ∨ l = [])%nat ∧
  take (length l) (drop (rpos b) (storage b)) = l ∧
  reads (set_rpos (rpos b + length l) b) ks.
Proof.
  revert b. induction l as [|z l IH]; intros b H; simpl in *.
  { split; [by right|]. rewrite Nat.add_0_r. split; [by rewrite take_0|]. by destruct b. }
  destruct (reads_byte _ _ _ H) as (rest & E & H').
  destruct (IH _ H') as (Hs & Ht & Hr). simpl in *.
  assert (rpos b < length (storage b))%nat as Hlt.
  { destruct (decide (rpos b < length (storage b))%nat); [done|].
    rewrite drop_ge in E by lia. done. }
  split; [left; unfold size in *; destruct Hs as [Hs|Hs]; [|subst l]; simpl in *; lia|].
  rewrite E. rewrite (drop_S_tail _ _ _ _ E) in Ht. simpl. rewrite Ht. split; [done|].
  by rewrite <- Nat.add_succ_comm.
Qed.

Lemma read_reads b k v ks :
  (0 < k)%nat → reads b (bytes (le_bytes k v) ++ ks) →
  ∃ b', read k b = Ok (v mod 2 ^ (8 * Z.of_nat k), b') ∧ reads b' ks.
Proof.
  intros Hk H. destruct (reads_take _ _ _ H) as (Hs & Ht & Hr).
  rewrite length_le_bytes in *. unfold read, read_at.
  destruct Hs as [Hs|Hs]; [|by destruct k; [lia|]].
  rewrite (proj2 (Nat.ltb_ge _ _)) by done. simpl. rewrite Ht, le_val_le_bytes.
  eexists. by split.
Qed.

Lemma read_one b z ks :
  reads b (TByte z :: ks) →
  read 1 b = Ok (z, set_rpos (S (rpos b)) b) ∧ reads (set_rpos (S (rpos b)) b) ks.
Proof.
  intros H. destruct (reads_byte _ _ _ H) as (rest & E & Hr). split; [|done].
  assert (rpos b < length (storage b))%nat as Hlt.
  { destruct (decide (rpos b < length (storage b))%nat); [done|].
    rewrite drop_ge in E by lia. done. }
  unfold read, read_at, size. rewrite (proj2 (Nat.ltb_ge _ _)) by lia.
  rewrite E. simpl. by rewrite Z.add_0_r, Nat.add_1_r.
Qed.

Lemma ReadBit_reads b x ks :
  reads b (TBit x :: ks) → ∃ b', ReadBit b = Ok (x, b') ∧ reads b' ks.
Proof.
  intros [Hb Hd | Hp Hb Hd | acc Ha Hp Hb Hd]; [done|..].
  - destruct (layout_next_bit [] x ks) as (c & rest & E & Hx & Hr); [simpl; lia|].
    unfold ReadBit. rewrite (proj2 (Nat.ltb_lt _ _)) by lia.
    set (b0 := mk _ _ _ _ _).
    assert (read 1 b0 = Ok (c, set_rpos (S (rpos b)) b0)) as ->.
    { rewrite E in Hd. unfold read, read_at, size, b0. simpl.
      rewrite (proj2 (Nat.ltb_ge _ _)).
      2:{ destruct (decide (rpos b < length (storage b))%nat); [lia|].
          rewrite drop_ge in Hd by lia. done. }
      simpl. rewrite Hd. simpl. by rewrite Z.add_0_r, Nat.add_1_r. }
    simpl. rewrite shiftr_land_1, z2b_b2z by lia. change (Z.of_nat 0) with (Z.of_nat (@length bool [])). rewrite Hx.
    eexists. split; [done|]. apply (reads_mid _ _ [x]); simpl; try done; [lia|].
    simpl in Hr. rewrite <- Hr. f_equal. eapply drop_S_tail. by rewrite Hd.
  - destruct (layout_next_bit acc x ks) as (c & rest & E & Hx & Hr); [lia|].
    rewrite E in Hd. injection Hd as Hc Hd. unfold ReadBit.
    rewrite (proj2 (Nat.ltb_ge _ _)) by lia. simpl.
    rewrite shiftr_land_1, z2b_b2z by lia.
    replace (Z.of_nat (S (bitpos b))) with (Z.of_nat (length acc)) by lia.
    rewrite Hc, Hx. eexists. split; [done|].
    destruct (Nat.eqb_spec (length acc) 7) as [H7|H7].
    + apply reads_aligned; simpl; [lia|by apply bits_then_bytes_phased|congruence].
    + apply (reads_mid _ _ (acc ++ [x])); simpl;
        [rewrite length_app; simpl; lia|rewrite length_app; simpl; lia|done|].
      rewrite Hd. exact Hr.
Qed.

Lemma ReadBits_reads b n v ks :
  (n ≤ 32)%nat → reads b (bits (bits_of n v) ++ ks) →
  ∃ b', ReadBits n b = Ok (v mod 2 ^ Z.of_nat n, b') ∧ reads b' ks.
Proof.
  intros Hn. unfold ReadBits.
  cut (∀ value, 0 ≤ value < 2 ^ 32 → reads b (bits (bits_of n v) ++ ks) →
    ∃ b', ReadBits_loop n value b = Ok (Z.lor value (v mod 2 ^ Z.of_nat n), b') ∧ reads b' ks).
  { intros H Hr. destruct (H 0 ltac:(lia) Hr) as (b' & E & Hr'). exists b'.
    by rewrite Z.lor_0_l in E. }
  revert b. induction n as [|n IH]; intros b value Hv Hr.
  { exists b. simpl. by rewrite Z.mod_1_r, Z.lor_0_r. }
  simpl in Hr. destruct (ReadBit_reads _ _ _ Hr) as (b1 & E1 & Hr1).
  simpl. rewrite (bind_Ok _ _ _ _ _ E1).
  set (value' := if Z.testbit v _ then _ else _).
  assert (value' = Z.lor value (if Z.testbit v (Z.of_nat n) then 2 ^ Z.of_nat n else 0)) as Ev.
  { unfold value'. destruct (Z.testbit v (Z.of_nat n)); [|by rewrite Z.lor_0_r].
    rewrite Z.shiftl_1_l. unfold u32. apply Z.bits_inj'. intros i Hi.
    autorewrite with bits. destruct (Z.ltb_spec i 32); [done|]. simpl.
    rewrite (testbit_small value 32) by lia. simpl. symmetry. apply Z.eqb_neq. lia. }
  destruct (IH ltac:(lia) b1 value') as (b2 & E2 & Hr2); [|done|].
  { rewrite Ev. destruct (Z.testbit v _); [|by rewrite Z.lor_0_r].
    apply lor_bound; [done| |lia]. split; [apply Z.pow_nonneg; lia|].
    apply Z.pow_lt_mono_r; lia. }
  exists b2. split; [|done]. rewrite E2, Ev. do 2 f_equal.
  rewrite <- Z.lor_assoc. f_equal. apply Z.bits_inj'. intros i Hi.
  replace (Z.of_nat (S n)) with (Z.of_nat n + 1) by lia. autorewrite with bits.
  destruct (Z.testbit v (Z.of_nat n)) eqn:Et; autorewrite with bits;
    destruct (Z.ltb_spec i (Z.of_nat n)), (Z.ltb_spec i (Z.of_nat n + 1)),
      (Z.eqb_spec i (Z.of_nat n)); simpl; try lia; try done; subst;
    rewrite ?Et; try done.
  all: replace i with (Z.of_nat n) by lia; by rewrite Et.
Qed.

End Stream.

(** * Packed GUIDs *)

Module PackGUID.
Import ByteBuffer.

Fixpoint mask_of (i : Z) (bs : list Z) : Z :=
  match bs with
  | [] => 0
  | b :: bs => Z.lor (if z2b b then 2 ^ i else 0) (mask_of (i + 1) bs)
  end.

Definition nonzero (bs : list Z) : list Z := List.filter z2b bs.

Lemma testbit_mask_of i bs j :
  0 ≤ i → 0 ≤ j →
  Z.testbit (mask_of i bs) j =
    (i <=? j) && default false (z2b <$> bs !! Z.to_nat (j - i)).
Proof.
  revert i. induction bs as [|b bs IH]; intros i Hi Hj; simpl.
  { rewrite Z.testbit_0_l. by rewrite andb_false_r. }
  rewrite Z.lor_spec, IH by lia.
  assert (Z.testbit (if z2b b then 2 ^ i else 0) j = z2b b && (j =? i)) as ->.
  { destruct (z2b b); [by rewrite testbit_pow2 by lia|by rewrite Z.testbit_0_l]. }
  destruct (Z.leb_spec i j), (Z.leb_spec (i + 1) j), (Z.eqb_spec j i); try lia; simpl;
    rewrite ?andb_false_r, ?andb_true_r, ?orb_false_r; simpl; try done.
  - replace (Z.to_nat (j - i)) with (S (Z.to_nat (j - (i + 1)))) by lia. done.
  - subst. by rewrite Z.sub_diag.
Qed.

Lemma mask_of_zero i n : mask_of i (le_bytes n 0) = 0.
Proof. revert i. induction n; intros i; simpl; [done|]. by rewrite IHn. Qed.
Lemma nonzero_zero n : nonzero (le_bytes n 0) = [].
Proof. induction n; simpl; [done|]. exact IHn. Qed.

Lemma packGUID_loop_spec n i mask bytes guid :
  (i + n = 8)%nat → 0 ≤ guid < 2 ^ (8 * Z.of_nat n) →
  packGUID_loop n i mask bytes guid =
    (Z.lor mask (mask_of (Z.of_nat i) (le_bytes n guid)), bytes ++ nonzero (le_bytes n guid)).
Proof.
  revert i mask bytes guid. induction n as [|n IH]; intros i mask bytes guid Hi Hg; simpl.
  { by rewrite Z.lor_0_r, app_nil_r. }
  destruct (Z.eqb_spec guid 0) as [->|Hne].
  { change (0 mod 256) with 0. change (0 / 256) with 0. simpl.
    rewrite mask_of_zero, Z.lor_0_r. fold (nonzero (le_bytes n 0)).
    by rewrite nonzero_zero, app_nil_r. }
  assert (Z.land guid 255 = guid mod 256) as -> by exact (Z.land_ones guid 8 ltac:(lia)).
  pose proof (Z.mod_pos_bound guid 256 ltac:(lia)) as Hb.
  assert (0 ≤ Z.shiftr guid 8 < 2 ^ (8 * Z.of_nat n)) as Hs.
  { rewrite Z.shiftr_div_pow2 by lia. change (2 ^ 8) with 256.
    replace (8 * Z.of_nat (S n)) with (8 * Z.of_nat n + 8) in Hg by lia.
    rewrite Z.pow_add_r in Hg by lia. change (2 ^ 8) with 256 in Hg.
    split; [apply Z.div_pos; lia|apply Z.div_lt_upper_bound; lia]. }
  replace (Z.of_nat i + 1) with (Z.of_nat (S i)) by lia.
  destruct (z2b (guid mod 256)) eqn:Ez; rewrite IH by (lia || done);
    rewrite Z.shiftr_div_pow2 by lia; change (2 ^ 8) with 256; fold (nonzero (le_bytes n (guid / 256))).
  - unfold u8. rewrite (Z.mod_small (guid mod 256)) by (change (2 ^ 8) with 256; lia).
    rewrite Z.shiftl_1_l, (Z.mod_small (2 ^ Z.of_nat i)).
    2:{ split; [apply Z.pow_nonneg; lia|apply Z.pow_lt_mono_r; lia]. }
    by rewrite Z.lor_assoc, <- (assoc_L (++)).
  - by rewrite Z.lor_0_l.
Qed.

Lemma packGUID_spec guid :
  0 ≤ guid < 2 ^ 64 →
  packGUID guid = mask_of 0 (le_bytes 8 guid) :: nonzero (le_bytes 8 guid).
Proof. intros H. unfold packGUID. by rewrite packGUID_loop_spec. Qed.

(** Shifting a byte into place is adding its value at that weight. *)
Lemma lor_shiftl_add a b k :
  0 ≤ a < 2 ^ k → 0 ≤ k → Z.lor a (Z.shiftl b k) = a + b * 2 ^ k.
Proof.
  intros Ha Hk. rewrite Z.shiftl_mul_pow2 by done.
  rewrite Z.add_nocarry_lxor.
  2:{ apply Z.bits_inj'. intros n Hn. rewrite Z.land_spec, Z.mul_pow2_bits, Z.testbit_0_l by lia.
      destruct (Z.ltb_spec n k).
      - by rewrite (Z.testbit_neg_r b), andb_false_r by lia.
      - by rewrite (testbit_small a k). }
  apply Z.bits_inj'. intros n Hn. rewrite Z.lor_spec, Z.lxor_spec, Z.mul_pow2_bits by lia.
  destruct (Z.ltb_spec n k).
  - by rewrite (Z.testbit_neg_r b), orb_false_r, xorb_false_r by lia.
  - by rewrite (testbit_small a k) by lia.
Qed.

Lemma readPackGUID_loop_spec n mark guid b bs rest :
  (n ≤ 8)%nat → length bs = n → Forall is_byte bs →
  (∀ j, (j < n)%nat →
     Z.testbit mark (Z.of_nat (8 - n + j)) = default false (z2b <$> bs !! j)) →
  0 ≤ guid < 2 ^ (8 * Z.of_nat (8 - n)) →
  drop (rpos b) (storage b) = nonzero bs ++ rest →
  ∃ b', readPackGUID_loop n mark guid b =
      Ok (guid + le_val bs * 2 ^ (8 * Z.of_nat (8 - n)), b') ∧
    drop (rpos b') (storage b') = rest.
Proof.
  revert mark guid b bs. induction n as [|n IH]; intros mark guid b bs Hn Hl Hbs Hm Hg Hd.
  { destruct bs; [|done]. exists b. simpl. split; [|done]. do 2 f_equal. lia. }
  destruct bs as [|y bs]; [done|]. injection Hl as Hl.
  inversion_clear Hbs as [|? ? Hy Hbs'].
  cbn [readPackGUID_loop].
  assert (z2b (Z.land mark (u8 (Z.shiftl 1 (Z.of_nat (8 - S n))))) = z2b y) as ->.
  { specialize (Hm 0%nat ltac:(lia)). simpl in Hm. rewrite Nat.add_0_r in Hm. rewrite <- Hm.
    rewrite Z.shiftl_1_l. unfold u8. rewrite Z.mod_small.
    2:{ split; [apply Z.pow_nonneg; lia|apply Z.pow_lt_mono_r; lia]. }
    set (k := Z.of_nat _). assert (0 ≤ k) by lia.
    destruct (Z.testbit mark k) eqn:E.
    - apply negb_true_iff, Z.eqb_neq. intros H0. apply (f_equal (λ z, Z.testbit z k)) in H0.
      rewrite Z.land_spec, testbit_pow2, Z.eqb_refl, E, Z.testbit_0_l in H0 by lia. done.
    - apply negb_false_iff, Z.eqb_eq. apply Z.bits_inj'. intros i Hi.
      rewrite Z.land_spec, testbit_pow2, Z.testbit_0_l by lia.
      destruct (Z.eqb_spec i k) as [->|]; [by rewrite E|by rewrite andb_false_r]. }
  assert (∀ j, (j < n)%nat →
    Z.testbit mark (Z.of_nat (8 - n + j)) = default false (z2b <$> bs !! j)) as Hm'.
  { intros j Hj. specialize (Hm (S j) ltac:(lia)). simpl in Hm.
    by replace (8 - n + j)%nat with (8 - S n + S j)%nat by lia. }
  unfold is_byte in Hy. set (e := 8 * Z.of_nat (8 - S n)).
  assert (8 * Z.of_nat (8 - n) = e + 8) as He by lia.
  assert (2 ^ (8 * Z.of_nat (8 - n)) = 2 ^ e * 256) as Hp by (rewrite He, Z.pow_add_r by lia; done).
  assert (0 < 2 ^ e) by (apply Z.pow_pos_nonneg; lia).
  simpl in Hd. destruct (z2b y) eqn:Ey.
  - simpl in Hd.
    assert (rpos b < length (storage b))%nat as Hlt.
    { destruct (decide (rpos b < length (storage b))%nat); [done|].
      rewrite drop_ge in Hd by lia. done. }
    rewrite (proj2 (Nat.ltb_ge _ _)) by (unfold size; lia).
    assert (read 1 b = Ok (y, set_rpos (S (rpos b)) b)) as E.
    { unfold read, read_at, size. rewrite (proj2 (Nat.ltb_ge _ _)) by lia.
      simpl. rewrite Hd. simpl. by rewrite Z.add_0_r, Nat.add_1_r. }
    change (mbind ?f (read 1 b)) with (result_bind _ _ f (read 1 b)). rewrite E. simpl.
    unfold u64. replace (Z.of_nat (7 - n) * 8) with e by lia.
    rewrite (Z.mod_small (Z.shiftl y e)).
    2:{ rewrite Z.shiftl_mul_pow2 by lia. split; [apply Z.mul_nonneg_nonneg; lia|].
        apply Z.lt_le_trans with (2 ^ (e + 8)); [rewrite Z.pow_add_r by lia; nia|].
        apply Z.pow_le_mono_r; lia. }
    rewrite lor_shiftl_add by (fold e in Hg; lia).
    edestruct (IH mark (guid + y * 2 ^ e) (set_rpos (S (rpos b)) b) bs) as (b' & E' & Hr);
      [lia|done|done|done| | |].
    + rewrite Hp. fold e in Hg. nia.
    + simpl. eapply Stream.drop_S_tail. exact Hd.
    + exists b'. split; [|exact Hr]. rewrite E'. do 2 f_equal. rewrite Hp. simpl le_val. lia.
  - assert (y = 0) as -> by (by apply negb_false_iff, Z.eqb_eq in Ey).
    edestruct (IH mark guid b bs) as (b' & E' & Hr); [lia|done|done|done| |done|].
    + rewrite Hp. fold e in Hg. nia.
    + exists b'. split; [|exact Hr]. rewrite E'. do 2 f_equal. rewrite Hp. simpl le_val. lia.
Qed.

Lemma mask_of_byte bs : (length bs ≤ 8)%nat → is_byte (mask_of 0 bs).
Proof.
  intros Hl. apply (bits_bound _ 8); [lia|]. intros i Hi.
  rewrite testbit_mask_of, (lookup_ge_None_2 bs) by lia. simpl. apply andb_false_r.
Qed.

End PackGUID.

(** ** Packets of whole bytes *)

Module Whole.
Import ByteBuffer Stream.

(** The buffer has no pending bits and holds [s]; the method adds [l]. *)
Definition holds (b : t) (s : list Z) : Prop := writer b (s, []).
Definition appends (m : M t unit) (l : list Z) : Prop := ∀ b s,
  holds b s → Z.of_nat (length s + length l) < MAX_SIZE → ∃ b', m b = Ok (tt, b') ∧ holds b' (s ++ l).

Lemma holds_new : holds new [].
Proof. apply writer_new. Qed.
Lemma holds_storage b s : holds b s → storage b = s.
Proof. by intros []. Qed.
Lemma holds_size b s : holds b s → size b = length s.
Proof. intros Hb. unfold size. by rewrite (holds_storage b s). Qed.

Lemma appends_ret : appends (mret tt) [].
Proof. intros b s Hb _. exists b. by rewrite app_nil_r. Qed.

Lemma appends_append src : src ≠ [] → appends (append src) src.
Proof.
  intros Hn b s Hb Hs. eexists. split; [apply (append_writer b s []); [done..|lia]|].
  destruct Hb as [H1 H2 H3 H4 H5]. split; simpl in *; try done. rewrite length_app. lia.
Qed.

Lemma appends_val k v : (0 < k)%nat → appends (append_val k v) (le_bytes k v).
Proof.
  intros Hk b s Hb Hs. pose proof (length_le_bytes k v).
  destruct (append_val_writer k v b s [] Hb Hk) as (b' & E & Hb' & _); [lia|].
  exists b'. split; [done|]. unfold holds in *. replace (s ++ le_bytes k v, []) with (steps (s, []) (bytes (le_bytes k v))); [done|].
  generalize (le_bytes k v) as l. clear. intros l. revert s. induction l as [|z l IH]; intros s; simpl; [by rewrite app_nil_r|].
  rewrite IH. by rewrite <- app_assoc.
Qed.

Lemma appends_seq m f l1 l2 : appends m l1 → appends (f tt) l2 → appends (m ≫= f) (l1 ++ l2).
Proof.
  intros H1 H2 b s Hb Hs. rewrite length_app in Hs.
  destruct (H1 b s Hb) as (b1 & E1 & Hb1); [lia|]. destruct (H2 b1 _ Hb1) as (b2 & E2 & Hb2); [rewrite length_app; lia|].
  exists b2. split; [by rewrite (bind_Ok _ _ _ _ _ E1)|]. by rewrite app_assoc.
Qed.

Lemma appends_when (c : bool) m l : appends m l → appends (when c do m) (if c then l else []).
Proof. intros Hm. destruct c; [done|apply appends_ret]. Qed.

Lemma appends_string v : appends (shl_string v) (v ++ [0]).
Proof.
  apply appends_seq; [|apply (appends_val 1 0); lia]. destruct v as [|x v]; [apply appends_ret|].
  by apply appends_append.
Qed.

Lemma appends_buffer o l : holds o l → appends (append_buffer o) l.
Proof.
  intros [H1 H2 _ _ _]. simpl in *. unfold append_buffer, size. rewrite H1, H2, Nat.ltb_irrefl, firstn_all.
  destruct l as [|x l]; [apply appends_ret|]. by apply appends_append.
Qed.

(** Running a method on a new buffer. *)
Lemma appends_new m l : appends m l → Z.of_nat (length l) < MAX_SIZE → ∃ b, m new = Ok (tt, b) ∧ holds b l.
Proof. intros Hm Hl. by apply (Hm new []); [apply holds_new|]. Qed.

End Whole.

Create HintDb whole.
#[export] Hint Resolve Whole.appends_ret Whole.appends_string : whole.
#[export] Hint Extern 1 (Whole.appends (ByteBuffer.shl_uint8 _) _) => apply (Whole.appends_val 1); lia : whole.
#[export] Hint Extern 1 (Whole.appends (ByteBuffer.shl_uint16 _) _) => apply (Whole.appends_val 2); lia : whole.
#[export] Hint Extern 1 (Whole.appends (ByteBuffer.shl_uint32 _) _) => apply (Whole.appends_val 4); lia : whole.
#[export] Hint Extern 1 (Whole.appends (ByteBuffer.shl_uint64 _) _) => apply (Whole.appends_val 8); lia : whole.
#[export] Hint Extern 1 (Whole.appends (ByteBuffer.shl_float _) _) => apply (Whole.appends_val 4); lia : whole.
#[export] Hint Extern 1 (Whole.appends (ByteBuffer.append _) _) =>
  apply Whole.appends_append; solve [assumption | done] : whole.

(** What a sequence of stream operations writes. *)
Ltac whole := repeat match goal with
  | |- Whole.appends (_ ≫= _) _ => apply Whole.appends_seq
  | |- Whole.appends (when _ do _) _ => apply Whole.appends_when
  | |- Whole.appends (if _ then _ else _) _ => case_match
  | |- Whole.appends _ _ => solve [eauto with whole]
  end.
