(* ===== verification/ByteBufferProps.v ===== *)
(** * ByteBufferProps: what the packet buffer promises to its users.

    Round trips of typed fields, strings and packed GUIDs, the effect of
    [PutBits], the bounds safety of every read method, and two places where the
    write and read methods do not match. *)
From S2P Require Import Prelude Bits ByteBuffer ByteBufferStream.
Open Scope Z_scope.
Import ByteBuffer Stream PackGUID.

(** ** Records of typed fields *)

(** A field is written with [WriteBits] or with one of the [operator<<]. *)
Inductive field : Type :=
| FBits (n : nat) (v : Z)
| FInt (k : nat) (v : Z).

Definition write_field (f : field) : M t unit :=
  match f with FBits n v => WriteBits v n | FInt k v => append_val k v end.
Definition read_field (f : field) : M t Z :=
  match f with FBits n _ => ReadBits n | FInt k _ => read k end.

Fixpoint write_fields (fs : list field) : M t unit :=
  match fs with [] => FlushBits | f :: fs => write_field f;; write_fields fs end.
Fixpoint read_fields (fs : list field) : M t (list Z) :=
  match fs with
  | [] => mret []
  | f :: fs => v ← read_field f; vs ← read_fields fs; mret (v :: vs)
  end.

(** The value a field carries: what fits its width. *)
Definition field_val (f : field) : Z :=
  match f with FBits n v => v mod 2 ^ Z.of_nat n | FInt k v => v mod 2 ^ (8 * Z.of_nat k) end.
Definition field_ok (f : field) : bool :=
  match f with FBits n _ => (n <=? 32)%nat | FInt k _ => (0 <? k)%nat && (k <=? 8)%nat end.

Definition field_tokens (f : field) : list token :=
  match f with FBits n v => bits (bits_of n v) | FInt k v => bytes (le_bytes k v) end.
Definition fields_tokens (fs : list field) : list token := fs ≫= field_tokens.

(** Integers, then bit fields, then integers. *)
Definition is_FInt (f : field) : bool := match f with FInt _ _ => true | _ => false end.
Fixpoint fbits_then_ints (fs : list field) : bool :=
  match fs with FBits _ _ :: fs => fbits_then_ints fs | _ => forallb is_FInt fs end.
Fixpoint fields_phased (fs : list field) : bool :=
  match fs with FInt _ _ :: fs => fields_phased fs | _ => fbits_then_ints fs end.

Lemma fields_tokens_cons f fs : fields_tokens (f :: fs) = field_tokens f ++ fields_tokens fs.
Proof. done. Qed.

Lemma all_bytes_bytes l : all_bytes (bytes l) = true.
Proof. by induction l. Qed.

Lemma fields_tokens_bytes fs : forallb is_FInt fs = true → all_bytes (fields_tokens fs) = true.
Proof.
  induction fs as [|[n v|k v] fs IH]; intros H; [done..|].
  rewrite fields_tokens_cons. unfold all_bytes. rewrite forallb_app.
  apply andb_true_iff. split; [apply all_bytes_bytes|by apply IH].
Qed.

Lemma phased_bytes_app l ks : phased ks = true → phased (bytes l ++ ks) = true.
Proof. intros. by induction l. Qed.

Lemma bits_then_bytes_bits_app l ks :
  bits_then_bytes ks = true → bits_then_bytes (bits l ++ ks) = true.
Proof. intros. by induction l. Qed.

Lemma fields_tokens_phased fs : fields_phased fs = true → phased (fields_tokens fs) = true.
Proof.
  assert (∀ fs, fbits_then_ints fs = true → bits_then_bytes (fields_tokens fs) = true) as Hb.
  { intros fs'. induction fs' as [|[n v|k v] fs' IH]; intros H; [done| |].
    - apply bits_then_bytes_bits_app. by apply IH.
    - apply all_bytes_bits_then_bytes. by apply fields_tokens_bytes. }
  induction fs as [|[n v|k v] fs IH]; intros H; [done| |].
  - apply bits_then_bytes_phased. by apply Hb.
  - apply phased_bytes_app. by apply IH.
Qed.

Lemma write_field_writer f b w :
  field_ok f = true → writer b w → Z.of_nat (length w.1) + 128 < MAX_SIZE →
  ∃ b', write_field f b = Ok (tt, b') ∧ writer b' (steps w (field_tokens f)).
Proof.
  intros Hf HW Hlim. destruct w as [s acc], f as [n v|k v]; simpl in *.
  - apply Nat.leb_le in Hf.
    destruct (WriteBits_writer n v b s acc HW) as (b' & ? & ? & ?); [lia|]. eauto.
  - apply andb_true_iff in Hf as [H0%Nat.ltb_lt H8%Nat.leb_le].
    destruct (append_val_writer k v b s acc HW) as (b' & ? & ? & ?); [lia..|]. eauto.
Qed.

Lemma field_tokens_length f : field_ok f = true → (length (field_tokens f) ≤ 32)%nat.
Proof.
  destruct f as [n v|k v]; simpl; unfold bits, bytes; rewrite length_fmap.
  - rewrite length_bits_of. by intros ?%Nat.leb_le.
  - rewrite length_le_bytes. intros [_ ?%Nat.leb_le]%andb_true_iff. lia.
Qed.

Lemma write_fields_writer fs b w :
  forallb field_ok fs = true → writer b w →
  Z.of_nat (length w.1) + 64 * Z.of_nat (length fs) + 128 < MAX_SIZE →
  ∃ b', write_fields fs b = Ok (tt, b') ∧
    storage b' = (steps w (fields_tokens fs)).1 ++ flush (steps w (fields_tokens fs)).2.
Proof.
  revert b w. induction fs as [|f fs IH]; intros b [s acc] Hok HW Hlim; cbn [forallb write_fields] in *.
  { destruct (FlushBits_writer b s acc HW) as (b' & E & HW' & _); [simpl in *; lia|].
    exists b'. split; [done|]. by destruct HW'. }
  apply andb_true_iff in Hok as [Hf Hfs].
  destruct (write_field_writer f b (s, acc) Hf HW) as (b1 & E1 & HW1); [cbn [length fst] in *; lia|].
  rewrite (bind_Ok _ _ _ _ _ E1), fields_tokens_cons, !steps_app.
  apply IH; [done|done|]. cbn [length fst] in *.
  destruct HW as [_ _ _ Ha _].
  destruct (steps_size (s, acc) (field_tokens f) Ha) as [_ Hs]. simpl in Hs.
  pose proof (field_tokens_length f Hf). lia.
Qed.

Lemma read_fields_reads fs b ks :
  forallb field_ok fs = true → reads b (fields_tokens fs ++ ks) →
  ∃ b', read_fields fs b = Ok (field_val <$> fs, b') ∧ reads b' ks.
Proof.
  revert b. induction fs as [|f fs IH]; intros b Hok Hr; [by exists b|].
  cbn [forallb read_fields] in *. rewrite fields_tokens_cons, <- (assoc_L (++)) in Hr.
  apply andb_true_iff in Hok as [Hf Hfs].
  assert (∃ b1, read_field f b = Ok (field_val f, b1) ∧ reads b1 (fields_tokens fs ++ ks))
    as (b1 & E1 & Hr1).
  { destruct f as [n v|k v]; simpl in *.
    - apply ReadBits_reads; [by apply Nat.leb_le|done].
    - apply andb_true_iff in Hf as [H0%Nat.ltb_lt _]. by apply read_reads. }
  rewrite (bind_Ok _ _ _ _ _ E1). destruct (IH b1 Hfs Hr1) as (b2 & E2 & Hr2).
  rewrite (bind_Ok _ _ _ _ _ E2). by exists b2.
Qed.

(** C24. Writing a record of typed fields (integers, then bit fields, then
    integers) to an empty packet and reading the same fields from the received
    packet gives back every field's value, truncated to the field's width. *)
Theorem fields_roundtrip fs :
  fields_phased fs = true → forallb field_ok fs = true →
  64 * Z.of_nat (length fs) + 128 < MAX_SIZE →
  ∃ b b', write_fields fs new = Ok (tt, b) ∧
    read_fields fs (received (storage b)) = Ok (field_val <$> fs, b').
Proof.
  intros Hp Hok Hlim.
  destruct (write_fields_writer fs new ([], []) Hok writer_new) as (b & E & Hs); [done|].
  rewrite steps_layout in Hs. simpl in Hs.
  destruct (read_fields_reads fs (received (storage b)) [] Hok) as (b' & E' & _).
  { rewrite app_nil_r. apply reads_received; [by apply fields_tokens_phased|done]. }
  eauto.
Qed.

Lemma fields_roundtrip_witness :
  ∃ b b', write_fields [FInt 4 3735928559; FBits 1 1; FBits 22 70000; FInt 1 255] new = Ok (tt, b) ∧
    read_fields [FInt 4 3735928559; FBits 1 1; FBits 22 70000; FInt 1 255] (received (storage b))
      = Ok ([3735928559; 1; 70000; 255], b').
Proof.
  exact (fields_roundtrip [FInt 4 3735928559; FBits 1 1; FBits 22 70000; FInt 1 255]
           eq_refl eq_refl eq_refl).
Defined.

(** ** Packed GUIDs *)

(** A 64-bit GUID written by [appendPackGUID] takes at most the nine bytes of
    its array, and [readPackGUID] gives it back and leaves the cursor behind it. *)
Theorem pack_guid_roundtrip guid rest :
  0 ≤ guid < 2 ^ 64 →
  (length (packGUID guid) ≤ 9)%nat ∧
  ∃ b', readPackGUID (received (packGUID guid ++ rest)) = Ok (guid, b') ∧
    drop (rpos b') (storage b') = rest.
Proof.
  intros Hg. rewrite packGUID_spec by done. set (bs := le_bytes 8 guid).
  assert (length bs = 8%nat) as Hl by apply length_le_bytes.
  split.
  { clearbody bs. cbn [length]. rewrite <- Hl. apply le_n_S, filter_length_le. }
  unfold readPackGUID. rewrite (proj2 (Nat.ltb_ge _ _)) by (unfold size; simpl; lia).
  set (b := received _).
  assert (read 1 b = Ok (mask_of 0 bs, set_rpos 1 b)) as E.
  { unfold read, read_at, size, b. simpl. by rewrite Z.add_0_r. }
  change (mbind ?f (read 1 b)) with (result_bind _ _ f (read 1 b)). rewrite E. cbn [result_bind].
  edestruct (readPackGUID_loop_spec 8 (mask_of 0 bs) 0 (set_rpos 1 b) bs rest)
    as (b' & E' & Hd); [lia|done|apply le_bytes_is_byte| |simpl; lia|done|].
  { intros j Hj. rewrite testbit_mask_of, (proj2 (Z.leb_le _ _)) by lia. simpl.
    by rewrite Z.sub_0_r, Nat2Z.id. }
  exists b'. rewrite E'. split; [|done]. do 2 f_equal.
  unfold bs. rewrite le_val_le_bytes, Z.mod_small by done. simpl. lia.
Qed.

Lemma pack_guid_roundtrip_witness :
  (length (packGUID 17379391145876455429) ≤ 9)%nat ∧
  ∃ b', readPackGUID (received (packGUID 17379391145876455429 ++ [7])) =
    Ok (17379391145876455429, b') ∧ drop (rpos b') (storage b') = [7].
Proof. apply (pack_guid_roundtrip 17379391145876455429 [7]). lia. Defined.

(** ** Bit-addressed patching *)

(** Bit [p] of a storage, counted the way [PutBits] counts them. *)
Definition bit_at (st : list Z) (p : nat) : bool :=
  default false ((λ x, Z.testbit x (7 - Z.of_nat (p mod 8))) <$> st !! (p / 8)%nat).

Lemma length_put_bit st p v : length (put_bit st p v) = length st.
Proof. apply length_alter. Qed.

Lemma bit_at_put_bit st p v q :
  (p < 8 * length st)%nat → bit_at (put_bit st p v) q = if decide (q = p) then v else bit_at st q.
Proof.
  intros Hp. unfold bit_at, put_bit. pose proof (Nat.mod_upper_bound q 8 ltac:(lia)).
  pose proof (Nat.mod_upper_bound p 8 ltac:(lia)).
  pose proof (Nat.div_mod_eq q 8). pose proof (Nat.div_mod_eq p 8).
  destruct (decide (p / 8 = q / 8)%nat) as [Eq|Ne].
  2:{ rewrite list_lookup_alter_ne by done. case_decide; [congruence|done]. }
  rewrite <- Eq, list_lookup_alter_eq.
  destruct (lookup_lt_is_Some_2 st (p / 8)) as [x Ex]; [lia|]. rewrite Ex. cbn [fmap option_fmap option_map default from_option].
  assert (q = p ↔ q mod 8 = p mod 8)%nat as Hqp by lia. clear -Hqp H H0.
  generalize dependent (q mod 8)%nat. generalize dependent (p mod 8)%nat.
  intros c Hc a Ha Hqp. unfold u8.
  rewrite testbit_mod_pow2, (proj2 (Z.ltb_lt _ _)) by lia. rewrite Z.shiftl_1_l.
  assert (Z.testbit (2 ^ (7 - Z.of_nat c)) (7 - Z.of_nat a) = bool_decide (q = p)) as Hb.
  { rewrite testbit_pow2 by lia. case_bool_decide; [apply Z.eqb_eq|apply Z.eqb_neq]; lia. }
  destruct v; rewrite ?Z.lor_spec, ?Z.land_spec, ?Z.lnot_spec, Hb by lia;
    case_bool_decide; rewrite ?decide_True, ?decide_False by done; simpl;
    rewrite ?orb_true_r, ?orb_false_r, ?andb_false_r, ?andb_true_r; done.
Qed.

Lemma bit_at_PutBits_loop n bitCount pos value st q :
  (n ≤ bitCount)%nat → (pos + bitCount ≤ 8 * length st)%nat →
  bit_at (PutBits_loop n bitCount pos value st) q =
    if decide (pos + bitCount - n ≤ q < pos + bitCount)%nat
    then Z.testbit value (Z.of_nat (pos + bitCount - 1 - q)) else bit_at st q.
Proof.
  revert st. induction n as [|n IH]; intros st Hn Hl; [case_decide; [lia|done]|].
  cbn [PutBits_loop]. rewrite IH by (rewrite ?length_put_bit; lia).
  rewrite bit_at_put_bit by lia. rewrite shiftr_land_1, z2b_b2z by lia.
  repeat case_decide; try lia; try done. do 2 f_equal. lia.
Qed.

Lemma length_PutBits_loop n bitCount pos value st :
  length (PutBits_loop n bitCount pos value st) = length st.
Proof. revert st. induction n; intros st; simpl; [done|]. by rewrite IHn, length_put_bit. Qed.

(** [PutBits pos value n] succeeds exactly when [n] is positive and the range
    lies in the storage; then bits [pos .. pos+n-1] of the storage are the [n] low
    bits of [value], most significant first, and every other bit, the size and the
    cursors are unchanged. *)
Theorem PutBits_spec pos value n b :
  match PutBits pos value n b with
  | Ok (_, b') =>
      (0 < n)%nat ∧ (pos + n ≤ 8 * size b)%nat ∧ size b' = size b ∧
      rpos b' = rpos b ∧ wpos b' = wpos b ∧ bitpos b' = bitpos b ∧ curbitval b' = curbitval b ∧
      ∀ q, bit_at (storage b') q =
        if decide (pos ≤ q < pos + n)%nat
        then Z.testbit value (Z.of_nat (pos + n - 1 - q)) else bit_at (storage b) q
  | Throw ByteBufferSourceException => n = 0%nat
  | Throw ByteBufferPositionException => (0 < n)%nat ∧ (8 * size b < pos + n)%nat
  | Throw _ => False
  end.
Proof.
  unfold PutBits. destruct (Nat.eqb_spec n 0) as [->|Hn]; [done|].
  destruct (Nat.ltb_spec (size b * 8) (pos + n)); [lia|]. simpl.
  repeat split; try lia; [apply length_PutBits_loop|]. unfold size in *.
  intros q. rewrite bit_at_PutBits_loop by lia. by replace (pos + n - n)%nat with pos by lia.
Qed.

(** ** Bounds safety of the read methods *)

(** A read method never moves the cursor backwards or past the end, never changes
    the storage, and throws nothing but the position exception. *)
Definition safe {A} (m : M t A) : Prop := ∀ b,
  (rpos b ≤ size b)%nat →
  match m b with
  | Ok (_, b') => (rpos b ≤ rpos b' ≤ size b')%nat ∧ storage b' = storage b
  | Throw e => e = ByteBufferPositionException
  end.

Create HintDb safe.

(** Closes the end of a run whose final cursor is known. *)
Ltac safe_done := hnf; split; [unfold size in *; cbn in *; lia | done].

Lemma safe_ret {A} (a : A) : safe (mret a).
Proof. intros b Hb. safe_done. Qed.

Lemma safe_bind {A B} (m : M t A) (f : A → M t B) :
  safe m → (∀ a, safe (f a)) → safe (m ≫= f).
Proof.
  intros Hm Hf b Hb. specialize (Hm b Hb). unfold mbind, M_bind.
  destruct (m b) as [[a b1]|e]; [|done]. destruct Hm as [Hr Hs].
  specialize (Hf a b1 ltac:(lia)). destruct (f a b1) as [[a' b2]|e]; [|done].
  destruct Hf as [Hr2 Hs2]. split; [lia|congruence].
Qed.

Lemma safe_if {A} (c : bool) (m1 m2 : M t A) : safe m1 → safe m2 → safe (if c then m1 else m2).
Proof. by destruct c. Qed.

Lemma safe_read k : safe (read k).
Proof.
  intros b Hb. unfold read, read_at. destruct (Nat.ltb_spec (size b) (rpos b + k)); [done|]. safe_done.
Qed.

Lemma safe_read_skip k : safe (read_skip k).
Proof.
  intros b Hb. unfold read_skip. destruct (Nat.ltb_spec (size b) (rpos b + k)); [done|]. safe_done.
Qed.

Lemma safe_read_bytes k : safe (read_bytes k).
Proof.
  intros b Hb. unfold read_bytes. destruct (Nat.ltb_spec (size b) (rpos b + k)); [done|]. safe_done.
Qed.

#[export] Hint Resolve safe_ret safe_bind safe_if safe_read safe_read_skip safe_read_bytes : safe.

Lemma safe_ReadBit : safe ReadBit.
Proof.
  intros b Hb. unfold ReadBit. destruct (7 <? S (bitpos b))%nat; [|safe_done].
  set (b0 := mk _ _ _ _ _). pose proof (safe_read 1 b0 Hb) as H.
  change (mbind ?f (read 1 b0)) with (result_bind _ _ f (read 1 b0)).
  destruct (read 1 b0) as [[v b1]|e]; simpl; [|done]. unfold size in *. simpl in *. tauto.
Qed.
#[export] Hint Resolve safe_ReadBit : safe.

Lemma safe_ReadBits n : safe (ReadBits n).
Proof.
  unfold ReadBits. generalize 0. induction n as [|n IH]; intros v; simpl; [apply safe_ret|].
  auto with safe.
Qed.

Lemma safe_ReadByteSeq x : safe (ReadByteSeq x).
Proof. unfold ReadByteSeq. auto 6 with safe. Qed.

Lemma safe_read_signed k : safe (read_signed k).
Proof. unfold read_signed. auto with safe. Qed.

Lemma safe_shr_bool : safe shr_bool.
Proof. unfold shr_bool. apply safe_bind; [apply safe_read_signed|auto with safe]. Qed.

Lemma safe_shr_string : safe shr_string.
Proof.
  intros b. unfold shr_string. generalize (size b) at 2 as fuel, (@nil Z) as acc.
  intros fuel. revert b. induction fuel as [|n IH]; intros b acc Hb; cbn [shr_string_loop]; [safe_done|].
  destruct (Nat.ltb_spec (rpos b) (size b)); [|safe_done].
  pose proof (safe_read 1 b Hb) as H1.
  change (mbind ?f (read 1 b)) with (result_bind _ _ f (read 1 b)).
  destruct (read 1 b) as [[c b1]|e]; simpl; [|done]. destruct H1 as [Hr Hs].
  destruct (c =? 0); [done|]. specialize (IH b1 (acc ++ [c]) ltac:(lia)).
  destruct (shr_string_loop n (acc ++ [c]) b1) as [[s b2]|e]; [|done].
  destruct IH. split; [lia|congruence].
Qed.

Lemma safe_ReadString n : safe (ReadString n).
Proof. unfold ReadString. auto 6 with safe. Qed.

Lemma safe_readPackGUID : safe readPackGUID.
Proof.
  assert (∀ n mark guid, safe (readPackGUID_loop n mark guid)) as Hloop.
  { induction n as [|n IH]; intros mark guid b Hb; cbn [readPackGUID_loop]; [safe_done|].
    destruct (z2b _); [|by apply IH]. destruct (_ <? _)%nat; [done|].
    pose proof (safe_read 1 b Hb) as H1.
    change (mbind ?f (read 1 b)) with (result_bind _ _ f (read 1 b)).
    destruct (read 1 b) as [[c b1]|e]; simpl; [|done]. destruct H1 as [Hr Hs].
    match goal with |- match ?f ?mark ?g b1 with _ => _ end => specialize (IH mark g b1 ltac:(lia)) end.
    destruct (readPackGUID_loop n _ _ b1) as [[s b2]|e]; [|done].
    destruct IH. split; [lia|congruence]. }
  intros b Hb. unfold readPackGUID. destruct (_ <? _)%nat; [done|].
  apply (safe_bind (read 1) (λ mark, readPackGUID_loop 8 mark 0)); [apply safe_read|intros; apply Hloop|done].
Qed.

#[export] Hint Resolve safe_ReadBits safe_ReadByteSeq safe_read_signed safe_shr_bool
  safe_shr_string safe_ReadString safe_readPackGUID : safe.

(** No read method reads outside the packet, whatever the packet holds: each
    either fails with the position exception or advances the cursor within the
    storage, which it leaves as it is. *)
Theorem read_methods_safe n x :
  safe ReadBit ∧ safe (ReadBits n) ∧ safe (ReadByteSeq x) ∧ safe (read n) ∧
  safe (read_signed n) ∧ safe shr_bool ∧ safe (read_skip n) ∧ safe (read_bytes n) ∧
  safe (ReadString n) ∧ safe shr_string ∧ safe readPackGUID.
Proof. auto 12 with safe. Qed.

(** ** Strings *)

Lemma shr_string_loop_spec fuel b acc value rest :
  (length value < fuel)%nat → Forall (λ c, c ≠ 0) value →
  drop (rpos b) (storage b) = value ++ 0 :: rest →
  ∃ b', shr_string_loop fuel acc b = Ok (acc ++ value, b') ∧
    drop (rpos b') (storage b') = rest.
Proof.
  revert fuel b acc. induction value as [|c value IH]; intros fuel b acc Hf Hz Hd;
    (destruct fuel as [|fuel]; [simpl in Hf; lia|]); cbn [shr_string_loop].
  all: destruct (Nat.ltb_spec (rpos b) (size b)) as [Hlt|Hge];
    [|unfold size in Hge; rewrite drop_ge in Hd by lia; done].
  all: assert (∀ z r, drop (rpos b) (storage b) = z :: r →
      read 1 b = Ok (z, set_rpos (S (rpos b)) b)) as Hread
    by (intros z r E; unfold read, read_at; rewrite (proj2 (Nat.ltb_ge _ _)) by lia;
        simpl; rewrite E; simpl; by rewrite Z.add_0_r, Nat.add_1_r).
  all: change (mbind ?f (read 1 b)) with (result_bind _ _ f (read 1 b)).
  - rewrite (Hread _ _ Hd). simpl. eexists. rewrite app_nil_r. split; [done|].
    by eapply drop_S_tail.
  - rewrite (Hread _ _ Hd). inversion_clear Hz as [|? ? Hc Hz']. simpl.
    rewrite (proj2 (Z.eqb_neq _ _)) by done. simpl in Hf.
    destruct (IH fuel (set_rpos (S (rpos b)) b) (acc ++ [c])) as (b' & E & Hr);
      [lia|done|by eapply drop_S_tail|].
    exists b'. by rewrite <- (assoc_L (++)) in E.
Qed.

(** A string without zero characters written by [operator<<] is read back by
    [operator>>], whatever follows it in the packet. *)
Theorem string_roundtrip value rest :
  Forall (λ c, c ≠ 0) value → Z.of_nat (length value) + 1 < MAX_SIZE →
  ∃ b b', shl_string value new = Ok (tt, b) ∧ storage b = value ++ [0] ∧
    shr_string (received (storage b ++ rest)) = Ok (value, b') ∧
    drop (rpos b') (storage b') = rest.
Proof.
  intros Hz Hl.
  assert (∃ b1, (when negb (length value =? 0)%nat do append value) new = Ok (tt, b1) ∧
    writer b1 (value, [])) as (b1 & E1 & HW1).
  { destruct value as [|c value]; [exists new; split; [done|apply writer_new]|].
    cbn [length Nat.eqb negb]. rewrite (append_writer new [] []); [|apply writer_new|done|done].
    eexists. split; [done|]. split; cbn; done || lia. }
  destruct (append_val_writer 1 0 b1 value [] HW1) as (b2 & E2 & HW2 & _); [lia..|].
  exists b2. assert (storage b2 = value ++ [0]) as Hs by by destruct HW2.
  unfold shl_string. rewrite (bind_Ok _ _ _ _ _ E1), E2, Hs.
  destruct (shr_string_loop_spec (size (received ((value ++ [0]) ++ rest)))
    (received ((value ++ [0]) ++ rest)) [] value rest) as (b' & E' & Hr).
  - unfold size. simpl. rewrite !length_app. simpl. lia.
  - done.
  - simpl. by rewrite <- (assoc_L (++)).
  - exists b'. done.
Qed.

Lemma string_roundtrip_witness :
  ∃ b b', shl_string [79; 103; 114; 105] new = Ok (tt, b) ∧ storage b = [79; 103; 114; 105] ++ [0] ∧
    shr_string (received (storage b ++ [1; 2])) = Ok ([79; 103; 114; 105], b') ∧
    drop (rpos b') (storage b') = [1; 2].
Proof.
  apply (string_roundtrip [79; 103; 114; 105] [1; 2]).
  - repeat constructor; discriminate.
  - reflexivity.
Defined.

(** ** Where the methods do not match *)

(** With bits pending, [operator<<(std::string)] stores the characters before
    the bits that were written first: the bit byte lands between the characters
    and their terminator. *)
Theorem shl_string_overtakes_bits b s acc value :
  writer b (s, acc) → acc ≠ [] → value ≠ [] →
  Z.of_nat (length s + length value) + 2 < MAX_SIZE →
  ∃ b', shl_string value b = Ok (tt, b') ∧
    storage b' = s ++ value ++ [byte_of_bits acc; 0].
Proof.
  intros HW Ha Hv Hl. unfold shl_string.
  destruct value as [|c value]; [done|]. cbn [length Nat.eqb negb].
  assert (append (c :: value) b = Ok (tt, mk (rpos b) (wpos b + length (c :: value)) (bitpos b)
    (curbitval b) (s ++ c :: value))) as E by (apply (append_writer b s acc); [done..|lia]).
  rewrite (bind_Ok _ _ _ _ _ E). set (b1 := mk _ _ _ _ _).
  assert (writer b1 (s ++ c :: value, acc)) as HW1.
  { destruct HW as [H1 H2 H3 H4 H5]. split; simpl in *; try done. rewrite H2, length_app. done. }
  destruct (append_val_writer 1 0 b1 _ _ HW1) as (b2 & E2 & HW2 & _); [lia| |].
  { rewrite length_app. simpl in *. lia. }
  exists b2. split; [done|]. destruct HW2 as [-> _ _ _ _]. simpl.
  rewrite flush_nonempty by done. by rewrite <- (assoc_L (++)).
Qed.

Lemma shl_string_overtakes_bits_witness :
  ∃ b', shl_string [72; 105] (mk 0 0 7 128 []) = Ok (tt, b') ∧ storage b' = [72; 105; 128; 0].
Proof.
  apply (shl_string_overtakes_bits (mk 0 0 7 128 []) [] [true] [72; 105]);
    [split; simpl; try reflexivity; lia|discriminate|discriminate|reflexivity].
Defined.

Lemma read_second w bp c a z d :
  read 1 (mk 1 w bp c [a; z; d]) = Ok (z, mk 2 w bp c [a; z; d]).
Proof.
  enough (le_val [z] = z) as E by by cbn -[le_val]; rewrite <- E at 3.
  by cbn -[Z.mul Z.add]; rewrite Z.mul_0_r, Z.add_0_r.
Qed.

(** A bit written after a byte is not the bit that is read after that byte: the
    writer starts a new bit byte, the reader goes on in the old one. For the stream
    bit, byte, bit the last bit is read as false even when it was written as true. *)
Theorem bit_after_byte_lost x z y :
  is_byte z →
  ∃ b b', (WriteBit (Z.b2z x);; append_val 1 z;; WriteBit (Z.b2z y);; FlushBits) new = Ok (tt, b) ∧
    (p ← ReadBit; q ← read 1; r ← ReadBit; mret (p, q, r)) (received (storage b))
      = Ok ((x, z, false), b').
Proof.
  intros Hz. unfold is_byte in Hz.
  assert (le_bytes 1 z = [z]) as E by (simpl; by rewrite Z.mod_small).
  set (c := λ x : bool, if x then 128 else 0).
  exists (mk 0 3 8 0 [c x; z; c y]), (mk 2 3 1 (c x) [c x; z; c y]). split.
  - unfold append_val. rewrite E. by destruct x, y.
  - rewrite (bind_Ok _ _ _ x (mk 1 3 0 (c x) [c x; z; c y])) by by destruct x.
    rewrite (bind_Ok _ _ _ z (mk 2 3 0 (c x) [c x; z; c y])) by apply read_second.
    by destruct x.
Qed.

Lemma bit_after_byte_lost_witness :
  ∃ b b', (WriteBit (Z.b2z true);; append_val 1 9;; WriteBit (Z.b2z true);; FlushBits) new = Ok (tt, b) ∧
    (p ← ReadBit; q ← read 1; r ← ReadBit; mret (p, q, r)) (received (storage b))
      = Ok ((true, 9, false), b').
Proof. apply (bit_after_byte_lost true 9 true). split; reflexivity || lia. Defined.
