(* ===== verification/ObjectGuid.v ===== *)
(** * ObjectGuid: 64-bit object identifiers.

    Module [HighGuid] is [src/src/server/game/Entities/Object/ObjectDefines.h]: how
    a GUID is composed of a low part, an entry and a type, the accessors of the
    parts and the type tests. Module [ObjectGuid] is the byte view of a GUID that
    the packet code uses ([struct ObjectGuid] of [Object.h]). *)
From S2P Require Import Prelude Bits ByteBufferStream.
From stdpp Require Import strings.
Open Scope Z_scope.

Module HighGuid.

(** The enumerators of [HighGuid]; ITEM and CONTAINER are the same value. *)
Definition HIGHGUID_ITEM : Z := 0x400.
Definition HIGHGUID_CONTAINER : Z := 0x400.
Definition HIGHGUID_PLAYER : Z := 0x000.
Definition HIGHGUID_GAMEOBJECT : Z := 0xF11.
Definition HIGHGUID_TRANSPORT : Z := 0xF12.
Definition HIGHGUID_UNIT : Z := 0xF13.
Definition HIGHGUID_PET : Z := 0xF14.
Definition HIGHGUID_VEHICLE : Z := 0xF15.
Definition HIGHGUID_DYNAMICOBJECT : Z := 0xF10.
Definition HIGHGUID_CORPSE : Z := 0xF101.
Definition HIGHGUID_AREATRIGGER : Z := 0xF102.
Definition HIGHGUID_BATTLEGROUND : Z := 0x1F1.
Definition HIGHGUID_MO_TRANSPORT : Z := 0x1FC.
Definition HIGHGUID_GROUP : Z := 0x1F5.
Definition HIGHGUID_GUILD : Z := 0x1FF.

(** ** Pairs *)
Definition MAKE_PAIR64 (l h : Z) : Z := u64 (Z.lor l (Z.shiftl h 32)).
Definition PAIR64_HIPART (x : Z) : Z := u32 (Z.land (Z.shiftr x 32) 0xFFFFFFFF).
Definition PAIR64_LOPART (x : Z) : Z := u32 (Z.land x 0xFFFFFFFF).
Definition MAKE_PAIR16 (l h : Z) : Z := u16 (Z.lor l (Z.shiftl h 8)).
Definition MAKE_PAIR32 (l h : Z) : Z := u32 (Z.lor l (Z.shiftl h 16)).
Definition PAIR32_HIPART (x : Z) : Z := u16 (Z.land (Z.shiftr x 16) 0xFFFF).
Definition PAIR32_LOPART (x : Z) : Z := u16 (Z.land x 0xFFFF).

(** ** Composition and parts *)

(** Corpses and area triggers have a 16-bit type, the others a 12-bit one. *)
Definition MAKE_NEW_GUID (l e h : Z) : Z :=
  u64 (Z.lor (Z.lor l (Z.shiftl e 32))
         (Z.shiftl h (if (h =? HIGHGUID_CORPSE) || (h =? HIGHGUID_AREATRIGGER) then 48 else 52))).

Definition GUID_HIPART (guid : Z) : Z :=
  let t := Z.land (Z.shiftr guid 48) 0xFFFF in
  if (t =? HIGHGUID_CORPSE) || (t =? HIGHGUID_AREATRIGGER) then t
  else Z.land (Z.shiftr t 4) 0xFFF.

Definition IsGuidHaveEnPart (guid : Z) : bool :=
  let h := GUID_HIPART guid in
  negb ((h =? HIGHGUID_ITEM) || (h =? HIGHGUID_PLAYER) || (h =? HIGHGUID_DYNAMICOBJECT) ||
        (h =? HIGHGUID_CORPSE) || (h =? HIGHGUID_GROUP) || (h =? HIGHGUID_GUILD)).

Definition GUID_ENPART (x : Z) : Z :=
  if IsGuidHaveEnPart x then u32 (Z.land (Z.shiftr x 32) 0xFFFFF) else 0.
Definition GUID_LOPART (x : Z) : Z := PAIR64_LOPART x.

(** ** Type tests *)
Definition IS_EMPTY_GUID (guid : Z) : bool := guid =? 0.
Definition IS_CREATURE_GUID (guid : Z) : bool := GUID_HIPART guid =? HIGHGUID_UNIT.
Definition IS_PET_GUID (guid : Z) : bool := GUID_HIPART guid =? HIGHGUID_PET.
Definition IS_VEHICLE_GUID (guid : Z) : bool := GUID_HIPART guid =? HIGHGUID_VEHICLE.
Definition IS_CRE_OR_VEH_GUID (guid : Z) : bool := IS_CREATURE_GUID guid || IS_VEHICLE_GUID guid.
Definition IS_CRE_OR_VEH_OR_PET_GUID (guid : Z) : bool :=
  IS_CRE_OR_VEH_GUID guid || IS_PET_GUID guid.
Definition IS_PLAYER_GUID (guid : Z) : bool :=
  negb (guid =? 0) && (GUID_HIPART guid =? HIGHGUID_PLAYER).
Definition IS_GUILD_GUID (guid : Z) : bool := GUID_HIPART guid =? HIGHGUID_GUILD.
Definition IS_UNIT_GUID (guid : Z) : bool := IS_CRE_OR_VEH_OR_PET_GUID guid || IS_PLAYER_GUID guid.
Definition IS_ITEM_GUID (guid : Z) : bool := GUID_HIPART guid =? HIGHGUID_ITEM.
Definition IS_GAMEOBJECT_GUID (guid : Z) : bool := GUID_HIPART guid =? HIGHGUID_GAMEOBJECT.
Definition IS_DYNAMICOBJECT_GUID (guid : Z) : bool := GUID_HIPART guid =? HIGHGUID_DYNAMICOBJECT.
Definition IS_CORPSE_GUID (guid : Z) : bool := GUID_HIPART guid =? HIGHGUID_CORPSE.
Definition IS_TRANSPORT_GUID (guid : Z) : bool := GUID_HIPART guid =? HIGHGUID_TRANSPORT.
Definition IS_MO_TRANSPORT_GUID (guid : Z) : bool := GUID_HIPART guid =? HIGHGUID_MO_TRANSPORT.
Definition IS_GROUP_GUID (guid : Z) : bool := GUID_HIPART guid =? HIGHGUID_GROUP.
Definition IS_AREATRIGGER_GUID (guid : Z) : bool := GUID_HIPART guid =? HIGHGUID_AREATRIGGER.

Definition GetLogNameForGuid (guid : Z) : string :=
  let h := GUID_HIPART guid in
  if h =? HIGHGUID_ITEM then "item"
  else if h =? HIGHGUID_PLAYER then (if z2b guid then "player" else "none")
  else if h =? HIGHGUID_GAMEOBJECT then "gameobject"
  else if h =? HIGHGUID_TRANSPORT then "transport"
  else if h =? HIGHGUID_UNIT then "creature"
  else if h =? HIGHGUID_PET then "pet"
  else if h =? HIGHGUID_VEHICLE then "vehicle"
  else if h =? HIGHGUID_DYNAMICOBJECT then "dynobject"
  else if h =? HIGHGUID_CORPSE then "corpse"
  else if h =? HIGHGUID_MO_TRANSPORT then "mo_transport"
  else if h =? HIGHGUID_GROUP then "group"
  else if h =? HIGHGUID_GUILD then "guild"
  else if h =? HIGHGUID_AREATRIGGER then "areatrigger"
  else "<unknown>".

End HighGuid.

(** * The byte view *)
Module ObjectGuid.

(** [_data.byte]: eight bytes, the least significant first. *)
Definition t : Type := list Z.
Definition of_u64 (guid : Z) : t := le_bytes 8 guid.
Definition to_u64 (g : t) : Z := le_val g.

(** [operator[]], as an lvalue: [ASSERT(index < sizeof(uint64))]. *)
Definition get (index : nat) (g : t) : result Z :=
  if (index <? 8)%nat then Ok (nth index g 0) else Throw AssertionFailed.
Definition set (index : nat) (v : Z) (g : t) : result t :=
  if (index <? 8)%nat then Ok (<[index := v]> g) else Throw AssertionFailed.

End ObjectGuid.

Import HighGuid.

(** * Properties *)

(** The width of the low part and the entry, by type. *)
Definition type_shift (h : Z) : Z :=
  if (h =? HIGHGUID_CORPSE) || (h =? HIGHGUID_AREATRIGGER) then 48 else 52.

(** A composition whose parts fit, and which is not the one that looks like a
    corpse or an area trigger: a dynamic object with an entry of 17 bits. *)
Definition composable (l e h : Z) : Prop :=
  0 ≤ l < 2 ^ 32 ∧ 0 ≤ e < 2 ^ (type_shift h - 32) ∧ 0 ≤ h < 2 ^ (64 - type_shift h) ∧
  (h = HIGHGUID_DYNAMICOBJECT → e / 2 ^ 16 ≠ 1 ∧ e / 2 ^ 16 ≠ 2).

Lemma type_shift_cases h :
  type_shift h = 48 ∧ (h = HIGHGUID_CORPSE ∨ h = HIGHGUID_AREATRIGGER) ∨
  type_shift h = 52 ∧ h ≠ HIGHGUID_CORPSE ∧ h ≠ HIGHGUID_AREATRIGGER.
Proof.
  unfold type_shift.
  destruct (Z.eqb_spec h HIGHGUID_CORPSE), (Z.eqb_spec h HIGHGUID_AREATRIGGER); simpl; auto.
Qed.

Lemma MAKE_NEW_GUID_val l e h :
  composable l e h →
  MAKE_NEW_GUID l e h = l + e * 2 ^ 32 + h * 2 ^ type_shift h ∧
  0 ≤ MAKE_NEW_GUID l e h < 2 ^ 64.
Proof.
  intros (Hl & He & Hh & _). unfold MAKE_NEW_GUID. fold (type_shift h).
  destruct (type_shift_cases h) as [[Ek _]|[Ek _]]; rewrite Ek in *;
    (rewrite (PackGUID.lor_shiftl_add l e) by lia; rewrite PackGUID.lor_shiftl_add by (simpl in *; lia);
     unfold u64; rewrite Z.mod_small; simpl in *; lia).
Qed.

Lemma land_ones_16 z : Z.land z 0xFFFF = z mod 2 ^ 16.
Proof. exact (Z.land_ones z 16 ltac:(lia)). Qed.
Lemma land_ones_12 z : Z.land z 0xFFF = z mod 2 ^ 12.
Proof. exact (Z.land_ones z 12 ltac:(lia)). Qed.
Lemma land_ones_20 z : Z.land z 0xFFFFF = z mod 2 ^ 20.
Proof. exact (Z.land_ones z 20 ltac:(lia)). Qed.
Lemma land_ones_32 z : Z.land z 0xFFFFFFFF = z mod 2 ^ 32.
Proof. exact (Z.land_ones z 32 ltac:(lia)). Qed.

(** [GUID_HIPART] in arithmetic: the top sixteen bits decide. *)
Lemma GUID_HIPART_val g :
  0 ≤ g < 2 ^ 64 →
  GUID_HIPART g = if type_shift (g / 2 ^ 48) =? 48 then g / 2 ^ 48 else g / 2 ^ 52.
Proof.
  intros Hg. unfold GUID_HIPART. rewrite land_ones_16, Z.shiftr_div_pow2 by lia.
  rewrite (Z.mod_small (g / 2 ^ 48))
    by (split; [apply Z.div_pos; lia|apply Z.div_lt_upper_bound; lia]).
  unfold type_shift. destruct (_ || _); simpl (_ =? 48); cbv iota; [done|].
  rewrite land_ones_12, Z.shiftr_div_pow2, Z.div_div by lia.
  rewrite Z.mod_small; [done|]. split; [apply Z.div_pos; lia|apply Z.div_lt_upper_bound; lia].
Qed.

Lemma MAKE_NEW_GUID_HIPART l e h : composable l e h → GUID_HIPART (MAKE_NEW_GUID l e h) = h.
Proof.
  intros Hc. destruct (MAKE_NEW_GUID_val l e h Hc) as [Hv Hb].
  rewrite GUID_HIPART_val by done. clear Hb. destruct Hc as (Hl & He & Hh & Hd).
  destruct (type_shift_cases h) as [[Ek Eh]|[Ek [Eh1 Eh2]]]; rewrite Ek in *.
  - assert (MAKE_NEW_GUID l e h / 2 ^ 48 = h) as ->.
    { symmetry. apply (Z.div_unique _ _ _ (l + e * 2 ^ 32)); [left; simpl in *; lia|].
      rewrite Hv. lia. }
    by rewrite Ek.
  - set (g := MAKE_NEW_GUID l e h) in *.
    assert (e / 2 ^ 16 * 2 ^ 16 ≤ e < (e / 2 ^ 16 + 1) * 2 ^ 16) as Hq
      by (pose proof (Z.div_mod e (2 ^ 16)); pose proof (Z.mod_pos_bound e (2 ^ 16)); lia).
    assert (g / 2 ^ 48 = h * 2 ^ 4 + e / 2 ^ 16) as E48.
    { symmetry. apply (Z.div_unique _ _ _ (l + (e - e / 2 ^ 16 * 2 ^ 16) * 2 ^ 32));
        [left; simpl in *; lia|]. rewrite Hv. lia. }
    assert (g / 2 ^ 52 = h) as ->.
    { symmetry. apply (Z.div_unique _ _ _ (l + e * 2 ^ 32)); [left; simpl in *; lia|].
      rewrite Hv. lia. }
    assert (0 ≤ e / 2 ^ 16 < 2 ^ 4) as He16 by (simpl in *; lia).
    destruct (type_shift_cases (g / 2 ^ 48)) as [[-> Et]|[-> _]]; [|done]. exfalso.
    rewrite E48 in Et. unfold HIGHGUID_CORPSE, HIGHGUID_AREATRIGGER, HIGHGUID_DYNAMICOBJECT in *.
    lia.
Qed.

Lemma MAKE_NEW_GUID_LOPART l e h : composable l e h → GUID_LOPART (MAKE_NEW_GUID l e h) = l.
Proof.
  intros Hc. destruct (MAKE_NEW_GUID_val l e h Hc) as [Hv _]. destruct Hc as (Hl & _ & _ & _).
  unfold GUID_LOPART, PAIR64_LOPART, u32. rewrite land_ones_32, Zmod_mod. symmetry.
  destruct (type_shift_cases h) as [[Ek _]|[Ek _]]; rewrite Ek in Hv;
    [apply (Z.mod_unique _ _ (e + h * 2 ^ 16))|apply (Z.mod_unique _ _ (e + h * 2 ^ 20))];
    (left; lia) || (rewrite Hv; lia).
Qed.

(** The parts of a composed GUID: the type and the low part are always the ones
    it was made from; the entry is too, for the types that have one, except that an
    area trigger's entry comes back with the low digit of its 16-bit type above it. *)
Theorem guid_parts l e h :
  composable l e h →
  let g := MAKE_NEW_GUID l e h in
  GUID_HIPART g = h ∧ GUID_LOPART g = l ∧
  GUID_ENPART g = (if IsGuidHaveEnPart g
                   then if h =? HIGHGUID_AREATRIGGER then 0x20000 + e else e else 0).
Proof.
  intros Hc g. split; [by apply MAKE_NEW_GUID_HIPART|]. split; [by apply MAKE_NEW_GUID_LOPART|].
  unfold GUID_ENPART. destruct (IsGuidHaveEnPart g) eqn:Ei; [|done].
  unfold IsGuidHaveEnPart in Ei. unfold g in Ei. rewrite MAKE_NEW_GUID_HIPART in Ei by done.
  destruct (MAKE_NEW_GUID_val l e h Hc) as [Hv _]. fold g in Hv. destruct Hc as (Hl & He & _ & _).
  rewrite land_ones_20, Z.shiftr_div_pow2 by lia. unfold u32.
  rewrite (Z.mod_small (_ mod 2 ^ 20)) by (pose proof (Z.mod_pos_bound (g / 2 ^ 32) (2 ^ 20)); lia).
  assert (g / 2 ^ 32 = e + h * 2 ^ (type_shift h - 32)) as ->.
  { symmetry. apply (Z.div_unique _ _ _ l); [left; lia|]. rewrite Hv.
    destruct (type_shift_cases h) as [[-> _]|[-> _]]; simpl; lia. }
  symmetry. destruct (type_shift_cases h) as [[Ek [Eh|Eh]]|[Ek [Eh1 Eh2]]]; rewrite Ek in *.
  - by subst h.
  - subst h. apply (Z.mod_unique _ _ 0xF10); [left; simpl in *; lia|].
    unfold HIGHGUID_AREATRIGGER. simpl. lia.
  - rewrite (proj2 (Z.eqb_neq _ _)) by done.
    apply (Z.mod_unique _ _ h); [left; simpl in *; lia|simpl; lia].
Qed.

Lemma guid_parts_witness :
  let g := MAKE_NEW_GUID 77 1234 HIGHGUID_UNIT in
  GUID_HIPART g = HIGHGUID_UNIT ∧ GUID_LOPART g = 77 ∧
  GUID_ENPART g = (if IsGuidHaveEnPart g
    then if HIGHGUID_UNIT =? HIGHGUID_AREATRIGGER then 0x20000 + 1234 else 1234 else 0).
Proof.
  apply (guid_parts 77 1234 HIGHGUID_UNIT). split; [lia|]. split; [cbv; split; congruence|].
  split; [cbv; split; congruence|discriminate].
Defined.

(** The type tests and the log name of a composed GUID say the type it was
    composed with: each test holds exactly for its own type. *)
Theorem guid_type_tests l e h :
  composable l e h → 0 < l →
  let g := MAKE_NEW_GUID l e h in
  IS_EMPTY_GUID g = false ∧
  IS_PLAYER_GUID g = (h =? HIGHGUID_PLAYER) ∧
  IS_CRE_OR_VEH_OR_PET_GUID g =
    ((h =? HIGHGUID_UNIT) || (h =? HIGHGUID_VEHICLE) || (h =? HIGHGUID_PET)) ∧
  IS_UNIT_GUID g = (IS_CRE_OR_VEH_OR_PET_GUID g || (h =? HIGHGUID_PLAYER)) ∧
  (IS_UNIT_GUID g = true →
     IS_ITEM_GUID g = false ∧ IS_GAMEOBJECT_GUID g = false ∧ IS_DYNAMICOBJECT_GUID g = false ∧
     IS_CORPSE_GUID g = false ∧ IS_GROUP_GUID g = false ∧ IS_GUILD_GUID g = false ∧
     GetLogNameForGuid g ∈ ["player"; "creature"; "vehicle"; "pet"]%string).
Proof.
  intros Hc H0 g. pose proof (MAKE_NEW_GUID_HIPART l e h Hc) as Eh. fold g in Eh.
  assert ((g =? 0) = false) as Eg.
  { apply Z.eqb_neq. intros E0. pose proof (MAKE_NEW_GUID_LOPART l e h Hc) as El.
    fold g in El. rewrite E0 in El. change (GUID_LOPART 0) with 0 in El. lia. }
  unfold IS_EMPTY_GUID, IS_UNIT_GUID, IS_CRE_OR_VEH_OR_PET_GUID, IS_CRE_OR_VEH_GUID,
    IS_CREATURE_GUID, IS_VEHICLE_GUID, IS_PET_GUID, IS_PLAYER_GUID, IS_ITEM_GUID,
    IS_GAMEOBJECT_GUID, IS_DYNAMICOBJECT_GUID, IS_CORPSE_GUID, IS_GROUP_GUID, IS_GUILD_GUID,
    GetLogNameForGuid, z2b. rewrite Eh, Eg. simpl negb. simpl (true && _).
  do 4 (split; [done|]). clear.
  rewrite !orb_true_iff, !Z.eqb_eq. intros [[[->| ->]| ->]| ->]; repeat (split; [done|]); rewrite !elem_of_cons; auto.
Qed.

Lemma guid_type_tests_witness :
  let g := MAKE_NEW_GUID 5 0 HIGHGUID_PLAYER in
  IS_EMPTY_GUID g = false ∧
  IS_PLAYER_GUID g = (HIGHGUID_PLAYER =? HIGHGUID_PLAYER) ∧
  IS_CRE_OR_VEH_OR_PET_GUID g = ((HIGHGUID_PLAYER =? HIGHGUID_UNIT) ||
    (HIGHGUID_PLAYER =? HIGHGUID_VEHICLE) || (HIGHGUID_PLAYER =? HIGHGUID_PET)) ∧
  IS_UNIT_GUID g = (IS_CRE_OR_VEH_OR_PET_GUID g || (HIGHGUID_PLAYER =? HIGHGUID_PLAYER)) ∧
  (IS_UNIT_GUID g = true →
     IS_ITEM_GUID g = false ∧ IS_GAMEOBJECT_GUID g = false ∧ IS_DYNAMICOBJECT_GUID g = false ∧
     IS_CORPSE_GUID g = false ∧ IS_GROUP_GUID g = false ∧ IS_GUILD_GUID g = false ∧
     GetLogNameForGuid g ∈ ["player"; "creature"; "vehicle"; "pet"]%string).
Proof.
  apply (guid_type_tests 5 0 HIGHGUID_PLAYER); [|lia]. split; [lia|]. split; [cbv; split; congruence|].
  split; [cbv; split; congruence|discriminate].
Defined.
