(* ===== verification/Float32.v ===== *)
(** * Float32: single-precision values by their 32-bit representation.

    The code moves floats between fields and packets as bytes and, in a few places,
    computes with them. A float is kept as its IEEE 754 representation, a [Z] below
    [2 ^ 32]; the operations the movement code needs are given on it through the
    Standard Library's [SpecFloat] (binary32: 24 bits of precision, maximal exponent
    128, rounding to nearest even). The sign and payload of a NaN result are the
    platform's; here a computed NaN is the canonical quiet NaN. *)
From S2P Require Import Prelude.
From Stdlib Require Import SpecFloat.
Open Scope Z_scope.

Definition prec : Z := 24.
Definition emax : Z := 128.

Definition f32_decode (z : Z) : spec_float :=
  let s := Z.testbit z 31 in
  let e := Z.land (Z.shiftr z 23) 255 in
  let m := Z.land z (2 ^ 23 - 1) in
  if e =? 0 then match m with Z.pos p => S754_finite s p (-149) | _ => S754_zero s end
  else if e =? 255 then (if m =? 0 then S754_infinity s else S754_nan)
  else match m + 2 ^ 23 with Z.pos p => S754_finite s p (e - 150) | _ => S754_nan end.

Definition f32_nan : Z := 0x7FC00000.

Definition f32_encode (f : spec_float) : Z :=
  match f with
  | S754_zero s => Z.b2z s * 2 ^ 31
  | S754_infinity s => Z.b2z s * 2 ^ 31 + 255 * 2 ^ 23
  | S754_nan => f32_nan
  | S754_finite s m e =>
      if Z.pos m <? 2 ^ 23 then Z.b2z s * 2 ^ 31 + Z.pos m
      else Z.b2z s * 2 ^ 31 + (e + 150) * 2 ^ 23 + (Z.pos m - 2 ^ 23)
  end.

(** [==] and [<] on floats: NaN is equal to nothing, the two zeros are equal. *)
Definition f32_eq (x y : Z) : bool := SFeqb (f32_decode x) (f32_decode y).
Definition f32_lt (x y : Z) : bool := SFltb (f32_decode x) (f32_decode y).

(** Arithmetic, and unary minus, which flips the sign. *)
Definition f32_add (x y : Z) : Z := f32_encode (SFadd prec emax (f32_decode x) (f32_decode y)).
Definition f32_mul (x y : Z) : Z := f32_encode (SFmul prec emax (f32_decode x) (f32_decode y)).
Definition f32_div (x y : Z) : Z := f32_encode (SFdiv prec emax (f32_decode x) (f32_decode y)).
Definition f32_opp (x : Z) : Z := Z.lxor x (2 ^ 31).

(** Conversion to [uint32]: rounded towards zero, undefined if that is not in the range. *)
Definition f32_to_uint32 (x : Z) : result Z :=
  match f32_decode x with
  | S754_zero _ => Ok 0
  | S754_finite s m e =>
      let v := if 0 <=? e then Z.pos m * 2 ^ e else Z.pos m / 2 ^ (- e) in
      if (if s then v =? 0 else v <? 2 ^ 32) then Ok v else Throw UndefinedBehaviour
  | _ => Throw UndefinedBehaviour
  end.

(** [fmod]: the exact remainder of the quotient rounded towards zero, with the sign
    of the dividend. Its result is always representable. *)
Definition SFfmod (x y : spec_float) : spec_float :=
  match x, y with
  | S754_nan, _ | _, S754_nan | S754_infinity _, _ | _, S754_zero _ => S754_nan
  | _, S754_infinity _ => x
  | S754_zero _, _ => x
  | S754_finite sx mx ex, S754_finite _ my ey =>
      let e := Z.min ex ey in
      let r := (Z.pos mx * 2 ^ (ex - e)) mod (Z.pos my * 2 ^ (ey - e)) in
      binary_normalize prec emax (if sx then - r else r) e sx
  end.

(** The constants of [NormalizeOrientation] in single precision. *)
Definition f32_minus_one : Z := 0xBF800000.
Definition f32_two : Z := 0x40000000.
Definition f32_M_PI : Z := 0x40490FDB.

Definition two_pi : spec_float :=
  SFmul prec emax (f32_decode f32_two) (f32_decode f32_M_PI).

(** [Position::NormalizeOrientation(float o)] *)
Definition NormalizeOrientation (o : Z) : Z :=
  let x := f32_decode o in
  if SFltb x (S754_zero false) then
    let md := SFmul prec emax x (f32_decode f32_minus_one) in
    let md := SFfmod md two_pi in
    f32_encode (SFadd prec emax (SFopp md) two_pi)
  else f32_encode (SFfmod x two_pi).

(** -pi/2 becomes 3pi/2, one is unchanged, 7 wraps around, and a negative value
    too small to count becomes two pi itself. *)
Example NormalizeOrientation_examples :
  NormalizeOrientation 0xBFC90FDB = 0x4096CBE4 ∧
  NormalizeOrientation 0x3F800000 = 0x3F800000 ∧
  NormalizeOrientation 0x40E00000 = 0x3F378128 ∧
  NormalizeOrientation 0xC6123456 = 0x409B98A6 ∧ NormalizeOrientation 0x7149F2CA = 0x3EA10130 ∧
  NormalizeOrientation 0xAEDBE6FF = f32_encode two_pi.
Proof. vm_compute. auto 10. Qed.
