(* ===== verification/MovementElements.v ===== *)
(** * MovementElements: the elements of a movement packet.

    [MovementStatusElements] of [src/src/server/game/Movement/MovementStructures.h]:
    what a movement packet is made of, bit by bit and field by field. Each opcode's
    packet is a table of these elements (MovementTables.v). *)
From S2P Require Import Prelude.
From stdpp Require Import countable.

(** The enumerators, in the source's order. *)
Inductive MovementStatusElements : Type :=
| MSEHasGuidByte0 | MSEHasGuidByte1 | MSEHasGuidByte2 | MSEHasGuidByte3 | MSEHasGuidByte4
| MSEHasGuidByte5 | MSEHasGuidByte6 | MSEHasGuidByte7 | MSEHasMovementFlags
| MSEHasMovementFlags2 | MSEHasTimestamp | MSEHasOrientation | MSEHasTransportData
| MSEHasTransportGuidByte0 | MSEHasTransportGuidByte1 | MSEHasTransportGuidByte2
| MSEHasTransportGuidByte3 | MSEHasTransportGuidByte4 | MSEHasTransportGuidByte5
| MSEHasTransportGuidByte6 | MSEHasTransportGuidByte7 | MSEHasTransportTime2
| MSEHasTransportTime3 | MSEHasPitch | MSEHasFallData | MSEHasFallDirection
| MSEHasSplineElevation | MSEHasSpline | MSEGuidByte0 | MSEGuidByte1 | MSEGuidByte2
| MSEGuidByte3 | MSEGuidByte4 | MSEGuidByte5 | MSEGuidByte6 | MSEGuidByte7
| MSEMovementFlags | MSEMovementFlags2 | MSETimestamp | MSEPositionX | MSEPositionY
| MSEPositionZ | MSEOrientation | MSETransportGuidByte0 | MSETransportGuidByte1
| MSETransportGuidByte2 | MSETransportGuidByte3 | MSETransportGuidByte4
| MSETransportGuidByte5 | MSETransportGuidByte6 | MSETransportGuidByte7
| MSETransportPositionX | MSETransportPositionY | MSETransportPositionZ
| MSETransportOrientation | MSETransportSeat | MSETransportTime | MSETransportTime2
| MSETransportTime3 | MSEPitch | MSEFallTime | MSEFallVerticalSpeed | MSEFallCosAngle
| MSEFallSinAngle | MSEFallHorizontalSpeed | MSESplineElevation | MSEZeroBit | MSEOneBit
| MSEHasCounter | MSECounter | MSEIsAlive | MSEAlive | MSEEnd | MSEExtraElement
| MSEExtraFloat | MSEExtraInt8.

#[global] Instance MovementStatusElements_eq_dec : EqDecision MovementStatusElements.
Proof. solve_decision. Defined.

Definition all_elements : list MovementStatusElements := [
  MSEHasGuidByte0; MSEHasGuidByte1; MSEHasGuidByte2; MSEHasGuidByte3; MSEHasGuidByte4;
  MSEHasGuidByte5; MSEHasGuidByte6; MSEHasGuidByte7; MSEHasMovementFlags; MSEHasMovementFlags2;
  MSEHasTimestamp; MSEHasOrientation; MSEHasTransportData; MSEHasTransportGuidByte0;
  MSEHasTransportGuidByte1; MSEHasTransportGuidByte2; MSEHasTransportGuidByte3;
  MSEHasTransportGuidByte4; MSEHasTransportGuidByte5; MSEHasTransportGuidByte6;
  MSEHasTransportGuidByte7; MSEHasTransportTime2; MSEHasTransportTime3; MSEHasPitch;
  MSEHasFallData; MSEHasFallDirection; MSEHasSplineElevation; MSEHasSpline; MSEGuidByte0;
  MSEGuidByte1; MSEGuidByte2; MSEGuidByte3; MSEGuidByte4; MSEGuidByte5; MSEGuidByte6;
  MSEGuidByte7; MSEMovementFlags; MSEMovementFlags2; MSETimestamp; MSEPositionX; MSEPositionY;
  MSEPositionZ; MSEOrientation; MSETransportGuidByte0; MSETransportGuidByte1;
  MSETransportGuidByte2; MSETransportGuidByte3; MSETransportGuidByte4; MSETransportGuidByte5;
  MSETransportGuidByte6; MSETransportGuidByte7; MSETransportPositionX; MSETransportPositionY;
  MSETransportPositionZ; MSETransportOrientation; MSETransportSeat; MSETransportTime;
  MSETransportTime2; MSETransportTime3; MSEPitch; MSEFallTime; MSEFallVerticalSpeed;
  MSEFallCosAngle; MSEFallSinAngle; MSEFallHorizontalSpeed; MSESplineElevation; MSEZeroBit;
  MSEOneBit; MSEHasCounter; MSECounter; MSEIsAlive; MSEAlive; MSEEnd; MSEExtraElement;
  MSEExtraFloat; MSEExtraInt8
].

Lemma all_elements_complete e : e ∈ all_elements.
Proof. apply list_elem_of_In. destruct e; vm_compute; auto 90. Qed.

(** The value of an enumerator: its position. *)
Definition mse_value (e : MovementStatusElements) : nat :=
  match e with
  | MSEHasGuidByte0 => 0 | MSEHasGuidByte1 => 1 | MSEHasGuidByte2 => 2 | MSEHasGuidByte3 => 3
  | MSEHasGuidByte4 => 4 | MSEHasGuidByte5 => 5 | MSEHasGuidByte6 => 6 | MSEHasGuidByte7 => 7
  | MSEHasMovementFlags => 8 | MSEHasMovementFlags2 => 9 | MSEHasTimestamp => 10
  | MSEHasOrientation => 11 | MSEHasTransportData => 12 | MSEHasTransportGuidByte0 => 13
  | MSEHasTransportGuidByte1 => 14 | MSEHasTransportGuidByte2 => 15
  | MSEHasTransportGuidByte3 => 16 | MSEHasTransportGuidByte4 => 17
  | MSEHasTransportGuidByte5 => 18 | MSEHasTransportGuidByte6 => 19
  | MSEHasTransportGuidByte7 => 20 | MSEHasTransportTime2 => 21 | MSEHasTransportTime3 => 22
  | MSEHasPitch => 23 | MSEHasFallData => 24 | MSEHasFallDirection => 25
  | MSEHasSplineElevation => 26 | MSEHasSpline => 27 | MSEGuidByte0 => 28
  | MSEGuidByte1 => 29 | MSEGuidByte2 => 30 | MSEGuidByte3 => 31 | MSEGuidByte4 => 32
  | MSEGuidByte5 => 33 | MSEGuidByte6 => 34 | MSEGuidByte7 => 35 | MSEMovementFlags => 36
  | MSEMovementFlags2 => 37 | MSETimestamp => 38 | MSEPositionX => 39 | MSEPositionY => 40
  | MSEPositionZ => 41 | MSEOrientation => 42 | MSETransportGuidByte0 => 43
  | MSETransportGuidByte1 => 44 | MSETransportGuidByte2 => 45 | MSETransportGuidByte3 => 46
  | MSETransportGuidByte4 => 47 | MSETransportGuidByte5 => 48 | MSETransportGuidByte6 => 49
  | MSETransportGuidByte7 => 50 | MSETransportPositionX => 51 | MSETransportPositionY => 52
  | MSETransportPositionZ => 53 | MSETransportOrientation => 54 | MSETransportSeat => 55
  | MSETransportTime => 56 | MSETransportTime2 => 57 | MSETransportTime3 => 58
  | MSEPitch => 59 | MSEFallTime => 60 | MSEFallVerticalSpeed => 61 | MSEFallCosAngle => 62
  | MSEFallSinAngle => 63 | MSEFallHorizontalSpeed => 64 | MSESplineElevation => 65
  | MSEZeroBit => 66 | MSEOneBit => 67 | MSEHasCounter => 68 | MSECounter => 69
  | MSEIsAlive => 70 | MSEAlive => 71 | MSEEnd => 72 | MSEExtraElement => 73
  | MSEExtraFloat => 74 | MSEExtraInt8 => 75
  end%nat.

Lemma mse_value_index e : all_elements !! mse_value e = Some e.
Proof. by destruct e. Qed.

#[global] Instance mse_value_inj : Inj (=) (=) mse_value.
Proof.
  intros e1 e2 E. pose proof (mse_value_index e1) as H. rewrite E, mse_value_index in H.
  congruence.
Qed.

#[global] Program Instance MovementStatusElements_countable : Countable MovementStatusElements :=
  inj_countable mse_value (λ n, all_elements !! n) mse_value_index.

(** Equality of enumerators as the code's [switch] tests it. *)
Definition mse_eqb (a b : MovementStatusElements) : bool := (mse_value a =? mse_value b)%nat.

Lemma mse_eqb_spec a b : reflect (a = b) (mse_eqb a b).
Proof.
  unfold mse_eqb. destruct (Nat.eqb_spec (mse_value a) (mse_value b)) as [E|E]; constructor.
  - by apply (inj mse_value).
  - by intros ->.
Qed.

Definition mem (e : MovementStatusElements) (l : list MovementStatusElements) : bool :=
  existsb (mse_eqb e) l.

Lemma mem_elem_of e l : mem e l = true ↔ e ∈ l.
Proof.
  unfold mem. rewrite existsb_exists, list_elem_of_In. split.
  - intros (x & Hx & E). by destruct (mse_eqb_spec e x); subst.
  - intros H. exists e. split; [done|]. by destruct (mse_eqb_spec e e).
Qed.

Lemma mem_snoc e l x : mem e (l ++ [x]) = mse_eqb e x || mem e l.
Proof. unfold mem. rewrite existsb_app. simpl. by rewrite orb_false_r, orb_comm. Qed.
