(* ===== verification/MovementTables.v ===== *)
(** * MovementTables: the layout of every movement packet.

    The tables of [src/src/server/game/Movement/MovementStructures.cpp], element for
    element, and [GetMovementStatusElementsSequence], which selects the table of an
    opcode (opcode values: [src/src/server/game/Server/Protocol/Opcodes.h]). *)
From S2P Require Import Prelude MovementElements.

(** ** Tables *)

Definition PlayerMove : list MovementStatusElements := [
  MSEHasGuidByte0; MSEHasOrientation; MSEHasMovementFlags2; MSEHasGuidByte5; MSEMovementFlags2;
  MSEHasMovementFlags; MSEZeroBit; MSEHasCounter; MSEHasPitch; MSEHasSplineElevation;
  MSEZeroBit; MSEHasSpline; MSEHasGuidByte7; MSEHasTransportData; MSEHasTransportGuidByte6;
  MSEHasTransportTime2; MSEHasTransportGuidByte0; MSEHasTransportGuidByte3;
  MSEHasTransportTime3; MSEHasTransportGuidByte7; MSEHasTransportGuidByte4;
  MSEHasTransportGuidByte1; MSEHasTransportGuidByte5; MSEHasTransportGuidByte2;
  MSEHasTimestamp; MSEHasGuidByte4; MSEHasGuidByte1; MSEHasFallData; MSEMovementFlags;
  MSEHasFallDirection; MSEIsAlive; MSEHasGuidByte2; MSEHasGuidByte3; MSEHasGuidByte6;
  MSETransportGuidByte4; MSETransportGuidByte3; MSETransportGuidByte1; MSETransportTime3;
  MSETransportPositionX; MSETransportGuidByte0; MSETransportPositionZ; MSETransportPositionY;
  MSETransportOrientation; MSETransportGuidByte2; MSETransportGuidByte6; MSETransportTime2;
  MSETransportTime; MSETransportGuidByte7; MSETransportSeat; MSETransportGuidByte5;
  MSEGuidByte6; MSEIsAlive; MSEFallVerticalSpeed; MSEFallHorizontalSpeed; MSEFallCosAngle;
  MSEFallSinAngle; MSEFallTime; MSEPositionX; MSECounter; MSEGuidByte1; MSEPositionY;
  MSEGuidByte2; MSEGuidByte7; MSEGuidByte5; MSEPositionZ; MSEPitch; MSEGuidByte0; MSEGuidByte4;
  MSESplineElevation; MSETimestamp; MSEGuidByte3; MSEOrientation; MSEEnd
].

Definition MovementFallLand : list MovementStatusElements := [
  MSEPositionY; MSEPositionZ; MSEPositionX; MSEHasGuidByte3; MSEHasSplineElevation;
  MSEHasGuidByte0; MSEHasCounter; MSEHasGuidByte2; MSEHasPitch; MSEHasOrientation; MSEZeroBit;
  MSEZeroBit; MSEHasGuidByte7; MSEIsAlive; MSEHasFallData; MSEHasMovementFlags2;
  MSEHasMovementFlags; MSEHasTimestamp; MSEHasSpline; MSEHasGuidByte6; MSEHasGuidByte1;
  MSEHasTransportData; MSEHasGuidByte4; MSEHasGuidByte5; MSEHasTransportGuidByte6;
  MSEHasTransportGuidByte3; MSEHasTransportGuidByte5; MSEHasTransportTime2;
  MSEHasTransportGuidByte4; MSEHasTransportGuidByte7; MSEHasTransportGuidByte0;
  MSEHasTransportGuidByte1; MSEHasTransportTime3; MSEHasTransportGuidByte2; MSEMovementFlags;
  MSEHasFallDirection; MSEMovementFlags2; MSEGuidByte0; MSECounter; MSEGuidByte4; MSEGuidByte1;
  MSEGuidByte5; MSEGuidByte6; MSEGuidByte2; MSEGuidByte3; MSEGuidByte7; MSESplineElevation;
  MSETransportPositionY; MSETransportGuidByte1; MSETransportGuidByte4; MSETransportGuidByte7;
  MSETransportSeat; MSETransportTime; MSETransportPositionX; MSETransportGuidByte0;
  MSETransportGuidByte6; MSETransportGuidByte2; MSETransportOrientation; MSETransportGuidByte3;
  MSETransportTime3; MSETransportGuidByte5; MSETransportTime2; MSETransportPositionZ;
  MSEOrientation; MSEFallVerticalSpeed; MSEFallHorizontalSpeed; MSEFallSinAngle;
  MSEFallCosAngle; MSEFallTime; MSETimestamp; MSEPitch; MSEIsAlive; MSEEnd
].

Definition MovementHeartBeat : list MovementStatusElements := [
  MSEPositionY; MSEPositionZ; MSEPositionX; MSEHasGuidByte3; MSEHasSplineElevation;
  MSEHasGuidByte0; MSEHasCounter; MSEHasGuidByte2; MSEHasPitch; MSEHasOrientation; MSEZeroBit;
  MSEZeroBit; MSEHasGuidByte7; MSEIsAlive; MSEHasFallData; MSEHasMovementFlags2;
  MSEHasMovementFlags; MSEHasTimestamp; MSEHasSpline; MSEHasGuidByte6; MSEHasGuidByte1;
  MSEHasTransportData; MSEHasGuidByte4; MSEHasGuidByte5; MSEHasTransportGuidByte6;
  MSEHasTransportGuidByte3; MSEHasTransportGuidByte5; MSEHasTransportTime2;
  MSEHasTransportGuidByte4; MSEHasTransportGuidByte7; MSEHasTransportGuidByte0;
  MSEHasTransportGuidByte1; MSEHasTransportTime3; MSEHasTransportGuidByte2; MSEMovementFlags;
  MSEHasFallDirection; MSEMovementFlags2; MSEGuidByte0; MSECounter; MSEGuidByte4; MSEGuidByte1;
  MSEGuidByte5; MSEGuidByte6; MSEGuidByte2; MSEGuidByte3; MSEGuidByte7; MSESplineElevation;
  MSETransportPositionY; MSETransportGuidByte1; MSETransportGuidByte4; MSETransportGuidByte7;
  MSETransportSeat; MSETransportTime; MSETransportPositionX; MSETransportGuidByte0;
  MSETransportGuidByte6; MSETransportGuidByte2; MSETransportOrientation; MSETransportGuidByte3;
  MSETransportTime3; MSETransportGuidByte5; MSETransportTime2; MSETransportPositionZ;
  MSEOrientation; MSEFallVerticalSpeed; MSEFallHorizontalSpeed; MSEFallSinAngle;
  MSEFallCosAngle; MSEFallTime; MSETimestamp; MSEPitch; MSEIsAlive; MSEEnd
].

Definition MovementJump : list MovementStatusElements := [
  MSEPositionY; MSEPositionZ; MSEPositionX; MSEHasGuidByte3; MSEHasSplineElevation;
  MSEHasGuidByte0; MSEHasCounter; MSEHasGuidByte2; MSEHasPitch; MSEHasOrientation; MSEZeroBit;
  MSEZeroBit; MSEHasGuidByte7; MSEIsAlive; MSEHasFallData; MSEHasMovementFlags2;
  MSEHasMovementFlags; MSEHasTimestamp; MSEHasSpline; MSEHasGuidByte6; MSEHasGuidByte1;
  MSEHasTransportData; MSEHasGuidByte4; MSEHasGuidByte5; MSEHasTransportGuidByte6;
  MSEHasTransportGuidByte3; MSEHasTransportGuidByte5; MSEHasTransportTime2;
  MSEHasTransportGuidByte4; MSEHasTransportGuidByte7; MSEHasTransportGuidByte0;
  MSEHasTransportGuidByte1; MSEHasTransportTime3; MSEHasTransportGuidByte2; MSEMovementFlags;
  MSEHasFallDirection; MSEMovementFlags2; MSEGuidByte0; MSECounter; MSEGuidByte4; MSEGuidByte1;
  MSEGuidByte5; MSEGuidByte6; MSEGuidByte2; MSEGuidByte3; MSEGuidByte7; MSESplineElevation;
  MSETransportPositionY; MSETransportGuidByte1; MSETransportGuidByte4; MSETransportGuidByte7;
  MSETransportSeat; MSETransportTime; MSETransportPositionX; MSETransportGuidByte0;
  MSETransportGuidByte6; MSETransportGuidByte2; MSETransportOrientation; MSETransportGuidByte3;
  MSETransportTime3; MSETransportGuidByte5; MSETransportTime2; MSETransportPositionZ;
  MSEOrientation; MSEFallVerticalSpeed; MSEFallHorizontalSpeed; MSEFallSinAngle;
  MSEFallCosAngle; MSEFallTime; MSETimestamp; MSEPitch; MSEIsAlive; MSEEnd
].

Definition MovementSetFacing : list MovementStatusElements := [
  MSEPositionY; MSEPositionZ; MSEPositionX; MSEHasGuidByte3; MSEHasSplineElevation;
  MSEHasGuidByte0; MSEHasCounter; MSEHasGuidByte2; MSEHasPitch; MSEHasOrientation; MSEZeroBit;
  MSEZeroBit; MSEHasGuidByte7; MSEIsAlive; MSEHasFallData; MSEHasMovementFlags2;
  MSEHasMovementFlags; MSEHasTimestamp; MSEHasSpline; MSEHasGuidByte6; MSEHasGuidByte1;
  MSEHasTransportData; MSEHasGuidByte4; MSEHasGuidByte5; MSEHasTransportGuidByte6;
  MSEHasTransportGuidByte3; MSEHasTransportGuidByte5; MSEHasTransportTime2;
  MSEHasTransportGuidByte4; MSEHasTransportGuidByte7; MSEHasTransportGuidByte0;
  MSEHasTransportGuidByte1; MSEHasTransportTime3; MSEHasTransportGuidByte2; MSEMovementFlags;
  MSEHasFallDirection; MSEMovementFlags2; MSEGuidByte0; MSECounter; MSEGuidByte4; MSEGuidByte1;
  MSEGuidByte5; MSEGuidByte6; MSEGuidByte2; MSEGuidByte3; MSEGuidByte7; MSESplineElevation;
  MSETransportPositionY; MSETransportGuidByte1; MSETransportGuidByte4; MSETransportGuidByte7;
  MSETransportSeat; MSETransportTime; MSETransportPositionX; MSETransportGuidByte0;
  MSETransportGuidByte6; MSETransportGuidByte2; MSETransportOrientation; MSETransportGuidByte3;
  MSETransportTime3; MSETransportGuidByte5; MSETransportTime2; MSETransportPositionZ;
  MSEOrientation; MSEFallVerticalSpeed; MSEFallHorizontalSpeed; MSEFallSinAngle;
  MSEFallCosAngle; MSEFallTime; MSETimestamp; MSEPitch; MSEIsAlive; MSEEnd
].

Definition MovementSetPitch : list MovementStatusElements := [
  MSEPositionY; MSEPositionZ; MSEPositionX; MSEHasGuidByte3; MSEHasSplineElevation;
  MSEHasGuidByte0; MSEHasCounter; MSEHasGuidByte2; MSEHasPitch; MSEHasOrientation; MSEZeroBit;
  MSEZeroBit; MSEHasGuidByte7; MSEIsAlive; MSEHasFallData; MSEHasMovementFlags2;
  MSEHasMovementFlags; MSEHasTimestamp; MSEHasSpline; MSEHasGuidByte6; MSEHasGuidByte1;
  MSEHasTransportData; MSEHasGuidByte4; MSEHasGuidByte5; MSEHasTransportGuidByte6;
  MSEHasTransportGuidByte3; MSEHasTransportGuidByte5; MSEHasTransportTime2;
  MSEHasTransportGuidByte4; MSEHasTransportGuidByte7; MSEHasTransportGuidByte0;
  MSEHasTransportGuidByte1; MSEHasTransportTime3; MSEHasTransportGuidByte2; MSEMovementFlags;
  MSEHasFallDirection; MSEMovementFlags2; MSEGuidByte0; MSECounter; MSEGuidByte4; MSEGuidByte1;
  MSEGuidByte5; MSEGuidByte6; MSEGuidByte2; MSEGuidByte3; MSEGuidByte7; MSESplineElevation;
  MSETransportPositionY; MSETransportGuidByte1; MSETransportGuidByte4; MSETransportGuidByte7;
  MSETransportSeat; MSETransportTime; MSETransportPositionX; MSETransportGuidByte0;
  MSETransportGuidByte6; MSETransportGuidByte2; MSETransportOrientation; MSETransportGuidByte3;
  MSETransportTime3; MSETransportGuidByte5; MSETransportTime2; MSETransportPositionZ;
  MSEOrientation; MSEFallVerticalSpeed; MSEFallHorizontalSpeed; MSEFallSinAngle;
  MSEFallCosAngle; MSEFallTime; MSETimestamp; MSEPitch; MSEIsAlive; MSEEnd
].

Definition MovementStartBackward : list MovementStatusElements := [
  MSEPositionY; MSEPositionZ; MSEPositionX; MSEHasGuidByte3; MSEHasSplineElevation;
  MSEHasGuidByte0; MSEHasCounter; MSEHasGuidByte2; MSEHasPitch; MSEHasOrientation; MSEZeroBit;
  MSEZeroBit; MSEHasGuidByte7; MSEIsAlive; MSEHasFallData; MSEHasMovementFlags2;
  MSEHasMovementFlags; MSEHasTimestamp; MSEHasSpline; MSEHasGuidByte6; MSEHasGuidByte1;
  MSEHasTransportData; MSEHasGuidByte4; MSEHasGuidByte5; MSEHasTransportGuidByte6;
  MSEHasTransportGuidByte3; MSEHasTransportGuidByte5; MSEHasTransportTime2;
  MSEHasTransportGuidByte4; MSEHasTransportGuidByte7; MSEHasTransportGuidByte0;
  MSEHasTransportGuidByte1; MSEHasTransportTime3; MSEHasTransportGuidByte2; MSEMovementFlags;
  MSEHasFallDirection; MSEMovementFlags2; MSEGuidByte0; MSECounter; MSEGuidByte4; MSEGuidByte1;
  MSEGuidByte5; MSEGuidByte6; MSEGuidByte2; MSEGuidByte3; MSEGuidByte7; MSESplineElevation;
  MSETransportPositionY; MSETransportGuidByte1; MSETransportGuidByte4; MSETransportGuidByte7;
  MSETransportSeat; MSETransportTime; MSETransportPositionX; MSETransportGuidByte0;
  MSETransportGuidByte6; MSETransportGuidByte2; MSETransportOrientation; MSETransportGuidByte3;
  MSETransportTime3; MSETransportGuidByte5; MSETransportTime2; MSETransportPositionZ;
  MSEOrientation; MSEFallVerticalSpeed; MSEFallHorizontalSpeed; MSEFallSinAngle;
  MSEFallCosAngle; MSEFallTime; MSETimestamp; MSEPitch; MSEIsAlive; MSEEnd
].

Definition MovementStartForward : list MovementStatusElements := [
  MSEPositionY; MSEPositionZ; MSEPositionX; MSEHasGuidByte3; MSEHasSplineElevation;
  MSEHasGuidByte0; MSEHasCounter; MSEHasGuidByte2; MSEHasPitch; MSEHasOrientation; MSEZeroBit;
  MSEZeroBit; MSEHasGuidByte7; MSEIsAlive; MSEHasFallData; MSEHasMovementFlags2;
  MSEHasMovementFlags; MSEHasTimestamp; MSEHasSpline; MSEHasGuidByte6; MSEHasGuidByte1;
  MSEHasTransportData; MSEHasGuidByte4; MSEHasGuidByte5; MSEHasTransportGuidByte6;
  MSEHasTransportGuidByte3; MSEHasTransportGuidByte5; MSEHasTransportTime2;
  MSEHasTransportGuidByte4; MSEHasTransportGuidByte7; MSEHasTransportGuidByte0;
  MSEHasTransportGuidByte1; MSEHasTransportTime3; MSEHasTransportGuidByte2; MSEMovementFlags;
  MSEHasFallDirection; MSEMovementFlags2; MSEGuidByte0; MSECounter; MSEGuidByte4; MSEGuidByte1;
  MSEGuidByte5; MSEGuidByte6; MSEGuidByte2; MSEGuidByte3; MSEGuidByte7; MSESplineElevation;
  MSETransportPositionY; MSETransportGuidByte1; MSETransportGuidByte4; MSETransportGuidByte7;
  MSETransportSeat; MSETransportTime; MSETransportPositionX; MSETransportGuidByte0;
  MSETransportGuidByte6; MSETransportGuidByte2; MSETransportOrientation; MSETransportGuidByte3;
  MSETransportTime3; MSETransportGuidByte5; MSETransportTime2; MSETransportPositionZ;
  MSEOrientation; MSEFallVerticalSpeed; MSEFallHorizontalSpeed; MSEFallSinAngle;
  MSEFallCosAngle; MSEFallTime; MSETimestamp; MSEPitch; MSEIsAlive; MSEEnd
].

Definition MovementStartStrafeLeft : list MovementStatusElements := [
  MSEPositionY; MSEPositionZ; MSEPositionX; MSEHasGuidByte3; MSEHasSplineElevation;
  MSEHasGuidByte0; MSEHasCounter; MSEHasGuidByte2; MSEHasPitch; MSEHasOrientation; MSEZeroBit;
  MSEZeroBit; MSEHasGuidByte7; MSEIsAlive; MSEHasFallData; MSEHasMovementFlags2;
  MSEHasMovementFlags; MSEHasTimestamp; MSEHasSpline; MSEHasGuidByte6; MSEHasGuidByte1;
  MSEHasTransportData; MSEHasGuidByte4; MSEHasGuidByte5; MSEHasTransportGuidByte6;
  MSEHasTransportGuidByte3; MSEHasTransportGuidByte5; MSEHasTransportTime2;
  MSEHasTransportGuidByte4; MSEHasTransportGuidByte7; MSEHasTransportGuidByte0;
  MSEHasTransportGuidByte1; MSEHasTransportTime3; MSEHasTransportGuidByte2; MSEMovementFlags;
  MSEHasFallDirection; MSEMovementFlags2; MSEGuidByte0; MSECounter; MSEGuidByte4; MSEGuidByte1;
  MSEGuidByte5; MSEGuidByte6; MSEGuidByte2; MSEGuidByte3; MSEGuidByte7; MSESplineElevation;
  MSETransportPositionY; MSETransportGuidByte1; MSETransportGuidByte4; MSETransportGuidByte7;
  MSETransportSeat; MSETransportTime; MSETransportPositionX; MSETransportGuidByte0;
  MSETransportGuidByte6; MSETransportGuidByte2; MSETransportOrientation; MSETransportGuidByte3;
  MSETransportTime3; MSETransportGuidByte5; MSETransportTime2; MSETransportPositionZ;
  MSEOrientation; MSEFallVerticalSpeed; MSEFallHorizontalSpeed; MSEFallSinAngle;
  MSEFallCosAngle; MSEFallTime; MSETimestamp; MSEPitch; MSEIsAlive; MSEEnd
].

Definition MovementStartStrafeRight : list MovementStatusElements := [
  MSEPositionY; MSEPositionZ; MSEPositionX; MSEHasGuidByte3; MSEHasSplineElevation;
  MSEHasGuidByte0; MSEHasCounter; MSEHasGuidByte2; MSEHasPitch; MSEHasOrientation; MSEZeroBit;
  MSEZeroBit; MSEHasGuidByte7; MSEIsAlive; MSEHasFallData; MSEHasMovementFlags2;
  MSEHasMovementFlags; MSEHasTimestamp; MSEHasSpline; MSEHasGuidByte6; MSEHasGuidByte1;
  MSEHasTransportData; MSEHasGuidByte4; MSEHasGuidByte5; MSEHasTransportGuidByte6;
  MSEHasTransportGuidByte3; MSEHasTransportGuidByte5; MSEHasTransportTime2;
  MSEHasTransportGuidByte4; MSEHasTransportGuidByte7; MSEHasTransportGuidByte0;
  MSEHasTransportGuidByte1; MSEHasTransportTime3; MSEHasTransportGuidByte2; MSEMovementFlags;
  MSEHasFallDirection; MSEMovementFlags2; MSEGuidByte0; MSECounter; MSEGuidByte4; MSEGuidByte1;
  MSEGuidByte5; MSEGuidByte6; MSEGuidByte2; MSEGuidByte3; MSEGuidByte7; MSESplineElevation;
  MSETransportPositionY; MSETransportGuidByte1; MSETransportGuidByte4; MSETransportGuidByte7;
  MSETransportSeat; MSETransportTime; MSETransportPositionX; MSETransportGuidByte0;
  MSETransportGuidByte6; MSETransportGuidByte2; MSETransportOrientation; MSETransportGuidByte3;
  MSETransportTime3; MSETransportGuidByte5; MSETransportTime2; MSETransportPositionZ;
  MSEOrientation; MSEFallVerticalSpeed; MSEFallHorizontalSpeed; MSEFallSinAngle;
  MSEFallCosAngle; MSEFallTime; MSETimestamp; MSEPitch; MSEIsAlive; MSEEnd
].

Definition MovementStartTurnLeft : list MovementStatusElements := [
  MSEPositionY; MSEPositionZ; MSEPositionX; MSEHasGuidByte3; MSEHasSplineElevation;
  MSEHasGuidByte0; MSEHasCounter; MSEHasGuidByte2; MSEHasPitch; MSEHasOrientation; MSEZeroBit;
  MSEZeroBit; MSEHasGuidByte7; MSEIsAlive; MSEHasFallData; MSEHasMovementFlags2;
  MSEHasMovementFlags; MSEHasTimestamp; MSEHasSpline; MSEHasGuidByte6; MSEHasGuidByte1;
  MSEHasTransportData; MSEHasGuidByte4; MSEHasGuidByte5; MSEHasTransportGuidByte6;
  MSEHasTransportGuidByte3; MSEHasTransportGuidByte5; MSEHasTransportTime2;
  MSEHasTransportGuidByte4; MSEHasTransportGuidByte7; MSEHasTransportGuidByte0;
  MSEHasTransportGuidByte1; MSEHasTransportTime3; MSEHasTransportGuidByte2; MSEMovementFlags;
  MSEHasFallDirection; MSEMovementFlags2; MSEGuidByte0; MSECounter; MSEGuidByte4; MSEGuidByte1;
  MSEGuidByte5; MSEGuidByte6; MSEGuidByte2; MSEGuidByte3; MSEGuidByte7; MSESplineElevation;
  MSETransportPositionY; MSETransportGuidByte1; MSETransportGuidByte4; MSETransportGuidByte7;
  MSETransportSeat; MSETransportTime; MSETransportPositionX; MSETransportGuidByte0;
  MSETransportGuidByte6; MSETransportGuidByte2; MSETransportOrientation; MSETransportGuidByte3;
  MSETransportTime3; MSETransportGuidByte5; MSETransportTime2; MSETransportPositionZ;
  MSEOrientation; MSEFallVerticalSpeed; MSEFallHorizontalSpeed; MSEFallSinAngle;
  MSEFallCosAngle; MSEFallTime; MSETimestamp; MSEPitch; MSEIsAlive; MSEEnd
].

Definition MovementStartTurnRight : list MovementStatusElements := [
  MSEPositionY; MSEPositionZ; MSEPositionX; MSEHasGuidByte3; MSEHasSplineElevation;
  MSEHasGuidByte0; MSEHasCounter; MSEHasGuidByte2; MSEHasPitch; MSEHasOrientation; MSEZeroBit;
  MSEZeroBit; MSEHasGuidByte7; MSEIsAlive; MSEHasFallData; MSEHasMovementFlags2;
  MSEHasMovementFlags; MSEHasTimestamp; MSEHasSpline; MSEHasGuidByte6; MSEHasGuidByte1;
  MSEHasTransportData; MSEHasGuidByte4; MSEHasGuidByte5; MSEHasTransportGuidByte6;
  MSEHasTransportGuidByte3; MSEHasTransportGuidByte5; MSEHasTransportTime2;
  MSEHasTransportGuidByte4; MSEHasTransportGuidByte7; MSEHasTransportGuidByte0;
  MSEHasTransportGuidByte1; MSEHasTransportTime3; MSEHasTransportGuidByte2; MSEMovementFlags;
  MSEHasFallDirection; MSEMovementFlags2; MSEGuidByte0; MSECounter; MSEGuidByte4; MSEGuidByte1;
  MSEGuidByte5; MSEGuidByte6; MSEGuidByte2; MSEGuidByte3; MSEGuidByte7; MSESplineElevation;
  MSETransportPositionY; MSETransportGuidByte1; MSETransportGuidByte4; MSETransportGuidByte7;
  MSETransportSeat; MSETransportTime; MSETransportPositionX; MSETransportGuidByte0;
  MSETransportGuidByte6; MSETransportGuidByte2; MSETransportOrientation; MSETransportGuidByte3;
  MSETransportTime3; MSETransportGuidByte5; MSETransportTime2; MSETransportPositionZ;
  MSEOrientation; MSEFallVerticalSpeed; MSEFallHorizontalSpeed; MSEFallSinAngle;
  MSEFallCosAngle; MSEFallTime; MSETimestamp; MSEPitch; MSEIsAlive; MSEEnd
].

Definition MovementStop : list MovementStatusElements := [
  MSEPositionY; MSEPositionZ; MSEPositionX; MSEHasGuidByte3; MSEHasSplineElevation;
  MSEHasGuidByte0; MSEHasCounter; MSEHasGuidByte2; MSEHasPitch; MSEHasOrientation; MSEZeroBit;
  MSEZeroBit; MSEHasGuidByte7; MSEIsAlive; MSEHasFallData; MSEHasMovementFlags2;
  MSEHasMovementFlags; MSEHasTimestamp; MSEHasSpline; MSEHasGuidByte6; MSEHasGuidByte1;
  MSEHasTransportData; MSEHasGuidByte4; MSEHasGuidByte5; MSEHasTransportGuidByte6;
  MSEHasTransportGuidByte3; MSEHasTransportGuidByte5; MSEHasTransportTime2;
  MSEHasTransportGuidByte4; MSEHasTransportGuidByte7; MSEHasTransportGuidByte0;
  MSEHasTransportGuidByte1; MSEHasTransportTime3; MSEHasTransportGuidByte2; MSEMovementFlags;
  MSEHasFallDirection; MSEMovementFlags2; MSEGuidByte0; MSECounter; MSEGuidByte4; MSEGuidByte1;
  MSEGuidByte5; MSEGuidByte6; MSEGuidByte2; MSEGuidByte3; MSEGuidByte7; MSESplineElevation;
  MSETransportPositionY; MSETransportGuidByte1; MSETransportGuidByte4; MSETransportGuidByte7;
  MSETransportSeat; MSETransportTime; MSETransportPositionX; MSETransportGuidByte0;
  MSETransportGuidByte6; MSETransportGuidByte2; MSETransportOrientation; MSETransportGuidByte3;
  MSETransportTime3; MSETransportGuidByte5; MSETransportTime2; MSETransportPositionZ;
  MSEOrientation; MSEFallVerticalSpeed; MSEFallHorizontalSpeed; MSEFallSinAngle;
  MSEFallCosAngle; MSEFallTime; MSETimestamp; MSEPitch; MSEIsAlive; MSEEnd
].

Definition MovementStopStrafe : list MovementStatusElements := [
  MSEPositionY; MSEPositionZ; MSEPositionX; MSEHasGuidByte3; MSEHasSplineElevation;
  MSEHasGuidByte0; MSEHasCounter; MSEHasGuidByte2; MSEHasPitch; MSEHasOrientation; MSEZeroBit;
  MSEZeroBit; MSEHasGuidByte7; MSEIsAlive; MSEHasFallData; MSEHasMovementFlags2;
  MSEHasMovementFlags; MSEHasTimestamp; MSEHasSpline; MSEHasGuidByte6; MSEHasGuidByte1;
  MSEHasTransportData; MSEHasGuidByte4; MSEHasGuidByte5; MSEHasTransportGuidByte6;
  MSEHasTransportGuidByte3; MSEHasTransportGuidByte5; MSEHasTransportTime2;
  MSEHasTransportGuidByte4; MSEHasTransportGuidByte7; MSEHasTransportGuidByte0;
  MSEHasTransportGuidByte1; MSEHasTransportTime3; MSEHasTransportGuidByte2; MSEMovementFlags;
  MSEHasFallDirection; MSEMovementFlags2; MSEGuidByte0; MSECounter; MSEGuidByte4; MSEGuidByte1;
  MSEGuidByte5; MSEGuidByte6; MSEGuidByte2; MSEGuidByte3; MSEGuidByte7; MSESplineElevation;
  MSETransportPositionY; MSETransportGuidByte1; MSETransportGuidByte4; MSETransportGuidByte7;
  MSETransportSeat; MSETransportTime; MSETransportPositionX; MSETransportGuidByte0;
  MSETransportGuidByte6; MSETransportGuidByte2; MSETransportOrientation; MSETransportGuidByte3;
  MSETransportTime3; MSETransportGuidByte5; MSETransportTime2; MSETransportPositionZ;
  MSEOrientation; MSEFallVerticalSpeed; MSEFallHorizontalSpeed; MSEFallSinAngle;
  MSEFallCosAngle; MSEFallTime; MSETimestamp; MSEPitch; MSEIsAlive; MSEEnd
].

Definition MovementStopTurn : list MovementStatusElements := [
  MSEPositionY; MSEPositionZ; MSEPositionX; MSEHasGuidByte3; MSEHasSplineElevation;
  MSEHasGuidByte0; MSEHasCounter; MSEHasGuidByte2; MSEHasPitch; MSEHasOrientation; MSEZeroBit;
  MSEZeroBit; MSEHasGuidByte7; MSEIsAlive; MSEHasFallData; MSEHasMovementFlags2;
  MSEHasMovementFlags; MSEHasTimestamp; MSEHasSpline; MSEHasGuidByte6; MSEHasGuidByte1;
  MSEHasTransportData; MSEHasGuidByte4; MSEHasGuidByte5; MSEHasTransportGuidByte6;
  MSEHasTransportGuidByte3; MSEHasTransportGuidByte5; MSEHasTransportTime2;
  MSEHasTransportGuidByte4; MSEHasTransportGuidByte7; MSEHasTransportGuidByte0;
  MSEHasTransportGuidByte1; MSEHasTransportTime3; MSEHasTransportGuidByte2; MSEMovementFlags;
  MSEHasFallDirection; MSEMovementFlags2; MSEGuidByte0; MSECounter; MSEGuidByte4; MSEGuidByte1;
  MSEGuidByte5; MSEGuidByte6; MSEGuidByte2; MSEGuidByte3; MSEGuidByte7; MSESplineElevation;
  MSETransportPositionY; MSETransportGuidByte1; MSETransportGuidByte4; MSETransportGuidByte7;
  MSETransportSeat; MSETransportTime; MSETransportPositionX; MSETransportGuidByte0;
  MSETransportGuidByte6; MSETransportGuidByte2; MSETransportOrientation; MSETransportGuidByte3;
  MSETransportTime3; MSETransportGuidByte5; MSETransportTime2; MSETransportPositionZ;
  MSEOrientation; MSEFallVerticalSpeed; MSEFallHorizontalSpeed; MSEFallSinAngle;
  MSEFallCosAngle; MSEFallTime; MSETimestamp; MSEPitch; MSEIsAlive; MSEEnd
].

Definition MovementStartAscend : list MovementStatusElements := [
  MSEPositionY; MSEPositionZ; MSEPositionX; MSEHasGuidByte3; MSEHasSplineElevation;
  MSEHasGuidByte0; MSEHasCounter; MSEHasGuidByte2; MSEHasPitch; MSEHasOrientation; MSEZeroBit;
  MSEZeroBit; MSEHasGuidByte7; MSEIsAlive; MSEHasFallData; MSEHasMovementFlags2;
  MSEHasMovementFlags; MSEHasTimestamp; MSEHasSpline; MSEHasGuidByte6; MSEHasGuidByte1;
  MSEHasTransportData; MSEHasGuidByte4; MSEHasGuidByte5; MSEHasTransportGuidByte6;
  MSEHasTransportGuidByte3; MSEHasTransportGuidByte5; MSEHasTransportTime2;
  MSEHasTransportGuidByte4; MSEHasTransportGuidByte7; MSEHasTransportGuidByte0;
  MSEHasTransportGuidByte1; MSEHasTransportTime3; MSEHasTransportGuidByte2; MSEMovementFlags;
  MSEHasFallDirection; MSEMovementFlags2; MSEGuidByte0; MSECounter; MSEGuidByte4; MSEGuidByte1;
  MSEGuidByte5; MSEGuidByte6; MSEGuidByte2; MSEGuidByte3; MSEGuidByte7; MSESplineElevation;
  MSETransportPositionY; MSETransportGuidByte1; MSETransportGuidByte4; MSETransportGuidByte7;
  MSETransportSeat; MSETransportTime; MSETransportPositionX; MSETransportGuidByte0;
  MSETransportGuidByte6; MSETransportGuidByte2; MSETransportOrientation; MSETransportGuidByte3;
  MSETransportTime3; MSETransportGuidByte5; MSETransportTime2; MSETransportPositionZ;
  MSEOrientation; MSEFallVerticalSpeed; MSEFallHorizontalSpeed; MSEFallSinAngle;
  MSEFallCosAngle; MSEFallTime; MSETimestamp; MSEPitch; MSEIsAlive; MSEEnd
].

Definition MovementStartDescend : list MovementStatusElements := [
  MSEPositionY; MSEPositionZ; MSEPositionX; MSEHasGuidByte3; MSEHasSplineElevation;
  MSEHasGuidByte0; MSEHasCounter; MSEHasGuidByte2; MSEHasPitch; MSEHasOrientation; MSEZeroBit;
  MSEZeroBit; MSEHasGuidByte7; MSEIsAlive; MSEHasFallData; MSEHasMovementFlags2;
  MSEHasMovementFlags; MSEHasTimestamp; MSEHasSpline; MSEHasGuidByte6; MSEHasGuidByte1;
  MSEHasTransportData; MSEHasGuidByte4; MSEHasGuidByte5; MSEHasTransportGuidByte6;
  MSEHasTransportGuidByte3; MSEHasTransportGuidByte5; MSEHasTransportTime2;
  MSEHasTransportGuidByte4; MSEHasTransportGuidByte7; MSEHasTransportGuidByte0;
  MSEHasTransportGuidByte1; MSEHasTransportTime3; MSEHasTransportGuidByte2; MSEMovementFlags;
  MSEHasFallDirection; MSEMovementFlags2; MSEGuidByte0; MSECounter; MSEGuidByte4; MSEGuidByte1;
  MSEGuidByte5; MSEGuidByte6; MSEGuidByte2; MSEGuidByte3; MSEGuidByte7; MSESplineElevation;
  MSETransportPositionY; MSETransportGuidByte1; MSETransportGuidByte4; MSETransportGuidByte7;
  MSETransportSeat; MSETransportTime; MSETransportPositionX; MSETransportGuidByte0;
  MSETransportGuidByte6; MSETransportGuidByte2; MSETransportOrientation; MSETransportGuidByte3;
  MSETransportTime3; MSETransportGuidByte5; MSETransportTime2; MSETransportPositionZ;
  MSEOrientation; MSEFallVerticalSpeed; MSEFallHorizontalSpeed; MSEFallSinAngle;
  MSEFallCosAngle; MSEFallTime; MSETimestamp; MSEPitch; MSEIsAlive; MSEEnd
].

Definition MovementStartSwim : list MovementStatusElements := [
  MSEPositionY; MSEPositionZ; MSEPositionX; MSEHasGuidByte3; MSEHasSplineElevation;
  MSEHasGuidByte0; MSEHasCounter; MSEHasGuidByte2; MSEHasPitch; MSEHasOrientation; MSEZeroBit;
  MSEZeroBit; MSEHasGuidByte7; MSEIsAlive; MSEHasFallData; MSEHasMovementFlags2;
  MSEHasMovementFlags; MSEHasTimestamp; MSEHasSpline; MSEHasGuidByte6; MSEHasGuidByte1;
  MSEHasTransportData; MSEHasGuidByte4; MSEHasGuidByte5; MSEHasTransportGuidByte6;
  MSEHasTransportGuidByte3; MSEHasTransportGuidByte5; MSEHasTransportTime2;
  MSEHasTransportGuidByte4; MSEHasTransportGuidByte7; MSEHasTransportGuidByte0;
  MSEHasTransportGuidByte1; MSEHasTransportTime3; MSEHasTransportGuidByte2; MSEMovementFlags;
  MSEHasFallDirection; MSEMovementFlags2; MSEGuidByte0; MSECounter; MSEGuidByte4; MSEGuidByte1;
  MSEGuidByte5; MSEGuidByte6; MSEGuidByte2; MSEGuidByte3; MSEGuidByte7; MSESplineElevation;
  MSETransportPositionY; MSETransportGuidByte1; MSETransportGuidByte4; MSETransportGuidByte7;
  MSETransportSeat; MSETransportTime; MSETransportPositionX; MSETransportGuidByte0;
  MSETransportGuidByte6; MSETransportGuidByte2; MSETransportOrientation; MSETransportGuidByte3;
  MSETransportTime3; MSETransportGuidByte5; MSETransportTime2; MSETransportPositionZ;
  MSEOrientation; MSEFallVerticalSpeed; MSEFallHorizontalSpeed; MSEFallSinAngle;
  MSEFallCosAngle; MSEFallTime; MSETimestamp; MSEPitch; MSEIsAlive; MSEEnd
].

Definition MovementStopSwim : list MovementStatusElements := [
  MSEPositionY; MSEPositionZ; MSEPositionX; MSEHasGuidByte3; MSEHasSplineElevation;
  MSEHasGuidByte0; MSEHasCounter; MSEHasGuidByte2; MSEHasPitch; MSEHasOrientation; MSEZeroBit;
  MSEZeroBit; MSEHasGuidByte7; MSEIsAlive; MSEHasFallData; MSEHasMovementFlags2;
  MSEHasMovementFlags; MSEHasTimestamp; MSEHasSpline; MSEHasGuidByte6; MSEHasGuidByte1;
  MSEHasTransportData; MSEHasGuidByte4; MSEHasGuidByte5; MSEHasTransportGuidByte6;
  MSEHasTransportGuidByte3; MSEHasTransportGuidByte5; MSEHasTransportTime2;
  MSEHasTransportGuidByte4; MSEHasTransportGuidByte7; MSEHasTransportGuidByte0;
  MSEHasTransportGuidByte1; MSEHasTransportTime3; MSEHasTransportGuidByte2; MSEMovementFlags;
  MSEHasFallDirection; MSEMovementFlags2; MSEGuidByte0; MSECounter; MSEGuidByte4; MSEGuidByte1;
  MSEGuidByte5; MSEGuidByte6; MSEGuidByte2; MSEGuidByte3; MSEGuidByte7; MSESplineElevation;
  MSETransportPositionY; MSETransportGuidByte1; MSETransportGuidByte4; MSETransportGuidByte7;
  MSETransportSeat; MSETransportTime; MSETransportPositionX; MSETransportGuidByte0;
  MSETransportGuidByte6; MSETransportGuidByte2; MSETransportOrientation; MSETransportGuidByte3;
  MSETransportTime3; MSETransportGuidByte5; MSETransportTime2; MSETransportPositionZ;
  MSEOrientation; MSEFallVerticalSpeed; MSEFallHorizontalSpeed; MSEFallSinAngle;
  MSEFallCosAngle; MSEFallTime; MSETimestamp; MSEPitch; MSEIsAlive; MSEEnd
].

Definition MovementStopAscend : list MovementStatusElements := [
  MSEPositionY; MSEPositionZ; MSEPositionX; MSEHasGuidByte3; MSEHasSplineElevation;
  MSEHasGuidByte0; MSEHasCounter; MSEHasGuidByte2; MSEHasPitch; MSEHasOrientation; MSEZeroBit;
  MSEZeroBit; MSEHasGuidByte7; MSEIsAlive; MSEHasFallData; MSEHasMovementFlags2;
  MSEHasMovementFlags; MSEHasTimestamp; MSEHasSpline; MSEHasGuidByte6; MSEHasGuidByte1;
  MSEHasTransportData; MSEHasGuidByte4; MSEHasGuidByte5; MSEHasTransportGuidByte6;
  MSEHasTransportGuidByte3; MSEHasTransportGuidByte5; MSEHasTransportTime2;
  MSEHasTransportGuidByte4; MSEHasTransportGuidByte7; MSEHasTransportGuidByte0;
  MSEHasTransportGuidByte1; MSEHasTransportTime3; MSEHasTransportGuidByte2; MSEMovementFlags;
  MSEHasFallDirection; MSEMovementFlags2; MSEGuidByte0; MSECounter; MSEGuidByte4; MSEGuidByte1;
  MSEGuidByte5; MSEGuidByte6; MSEGuidByte2; MSEGuidByte3; MSEGuidByte7; MSESplineElevation;
  MSETransportPositionY; MSETransportGuidByte1; MSETransportGuidByte4; MSETransportGuidByte7;
  MSETransportSeat; MSETransportTime; MSETransportPositionX; MSETransportGuidByte0;
  MSETransportGuidByte6; MSETransportGuidByte2; MSETransportOrientation; MSETransportGuidByte3;
  MSETransportTime3; MSETransportGuidByte5; MSETransportTime2; MSETransportPositionZ;
  MSEOrientation; MSEFallVerticalSpeed; MSEFallHorizontalSpeed; MSEFallSinAngle;
  MSEFallCosAngle; MSEFallTime; MSETimestamp; MSEPitch; MSEIsAlive; MSEEnd
].

Definition MovementStopPitch : list MovementStatusElements := [
  MSEPositionY; MSEPositionZ; MSEPositionX; MSEHasGuidByte3; MSEHasSplineElevation;
  MSEHasGuidByte0; MSEHasCounter; MSEHasGuidByte2; MSEHasPitch; MSEHasOrientation; MSEZeroBit;
  MSEZeroBit; MSEHasGuidByte7; MSEIsAlive; MSEHasFallData; MSEHasMovementFlags2;
  MSEHasMovementFlags; MSEHasTimestamp; MSEHasSpline; MSEHasGuidByte6; MSEHasGuidByte1;
  MSEHasTransportData; MSEHasGuidByte4; MSEHasGuidByte5; MSEHasTransportGuidByte6;
  MSEHasTransportGuidByte3; MSEHasTransportGuidByte5; MSEHasTransportTime2;
  MSEHasTransportGuidByte4; MSEHasTransportGuidByte7; MSEHasTransportGuidByte0;
  MSEHasTransportGuidByte1; MSEHasTransportTime3; MSEHasTransportGuidByte2; MSEMovementFlags;
  MSEHasFallDirection; MSEMovementFlags2; MSEGuidByte0; MSECounter; MSEGuidByte4; MSEGuidByte1;
  MSEGuidByte5; MSEGuidByte6; MSEGuidByte2; MSEGuidByte3; MSEGuidByte7; MSESplineElevation;
  MSETransportPositionY; MSETransportGuidByte1; MSETransportGuidByte4; MSETransportGuidByte7;
  MSETransportSeat; MSETransportTime; MSETransportPositionX; MSETransportGuidByte0;
  MSETransportGuidByte6; MSETransportGuidByte2; MSETransportOrientation; MSETransportGuidByte3;
  MSETransportTime3; MSETransportGuidByte5; MSETransportTime2; MSETransportPositionZ;
  MSEOrientation; MSEFallVerticalSpeed; MSEFallHorizontalSpeed; MSEFallSinAngle;
  MSEFallCosAngle; MSEFallTime; MSETimestamp; MSEPitch; MSEIsAlive; MSEEnd
].

Definition MovementStartPitchDown : list MovementStatusElements := [
  MSEPositionY; MSEPositionZ; MSEPositionX; MSEHasGuidByte3; MSEHasSplineElevation;
  MSEHasGuidByte0; MSEHasCounter; MSEHasGuidByte2; MSEHasPitch; MSEHasOrientation; MSEZeroBit;
  MSEZeroBit; MSEHasGuidByte7; MSEIsAlive; MSEHasFallData; MSEHasMovementFlags2;
  MSEHasMovementFlags; MSEHasTimestamp; MSEHasSpline; MSEHasGuidByte6; MSEHasGuidByte1;
  MSEHasTransportData; MSEHasGuidByte4; MSEHasGuidByte5; MSEHasTransportGuidByte6;
  MSEHasTransportGuidByte3; MSEHasTransportGuidByte5; MSEHasTransportTime2;
  MSEHasTransportGuidByte4; MSEHasTransportGuidByte7; MSEHasTransportGuidByte0;
  MSEHasTransportGuidByte1; MSEHasTransportTime3; MSEHasTransportGuidByte2; MSEMovementFlags;
  MSEHasFallDirection; MSEMovementFlags2; MSEGuidByte0; MSECounter; MSEGuidByte4; MSEGuidByte1;
  MSEGuidByte5; MSEGuidByte6; MSEGuidByte2; MSEGuidByte3; MSEGuidByte7; MSESplineElevation;
  MSETransportPositionY; MSETransportGuidByte1; MSETransportGuidByte4; MSETransportGuidByte7;
  MSETransportSeat; MSETransportTime; MSETransportPositionX; MSETransportGuidByte0;
  MSETransportGuidByte6; MSETransportGuidByte2; MSETransportOrientation; MSETransportGuidByte3;
  MSETransportTime3; MSETransportGuidByte5; MSETransportTime2; MSETransportPositionZ;
  MSEOrientation; MSEFallVerticalSpeed; MSEFallHorizontalSpeed; MSEFallSinAngle;
  MSEFallCosAngle; MSEFallTime; MSETimestamp; MSEPitch; MSEIsAlive; MSEEnd
].

Definition MovementStartPitchUp : list MovementStatusElements := [
  MSEPositionY; MSEPositionZ; MSEPositionX; MSEHasGuidByte3; MSEHasSplineElevation;
  MSEHasGuidByte0; MSEHasCounter; MSEHasGuidByte2; MSEHasPitch; MSEHasOrientation; MSEZeroBit;
  MSEZeroBit; MSEHasGuidByte7; MSEIsAlive; MSEHasFallData; MSEHasMovementFlags2;
  MSEHasMovementFlags; MSEHasTimestamp; MSEHasSpline; MSEHasGuidByte6; MSEHasGuidByte1;
  MSEHasTransportData; MSEHasGuidByte4; MSEHasGuidByte5; MSEHasTransportGuidByte6;
  MSEHasTransportGuidByte3; MSEHasTransportGuidByte5; MSEHasTransportTime2;
  MSEHasTransportGuidByte4; MSEHasTransportGuidByte7; MSEHasTransportGuidByte0;
  MSEHasTransportGuidByte1; MSEHasTransportTime3; MSEHasTransportGuidByte2; MSEMovementFlags;
  MSEHasFallDirection; MSEMovementFlags2; MSEGuidByte0; MSECounter; MSEGuidByte4; MSEGuidByte1;
  MSEGuidByte5; MSEGuidByte6; MSEGuidByte2; MSEGuidByte3; MSEGuidByte7; MSESplineElevation;
  MSETransportPositionY; MSETransportGuidByte1; MSETransportGuidByte4; MSETransportGuidByte7;
  MSETransportSeat; MSETransportTime; MSETransportPositionX; MSETransportGuidByte0;
  MSETransportGuidByte6; MSETransportGuidByte2; MSETransportOrientation; MSETransportGuidByte3;
  MSETransportTime3; MSETransportGuidByte5; MSETransportTime2; MSETransportPositionZ;
  MSEOrientation; MSEFallVerticalSpeed; MSEFallHorizontalSpeed; MSEFallSinAngle;
  MSEFallCosAngle; MSEFallTime; MSETimestamp; MSEPitch; MSEIsAlive; MSEEnd
].

Definition MoveChngTransport : list MovementStatusElements := [
  MSEPositionY; MSEPositionX; MSEPositionZ; MSEHasGuidByte4; MSEHasGuidByte0; MSEHasGuidByte2;
  MSEHasTransportData; MSEHasSpline; MSEHasOrientation; MSEHasGuidByte6; MSEHasTimestamp;
  MSEHasGuidByte5; MSEHasGuidByte7; MSEHasPitch; MSEZeroBit; MSEHasGuidByte3;
  MSEHasSplineElevation; MSEHasGuidByte1; MSEHasFallData; MSEHasMovementFlags;
  MSEHasMovementFlags2; MSEHasTransportGuidByte3; MSEHasTransportTime3;
  MSEHasTransportGuidByte4; MSEHasTransportGuidByte1; MSEHasTransportGuidByte6;
  MSEHasTransportGuidByte2; MSEHasTransportTime2; MSEHasTransportGuidByte0;
  MSEHasTransportGuidByte7; MSEHasTransportGuidByte5; MSEMovementFlags; MSEMovementFlags2;
  MSEHasFallDirection; MSEGuidByte7; MSEGuidByte5; MSEGuidByte1; MSEGuidByte2; MSEGuidByte6;
  MSEGuidByte4; MSEGuidByte0; MSEGuidByte3; MSETransportPositionY; MSETransportSeat;
  MSETransportGuidByte1; MSETransportGuidByte0; MSETransportGuidByte2; MSETransportGuidByte3;
  MSETransportGuidByte6; MSETransportPositionZ; MSETransportPositionX; MSETransportTime3;
  MSETransportTime; MSETransportGuidByte7; MSETransportGuidByte5; MSETransportGuidByte4;
  MSETransportOrientation; MSETransportTime2; MSEFallTime; MSEFallHorizontalSpeed;
  MSEFallCosAngle; MSEFallSinAngle; MSEFallVerticalSpeed; MSEOrientation; MSEPitch;
  MSESplineElevation; MSETimestamp; MSEEnd
].

Definition MoveSplineDone : list MovementStatusElements := [
  MSEPositionY; MSEPositionX; MSEPositionZ; MSEHasGuidByte6; MSEHasOrientation; MSEHasFallData;
  MSEHasTimestamp; MSEHasGuidByte2; MSEHasSplineElevation; MSEHasGuidByte4;
  MSEHasTransportData; MSEHasGuidByte3; MSEHasMovementFlags; MSEHasGuidByte0; MSEZeroBit;
  MSEHasGuidByte1; MSEHasGuidByte5; MSEHasPitch; MSEHasSpline; MSEHasMovementFlags2;
  MSEHasGuidByte7; MSEHasTransportGuidByte1; MSEHasTransportGuidByte7;
  MSEHasTransportGuidByte5; MSEHasTransportGuidByte3; MSEHasTransportGuidByte4;
  MSEHasTransportGuidByte6; MSEHasTransportTime2; MSEHasTransportGuidByte2;
  MSEHasTransportTime3; MSEHasTransportGuidByte0; MSEHasFallDirection; MSEMovementFlags2;
  MSEMovementFlags; MSEGuidByte7; MSEGuidByte4; MSEGuidByte5; MSEGuidByte6; MSEGuidByte0;
  MSEGuidByte1; MSEGuidByte2; MSEGuidByte3; MSEFallVerticalSpeed; MSEFallSinAngle;
  MSEFallCosAngle; MSEFallHorizontalSpeed; MSEFallTime; MSEPitch; MSEOrientation;
  MSETransportGuidByte1; MSETransportTime3; MSETransportGuidByte7; MSETransportTime;
  MSETransportPositionY; MSETransportPositionX; MSETransportPositionZ; MSETransportSeat;
  MSETransportOrientation; MSETransportGuidByte0; MSETransportTime2; MSETransportGuidByte2;
  MSETransportGuidByte3; MSETransportGuidByte5; MSETransportGuidByte6; MSETransportGuidByte4;
  MSETimestamp; MSESplineElevation; MSEEnd
].

Definition MoveNotActiveMover : list MovementStatusElements := [
  MSEPositionZ; MSEPositionX; MSEPositionY; MSEHasMovementFlags2; MSEHasTransportData;
  MSEHasGuidByte6; MSEHasSplineElevation; MSEHasGuidByte3; MSEZeroBit; MSEHasTimestamp;
  MSEHasGuidByte0; MSEHasOrientation; MSEHasGuidByte5; MSEHasPitch; MSEHasGuidByte1;
  MSEHasGuidByte4; MSEHasGuidByte7; MSEHasSpline; MSEHasGuidByte2; MSEHasFallData;
  MSEHasMovementFlags; MSEHasTransportGuidByte4; MSEHasTransportGuidByte0;
  MSEHasTransportGuidByte1; MSEHasTransportGuidByte6; MSEHasTransportGuidByte2;
  MSEHasTransportTime3; MSEHasTransportGuidByte5; MSEHasTransportGuidByte7;
  MSEHasTransportTime2; MSEHasTransportGuidByte3; MSEHasFallDirection; MSEMovementFlags;
  MSEMovementFlags2; MSEGuidByte1; MSEGuidByte0; MSEGuidByte4; MSEGuidByte2; MSEGuidByte7;
  MSEGuidByte5; MSEGuidByte6; MSEGuidByte3; MSEFallVerticalSpeed; MSEFallCosAngle;
  MSEFallSinAngle; MSEFallHorizontalSpeed; MSEFallTime; MSETransportTime3;
  MSETransportGuidByte1; MSETransportTime2; MSETransportOrientation; MSETransportGuidByte0;
  MSETransportSeat; MSETransportGuidByte4; MSETransportGuidByte6; MSETransportGuidByte3;
  MSETransportGuidByte5; MSETransportPositionY; MSETransportPositionX; MSETransportGuidByte2;
  MSETransportPositionZ; MSETransportGuidByte7; MSETransportTime; MSETimestamp;
  MSESplineElevation; MSEPitch; MSEOrientation; MSEEnd
].

Definition DismissControlledVehicle : list MovementStatusElements := [
  MSEPositionY; MSEPositionZ; MSEPositionX; MSEHasSplineElevation; MSEHasFallData;
  MSEHasTransportData; MSEHasGuidByte4; MSEHasGuidByte7; MSEHasMovementFlags2; MSEHasGuidByte2;
  MSEHasOrientation; MSEHasGuidByte0; MSEHasGuidByte6; MSEHasPitch; MSEHasTimestamp;
  MSEHasGuidByte1; MSEZeroBit; MSEHasSpline; MSEHasGuidByte3; MSEHasMovementFlags;
  MSEHasGuidByte5; MSEHasTransportGuidByte5; MSEHasTransportTime3; MSEHasTransportGuidByte2;
  MSEHasTransportGuidByte0; MSEHasTransportGuidByte7; MSEHasTransportGuidByte3;
  MSEHasTransportGuidByte4; MSEHasTransportGuidByte1; MSEHasTransportGuidByte6;
  MSEHasTransportTime2; MSEMovementFlags2; MSEHasFallDirection; MSEMovementFlags; MSEGuidByte6;
  MSEGuidByte3; MSEGuidByte1; MSEGuidByte5; MSEGuidByte2; MSEGuidByte4; MSEGuidByte7;
  MSEGuidByte0; MSETimestamp; MSETransportTime3; MSETransportGuidByte4; MSETransportGuidByte7;
  MSETransportTime2; MSETransportGuidByte6; MSETransportTime; MSETransportPositionZ;
  MSETransportGuidByte0; MSETransportPositionX; MSETransportGuidByte3; MSETransportSeat;
  MSETransportPositionY; MSETransportOrientation; MSETransportGuidByte1; MSETransportGuidByte5;
  MSETransportGuidByte2; MSEFallTime; MSEFallHorizontalSpeed; MSEFallSinAngle; MSEFallCosAngle;
  MSEFallVerticalSpeed; MSEOrientation; MSESplineElevation; MSEPitch; MSEEnd
].

Definition MoveUpdateTeleport : list MovementStatusElements := [
  MSEPositionZ; MSEPositionY; MSEPositionX; MSEHasOrientation; MSEHasSpline;
  MSEHasMovementFlags; MSEHasGuidByte2; MSEHasGuidByte4; MSEHasGuidByte6; MSEHasFallData;
  MSEHasGuidByte0; MSEHasTransportData; MSEHasGuidByte5; MSEHasTransportGuidByte1;
  MSEHasTransportGuidByte4; MSEHasTransportGuidByte5; MSEHasTransportGuidByte3;
  MSEHasTransportGuidByte0; MSEHasTransportTime2; MSEHasTransportGuidByte7;
  MSEHasTransportGuidByte6; MSEHasTransportTime3; MSEHasTransportGuidByte2; MSEZeroBit;
  MSEHasGuidByte7; MSEHasGuidByte3; MSEHasPitch; MSEHasMovementFlags2; MSEHasTimestamp;
  MSEHasFallDirection; MSEMovementFlags2; MSEHasSplineElevation; MSEMovementFlags;
  MSEHasGuidByte1; MSEGuidByte7; MSETransportGuidByte3; MSETransportGuidByte4;
  MSETransportOrientation; MSETransportTime3; MSETransportGuidByte1; MSETransportTime2;
  MSETransportPositionZ; MSETransportGuidByte7; MSETransportGuidByte0; MSETransportGuidByte6;
  MSETransportGuidByte5; MSETransportGuidByte2; MSETransportSeat; MSETransportTime;
  MSETransportPositionY; MSETransportPositionX; MSEGuidByte6; MSEPitch; MSESplineElevation;
  MSEOrientation; MSEGuidByte2; MSEGuidByte3; MSEGuidByte1; MSEFallTime;
  MSEFallHorizontalSpeed; MSEFallSinAngle; MSEFallCosAngle; MSEFallVerticalSpeed; MSEGuidByte5;
  MSEGuidByte4; MSETimestamp; MSEGuidByte0; MSEEnd
].

Definition MovementSetRunMode : list MovementStatusElements := [
  MSEPositionY; MSEPositionX; MSEPositionZ; MSEHasTimestamp; MSEHasMovementFlags2;
  MSEHasGuidByte1; MSEHasSpline; MSEHasMovementFlags; MSEHasGuidByte7; MSEHasTransportData;
  MSEZeroBit; MSEHasGuidByte0; MSEHasGuidByte3; MSEHasSplineElevation; MSEHasGuidByte5;
  MSEHasPitch; MSEHasGuidByte6; MSEHasGuidByte4; MSEHasFallData; MSEHasOrientation;
  MSEHasGuidByte2; MSEHasTransportGuidByte6; MSEHasTransportGuidByte4; MSEHasTransportTime3;
  MSEHasTransportGuidByte5; MSEHasTransportGuidByte3; MSEHasTransportGuidByte1;
  MSEHasTransportTime2; MSEHasTransportGuidByte7; MSEHasTransportGuidByte0;
  MSEHasTransportGuidByte2; MSEHasFallDirection; MSEMovementFlags2; MSEMovementFlags;
  MSEGuidByte3; MSEGuidByte6; MSEGuidByte0; MSEGuidByte7; MSEGuidByte4; MSEGuidByte1;
  MSEGuidByte5; MSEGuidByte2; MSEPitch; MSETransportTime2; MSETransportGuidByte3;
  MSETransportPositionX; MSETransportSeat; MSETransportGuidByte5; MSETransportGuidByte1;
  MSETransportPositionZ; MSETransportGuidByte2; MSETransportGuidByte7; MSETransportOrientation;
  MSETransportGuidByte4; MSETransportTime; MSETransportTime3; MSETransportGuidByte0;
  MSETransportPositionY; MSETransportGuidByte6; MSEFallSinAngle; MSEFallHorizontalSpeed;
  MSEFallCosAngle; MSEFallTime; MSEFallVerticalSpeed; MSESplineElevation; MSETimestamp;
  MSEOrientation; MSEEnd
].

Definition MovementSetWalkMode : list MovementStatusElements := [
  MSEPositionY; MSEPositionX; MSEPositionZ; MSEHasGuidByte6; MSEHasSpline; MSEHasTimestamp;
  MSEHasGuidByte0; MSEHasGuidByte1; MSEHasMovementFlags; MSEHasPitch; MSEHasGuidByte7;
  MSEHasSplineElevation; MSEHasGuidByte4; MSEHasOrientation; MSEHasTransportData;
  MSEHasGuidByte2; MSEHasGuidByte5; MSEHasGuidByte3; MSEZeroBit; MSEHasMovementFlags2;
  MSEHasFallData; MSEHasTransportGuidByte2; MSEHasTransportGuidByte0; MSEHasTransportGuidByte6;
  MSEHasTransportGuidByte1; MSEHasTransportGuidByte3; MSEHasTransportTime2;
  MSEHasTransportGuidByte5; MSEHasTransportTime3; MSEHasTransportGuidByte4;
  MSEHasTransportGuidByte7; MSEHasFallDirection; MSEMovementFlags; MSEMovementFlags2;
  MSEGuidByte5; MSEGuidByte6; MSEGuidByte4; MSEGuidByte7; MSEGuidByte3; MSEGuidByte0;
  MSEGuidByte2; MSEGuidByte1; MSETransportGuidByte2; MSETransportGuidByte5; MSETransportSeat;
  MSETransportPositionZ; MSETransportGuidByte3; MSETransportGuidByte6; MSETransportGuidByte0;
  MSETransportTime; MSETransportGuidByte4; MSETransportTime2; MSETransportOrientation;
  MSETransportPositionX; MSETransportTime3; MSETransportGuidByte7; MSETransportPositionY;
  MSETransportGuidByte1; MSEFallCosAngle; MSEFallHorizontalSpeed; MSEFallSinAngle;
  MSEFallVerticalSpeed; MSEFallTime; MSESplineElevation; MSEPitch; MSETimestamp;
  MSEOrientation; MSEEnd
].

Definition MovementSetCanFly : list MovementStatusElements := [
  MSEPositionZ; MSEPositionX; MSEPositionY; MSEHasTransportData; MSEHasGuidByte1;
  MSEHasGuidByte6; MSEHasGuidByte4; MSEHasGuidByte2; MSEHasFallData; MSEHasGuidByte0;
  MSEHasMovementFlags; MSEHasGuidByte3; MSEHasMovementFlags2; MSEHasGuidByte5; MSEHasTimestamp;
  MSEHasSplineElevation; MSEHasSpline; MSEHasOrientation; MSEHasGuidByte7; MSEZeroBit;
  MSEHasPitch; MSEHasTransportGuidByte3; MSEHasTransportTime2; MSEHasTransportGuidByte6;
  MSEHasTransportGuidByte0; MSEHasTransportGuidByte7; MSEHasTransportGuidByte4;
  MSEHasTransportTime3; MSEHasTransportGuidByte1; MSEHasTransportGuidByte2;
  MSEHasTransportGuidByte5; MSEMovementFlags2; MSEHasFallDirection; MSEMovementFlags;
  MSEGuidByte2; MSEGuidByte0; MSEGuidByte4; MSEGuidByte7; MSEGuidByte5; MSEGuidByte1;
  MSEGuidByte3; MSEGuidByte6; MSETransportPositionZ; MSETransportGuidByte3;
  MSETransportGuidByte5; MSETransportGuidByte4; MSETransportSeat; MSETransportPositionX;
  MSETransportGuidByte2; MSETransportTime2; MSETransportPositionY; MSETransportGuidByte1;
  MSETransportTime; MSETransportGuidByte7; MSETransportGuidByte0; MSETransportOrientation;
  MSETransportGuidByte6; MSETransportTime3; MSESplineElevation; MSEFallCosAngle;
  MSEFallSinAngle; MSEFallHorizontalSpeed; MSEFallVerticalSpeed; MSEFallTime; MSEPitch;
  MSETimestamp; MSEOrientation; MSEEnd
].

Definition MovementSetCanTransitionBetweenSwimAndFlyAck : list MovementStatusElements := [
  MSEPositionZ; MSEPositionY; MSECounter; MSEPositionX; MSEHasGuidByte3; MSEHasOrientation;
  MSEHasTransportData; MSEHasMovementFlags; MSEHasMovementFlags2; MSEHasSplineElevation;
  MSEHasTimestamp; MSEHasSpline; MSEZeroBit; MSEHasFallData; MSEHasGuidByte5; MSEHasGuidByte0;
  MSEHasGuidByte1; MSEHasGuidByte4; MSEHasGuidByte6; MSEHasGuidByte2; MSEHasPitch;
  MSEHasGuidByte7; MSEHasTransportGuidByte4; MSEHasTransportGuidByte2; MSEHasTransportTime2;
  MSEHasTransportGuidByte0; MSEHasTransportGuidByte3; MSEHasTransportGuidByte6;
  MSEHasTransportGuidByte5; MSEHasTransportTime3; MSEHasTransportGuidByte7;
  MSEHasTransportGuidByte1; MSEMovementFlags2; MSEHasFallDirection; MSEMovementFlags;
  MSEGuidByte3; MSEGuidByte2; MSEGuidByte0; MSEGuidByte4; MSEGuidByte1; MSEGuidByte5;
  MSEGuidByte7; MSEGuidByte6; MSEFallTime; MSEFallHorizontalSpeed; MSEFallSinAngle;
  MSEFallCosAngle; MSEFallVerticalSpeed; MSETransportPositionY; MSETransportPositionZ;
  MSETransportGuidByte5; MSETransportGuidByte1; MSETransportGuidByte4; MSETransportTime;
  MSETransportSeat; MSETransportGuidByte3; MSETransportGuidByte0; MSETransportGuidByte2;
  MSETransportGuidByte7; MSETransportPositionX; MSETransportTime2; MSETransportGuidByte6;
  MSETransportOrientation; MSETransportTime3; MSEPitch; MSEOrientation; MSETimestamp;
  MSESplineElevation; MSEEnd
].

Definition MovementUpdateSwimSpeed : list MovementStatusElements := [
  MSEHasMovementFlags; MSEHasGuidByte2; MSEMovementFlags; MSEHasGuidByte3; MSEZeroBit;
  MSEHasGuidByte7; MSEHasFallDirection; MSEHasTransportGuidByte4; MSEHasTransportGuidByte5;
  MSEHasTransportGuidByte3; MSEHasTransportGuidByte2; MSEHasTransportGuidByte0;
  MSEHasTransportGuidByte1; MSEHasTransportGuidByte6; MSEHasTransportGuidByte7;
  MSEHasGuidByte6; MSEHasGuidByte0; MSEHasGuidByte4; MSEHasGuidByte5; MSEHasOrientation;
  MSEHasGuidByte1; MSETransportGuidByte2; MSETransportPositionX; MSETransportGuidByte6;
  MSETransportOrientation; MSETransportGuidByte0; MSETransportGuidByte4; MSETransportPositionY;
  MSETransportTime; MSETransportGuidByte1; MSETransportGuidByte7; MSETransportPositionZ;
  MSETransportSeat; MSETransportGuidByte3; MSETransportGuidByte5; MSEPositionX;
  MSEFallCosAngle; MSEFallHorizontalSpeed; MSEFallSinAngle; MSEFallTime; MSEFallVerticalSpeed;
  MSEGuidByte7; MSETimestamp; MSEPositionY; MSEPositionZ; MSEExtraElement; MSEGuidByte4;
  MSEOrientation; MSEGuidByte2; MSEGuidByte3; MSEGuidByte0; MSEGuidByte6; MSEGuidByte1;
  MSEGuidByte5; MSEPitch; MSEEnd
].

Definition MovementUpdateRunSpeed : list MovementStatusElements := [
  MSEPositionZ; MSEPositionX; MSEPositionY; MSEExtraElement; MSEHasGuidByte6;
  MSEHasMovementFlags2; MSEHasPitch; MSEHasGuidByte2; MSEHasGuidByte5; MSEHasSplineElevation;
  MSEHasSpline; MSEHasMovementFlags; MSEHasTimestamp; MSEHasGuidByte1; MSEMovementFlags2;
  MSEHasGuidByte3; MSEMovementFlags; MSEHasGuidByte7; MSEHasGuidByte0; MSEHasOrientation;
  MSEHasTransportData; MSEHasTransportGuidByte5; MSEHasTransportTime2; MSEHasTransportTime3;
  MSEHasTransportGuidByte7; MSEHasTransportGuidByte4; MSEHasTransportGuidByte2;
  MSEHasTransportGuidByte3; MSEHasTransportGuidByte6; MSEHasTransportGuidByte1;
  MSEHasTransportGuidByte0; MSEHasFallData; MSEHasFallDirection; MSEHasGuidByte4; MSEZeroBit;
  MSETransportGuidByte4; MSETransportGuidByte5; MSETransportPositionX; MSETransportOrientation;
  MSETransportGuidByte1; MSETransportGuidByte0; MSETransportGuidByte6; MSETransportTime;
  MSETransportGuidByte7; MSETransportSeat; MSETransportTime2; MSETransportPositionY;
  MSETransportGuidByte3; MSETransportGuidByte2; MSETransportTime3; MSETransportPositionZ;
  MSETimestamp; MSEFallSinAngle; MSEFallHorizontalSpeed; MSEFallCosAngle; MSEFallVerticalSpeed;
  MSEFallTime; MSEPitch; MSEGuidByte6; MSESplineElevation; MSEGuidByte5; MSEGuidByte7;
  MSEGuidByte4; MSEOrientation; MSEGuidByte0; MSEGuidByte3; MSEGuidByte2; MSEGuidByte1; MSEEnd
].

Definition MovementUpdateFlightSpeed : list MovementStatusElements := [
  MSEPositionY; MSEExtraElement; MSEPositionX; MSEPositionZ; MSEHasMovementFlags;
  MSEHasGuidByte4; MSEZeroBit; MSEHasGuidByte5; MSEHasGuidByte1; MSEMovementFlags;
  MSEHasGuidByte2; MSEHasOrientation; MSEHasGuidByte7; MSEHasTransportGuidByte3;
  MSEHasTransportGuidByte5; MSEHasTransportGuidByte1; MSEHasTransportGuidByte0;
  MSEHasTransportGuidByte6; MSEHasTransportGuidByte4; MSEHasTransportGuidByte2;
  MSEHasTransportGuidByte7; MSEHasGuidByte6; MSEHasGuidByte3; MSEHasFallDirection;
  MSEHasGuidByte0; MSEPitch; MSEGuidByte0; MSEGuidByte5; MSETransportOrientation;
  MSETransportTime; MSETransportGuidByte5; MSETransportGuidByte4; MSETransportGuidByte6;
  MSETransportPositionZ; MSETransportGuidByte7; MSETransportGuidByte0; MSETransportGuidByte2;
  MSETransportGuidByte3; MSETransportPositionY; MSETransportGuidByte1; MSETransportSeat;
  MSETransportPositionX; MSEFallCosAngle; MSEFallHorizontalSpeed; MSEFallSinAngle;
  MSEFallVerticalSpeed; MSEFallTime; MSEGuidByte1; MSEGuidByte6; MSETimestamp; MSEGuidByte7;
  MSEGuidByte2; MSEGuidByte4; MSEOrientation; MSEGuidByte3; MSEEnd
].

Definition MovementUpdateCollisionHeight : list MovementStatusElements := [
  MSEPositionZ; MSEExtraElement; MSEPositionX; MSEPositionY; MSEHasGuidByte6; MSEHasGuidByte7;
  MSEHasTransportGuidByte6; MSEHasTransportGuidByte4; MSEHasTransportGuidByte3;
  MSEHasTransportGuidByte7; MSEHasTransportGuidByte5; MSEHasTransportGuidByte1;
  MSEHasTransportGuidByte0; MSEHasTransportGuidByte2; MSEHasGuidByte3; MSEHasOrientation;
  MSEHasGuidByte4; MSEHasGuidByte5; MSEHasGuidByte0; MSEZeroBit; MSEHasGuidByte2;
  MSEHasMovementFlags; MSEHasFallDirection; MSEHasGuidByte1; MSEMovementFlags; MSEGuidByte3;
  MSETransportGuidByte7; MSETransportTime; MSETransportGuidByte4; MSETransportGuidByte5;
  MSETransportOrientation; MSETransportPositionX; MSETransportGuidByte6; MSETransportGuidByte0;
  MSETransportPositionY; MSETransportGuidByte2; MSETransportPositionZ; MSETransportGuidByte3;
  MSETransportGuidByte1; MSETransportSeat; MSEPitch; MSEGuidByte6; MSEFallCosAngle;
  MSEFallSinAngle; MSEFallHorizontalSpeed; MSEFallVerticalSpeed; MSEFallTime; MSEGuidByte7;
  MSEOrientation; MSEGuidByte0; MSEGuidByte5; MSEGuidByte4; MSETimestamp; MSEGuidByte2;
  MSEGuidByte1; MSEEnd
].

Definition MovementForceRunSpeedChangeAck : list MovementStatusElements := [
  MSECounter; MSEPositionX; MSEExtraElement; MSEPositionZ; MSEPositionY; MSEHasGuidByte2;
  MSEHasGuidByte4; MSEHasGuidByte1; MSEHasGuidByte7; MSEHasOrientation; MSEHasFallData;
  MSEHasGuidByte0; MSEHasSpline; MSEHasTransportData; MSEHasTimestamp; MSEHasMovementFlags2;
  MSEHasGuidByte6; MSEZeroBit; MSEHasSplineElevation; MSEHasPitch; MSEHasGuidByte5;
  MSEHasMovementFlags; MSEHasGuidByte3; MSEHasTransportTime3; MSEHasTransportGuidByte5;
  MSEHasTransportTime2; MSEHasTransportGuidByte3; MSEHasTransportGuidByte2;
  MSEHasTransportGuidByte0; MSEHasTransportGuidByte7; MSEHasTransportGuidByte6;
  MSEHasTransportGuidByte1; MSEHasTransportGuidByte4; MSEMovementFlags; MSEHasFallDirection;
  MSEMovementFlags2; MSEGuidByte6; MSEGuidByte4; MSEGuidByte1; MSEGuidByte3; MSEGuidByte5;
  MSEGuidByte2; MSEGuidByte7; MSEGuidByte0; MSETransportPositionZ; MSETransportGuidByte6;
  MSETransportGuidByte1; MSETransportPositionY; MSETransportGuidByte0; MSETransportGuidByte5;
  MSETransportTime2; MSETransportPositionX; MSETransportTime; MSETransportGuidByte7;
  MSETransportOrientation; MSETransportGuidByte3; MSETransportTime3; MSETransportGuidByte2;
  MSETransportSeat; MSETransportGuidByte4; MSEFallVerticalSpeed; MSEFallHorizontalSpeed;
  MSEFallCosAngle; MSEFallSinAngle; MSEFallTime; MSESplineElevation; MSEPitch; MSETimestamp;
  MSEOrientation; MSEEnd
].

Definition MovementSetCollisionHeightAck : list MovementStatusElements := [
  MSEExtraElement; MSEPositionX; MSEPositionZ; MSECounter; MSEPositionY; MSEHasGuidByte6;
  MSEHasGuidByte4; MSEZeroBit; MSEZeroBit; MSEHasPitch; MSEHasGuidByte5; MSEZeroBit;
  MSEHasGuidByte2; MSEHasGuidByte1; MSEHasFallData; MSEHasGuidByte3; MSEHasSpline;
  MSEHasGuidByte7; MSEHasMovementFlags; MSEHasTransportData; MSEHasTimestamp;
  MSEHasSplineElevation; MSEHasMovementFlags2; MSEHasOrientation; MSEHasGuidByte0;
  MSEHasTransportGuidByte4; MSEHasTransportGuidByte3; MSEHasTransportTime2;
  MSEHasTransportTime3; MSEHasTransportGuidByte5; MSEHasTransportGuidByte1;
  MSEHasTransportGuidByte7; MSEHasTransportGuidByte2; MSEHasTransportGuidByte6;
  MSEHasTransportGuidByte0; MSEMovementFlags2; MSEMovementFlags; MSEHasFallDirection;
  MSEGuidByte0; MSEGuidByte3; MSEGuidByte1; MSEGuidByte5; MSEGuidByte7; MSEGuidByte6;
  MSEGuidByte2; MSEGuidByte4; MSETransportPositionX; MSETransportGuidByte4; MSETransportTime2;
  MSETransportGuidByte0; MSETransportOrientation; MSETransportPositionY; MSETransportGuidByte7;
  MSETransportSeat; MSETransportGuidByte5; MSETransportGuidByte2; MSETransportTime;
  MSETransportGuidByte6; MSETransportGuidByte3; MSETransportGuidByte1; MSETransportTime3;
  MSETransportPositionZ; MSEFallVerticalSpeed; MSEFallTime; MSEFallSinAngle; MSEFallCosAngle;
  MSEFallHorizontalSpeed; MSETimestamp; MSESplineElevation; MSEOrientation; MSEPitch; MSEEnd
].

Definition MovementForceFlightSpeedChangeAck : list MovementStatusElements := [
  MSECounter; MSEPositionZ; MSEPositionX; MSEPositionY; MSEExtraElement; MSEHasGuidByte4;
  MSEHasGuidByte5; MSEZeroBit; MSEHasMovementFlags; MSEHasSplineElevation; MSEHasGuidByte3;
  MSEHasMovementFlags2; MSEHasGuidByte7; MSEHasTransportData; MSEHasGuidByte0; MSEHasFallData;
  MSEHasTimestamp; MSEHasPitch; MSEHasSpline; MSEHasOrientation; MSEHasGuidByte6;
  MSEHasGuidByte2; MSEHasGuidByte1; MSEHasTransportGuidByte6; MSEHasTransportGuidByte1;
  MSEHasTransportGuidByte7; MSEHasTransportTime2; MSEHasTransportGuidByte0;
  MSEHasTransportTime3; MSEHasTransportGuidByte3; MSEHasTransportGuidByte2;
  MSEHasTransportGuidByte5; MSEHasTransportGuidByte4; MSEHasFallDirection; MSEMovementFlags2;
  MSEMovementFlags; MSEGuidByte5; MSEGuidByte6; MSEGuidByte1; MSEGuidByte7; MSEGuidByte3;
  MSEGuidByte0; MSEGuidByte2; MSEGuidByte4; MSETransportGuidByte6; MSETransportGuidByte0;
  MSETransportSeat; MSETransportTime2; MSETransportOrientation; MSETransportGuidByte1;
  MSETransportGuidByte5; MSETransportTime3; MSETransportGuidByte2; MSETransportPositionZ;
  MSETransportGuidByte7; MSETransportGuidByte3; MSETransportGuidByte4; MSETransportPositionX;
  MSETransportTime; MSETransportPositionY; MSETimestamp; MSESplineElevation; MSEFallCosAngle;
  MSEFallSinAngle; MSEFallHorizontalSpeed; MSEFallTime; MSEFallVerticalSpeed; MSEPitch;
  MSEOrientation; MSEEnd
].

Definition MovementSetCanFlyAck : list MovementStatusElements := [
  MSEPositionY; MSECounter; MSEPositionX; MSEPositionZ; MSEHasGuidByte3; MSEHasTimestamp;
  MSEHasGuidByte4; MSEHasGuidByte0; MSEHasOrientation; MSEHasFallData; MSEHasGuidByte2;
  MSEHasGuidByte5; MSEHasSplineElevation; MSEHasMovementFlags2; MSEZeroBit; MSEHasGuidByte7;
  MSEHasSpline; MSEHasGuidByte6; MSEHasGuidByte1; MSEHasMovementFlags; MSEHasTransportData;
  MSEHasPitch; MSEHasTransportGuidByte3; MSEHasTransportGuidByte1; MSEHasTransportGuidByte2;
  MSEHasTransportTime3; MSEHasTransportTime2; MSEHasTransportGuidByte0;
  MSEHasTransportGuidByte5; MSEHasTransportGuidByte7; MSEHasTransportGuidByte4;
  MSEHasTransportGuidByte6; MSEMovementFlags2; MSEMovementFlags; MSEHasFallDirection;
  MSEGuidByte1; MSEGuidByte0; MSEGuidByte2; MSEGuidByte3; MSEGuidByte7; MSEGuidByte6;
  MSEGuidByte4; MSEGuidByte5; MSETransportTime2; MSETransportGuidByte6; MSETransportTime;
  MSETransportTime3; MSETransportGuidByte7; MSETransportPositionZ; MSETransportGuidByte3;
  MSETransportPositionY; MSETransportGuidByte5; MSETransportPositionX; MSETransportGuidByte2;
  MSETransportOrientation; MSETransportSeat; MSETransportGuidByte1; MSETransportGuidByte0;
  MSETransportGuidByte4; MSEFallTime; MSEFallCosAngle; MSEFallHorizontalSpeed; MSEFallSinAngle;
  MSEFallVerticalSpeed; MSEPitch; MSEOrientation; MSETimestamp; MSESplineElevation; MSEEnd
].

Definition MovementForceSwimSpeedChangeAck : list MovementStatusElements := [
  MSEPositionX; MSECounter; MSEExtraElement; MSEPositionY; MSEPositionZ; MSEHasGuidByte4;
  MSEHasOrientation; MSEHasPitch; MSEHasTransportData; MSEHasMovementFlags;
  MSEHasMovementFlags2; MSEHasGuidByte1; MSEHasGuidByte3; MSEHasFallData; MSEHasGuidByte2;
  MSEHasGuidByte7; MSEHasTimestamp; MSEZeroBit; MSEHasGuidByte5; MSEHasGuidByte6;
  MSEHasSplineElevation; MSEHasSpline; MSEHasGuidByte0; MSEHasTransportGuidByte1;
  MSEHasTransportGuidByte4; MSEHasTransportGuidByte0; MSEHasTransportGuidByte5;
  MSEHasTransportGuidByte7; MSEHasTransportGuidByte3; MSEHasTransportTime2;
  MSEHasTransportTime3; MSEHasTransportGuidByte6; MSEHasTransportGuidByte2; MSEMovementFlags2;
  MSEHasFallDirection; MSEMovementFlags; MSEGuidByte2; MSEGuidByte0; MSEGuidByte6;
  MSEGuidByte5; MSEGuidByte1; MSEGuidByte3; MSEGuidByte4; MSEGuidByte7; MSETransportGuidByte0;
  MSETransportTime3; MSETransportTime2; MSETransportPositionX; MSETransportGuidByte7;
  MSETransportSeat; MSETransportPositionY; MSETransportGuidByte5; MSETransportPositionZ;
  MSETransportOrientation; MSETransportTime; MSETransportGuidByte2; MSETransportGuidByte6;
  MSETransportGuidByte3; MSETransportGuidByte1; MSETransportGuidByte4; MSEFallTime;
  MSEFallCosAngle; MSEFallSinAngle; MSEFallHorizontalSpeed; MSEFallVerticalSpeed;
  MSEOrientation; MSEPitch; MSESplineElevation; MSETimestamp; MSEEnd
].

Definition MovementForceWalkSpeedChangeAck : list MovementStatusElements := [
  MSEPositionZ; MSEPositionY; MSEExtraElement; MSEPositionX; MSECounter; MSEHasGuidByte0;
  MSEHasMovementFlags2; MSEHasTimestamp; MSEHasGuidByte4; MSEHasGuidByte5; MSEHasGuidByte2;
  MSEHasMovementFlags; MSEHasFallData; MSEHasOrientation; MSEHasSpline; MSEZeroBit;
  MSEHasGuidByte3; MSEHasGuidByte1; MSEHasSplineElevation; MSEHasTransportData;
  MSEHasGuidByte7; MSEHasGuidByte6; MSEHasPitch; MSEHasTransportTime2;
  MSEHasTransportGuidByte5; MSEHasTransportGuidByte1; MSEHasTransportGuidByte6;
  MSEHasTransportTime3; MSEHasTransportGuidByte2; MSEHasTransportGuidByte0;
  MSEHasTransportGuidByte4; MSEHasTransportGuidByte7; MSEHasTransportGuidByte3;
  MSEMovementFlags; MSEMovementFlags2; MSEHasFallDirection; MSEGuidByte5; MSEGuidByte6;
  MSEGuidByte7; MSEGuidByte2; MSEGuidByte1; MSEGuidByte3; MSEGuidByte4; MSEGuidByte0;
  MSEFallVerticalSpeed; MSEFallSinAngle; MSEFallHorizontalSpeed; MSEFallCosAngle; MSEFallTime;
  MSETransportPositionZ; MSETransportGuidByte7; MSETransportGuidByte5; MSETransportPositionX;
  MSETransportGuidByte0; MSETransportTime; MSETransportTime3; MSETransportPositionY;
  MSETransportGuidByte2; MSETransportGuidByte4; MSETransportGuidByte1; MSETransportGuidByte3;
  MSETransportOrientation; MSETransportSeat; MSETransportGuidByte6; MSETransportTime2;
  MSESplineElevation; MSETimestamp; MSEOrientation; MSEPitch; MSEEnd
].

Definition MovementForceRunBackSpeedChangeAck : list MovementStatusElements := [
  MSEExtraElement; MSECounter; MSEPositionX; MSEPositionZ; MSEPositionY; MSEHasGuidByte2;
  MSEHasGuidByte4; MSEHasTimestamp; MSEHasTransportData; MSEHasGuidByte1; MSEHasGuidByte0;
  MSEHasGuidByte5; MSEHasGuidByte3; MSEHasOrientation; MSEHasFallData; MSEHasMovementFlags2;
  MSEHasMovementFlags; MSEHasGuidByte7; MSEHasSpline; MSEHasPitch; MSEHasGuidByte6;
  MSEHasSplineElevation; MSEZeroBit; MSEHasTransportGuidByte3; MSEHasTransportTime2;
  MSEHasTransportGuidByte7; MSEHasTransportGuidByte0; MSEHasTransportGuidByte2;
  MSEHasTransportGuidByte1; MSEHasTransportTime3; MSEHasTransportGuidByte4;
  MSEHasTransportGuidByte6; MSEHasTransportGuidByte5; MSEMovementFlags; MSEMovementFlags2;
  MSEHasFallDirection; MSEGuidByte0; MSEGuidByte7; MSEGuidByte2; MSEGuidByte4; MSEGuidByte3;
  MSEGuidByte6; MSEGuidByte5; MSEGuidByte1; MSEFallTime; MSEFallHorizontalSpeed;
  MSEFallCosAngle; MSEFallSinAngle; MSEFallVerticalSpeed; MSETransportGuidByte5;
  MSETransportSeat; MSETransportGuidByte6; MSETransportGuidByte1; MSETransportGuidByte0;
  MSETransportGuidByte2; MSETransportPositionY; MSETransportTime3; MSETransportPositionX;
  MSETransportOrientation; MSETransportGuidByte3; MSETransportTime; MSETransportTime2;
  MSETransportGuidByte4; MSETransportPositionZ; MSETransportGuidByte7; MSETimestamp;
  MSESplineElevation; MSEOrientation; MSEPitch; MSEEnd
].

Definition MovementUpdateRunBackSpeed : list MovementStatusElements := [
  MSEHasGuidByte1; MSEHasGuidByte2; MSEHasGuidByte4; MSEHasGuidByte3; MSEHasGuidByte6;
  MSEHasGuidByte0; MSEZeroBit; MSEHasMovementFlags; MSEHasGuidByte5; MSEHasOrientation;
  MSEMovementFlags; MSEHasFallDirection; MSEHasTransportGuidByte5; MSEHasTransportGuidByte3;
  MSEHasTransportGuidByte1; MSEHasTransportGuidByte6; MSEHasTransportGuidByte7;
  MSEHasTransportGuidByte2; MSEHasTransportGuidByte4; MSEHasTransportGuidByte0;
  MSEHasGuidByte7; MSETransportPositionX; MSETransportGuidByte2; MSETransportGuidByte5;
  MSETransportGuidByte4; MSETransportGuidByte6; MSETransportGuidByte0; MSETransportGuidByte3;
  MSETransportPositionY; MSETransportGuidByte7; MSETransportPositionZ; MSETransportTime;
  MSETransportSeat; MSETransportGuidByte1; MSETransportOrientation; MSEGuidByte4; MSEFallTime;
  MSEFallHorizontalSpeed; MSEFallCosAngle; MSEFallSinAngle; MSEFallVerticalSpeed; MSETimestamp;
  MSEGuidByte1; MSEOrientation; MSEGuidByte0; MSEGuidByte5; MSEGuidByte3; MSEPositionX;
  MSEPositionY; MSEPitch; MSEGuidByte7; MSEExtraElement; MSEGuidByte2; MSEGuidByte6;
  MSEPositionZ; MSEEnd
].

Definition MovementUpdateWalkSpeed : list MovementStatusElements := [
  MSEHasOrientation; MSEZeroBit; MSEHasGuidByte3; MSEHasGuidByte2; MSEHasTransportGuidByte6;
  MSEHasTransportGuidByte3; MSEHasTransportGuidByte2; MSEHasTransportGuidByte0;
  MSEHasTransportGuidByte4; MSEHasTransportGuidByte7; MSEHasTransportGuidByte1;
  MSEHasTransportGuidByte5; MSEHasGuidByte7; MSEHasGuidByte5; MSEHasGuidByte1; MSEHasGuidByte0;
  MSEHasMovementFlags; MSEHasGuidByte6; MSEHasFallDirection; MSEMovementFlags; MSEHasGuidByte4;
  MSEPitch; MSETransportGuidByte6; MSETransportGuidByte0; MSETransportGuidByte4;
  MSETransportGuidByte2; MSETransportPositionX; MSETransportGuidByte7; MSETransportTime;
  MSETransportPositionZ; MSETransportSeat; MSETransportGuidByte5; MSETransportOrientation;
  MSETransportGuidByte1; MSETransportPositionY; MSETransportGuidByte3; MSEFallVerticalSpeed;
  MSEFallHorizontalSpeed; MSEFallCosAngle; MSEFallSinAngle; MSEFallTime; MSEGuidByte1;
  MSEGuidByte4; MSEGuidByte2; MSEGuidByte6; MSEGuidByte7; MSETimestamp; MSEOrientation;
  MSEPositionY; MSEGuidByte0; MSEPositionZ; MSEPositionX; MSEGuidByte3; MSEGuidByte5;
  MSEExtraElement; MSEEnd
].

Definition ForceMoveRootAck : list MovementStatusElements := [
  MSEPositionY; MSEPositionZ; MSECounter; MSEPositionX; MSEHasGuidByte3; MSEHasTimestamp;
  MSEHasTransportData; MSEHasPitch; MSEHasGuidByte2; MSEHasOrientation; MSEHasSplineElevation;
  MSEHasFallData; MSEHasSpline; MSEHasGuidByte4; MSEHasGuidByte0; MSEHasGuidByte6;
  MSEHasGuidByte1; MSEHasGuidByte7; MSEHasMovementFlags2; MSEHasMovementFlags; MSEZeroBit;
  MSEHasGuidByte5; MSEHasTransportGuidByte6; MSEHasTransportGuidByte0;
  MSEHasTransportGuidByte7; MSEHasTransportGuidByte3; MSEHasTransportGuidByte1;
  MSEHasTransportGuidByte2; MSEHasTransportTime2; MSEHasTransportGuidByte4;
  MSEHasTransportTime3; MSEHasTransportGuidByte5; MSEMovementFlags2; MSEMovementFlags;
  MSEHasFallDirection; MSEGuidByte5; MSEGuidByte3; MSEGuidByte1; MSEGuidByte7; MSEGuidByte4;
  MSEGuidByte0; MSEGuidByte6; MSEGuidByte2; MSETransportGuidByte5; MSETransportGuidByte4;
  MSETransportOrientation; MSETransportPositionZ; MSETransportTime3; MSETransportTime2;
  MSETransportGuidByte7; MSETransportGuidByte2; MSETransportGuidByte0; MSETransportTime;
  MSETransportGuidByte6; MSETransportGuidByte3; MSETransportPositionX; MSETransportGuidByte1;
  MSETransportPositionY; MSETransportSeat; MSETimestamp; MSEFallVerticalSpeed;
  MSEFallHorizontalSpeed; MSEFallSinAngle; MSEFallCosAngle; MSEFallTime; MSEOrientation;
  MSESplineElevation; MSEPitch; MSEEnd
].

Definition ForceMoveUnrootAck : list MovementStatusElements := [
  MSECounter; MSEPositionZ; MSEPositionY; MSEPositionX; MSEHasGuidByte7; MSEHasSplineElevation;
  MSEHasSpline; MSEHasGuidByte5; MSEHasGuidByte4; MSEZeroBit; MSEHasTimestamp;
  MSEHasMovementFlags; MSEHasOrientation; MSEHasPitch; MSEHasGuidByte3; MSEHasGuidByte1;
  MSEHasTransportData; MSEHasMovementFlags2; MSEHasGuidByte2; MSEHasGuidByte0; MSEHasFallData;
  MSEHasGuidByte6; MSEHasFallDirection; MSEHasTransportGuidByte0; MSEHasTransportTime3;
  MSEHasTransportGuidByte6; MSEHasTransportTime2; MSEHasTransportGuidByte3;
  MSEHasTransportGuidByte5; MSEHasTransportGuidByte7; MSEHasTransportGuidByte2;
  MSEHasTransportGuidByte4; MSEHasTransportGuidByte1; MSEMovementFlags2; MSEMovementFlags;
  MSEGuidByte7; MSEGuidByte1; MSEGuidByte0; MSEGuidByte6; MSEGuidByte2; MSEGuidByte4;
  MSEGuidByte5; MSEGuidByte3; MSETransportGuidByte6; MSETransportPositionZ;
  MSETransportGuidByte2; MSETransportGuidByte3; MSETransportPositionY; MSETransportTime3;
  MSETransportGuidByte5; MSETransportSeat; MSETransportGuidByte0; MSETransportTime;
  MSETransportTime2; MSETransportGuidByte4; MSETransportOrientation; MSETransportPositionX;
  MSETransportGuidByte1; MSETransportGuidByte7; MSEFallCosAngle; MSEFallHorizontalSpeed;
  MSEFallSinAngle; MSEFallVerticalSpeed; MSEFallTime; MSETimestamp; MSESplineElevation;
  MSEOrientation; MSEPitch; MSEEnd
].

Definition MovementFallReset : list MovementStatusElements := [
  MSEPositionZ; MSEPositionX; MSEPositionY; MSEHasGuidByte1; MSEHasTimestamp;
  MSEHasMovementFlags; MSEZeroBit; MSEHasGuidByte6; MSEHasSplineElevation; MSEHasPitch;
  MSEHasGuidByte3; MSEHasTransportData; MSEHasGuidByte2; MSEHasMovementFlags2;
  MSEHasOrientation; MSEHasGuidByte4; MSEHasGuidByte5; MSEHasSpline; MSEHasGuidByte7;
  MSEHasGuidByte0; MSEHasFallData; MSEHasTransportGuidByte0; MSEHasTransportGuidByte1;
  MSEHasTransportGuidByte5; MSEHasTransportGuidByte4; MSEHasTransportTime2;
  MSEHasTransportGuidByte2; MSEHasTransportTime3; MSEHasTransportGuidByte6;
  MSEHasTransportGuidByte7; MSEHasTransportGuidByte3; MSEHasFallDirection; MSEMovementFlags2;
  MSEMovementFlags; MSEGuidByte4; MSEGuidByte0; MSEGuidByte1; MSEGuidByte7; MSEGuidByte5;
  MSEGuidByte2; MSEGuidByte3; MSEGuidByte6; MSETransportPositionX; MSETransportGuidByte7;
  MSETransportGuidByte2; MSETransportGuidByte3; MSETransportGuidByte5; MSETransportPositionY;
  MSETransportPositionZ; MSETransportSeat; MSETransportTime2; MSETransportGuidByte6;
  MSETransportTime3; MSETransportTime; MSETransportGuidByte0; MSETransportOrientation;
  MSETransportGuidByte4; MSETransportGuidByte1; MSEFallVerticalSpeed; MSEFallCosAngle;
  MSEFallSinAngle; MSEFallHorizontalSpeed; MSEFallTime; MSEOrientation; MSETimestamp;
  MSESplineElevation; MSEPitch; MSEEnd
].

Definition MovementFeatherFallAck : list MovementStatusElements := [
  MSEPositionZ; MSECounter; MSEPositionY; MSEPositionX; MSEZeroBit; MSEHasGuidByte3;
  MSEHasSplineElevation; MSEHasGuidByte1; MSEHasPitch; MSEHasGuidByte2; MSEHasSpline;
  MSEHasTimestamp; MSEHasGuidByte5; MSEHasFallData; MSEHasOrientation; MSEHasTransportData;
  MSEHasGuidByte7; MSEHasMovementFlags2; MSEHasGuidByte6; MSEHasMovementFlags; MSEHasGuidByte0;
  MSEHasGuidByte4; MSEHasTransportGuidByte6; MSEHasTransportTime3; MSEHasTransportGuidByte2;
  MSEHasTransportGuidByte4; MSEHasTransportGuidByte7; MSEHasTransportGuidByte3;
  MSEHasTransportGuidByte5; MSEHasTransportTime2; MSEHasTransportGuidByte1;
  MSEHasTransportGuidByte0; MSEHasFallDirection; MSEMovementFlags2; MSEMovementFlags;
  MSEGuidByte6; MSEGuidByte1; MSEGuidByte7; MSEGuidByte0; MSEGuidByte5; MSEGuidByte4;
  MSEGuidByte3; MSEGuidByte2; MSETransportTime3; MSETransportOrientation;
  MSETransportPositionZ; MSETransportGuidByte7; MSETransportGuidByte5; MSETransportGuidByte2;
  MSETransportPositionX; MSETransportGuidByte1; MSETransportGuidByte6; MSETransportTime2;
  MSETransportTime; MSETransportPositionY; MSETransportGuidByte4; MSETransportGuidByte0;
  MSETransportSeat; MSETransportGuidByte3; MSETimestamp; MSESplineElevation; MSEOrientation;
  MSEFallVerticalSpeed; MSEFallCosAngle; MSEFallHorizontalSpeed; MSEFallSinAngle; MSEFallTime;
  MSEPitch; MSEEnd
].

Definition MovementGravityDisableAck : list MovementStatusElements := [
  MSEPositionZ; MSEPositionY; MSECounter; MSEPositionX; MSEHasGuidByte3; MSEHasTransportData;
  MSEHasGuidByte4; MSEHasGuidByte5; MSEHasMovementFlags; MSEHasOrientation; MSEHasSpline;
  MSEHasGuidByte6; MSEHasGuidByte0; MSEHasGuidByte7; MSEHasSplineElevation; MSEHasTimestamp;
  MSEHasPitch; MSEHasMovementFlags2; MSEZeroBit; MSEHasGuidByte2; MSEHasFallData;
  MSEHasGuidByte1; MSEHasTransportGuidByte2; MSEHasTransportTime3; MSEHasTransportGuidByte0;
  MSEHasTransportGuidByte1; MSEHasTransportGuidByte5; MSEHasTransportGuidByte3;
  MSEHasTransportGuidByte7; MSEHasTransportGuidByte6; MSEHasTransportGuidByte4;
  MSEHasTransportTime2; MSEMovementFlags; MSEMovementFlags2; MSEHasFallDirection; MSEGuidByte0;
  MSEGuidByte2; MSEGuidByte1; MSEGuidByte3; MSEGuidByte5; MSEGuidByte7; MSEGuidByte4;
  MSEGuidByte6; MSETransportPositionZ; MSETransportGuidByte2; MSETransportGuidByte5;
  MSETransportGuidByte3; MSETransportGuidByte4; MSETransportPositionY; MSETransportTime;
  MSETransportSeat; MSETransportGuidByte6; MSETransportGuidByte1; MSETransportGuidByte0;
  MSETransportOrientation; MSETransportTime2; MSETransportPositionX; MSETransportGuidByte7;
  MSETransportTime3; MSEFallCosAngle; MSEFallSinAngle; MSEFallHorizontalSpeed; MSEFallTime;
  MSEFallVerticalSpeed; MSEOrientation; MSESplineElevation; MSETimestamp; MSEPitch; MSEEnd
].

Definition MovementGravityEnableAck : list MovementStatusElements := [
  MSEPositionZ; MSEPositionX; MSECounter; MSEPositionY; MSEHasSplineElevation;
  MSEHasMovementFlags2; MSEHasGuidByte6; MSEHasOrientation; MSEZeroBit; MSEHasGuidByte5;
  MSEHasSpline; MSEHasGuidByte3; MSEHasTransportData; MSEHasPitch; MSEHasGuidByte1;
  MSEHasTimestamp; MSEHasGuidByte2; MSEHasGuidByte4; MSEHasGuidByte7; MSEHasMovementFlags;
  MSEHasFallData; MSEHasGuidByte0; MSEHasTransportTime3; MSEHasTransportGuidByte0;
  MSEHasTransportGuidByte1; MSEHasTransportGuidByte3; MSEHasTransportGuidByte7;
  MSEHasTransportGuidByte2; MSEHasTransportGuidByte5; MSEHasTransportTime2;
  MSEHasTransportGuidByte4; MSEHasTransportGuidByte6; MSEHasFallDirection; MSEMovementFlags;
  MSEMovementFlags2; MSEGuidByte5; MSEGuidByte4; MSEGuidByte1; MSEGuidByte7; MSEGuidByte0;
  MSEGuidByte2; MSEGuidByte3; MSEGuidByte6; MSEFallTime; MSEFallHorizontalSpeed;
  MSEFallSinAngle; MSEFallCosAngle; MSEFallVerticalSpeed; MSETransportGuidByte1;
  MSETransportPositionX; MSETransportTime3; MSETransportOrientation; MSETransportGuidByte2;
  MSETransportGuidByte0; MSETransportGuidByte7; MSETransportGuidByte6; MSETransportSeat;
  MSETransportGuidByte3; MSETransportGuidByte4; MSETransportPositionZ; MSETransportTime2;
  MSETransportGuidByte5; MSETransportTime; MSETransportPositionY; MSESplineElevation;
  MSEOrientation; MSEPitch; MSETimestamp; MSEEnd
].

Definition MovementHoverAck : list MovementStatusElements := [
  MSECounter; MSEPositionZ; MSEPositionY; MSEPositionX; MSEHasGuidByte4; MSEHasTransportData;
  MSEHasGuidByte2; MSEHasTimestamp; MSEHasSpline; MSEHasMovementFlags; MSEHasGuidByte1;
  MSEHasPitch; MSEHasGuidByte0; MSEHasGuidByte6; MSEHasGuidByte7; MSEHasGuidByte5; MSEZeroBit;
  MSEHasFallData; MSEHasMovementFlags2; MSEHasSplineElevation; MSEHasOrientation;
  MSEHasGuidByte3; MSEHasTransportGuidByte4; MSEHasTransportGuidByte6; MSEHasTransportTime3;
  MSEHasTransportGuidByte1; MSEHasTransportGuidByte0; MSEHasTransportGuidByte3;
  MSEHasTransportGuidByte2; MSEHasTransportGuidByte5; MSEHasTransportGuidByte7;
  MSEHasTransportTime2; MSEMovementFlags; MSEMovementFlags2; MSEHasFallDirection; MSEGuidByte1;
  MSEGuidByte4; MSEGuidByte7; MSEGuidByte2; MSEGuidByte5; MSEGuidByte6; MSEGuidByte3;
  MSEGuidByte0; MSETimestamp; MSEFallCosAngle; MSEFallSinAngle; MSEFallHorizontalSpeed;
  MSEFallTime; MSEFallVerticalSpeed; MSEOrientation; MSETransportGuidByte1; MSETransportTime3;
  MSETransportGuidByte2; MSETransportGuidByte7; MSETransportGuidByte3; MSETransportGuidByte4;
  MSETransportSeat; MSETransportPositionX; MSETransportPositionZ; MSETransportOrientation;
  MSETransportTime; MSETransportGuidByte0; MSETransportPositionY; MSETransportGuidByte5;
  MSETransportTime2; MSETransportGuidByte6; MSESplineElevation; MSEPitch; MSEEnd
].

Definition MovementKnockBackAck : list MovementStatusElements := [
  MSEPositionY; MSEPositionZ; MSECounter; MSEPositionX; MSEHasGuidByte6; MSEHasOrientation;
  MSEHasPitch; MSEHasSplineElevation; MSEHasGuidByte3; MSEHasGuidByte4; MSEHasGuidByte1;
  MSEHasGuidByte2; MSEHasSpline; MSEHasGuidByte7; MSEZeroBit; MSEHasMovementFlags2;
  MSEHasTimestamp; MSEHasGuidByte0; MSEHasMovementFlags; MSEHasTransportData; MSEHasGuidByte5;
  MSEHasFallData; MSEMovementFlags; MSEHasTransportGuidByte4; MSEHasTransportGuidByte1;
  MSEHasTransportTime2; MSEHasTransportGuidByte0; MSEHasTransportTime3;
  MSEHasTransportGuidByte6; MSEHasTransportGuidByte2; MSEHasTransportGuidByte3;
  MSEHasTransportGuidByte5; MSEHasTransportGuidByte7; MSEMovementFlags2; MSEHasFallDirection;
  MSEGuidByte4; MSEGuidByte5; MSEGuidByte1; MSEGuidByte6; MSEGuidByte0; MSEGuidByte3;
  MSEGuidByte2; MSEGuidByte7; MSEFallCosAngle; MSEFallHorizontalSpeed; MSEFallSinAngle;
  MSEFallTime; MSEFallVerticalSpeed; MSETimestamp; MSETransportPositionY;
  MSETransportGuidByte4; MSETransportTime2; MSETransportGuidByte7; MSETransportOrientation;
  MSETransportGuidByte6; MSETransportTime; MSETransportGuidByte3; MSETransportGuidByte1;
  MSETransportTime3; MSETransportGuidByte2; MSETransportPositionZ; MSETransportGuidByte0;
  MSETransportGuidByte5; MSETransportPositionX; MSETransportSeat; MSEPitch; MSESplineElevation;
  MSEOrientation; MSEEnd
].

Definition MovementWaterWalkAck : list MovementStatusElements := [
  MSEPositionY; MSEPositionZ; MSECounter; MSEPositionX; MSEHasTimestamp; MSEHasPitch;
  MSEHasGuidByte5; MSEHasGuidByte0; MSEHasGuidByte7; MSEHasOrientation; MSEHasGuidByte1;
  MSEHasMovementFlags2; MSEHasGuidByte2; MSEHasMovementFlags; MSEHasGuidByte3;
  MSEHasTransportData; MSEHasGuidByte6; MSEHasFallData; MSEHasGuidByte4; MSEZeroBit;
  MSEHasSplineElevation; MSEHasSpline; MSEHasTransportGuidByte0; MSEHasTransportGuidByte1;
  MSEHasTransportGuidByte6; MSEHasTransportGuidByte2; MSEHasTransportGuidByte7;
  MSEHasTransportGuidByte5; MSEHasTransportTime2; MSEHasTransportGuidByte3;
  MSEHasTransportTime3; MSEHasTransportGuidByte4; MSEMovementFlags; MSEHasFallDirection;
  MSEMovementFlags2; MSEGuidByte2; MSEGuidByte7; MSEGuidByte3; MSEGuidByte5; MSEGuidByte6;
  MSEGuidByte0; MSEGuidByte4; MSEGuidByte1; MSETransportPositionX; MSETransportGuidByte1;
  MSETransportTime3; MSETransportGuidByte0; MSETransportOrientation; MSETransportGuidByte7;
  MSETransportPositionY; MSETransportTime2; MSETransportTime; MSETransportGuidByte5;
  MSETransportSeat; MSETransportPositionZ; MSETransportGuidByte3; MSETransportGuidByte2;
  MSETransportGuidByte6; MSETransportGuidByte4; MSESplineElevation; MSEFallCosAngle;
  MSEFallHorizontalSpeed; MSEFallSinAngle; MSEFallVerticalSpeed; MSEFallTime; MSEOrientation;
  MSETimestamp; MSEPitch; MSEEnd
].

Definition MovementUpdateKnockBack : list MovementStatusElements := [
  MSEZeroBit; MSEHasGuidByte4; MSEHasMovementFlags; MSEHasGuidByte1; MSEHasGuidByte0;
  MSEHasGuidByte3; MSEHasGuidByte2; MSEHasGuidByte7; MSEHasTransportGuidByte7;
  MSEHasTransportGuidByte5; MSEHasTransportGuidByte1; MSEHasTransportGuidByte6;
  MSEHasTransportGuidByte2; MSEHasTransportGuidByte4; MSEHasTransportGuidByte0;
  MSEHasTransportGuidByte3; MSEHasGuidByte5; MSEHasGuidByte6; MSEMovementFlags;
  MSEHasFallDirection; MSEHasOrientation; MSEOrientation; MSEFallCosAngle;
  MSEFallHorizontalSpeed; MSEFallSinAngle; MSEFallTime; MSEFallVerticalSpeed; MSEGuidByte3;
  MSETransportGuidByte5; MSETransportGuidByte7; MSETransportSeat; MSETransportGuidByte3;
  MSETransportGuidByte6; MSETransportPositionZ; MSETransportGuidByte1; MSETransportPositionY;
  MSETransportPositionX; MSETransportGuidByte2; MSETransportGuidByte0; MSETransportOrientation;
  MSETransportTime; MSETransportGuidByte4; MSEPitch; MSEPositionZ; MSETimestamp; MSEPositionX;
  MSEGuidByte4; MSEGuidByte6; MSEGuidByte7; MSEGuidByte2; MSEGuidByte1; MSEPositionY;
  MSEGuidByte0; MSEGuidByte5; MSEEnd
].

Definition SplineMoveSetWalkSpeed : list MovementStatusElements := [
  MSEHasGuidByte0; MSEHasGuidByte6; MSEHasGuidByte7; MSEHasGuidByte3; MSEHasGuidByte5;
  MSEHasGuidByte1; MSEHasGuidByte2; MSEHasGuidByte4; MSEGuidByte0; MSEGuidByte4; MSEGuidByte7;
  MSEGuidByte1; MSEGuidByte5; MSEGuidByte3; MSEExtraElement; MSEGuidByte6; MSEGuidByte2; MSEEnd
].

Definition SplineMoveSetRunSpeed : list MovementStatusElements := [
  MSEHasGuidByte4; MSEHasGuidByte0; MSEHasGuidByte5; MSEHasGuidByte7; MSEHasGuidByte6;
  MSEHasGuidByte3; MSEHasGuidByte1; MSEHasGuidByte2; MSEGuidByte0; MSEGuidByte7; MSEGuidByte6;
  MSEGuidByte5; MSEGuidByte3; MSEGuidByte4; MSEExtraElement; MSEGuidByte2; MSEGuidByte1; MSEEnd
].

Definition SplineMoveSetRunBackSpeed : list MovementStatusElements := [
  MSEHasGuidByte1; MSEHasGuidByte2; MSEHasGuidByte6; MSEHasGuidByte0; MSEHasGuidByte3;
  MSEHasGuidByte7; MSEHasGuidByte5; MSEHasGuidByte4; MSEGuidByte1; MSEExtraElement;
  MSEGuidByte2; MSEGuidByte4; MSEGuidByte0; MSEGuidByte3; MSEGuidByte6; MSEGuidByte5;
  MSEGuidByte7; MSEEnd
].

Definition SplineMoveSetSwimSpeed : list MovementStatusElements := [
  MSEHasGuidByte4; MSEHasGuidByte2; MSEHasGuidByte5; MSEHasGuidByte0; MSEHasGuidByte7;
  MSEHasGuidByte6; MSEHasGuidByte3; MSEHasGuidByte1; MSEGuidByte5; MSEGuidByte6; MSEGuidByte1;
  MSEGuidByte0; MSEGuidByte2; MSEGuidByte4; MSEExtraElement; MSEGuidByte7; MSEGuidByte3; MSEEnd
].

Definition SplineMoveSetSwimBackSpeed : list MovementStatusElements := [
  MSEHasGuidByte0; MSEHasGuidByte1; MSEHasGuidByte3; MSEHasGuidByte6; MSEHasGuidByte4;
  MSEHasGuidByte5; MSEHasGuidByte7; MSEHasGuidByte2; MSEGuidByte5; MSEGuidByte3; MSEGuidByte1;
  MSEGuidByte0; MSEGuidByte7; MSEGuidByte6; MSEExtraElement; MSEGuidByte4; MSEGuidByte2; MSEEnd
].

Definition SplineMoveSetTurnRate : list MovementStatusElements := [
  MSEHasGuidByte2; MSEHasGuidByte4; MSEHasGuidByte6; MSEHasGuidByte1; MSEHasGuidByte3;
  MSEHasGuidByte5; MSEHasGuidByte7; MSEHasGuidByte0; MSEExtraElement; MSEGuidByte1;
  MSEGuidByte5; MSEGuidByte3; MSEGuidByte2; MSEGuidByte7; MSEGuidByte4; MSEGuidByte6;
  MSEGuidByte0; MSEEnd
].

Definition SplineMoveSetFlightSpeed : list MovementStatusElements := [
  MSEHasGuidByte7; MSEHasGuidByte4; MSEHasGuidByte0; MSEHasGuidByte1; MSEHasGuidByte3;
  MSEHasGuidByte6; MSEHasGuidByte5; MSEHasGuidByte2; MSEGuidByte0; MSEGuidByte5; MSEGuidByte4;
  MSEGuidByte7; MSEGuidByte3; MSEGuidByte2; MSEGuidByte1; MSEGuidByte6; MSEExtraElement; MSEEnd
].

Definition SplineMoveSetFlightBackSpeed : list MovementStatusElements := [
  MSEHasGuidByte2; MSEHasGuidByte1; MSEHasGuidByte6; MSEHasGuidByte5; MSEHasGuidByte0;
  MSEHasGuidByte3; MSEHasGuidByte4; MSEHasGuidByte7; MSEGuidByte5; MSEExtraElement;
  MSEGuidByte6; MSEGuidByte1; MSEGuidByte0; MSEGuidByte2; MSEGuidByte3; MSEGuidByte7;
  MSEGuidByte4; MSEEnd
].

Definition SplineMoveSetPitchRate : list MovementStatusElements := [
  MSEHasGuidByte3; MSEHasGuidByte5; MSEHasGuidByte6; MSEHasGuidByte1; MSEHasGuidByte0;
  MSEHasGuidByte4; MSEHasGuidByte7; MSEHasGuidByte2; MSEGuidByte1; MSEGuidByte5; MSEGuidByte7;
  MSEGuidByte0; MSEGuidByte6; MSEGuidByte3; MSEGuidByte2; MSEExtraElement; MSEGuidByte4; MSEEnd
].

Definition MoveSetWalkSpeed : list MovementStatusElements := [
  MSEHasGuidByte0; MSEHasGuidByte4; MSEHasGuidByte5; MSEHasGuidByte2; MSEHasGuidByte3;
  MSEHasGuidByte1; MSEHasGuidByte6; MSEHasGuidByte7; MSEGuidByte6; MSEGuidByte1; MSEGuidByte5;
  MSEExtraElement; MSEGuidByte2; MSECounter; MSEGuidByte4; MSEGuidByte0; MSEGuidByte7;
  MSEGuidByte3; MSEEnd
].

Definition MoveSetRunSpeed : list MovementStatusElements := [
  MSEHasGuidByte6; MSEHasGuidByte1; MSEHasGuidByte5; MSEHasGuidByte2; MSEHasGuidByte7;
  MSEHasGuidByte0; MSEHasGuidByte3; MSEHasGuidByte4; MSEGuidByte5; MSEGuidByte3; MSEGuidByte1;
  MSEGuidByte4; MSECounter; MSEExtraElement; MSEGuidByte6; MSEGuidByte0; MSEGuidByte7;
  MSEGuidByte2; MSEEnd
].

Definition MoveSetRunBackSpeed : list MovementStatusElements := [
  MSEHasGuidByte0; MSEHasGuidByte6; MSEHasGuidByte2; MSEHasGuidByte1; MSEHasGuidByte3;
  MSEHasGuidByte4; MSEHasGuidByte5; MSEHasGuidByte7; MSEGuidByte5; MSECounter; MSEExtraElement;
  MSEGuidByte0; MSEGuidByte4; MSEGuidByte7; MSEGuidByte3; MSEGuidByte1; MSEGuidByte2;
  MSEGuidByte6; MSEEnd
].

Definition MoveSetSwimSpeed : list MovementStatusElements := [
  MSEHasGuidByte5; MSEHasGuidByte4; MSEHasGuidByte7; MSEHasGuidByte3; MSEHasGuidByte2;
  MSEHasGuidByte0; MSEHasGuidByte1; MSEHasGuidByte6; MSEGuidByte0; MSECounter; MSEGuidByte6;
  MSEGuidByte3; MSEGuidByte5; MSEGuidByte2; MSEExtraElement; MSEGuidByte1; MSEGuidByte7;
  MSEGuidByte4; MSEEnd
].

Definition MoveSetSwimBackSpeed : list MovementStatusElements := [
  MSEHasGuidByte4; MSEHasGuidByte2; MSEHasGuidByte3; MSEHasGuidByte6; MSEHasGuidByte5;
  MSEHasGuidByte1; MSEHasGuidByte0; MSEHasGuidByte7; MSECounter; MSEGuidByte0; MSEGuidByte3;
  MSEGuidByte4; MSEGuidByte6; MSEGuidByte5; MSEGuidByte1; MSEExtraElement; MSEGuidByte7;
  MSEGuidByte2; MSEEnd
].

Definition MoveSetTurnRate : list MovementStatusElements := [
  MSEHasGuidByte7; MSEHasGuidByte2; MSEHasGuidByte1; MSEHasGuidByte0; MSEHasGuidByte4;
  MSEHasGuidByte5; MSEHasGuidByte6; MSEHasGuidByte3; MSEGuidByte5; MSEGuidByte7; MSEGuidByte2;
  MSEExtraElement; MSEGuidByte3; MSEGuidByte1; MSEGuidByte0; MSECounter; MSEGuidByte6;
  MSEGuidByte4; MSEEnd
].

Definition MoveSetFlightSpeed : list MovementStatusElements := [
  MSEHasGuidByte0; MSEHasGuidByte5; MSEHasGuidByte1; MSEHasGuidByte6; MSEHasGuidByte3;
  MSEHasGuidByte2; MSEHasGuidByte7; MSEHasGuidByte4; MSEGuidByte0; MSEGuidByte1; MSEGuidByte7;
  MSEGuidByte5; MSEExtraElement; MSECounter; MSEGuidByte2; MSEGuidByte6; MSEGuidByte3;
  MSEGuidByte4; MSEEnd
].

Definition MoveSetFlightBackSpeed : list MovementStatusElements := [
  MSEHasGuidByte1; MSEHasGuidByte2; MSEHasGuidByte6; MSEHasGuidByte4; MSEHasGuidByte7;
  MSEHasGuidByte3; MSEHasGuidByte0; MSEHasGuidByte5; MSEGuidByte3; MSECounter; MSEGuidByte6;
  MSEExtraElement; MSEGuidByte1; MSEGuidByte2; MSEGuidByte4; MSEGuidByte0; MSEGuidByte5;
  MSEGuidByte7; MSEEnd
].

Definition MoveSetPitchRate : list MovementStatusElements := [
  MSEHasGuidByte1; MSEHasGuidByte2; MSEHasGuidByte6; MSEHasGuidByte7; MSEHasGuidByte0;
  MSEHasGuidByte3; MSEHasGuidByte5; MSEHasGuidByte4; MSEExtraElement; MSEGuidByte6;
  MSEGuidByte4; MSEGuidByte0; MSECounter; MSEGuidByte1; MSEGuidByte2; MSEGuidByte7;
  MSEGuidByte3; MSEGuidByte5; MSEEnd
].

Definition MoveSetCollisionHeight : list MovementStatusElements := [
  MSEZeroBit; MSEZeroBit; MSEHasGuidByte6; MSEHasGuidByte1; MSEHasGuidByte4; MSEHasGuidByte7;
  MSEHasGuidByte5; MSEHasGuidByte2; MSEHasGuidByte0; MSEHasGuidByte3; MSEGuidByte6;
  MSEGuidByte0; MSEGuidByte4; MSEGuidByte3; MSEGuidByte5; MSECounter; MSEGuidByte1;
  MSEGuidByte2; MSEGuidByte7; MSEExtraElement; MSEEnd
].

Definition SplineMoveSetWalkMode : list MovementStatusElements := [
  MSEHasGuidByte7; MSEHasGuidByte6; MSEHasGuidByte5; MSEHasGuidByte1; MSEHasGuidByte3;
  MSEHasGuidByte4; MSEHasGuidByte2; MSEHasGuidByte0; MSEGuidByte4; MSEGuidByte2; MSEGuidByte1;
  MSEGuidByte6; MSEGuidByte5; MSEGuidByte0; MSEGuidByte7; MSEGuidByte3; MSEEnd
].

Definition SplineMoveSetRunMode : list MovementStatusElements := [
  MSEHasGuidByte5; MSEHasGuidByte6; MSEHasGuidByte3; MSEHasGuidByte7; MSEHasGuidByte2;
  MSEHasGuidByte0; MSEHasGuidByte4; MSEHasGuidByte1; MSEGuidByte7; MSEGuidByte0; MSEGuidByte4;
  MSEGuidByte6; MSEGuidByte5; MSEGuidByte1; MSEGuidByte2; MSEGuidByte3; MSEEnd
].

Definition SplineMoveGravityDisable : list MovementStatusElements := [
  MSEHasGuidByte7; MSEHasGuidByte3; MSEHasGuidByte4; MSEHasGuidByte2; MSEHasGuidByte5;
  MSEHasGuidByte1; MSEHasGuidByte0; MSEHasGuidByte6; MSEGuidByte7; MSEGuidByte1; MSEGuidByte3;
  MSEGuidByte4; MSEGuidByte6; MSEGuidByte2; MSEGuidByte5; MSEGuidByte0; MSEEnd
].

Definition SplineMoveGravityEnable : list MovementStatusElements := [
  MSEHasGuidByte5; MSEHasGuidByte4; MSEHasGuidByte7; MSEHasGuidByte1; MSEHasGuidByte3;
  MSEHasGuidByte6; MSEHasGuidByte2; MSEHasGuidByte0; MSEGuidByte7; MSEGuidByte3; MSEGuidByte4;
  MSEGuidByte2; MSEGuidByte1; MSEGuidByte6; MSEGuidByte0; MSEGuidByte5; MSEEnd
].

Definition SplineMoveSetHover : list MovementStatusElements := [
  MSEHasGuidByte3; MSEHasGuidByte7; MSEHasGuidByte0; MSEHasGuidByte1; MSEHasGuidByte4;
  MSEHasGuidByte6; MSEHasGuidByte2; MSEHasGuidByte5; MSEGuidByte2; MSEGuidByte4; MSEGuidByte3;
  MSEGuidByte1; MSEGuidByte7; MSEGuidByte0; MSEGuidByte5; MSEGuidByte6; MSEEnd
].

Definition SplineMoveUnsetHover : list MovementStatusElements := [
  MSEHasGuidByte6; MSEHasGuidByte7; MSEHasGuidByte4; MSEHasGuidByte0; MSEHasGuidByte3;
  MSEHasGuidByte1; MSEHasGuidByte5; MSEHasGuidByte2; MSEGuidByte4; MSEGuidByte5; MSEGuidByte3;
  MSEGuidByte0; MSEGuidByte2; MSEGuidByte7; MSEGuidByte6; MSEGuidByte1; MSEEnd
].

Definition SplineMoveStartSwim : list MovementStatusElements := [
  MSEHasGuidByte1; MSEHasGuidByte6; MSEHasGuidByte0; MSEHasGuidByte7; MSEHasGuidByte3;
  MSEHasGuidByte5; MSEHasGuidByte2; MSEHasGuidByte4; MSEGuidByte3; MSEGuidByte7; MSEGuidByte2;
  MSEGuidByte5; MSEGuidByte6; MSEGuidByte4; MSEGuidByte1; MSEGuidByte0; MSEEnd
].

Definition SplineMoveStopSwim : list MovementStatusElements := [
  MSEHasGuidByte4; MSEHasGuidByte1; MSEHasGuidByte5; MSEHasGuidByte3; MSEHasGuidByte0;
  MSEHasGuidByte7; MSEHasGuidByte2; MSEHasGuidByte6; MSEGuidByte6; MSEGuidByte0; MSEGuidByte7;
  MSEGuidByte2; MSEGuidByte3; MSEGuidByte1; MSEGuidByte5; MSEGuidByte4; MSEEnd
].

Definition SplineMoveSetFlying : list MovementStatusElements := [
  MSEHasGuidByte0; MSEHasGuidByte4; MSEHasGuidByte1; MSEHasGuidByte6; MSEHasGuidByte7;
  MSEHasGuidByte2; MSEHasGuidByte3; MSEHasGuidByte5; MSEGuidByte7; MSEGuidByte0; MSEGuidByte5;
  MSEGuidByte6; MSEGuidByte4; MSEGuidByte1; MSEGuidByte3; MSEGuidByte2; MSEEnd
].

Definition SplineMoveUnsetFlying : list MovementStatusElements := [
  MSEHasGuidByte5; MSEHasGuidByte0; MSEHasGuidByte4; MSEHasGuidByte7; MSEHasGuidByte2;
  MSEHasGuidByte3; MSEHasGuidByte1; MSEHasGuidByte6; MSEGuidByte7; MSEGuidByte2; MSEGuidByte3;
  MSEGuidByte4; MSEGuidByte5; MSEGuidByte1; MSEGuidByte6; MSEGuidByte0; MSEEnd
].

Definition SplineMoveSetWaterWalk : list MovementStatusElements := [
  MSEHasGuidByte6; MSEHasGuidByte1; MSEHasGuidByte4; MSEHasGuidByte2; MSEHasGuidByte3;
  MSEHasGuidByte7; MSEHasGuidByte5; MSEHasGuidByte0; MSEGuidByte0; MSEGuidByte6; MSEGuidByte3;
  MSEGuidByte7; MSEGuidByte4; MSEGuidByte2; MSEGuidByte5; MSEGuidByte1; MSEEnd
].

Definition SplineMoveSetLandWalk : list MovementStatusElements := [
  MSEHasGuidByte5; MSEHasGuidByte0; MSEHasGuidByte4; MSEHasGuidByte6; MSEHasGuidByte7;
  MSEHasGuidByte2; MSEHasGuidByte3; MSEHasGuidByte1; MSEGuidByte5; MSEGuidByte7; MSEGuidByte3;
  MSEGuidByte4; MSEGuidByte1; MSEGuidByte2; MSEGuidByte0; MSEGuidByte6; MSEEnd
].

Definition SplineMoveSetFeatherFall : list MovementStatusElements := [
  MSEHasGuidByte3; MSEHasGuidByte2; MSEHasGuidByte7; MSEHasGuidByte5; MSEHasGuidByte4;
  MSEHasGuidByte6; MSEHasGuidByte1; MSEHasGuidByte0; MSEGuidByte1; MSEGuidByte4; MSEGuidByte7;
  MSEGuidByte6; MSEGuidByte2; MSEGuidByte0; MSEGuidByte5; MSEGuidByte3; MSEEnd
].

Definition SplineMoveSetNormalFall : list MovementStatusElements := [
  MSEHasGuidByte3; MSEHasGuidByte5; MSEHasGuidByte1; MSEHasGuidByte0; MSEHasGuidByte7;
  MSEHasGuidByte6; MSEHasGuidByte2; MSEHasGuidByte4; MSEGuidByte7; MSEGuidByte6; MSEGuidByte2;
  MSEGuidByte0; MSEGuidByte5; MSEGuidByte4; MSEGuidByte3; MSEGuidByte1; MSEEnd
].

Definition SplineMoveRoot : list MovementStatusElements := [
  MSEHasGuidByte5; MSEHasGuidByte4; MSEHasGuidByte6; MSEHasGuidByte1; MSEHasGuidByte3;
  MSEHasGuidByte7; MSEHasGuidByte2; MSEHasGuidByte0; MSEGuidByte2; MSEGuidByte1; MSEGuidByte7;
  MSEGuidByte3; MSEGuidByte5; MSEGuidByte0; MSEGuidByte6; MSEGuidByte4; MSEEnd
].

Definition SplineMoveUnroot : list MovementStatusElements := [
  MSEHasGuidByte0; MSEHasGuidByte1; MSEHasGuidByte6; MSEHasGuidByte5; MSEHasGuidByte3;
  MSEHasGuidByte2; MSEHasGuidByte7; MSEHasGuidByte4; MSEGuidByte6; MSEGuidByte3; MSEGuidByte1;
  MSEGuidByte5; MSEGuidByte2; MSEGuidByte0; MSEGuidByte7; MSEGuidByte4; MSEEnd
].

Definition MoveSetCanFly : list MovementStatusElements := [
  MSEHasGuidByte1; MSEHasGuidByte6; MSEHasGuidByte5; MSEHasGuidByte0; MSEHasGuidByte7;
  MSEHasGuidByte4; MSEHasGuidByte2; MSEHasGuidByte3; MSEGuidByte6; MSEGuidByte3; MSECounter;
  MSEGuidByte2; MSEGuidByte1; MSEGuidByte4; MSEGuidByte7; MSEGuidByte0; MSEGuidByte5; MSEEnd
].

Definition MoveUnsetCanFly : list MovementStatusElements := [
  MSEHasGuidByte1; MSEHasGuidByte4; MSEHasGuidByte2; MSEHasGuidByte5; MSEHasGuidByte0;
  MSEHasGuidByte3; MSEHasGuidByte6; MSEHasGuidByte7; MSEGuidByte4; MSEGuidByte6; MSECounter;
  MSEGuidByte1; MSEGuidByte0; MSEGuidByte2; MSEGuidByte3; MSEGuidByte5; MSEGuidByte7; MSEEnd
].

Definition MoveSetHover : list MovementStatusElements := [
  MSEHasGuidByte1; MSEHasGuidByte4; MSEHasGuidByte2; MSEHasGuidByte3; MSEHasGuidByte0;
  MSEHasGuidByte5; MSEHasGuidByte6; MSEHasGuidByte7; MSEGuidByte5; MSEGuidByte4; MSEGuidByte1;
  MSEGuidByte2; MSEGuidByte3; MSEGuidByte6; MSEGuidByte0; MSEGuidByte7; MSECounter; MSEEnd
].

Definition MoveUnsetHover : list MovementStatusElements := [
  MSEHasGuidByte4; MSEHasGuidByte6; MSEHasGuidByte3; MSEHasGuidByte1; MSEHasGuidByte2;
  MSEHasGuidByte7; MSEHasGuidByte5; MSEHasGuidByte0; MSEGuidByte4; MSEGuidByte5; MSEGuidByte3;
  MSEGuidByte6; MSEGuidByte7; MSEGuidByte1; MSEGuidByte2; MSEGuidByte0; MSECounter; MSEEnd
].

Definition MoveWaterWalk : list MovementStatusElements := [
  MSEHasGuidByte4; MSEHasGuidByte7; MSEHasGuidByte6; MSEHasGuidByte0; MSEHasGuidByte1;
  MSEHasGuidByte3; MSEHasGuidByte5; MSEHasGuidByte2; MSEGuidByte0; MSEGuidByte5; MSEGuidByte2;
  MSECounter; MSEGuidByte7; MSEGuidByte3; MSEGuidByte4; MSEGuidByte1; MSEGuidByte6; MSEEnd
].

Definition MoveLandWalk : list MovementStatusElements := [
  MSEHasGuidByte5; MSEHasGuidByte1; MSEHasGuidByte6; MSEHasGuidByte2; MSEHasGuidByte3;
  MSEHasGuidByte4; MSEHasGuidByte0; MSEHasGuidByte7; MSEGuidByte6; MSEGuidByte1; MSEGuidByte7;
  MSEGuidByte5; MSEGuidByte4; MSEGuidByte0; MSEGuidByte3; MSEGuidByte2; MSECounter; MSEEnd
].

Definition MoveFeatherFall : list MovementStatusElements := [
  MSEHasGuidByte3; MSEHasGuidByte1; MSEHasGuidByte7; MSEHasGuidByte0; MSEHasGuidByte4;
  MSEHasGuidByte2; MSEHasGuidByte5; MSEHasGuidByte6; MSEGuidByte5; MSEGuidByte7; MSEGuidByte2;
  MSECounter; MSEGuidByte0; MSEGuidByte3; MSEGuidByte4; MSEGuidByte1; MSEGuidByte6; MSEEnd
].

Definition MoveNormalFall : list MovementStatusElements := [
  MSECounter; MSEHasGuidByte3; MSEHasGuidByte0; MSEHasGuidByte1; MSEHasGuidByte5;
  MSEHasGuidByte7; MSEHasGuidByte4; MSEHasGuidByte6; MSEHasGuidByte2; MSEGuidByte2;
  MSEGuidByte7; MSEGuidByte1; MSEGuidByte4; MSEGuidByte5; MSEGuidByte0; MSEGuidByte3;
  MSEGuidByte6; MSEEnd
].

Definition MoveRoot : list MovementStatusElements := [
  MSEHasGuidByte2; MSEHasGuidByte7; MSEHasGuidByte6; MSEHasGuidByte0; MSEHasGuidByte5;
  MSEHasGuidByte4; MSEHasGuidByte1; MSEHasGuidByte3; MSEGuidByte1; MSEGuidByte0; MSEGuidByte2;
  MSEGuidByte5; MSECounter; MSEGuidByte3; MSEGuidByte4; MSEGuidByte7; MSEGuidByte6; MSEEnd
].

Definition MoveUnroot : list MovementStatusElements := [
  MSEHasGuidByte0; MSEHasGuidByte1; MSEHasGuidByte3; MSEHasGuidByte7; MSEHasGuidByte5;
  MSEHasGuidByte2; MSEHasGuidByte4; MSEHasGuidByte6; MSEGuidByte3; MSEGuidByte6; MSEGuidByte1;
  MSECounter; MSEGuidByte2; MSEGuidByte0; MSEGuidByte7; MSEGuidByte4; MSEGuidByte5; MSEEnd
].

Definition ChangeSeatsOnControlledVehicle : list MovementStatusElements := [
  MSEPositionY; MSEPositionX; MSEPositionZ; MSEExtraElement; MSEHasMovementFlags;
  MSEHasTransportData; MSEHasGuidByte2; MSEHasGuidByte6; MSEHasGuidByte4; MSEExtraElement;
  MSEExtraElement; MSEHasOrientation; MSEZeroBit; MSEExtraElement; MSEHasGuidByte7;
  MSEExtraElement; MSEHasTimestamp; MSEHasSplineElevation; MSEHasGuidByte5; MSEExtraElement;
  MSEHasMovementFlags2; MSEHasPitch; MSEExtraElement; MSEHasGuidByte0; MSEExtraElement;
  MSEHasFallData; MSEHasGuidByte1; MSEHasSpline; MSEMovementFlags; MSEExtraElement;
  MSEHasGuidByte3; MSEHasTransportGuidByte3; MSEHasTransportGuidByte0;
  MSEHasTransportGuidByte7; MSEHasTransportGuidByte5; MSEHasTransportTime3;
  MSEHasTransportGuidByte1; MSEHasTransportGuidByte2; MSEHasTransportTime2;
  MSEHasTransportGuidByte4; MSEHasTransportGuidByte6; MSEMovementFlags2; MSEHasFallDirection;
  MSEExtraElement; MSEGuidByte7; MSEGuidByte5; MSEExtraElement; MSEExtraElement; MSEGuidByte6;
  MSEExtraElement; MSEExtraElement; MSEGuidByte3; MSEExtraElement; MSEGuidByte0;
  MSEExtraElement; MSEGuidByte4; MSEGuidByte1; MSEExtraElement; MSEGuidByte2; MSEPitch;
  MSEFallSinAngle; MSEFallCosAngle; MSEFallHorizontalSpeed; MSEFallTime; MSEFallVerticalSpeed;
  MSETransportGuidByte2; MSETransportTime2; MSETransportTime3; MSETransportGuidByte0;
  MSETransportTime; MSETransportSeat; MSETransportPositionX; MSETransportOrientation;
  MSETransportGuidByte7; MSETransportGuidByte4; MSETransportGuidByte3; MSETransportGuidByte5;
  MSETransportPositionZ; MSETransportGuidByte1; MSETransportGuidByte6; MSETransportPositionY;
  MSESplineElevation; MSEOrientation; MSETimestamp; MSEEnd
].

Definition CastSpellEmbeddedMovement : list MovementStatusElements := [
  MSEPositionZ; MSEPositionY; MSEPositionX; MSEHasFallData; MSEHasTimestamp; MSEHasOrientation;
  MSEZeroBit; MSEHasSpline; MSEHasGuidByte6; MSEHasGuidByte4; MSEHasMovementFlags2;
  MSEHasGuidByte3; MSEHasGuidByte5; MSEHasSplineElevation; MSEHasPitch; MSEHasGuidByte7;
  MSEHasTransportData; MSEHasGuidByte2; MSEHasMovementFlags; MSEHasGuidByte1; MSEHasGuidByte0;
  MSEHasTransportGuidByte6; MSEHasTransportGuidByte2; MSEHasTransportGuidByte5;
  MSEHasTransportTime2; MSEHasTransportGuidByte7; MSEHasTransportGuidByte4;
  MSEHasTransportTime3; MSEHasTransportGuidByte0; MSEHasTransportGuidByte1;
  MSEHasTransportGuidByte3; MSEMovementFlags2; MSEMovementFlags; MSEHasFallDirection;
  MSEGuidByte1; MSEGuidByte4; MSEGuidByte7; MSEGuidByte3; MSEGuidByte0; MSEGuidByte2;
  MSEGuidByte5; MSEGuidByte6; MSETransportSeat; MSETransportOrientation; MSETransportTime;
  MSETransportGuidByte6; MSETransportGuidByte5; MSETransportTime3; MSETransportPositionX;
  MSETransportGuidByte4; MSETransportPositionZ; MSETransportGuidByte2; MSETransportGuidByte0;
  MSETransportTime2; MSETransportGuidByte1; MSETransportGuidByte3; MSETransportPositionY;
  MSETransportGuidByte7; MSEOrientation; MSESplineElevation; MSEFallTime;
  MSEFallHorizontalSpeed; MSEFallCosAngle; MSEFallSinAngle; MSEFallVerticalSpeed; MSETimestamp;
  MSEPitch; MSEEnd
].

(** ** Opcodes *)

Open Scope Z_scope.
Module Opcodes.
Definition NULL_OPCODE : Z := 0.
Definition MSG_MOVE_FALL_LAND : Z := 0x0CCF.
Definition MSG_MOVE_HEARTBEAT : Z := 0x0E0B.
Definition MSG_MOVE_JUMP : Z := 0x0CCA.
Definition MSG_MOVE_SET_FACING : Z := 0x0886.
Definition MSG_MOVE_SET_PITCH : Z := 0x0C43.
Definition MSG_MOVE_START_ASCEND : Z := 0x089F.
Definition MSG_MOVE_START_BACKWARD : Z := 0x08D2.
Definition MSG_MOVE_START_DESCEND : Z := 0x0893.
Definition MSG_MOVE_START_FORWARD : Z := 0x0A4B.
Definition MSG_MOVE_START_PITCH_DOWN : Z := 0x0A12.
Definition MSG_MOVE_START_PITCH_UP : Z := 0x0C02.
Definition MSG_MOVE_START_STRAFE_LEFT : Z := 0x0816.
Definition MSG_MOVE_START_STRAFE_RIGHT : Z := 0x0843.
Definition MSG_MOVE_START_SWIM : Z := 0x0C13.
Definition MSG_MOVE_START_TURN_LEFT : Z := 0x0A9E.
Definition MSG_MOVE_START_TURN_RIGHT : Z := 0x0A07.
Definition MSG_MOVE_STOP : Z := 0x0813.
Definition MSG_MOVE_STOP_ASCEND : Z := 0x0A47.
Definition MSG_MOVE_STOP_PITCH : Z := 0x0AC7.
Definition MSG_MOVE_STOP_STRAFE : Z := 0x0A4A.
Definition MSG_MOVE_STOP_SWIM : Z := 0x0C93.
Definition MSG_MOVE_STOP_TURN : Z := 0x080A.
Definition SMSG_PLAYER_MOVE : Z := 0x1109.
Definition CMSG_MOVE_CHNG_TRANSPORT : Z := 0x3102.
Definition CMSG_MOVE_SPLINE_DONE : Z := 0x790E.
Definition CMSG_MOVE_NOT_ACTIVE_MOVER : Z := 0x7A1A.
Definition CMSG_DISMISS_CONTROLLED_VEHICLE : Z := 0x0A56.
Definition SMSG_MOVE_UPDATE_TELEPORT : Z := 0x50B2.
Definition CMSG_FORCE_MOVE_ROOT_ACK : Z := 0x701E.
Definition CMSG_FORCE_MOVE_UNROOT_ACK : Z := 0x7808.
Definition CMSG_MOVE_FALL_RESET : Z := 0x0AC3.
Definition CMSG_MOVE_FEATHER_FALL_ACK : Z := 0x3110.
Definition CMSG_MOVE_FORCE_FLIGHT_SPEED_CHANGE_ACK : Z := 0x7314.
Definition CMSG_MOVE_FORCE_RUN_BACK_SPEED_CHANGE_ACK : Z := 0x3216.
Definition CMSG_MOVE_FORCE_RUN_SPEED_CHANGE_ACK : Z := 0x7818.
Definition CMSG_MOVE_FORCE_SWIM_SPEED_CHANGE_ACK : Z := 0x7A10.
Definition CMSG_MOVE_FORCE_WALK_SPEED_CHANGE_ACK : Z := 0x7210.
Definition CMSG_MOVE_GRAVITY_DISABLE_ACK : Z := 0x3118.
Definition CMSG_MOVE_GRAVITY_ENABLE_ACK : Z := 0x700A.
Definition CMSG_MOVE_HOVER_ACK : Z := 0x3318.
Definition CMSG_MOVE_KNOCK_BACK_ACK : Z := 0x721C.
Definition CMSG_MOVE_SET_CAN_FLY : Z := 0x720E.
Definition CMSG_MOVE_SET_CAN_FLY_ACK : Z := 0x790C.
Definition CMSG_MOVE_SET_CAN_TRANSITION_BETWEEN_SWIM_AND_FLY_ACK : Z := 0x3014.
Definition SMSG_MOVE_SET_COLLISION_HEIGHT : Z := 0x11B0.
Definition CMSG_MOVE_SET_COLLISION_HEIGHT_ACK : Z := 0x7114.
Definition SMSG_MOVE_UPDATE_COLLISION_HEIGHT : Z := 0x59A3.
Definition CMSG_MOVE_WATER_WALK_ACK : Z := 0x3B00.
Definition MSG_MOVE_SET_RUN_MODE : Z := 0x081F.
Definition MSG_MOVE_SET_WALK_MODE : Z := 0x0856.
Definition SMSG_MOVE_UPDATE_FLIGHT_SPEED : Z := 0x30B1.
Definition SMSG_MOVE_UPDATE_RUN_SPEED : Z := 0x14A6.
Definition SMSG_MOVE_UPDATE_KNOCK_BACK : Z := 0x3DB2.
Definition SMSG_MOVE_UPDATE_RUN_BACK_SPEED : Z := 0x3DA6.
Definition SMSG_MOVE_UPDATE_SWIM_SPEED : Z := 0x59B5.
Definition SMSG_MOVE_UPDATE_WALK_SPEED : Z := 0x54A2.
Definition SMSG_SPLINE_MOVE_SET_WALK_SPEED : Z := 0x34A5.
Definition SMSG_SPLINE_MOVE_SET_RUN_SPEED : Z := 0x51B7.
Definition SMSG_SPLINE_MOVE_SET_RUN_BACK_SPEED : Z := 0x3DB3.
Definition SMSG_SPLINE_MOVE_SET_SWIM_SPEED : Z := 0x39A4.
Definition SMSG_SPLINE_MOVE_SET_SWIM_BACK_SPEED : Z := 0x59A1.
Definition SMSG_SPLINE_MOVE_SET_TURN_RATE : Z := 0x78B5.
Definition SMSG_SPLINE_MOVE_SET_FLIGHT_SPEED : Z := 0x39A0.
Definition SMSG_SPLINE_MOVE_SET_FLIGHT_BACK_SPEED : Z := 0x38B3.
Definition SMSG_SPLINE_MOVE_SET_PITCH_RATE : Z := 0x14B0.
Definition SMSG_MOVE_SET_WALK_SPEED : Z := 0x051D.
Definition SMSG_MOVE_SET_RUN_SPEED : Z := 0x0758.
Definition SMSG_MOVE_SET_RUN_BACK_SPEED : Z := 0x71B1.
Definition SMSG_MOVE_SET_SWIM_SPEED : Z := 0x0905.
Definition SMSG_MOVE_SET_SWIM_BACK_SPEED : Z := 0x5CA6.
Definition SMSG_MOVE_SET_TURN_RATE : Z := 0x30A5.
Definition SMSG_MOVE_SET_FLIGHT_SPEED : Z := 0x0E54.
Definition SMSG_MOVE_SET_FLIGHT_BACK_SPEED : Z := 0x30A2.
Definition SMSG_MOVE_SET_PITCH_RATE : Z := 0x75B0.
Definition SMSG_SPLINE_MOVE_SET_WALK_MODE : Z := 0x54B6.
Definition SMSG_SPLINE_MOVE_SET_RUN_MODE : Z := 0x75A7.
Definition SMSG_SPLINE_MOVE_GRAVITY_DISABLE : Z := 0x5DB5.
Definition SMSG_SPLINE_MOVE_GRAVITY_ENABLE : Z := 0x3CA6.
Definition SMSG_SPLINE_MOVE_SET_HOVER : Z := 0x14B6.
Definition SMSG_SPLINE_MOVE_UNSET_HOVER : Z := 0x7DA5.
Definition SMSG_SPLINE_MOVE_START_SWIM : Z := 0x31A5.
Definition SMSG_SPLINE_MOVE_STOP_SWIM : Z := 0x1DA2.
Definition SMSG_SPLINE_MOVE_SET_FLYING : Z := 0x31B5.
Definition SMSG_SPLINE_MOVE_UNSET_FLYING : Z := 0x58A6.
Definition SMSG_SPLINE_MOVE_SET_WATER_WALK : Z := 0x50A2.
Definition SMSG_SPLINE_MOVE_SET_LAND_WALK : Z := 0x3DA7.
Definition SMSG_SPLINE_MOVE_SET_FEATHER_FALL : Z := 0x3DA5.
Definition SMSG_SPLINE_MOVE_SET_NORMAL_FALL : Z := 0x38B2.
Definition SMSG_SPLINE_MOVE_ROOT : Z := 0x51B4.
Definition SMSG_SPLINE_MOVE_UNROOT : Z := 0x75B6.
Definition SMSG_MOVE_SET_CAN_FLY : Z := 0x0F48.
Definition SMSG_MOVE_UNSET_CAN_FLY : Z := 0x034D.
Definition SMSG_MOVE_SET_HOVER : Z := 0x5CB3.
Definition SMSG_MOVE_UNSET_HOVER : Z := 0x51B3.
Definition SMSG_MOVE_WATER_WALK : Z := 0x75B1.
Definition SMSG_MOVE_LAND_WALK : Z := 0x34B7.
Definition SMSG_MOVE_FEATHER_FALL : Z := 0x79B0.
Definition SMSG_MOVE_NORMAL_FALL : Z := 0x51B6.
Definition SMSG_MOVE_ROOT : Z := 0x7DA0.
Definition SMSG_MOVE_UNROOT : Z := 0x7DB4.
Definition CMSG_CHANGE_SEATS_ON_CONTROLLED_VEHICLE : Z := 0x7310.
Definition CMSG_CAST_SPELL : Z := 0x4C07.
Definition CMSG_PET_CAST_SPELL : Z := 0x6337.
Definition CMSG_USE_ITEM : Z := 0x2C06.
End Opcodes.
Import Opcodes.

(** The labels of the [switch] are distinct values (lemma [dispatch_NoDup]), so their
    order does not matter. *)
Definition dispatch : list (Z * list MovementStatusElements) := [
  (MSG_MOVE_FALL_LAND, MovementFallLand);
  (MSG_MOVE_HEARTBEAT, MovementHeartBeat);
  (MSG_MOVE_JUMP, MovementJump);
  (MSG_MOVE_SET_FACING, MovementSetFacing);
  (MSG_MOVE_SET_PITCH, MovementSetPitch);
  (MSG_MOVE_START_ASCEND, MovementStartAscend);
  (MSG_MOVE_START_BACKWARD, MovementStartBackward);
  (MSG_MOVE_START_DESCEND, MovementStartDescend);
  (MSG_MOVE_START_FORWARD, MovementStartForward);
  (MSG_MOVE_START_PITCH_DOWN, MovementStartPitchDown);
  (MSG_MOVE_START_PITCH_UP, MovementStartPitchUp);
  (MSG_MOVE_START_STRAFE_LEFT, MovementStartStrafeLeft);
  (MSG_MOVE_START_STRAFE_RIGHT, MovementStartStrafeRight);
  (MSG_MOVE_START_SWIM, MovementStartSwim);
  (MSG_MOVE_START_TURN_LEFT, MovementStartTurnLeft);
  (MSG_MOVE_START_TURN_RIGHT, MovementStartTurnRight);
  (MSG_MOVE_STOP, MovementStop);
  (MSG_MOVE_STOP_ASCEND, MovementStopAscend);
  (MSG_MOVE_STOP_PITCH, MovementStopPitch);
  (MSG_MOVE_STOP_STRAFE, MovementStopStrafe);
  (MSG_MOVE_STOP_SWIM, MovementStopSwim);
  (MSG_MOVE_STOP_TURN, MovementStopTurn);
  (SMSG_PLAYER_MOVE, PlayerMove);
  (CMSG_MOVE_CHNG_TRANSPORT, MoveChngTransport);
  (CMSG_MOVE_SPLINE_DONE, MoveSplineDone);
  (CMSG_MOVE_NOT_ACTIVE_MOVER, MoveNotActiveMover);
  (CMSG_DISMISS_CONTROLLED_VEHICLE, DismissControlledVehicle);
  (SMSG_MOVE_UPDATE_TELEPORT, MoveUpdateTeleport);
  (CMSG_FORCE_MOVE_ROOT_ACK, ForceMoveRootAck);
  (CMSG_FORCE_MOVE_UNROOT_ACK, ForceMoveUnrootAck);
  (CMSG_MOVE_FALL_RESET, MovementFallReset);
  (CMSG_MOVE_FEATHER_FALL_ACK, MovementFeatherFallAck);
  (CMSG_MOVE_FORCE_FLIGHT_SPEED_CHANGE_ACK, MovementForceFlightSpeedChangeAck);
  (CMSG_MOVE_FORCE_RUN_BACK_SPEED_CHANGE_ACK, MovementForceRunBackSpeedChangeAck);
  (CMSG_MOVE_FORCE_RUN_SPEED_CHANGE_ACK, MovementForceRunSpeedChangeAck);
  (CMSG_MOVE_FORCE_SWIM_SPEED_CHANGE_ACK, MovementForceSwimSpeedChangeAck);
  (CMSG_MOVE_FORCE_WALK_SPEED_CHANGE_ACK, MovementForceWalkSpeedChangeAck);
  (CMSG_MOVE_GRAVITY_DISABLE_ACK, MovementGravityDisableAck);
  (CMSG_MOVE_GRAVITY_ENABLE_ACK, MovementGravityEnableAck);
  (CMSG_MOVE_HOVER_ACK, MovementHoverAck);
  (CMSG_MOVE_KNOCK_BACK_ACK, MovementKnockBackAck);
  (CMSG_MOVE_SET_CAN_FLY, MovementSetCanFly);
  (CMSG_MOVE_SET_CAN_FLY_ACK, MovementSetCanFlyAck);
  (CMSG_MOVE_SET_CAN_TRANSITION_BETWEEN_SWIM_AND_FLY_ACK, MovementSetCanTransitionBetweenSwimAndFlyAck);
  (SMSG_MOVE_SET_COLLISION_HEIGHT, MoveSetCollisionHeight);
  (CMSG_MOVE_SET_COLLISION_HEIGHT_ACK, MovementSetCollisionHeightAck);
  (SMSG_MOVE_UPDATE_COLLISION_HEIGHT, MovementUpdateCollisionHeight);
  (CMSG_MOVE_WATER_WALK_ACK, MovementWaterWalkAck);
  (MSG_MOVE_SET_RUN_MODE, MovementSetRunMode);
  (MSG_MOVE_SET_WALK_MODE, MovementSetWalkMode);
  (SMSG_MOVE_UPDATE_FLIGHT_SPEED, MovementUpdateFlightSpeed);
  (SMSG_MOVE_UPDATE_RUN_SPEED, MovementUpdateRunSpeed);
  (SMSG_MOVE_UPDATE_KNOCK_BACK, MovementUpdateKnockBack);
  (SMSG_MOVE_UPDATE_RUN_BACK_SPEED, MovementUpdateRunBackSpeed);
  (SMSG_MOVE_UPDATE_SWIM_SPEED, MovementUpdateSwimSpeed);
  (SMSG_MOVE_UPDATE_WALK_SPEED, MovementUpdateWalkSpeed);
  (SMSG_SPLINE_MOVE_SET_WALK_SPEED, SplineMoveSetWalkSpeed);
  (SMSG_SPLINE_MOVE_SET_RUN_SPEED, SplineMoveSetRunSpeed);
  (SMSG_SPLINE_MOVE_SET_RUN_BACK_SPEED, SplineMoveSetRunBackSpeed);
  (SMSG_SPLINE_MOVE_SET_SWIM_SPEED, SplineMoveSetSwimSpeed);
  (SMSG_SPLINE_MOVE_SET_SWIM_BACK_SPEED, SplineMoveSetSwimBackSpeed);
  (SMSG_SPLINE_MOVE_SET_TURN_RATE, SplineMoveSetTurnRate);
  (SMSG_SPLINE_MOVE_SET_FLIGHT_SPEED, SplineMoveSetFlightSpeed);
  (SMSG_SPLINE_MOVE_SET_FLIGHT_BACK_SPEED, SplineMoveSetFlightBackSpeed);
  (SMSG_SPLINE_MOVE_SET_PITCH_RATE, SplineMoveSetPitchRate);
  (SMSG_MOVE_SET_WALK_SPEED, MoveSetWalkSpeed);
  (SMSG_MOVE_SET_RUN_SPEED, MoveSetRunSpeed);
  (SMSG_MOVE_SET_RUN_BACK_SPEED, MoveSetRunBackSpeed);
  (SMSG_MOVE_SET_SWIM_SPEED, MoveSetSwimSpeed);
  (SMSG_MOVE_SET_SWIM_BACK_SPEED, MoveSetSwimBackSpeed);
  (SMSG_MOVE_SET_TURN_RATE, MoveSetTurnRate);
  (SMSG_MOVE_SET_FLIGHT_SPEED, MoveSetFlightSpeed);
  (SMSG_MOVE_SET_FLIGHT_BACK_SPEED, MoveSetFlightBackSpeed);
  (SMSG_MOVE_SET_PITCH_RATE, MoveSetPitchRate);
  (SMSG_SPLINE_MOVE_SET_WALK_MODE, SplineMoveSetWalkMode);
  (SMSG_SPLINE_MOVE_SET_RUN_MODE, SplineMoveSetRunMode);
  (SMSG_SPLINE_MOVE_GRAVITY_DISABLE, SplineMoveGravityDisable);
  (SMSG_SPLINE_MOVE_GRAVITY_ENABLE, SplineMoveGravityEnable);
  (SMSG_SPLINE_MOVE_SET_HOVER, SplineMoveSetHover);
  (SMSG_SPLINE_MOVE_UNSET_HOVER, SplineMoveUnsetHover);
  (SMSG_SPLINE_MOVE_START_SWIM, SplineMoveStartSwim);
  (SMSG_SPLINE_MOVE_STOP_SWIM, SplineMoveStopSwim);
  (SMSG_SPLINE_MOVE_SET_FLYING, SplineMoveSetFlying);
  (SMSG_SPLINE_MOVE_UNSET_FLYING, SplineMoveUnsetFlying);
  (SMSG_SPLINE_MOVE_SET_WATER_WALK, SplineMoveSetWaterWalk);
  (SMSG_SPLINE_MOVE_SET_LAND_WALK, SplineMoveSetLandWalk);
  (SMSG_SPLINE_MOVE_SET_FEATHER_FALL, SplineMoveSetFeatherFall);
  (SMSG_SPLINE_MOVE_SET_NORMAL_FALL, SplineMoveSetNormalFall);
  (SMSG_SPLINE_MOVE_ROOT, SplineMoveRoot);
  (SMSG_SPLINE_MOVE_UNROOT, SplineMoveUnroot);
  (SMSG_MOVE_SET_CAN_FLY, MoveSetCanFly);
  (SMSG_MOVE_UNSET_CAN_FLY, MoveUnsetCanFly);
  (SMSG_MOVE_SET_HOVER, MoveSetHover);
  (SMSG_MOVE_UNSET_HOVER, MoveUnsetHover);
  (SMSG_MOVE_WATER_WALK, MoveWaterWalk);
  (SMSG_MOVE_LAND_WALK, MoveLandWalk);
  (SMSG_MOVE_FEATHER_FALL, MoveFeatherFall);
  (SMSG_MOVE_NORMAL_FALL, MoveNormalFall);
  (SMSG_MOVE_ROOT, MoveRoot);
  (SMSG_MOVE_UNROOT, MoveUnroot);
  (CMSG_CHANGE_SEATS_ON_CONTROLLED_VEHICLE, ChangeSeatsOnControlledVehicle);
  (CMSG_CAST_SPELL, CastSpellEmbeddedMovement);
  (CMSG_PET_CAST_SPELL, CastSpellEmbeddedMovement);
  (CMSG_USE_ITEM, CastSpellEmbeddedMovement)
].

Definition GetMovementStatusElementsSequence (opcode : Z)
    : option (list MovementStatusElements) :=
  snd <$> List.find (λ p, p.1 =? opcode) dispatch.

Definition nodupb (l : list Z) : bool :=
  (fix go (l : list Z) : bool :=
     match l with [] => true | x :: l => negb (existsb (Z.eqb x) l) && go l end) l.

Lemma nodupb_NoDup l : nodupb l = true → NoDup l.
Proof.
  induction l as [|x l IH]; simpl; [constructor|]. rewrite andb_true_iff, negb_true_iff.
  intros [Hx Hl]. constructor; [|by apply IH]. intros Hin.
  assert (existsb (Z.eqb x) l = true) as E; [|congruence].
  apply existsb_exists. exists x. by rewrite Z.eqb_refl, <- list_elem_of_In.
Qed.

Lemma dispatch_NoDup : NoDup dispatch.*1.
Proof. apply nodupb_NoDup. vm_compute. reflexivity. Qed.
