(* ===== verification/MovementInfo.v ===== *)
(** * MovementInfo: a unit's movement state and its packets.

    The data of [struct MovementInfo] and [Position] (Object.h), the movement flags
    (Unit.h), the interpreter of a movement table that writes a unit's state into a
    packet ([Unit::WriteMovementInfo]), the one that reads a received packet
    ([Player::ReadMovementInfo]), the clean-up of contradictory flags after it, the
    extra elements of a packet ([Movement::ExtraMovementStatusElement]) and the
    sender ([Movement::PacketSender]). Floats are 32-bit representations. *)
From S2P Require Import Prelude Bits ByteBuffer ObjectGuid Float32 MovementElements MovementTables.
Open Scope Z_scope.

(** ** Data *)

Record Position : Type := mkPosition {
  m_positionX : Z; m_positionY : Z; m_positionZ : Z; m_orientation : Z }.

Definition SetOrientation (o : Z) (p : Position) : Position :=
  mkPosition (m_positionX p) (m_positionY p) (m_positionZ p) (NormalizeOrientation o).
Definition set_X (v : Z) (p : Position) : Position :=
  mkPosition v (m_positionY p) (m_positionZ p) (m_orientation p).
Definition set_Y (v : Z) (p : Position) : Position :=
  mkPosition (m_positionX p) v (m_positionZ p) (m_orientation p).
Definition set_Z (v : Z) (p : Position) : Position :=
  mkPosition (m_positionX p) (m_positionY p) v (m_orientation p).
(** [Relocate(x, y, z, orientation)] *)
Definition Relocate (x y z o : Z) : Position := mkPosition x y z (NormalizeOrientation o).

Record TransportInfo : Type := mkTransport {
  t_guid : Z; t_pos : Position; t_seat : Z; t_time : Z; t_time2 : Z; t_time3 : Z }.
Definition TransportInfo_Reset : TransportInfo := mkTransport 0 (Relocate 0 0 0 0) (-1) 0 0 0.

Record JumpInfo : Type := mkJump {
  j_fallTime : Z; j_zspeed : Z; j_sinAngle : Z; j_cosAngle : Z; j_xyspeed : Z }.
Definition JumpInfo_Reset : JumpInfo := mkJump 0 0 0 0 0.

Record MovementElementMarkers : Type := mkMarkers {
  b_hasTransportTime2 : bool; b_hasTransportTime3 : bool; b_hasPitch : bool;
  b_hasFallData : bool; b_hasFallDirection : bool; b_hasSplineElevation : bool }.
Definition no_markers : MovementElementMarkers := mkMarkers false false false false false false.

Record MovementInfo : Type := mkMovementInfo {
  mi_guid : Z; mi_flags : Z; mi_flags2 : Z; mi_pos : Position; mi_time : Z;
  mi_transport : TransportInfo; mi_pitch : Z; mi_jump : JumpInfo; mi_splineElevation : Z;
  mi_bits : MovementElementMarkers }.

(** [MovementInfo()] leaves [splineElevation] uninitialised. *)
Definition MovementInfo_new (uninitialised : Z) : MovementInfo :=
  mkMovementInfo 0 0 0 (Relocate 0 0 0 0) 0 TransportInfo_Reset 0 JumpInfo_Reset
    uninitialised no_markers.

(** Assignments to a field. *)
Definition upd_guid (v : Z) (m : MovementInfo) : MovementInfo :=
  mkMovementInfo v (mi_flags m) (mi_flags2 m) (mi_pos m) (mi_time m) (mi_transport m)
    (mi_pitch m) (mi_jump m) (mi_splineElevation m) (mi_bits m).
Definition SetMovementFlags (v : Z) (m : MovementInfo) : MovementInfo :=
  mkMovementInfo (mi_guid m) v (mi_flags2 m) (mi_pos m) (mi_time m) (mi_transport m)
    (mi_pitch m) (mi_jump m) (mi_splineElevation m) (mi_bits m).
Definition SetExtraMovementFlags (v : Z) (m : MovementInfo) : MovementInfo :=
  mkMovementInfo (mi_guid m) (mi_flags m) v (mi_pos m) (mi_time m) (mi_transport m)
    (mi_pitch m) (mi_jump m) (mi_splineElevation m) (mi_bits m).
Definition upd_pos (f : Position → Position) (m : MovementInfo) : MovementInfo :=
  mkMovementInfo (mi_guid m) (mi_flags m) (mi_flags2 m) (f (mi_pos m)) (mi_time m)
    (mi_transport m) (mi_pitch m) (mi_jump m) (mi_splineElevation m) (mi_bits m).
Definition upd_time (v : Z) (m : MovementInfo) : MovementInfo :=
  mkMovementInfo (mi_guid m) (mi_flags m) (mi_flags2 m) (mi_pos m) v (mi_transport m)
    (mi_pitch m) (mi_jump m) (mi_splineElevation m) (mi_bits m).
Definition upd_transport (f : TransportInfo → TransportInfo) (m : MovementInfo) : MovementInfo :=
  mkMovementInfo (mi_guid m) (mi_flags m) (mi_flags2 m) (mi_pos m) (mi_time m)
    (f (mi_transport m)) (mi_pitch m) (mi_jump m) (mi_splineElevation m) (mi_bits m).
Definition upd_pitch (v : Z) (m : MovementInfo) : MovementInfo :=
  mkMovementInfo (mi_guid m) (mi_flags m) (mi_flags2 m) (mi_pos m) (mi_time m) (mi_transport m)
    v (mi_jump m) (mi_splineElevation m) (mi_bits m).
Definition upd_jump (f : JumpInfo → JumpInfo) (m : MovementInfo) : MovementInfo :=
  mkMovementInfo (mi_guid m) (mi_flags m) (mi_flags2 m) (mi_pos m) (mi_time m) (mi_transport m)
    (mi_pitch m) (f (mi_jump m)) (mi_splineElevation m) (mi_bits m).
Definition upd_splineElevation (v : Z) (m : MovementInfo) : MovementInfo :=
  mkMovementInfo (mi_guid m) (mi_flags m) (mi_flags2 m) (mi_pos m) (mi_time m) (mi_transport m)
    (mi_pitch m) (mi_jump m) v (mi_bits m).
Definition upd_bits (f : MovementElementMarkers → MovementElementMarkers) (m : MovementInfo)
    : MovementInfo :=
  mkMovementInfo (mi_guid m) (mi_flags m) (mi_flags2 m) (mi_pos m) (mi_time m) (mi_transport m)
    (mi_pitch m) (mi_jump m) (mi_splineElevation m) (f (mi_bits m)).

Definition upd_t_guid (v : Z) (t : TransportInfo) : TransportInfo :=
  mkTransport v (t_pos t) (t_seat t) (t_time t) (t_time2 t) (t_time3 t).
Definition upd_t_pos (f : Position → Position) (t : TransportInfo) : TransportInfo :=
  mkTransport (t_guid t) (f (t_pos t)) (t_seat t) (t_time t) (t_time2 t) (t_time3 t).
Definition upd_t_seat (v : Z) (t : TransportInfo) : TransportInfo :=
  mkTransport (t_guid t) (t_pos t) v (t_time t) (t_time2 t) (t_time3 t).
Definition upd_t_time (v : Z) (t : TransportInfo) : TransportInfo :=
  mkTransport (t_guid t) (t_pos t) (t_seat t) v (t_time2 t) (t_time3 t).
Definition upd_t_time2 (v : Z) (t : TransportInfo) : TransportInfo :=
  mkTransport (t_guid t) (t_pos t) (t_seat t) (t_time t) v (t_time3 t).
Definition upd_t_time3 (v : Z) (t : TransportInfo) : TransportInfo :=
  mkTransport (t_guid t) (t_pos t) (t_seat t) (t_time t) (t_time2 t) v.

Definition upd_j_fallTime (v : Z) (j : JumpInfo) : JumpInfo :=
  mkJump v (j_zspeed j) (j_sinAngle j) (j_cosAngle j) (j_xyspeed j).
Definition upd_j_zspeed (v : Z) (j : JumpInfo) : JumpInfo :=
  mkJump (j_fallTime j) v (j_sinAngle j) (j_cosAngle j) (j_xyspeed j).
Definition upd_j_sinAngle (v : Z) (j : JumpInfo) : JumpInfo :=
  mkJump (j_fallTime j) (j_zspeed j) v (j_cosAngle j) (j_xyspeed j).
Definition upd_j_cosAngle (v : Z) (j : JumpInfo) : JumpInfo :=
  mkJump (j_fallTime j) (j_zspeed j) (j_sinAngle j) v (j_xyspeed j).
Definition upd_j_xyspeed (v : Z) (j : JumpInfo) : JumpInfo :=
  mkJump (j_fallTime j) (j_zspeed j) (j_sinAngle j) (j_cosAngle j) v.

Definition upd_b_time2 (v : bool) (b : MovementElementMarkers) : MovementElementMarkers :=
  mkMarkers v (b_hasTransportTime3 b) (b_hasPitch b) (b_hasFallData b) (b_hasFallDirection b)
    (b_hasSplineElevation b).
Definition upd_b_time3 (v : bool) (b : MovementElementMarkers) : MovementElementMarkers :=
  mkMarkers (b_hasTransportTime2 b) v (b_hasPitch b) (b_hasFallData b) (b_hasFallDirection b)
    (b_hasSplineElevation b).
Definition upd_b_pitch (v : bool) (b : MovementElementMarkers) : MovementElementMarkers :=
  mkMarkers (b_hasTransportTime2 b) (b_hasTransportTime3 b) v (b_hasFallData b)
    (b_hasFallDirection b) (b_hasSplineElevation b).
Definition upd_b_fallData (v : bool) (b : MovementElementMarkers) : MovementElementMarkers :=
  mkMarkers (b_hasTransportTime2 b) (b_hasTransportTime3 b) (b_hasPitch b) v
    (b_hasFallDirection b) (b_hasSplineElevation b).
Definition upd_b_fallDirection (v : bool) (b : MovementElementMarkers) : MovementElementMarkers :=
  mkMarkers (b_hasTransportTime2 b) (b_hasTransportTime3 b) (b_hasPitch b) (b_hasFallData b) v
    (b_hasSplineElevation b).
Definition upd_b_splineElevation (v : bool) (b : MovementElementMarkers)
    : MovementElementMarkers :=
  mkMarkers (b_hasTransportTime2 b) (b_hasTransportTime3 b) (b_hasPitch b) (b_hasFallData b)
    (b_hasFallDirection b) v.

Definition ResetTransport (m : MovementInfo) : MovementInfo :=
  upd_bits (λ b, upd_b_time3 false (upd_b_time2 false b))
    (upd_transport (λ _, TransportInfo_Reset) m).
Definition ResetJump (m : MovementInfo) : MovementInfo :=
  upd_bits (λ b, upd_b_fallDirection false (upd_b_fallData false b))
    (upd_jump (λ _, JumpInfo_Reset) m).

(** ** Movement flags *)

Definition GetMovementFlags (m : MovementInfo) : Z := mi_flags m.
Definition AddMovementFlag (flag : Z) (m : MovementInfo) : MovementInfo :=
  SetMovementFlags (Z.lor (mi_flags m) flag) m.
(** [flags &= ~flag] on a [uint32]. *)
Definition RemoveMovementFlag (flag : Z) (m : MovementInfo) : MovementInfo :=
  SetMovementFlags (u32 (Z.land (mi_flags m) (Z.lnot flag))) m.
Definition HasMovementFlag (flag : Z) (m : MovementInfo) : bool := z2b (Z.land (mi_flags m) flag).
Definition GetExtraMovementFlags (m : MovementInfo) : Z := mi_flags2 m.
Definition HasExtraMovementFlag (flag : Z) (m : MovementInfo) : bool :=
  z2b (Z.land (mi_flags2 m) flag).

Definition MOVEMENTFLAG_NONE : Z := 0x00000000.
Definition MOVEMENTFLAG_FORWARD : Z := 0x00000001.
Definition MOVEMENTFLAG_BACKWARD : Z := 0x00000002.
Definition MOVEMENTFLAG_STRAFE_LEFT : Z := 0x00000004.
Definition MOVEMENTFLAG_STRAFE_RIGHT : Z := 0x00000008.
Definition MOVEMENTFLAG_LEFT : Z := 0x00000010.
Definition MOVEMENTFLAG_RIGHT : Z := 0x00000020.
Definition MOVEMENTFLAG_PITCH_UP : Z := 0x00000040.
Definition MOVEMENTFLAG_PITCH_DOWN : Z := 0x00000080.
Definition MOVEMENTFLAG_DISABLE_GRAVITY : Z := 0x00000200.
Definition MOVEMENTFLAG_ROOT : Z := 0x00000400.
Definition MOVEMENTFLAG_FALLING : Z := 0x00000800.
Definition MOVEMENTFLAG_SWIMMING : Z := 0x00100000.
Definition MOVEMENTFLAG_ASCENDING : Z := 0x00200000.
Definition MOVEMENTFLAG_DESCENDING : Z := 0x00400000.
Definition MOVEMENTFLAG_CAN_FLY : Z := 0x00800000.
Definition MOVEMENTFLAG_FLYING : Z := 0x01000000.
Definition MOVEMENTFLAG_SPLINE_ELEVATION : Z := 0x02000000.
Definition MOVEMENTFLAG_WATERWALKING : Z := 0x04000000.
Definition MOVEMENTFLAG_FALLING_SLOW : Z := 0x08000000.
Definition MOVEMENTFLAG_HOVER : Z := 0x10000000.
Definition MOVEMENTFLAG2_ALWAYS_ALLOW_PITCHING : Z := 0x00000010.
Definition MOVEMENTFLAG2_INTERPOLATED_MOVEMENT : Z := 0x00002000.

(** ** Extra elements

    Some packets carry fields that are not part of the movement state. They are
    read and written by the next element of a second table. *)

Record ExtraData : Type := mkExtraData {
  x_guid : ObjectGuid.t; x_floatData : Z; x_byteData : Z }.

Record ExtraMovementStatusElement : Type := mkExtra {
  x_elements : list MovementStatusElements; x_index : nat; x_data : ExtraData }.

Definition upd_x_guid (v : ObjectGuid.t) (d : ExtraData) : ExtraData :=
  mkExtraData v (x_floatData d) (x_byteData d).
Definition upd_x_float (v : Z) (d : ExtraData) : ExtraData :=
  mkExtraData (x_guid d) v (x_byteData d).
Definition upd_x_byte (v : Z) (d : ExtraData) : ExtraData :=
  mkExtraData (x_guid d) (x_floatData d) v.

Definition ResetIndex (x : ExtraMovementStatusElement) : ExtraMovementStatusElement :=
  mkExtra (x_elements x) 0 (x_data x).

(** [element - MSEHasGuidByte0] and the like. *)
Definition mse_sub (e base : MovementStatusElements) : nat := (mse_value e - mse_value base)%nat.

Definition ReadExtraElement (e : MovementStatusElements) (d : ExtraData)
    : M ByteBuffer.t ExtraData :=
  match e with
  | MSEHasGuidByte0 | MSEHasGuidByte1 | MSEHasGuidByte2 | MSEHasGuidByte3
  | MSEHasGuidByte4 | MSEHasGuidByte5 | MSEHasGuidByte6 | MSEHasGuidByte7 =>
      v ← ByteBuffer.ReadBit;
      g ← lift (ObjectGuid.set (mse_sub e MSEHasGuidByte0) (Z.b2z v) (x_guid d));
      mret (upd_x_guid g d)
  | MSEGuidByte0 | MSEGuidByte1 | MSEGuidByte2 | MSEGuidByte3
  | MSEGuidByte4 | MSEGuidByte5 | MSEGuidByte6 | MSEGuidByte7 =>
      v ← lift (ObjectGuid.get (mse_sub e MSEGuidByte0) (x_guid d));
      v' ← ByteBuffer.ReadByteSeq v;
      g ← lift (ObjectGuid.set (mse_sub e MSEGuidByte0) v' (x_guid d));
      mret (upd_x_guid g d)
  | MSEExtraFloat => v ← ByteBuffer.shr_float; mret (upd_x_float v d)
  | MSEExtraInt8 => v ← ByteBuffer.shr_int8; mret (upd_x_byte v d)
  | _ => throw AssertionFailed
  end.

(** [_elements[_index++]]: an index outside the table, which has no end marker, is an
    out-of-bounds read. *)
Definition ReadNextElement (x : ExtraMovementStatusElement)
    : M ByteBuffer.t ExtraMovementStatusElement :=
  match x_elements x !! x_index x with
  | None => throw UndefinedBehaviour
  | Some e =>
      d ← ReadExtraElement e (x_data x);
      mret (mkExtra (x_elements x) (S (x_index x)) d)
  end.

Definition WriteExtraElement (e : MovementStatusElements) (d : ExtraData)
    : M ByteBuffer.t unit :=
  match e with
  | MSEHasGuidByte0 | MSEHasGuidByte1 | MSEHasGuidByte2 | MSEHasGuidByte3
  | MSEHasGuidByte4 | MSEHasGuidByte5 | MSEHasGuidByte6 | MSEHasGuidByte7 =>
      v ← lift (ObjectGuid.get (mse_sub e MSEHasGuidByte0) (x_guid d));
      ByteBuffer.WriteBit v;; mret tt
  | MSEGuidByte0 | MSEGuidByte1 | MSEGuidByte2 | MSEGuidByte3
  | MSEGuidByte4 | MSEGuidByte5 | MSEGuidByte6 | MSEGuidByte7 =>
      v ← lift (ObjectGuid.get (mse_sub e MSEGuidByte0) (x_guid d));
      ByteBuffer.WriteByteSeq v
  | MSEExtraFloat => ByteBuffer.shl_float (x_floatData d)
  | MSEExtraInt8 => ByteBuffer.shl_int8 (x_byteData d)
  | _ => throw AssertionFailed
  end.

Definition WriteNextElement (x : ExtraMovementStatusElement)
    : M ByteBuffer.t ExtraMovementStatusElement :=
  match x_elements x !! x_index x with
  | None => throw UndefinedBehaviour
  | Some e =>
      WriteExtraElement e (x_data x);;
      mret (mkExtra (x_elements x) (S (x_index x)) (x_data x))
  end.

(** A call through a null [extras] pointer is undefined. *)
Definition through {A} (x : option ExtraMovementStatusElement)
    (f : ExtraMovementStatusElement → M ByteBuffer.t A) : M ByteBuffer.t A :=
  match x with Some x => f x | None => throw UndefinedBehaviour end.

(** The second tables that the code passes: one number, for a speed or a height, and
    the seat and the vehicle of a change of seats. *)
Definition speedElement : list MovementStatusElements := [MSEExtraFloat].
Definition accessoryGuid : list MovementStatusElements := [
  MSEExtraInt8; MSEHasGuidByte2; MSEHasGuidByte4; MSEHasGuidByte7; MSEHasGuidByte6;
  MSEHasGuidByte5; MSEHasGuidByte0; MSEHasGuidByte1; MSEHasGuidByte3; MSEGuidByte6;
  MSEGuidByte1; MSEGuidByte2; MSEGuidByte5; MSEGuidByte3; MSEGuidByte0; MSEGuidByte4;
  MSEGuidByte7
].

(** ** Writing a unit's movement *)

(** What [WriteMovementInfo] asks the unit: its GUID, whether it is a player, the
    GUIDs of the vehicle it sits on and of the transport it stands on, whether it
    follows a spline, its position and its movement state. *)
Record Unit : Type := mkUnit {
  GUID : Z; IsPlayer : bool; VehicleBaseGUID : option Z; TransportGUID : option Z;
  IsSplineEnabled : bool; u_pos : Position; m_movementInfo : MovementInfo }.

(** [Unit::GetTransGUID] *)
Definition GetTransGUID (u : Unit) : Z :=
  match VehicleBaseGUID u with
  | Some g => g
  | None => match TransportGUID u with Some g => g | None => 0 end
  end.

Definition GetUnitMovementFlags (u : Unit) : Z := GetMovementFlags (m_movementInfo u).
Definition HasUnitMovementFlag (f : Z) (u : Unit) : bool := HasMovementFlag f (m_movementInfo u).
Definition GetExtraUnitMovementFlags (u : Unit) : Z := GetExtraMovementFlags (m_movementInfo u).
(** Returns a [uint16] that is used as a [bool]. *)
Definition HasExtraUnitMovementFlag (f : Z) (u : Unit) : bool :=
  HasExtraMovementFlag f (m_movementInfo u).

(** The local variables of [WriteMovementInfo]. *)
Record wlocals : Type := mkWlocals {
  w_hasMovementFlags : bool; w_hasMovementFlags2 : bool; w_hasTimestamp : bool;
  w_hasOrientation : bool; w_hasTransportData : bool; w_hasSpline : bool;
  w_hasTransportTime2 : bool; w_hasTransportTime3 : bool; w_hasPitch : bool;
  w_hasFallData : bool; w_hasFallDirection : bool; w_hasSplineElevation : bool;
  w_isAlive : bool; w_counter : nat; w_guid : ObjectGuid.t; w_tguid : ObjectGuid.t }.

Section Writer.
(** [G3D::fuzzyEq], of the vendored g3dlite library. *)
Variable fuzzyEq : Z → Z → bool.
(** [getMSTime()] at the time of the call. *)
Variable now : Z.

Definition write_locals (u : Unit) : wlocals :=
  let bits := mi_bits (m_movementInfo u) in
  let hasTransportData := z2b (GetTransGUID u) in
  let hasFallDirection :=
    if IsPlayer u then b_hasFallDirection bits else HasUnitMovementFlag MOVEMENTFLAG_FALLING u in
  mkWlocals
    (z2b (GetUnitMovementFlags u))
    (z2b (GetExtraUnitMovementFlags u))
    (if IsPlayer u then z2b (mi_time (m_movementInfo u)) else true)
    (negb (fuzzyEq (m_orientation (u_pos u)) 0))
    hasTransportData
    (IsSplineEnabled u)
    (if IsPlayer u then b_hasTransportTime2 bits
     else HasExtraUnitMovementFlag MOVEMENTFLAG2_INTERPOLATED_MOVEMENT u)
    (if IsPlayer u then b_hasTransportTime3 bits else false)
    (if IsPlayer u then b_hasPitch bits
     else HasUnitMovementFlag (Z.lor MOVEMENTFLAG_SWIMMING MOVEMENTFLAG_FLYING) u
          || HasExtraUnitMovementFlag MOVEMENTFLAG2_ALWAYS_ALLOW_PITCHING u)
    (if IsPlayer u then b_hasFallData bits else hasFallDirection)
    hasFallDirection
    (if IsPlayer u then b_hasSplineElevation bits
     else HasUnitMovementFlag MOVEMENTFLAG_SPLINE_ELEVATION u)
    false 0%nat
    (ObjectGuid.of_u64 (GUID u))
    (ObjectGuid.of_u64 (if hasTransportData then GetTransGUID u else 0)).

Definition write_bit (b : bool) : M ByteBuffer.t unit := ByteBuffer.WriteBit (Z.b2z b);; mret tt.

(** [data << uint32(0)], [counter] times. *)
Fixpoint write_counters (counter : nat) : M ByteBuffer.t unit :=
  match counter with
  | O => mret tt
  | S n => ByteBuffer.shl_uint32 0;; write_counters n
  end.

(** The [switch] of [WriteMovementInfo], the extra element apart. *)
Definition write_element (u : Unit) (l : wlocals) (e : MovementStatusElements)
    : M ByteBuffer.t unit :=
  let mi := m_movementInfo u in
  match e with
  | MSEHasGuidByte0 | MSEHasGuidByte1 | MSEHasGuidByte2 | MSEHasGuidByte3
  | MSEHasGuidByte4 | MSEHasGuidByte5 | MSEHasGuidByte6 | MSEHasGuidByte7 =>
      v ← lift (ObjectGuid.get (mse_sub e MSEHasGuidByte0) (w_guid l));
      ByteBuffer.WriteBit v;; mret tt
  | MSEHasTransportGuidByte0 | MSEHasTransportGuidByte1 | MSEHasTransportGuidByte2
  | MSEHasTransportGuidByte3 | MSEHasTransportGuidByte4 | MSEHasTransportGuidByte5
  | MSEHasTransportGuidByte6 | MSEHasTransportGuidByte7 =>
      when w_hasTransportData l do
        (v ← lift (ObjectGuid.get (mse_sub e MSEHasTransportGuidByte0) (w_tguid l));
         ByteBuffer.WriteBit v;; mret tt)
  | MSEGuidByte0 | MSEGuidByte1 | MSEGuidByte2 | MSEGuidByte3
  | MSEGuidByte4 | MSEGuidByte5 | MSEGuidByte6 | MSEGuidByte7 =>
      v ← lift (ObjectGuid.get (mse_sub e MSEGuidByte0) (w_guid l));
      ByteBuffer.WriteByteSeq v
  | MSETransportGuidByte0 | MSETransportGuidByte1 | MSETransportGuidByte2
  | MSETransportGuidByte3 | MSETransportGuidByte4 | MSETransportGuidByte5
  | MSETransportGuidByte6 | MSETransportGuidByte7 =>
      when w_hasTransportData l do
        (v ← lift (ObjectGuid.get (mse_sub e MSETransportGuidByte0) (w_tguid l));
         ByteBuffer.WriteByteSeq v)
  | MSEHasMovementFlags => write_bit (negb (w_hasMovementFlags l))
  | MSEHasMovementFlags2 => write_bit (negb (w_hasMovementFlags2 l))
  | MSEHasTimestamp => write_bit (negb (w_hasTimestamp l))
  | MSEHasOrientation => write_bit (negb (w_hasOrientation l))
  | MSEHasTransportData => write_bit (w_hasTransportData l)
  | MSEHasTransportTime2 =>
      when w_hasTransportData l do write_bit (w_hasTransportTime2 l)
  | MSEHasTransportTime3 =>
      when w_hasTransportData l do write_bit (w_hasTransportTime3 l)
  | MSEHasPitch => write_bit (negb (w_hasPitch l))
  | MSEHasFallData => write_bit (w_hasFallData l)
  | MSEHasFallDirection => when w_hasFallData l do write_bit (w_hasFallDirection l)
  | MSEHasSplineElevation => write_bit (negb (w_hasSplineElevation l))
  | MSEHasSpline => write_bit (w_hasSpline l)
  | MSEMovementFlags =>
      when w_hasMovementFlags l do ByteBuffer.WriteBits (GetUnitMovementFlags u) 30
  | MSEMovementFlags2 =>
      when w_hasMovementFlags2 l do ByteBuffer.WriteBits (GetExtraUnitMovementFlags u) 13
  | MSETimestamp => when w_hasTimestamp l do ByteBuffer.shl_uint32 now
  | MSEPositionX => ByteBuffer.shl_float (m_positionX (u_pos u))
  | MSEPositionY => ByteBuffer.shl_float (m_positionY (u_pos u))
  | MSEPositionZ => ByteBuffer.shl_float (m_positionZ (u_pos u))
  | MSEOrientation =>
      when w_hasOrientation l do ByteBuffer.shl_float (m_orientation (u_pos u))
  | MSETransportPositionX =>
      when w_hasTransportData l do ByteBuffer.shl_float (m_positionX (t_pos (mi_transport mi)))
  | MSETransportPositionY =>
      when w_hasTransportData l do ByteBuffer.shl_float (m_positionY (t_pos (mi_transport mi)))
  | MSETransportPositionZ =>
      when w_hasTransportData l do ByteBuffer.shl_float (m_positionZ (t_pos (mi_transport mi)))
  | MSETransportOrientation =>
      when w_hasTransportData l do ByteBuffer.shl_float (m_orientation (t_pos (mi_transport mi)))
  | MSETransportSeat =>
      when w_hasTransportData l do ByteBuffer.shl_int8 (t_seat (mi_transport mi))
  | MSETransportTime =>
      when w_hasTransportData l do ByteBuffer.shl_uint32 (t_time (mi_transport mi))
  | MSETransportTime2 =>
      when w_hasTransportData l && w_hasTransportTime2 l do
        ByteBuffer.shl_uint32 (t_time2 (mi_transport mi))
  | MSETransportTime3 =>
      when w_hasTransportData l && w_hasTransportTime3 l do
        ByteBuffer.shl_uint32 (t_time3 (mi_transport mi))
  | MSEPitch => when w_hasPitch l do ByteBuffer.shl_float (mi_pitch mi)
  | MSEFallTime => when w_hasFallData l do ByteBuffer.shl_uint32 (j_fallTime (mi_jump mi))
  | MSEFallVerticalSpeed =>
      when w_hasFallData l do ByteBuffer.shl_float (j_zspeed (mi_jump mi))
  | MSEFallCosAngle =>
      when w_hasFallData l && w_hasFallDirection l do
        ByteBuffer.shl_float (j_cosAngle (mi_jump mi))
  | MSEFallSinAngle =>
      when w_hasFallData l && w_hasFallDirection l do
        ByteBuffer.shl_float (j_sinAngle (mi_jump mi))
  | MSEFallHorizontalSpeed =>
      when w_hasFallData l && w_hasFallDirection l do
        ByteBuffer.shl_float (j_xyspeed (mi_jump mi))
  | MSESplineElevation =>
      when w_hasSplineElevation l do ByteBuffer.shl_float (mi_splineElevation mi)
  | MSEHasCounter => ByteBuffer.WriteBits 0 22
  | MSECounter => write_counters (w_counter l)
  | MSEIsAlive => write_bit (w_isAlive l)
  | MSEAlive => when w_isAlive l do ByteBuffer.shl_uint32 (mi_time mi)
  | MSEZeroBit => write_bit false
  | MSEOneBit => write_bit true
  | _ => throw AssertionFailed
  end.

(** [for (; *sequence != MSEEnd; ++sequence)]: running past a table without an end
    marker is an out-of-bounds read. *)
Fixpoint write_loop (u : Unit) (l : wlocals) (x : option ExtraMovementStatusElement)
    (sequence : list MovementStatusElements)
    : M ByteBuffer.t (option ExtraMovementStatusElement) :=
  match sequence with
  | [] => throw UndefinedBehaviour
  | e :: sequence =>
      if mse_eqb e MSEEnd then mret x
      else if mse_eqb e MSEExtraElement then
        x' ← through x WriteNextElement; write_loop u l (Some x') sequence
      else write_element u l e;; write_loop u l x sequence
  end.

(** [Unit::WriteMovementInfo]; without a table for the opcode nothing is written. *)
Definition WriteMovementInfo (u : Unit) (opcode : Z) (x : option ExtraMovementStatusElement)
    : M ByteBuffer.t (option ExtraMovementStatusElement) :=
  match GetMovementStatusElementsSequence opcode with
  | None => mret x
  | Some sequence => write_loop u (write_locals u) x sequence
  end.
End Writer.

(** ** Reading a player's movement *)

(** The local variables of [ReadMovementInfo], with [*mi] and [*extras]. *)
Record rlocals : Type := mkRlocals {
  r_hasMovementFlags : bool; r_hasMovementFlags2 : bool; r_hasTimestamp : bool;
  r_hasOrientation : bool; r_hasTransportData : bool; r_isAlive : bool; r_counter : Z;
  r_guid : ObjectGuid.t; r_tguid : ObjectGuid.t; r_mi : MovementInfo }.

Definition read_locals (mi : MovementInfo) : rlocals :=
  mkRlocals false false false false false false 0 (ObjectGuid.of_u64 0) (ObjectGuid.of_u64 0) mi.

Definition upd_r_flags (v : bool) (r : rlocals) : rlocals :=
  mkRlocals v (r_hasMovementFlags2 r) (r_hasTimestamp r) (r_hasOrientation r)
    (r_hasTransportData r) (r_isAlive r) (r_counter r) (r_guid r) (r_tguid r) (r_mi r).
Definition upd_r_flags2 (v : bool) (r : rlocals) : rlocals :=
  mkRlocals (r_hasMovementFlags r) v (r_hasTimestamp r) (r_hasOrientation r)
    (r_hasTransportData r) (r_isAlive r) (r_counter r) (r_guid r) (r_tguid r) (r_mi r).
Definition upd_r_timestamp (v : bool) (r : rlocals) : rlocals :=
  mkRlocals (r_hasMovementFlags r) (r_hasMovementFlags2 r) v (r_hasOrientation r)
    (r_hasTransportData r) (r_isAlive r) (r_counter r) (r_guid r) (r_tguid r) (r_mi r).
Definition upd_r_orientation (v : bool) (r : rlocals) : rlocals :=
  mkRlocals (r_hasMovementFlags r) (r_hasMovementFlags2 r) (r_hasTimestamp r) v
    (r_hasTransportData r) (r_isAlive r) (r_counter r) (r_guid r) (r_tguid r) (r_mi r).
Definition upd_r_transport (v : bool) (r : rlocals) : rlocals :=
  mkRlocals (r_hasMovementFlags r) (r_hasMovementFlags2 r) (r_hasTimestamp r)
    (r_hasOrientation r) v (r_isAlive r) (r_counter r) (r_guid r) (r_tguid r) (r_mi r).
Definition upd_r_isAlive (v : bool) (r : rlocals) : rlocals :=
  mkRlocals (r_hasMovementFlags r) (r_hasMovementFlags2 r) (r_hasTimestamp r)
    (r_hasOrientation r) (r_hasTransportData r) v (r_counter r) (r_guid r) (r_tguid r) (r_mi r).
Definition upd_r_counter (v : Z) (r : rlocals) : rlocals :=
  mkRlocals (r_hasMovementFlags r) (r_hasMovementFlags2 r) (r_hasTimestamp r)
    (r_hasOrientation r) (r_hasTransportData r) (r_isAlive r) v (r_guid r) (r_tguid r) (r_mi r).
Definition upd_r_guid (v : ObjectGuid.t) (r : rlocals) : rlocals :=
  mkRlocals (r_hasMovementFlags r) (r_hasMovementFlags2 r) (r_hasTimestamp r)
    (r_hasOrientation r) (r_hasTransportData r) (r_isAlive r) (r_counter r) v (r_tguid r) (r_mi r).
Definition upd_r_tguid (v : ObjectGuid.t) (r : rlocals) : rlocals :=
  mkRlocals (r_hasMovementFlags r) (r_hasMovementFlags2 r) (r_hasTimestamp r)
    (r_hasOrientation r) (r_hasTransportData r) (r_isAlive r) (r_counter r) (r_guid r) v (r_mi r).
Definition upd_r_mi (f : MovementInfo → MovementInfo) (r : rlocals) : rlocals :=
  mkRlocals (r_hasMovementFlags r) (r_hasMovementFlags2 r) (r_hasTimestamp r)
    (r_hasOrientation r) (r_hasTransportData r) (r_isAlive r) (r_counter r) (r_guid r)
    (r_tguid r) (f (r_mi r)).

(** [for (uint32 j = 0; j < counter; ++j) data.read_skip<uint32>()] *)
Fixpoint skip_counters (counter : nat) : M ByteBuffer.t unit :=
  match counter with
  | O => mret tt
  | S n => ByteBuffer.read_skip 4;; skip_counters n
  end.

(** A bit or a field that is read into [r] when [b] holds. *)
Definition read_if {A} (b : bool) (m : M ByteBuffer.t A) (store : A → rlocals → rlocals)
    (r : rlocals) : M ByteBuffer.t rlocals :=
  if b then v ← m; mret (store v r) else mret r.

Definition read_guid_bit (k : nat) (r : rlocals) : M ByteBuffer.t rlocals :=
  v ← ByteBuffer.ReadBit;
  g ← lift (ObjectGuid.set k (Z.b2z v) (r_guid r));
  mret (upd_r_guid g r).
Definition read_guid_byte (k : nat) (r : rlocals) : M ByteBuffer.t rlocals :=
  v ← lift (ObjectGuid.get k (r_guid r));
  v' ← ByteBuffer.ReadByteSeq v;
  g ← lift (ObjectGuid.set k v' (r_guid r));
  mret (upd_r_guid g r).
Definition read_tguid_bit (k : nat) (r : rlocals) : M ByteBuffer.t rlocals :=
  v ← ByteBuffer.ReadBit;
  g ← lift (ObjectGuid.set k (Z.b2z v) (r_tguid r));
  mret (upd_r_tguid g r).
Definition read_tguid_byte (k : nat) (r : rlocals) : M ByteBuffer.t rlocals :=
  v ← lift (ObjectGuid.get k (r_tguid r));
  v' ← ByteBuffer.ReadByteSeq v;
  g ← lift (ObjectGuid.set k v' (r_tguid r));
  mret (upd_r_tguid g r).

(** The [switch] of [ReadMovementInfo], the extra element apart. *)
Definition read_element (e : MovementStatusElements) (r : rlocals) : M ByteBuffer.t rlocals :=
  let bits := mi_bits (r_mi r) in
  let t := r_hasTransportData r in
  match e with
  | MSEHasGuidByte0 | MSEHasGuidByte1 | MSEHasGuidByte2 | MSEHasGuidByte3
  | MSEHasGuidByte4 | MSEHasGuidByte5 | MSEHasGuidByte6 | MSEHasGuidByte7 =>
      read_guid_bit (mse_sub e MSEHasGuidByte0) r
  | MSEHasTransportGuidByte0 | MSEHasTransportGuidByte1 | MSEHasTransportGuidByte2
  | MSEHasTransportGuidByte3 | MSEHasTransportGuidByte4 | MSEHasTransportGuidByte5
  | MSEHasTransportGuidByte6 | MSEHasTransportGuidByte7 =>
      if t then read_tguid_bit (mse_sub e MSEHasTransportGuidByte0) r else mret r
  | MSEGuidByte0 | MSEGuidByte1 | MSEGuidByte2 | MSEGuidByte3
  | MSEGuidByte4 | MSEGuidByte5 | MSEGuidByte6 | MSEGuidByte7 =>
      read_guid_byte (mse_sub e MSEGuidByte0) r
  | MSETransportGuidByte0 | MSETransportGuidByte1 | MSETransportGuidByte2
  | MSETransportGuidByte3 | MSETransportGuidByte4 | MSETransportGuidByte5
  | MSETransportGuidByte6 | MSETransportGuidByte7 =>
      if t then read_tguid_byte (mse_sub e MSETransportGuidByte0) r else mret r
  | MSEHasMovementFlags => v ← ByteBuffer.ReadBit; mret (upd_r_flags (negb v) r)
  | MSEHasMovementFlags2 => v ← ByteBuffer.ReadBit; mret (upd_r_flags2 (negb v) r)
  | MSEHasTimestamp => v ← ByteBuffer.ReadBit; mret (upd_r_timestamp (negb v) r)
  | MSEHasOrientation => v ← ByteBuffer.ReadBit; mret (upd_r_orientation (negb v) r)
  | MSEHasTransportData => v ← ByteBuffer.ReadBit; mret (upd_r_transport v r)
  | MSEHasTransportTime2 =>
      read_if t ByteBuffer.ReadBit (λ v, upd_r_mi (upd_bits (upd_b_time2 v))) r
  | MSEHasTransportTime3 =>
      read_if t ByteBuffer.ReadBit (λ v, upd_r_mi (upd_bits (upd_b_time3 v))) r
  | MSEHasPitch =>
      v ← ByteBuffer.ReadBit; mret (upd_r_mi (upd_bits (upd_b_pitch (negb v))) r)
  | MSEHasFallData => v ← ByteBuffer.ReadBit; mret (upd_r_mi (upd_bits (upd_b_fallData v)) r)
  | MSEHasFallDirection =>
      read_if (b_hasFallData bits) ByteBuffer.ReadBit
        (λ v, upd_r_mi (upd_bits (upd_b_fallDirection v))) r
  | MSEHasSplineElevation =>
      v ← ByteBuffer.ReadBit; mret (upd_r_mi (upd_bits (upd_b_splineElevation (negb v))) r)
  | MSEHasSpline => ByteBuffer.ReadBit;; mret r
  | MSEMovementFlags =>
      read_if (r_hasMovementFlags r) (ByteBuffer.ReadBits 30) (λ v, upd_r_mi (SetMovementFlags v)) r
  | MSEMovementFlags2 =>
      read_if (r_hasMovementFlags2 r) (ByteBuffer.ReadBits 13)
        (λ v, upd_r_mi (SetExtraMovementFlags (u16 v))) r
  | MSETimestamp =>
      read_if (r_hasTimestamp r) ByteBuffer.shr_uint32 (λ v, upd_r_mi (upd_time v)) r
  | MSEPositionX => v ← ByteBuffer.shr_float; mret (upd_r_mi (upd_pos (set_X v)) r)
  | MSEPositionY => v ← ByteBuffer.shr_float; mret (upd_r_mi (upd_pos (set_Y v)) r)
  | MSEPositionZ => v ← ByteBuffer.shr_float; mret (upd_r_mi (upd_pos (set_Z v)) r)
  | MSEOrientation =>
      read_if (r_hasOrientation r) (ByteBuffer.read 4) (λ v, upd_r_mi (upd_pos (SetOrientation v))) r
  | MSETransportPositionX =>
      read_if t ByteBuffer.shr_float (λ v, upd_r_mi (upd_transport (upd_t_pos (set_X v)))) r
  | MSETransportPositionY =>
      read_if t ByteBuffer.shr_float (λ v, upd_r_mi (upd_transport (upd_t_pos (set_Y v)))) r
  | MSETransportPositionZ =>
      read_if t ByteBuffer.shr_float (λ v, upd_r_mi (upd_transport (upd_t_pos (set_Z v)))) r
  | MSETransportOrientation =>
      read_if t (ByteBuffer.read 4)
        (λ v, upd_r_mi (upd_transport (upd_t_pos (SetOrientation v)))) r
  | MSETransportSeat =>
      read_if t ByteBuffer.shr_int8 (λ v, upd_r_mi (upd_transport (upd_t_seat v))) r
  | MSETransportTime =>
      read_if t ByteBuffer.shr_uint32 (λ v, upd_r_mi (upd_transport (upd_t_time v))) r
  | MSETransportTime2 =>
      read_if (t && b_hasTransportTime2 bits) ByteBuffer.shr_uint32
        (λ v, upd_r_mi (upd_transport (upd_t_time2 v))) r
  | MSETransportTime3 =>
      read_if (t && b_hasTransportTime3 bits) ByteBuffer.shr_uint32
        (λ v, upd_r_mi (upd_transport (upd_t_time3 v))) r
  | MSEPitch => read_if (b_hasPitch bits) ByteBuffer.shr_float (λ v, upd_r_mi (upd_pitch v)) r
  | MSEFallTime =>
      read_if (b_hasFallData bits) ByteBuffer.shr_uint32
        (λ v, upd_r_mi (upd_jump (upd_j_fallTime v))) r
  | MSEFallVerticalSpeed =>
      read_if (b_hasFallData bits) ByteBuffer.shr_float
        (λ v, upd_r_mi (upd_jump (upd_j_zspeed v))) r
  | MSEFallCosAngle =>
      read_if (b_hasFallData bits && b_hasFallDirection bits) ByteBuffer.shr_float
        (λ v, upd_r_mi (upd_jump (upd_j_cosAngle v))) r
  | MSEFallSinAngle =>
      read_if (b_hasFallData bits && b_hasFallDirection bits) ByteBuffer.shr_float
        (λ v, upd_r_mi (upd_jump (upd_j_sinAngle v))) r
  | MSEFallHorizontalSpeed =>
      read_if (b_hasFallData bits && b_hasFallDirection bits) ByteBuffer.shr_float
        (λ v, upd_r_mi (upd_jump (upd_j_xyspeed v))) r
  | MSESplineElevation =>
      read_if (b_hasSplineElevation bits) ByteBuffer.shr_float
        (λ v, upd_r_mi (upd_splineElevation v)) r
  | MSEHasCounter => v ← ByteBuffer.ReadBits 22; mret (upd_r_counter v r)
  | MSECounter => skip_counters (Z.to_nat (r_counter r));; mret r
  | MSEIsAlive => v ← ByteBuffer.ReadBit; mret (upd_r_isAlive (negb v) r)
  | MSEAlive => read_if (r_isAlive r) ByteBuffer.shr_uint32 (λ v, upd_r_mi (upd_time v)) r
  | MSEZeroBit | MSEOneBit => ByteBuffer.ReadBit;; mret r
  | _ => throw AssertionFailed
  end.

Fixpoint read_loop (x : option ExtraMovementStatusElement)
    (sequence : list MovementStatusElements) (r : rlocals)
    : M ByteBuffer.t (rlocals * option ExtraMovementStatusElement) :=
  match sequence with
  | [] => throw UndefinedBehaviour
  | e :: sequence =>
      if mse_eqb e MSEEnd then mret (r, x)
      else if mse_eqb e MSEExtraElement then
        x' ← through x ReadNextElement; read_loop (Some x') sequence r
      else r' ← read_element e r; read_loop x sequence r'
  end.

(** What [ReadMovementInfo] asks the player: whether it is on a transport, its auras
    and those of the unit it moves, and its account's security level. *)
Record PlayerFacts : Type := mkPlayerFacts {
  p_onTransport : bool; p_auraHover : bool; p_auraWaterWalk : bool; p_auraFeatherFall : bool;
  p_isSecPlayer : bool; p_moverAuraFly : bool; p_moverAuraMountedFlight : bool }.

(** [REMOVE_VIOLATING_FLAGS(check, maskToRemove)] *)
Definition REMOVE_VIOLATING_FLAGS (check : MovementInfo → bool) (maskToRemove : Z)
    (mi : MovementInfo) : MovementInfo :=
  if check mi then RemoveMovementFlag maskToRemove mi else mi.

(** The clean-up, in the source's order. *)
Definition remove_violating_flags (p : PlayerFacts) (mi : MovementInfo) : MovementInfo :=
  let mi := REMOVE_VIOLATING_FLAGS (HasMovementFlag MOVEMENTFLAG_ROOT) MOVEMENTFLAG_ROOT mi in
  let mi := REMOVE_VIOLATING_FLAGS
    (λ mi, HasMovementFlag MOVEMENTFLAG_HOVER mi && negb (p_auraHover p))
    MOVEMENTFLAG_HOVER mi in
  let mi := REMOVE_VIOLATING_FLAGS
    (λ mi, HasMovementFlag MOVEMENTFLAG_ASCENDING mi && HasMovementFlag MOVEMENTFLAG_DESCENDING mi)
    (Z.lor MOVEMENTFLAG_ASCENDING MOVEMENTFLAG_DESCENDING) mi in
  let mi := REMOVE_VIOLATING_FLAGS
    (λ mi, HasMovementFlag MOVEMENTFLAG_LEFT mi && HasMovementFlag MOVEMENTFLAG_RIGHT mi)
    (Z.lor MOVEMENTFLAG_LEFT MOVEMENTFLAG_RIGHT) mi in
  let mi := REMOVE_VIOLATING_FLAGS
    (λ mi, HasMovementFlag MOVEMENTFLAG_STRAFE_LEFT mi
           && HasMovementFlag MOVEMENTFLAG_STRAFE_RIGHT mi)
    (Z.lor MOVEMENTFLAG_STRAFE_LEFT MOVEMENTFLAG_STRAFE_RIGHT) mi in
  let mi := REMOVE_VIOLATING_FLAGS
    (λ mi, HasMovementFlag MOVEMENTFLAG_PITCH_UP mi && HasMovementFlag MOVEMENTFLAG_PITCH_DOWN mi)
    (Z.lor MOVEMENTFLAG_PITCH_UP MOVEMENTFLAG_PITCH_DOWN) mi in
  let mi := REMOVE_VIOLATING_FLAGS
    (λ mi, HasMovementFlag MOVEMENTFLAG_FORWARD mi && HasMovementFlag MOVEMENTFLAG_BACKWARD mi)
    (Z.lor MOVEMENTFLAG_FORWARD MOVEMENTFLAG_BACKWARD) mi in
  let mi := REMOVE_VIOLATING_FLAGS
    (λ mi, HasMovementFlag MOVEMENTFLAG_WATERWALKING mi && negb (p_auraWaterWalk p))
    MOVEMENTFLAG_WATERWALKING mi in
  let mi := REMOVE_VIOLATING_FLAGS
    (λ mi, HasMovementFlag MOVEMENTFLAG_FALLING_SLOW mi && negb (p_auraFeatherFall p))
    MOVEMENTFLAG_FALLING_SLOW mi in
  let mi := REMOVE_VIOLATING_FLAGS
    (λ mi, HasMovementFlag (Z.lor MOVEMENTFLAG_FLYING MOVEMENTFLAG_CAN_FLY) mi && p_isSecPlayer p
           && negb (p_moverAuraFly p) && negb (p_moverAuraMountedFlight p))
    (Z.lor MOVEMENTFLAG_FLYING MOVEMENTFLAG_CAN_FLY) mi in
  REMOVE_VIOLATING_FLAGS
    (λ mi, HasMovementFlag (Z.lor MOVEMENTFLAG_DISABLE_GRAVITY MOVEMENTFLAG_CAN_FLY) mi
           && HasMovementFlag MOVEMENTFLAG_FALLING mi)
    MOVEMENTFLAG_FALLING mi.

(** [Player::ReadMovementInfo]: the new [*mi] and [*extras], and the argument of the
    call [GetTransport()->UpdatePosition(mi)] when it is made. Without a table for the
    opcode nothing is read. *)
Definition ReadMovementInfo (p : PlayerFacts) (opcode : Z) (mi : MovementInfo)
    (x : option ExtraMovementStatusElement)
    : M ByteBuffer.t (MovementInfo * option ExtraMovementStatusElement * option MovementInfo) :=
  match GetMovementStatusElementsSequence opcode with
  | None => mret (mi, x, None)
  | Some sequence =>
      '(r, x') ← read_loop x sequence (read_locals mi);
      let mi := upd_transport (upd_t_guid (ObjectGuid.to_u64 (r_tguid r)))
                  (upd_guid (ObjectGuid.to_u64 (r_guid r)) (r_mi r)) in
      let moved := r_hasTransportData r
        && negb (f32_eq (m_positionX (mi_pos mi)) (m_positionX (t_pos (mi_transport mi)))) in
      mret (remove_violating_flags p mi, x',
            if moved && p_onTransport p then Some mi else None)
  end.

(** ** Sending *)

Record PacketSender : Type := mkPacketSender {
  s_extraElements : option ExtraMovementStatusElement; s_unit : Unit;
  s_selfOpcode : Z; s_broadcast : Z }.

(** The constructor; [moverIsPlayer] is [m_mover->GetTypeId() == TYPEID_PLAYER]. *)
Definition PacketSender_new (unit : Unit) (moverIsPlayer : bool)
    (serverControl playerControl broadcast : Z) (extras : option ExtraMovementStatusElement)
    : PacketSender :=
  if IsPlayer unit && moverIsPlayer then mkPacketSender extras unit playerControl broadcast
  else mkPacketSender extras unit Opcodes.NULL_OPCODE serverControl.

(** What leaves the sender: a packet to the player itself, or to everyone around,
    the unit itself included or not. *)
Inductive sent : Type :=
| DirectMessage (opcode : Z) (payload : list Z)
| MessageToSet (opcode : Z) (payload : list Z) (self : bool).

Section Sender.
Variable fuzzyEq : Z → Z → bool.

(** A new packet with the unit's movement; [now] is the clock when it is written. *)
Definition movement_packet (now : Z) (u : Unit) (opcode : Z)
    (x : option ExtraMovementStatusElement)
    : result (list Z * option ExtraMovementStatusElement) :=
  '(x', b) ← WriteMovementInfo fuzzyEq now u opcode x ByteBuffer.new;
  Ok (ByteBuffer.storage b, x').

(** [PacketSender::Send]: what is sent, and the extra elements, whose index the
    caller's object keeps. The clock is [now1] for the first packet, [now2] for the
    second. *)
Definition Send (now1 now2 : Z) (s : PacketSender) (moverIsPlayer : bool)
    : result (list sent * option ExtraMovementStatusElement) :=
  let isPlayerMovement := IsPlayer (s_unit s) && moverIsPlayer in
  '(out, x) ←
    (if isPlayerMovement && negb (s_selfOpcode s =? Opcodes.NULL_OPCODE) then
       '(payload, x) ←
         movement_packet now1 (s_unit s) (s_selfOpcode s) (s_extraElements s);
       Ok ([DirectMessage (s_selfOpcode s) payload], x)
     else Ok ([], s_extraElements s));
  if negb (s_broadcast s =? Opcodes.NULL_OPCODE) then
    '(payload, x) ← movement_packet now2 (s_unit s) (s_broadcast s) (ResetIndex <$> x);
    Ok (out ++ [MessageToSet (s_broadcast s) payload (negb isPlayerMovement)], x)
  else Ok (out, x).
End Sender.
