(* ===== verification/MovementCodec.v ===== *)
(** * MovementCodec: why a movement packet is read back as it was written.

    The tables drive two interpreters; this file relates them. A table, with the
    extra elements spliced in, is a list of [item]s. [emit] is the stream of bits and
    bytes the writer produces for an element, [after] the state of the reader once
    a set of elements has been read. [table_ok] is an executable check of a table
    (every field's presence bit comes before it, bits and bytes come in phases,
    something follows the last bit); [write_loop_emits] and [read_loop_after] show
    that the check is sound. *)
From S2P Require Import Prelude Bits ByteBuffer ByteBufferStream ObjectGuid Float32 MovementElements MovementTables MovementInfo.
Open Scope Z_scope.
Import Stream.

(** ** Items *)

Inductive item : Type :=
| Main (e : MovementStatusElements)
| Extra (e : MovementStatusElements).

(** The sequence up to its end marker, each extra element replaced by the next one of
    the second table. *)
Fixpoint items (elems sequence : list MovementStatusElements) : option (list item) :=
  match sequence with
  | [] => None
  | e :: sequence =>
      if mse_eqb e MSEEnd then Some []
      else if mse_eqb e MSEExtraElement then
        match elems with
        | [] => None
        | x :: elems => cons (Extra x) <$> items elems sequence
        end
      else cons (Main e) <$> items elems sequence
  end.

(** What an element is on the wire: bits, bytes or nothing. *)
Inductive wire : Type := Bits | Bytes | Nothing.

Definition wire_of (e : MovementStatusElements) : wire :=
  match e with
  | MSEGuidByte0 | MSEGuidByte1 | MSEGuidByte2 | MSEGuidByte3
  | MSEGuidByte4 | MSEGuidByte5 | MSEGuidByte6 | MSEGuidByte7
  | MSETimestamp | MSEPositionX | MSEPositionY | MSEPositionZ | MSEOrientation
  | MSETransportGuidByte0 | MSETransportGuidByte1 | MSETransportGuidByte2
  | MSETransportGuidByte3 | MSETransportGuidByte4 | MSETransportGuidByte5
  | MSETransportGuidByte6 | MSETransportGuidByte7
  | MSETransportPositionX | MSETransportPositionY | MSETransportPositionZ
  | MSETransportOrientation | MSETransportSeat | MSETransportTime | MSETransportTime2
  | MSETransportTime3 | MSEPitch | MSEFallTime | MSEFallVerticalSpeed | MSEFallCosAngle
  | MSEFallSinAngle | MSEFallHorizontalSpeed | MSESplineElevation
  | MSEExtraFloat | MSEExtraInt8 => Bytes
  | MSECounter | MSEAlive | MSEEnd | MSEExtraElement => Nothing
  | _ => Bits
  end.

Definition item_element (i : item) : MovementStatusElements :=
  match i with Main e => e | Extra e => e end.
Definition item_wire (i : item) : wire := wire_of (item_element i).
Definition no_bits (i : item) : bool := match item_wire i with Bits => false | _ => true end.
Definition no_bytes (i : item) : bool := match item_wire i with Bytes => false | _ => true end.

Fixpoint bits_then_bytes_items (its : list item) : bool :=
  match its with
  | [] => true
  | i :: its => forallb no_bits (i :: its) || no_bytes i && bits_then_bytes_items its
  end.
Fixpoint phased_items (its : list item) : bool :=
  match its with
  | [] => true
  | i :: its => no_bits i && phased_items its || bits_then_bytes_items (i :: its)
  end.

(** ** The writer's stream *)

Definition bit_if (c b : bool) : list token := if c then [TBit b] else [].
Definition val_if (c : bool) (k : nat) (v : Z) : list token :=
  if c then bytes (le_bytes k v) else [].
Definition guid_bit (g : ObjectGuid.t) (k : nat) : bool := z2b (nth k g 0).
Definition guid_byte (g : ObjectGuid.t) (k : nat) : list token :=
  val_if (guid_bit g k) 1 (Z.lxor (nth k g 0) 1).

Definition emit (now : Z) (u : Unit) (l : wlocals) (e : MovementStatusElements) : list token :=
  let mi := m_movementInfo u in
  let t := w_hasTransportData l in
  match e with
  | MSEHasGuidByte0 | MSEHasGuidByte1 | MSEHasGuidByte2 | MSEHasGuidByte3
  | MSEHasGuidByte4 | MSEHasGuidByte5 | MSEHasGuidByte6 | MSEHasGuidByte7 =>
      [TBit (guid_bit (w_guid l) (mse_sub e MSEHasGuidByte0))]
  | MSEHasTransportGuidByte0 | MSEHasTransportGuidByte1 | MSEHasTransportGuidByte2
  | MSEHasTransportGuidByte3 | MSEHasTransportGuidByte4 | MSEHasTransportGuidByte5
  | MSEHasTransportGuidByte6 | MSEHasTransportGuidByte7 =>
      bit_if t (guid_bit (w_tguid l) (mse_sub e MSEHasTransportGuidByte0))
  | MSEGuidByte0 | MSEGuidByte1 | MSEGuidByte2 | MSEGuidByte3
  | MSEGuidByte4 | MSEGuidByte5 | MSEGuidByte6 | MSEGuidByte7 =>
      guid_byte (w_guid l) (mse_sub e MSEGuidByte0)
  | MSETransportGuidByte0 | MSETransportGuidByte1 | MSETransportGuidByte2
  | MSETransportGuidByte3 | MSETransportGuidByte4 | MSETransportGuidByte5
  | MSETransportGuidByte6 | MSETransportGuidByte7 =>
      if t then guid_byte (w_tguid l) (mse_sub e MSETransportGuidByte0) else []
  | MSEHasMovementFlags => [TBit (negb (w_hasMovementFlags l))]
  | MSEHasMovementFlags2 => [TBit (negb (w_hasMovementFlags2 l))]
  | MSEHasTimestamp => [TBit (negb (w_hasTimestamp l))]
  | MSEHasOrientation => [TBit (negb (w_hasOrientation l))]
  | MSEHasTransportData => [TBit t]
  | MSEHasTransportTime2 => bit_if t (w_hasTransportTime2 l)
  | MSEHasTransportTime3 => bit_if t (w_hasTransportTime3 l)
  | MSEHasPitch => [TBit (negb (w_hasPitch l))]
  | MSEHasFallData => [TBit (w_hasFallData l)]
  | MSEHasFallDirection => bit_if (w_hasFallData l) (w_hasFallDirection l)
  | MSEHasSplineElevation => [TBit (negb (w_hasSplineElevation l))]
  | MSEHasSpline => [TBit (w_hasSpline l)]
  | MSEMovementFlags =>
      if w_hasMovementFlags l then bits (bits_of 30 (GetUnitMovementFlags u)) else []
  | MSEMovementFlags2 =>
      if w_hasMovementFlags2 l then bits (bits_of 13 (GetExtraUnitMovementFlags u)) else []
  | MSETimestamp => val_if (w_hasTimestamp l) 4 now
  | MSEPositionX => val_if true 4 (m_positionX (u_pos u))
  | MSEPositionY => val_if true 4 (m_positionY (u_pos u))
  | MSEPositionZ => val_if true 4 (m_positionZ (u_pos u))
  | MSEOrientation => val_if (w_hasOrientation l) 4 (m_orientation (u_pos u))
  | MSETransportPositionX => val_if t 4 (m_positionX (t_pos (mi_transport mi)))
  | MSETransportPositionY => val_if t 4 (m_positionY (t_pos (mi_transport mi)))
  | MSETransportPositionZ => val_if t 4 (m_positionZ (t_pos (mi_transport mi)))
  | MSETransportOrientation => val_if t 4 (m_orientation (t_pos (mi_transport mi)))
  | MSETransportSeat => val_if t 1 (t_seat (mi_transport mi))
  | MSETransportTime => val_if t 4 (t_time (mi_transport mi))
  | MSETransportTime2 => val_if (t && w_hasTransportTime2 l) 4 (t_time2 (mi_transport mi))
  | MSETransportTime3 => val_if (t && w_hasTransportTime3 l) 4 (t_time3 (mi_transport mi))
  | MSEPitch => val_if (w_hasPitch l) 4 (mi_pitch mi)
  | MSEFallTime => val_if (w_hasFallData l) 4 (j_fallTime (mi_jump mi))
  | MSEFallVerticalSpeed => val_if (w_hasFallData l) 4 (j_zspeed (mi_jump mi))
  | MSEFallCosAngle => val_if (w_hasFallData l && w_hasFallDirection l) 4 (j_cosAngle (mi_jump mi))
  | MSEFallSinAngle => val_if (w_hasFallData l && w_hasFallDirection l) 4 (j_sinAngle (mi_jump mi))
  | MSEFallHorizontalSpeed =>
      val_if (w_hasFallData l && w_hasFallDirection l) 4 (j_xyspeed (mi_jump mi))
  | MSESplineElevation => val_if (w_hasSplineElevation l) 4 (mi_splineElevation mi)
  | MSEHasCounter => bits (bits_of 22 0)
  | MSEIsAlive => [TBit (w_isAlive l)]
  | MSEZeroBit => [TBit false]
  | MSEOneBit => [TBit true]
  | _ => []
  end.

Definition emit_extra (d : ExtraData) (e : MovementStatusElements) : list token :=
  match e with
  | MSEHasGuidByte0 | MSEHasGuidByte1 | MSEHasGuidByte2 | MSEHasGuidByte3
  | MSEHasGuidByte4 | MSEHasGuidByte5 | MSEHasGuidByte6 | MSEHasGuidByte7 =>
      [TBit (guid_bit (x_guid d) (mse_sub e MSEHasGuidByte0))]
  | MSEGuidByte0 | MSEGuidByte1 | MSEGuidByte2 | MSEGuidByte3
  | MSEGuidByte4 | MSEGuidByte5 | MSEGuidByte6 | MSEGuidByte7 =>
      guid_byte (x_guid d) (mse_sub e MSEGuidByte0)
  | MSEExtraFloat => val_if true 4 (x_floatData d)
  | MSEExtraInt8 => val_if true 1 (x_byteData d)
  | _ => []
  end.

Definition emit_item (now : Z) (u : Unit) (l : wlocals) (d : ExtraData) (i : item) : list token :=
  match i with Main e => emit now u l e | Extra e => emit_extra d e end.

(** ** What the writer emits *)

Definition writes {A} (m : M ByteBuffer.t A) (a : A) (ks : list token) : Prop :=
  ∀ b s acc, writer b (s, acc) → Z.of_nat (length s) + 64 < ByteBuffer.MAX_SIZE →
    ∃ b', m b = Ok (a, b') ∧ writer b' (steps (s, acc) ks).

Create HintDb codec.

Lemma writes_ret {A} (a : A) : writes (mret a) a [].
Proof. intros b s acc HW _. by exists b. Qed.

Lemma writes_when (c : bool) (m : M ByteBuffer.t unit) ks :
  (c = true → writes m tt ks) → writes (when c do m) tt (if c then ks else []).
Proof. destruct c; [auto|intros; apply writes_ret]. Qed.

Lemma writes_WriteBit z : writes (ByteBuffer.WriteBit z;; mret tt) tt [TBit (z2b z)].
Proof.
  intros b s acc HW Hl. destruct (WriteBit_writer z b s acc HW) as (b' & E & HW' & _); [lia|].
  exists b'. split; [|exact HW']. by rewrite (bind_Ok _ _ _ _ _ E).
Qed.

Lemma writes_write_bit (x : bool) : writes (write_bit x) tt [TBit x].
Proof. rewrite <- (z2b_b2z x) at 2. apply writes_WriteBit. Qed.

Lemma writes_WriteBits v n :
  (n ≤ 30)%nat → writes (ByteBuffer.WriteBits v n) tt (bits (bits_of n v)).
Proof.
  intros Hn b s acc HW Hl.
  destruct (WriteBits_writer n v b s acc HW) as (b' & E & HW' & _); [lia|]. eauto.
Qed.

Lemma writes_val k v : (0 < k)%nat → writes (ByteBuffer.append_val k v) tt (bytes (le_bytes k v)).
Proof.
  intros Hk b s acc HW Hl.
  destruct (append_val_writer k v b s acc HW) as (b' & E & HW' & _); [lia..|]. eauto.
Qed.

Lemma writes_val_when (c : bool) k v :
  (0 < k)%nat → writes (when c do ByteBuffer.append_val k v) tt (val_if c k v).
Proof. intros. apply writes_when. intros _. by apply writes_val. Qed.

Lemma writes_guid_bit g k :
  (k < 8)%nat →
  writes (v ← lift (ObjectGuid.get k g); ByteBuffer.WriteBit v;; mret tt) tt [TBit (guid_bit g k)].
Proof.
  intros Hk. unfold ObjectGuid.get. rewrite (proj2 (Nat.ltb_lt _ _)) by done.
  apply (writes_WriteBit (nth k g 0)).
Qed.

Lemma writes_guid_byte g k :
  (k < 8)%nat →
  writes (v ← lift (ObjectGuid.get k g); ByteBuffer.WriteByteSeq v) tt (guid_byte g k).
Proof.
  intros Hk. unfold ObjectGuid.get. rewrite (proj2 (Nat.ltb_lt _ _)) by done.
  apply (writes_val_when (z2b (nth k g 0)) 1). lia.
Qed.

#[export] Hint Resolve writes_write_bit writes_val_when writes_guid_bit writes_guid_byte
  writes_ret : codec.
#[export] Hint Extern 1 (_ < _)%nat => (vm_compute; lia) : codec.
#[export] Hint Extern 1 (_ ≤ _)%nat => (vm_compute; lia) : codec.

(** The elements of the main table are those the writer's [switch] handles. *)
Definition main_element (e : MovementStatusElements) : bool :=
  negb (mse_eqb e MSEEnd || mse_eqb e MSEExtraElement || mse_eqb e MSEExtraFloat
        || mse_eqb e MSEExtraInt8).

Lemma write_element_writes now u l e :
  main_element e = true → w_counter l = 0%nat → w_isAlive l = false →
  writes (write_element now u l e) tt (emit now u l e).
Proof.
  intros He Hc Ha. destruct e; try discriminate He; cbn [write_element emit];
    rewrite ?Hc, ?Ha; cbn [write_counters];
    try solve [eauto with codec | apply writes_when; intros _; eauto with codec
              | apply writes_WriteBits; lia | apply writes_val; lia
              | apply writes_when; intros _; apply writes_WriteBits; lia].
Qed.

Definition extra_element (e : MovementStatusElements) : bool :=
  match e with
  | MSEHasGuidByte0 | MSEHasGuidByte1 | MSEHasGuidByte2 | MSEHasGuidByte3
  | MSEHasGuidByte4 | MSEHasGuidByte5 | MSEHasGuidByte6 | MSEHasGuidByte7
  | MSEGuidByte0 | MSEGuidByte1 | MSEGuidByte2 | MSEGuidByte3
  | MSEGuidByte4 | MSEGuidByte5 | MSEGuidByte6 | MSEGuidByte7
  | MSEExtraFloat | MSEExtraInt8 => true
  | _ => false
  end.

Lemma write_extra_writes d e :
  extra_element e = true → writes (WriteExtraElement e d) tt (emit_extra d e).
Proof.
  intros He. destruct e; try discriminate He; cbn [WriteExtraElement emit_extra];
    solve [eauto with codec | apply writes_val; lia].
Qed.

(** No item is longer than the thirty bits of the movement flags. *)
Lemma length_val_if c k v : (length (val_if c k v) ≤ k)%nat.
Proof. destruct c; simpl; unfold bytes; rewrite ?length_fmap, ?length_le_bytes; lia. Qed.

Lemma emit_item_length now u l d i : (length (emit_item now u l d i) ≤ 30)%nat.
Proof.
  assert (∀ b c, (length (bit_if b c) ≤ 1)%nat) as Hb by (intros [] ?; simpl; lia).
  assert (∀ g k, (length (guid_byte g k) ≤ 1)%nat) as Hg by (intros; apply length_val_if).
  destruct i as [e|e], e; cbn [emit_item emit emit_extra];
    repeat match goal with |- context [if ?c then _ else _] => destruct c end;
    unfold bits; rewrite ?length_fmap, ?length_bits_of;
    solve [simpl; lia | etrans; [apply length_val_if || apply Hb || apply Hg | simpl; lia]].
Qed.

Lemma writes_bind {A B} (m : M ByteBuffer.t A) (f : A → M ByteBuffer.t B) a ks b s acc c b'' :
  writes m a ks → writer b (s, acc) → Z.of_nat (length s) + 64 < ByteBuffer.MAX_SIZE →
  (∀ b', writer b' (steps (s, acc) ks) → f a b' = Ok (c, b'')) →
  (m ≫= f) b = Ok (c, b'').
Proof.
  intros Hm HW Hl Hf. destruct (Hm b s acc HW Hl) as (b' & E & HW').
  rewrite (bind_Ok _ _ _ _ _ E). by apply Hf.
Qed.

Definition item_ok (i : item) : bool :=
  match i with Main e => main_element e | Extra e => extra_element e end.

(** The extra elements of a call: the second table, or no object at all. *)
Definition extra_at (elems : option (list MovementStatusElements)) (i : nat) (d : ExtraData)
    : option ExtraMovementStatusElement := (λ es, mkExtra es i d) <$> elems.

Definition is_Extra (i : item) : bool := match i with Extra _ => true | _ => false end.
Definition extras_of (its : list item) : nat := length (List.filter is_Extra its).

(** The writer goes through a checked table and leaves the table's stream. *)
Lemma write_loop_emits now u l d elems i sequence its b w :
  items (drop i (default [] elems)) sequence = Some its →
  forallb item_ok its = true → w_counter l = 0%nat → w_isAlive l = false →
  writer b w → Z.of_nat (length w.1) + 64 * Z.of_nat (length its) + 64 < ByteBuffer.MAX_SIZE →
  ∃ b', write_loop now u l (extra_at elems i d) sequence b =
      Ok (extra_at elems (i + extras_of its) d, b') ∧
    writer b' (steps w (its ≫= emit_item now u l d)).
Proof.
  intros Hits Hok Hc Ha. revert i its b w Hits Hok.
  induction sequence as [|e sequence IH]; intros i its b w Hits Hok HW Hl; [done|].
  cbn [items write_loop] in *. destruct (mse_eqb e MSEEnd) eqn:Eend.
  { injection Hits as <-. exists b. split; [|done]. unfold extras_of. simpl.
    by rewrite Nat.add_0_r. }
  destruct w as [s acc]. pose proof HW as [_ _ _ Hacc _]. cbn [fst snd] in *.
  destruct (mse_eqb e MSEExtraElement) eqn:Eext.
  - destruct (drop i (default [] elems)) as [|x rest] eqn:Edrop; [done|].
    destruct (items rest sequence) as [its'|] eqn:Eits; [|done].
    injection Hits as <-. cbn [forallb item_ok] in Hok. apply andb_true_iff in Hok as [Hx Hok].
    destruct elems as [es|]; [|by destruct i]. cbn [from_option id extra_at fmap option_fmap option_map] in *.
    assert (es !! i = Some x) as Elook.
    { rewrite <- (Nat.add_0_r i), <- lookup_drop, Edrop. done. }
    assert (drop (S i) es = rest) as Edrop'.
    { rewrite <- Nat.add_1_r, <- drop_drop, Edrop. done. }
    destruct (write_extra_writes d x Hx b s acc HW) as (b1 & E1 & HW1); [cbn [length] in *; lia|].
    pose proof (emit_item_length now u l d (Extra x)) as Hlen.
    destruct (steps_size (s, acc) (emit_extra d x) Hacc) as [_ Hs]. cbn [emit_item fst] in *.
    destruct (IH (S i) its' b1 (steps (s, acc) (emit_extra d x))) as (b2 & E2 & HW2);
      [by rewrite Edrop'|done|done|cbn [length] in *; lia|].
    exists b2. split.
    + unfold through, WriteNextElement. cbn [x_elements x_index x_data]. rewrite Elook.
      rewrite (bind_Ok _ _ b (mkExtra es (S i) d) b1).
      2:{ by rewrite (bind_Ok _ _ _ _ _ E1). }
      unfold extras_of in *. cbn [List.filter is_Extra length]. rewrite Nat.add_succ_r. exact E2.
    + cbn [mbind list_bind]. rewrite steps_app. exact HW2.
  - destruct (items (drop i (default [] elems)) sequence) as [its'|] eqn:Eits; [|done].
    injection Hits as <-. cbn [forallb item_ok] in Hok. apply andb_true_iff in Hok as [He Hok].
    destruct (write_element_writes now u l e He Hc Ha b s acc HW) as (b1 & E1 & HW1);
      [cbn [length] in *; lia|].
    pose proof (emit_item_length now u l d (Main e)) as Hlen.
    destruct (steps_size (s, acc) (emit now u l e) Hacc) as [_ Hs]. cbn [emit_item fst] in *.
    destruct (IH i its' b1 (steps (s, acc) (emit now u l e))) as (b2 & E2 & HW2);
      [done|done|done|cbn [length] in *; lia|].
    exists b2. split.
    + rewrite (bind_Ok _ _ _ _ _ E1). unfold extras_of in *. cbn [List.filter is_Extra].
      exact E2.
    + cbn [mbind list_bind]. rewrite steps_app. exact HW2.
Qed.

(** ** Phases *)

Definition all_bits : list token → bool := forallb (λ k, negb (is_TByte k)).

Lemma all_bits_bits l : all_bits (bits l) = true.
Proof. by induction l. Qed.
Lemma all_bytes_val_if c k v : all_bytes (val_if c k v) = true.
Proof. destruct c; [|done]. simpl. by induction (le_bytes k v). Qed.

Lemma emit_item_no_bits now u l d i : no_bits i = true → all_bytes (emit_item now u l d i) = true.
Proof.
  destruct i as [e|e], e; intros He; try discriminate He; try reflexivity;
    cbn [emit_item emit emit_extra]; unfold guid_byte;
    repeat match goal with |- context [if ?c then _ else _] => destruct c end;
    (reflexivity || apply all_bytes_val_if).
Qed.

Lemma emit_item_no_bytes now u l d i : no_bytes i = true → all_bits (emit_item now u l d i) = true.
Proof.
  destruct i as [e|e], e; intros He; try discriminate He; try reflexivity;
    cbn [emit_item emit emit_extra]; unfold bit_if;
    repeat match goal with |- context [if ?c then _ else _] => destruct c end;
    (reflexivity || apply all_bits_bits).
Qed.

Lemma all_bytes_app k1 k2 : all_bytes (k1 ++ k2) = all_bytes k1 && all_bytes k2.
Proof. apply forallb_app. Qed.

Lemma bits_then_bytes_app k1 k2 :
  all_bits k1 = true → bits_then_bytes k2 = true → bits_then_bytes (k1 ++ k2) = true.
Proof. induction k1 as [|[b|z] k1 IH]; intros H1 H2; [done|by apply IH|done]. Qed.

Lemma phased_app k1 k2 : all_bytes k1 = true → phased k2 = true → phased (k1 ++ k2) = true.
Proof. induction k1 as [|[b|z] k1 IH]; intros H1 H2; [done|done|by apply IH]. Qed.

Section Phases.
Context (now : Z) (u : Unit) (l : wlocals) (d : ExtraData).
Local Abbreviation tokens its := (its ≫= emit_item now u l d).

Lemma tokens_cons i its : tokens (i :: its) = emit_item now u l d i ++ tokens its.
Proof. done. Qed.

Lemma tokens_all_bytes its : forallb no_bits its = true → all_bytes (tokens its) = true.
Proof.
  induction its as [|i its IH]; [done|]. cbn [forallb]. rewrite andb_true_iff. intros [Hi Hits].
  rewrite tokens_cons, all_bytes_app, IH by done. by rewrite emit_item_no_bits.
Qed.

Lemma tokens_bits_then_bytes its :
  bits_then_bytes_items its = true → bits_then_bytes (tokens its) = true.
Proof.
  induction its as [|i its IH]; [done|]. cbn [bits_then_bytes_items].
  rewrite orb_true_iff, andb_true_iff. intros [H|[Hi Hits]].
  - by apply all_bytes_bits_then_bytes, tokens_all_bytes.
  - rewrite tokens_cons. apply bits_then_bytes_app; [by apply emit_item_no_bytes|auto].
Qed.

Lemma tokens_phased its : phased_items its = true → phased (tokens its) = true.
Proof.
  induction its as [|i its IH]; [done|]. cbn [phased_items].
  rewrite orb_true_iff, andb_true_iff. intros [[Hi Hits]|H].
  - rewrite tokens_cons. apply phased_app; [by apply emit_item_no_bits|auto].
  - by apply bits_then_bytes_phased, tokens_bits_then_bytes.
Qed.
End Phases.

(** ** The end of the stream

    The writer does not flush: the last bits are in the packet only because a byte
    follows them. A position, the extra value or a byte of a non-zero GUID does. *)

Definition unconditional (i : item) : bool :=
  match item_element i with
  | MSEPositionX | MSEPositionY | MSEPositionZ | MSEExtraFloat | MSEExtraInt8 => true
  | _ => false
  end.

Definition GUID_BYTES : list MovementStatusElements :=
  [MSEGuidByte0; MSEGuidByte1; MSEGuidByte2; MSEGuidByte3;
   MSEGuidByte4; MSEGuidByte5; MSEGuidByte6; MSEGuidByte7].

Definition is_Main (e : MovementStatusElements) (i : item) : bool :=
  match i with Main e' => mse_eqb e e' | Extra _ => false end.

Definition nonempty_tail (its : list item) : bool :=
  existsb (λ i, unconditional i && item_ok i) its
  || forallb (λ e, existsb (is_Main e) its) GUID_BYTES.

Fixpoint flushed (its : list item) : bool :=
  match its with
  | [] => false
  | i :: its => if forallb no_bits (i :: its) then nonempty_tail (i :: its) else flushed its
  end.

Lemma steps_bytes w ks : all_bytes ks = true → ks ≠ [] → (steps w ks).2 = [].
Proof.
  intros Hb Hne. destruct ks as [|k ks _] using rev_ind; [done|].
  rewrite all_bytes_app, andb_true_iff in Hb. destruct Hb as [_ Hk].
  destruct k as [b|z]; [discriminate Hk|]. rewrite steps_app. by destruct (steps w ks).
Qed.

Lemma le_bytes_nonzero n g :
  0 < g < 2 ^ (8 * Z.of_nat n) → ∃ k, (k < n)%nat ∧ z2b (nth k (le_bytes n g) 0) = true.
Proof.
  revert g. induction n as [|n IH]; intros g Hg; [simpl in Hg; lia|].
  destruct (Z.eq_dec (g mod 256) 0) as [E|E].
  - destruct (IH (g / 256)) as (k & Hk & Hz).
    { replace (8 * Z.of_nat (S n)) with (8 + 8 * Z.of_nat n) in Hg by lia.
      rewrite Z.pow_add_r in Hg by lia. change (2 ^ 8) with 256 in Hg.
      pose proof (Z.div_mod g 256). split; [lia|]. apply Z.div_lt_upper_bound; lia. }
    exists (S k). split; [lia|done].
  - exists 0%nat. split; [lia|]. simpl. unfold z2b. by rewrite (proj2 (Z.eqb_neq _ _)).
Qed.

Lemma tokens_flushed now u l d its w :
  flushed its = true → (∃ k, (k < 8)%nat ∧ guid_bit (w_guid l) k = true) →
  (steps w (its ≫= emit_item now u l d)).2 = [].
Proof.
  intros Hf Hg. revert w. induction its as [|i its IH]; intros w; [done|].
  cbn [flushed] in Hf. destruct (forallb no_bits (i :: its)) eqn:Hb.
  2:{ rewrite tokens_cons, steps_app. by apply IH. }
  apply steps_bytes; [by apply tokens_all_bytes|]. intros E. clear IH.
  assert (∀ j, j ∈ i :: its → emit_item now u l d j = []) as Hnil.
  { revert E. generalize (i :: its). clear. intros its E. induction its as [|j its IH];
      intros j' Hj; [by apply not_elem_of_nil in Hj|]. rewrite tokens_cons in E.
    apply app_eq_nil in E as [E1 E2]. apply elem_of_cons in Hj as [Hj|Hj]; [by subst|auto]. }
  unfold nonempty_tail in Hf. apply orb_true_iff in Hf as [Hf|Hf].
  - apply existsb_exists in Hf as (j & Hj & Hu). apply list_elem_of_In, Hnil in Hj.
    apply andb_true_iff in Hu as [Hu Hok].
    destruct j as [e|e], e; (discriminate Hu || discriminate Hok || discriminate Hj).
  - destruct Hg as (k & Hk & Hg). rewrite forallb_forall in Hf.
    assert (∃ e, In e GUID_BYTES ∧ mse_sub e MSEGuidByte0 = k) as (e & He & Ek).
    { exists (nth k GUID_BYTES MSEEnd). split; [by apply nth_In|].
      do 8 (destruct k as [|k]; [reflexivity|]). lia. }
    specialize (Hf e He). apply existsb_exists in Hf as (j & Hj & Hm).
    apply list_elem_of_In, Hnil in Hj. destruct j as [e'|e']; [|done].
    cbn [is_Main] in Hm. destruct (mse_eqb_spec e e') as [<-|]; [|done].
    assert (emit now u l e = guid_byte (w_guid l) (mse_sub e MSEGuidByte0)) as E'.
    { simpl in He. repeat destruct He as [<-|He]; try reflexivity. done. }
    cbn [emit_item] in Hj. rewrite E', Ek in Hj. unfold guid_byte in Hj. rewrite Hg in Hj. discriminate.
Qed.

(** ** What the reader knows

    [after seen]: the reader's variables once the elements of [seen] have been read
    from the stream of a unit [u] with the writer's variables [l]. A byte of a GUID is
    0 before its presence bit, then 0 or 1, then its value. *)

Definition byte_after (bit byte : bool) (v : Z) : Z :=
  if byte then v else if bit then Z.b2z (z2b v) else 0.

Section After.
Context (now : Z) (u : Unit) (l : wlocals) (mi0 : MovementInfo).
Context (seen : MovementStatusElements → bool).

Definition guid_after (g : ObjectGuid.t) : ObjectGuid.t :=
  [byte_after (seen MSEHasGuidByte0) (seen MSEGuidByte0) (nth 0 g 0);
   byte_after (seen MSEHasGuidByte1) (seen MSEGuidByte1) (nth 1 g 0);
   byte_after (seen MSEHasGuidByte2) (seen MSEGuidByte2) (nth 2 g 0);
   byte_after (seen MSEHasGuidByte3) (seen MSEGuidByte3) (nth 3 g 0);
   byte_after (seen MSEHasGuidByte4) (seen MSEGuidByte4) (nth 4 g 0);
   byte_after (seen MSEHasGuidByte5) (seen MSEGuidByte5) (nth 5 g 0);
   byte_after (seen MSEHasGuidByte6) (seen MSEGuidByte6) (nth 6 g 0);
   byte_after (seen MSEHasGuidByte7) (seen MSEGuidByte7) (nth 7 g 0)].

Definition tguid_after (t : bool) (g : ObjectGuid.t) : ObjectGuid.t :=
  [byte_after (seen MSEHasTransportGuidByte0 && t) (seen MSETransportGuidByte0 && t) (nth 0 g 0);
   byte_after (seen MSEHasTransportGuidByte1 && t) (seen MSETransportGuidByte1 && t) (nth 1 g 0);
   byte_after (seen MSEHasTransportGuidByte2 && t) (seen MSETransportGuidByte2 && t) (nth 2 g 0);
   byte_after (seen MSEHasTransportGuidByte3 && t) (seen MSETransportGuidByte3 && t) (nth 3 g 0);
   byte_after (seen MSEHasTransportGuidByte4 && t) (seen MSETransportGuidByte4 && t) (nth 4 g 0);
   byte_after (seen MSEHasTransportGuidByte5 && t) (seen MSETransportGuidByte5 && t) (nth 5 g 0);
   byte_after (seen MSEHasTransportGuidByte6 && t) (seen MSETransportGuidByte6 && t) (nth 6 g 0);
   byte_after (seen MSEHasTransportGuidByte7 && t) (seen MSETransportGuidByte7 && t) (nth 7 g 0)].

(** A field that is in the packet when [c] holds. *)
Definition field (e : MovementStatusElements) (c : bool) {A} (v old : A) : A :=
  if seen e && c then v else old.

Let mi := m_movementInfo u.
Let t := w_hasTransportData l.
Let fall := w_hasFallData l.
Let dir := w_hasFallData l && w_hasFallDirection l.

Definition info_after : MovementInfo :=
  mkMovementInfo (mi_guid mi0)
    (field MSEMovementFlags (w_hasMovementFlags l)
       (GetUnitMovementFlags u mod 2 ^ Z.of_nat 30) (mi_flags mi0))
    (field MSEMovementFlags2 (w_hasMovementFlags2 l)
       (u16 (GetExtraUnitMovementFlags u mod 2 ^ Z.of_nat 13)) (mi_flags2 mi0))
    (mkPosition
       (field MSEPositionX true (u32 (m_positionX (u_pos u))) (m_positionX (mi_pos mi0)))
       (field MSEPositionY true (u32 (m_positionY (u_pos u))) (m_positionY (mi_pos mi0)))
       (field MSEPositionZ true (u32 (m_positionZ (u_pos u))) (m_positionZ (mi_pos mi0)))
       (field MSEOrientation (w_hasOrientation l)
          (NormalizeOrientation (u32 (m_orientation (u_pos u)))) (m_orientation (mi_pos mi0))))
    (field MSETimestamp (w_hasTimestamp l) (u32 now) (mi_time mi0))
    (mkTransport (t_guid (mi_transport mi0))
       (mkPosition
          (field MSETransportPositionX t (u32 (m_positionX (t_pos (mi_transport mi))))
             (m_positionX (t_pos (mi_transport mi0))))
          (field MSETransportPositionY t (u32 (m_positionY (t_pos (mi_transport mi))))
             (m_positionY (t_pos (mi_transport mi0))))
          (field MSETransportPositionZ t (u32 (m_positionZ (t_pos (mi_transport mi))))
             (m_positionZ (t_pos (mi_transport mi0))))
          (field MSETransportOrientation t
             (NormalizeOrientation (u32 (m_orientation (t_pos (mi_transport mi)))))
             (m_orientation (t_pos (mi_transport mi0)))))
       (field MSETransportSeat t (i8 (u8 (t_seat (mi_transport mi)))) (t_seat (mi_transport mi0)))
       (field MSETransportTime t (u32 (t_time (mi_transport mi))) (t_time (mi_transport mi0)))
       (field MSETransportTime2 (t && w_hasTransportTime2 l) (u32 (t_time2 (mi_transport mi)))
          (t_time2 (mi_transport mi0)))
       (field MSETransportTime3 (t && w_hasTransportTime3 l) (u32 (t_time3 (mi_transport mi)))
          (t_time3 (mi_transport mi0))))
    (field MSEPitch (w_hasPitch l) (u32 (mi_pitch mi)) (mi_pitch mi0))
    (mkJump
       (field MSEFallTime fall (u32 (j_fallTime (mi_jump mi))) (j_fallTime (mi_jump mi0)))
       (field MSEFallVerticalSpeed fall (u32 (j_zspeed (mi_jump mi))) (j_zspeed (mi_jump mi0)))
       (field MSEFallSinAngle dir (u32 (j_sinAngle (mi_jump mi))) (j_sinAngle (mi_jump mi0)))
       (field MSEFallCosAngle dir (u32 (j_cosAngle (mi_jump mi))) (j_cosAngle (mi_jump mi0)))
       (field MSEFallHorizontalSpeed dir (u32 (j_xyspeed (mi_jump mi)))
          (j_xyspeed (mi_jump mi0))))
    (field MSESplineElevation (w_hasSplineElevation l) (u32 (mi_splineElevation mi))
       (mi_splineElevation mi0))
    (mkMarkers
       (field MSEHasTransportTime2 t (w_hasTransportTime2 l)
          (b_hasTransportTime2 (mi_bits mi0)))
       (field MSEHasTransportTime3 t (w_hasTransportTime3 l)
          (b_hasTransportTime3 (mi_bits mi0)))
       (field MSEHasPitch true (w_hasPitch l) (b_hasPitch (mi_bits mi0)))
       (field MSEHasFallData true (w_hasFallData l) (b_hasFallData (mi_bits mi0)))
       (field MSEHasFallDirection fall (w_hasFallDirection l)
          (b_hasFallDirection (mi_bits mi0)))
       (field MSEHasSplineElevation true (w_hasSplineElevation l)
          (b_hasSplineElevation (mi_bits mi0)))).

Definition after : rlocals :=
  mkRlocals
    (seen MSEHasMovementFlags && w_hasMovementFlags l)
    (seen MSEHasMovementFlags2 && w_hasMovementFlags2 l)
    (seen MSEHasTimestamp && w_hasTimestamp l)
    (seen MSEHasOrientation && w_hasOrientation l)
    (seen MSEHasTransportData && t)
    (seen MSEIsAlive && negb (w_isAlive l))
    0 (guid_after (w_guid l)) (tguid_after t (w_tguid l)) info_after.
End After.

(** The extra object, read from scratch. *)
Definition extra_after (d : ExtraData) (f0 b0 : Z) (seen : MovementStatusElements → bool)
    : ExtraData :=
  mkExtraData (guid_after seen (x_guid d))
    (field seen MSEExtraFloat true (u32 (x_floatData d)) f0)
    (field seen MSEExtraInt8 true (i8 (u8 (x_byteData d))) b0).

(** ** The check of a table

    What must have been read before an element for the reader to know what the
    writer knew when it wrote it. *)
Definition needs (seen : MovementStatusElements → bool) (e : MovementStatusElements) : bool :=
  match e with
  | MSEHasGuidByte0 => negb (seen MSEGuidByte0) | MSEHasGuidByte1 => negb (seen MSEGuidByte1)
  | MSEHasGuidByte2 => negb (seen MSEGuidByte2) | MSEHasGuidByte3 => negb (seen MSEGuidByte3)
  | MSEHasGuidByte4 => negb (seen MSEGuidByte4) | MSEHasGuidByte5 => negb (seen MSEGuidByte5)
  | MSEHasGuidByte6 => negb (seen MSEGuidByte6) | MSEHasGuidByte7 => negb (seen MSEGuidByte7)
  | MSEGuidByte0 => seen MSEHasGuidByte0 && negb (seen MSEGuidByte0)
  | MSEGuidByte1 => seen MSEHasGuidByte1 && negb (seen MSEGuidByte1)
  | MSEGuidByte2 => seen MSEHasGuidByte2 && negb (seen MSEGuidByte2)
  | MSEGuidByte3 => seen MSEHasGuidByte3 && negb (seen MSEGuidByte3)
  | MSEGuidByte4 => seen MSEHasGuidByte4 && negb (seen MSEGuidByte4)
  | MSEGuidByte5 => seen MSEHasGuidByte5 && negb (seen MSEGuidByte5)
  | MSEGuidByte6 => seen MSEHasGuidByte6 && negb (seen MSEGuidByte6)
  | MSEGuidByte7 => seen MSEHasGuidByte7 && negb (seen MSEGuidByte7)
  | MSEHasTransportGuidByte0 => seen MSEHasTransportData && negb (seen MSETransportGuidByte0)
  | MSEHasTransportGuidByte1 => seen MSEHasTransportData && negb (seen MSETransportGuidByte1)
  | MSEHasTransportGuidByte2 => seen MSEHasTransportData && negb (seen MSETransportGuidByte2)
  | MSEHasTransportGuidByte3 => seen MSEHasTransportData && negb (seen MSETransportGuidByte3)
  | MSEHasTransportGuidByte4 => seen MSEHasTransportData && negb (seen MSETransportGuidByte4)
  | MSEHasTransportGuidByte5 => seen MSEHasTransportData && negb (seen MSETransportGuidByte5)
  | MSEHasTransportGuidByte6 => seen MSEHasTransportData && negb (seen MSETransportGuidByte6)
  | MSEHasTransportGuidByte7 => seen MSEHasTransportData && negb (seen MSETransportGuidByte7)
  | MSETransportGuidByte0 =>
      seen MSEHasTransportData && seen MSEHasTransportGuidByte0 && negb (seen MSETransportGuidByte0)
  | MSETransportGuidByte1 =>
      seen MSEHasTransportData && seen MSEHasTransportGuidByte1 && negb (seen MSETransportGuidByte1)
  | MSETransportGuidByte2 =>
      seen MSEHasTransportData && seen MSEHasTransportGuidByte2 && negb (seen MSETransportGuidByte2)
  | MSETransportGuidByte3 =>
      seen MSEHasTransportData && seen MSEHasTransportGuidByte3 && negb (seen MSETransportGuidByte3)
  | MSETransportGuidByte4 =>
      seen MSEHasTransportData && seen MSEHasTransportGuidByte4 && negb (seen MSETransportGuidByte4)
  | MSETransportGuidByte5 =>
      seen MSEHasTransportData && seen MSEHasTransportGuidByte5 && negb (seen MSETransportGuidByte5)
  | MSETransportGuidByte6 =>
      seen MSEHasTransportData && seen MSEHasTransportGuidByte6 && negb (seen MSETransportGuidByte6)
  | MSETransportGuidByte7 =>
      seen MSEHasTransportData && seen MSEHasTransportGuidByte7 && negb (seen MSETransportGuidByte7)
  | MSEMovementFlags => seen MSEHasMovementFlags
  | MSEMovementFlags2 => seen MSEHasMovementFlags2
  | MSETimestamp => seen MSEHasTimestamp
  | MSEOrientation => seen MSEHasOrientation
  | MSEHasTransportTime2 | MSEHasTransportTime3
  | MSETransportPositionX | MSETransportPositionY | MSETransportPositionZ
  | MSETransportOrientation | MSETransportSeat | MSETransportTime => seen MSEHasTransportData
  | MSETransportTime2 => seen MSEHasTransportData && seen MSEHasTransportTime2
  | MSETransportTime3 => seen MSEHasTransportData && seen MSEHasTransportTime3
  | MSEPitch => seen MSEHasPitch
  | MSEHasFallDirection | MSEFallTime | MSEFallVerticalSpeed => seen MSEHasFallData
  | MSEFallCosAngle | MSEFallSinAngle | MSEFallHorizontalSpeed =>
      seen MSEHasFallData && seen MSEHasFallDirection
  | MSESplineElevation => seen MSEHasSplineElevation
  | MSEAlive => negb (seen MSEIsAlive)
  | _ => true
  end.

(** ** What the reader reads *)

Definition reads_ok {A} (m : M ByteBuffer.t A) (a : A) (ks : list token) : Prop :=
  ∀ b rest, reads b (ks ++ rest) → ∃ b', m b = Ok (a, b') ∧ reads b' rest.

Lemma reads_ok_ret {A} (a : A) : reads_ok (mret a) a [].
Proof. intros b rest H. by exists b. Qed.

Lemma reads_ok_bind {A B} (m : M ByteBuffer.t A) (f : A → M ByteBuffer.t B) a c ks1 ks2 :
  reads_ok m a ks1 → reads_ok (f a) c ks2 → reads_ok (m ≫= f) c (ks1 ++ ks2).
Proof.
  intros Hm Hf b rest H. rewrite <- (assoc_L (++)) in H.
  destruct (Hm b _ H) as (b1 & E1 & H1). destruct (Hf b1 _ H1) as (b2 & E2 & H2).
  exists b2. by rewrite (bind_Ok _ _ _ _ _ E1).
Qed.

(** A single read whose value is then stored. *)
Lemma reads_ok_store {A B} (m : M ByteBuffer.t A) (f : A → B) a ks :
  reads_ok m a ks → reads_ok (v ← m; mret (f v)) (f a) ks.
Proof.
  intros Hm. rewrite <- (app_nil_r ks). apply (reads_ok_bind _ _ a); [done|apply reads_ok_ret].
Qed.

Lemma reads_ok_ReadBit x : reads_ok ByteBuffer.ReadBit x [TBit x].
Proof. intros b rest H. by apply ReadBit_reads in H. Qed.

Lemma reads_ok_ReadBits n v :
  (n ≤ 32)%nat → reads_ok (ByteBuffer.ReadBits n) (v mod 2 ^ Z.of_nat n) (bits (bits_of n v)).
Proof. intros Hn b rest H. by apply ReadBits_reads. Qed.

Lemma reads_ok_read k v :
  (0 < k)%nat → reads_ok (ByteBuffer.read k) (v mod 2 ^ (8 * Z.of_nat k)) (bytes (le_bytes k v)).
Proof. intros Hk b rest H. by apply read_reads. Qed.

Lemma reads_ok_shr_int8 v : reads_ok ByteBuffer.shr_int8 (i8 (u8 v)) (bytes (le_bytes 1 v)).
Proof.
  apply (reads_ok_store (ByteBuffer.read 1) (wrap_signed 8)). apply reads_ok_read. lia.
Qed.

Lemma reads_ok_branch (c' c : bool) (m : M ByteBuffer.t rlocals) r a ks :
  c' = c → (c = true → reads_ok m a ks) → (c = false → r = a) →
  reads_ok (if c' then m else mret r) a (if c then ks else []).
Proof.
  intros -> Ht Hf. destruct c; [by apply Ht|]. rewrite Hf by done. apply reads_ok_ret.
Qed.

Lemma reads_ok_guid_bit k x g {A} (f : ObjectGuid.t → A) :
  (k < 8)%nat →
  reads_ok (v ← ByteBuffer.ReadBit; g' ← lift (ObjectGuid.set k (Z.b2z v) g); mret (f g'))
    (f (<[k := Z.b2z x]> g)) [TBit x].
Proof.
  intros Hk. rewrite <- (app_nil_r [TBit x]). eapply reads_ok_bind; [apply reads_ok_ReadBit|].
  unfold ObjectGuid.set. rewrite (proj2 (Nat.ltb_lt _ _)) by done.
  apply (reads_ok_ret (f (<[k := Z.b2z x]> g))).
Qed.

Lemma lxor_1_byte v : is_byte v → Z.lxor v 1 mod 2 ^ 8 = Z.lxor v 1.
Proof.
  intros Hv. apply Z.mod_small. apply (lxor_bound v 1 8); unfold is_byte in *; lia.
Qed.

Lemma reads_ok_ReadByteSeq v :
  is_byte v →
  reads_ok (ByteBuffer.ReadByteSeq (Z.b2z (z2b v))) v (val_if (z2b v) 1 (Z.lxor v 1)).
Proof.
  intros Hv. unfold ByteBuffer.ReadByteSeq. rewrite z2b_b2z.
  destruct (z2b v) eqn:Ez; simpl val_if.
  - pose proof (reads_ok_store (ByteBuffer.read 1) (λ r, Z.lxor 1 r) _ _
                  (reads_ok_read 1 (Z.lxor v 1) ltac:(lia))) as H.
    change (8 * Z.of_nat 1) with 8 in H. rewrite lxor_1_byte in H by done.
    assert (Z.lxor 1 (Z.lxor v 1) = v) as E.
    { by rewrite (Z.lxor_comm v 1), <- Z.lxor_assoc, Z.lxor_nilpotent, Z.lxor_0_l. }
    cbn beta in H. rewrite E in H. exact H.
  - unfold z2b in Ez. destruct (Z.eqb_spec v 0); [|done]. subst. apply reads_ok_ret.
Qed.

Lemma reads_ok_guid_byte k v g {A} (f : ObjectGuid.t → A) :
  (k < 8)%nat → is_byte v → nth k g 0 = Z.b2z (z2b v) →
  reads_ok (b ← lift (ObjectGuid.get k g); b' ← ByteBuffer.ReadByteSeq b;
            g' ← lift (ObjectGuid.set k b' g); mret (f g'))
    (f (<[k := v]> g)) (val_if (z2b v) 1 (Z.lxor v 1)).
Proof.
  intros Hk Hv Hg. unfold ObjectGuid.get, ObjectGuid.set.
  rewrite (proj2 (Nat.ltb_lt _ _)), Hg by done.
  rewrite <- (app_nil_r (val_if _ _ _)).
  apply (reads_ok_bind (ByteBuffer.ReadByteSeq (Z.b2z (z2b v))) _ v); [by apply reads_ok_ReadByteSeq|].
  apply (reads_ok_ret (f (<[k := v]> g))).
Qed.

(** One more element has been read. *)
Definition add (e : MovementStatusElements) (seen : MovementStatusElements → bool)
    : MovementStatusElements → bool := λ x, mse_eqb x e || seen x.

Lemma reads_ok_eq {A} (m : M ByteBuffer.t A) a a' ks :
  reads_ok m a ks → a = a' → reads_ok m a' ks.
Proof. by intros ? <-. Qed.

Ltac seen_hyps H :=
  repeat match type of H with
  | _ && _ = true => let H' := fresh "Hs" in apply andb_true_iff in H as [H H']; seen_hyps H'
  | negb _ = true => apply negb_true_iff in H
  end.

Ltac rewrite_bools :=
  repeat match goal with H : ?s _ = ?b |- _ =>
    match b with true => rewrite !H | false => rewrite !H end; clear H end.
Ltac after_eq :=
  unfold after, info_after, guid_after, tguid_after, field, byte_after, add, upd_r_guid, upd_r_tguid;
  cbn; rewrite_bools; cbn;
  rewrite ?negb_involutive, ?andb_false_r, ?andb_true_r;
  repeat match goal with |- context [?a && (if ?b then _ else _)] => destruct a, b end;
  try reflexivity.

Lemma nth_is_byte k g : Forall is_byte g → is_byte (nth k g 0).
Proof.
  intros Hg. destruct (nth_in_or_default k g 0) as [Hin|E].
  - apply (proj1 (Forall_forall is_byte g) Hg). exact Hin.
  - rewrite E. unfold is_byte. lia.
Qed.

(** One tactic per shape of element. *)
Ltac read_case Hg :=
  eapply reads_ok_eq;
  [first [ apply reads_ok_guid_bit; vm_compute; lia
         | apply reads_ok_guid_byte; [vm_compute; lia|by apply nth_is_byte|after_eq]
         | eapply reads_ok_store;
           first [ apply reads_ok_ReadBit | apply reads_ok_shr_int8
                 | apply reads_ok_read; lia | apply reads_ok_ReadBits; lia ] ]
  |after_eq].

Lemma read_element_after now u l mi0 seen e :
  main_element e = true → needs seen e = true → w_isAlive l = false →
  Forall is_byte (w_guid l) → Forall is_byte (w_tguid l) →
  reads_ok (read_element e (after now u l mi0 seen)) (after now u l mi0 (add e seen))
    (emit now u l e).
Proof.
  intros He Hn Ha Hg Ht.
  destruct e; try discriminate He; cbn [needs] in Hn; cbn [read_element emit]; seen_hyps Hn;
    unfold bit_if, val_if, read_if;
    first [ solve [read_case Hg]
          | apply reads_ok_branch; [after_eq|intros Hc; read_case Ht|intros Hc; after_eq]
          | idtac ].
  - eapply reads_ok_eq; [apply reads_ok_ret|after_eq].
  - eapply reads_ok_eq; [|instantiate (1 := after now u l mi0 seen); after_eq].
    replace (r_isAlive _) with false by after_eq. apply reads_ok_ret.
Qed.

Lemma read_extra_after d f0 b0 seen e :
  extra_element e = true → needs seen e = true → Forall is_byte (x_guid d) →
  reads_ok (ReadExtraElement e (extra_after d f0 b0 seen)) (extra_after d f0 b0 (add e seen))
    (emit_extra d e).
Proof.
  intros He Hn Hg.
  destruct e; try discriminate He; cbn [needs] in Hn; cbn [ReadExtraElement emit_extra];
    seen_hyps Hn; unfold val_if, extra_after, upd_x_guid; read_case Hg.
Qed.

(** ** The check is sound *)

Definition mem_in (p : list MovementStatusElements) : MovementStatusElements → bool :=
  λ x, mem x p.

(** The elements of the main and of the second table, in the order they are read. *)
Definition mains (its : list item) : list MovementStatusElements :=
  its ≫= λ i, match i with Main e => [e] | Extra _ => [] end.
Definition extras (its : list item) : list MovementStatusElements :=
  its ≫= λ i, match i with Main _ => [] | Extra e => [e] end.

Lemma mains_Main e its : mains (Main e :: its) = e :: mains its. Proof. done. Qed.
Lemma mains_Extra e its : mains (Extra e :: its) = mains its. Proof. done. Qed.
Lemma extras_Main e its : extras (Main e :: its) = extras its. Proof. done. Qed.
Lemma extras_Extra e its : extras (Extra e :: its) = e :: extras its. Proof. done. Qed.
Lemma extras_of_Main e its : extras_of (Main e :: its) = extras_of its. Proof. done. Qed.
Lemma extras_of_Extra e its : extras_of (Extra e :: its) = S (extras_of its). Proof. done. Qed.

(** [p] and [q]: what has been read, the last first. *)
Fixpoint check (p q : list MovementStatusElements) (its : list item) : bool :=
  match its with
  | [] => true
  | Main e :: its => main_element e && needs (mem_in p) e && check (e :: p) q its
  | Extra e :: its => extra_element e && needs (mem_in q) e && check p (e :: q) its
  end.

Lemma check_item_ok p q its : check p q its = true → forallb item_ok its = true.
Proof.
  revert p q. induction its as [|[e|e] its IH]; intros p q H; [done|..];
    cbn [check forallb item_ok] in *; apply andb_true_iff in H as [[He _]%andb_true_iff H];
    rewrite He; by apply IH in H.
Qed.

Section Reader.
Context (now : Z) (u : Unit) (l : wlocals) (mi0 : MovementInfo).
Context (d : ExtraData) (f0 b0 : Z) (elems : option (list MovementStatusElements)).
Context (Ha : w_isAlive l = false).
Context (Hg : Forall is_byte (w_guid l)) (Ht : Forall is_byte (w_tguid l)).
Context (Hx : Forall is_byte (x_guid d)).

Lemma read_loop_after i sequence its p q b rest :
  items (drop i (default [] elems)) sequence = Some its → check p q its = true →
  reads b ((its ≫= emit_item now u l d) ++ rest) →
  ∃ b', read_loop (extra_at elems i (extra_after d f0 b0 (mem_in q))) sequence
          (after now u l mi0 (mem_in p)) b =
      Ok ((after now u l mi0 (mem_in (rev (mains its) ++ p)),
           extra_at elems (i + extras_of its)
             (extra_after d f0 b0 (mem_in (rev (extras its) ++ q)))), b') ∧
    reads b' rest.
Proof using All.
  revert i its p q b. induction sequence as [|e sequence IH]; intros i its p q b Hits Hc Hr;
    [done|]. cbn [items read_loop] in *. destruct (mse_eqb e MSEEnd).
  { injection Hits as <-. exists b. unfold extras_of. simpl. by rewrite Nat.add_0_r. }
  destruct (mse_eqb e MSEExtraElement).
  - destruct (drop i (default [] elems)) as [|x tl] eqn:Edrop; [done|].
    destruct (items tl sequence) as [its'|] eqn:Eits; [|done]. injection Hits as <-.
    cbn [check] in Hc. apply andb_true_iff in Hc as [[Hxe Hn]%andb_true_iff Hc].
    destruct elems as [es|]; [|by destruct i].
    cbn [from_option id extra_at fmap option_fmap option_map] in *.
    assert (es !! i = Some x) as Elook.
    { rewrite <- (Nat.add_0_r i), <- lookup_drop, Edrop. done. }
    assert (drop (S i) es = tl) as Edrop'.
    { rewrite <- Nat.add_1_r, <- drop_drop, Edrop. done. }
    rewrite tokens_cons, <- (assoc_L (++)) in Hr.
    destruct (read_extra_after d f0 b0 (mem_in q) x Hxe Hn Hx b _ Hr) as (b1 & E1 & Hr1).
    destruct (IH (S i) its' p (x :: q) b1) as (b2 & E2 & Hr2); [by rewrite Edrop'|done|done|].
    exists b2. split; [|done]. unfold through, ReadNextElement.
    cbn [x_elements x_index x_data]. rewrite Elook.
    rewrite (bind_Ok _ _ b (mkExtra es (S i) (extra_after d f0 b0 (mem_in (x :: q)))) b1).
    2:{ by rewrite (bind_Ok _ _ _ _ _ E1). }
    rewrite E2, mains_Extra, extras_Extra, extras_of_Extra, Nat.add_succ_r. cbn [rev].
    by rewrite <- (assoc_L (++) (rev (extras its'))).
  - destruct (items (drop i (default [] elems)) sequence) as [its'|] eqn:Eits; [|done].
    injection Hits as <-. cbn [check] in Hc.
    apply andb_true_iff in Hc as [[Hme Hn]%andb_true_iff Hc].
    rewrite tokens_cons, <- (assoc_L (++)) in Hr.
    destruct (read_element_after now u l mi0 (mem_in p) e Hme Hn Ha Hg Ht b _ Hr)
      as (b1 & E1 & Hr1).
    destruct (IH i its' (e :: p) q b1) as (b2 & E2 & Hr2); [done|done|done|].
    exists b2. split; [|done]. rewrite (bind_Ok _ _ _ _ _ E1).
    change (add e (mem_in p)) with (mem_in (e :: p)). rewrite E2.
    rewrite mains_Main, extras_Main, extras_of_Main. cbn [rev].
    by rewrite <- (assoc_L (++) (rev (mains its'))).
Qed.
End Reader.

(** A table that can be read back: its elements are known and each comes when it can be
    understood, bits and bytes come in phases, and the last bits are flushed. *)
Definition table_ok (elems sequence : list MovementStatusElements) : bool :=
  match items elems sequence with
  | Some its => check [] [] its && phased_items its && flushed its && (length its <=? 200)%nat
  | None => false
  end.

(** The data the extra object of a reader starts from: its GUID is zero, its numbers
    are not initialised. *)
Definition fresh_extra (f0 b0 : Z) : ExtraData := mkExtraData (ObjectGuid.of_u64 0) f0 b0.

Lemma write_locals_facts fuzzyEq u :
  let l := write_locals fuzzyEq u in
  w_counter l = 0%nat ∧ w_isAlive l = false ∧ Forall is_byte (w_guid l) ∧ Forall is_byte (w_tguid l).
Proof. do 2 (split; [done|]). split; apply le_bytes_is_byte. Qed.

Lemma after_nil now u l mi0 : after now u l mi0 (mem_in []) = read_locals mi0.
Proof. by destruct mi0 as [? ? ? [] ? [? [] ? ? ? ?] ? [] ? []]. Qed.

(** Write a unit's movement with a checked table and read the packet back: the reader
    ends in the state [after] of all the table's elements. *)
Lemma table_roundtrip fuzzyEq now u mi0 d f0 b0 elems sequence its :
  items (default [] elems) sequence = Some its →
  table_ok (default [] elems) sequence = true → 0 < GUID u < 2 ^ 64 → Forall is_byte (x_guid d) →
  let l := write_locals fuzzyEq u in
  ∃ b b',
    write_loop now u l (extra_at elems 0 d) sequence ByteBuffer.new =
      Ok (extra_at elems (extras_of its) d, b) ∧
    read_loop (extra_at elems 0 (fresh_extra f0 b0)) sequence (read_locals mi0)
        (ByteBuffer.received (ByteBuffer.storage b)) =
      Ok ((after now u l mi0 (mem_in (rev (mains its))),
           extra_at elems (extras_of its) (extra_after d f0 b0 (mem_in (rev (extras its))))), b').
Proof.
  intros Hits Hok Hg Hx l. unfold table_ok in Hok. rewrite Hits in Hok.
  apply andb_true_iff in Hok as [[[Hc Hp]%andb_true_iff Hf]%andb_true_iff Hlen%Nat.leb_le].
  destruct (write_locals_facts fuzzyEq u) as (Hcn & Ha & Hgb & Htb). fold l in Hcn, Ha, Hgb, Htb.
  destruct (write_loop_emits now u l d elems 0 sequence its ByteBuffer.new ([], []))
    as (b & Ew & HW); [done|by eapply check_item_ok|done|done|apply writer_new|
      unfold ByteBuffer.MAX_SIZE; simpl; lia|].
  assert ((steps ([], []) (its ≫= emit_item now u l d)).2 = []) as Eend.
  { apply tokens_flushed; [done|]. exact (le_bytes_nonzero 8 (GUID u) Hg). }
  pose proof (steps_layout [] [] (its ≫= emit_item now u l d)) as El.
  rewrite Eend, app_nil_r in El. destruct HW as [Est _ _ _ _]. rewrite El in Est.
  destruct (read_loop_after now u l mi0 d f0 b0 elems Ha Hgb Htb Hx 0 sequence its [] []
    (ByteBuffer.received (ByteBuffer.storage b)) []) as (b' & Er & _); [done|done| |].
  { rewrite app_nil_r. apply reads_received; [by apply tokens_phased|done]. }
  exists b, b'. split; [exact Ew|]. rewrite !app_nil_r, after_nil in Er. exact Er.
Qed.
