(* ===== verification/MovementProps.v ===== *)
(** * MovementProps: the properties of the movement packets. *)
From S2P Require Import Prelude Bits ByteBuffer ByteBufferStream ByteBufferProps ObjectGuid Float32 MovementElements MovementTables MovementInfo MovementCodec.
Open Scope Z_scope.
Import Opcodes Stream.

(** ** The packets of the protocol

    The extra table of an opcode is the one its handler or sender passes. *)
Definition extra_table (opcode : Z) : option (list MovementStatusElements) :=
  if opcode =? CMSG_CHANGE_SEATS_ON_CONTROLLED_VEHICLE then Some accessoryGuid
  else match GetMovementStatusElementsSequence opcode with
       | Some s => if mem MSEExtraElement s then Some speedElement else None
       | None => None
       end.

(** The packets that carry the whole movement state. *)
Definition state_opcodes : list Z := [
  CMSG_MOVE_CHNG_TRANSPORT; CMSG_MOVE_SPLINE_DONE; CMSG_MOVE_NOT_ACTIVE_MOVER;
  CMSG_DISMISS_CONTROLLED_VEHICLE; SMSG_MOVE_UPDATE_TELEPORT; CMSG_FORCE_MOVE_ROOT_ACK;
  CMSG_FORCE_MOVE_UNROOT_ACK; CMSG_MOVE_FALL_RESET; CMSG_MOVE_FEATHER_FALL_ACK;
  CMSG_MOVE_FORCE_FLIGHT_SPEED_CHANGE_ACK; CMSG_MOVE_FORCE_RUN_BACK_SPEED_CHANGE_ACK;
  CMSG_MOVE_FORCE_RUN_SPEED_CHANGE_ACK; CMSG_MOVE_FORCE_SWIM_SPEED_CHANGE_ACK;
  CMSG_MOVE_FORCE_WALK_SPEED_CHANGE_ACK; CMSG_MOVE_GRAVITY_DISABLE_ACK;
  CMSG_MOVE_GRAVITY_ENABLE_ACK; CMSG_MOVE_HOVER_ACK; CMSG_MOVE_KNOCK_BACK_ACK;
  CMSG_MOVE_SET_CAN_FLY; CMSG_MOVE_SET_CAN_FLY_ACK;
  CMSG_MOVE_SET_CAN_TRANSITION_BETWEEN_SWIM_AND_FLY_ACK; CMSG_MOVE_SET_COLLISION_HEIGHT_ACK;
  CMSG_MOVE_WATER_WALK_ACK; MSG_MOVE_SET_RUN_MODE; MSG_MOVE_SET_WALK_MODE;
  SMSG_MOVE_UPDATE_RUN_SPEED; CMSG_CHANGE_SEATS_ON_CONTROLLED_VEHICLE; CMSG_CAST_SPELL;
  CMSG_PET_CAST_SPELL; CMSG_USE_ITEM
].

(** The packets about a unit that carry its GUID and, for some, one number. *)
Definition guid_opcodes : list Z := [
  SMSG_MOVE_SET_COLLISION_HEIGHT; SMSG_SPLINE_MOVE_SET_WALK_SPEED;
  SMSG_SPLINE_MOVE_SET_RUN_SPEED; SMSG_SPLINE_MOVE_SET_RUN_BACK_SPEED;
  SMSG_SPLINE_MOVE_SET_SWIM_SPEED; SMSG_SPLINE_MOVE_SET_SWIM_BACK_SPEED;
  SMSG_SPLINE_MOVE_SET_TURN_RATE; SMSG_SPLINE_MOVE_SET_FLIGHT_SPEED;
  SMSG_SPLINE_MOVE_SET_FLIGHT_BACK_SPEED; SMSG_SPLINE_MOVE_SET_PITCH_RATE;
  SMSG_MOVE_SET_WALK_SPEED; SMSG_MOVE_SET_RUN_SPEED; SMSG_MOVE_SET_RUN_BACK_SPEED;
  SMSG_MOVE_SET_SWIM_SPEED; SMSG_MOVE_SET_SWIM_BACK_SPEED; SMSG_MOVE_SET_TURN_RATE;
  SMSG_MOVE_SET_FLIGHT_SPEED; SMSG_MOVE_SET_FLIGHT_BACK_SPEED; SMSG_MOVE_SET_PITCH_RATE;
  SMSG_SPLINE_MOVE_SET_WALK_MODE; SMSG_SPLINE_MOVE_SET_RUN_MODE;
  SMSG_SPLINE_MOVE_GRAVITY_DISABLE; SMSG_SPLINE_MOVE_GRAVITY_ENABLE;
  SMSG_SPLINE_MOVE_SET_HOVER; SMSG_SPLINE_MOVE_UNSET_HOVER; SMSG_SPLINE_MOVE_START_SWIM;
  SMSG_SPLINE_MOVE_STOP_SWIM; SMSG_SPLINE_MOVE_SET_FLYING; SMSG_SPLINE_MOVE_UNSET_FLYING;
  SMSG_SPLINE_MOVE_SET_WATER_WALK; SMSG_SPLINE_MOVE_SET_LAND_WALK;
  SMSG_SPLINE_MOVE_SET_FEATHER_FALL; SMSG_SPLINE_MOVE_SET_NORMAL_FALL; SMSG_SPLINE_MOVE_ROOT;
  SMSG_SPLINE_MOVE_UNROOT; SMSG_MOVE_SET_CAN_FLY; SMSG_MOVE_UNSET_CAN_FLY; SMSG_MOVE_SET_HOVER;
  SMSG_MOVE_UNSET_HOVER; SMSG_MOVE_WATER_WALK; SMSG_MOVE_LAND_WALK; SMSG_MOVE_FEATHER_FALL;
  SMSG_MOVE_NORMAL_FALL; SMSG_MOVE_ROOT; SMSG_MOVE_UNROOT
].

(** The packets with the second [MSEIsAlive]. *)
Definition double_alive_opcodes : list Z := [
  MSG_MOVE_FALL_LAND; MSG_MOVE_HEARTBEAT; MSG_MOVE_JUMP; MSG_MOVE_SET_FACING;
  MSG_MOVE_SET_PITCH; MSG_MOVE_START_ASCEND; MSG_MOVE_START_BACKWARD; MSG_MOVE_START_DESCEND;
  MSG_MOVE_START_FORWARD; MSG_MOVE_START_PITCH_DOWN; MSG_MOVE_START_PITCH_UP;
  MSG_MOVE_START_STRAFE_LEFT; MSG_MOVE_START_STRAFE_RIGHT; MSG_MOVE_START_SWIM;
  MSG_MOVE_START_TURN_LEFT; MSG_MOVE_START_TURN_RIGHT; MSG_MOVE_STOP; MSG_MOVE_STOP_ASCEND;
  MSG_MOVE_STOP_PITCH; MSG_MOVE_STOP_STRAFE; MSG_MOVE_STOP_SWIM; MSG_MOVE_STOP_TURN;
  SMSG_PLAYER_MOVE
].

(** The packets whose optional fields have no presence bits. *)
Definition unflagged_opcodes : list Z := [
  SMSG_MOVE_UPDATE_COLLISION_HEIGHT; SMSG_MOVE_UPDATE_FLIGHT_SPEED;
  SMSG_MOVE_UPDATE_KNOCK_BACK; SMSG_MOVE_UPDATE_RUN_BACK_SPEED; SMSG_MOVE_UPDATE_SWIM_SPEED;
  SMSG_MOVE_UPDATE_WALK_SPEED
].

(** Every packet of the protocol is in one of the four groups. *)
Example opcodes_partition :
  forallb (λ o, existsb (Z.eqb o)
    (state_opcodes ++ guid_opcodes ++ double_alive_opcodes ++ unflagged_opcodes)) dispatch.*1 = true ∧
  length (state_opcodes ++ guid_opcodes ++ double_alive_opcodes ++ unflagged_opcodes) =
    length dispatch.
Proof. split; vm_compute; reflexivity. Qed.

(** ** Reading back *)

Section Received.
Context (fuzzyEq : Z → Z → bool) (now : Z) (u : Unit) (mi0 : MovementInfo).
Let l := write_locals fuzzyEq u.
Let mi := m_movementInfo u.
Let t := w_hasTransportData l.

(** The movement that a packet of [state_opcodes] carries: each optional field has
    the sender's value when the sender has it and is left alone otherwise. *)
Definition received_info : MovementInfo :=
  mkMovementInfo (GUID u)
    (if w_hasMovementFlags l then GetUnitMovementFlags u mod 2 ^ 30 else mi_flags mi0)
    (if w_hasMovementFlags2 l then GetExtraUnitMovementFlags u mod 2 ^ 13 else mi_flags2 mi0)
    (mkPosition (u32 (m_positionX (u_pos u))) (u32 (m_positionY (u_pos u)))
       (u32 (m_positionZ (u_pos u)))
       (if w_hasOrientation l then NormalizeOrientation (u32 (m_orientation (u_pos u)))
        else m_orientation (mi_pos mi0)))
    (if w_hasTimestamp l then u32 now else mi_time mi0)
    (if t then
       mkTransport (u64 (GetTransGUID u))
         (mkPosition (u32 (m_positionX (t_pos (mi_transport mi))))
            (u32 (m_positionY (t_pos (mi_transport mi))))
            (u32 (m_positionZ (t_pos (mi_transport mi))))
            (NormalizeOrientation (u32 (m_orientation (t_pos (mi_transport mi))))))
         (i8 (u8 (t_seat (mi_transport mi)))) (u32 (t_time (mi_transport mi)))
         (if w_hasTransportTime2 l then u32 (t_time2 (mi_transport mi))
          else t_time2 (mi_transport mi0))
         (if w_hasTransportTime3 l then u32 (t_time3 (mi_transport mi))
          else t_time3 (mi_transport mi0))
     else upd_t_guid 0 (mi_transport mi0))
    (if w_hasPitch l then u32 (mi_pitch mi) else mi_pitch mi0)
    (if w_hasFallData l then
       mkJump (u32 (j_fallTime (mi_jump mi))) (u32 (j_zspeed (mi_jump mi)))
         (if w_hasFallDirection l then u32 (j_sinAngle (mi_jump mi)) else j_sinAngle (mi_jump mi0))
         (if w_hasFallDirection l then u32 (j_cosAngle (mi_jump mi)) else j_cosAngle (mi_jump mi0))
         (if w_hasFallDirection l then u32 (j_xyspeed (mi_jump mi)) else j_xyspeed (mi_jump mi0))
     else mi_jump mi0)
    (if w_hasSplineElevation l then u32 (mi_splineElevation mi) else mi_splineElevation mi0)
    (mkMarkers
       (if t then w_hasTransportTime2 l else b_hasTransportTime2 (mi_bits mi0))
       (if t then w_hasTransportTime3 l else b_hasTransportTime3 (mi_bits mi0))
       (w_hasPitch l) (w_hasFallData l)
       (if w_hasFallData l then w_hasFallDirection l else b_hasFallDirection (mi_bits mi0))
       (w_hasSplineElevation l)).
End Received.

(** Every element that carries movement state. *)
Definition state_elements : list MovementStatusElements :=
  List.filter (λ e, negb (mem e [MSEHasSpline; MSEZeroBit; MSEOneBit; MSEHasCounter; MSECounter;
    MSEIsAlive; MSEAlive; MSEEnd; MSEExtraElement; MSEExtraFloat; MSEExtraInt8])) all_elements.

Definition complete (its : list item) : bool :=
  forallb (λ e, mem e (rev (mains its))) state_elements.

(** What a reader that has seen every state element ends with. *)
Definition read_result (r : rlocals) : MovementInfo :=
  upd_transport (upd_t_guid (ObjectGuid.to_u64 (r_tguid r)))
    (upd_guid (ObjectGuid.to_u64 (r_guid r)) (r_mi r)).

Lemma guid_after_complete seen g :
  forallb seen GUID_BYTES = true → length g = 8%nat → guid_after seen g = g.
Proof.
  intros Hs Hl. simpl in Hs. rewrite !andb_true_iff in Hs.
  destruct Hs as (H0 & H1 & H2 & H3 & H4 & H5 & H6 & H7 & _).
  unfold guid_after, byte_after. rewrite H0, H1, H2, H3, H4, H5, H6, H7.
  do 8 (destruct g as [|? g]; [done|]). by destruct g.
Qed.

Lemma to_u64_of_u64 g : ObjectGuid.to_u64 (ObjectGuid.of_u64 g) = u64 g.
Proof. exact (le_val_le_bytes 8 g). Qed.

Lemma u16_small z : u16 (z mod 2 ^ Z.of_nat 13) = z mod 2 ^ 13.
Proof.
  apply Z.mod_small. pose proof (Z.mod_pos_bound z (2 ^ 13)). change (Z.of_nat 13) with 13. lia.
Qed.

Lemma tguid_after_complete seen t g :
  (∀ e, mem e state_elements = true → seen e = true) → length g = 8%nat →
  tguid_after seen t g = if t then g else replicate 8 0.
Proof.
  intros Hs Hl. unfold tguid_after, byte_after. rewrite !Hs by reflexivity.
  destruct t; [|done]. do 8 (destruct g as [|? g]; [done|]). by destruct g.
Qed.

Lemma read_result_complete fuzzyEq now u mi0 seen :
  (∀ e, mem e state_elements = true → seen e = true) → 0 ≤ GUID u < 2 ^ 64 →
  read_result (after now u (write_locals fuzzyEq u) mi0 seen) = received_info fuzzyEq now u mi0.
Proof.
  intros Hs Hg. unfold read_result, after, upd_guid, upd_transport, upd_t_guid.
  cbn [r_guid r_tguid r_mi].
  rewrite guid_after_complete, tguid_after_complete; [|done|done| |done].
  2:{ simpl. by rewrite !Hs by reflexivity. }
  set (l := write_locals fuzzyEq u). unfold info_after, field. rewrite !Hs by reflexivity.
  rewrite u16_small. cbn [andb]. unfold received_info. fold l.
  assert (w_guid l = ObjectGuid.of_u64 (GUID u)) as -> by done.
  assert (w_tguid l = ObjectGuid.of_u64 (if w_hasTransportData l then GetTransGUID u else 0))
    as -> by done.
  rewrite to_u64_of_u64. unfold u64 at 1. rewrite Z.mod_small by done.
  change (Z.of_nat 30) with 30. clearbody l.
  destruct mi0 as [? ? ? ? ? [? [] ? ? ? ?] ? [] ? ?]. cbn -[ObjectGuid.of_u64 ObjectGuid.to_u64].
  f_equal.
  - destruct (w_hasTransportData l); [by rewrite to_u64_of_u64|done].
  - by destruct (w_hasFallData l).
Qed.

(** What the caller of the reader gets from it. *)
Definition handed_over (p : PlayerFacts) (r : rlocals) (x : option ExtraMovementStatusElement) :=
  (remove_violating_flags p (read_result r), x,
   if (r_hasTransportData r
       && negb (f32_eq (m_positionX (mi_pos (read_result r)))
                  (m_positionX (t_pos (mi_transport (read_result r))))))
      && p_onTransport p then Some (read_result r) else None).

Lemma ReadMovementInfo_eq p opcode mi x sequence b r x' b' :
  GetMovementStatusElementsSequence opcode = Some sequence →
  read_loop x sequence (read_locals mi) b = Ok ((r, x'), b') →
  ReadMovementInfo p opcode mi x b = Ok (handed_over p r x', b').
Proof.
  intros E Er. unfold ReadMovementInfo. rewrite E. rewrite (bind_Ok _ _ _ _ _ Er). done.
Qed.

(** The check of a group of packets, by computation. *)
Definition packet_ok (P : list item → bool) (opcode : Z) : bool :=
  match GetMovementStatusElementsSequence opcode with
  | Some s =>
      let elems := default [] (extra_table opcode) in
      table_ok elems s &&
      match items elems s with Some its => P its | None => false end
  | None => false
  end.

Lemma packet_ok_items P opcode :
  packet_ok P opcode = true →
  ∃ s its, GetMovementStatusElementsSequence opcode = Some s ∧
    items (default [] (extra_table opcode)) s = Some its ∧
    table_ok (default [] (extra_table opcode)) s = true ∧ P its = true.
Proof.
  unfold packet_ok. destruct (GetMovementStatusElementsSequence opcode) as [s|]; [|done].
  cbv zeta. intros [H1 H2]%andb_true_iff.
  destruct (items (default [] (extra_table opcode)) s) as [its|] eqn:E; [|done].
  by exists s, its.
Qed.

Lemma state_opcodes_ok : forallb (packet_ok complete) state_opcodes = true.
Proof. vm_compute. reflexivity. Qed.

Lemma after_transport now u l mi0 seen :
  seen MSEHasTransportData = true → r_hasTransportData (after now u l mi0 seen) = w_hasTransportData l.
Proof. intros H. cbn. by rewrite H. Qed.

Lemma complete_seen its e :
  complete its = true → mem e state_elements = true → mem_in (rev (mains its)) e = true.
Proof.
  unfold complete. rewrite forallb_forall. intros Hc He. apply Hc. by apply list_elem_of_In, mem_elem_of.
Qed.

Lemma handed_over_complete fuzzyEq now u mi0 p its x :
  complete its = true → 0 ≤ GUID u < 2 ^ 64 →
  let info := received_info fuzzyEq now u mi0 in
  handed_over p (after now u (write_locals fuzzyEq u) mi0 (mem_in (rev (mains its)))) x =
  (remove_violating_flags p info, x,
   if z2b (GetTransGUID u)
      && negb (f32_eq (m_positionX (mi_pos info)) (m_positionX (t_pos (mi_transport info))))
      && p_onTransport p
   then Some info else None).
Proof.
  intros Hc Hg info. unfold handed_over.
  rewrite read_result_complete by (done || intros; by apply complete_seen).
  rewrite after_transport by by apply complete_seen. fold info.
  change (w_hasTransportData (write_locals fuzzyEq u)) with (z2b (GetTransGUID u)). reflexivity.
Qed.

(** C1. The packets that carry the whole movement state are read back: for any unit
    with a GUID, writing one and reading it into any [MovementInfo] fails nowhere, and
    gives exactly [received_info], less the flags that the clean-up removes; the
    transport's position is updated when the unit is on a transport at another x. *)
Theorem movement_state_roundtrip fuzzyEq now u mi0 p d f0 b0 opcode :
  opcode ∈ state_opcodes → 0 < GUID u < 2 ^ 64 → Forall is_byte (x_guid d) →
  let elems := extra_table opcode in
  let info := received_info fuzzyEq now u mi0 in
  ∃ b b' x x',
    WriteMovementInfo fuzzyEq now u opcode (extra_at elems 0 d) ByteBuffer.new = Ok (x, b) ∧
    ReadMovementInfo p opcode mi0 (extra_at elems 0 (fresh_extra f0 b0))
      (ByteBuffer.received (ByteBuffer.storage b)) =
      Ok ((remove_violating_flags p info, x',
           if z2b (GetTransGUID u)
              && negb (f32_eq (m_positionX (mi_pos info)) (m_positionX (t_pos (mi_transport info))))
              && p_onTransport p
           then Some info else None), b').
Proof.
  intros Hop Hg Hx elems info. pose proof state_opcodes_ok as Hall.
  rewrite forallb_forall in Hall. specialize (Hall opcode (proj1 (list_elem_of_In _ _) Hop)).
  apply packet_ok_items in Hall as (s & its & Es & Eits & Hok & Hc).
  destruct (table_roundtrip fuzzyEq now u mi0 d f0 b0 elems s its Eits Hok Hg Hx)
    as (b & b' & Ew & Er).
  exists b, b'. unfold WriteMovementInfo. rewrite Es.
  eexists _, _. split; [exact Ew|].
  rewrite (ReadMovementInfo_eq _ _ _ _ _ _ _ _ _ Es Er), handed_over_complete; [done|done|lia].
Qed.

(** A player standing at (1, 2, 3), facing 1 radian, its clock at 5. *)
Definition standing (flags : Z) : Unit :=
  mkUnit 0x0500000000000001 true None None false
    (mkPosition 0x3F800000 0x40000000 0x40400000 0x3F800000)
    (upd_time 5 (SetMovementFlags flags (MovementInfo_new 0))).
Definition no_auras : PlayerFacts := mkPlayerFacts false false false false true false false.
Definition never_equal (_ _ : Z) : bool := false.

Lemma movement_state_roundtrip_witness :
  let u := standing MOVEMENTFLAG_FORWARD in
  let info := received_info never_equal 7 u (MovementInfo_new 0) in
  ∃ b b' x x',
    WriteMovementInfo never_equal 7 u CMSG_MOVE_FORCE_RUN_SPEED_CHANGE_ACK
      (extra_at (extra_table CMSG_MOVE_FORCE_RUN_SPEED_CHANGE_ACK) 0 (fresh_extra 0x40E00000 0))
      ByteBuffer.new = Ok (x, b) ∧
    ReadMovementInfo no_auras CMSG_MOVE_FORCE_RUN_SPEED_CHANGE_ACK (MovementInfo_new 0)
      (extra_at (extra_table CMSG_MOVE_FORCE_RUN_SPEED_CHANGE_ACK) 0 (fresh_extra 0 0))
      (ByteBuffer.received (ByteBuffer.storage b)) =
      Ok ((remove_violating_flags no_auras info, x',
           if z2b (GetTransGUID u)
              && negb (f32_eq (m_positionX (mi_pos info)) (m_positionX (t_pos (mi_transport info))))
              && p_onTransport no_auras
           then Some info else None), b').
Proof.
  apply (movement_state_roundtrip never_equal 7 (standing MOVEMENTFLAG_FORWARD) (MovementInfo_new 0)
    no_auras (fresh_extra 0x40E00000 0) 0 0 CMSG_MOVE_FORCE_RUN_SPEED_CHANGE_ACK).
  - apply list_elem_of_In. vm_compute. tauto.
  - vm_compute. split; reflexivity.
  - repeat constructor; discriminate.
Defined.

(** The packet as the code writes it, and what the player of the example reads. *)
Example movement_state_example :
  let u := standing MOVEMENTFLAG_FORWARD in
  let i := received_info never_equal 7 u (MovementInfo_new 0) in
  (mi_guid i, mi_flags i, mi_time i, m_orientation (mi_pos i)) =
  (0x0500000000000001, MOVEMENTFLAG_FORWARD, 7, 0x3F800000).
Proof. vm_compute. reflexivity. Qed.

(** ** The packets about a unit *)

Definition guid_complete (its : list item) : bool :=
  forallb (λ e, mem e (rev (mains its))) GUID_BYTES.

(** Those of them that come with a number have it once. *)
Definition float_last (its : list item) : bool := mem MSEExtraFloat (rev (extras its)).

Definition readable_opcodes : list Z := state_opcodes ++ guid_opcodes.

Lemma readable_opcodes_ok : forallb (packet_ok guid_complete) readable_opcodes = true.
Proof. vm_compute. reflexivity. Qed.

Definition has_float (opcode : Z) : bool := mem MSEExtraFloat (default [] (extra_table opcode)).

Lemma readable_opcodes_float :
  forallb (λ o, negb (has_float o) || packet_ok float_last o) readable_opcodes = true.
Proof. vm_compute. reflexivity. Qed.

Lemma guid_opcodes_float :
  forallb (λ o, match extra_table o with Some _ => has_float o | None => true end) guid_opcodes = true.
Proof. vm_compute. reflexivity. Qed.

Lemma REMOVE_guid c m mi : mi_guid (REMOVE_VIOLATING_FLAGS c m mi) = mi_guid mi.
Proof. unfold REMOVE_VIOLATING_FLAGS. by destruct (c mi). Qed.

Lemma remove_violating_flags_guid p mi : mi_guid (remove_violating_flags p mi) = mi_guid mi.
Proof. unfold remove_violating_flags. by rewrite !REMOVE_guid. Qed.

Lemma read_result_guid fuzzyEq now u mi0 its :
  guid_complete its = true → 0 ≤ GUID u < 2 ^ 64 →
  mi_guid (read_result (after now u (write_locals fuzzyEq u) mi0 (mem_in (rev (mains its))))) = GUID u.
Proof.
  intros Hc Hg. cbn -[guid_after ObjectGuid.to_u64 write_locals].
  rewrite guid_after_complete by done.
  change (w_guid (write_locals fuzzyEq u)) with (ObjectGuid.of_u64 (GUID u)).
  rewrite to_u64_of_u64. by apply Z.mod_small.
Qed.

Lemma result_extra {A B C D} {a a' : A} {x x' : B} {c c' : C} {d d' : D} :
  Ok (a, x, c, d) = Ok (a', x', c', d') → x = x'.
Proof. by injection 1. Qed.

(** A reader without an extra object does not make one. *)
Lemma ReadMovementInfo_no_extra p opcode mi b info x' moved b' :
  ReadMovementInfo p opcode mi None b = Ok ((info, x', moved), b') → x' = None.
Proof.
  assert (∀ s r b r' x b', read_loop None s r b = Ok ((r', x), b') → x = None) as Hloop.
  { clear. induction s as [|e s IH]; intros r b r' x b' E; [done|]. cbn [read_loop] in E.
    destruct (mse_eqb e MSEEnd); [by injection E as <- <- <-|].
    destruct (mse_eqb e MSEExtraElement); [done|].
    apply bind_inv in E as (r1 & b1 & _ & E). by eapply IH. }
  unfold ReadMovementInfo. destruct (GetMovementStatusElementsSequence opcode) as [s|].
  - intros E. apply bind_inv in E as ([r x] & b1 & E1 & E). apply Hloop in E1 as ->.
    symmetry. exact (result_extra E).
  - intros E. symmetry. exact (result_extra E).
Qed.

(** Writing and reading back any packet that can be, with the extra object as it is
    left. *)
Lemma guid_packet_back fuzzyEq now u mi0 p d f0 b0 opcode :
  opcode ∈ readable_opcodes → 0 < GUID u < 2 ^ 64 → Forall is_byte (x_guid d) →
  let elems := extra_table opcode in
  ∃ b b' n info x' moved,
    WriteMovementInfo fuzzyEq now u opcode (extra_at elems 0 d) ByteBuffer.new =
      Ok (extra_at elems n d, b) ∧
    ReadMovementInfo p opcode mi0 (extra_at elems 0 (fresh_extra f0 b0))
      (ByteBuffer.received (ByteBuffer.storage b)) = Ok ((info, x', moved), b') ∧
    mi_guid info = GUID u ∧ (elems ≠ None → x' ≠ None) ∧
    ∀ y, x' = Some y → has_float opcode = true → x_floatData (x_data y) = u32 (x_floatData d).
Proof.
  intros Hop Hg Hx elems. apply list_elem_of_In in Hop.
  pose proof readable_opcodes_ok as Hall. rewrite forallb_forall in Hall. specialize (Hall opcode Hop).
  pose proof readable_opcodes_float as Hext. rewrite forallb_forall in Hext. specialize (Hext opcode Hop).
  apply packet_ok_items in Hall as (s & its & Es & Eits & Hok & Hc).
  destruct (table_roundtrip fuzzyEq now u mi0 d f0 b0 elems s its Eits Hok Hg Hx)
    as (b & b' & Ew & Er).
  exists b, b', (extras_of its). unfold WriteMovementInfo. rewrite Es.
  eexists _, _, _. split; [exact Ew|].
  rewrite (ReadMovementInfo_eq _ _ _ _ _ _ _ _ _ Es Er). split; [reflexivity|]. split; [|split].
  - rewrite remove_violating_flags_guid. apply read_result_guid; [exact Hc|lia].
  - intros Hne. by destruct elems.
  - intros y Hy Hfl. rewrite Hfl in Hext. fold elems in Hext, Eits.
    destruct elems as [es|] eqn:Eel; [|done].
    apply packet_ok_items in Hext as (s' & its' & Es' & Eits' & _ & Hf).
    fold elems in Eits'. rewrite Eel in Eits'. rewrite Es in Es'. injection Es' as <-. rewrite Eits in Eits'. injection Eits' as <-.
    injection Hy as <-. cbn [x_data extra_after x_floatData]. unfold field, float_last in *.
    unfold mem_in. by rewrite Hf.
Qed.

(** The packets about a unit that carry its GUID (speeds, modes, roots and their
    spline variants) give the unit's GUID back, and the number they carry, when there
    is one; reading them fails nowhere. *)
Theorem guid_packet_roundtrip fuzzyEq now u mi0 p d f0 b0 opcode :
  opcode ∈ guid_opcodes → 0 < GUID u < 2 ^ 64 → Forall is_byte (x_guid d) →
  let elems := extra_table opcode in
  ∃ b b' x info x' moved,
    WriteMovementInfo fuzzyEq now u opcode (extra_at elems 0 d) ByteBuffer.new = Ok (x, b) ∧
    ReadMovementInfo p opcode mi0 (extra_at elems 0 (fresh_extra f0 b0))
      (ByteBuffer.received (ByteBuffer.storage b)) = Ok ((info, x', moved), b') ∧
    mi_guid info = GUID u ∧
    ∀ y, x' = Some y → x_floatData (x_data y) = u32 (x_floatData d).
Proof.
  intros Hop Hg Hx elems.
  assert (opcode ∈ readable_opcodes) as Hre by (apply elem_of_app; by right).
  destruct (guid_packet_back fuzzyEq now u mi0 p d f0 b0 opcode Hre Hg Hx)
    as (b & b' & n & info & x' & moved & Ew & Er & Hi & Hne & Hy).
  exists b, b', (extra_at elems n d), info, x', moved. do 3 (split; [done|]).
  intros y Ey. apply Hy; [done|]. pose proof guid_opcodes_float as Hall.
  rewrite forallb_forall in Hall. specialize (Hall opcode (proj1 (list_elem_of_In _ _) Hop)).
  fold elems in Er, Hall. destruct elems; [done|]. exfalso.
  apply ReadMovementInfo_no_extra in Er. congruence.
Qed.

Lemma guid_packet_roundtrip_witness :
  let u := standing 0 in
  let elems := extra_table SMSG_SPLINE_MOVE_SET_RUN_SPEED in
  ∃ b b' x info x' moved,
    WriteMovementInfo never_equal 7 u SMSG_SPLINE_MOVE_SET_RUN_SPEED
      (extra_at elems 0 (fresh_extra 0x40E00000 0)) ByteBuffer.new = Ok (x, b) ∧
    ReadMovementInfo no_auras SMSG_SPLINE_MOVE_SET_RUN_SPEED (MovementInfo_new 0)
      (extra_at elems 0 (fresh_extra 0 0)) (ByteBuffer.received (ByteBuffer.storage b)) =
      Ok ((info, x', moved), b') ∧
    mi_guid info = GUID u ∧
    ∀ y, x' = Some y → x_floatData (x_data y) = u32 0x40E00000.
Proof.
  apply (guid_packet_roundtrip never_equal 7 (standing 0) (MovementInfo_new 0) no_auras
    (fresh_extra 0x40E00000 0) 0 0 SMSG_SPLINE_MOVE_SET_RUN_SPEED).
  - apply list_elem_of_In. vm_compute. tauto.
  - vm_compute. split; reflexivity.
  - repeat constructor; discriminate.
Defined.

(** ** Hostile packets *)

Lemma safe_lift_set {A} k v g (f : ObjectGuid.t → M ByteBuffer.t A) :
  (k < 8)%nat → (∀ g', safe (f g')) → safe (g' ← lift (ObjectGuid.set k v g); f g').
Proof.
  intros Hk Hf. unfold ObjectGuid.set. rewrite (proj2 (Nat.ltb_lt _ _)) by done.
  apply (Hf (<[k := v]> g)).
Qed.

Lemma safe_lift_get {A} k g (f : Z → M ByteBuffer.t A) :
  (k < 8)%nat → (∀ v, safe (f v)) → safe (v ← lift (ObjectGuid.get k g); f v).
Proof.
  intros Hk Hf. unfold ObjectGuid.get. rewrite (proj2 (Nat.ltb_lt _ _)) by done.
  apply (Hf (nth k g 0)).
Qed.

Lemma safe_skip_counters n : safe (skip_counters n).
Proof. induction n; simpl; auto with safe. Qed.

#[local] Hint Extern 1 (_ < 8)%nat => (vm_compute; lia) : safe.
#[local] Hint Resolve safe_lift_set safe_lift_get safe_skip_counters : safe.

Lemma safe_read_element e r : main_element e = true → safe (read_element e r).
Proof.
  intros He. destruct e; try discriminate He; cbn [read_element];
    unfold read_guid_bit, read_guid_byte, read_tguid_bit, read_tguid_byte, read_if,
      ByteBuffer.shr_float, ByteBuffer.shr_uint32, ByteBuffer.shr_int8; auto 9 with safe.
Qed.

Lemma safe_ReadExtraElement e d : extra_element e = true → safe (ReadExtraElement e d).
Proof.
  intros He. destruct e; try discriminate He; cbn [ReadExtraElement];
    unfold ByteBuffer.shr_float, ByteBuffer.shr_int8; auto 9 with safe.
Qed.

Lemma safe_read_loop elems i d sequence its r :
  items (drop i (default [] elems)) sequence = Some its → forallb item_ok its = true →
  safe (read_loop (extra_at elems i d) sequence r).
Proof.
  revert i d its r. induction sequence as [|e sequence IH]; intros i d its r Hits Hok; [done|].
  cbn [items read_loop] in *. destruct (mse_eqb e MSEEnd); [apply safe_ret|].
  destruct (mse_eqb e MSEExtraElement).
  - destruct (drop i (default [] elems)) as [|x tl] eqn:Edrop; [done|].
    destruct (items tl sequence) as [its'|] eqn:Eits; [|done]. injection Hits as <-.
    cbn [forallb item_ok] in Hok. apply andb_true_iff in Hok as [Hx Hok].
    destruct elems as [es|]; [|by destruct i].
    cbn [from_option id extra_at fmap option_fmap option_map] in *.
    assert (es !! i = Some x) as Elook.
    { rewrite <- (Nat.add_0_r i), <- lookup_drop, Edrop. done. }
    assert (drop (S i) es = tl) as Edrop'.
    { rewrite <- Nat.add_1_r, <- drop_drop, Edrop. done. }
    unfold through, ReadNextElement. cbn [x_elements x_index x_data]. rewrite Elook.
    intros b Hb. pose proof (safe_ReadExtraElement x d Hx b Hb) as H1.
    unfold mbind, M_bind. destruct (ReadExtraElement x d b) as [[d' b1]|]; [|done].
    destruct H1 as [Hr1 Hs1].
    pose proof (IH (S i) d' its' r ltac:(by rewrite Edrop') Hok b1 ltac:(lia)) as H2.
    cbn [mret M_ret]. destruct (read_loop _ _ _ b1) as [[? b2]|]; [|done].
    destruct H2. split; [lia|congruence].
  - destruct (items (drop i (default [] elems)) sequence) as [its'|] eqn:Eits; [|done].
    injection Hits as <-. cbn [forallb item_ok] in Hok. apply andb_true_iff in Hok as [He Hok].
    apply safe_bind; [by apply safe_read_element|]. intros r'. by apply IH with its'.
Qed.

Lemma dispatch_safe :
  forallb (λ o, match GetMovementStatusElementsSequence o with
                | Some s => match items (default [] (extra_table o)) s with
                            | Some its => forallb item_ok its
                            | None => false
                            end
                | None => false
                end) dispatch.*1 = true.
Proof. vm_compute. reflexivity. Qed.

Lemma dispatch_lookup opcode s :
  GetMovementStatusElementsSequence opcode = Some s → opcode ∈ dispatch.*1.
Proof.
  unfold GetMovementStatusElementsSequence. destruct (List.find _ dispatch) as [p|] eqn:E; [|done].
  intros _. apply find_some in E as [Hin Heq]. apply Z.eqb_eq in Heq as <-.
  apply list_elem_of_In, in_map. exact Hin.
Qed.

Lemma safe_ReadMovementInfo p opcode mi d :
  safe (ReadMovementInfo p opcode mi (extra_at (extra_table opcode) 0 d)).
Proof.
  unfold ReadMovementInfo. destruct (GetMovementStatusElementsSequence opcode) as [s|] eqn:Es;
    [|apply safe_ret].
  pose proof dispatch_safe as Hall. rewrite forallb_forall in Hall.
  specialize (Hall opcode (proj1 (list_elem_of_In _ _) (dispatch_lookup _ _ Es))).
  rewrite Es in Hall. destruct (items _ s) as [its|] eqn:Eits; [|done].
  apply safe_bind; [by apply safe_read_loop with its|]. intros [r x]. apply safe_ret.
Qed.

(** C2. No packet makes the reader do anything but read: for every opcode, payload and
    read position, with the extra object the code passes for the opcode,
    [ReadMovementInfo] returns with the cursor inside the packet or throws the position
    exception. No assertion fails, no null or out-of-range access happens, although
    the table of the opcode and the extra table are walked by hand. *)
Theorem ReadMovementInfo_safe p opcode mi d b :
  (ByteBuffer.rpos b ≤ ByteBuffer.size b)%nat →
  match ReadMovementInfo p opcode mi (extra_at (extra_table opcode) 0 d) b with
  | Ok (_, b') => (ByteBuffer.rpos b' ≤ ByteBuffer.size b')%nat ∧
                  ByteBuffer.storage b' = ByteBuffer.storage b
  | Throw e => e = ByteBufferPositionException
  end.
Proof.
  intros Hb. pose proof (safe_ReadMovementInfo p opcode mi d b Hb) as Hs.
  destruct (ReadMovementInfo _ _ _ _ b) as [[? b']|e]; [|done]. destruct Hs as [[_ Hr] Hst]. by split.
Qed.

Lemma ReadMovementInfo_safe_witness :
  match ReadMovementInfo no_auras MSG_MOVE_HEARTBEAT (MovementInfo_new 0)
          (extra_at (extra_table MSG_MOVE_HEARTBEAT) 0 (fresh_extra 0 0))
          (ByteBuffer.received [255; 255; 255]) with
  | Ok (_, b') => (ByteBuffer.rpos b' ≤ ByteBuffer.size b')%nat ∧
                  ByteBuffer.storage b' = ByteBuffer.storage (ByteBuffer.received [255; 255; 255])
  | Throw e => e = ByteBufferPositionException
  end.
Proof.
  apply (ReadMovementInfo_safe no_auras MSG_MOVE_HEARTBEAT (MovementInfo_new 0) (fresh_extra 0 0)
    (ByteBuffer.received [255; 255; 255])). vm_compute. lia.
Defined.

(** ** The clean-up of the flags *)

(** The flags that the clean-up removes, all at once: bit [k] of the flags [f]. *)
Definition violates (p : PlayerFacts) (f k : Z) : bool :=
  let b i := Z.testbit f i in
  let no_flight := p_isSecPlayer p && negb (p_moverAuraFly p) && negb (p_moverAuraMountedFlight p) in
  match k with
  | 10 => true                                              (* ROOT *)
  | 28 => negb (p_auraHover p)                              (* HOVER *)
  | 21 | 22 => b 21 && b 22                                 (* ASCENDING, DESCENDING *)
  | 4 | 5 => b 4 && b 5                                     (* LEFT, RIGHT *)
  | 2 | 3 => b 2 && b 3                                     (* STRAFE_LEFT, STRAFE_RIGHT *)
  | 6 | 7 => b 6 && b 7                                     (* PITCH_UP, PITCH_DOWN *)
  | 0 | 1 => b 0 && b 1                                     (* FORWARD, BACKWARD *)
  | 26 => negb (p_auraWaterWalk p)                          (* WATERWALKING *)
  | 27 => negb (p_auraFeatherFall p)                        (* FALLING_SLOW *)
  | 23 | 24 => no_flight                                    (* CAN_FLY, FLYING *)
  | 11 => b 9 || b 23 && negb no_flight                     (* FALLING *)
  | _ => false
  end.

Lemma has_flag f n : 0 ≤ n → z2b (Z.land f (2 ^ n)) = Z.testbit f n.
Proof.
  intros Hn. unfold z2b. destruct (Z.eqb_spec (Z.land f (2 ^ n)) 0) as [E|E]; simpl.
  - apply (f_equal (λ z, Z.testbit z n)) in E. rewrite Z.land_spec, Z.pow2_bits_true in E by done.
    rewrite andb_true_r, Z.testbit_0_l in E. done.
  - destruct (Z.testbit f n) eqn:Eb; [done|]. exfalso. apply E. apply Z.bits_inj'. intros i Hi.
    rewrite Z.land_spec, testbit_pow2, Z.testbit_0_l by done.
    destruct (Z.eqb_spec i n); [subst; by rewrite Eb|by rewrite andb_false_r].
Qed.

Lemma has_flags f m n :
  0 ≤ m → 0 ≤ n → z2b (Z.land f (Z.lor (2 ^ m) (2 ^ n))) = Z.testbit f m || Z.testbit f n.
Proof.
  intros Hm Hn. rewrite Z.land_lor_distr_r, <- !has_flag by done. unfold z2b.
  destruct (Z.eqb_spec (Z.lor (Z.land f (2 ^ m)) (Z.land f (2 ^ n))) 0) as [E|E].
  - apply Z.lor_eq_0_iff in E as [-> ->]. done.
  - destruct (Z.eqb_spec (Z.land f (2 ^ m)) 0) as [E1|], (Z.eqb_spec (Z.land f (2 ^ n)) 0) as [E2|];
      try done. by rewrite E1, E2 in E.
Qed.

(** One clean-up step, bit by bit, and the bits of a mask. *)
Lemma REMOVE_testbit c m mi k :
  0 ≤ mi_flags mi < 2 ^ 32 →
  Z.testbit (mi_flags (REMOVE_VIOLATING_FLAGS c m mi)) k =
    Z.testbit (mi_flags mi) k && negb (c mi && Z.testbit m k).
Proof.
  intros Hf. unfold REMOVE_VIOLATING_FLAGS. destruct (c mi); simpl; [|by rewrite andb_true_r].
  destruct (Z.ltb_spec k 0) as [Hk|Hk]; [by rewrite !Z.testbit_neg_r|].
  unfold u32. rewrite testbit_mod_pow2, Z.land_spec, Z.lnot_spec by lia.
  destruct (Z.ltb_spec k 32); [done|]. by rewrite (testbit_small (mi_flags mi) 32).
Qed.

Lemma testbit_flag n k : 0 ≤ n → Z.testbit (2 ^ n) k = (k =? n).
Proof. apply testbit_pow2. Qed.
Lemma testbit_flags m n k :
  0 ≤ m → 0 ≤ n → Z.testbit (Z.lor (2 ^ m) (2 ^ n)) k = (k =? m) || (k =? n).
Proof. intros. by rewrite Z.lor_spec, !testbit_pow2. Qed.

Lemma REMOVE_bound c m mi :
  0 ≤ mi_flags mi < 2 ^ 32 → 0 ≤ mi_flags (REMOVE_VIOLATING_FLAGS c m mi) < 2 ^ 32.
Proof.
  intros Hf. unfold REMOVE_VIOLATING_FLAGS. destruct (c mi); [|done]. simpl.
  unfold u32. apply Z.mod_pos_bound. lia.
Qed.

Lemma remove_violating_flags_bound p mi :
  0 ≤ mi_flags mi < 2 ^ 32 → 0 ≤ mi_flags (remove_violating_flags p mi) < 2 ^ 32.
Proof. intros H. unfold remove_violating_flags. by do 11 apply REMOVE_bound. Qed.

(** The checks, in bits. *)
Lemma Has_testbit n mi : 0 ≤ n → HasMovementFlag (2 ^ n) mi = Z.testbit (mi_flags mi) n.
Proof. apply has_flag. Qed.
Lemma Has_testbit2 m n mi : 0 ≤ m → 0 ≤ n →
  HasMovementFlag (Z.lor (2 ^ m) (2 ^ n)) mi = Z.testbit (mi_flags mi) m || Z.testbit (mi_flags mi) n.
Proof. apply has_flags. Qed.

(** All the enumerators as powers of two. *)
Ltac flags_as_powers :=
  change MOVEMENTFLAG_ROOT with (2 ^ 10); change MOVEMENTFLAG_HOVER with (2 ^ 28);
  change MOVEMENTFLAG_ASCENDING with (2 ^ 21); change MOVEMENTFLAG_DESCENDING with (2 ^ 22);
  change MOVEMENTFLAG_LEFT with (2 ^ 4); change MOVEMENTFLAG_RIGHT with (2 ^ 5);
  change MOVEMENTFLAG_STRAFE_LEFT with (2 ^ 2); change MOVEMENTFLAG_STRAFE_RIGHT with (2 ^ 3);
  change MOVEMENTFLAG_PITCH_UP with (2 ^ 6); change MOVEMENTFLAG_PITCH_DOWN with (2 ^ 7);
  change MOVEMENTFLAG_FORWARD with (2 ^ 0); change MOVEMENTFLAG_BACKWARD with (2 ^ 1);
  change MOVEMENTFLAG_WATERWALKING with (2 ^ 26); change MOVEMENTFLAG_FALLING_SLOW with (2 ^ 27);
  change MOVEMENTFLAG_FLYING with (2 ^ 24); change MOVEMENTFLAG_CAN_FLY with (2 ^ 23);
  change MOVEMENTFLAG_DISABLE_GRAVITY with (2 ^ 9); change MOVEMENTFLAG_FALLING with (2 ^ 11).

Ltac bit_step H :=
  rewrite ?H; cbn [Z.eqb Pos.eqb andb orb negb];
  rewrite ?andb_false_r, ?orb_false_r; cbn [negb]; rewrite ?andb_true_r.

(** The clean-up as eleven steps on bits. *)
Lemma violates_chain p (b0 b1 b2 b3 b4 b5 b6 b7 b8 b9 b10 b11 : Z → bool) f :
  (∀ k, b0 k = Z.testbit f k) →
  (∀ k, b1 k = b0 k && negb (b0 10 && (k =? 10))) →
  (∀ k, b2 k = b1 k && negb (b1 28 && negb (p_auraHover p) && (k =? 28))) →
  (∀ k, b3 k = b2 k && negb (b2 21 && b2 22 && ((k =? 21) || (k =? 22)))) →
  (∀ k, b4 k = b3 k && negb (b3 4 && b3 5 && ((k =? 4) || (k =? 5)))) →
  (∀ k, b5 k = b4 k && negb (b4 2 && b4 3 && ((k =? 2) || (k =? 3)))) →
  (∀ k, b6 k = b5 k && negb (b5 6 && b5 7 && ((k =? 6) || (k =? 7)))) →
  (∀ k, b7 k = b6 k && negb (b6 0 && b6 1 && ((k =? 0) || (k =? 1)))) →
  (∀ k, b8 k = b7 k && negb (b7 26 && negb (p_auraWaterWalk p) && (k =? 26))) →
  (∀ k, b9 k = b8 k && negb (b8 27 && negb (p_auraFeatherFall p) && (k =? 27))) →
  (∀ k, b10 k = b9 k && negb ((b9 24 || b9 23) && p_isSecPlayer p && negb (p_moverAuraFly p)
     && negb (p_moverAuraMountedFlight p) && ((k =? 24) || (k =? 23)))) →
  (∀ k, b11 k = b10 k && negb ((b10 9 || b10 23) && b10 11 && (k =? 11))) →
  ∀ k, 0 ≤ k < 32 → b11 k = Z.testbit f k && negb (violates p f k).
Proof.
  intros H0 H1 H2 H3 H4 H5 H6 H7 H8 H9 H10 H11 k Hk.
  assert (In k (map Z.of_nat (seq 0 32))) as Hin.
  { apply in_map_iff. exists (Z.to_nat k). split; [lia|]. apply in_seq. lia. }
  vm_compute in Hin. clear Hk.
  repeat destruct Hin as [<-|Hin]; [..|done];
    bit_step H11; bit_step H10; bit_step H9; bit_step H8; bit_step H7; bit_step H6; bit_step H5;
    bit_step H4; bit_step H3; bit_step H2; bit_step H1; rewrite !H0; cbn [violates];
    rewrite ?andb_false_r, ?andb_true_r; try reflexivity;
    clear b0 b1 b2 b3 b4 b5 b6 b7 b8 b9 b10 b11 H0 H1 H2 H3 H4 H5 H6 H7 H8 H9 H10 H11;
    destruct p as [? hover water feather sec fly mounted]; cbn -[Z.testbit];
    repeat match goal with |- context [Z.testbit f ?i] => destruct (Z.testbit f i) end;
    try reflexivity; destruct sec, fly, mounted; reflexivity.
Qed.

Lemma remove_violating_flags_testbit p mi k :
  0 ≤ mi_flags mi < 2 ^ 32 → 0 ≤ k < 32 →
  Z.testbit (mi_flags (remove_violating_flags p mi)) k =
    Z.testbit (mi_flags mi) k && negb (violates p (mi_flags mi) k).
Proof.
  intros Hf. unfold remove_violating_flags. flags_as_powers.
  set (m1 := REMOVE_VIOLATING_FLAGS _ _ mi). set (m2 := REMOVE_VIOLATING_FLAGS _ _ m1).
  set (m3 := REMOVE_VIOLATING_FLAGS _ _ m2). set (m4 := REMOVE_VIOLATING_FLAGS _ _ m3).
  set (m5 := REMOVE_VIOLATING_FLAGS _ _ m4). set (m6 := REMOVE_VIOLATING_FLAGS _ _ m5).
  set (m7 := REMOVE_VIOLATING_FLAGS _ _ m6). set (m8 := REMOVE_VIOLATING_FLAGS _ _ m7).
  set (m9 := REMOVE_VIOLATING_FLAGS _ _ m8). set (m10 := REMOVE_VIOLATING_FLAGS _ _ m9).
  set (m11 := REMOVE_VIOLATING_FLAGS _ _ m10).
  apply (violates_chain p
    (Z.testbit (mi_flags mi)) (Z.testbit (mi_flags m1)) (Z.testbit (mi_flags m2))
    (Z.testbit (mi_flags m3)) (Z.testbit (mi_flags m4)) (Z.testbit (mi_flags m5))
    (Z.testbit (mi_flags m6)) (Z.testbit (mi_flags m7)) (Z.testbit (mi_flags m8))
    (Z.testbit (mi_flags m9)) (Z.testbit (mi_flags m10)) (Z.testbit (mi_flags m11)));
    [done|clear k; intros k..];
    (etrans; [apply REMOVE_testbit; repeat apply REMOVE_bound; exact Hf|]);
    cbv beta; rewrite ?Has_testbit, ?Has_testbit2, ?testbit_flag, ?testbit_flags by lia; reflexivity.
Qed.

(** Fewer flags, fewer violations. *)
Lemma violates_mono p f f' k :
  (∀ i, Z.testbit f' i = true → Z.testbit f i = true) → 0 ≤ k < 32 →
  violates p f k = false → violates p f' k = false.
Proof.
  intros Hi Hk. assert (∀ i, Z.testbit f i = false → Z.testbit f' i = false) as Hn.
  { intros i Hf. destruct (Z.testbit f' i) eqn:E; [|done]. apply Hi in E. congruence. }
  assert (In k (map Z.of_nat (seq 0 32))) as Hin.
  { apply in_map_iff. exists (Z.to_nat k). split; [lia|]. apply in_seq. lia. }
  vm_compute in Hin. clear Hk.
  repeat destruct Hin as [<-|Hin]; [..|done]; cbn [violates];
    rewrite ?orb_false_iff, ?andb_false_iff; intuition auto.
Qed.

(** What the clean-up of a client's flags does, whatever the flags: exactly the
    flags of [violates] go (ROOT always; HOVER, WATERWALKING, FALLING_SLOW and the
    flight flags without the aura for them; both of two opposite directions when both
    are set; FALLING when the unit does not fall), every other flag stays, and doing
    it again changes nothing. *)
Theorem remove_violating_flags_spec p mi :
  0 ≤ mi_flags mi < 2 ^ 32 →
  (∀ k, 0 ≤ k < 32 →
     Z.testbit (mi_flags (remove_violating_flags p mi)) k =
       Z.testbit (mi_flags mi) k && negb (violates p (mi_flags mi) k)) ∧
  mi_flags (remove_violating_flags p (remove_violating_flags p mi)) =
    mi_flags (remove_violating_flags p mi).
Proof.
  intros Hf. split; [intros; by apply remove_violating_flags_testbit|].
  pose proof (remove_violating_flags_bound p mi Hf) as Hb.
  pose proof (remove_violating_flags_bound p _ Hb) as Hbb.
  apply Z.bits_inj'. intros k Hk. destruct (Z.ltb_spec k 32) as [H32|H32].
  2:{ by rewrite !(testbit_small _ 32 k) by lia. }
  rewrite (remove_violating_flags_testbit p (remove_violating_flags p mi)) by lia.
  destruct (Z.testbit (mi_flags (remove_violating_flags p mi)) k) eqn:Ek; [|done].
  rewrite remove_violating_flags_testbit in Ek by lia. apply andb_true_iff in Ek as [_ Ek].
  apply negb_true_iff in Ek. rewrite (violates_mono p (mi_flags mi)); [done| |lia|done].
  intros i Hi. destruct (Z.ltb_spec i 0); [by rewrite Z.testbit_neg_r in Hi|].
  destruct (Z.ltb_spec i 32) as [Hlt|Hge]; [|by rewrite (testbit_small _ 32 i) in Hi by lia].
  rewrite remove_violating_flags_testbit in Hi by lia. by apply andb_true_iff in Hi as [Hi _].
Qed.

Lemma remove_violating_flags_spec_witness :
  let mi := SetMovementFlags 0x1C00C03 (MovementInfo_new 0) in
  (∀ k, 0 ≤ k < 32 →
     Z.testbit (mi_flags (remove_violating_flags no_auras mi)) k =
       Z.testbit (mi_flags mi) k && negb (violates no_auras (mi_flags mi) k)) ∧
  mi_flags (remove_violating_flags no_auras (remove_violating_flags no_auras mi)) =
    mi_flags (remove_violating_flags no_auras mi).
Proof.
  apply (remove_violating_flags_spec no_auras (SetMovementFlags 0x1C00C03 (MovementInfo_new 0))).
  split; [discriminate|reflexivity].
Defined.

(** ** Writing alone *)

(** A table whose elements the writer knows, with something that is always written. *)
Definition writable (opcode : Z) : bool :=
  match GetMovementStatusElementsSequence opcode with
  | Some s =>
      match items (default [] (extra_table opcode)) s with
      | Some its => forallb item_ok its && (length its <=? 200)%nat
                    && existsb (λ i, unconditional i && item_ok i) its
      | None => false
      end
  | None => false
  end.

Lemma steps_keep w ks : w.1 ≠ [] → (steps w ks).1 ≠ [].
Proof.
  revert w. induction ks as [|k ks IH]; intros [s acc] Hw; [done|]. simpl in Hw. apply IH.
  destruct k as [b|z]; simpl; [|by destruct s].
  destruct (length acc =? 7)%nat; simpl; [by destruct s|done].
Qed.

Lemma steps_has_byte w z ks : TByte z ∈ ks → (steps w ks).1 ≠ [].
Proof.
  intros (k1 & k2 & ->)%list_elem_of_split. rewrite steps_app. apply (steps_keep (step _ (TByte z))).
  destruct (steps w k1) as [s acc]. simpl. by destruct s, (flush acc).
Qed.

Lemma writable_written fuzzyEq now u d opcode :
  writable opcode = true →
  ∃ b n, WriteMovementInfo fuzzyEq now u opcode (extra_at (extra_table opcode) 0 d) ByteBuffer.new =
      Ok (extra_at (extra_table opcode) n d, b) ∧ ByteBuffer.storage b ≠ [].
Proof.
  unfold writable, WriteMovementInfo.
  destruct (GetMovementStatusElementsSequence opcode) as [s|]; [|done].
  destruct (items (default [] (extra_table opcode)) s) as [its|] eqn:Eits; [|done].
  intros [[Hok Hlen%Nat.leb_le]%andb_true_iff Hu]%andb_true_iff.
  destruct (write_locals_facts fuzzyEq u) as (Hcn & Ha & _).
  destruct (write_loop_emits now u (write_locals fuzzyEq u) d (extra_table opcode) 0 s its
    ByteBuffer.new ([], [])) as (b & Ew & HW); [done..|apply writer_new|
      unfold ByteBuffer.MAX_SIZE; simpl; lia|].
  exists b, (extras_of its). split; [exact Ew|]. destruct HW as [-> _ _ _ _].
  apply existsb_exists in Hu as (i & Hi & [Hu Hio]%andb_true_iff).
  assert (∃ z, TByte z ∈ emit_item now u (write_locals fuzzyEq u) d i) as [z Hz].
  { destruct i as [e|e], e; (discriminate Hu || discriminate Hio || (eexists; left)). }
  apply (steps_has_byte _ z). apply list_elem_of_bind. exists i. split; [done|].
  by apply list_elem_of_In.
Qed.

(** ** Tables that do not match their packets *)

(** What the reader gets from the packet of a unit, and how many bytes it leaves. *)
Definition read_back (u : Unit) (opcode : Z) : result (MovementInfo * nat) :=
  let x := extra_at (extra_table opcode) 0 (fresh_extra 0 0) in
  '(_, b) ← WriteMovementInfo never_equal 7 u opcode x ByteBuffer.new;
  '(info, _, _, b') ←
    ReadMovementInfo no_auras opcode (MovementInfo_new 0) x
      (ByteBuffer.received (ByteBuffer.storage b));
  Ok (info, (ByteBuffer.size b' - ByteBuffer.rpos b')%nat).

Definition read_back_throws (u : Unit) (opcode : Z) : bool :=
  match read_back u opcode with Throw ByteBufferPositionException => true | _ => false end.

(** The GUID, the time and the position arrive, nothing is left over. *)
Definition read_back_fine (u : Unit) (opcode : Z) : bool :=
  match read_back u opcode with
  | Ok (info, n) =>
      (mi_guid info =? GUID u) && (mi_time info =? 7) && (n =? 0)%nat
      && (m_positionX (mi_pos info) =? m_positionX (u_pos u))
  | Throw _ => false
  end.

(** The client's movement packets among those with two [MSEIsAlive]. *)
Definition client_move_opcodes : list Z :=
  List.filter (λ o, negb (o =? SMSG_PLAYER_MOVE)) double_alive_opcodes.

(** The second [MSEIsAlive] of the client's movement packets (heartbeat, jump,
    facing, start and stop of every direction) stands where [MSEAlive] was meant, among
    the bytes: it reads one more bit than the packet holds. Whether a packet can be read
    depends on how its bits happen to be aligned: the packets of a player who stands
    still are read in full, those of the same player with one movement flag make the
    reader throw, for all 22 opcodes. *)
Theorem double_alive_misread :
  length client_move_opcodes = 22%nat ∧
  forallb (read_back_fine (standing MOVEMENTFLAG_NONE)) client_move_opcodes = true ∧
  forallb (read_back_throws (standing MOVEMENTFLAG_FORWARD)) client_move_opcodes = true.
Proof. split; [|split]; vm_compute; reflexivity. Qed.

(** The reader stops before the end of the packet, without the time. *)
Definition loses_time (u : Unit) (opcode : Z) : bool :=
  match read_back u opcode with
  | Ok (info, n) => negb (mi_time info =? 7) && (0 <? n)%nat
  | Throw _ => false
  end.

(** The tables of six update packets (walk, run-back, swim and flight speed,
    collision height, knock back) have the timestamp, the pitch and the fall data but
    none of the bits that say whether they are there: the writer writes the time of a
    walking player, the reader of the same table takes it for other fields and leaves
    four bytes of the packet unread. *)
Theorem unflagged_fields_misread :
  length unflagged_opcodes = 6%nat ∧
  forallb (loses_time (standing MOVEMENTFLAG_FORWARD)) unflagged_opcodes = true ∧
  forallb (λ o, match GetMovementStatusElementsSequence o with
                | Some s => mem MSETimestamp s && mem MSEPitch s && mem MSEFallTime s
                            && negb (mem MSEHasTimestamp s || mem MSEHasPitch s || mem MSEHasFallData s)
                | None => false
                end) unflagged_opcodes = true.
Proof. split; [|split]; vm_compute; reflexivity. Qed.
