(* ===== verification/SpeedChange.v ===== *)
(** * SpeedChange: changing a unit's speed, and the client's acknowledgement.

    [Unit::SetSpeed] and [Unit::GetSpeed] (Unit.cpp) with the opcodes they send, and
    [WorldSession::HandleForceSpeedChangeAck] (MovementHandler.cpp), which checks the
    speed that the client reports against the server's. *)
From S2P Require Import Prelude Bits ByteBuffer ByteBufferStream ByteBufferProps ObjectGuid Float32 MovementElements MovementTables MovementInfo MovementCodec MovementProps.
From Stdlib Require Import SpecFloat.
Open Scope Z_scope.
Import Opcodes.

(** ** Data *)

Inductive UnitMoveType : Type :=
| MOVE_WALK | MOVE_RUN | MOVE_RUN_BACK | MOVE_SWIM | MOVE_SWIM_BACK | MOVE_TURN_RATE
| MOVE_FLIGHT | MOVE_FLIGHT_BACK | MOVE_PITCH_RATE.

#[global] Instance UnitMoveType_eq_dec : EqDecision UnitMoveType.
Proof. solve_decision. Defined.

Definition move_index (t : UnitMoveType) : nat :=
  match t with
  | MOVE_WALK => 0 | MOVE_RUN => 1 | MOVE_RUN_BACK => 2 | MOVE_SWIM => 3 | MOVE_SWIM_BACK => 4
  | MOVE_TURN_RATE => 5 | MOVE_FLIGHT => 6 | MOVE_FLIGHT_BACK => 7 | MOVE_PITCH_RATE => 8
  end%nat.

(** 2.5, 7, 4.5, 4.722222, 2.5, 3.141594, 7, 4.5 and 3.14. *)
Definition baseMoveSpeed : list Z :=
  [0x40200000; 0x40E00000; 0x40900000; 0x40971C71; 0x40200000; 0x40490FE0; 0x40E00000;
   0x40900000; 0x4048F5C3].
Definition playerBaseMoveSpeed : list Z :=
  [0x40200000; 0x40E00000; 0x40900000; 0x40971C71; 0x40200000; 0x40490FE0; 0x40E00000;
   0x40900000; 0x4048F5C3].

(** The opcodes of a speed change that no movement table has. *)
Definition SMSG_MOVE_UPDATE_SWIM_BACK_SPEED : Z := 0x30B5.
Definition SMSG_MOVE_UPDATE_TURN_RATE : Z := 0x5DA1.
Definition SMSG_MOVE_UPDATE_FLIGHT_BACK_SPEED : Z := 0x74A0.
Definition SMSG_MOVE_UPDATE_PITCH_RATE : Z := 0x1DB5.
Definition CMSG_MOVE_FORCE_SWIM_BACK_SPEED_CHANGE_ACK : Z := 0x7A16.
Definition CMSG_MOVE_FORCE_TURN_RATE_CHANGE_ACK : Z := 0x7316.
Definition CMSG_MOVE_FORCE_FLIGHT_BACK_SPEED_CHANGE_ACK : Z := 0x310E.
Definition CMSG_MOVE_FORCE_PITCH_RATE_CHANGE_ACK : Z := 0x3100.

(** To everyone about a unit that is not its own player, to the player, to the others
    about a player. *)
Definition moveTypeToOpcode (t : UnitMoveType) : Z * Z * Z :=
  match t with
  | MOVE_WALK =>
      (SMSG_SPLINE_MOVE_SET_WALK_SPEED, SMSG_MOVE_SET_WALK_SPEED, SMSG_MOVE_UPDATE_WALK_SPEED)
  | MOVE_RUN =>
      (SMSG_SPLINE_MOVE_SET_RUN_SPEED, SMSG_MOVE_SET_RUN_SPEED, SMSG_MOVE_UPDATE_RUN_SPEED)
  | MOVE_RUN_BACK =>
      (SMSG_SPLINE_MOVE_SET_RUN_BACK_SPEED, SMSG_MOVE_SET_RUN_BACK_SPEED,
       SMSG_MOVE_UPDATE_RUN_BACK_SPEED)
  | MOVE_SWIM =>
      (SMSG_SPLINE_MOVE_SET_SWIM_SPEED, SMSG_MOVE_SET_SWIM_SPEED, SMSG_MOVE_UPDATE_SWIM_SPEED)
  | MOVE_SWIM_BACK =>
      (SMSG_SPLINE_MOVE_SET_SWIM_BACK_SPEED, SMSG_MOVE_SET_SWIM_BACK_SPEED,
       SMSG_MOVE_UPDATE_SWIM_BACK_SPEED)
  | MOVE_TURN_RATE =>
      (SMSG_SPLINE_MOVE_SET_TURN_RATE, SMSG_MOVE_SET_TURN_RATE, SMSG_MOVE_UPDATE_TURN_RATE)
  | MOVE_FLIGHT =>
      (SMSG_SPLINE_MOVE_SET_FLIGHT_SPEED, SMSG_MOVE_SET_FLIGHT_SPEED,
       SMSG_MOVE_UPDATE_FLIGHT_SPEED)
  | MOVE_FLIGHT_BACK =>
      (SMSG_SPLINE_MOVE_SET_FLIGHT_BACK_SPEED, SMSG_MOVE_SET_FLIGHT_BACK_SPEED,
       SMSG_MOVE_UPDATE_FLIGHT_BACK_SPEED)
  | MOVE_PITCH_RATE =>
      (SMSG_SPLINE_MOVE_SET_PITCH_RATE, SMSG_MOVE_SET_PITCH_RATE, SMSG_MOVE_UPDATE_PITCH_RATE)
  end.

(** The part of a unit (and of the player it may be) that the two functions use. *)
Record Mover : Type := mkMover {
  m_unit : Unit;
  m_speed_rate : list Z;             (* floats, by move type *)
  m_forced_speed_changes : list Z;   (* uint8 each, by move type *)
  m_ControlledByPlayer : bool;
  m_inCombat : bool;
  m_hasPet : bool;
  m_moverIsPlayer : bool;            (* m_mover->GetTypeId() == TYPEID_PLAYER *)
  m_facts : PlayerFacts;
}.

Definition set_rates (v : list Z) (m : Mover) : Mover :=
  mkMover (m_unit m) v (m_forced_speed_changes m) (m_ControlledByPlayer m) (m_inCombat m)
    (m_hasPet m) (m_moverIsPlayer m) (m_facts m).
Definition set_forced (v : list Z) (m : Mover) : Mover :=
  mkMover (m_unit m) (m_speed_rate m) v (m_ControlledByPlayer m) (m_inCombat m)
    (m_hasPet m) (m_moverIsPlayer m) (m_facts m).

(** Calls into other parts, in the order they are made. *)
Inductive effect : Type :=
| PropagateSpeedChange                       (* MotionMaster::propagateSpeedChange *)
| PetSetSpeed (t : UnitMoveType) (rate : Z) (forced : bool)
| Packet (s : sent)
| TransportUpdatePosition (mi : MovementInfo)  (* GetTransport()->UpdatePosition(mi) *)
| KickPlayer.

(** ** Speeds *)

Definition GetSpeedRate (t : UnitMoveType) (m : Mover) : Z := nth (move_index t) (m_speed_rate m) 0.

Definition f32_mul (x y : Z) : Z := f32_encode (SFmul prec emax (f32_decode x) (f32_decode y)).
Definition f32_sub (x y : Z) : Z := f32_encode (SFsub prec emax (f32_decode x) (f32_decode y)).
Definition f32_abs (x : Z) : Z := f32_encode (SFabs (f32_decode x)).

Definition GetSpeed (t : UnitMoveType) (m : Mover) : Z :=
  f32_mul (GetSpeedRate t m)
    (nth (move_index t) (if m_ControlledByPlayer m then playerBaseMoveSpeed else baseMoveSpeed) 0).

(** [++ToPlayer()->m_forced_speed_changes[mtype]], for a player. *)
Definition register_forced (t : UnitMoveType) (m : Mover) : Mover :=
  if IsPlayer (m_unit m)
  then set_forced (alter (λ n, u8 (n + 1)) (move_index t) (m_forced_speed_changes m)) m else m.

(** Out of combat, a player's pet gets the same rate. *)
Definition pet_follows (t : UnitMoveType) (forced : bool) (m : Mover) : list effect :=
  if IsPlayer (m_unit m) && negb (m_inCombat m) && m_hasPet m
  then [PetSetSpeed t (GetSpeedRate t m) forced] else [].

Section SetSpeed.
Variable fuzzyEq : Z → Z → bool.

(** [Unit::SetSpeed]; the clock is [now1] when the first packet is written, [now2]
    when the second is. *)
Definition SetSpeed (now1 now2 : Z) (t : UnitMoveType) (rate : Z) (forced : bool) (m : Mover)
    : result (Mover * list effect) :=
  let rate := if f32_lt rate 0 then 0 else rate in
  if f32_eq (GetSpeedRate t m) rate then Ok (m, [])
  else
    let m := set_rates (<[move_index t := rate]> (m_speed_rate m)) m in
    let m := register_forced t m in
    let pet := pet_follows t forced m in
    let extra := mkExtra speedElement 0 (fresh_extra (GetSpeed t m) 0) in
    let '(spline, self, update) := moveTypeToOpcode t in
    '(out, _) ← Send fuzzyEq now1 now2
      (PacketSender_new (m_unit m) (m_moverIsPlayer m) spline self update (Some extra))
      (m_moverIsPlayer m);
    Ok (m, PropagateSpeedChange :: pet ++ (Packet <$> out)).

(** The move type that an acknowledgement is about. *)
Definition ack_move_type (opcode : Z) : option UnitMoveType :=
  if opcode =? CMSG_MOVE_FORCE_WALK_SPEED_CHANGE_ACK then Some MOVE_WALK
  else if opcode =? CMSG_MOVE_FORCE_RUN_SPEED_CHANGE_ACK then Some MOVE_RUN
  else if opcode =? CMSG_MOVE_FORCE_RUN_BACK_SPEED_CHANGE_ACK then Some MOVE_RUN_BACK
  else if opcode =? CMSG_MOVE_FORCE_SWIM_SPEED_CHANGE_ACK then Some MOVE_SWIM
  else if opcode =? CMSG_MOVE_FORCE_SWIM_BACK_SPEED_CHANGE_ACK then Some MOVE_SWIM_BACK
  else if opcode =? CMSG_MOVE_FORCE_TURN_RATE_CHANGE_ACK then Some MOVE_TURN_RATE
  else if opcode =? CMSG_MOVE_FORCE_FLIGHT_SPEED_CHANGE_ACK then Some MOVE_FLIGHT
  else if opcode =? CMSG_MOVE_FORCE_FLIGHT_BACK_SPEED_CHANGE_ACK then Some MOVE_FLIGHT_BACK
  else if opcode =? CMSG_MOVE_FORCE_PITCH_RATE_CHANGE_ACK then Some MOVE_PITCH_RATE
  else None.

(** [0.01f] *)
Definition speed_tolerance : Z := 0x3C23D70A.

(** The rest of the handler once the packet has been read and is the player's own:
    the speed the client reports for a move type. *)
Definition check_speed (now1 now2 : Z) (t : UnitMoveType) (newspeed : Z) (m : Mover)
    : result (Mover * list effect) :=
  let speed := GetSpeed t m in
  if negb (p_onTransport (m_facts m)) && f32_lt speed_tolerance (f32_abs (f32_sub speed newspeed)) then
    if f32_lt newspeed speed
    then SetSpeed now1 now2 t (GetSpeedRate t m) true m
    else Ok (m, [KickPlayer])
  else Ok (m, []).

Definition speed_ack (now1 now2 : Z) (opcode newspeed : Z) (m : Mover)
    : result (Mover * list effect) :=
  match ack_move_type opcode with
  | None => Ok (m, [])
  | Some t =>
      let n := nth (move_index t) (m_forced_speed_changes m) 0 in
      if 0 <? n then
        let m := set_forced (<[move_index t := n - 1]> (m_forced_speed_changes m)) m in
        if 0 <? n - 1 then Ok (m, []) else check_speed now1 now2 t newspeed m
      else check_speed now1 now2 t newspeed m
  end.

(** [WorldSession::HandleForceSpeedChangeAck]; the packet is [b], what is left of it
    afterwards is returned. The numbers of the two local objects are not initialised
    ([uninit]). *)
Definition HandleForceSpeedChangeAck (now1 now2 uninit opcode : Z)
    (m : Mover) (b : ByteBuffer.t) : result (Mover * list effect * ByteBuffer.t) :=
  '(mi, x, moved, b) ←
    ReadMovementInfo (m_facts m) opcode (MovementInfo_new uninit)
      (Some (mkExtra speedElement 0 (fresh_extra uninit uninit))) b;
  let update := match moved with Some mi => [TransportUpdatePosition mi] | None => [] end in
  if negb (GUID (m_unit m) =? mi_guid mi) then
    '(_, b) ← ByteBuffer.rfinish b; Ok (m, update, b)
  else
    let newspeed := match x with Some x => x_floatData (x_data x) | None => uninit end in
    '(m, out) ← speed_ack now1 now2 opcode newspeed m;
    Ok (m, update ++ out, b).
End SetSpeed.

(** * Properties *)

(** A packet from which the code's own reader gets a GUID and a number. *)
Definition carries (opcode : Z) (payload : list Z) (guid value : Z) : Prop :=
  ∀ p mi0 f0 b0, ∃ info x moved b',
    ReadMovementInfo p opcode mi0 (Some (mkExtra speedElement 0 (fresh_extra f0 b0)))
      (ByteBuffer.received payload) = Ok ((info, Some x, moved), b') ∧
    mi_guid info = guid ∧ x_floatData (x_data x) = value.

Lemma fresh_extra_bytes f b : Forall is_byte (x_guid (fresh_extra f b)).
Proof. repeat constructor; discriminate. Qed.

Lemma guid_packet_carries fuzzyEq now u opcode speed :
  opcode ∈ readable_opcodes → extra_table opcode = Some speedElement → 0 < GUID u < 2 ^ 64 →
  ∃ payload n,
    movement_packet fuzzyEq now u opcode (Some (mkExtra speedElement 0 (fresh_extra speed 0))) =
      Ok (payload, Some (mkExtra speedElement n (fresh_extra speed 0))) ∧
    carries opcode payload (GUID u) (u32 speed).
Proof.
  intros Hop Hx Hg. unfold movement_packet.
  destruct (guid_packet_back fuzzyEq now u (MovementInfo_new 0) no_auras (fresh_extra speed 0) 0 0
    opcode Hop Hg (fresh_extra_bytes _ _)) as (b & _ & n & _ & _ & _ & Ew & _).
  rewrite Hx in Ew. cbn [extra_at fmap option_fmap option_map] in Ew. rewrite Ew.
  exists (ByteBuffer.storage b), n. split; [done|]. intros p mi0 f0 b0.
  destruct (guid_packet_back fuzzyEq now u mi0 p (fresh_extra speed 0) f0 b0
    opcode Hop Hg (fresh_extra_bytes _ _)) as (b1 & b' & n1 & info & x' & moved & Ew1 & Er & Hi & Hne & Hy).
  rewrite Hx in *. cbn [extra_at fmap option_fmap option_map] in *. rewrite Ew in Ew1.
  injection Ew1 as <- <-. destruct x' as [x|]; [|by destruct Hne].
  exists info, x, moved, b'. split; [exact Er|]. split; [done|].
  apply Hy; [done|]. unfold has_float. by rewrite Hx.
Qed.

(** The move types whose broadcast has a movement table. *)
Definition has_update_table (t : UnitMoveType) : bool :=
  match t with
  | MOVE_SWIM_BACK | MOVE_TURN_RATE | MOVE_FLIGHT_BACK | MOVE_PITCH_RATE => false
  | _ => true
  end.

Lemma speed_opcodes_ok t :
  let '(spline, self, update) := moveTypeToOpcode t in
  spline ∈ readable_opcodes ∧ extra_table spline = Some speedElement ∧ spline ≠ NULL_OPCODE ∧
  self ∈ readable_opcodes ∧ extra_table self = Some speedElement ∧ self ≠ NULL_OPCODE ∧
  update ≠ NULL_OPCODE ∧
  (if has_update_table t then writable update = true ∧ extra_table update = Some speedElement
   else GetMovementStatusElementsSequence update = None).
Proof.
  assert (∀ o, existsb (Z.eqb o) readable_opcodes = true → o ∈ readable_opcodes) as Hin.
  { intros o (x & Hx & Ex%Z.eqb_eq)%existsb_exists. subst. by apply list_elem_of_In. }
  destruct t; cbn [moveTypeToOpcode has_update_table];
    repeat split; (apply Hin; vm_compute; reflexivity) || (vm_compute; congruence).
Qed.

Lemma update_packet fuzzyEq now u t speed :
  let '(_, _, update) := moveTypeToOpcode t in
  ∃ payload x,
    movement_packet fuzzyEq now u update (Some (mkExtra speedElement 0 (fresh_extra speed 0))) =
      Ok (payload, x) ∧ (payload = [] ↔ has_update_table t = false).
Proof.
  pose proof (speed_opcodes_ok t) as H. destruct (moveTypeToOpcode t) as [[spline self] update].
  destruct H as (_ & _ & _ & _ & _ & _ & _ & H). unfold movement_packet.
  destruct (has_update_table t).
  - destruct H as [Hw Hx].
    destruct (writable_written fuzzyEq now u (fresh_extra speed 0) update Hw) as (b & n & Ew & Hne).
    rewrite Hx in Ew. cbn [extra_at fmap option_fmap option_map] in Ew. rewrite Ew.
    eexists _, _. split; [reflexivity|]. done.
  - unfold WriteMovementInfo. rewrite H. eexists _, _. split; [reflexivity|]. done.
Qed.

(** The rate that [SetSpeed] stores. *)
Definition clamped (rate : Z) : Z := if f32_lt rate 0 then 0 else rate.

(** A change of speed reaches its receivers. The rate is stored and every change
    is announced: for a unit that is not a player moving itself, with one packet to all
    around it, for a player moving itself, with a packet to the player and one to the
    others. The first packet always carries the unit's GUID and its new speed, as the
    code's own reader reads them. The packet to the others is empty exactly for the
    four move types without a movement table. *)
Theorem SetSpeed_announces fuzzyEq now1 now2 t rate forced m :
  0 < GUID (m_unit m) < 2 ^ 64 → length (m_speed_rate m) = 9%nat →
  f32_eq (GetSpeedRate t m) (clamped rate) = false →
  ∃ m' pet, GetSpeedRate t m' = clamped rate ∧ m_unit m' = m_unit m ∧
  let '(spline, self, update) := moveTypeToOpcode t in
  ∃ p1 p2,
    SetSpeed fuzzyEq now1 now2 t rate forced m =
      Ok (m', PropagateSpeedChange :: pet ++
        if IsPlayer (m_unit m) && m_moverIsPlayer m
        then [Packet (DirectMessage self p1); Packet (MessageToSet update p2 false)]
        else [Packet (MessageToSet spline p1 true)]) ∧
    carries (if IsPlayer (m_unit m) && m_moverIsPlayer m then self else spline) p1
      (GUID (m_unit m)) (u32 (GetSpeed t m')) ∧
    (p2 = [] ↔ has_update_table t = false).
Proof.
  intros Hg Hl Hne. unfold SetSpeed. fold (clamped rate). rewrite Hne.
  set (m1 := set_rates _ m).
  assert (GetSpeedRate t m1 = clamped rate) as Hr1.
  { apply nth_lookup_Some, list_lookup_insert_eq. rewrite Hl. destruct t; simpl; lia. }
  set (m2 := register_forced t m1). set (pet := pet_follows t forced m2). exists m2, pet.
  assert (GetSpeedRate t m2 = clamped rate ∧ m_unit m2 = m_unit m ∧
    m_moverIsPlayer m2 = m_moverIsPlayer m) as (Hr2 & Hu2 & Hm2)
    by (unfold m2, register_forced; by destruct (IsPlayer (m_unit m1))).
  split; [done|]. split; [done|].
  clearbody m2 pet. clear m1 Hr1.
  pose proof (speed_opcodes_ok t) as Hops.
  pose proof (update_packet fuzzyEq now2 (m_unit m2) t (GetSpeed t m2)) as Hupd.
  destruct (moveTypeToOpcode t) as [[spline self] update].
  destruct Hops as (Hsp & Hspx & Hsp0 & Hse & Hsex & Hse0 & Hup0 & _).
  destruct Hupd as (p2 & x2 & Eupd & Hp2). rewrite <- Hu2 in Hg.
  unfold Send, PacketSender_new. rewrite Hm2, Hu2.
  destruct (IsPlayer (m_unit m) && m_moverIsPlayer m) eqn:Eself.
  - destruct (guid_packet_carries fuzzyEq now1 (m_unit m2) self (GetSpeed t m2) Hse Hsex Hg)
      as (p1 & n1 & E1 & Hc1).
    exists p1, p2. cbn [s_unit s_selfOpcode s_broadcast s_extraElements].
    rewrite (proj2 (Z.eqb_neq _ _) Hse0), (proj2 (Z.eqb_neq _ _) Hup0), Eself, <- Hu2, E1.
    cbn -[movement_packet]. unfold ResetIndex. cbn [x_elements x_data]. rewrite Eupd. done.
  - destruct (guid_packet_carries fuzzyEq now2 (m_unit m2) spline (GetSpeed t m2) Hsp Hspx Hg)
      as (p1 & n1 & E1 & Hc1).
    exists p1, p2. cbn [s_unit s_selfOpcode s_broadcast s_extraElements].
    rewrite (proj2 (Z.eqb_neq _ _) Hsp0), Eself, <- Hu2.
    cbn -[movement_packet]. unfold ResetIndex. cbn [x_elements x_data]. rewrite E1. done.
Qed.

Lemma SetSpeed_announces_witness :
  let m := mkMover (standing 0) (replicate 9 0x3F800000) (replicate 9 0) true false true true no_auras in
  ∃ m' pet, GetSpeedRate MOVE_TURN_RATE m' = clamped 0x40000000 ∧ m_unit m' = m_unit m ∧
  let '(spline, self, update) := moveTypeToOpcode MOVE_TURN_RATE in
  ∃ p1 p2,
    SetSpeed never_equal 7 8 MOVE_TURN_RATE 0x40000000 true m =
      Ok (m', PropagateSpeedChange :: pet ++
        if IsPlayer (m_unit m) && m_moverIsPlayer m
        then [Packet (DirectMessage self p1); Packet (MessageToSet update p2 false)]
        else [Packet (MessageToSet spline p1 true)]) ∧
    carries (if IsPlayer (m_unit m) && m_moverIsPlayer m then self else spline) p1
      (GUID (m_unit m)) (u32 (GetSpeed MOVE_TURN_RATE m')) ∧
    (p2 = [] ↔ has_update_table MOVE_TURN_RATE = false).
Proof.
  apply (SetSpeed_announces never_equal 7 8 MOVE_TURN_RATE 0x40000000 true
    (mkMover (standing 0) (replicate 9 0x3F800000) (replicate 9 0) true false true true no_auras));
    [vm_compute; split; reflexivity|reflexivity|vm_compute; reflexivity].
Defined.

(** ** The acknowledgement *)

(** A rate the game uses: a number, not negative. *)
Definition normal_rate (r : Z) : bool := f32_eq r r && negb (f32_lt r 0).

Lemma SetSpeed_same fuzzyEq now1 now2 t forced m :
  normal_rate (GetSpeedRate t m) = true →
  SetSpeed fuzzyEq now1 now2 t (GetSpeedRate t m) forced m = Ok (m, []).
Proof.
  unfold normal_rate, SetSpeed. intros [He Hlt%negb_true_iff]%andb_true_iff. by rewrite Hlt, He.
Qed.

Lemma check_speed_effects fuzzyEq now1 now2 t newspeed m :
  normal_rate (GetSpeedRate t m) = true →
  ∃ out, check_speed fuzzyEq now1 now2 t newspeed m = Ok (m, out) ∧ (out = [] ∨ out = [KickPlayer]).
Proof.
  intros Hn. unfold check_speed. destruct (_ && _); [|eauto].
  destruct (f32_lt newspeed _); [|eauto]. rewrite SetSpeed_same by done. eauto.
Qed.

Lemma speed_ack_effects fuzzyEq now1 now2 opcode newspeed m :
  (∀ t, normal_rate (GetSpeedRate t m) = true) →
  ∃ m' out, speed_ack fuzzyEq now1 now2 opcode newspeed m = Ok (m', out) ∧
    m_speed_rate m' = m_speed_rate m ∧ (out = [] ∨ out = [KickPlayer]).
Proof.
  intros Hn. unfold speed_ack. destruct (ack_move_type opcode) as [t|]; [|eauto 6].
  destruct (0 <? _).
  - destruct (0 <? _ - 1); [eauto 6|]. set (m1 := set_forced _ m).
    destruct (check_speed_effects fuzzyEq now1 now2 t newspeed m1) as (out & E & Ho);
      [exact (Hn t)|]. rewrite E. by exists m1, out.
  - destruct (check_speed_effects fuzzyEq now1 now2 t newspeed m) as (out & E & Ho); [done|].
    rewrite E. eauto 6.
Qed.

Lemma ack_opcodes_extra opcode t :
  ack_move_type opcode = Some t →
  GetMovementStatusElementsSequence opcode = None ∨ extra_table opcode = Some speedElement.
Proof.
  unfold ack_move_type.
  repeat match goal with |- context [Z.eqb opcode ?x] =>
    destruct (Z.eqb_spec opcode x) as [E|_];
    [rewrite E; intros _; (left; vm_compute; reflexivity) || (right; vm_compute; reflexivity)|]
  end.
  done.
Qed.

(** The correction of a client that reports too low a speed does nothing. When
    every rate is a normal number, an acknowledgement, whatever the packet and the
    state, changes no rate and sends no packet: the call that is to "force set to
    correct value" asks for the rate that is already stored, which [SetSpeed] ignores.
    The only reaction left is the kick. *)
Theorem ack_never_corrects fuzzyEq now1 now2 uninit opcode t m b :
  ack_move_type opcode = Some t → (∀ t, normal_rate (GetSpeedRate t m) = true) →
  (ByteBuffer.rpos b ≤ ByteBuffer.size b)%nat →
  match HandleForceSpeedChangeAck fuzzyEq now1 now2 uninit opcode m b with
  | Ok (m', out, _) =>
      m_speed_rate m' = m_speed_rate m ∧
      ∀ e, e ∈ out → e = KickPlayer ∨ ∃ mi, e = TransportUpdatePosition mi
  | Throw e => e = ByteBufferPositionException
  end.
Proof.
  intros Hop Hn Hb. unfold HandleForceSpeedChangeAck.
  set (x0 := Some (mkExtra speedElement 0 _)).
  assert (safe (ReadMovementInfo (m_facts m) opcode (MovementInfo_new uninit) x0)) as Hs.
  { destruct (ack_opcodes_extra opcode t Hop) as [E|E].
    - unfold ReadMovementInfo. rewrite E. apply safe_ret.
    - pose proof (safe_ReadMovementInfo (m_facts m) opcode (MovementInfo_new uninit)
        (fresh_extra uninit uninit)) as H. by rewrite E in H. }
  specialize (Hs b Hb).
  destruct (ReadMovementInfo _ _ _ _ b) as [[[[mi x] moved] b1]|e]; [|done].
  unfold mbind, result_bind. destruct (negb (_ =? _)).
  - cbn. split; [done|]. intros e He. right. destruct moved as [mi'|]; [|by apply not_elem_of_nil in He].
    apply list_elem_of_singleton in He. eauto.
  - set (newspeed := match x with Some _ => _ | None => _ end).
    destruct (speed_ack_effects fuzzyEq now1 now2 opcode newspeed m Hn) as (m' & out & E & Hr & Ho).
    rewrite E. split; [done|]. intros e [He|He]%elem_of_app.
    + right. destruct moved as [mi'|]; [|by apply not_elem_of_nil in He].
      apply list_elem_of_singleton in He. eauto.
    + left. destruct Ho as [-> | ->]; [by apply not_elem_of_nil in He|].
      by apply list_elem_of_singleton in He.
Qed.

Definition a_player : Mover :=
  mkMover (standing 0) (replicate 9 0x3F800000) (replicate 9 0) true false true true no_auras.

Lemma ack_never_corrects_witness :
  match HandleForceSpeedChangeAck never_equal 7 8 0 CMSG_MOVE_FORCE_RUN_SPEED_CHANGE_ACK a_player
          (ByteBuffer.received [1; 2; 3]) with
  | Ok (m', out, _) =>
      m_speed_rate m' = m_speed_rate a_player ∧
      ∀ e, e ∈ out → e = KickPlayer ∨ ∃ mi, e = TransportUpdatePosition mi
  | Throw e => e = ByteBufferPositionException
  end.
Proof.
  apply (ack_never_corrects never_equal 7 8 0 CMSG_MOVE_FORCE_RUN_SPEED_CHANGE_ACK MOVE_RUN a_player
    (ByteBuffer.received [1; 2; 3]));
    [reflexivity|intros []; vm_compute; reflexivity|vm_compute; lia].
Defined.

Definition f32_finite (x : Z) : bool :=
  match f32_decode x with S754_finite _ _ _ | S754_zero _ => true | _ => false end.

(** A finite number differs from itself by nothing. *)
Lemma f32_sub_self x : f32_finite x = true → f32_lt speed_tolerance (f32_abs (f32_sub x x)) = false.
Proof.
  unfold f32_finite, f32_sub. intros Hf.
  assert (∃ s, SFsub prec emax (f32_decode x) (f32_decode x) = S754_zero s) as [s ->].
  { destruct (f32_decode x) as [s|s| |s m e]; try done.
    - cbn. destruct s; eexists; reflexivity.
    - unfold SFsub. rewrite Z.sub_diag. eexists. reflexivity. }
  by destruct s.
Qed.

(** The acknowledgements that have a movement table. *)
Definition ack_opcode (t : UnitMoveType) : option Z :=
  match t with
  | MOVE_WALK => Some CMSG_MOVE_FORCE_WALK_SPEED_CHANGE_ACK
  | MOVE_RUN => Some CMSG_MOVE_FORCE_RUN_SPEED_CHANGE_ACK
  | MOVE_RUN_BACK => Some CMSG_MOVE_FORCE_RUN_BACK_SPEED_CHANGE_ACK
  | MOVE_SWIM => Some CMSG_MOVE_FORCE_SWIM_SPEED_CHANGE_ACK
  | MOVE_FLIGHT => Some CMSG_MOVE_FORCE_FLIGHT_SPEED_CHANGE_ACK
  | _ => None
  end.

Lemma ack_opcode_ok t op :
  ack_opcode t = Some op →
  ack_move_type op = Some t ∧ op ∈ readable_opcodes ∧ extra_table op = Some speedElement.
Proof.
  assert (∀ o, existsb (Z.eqb o) readable_opcodes = true → o ∈ readable_opcodes) as Hin.
  { intros o (x & Hx & Ex%Z.eqb_eq)%existsb_exists. subst. by apply list_elem_of_In. }
  destruct t; intros H; try discriminate H; injection H as <-;
    (split; [vm_compute; reflexivity|]); (split; [apply Hin; vm_compute; reflexivity|]);
    vm_compute; reflexivity.
Qed.

Definition pending (t : UnitMoveType) (m : Mover) : Z := nth (move_index t) (m_forced_speed_changes m) 0.

(** One change of the move type fewer is waited for. *)
Definition acknowledged (t : UnitMoveType) (m : Mover) : Mover :=
  if 0 <? pending t m
  then set_forced (<[move_index t := pending t m - 1]> (m_forced_speed_changes m)) m else m.

Lemma speed_ack_accepts fuzzyEq now1 now2 op t v m :
  ack_move_type op = Some t → f32_finite (GetSpeed t m) = true →
  (2 ≤ pending t m ∨ v = GetSpeed t m) →
  speed_ack fuzzyEq now1 now2 op v m = Ok (acknowledged t m, []).
Proof.
  intros Hop Hf Hv. unfold speed_ack, acknowledged. rewrite Hop. fold (pending t m).
  assert (∀ m', GetSpeed t m' = GetSpeed t m → v = GetSpeed t m →
    check_speed fuzzyEq now1 now2 t v m' = Ok (m', [])) as Hc.
  { intros m' Em ->. unfold check_speed. rewrite Em, f32_sub_self by done. by rewrite andb_false_r. }
  destruct (Z.ltb_spec 0 (pending t m)); cbv zeta.
  - destruct (Z.ltb_spec 0 (pending t m - 1)); [done|].
    destruct Hv as [Hv|Hv]; [lia|]. by apply Hc.
  - destruct Hv as [Hv|Hv]; [lia|]. by apply Hc.
Qed.


