(* ===== verification/MotionMaster.v ===== *)
(** * MotionMaster: the three movement slots of a unit.

    [game/Movement/MotionMaster.{h,cpp}]: a unit has a default, an active and a controlled
    movement generator; the highest one present moves the unit.  The generators' virtual
    methods call back into the MotionMaster of the same unit, so every operation is defined
    over an open [call], closed in [call_n] by an environment that decides, from the history
    of the unit so far, what a virtual method does. *)
From S2P Require Import Prelude.
Open Scope Z_scope.

(** ** Data *)

Inductive MovementGeneratorType : Type :=
| IDLE_MOTION_TYPE | RANDOM_MOTION_TYPE | WAYPOINT_MOTION_TYPE | ANIMAL_RANDOM_MOTION_TYPE
| CONFUSED_MOTION_TYPE | CHASE_MOTION_TYPE | HOME_MOTION_TYPE | FLIGHT_MOTION_TYPE
| POINT_MOTION_TYPE | FLEEING_MOTION_TYPE | DISTRACT_MOTION_TYPE | ASSISTANCE_MOTION_TYPE
| ASSISTANCE_DISTRACT_MOTION_TYPE | TIMED_FLEEING_MOTION_TYPE | FOLLOW_MOTION_TYPE
| ROTATE_MOTION_TYPE | EFFECT_MOTION_TYPE | NULL_MOTION_TYPE.

#[global] Instance MovementGeneratorType_eq_dec : EqDecision MovementGeneratorType.
Proof. solve_decision. Defined.

Inductive MovementSlot : Type := MOTION_SLOT_IDLE | MOTION_SLOT_ACTIVE | MOTION_SLOT_CONTROLLED.

Definition slot_index (sl : MovementSlot) : Z :=
  match sl with MOTION_SLOT_IDLE => 0 | MOTION_SLOT_ACTIVE => 1 | MOTION_SLOT_CONTROLLED => 2 end.

Definition MAX_MOTION_SLOT : nat := 3.
Definition MMCF_UPDATE : Z := 1.
Definition MMCF_RESET : Z := 2.
Definition EVENT_CHARGE_PREPATH : Z := 1005.

Inductive RotateDirection : Type := ROTATE_DIRECTION_LEFT | ROTATE_DIRECTION_RIGHT.

(** The generator classes with their constructor arguments; floats are their 32 bits,
    a target is the GUID of the unit. *)
Inductive generator_class : Type :=
| IdleMovementGenerator
| RandomMovementGenerator (spawndist : Z)
| WaypointMovementGenerator (path_id : Z) (repeating : bool)
| HomeMovementGenerator
| FollowMovementGenerator (target dist angle : Z)
| ChaseMovementGenerator (target dist angle : Z)
| ConfusedMovementGenerator
| PointMovementGenerator (id x y z : Z) (generatePath : bool) (speed : Z)
| AssistanceMovementGenerator (x y z : Z)
| AssistanceDistractMovementGenerator (timer : Z)
| DistractMovementGenerator (timer : Z)
| FleeingMovementGenerator (fright : Z)
| TimedFleeingMovementGenerator (fright time : Z)
| FlightPathMovementGenerator (path startNode : Z)
| RotateMovementGenerator (time : Z) (direction : RotateDirection)
| EffectMovementGenerator (id : Z).

#[global] Instance RotateDirection_eq_dec : EqDecision RotateDirection.
Proof. solve_decision. Defined.
#[global] Instance generator_class_eq_dec : EqDecision generator_class.
Proof. solve_decision. Defined.

(** A generator object: its address and its class. *)
Record MovementGenerator : Type := mkGen { g_id : Z; g_class : generator_class }.

#[global] Instance MovementGenerator_eq_dec : EqDecision MovementGenerator.
Proof. solve_decision. Defined.

Definition GetMovementGeneratorType (g : MovementGenerator) : MovementGeneratorType :=
  match g_class g with
  | IdleMovementGenerator => IDLE_MOTION_TYPE
  | RandomMovementGenerator _ => RANDOM_MOTION_TYPE
  | WaypointMovementGenerator _ _ => WAYPOINT_MOTION_TYPE
  | HomeMovementGenerator => HOME_MOTION_TYPE
  | FollowMovementGenerator _ _ _ => FOLLOW_MOTION_TYPE
  | ChaseMovementGenerator _ _ _ => CHASE_MOTION_TYPE
  | ConfusedMovementGenerator => CONFUSED_MOTION_TYPE
  | PointMovementGenerator _ _ _ _ _ _ => POINT_MOTION_TYPE
  | AssistanceMovementGenerator _ _ _ => ASSISTANCE_MOTION_TYPE
  | AssistanceDistractMovementGenerator _ => ASSISTANCE_DISTRACT_MOTION_TYPE
  | DistractMovementGenerator _ => DISTRACT_MOTION_TYPE
  | FleeingMovementGenerator _ => FLEEING_MOTION_TYPE
  | TimedFleeingMovementGenerator _ _ => TIMED_FLEEING_MOTION_TYPE
  | FlightPathMovementGenerator _ _ => FLIGHT_MOTION_TYPE
  | RotateMovementGenerator _ _ => ROTATE_MOTION_TYPE
  | EffectMovementGenerator _ => EFFECT_MOTION_TYPE
  end.

(** The one static generator, which every unit shares and nobody deletes. *)
Definition si_idleMovement : MovementGenerator := mkGen 0 IdleMovementGenerator.
Definition isStatic (mv : MovementGenerator) : bool := g_id mv =? g_id si_idleMovement.

(** What happens to the unit, newest event first. *)
Inductive event : Type :=
| EvNew (g : MovementGenerator)
| EvInitialize (g : MovementGenerator)
| EvFinalize (g : MovementGenerator)
| EvReset (g : MovementGenerator)
| EvUpdate (g : MovementGenerator) (diff : Z)
| EvDelete (g : MovementGenerator)
| EvSpeedChanged (g : MovementGenerator)
| EvLaunchSpline
| EvStartFalling
| EvAttackStop
| EvSetReactPassive
| EvUpdateUnderwaterState.

#[global] Instance event_eq_dec : EqDecision event.
Proof. solve_decision. Defined.

Record MotionMaster : Type := mkMM {
  mm_expList : option (list MovementGenerator);
  mm_Impl : list (option MovementGenerator);
  mm_top : Z;
  mm_needInit : list bool;
  mm_cleanFlag : Z;
  (* the heap of generators: the next address and the live ones *)
  mm_next : Z;
  mm_live : list Z;
  mm_trace : list event
}.

Definition upd_expList f s := mkMM (f (mm_expList s)) (mm_Impl s) (mm_top s) (mm_needInit s) (mm_cleanFlag s) (mm_next s) (mm_live s) (mm_trace s).
Definition upd_Impl f s := mkMM (mm_expList s) (f (mm_Impl s)) (mm_top s) (mm_needInit s) (mm_cleanFlag s) (mm_next s) (mm_live s) (mm_trace s).
Definition upd_top f s := mkMM (mm_expList s) (mm_Impl s) (f (mm_top s)) (mm_needInit s) (mm_cleanFlag s) (mm_next s) (mm_live s) (mm_trace s).
Definition upd_needInit f s := mkMM (mm_expList s) (mm_Impl s) (mm_top s) (f (mm_needInit s)) (mm_cleanFlag s) (mm_next s) (mm_live s) (mm_trace s).
Definition upd_cleanFlag f s := mkMM (mm_expList s) (mm_Impl s) (mm_top s) (mm_needInit s) (f (mm_cleanFlag s)) (mm_next s) (mm_live s) (mm_trace s).
Definition upd_live f s := mkMM (mm_expList s) (mm_Impl s) (mm_top s) (mm_needInit s) (mm_cleanFlag s) (mm_next s) (f (mm_live s)) (mm_trace s).
Definition upd_trace f s := mkMM (mm_expList s) (mm_Impl s) (mm_top s) (mm_needInit s) (mm_cleanFlag s) (mm_next s) (mm_live s) (f (mm_trace s)).

(** The constructor. *)
Definition new_MotionMaster : MotionMaster :=
  mkMM None (replicate MAX_MOTION_SLOT None) (-1) (replicate MAX_MOTION_SLOT true) 0 1 [] [].

(** The facts about the owner that the operations read. *)
Inductive TypeID : Type := TYPEID_UNIT | TYPEID_PLAYER.

#[global] Instance TypeID_eq_dec : EqDecision TypeID.
Proof. solve_decision. Defined.

Record Owner : Type := mkOwner {
  GetTypeId : TypeID;
  o_guid : Z;
  o_rooted_or_stunned : bool;       (* HasUnitState(UNIT_STATE_ROOT | UNIT_STATE_STUNNED) *)
  o_disable_move : bool;            (* HasFlag(UNIT_FIELD_FLAGS, UNIT_FLAG_DISABLE_MOVE) *)
  o_prevents_fleeing : bool;        (* HasAuraType(SPELL_AURA_PREVENTS_FLEEING) *)
  o_alive : bool;
  o_confused_or_fleeing : bool;     (* HasUnitState(UNIT_STATE_CONFUSED | UNIT_STATE_FLEEING) *)
  o_victim : option Z;              (* GetVictim() *)
  GetCharmerOrOwnerGUID : Z;
  GetCharmerOrOwner : option Z;
  GetDefaultMovementType : MovementGeneratorType;
  o_no_ground : bool;               (* tz <= INVALID_HEIGHT *)
  o_ground_near : bool              (* fabs(z - tz) < 0.1f *)
}.

Definition is_player (o : Owner) : bool := bool_decide (GetTypeId o = TYPEID_PLAYER).
Definition is_unit (o : Owner) : bool := bool_decide (GetTypeId o = TYPEID_UNIT).

(** The public operations, with their arguments. *)
Inductive op : Type :=
| OpInitialize
| OpClear (reset : bool)
| OpMovementExpired (reset : bool)
| OpMoveIdle
| OpMoveTargetedHome
| OpMoveRandom (spawndist : Z)
| OpMoveFollow (target : option Z) (dist angle : Z) (slot : MovementSlot)
| OpMoveChase (target : option Z) (dist angle : Z)
| OpMoveConfused
| OpMoveFleeing (enemy : option Z) (time : Z)
| OpMovePoint (id x y z : Z) (generatePath : bool)
| OpMoveLand (id : Z)
| OpMoveTakeoff (id : Z)
| OpMoveCharge (x y z speed id : Z) (generatePath : bool)
| OpMoveChargePath (x y z : Z)
| OpMoveKnockbackFrom
| OpMoveJumpTo
| OpMoveJump (id : Z)
| OpMoveFall (id : Z)
| OpMoveSeekAssistance (x y z : Z)
| OpMoveSeekAssistanceDistract (timer : Z)
| OpMoveTaxiFlight (path pathnode : Z)
| OpMoveDistract (time : Z)
| OpMovePath (path_id : Z) (repeatable : bool)
| OpMoveRotate (time : Z) (direction : RotateDirection)
| OpPropagateSpeedChange.

(** What surrounds the MotionMaster: the owner's state, what a virtual method of a generator
    calls back, what [Update] returns, the machine words before the array [Impl] (beyond
    [Impl[-1]], which is [_expList]) and the number of taxi paths. *)
Record Env : Type := mkEnv {
  owner_at : list event → Owner;
  react : list event → list op;
  returns : list event → bool;
  word_before : Z → result bool;
  sTaxiPathNodesByPath_size : Z
}.

(** ** Operations *)

Section Operations.
Context (E : Env).
(** An effect on the unit, and whatever it calls back. *)
Variable call : event → M MotionMaster unit.

Definition owner : M MotionMaster Owner := s ← get; mret (owner_at E (mm_trace s)).
Definition emit (ev : event) : M MotionMaster unit := modify (upd_trace (cons ev)).

(** [new Generator(...)]. *)
Definition new (c : generator_class) : M MotionMaster MovementGenerator :=
  s ← get;
  let g := mkGen (mm_next s) c in
  put (mkMM (mm_expList s) (mm_Impl s) (mm_top s) (mm_needInit s) (mm_cleanFlag s)
         (mm_next s + 1) (mm_next s :: mm_live s) (EvNew g :: mm_trace s));;
  mret g.

Definition alive (s : MotionMaster) (g : MovementGenerator) : bool :=
  isStatic g || bool_decide (g_id g ∈ mm_live s).

(** A virtual call needs a live object. *)
Definition vcall (ev : event) (g : MovementGenerator) : M MotionMaster unit :=
  s ← get;
  if alive s g then call ev else throw UndefinedBehaviour.

Definition delete (g : MovementGenerator) : M MotionMaster unit :=
  s ← get;
  if bool_decide (g_id g ∈ mm_live s)
  then modify (upd_live (filter (λ i, i ≠ g_id g)));; emit (EvDelete g)
  else throw UndefinedBehaviour.

Definition empty (s : MotionMaster) : bool := mm_top s <? 0.
Definition size (s : MotionMaster) : Z := mm_top s + 1.

Definition GetMotionSlot (slot : Z) : M MotionMaster (option MovementGenerator) :=
  s ← get;
  if slot <? 0 then throw UndefinedBehaviour else
  match mm_Impl s !! Z.to_nat slot with
  | Some v => mret v
  | None => throw UndefinedBehaviour
  end.

Definition top : M MotionMaster (option MovementGenerator) := s ← get; GetMotionSlot (mm_top s).

(** [Impl[slot] != NULL], also for the words before the array. *)
Definition nonnull_at (s : MotionMaster) (slot : Z) : result bool :=
  if slot =? -1 then Ok (bool_decide (is_Some (mm_expList s)))
  else if slot <? 0 then word_before E slot
  else match mm_Impl s !! Z.to_nat slot with
       | Some v => Ok (bool_decide (is_Some v))
       | None => Throw UndefinedBehaviour
       end.

(** [while (!top()) --_top;], with as many steps as there are words to look at. *)
Fixpoint skip_null (n : nat) : M MotionMaster unit :=
  match n with
  | O => throw UndefinedBehaviour
  | S n =>
      s ← get;
      nonnull ← lift (nonnull_at s (mm_top s));
      if nonnull : bool then mret tt else modify (upd_top (λ t, t - 1));; skip_null n
  end.
Definition words_before : nat := 64.
Definition skip_null_tops : M MotionMaster unit := skip_null (MAX_MOTION_SLOT + words_before + 1).

Definition set_slot (slot : Z) (v : option MovementGenerator) : M MotionMaster unit :=
  if (0 <=? slot) && (slot <? 3) then modify (upd_Impl (<[Z.to_nat slot := v]>))
  else throw UndefinedBehaviour.

Definition pop : M MotionMaster unit :=
  s ← get;
  set_slot (mm_top s) None;;
  skip_null_tops.

Definition needInitTop : M MotionMaster bool :=
  s ← get;
  if mm_top s <? 0 then throw UndefinedBehaviour else
  match mm_needInit s !! Z.to_nat (mm_top s) with
  | Some b => mret b
  | None => throw UndefinedBehaviour
  end.

Definition set_needInit (slot : Z) (b : bool) : M MotionMaster unit :=
  if (0 <=? slot) && (slot <? 3) then modify (upd_needInit (<[Z.to_nat slot := b]>))
  else throw UndefinedBehaviour.

(** A method call through a pointer. *)
Definition deref {A} (p : option A) : M MotionMaster A :=
  match p with Some g => mret g | None => throw UndefinedBehaviour end.

Definition InitTop : M MotionMaster unit :=
  p ← top; g ← deref p;
  vcall (EvInitialize g) g;;
  s ← get; set_needInit (mm_top s) false.

Definition ResetTop : M MotionMaster unit := p ← top; g ← deref p; vcall (EvReset g) g.

Definition DirectDelete (curr : MovementGenerator) : M MotionMaster unit :=
  if isStatic curr then mret tt else
  vcall (EvFinalize curr) curr;;
  delete curr.

(** The virtual [GetMovementGeneratorType()]. *)
Definition type_of (g : MovementGenerator) : M MotionMaster MovementGeneratorType :=
  s ← get;
  if alive s g then mret (GetMovementGeneratorType g) else throw UndefinedBehaviour.

(** The type is read for the log. *)
Definition DelayedDelete (curr : MovementGenerator) : M MotionMaster unit :=
  type_of curr;;
  if isStatic curr then mret tt else
  modify (upd_expList (λ l, Some (default [] l ++ [curr]))).

(** [if (curr) f(curr);] *)
Definition if_some (p : option MovementGenerator) (f : MovementGenerator → M MotionMaster unit) :
  M MotionMaster unit := match p with Some g => f g | None => mret tt end.

Definition updating (s : MotionMaster) : bool := z2b (Z.land (mm_cleanFlag s) MMCF_UPDATE).

Definition Mutate (m : MovementGenerator) (sl : MovementSlot) : M MotionMaster unit :=
  let slot := slot_index sl in
  p ← GetMotionSlot slot;
  (match p with
   | Some curr =>
       set_slot slot None;;
       s ← get;
       if (mm_top s =? slot) && updating s then DelayedDelete curr else DirectDelete curr
   | None =>
       s ← get;
       if mm_top s <? slot then modify (upd_top (λ _, slot)) else mret tt
   end);;
  set_slot slot (Some m);;
  s ← get;
  if slot <? mm_top s then set_needInit slot true
  else set_needInit slot false;; vcall (EvInitialize m) m.

(** [new] and [Mutate] together. *)
Definition Mutate_new (c : generator_class) (sl : MovementSlot) : M MotionMaster unit :=
  g ← new c; Mutate g sl.

(** [FactorySelector::selectMovementGenerator]: the registry has the two types of the
    database that move. *)
Definition selectMovementGenerator (t : MovementGeneratorType) : option generator_class :=
  match t with
  | RANDOM_MOTION_TYPE => Some (RandomMovementGenerator 0)
  | WAYPOINT_MOTION_TYPE => Some (WaypointMovementGenerator 0 true)
  | _ => None
  end.

Definition InitDefault : M MotionMaster unit :=
  o ← owner;
  if is_unit o then
    match selectMovementGenerator (GetDefaultMovementType o) with
    | None => Mutate si_idleMovement MOTION_SLOT_IDLE
    | Some c => Mutate_new c MOTION_SLOT_IDLE
    end
  else Mutate si_idleMovement MOTION_SLOT_IDLE.

(** [while (!empty()) { curr = top(); pop(); if (curr) DirectDelete(curr); }]; every round
    lowers [_top] unless a callback pushes again, [n] rounds are made at most. *)
Fixpoint delete_all (n : nat) : M MotionMaster unit :=
  s ← get;
  if empty s then mret tt else
  match n with
  | O => throw Diverges
  | S n => curr ← top; pop;; if_some curr DirectDelete;; delete_all n
  end.

(** [while (size() > 1) { curr = top(); pop(); if (curr) del(curr); }]. *)
Fixpoint clean_loop (n : nat) (del : MovementGenerator → M MotionMaster unit) : M MotionMaster unit :=
  s ← get;
  if size s >? 1 then
    match n with
    | O => throw Diverges
    | S n => curr ← top; pop;; if_some curr del;; clean_loop n del
    end
  else mret tt.
(** Enough rounds for generators that push nothing; more are an endless loop of the code. *)
Definition max_rounds : nat := 100.

Definition Initialize : M MotionMaster unit := delete_all max_rounds;; InitDefault.
Definition destructor : M MotionMaster unit := delete_all max_rounds.

(** [if (needInitTop()) InitTop(); else if (reset) top()->Reset(_owner);] *)
Definition init_or_reset (reset : bool) : M MotionMaster unit :=
  b ← needInitTop;
  if b : bool then InitTop else when reset do ResetTop.

Definition DirectClean (reset : bool) : M MotionMaster unit :=
  clean_loop max_rounds DirectDelete;;
  init_or_reset reset.

Definition DelayedClean : M MotionMaster unit := clean_loop max_rounds DelayedDelete.

Definition DirectExpire (reset : bool) : M MotionMaster unit :=
  s ← get;
  when (size s >? 1) do
    (curr ← top; pop;; g ← deref curr; DirectDelete g);;
  skip_null_tops;;
  s ← get;
  if empty s then Initialize else init_or_reset reset.

Definition DelayedExpire : M MotionMaster unit :=
  s ← get;
  when (size s >? 1) do
    (curr ← top; pop;; g ← deref curr; DelayedDelete g);;
  skip_null_tops.

Definition set_reset_flag (reset : bool) : M MotionMaster unit :=
  modify (upd_cleanFlag (λ f, if reset then Z.lor f MMCF_RESET else Z.land f (Z.lnot MMCF_RESET))).

Definition Clear (reset : bool) : M MotionMaster unit :=
  s ← get;
  if updating s then set_reset_flag reset;; DelayedClean else DirectClean reset.

Definition MovementExpired (reset : bool) : M MotionMaster unit :=
  s ← get;
  if updating s then set_reset_flag reset;; DelayedExpire else DirectExpire reset.

(** *** The moves *)

Definition MoveIdle : M MotionMaster unit :=
  s ← get;
  if empty s then Mutate si_idleMovement MOTION_SLOT_IDLE else
  p ← top; g ← deref p;
  if negb (isStatic g) then Mutate si_idleMovement MOTION_SLOT_IDLE else mret tt.

Definition MoveRandom (spawndist : Z) : M MotionMaster unit :=
  o ← owner;
  when (is_unit o) do (Mutate_new (RandomMovementGenerator spawndist) MOTION_SLOT_IDLE).

(** 1.0f and (float)(M_PI / 2). *)
Definition PET_FOLLOW_DIST : Z := 0x3F800000.
Definition PET_FOLLOW_ANGLE : Z := 0x3FC90FDB.

Definition MoveTargetedHome : M MotionMaster unit :=
  Clear false;;
  o ← owner;
  if is_unit o && (GetCharmerOrOwnerGUID o =? 0) then
    Mutate_new HomeMovementGenerator MOTION_SLOT_ACTIVE
  else if is_unit o && negb (GetCharmerOrOwnerGUID o =? 0) then
    match GetCharmerOrOwner o with
    | Some target =>
        Mutate_new (FollowMovementGenerator target PET_FOLLOW_DIST PET_FOLLOW_ANGLE) MOTION_SLOT_ACTIVE
    | None => mret tt
    end
  else mret tt.

Definition MoveConfused : M MotionMaster unit :=
  Mutate_new ConfusedMovementGenerator MOTION_SLOT_CONTROLLED.

(** [!target || target == _owner || _owner->HasFlag(UNIT_FIELD_FLAGS, UNIT_FLAG_DISABLE_MOVE)] *)
Definition ignores_target (o : Owner) (target : option Z) : bool :=
  match target with
  | None => true
  | Some t => (t =? o_guid o) || o_disable_move o
  end.

Definition MoveChase (target : option Z) (dist angle : Z) : M MotionMaster unit :=
  o ← owner;
  if ignores_target o target then mret tt else
  Mutate_new (ChaseMovementGenerator (default 0 target) dist angle) MOTION_SLOT_ACTIVE.

Definition MoveFollow (target : option Z) (dist angle : Z) (slot : MovementSlot) : M MotionMaster unit :=
  o ← owner;
  if ignores_target o target then mret tt else
  Mutate_new (FollowMovementGenerator (default 0 target) dist angle) slot.

Definition MovePoint (id x y z : Z) (generatePath : bool) : M MotionMaster unit :=
  Mutate_new (PointMovementGenerator id x y z generatePath 0) MOTION_SLOT_ACTIVE.

Definition MoveLand (id : Z) : M MotionMaster unit :=
  call EvLaunchSpline;; Mutate_new (EffectMovementGenerator id) MOTION_SLOT_ACTIVE.
Definition MoveTakeoff (id : Z) : M MotionMaster unit :=
  call EvLaunchSpline;; Mutate_new (EffectMovementGenerator id) MOTION_SLOT_ACTIVE.

Definition MoveKnockbackFrom : M MotionMaster unit :=
  o ← owner;
  if is_player o then mret tt else
  call EvLaunchSpline;; Mutate_new (EffectMovementGenerator 0) MOTION_SLOT_CONTROLLED.

Definition EVENT_JUMP : Z := 1004.
Definition MoveJump (id : Z) : M MotionMaster unit :=
  call EvLaunchSpline;; Mutate_new (EffectMovementGenerator id) MOTION_SLOT_CONTROLLED.

Definition MoveJumpTo : M MotionMaster unit :=
  o ← owner;
  if is_player o then mret tt else MoveJump EVENT_JUMP.

Definition MoveFall (id : Z) : M MotionMaster unit :=
  o ← owner;
  if o_no_ground o then mret tt else
  if o_ground_near o then mret tt else
  when (is_player o) do call EvStartFalling;;
  call EvLaunchSpline;;
  Mutate_new (EffectMovementGenerator id) MOTION_SLOT_CONTROLLED.

Definition MoveCharge (x y z speed id : Z) (generatePath : bool) : M MotionMaster unit :=
  p ← GetMotionSlot (slot_index MOTION_SLOT_CONTROLLED);
  busy ← match p with
         | Some g => t ← type_of g; mret (bool_decide (t ≠ DISTRACT_MOTION_TYPE))
         | None => mret false
         end;
  if busy : bool then mret tt
  else Mutate_new (PointMovementGenerator id x y z generatePath speed) MOTION_SLOT_CONTROLLED.

(** 42.0f *)
Definition SPEED_CHARGE : Z := 0x42280000.
Definition MoveChargePath (x y z : Z) : M MotionMaster unit :=
  MoveCharge x y z SPEED_CHARGE EVENT_CHARGE_PREPATH false;;
  call EvLaunchSpline.

Definition MoveSeekAssistance (x y z : Z) : M MotionMaster unit :=
  o ← owner;
  if is_player o then mret tt else
  call EvAttackStop;; call EvSetReactPassive;;
  Mutate_new (AssistanceMovementGenerator x y z) MOTION_SLOT_ACTIVE.

Definition MoveSeekAssistanceDistract (timer : Z) : M MotionMaster unit :=
  o ← owner;
  if is_player o then mret tt else
  Mutate_new (AssistanceDistractMovementGenerator timer) MOTION_SLOT_ACTIVE.

Definition MoveFleeing (enemy : option Z) (time : Z) : M MotionMaster unit :=
  match enemy with
  | None => mret tt
  | Some e =>
      o ← owner;
      if o_prevents_fleeing o then mret tt else
      if is_player o then Mutate_new (FleeingMovementGenerator e) MOTION_SLOT_CONTROLLED
      else if z2b time then Mutate_new (TimedFleeingMovementGenerator e time) MOTION_SLOT_CONTROLLED
      else Mutate_new (FleeingMovementGenerator e) MOTION_SLOT_CONTROLLED
  end.

Definition MoveTaxiFlight (path pathnode : Z) : M MotionMaster unit :=
  o ← owner;
  when (is_player o && (path <? sTaxiPathNodesByPath_size E)) do
    (Mutate_new (FlightPathMovementGenerator path pathnode) MOTION_SLOT_CONTROLLED).

Definition MoveDistract (timer : Z) : M MotionMaster unit :=
  p ← GetMotionSlot (slot_index MOTION_SLOT_CONTROLLED);
  match p with
  | Some _ => mret tt
  | None => Mutate_new (DistractMovementGenerator timer) MOTION_SLOT_CONTROLLED
  end.

Definition MovePath (path_id : Z) (repeatable : bool) : M MotionMaster unit :=
  if path_id =? 0 then mret tt else
  Mutate_new (WaypointMovementGenerator path_id repeatable) MOTION_SLOT_IDLE.

Definition MoveRotate (time : Z) (direction : RotateDirection) : M MotionMaster unit :=
  if time =? 0 then mret tt else
  Mutate_new (RotateMovementGenerator time direction) MOTION_SLOT_ACTIVE.

(** [for (int i = 0; i <= _top; ++i)]: [n] slots from [i] on, while [i] is not above [_top]. *)
Fixpoint propagate_from (n : nat) (i : Z) : M MotionMaster unit :=
  s ← get;
  if mm_top s <? i then mret tt else
  match n with
  | O => throw UndefinedBehaviour
  | S n =>
      p ← GetMotionSlot i;
      if_some p (λ g, vcall (EvSpeedChanged g) g);;
      propagate_from n (i + 1)
  end.
Definition propagateSpeedChange : M MotionMaster unit := propagate_from MAX_MOTION_SLOT 0.

Definition GetCurrentMovementGeneratorType : M MotionMaster MovementGeneratorType :=
  s ← get;
  if empty s then mret IDLE_MOTION_TYPE else
  p ← top; g ← deref p; type_of g.

Definition GetMotionSlotType (slot : Z) : M MotionMaster MovementGeneratorType :=
  p ← GetMotionSlot slot;
  match p with
  | None => mret NULL_MOTION_TYPE
  | Some g => type_of g
  end.

Definition run_op (o : op) : M MotionMaster unit :=
  match o with
  | OpInitialize => Initialize
  | OpClear reset => Clear reset
  | OpMovementExpired reset => MovementExpired reset
  | OpMoveIdle => MoveIdle
  | OpMoveTargetedHome => MoveTargetedHome
  | OpMoveRandom d => MoveRandom d
  | OpMoveFollow t d a slot => MoveFollow t d a slot
  | OpMoveChase t d a => MoveChase t d a
  | OpMoveConfused => MoveConfused
  | OpMoveFleeing e time => MoveFleeing e time
  | OpMovePoint id x y z p => MovePoint id x y z p
  | OpMoveLand id => MoveLand id
  | OpMoveTakeoff id => MoveTakeoff id
  | OpMoveCharge x y z sp id p => MoveCharge x y z sp id p
  | OpMoveChargePath x y z => MoveChargePath x y z
  | OpMoveKnockbackFrom => MoveKnockbackFrom
  | OpMoveJumpTo => MoveJumpTo
  | OpMoveJump id => MoveJump id
  | OpMoveFall id => MoveFall id
  | OpMoveSeekAssistance x y z => MoveSeekAssistance x y z
  | OpMoveSeekAssistanceDistract t => MoveSeekAssistanceDistract t
  | OpMoveTaxiFlight p n => MoveTaxiFlight p n
  | OpMoveDistract t => MoveDistract t
  | OpMovePath p r => MovePath p r
  | OpMoveRotate t d => MoveRotate t d
  | OpPropagateSpeedChange => propagateSpeedChange
  end.

(** The loop over [_expList] that deletes each element; the list is read
    again in every round, [n] rounds are made at most. *)
Fixpoint delete_expired (n : nat) (i : nat) : M MotionMaster unit :=
  s ← get;
  match mm_expList s with
  | None => throw UndefinedBehaviour
  | Some l =>
      match l !! i, n with
      | None, _ => mret tt
      | Some _, O => throw Diverges
      | Some mg, S n => DirectDelete mg;; delete_expired n (S i)
      end
  end.

Definition set_update_flag (b : bool) : M MotionMaster unit :=
  modify (upd_cleanFlag (λ f, if b then Z.lor f MMCF_UPDATE else Z.land f (Z.lnot MMCF_UPDATE))).

(** [if (empty()) Initialize(); else if (needInitTop()) InitTop(); else if (_cleanFlag & MMCF_RESET)
    top()->Reset(_owner);] *)
Definition restart_top : M MotionMaster unit :=
  s ← get;
  if empty s then Initialize else
  b ← needInitTop;
  if b : bool then InitTop else
  s ← get;
  if z2b (Z.land (mm_cleanFlag s) MMCF_RESET) then ResetTop else mret tt.

(** The part of [UpdateMotion] that runs when something was put on [_expList]. *)
Definition clean_expired (l : list MovementGenerator) : M MotionMaster unit :=
  delete_expired (length l + max_rounds) 0;;
  modify (upd_expList (λ _, None));;
  restart_top;;
  modify (upd_cleanFlag (λ f, Z.land f (Z.lnot MMCF_RESET))).

Definition UpdateMotion (diff : Z) : M MotionMaster unit :=
  o ← owner;
  if o_rooted_or_stunned o then mret tt else
  s ← get;
  if empty s then throw AssertionFailed else
  set_update_flag true;;
  p ← top; g ← deref p;
  vcall (EvUpdate g diff) g;;
  s ← get;
  (if negb (returns E (mm_trace s))
   then set_update_flag false;; MovementExpired true
   else set_update_flag false);;
  s ← get;
  (match mm_expList s with Some l => clean_expired l | None => mret tt end);;
  call EvUpdateUnderwaterState.

End Operations.

(** ** Tying the knot: an effect is recorded, then the environment's callbacks run, [n] deep. *)

Definition run_ops (E : Env) (call : event → M MotionMaster unit) : list op → M MotionMaster unit :=
  fix go ops := match ops with [] => mret tt | o :: ops => run_op E call o;; go ops end.

Fixpoint call_n (E : Env) (n : nat) (ev : event) : M MotionMaster unit :=
  emit ev;;
  s ← get;
  match react E (mm_trace s) with
  | [] => mret tt
  | ops => match n with
           | O => throw Diverges
           | S n => run_ops E (call_n E n) ops
           end
  end.

(** What the generators of the repository call back in [Finalize]: the end of a flight for
    assistance starts the distraction, the end of a jump, fall or knock-back restores the
    chase or the default movement.  [delay] is CONFIG_CREATURE_FAMILY_ASSISTANCE_DELAY. *)
Definition finalize_react (delay : Z) (o : Owner) (g : MovementGenerator) : list op :=
  match g_class g with
  | AssistanceMovementGenerator _ _ _ =>
      if o_alive o then [OpMoveSeekAssistanceDistract delay] else []
  | EffectMovementGenerator _ =>
      if negb (is_unit o) then [] else
      if o_alive o && negb (o_confused_or_fleeing o) then
        match o_victim o with
        | Some victim => [OpMoveChase (Some victim) 0 0]
        | None => [OpInitialize]
        end
      else []
  | _ => []
  end.
