(* ===== verification/MotionMasterProps.v ===== *)
(** * MotionMasterProps: what the MotionMaster guarantees.

    For generators whose [Update] may call any operation of the MotionMaster, and whose other
    methods call none, every operation is memory safe, keeps the slots well formed, leaks no
    generator and updates only initialised ones.  Then what the operations do to the slots,
    and what goes wrong when [Finalize] calls back, as two of the repository's generators do. *)
From S2P Require Import Prelude.
From stdpp Require Import list.
From S2P Require Import MotionMaster.
Open Scope Z_scope.

(** ** The heap of generators *)


(** Every [Update] comes after an [Initialize] of the same generator. *)
Fixpoint updates_initialised (tr : list event) : Prop :=
  match tr with
  | [] => True
  | EvUpdate g _ :: tr => EvInitialize g ∈ tr ∧ updates_initialised tr
  | _ :: tr => updates_initialised tr
  end.

#[global] Instance is_delete_dec i ev :
  Decision (match ev with EvDelete g => g_id g = i | _ => False end).
Proof. destruct ev; apply _. Defined.
#[global] Instance is_finalize_dec i ev :
  Decision (match ev with EvFinalize g => g_id g = i | _ => False end).
Proof. destruct ev; apply _. Defined.

Definition deletes (i : Z) (tr : list event) : list event :=
  filter (λ ev, match ev with EvDelete g => g_id g = i | _ => False end) tr.
Definition finalizes (i : Z) (tr : list event) : list event :=
  filter (λ ev, match ev with EvFinalize g => g_id g = i | _ => False end) tr.

Definition dynamic (g : MovementGenerator) : Prop := isStatic g = false.
#[global] Instance dynamic_dec g : Decision (dynamic g).
Proof. unfold dynamic. apply _. Defined.

(** The live generators are exactly those held in [l], each once; a generator that is no
    longer alive was finalised once and deleted once, a live one neither. *)
Record heap_ok (l : list MovementGenerator) (next : Z) (live : list Z) (tr : list event) : Prop := {
  heap_live : live ≡ₚ g_id <$> filter dynamic l;
  heap_nodup : NoDup live;
  heap_range : ∀ i, i ∈ live → 1 ≤ i < next;
  heap_next : 1 ≤ next;
  heap_deletes : ∀ i, length (deletes i tr) = if decide (1 ≤ i < next ∧ i ∉ live) then 1%nat else 0%nat;
  heap_finalizes : ∀ i, length (finalizes i tr) = length (deletes i tr);
  heap_updates : updates_initialised tr
}.

Definition neutral (ev : event) : bool :=
  match ev with EvDelete _ | EvFinalize _ | EvUpdate _ _ => false | _ => true end.

Lemma heap_ok_perm l l' nx lv tr : l ≡ₚ l' → heap_ok l nx lv tr → heap_ok l' nx lv tr.
Proof. intros Hp []. constructor; auto. by rewrite <-Hp. Qed.

#[global] Instance heap_ok_proper : Proper ((≡ₚ) ==> eq ==> eq ==> eq ==> iff) heap_ok.
Proof. intros l l' Hl ?? -> ?? -> ?? ->. split; by apply heap_ok_perm. Qed.

Lemma heap_ok_static g l nx lv tr : isStatic g = true → heap_ok (g :: l) nx lv tr ↔ heap_ok l nx lv tr.
Proof.
  intros Hg. split; intros []; constructor; auto.
  - by rewrite filter_cons_False in heap_live0 by (unfold dynamic; congruence).
  - by rewrite filter_cons_False by (unfold dynamic; congruence).
Qed.

Lemma heap_ok_event ev l nx lv tr : neutral ev = true → heap_ok l nx lv tr → heap_ok l nx lv (ev :: tr).
Proof.
  intros Hev []. destruct ev; try discriminate Hev; constructor;
    first [assumption | exact heap_deletes0 | exact heap_finalizes0].
Qed.

Lemma heap_ok_update g d l nx lv tr :
  EvInitialize g ∈ tr → heap_ok l nx lv tr → heap_ok l nx lv (EvUpdate g d :: tr).
Proof. intros Hi []. constructor; auto. by split. Qed.

Lemma heap_ok_new c l nx lv tr :
  heap_ok l nx lv tr →
  heap_ok (mkGen nx c :: l) (nx + 1) (nx :: lv) (EvNew (mkGen nx c) :: tr).
Proof.
  intros []. constructor; simpl; auto.
  - rewrite filter_cons_True; [simpl; by f_equiv|]. apply Z.eqb_neq. simpl. lia.
  - constructor; [|done]. intros Hin%heap_range0. lia.
  - intros i Hi%elem_of_cons. destruct Hi as [->|Hi%heap_range0]; lia.
  - lia.
  - intros i. etrans; [apply (heap_deletes0 i)|]. apply decide_ext. rewrite not_elem_of_cons.
    split; [intros [? ?]; repeat split; auto; lia|]. intros ([? ?] & ? & ?). split; [lia|done].
Qed.

Lemma heap_ok_dynamic_live g l nx lv tr : heap_ok l nx lv tr → g ∈ l → dynamic g → g_id g ∈ lv.
Proof.
  intros [] Hg Hd. rewrite heap_live0. apply list_elem_of_fmap. exists g. split; [done|].
  by apply list_elem_of_filter.
Qed.

Lemma apply_if {A B} (f : A → B) (P : Prop) `{Decision P} x y :
  f (if decide P then x else y) = if decide P then f x else f y.
Proof. by case_decide. Qed.

Lemma deletes_delete i g tr :
  deletes i (EvDelete g :: EvFinalize g :: tr) =
  if decide (g_id g = i) then EvDelete g :: deletes i tr else deletes i tr.
Proof. done. Qed.

Lemma finalizes_finalize i g tr :
  finalizes i (EvDelete g :: EvFinalize g :: tr) =
  if decide (g_id g = i) then EvFinalize g :: finalizes i tr else finalizes i tr.
Proof. done. Qed.

Lemma filter_remove_id (i : Z) (lv l : list Z) :
  NoDup lv → lv ≡ₚ i :: l → filter (λ j, j ≠ i) lv ≡ₚ l.
Proof.
  intros Hnd Hp. rewrite Hp in Hnd |- *. clear Hp. apply NoDup_cons_1_1 in Hnd.
  rewrite filter_cons_False by (intros H; by apply H).
  induction l as [|j l IH]; [done|].
  rewrite filter_cons_True by (intros ->; apply Hnd; left). f_equiv. apply IH.
  intros H. apply Hnd. by right.
Qed.

Lemma heap_ok_delete g l nx lv tr :
  dynamic g → heap_ok (g :: l) nx lv tr →
  heap_ok l nx (filter (λ i, i ≠ g_id g) lv) (EvDelete g :: EvFinalize g :: tr).
Proof.
  intros Hd Hok. assert (g_id g ∈ lv) as Hin by (eapply heap_ok_dynamic_live; [done|left|done]).
  destruct Hok. rewrite filter_cons_True in heap_live0 by done. simpl in heap_live0.
  constructor; auto.
  - by apply filter_remove_id.
  - by apply NoDup_filter.
  - intros i Hi%list_elem_of_filter. naive_solver.
  - intros i. rewrite deletes_delete. specialize (heap_deletes0 i). specialize (heap_range0 i).
    rewrite (apply_if length). simpl. rewrite heap_deletes0.
    destruct (decide (g_id g = i)) as [<-|Hne].
    + rewrite decide_False by naive_solver. rewrite decide_True; [done|]. rewrite list_elem_of_filter. naive_solver.
    + apply decide_ext. rewrite list_elem_of_filter. naive_solver.
  - intros i. rewrite deletes_delete, finalizes_finalize, !(apply_if length). simpl.
    by rewrite heap_finalizes0.
Qed.

(** ** Well-formed states *)

Definition top_of (b c : option MovementGenerator) : Z :=
  match c, b with Some _, _ => 2 | None, Some _ => 1 | None, None => 0 end.
Definition top_flag (b c : option MovementGenerator) (n0 n1 n2 : bool) : bool :=
  match c, b with Some _, _ => n2 | None, Some _ => n1 | None, None => n0 end.

(** A generator whose initialisation is not pending was initialised. *)
Definition initialised (n : bool) (p : option MovementGenerator) (tr : list event) : Prop :=
  n = false → ∀ g, p = Some g → EvInitialize g ∈ tr.

Inductive wf : MotionMaster → Prop :=
| wf_intro exp a b c n0 n1 n2 fl nx lv tr :
    heap_ok (a :: option_list b ++ option_list c ++ default [] exp) nx lv tr →
    Forall dynamic (option_list b ++ option_list c ++ default [] exp) →
    initialised n0 (Some a) tr → initialised n1 b tr → initialised n2 c tr →
    (top_flag b c n0 n1 n2 = false ∨ exp ≠ None) →
    wf (mkMM exp [Some a; b; c] (top_of b c) [n0; n1; n2] fl nx lv tr).

(** What every operation keeps, besides [wf]. *)
Definition step_ok (s s' : MotionMaster) : Prop :=
  wf s' ∧ updating s' = updating s ∧ (updating s = false → mm_expList s = None → mm_expList s' = None).

Definition safe (m : M MotionMaster unit) : Prop :=
  ∀ s, wf s → ∃ s', m s = Ok (tt, s') ∧ step_ok s s'.

Ltac mm_unfold :=
  unfold mbind, M_bind, mret, M_ret, get, put, modify, throw, lift, upd_expList, upd_Impl, upd_top,
    upd_needInit, upd_cleanFlag, upd_live, upd_trace.

(** Between updates. *)
Definition quiescent (s : MotionMaster) : Prop :=
  wf s ∧ mm_expList s = None ∧ updating s = false.

(** ** The specification: a priority stack of three slots *)

Record slots : Type := mkSlots {
  sl_idle : MovementGenerator;
  sl_active : option MovementGenerator;
  sl_controlled : option MovementGenerator;
  sl_pending : bool * bool * bool       (* must be initialised before its first update *)
}.

(** The abstract state of a MotionMaster, when it has one. *)
Definition abs (s : MotionMaster) : option slots :=
  match mm_Impl s, mm_needInit s with
  | [Some a; b; c], [n0; n1; n2] => Some (mkSlots a b c (n0, n1, n2))
  | _, _ => None
  end.

(** The end of a generator; events are newest first. *)
Definition ends (p : option MovementGenerator) : list event :=
  match p with
  | Some g => if isStatic g then [] else [EvDelete g; EvFinalize g]
  | None => []
  end.

(** The generator that becomes the highest is initialised if that is pending, and reset
    otherwise if a reset is asked for. *)
Definition restarts (reset : bool) (A : slots) : slots * list event :=
  let '(mkSlots a b c (n0, n1, n2)) := A in
  match c, b with
  | Some g, _ => if n2 then (mkSlots a b c (n0, n1, false), [EvInitialize g])
                 else (A, if reset then [EvReset g] else [])
  | None, Some g => if n1 then (mkSlots a b c (n0, false, n2), [EvInitialize g])
                    else (A, if reset then [EvReset g] else [])
  | None, None => if n0 then (mkSlots a b c (false, n1, n2), [EvInitialize a])
                  else (A, if reset then [EvReset a] else [])
  end.

(** Only the idle generator stays. *)
Definition spec_clear (reset : bool) (A : slots) : slots * list event :=
  let (A', evs) := restarts reset (mkSlots (sl_idle A) None None (sl_pending A)) in
  (A', evs ++ ends (sl_active A) ++ ends (sl_controlled A)).

(** The highest generator goes, except the idle one. *)
Definition spec_expire (reset : bool) (A : slots) : slots * list event :=
  match sl_controlled A, sl_active A with
  | Some _, _ =>
      let (A', evs) := restarts reset (mkSlots (sl_idle A) (sl_active A) None (sl_pending A)) in
      (A', evs ++ ends (sl_controlled A))
  | None, Some _ =>
      let (A', evs) := restarts reset (mkSlots (sl_idle A) None None (sl_pending A)) in
      (A', evs ++ ends (sl_active A))
  | None, None => restarts reset A
  end.

(** The generator takes the place of the one in its slot, and starts at once unless a higher
    slot is filled. *)
Definition spec_mutate (m : MovementGenerator) (sl : MovementSlot) (A : slots) : slots * list event :=
  let '(mkSlots a b c (n0, n1, n2)) := A in
  match sl with
  | MOTION_SLOT_CONTROLLED => (mkSlots a b (Some m) (n0, n1, false), EvInitialize m :: ends c)
  | MOTION_SLOT_ACTIVE =>
      match c with
      | Some _ => (mkSlots a (Some m) c (n0, true, n2), ends b)
      | None => (mkSlots a (Some m) c (n0, false, n2), EvInitialize m :: ends b)
      end
  | MOTION_SLOT_IDLE =>
      match b, c with
      | None, None => (mkSlots m b c (false, n1, n2), EvInitialize m :: ends (Some a))
      | _, _ => (mkSlots m b c (true, n1, n2), ends (Some a))
      end
  end.

(** [m] does to the slots and to the generators what [f] says, and rests again. *)
Definition implements (m : M MotionMaster unit) (f : slots → slots * list event) : Prop :=
  ∀ s A, quiescent s → abs s = Some A →
    ∃ s', m s = Ok (tt, s') ∧ quiescent s' ∧ abs s' = Some (f A).1 ∧ mm_trace s' = (f A).2 ++ mm_trace s.

Section Quiet.
Context (E : Env) (call : event → M MotionMaster unit).
Hypothesis call_quiet : ∀ ev s, (∀ g d, ev ≠ EvUpdate g d) → call ev s = Ok (tt, upd_trace (cons ev) s).

(** The state after [DirectDelete] and [DelayedDelete]. *)
Definition del_live (g : MovementGenerator) (lv : list Z) : list Z :=
  if isStatic g then lv else filter (λ i, i ≠ g_id g) lv.
Definition del_trace (g : MovementGenerator) (tr : list event) : list event :=
  if isStatic g then tr else EvDelete g :: EvFinalize g :: tr.
Definition deleted (g : MovementGenerator) (s : MotionMaster) : MotionMaster :=
  upd_trace (del_trace g) (upd_live (del_live g) s).
Definition push_exp (g : MovementGenerator) (exp : option (list MovementGenerator)) :=
  if isStatic g then exp else Some (default [] exp ++ [g]).

Lemma heap_ok_del g l nx lv tr :
  heap_ok (g :: l) nx lv tr → heap_ok l nx (del_live g lv) (del_trace g tr).
Proof.
  intros H. unfold del_live, del_trace. destruct (isStatic g) eqn:Hg.
  - by rewrite heap_ok_static in H.
  - by apply heap_ok_delete.
Qed.

Lemma heap_ok_push g l exp nx lv tr :
  heap_ok (g :: l ++ default [] exp) nx lv tr → heap_ok (l ++ default [] (push_exp g exp)) nx lv tr.
Proof.
  intros H. unfold push_exp. destruct (isStatic g) eqn:Hg.
  - by rewrite heap_ok_static in H.
  - simpl. eapply heap_ok_perm, H. solve_Permutation.
Qed.

Lemma elem_del_trace ev g tr : ev ∈ tr → ev ∈ del_trace g tr.
Proof. intros H. unfold del_trace. destruct (isStatic g); [done|]. by do 2 right. Qed.

Lemma DirectDelete_eq g s :
  (dynamic g → g_id g ∈ mm_live s) → DirectDelete call g s = Ok (tt, deleted g s).
Proof using call_quiet.
  intros Hl. unfold DirectDelete, deleted, del_live, del_trace, vcall, delete, alive, dynamic in *.
  destruct (isStatic g) eqn:Hs; [by destruct s|]. mm_unfold. simpl.
  rewrite bool_decide_true by auto. rewrite call_quiet by done. mm_unfold. simpl.
  rewrite bool_decide_true by auto. done.
Qed.

Lemma vcall_eq ev g s :
  (dynamic g → g_id g ∈ mm_live s) → (∀ g d, ev ≠ EvUpdate g d) →
  vcall call ev g s = Ok (tt, upd_trace (cons ev) s).
Proof using call_quiet.
  intros Hl Hev. unfold vcall, alive, dynamic in *. mm_unfold.
  destruct (isStatic g); simpl; [by apply call_quiet|].
  rewrite bool_decide_true by auto. by apply call_quiet.
Qed.

Lemma DelayedDelete_eq g s :
  (dynamic g → g_id g ∈ mm_live s) →
  DelayedDelete g s = Ok (tt, upd_expList (push_exp g) s).
Proof.
  intros Hl. unfold DelayedDelete, type_of, push_exp, alive, dynamic in *. mm_unfold.
  destruct (isStatic g); simpl; [by destruct s|]. by rewrite bool_decide_true by auto.
Qed.

Lemma initialised_del n p tr g : initialised n p tr → initialised n p (del_trace g tr).
Proof. intros H Hn g' Hg. apply elem_del_trace. eauto. Qed.

Lemma initialised_cons n p tr ev : initialised n p tr → initialised n p (ev :: tr).
Proof. intros H Hn g' Hg. right. eauto. Qed.

Lemma initialised_now n g tr : initialised n (Some g) (EvInitialize g :: tr).
Proof. intros Hn g' [= ->]. left. Qed.

Lemma initialised_true p tr : initialised true p tr.
Proof. done. Qed.

Lemma initialised_None n tr : initialised n None tr.
Proof. done. Qed.

(** Removes [g] from a list of generators given by its elements. *)
Ltac pull g L :=
  lazymatch L with
  | g :: ?l => l
  | ?x :: ?l => let r := pull g l in constr:(x :: r)
  end.

Ltac member := first [apply list_elem_of_here | apply list_elem_of_further; member].

(** Executes one call of a generator's method. *)
Ltac mm_call :=
  match goal with
  | Hh : heap_ok ?L ?nx ?lv ?tr |- context [DirectDelete _ ?g (mkMM _ _ _ _ _ ?nx ?lv ?tr)] =>
      rewrite (DirectDelete_eq g) by
        (simpl; intros; eapply heap_ok_dynamic_live; [exact Hh|member|assumption]);
      unfold deleted, upd_trace, upd_live; simpl;
      let r := pull g L in
      apply (heap_ok_perm L (g :: r)) in Hh; [apply heap_ok_del in Hh|solve_Permutation]
  | Hh : heap_ok ?L ?nx ?lv ?tr |- context [DelayedDelete ?g (mkMM _ _ _ _ _ ?nx ?lv ?tr)] =>
      rewrite (DelayedDelete_eq g) by
        (simpl; intros; eapply heap_ok_dynamic_live; [exact Hh|member|assumption]);
      unfold upd_expList; simpl
  | Hh : heap_ok ?L ?nx ?lv ?tr |- context [vcall _ ?ev ?g (mkMM _ _ _ _ _ ?nx ?lv ?tr)] =>
      rewrite (vcall_eq ev g) by
        (first [done | simpl; intros; eapply heap_ok_dynamic_live; [exact Hh|member|assumption]]);
      unfold upd_trace; simpl;
      apply (heap_ok_event ev) in Hh; [|reflexivity]
  end.

#[local] Hint Resolve initialised_del initialised_cons initialised_now initialised_true
  initialised_None : core.

Ltac mm_push :=
  unfold push_exp, dynamic in *; simpl in *;
  rewrite ?Forall_cons, ?Forall_app in *; simpl in *; destruct_and?;
  repeat match goal with
  | H : isStatic ?g = _ |- context [isStatic ?g] => rewrite H
  | |- context [isStatic ?g] => destruct (isStatic g) eqn:?
  end; simpl in *.

(** [heap_ok] of the generators held now. *)
Ltac mm_heap :=
  match goal with
  | Hh : heap_ok ?L _ _ _ |- heap_ok _ _ _ _ =>
      mm_push; simpl in Hh;
      first [eapply heap_ok_perm, Hh; solve_Permutation
            |match goal with
             | Hs : isStatic ?g = true |- _ =>
                 let r := pull g L in
                 eapply (heap_ok_perm r); [solve_Permutation|];
                 apply (heap_ok_static g r); [exact Hs|];
                 eapply heap_ok_perm, Hh; solve_Permutation
             end]
  end.

Ltac mm_dyn := mm_push; rewrite ?Forall_app, ?Forall_cons, ?Forall_nil; simpl; tauto.

(** The end of an execution: the state is explicit. *)
Ltac mm_done :=
  eexists; split; [reflexivity|];
  split; [apply wf_intro; [mm_heap|mm_dyn|eauto..]; simpl in *; try tauto
         |split; [done|let Hu := fresh in intros Hu ?; unfold updating in *; simpl in *; congruence]].

Lemma Mutate_safe m sl exp a b c n0 n1 n2 fl nx lv tr :
  heap_ok (m :: a :: option_list b ++ option_list c ++ default [] exp) nx lv tr →
  Forall dynamic (option_list b ++ option_list c ++ default [] exp) →
  sl = MOTION_SLOT_IDLE ∨ dynamic m →
  initialised n0 (Some a) tr → initialised n1 b tr → initialised n2 c tr →
  (top_flag b c n0 n1 n2 = false ∨ exp ≠ None) →
  let s := mkMM exp [Some a; b; c] (top_of b c) [n0; n1; n2] fl nx lv tr in
  ∃ s', Mutate call m sl s = Ok (tt, s') ∧ step_ok s s'.
Proof using call_quiet.
  intros Hh Hd Hm H0 H1 H2 Ht s. subst s.
  unfold Mutate, GetMotionSlot, set_slot, set_needInit.
  destruct sl, b as [b|], c as [c|]; (destruct Hm as [Hm|Hm]; [try discriminate Hm|]);
    simpl in *; mm_unfold; simpl;
    try (destruct (updating _) eqn:Hup; simpl); repeat mm_call; mm_done.
Qed.

Lemma step_ok_refl s : wf s → step_ok s s.
Proof. by repeat split. Qed.

Lemma step_ok_trans s1 s2 s3 : step_ok s1 s2 → step_ok s2 s3 → step_ok s1 s3.
Proof.
  intros (H1 & H2 & H3) (H4 & H5 & H6). split; [done|]. split; [congruence|].
  intros Hu He. apply H6; [congruence|]. by apply H3.
Qed.

Lemma mm_safe_ret : safe (mret tt).
Proof. intros s Hs. exists s. split; [done|by apply step_ok_refl]. Qed.

Lemma mm_safe_seq m1 m2 : safe m1 → safe m2 → safe (m1;; m2).
Proof.
  intros H1 H2 s Hs. destruct (H1 s Hs) as (s1 & E1 & St1). destruct St1 as (W1 & R1).
  destruct (H2 s1 W1) as (s2 & E2 & St2). exists s2. split.
  - unfold mbind, M_bind. by rewrite E1.
  - eapply step_ok_trans; [|exact St2]. by split.
Qed.

Lemma mm_safe_get (f : MotionMaster → M MotionMaster unit) :
  (∀ s, safe (f s)) → safe (s ← get; f s).
Proof. intros H s Hs. mm_unfold. by apply H. Qed.

Lemma mm_safe_owner (f : Owner → M MotionMaster unit) : (∀ o, safe (f o)) → safe (o ← owner E; f o).
Proof. intros H s Hs. unfold owner. mm_unfold. by apply H. Qed.

Lemma mm_safe_if (b : bool) m1 m2 : safe m1 → safe m2 → safe (if b then m1 else m2).
Proof. by destruct b. Qed.

Lemma mm_safe_call ev : neutral ev = true → safe (call ev).
Proof using call_quiet.
  intros Hev s Hs. rewrite call_quiet by (by intros ??->). destruct Hs.
  apply (heap_ok_event ev) in H; [|done]. unfold upd_trace. simpl.
  eexists. split; [reflexivity|]. split; [|done]. constructor; eauto.
Qed.

Lemma mm_safe_Mutate_static : safe (Mutate call si_idleMovement MOTION_SLOT_IDLE).
Proof using call_quiet.
  intros s []. apply Mutate_safe; auto. by apply heap_ok_static.
Qed.

Lemma mm_safe_Mutate_new cl sl : safe (Mutate_new call cl sl).
Proof using call_quiet.
  intros s []. unfold Mutate_new, new. mm_unfold. simpl. apply (heap_ok_new cl) in H as Hn.
  eapply Mutate_safe in Hn; eauto.
  right. apply Z.eqb_neq. simpl. destruct H. lia.
Qed.

Lemma read_slot k s :
  wf s → 0 ≤ k < 3 → ∃ p, GetMotionSlot k s = Ok (p, s) ∧ mm_Impl s !! Z.to_nat k = Some p ∧
  ∀ g, p = Some g → dynamic g → g_id g ∈ mm_live s.
Proof.
  intros [] Hk. unfold GetMotionSlot. mm_unfold. rewrite (proj2 (Z.ltb_ge k 0)) by lia. simpl.
  assert (k = 0 ∨ k = 1 ∨ k = 2) as [->|[-> | ->]] by lia; simpl; eexists; (split; [done|]);
    (split; [done|]); intros g Hp Hg; simplify_eq; (eapply heap_ok_dynamic_live; [done| |done]);
    simpl; rewrite ?elem_of_cons, ?elem_of_app; simpl; rewrite ?elem_of_cons, ?elem_of_app;
    simpl; rewrite ?elem_of_cons; tauto.
Qed.

(** Fields of the explicit states. *)
Ltac mm_open := unfold pop, skip_null_tops, set_slot, top, GetMotionSlot, nonnull_at, deref, size, if_some.

Lemma top_range b c : 0 ≤ top_of b c < 3.
Proof. destruct b, c; simpl; lia. Qed.

Lemma mm_safe_init_or_reset_gen exp a b c n0 n1 n2 fl nx lv tr (reset : bool) :
  heap_ok (a :: option_list b ++ option_list c ++ default [] exp) nx lv tr →
  Forall dynamic (option_list b ++ option_list c ++ default [] exp) →
  initialised n0 (Some a) tr → initialised n1 b tr → initialised n2 c tr →
  let s := mkMM exp [Some a; b; c] (top_of b c) [n0; n1; n2] fl nx lv tr in
  ∃ s', init_or_reset call reset s = Ok (tt, s') ∧ step_ok s s'.
Proof using call_quiet.
  intros Hh Hd H0 H1 H2 s. subst s.
  unfold init_or_reset, needInitTop, InitTop, ResetTop, set_needInit. mm_open.
  destruct b as [b|], c as [c|]; mm_unfold; simpl in *;
    [destruct n2|destruct n1|destruct n2|destruct n0];
    simpl; try (destruct reset; simpl); repeat mm_call; mm_done.
Qed.

Lemma clean_round_c n del exp a b c ns fl nx lv tr :
  clean_loop E (S n) del (mkMM exp [Some a; b; Some c] 2 ns fl nx lv tr) =
  (del c;; clean_loop E n del) (mkMM exp [Some a; b; None] (top_of b None) ns fl nx lv tr).
Proof. by destruct b. Qed.

Lemma clean_round_b n del exp a b ns fl nx lv tr :
  clean_loop E (S n) del (mkMM exp [Some a; Some b; None] 1 ns fl nx lv tr) =
  (del b;; clean_loop E n del) (mkMM exp [Some a; None; None] (top_of None None) ns fl nx lv tr).
Proof. done. Qed.

Lemma clean_round_end n del exp a ns fl nx lv tr :
  clean_loop E n del (mkMM exp [Some a; None; None] 0 ns fl nx lv tr) =
  Ok (tt, mkMM exp [Some a; None; None] 0 ns fl nx lv tr).
Proof. by destruct n. Qed.

Lemma skip_null_shape exp a b c ns fl nx lv tr :
  let s := mkMM exp [Some a; b; c] (top_of b c) ns fl nx lv tr in skip_null_tops E s = Ok (tt, s).
Proof. by destruct b, c. Qed.

(** What [del] does with a generator that no slot holds any more. *)
Definition disposes (del : MovementGenerator → M MotionMaster unit)
    (f : MovementGenerator → option (list MovementGenerator) → option (list MovementGenerator)) : Prop :=
  ∀ g exp a b c n0 n1 n2 fl nx lv tr,
    dynamic g →
    heap_ok (g :: a :: option_list b ++ option_list c ++ default [] exp) nx lv tr →
    Forall dynamic (option_list b ++ option_list c ++ default [] exp) →
    initialised n0 (Some a) tr → initialised n1 b tr → initialised n2 c tr →
    ∃ lv' tr',
      del g (mkMM exp [Some a; b; c] (top_of b c) [n0; n1; n2] fl nx lv tr) =
        Ok (tt, mkMM (f g exp) [Some a; b; c] (top_of b c) [n0; n1; n2] fl nx lv' tr') ∧
      heap_ok (a :: option_list b ++ option_list c ++ default [] (f g exp)) nx lv' tr' ∧
      Forall dynamic (option_list b ++ option_list c ++ default [] (f g exp)) ∧
      initialised n0 (Some a) tr' ∧ initialised n1 b tr' ∧ initialised n2 c tr'.

Lemma DirectDelete_disposes : disposes (DirectDelete call) (λ _ exp, exp).
Proof using call_quiet.
  intros g exp a b c n0 n1 n2 fl nx lv tr Hg Hh Hd H0 H1 H2.
  rewrite DirectDelete_eq by (intros _; eapply heap_ok_dynamic_live; [done|left|done]).
  unfold deleted, upd_trace, upd_live. simpl. apply heap_ok_del in Hh. eauto 20.
Qed.

Lemma DelayedDelete_disposes : disposes DelayedDelete (λ g exp, Some (default [] exp ++ [g])).
Proof.
  intros g exp a b c n0 n1 n2 fl nx lv tr Hg Hh Hd H0 H1 H2.
  rewrite DelayedDelete_eq by (intros _; eapply heap_ok_dynamic_live; [done|left|done]).
  unfold upd_expList, push_exp. rewrite Hg. simpl. do 2 eexists. split; [done|]. split_and!; auto.
  - eapply heap_ok_perm, Hh. solve_Permutation.
  - rewrite !Forall_app in *. rewrite Forall_singleton. tauto.
Qed.

(** A clean-up loop leaves the idle slot only. *)
Lemma clean_loop_spec del f exp a b c n0 n1 n2 fl nx lv tr :
  disposes del f →
  heap_ok (a :: option_list b ++ option_list c ++ default [] exp) nx lv tr →
  Forall dynamic (option_list b ++ option_list c ++ default [] exp) →
  initialised n0 (Some a) tr → initialised n1 b tr → initialised n2 c tr →
  let exp' := foldl (λ e g, f g e) exp (option_list c ++ option_list b) in
  ∃ lv' tr',
    clean_loop E max_rounds del (mkMM exp [Some a; b; c] (top_of b c) [n0; n1; n2] fl nx lv tr) =
      Ok (tt, mkMM exp' [Some a; None; None] 0 [n0; n1; n2] fl nx lv' tr') ∧
    heap_ok (a :: default [] exp') nx lv' tr' ∧ Forall dynamic (default [] exp') ∧
    initialised n0 (Some a) tr'.
Proof.
  intros Hdel Hh Hd H0 H1 H2 exp'. subst exp'. unfold max_rounds.
  assert (∀ n exp lv tr, heap_ok (a :: option_list b ++ default [] exp) nx lv tr →
    Forall dynamic (option_list b ++ default [] exp) →
    initialised n0 (Some a) tr → initialised n1 b tr →
    ∃ lv' tr',
      clean_loop E (S n) del (mkMM exp [Some a; b; None] (top_of b None) [n0; n1; n2] fl nx lv tr) =
        Ok (tt, mkMM (foldl (λ e g, f g e) exp (option_list b)) [Some a; None; None] 0
                  [n0; n1; n2] fl nx lv' tr') ∧
      heap_ok (a :: default [] (foldl (λ e g, f g e) exp (option_list b))) nx lv' tr' ∧
      Forall dynamic (default [] (foldl (λ e g, f g e) exp (option_list b))) ∧
      initialised n0 (Some a) tr') as Hb.
  { clear -Hdel. intros n exp lv tr Hh Hd H0 H1. destruct b as [b|]; [|simpl in *; eauto 10].
    change (top_of _ _) with 1. rewrite clean_round_b.
    apply Forall_cons in Hd as [Hb Hd].
    assert (heap_ok (b :: a :: option_list None ++ option_list None ++ default [] exp) nx lv tr) as Hh'
      by (eapply heap_ok_perm, Hh; simpl; solve_Permutation).
    destruct (Hdel _ _ _ _ _ n0 n1 n2 fl _ _ _ Hb Hh' Hd H0 (initialised_None n1 tr)
      (initialised_None n2 tr)) as (lv' & tr' & Hrun & ?).
    unfold mbind, M_bind. rewrite Hrun. change (top_of None None) with 0.
    rewrite clean_round_end. naive_solver. }
  destruct c as [c|]; [|by apply Hb]. change (top_of _ _) with 2.
  change 100%nat with (S (S 98)). rewrite clean_round_c. unfold mbind, M_bind.
  assert (heap_ok (c :: a :: option_list b ++ option_list None ++ default [] exp) nx lv tr) as Hh'
    by (eapply heap_ok_perm, Hh; simpl; solve_Permutation).
  assert (dynamic c ∧ Forall dynamic (option_list b ++ option_list None ++ default [] exp)) as [Hc Hd']
    by (simpl in *; rewrite Forall_app, ?Forall_cons in *; tauto).
  destruct (Hdel _ _ _ _ _ n0 n1 n2 fl _ _ _ Hc Hh' Hd' H0 H1 (initialised_None n2 tr))
    as (lv' & tr' & Hrun & ?).
  rewrite Hrun. apply Hb; tauto.
Qed.

Lemma foldl_keep {A B} (l : list B) (x : A) : foldl (λ e _, e) x l = x.
Proof. induction l; simpl; auto. Qed.

Lemma mm_safe_DirectClean reset : safe (DirectClean E call reset).
Proof using call_quiet.
  intros s []. unfold DirectClean. unfold mbind, M_bind.
  destruct (clean_loop_spec _ _ exp a b c n0 n1 n2 fl nx lv tr DirectDelete_disposes)
    as (lv' & tr' & -> & Hh & Hd & Hi); auto.
  rewrite foldl_keep in *.
  apply (mm_safe_init_or_reset_gen exp a None None n0 n1 n2); auto.
Qed.

Lemma foldl_push (l : list MovementGenerator) (exp : option (list MovementGenerator)) :
  l ≠ [] ∨ exp ≠ None → foldl (λ e g, Some (default [] e ++ [g])) exp l ≠ None.
Proof.
  revert exp. induction l as [|x l IH]; simpl; intros exp H; [naive_solver|]. apply IH. by right.
Qed.

Lemma DelayedClean_ok s : wf s → updating s = true →
  ∃ s', DelayedClean E s = Ok (tt, s') ∧ step_ok s s'.
Proof.
  intros [] Hup. unfold DelayedClean.
  destruct (clean_loop_spec _ _ exp a b c n0 n1 n2 fl nx lv tr DelayedDelete_disposes)
    as (lv' & tr' & -> & Hh & Hd & Hi); auto.
  eexists. split; [reflexivity|]. split; [|split; [done|]].
  - apply wf_intro; auto. simpl. destruct b, c; simpl in *; naive_solver.
  - unfold updating in *. simpl in *. congruence.
Qed.

Lemma set_reset_flag_wf reset s : wf s →
  ∃ s', set_reset_flag reset s = Ok (tt, s') ∧ step_ok s s'.
Proof.
  intros []. unfold set_reset_flag. mm_unfold. simpl. eexists. split; [reflexivity|].
  split; [by constructor|]. split; [|done]. unfold updating, MMCF_UPDATE, MMCF_RESET. simpl.
  f_equal. destruct reset; apply Z.bits_inj'; intros i Hi; rewrite !Z.land_spec.
  - rewrite Z.lor_spec. destruct (decide (i = 0)) as [->|]; [by rewrite orb_false_r|].
    change 1 with (Z.ones 1). rewrite Z.ones_spec_high by lia. by rewrite !andb_false_r.
  - rewrite Z.lnot_spec by done. destruct (decide (i = 0)) as [->|]; [by rewrite andb_true_r|].
    change 1 with (Z.ones 1). rewrite Z.ones_spec_high by lia. by rewrite !andb_false_r.
Qed.

(** An operation that goes one way during an update and another way otherwise. *)
Lemma mm_safe_by_flag reset delayed direct :
  (∀ s, wf s → updating s = true → ∃ s', delayed s = Ok (tt, s') ∧ step_ok s s') →
  safe direct →
  safe (s ← get; if updating s then set_reset_flag reset;; delayed else direct).
Proof.
  intros Hd Hdir s Hs. mm_unfold. destruct (updating s) eqn:Hup; [|by apply Hdir].
  destruct (set_reset_flag_wf reset s Hs) as (s1 & -> & Hst). pose proof Hst as (Hw & Hu & _).
  destruct (Hd s1) as (s2 & -> & ?); [done|congruence|].
  exists s2. split; [done|by eapply step_ok_trans].
Qed.

Lemma mm_safe_Clear reset : safe (Clear E call reset).
Proof using call_quiet. apply mm_safe_by_flag; [apply DelayedClean_ok|apply mm_safe_DirectClean]. Qed.

(** [curr = top(); pop(); del(curr)] with at least two generators. *)
Lemma expire_c del exp a b c ns fl nx lv tr :
  (curr ← top; pop E;; g ← deref curr; del g : M MotionMaster unit) (mkMM exp [Some a; b; Some c] 2 ns fl nx lv tr) =
  del c (mkMM exp [Some a; b; None] (top_of b None) ns fl nx lv tr).
Proof. by destruct b. Qed.

Lemma expire_b del exp a b ns fl nx lv tr :
  (curr ← top; pop E;; g ← deref curr; del g : M MotionMaster unit) (mkMM exp [Some a; Some b; None] 1 ns fl nx lv tr) =
  del b (mkMM exp [Some a; None; None] (top_of None None) ns fl nx lv tr).
Proof. done. Qed.

(** The common part of the two ways to expire: the top generator goes unless it is the idle one. *)
Definition expire_top (del : MovementGenerator → M MotionMaster unit) : M MotionMaster unit :=
  s ← get;
  (when (size s >? 1) do (curr ← top; pop E;; g ← deref curr; del g));;
  skip_null_tops E.

Lemma expire_top_spec del f exp a b c n0 n1 n2 fl nx lv tr :
  disposes del f →
  heap_ok (a :: option_list b ++ option_list c ++ default [] exp) nx lv tr →
  Forall dynamic (option_list b ++ option_list c ++ default [] exp) →
  initialised n0 (Some a) tr → initialised n1 b tr → initialised n2 c tr →
  ∃ exp' b' c' lv' tr',
    expire_top del (mkMM exp [Some a; b; c] (top_of b c) [n0; n1; n2] fl nx lv tr) =
      Ok (tt, mkMM exp' [Some a; b'; c'] (top_of b' c') [n0; n1; n2] fl nx lv' tr') ∧
    heap_ok (a :: option_list b' ++ option_list c' ++ default [] exp') nx lv' tr' ∧
    Forall dynamic (option_list b' ++ option_list c' ++ default [] exp') ∧
    initialised n0 (Some a) tr' ∧ initialised n1 b' tr' ∧ initialised n2 c' tr' ∧
    (exp' = exp ∧ b' = b ∧ c' = c ∨ ∃ g, exp' = f g exp).
Proof.
  intros Hdel Hh Hd H0 H1 H2. unfold expire_top.
  assert (∀ g b', option_list b ++ option_list c ≡ₚ g :: option_list b' → initialised n1 b' tr →
    (curr ← top; pop E;; g ← deref curr; del g : M MotionMaster unit)
      (mkMM exp [Some a; b; c] (top_of b c) [n0; n1; n2] fl nx lv tr) =
      del g (mkMM exp [Some a; b'; None] (top_of b' None) [n0; n1; n2] fl nx lv tr) →
    (top_of b c + 1 >? 1 = true) → 
    ∃ lv' tr', expire_top del (mkMM exp [Some a; b; c] (top_of b c) [n0; n1; n2] fl nx lv tr) =
      Ok (tt, mkMM (f g exp) [Some a; b'; None] (top_of b' None) [n0; n1; n2] fl nx lv' tr') ∧
    heap_ok (a :: option_list b' ++ option_list None ++ default [] (f g exp)) nx lv' tr' ∧
    Forall dynamic (option_list b' ++ option_list None ++ default [] (f g exp)) ∧
    initialised n0 (Some a) tr' ∧ initialised n1 b' tr') as Hpop.
  { intros g b' Hp Hi Hcur Htop. rewrite (assoc_L (++)), Hp in Hh, Hd.
    assert (heap_ok (g :: a :: option_list b' ++ option_list None ++ default [] exp) nx lv tr) as Hh'
      by (eapply heap_ok_perm, Hh; simpl; solve_Permutation).
    apply Forall_cons in Hd as [Hg Hd].
    destruct (Hdel _ _ _ _ _ n0 n1 n2 fl _ _ _ Hg Hh' Hd H0 Hi (initialised_None n2 tr))
      as (lv' & tr' & Hrun & ? & ? & ? & ? & ?).
    exists lv', tr'. split; [|auto]. unfold expire_top. unfold mbind at 1, M_bind at 1. unfold get at 1.
    unfold size. simpl mm_top. rewrite Htop. unfold mbind at 1, M_bind at 1. rewrite Hcur, Hrun.
    apply skip_null_shape. }
  unfold expire_top in Hpop.
  destruct c as [c|]; [|destruct b as [b|]].
  - destruct (Hpop c b) as (lv' & tr' & ? & ? & ? & ? & ?); auto using expire_c.
    { simpl. solve_Permutation. }
    exists (f c exp), b, None, lv', tr'. eauto 10.
  - destruct (Hpop b None) as (lv' & tr' & ? & ? & ? & ? & ?); auto using expire_b.
    exists (f b exp), None, None, lv', tr'. eauto 10.
  - exists exp, None, None, lv, tr. split; [done|]. auto 10.
Qed.

Lemma DelayedExpire_ok s : wf s → updating s = true →
  ∃ s', DelayedExpire E s = Ok (tt, s') ∧ step_ok s s'.
Proof.
  intros [] Hup.
  destruct (expire_top_spec _ _ exp a b c n0 n1 n2 fl nx lv tr DelayedDelete_disposes)
    as (exp' & b' & c' & lv' & tr' & Hrun & Hh & Hd & Hi0 & Hi1 & Hi2 & Hexp); auto.
  eexists. split; [exact Hrun|]. split; [|split; [done|]].
  - apply wf_intro; auto. naive_solver.
  - unfold updating in *. simpl in *. congruence.
Qed.

Lemma DirectExpire_eq reset s :
  DirectExpire E call reset s =
  (expire_top (DirectDelete call);; s ← get;
   if empty s then Initialize E call else init_or_reset call reset) s.
Proof. unfold DirectExpire, expire_top. mm_unfold. by repeat case_match. Qed.

Lemma mm_safe_DirectExpire reset : safe (DirectExpire E call reset).
Proof using call_quiet.
  intros s []. rewrite DirectExpire_eq. unfold mbind, M_bind, get.
  destruct (expire_top_spec _ _ exp a b c n0 n1 n2 fl nx lv tr DirectDelete_disposes)
    as (exp' & b' & c' & lv' & tr' & -> & Hh & Hd & Hi0 & Hi1 & Hi2 & Hexp); auto.
  assert (exp' = exp) as -> by naive_solver.
  unfold empty. simpl mm_top. rewrite (proj2 (Z.ltb_ge _ 0)) by apply top_range.
  by apply (mm_safe_init_or_reset_gen exp a b' c' n0 n1 n2).
Qed.

Lemma mm_safe_MovementExpired reset : safe (MovementExpired E call reset).
Proof using call_quiet. apply mm_safe_by_flag; [apply DelayedExpire_ok|apply mm_safe_DirectExpire]. Qed.

(** The machine words before the object hold something that is not null. *)
Definition words_ok : Prop :=
  ∃ n, 2 ≤ n ≤ Z.of_nat words_before ∧ word_before E (- n) = Ok true ∧
       ∀ k, 2 ≤ k < n → word_before E (- k) = Ok false.

Lemma skip_null_words n k f s :
  (∀ j, k ≤ j < n → word_before E (- j) = Ok false) → word_before E (- n) = Ok true →
  2 ≤ k ≤ n → n - k < Z.of_nat f → mm_top s = - k →
  skip_null E f s = Ok (tt, upd_top (λ _, - n) s).
Proof.
  revert k s. induction f as [|f IH]; intros k s Hf Ht Hk Hn Htop; [lia|].
  simpl. unfold nonnull_at. mm_unfold. rewrite Htop.
  rewrite (proj2 (Z.eqb_neq (- k) (-1))), (proj2 (Z.ltb_lt (- k) 0)) by lia.
  destruct (decide (k = n)) as [->|Hne].
  - rewrite Ht. destruct s; simpl in *. by subst.
  - rewrite Hf by lia. assert (∀ j, k + 1 ≤ j < n → word_before E (- j) = Ok false) as Hf' by (intros; apply Hf; lia).
    rewrite (IH (k + 1)); [done|done|done|lia|lia|simpl; lia].
Qed.

Lemma skip_null_empty exp ns fl nx lv tr : words_ok →
  ∃ t, t < 0 ∧ skip_null_tops E (mkMM exp [None; None; None] 0 ns fl nx lv tr) =
    Ok (tt, mkMM exp [None; None; None] t ns fl nx lv tr).
Proof.
  intros (n & Hn & Ht & Hf). unfold words_before in Hn. unfold skip_null_tops, MAX_MOTION_SLOT, words_before.
  change (3 + 64 + 1)%nat with (S (S 66)). remember 66%nat as f. simpl. unfold nonnull_at. mm_unfold. simpl.
  destruct exp as [l|]; simpl.
  - by exists (-1).
  - exists (- n). split; [lia|]. erewrite skip_null_words with (k := 2) (n := n); simpl; auto; lia.
Qed.

Lemma delete_round_c n exp a b c ns fl nx lv tr :
  delete_all E call (S n) (mkMM exp [Some a; b; Some c] 2 ns fl nx lv tr) =
  (DirectDelete call c;; delete_all E call n) (mkMM exp [Some a; b; None] (top_of b None) ns fl nx lv tr).
Proof. by destruct b. Qed.

Lemma delete_round_b n exp a b ns fl nx lv tr :
  delete_all E call (S n) (mkMM exp [Some a; Some b; None] 1 ns fl nx lv tr) =
  (DirectDelete call b;; delete_all E call n) (mkMM exp [Some a; None; None] 0 ns fl nx lv tr).
Proof. done. Qed.

Lemma delete_round_a n exp a ns fl nx lv tr :
  delete_all E call (S n) (mkMM exp [Some a; None; None] 0 ns fl nx lv tr) =
  (skip_null_tops E;; DirectDelete call a;; delete_all E call n)
    (mkMM exp [None; None; None] 0 ns fl nx lv tr).
Proof. done. Qed.

Lemma delete_all_spec exp a b c n0 n1 n2 fl nx lv tr :
  words_ok →
  heap_ok (a :: option_list b ++ option_list c ++ default [] exp) nx lv tr →
  ∃ t lv' tr', t < 0 ∧
    delete_all E call max_rounds (mkMM exp [Some a; b; c] (top_of b c) [n0; n1; n2] fl nx lv tr) =
      Ok (tt, mkMM exp [None; None; None] t [n0; n1; n2] fl nx lv' tr') ∧
    heap_ok (default [] exp) nx lv' tr'.
Proof using call_quiet.
  intros Hw. unfold max_rounds.
  assert (∀ n lv tr, heap_ok (a :: default [] exp) nx lv tr → ∃ t lv' tr', t < 0 ∧
    delete_all E call (S n) (mkMM exp [Some a; None; None] 0 [n0; n1; n2] fl nx lv tr) =
      Ok (tt, mkMM exp [None; None; None] t [n0; n1; n2] fl nx lv' tr') ∧
    heap_ok (default [] exp) nx lv' tr') as Ha.
  { clear lv tr. intros n lv tr Hh.
    destruct (skip_null_empty exp [n0; n1; n2] fl nx lv tr Hw) as (t & Ht & Hs).
    exists t, (del_live a lv), (del_trace a tr). split; [done|]. split; [|by apply heap_ok_del].
    rewrite delete_round_a. unfold mbind, M_bind. rewrite Hs.
    rewrite DirectDelete_eq by (intros; eapply heap_ok_dynamic_live; [exact Hh|left|done]).
    unfold deleted, upd_trace, upd_live. simpl.
    destruct n; simpl; mm_unfold; unfold empty; simpl; by rewrite (proj2 (Z.ltb_lt t 0) Ht). }
  assert (∀ n lv tr, heap_ok (a :: option_list b ++ default [] exp) nx lv tr → ∃ t lv' tr', t < 0 ∧
    delete_all E call (S (S n)) (mkMM exp [Some a; b; None] (top_of b None) [n0; n1; n2] fl nx lv tr) =
      Ok (tt, mkMM exp [None; None; None] t [n0; n1; n2] fl nx lv' tr') ∧
    heap_ok (default [] exp) nx lv' tr') as Hb.
  { clear lv tr. intros n lv tr Hh. destruct b as [b|]; [|by apply Ha].
    change (top_of _ _) with 1. rewrite delete_round_b. unfold mbind, M_bind.
    rewrite DirectDelete_eq by (intros; eapply heap_ok_dynamic_live; [exact Hh|right; left|done]).
    apply (heap_ok_perm _ (b :: a :: default [] exp)) in Hh; [|simpl; solve_Permutation].
    by apply Ha, heap_ok_del. }
  intros Hh. change 100%nat with (S (S (S 97))). destruct c as [c|]; [|by apply Hb].
  change (top_of _ _) with 2. rewrite delete_round_c. unfold mbind, M_bind.
  rewrite DirectDelete_eq by
    (intros; eapply heap_ok_dynamic_live; [exact Hh| |done]; rewrite !elem_of_cons, !elem_of_app; simpl;
     rewrite elem_of_cons; tauto).
  apply (heap_ok_perm _ (c :: a :: option_list b ++ default [] exp)) in Hh;
    [|simpl; solve_Permutation].
  by apply Hb, heap_ok_del.
Qed.

Lemma InitDefault_ok exp t n0 n1 n2 fl nx lv tr :
  t < 0 → heap_ok (default [] exp) nx lv tr → Forall dynamic (default [] exp) →
  let s := mkMM exp [None; None; None] t [n0; n1; n2] fl nx lv tr in
  ∃ s', InitDefault E call s = Ok (tt, s') ∧ step_ok s s'.
Proof using call_quiet.
  intros Ht Hh Hd s. subst s. unfold InitDefault, owner, Mutate_new, new. mm_unfold. simpl.
  set (o := owner_at E tr).
  assert (∀ m nx lv tr, heap_ok (m :: default [] exp) nx lv tr →
    ∃ s', Mutate call m MOTION_SLOT_IDLE (mkMM exp [None; None; None] t [n0; n1; n2] fl nx lv tr) =
      Ok (tt, s') ∧ step_ok (mkMM exp [None; None; None] t [n0; n1; n2] fl nx lv tr) s') as Hm.
  { clear nx lv tr Hh o. intros m nx lv tr Hh.
    unfold Mutate, GetMotionSlot, set_slot, set_needInit. mm_unfold. simpl.
    rewrite (proj2 (Z.ltb_lt t 0) Ht). simpl. mm_call.
    eexists. split; [reflexivity|]. split; [|done]. apply (wf_intro exp m None None); auto. }
  assert (∀ cl, ∃ s', Mutate call (mkGen nx cl) MOTION_SLOT_IDLE
      (mkMM exp [None; None; None] t [n0; n1; n2] fl (nx + 1) (nx :: lv) (EvNew (mkGen nx cl) :: tr)) =
      Ok (tt, s') ∧ step_ok (mkMM exp [None; None; None] t [n0; n1; n2] fl nx lv tr) s') as Hn.
  { intros cl. destruct (Hm _ _ _ _ (heap_ok_new cl _ _ _ _ Hh)) as (s' & ? & ?). eauto. }
  assert (heap_ok (si_idleMovement :: default [] exp) nx lv tr) as Hs by by apply heap_ok_static.
  destruct (is_unit o); simpl; [|by apply Hm].
  destruct (selectMovementGenerator _); simpl; [apply Hn|by apply Hm].
Qed.

Lemma mm_safe_Initialize : words_ok → safe (Initialize E call).
Proof using call_quiet.
  intros Hw s []. unfold Initialize. unfold mbind, M_bind.
  destruct (delete_all_spec exp a b c n0 n1 n2 fl nx lv tr) as (t & lv' & tr' & Ht & -> & Hh); auto.
  destruct (InitDefault_ok exp t n0 n1 n2 fl nx lv' tr') as (s' & ? & ?); auto.
  - rewrite !Forall_app in *. tauto.
  - by exists s'.
Qed.

(** *** Every operation is safe *)

Create HintDb mm_safe.
#[local] Hint Resolve mm_safe_ret mm_safe_seq mm_safe_owner mm_safe_if mm_safe_call mm_safe_Mutate_static
  mm_safe_Mutate_new mm_safe_Clear mm_safe_MovementExpired : mm_safe.

Lemma mm_safe_MoveIdle : safe (MoveIdle call).
Proof using call_quiet.
  intros s Hs. unfold MoveIdle, empty. mm_unfold. destruct Hs as [exp a b c n0 n1 n2 fl nx lv tr].
  simpl mm_top. rewrite (proj2 (Z.ltb_ge _ 0)) by apply top_range.
  unfold top, deref, GetMotionSlot. mm_unfold.
  destruct b as [b|], c as [c|]; simpl;
    (case_match; [apply mm_safe_Mutate_static; by constructor|]);
    (eexists; split; [reflexivity|apply step_ok_refl; by constructor]).
Qed.

Lemma type_of_eq g s : (dynamic g → g_id g ∈ mm_live s) → type_of g s = Ok (GetMovementGeneratorType g, s).
Proof.
  intros Hl. unfold type_of, alive, dynamic in *. mm_unfold. destruct (isStatic g); [done|].
  simpl. by rewrite bool_decide_true by auto.
Qed.

Lemma mm_safe_MoveCharge x y z sp id gp : safe (MoveCharge call x y z sp id gp).
Proof using call_quiet.
  intros s Hs. unfold MoveCharge. change (slot_index _) with 2. unfold mbind, M_bind.
  destruct (read_slot 2 s Hs) as (p & -> & _ & Hp); [lia|].
  destruct p as [g|]; [|by apply mm_safe_Mutate_new].
  rewrite type_of_eq by auto. simpl. case_match; [by apply mm_safe_ret|by apply mm_safe_Mutate_new].
Qed.

Lemma mm_safe_MoveDistract t : safe (MoveDistract call t).
Proof using call_quiet.
  intros s Hs. unfold MoveDistract. change (slot_index _) with 2. unfold mbind, M_bind.
  destruct (read_slot 2 s Hs) as (p & -> & _ & Hp); [lia|].
  destruct p; [by apply mm_safe_ret|by apply mm_safe_Mutate_new].
Qed.

Lemma mm_safe_propagate n i : 0 ≤ i → i + Z.of_nat n = 3 → safe (propagate_from call n i).
Proof using call_quiet.
  revert i. induction n as [|n IH]; intros i Hi Hn s Hs.
  - simpl. mm_unfold. destruct (mm_top s <? i) eqn:Ht; [by apply mm_safe_ret|].
    destruct Hs. simpl in Ht. pose proof (top_range b c). lia.
  - simpl. mm_unfold. destruct (mm_top s <? i) eqn:Ht; [by apply mm_safe_ret|].
    destruct (read_slot i s Hs) as (p & -> & _ & Hp); [lia|].
    assert (safe (if_some p (λ g, vcall call (EvSpeedChanged g) g);; propagate_from call n (i + 1))
      ∨ ∃ g, p = Some g) as [H|[g ->]]; [|exact (H s Hs)|].
    { destruct p; [by right; eexists|left]. simpl. apply mm_safe_seq; [apply mm_safe_ret|apply IH; lia]. }
    simpl. rewrite vcall_eq by first [done | by apply Hp]. pose proof (mm_safe_call (EvSpeedChanged g) eq_refl s Hs) as (s1 & Hc & Hst).
    rewrite call_quiet in Hc by done. injection Hc as Hc.
    pose proof Hst as [Hw _]. subst s1.
    destruct (IH (i + 1)) with (s := upd_trace (cons (EvSpeedChanged g)) s) as (s2 & Hr & Hst2); [lia|lia|done|].
    exists s2. split; [exact Hr|exact (step_ok_trans _ _ _ Hst Hst2)].
Qed.

Lemma mm_safe_MoveTargetedHome : safe (MoveTargetedHome E call).
Proof using call_quiet.
  apply mm_safe_seq; [apply mm_safe_Clear|]. apply mm_safe_owner. intros o.
  repeat apply mm_safe_if; auto with mm_safe. destruct (GetCharmerOrOwner o); auto with mm_safe.
Qed.

Lemma mm_safe_run_op o : words_ok → safe (run_op E call o).
Proof using call_quiet.
  intros Hw. destruct o; simpl; unfold MoveRandom, MoveFollow, MoveChase, MoveConfused, MovePoint,
    MoveLand, MoveTakeoff, MoveChargePath, MoveKnockbackFrom, MoveJumpTo, MoveJump, MoveFall,
    MoveSeekAssistance, MoveSeekAssistanceDistract, MoveTaxiFlight, MovePath, MoveRotate, MoveFleeing;
  auto 20 using mm_safe_Initialize, mm_safe_MoveIdle, mm_safe_MoveTargetedHome, mm_safe_MoveCharge, mm_safe_MoveDistract
    with mm_safe.
  - destruct enemy; auto 10 with mm_safe.
  - by apply mm_safe_propagate.
Qed.

(** *** Deleting what an update put aside *)

Lemma delete_expired_spec l i n a b c ns fl nx lv tr :
  (length l ≤ i + n)%nat →
  heap_ok (a :: option_list b ++ option_list c ++ drop i l) nx lv tr →
  ∃ lv' tr',
    delete_expired call n i (mkMM (Some l) [Some a; b; c] (top_of b c) ns fl nx lv tr) =
      Ok (tt, mkMM (Some l) [Some a; b; c] (top_of b c) ns fl nx lv' tr') ∧
    heap_ok (a :: option_list b ++ option_list c) nx lv' tr' ∧ (∀ ev, ev ∈ tr → ev ∈ tr').
Proof using call_quiet.
  revert i lv tr. induction n as [|n IH]; intros i lv tr Hn Hh; simpl; mm_unfold; simpl;
    (destruct (l !! i) as [g|] eqn:Hg;
     [|exists lv, tr; split; [done|split; [|done]];
       rewrite drop_ge, app_nil_r in Hh by (by apply lookup_ge_None); done]).
  - apply lookup_lt_Some in Hg. lia.
  - rewrite (drop_S _ _ _ Hg) in Hh.
    assert (heap_ok (g :: a :: option_list b ++ option_list c ++ drop (S i) l) nx lv tr) as Hh'
      by (eapply heap_ok_perm, Hh; solve_Permutation).
    rewrite DirectDelete_eq by (intros; eapply heap_ok_dynamic_live; [exact Hh'|left|done]).
    unfold deleted, upd_trace, upd_live. simpl. apply heap_ok_del in Hh'.
    destruct (IH (S i) (del_live g lv) (del_trace g tr)) as (lv' & tr' & Hr & ? & Hin); [lia|done|].
    exists lv', tr'. split; [exact Hr|]. split; [done|]. intros ev Hev. by apply Hin, elem_del_trace.
Qed.

Lemma clear_reset_flag fl : Z.land (Z.land fl (Z.lnot MMCF_RESET)) MMCF_UPDATE = Z.land fl MMCF_UPDATE.
Proof. rewrite <-Z.land_assoc. by f_equal. Qed.

Lemma restart_top_eq s : 0 ≤ mm_top s →
  restart_top E call s = init_or_reset call (z2b (Z.land (mm_cleanFlag s) MMCF_RESET)) s.
Proof.
  intros Ht. unfold restart_top, init_or_reset, needInitTop, empty. mm_unfold.
  rewrite (proj2 (Z.ltb_ge _ 0) Ht). repeat case_match; simplify_eq; first [congruence | lia].
Qed.

Lemma clean_expired_spec l s :
  wf s → mm_expList s = Some l → updating s = false →
  ∃ s', clean_expired E call l s = Ok (tt, s') ∧ quiescent s'.
Proof using call_quiet.
  intros [exp a b c n0 n1 n2 fl nx lv tr Hh Hd H0 H1 H2 Ht] Hl Hu. simpl in Hl. subst exp.
  unfold clean_expired. unfold mbind, M_bind.
  destruct (delete_expired_spec l 0 (length l + max_rounds) a b c [n0; n1; n2] fl nx lv tr)
    as (lv' & tr' & -> & Hh' & Hin); [lia|done|].
  unfold modify at 1. unfold upd_expList. simpl mm_Impl. simpl mm_top.
  rewrite restart_top_eq by apply top_range. clear Hh. rename Hh' into Hh.
  assert (∀ n p, initialised n p tr → initialised n p tr') as Hi by (unfold initialised; eauto).
  apply Hi in H0, H1, H2. clear Hi Hin. rewrite Forall_app in Hd. destruct Hd as [Hb Hd].
  rewrite Forall_app in Hd. destruct Hd as [Hc _].
  assert (Forall dynamic (option_list b ++ option_list c ++ default [] (@None (list MovementGenerator)))) as Hd
    by (by rewrite !Forall_app).
  assert (heap_ok (a :: option_list b ++ option_list c ++ default [] None) nx lv' tr') as Hh2
    by (simpl; by rewrite app_nil_r).
  destruct (mm_safe_init_or_reset_gen None a b c n0 n1 n2 fl nx lv' tr' (z2b (Z.land fl MMCF_RESET)))
    as (s' & Hr & Hw & Hu' & He); auto.
  simpl in Hr |- *. rewrite Hr.
  unfold modify, upd_cleanFlag. eexists. split; [reflexivity|]. destruct Hw. simpl in *.
  split; [by constructor|]. split; [by apply He|].
  unfold updating in *. simpl in *. rewrite clear_reset_flag. congruence.
Qed.

(** *** The operations implement the specification *)

Lemma del_trace_ends g tr : del_trace g tr = ends (Some g) ++ tr.
Proof. unfold del_trace. simpl. by destruct (isStatic g). Qed.

Lemma implements_safe m f : safe m →
  (∀ s A, quiescent s → abs s = Some A →
    ∃ s', m s = Ok (tt, s') ∧ abs s' = Some (f A).1 ∧ mm_trace s' = (f A).2 ++ mm_trace s) →
  implements m f.
Proof.
  intros Hm Hf s A Hq HA. destruct (Hf s A Hq HA) as (s' & Hr & ?). exists s'. split; [done|].
  split; [|done]. destruct Hq as (Hw & He & Hu). destruct (Hm s Hw) as (s2 & Hr2 & Hw2 & Hu2 & He2).
  assert (s2 = s') as -> by congruence. split; [done|]. split; [auto|congruence].
Qed.

(** Runs the calls on an explicit state and compares. *)
Ltac mm_compare :=
  eexists; split; [reflexivity|]; split; [reflexivity|];
  simpl; rewrite ?del_trace_ends, <-?(assoc_L (++)); simpl; reflexivity.

Lemma init_or_reset_spec exp a b c n0 n1 n2 fl nx lv tr reset :
  heap_ok (a :: option_list b ++ option_list c ++ default [] exp) nx lv tr →
  ∃ s', init_or_reset call reset (mkMM exp [Some a; b; c] (top_of b c) [n0; n1; n2] fl nx lv tr) = Ok (tt, s') ∧
    abs s' = Some (restarts reset (mkSlots a b c (n0, n1, n2))).1 ∧
    mm_trace s' = (restarts reset (mkSlots a b c (n0, n1, n2))).2 ++ tr.
Proof using call_quiet.
  intros Hh. unfold init_or_reset, needInitTop, InitTop, ResetTop, set_needInit. mm_open.
  destruct b as [b|], c as [c|]; mm_unfold; simpl in *;
    [destruct n2|destruct n1|destruct n2|destruct n0];
    simpl; try (destruct reset; simpl); repeat mm_call; mm_compare.
Qed.

Lemma DirectDelete_ends g exp a b c ns fl nx lv tr :
  heap_ok (g :: a :: option_list b ++ option_list c ++ default [] exp) nx lv tr →
  ∃ lv', DirectDelete call g (mkMM exp [Some a; b; c] (top_of b c) ns fl nx lv tr) =
      Ok (tt, mkMM exp [Some a; b; c] (top_of b c) ns fl nx lv' (ends (Some g) ++ tr)) ∧
    heap_ok (a :: option_list b ++ option_list c ++ default [] exp) nx lv' (ends (Some g) ++ tr).
Proof using call_quiet.
  intros Hh. rewrite DirectDelete_eq by (intros; eapply heap_ok_dynamic_live; [exact Hh|left|done]).
  exists (del_live g lv). unfold deleted, upd_trace, upd_live. simpl mm_trace.
  rewrite del_trace_ends. split; [done|]. rewrite <-del_trace_ends. by apply heap_ok_del.
Qed.

(** The slots without the highest generator, and that generator. *)
Definition drop_top (b c : option MovementGenerator) :=
  match c with Some _ => (b, @None MovementGenerator, c) | None => (None, None, b) end.

Lemma expire_top_eq exp a b c ns fl nx lv tr :
  heap_ok (a :: option_list b ++ option_list c ++ default [] exp) nx lv tr →
  let '(b', c', gone) := drop_top b c in
  ∃ lv', expire_top (DirectDelete call) (mkMM exp [Some a; b; c] (top_of b c) ns fl nx lv tr) =
      Ok (tt, mkMM exp [Some a; b'; c'] (top_of b' c') ns fl nx lv' (ends gone ++ tr)) ∧
    heap_ok (a :: option_list b' ++ option_list c' ++ default [] exp) nx lv' (ends gone ++ tr).
Proof using call_quiet.
  intros Hh. unfold drop_top, expire_top. unfold mbind at 1, M_bind at 1, get at 1.
  unfold size. simpl mm_top.
  destruct c as [c|]; [|destruct b as [b|]].
  - apply (heap_ok_perm _ (c :: a :: option_list b ++ option_list None ++ default [] exp)) in Hh;
      [|simpl; solve_Permutation].
    apply (DirectDelete_ends c exp a b None ns fl) in Hh as (lv' & Hr & Hh).
    exists lv'. split; [|done]. change (top_of b (Some c)) with 2. change (_ >? 1) with true.
    unfold mbind at 1, M_bind at 1. rewrite expire_c, Hr. apply skip_null_shape.
  - apply (heap_ok_perm _ (b :: a :: option_list None ++ option_list None ++ default [] exp)) in Hh;
      [|simpl; solve_Permutation].
    apply (DirectDelete_ends b exp a None None ns fl) in Hh as (lv' & Hr & Hh).
    exists lv'. split; [|done]. change (top_of (Some b) None) with 1. change (_ >? 1) with true.
    unfold mbind at 1, M_bind at 1. rewrite expire_b, Hr. apply skip_null_shape.
  - by exists lv.
Qed.

Lemma clean_loop_eq exp a b c ns fl nx lv tr :
  heap_ok (a :: option_list b ++ option_list c ++ default [] exp) nx lv tr →
  ∃ lv', clean_loop E max_rounds (DirectDelete call) (mkMM exp [Some a; b; c] (top_of b c) ns fl nx lv tr) =
      Ok (tt, mkMM exp [Some a; None; None] 0 ns fl nx lv' (ends b ++ ends c ++ tr)) ∧
    heap_ok (a :: default [] exp) nx lv' (ends b ++ ends c ++ tr).
Proof using call_quiet.
  unfold max_rounds. change 100%nat with (S (S 98)).
  assert (∀ n lv tr, heap_ok (a :: option_list b ++ default [] exp) nx lv tr →
    ∃ lv', clean_loop E (S n) (DirectDelete call) (mkMM exp [Some a; b; None] (top_of b None) ns fl nx lv tr) =
      Ok (tt, mkMM exp [Some a; None; None] 0 ns fl nx lv' (ends b ++ tr)) ∧
    heap_ok (a :: default [] exp) nx lv' (ends b ++ tr)) as Hb.
  { clear lv tr. intros n lv tr Hh. destruct b as [b|]; [|by exists lv].
    apply (heap_ok_perm _ (b :: a :: option_list None ++ option_list None ++ default [] exp)) in Hh;
      [|simpl; solve_Permutation].
    apply (DirectDelete_ends b exp a None None ns fl) in Hh as (lv' & Hr & Hh).
    exists lv'. split; [|done]. change (top_of (Some b) None) with 1. rewrite clean_round_b.
    unfold mbind, M_bind. rewrite Hr. apply clean_round_end. }
  intros Hh. destruct c as [c|]; [|by apply Hb].
  apply (heap_ok_perm _ (c :: a :: option_list b ++ option_list None ++ default [] exp)) in Hh;
    [|simpl; solve_Permutation].
  apply (DirectDelete_ends c exp a b None ns fl) in Hh as (lv' & Hr & Hh).
  change (top_of b (Some c)) with 2. rewrite clean_round_c. unfold mbind, M_bind. rewrite Hr.
  by apply Hb.
Qed.

Lemma MovementExpired_implements reset : implements (MovementExpired E call reset) (spec_expire reset).
Proof using call_quiet.
  apply implements_safe; [by apply mm_safe_MovementExpired|].
  intros s A ([exp a b c n0 n1 n2 fl nx lv tr Hh Hd H0 H1 H2 Ht] & He & Hu) HA.
  injection HA as <-. simpl in He. subst exp.
  unfold MovementExpired. unfold mbind at 1, M_bind at 1, get at 1. rewrite Hu.
  rewrite DirectExpire_eq. unfold mbind, M_bind, get.
  apply (expire_top_eq None a b c [n0; n1; n2] fl) in Hh. unfold drop_top in Hh.
  destruct c as [c|]; [|destruct b as [b|]]; destruct Hh as (lv' & -> & Hh); unfold empty; simpl mm_top;
    rewrite (proj2 (Z.ltb_ge _ 0)) by apply top_range;
    eapply init_or_reset_spec in Hh as (s' & Hr & HA & Htr); (exists s'; split; [exact Hr|]);
    rewrite HA, Htr; unfold spec_expire; cbn [sl_controlled sl_active sl_idle sl_pending];
    destruct (restarts _ _) as [A' evs]; simpl; by rewrite <-?(assoc_L (++)).
Qed.

Lemma Clear_implements reset : implements (Clear E call reset) (spec_clear reset).
Proof using call_quiet.
  apply implements_safe; [by apply mm_safe_Clear|].
  intros s A ([exp a b c n0 n1 n2 fl nx lv tr Hh Hd H0 H1 H2 Ht] & He & Hu) HA.
  injection HA as <-. simpl in He. subst exp.
  unfold Clear. unfold mbind at 1, M_bind at 1, get at 1. rewrite Hu.
  unfold DirectClean, mbind, M_bind.
  apply (clean_loop_eq None a b c [n0; n1; n2] fl) in Hh as (lv' & -> & Hh).
  apply (init_or_reset_spec None a None None n0 n1 n2 fl _ _ _ reset) in Hh as (s' & Hr & HA & Htr).
  exists s'. split; [exact Hr|]. rewrite HA, Htr. unfold spec_clear. cbn [sl_controlled sl_active sl_idle sl_pending].
  destruct (restarts _ _) as [A' evs]; simpl; by rewrite <-!(assoc_L (++)).
Qed.

Lemma Mutate_spec m sl a b c n0 n1 n2 fl nx lv tr :
  heap_ok (m :: a :: option_list b ++ option_list c) nx lv tr →
  Forall dynamic (option_list b ++ option_list c) →
  let s := mkMM None [Some a; b; c] (top_of b c) [n0; n1; n2] fl nx lv tr in
  updating s = false →
  ∃ s', Mutate call m sl s = Ok (tt, s') ∧
    abs s' = Some (spec_mutate m sl (mkSlots a b c (n0, n1, n2))).1 ∧
    mm_trace s' = (spec_mutate m sl (mkSlots a b c (n0, n1, n2))).2 ++ tr.
Proof using call_quiet.
  intros Hh Hd s Hu. subst s. unfold updating in Hu. simpl in Hu.
  unfold Mutate, GetMotionSlot, set_slot, set_needInit, updating.
  destruct sl, b as [b|], c as [c|]; simpl in *; mm_unfold; simpl; rewrite ?Hu; simpl;
    repeat mm_call; mm_compare.
Qed.

(** *** Moves that meet an update or a finalisation *)

Lemma confused_then_point a b n0 n1 n2 fl nx lv tr :
  heap_ok [a; b] nx lv tr → dynamic b →
  ∃ s2, (MoveConfused call;; MovePoint call 0 0 0 0 false)
      (mkMM None [Some a; Some b; None] 1 [n0; n1; n2] fl nx lv tr) = Ok (tt, s2) ∧
    g_id b ∉ mm_live s2 ∧ EvDelete b ∈ mm_trace s2.
Proof using call_quiet.
  intros Hh Hb. unfold dynamic in Hb.
  apply (heap_ok_new ConfusedMovementGenerator) in Hh as Hh1.
  apply (heap_ok_event (EvInitialize (mkGen nx ConfusedMovementGenerator))) in Hh1; [|done].
  apply (heap_ok_new (PointMovementGenerator 0 0 0 0 false 0)) in Hh1 as Hh2. clear Hh1.
  unfold MoveConfused, MovePoint, Mutate_new, new, Mutate, GetMotionSlot, set_slot, set_needInit.
  mm_unfold. simpl. rewrite vcall_eq; [|intros; left|done]. simpl.
  rewrite DirectDelete_eq by
    (intros; simpl; eapply heap_ok_dynamic_live; [exact Hh2|do 3 right; left|done]).
  eexists. split; [reflexivity|]. simpl. unfold del_live, del_trace. rewrite Hb. split.
  - rewrite list_elem_of_filter. naive_solver.
  - left.
Qed.

End Quiet.

(** ** Generators that call back from [Update] only *)

Definition is_update (ev : event) : bool := match ev with EvUpdate _ _ => true | _ => false end.

(** The methods of the generators other than [Update] call nothing of the MotionMaster. *)
Definition only_update_reacts (E : Env) : Prop :=
  ∀ ev tr, is_update ev = false → react E (ev :: tr) = [].

Section Updating.
Context (E : Env) (n : nat).
Hypothesis Honly : only_update_reacts E.
Hypothesis Hwords : words_ok E.

Lemma call_n_quiet m ev s : (∀ g d, ev ≠ EvUpdate g d) →
  call_n E m ev s = Ok (tt, upd_trace (cons ev) s).
Proof using Honly.
  intros Hev. assert (is_update ev = false) as Hq by (destruct ev; naive_solver).
  destruct m; simpl; unfold emit; mm_unfold; simpl; by rewrite Honly by done.
Qed.

Let call := call_n E (S n).

Lemma run_ops_safe m ops : safe (run_ops E (call_n E m) ops).
Proof using Honly Hwords.
  induction ops as [|o ops IH]; simpl; [apply mm_safe_ret|].
  apply mm_safe_seq; [|exact IH]. apply mm_safe_run_op; [apply call_n_quiet|exact Hwords].
Qed.

Lemma update_call g d s :
  wf s → g_id g ∈ mm_live s ∨ isStatic g = true → EvInitialize g ∈ mm_trace s →
  ∃ s', vcall call (EvUpdate g d) g s = Ok (tt, s') ∧ wf s' ∧ updating s' = updating s.
Proof using Honly Hwords.
  intros Hs Hg Hi. unfold vcall, alive. mm_unfold.
  assert (isStatic g || bool_decide (g_id g ∈ mm_live s) = true) as ->.
  { destruct Hg as [Hg| ->]; [|done]. rewrite bool_decide_true by done. by rewrite orb_true_r. }
  subst call. simpl. unfold emit. mm_unfold. simpl.
  destruct Hs as [exp a b c n0 n1 n2 fl nx lv tr Hh Hd H0 H1 H2 Ht]. simpl in *.
  apply (heap_ok_update g d) in Hh; [|done].
  assert (wf (mkMM exp [Some a; b; c] (top_of b c) [n0; n1; n2] fl nx lv (EvUpdate g d :: tr))) as Hw
    by (apply wf_intro; auto using initialised_cons).
  destruct (react E (EvUpdate g d :: tr)) as [|o ops]; [by eauto|].
  destruct (run_ops_safe n (o :: ops) _ Hw) as (s' & Hr & Hw' & Hu & _). eauto.
Qed.

Lemma set_update_flag_wf b s : wf s →
  ∃ s', set_update_flag b s = Ok (tt, s') ∧ wf s' ∧ updating s' = b ∧
    mm_expList s' = mm_expList s ∧ mm_Impl s' = mm_Impl s ∧ mm_top s' = mm_top s ∧
    mm_live s' = mm_live s ∧ mm_trace s' = mm_trace s.
Proof.
  intros []. unfold set_update_flag. mm_unfold. simpl. eexists. split; [reflexivity|].
  split; [by constructor|]. split; [|done]. unfold updating, MMCF_UPDATE. simpl.
  destruct b; [rewrite Z.land_lor_distr_l|rewrite <-Z.land_assoc].
  - change (Z.land 1 1) with 1. unfold z2b. destruct (_ =? 0) eqn:He; [|done].
    apply Z.eqb_eq in He. apply Z.lor_eq_0_iff in He. lia.
  - change (Z.land (Z.lnot 1) 1) with 0. by rewrite Z.land_0_r.
Qed.

(** The top generator of a quiescent state is live and initialised. *)
Lemma quiescent_top s : quiescent s →
  ∃ g, top s = Ok (Some g, s) ∧ (g_id g ∈ mm_live s ∨ isStatic g = true) ∧ EvInitialize g ∈ mm_trace s.
Proof.
  intros (Hw & He & _). destruct Hw as [exp a b c n0 n1 n2 fl nx lv tr Hh Hd H0 H1 H2 Ht].
  simpl in *. subst exp. destruct Ht as [Ht|]; [|done].
  assert (∀ g, g ∈ a :: option_list b ++ option_list c ++ [] → g_id g ∈ lv ∨ isStatic g = true) as Hl.
  { intros g Hg. destruct (isStatic g) eqn:Hst; [by right|left]. by eapply heap_ok_dynamic_live. }
  unfold top, GetMotionSlot. mm_unfold.
  destruct c as [c|]; [exists c|destruct b as [b|]; [exists b|exists a]]; simpl in *;
    (split; [by try destruct b|]); (split; [apply Hl|auto]).
  - rewrite elem_of_cons, elem_of_app, elem_of_cons. tauto.
  - right. left.
  - left.
Qed.

Lemma UpdateMotion_ok diff s : quiescent s →
  ∃ s', UpdateMotion E call diff s = Ok (tt, s') ∧ quiescent s'.
Proof using Honly Hwords.
  intros Hq. unfold UpdateMotion, owner. unfold mbind, M_bind, get, mret, M_ret.
  destruct (o_rooted_or_stunned _); [by eauto|].
  destruct (quiescent_top s Hq) as (g & Htop & Hlive & Hinit). destruct Hq as (Hw & He & Hu).
  assert (empty s = false) as ->.
  { unfold empty. destruct Hw. apply Z.ltb_ge. simpl. apply top_range. }
  destruct (set_update_flag_wf true s Hw) as (s1 & -> & Hw1 & Hu1 & He1 & HI1 & Ht1 & Hl1 & Htr1).
  assert (top s1 = Ok (Some g, s1)) as ->.
  { unfold top, GetMotionSlot in *. revert Htop. mm_unfold. rewrite HI1, Ht1.
    repeat case_match; naive_solver. }
  unfold deref, mret, M_ret. destruct (update_call g diff s1) as (s2 & -> & Hw2 & Hu2); [done|by rewrite Hl1|by rewrite Htr1|].
  assert (∃ s3, (if negb (returns E (mm_trace s2))
    then set_update_flag false;; MovementExpired E call true else set_update_flag false) s2 = Ok (tt, s3) ∧
    wf s3 ∧ updating s3 = false) as (s3 & Hr3 & Hw3 & Hu3).
  { destruct (set_update_flag_wf false s2 Hw2) as (s3 & Hr3 & Hw3 & Hu3 & _).
    destruct (negb _); [|by eauto]. unfold mbind, M_bind. rewrite Hr3.
    destruct (mm_safe_MovementExpired E call (call_n_quiet _) true s3 Hw3) as (s4 & ? & ? & ? & _).
    exists s4. split; [done|]. split; [done|congruence]. }
  unfold mbind, M_bind in Hr3. rewrite Hr3.
  assert (∀ s4, quiescent s4 → ∃ s', call EvUpdateUnderwaterState s4 = Ok (tt, s') ∧ quiescent s') as Hend.
  { intros s4 (Hw4 & He4 & Hu4).
    destruct (mm_safe_call call (call_n_quiet _) EvUpdateUnderwaterState eq_refl s4 Hw4)
      as (s5 & ? & ? & ? & Hexp).
    exists s5. split; [done|]. split; [done|]. split; [auto|congruence]. }
  destruct (mm_expList s3) as [l|] eqn:Hexp; [|by apply Hend].
  destruct (clean_expired_spec E call (call_n_quiet _) l s3) as (s4 & -> & Hq4); [done..|].
  by apply Hend.
Qed.

Lemma run_op_ok o s : quiescent s →
  ∃ s', run_op E call o s = Ok (tt, s') ∧ quiescent s'.
Proof using Honly Hwords.
  intros (Hw & He & Hu).
  destruct (mm_safe_run_op E call (call_n_quiet _) o Hwords s Hw) as (s' & ? & ? & ? & Hexp).
  exists s'. split; [done|]. split; [done|]. split; [auto|congruence].
Qed.

Lemma first_Initialize_ok : ∃ s', Initialize E call new_MotionMaster = Ok (tt, s') ∧ quiescent s'.
Proof using Honly.
  assert (heap_ok [] 1 [] []) as Hh.
  { constructor; simpl; auto; [constructor|intros i Hi; by apply not_elem_of_nil in Hi|lia|].
    intros i. rewrite decide_False; [done|]. lia. }
  destruct (InitDefault_ok E call (call_n_quiet _) None (-1) true true true 0 1 [] [])
    as (s' & ? & ? & ? & ?); [lia|done|constructor|].
  exists s'. split; [done|]. split; [done|auto].
Qed.

End Updating.

(** A life of a unit: operations from outside and updates. *)
Inductive command : Type := CmdOp (o : op) | CmdUpdate (diff : Z).

Definition run_command (E : Env) (n : nat) (c : command) : M MotionMaster unit :=
  match c with
  | CmdOp o => run_op E (call_n E n) o
  | CmdUpdate diff => UpdateMotion E (call_n E n) diff
  end.

Fixpoint run_commands (E : Env) (n : nat) (cs : list command) : M MotionMaster unit :=
  match cs with
  | [] => mret tt
  | c :: cs => run_command E n c;; run_commands E n cs
  end.

(** From [Initialize] of a new MotionMaster on. *)
Definition life (E : Env) (n : nat) (cs : list command) : result (unit * MotionMaster) :=
  (Initialize E (call_n E n);; run_commands E n cs) new_MotionMaster.

Lemma life_quiescent E n cs : only_update_reacts E → words_ok E →
  ∃ s, life E (S n) cs = Ok (tt, s) ∧ quiescent s.
Proof.
  intros Ho Hw. unfold life, mbind, M_bind.
  destruct (first_Initialize_ok E n Ho) as (s & -> & Hs).
  revert s Hs. induction cs as [|c cs IH]; intros s Hs; [by eauto|].
  assert (∃ s', run_command E (S n) c s = Ok (tt, s') ∧ quiescent s') as (s' & Hr & Hs').
  { destruct c; [by apply run_op_ok|by apply UpdateMotion_ok]. }
  cbn [run_commands]. unfold mbind, M_bind. rewrite Hr. by apply IH.
Qed.

(** The generators that the slots hold. *)
Definition held (s : MotionMaster) : list MovementGenerator := omap id (mm_Impl s).



(** ** Reading before the array *)

(** [Initialize] of a MotionMaster that holds anything, and its destructor, always read
    the array [Impl] below its start: after the last generator is popped, [pop] looks for a
    lower one.  [_expList], which lies there, is null, so the word before it is read, which
    is undefined behaviour. *)
Theorem Initialize_out_of_bounds E n s : only_update_reacts E → quiescent s →
  word_before E (-2) = Throw UndefinedBehaviour →
  Initialize E (call_n E n) s = Throw UndefinedBehaviour ∧
  destructor E (call_n E n) s = Throw UndefinedBehaviour.
Proof.
  intros Ho (Hw & He & _) Hword. pose proof (call_n_quiet E Ho n) as Hq.
  assert (destructor E (call_n E n) s = Throw UndefinedBehaviour) as Hd.
  2: { split; [|done]. unfold Initialize, mbind, M_bind. unfold destructor in Hd. by rewrite Hd. }
  destruct Hw as [exp a b c n0 n1 n2 fl nx lv tr Hh _]. simpl in He. subst exp.
  unfold destructor, max_rounds. change 100%nat with (S (S (S 97))).
  assert (∀ n' ns lv tr, delete_all E (call_n E n) (S n') (mkMM None [Some a; None; None] 0 ns fl nx lv tr) =
    Throw UndefinedBehaviour) as Ha.
  { intros. rewrite delete_round_a. unfold mbind at 1, M_bind at 1.
    unfold skip_null_tops, MAX_MOTION_SLOT, words_before. change (3 + 64 + 1)%nat with (S (S (S 65))).
    remember 65%nat as k. simpl. unfold nonnull_at. mm_unfold. simpl.
    change (0 - 1 - 1) with (-2). by rewrite Hword. }
  assert (∀ n' lv tr, heap_ok (a :: option_list b ++ []) nx lv tr →
    delete_all E (call_n E n) (S (S n')) (mkMM None [Some a; b; None] (top_of b None) [n0; n1; n2] fl nx lv tr) =
    Throw UndefinedBehaviour) as Hb.
  { intros n' lv' tr' Hh'. destruct b as [b|]; [|apply Ha]. change (top_of _ _) with 1.
    rewrite delete_round_b. unfold mbind at 1, M_bind at 1. rewrite DirectDelete_eq; [apply Ha|done|].
    intros. eapply heap_ok_dynamic_live; [exact Hh'|right; left|done]. }
  destruct c as [c|]; [|by apply Hb]. change (top_of _ _) with 2.
  rewrite delete_round_c. unfold mbind at 1, M_bind at 1.
  apply (heap_ok_perm _ (c :: a :: option_list b ++ [])) in Hh; [|simpl; solve_Permutation].
  rewrite DirectDelete_eq; [|done|intros; eapply heap_ok_dynamic_live; [exact Hh|left|done]].
  by apply Hb, heap_ok_del.
Qed.

(** ** Deleting the generator that is being updated *)

(** The test [_top == slot] in [Mutate] protects the generator being updated only while
    it is the highest: an [Update] of the active generator that first places a controlled
    generator and then a new active one has deleted the active generator, whose [Update] is
    still running, when it returns. *)
Theorem update_deletes_itself E n d s a b :
  only_update_reacts E → words_ok E → quiescent s →
  mm_Impl s = [Some a; Some b; None] → dynamic b →
  (∀ tr, react E (EvUpdate b d :: tr) = [OpMoveConfused; OpMovePoint 0 0 0 0 false]) →
  ∃ s1 s2, set_update_flag true s = Ok (tt, s1) ∧ top s1 = Ok (Some b, s1) ∧
    vcall (call_n E (S n)) (EvUpdate b d) b s1 = Ok (tt, s2) ∧
    g_id b ∈ mm_live s1 ∧ g_id b ∉ mm_live s2 ∧ EvDelete b ∈ mm_trace s2.
Proof.
  intros Ho Hwords (Hw & He & Hu) HI Hb Hre. pose proof (call_n_quiet E Ho n) as Hq.
  destruct Hw as [exp a' b' c n0 n1 n2 fl nx lv tr Hh Hd H0 H1 H2 Ht]. simpl in HI, He.
  injection HI as -> -> ->. subst exp. simpl in Hh, Hd.
  assert (g_id b ∈ lv) as Hbl by (eapply heap_ok_dynamic_live; [exact Hh|right; left|done]).
  apply (heap_ok_update b d) in Hh; [|destruct Ht as [Ht|]; [by apply H1|done]].
  destruct (confused_then_point (call_n E n) Hq a b n0 n1 n2 (Z.lor fl MMCF_UPDATE) nx lv
    (EvUpdate b d :: tr)) as (s2 & Hr & Hn & Hdel); [done..|].
  eexists _, s2. split; [reflexivity|]. split; [reflexivity|].
  split; [|split; [exact Hbl|by split]].
  unfold vcall, alive, upd_cleanFlag. unfold mbind, M_bind, get. simpl mm_live.
  rewrite (Hb : isStatic b = false), bool_decide_true by done. simpl.
  unfold emit. mm_unfold. simpl. rewrite Hre. simpl.
  unfold mbind, M_bind in Hr. destruct (MoveConfused (call_n E n) _) as [[[] s']|]; [|done].
  unfold mbind, M_bind. by rewrite Hr.
Qed.

(** ** Losing a generator during a replacement *)

(** The distraction that starts while the slot is empty during a [Mutate] of that slot. *)
Lemma distract_in_gap call delay a n0 n1 n2 fl nx lv tr :
  let x := mkGen nx (AssistanceDistractMovementGenerator delay) in
  (∀ s, call (EvInitialize x) s = Ok (tt, upd_trace (cons (EvInitialize x)) s)) →
  Mutate_new call (AssistanceDistractMovementGenerator delay) MOTION_SLOT_ACTIVE
      (mkMM None [Some a; None; None] 1 [n0; n1; n2] fl nx lv tr) =
    Ok (tt, mkMM None [Some a; Some x; None] 1 [n0; false; n2] fl (nx + 1) (nx :: lv)
              (EvInitialize x :: EvNew x :: tr)).
Proof.
  intros x Hq. unfold Mutate_new, new, Mutate, GetMotionSlot, set_slot, set_needInit, vcall, alive.
  mm_unfold. simpl. rewrite bool_decide_true by left. rewrite orb_true_r. by rewrite Hq.
Qed.

Lemma not_finalized_yet g l nx lv tr : heap_ok l nx lv tr → nx ≤ g_id g → EvFinalize g ∉ tr.
Proof.
  intros Hh Hn Hin. pose proof (heap_finalizes _ _ _ _ Hh (g_id g)) as Hf.
  rewrite (heap_deletes _ _ _ _ Hh), decide_False in Hf by lia.
  assert (EvFinalize g ∈ finalizes (g_id g) tr) as Hm by by apply list_elem_of_filter.
  destruct (finalizes (g_id g) tr); [by apply not_elem_of_nil in Hm|done].
Qed.

(** [Mutate] empties the slot before it finalises the old generator "in case a new one is
    generated in this slot", and then overwrites the slot: when a creature that runs for
    assistance starts any chase, the distraction that [Finalize] of the old generator starts
    is overwritten.  It is initialised, and then neither finalised nor deleted, and nothing
    holds it any more. *)
Theorem assistance_leaks E n s a b t dist angle delay x y z :
  quiescent s → mm_Impl s = [Some a; Some b; None] → g_class b = AssistanceMovementGenerator x y z → dynamic b →
  (∀ tr, GetTypeId (owner_at E tr) = TYPEID_UNIT ∧ o_alive (owner_at E tr) = true ∧
         ignores_target (owner_at E tr) (Some t) = false) →
  (∀ ev tr, react E (ev :: tr) =
     match ev with EvFinalize g => finalize_react delay (owner_at E (ev :: tr)) g | _ => [] end) →
  ∃ s', run_op E (call_n E (S n)) (OpMoveChase (Some t) dist angle) s = Ok (tt, s') ∧
    let chase := mkGen (mm_next s) (ChaseMovementGenerator t dist angle) in
    let lost := mkGen (mm_next s + 1) (AssistanceDistractMovementGenerator delay) in
    mm_Impl s' = [Some a; Some chase; None] ∧ mm_expList s' = None ∧
    g_id lost ∈ mm_live s' ∧ lost ∉ held s' ∧
    EvInitialize lost ∈ mm_trace s' ∧ EvFinalize lost ∉ mm_trace s'.
Proof.
  intros (Hw & He & Hu) HI Hcl Hb Ho Hre.
  assert (∀ m ev s, (∀ g d, ev ≠ EvUpdate g d) → (∀ g, ev ≠ EvFinalize g) →
    call_n E m ev s = Ok (tt, upd_trace (cons ev) s)) as Hq.
  { intros m ev s' _ Hev. destruct m; simpl; unfold emit; mm_unfold; simpl; rewrite Hre;
      destruct ev; naive_solver. }
  destruct Hw as [exp a' b' c n0 n1 n2 fl nx lv tr Hh Hd H0 H1 H2 Ht]. simpl in HI, He.
  injection HI as -> -> ->. subst exp. simpl in Hh, Hd. unfold updating in Hu. simpl in Hu.
  apply (heap_ok_new (ChaseMovementGenerator t dist angle)) in Hh as Hh1.
  assert (g_id b ∈ lv) as Hbl by (eapply heap_ok_dynamic_live; [exact Hh|right; left|done]).
  simpl run_op. unfold MoveChase, owner, mbind, M_bind, get, mret, M_ret.
  rewrite (proj2 (proj2 (Ho _))). simpl.
  unfold Mutate_new, new, Mutate, GetMotionSlot, set_slot, set_needInit, updating. mm_unfold. simpl.
  rewrite Hu. simpl. unfold DirectDelete. rewrite (Hb : isStatic b = false).
  unfold vcall, alive. mm_unfold. simpl.
  rewrite bool_decide_true by (by right). rewrite orb_true_r. rewrite Hre. unfold finalize_react at 1.
  rewrite Hcl, (proj1 (proj2 (Ho _))). simpl.
  unfold MoveSeekAssistanceDistract, owner, mbind, M_bind, get, mret, M_ret. simpl.
  unfold is_player at 1. rewrite (proj1 (Ho _)). simpl.
  rewrite distract_in_gap by (intros; by apply Hq).
  unfold delete. mm_unfold. simpl. rewrite bool_decide_true by (by do 2 right).
  simpl. unfold emit. mm_unfold. simpl.
  assert (g_id b < nx ∧ 1 ≤ nx) as [Hbn Hn] by (destruct Hh; split; [apply heap_range0|]; done).
  assert (∀ i, nx ≤ i → i ∈ nx + 1 :: nx :: lv → i ∈ filter (λ i, i ≠ g_id b) (nx + 1 :: nx :: lv)) as Hf.
  { intros i Hi Hin. apply list_elem_of_filter. split; [lia|done]. }
  rewrite bool_decide_true by (apply Hf; [lia|right; left]). rewrite orb_true_r, Hre.
  eexists. split; [reflexivity|]. simpl. split; [done|]. split; [done|].
  split; [apply Hf; [lia|left]|]. split; [|split; [do 2 right; left|]].
  - unfold held. simpl. intros Hin. rewrite !elem_of_cons in Hin.
    destruct Hin as [Hin|[Hin|Hin]]; [|injection Hin; lia|by apply not_elem_of_nil in Hin].
    destruct (isStatic a) eqn:Hs; [apply Z.eqb_eq in Hs; rewrite <-Hin in Hs; simpl in Hs; lia|].
    assert (g_id a ∈ lv) as Ha by (eapply heap_ok_dynamic_live; [exact Hh|left|exact Hs]).
    apply (heap_range _ _ _ _ Hh) in Ha. rewrite <-Hin in Ha. simpl in Ha. lia.
  - rewrite !not_elem_of_cons. split_and!; try done.
    + intros [= <-]. simpl in Hbn. lia.
    + eapply not_finalized_yet; [exact Hh|simpl; lia].
Qed.

(** ** The theorems at concrete inputs *)

Definition plain_owner : Owner :=
  mkOwner TYPEID_UNIT 7 false false false true false None 0 None RANDOM_MOTION_TYPE false false.

(** Updates confuse the unit and then restore its default movement. *)
Definition busy_env : Env :=
  mkEnv (λ _, plain_owner)
    (λ tr, match tr with EvUpdate _ _ :: _ => [OpMoveConfused; OpInitialize] | _ => [] end)
    (λ _, false) (λ k, Ok (k =? -2)) 0.

Lemma busy_env_updates : only_update_reacts busy_env.
Proof. by intros []. Qed.

Lemma busy_env_words : words_ok busy_env.
Proof. exists 2. split; [done|]. split; [done|]. intros k Hk. lia. Qed.



(** Reading below the array has no value. *)
Definition strict_env : Env :=
  mkEnv (λ _, plain_owner) (λ _, []) (λ _, true) (λ _, Throw UndefinedBehaviour) 0.

Lemma Initialize_out_of_bounds_witness : ∃ s,
  Initialize strict_env (call_n strict_env 1) new_MotionMaster = Ok (tt, s) ∧
  Initialize strict_env (call_n strict_env 1) s = Throw UndefinedBehaviour.
Proof.
  destruct (first_Initialize_ok strict_env 0 (λ _ _ _, eq_refl)) as (s & Hr & Hq).
  exists s. split; [exact Hr|].
  exact (proj1 (Initialize_out_of_bounds strict_env 1 s (λ _ _ _, eq_refl) Hq eq_refl)).
Defined.

(** A chase that confuses its unit and then sends it to a point. *)
Definition replacing_env : Env :=
  mkEnv (λ _, plain_owner)
    (λ tr, match tr with EvUpdate _ _ :: _ => [OpMoveConfused; OpMovePoint 0 0 0 0 false] | _ => [] end)
    (λ _, true) (λ k, Ok (k =? -2)) 0.

Lemma replacing_env_updates : only_update_reacts replacing_env.
Proof. by intros []. Qed.

Lemma replacing_env_words : words_ok replacing_env.
Proof. exists 2. split; [done|]. split; [done|]. intros k Hk. lia. Qed.

Lemma update_deletes_itself_witness :
  let chase := mkGen 2 (ChaseMovementGenerator 44 0 0) in
  ∃ s, life replacing_env 1 [CmdOp (OpMoveChase (Some 44) 0 0)] = Ok (tt, s) ∧
  ∃ s1 s2, set_update_flag true s = Ok (tt, s1) ∧
    vcall (call_n replacing_env 1) (EvUpdate chase 10) chase s1 = Ok (tt, s2) ∧ EvDelete chase ∈ mm_trace s2.
Proof.
  destruct (life_quiescent replacing_env 0 [CmdOp (OpMoveChase (Some 44) 0 0)] replacing_env_updates
    replacing_env_words) as (s & Hr & Hq).
  exists s. split; [exact Hr|]. vm_compute in Hr. injection Hr as <-.
  destruct (update_deletes_itself replacing_env 0 10 _ (mkGen 1 (RandomMovementGenerator 0))
    (mkGen 2 (ChaseMovementGenerator 44 0 0)) replacing_env_updates replacing_env_words Hq eq_refl eq_refl
    (λ _, eq_refl)) as (s1 & s2 & H1 & _ & H2 & _ & _ & H3).
  exists s1, s2. split; [exact H1|]. split; [exact H2|exact H3].
Defined.

(** The repository's own callbacks. *)
Definition assistance_env : Env :=
  mkEnv (λ _, plain_owner)
    (λ tr, match tr with EvFinalize g :: _ => finalize_react 1500 plain_owner g | _ => [] end)
    (λ _, true) (λ k, Ok (k =? -2)) 0.

(** A creature on its way to get assistance. *)
Definition assistance_start : MotionMaster :=
  match life busy_env 1 [CmdOp (OpMoveSeekAssistance 1 2 3)] with
  | Ok (_, s) => s
  | Throw _ => new_MotionMaster
  end.

Lemma assistance_start_quiescent : quiescent assistance_start.
Proof.
  destruct (life_quiescent busy_env 0 [CmdOp (OpMoveSeekAssistance 1 2 3)] busy_env_updates busy_env_words)
    as (s & Hr & Hq).
  unfold assistance_start. by rewrite Hr.
Qed.

Lemma assistance_start_slots :
  mm_next assistance_start = 3 ∧ mm_Impl assistance_start =
    [Some (mkGen 1 (RandomMovementGenerator 0)); Some (mkGen 2 (AssistanceMovementGenerator 1 2 3)); None].
Proof. split; vm_compute; reflexivity. Qed.

Lemma assistance_leaks_witness : ∃ s',
  run_op assistance_env (call_n assistance_env 1) (OpMoveChase (Some 44) 0 0) assistance_start = Ok (tt, s') ∧
  let lost := mkGen (mm_next assistance_start + 1) (AssistanceDistractMovementGenerator 1500) in
  g_id lost ∈ mm_live s' ∧ lost ∉ held s' ∧ EvFinalize lost ∉ mm_trace s'.
Proof.
  destruct (assistance_leaks assistance_env 0 assistance_start (mkGen 1 (RandomMovementGenerator 0))
    (mkGen 2 (AssistanceMovementGenerator 1 2 3)) 44 0 0 1500 1 2 3 assistance_start_quiescent
    (proj2 assistance_start_slots) eq_refl eq_refl
    (λ _, conj eq_refl (conj eq_refl eq_refl))) as (s' & H1 & _ & _ & H2 & H3 & _ & H4).
  { intros [] ?; reflexivity. }
  exists s'. split; [exact H1|]. split; [exact H2|]. split; [exact H3|exact H4].
Defined.
