(* ===== verification/Timer.v ===== *)
(** * Timer: the clock arithmetic and the timers of [shared/Utilities/Timer.h].

    [time_t] is a signed 64-bit integer; its arithmetic overflows only after the end of
    time, and is then undefined: [time_add] and [time_sub] say so.  [int32] and [uint32]
    fields wrap. *)
From S2P Require Import Prelude.
Open Scope Z_scope.

(** ** Milliseconds since the start, in 32 bits *)

(** [getMSTime()] of a process that has run for [ms] milliseconds. *)
Definition getMSTime (ms : Z) : Z := u32 ms.

Definition getMSTimeDiff (oldMSTime newMSTime : Z) : Z :=
  if newMSTime <? oldMSTime then u32 (u32 (0xFFFFFFFF - oldMSTime) + newMSTime)
  else u32 (newMSTime - oldMSTime).

Definition GetMSTimeDiffToNow (ms oldMSTime : Z) : Z := getMSTimeDiff oldMSTime (getMSTime ms).

(** ** Signed 64-bit time *)

Definition fits64 (z : Z) : bool := (- 2 ^ 63 <=? z) && (z <? 2 ^ 63).
Definition time_add (a b : Z) : result Z :=
  if fits64 (a + b) then Ok (a + b) else Throw UndefinedBehaviour.
Definition time_sub (a b : Z) : result Z :=
  if fits64 (a - b) then Ok (a - b) else Throw UndefinedBehaviour.

Module IntervalTimer.

Record t : Type := mk { _interval : Z; _current : Z }.

Definition new : t := mk 0 0.

Definition Update (diff : Z) (s : t) : result t :=
  c ← time_add (_current s) diff;
  mret (mk (_interval s) (if c <? 0 then 0 else c)).

Definition Passed (s : t) : bool := _interval s <=? _current s.

Definition Reset (s : t) : result t :=
  if _interval s <=? _current s then
    c ← time_sub (_current s) (_interval s); mret (mk (_interval s) c)
  else mret s.

Definition SetCurrent (current : Z) (s : t) : t := mk (_interval s) current.
Definition SetInterval (interval : Z) (s : t) : t := mk interval (_current s).
Definition GetInterval (s : t) : Z := _interval s.
Definition GetCurrent (s : t) : Z := _current s.

End IntervalTimer.

Module TimeTracker.

Record t : Type := mk { i_expiryTime : Z }.

Definition Update (diff : Z) (s : t) : result t := e ← time_sub (i_expiryTime s) diff; mret (mk e).
Definition Passed (s : t) : bool := i_expiryTime s <=? 0.
Definition Reset (interval : Z) (s : t) : t := mk interval.
Definition GetExpiry (s : t) : Z := i_expiryTime s.

End TimeTracker.

Module TimeTrackerSmall.

(** The member is an [int32]; the constructor and [Reset] take a [uint32]. *)
Record t : Type := mk { i_expiryTime : Z }.

Definition new (expiry : Z) : t := mk (i32 expiry).
Definition Update (diff : Z) (s : t) : result t :=
  e ← int32_result (i_expiryTime s - diff); mret (mk e).
Definition Passed (s : t) : bool := i_expiryTime s <=? 0.
Definition Reset (interval : Z) (s : t) : t := mk (i32 interval).
Definition GetExpiry (s : t) : Z := i_expiryTime s.

End TimeTrackerSmall.

Module PeriodicTimer.

Record t : Type := mk { i_period : Z; i_expireTime : Z }.

(** [i_expireTime -= diff] with an unsigned [diff]: computed in [uint32], so it wraps. *)
Definition sub_unsigned (a diff : Z) : Z := i32 (u32 a - diff).

(** The sum has the type [uint32], since one of the two alternatives has. *)
Definition Update (diff : Z) (s : t) : bool * t :=
  let e := sub_unsigned (i_expireTime s) diff in
  if 0 <? e then (false, mk (i_period s) e)
  else (true, mk (i_period s) (i32 (u32 e + (if i32 diff <? i_period s then u32 (i_period s) else diff)))).

Definition SetPeriodic (period start_time : Z) (s : t) : t := mk period start_time.

Definition TUpdate (diff : Z) (s : t) : result t :=
  e ← int32_result (i_expireTime s - diff); mret (mk (i_period s) e).
Definition TPassed (s : t) : bool := i_expireTime s <=? 0.
Definition TReset (diff period : Z) (s : t) : result t :=
  e ← int32_result (i_expireTime s + (if diff <? period then period else diff)); mret (mk (i_period s) e).

End PeriodicTimer.
