(* ===== verification/TimerProps.v ===== *)
(** * TimerProps: the timers neither lose nor invent time, and what the clock difference loses. *)
From S2P Require Import Prelude.
From stdpp Require Import list.
From S2P Require Import Timer.
Open Scope Z_scope.

(** ** Clock differences *)

Lemma add_mod_cases t d n : 0 < n → 0 ≤ d < n →
  (t + d) mod n = if (t + d) mod n <? t mod n then t mod n + d - n else t mod n + d.
Proof.
  intros Hn Hd. pose proof (Z.mod_pos_bound t n Hn) as Ht.
  assert ((t + d) mod n = (t mod n + d) mod n) as -> by by rewrite Zplus_mod_idemp_l.
  destruct (Z_lt_dec (t mod n + d) n) as [Hlt|Hge].
  - rewrite (Z.mod_small (t mod n + d)) by lia. rewrite (proj2 (Z.ltb_ge _ _)) by lia. done.
  - replace (t mod n + d) with (t mod n + d - n + 1 * n) at 1 2 by lia.
    rewrite Z_mod_plus_full, Z.mod_small by lia. rewrite (proj2 (Z.ltb_lt _ _)) by lia. done.
Qed.

(** The difference of two clock readings less than 2^32 milliseconds apart is the time
    that passed, except that it is one millisecond short when the 32-bit clock wrapped in
    between. *)
Theorem getMSTimeDiff_exact t d : 0 ≤ d < 2 ^ 32 →
  getMSTimeDiff (getMSTime t) (getMSTime (t + d)) =
  if getMSTime (t + d) <? getMSTime t then d - 1 else d.
Proof.
  intros Hd. unfold getMSTimeDiff, getMSTime, u32.
  pose proof (add_mod_cases t d (2 ^ 32) ltac:(lia) Hd) as Hm.
  pose proof (Z.mod_pos_bound t (2 ^ 32) ltac:(lia)) as Ht.
  pose proof (Z.mod_pos_bound (t + d) (2 ^ 32) ltac:(lia)) as Htd.
  destruct ((t + d) mod 2 ^ 32 <? t mod 2 ^ 32) eqn:Hlt.
  - rewrite (Z.mod_small (0xFFFFFFFF - _)) by lia. rewrite Hm. rewrite Z.mod_small; lia.
  - apply Z.ltb_ge in Hlt. rewrite Hm. rewrite Z.mod_small; lia.
Qed.

Lemma getMSTimeDiff_exact_witness :
  getMSTimeDiff (getMSTime (2 ^ 32 - 10)) (getMSTime (2 ^ 32 - 10 + 25)) = 24.
Proof. exact (getMSTimeDiff_exact (2 ^ 32 - 10) 25 ltac:(lia)). Defined.

(** ** IntervalTimer *)

(** How the world's loop uses a timer: count the intervals that passed. *)
Fixpoint count_intervals (diffs : list Z) (s : IntervalTimer.t) : result (Z * IntervalTimer.t) :=
  match diffs with
  | [] => Ok (0, s)
  | d :: diffs =>
      s ← IntervalTimer.Update d s;
      if IntervalTimer.Passed s then
        s ← IntervalTimer.Reset s;
        '(n, s) ← count_intervals diffs s;
        Ok (n + 1, s)
      else count_intervals diffs s
  end.

Definition sumZ (l : list Z) : Z := foldr Z.add 0 l.

Lemma sumZ_nonneg l : Forall (λ d, 0 ≤ d) l → 0 ≤ sumZ l.
Proof. induction 1; simpl; lia. Qed.

(** An [IntervalTimer] that is reset whenever it has passed never loses time: after any
    updates, the time in it plus one interval for each time it fired is the time that went
    in, and what is left is not negative; nothing overflows before 2^63. *)
Theorem IntervalTimer_keeps_time diffs s :
  0 < IntervalTimer._interval s < 2 ^ 63 → 0 ≤ IntervalTimer._current s → Forall (λ d, 0 ≤ d) diffs →
  IntervalTimer._current s + sumZ diffs < 2 ^ 63 →
  ∃ n s', count_intervals diffs s = Ok (n, s') ∧
    IntervalTimer._interval s' = IntervalTimer._interval s ∧
    IntervalTimer._current s' + n * IntervalTimer._interval s = IntervalTimer._current s + sumZ diffs ∧
    0 ≤ IntervalTimer._current s' ∧ 0 ≤ n ≤ Z.of_nat (length diffs).
Proof.
  revert s. induction diffs as [|d diffs IH]; intros [i c] Hi Hc Hd Hs; simpl in *.
  { exists 0, (IntervalTimer.mk i c). simpl. split; [done|]. repeat split; lia. }
  apply Forall_cons in Hd as [Hd Hds]. pose proof (sumZ_nonneg diffs Hds).
  unfold IntervalTimer.Update, time_add, fits64. simpl.
  rewrite (proj2 (Z.leb_le (- 2 ^ 63) (c + d))), (proj2 (Z.ltb_lt (c + d) (2 ^ 63))) by lia. simpl.
  rewrite (proj2 (Z.ltb_ge (c + d) 0)) by lia. unfold IntervalTimer.Passed. simpl.
  destruct (Z.leb_spec i (c + d)).
  - unfold IntervalTimer.Reset, time_sub, fits64. simpl. rewrite (proj2 (Z.leb_le i (c + d))) by done.
    rewrite (proj2 (Z.leb_le (- 2 ^ 63) (c + d - i))), (proj2 (Z.ltb_lt (c + d - i) (2 ^ 63))) by lia. simpl.
    destruct (IH (IntervalTimer.mk i (c + d - i))) as (n & s' & -> & ? & ? & ? & ?); simpl in *; try lia; [done|].
    exists (n + 1), s'. simpl. repeat split; lia.
  - destruct (IH (IntervalTimer.mk i (c + d))) as (n & s' & -> & ? & ? & ? & ?); simpl in *; try lia; [done|].
    exists n, s'. repeat split; lia.
Qed.

Lemma IntervalTimer_keeps_time_witness :
  ∃ n s', count_intervals [30; 80; 500; 10] (IntervalTimer.mk 100 0) = Ok (n, s') ∧
    IntervalTimer._current s' + n * 100 = 620.
Proof.
  destruct (IntervalTimer_keeps_time [30; 80; 500; 10] (IntervalTimer.mk 100 0)) as (n & s' & H & _ & Hs & _);
    [simpl; lia|simpl; lia|repeat constructor; lia|simpl; lia|].
  exists n, s'. split; [exact H|exact Hs].
Defined.

(** ** PeriodicTimer *)

Lemma i32_u32 z : i32 (u32 z) = i32 z.
Proof. unfold i32, wrap_signed, u32. f_equal. by rewrite Zplus_mod_idemp_l. Qed.

Lemma i32_small z : - 2 ^ 31 ≤ z < 2 ^ 31 → i32 z = z.
Proof. intros Hz. unfold i32, wrap_signed. rewrite Z.mod_small; lia. Qed.

Lemma i32_add_u32 a b : i32 (u32 a + b) = i32 (a + b).
Proof.
  unfold i32, wrap_signed, u32. f_equal. rewrite <-Z.add_assoc, Zplus_mod_idemp_l. f_equal. lia.
Qed.

(** [Update] in a range where nothing wraps. *)
Lemma PeriodicTimer_Update_eq p e d : 0 < p < 2 ^ 31 → 0 < e ≤ p → 0 ≤ d < 2 ^ 31 →
  PeriodicTimer.Update d (PeriodicTimer.mk p e) =
  (e <=? d, PeriodicTimer.mk p (if e <=? d then e - d + Z.max p d else e - d)).
Proof.
  intros Hp He Hd. unfold PeriodicTimer.Update, PeriodicTimer.sub_unsigned. cbn.
  replace (u32 e - d) with (u32 e + - d) by lia. rewrite i32_add_u32, i32_small by lia.
  replace (e + - d) with (e - d) by lia.
  destruct (Z.ltb_spec 0 (e - d)), (Z.leb_spec e d); try lia; [done|].
  do 2 f_equal. rewrite i32_add_u32, (i32_small d) by lia.
  destruct (Z.ltb_spec d p).
  - unfold u32. rewrite (Z.mod_small p) by lia. rewrite i32_small by lia. lia.
  - rewrite i32_small by lia. lia.
Qed.

Fixpoint count_periods (diffs : list Z) (s : PeriodicTimer.t) : Z * PeriodicTimer.t :=
  match diffs with
  | [] => (0, s)
  | d :: diffs =>
      let '(b, s) := PeriodicTimer.Update d s in
      let '(n, s) := count_periods diffs s in
      (if b then n + 1 else n, s)
  end.

(** C21. A [PeriodicTimer] that expires within its period keeps doing so, whatever the updates:
    it fires at least once in any updates that sum up to a period, and, as long as no single
    update is longer than the period, it does not drift: the firings times the period and the
    time that remains account for all the time that passed. *)
Theorem PeriodicTimer_live diffs s :
  0 < PeriodicTimer.i_period s < 2 ^ 31 → 0 < PeriodicTimer.i_expireTime s ≤ PeriodicTimer.i_period s →
  Forall (λ d, 0 ≤ d < 2 ^ 31) diffs →
  let '(n, s') := count_periods diffs s in
  PeriodicTimer.i_period s' = PeriodicTimer.i_period s ∧
  0 < PeriodicTimer.i_expireTime s' ≤ PeriodicTimer.i_period s ∧ 0 ≤ n ∧
  (PeriodicTimer.i_expireTime s ≤ sumZ diffs → 0 < n) ∧
  (Forall (λ d, d ≤ PeriodicTimer.i_period s) diffs →
   PeriodicTimer.i_expireTime s' + sumZ diffs = PeriodicTimer.i_expireTime s + n * PeriodicTimer.i_period s).
Proof.
  revert s. induction diffs as [|d diffs IH]; intros [p e] Hp He Hd; cbn [PeriodicTimer.i_period PeriodicTimer.i_expireTime] in *.
  { simpl. repeat split; try lia. }
  apply Forall_cons in Hd as [Hd Hds]. cbn [count_periods sumZ foldr].
  rewrite PeriodicTimer_Update_eq by done. 
  specialize (IH (PeriodicTimer.mk p (if e <=? d then e - d + Z.max p d else e - d))).
  destruct (count_periods diffs _) as [n [p' e']].
  cbn [PeriodicTimer.i_period PeriodicTimer.i_expireTime] in *. change (foldr Z.add 0 diffs) with (sumZ diffs).
  destruct (Z.leb_spec e d); destruct IH as (-> & H1 & H2 & H3 & H4); try done; try lia;
    (split; [done|]); (split; [lia|]); (split; [lia|]); (split; [lia|]);
    intros [Hdp Hf]%Forall_cons; specialize (H4 Hf); lia.
Qed.

Lemma PeriodicTimer_live_witness :
  let '(n, s') := count_periods [30; 30; 60] (PeriodicTimer.mk 100 100) in
  n = 1 ∧ PeriodicTimer.i_expireTime s' + 120 = 100 + n * 100.
Proof.
  pose proof (PeriodicTimer_live [30; 30; 60] (PeriodicTimer.mk 100 100) ltac:(simpl; lia) ltac:(simpl; lia)
    ltac:(repeat constructor; lia)) as (_ & _ & _ & _ & H).
  split; [reflexivity|]. apply H. repeat constructor; simpl; lia.
Defined.
