(* ===== verification/EventProcessor.v ===== *)
(** * EventProcessor: the timed events of units and battleground queues.

    [shared/Utilities/EventProcessor.{h,cpp}]: events wait in a multimap ordered by time;
    [Update] runs the due ones, [KillAllEvents] aborts them.  Events are heap objects that
    the processor deletes; what [Execute] does is up to the environment: it may add events
    (itself again, too), flag events as aborted and kill all events. *)
From S2P Require Import Prelude.
From stdpp Require Import gmap sorting.
Open Scope Z_scope.

(** ** Data *)

(** The members of a [BasicEvent]. *)
Record BasicEvent : Type := mkEvent { to_Abort : bool; m_addTime : Z; m_execTime : Z }.

(** A new event: the constructor sets [to_Abort] only. *)
Definition new_BasicEvent (addTime execTime : Z) : BasicEvent := mkEvent false addTime execTime.

(** The calls an event gets, newest first. *)
Inductive event_call : Type :=
| CallExecute (e : Z) (e_time p_time : Z)
| CallAbort (e : Z) (e_time : Z)
| CallDelete (e : Z).

Definition EventList : Type := list (Z * Z).

Record EventProcessor : Type := mkEP {
  m_time : Z;
  m_events : EventList;                    (* time and address *)
  m_aborting : bool;
  ep_heap : gmap Z BasicEvent;             (* the events that are alive *)
  ep_calls : list event_call
}.

Definition upd_time f p := mkEP (f (m_time p)) (m_events p) (m_aborting p) (ep_heap p) (ep_calls p).
Definition upd_events f p := mkEP (m_time p) (f (m_events p)) (m_aborting p) (ep_heap p) (ep_calls p).
Definition upd_aborting f p := mkEP (m_time p) (m_events p) (f (m_aborting p)) (ep_heap p) (ep_calls p).
Definition upd_heap f p := mkEP (m_time p) (m_events p) (m_aborting p) (f (ep_heap p)) (ep_calls p).
Definition upd_calls f p := mkEP (m_time p) (m_events p) (m_aborting p) (ep_heap p) (f (ep_calls p)).

(** What the code of an event does with the processor that runs it.  The flag of a queued
    event is set through a pointer that somebody kept; the event is given by its position in
    the queue. *)
Inductive action : Type :=
| ActSpawn (addTime execTime e_time : Z) (set_addtime : bool)   (* AddEvent(new ..., e_time, ...) *)
| ActReAdd (e_time : Z) (set_addtime : bool)                    (* AddEvent(this, e_time, ...) *)
| ActSetAbort (i : nat)                                         (* to_Abort = true *)
| ActKillAllEvents (force : bool).

Record EventEnv : Type := mkEventEnv {
  execute : list event_call → list action * bool;    (* what the newest call does and returns *)
  IsDeletable : list event_call → Z → bool
}.

(** ** Operations *)

Definition new_EventProcessor : EventProcessor := mkEP 0 [] false ∅ [].

Definition CalculateTime (p : EventProcessor) (t_offset : Z) : Z := u64 (m_time p + t_offset).

(** [std::multimap::insert]: after the elements with the same key. *)
Fixpoint multimap_insert (t e : Z) (l : EventList) : EventList :=
  match l with
  | [] => [(t, e)]
  | (t', e') :: l' => if t <? t' then (t, e) :: l else (t', e') :: multimap_insert t e l'
  end.

(** Access to a member of an event. *)
Definition deref_event (e : Z) : M EventProcessor BasicEvent :=
  p ← get;
  match ep_heap p !! e with
  | Some b => mret b
  | None => throw UndefinedBehaviour
  end.

Definition set_event (e : Z) (f : BasicEvent → BasicEvent) : M EventProcessor unit :=
  b ← deref_event e; modify (upd_heap (<[e := f b]>)).

Definition delete_event (e : Z) : M EventProcessor unit :=
  deref_event e;;
  modify (upd_heap (base.delete e));;
  modify (upd_calls (cons (CallDelete e))).

Definition AddEvent (e e_time : Z) (set_addtime : bool) : M EventProcessor unit :=
  (if set_addtime
   then p ← get; set_event e (λ b, mkEvent (to_Abort b) (m_time p) (m_execTime b))
   else mret tt);;
  set_event e (λ b, mkEvent (to_Abort b) (m_addTime b) e_time);;
  modify (upd_events (multimap_insert e_time e)).

Definition Abort (e : Z) : M EventProcessor unit :=
  p ← get; modify (upd_calls (cons (CallAbort e (m_time p)))).

Section Environment.
Variable E : EventEnv.

(** The loop of [KillAllEvents] over the events there are; [erase] removes the iterator's
    element, which is the first with that time and address. *)
Fixpoint erase (x : Z * Z) (l : EventList) : EventList :=
  match l with
  | [] => []
  | y :: l => if decide (x = y) then l else y :: erase x l
  end.

Fixpoint kill_loop (force : bool) (l : EventList) : M EventProcessor unit :=
  match l with
  | [] => mret tt
  | (t, e) :: l =>
      set_event e (λ b, mkEvent true (m_addTime b) (m_execTime b));;
      Abort e;;
      p ← get;
      (if force || IsDeletable E (ep_calls p) e
       then delete_event e;; (if negb force then modify (upd_events (erase (t, e))) else mret tt)
       else mret tt);;
      kill_loop force l
  end.

Definition KillAllEvents (force : bool) : M EventProcessor unit :=
  modify (upd_aborting (λ _, true));;
  p ← get;
  kill_loop force (m_events p);;
  if force then modify (upd_events (λ _, [])) else mret tt.

(** [new] gives an address that is free; the members it leaves uninitialised are the action's. *)
Definition run_action (self : Z) (a : action) : M EventProcessor unit :=
  match a with
  | ActSpawn addTime execTime e_time set_addtime =>
      p ← get;
      let e := fresh (dom (ep_heap p)) in
      modify (upd_heap (<[e := new_BasicEvent addTime execTime]>));;
      AddEvent e e_time set_addtime
  | ActReAdd e_time set_addtime => AddEvent self e_time set_addtime
  | ActSetAbort i =>
      p ← get;
      match m_events p !! i with
      | Some (_, e) => set_event e (λ b, mkEvent true (m_addTime b) (m_execTime b))
      | None => mret tt
      end
  | ActKillAllEvents force => KillAllEvents force
  end.

Fixpoint run_actions (self : Z) (l : list action) : M EventProcessor unit :=
  match l with
  | [] => mret tt
  | a :: l => run_action self a;; run_actions self l
  end.

(** The virtual [Execute]. *)
Definition Execute (e p_time : Z) : M EventProcessor bool :=
  p ← get;
  modify (upd_calls (cons (CallExecute e (m_time p) p_time)));;
  p ← get;
  let '(acts, ret) := execute E (ep_calls p) in
  run_actions e acts;; mret ret.

(** The main loop, at most [n] rounds. *)
Fixpoint update_loop (n : nat) (p_time : Z) : M EventProcessor unit :=
  p ← get;
  match m_events p with
  | [] => mret tt
  | (t, e) :: rest =>
      if t <=? m_time p then
        match n with
        | O => throw Diverges
        | S n =>
            modify (upd_events (λ _, rest));;
            b ← deref_event e;
            (if negb (to_Abort b)
             then ret ← Execute e p_time; if ret : bool then delete_event e else mret tt
             else Abort e;; delete_event e);;
            update_loop n p_time
        end
      else mret tt
  end.

Definition Update (n : nat) (p_time : Z) : M EventProcessor unit :=
  modify (upd_time (λ t, u64 (t + p_time)));;
  update_loop n p_time.

Definition destructor : M EventProcessor unit := KillAllEvents true.

End Environment.
