(* ===== verification/EventProcessorProps.v ===== *)
(** * EventProcessorProps: what the event queue guarantees.

    Events that are due run once each, in the order of their times, and [Update] ends, as
    long as events are added for later only; [KillAllEvents] aborts every event once. *)
From S2P Require Import Prelude.
From stdpp Require Import gmap sorting.
From S2P Require Import EventProcessor.
Open Scope Z_scope.

(** ** The multimap *)

Definition earlier (a b : Z * Z) : Prop := a.1 ≤ b.1.
#[global] Instance earlier_dec a b : Decision (earlier a b).
Proof. unfold earlier. apply _. Defined.

Lemma multimap_insert_perm t e l : multimap_insert t e l ≡ₚ (t, e) :: l.
Proof.
  induction l as [|[t' e'] l IH]; simpl; [done|]. destruct (t <? t'); [done|].
  rewrite IH. apply Permutation_swap.
Qed.

Lemma multimap_insert_sorted t e l : StronglySorted earlier l → StronglySorted earlier (multimap_insert t e l).
Proof.
  induction 1 as [|[t' e'] l Hl IH Hf]; simpl; [by repeat constructor|].
  destruct (Z.ltb_spec t t').
  - constructor; [by constructor|]. constructor; [unfold earlier; simpl; lia|].
    eapply Forall_impl; [exact Hf|]. unfold earlier. simpl. lia.
  - constructor; [done|]. rewrite multimap_insert_perm. constructor; [unfold earlier; simpl; lia|done].
Qed.

(** What is due at a time does not change when something later is added. *)
Definition due (now : Z) (l : list (Z * Z)) : list (Z * Z) := filter (λ te, te.1 ≤ now) l.

Lemma due_insert_later now t e l : now < t → due now (multimap_insert t e l) = due now l.
Proof.
  intros Ht. unfold due. induction l as [|[t' e'] l IH]; cbn [multimap_insert].
  - by rewrite filter_cons_False by (simpl; lia).
  - destruct (Z.ltb_spec t t').
    + by rewrite filter_cons_False by (simpl; lia).
    + destruct (decide (t' ≤ now)).
      * by rewrite !filter_cons_True, IH by done.
      * by rewrite !filter_cons_False, IH by done.
Qed.

Lemma sorted_none_due now te l :
  StronglySorted earlier (te :: l) → now < te.1 → Forall (λ te', now < te'.1) (te :: l).
Proof.
  intros Hs Ht. inversion_clear Hs as [|? ? _ Hf]. constructor; [done|].
  eapply Forall_impl; [exact Hf|]. unfold earlier. intros. lia.
Qed.

(** ** The invariant: the live events are those in the queue and those in [extra] *)

Record ep_inv (extra : list Z) (p : EventProcessor) : Prop := {
  inv_heap : ∀ e, is_Some (ep_heap p !! e) ↔ e ∈ extra ++ (m_events p).*2;
  inv_nodup : NoDup (extra ++ (m_events p).*2);
  inv_sorted : StronglySorted earlier (m_events p)
}.

Lemma ep_inv_heap extra p p' :
  ep_inv extra p → (∀ e, is_Some (ep_heap p' !! e) ↔ is_Some (ep_heap p !! e)) →
  m_events p' = m_events p → ep_inv extra p'.
Proof. intros [] Hh He. constructor; rewrite ?He; auto. intros e. by rewrite Hh. Qed.

Lemma is_Some_insert_same {A} (m : gmap Z A) e b i : is_Some (m !! e) → is_Some (<[e := b]> m !! i) ↔ is_Some (m !! i).
Proof.
  intros He. destruct (decide (e = i)) as [->|]; [by rewrite lookup_insert_eq; naive_solver|].
  by rewrite lookup_insert_ne.
Qed.

Lemma deref_event_ok e p : is_Some (ep_heap p !! e) → ∃ b, deref_event e p = Ok (b, p) ∧ ep_heap p !! e = Some b.
Proof. intros [b Hb]. exists b. unfold deref_event, mbind, M_bind, get. by rewrite Hb. Qed.

Lemma set_event_ok e f p : is_Some (ep_heap p !! e) →
  ∃ h, set_event e f p = Ok (tt, upd_heap (λ _, h) p) ∧
    (∀ i, is_Some (h !! i) ↔ is_Some (ep_heap p !! i)) ∧
    (∀ b, ep_heap p !! e = Some b → h !! e = Some (f b)) ∧ (∀ i, i ≠ e → h !! i = ep_heap p !! i).
Proof.
  intros He. destruct (deref_event_ok e p He) as (b & Hd & Hb).
  exists (<[e := f b]> (ep_heap p)). unfold set_event, mbind, M_bind. rewrite Hd. split; [done|].
  split; [intros i; by apply is_Some_insert_same|]. split.
  - intros b' Hb'. rewrite lookup_insert_eq. congruence.
  - intros i Hi. by apply lookup_insert_ne.
Qed.

(** Only the members of events changed. *)
Definition same_queue (p p' : EventProcessor) : Prop :=
  m_time p' = m_time p ∧ m_events p' = m_events p ∧ ep_calls p' = ep_calls p ∧
  m_aborting p' = m_aborting p ∧ ∀ e, is_Some (ep_heap p' !! e) ↔ is_Some (ep_heap p !! e).

Lemma AddEvent_ok e t b p extra :
  ep_inv (e :: extra) p →
  ∃ p', AddEvent e t b p = Ok (tt, p') ∧ ep_inv extra p' ∧ m_time p' = m_time p ∧
    ep_calls p' = ep_calls p ∧ m_events p' = multimap_insert t e (m_events p) ∧ m_aborting p' = m_aborting p.
Proof.
  intros Hinv. assert (is_Some (ep_heap p !! e)) as He by (apply (inv_heap _ _ Hinv); left).
  assert (∃ h, AddEvent e t b p = Ok (tt, upd_events (multimap_insert t e) (upd_heap (λ _, h) p)) ∧
    ∀ i, is_Some (h !! i) ↔ is_Some (ep_heap p !! i)) as (h & Hr & Hh).
  { unfold AddEvent, mbind, M_bind. destruct b.
    - unfold get. destruct (set_event_ok e (λ b, mkEvent (to_Abort b) (m_time p) (m_execTime b)) p He)
        as (h & -> & Hh & _).
      destruct (set_event_ok e (λ b, mkEvent (to_Abort b) (m_addTime b) t) (upd_heap (λ _, h) p)) as (h' & -> & Hh' & _);
        [by apply Hh|].
      exists h'. split; [done|]. intros i. by rewrite Hh', <-Hh.
    - simpl. destruct (set_event_ok e (λ b, mkEvent (to_Abort b) (m_addTime b) t) p He) as (h & -> & Hh & _).
      by exists h. }
  eexists. split; [exact Hr|]. split; [|done]. destruct Hinv as [Hheap Hnd Hs]. constructor; simpl.
  - intros i. rewrite Hh, Hheap, multimap_insert_perm. simpl. rewrite !elem_of_cons, !elem_of_app, elem_of_cons. tauto.
  - rewrite multimap_insert_perm. simpl. by rewrite <-Permutation_middle.
  - by apply multimap_insert_sorted.
Qed.

(** ** What the code of the events may do *)

Fixpoint readds (acts : list action) : nat :=
  match acts with
  | [] => 0
  | ActReAdd _ _ :: acts => S (readds acts)
  | _ :: acts => readds acts
  end.

(** Additions are for later than [now], and nothing kills all events. *)
Definition later_than (now : Z) (a : action) : Prop :=
  match a with
  | ActSpawn _ _ t _ | ActReAdd t _ => now < t
  | ActSetAbort _ => True
  | ActKillAllEvents _ => False
  end.

(** "return false if event does not want to be deleted": an event that wants to be kept adds
    itself again, once, and one that is done does not. *)
Definition well_behaved (E : EventEnv) : Prop :=
  ∀ cs e now dt,
    let '(acts, ret) := execute E (CallExecute e now dt :: cs) in
    readds acts = (if ret then 0 else 1)%nat ∧ Forall (later_than now) acts.

(** The progress of a piece of [Update] that runs events' code. *)
Definition keeps (now : Z) (p p' : EventProcessor) : Prop :=
  m_time p' = m_time p ∧ ep_calls p' = ep_calls p ∧ due now (m_events p') = due now (m_events p).

Section Actions.
Context (E : EventEnv) (self now : Z).

Lemma run_action_ok a x p : later_than now a → readds [a] = 0%nat → ep_inv x p →
  ∃ p', run_action E self a p = Ok (tt, p') ∧ ep_inv x p' ∧ keeps now p p'.
Proof.
  intros Hl Hr Hinv. destruct a as [ad ex t b|t b|i|force]; simpl in Hl.
  - simpl. unfold mbind, M_bind, get, modify. set (e := fresh (dom (ep_heap p))).
    assert (ep_heap p !! e = None) as He by (apply not_elem_of_dom, is_fresh).
    assert (ep_inv (e :: x) (upd_heap <[e:=new_BasicEvent ad ex]> p)) as Hinv'.
    { destruct Hinv as [Hh Hn Hs]. constructor; simpl; [|constructor; [|done]|done].
      - intros i. rewrite elem_of_cons, <-Hh. destruct (decide (i = e)) as [->|];
          [rewrite lookup_insert_eq; naive_solver|rewrite lookup_insert_ne by done; naive_solver].
      - rewrite <-Hh, He. by intros []. }
    destruct (AddEvent_ok e t b _ x Hinv') as (p' & Hrun & ? & Ht & Hc & He' & _).
    exists p'. split; [exact Hrun|]. split; [done|]. split; [done|]. split; [done|].
    rewrite He'. simpl. by apply due_insert_later.
  - done.
  - simpl. unfold mbind, M_bind, get. destruct (m_events p !! i) as [[t e]|] eqn:Hi; [|by exists p].
    destruct (set_event_ok e (λ b, mkEvent true (m_addTime b) (m_execTime b)) p) as (h & Hrun & Hh & _).
    { apply (inv_heap _ _ Hinv), elem_of_app. right. apply list_elem_of_fmap.
      exists (t, e). split; [done|]. by eapply list_elem_of_lookup_2. }
    rewrite Hrun. eexists. split; [reflexivity|]. split; [by apply (ep_inv_heap _ p)|done].
  - done.
Qed.

Lemma keeps_trans p1 p2 p3 : keeps now p1 p2 → keeps now p2 p3 → keeps now p1 p3.
Proof. intros (?&?&?) (?&?&?). repeat split; congruence. Qed.

Lemma run_actions_done acts x p : Forall (later_than now) acts → readds acts = 0%nat → ep_inv x p →
  ∃ p', run_actions E self acts p = Ok (tt, p') ∧ ep_inv x p' ∧ keeps now p p'.
Proof.
  revert p. induction acts as [|a acts IH]; intros p Hl Hr Hinv; [by exists p|].
  apply Forall_cons in Hl as [Ha Hl].
  destruct (run_action_ok a x p) as (p1 & Hr1 & Hinv1 & Hk1); [done|by destruct a|done|].
  destruct (IH p1) as (p2 & Hr2 & Hinv2 & Hk2); [done|by destruct a|done|].
  exists p2. split; [simpl; unfold mbind, M_bind; by rewrite Hr1|]. split; [done|by eapply keeps_trans].
Qed.

Lemma run_actions_again acts p : Forall (later_than now) acts → readds acts = 1%nat → ep_inv [self] p →
  ∃ p', run_actions E self acts p = Ok (tt, p') ∧ ep_inv [] p' ∧ keeps now p p'.
Proof.
  revert p. induction acts as [|a acts IH]; intros p Hl Hr Hinv; [done|].
  apply Forall_cons in Hl as [Ha Hl]. simpl. unfold mbind, M_bind.
  destruct (decide (readds [a] = 0%nat)) as [H0|H1].
  - destruct (run_action_ok a [self] p) as (p1 & -> & Hinv1 & Hk1); [done|done|done|].
    destruct (IH p1) as (p2 & Hr2 & Hinv2 & Hk2); [done|by destruct a|done|].
    exists p2. split; [done|]. split; [done|by eapply keeps_trans].
  - destruct a as [| t b| |]; try done. simpl in Ha. simpl.
    destruct (AddEvent_ok self t b p [] Hinv) as (p1 & -> & Hinv1 & Ht & Hc & He & _).
    destruct (run_actions_done acts [] p1) as (p2 & Hr2 & Hinv2 & Hk2); [done|by injection Hr|done|].
    exists p2. split; [done|]. split; [done|]. eapply keeps_trans; [|exact Hk2].
    split; [done|]. split; [done|]. rewrite He. by apply due_insert_later.
Qed.

End Actions.

Lemma delete_event_eq e p : is_Some (ep_heap p !! e) →
  delete_event e p = Ok (tt, upd_calls (cons (CallDelete e)) (upd_heap (base.delete e) p)).
Proof. intros [b Hb]. unfold delete_event, deref_event, mbind, M_bind, get. by rewrite Hb. Qed.

Lemma delete_event_ok e p : ep_inv [e] p → 
  ∃ p', delete_event e p = Ok (tt, p') ∧ ep_inv [] p' ∧ m_time p' = m_time p ∧
    m_events p' = m_events p ∧ ep_calls p' = CallDelete e :: ep_calls p.
Proof.
  intros [Hh Hn Hs]. rewrite delete_event_eq by (apply Hh; left). eexists. split; [reflexivity|].
  split; [|done]. simpl in Hn. apply NoDup_cons in Hn as [Hn1 Hn2]. constructor; simpl; auto.
  intros i. specialize (Hh i). simpl in Hh. rewrite elem_of_cons in Hh.
  destruct (decide (i = e)) as [->|Hne].
  - rewrite lookup_delete_eq. split; [by intros []|done].
  - rewrite lookup_delete_ne by done. rewrite Hh. naive_solver.
Qed.

(** The events that were run or aborted, newest first. *)
Definition called (cs : list event_call) : list Z :=
  omap (λ c, match c with CallExecute e _ _ | CallAbort e _ => Some e | CallDelete _ => None end) cs.

(** One round of the loop of [Update]. *)
Lemma run_event_ok E e dt p : well_behaved E → ep_inv [e] p →
  ∃ p', (b ← deref_event e;
    (if negb (to_Abort b)
     then ret ← Execute E e dt; if ret : bool then delete_event e else mret tt
     else Abort e;; delete_event e)) p = Ok (tt, p') ∧
    ep_inv [] p' ∧ m_time p' = m_time p ∧ called (ep_calls p') = e :: called (ep_calls p) ∧
    due (m_time p) (m_events p') = due (m_time p) (m_events p).
Proof.
  intros HE Hinv. destruct (deref_event_ok e p) as (b & Hd & _); [apply (inv_heap _ _ Hinv); left|].
  unfold mbind, M_bind. rewrite Hd. destruct (to_Abort b); simpl.
  - unfold Abort, mbind, M_bind, get, modify.
    destruct (delete_event_ok e (upd_calls (cons (CallAbort e (m_time p))) p)) as (p' & -> & ? & ? & He & Hc).
    { by apply (ep_inv_heap _ p). }
    exists p'. split; [done|]. split; [done|]. split; [done|]. rewrite Hc, He. done.
  - unfold Execute, mbind, M_bind, get, modify. simpl.
    set (p0 := upd_calls (cons (CallExecute e (m_time p) dt)) p).
    assert (ep_inv [e] p0) as Hinv0 by by apply (ep_inv_heap _ p).
    specialize (HE (ep_calls p) e (m_time p) dt).
    destruct (execute E (CallExecute e (m_time p) dt :: ep_calls p)) as [acts ret]. destruct HE as [Hr Hl].
    destruct ret.
    + destruct (run_actions_done E e (m_time p) acts [e] p0 Hl Hr Hinv0) as (p1 & -> & Hinv1 & Ht & Hc & Hdue).
      simpl. destruct (delete_event_ok e p1 Hinv1) as (p' & -> & ? & Ht' & He & Hc').
      exists p'. split; [done|]. split; [done|]. rewrite Ht', Ht, Hc', Hc, He, Hdue. done.
    + destruct (run_actions_again E e (m_time p) acts p0 Hl Hr Hinv0) as (p1 & -> & Hinv1 & Ht & Hc & Hdue).
      exists p1. split; [done|]. split; [done|]. rewrite Ht, Hc, Hdue. done.
Qed.

(** ** Update *)

Lemma due_head now te (l : list (Z * Z)) : te.1 ≤ now → due now (te :: l) = te :: due now l.
Proof. intros. unfold due. by rewrite filter_cons_True. Qed.

Lemma none_due now (l : list (Z * Z)) : Forall (λ te, now < te.1) l → due now l = [].
Proof.
  induction 1 as [|te l Ht Hl IH]; [done|]. unfold due in *. rewrite filter_cons_False; [done|]. lia.
Qed.

Lemma update_loop_ok E dt n p : well_behaved E → ep_inv [] p →
  length (due (m_time p) (m_events p)) = n →
  ∃ p', update_loop E n dt p = Ok (tt, p') ∧ ep_inv [] p' ∧ m_time p' = m_time p ∧
    Forall (λ te, m_time p < te.1) (m_events p') ∧
    called (ep_calls p') = rev (due (m_time p) (m_events p)).*2 ++ called (ep_calls p).
Proof.
  intros HE. revert p. induction n as [|n IH]; intros p Hinv Hn.
  - simpl. unfold mbind, M_bind, get. destruct (m_events p) as [|[t e] l] eqn:He.
    + exists p. rewrite He. split; [done|]. split; [done|]. split; [done|]. split; [constructor|done].
    + destruct (Z.leb_spec t (m_time p)); [by rewrite due_head in Hn|].
      pose proof (inv_sorted _ _ Hinv) as Hs. rewrite He in Hs.
      pose proof (sorted_none_due (m_time p) _ _ Hs ltac:(done)) as Hf.
      exists p. rewrite He. split; [done|]. split; [done|]. split; [done|]. split; [done|].
      by rewrite none_due.
  - simpl. unfold mbind at 1, M_bind at 1, get at 1. destruct (m_events p) as [|[t e] l] eqn:He; [done|].
    pose proof (inv_sorted _ _ Hinv) as Hs. rewrite He in Hs.
    destruct (Z.leb_spec t (m_time p)) as [Ht|Ht].
    2: { pose proof (sorted_none_due (m_time p) _ _ Hs Ht) as Hf. by rewrite none_due in Hn. }
    rewrite due_head in Hn |- * by done. injection Hn as Hn.
    assert (ep_inv [e] (upd_events (λ _, l) p)) as Hinv1.
    { destruct Hinv as [Hh Hnd _]. rewrite He in Hh, Hnd. constructor; [exact Hh|exact Hnd|].
      by inversion_clear Hs. }
    destruct (run_event_ok E e dt _ HE Hinv1) as (p1 & Hr & Hinv2 & Ht1 & Hc & Hd).
    simpl in Ht1, Hc, Hd.
    destruct (IH p1) as (p' & Hr' & Hinv' & Ht' & Hf & Hc'); [done|by rewrite Ht1, Hd|].
    exists p'. split.
    { unfold modify. unfold mbind, M_bind in Hr |- *.
      destruct (deref_event e (upd_events (λ _, l) p)) as [[b pb]|]; [|done]. simpl in Hr |- *.
      rewrite Hr. exact Hr'. }
    rewrite Ht1 in Hf, Ht'. split; [done|]. split; [done|]. split; [done|].
    rewrite Hc', Ht1, Hd, Hc. simpl. rewrite <-(assoc_L (++)). done.
Qed.


(** ** KillAllEvents *)

Lemma erase_app x (l k : list (Z * Z)) : x ∉ l → erase x (l ++ x :: k) = l ++ k.
Proof.
  induction l as [|y l IH]; intros Hx; simpl.
  - by rewrite decide_True.
  - rewrite not_elem_of_cons in Hx. destruct Hx. rewrite decide_False by done. by rewrite IH.
Qed.

Definition flagged (p : EventProcessor) (l : list (Z * Z)) : Prop :=
  ∀ te b, te ∈ l → ep_heap p !! te.2 = Some b → to_Abort b = true.

Lemma sublist_sorted {A} (R : relation A) l k : sublist l k → StronglySorted R k → StronglySorted R l.
Proof.
  induction 1 as [|x l k Hs IH|x l k Hs IH]; inversion_clear 1; [constructor| |by apply IH].
  constructor; [by apply IH|].
  rewrite Forall_forall in *. eauto using elem_of_sublist.
Qed.

(** Flagging and aborting one event. *)
Lemma abort_one e p : is_Some (ep_heap p !! e) →
  ∃ h, (set_event e (λ b, mkEvent true (m_addTime b) (m_execTime b));; Abort e) p =
      Ok (tt, upd_calls (cons (CallAbort e (m_time p))) (upd_heap (λ _, h) p)) ∧
    (∀ i, is_Some (h !! i) ↔ is_Some (ep_heap p !! i)) ∧
    (∃ b, h !! e = Some b ∧ to_Abort b = true) ∧ (∀ i, i ≠ e → h !! i = ep_heap p !! i).
Proof.
  intros He. destruct (set_event_ok e (λ b, mkEvent true (m_addTime b) (m_execTime b)) p He)
    as (h & Hr & Hh & Hb & Hne).
  exists h. unfold mbind, M_bind. rewrite Hr. split; [done|]. split; [done|]. split; [|done].
  destruct He as [b Hb0]. eexists. by split; [apply Hb|].
Qed.

Lemma kill_loop_step E force t e l p :
  kill_loop E force ((t, e) :: l) p =
  ((set_event e (λ b, mkEvent true (m_addTime b) (m_execTime b));; Abort e);;
   p ← get;
   (if force || IsDeletable E (ep_calls p) e
    then delete_event e;; (if negb force then modify (upd_events (erase (t, e))) else mret tt)
    else mret tt);;
   kill_loop E force l) p.
Proof. simpl. unfold mbind, M_bind. by destruct (set_event _ _ p) as [[]|]. Qed.

Lemma kill_loop_keep E l kept p : ep_inv [] p → m_events p = kept ++ l → flagged p kept →
  ∃ p' kept', kill_loop E false l p = Ok (tt, p') ∧ ep_inv [] p' ∧ m_time p' = m_time p ∧
    m_aborting p' = m_aborting p ∧ m_events p' = kept ++ kept' ∧ sublist kept' l ∧ flagged p' (kept ++ kept') ∧
    called (ep_calls p') = rev l.*2 ++ called (ep_calls p).
Proof.
  revert kept p. induction l as [|[t e] l IH]; intros kept p Hinv He Hf.
  { exists p, []. rewrite app_nil_r in *. split_and!; auto. }
  assert (e ∈ (m_events p).*2) as Hin by (rewrite He, fmap_app; apply elem_of_app; right; left).
  destruct (abort_one e p) as (h & Hr & Hh & (b & Hb & Hbf) & Hne); [by apply (inv_heap _ _ Hinv)|].
  rewrite kill_loop_step. unfold mbind at 1, M_bind at 1. rewrite Hr. unfold mbind at 1, M_bind at 1, get at 1.
  set (p1 := upd_calls _ _). assert (ep_inv [] p1) as Hinv1 by by apply (ep_inv_heap _ p).
  pose proof (inv_nodup _ _ Hinv) as Hnd. simpl in Hnd. rewrite He, fmap_app in Hnd. simpl in Hnd.
  apply NoDup_app in Hnd as (Hnd1 & Hnd2 & Hnd3). apply NoDup_cons in Hnd3 as [Hnd3 Hnd4].
  assert (∀ te, te ∈ kept → te.2 ≠ e) as Hk.
  { intros te Hte Heq. apply (Hnd2 te.2); [apply list_elem_of_fmap; by exists te|rewrite Heq; left]. }
  assert (flagged p1 kept) as Hf1.
  { intros te b' Hte Hb'. simpl in Hb'. rewrite Hne in Hb' by by apply Hk. by eapply Hf. }
  destruct (false || IsDeletable E (ep_calls p1) e) eqn:Hdel.
  - assert (ep_inv [e] (upd_events (erase (t, e)) p1)) as Hinv2.
    { constructor; simpl; rewrite He, erase_app by (intros Hx; by apply (Hk _ Hx)).
      - intros i. rewrite Hh, (inv_heap _ _ Hinv), He, !fmap_app. simpl.
        rewrite elem_of_cons, !elem_of_app, elem_of_cons. tauto.
      - rewrite fmap_app. apply NoDup_cons. split;
          [|apply NoDup_app; split; [done|]; split; [intros x Hx Hl; apply (Hnd2 x Hx); by right|done]].
        rewrite elem_of_app. intros [Hx|Hx]; [|done].
        apply list_elem_of_fmap in Hx as (te & -> & Hte). by apply (Hk te).
      - eapply sublist_sorted; [|exact (inv_sorted _ _ Hinv)]. rewrite He.
        apply sublist_app; [done|by constructor]. }
    assert (is_Some (h !! e)) as Hsome by by eexists.
    destruct (delete_event_ok e _ Hinv2) as (p2 & Hd & Hinv3 & Ht3 & He3 & Hc3).
    rewrite delete_event_eq in Hd by done. injection Hd as Hd.
    unfold mbind, M_bind. rewrite delete_event_eq by done. 
    simpl in He3. rewrite He, erase_app in He3 by (intros Hx; by apply (Hk _ Hx)).
    destruct (IH kept p2) as (p' & kept' & Hr' & Hinv' & Ht' & Hab' & He' & Hsub & Hf' & Hc'); [done|done| |].
    { intros te b' Hte. rewrite <-Hd. simpl. rewrite lookup_delete_ne by by apply not_eq_sym, Hk.
      by apply Hf1. }
    exists p', kept'. split; [rewrite <-Hd in Hr'; exact Hr'|]. split; [done|]. rewrite Ht', Hab'. split; [by rewrite Ht3|].
    split; [by rewrite <-Hd|]. split; [done|]. split; [by constructor|]. split; [done|].
    rewrite Hc', Hc3. simpl. by rewrite <-(assoc_L (++)).
  - destruct (IH (kept ++ [(t, e)]) p1) as (p' & kept' & Hr' & Hinv' & Ht' & Hab' & He' & Hsub & Hf' & Hc').
    { done. }
    { simpl. by rewrite He, <-(assoc_L (++)). }
    { intros te b' Hte Hb'. apply elem_of_app in Hte as [Hte|Hte]; [by eapply Hf1|].
      apply list_elem_of_singleton in Hte as ->. simpl in Hb'. congruence. }
    exists p', ((t, e) :: kept'). rewrite <-(assoc_L (++)) in He', Hf'.
    split; [done|]. split; [done|]. rewrite Ht', Hab'. split; [done|]. split; [done|]. split; [done|].
    split; [by constructor|]. split; [done|]. rewrite Hc'. simpl. by rewrite <-(assoc_L (++)).
Qed.

(** When all events are deleted, the queue holds their addresses until it is cleared. *)
Lemma kill_loop_force E l p : NoDup l.*2 → (∀ e, is_Some (ep_heap p !! e) ↔ e ∈ l.*2) →
  ∃ p', kill_loop E true l p = Ok (tt, p') ∧ (∀ e, ep_heap p' !! e = None) ∧ m_time p' = m_time p ∧
    m_aborting p' = m_aborting p ∧ called (ep_calls p') = rev l.*2 ++ called (ep_calls p).
Proof.
  revert p. induction l as [|[t e] l IH]; intros p Hnd Hh.
  { exists p. split_and!; auto. intros e. apply eq_None_not_Some. rewrite Hh. apply not_elem_of_nil. }
  simpl in Hnd. apply NoDup_cons in Hnd as [Hn1 Hn2].
  destruct (abort_one e p) as (h & Hr & Hh1 & (b & Hb & _) & _); [apply Hh; left|].
  rewrite kill_loop_step. unfold mbind at 1, M_bind at 1. rewrite Hr. unfold mbind at 1, M_bind at 1, get at 1.
  simpl orb. cbv iota. unfold mbind, M_bind. rewrite delete_event_eq by by eexists.
  destruct (IH (upd_calls (cons (CallDelete e)) (upd_heap (base.delete e)
    (upd_calls (cons (CallAbort e (m_time p))) (upd_heap (λ _, h) p))))) as (p' & Hr' & ? & ? & ? & Hc); [done| |].
  { intros i. simpl. specialize (Hh i). destruct (decide (i = e)) as [->|Hne].
    - rewrite lookup_delete_eq. split; [by intros []|done].
    - rewrite lookup_delete_ne by done. rewrite Hh1, Hh. simpl. rewrite elem_of_cons. naive_solver. }
  exists p'. split; [exact Hr'|]. split_and!; auto. rewrite Hc. simpl. by rewrite <-(assoc_L (++)).
Qed.

(** [KillAllEvents] aborts every event in the queue exactly once, in order.  With [force]
    the queue is empty afterwards and every event has been deleted; without it, the events
    that are not deletable stay in the queue, flagged, and are alive.  In both cases the
    queue still holds exactly the live events. *)
Theorem KillAllEvents_spec E force p : ep_inv [] p →
  ∃ p', KillAllEvents E force p = Ok (tt, p') ∧ ep_inv [] p' ∧ m_time p' = m_time p ∧ m_aborting p' = true ∧
    sublist (m_events p') (m_events p) ∧ (force = true → m_events p' = [] ∧ ∀ e, ep_heap p' !! e = None) ∧
    flagged p' (m_events p') ∧ called (ep_calls p') = rev (m_events p).*2 ++ called (ep_calls p).
Proof.
  intros Hinv. unfold KillAllEvents, mbind, M_bind, modify, get. simpl.
  assert (ep_inv [] (upd_aborting (λ _, true) p)) as Hinv1 by by apply (ep_inv_heap _ p).
  destruct force.
  - destruct (kill_loop_force E (m_events p) (upd_aborting (λ _, true) p)) as (p' & -> & Hn & Ht & Hab & Hc);
      [apply (inv_nodup _ _ Hinv)|apply (inv_heap _ _ Hinv)|].
    eexists. split; [reflexivity|]. simpl. split.
    { constructor; simpl; [|constructor..]. intros e. rewrite Hn. split; [by intros []|by intros ?%not_elem_of_nil]. }
    split_and!; auto; [apply sublist_nil_l|]. intros te b Hte. by apply not_elem_of_nil in Hte.
  - destruct (kill_loop_keep E (m_events p) [] (upd_aborting (λ _, true) p))
      as (p' & kept & -> & Hinv' & Ht & Hab & He & Hsub & Hf & Hc); [done|done|by intros ?? ?%not_elem_of_nil|].
    exists p'. split; [done|]. simpl in He, Hf. rewrite He. split_and!; auto. done.
Qed.

(** ** A concrete queue *)

(** Event 1 plans itself for the next tick and spawns another event; the others are done. *)
Definition ticking_env : EventEnv :=
  mkEventEnv
    (λ cs, match cs with
           | CallExecute e now _ :: _ =>
               if e =? 1 then ([ActSpawn 0 0 (now + 5) true; ActSetAbort 0; ActReAdd (now + 1) false], false)
               else ([], true)
           | _ => ([], true)
           end)
    (λ _ e, negb (e =? 1)).

Definition three_events : EventProcessor :=
  mkEP 100 [(90, 1); (105, 2); (200, 3)] false
    (<[1 := new_BasicEvent 10 90]> (<[2 := new_BasicEvent 20 105]> (<[3 := new_BasicEvent 30 200]> ∅))) [].

Lemma three_events_inv : ep_inv [] three_events.
Proof.
  constructor; simpl.
  - intros e. rewrite <-elem_of_dom, !dom_insert, dom_empty. set_solver.
  - repeat (apply NoDup_cons; split; [set_solver|]). constructor.
  - repeat constructor; unfold earlier; simpl; lia.
Qed.

Lemma ticking_env_well_behaved : well_behaved ticking_env.
Proof.
  intros cs e now dt. simpl. destruct (e =? 1); simpl.
  - split; [done|]. repeat constructor; simpl; lia.
  - split; [done|constructor].
Qed.


Lemma KillAllEvents_spec_witness :
  ∃ p', KillAllEvents ticking_env false three_events = Ok (tt, p') ∧ ep_inv [] p' ∧
    called (ep_calls p') = [3; 2; 1].
Proof.
  destruct (KillAllEvents_spec ticking_env false three_events three_events_inv)
    as (p' & Hr & Hi & _ & _ & _ & _ & _ & Hc).
  exists p'. split; [exact Hr|]. split; [exact Hi|exact Hc].
Defined.

(** The kept event stays, and later events are still accepted: [m_aborting] is never read. *)
Example kill_then_add :
  match (KillAllEvents ticking_env false;; run_action ticking_env 0 (ActSpawn 0 0 110 true)) three_events with
  | Ok (_, p) => m_aborting p = true ∧ (m_events p).*1 = [90; 110]
  | Throw _ => False
  end.
Proof. vm_compute. done. Qed.
