(* ===== verification/UpdateMask.v ===== *)
(** * UpdateMask: which fields of an object a packet carries.

    [game/Entities/Object/Updates/UpdateMask.h]: an array with one byte per field, padded
    to whole 32-bit blocks, and its form in a packet.  The array is reached through a
    pointer that is null before the first [SetCount]; an access outside the array, and
    deleting the array through a pointer that was never set, are undefined behaviour. *)
From S2P Require Import Prelude Bits ByteBuffer.
Open Scope Z_scope.

Module UpdateMask.

(** The member [_bits]. *)
Inductive pointer : Type :=
| Null
| Indeterminate
| Array (bytes : list Z).

Record t : Type := mk { _fieldCount : Z; _blockCount : Z; _bits : pointer }.

Definition CLIENT_UPDATE_MASK_BITS : Z := 32.

Definition new : t := mk 0 0 Null.

(** Access to [_bits[index]]. *)
Definition load (p : pointer) (index : Z) : result Z :=
  match p with
  | Array l => match l !! Z.to_nat index with Some x => Ok x | None => Throw UndefinedBehaviour end
  | _ => Throw UndefinedBehaviour
  end.
Definition store (p : pointer) (index v : Z) : result pointer :=
  match p with
  | Array l => if (Z.to_nat index <? length l)%nat then Ok (Array (<[Z.to_nat index := v]> l))
               else Throw UndefinedBehaviour
  | _ => Throw UndefinedBehaviour
  end.
Definition delete_array (p : pointer) : result unit :=
  match p with Indeterminate => Throw UndefinedBehaviour | _ => Ok tt end.

Definition set_bits (p : pointer) (m : t) : t := mk (_fieldCount m) (_blockCount m) p.

Definition SetBit (index : Z) (m : t) : result t := p ← store (_bits m) index 1; mret (set_bits p m).
Definition UnsetBit (index : Z) (m : t) : result t := p ← store (_bits m) index 0; mret (set_bits p m).
Definition GetBit (index : Z) (m : t) : result bool := x ← load (_bits m) index; mret (z2b x).

Definition GetBlockCount (m : t) : Z := _blockCount m.
Definition GetCount (m : t) : Z := _fieldCount m.

(** All arithmetic is in [uint32]. *)
Definition SetCount (valuesCount : Z) (m : t) : result t :=
  delete_array (_bits m);;
  let blocks := u32 (valuesCount + CLIENT_UPDATE_MASK_BITS - 1) / CLIENT_UPDATE_MASK_BITS in
  mret (mk valuesCount blocks (Array (replicate (Z.to_nat (blocks * CLIENT_UPDATE_MASK_BITS)) 0))).

Definition Clear (m : t) : result t :=
  match _bits m with
  | Null => Ok m
  | Indeterminate => Throw UndefinedBehaviour
  | Array l => Ok (set_bits (Array (replicate (length l) 0)) m)
  end.

(** [memcpy(_bits, right._bits, _blockCount * 32)]; copying nothing is harmless. *)
Definition copy_bits (right m : t) : result t :=
  if _blockCount m =? 0 then Ok m
  else match _bits right with Array l => Ok (set_bits (Array l) m) | _ => Throw UndefinedBehaviour end.

(** The copy constructor: the members have no values when [SetCount] deletes the old array. *)
Definition copy (right : t) : result t :=
  m ← SetCount (GetCount right) (mk 0 0 Indeterminate); copy_bits right m.

(** Assignment from another mask. *)
Definition assign (right m : t) : result t :=
  m ← SetCount (GetCount right) m; copy_bits right m.

(** [for (uint32 i = 0; i < _fieldCount; ++i) _bits[i] op= right._bits[i];] *)
Fixpoint combine_loop (op : Z → Z → Z) (right : pointer) (n : nat) (i : Z) (p : pointer) : result pointer :=
  match n with
  | O => Ok p
  | S n =>
      x ← load p i; y ← load right i; p ← store p i (op x y);
      combine_loop op right n (i + 1) p
  end.
Definition combine (op : Z → Z → Z) (right m : t) : result t :=
  if GetCount right <=? GetCount m then
    p ← combine_loop op (_bits right) (Z.to_nat (_fieldCount m)) 0 (_bits m); mret (set_bits p m)
  else Throw AssertionFailed.

Definition and_assign : t → t → result t := combine Z.land.
Definition or_assign : t → t → result t := combine Z.lor.
(** [operator|]: a copy, then [|=]. *)
Definition or (right m : t) : result t := ret ← copy m; or_assign right ret.

(** The inner loop of [AppendToPacket]: the bits of a block from [j] on.  The literal 1 is
    an [int]: its shift by 31 is the smallest one, whose conversion has the bit 31 alone. *)
Fixpoint mask_part (bits : pointer) (base : Z) (n : nat) (j maskPart : Z) : result Z :=
  match n with
  | O => Ok maskPart
  | S n =>
      x ← load bits (base + j);
      mask_part bits base n (j + 1)
        (if z2b x then Z.lor maskPart (u32 (i32 (Z.shiftl 1 j))) else maskPart)
  end.

(** The blocks from [i] on. *)
Fixpoint append_blocks (bits : pointer) (n : nat) (i : Z) : M ByteBuffer.t unit :=
  match n with
  | O => mret tt
  | S n =>
      maskPart ← lift (mask_part bits (CLIENT_UPDATE_MASK_BITS * i) 32 0 0);
      ByteBuffer.shl_uint32 maskPart;;
      append_blocks bits n (i + 1)
  end.
Definition AppendToPacket (m : t) : M ByteBuffer.t unit :=
  append_blocks (_bits m) (Z.to_nat (GetBlockCount m)) 0.

(** ** Facts *)

(** A mask for [n] fields: an array of whole blocks. *)
Record wf (n : Z) (m : t) (l : list Z) : Prop := {
  wf_count : _fieldCount m = n;
  wf_blocks : _blockCount m = (n + 31) / 32;
  wf_bits : _bits m = Array l;
  wf_length : Z.of_nat (length l) = (n + 31) / 32 * 32
}.

Lemma wf_bound n m l : wf n m l → 0 ≤ n → n ≤ Z.of_nat (length l).
Proof. intros [_ _ _ ->] Hn. pose proof (Z.div_mod (n + 31) 32 ltac:(lia)). pose proof (Z.mod_pos_bound (n + 31) 32). lia. Qed.

Lemma SetCount_wf n m : 0 ≤ n < 2 ^ 32 - 31 → _bits m ≠ Indeterminate →
  ∃ m', SetCount n m = Ok m' ∧ wf n m' (replicate (Z.to_nat ((n + 31) / 32 * 32)) 0).
Proof.
  intros Hn Hm. unfold SetCount.
  assert (delete_array (_bits m) = Ok tt) as -> by by destruct (_bits m).
  unfold mbind, result_bind, mret, result_ret, CLIENT_UPDATE_MASK_BITS.
  replace (u32 (n + 32 - 1)) with (n + 31) by (unfold u32; rewrite Z.mod_small; lia).
  eexists. split; [done|]. split; cbn [_fieldCount _blockCount _bits]; try done.
  rewrite length_replicate, Z2Nat.id; [done|]. pose proof (Z.div_pos (n + 31) 32). lia.
Qed.

Lemma SetBit_wf n m l i : wf n m l → 0 ≤ i < n →
  ∃ m', SetBit i m = Ok m' ∧ wf n m' (<[Z.to_nat i := 1]> l).
Proof.
  intros Hm Hi. pose proof (wf_bound _ _ _ Hm). destruct Hm as [Hc Hb Hl Hlen].
  unfold SetBit, store. rewrite Hl, (proj2 (Nat.ltb_lt _ _)) by lia.
  unfold mbind, result_bind, mret, result_ret. eexists. split; [done|].
  split; cbn [_fieldCount _blockCount _bits set_bits]; auto. by rewrite length_insert.
Qed.

Lemma GetBit_wf n m l i : wf n m l → 0 ≤ i < n → GetBit i m = Ok (z2b (default 0 (l !! Z.to_nat i))).
Proof.
  intros Hm Hi. pose proof (wf_bound _ _ _ Hm). destruct Hm as [_ _ Hl Hlen].
  unfold GetBit, load. rewrite Hl. by destruct (lookup_lt_is_Some_2 l (Z.to_nat i) ltac:(lia)) as [x ->].
Qed.

Lemma Clear_wf n m l : wf n m l → ∃ m', Clear m = Ok m' ∧ wf n m' (replicate (length l) 0).
Proof.
  intros [Hc Hb Hl Hlen]. unfold Clear. rewrite Hl. eexists. split; [done|].
  split; cbn [_fieldCount _blockCount _bits set_bits]; auto. by rewrite length_replicate.
Qed.

(** The copy constructor is undefined on every mask. *)
Lemma copy_undefined right : copy right = Throw UndefinedBehaviour.
Proof. done. Qed.

(** The value of a block, by its bits. *)
Lemma testbit_mask_part_bit j : 0 ≤ j < 32 → u32 (i32 (Z.shiftl 1 j)) = 2 ^ j.
Proof.
  intros Hj. rewrite Z.shiftl_1_l. unfold u32, i32, wrap_signed.
  assert (0 < 2 ^ j) by lia. destruct (Z.eq_dec j 31) as [->|]; [done|].
  assert (2 ^ j ≤ 2 ^ 30) by (apply Z.pow_le_mono_r; lia).
  rewrite (Z.mod_small (_ + _)) by lia. rewrite Z.mod_small by lia. lia.
Qed.

Lemma mask_part_spec l base n j acc :
  0 ≤ base → 0 ≤ j → j + Z.of_nat n ≤ 32 → base + j + Z.of_nat n ≤ Z.of_nat (length l) →
  (∀ k, 0 ≤ k → Z.testbit acc k = (k <? j) && z2b (default 0 (l !! Z.to_nat (base + k)))) →
  ∃ v, mask_part (Array l) base n j acc = Ok v ∧
    ∀ k, 0 ≤ k → Z.testbit v k = (k <? j + Z.of_nat n) && z2b (default 0 (l !! Z.to_nat (base + k))).
Proof.
  revert j acc. induction n as [|n IH]; intros j acc Hb Hj Hn Hlen Hacc; cbn [mask_part].
  { exists acc. split; [done|]. intros k Hk. rewrite Hacc by done. by replace (j + Z.of_nat 0) with j by lia. }
  unfold load. destruct (lookup_lt_is_Some_2 l (Z.to_nat (base + j)) ltac:(lia)) as [x Hx]. rewrite Hx.
  unfold mbind, result_bind.
  destruct (IH (j + 1) (if z2b x then Z.lor acc (u32 (i32 (Z.shiftl 1 j))) else acc))
    as (v & Hv & Hbits); try lia.
  - intros k Hk. rewrite testbit_mask_part_bit by lia.
    assert (Z.testbit (if z2b x then Z.lor acc (2 ^ j) else acc) k =
      Z.testbit acc k || (z2b x && (k =? j))) as ->.
    { destruct (z2b x); [|by rewrite orb_false_r]. rewrite Z.lor_spec, testbit_pow2 by lia. done. }
    rewrite Hacc by done. destruct (Z.eqb_spec k j) as [->|Hne].
    + rewrite Z.ltb_irrefl, Hx. simpl. rewrite (proj2 (Z.ltb_lt _ _)) by lia. by rewrite andb_true_r.
    + rewrite andb_false_r, orb_false_r. f_equal. apply eq_true_iff_eq. rewrite !Z.ltb_lt. lia.
  - exists v. split; [done|]. intros k Hk. rewrite Hbits by done. do 2 f_equal. lia.
Qed.

End UpdateMask.
