(* ===== verification/UpdateFields.v ===== *)
(** * UpdateFields: the numbers of the fields of objects, and who may see them.

    The enumerators of [Updates/UpdateFields.h] that the update code names, the flags of
    [Updates/UpdateFieldFlags.h] and the tables of [Updates/UpdateFieldFlags.cpp], in runs of
    equal rows with the comment of the row.  A table with fewer rows than its size ends in
    zeros. *)
From S2P Require Import Prelude.
Open Scope Z_scope.

(** ** Field numbers *)

Definition OBJECT_FIELD_GUID : Z := 0x0000.
Definition OBJECT_FIELD_TYPE : Z := 0x0004.
Definition OBJECT_FIELD_ENTRY : Z := 0x0005.
Definition OBJECT_DYNAMIC_FLAGS : Z := 0x0006.
Definition OBJECT_FIELD_SCALE_X : Z := 0x0007.
Definition OBJECT_END : Z := 0x0008.
Definition ITEM_FIELD_ENCHANTMENT_1_1 : Z := OBJECT_END + 0x0010.
Definition ITEM_END : Z := OBJECT_END + 0x003D.
Definition CONTAINER_END : Z := ITEM_END + 0x0049.
Definition UNIT_FIELD_FACTIONTEMPLATE : Z := OBJECT_END + 0x002E.
Definition UNIT_FIELD_FLAGS : Z := OBJECT_END + 0x0032.
Definition UNIT_FIELD_AURASTATE : Z := OBJECT_END + 0x0034.
Definition UNIT_FIELD_BASEATTACKTIME : Z := OBJECT_END + 0x0035.
Definition UNIT_FIELD_RANGEDATTACKTIME : Z := OBJECT_END + 0x0037.
Definition UNIT_FIELD_DISPLAYID : Z := OBJECT_END + 0x003A.
Definition UNIT_FIELD_MOUNTDISPLAYID : Z := OBJECT_END + 0x003C.
Definition UNIT_FIELD_MINOFFHANDDAMAGE : Z := OBJECT_END + 0x003F.
Definition UNIT_FIELD_MAXOFFHANDDAMAGE : Z := OBJECT_END + 0x0040.
Definition UNIT_NPC_FLAGS : Z := OBJECT_END + 0x004B.
Definition UNIT_FIELD_POSSTAT0 : Z := OBJECT_END + 0x0053.
Definition UNIT_FIELD_POSSTAT4 : Z := OBJECT_END + 0x0057.
Definition UNIT_FIELD_NEGSTAT0 : Z := OBJECT_END + 0x0058.
Definition UNIT_FIELD_NEGSTAT4 : Z := OBJECT_END + 0x005C.
Definition UNIT_FIELD_RESISTANCEBUFFMODSPOSITIVE : Z := OBJECT_END + 0x0064.
Definition UNIT_FIELD_RESISTANCEBUFFMODSNEGATIVE : Z := OBJECT_END + 0x006B.
Definition UNIT_FIELD_BYTES_2 : Z := OBJECT_END + 0x0074.
Definition UNIT_END : Z := OBJECT_END + 0x0093.
Definition PLAYER_END_NOT_SELF : Z := UNIT_END + 0x0325.
Definition PLAYER_END : Z := UNIT_END + 0x0720.
Definition GAMEOBJECT_FLAGS : Z := OBJECT_END + 0x0003.
Definition GAMEOBJECT_STATE_SPELL_VISUAL_ID : Z := OBJECT_END + 0x000B.
Definition GAMEOBJECT_END : Z := OBJECT_END + 0x000C.
Definition DYNAMICOBJECT_END : Z := OBJECT_END + 0x0006.
Definition CORPSE_FIELD_ITEM : Z := OBJECT_END + 0x0005.
Definition CORPSE_FIELD_DYNAMIC_FLAGS : Z := OBJECT_END + 0x001B.
Definition CORPSE_END : Z := OBJECT_END + 0x001C.
Definition AREATRIGGER_DURATION : Z := OBJECT_END + 0x0004.
Definition AREATRIGGER_END : Z := OBJECT_END + 0x0005.

(** ** Visibility *)

Definition UF_FLAG_NONE : Z := 0x000.
Definition UF_FLAG_PUBLIC : Z := 0x001.
Definition UF_FLAG_PRIVATE : Z := 0x002.
Definition UF_FLAG_OWNER : Z := 0x004.
Definition UF_FLAG_UNUSED1 : Z := 0x008.
Definition UF_FLAG_ITEM_OWNER : Z := 0x010.
Definition UF_FLAG_PARTY_MEMBER : Z := 0x020.
Definition UF_FLAG_UNITALL : Z := 0x040.
Definition UF_FLAG_VIEWERDEPENDENT : Z := 0x080.
Definition UF_FLAG_URGENT : Z := 0x100.
Definition UF_FLAG_UNUSED2 : Z := 0x200.

(** A run of rows. *)
Definition rows (l : list (nat * Z)) : list Z := l ≫= λ '(n, f), replicate n f.

(** The rest of an array that is initialised with fewer values than it has. *)
Definition array_of (n : Z) (l : list Z) : list Z := l ++ replicate (Z.to_nat n - length l) 0.

(** ** Tables *)

Definition ItemUpdateFieldFlags : list Z := array_of CONTAINER_END (rows [
  (2%nat, UF_FLAG_PUBLIC);  (* m_guid *)
  (2%nat, UF_FLAG_PUBLIC);  (* m_data *)
  (1%nat, UF_FLAG_PUBLIC);  (* m_type *)
  (1%nat, UF_FLAG_VIEWERDEPENDENT);  (* m_entryID *)
  (1%nat, UF_FLAG_PUBLIC);  (* m_scale *)
  (2%nat, UF_FLAG_PUBLIC);  (* m_UF_FLAG_OWNER *)
  (2%nat, UF_FLAG_PUBLIC);  (* m_containedIn *)
  (2%nat, UF_FLAG_PUBLIC);  (* m_creator *)
  (2%nat, UF_FLAG_PUBLIC);  (* m_giftCreator *)
  (1%nat, UF_FLAG_OWNER);  (* m_stackCount *)
  (1%nat, UF_FLAG_OWNER);  (* m_expiration *)
  (5%nat, UF_FLAG_OWNER);  (* m_spellCharges *)
  (1%nat, UF_FLAG_PUBLIC);  (* m_dynamicFlags *)
  (39%nat, UF_FLAG_PUBLIC);  (* m_enchantment *)
  (1%nat, UF_FLAG_PUBLIC);  (* m_propertySeed *)
  (1%nat, UF_FLAG_PUBLIC);  (* m_randomPropertiesID *)
  (1%nat, UF_FLAG_OWNER);  (* m_durability *)
  (1%nat, UF_FLAG_OWNER);  (* m_maxDurability *)
  (1%nat, UF_FLAG_PUBLIC);  (* m_createPlayedTime *)
  (1%nat, UF_FLAG_OWNER);  (* m_modifiersMask *)
  (1%nat, UF_FLAG_PUBLIC);  (* m_numSlots *)
  (72%nat, UF_FLAG_PUBLIC)  (* m_slots *)
]).

Definition UnitUpdateFieldFlags_0 : list Z := rows [
  (2%nat, UF_FLAG_PUBLIC);  (* m_guid *)
  (2%nat, UF_FLAG_PUBLIC);  (* m_data *)
  (1%nat, UF_FLAG_PUBLIC);  (* m_type *)
  (1%nat, UF_FLAG_VIEWERDEPENDENT);  (* m_entryID *)
  (1%nat, UF_FLAG_PUBLIC);  (* m_scale *)
  (2%nat, UF_FLAG_PUBLIC);  (* charm *)
  (2%nat, UF_FLAG_PUBLIC);  (* summon *)
  (2%nat, UF_FLAG_PRIVATE);  (* critter *)
  (2%nat, UF_FLAG_PUBLIC);  (* charmedBy *)
  (2%nat, UF_FLAG_PUBLIC);  (* summonedBy *)
  (2%nat, UF_FLAG_PUBLIC);  (* createdBy *)
  (2%nat, UF_FLAG_PUBLIC);  (* target *)
  (1%nat, UF_FLAG_PUBLIC);  (* BATTLE_PET_COMPANION_GUID *)
  (2%nat, UF_FLAG_PUBLIC);  (* channelObject *)
  (1%nat, UF_FLAG_PUBLIC);  (* summonedByHomeRealm *)
  (1%nat, UF_FLAG_PUBLIC);  (* channelSpell *)
  (1%nat, UF_FLAG_PUBLIC);  (* displayPower,1 - bytes *)
  (1%nat, UF_FLAG_PUBLIC);  (* overrideDisplayPowerID *)
  (1%nat, UF_FLAG_PUBLIC);  (* health *)
  (5%nat, UF_FLAG_PUBLIC);  (* power *)
  (1%nat, UF_FLAG_PUBLIC);  (* maxHealth *)
  (5%nat, UF_FLAG_PUBLIC);  (* maxPower *)
  (5%nat, (Z.lor (Z.lor UF_FLAG_PRIVATE UF_FLAG_OWNER) UF_FLAG_UNITALL));  (* powerRegenFlatModifier *)
  (5%nat, (Z.lor (Z.lor UF_FLAG_PRIVATE UF_FLAG_OWNER) UF_FLAG_UNITALL));  (* powerRegenInterruptedFlatModifier *)
  (1%nat, UF_FLAG_PUBLIC);  (* level *)
  (1%nat, UF_FLAG_PUBLIC);  (* EFFECTIVE_LEVEL *)
  (1%nat, UF_FLAG_PUBLIC);  (* factionTemplate *)
  (3%nat, UF_FLAG_PUBLIC);  (* virtualItemID *)
  (1%nat, UF_FLAG_PUBLIC);  (* flags *)
  (1%nat, UF_FLAG_PUBLIC);  (* flags2 *)
  (1%nat, UF_FLAG_PUBLIC);  (* auraState *)
  (2%nat, UF_FLAG_PUBLIC);  (* attackRoundBaseTime *)
  (1%nat, UF_FLAG_PRIVATE);  (* rangedAttackRoundBaseTime *)
  (1%nat, UF_FLAG_PUBLIC);  (* boundingRadius *)
  (1%nat, UF_FLAG_PUBLIC);  (* combatReach *)
  (1%nat, UF_FLAG_VIEWERDEPENDENT);  (* displayID *)
  (1%nat, UF_FLAG_PUBLIC);  (* nativeDisplayID *)
  (1%nat, UF_FLAG_PUBLIC);  (* mountDisplayID *)
  (1%nat, UF_FLAG_PRIVATE);  (* minDamage *)
  (1%nat, UF_FLAG_PRIVATE);  (* maxDamage *)
  (1%nat, (Z.lor (Z.lor UF_FLAG_PRIVATE UF_FLAG_OWNER) UF_FLAG_ITEM_OWNER));  (* minOffHandDamage *)
  (1%nat, (Z.lor (Z.lor UF_FLAG_PRIVATE UF_FLAG_OWNER) UF_FLAG_ITEM_OWNER));  (* maxOffHandDamage *)
  (1%nat, UF_FLAG_PUBLIC);  (* animTier,1 - bytes1 *)
  (1%nat, UF_FLAG_PUBLIC);  (* petNumber *)
  (1%nat, UF_FLAG_PUBLIC);  (* petNameTimestamp *)
  (1%nat, UF_FLAG_OWNER);  (* petExperience *)
  (1%nat, UF_FLAG_OWNER);  (* petNextLevelExperience *)
  (1%nat, (Z.lor UF_FLAG_PUBLIC UF_FLAG_URGENT));  (* dynamicFlags *)
  (1%nat, UF_FLAG_PUBLIC);  (* modCastingSpeed *)
  (1%nat, UF_FLAG_PUBLIC);  (* modSpellHaste *)
  (1%nat, UF_FLAG_PUBLIC);  (* modHaste *)
  (1%nat, UF_FLAG_PUBLIC);  (* modHasteRegen *)
  (1%nat, UF_FLAG_PUBLIC);  (* createdBySpell *)
  (1%nat, (Z.lor UF_FLAG_PUBLIC UF_FLAG_VIEWERDEPENDENT));  (* npcFlags[UMNW0] *)
  (1%nat, UF_FLAG_PUBLIC);  (* npcFlags *)
  (1%nat, UF_FLAG_PUBLIC);  (* emoteState *)
  (5%nat, (Z.lor UF_FLAG_PRIVATE UF_FLAG_OWNER));  (* stats *)
  (5%nat, (Z.lor UF_FLAG_PRIVATE UF_FLAG_OWNER));  (* statPosBuff *)
  (5%nat, (Z.lor UF_FLAG_PRIVATE UF_FLAG_OWNER));  (* statNegBuff *)
  (7%nat, (Z.lor (Z.lor UF_FLAG_PRIVATE UF_FLAG_OWNER) UF_FLAG_ITEM_OWNER));  (* resistances *)
  (7%nat, (Z.lor UF_FLAG_PRIVATE UF_FLAG_OWNER));  (* resistanceBuffModsPositive *)
  (7%nat, (Z.lor UF_FLAG_PRIVATE UF_FLAG_OWNER));  (* resistanceBuffModsNegative *)
  (1%nat, UF_FLAG_PUBLIC);  (* baseMana *)
  (1%nat, (Z.lor UF_FLAG_PRIVATE UF_FLAG_OWNER));  (* baseHealth *)
  (1%nat, UF_FLAG_PUBLIC);  (* shapeshiftForm *)
  (1%nat, (Z.lor UF_FLAG_PRIVATE UF_FLAG_OWNER));  (* attackPower *)
  (1%nat, (Z.lor UF_FLAG_PRIVATE UF_FLAG_OWNER));  (* attackPowerModPos *)
  (1%nat, (Z.lor UF_FLAG_PRIVATE UF_FLAG_OWNER));  (* attackPowerModNeg *)
  (1%nat, (Z.lor UF_FLAG_PRIVATE UF_FLAG_OWNER));  (* attackPowerMultiplier *)
  (1%nat, (Z.lor UF_FLAG_PRIVATE UF_FLAG_OWNER));  (* rangedAttackPower *)
  (1%nat, (Z.lor UF_FLAG_PRIVATE UF_FLAG_OWNER));  (* rangedAttackPowerModPos *)
  (1%nat, (Z.lor UF_FLAG_PRIVATE UF_FLAG_OWNER));  (* rangedAttackPowerModNeg *)
  (1%nat, (Z.lor UF_FLAG_PRIVATE UF_FLAG_OWNER));  (* rangedAttackPowerMultiplier *)
  (1%nat, (Z.lor UF_FLAG_PRIVATE UF_FLAG_OWNER));  (* minRangedDamage *)
  (1%nat, (Z.lor UF_FLAG_PRIVATE UF_FLAG_OWNER));  (* maxRangedDamage *)
  (7%nat, (Z.lor UF_FLAG_PRIVATE UF_FLAG_OWNER));  (* powerCostModifier *)
  (7%nat, (Z.lor UF_FLAG_PRIVATE UF_FLAG_OWNER));  (* powerCostMultiplier *)
  (1%nat, (Z.lor UF_FLAG_PRIVATE UF_FLAG_OWNER));  (* maxHealthModifier *)
  (1%nat, UF_FLAG_PUBLIC)  (* hoverHeight *)
].

Definition UnitUpdateFieldFlags_1 : list Z := rows [
  (1%nat, UF_FLAG_PUBLIC);  (* minItemLevel *)
  (1%nat, UF_FLAG_PUBLIC);  (* maxItemLevel *)
  (1%nat, UF_FLAG_PUBLIC);  (* wildBattlePetLevel *)
  (2%nat, UF_FLAG_PUBLIC);  (* battlePetCompanionGUID *)
  (1%nat, UF_FLAG_PUBLIC);  (* battlePetCompanionNameTimestamp *)
  (2%nat, UF_FLAG_PUBLIC);  (* duelArbiter *)
  (1%nat, UF_FLAG_PUBLIC);  (* playerFlags *)
  (1%nat, UF_FLAG_PUBLIC);  (* guildRankID *)
  (1%nat, UF_FLAG_PUBLIC);  (* guildDeleteDate *)
  (1%nat, UF_FLAG_PUBLIC);  (* guildLevel *)
  (1%nat, UF_FLAG_PUBLIC);  (* hairColorID *)
  (1%nat, UF_FLAG_PUBLIC);  (* restState *)
  (1%nat, UF_FLAG_PUBLIC);  (* arenaFaction *)
  (1%nat, UF_FLAG_PUBLIC);  (* duelTeam *)
  (1%nat, UF_FLAG_PUBLIC);  (* guildTimeStamp *)
  (133%nat, UF_FLAG_PARTY_MEMBER)  (* questLog *)
].

Definition UnitUpdateFieldFlags_2 : list Z := rows [
  (150%nat, UF_FLAG_PARTY_MEMBER)  (* questLog *)
].

Definition UnitUpdateFieldFlags_3 : list Z := rows [
  (150%nat, UF_FLAG_PARTY_MEMBER)  (* questLog *)
].

Definition UnitUpdateFieldFlags_4 : list Z := rows [
  (150%nat, UF_FLAG_PARTY_MEMBER)  (* questLog *)
].

Definition UnitUpdateFieldFlags_5 : list Z := rows [
  (150%nat, UF_FLAG_PARTY_MEMBER)  (* questLog *)
].

Definition UnitUpdateFieldFlags_6 : list Z := rows [
  (17%nat, UF_FLAG_PARTY_MEMBER);  (* questLog *)
  (38%nat, UF_FLAG_PUBLIC);  (* visibleItems *)
  (1%nat, UF_FLAG_PUBLIC);  (* playerTitle *)
  (1%nat, UF_FLAG_PUBLIC);  (* fakeInebriation *)
  (1%nat, UF_FLAG_PUBLIC);  (* homePlayerRealm *)
  (1%nat, UF_FLAG_PUBLIC);  (* currentSpecID *)
  (1%nat, UF_FLAG_PUBLIC);  (* taxiMountAnimKitID *)
  (1%nat, UF_FLAG_PUBLIC);  (* currentBattlePetBreedQuality *)
  (89%nat, UF_FLAG_PRIVATE)  (* local.invSlots *)
].

Definition UnitUpdateFieldFlags_7 : list Z := rows [
  (83%nat, UF_FLAG_PRIVATE);  (* local.invSlots *)
  (2%nat, UF_FLAG_PRIVATE);  (* local.farsightObject *)
  (8%nat, UF_FLAG_PRIVATE);  (* local.knownTitles *)
  (2%nat, UF_FLAG_PRIVATE);  (* local.coinage *)
  (1%nat, UF_FLAG_PRIVATE);  (* local.XP *)
  (1%nat, UF_FLAG_PRIVATE);  (* local.nextLevelXP *)
  (53%nat, UF_FLAG_PRIVATE)  (* local.skill *)
].

Definition UnitUpdateFieldFlags_8 : list Z := rows [
  (150%nat, UF_FLAG_PRIVATE)  (* local.skill *)
].

Definition UnitUpdateFieldFlags_9 : list Z := rows [
  (150%nat, UF_FLAG_PRIVATE)  (* local.skill *)
].

Definition UnitUpdateFieldFlags_10 : list Z := rows [
  (95%nat, UF_FLAG_PRIVATE);  (* local.skill *)
  (1%nat, UF_FLAG_PRIVATE);  (* local.characterPoints *)
  (1%nat, UF_FLAG_PRIVATE);  (* local.maxTalentTiers *)
  (1%nat, UF_FLAG_PRIVATE);  (* local.trackCreatureMask *)
  (1%nat, UF_FLAG_PRIVATE);  (* local.trackResourceMask *)
  (1%nat, UF_FLAG_PRIVATE);  (* local.expertise *)
  (1%nat, UF_FLAG_PRIVATE);  (* local.offhandExpertise *)
  (1%nat, UF_FLAG_PRIVATE);  (* local.rangedExpertise *)
  (1%nat, UF_FLAG_PRIVATE);  (* local.blockPercentage *)
  (1%nat, UF_FLAG_PRIVATE);  (* local.dodgePercentage *)
  (1%nat, UF_FLAG_PRIVATE);  (* local.parryPercentage *)
  (1%nat, UF_FLAG_PRIVATE);  (* local.critPercentage *)
  (1%nat, UF_FLAG_PRIVATE);  (* local.rangedCritPercentage *)
  (1%nat, UF_FLAG_PRIVATE);  (* local.offhandCritPercentage *)
  (7%nat, UF_FLAG_PRIVATE);  (* local.spellCritPercentage *)
  (1%nat, UF_FLAG_PRIVATE);  (* local.shieldBlock *)
  (1%nat, UF_FLAG_PRIVATE);  (* local.shieldBlockCritPercentage *)
  (1%nat, UF_FLAG_PRIVATE);  (* local.mastery *)
  (1%nat, UF_FLAG_PRIVATE);  (* local.pvpPowerDamage *)
  (1%nat, UF_FLAG_PRIVATE);  (* local.pvpPowerHealing *)
  (30%nat, UF_FLAG_PRIVATE)  (* local.exploredZones *)
].

Definition UnitUpdateFieldFlags_11 : list Z := rows [
  (150%nat, UF_FLAG_PRIVATE)  (* local.exploredZones *)
].

Definition UnitUpdateFieldFlags_12 : list Z := rows [
  (20%nat, UF_FLAG_PRIVATE);  (* local.exploredZones *)
  (1%nat, UF_FLAG_PRIVATE);  (* local.restStateBonusPool *)
  (7%nat, UF_FLAG_PRIVATE);  (* local.modDamageDonePos *)
  (7%nat, UF_FLAG_PRIVATE);  (* local.modDamageDoneNeg *)
  (7%nat, UF_FLAG_PRIVATE);  (* local.modDamageDonePercent *)
  (1%nat, UF_FLAG_PRIVATE);  (* local.modHealingDonePos *)
  (1%nat, UF_FLAG_PRIVATE);  (* local.modHealingPercent *)
  (1%nat, UF_FLAG_PRIVATE);  (* local.modHealingDonePercent *)
  (1%nat, UF_FLAG_PRIVATE);  (* local.modPeriodicHealingDonePercent *)
  (3%nat, UF_FLAG_PRIVATE);  (* local.weaponDmgMultipliers *)
  (1%nat, UF_FLAG_PRIVATE);  (* local.modSpellPowerPercent *)
  (1%nat, UF_FLAG_PRIVATE);  (* local.modResiliencePercent *)
  (1%nat, UF_FLAG_PRIVATE);  (* local.overrideSpellPowerByAPPercent *)
  (1%nat, UF_FLAG_PRIVATE);  (* local.overrideAPBySpellPowerPercent *)
  (1%nat, UF_FLAG_PRIVATE);  (* local.modTargetResistance *)
  (1%nat, UF_FLAG_PRIVATE);  (* local.modTargetPhysicalResistance *)
  (1%nat, UF_FLAG_PRIVATE);  (* local.lifetimeMaxRank *)
  (1%nat, UF_FLAG_PRIVATE);  (* local.UF_FLAG_PRIVATEResSpell *)
  (1%nat, UF_FLAG_PRIVATE);  (* local.pvpMedals *)
  (12%nat, UF_FLAG_PRIVATE);  (* local.buybackPrice *)
  (12%nat, UF_FLAG_PRIVATE);  (* local.buybackTimestamp *)
  (1%nat, UF_FLAG_PRIVATE);  (* local.yesterdayHonorableKills *)
  (1%nat, UF_FLAG_PRIVATE);  (* local.lifetimeHonorableKills *)
  (1%nat, UF_FLAG_PRIVATE);  (* local.watchedFactionIndex *)
  (27%nat, UF_FLAG_PRIVATE);  (* local.combatRatings *)
  (21%nat, UF_FLAG_PRIVATE);  (* local.arenaTeams *)
  (1%nat, UF_FLAG_PRIVATE);  (* local.battlegroundRating *)
  (1%nat, UF_FLAG_PRIVATE);  (* local.maxLevel *)
  (4%nat, UF_FLAG_PRIVATE);  (* local.runeRegen *)
  (4%nat, UF_FLAG_PRIVATE);  (* local.noReagentCostMask *)
  (6%nat, UF_FLAG_PRIVATE);  (* local.glyphSlots *)
  (1%nat, UF_FLAG_PRIVATE)  (* local.glyphs *)
].

Definition UnitUpdateFieldFlags_13 : list Z := rows [
  (5%nat, UF_FLAG_PRIVATE);  (* local.glyphs *)
  (1%nat, UF_FLAG_PRIVATE);  (* local.glyphSlotsEnabled *)
  (1%nat, UF_FLAG_PRIVATE);  (* local.petSpellPower *)
  (8%nat, UF_FLAG_PRIVATE);  (* local.researching *)
  (2%nat, UF_FLAG_PRIVATE);  (* local.professionSkillLine *)
  (1%nat, UF_FLAG_PRIVATE);  (* local.uiHitModifier *)
  (1%nat, UF_FLAG_PRIVATE);  (* local.uiSpellHitModifier *)
  (1%nat, UF_FLAG_PRIVATE);  (* local.homeRealmTimeOffset *)
  (1%nat, UF_FLAG_PRIVATE);  (* local.modRangedHaste *)
  (1%nat, UF_FLAG_PRIVATE);  (* local.modPetHaste *)
  (2%nat, UF_FLAG_PRIVATE);  (* local.summonedBattlePetGUID *)
  (1%nat, UF_FLAG_PRIVATE)  (* local.overrideSpellsID *)
].

Definition UnitUpdateFieldFlags : list Z := array_of PLAYER_END (UnitUpdateFieldFlags_0 ++ UnitUpdateFieldFlags_1 ++ UnitUpdateFieldFlags_2 ++ UnitUpdateFieldFlags_3 ++ UnitUpdateFieldFlags_4 ++ UnitUpdateFieldFlags_5 ++ UnitUpdateFieldFlags_6 ++ UnitUpdateFieldFlags_7 ++ UnitUpdateFieldFlags_8 ++ UnitUpdateFieldFlags_9 ++ UnitUpdateFieldFlags_10 ++ UnitUpdateFieldFlags_11 ++ UnitUpdateFieldFlags_12 ++ UnitUpdateFieldFlags_13).

Definition GameObjectUpdateFieldFlags : list Z := array_of GAMEOBJECT_END (rows [
  (2%nat, UF_FLAG_PUBLIC);  (* m_guid *)
  (2%nat, UF_FLAG_PUBLIC);  (* m_data *)
  (1%nat, UF_FLAG_PUBLIC);  (* m_type *)
  (1%nat, UF_FLAG_VIEWERDEPENDENT);  (* m_entryID *)
  (1%nat, UF_FLAG_PUBLIC);  (* m_scale *)
  (2%nat, UF_FLAG_PUBLIC);  (* m_createdBy *)
  (1%nat, UF_FLAG_PUBLIC);  (* m_displayID *)
  (1%nat, UF_FLAG_PUBLIC);  (* m_flags *)
  (4%nat, UF_FLAG_PUBLIC);  (* m_parentRotation *)
  (1%nat, UF_FLAG_VIEWERDEPENDENT);  (* m_animProgress *)
  (1%nat, UF_FLAG_PUBLIC);  (* m_factionTemplate *)
  (1%nat, UF_FLAG_PUBLIC);  (* m_level *)
  (1%nat, UF_FLAG_PUBLIC)  (* m_percentHealth *)
]).

Definition DynamicObjectUpdateFieldFlags : list Z := array_of DYNAMICOBJECT_END (rows [
  (2%nat, UF_FLAG_PUBLIC);  (* m_guid *)
  (2%nat, UF_FLAG_PUBLIC);  (* m_data *)
  (1%nat, UF_FLAG_PUBLIC);  (* m_type *)
  (1%nat, UF_FLAG_VIEWERDEPENDENT);  (* m_entryID *)
  (1%nat, UF_FLAG_PUBLIC);  (* m_scale *)
  (2%nat, UF_FLAG_PUBLIC);  (* m_caster *)
  (1%nat, UF_FLAG_VIEWERDEPENDENT);  (* m_typeAndVisualID *)
  (1%nat, UF_FLAG_PUBLIC);  (* m_spellID *)
  (1%nat, UF_FLAG_PUBLIC);  (* m_radius *)
  (1%nat, UF_FLAG_PUBLIC)  (* m_castTime *)
]).

Definition CorpseUpdateFieldFlags : list Z := array_of CORPSE_END (rows [
  (2%nat, UF_FLAG_PUBLIC);  (* m_guid *)
  (2%nat, UF_FLAG_PUBLIC);  (* m_data *)
  (1%nat, UF_FLAG_PUBLIC);  (* m_type *)
  (1%nat, UF_FLAG_VIEWERDEPENDENT);  (* m_entryID *)
  (1%nat, UF_FLAG_PUBLIC);  (* m_scale *)
  (2%nat, UF_FLAG_PUBLIC);  (* m_UF_FLAG_OWNER *)
  (2%nat, UF_FLAG_PUBLIC);  (* m_UF_FLAG_PARTY_MEMBERGUID *)
  (1%nat, UF_FLAG_PUBLIC);  (* m_displayID *)
  (19%nat, UF_FLAG_PUBLIC);  (* m_items *)
  (1%nat, UF_FLAG_PUBLIC);  (* m_skinID *)
  (1%nat, UF_FLAG_PUBLIC);  (* m_facialHairStyleID *)
  (1%nat, UF_FLAG_PUBLIC);  (* m_flags *)
  (1%nat, UF_FLAG_VIEWERDEPENDENT)  (* m_dynamicFlags *)
]).

Definition AreaTriggerUpdateFieldFlags : list Z := array_of AREATRIGGER_END (rows [
  (2%nat, UF_FLAG_PUBLIC);  (* m_guid *)
  (2%nat, UF_FLAG_PUBLIC);  (* m_data *)
  (1%nat, UF_FLAG_PUBLIC);  (* m_type *)
  (1%nat, UF_FLAG_VIEWERDEPENDENT);  (* m_entryID *)
  (1%nat, UF_FLAG_PUBLIC);  (* m_scale *)
  (2%nat, UF_FLAG_PUBLIC);  (* m_caster *)
  (1%nat, UF_FLAG_PUBLIC);  (* m_duration *)
  (1%nat, UF_FLAG_PUBLIC);  (* m_spellID *)
  (1%nat, UF_FLAG_VIEWERDEPENDENT)  (* m_spellVisualID *)
]).
