(* ===== verification/ObjectFields.v ===== *)
(** * ObjectFields: the fields of an object and their changes.

    [game/Entities/Object/Object.{h,cpp}]: every object of the world keeps its visible state
    in an array of 32-bit fields, which holds integers, floats (here by their
    representation), bytes and halves of 64-bit values; a mask remembers the fields that have
    changed since the last update.  An object that is in the world enters the update list of
    [ObjectAccessor] when one of its fields changes. *)
From S2P Require Import Prelude Bits ByteBuffer ObjectGuid Float32 UpdateMask UpdateFields.
Open Scope Z_scope.
Import HighGuid.

Inductive TypeID : Type :=
| TYPEID_OBJECT
| TYPEID_ITEM
| TYPEID_CONTAINER
| TYPEID_UNIT
| TYPEID_PLAYER
| TYPEID_GAMEOBJECT
| TYPEID_DYNAMICOBJECT
| TYPEID_CORPSE
| TYPEID_AREATRIGGER.

Definition TYPEMASK_OBJECT : Z := 0x0001.

(** ** State *)

Record Object : Type := mkObject {
  m_objectType : Z;
  m_objectTypeId : TypeID;
  m_uint32Values : option (list Z);        (* [None] is the null pointer *)
  _changesMask : UpdateMask.t;
  m_valuesCount : Z;
  _fieldNotifyFlags : Z;
  m_objectUpdated : bool;
  m_inWorld : bool;
  m_PackGUID : ByteBuffer.t;
  i_objects : bool       (* whether it is in ObjectAccessor's set of objects to update *)
}.

Definition with_values f o := mkObject (m_objectType o) (m_objectTypeId o) (f (m_uint32Values o))
  (_changesMask o) (m_valuesCount o) (_fieldNotifyFlags o) (m_objectUpdated o) (m_inWorld o) (m_PackGUID o) (i_objects o).
Definition with_mask m o := mkObject (m_objectType o) (m_objectTypeId o) (m_uint32Values o)
  m (m_valuesCount o) (_fieldNotifyFlags o) (m_objectUpdated o) (m_inWorld o) (m_PackGUID o) (i_objects o).
Definition with_notify f o := mkObject (m_objectType o) (m_objectTypeId o) (m_uint32Values o)
  (_changesMask o) (m_valuesCount o) (f (_fieldNotifyFlags o)) (m_objectUpdated o) (m_inWorld o) (m_PackGUID o) (i_objects o).
Definition with_updated b o := mkObject (m_objectType o) (m_objectTypeId o) (m_uint32Values o)
  (_changesMask o) (m_valuesCount o) (_fieldNotifyFlags o) b (m_inWorld o) (m_PackGUID o) (i_objects o).
Definition with_inWorld b o := mkObject (m_objectType o) (m_objectTypeId o) (m_uint32Values o)
  (_changesMask o) (m_valuesCount o) (_fieldNotifyFlags o) (m_objectUpdated o) b (m_PackGUID o) (i_objects o).
Definition with_PackGUID b o := mkObject (m_objectType o) (m_objectTypeId o) (m_uint32Values o)
  (_changesMask o) (m_valuesCount o) (_fieldNotifyFlags o) (m_objectUpdated o) (m_inWorld o) b (i_objects o).
Definition with_objects b o := mkObject (m_objectType o) (m_objectTypeId o) (m_uint32Values o)
  (_changesMask o) (m_valuesCount o) (_fieldNotifyFlags o) (m_objectUpdated o) (m_inWorld o) (m_PackGUID o) b.


(** The constructor; a subclass then sets the types and [m_valuesCount]. *)
Definition new_Object (type : Z) (typeId : TypeID) (valuesCount : Z) : Object :=
  mkObject type typeId None UpdateMask.new valuesCount UF_FLAG_VIEWERDEPENDENT false false
    (match ByteBuffer.appendPackGUID 0 ByteBuffer.new with Ok (_, b) => b | Throw _ => ByteBuffer.new end) false.

Definition ASSERT (b : bool) : M Object unit := if b then mret tt else throw AssertionFailed.

(** [ObjectAccessor::AddUpdateObject(this)], [RemoveUpdateObject(this)] *)
Definition AddUpdateObject : M Object unit := modify (with_objects true).
Definition RemoveUpdateObject : M Object unit := modify (with_objects false).

(** ** Access to the array *)

(** [m_uint32Values[index]] *)
Definition load_value (index : Z) : M Object Z :=
  o ← get;
  match m_uint32Values o with
  | Some l => match l !! Z.to_nat index with Some v => mret v | None => throw UndefinedBehaviour end
  | None => throw UndefinedBehaviour
  end.
Definition store_value (index v : Z) : M Object unit :=
  load_value index;;
  modify (with_values (fmap (λ l, <[Z.to_nat index := v]> l))).

(** The 64-bit value at [index], the machine being little-endian. *)
Definition load_uint64 (index : Z) : M Object Z :=
  lo ← load_value index; hi ← load_value (index + 1); mret (lo + hi * 2 ^ 32).

(** [_changesMask.SetBit(index)] *)
Definition SetBit (index : Z) : M Object unit :=
  o ← get; m ← lift (UpdateMask.SetBit index (_changesMask o)); modify (with_mask m).

(** [ASSERT(index < m_valuesCount || PrintIndexError(...))]: the second operand is false. *)
Definition check_index (index : Z) : M Object unit := o ← get; ASSERT (index <? m_valuesCount o).

(** The end of all setters. *)
Definition mark_updated : M Object unit :=
  o ← get;
  if m_inWorld o && negb (m_objectUpdated o)
  then AddUpdateObject;; modify (with_updated true) else mret tt.

(** [x >> n], [x << n] and [~x] in [uint32]. *)
Definition shr32 (x n : Z) : M Object Z := if n <? 32 then mret (Z.shiftr x n) else throw UndefinedBehaviour.
Definition shl32 (x n : Z) : M Object Z := if n <? 32 then mret (u32 (Z.shiftl x n)) else throw UndefinedBehaviour.
Definition not32 (x : Z) : Z := u32 (Z.lnot x).

(** ** Reading *)

Definition GetUInt32Value (index : Z) : M Object Z := check_index index;; load_value index.
Definition GetInt32Value (index : Z) : M Object Z := check_index index;; v ← load_value index; mret (i32 v).
Definition GetUInt64Value (index : Z) : M Object Z := check_index (index + 1);; load_uint64 index.
Definition GetFloatValue (index : Z) : M Object Z := check_index index;; load_value index.
Definition GetByteValue (index offset : Z) : M Object Z :=
  check_index index;; ASSERT (offset <? 4);; v ← load_value index; mret (u8 (Z.shiftr v (offset * 8))).
Definition GetUInt16Value (index offset : Z) : M Object Z :=
  check_index index;; ASSERT (offset <? 2);; v ← load_value index; mret (u16 (Z.shiftr v (offset * 16))).

Definition HasFlag (index flag : Z) : M Object bool :=
  o ← get;
  if m_valuesCount o <=? index then mret false
  else v ← load_value index; mret (z2b (Z.land v flag)).
Definition HasByteFlag (index offset flag : Z) : M Object bool :=
  check_index index;; ASSERT (offset <? 4);;
  v ← load_value index; mret (z2b (Z.land (u8 (Z.shiftr v (offset * 8))) flag)).
Definition HasFlag64 (index flag : Z) : M Object bool :=
  check_index index;; v ← GetUInt64Value index; mret (z2b (Z.land v flag)).

(** ** Writing *)

Definition SetInt32Value (index value : Z) : M Object unit :=
  check_index index;;
  v ← load_value index;
  if i32 v =? value then mret tt
  else store_value index (u32 value);; SetBit index;; mark_updated.

Definition SetUInt32Value (index value : Z) : M Object unit :=
  check_index index;;
  v ← load_value index;
  if v =? value then mret tt
  else store_value index value;; SetBit index;; mark_updated.

Definition UpdateUInt32Value (index value : Z) : M Object unit :=
  check_index index;; store_value index value;; SetBit index.

Definition store_uint64 (index value : Z) : M Object unit :=
  store_value index (PAIR64_LOPART value);;
  store_value (index + 1) (PAIR64_HIPART value);;
  SetBit index;;
  SetBit (index + 1);;
  mark_updated.

Definition SetUInt64Value (index value : Z) : M Object unit :=
  check_index (index + 1);;
  v ← load_uint64 index;
  if v =? value then mret tt else store_uint64 index value.

Definition AddUInt64Value (index value : Z) : M Object bool :=
  check_index (index + 1);;
  v ← load_uint64 index;
  if z2b value && (v =? 0) then store_uint64 index value;; mret true else mret false.

Definition RemoveUInt64Value (index value : Z) : M Object bool :=
  check_index (index + 1);;
  v ← load_uint64 index;
  if z2b value && (v =? value)
  then
    store_value index 0;; store_value (index + 1) 0;;
    SetBit index;; SetBit (index + 1);; mark_updated;; mret true
  else mret false.

(** [value] is the representation of a float; equality is that of floats. *)
Definition SetFloatValue (index value : Z) : M Object unit :=
  check_index index;;
  v ← load_value index;
  if f32_eq v value then mret tt
  else store_value index value;; SetBit index;; mark_updated.

(** A wrong offset is logged; the guard lets 4 pass. *)
Definition SetByteValue (index offset value : Z) : M Object unit :=
  check_index index;;
  if 4 <? offset then mret tt
  else
    v ← load_value index;
    cur ← shr32 v (offset * 8);
    if u8 cur =? value then mret tt
    else
      m ← shl32 0xFF (offset * 8); b ← shl32 value (offset * 8);
      store_value index (Z.lor (Z.land v (not32 m)) b);;
      SetBit index;; mark_updated.

Definition SetUInt16Value (index offset value : Z) : M Object unit :=
  check_index index;;
  if 2 <? offset then mret tt
  else
    v ← load_value index;
    cur ← shr32 v (offset * 16);
    if u16 cur =? value then mret tt
    else
      m ← shl32 0xFFFF (offset * 16); b ← shl32 value (offset * 16);
      store_value index (Z.lor (Z.land v (not32 m)) b);;
      SetBit index;; mark_updated.

Definition SetInt16Value (index offset value : Z) : M Object unit := SetUInt16Value index offset (u16 value).

Definition SetStatFloatValue (index value : Z) : M Object unit :=
  SetFloatValue index (if f32_lt value 0 then 0 else value).
Definition SetStatInt32Value (index value : Z) : M Object unit :=
  SetUInt32Value index (u32 (if value <? 0 then 0 else value)).

(** [cur += (apply ? val : -val)] in [int32]. *)
Definition add_int32 (cur val : Z) (apply : bool) : M Object Z :=
  d ← lift (if apply then Ok val else int32_result (- val)); lift (int32_result (cur + d)).

Definition ApplyModUInt32Value (index val : Z) (apply : bool) : M Object unit :=
  cur ← GetUInt32Value index;
  cur ← add_int32 (i32 cur) val apply;
  SetUInt32Value index (u32 (if cur <? 0 then 0 else cur)).
Definition ApplyModInt32Value (index val : Z) (apply : bool) : M Object unit :=
  cur ← GetInt32Value index;
  cur ← add_int32 cur val apply;
  SetInt32Value index cur.
Definition ApplyModSignedFloatValue (index val : Z) (apply : bool) : M Object unit :=
  cur ← GetFloatValue index;
  SetFloatValue index (f32_add cur (if apply then val else f32_opp val)).
Definition ApplyModPositiveFloatValue (index val : Z) (apply : bool) : M Object unit :=
  cur ← GetFloatValue index;
  let cur := f32_add cur (if apply then val else f32_opp val) in
  SetFloatValue index (if f32_lt cur 0 then 0 else cur).

(** [ApplyPercentModFloatVar] of [Util.h], with the constants -100, -99.99 and 100. *)
Definition ApplyPercentModFloatVar (var val : Z) (apply : bool) : Z :=
  let val := if f32_eq val 0xC2C80000 then 0xC2C7FAE1 else val in
  let sum := f32_add 0x42C80000 val in
  f32_mul var (if apply then f32_div sum 0x42C80000 else f32_div 0x42C80000 sum).
Definition ApplyPercentModFloatValue (index val : Z) (apply : bool) : M Object unit :=
  value ← GetFloatValue index;
  SetFloatValue index (ApplyPercentModFloatVar value val apply).

Definition SetFlag (index newFlag : Z) : M Object unit :=
  check_index index;;
  oldval ← load_value index;
  let newval := Z.lor oldval newFlag in
  if oldval =? newval then mret tt
  else store_value index newval;; SetBit index;; mark_updated.
Definition RemoveFlag (index oldFlag : Z) : M Object unit :=
  check_index index;;
  o ← get; ASSERT (match m_uint32Values o with Some _ => true | None => false end);;
  oldval ← load_value index;
  let newval := Z.land oldval (not32 oldFlag) in
  if oldval =? newval then mret tt
  else store_value index newval;; SetBit index;; mark_updated.
Definition ToggleFlag (index flag : Z) : M Object unit :=
  b ← HasFlag index flag; if b : bool then RemoveFlag index flag else SetFlag index flag.
Definition ApplyModFlag (index flag : Z) (apply : bool) : M Object unit :=
  if apply then SetFlag index flag else RemoveFlag index flag.

Definition SetByteFlag (index offset newFlag : Z) : M Object unit :=
  check_index index;;
  if 4 <? offset then mret tt
  else
    v ← load_value index;
    cur ← shr32 v (offset * 8);
    if z2b (Z.land (u8 cur) newFlag) then mret tt
    else
      b ← shl32 newFlag (offset * 8);
      store_value index (Z.lor v b);; SetBit index;; mark_updated.
Definition RemoveByteFlag (index offset oldFlag : Z) : M Object unit :=
  check_index index;;
  if 4 <? offset then mret tt
  else
    v ← load_value index;
    cur ← shr32 v (offset * 8);
    if z2b (Z.land (u8 cur) oldFlag) then
      b ← shl32 oldFlag (offset * 8);
      store_value index (Z.land v (not32 b));; SetBit index;; mark_updated
    else mret tt.
Definition ToggleByteFlag (index offset flag : Z) : M Object unit :=
  b ← HasByteFlag index offset flag;
  if b : bool then RemoveByteFlag index offset flag else SetByteFlag index offset flag.

Definition SetFlag64 (index newFlag : Z) : M Object unit :=
  oldval ← GetUInt64Value index; SetUInt64Value index (Z.lor oldval newFlag).
Definition RemoveFlag64 (index oldFlag : Z) : M Object unit :=
  oldval ← GetUInt64Value index; SetUInt64Value index (Z.land oldval (u64 (Z.lnot oldFlag))).
Definition ToggleFlag64 (index flag : Z) : M Object unit :=
  b ← HasFlag64 index flag; if b : bool then RemoveFlag64 index flag else SetFlag64 index flag.
Definition ApplyModFlag64 (index flag : Z) (apply : bool) : M Object unit :=
  if apply then SetFlag64 index flag else RemoveFlag64 index flag.

Definition ForceValuesUpdateAtIndex (i : Z) : M Object unit := SetBit i;; mark_updated.

Definition SetFieldNotifyFlag (flag : Z) : M Object unit := modify (with_notify (λ f, Z.lor f flag)).
Definition RemoveFieldNotifyFlag (flag : Z) : M Object unit := modify (with_notify (λ f, Z.land f (u16 (Z.lnot flag)))).

(** ** Life of an object *)

Definition ClearUpdateMask (remove : bool) : M Object unit :=
  o ← get;
  m ← lift (UpdateMask.Clear (_changesMask o));
  modify (with_mask m);;
  if m_objectUpdated o
  then (if remove then RemoveUpdateObject else mret tt);; modify (with_updated false)
  else mret tt.

Definition AddToWorld : M Object unit :=
  o ← get;
  if m_inWorld o then mret tt
  else
    ASSERT (match m_uint32Values o with Some _ => true | None => false end);;
    modify (with_inWorld true);;
    ClearUpdateMask true.

Definition RemoveFromWorld : M Object unit :=
  o ← get;
  if m_inWorld o then modify (with_inWorld false);; ClearUpdateMask true else mret tt.

Definition _InitValues : M Object unit :=
  o ← get;
  modify (with_values (λ _, Some (replicate (Z.to_nat (m_valuesCount o)) 0)));;
  m ← lift (UpdateMask.SetCount (m_valuesCount o) (_changesMask o));
  modify (with_mask m);;
  modify (with_updated false).

Definition _Create (guidlow entry guidhigh : Z) : M Object unit :=
  o ← get;
  (match m_uint32Values o with None => _InitValues | Some _ => mret tt end);;
  SetUInt64Value OBJECT_FIELD_GUID (MAKE_NEW_GUID guidlow entry guidhigh);;
  SetUInt16Value OBJECT_FIELD_TYPE 0 (m_objectType o);;
  guid ← GetUInt64Value 0;
  '(_, b) ← lift ((ByteBuffer.clear;; ByteBuffer.appendPackGUID guid) (m_PackGUID o));
  modify (with_PackGUID b).

(** The destructor. *)
Definition destructor : M Object unit :=
  o ← get;
  ASSERT (negb (m_inWorld o));;
  ASSERT (negb (m_objectUpdated o));;
  modify (with_values (λ _, None)).
