(* ===== verification/ObjectFieldsProps.v ===== *)
(** * ObjectFieldsProps: what the field operations change.

    The operations of an object as data, the conditions under which they run, and their
    common effect: the fields they touch are marked as changed, and a marked object that is
    in the world is in the list of objects to update. *)
From S2P Require Import Prelude.
From stdpp Require Import list sets.
From S2P Require Import Bits ByteBuffer ObjectGuid Float32 UpdateMask UpdateFields ObjectFields.
Open Scope Z_scope.

(** ** Views of an object *)

(** The value of a field, and whether it is marked as changed. *)
Definition val (o : Object) (i : Z) : Z := default 0 (default [] (m_uint32Values o) !! Z.to_nat i).
Definition bit (o : Object) (i : Z) : bool :=
  match UpdateMask._bits (_changesMask o) with
  | UpdateMask.Array l => z2b (default 0 (l !! Z.to_nat i))
  | _ => false
  end.

(** An object whose fields exist. *)
Record obj_inv (o : Object) : Prop := {
  inv_count : 0 ≤ m_valuesCount o < 2 ^ 16;
  inv_values : ∃ l, m_uint32Values o = Some l ∧ Z.of_nat (length l) = m_valuesCount o;
  inv_mask : ∃ l, UpdateMask.wf (m_valuesCount o) (_changesMask o) l
}.

(** What an operation does that touches the fields [D]; [marked] if it ends in [mark_updated]. *)
Record effect (marked : bool) (D : list Z) (o o' : Object) : Prop := {
  eff_inv : obj_inv o';
  eff_count : m_valuesCount o' = m_valuesCount o;
  eff_type : m_objectTypeId o' = m_objectTypeId o;
  eff_world : m_inWorld o' = m_inWorld o;
  eff_val : ∀ i, 0 ≤ i → i ∉ D → val o' i = val o i;
  eff_bit : ∀ i, 0 ≤ i → i ∉ D → bit o' i = bit o i;
  eff_dirty : ∀ i, i ∈ D → bit o' i = true;
  eff_updated : m_objectUpdated o' = m_objectUpdated o || (marked && m_inWorld o);
  eff_objects : i_objects o' = i_objects o || (marked && m_inWorld o && negb (m_objectUpdated o))
}.

(** ** Steps *)

Section Steps.
Context (o : Object) (Ho : obj_inv o).

Lemma load_value_ok i : 0 ≤ i < m_valuesCount o → load_value i o = Ok (val o i, o).
Proof using Ho.
  intros Hi. destruct Ho as [_ (l & Hl & Hlen) _]. unfold load_value, val, mbind, M_bind, get. rewrite Hl. simpl.
  by destruct (lookup_lt_is_Some_2 l (Z.to_nat i) ltac:(lia)) as [v ->].
Qed.

Lemma check_index_ok i : 0 ≤ i < m_valuesCount o → check_index i o = Ok (tt, o).
Proof.
  intros Hi. unfold check_index, ASSERT, mbind, M_bind, get. by rewrite (proj2 (Z.ltb_lt _ _)) by lia.
Qed.

Lemma load_uint64_ok i : 0 ≤ i → i + 1 < m_valuesCount o →
  load_uint64 i o = Ok (val o i + val o (i + 1) * 2 ^ 32, o).
Proof using Ho.
  intros Hi Hi1. unfold load_uint64.
  rewrite (bind_Ok _ _ _ _ _ (load_value_ok i ltac:(lia))), (bind_Ok _ _ _ _ _ (load_value_ok (i + 1) ltac:(lia))). done.
Qed.

Lemma store_value_ok i v : 0 ≤ i < m_valuesCount o →
  ∃ o', store_value i v o = Ok (tt, o') ∧ obj_inv o' ∧ _changesMask o' = _changesMask o ∧
    o' = with_values (λ _, m_uint32Values o') o ∧
    (∀ j, 0 ≤ j → val o' j = if decide (j = i) then v else val o j).
Proof using Ho.
  intros Hi. unfold store_value. rewrite (bind_Ok _ _ _ _ _ (load_value_ok i Hi)).
  destruct Ho as [Hc (l & Hl & Hlen) Hm]. unfold modify. eexists. split; [done|].
  split; [split; [exact Hc|cbn; rewrite Hl; eexists; split; [done|by rewrite length_insert]|exact Hm]|].
  split; [done|]. split; [done|]. intros j Hj. unfold val. cbn [with_values m_uint32Values]. rewrite Hl.
  cbn [fmap option_fmap option_map default from_option]. unfold id. case_decide as Hji.
  - subst j. by rewrite list_lookup_insert_eq by lia.
  - by rewrite list_lookup_insert_ne by lia.
Qed.

Lemma SetBit_ok i : 0 ≤ i < m_valuesCount o →
  ∃ o', SetBit i o = Ok (tt, o') ∧ obj_inv o' ∧ m_uint32Values o' = m_uint32Values o ∧
    o' = with_mask (_changesMask o') o ∧
    (∀ j, 0 ≤ j → bit o' j = bool_decide (j = i) || bit o j).
Proof using Ho.
  intros Hi. destruct Ho as [Hc Hv (l & Hm)]. unfold SetBit, mbind, M_bind, get, lift, modify.
  pose proof (UpdateMask.wf_bound _ _ _ Hm ltac:(lia)) as Hlen.
  destruct (UpdateMask.SetBit_wf _ _ _ i Hm Hi) as (m & -> & Hm').
  eexists. split; [done|]. split; [split; [exact Hc|exact Hv|by eexists]|]. split; [done|]. split; [done|].
  intros j Hj. unfold bit. cbn [with_mask _changesMask].
  rewrite (UpdateMask.wf_bits _ _ _ Hm'), (UpdateMask.wf_bits _ _ _ Hm). case_bool_decide as Hji.
  - subst j. by rewrite list_lookup_insert_eq by lia.
  - by rewrite list_lookup_insert_ne by lia.
Qed.

Lemma mark_updated_ok : ∃ o', mark_updated o = Ok (tt, o') ∧ effect true [] o o'.
Proof using Ho.
  unfold mark_updated, AddUpdateObject, mbind, M_bind, get, modify.
  destruct (m_inWorld o && negb (m_objectUpdated o)) eqn:E; eexists; (split; [done|]);
    (split; [destruct Ho; by split|done..|set_solver| |]); cbn; rewrite ?E, ?orb_false_r; try done.
  - apply andb_true_iff in E as [-> _]. by rewrite orb_true_r.
  - by rewrite orb_true_r.
  - destruct (m_inWorld o), (m_objectUpdated o); done.
Qed.

End Steps.

Lemma effect_refl o : obj_inv o → effect false [] o o.
Proof. intros. split; auto; [set_solver|by rewrite orb_false_r..]. Qed.

(** A store and its mark, then the marks of the object. *)
Lemma effect_store_bit o o1 o2 i v : 
  obj_inv o2 → _changesMask o1 = _changesMask o → o1 = with_values (λ _, m_uint32Values o1) o →
  (∀ j, 0 ≤ j → val o1 j = if decide (j = i) then v else val o j) →
  m_uint32Values o2 = m_uint32Values o1 → o2 = with_mask (_changesMask o2) o1 →
  (∀ j, 0 ≤ j → bit o2 j = bool_decide (j = i) || bit o1 j) → 0 ≤ i →
  effect false [i] o o2.
Proof.
  intros Hinv Hm1 H1 Hv1 Hv2 H2 Hb2 Hi.
  rewrite H2, H1. split; cbn; rewrite ?orb_false_r; try done.
  - by rewrite <- H1, <- H2.
  - intros j Hj Hd. rewrite <- H1, <- H2. unfold val in *. rewrite Hv2, Hv1 by done. rewrite decide_False; [done|set_solver].
  - intros j Hj Hd. rewrite <- H1, <- H2. rewrite Hb2, bool_decide_eq_false_2 by (done || set_solver).
    unfold bit. by rewrite Hm1.
  - intros j ->%list_elem_of_singleton. rewrite <- H1, <- H2, Hb2 by done. by rewrite bool_decide_eq_true_2.
Qed.

Lemma effect_trans m1 m2 D1 D2 o o1 o2 :
  effect m1 D1 o o1 → effect m2 D2 o1 o2 → Forall (λ i, 0 ≤ i) (D1 ++ D2) →
  effect (m1 || m2) (D1 ++ D2) o o2.
Proof.
  intros [] [] HD. split; try congruence.
  - intros i Hi Hd. rewrite elem_of_app in Hd. rewrite eff_val1, eff_val0; tauto.
  - intros i Hi Hd. rewrite elem_of_app in Hd. rewrite eff_bit1, eff_bit0; tauto.
  - intros i Hd. rewrite Forall_forall in HD. pose proof (HD _ Hd) as Hi.
    apply elem_of_app in Hd as [Hd|Hd]; [|auto].
    destruct (decide (i ∈ D2)); [auto|]. rewrite eff_bit1; auto.
  - rewrite eff_updated1, eff_updated0, eff_world0. by destruct m1, m2, (m_inWorld o), (m_objectUpdated o).
  - rewrite eff_objects1, eff_objects0, eff_updated0, eff_world0.
    by destruct m1, m2, (m_inWorld o), (m_objectUpdated o), (i_objects o).
Qed.

(** ** The writes the setters end in *)

Lemma write_bit_ok o i v : obj_inv o → 0 ≤ i < m_valuesCount o →
  ∃ o', (store_value i v;; SetBit i) o = Ok (tt, o') ∧ effect false [i] o o' ∧
    (∀ j, 0 ≤ j → val o' j = if decide (j = i) then v else val o j).
Proof.
  intros Ho Hi. destruct (store_value_ok o Ho i v Hi) as (o1 & E1 & Ho1 & Hm1 & Hs1 & Hv1).
  rewrite (bind_Ok _ _ _ _ _ E1).
  destruct (SetBit_ok o1 Ho1 i) as (o2 & E2 & Ho2 & Hv2 & Hs2 & Hb2); [by rewrite Hs1|].
  exists o2. split; [done|]. split; [by eapply effect_store_bit; try done; lia|].
  intros j Hj. rewrite <- Hv1 by done. unfold val. by rewrite Hv2.
Qed.

Lemma mark_effect o1 o o' D m : effect m D o o1 → effect true [] o1 o' → Forall (λ i, 0 ≤ i) D →
  effect true D o o'.
Proof.
  intros H1 H2 HD. pose proof (effect_trans _ _ _ _ _ _ _ H1 H2) as H. rewrite app_nil_r, orb_true_r in H. auto.
Qed.

Lemma mark_val o o' : mark_updated o = Ok (tt, o') → ∀ j, val o' j = val o j.
Proof.
  unfold mark_updated, AddUpdateObject, mbind, M_bind, get, modify, mret, M_ret.
  by destruct (m_inWorld o && negb (m_objectUpdated o)); intros [= <-].
Qed.

Lemma write_ok o i v : obj_inv o → 0 ≤ i < m_valuesCount o →
  ∃ o', (store_value i v;; SetBit i;; mark_updated) o = Ok (tt, o') ∧ effect true [i] o o' ∧
    (∀ j, 0 ≤ j → val o' j = if decide (j = i) then v else val o j).
Proof.
  intros Ho Hi. destruct (write_bit_ok o i v Ho Hi) as (o1 & E1 & He1 & Hv1).
  destruct (mark_updated_ok o1 (eff_inv _ _ _ _ He1)) as (o' & E & He).
  exists o'. split.
  { apply bind_inv in E1 as ([] & o0 & E0 & E1). by rewrite (bind_Ok _ _ _ _ _ E0), (bind_Ok _ _ _ _ _ E1). }
  split; [eapply mark_effect; [done..|repeat constructor; lia]|].
  intros j Hj. by rewrite (mark_val _ _ E), Hv1.
Qed.

(** The same for two neighbours: both are stored before both are marked. *)
Lemma write2_ok o i lo hi : obj_inv o → 0 ≤ i → i + 1 < m_valuesCount o →
  ∃ o', (store_value i lo;; store_value (i + 1) hi;; SetBit i;; SetBit (i + 1);; mark_updated) o = Ok (tt, o') ∧
    effect true [i; i + 1] o o' ∧
    (∀ j, 0 ≤ j → val o' j = if decide (j = i) then lo else if decide (j = i + 1) then hi else val o j).
Proof.
  intros Ho Hi Hi1.
  destruct (store_value_ok o Ho i lo) as (o1 & E1 & Ho1 & Hm1 & Hs1 & Hv1); [lia|].
  destruct (store_value_ok o1 Ho1 (i + 1) hi) as (o2 & E2 & Ho2 & Hm2 & Hs2 & Hv2); [rewrite Hs1; cbn; lia|].
  destruct (SetBit_ok o2 Ho2 i) as (o3 & E3 & Ho3 & Hl3 & Hs3 & Hb3); [rewrite Hs2, Hs1; cbn; lia|].
  destruct (SetBit_ok o3 Ho3 (i + 1)) as (o4 & E4 & Ho4 & Hl4 & Hs4 & Hb4); [rewrite Hs3, Hs2, Hs1; cbn; lia|].
  destruct (mark_updated_ok o4 Ho4) as (o' & E & He). exists o'.
  rewrite (bind_Ok _ _ _ _ _ E1), (bind_Ok _ _ _ _ _ E2), (bind_Ok _ _ _ _ _ E3), (bind_Ok _ _ _ _ _ E4).
  split; [done|].
  assert (∀ j, 0 ≤ j → val o4 j = if decide (j = i) then lo else if decide (j = i + 1) then hi else val o j) as Hv.
  { intros j Hj. unfold val at 1. rewrite Hl4, Hl3. fold (val o2 j). rewrite Hv2, Hv1 by done.
    repeat case_decide; auto; lia. }
  assert (∀ j, 0 ≤ j → bit o4 j = bool_decide (j = i) || bool_decide (j = i + 1) || bit o j) as Hb.
  { intros j Hj. rewrite Hb4, Hb3 by done. unfold bit at 1. rewrite Hm2, Hm1. fold (bit o j).
    by destruct (bool_decide (j = i)), (bool_decide (j = i + 1)). }
  split; [|intros j Hj; by rewrite (mark_val _ _ E), Hv].
  eapply (mark_effect o4); [|done|repeat constructor; lia]. instantiate (1 := false).
  split; [done|..]; try (rewrite Hs4, Hs3, Hs2, Hs1; cbn; rewrite ?orb_false_r; done).
  - intros j Hj Hd. rewrite Hv by done. repeat rewrite decide_False; [done|set_solver..].
  - intros j Hj Hd. rewrite Hb by done. rewrite !bool_decide_eq_false_2 by set_solver. done.
  - intros j Hd. rewrite Hb by (apply elem_of_cons in Hd as [->| ->%list_elem_of_singleton]; lia).
    apply elem_of_cons in Hd as [->| ->%list_elem_of_singleton].
    + by rewrite bool_decide_eq_true_2.
    + rewrite (bool_decide_eq_true_2 (i + 1 = i + 1)) by done. by rewrite orb_true_r.
Qed.

Lemma force_ok o i : obj_inv o → 0 ≤ i < m_valuesCount o →
  ∃ o', (SetBit i;; mark_updated) o = Ok (tt, o') ∧ effect true [i] o o'.
Proof.
  intros Ho Hi. destruct (SetBit_ok o Ho i Hi) as (o1 & E1 & Ho1 & Hl1 & Hs1 & Hb1).
  destruct (mark_updated_ok o1 Ho1) as (o' & E & He). exists o'. rewrite (bind_Ok _ _ _ _ _ E1).
  split; [done|]. eapply (mark_effect o1); [|done|repeat constructor; lia]. instantiate (1 := false).
  split; [done|..]; try (rewrite Hs1; cbn; rewrite ?orb_false_r; done).
  - intros j Hj Hd. rewrite Hb1 by done. by rewrite bool_decide_eq_false_2 by set_solver.
  - intros j ->%list_elem_of_singleton. rewrite Hb1 by lia. by rewrite bool_decide_eq_true_2.
Qed.

(** ** The operations *)

Inductive op : Type :=
| OpSetInt32Value (index value : Z)
| OpSetUInt32Value (index value : Z)
| OpUpdateUInt32Value (index value : Z)
| OpSetUInt64Value (index value : Z)
| OpAddUInt64Value (index value : Z)
| OpRemoveUInt64Value (index value : Z)
| OpSetFloatValue (index value : Z)
| OpSetByteValue (index offset value : Z)
| OpSetUInt16Value (index offset value : Z)
| OpSetInt16Value (index offset value : Z)
| OpSetStatFloatValue (index value : Z)
| OpSetStatInt32Value (index value : Z)
| OpApplyModUInt32Value (index val : Z) (apply : bool)
| OpApplyModInt32Value (index val : Z) (apply : bool)
| OpApplyModSignedFloatValue (index val : Z) (apply : bool)
| OpApplyModPositiveFloatValue (index val : Z) (apply : bool)
| OpApplyPercentModFloatValue (index val : Z) (apply : bool)
| OpSetFlag (index flag : Z)
| OpRemoveFlag (index flag : Z)
| OpToggleFlag (index flag : Z)
| OpApplyModFlag (index flag : Z) (apply : bool)
| OpSetByteFlag (index offset flag : Z)
| OpRemoveByteFlag (index offset flag : Z)
| OpToggleByteFlag (index offset flag : Z)
| OpSetFlag64 (index flag : Z)
| OpRemoveFlag64 (index flag : Z)
| OpToggleFlag64 (index flag : Z)
| OpApplyModFlag64 (index flag : Z) (apply : bool)
| OpForceValuesUpdateAtIndex (index : Z)
| OpSetFieldNotifyFlag (flag : Z)
| OpRemoveFieldNotifyFlag (flag : Z).

Definition run_op (c : op) : M Object unit :=
  match c with
  | OpSetInt32Value i v => SetInt32Value i v
  | OpSetUInt32Value i v => SetUInt32Value i v
  | OpUpdateUInt32Value i v => UpdateUInt32Value i v
  | OpSetUInt64Value i v => SetUInt64Value i v
  | OpAddUInt64Value i v => AddUInt64Value i v;; mret tt
  | OpRemoveUInt64Value i v => RemoveUInt64Value i v;; mret tt
  | OpSetFloatValue i v => SetFloatValue i v
  | OpSetByteValue i k v => SetByteValue i k v
  | OpSetUInt16Value i k v => SetUInt16Value i k v
  | OpSetInt16Value i k v => SetInt16Value i k v
  | OpSetStatFloatValue i v => SetStatFloatValue i v
  | OpSetStatInt32Value i v => SetStatInt32Value i v
  | OpApplyModUInt32Value i v b => ApplyModUInt32Value i v b
  | OpApplyModInt32Value i v b => ApplyModInt32Value i v b
  | OpApplyModSignedFloatValue i v b => ApplyModSignedFloatValue i v b
  | OpApplyModPositiveFloatValue i v b => ApplyModPositiveFloatValue i v b
  | OpApplyPercentModFloatValue i v b => ApplyPercentModFloatValue i v b
  | OpSetFlag i f => SetFlag i f
  | OpRemoveFlag i f => RemoveFlag i f
  | OpToggleFlag i f => ToggleFlag i f
  | OpApplyModFlag i f b => ApplyModFlag i f b
  | OpSetByteFlag i k f => SetByteFlag i k f
  | OpRemoveByteFlag i k f => RemoveByteFlag i k f
  | OpToggleByteFlag i k f => ToggleByteFlag i k f
  | OpSetFlag64 i f => SetFlag64 i f
  | OpRemoveFlag64 i f => RemoveFlag64 i f
  | OpToggleFlag64 i f => ToggleFlag64 i f
  | OpApplyModFlag64 i f b => ApplyModFlag64 i f b
  | OpForceValuesUpdateAtIndex i => ForceValuesUpdateAtIndex i
  | OpSetFieldNotifyFlag f => SetFieldNotifyFlag f
  | OpRemoveFieldNotifyFlag f => RemoveFieldNotifyFlag f
  end.

(** When an operation runs without failed assertion, overflow or undefined shift. *)
Definition in_range (o : Object) (i : Z) : Prop := 0 ≤ i < m_valuesCount o.
Definition is_int32 (z : Z) : Prop := - 2 ^ 31 ≤ z < 2 ^ 31.
Definition sum_ok (cur v : Z) (apply : bool) : Prop :=
  (apply = false → is_int32 (- v)) ∧ is_int32 (cur + if apply then v else - v).

Definition op_ok (o : Object) (c : op) : Prop :=
  match c with
  | OpSetUInt64Value i _ | OpAddUInt64Value i _ | OpRemoveUInt64Value i _ | OpSetFlag64 i _
  | OpRemoveFlag64 i _ | OpToggleFlag64 i _ | OpApplyModFlag64 i _ _ => in_range o i ∧ in_range o (i + 1)
  | OpSetByteValue i k _ | OpSetByteFlag i k _ | OpRemoveByteFlag i k _ => in_range o i ∧ 0 ≤ k ∧ k ≠ 4
  | OpToggleByteFlag i k _ => in_range o i ∧ 0 ≤ k < 4
  | OpSetUInt16Value i k _ | OpSetInt16Value i k _ => in_range o i ∧ 0 ≤ k ∧ k ≠ 2
  | OpApplyModUInt32Value i v b | OpApplyModInt32Value i v b => in_range o i ∧ sum_ok (i32 (val o i)) v b
  | OpSetFieldNotifyFlag _ | OpRemoveFieldNotifyFlag _ => True
  | OpSetInt32Value i _ | OpSetUInt32Value i _ | OpUpdateUInt32Value i _ | OpSetFloatValue i _
  | OpSetStatFloatValue i _ | OpSetStatInt32Value i _ | OpApplyModSignedFloatValue i _ _
  | OpApplyModPositiveFloatValue i _ _ | OpApplyPercentModFloatValue i _ _ | OpSetFlag i _
  | OpRemoveFlag i _ | OpToggleFlag i _ | OpApplyModFlag i _ _ | OpForceValuesUpdateAtIndex i => in_range o i
  end.

(** The one operation that does not enter the object into the update list. *)
Definition marks (c : op) : bool := match c with OpUpdateUInt32Value _ _ => false | _ => true end.

(** An operation that runs and touches some fields, or none. *)
Definition runs {A} (marked : bool) (m : M Object A) (o : Object) : Prop :=
  ∃ a o' D, m o = Ok (a, o') ∧ Forall (λ i, in_range o i) D ∧ effect (marked && negb (bool_decide (D = []))) D o o'.

Lemma runs_nothing {A} mk (a : A) o : obj_inv o → runs mk (mret a) o.
Proof.
  intros Ho. exists a, o, []. split; [done|]. split; [constructor|]. rewrite bool_decide_eq_true_2 by done.
  rewrite andb_false_r. by apply effect_refl.
Qed.

Lemma runs_if {A} mk (b : bool) (m1 m2 : M Object A) o : runs mk m1 o → runs mk m2 o → runs mk (if b then m1 else m2) o.
Proof. by destruct b. Qed.

Lemma runs_bind {A B} mk (m : M Object A) (f : A → M Object B) a o : m o = Ok (a, o) → runs mk (f a) o → runs mk (m ≫= f) o.
Proof. intros E (b & o' & D & ? & ?). exists b, o', D. by rewrite (bind_Ok _ _ _ _ _ E). Qed.

Lemma runs_then {A B} mk (m : M Object A) (b : B) o : runs mk m o → runs mk (m;; mret b) o.
Proof. intros (a & o' & D & E & ?). exists b, o', D. by rewrite (bind_Ok _ _ _ _ _ E). Qed.

Lemma runs_write o i v : obj_inv o → in_range o i → runs true (store_value i v;; SetBit i;; mark_updated) o.
Proof. intros Ho Hi. destruct (write_ok o i v Ho Hi) as (o' & ? & ? & _). exists tt, o', [i]. by rewrite Forall_singleton. Qed.

Lemma runs_write2 o i lo hi : obj_inv o → in_range o i → in_range o (i + 1) →
  runs true (store_value i lo;; store_value (i + 1) hi;; SetBit i;; SetBit (i + 1);; mark_updated) o.
Proof.
  intros Ho Hi Hi1. destruct (write2_ok o i lo hi Ho) as (o' & ? & ? & _); [apply Hi|apply Hi1|].
  exists tt, o', [i; i + 1]. by rewrite Forall_cons, Forall_singleton.
Qed.

Lemma runs_write2_true o i lo hi : obj_inv o → in_range o i → in_range o (i + 1) →
  runs true (store_value i lo;; store_value (i + 1) hi;; SetBit i;; SetBit (i + 1);; mark_updated;; mret true) o.
Proof.
  intros Ho Hi Hi1. destruct (write2_ok o i lo hi Ho) as (o' & E & ? & _); [apply Hi|apply Hi1|].
  exists true, o', [i; i + 1]. rewrite Forall_cons, Forall_singleton. split; [|done].
  apply bind_inv in E as ([] & o1 & E1 & E). apply bind_inv in E as ([] & o2 & E2 & E).
  apply bind_inv in E as ([] & o3 & E3 & E). apply bind_inv in E as ([] & o4 & E4 & E).
  by rewrite (bind_Ok _ _ _ _ _ E1), (bind_Ok _ _ _ _ _ E2), (bind_Ok _ _ _ _ _ E3), (bind_Ok _ _ _ _ _ E4), (bind_Ok _ _ _ _ _ E).
Qed.

Lemma runs_force o i : obj_inv o → in_range o i → runs true (ForceValuesUpdateAtIndex i) o.
Proof. intros Ho Hi. destruct (force_ok o i Ho Hi) as (o' & ? & ?). exists tt, o', [i]. by rewrite Forall_singleton. Qed.

Lemma runs_update o i v : obj_inv o → in_range o i → runs false (store_value i v;; SetBit i) o.
Proof. intros Ho Hi. destruct (write_bit_ok o i v Ho Hi) as (o' & ? & ? & _). exists tt, o', [i]. by rewrite Forall_singleton. Qed.

(** Reads leave the object alone. *)
Section Reads.
Context (o : Object) (Ho : obj_inv o).

Lemma GetUInt32Value_ok i : in_range o i → GetUInt32Value i o = Ok (val o i, o).
Proof using Ho. intros Hi. unfold GetUInt32Value. rewrite (bind_Ok _ _ _ _ _ (check_index_ok o i Hi)). by apply load_value_ok. Qed.

Lemma GetInt32Value_ok i : in_range o i → GetInt32Value i o = Ok (i32 (val o i), o).
Proof using Ho.
  intros Hi. unfold GetInt32Value.
  rewrite (bind_Ok _ _ _ _ _ (check_index_ok o i Hi)), (bind_Ok _ _ _ _ _ (load_value_ok o Ho i Hi)). done.
Qed.

Lemma GetUInt64Value_ok i : in_range o i → in_range o (i + 1) →
  GetUInt64Value i o = Ok (val o i + val o (i + 1) * 2 ^ 32, o).
Proof using Ho.
  intros Hi Hi1. unfold GetUInt64Value. rewrite (bind_Ok _ _ _ _ _ (check_index_ok o (i + 1) Hi1)).
  apply load_uint64_ok; [done|apply Hi|apply Hi1].
Qed.

Lemma HasFlag_ok i f : in_range o i → HasFlag i f o = Ok (z2b (Z.land (val o i) f), o).
Proof using Ho.
  intros Hi. unfold HasFlag, mbind at 1, M_bind at 1, get. rewrite (proj2 (Z.leb_gt _ _)) by apply Hi.
  by rewrite (bind_Ok _ _ _ _ _ (load_value_ok o Ho i Hi)).
Qed.

Lemma HasByteFlag_ok i k f : in_range o i → 0 ≤ k < 4 →
  HasByteFlag i k f o = Ok (z2b (Z.land (u8 (Z.shiftr (val o i) (k * 8))) f), o).
Proof using Ho.
  intros Hi Hk. unfold HasByteFlag. rewrite (bind_Ok _ _ _ _ _ (check_index_ok o i Hi)).
  unfold ASSERT. rewrite (proj2 (Z.ltb_lt _ _)) by lia.
  rewrite (bind_Ok (mret tt) _ _ tt o) by done. by rewrite (bind_Ok _ _ _ _ _ (load_value_ok o Ho i Hi)).
Qed.

Lemma HasFlag64_ok i f : in_range o i → in_range o (i + 1) →
  HasFlag64 i f o = Ok (z2b (Z.land (val o i + val o (i + 1) * 2 ^ 32) f), o).
Proof using Ho.
  intros Hi Hi1. unfold HasFlag64. rewrite (bind_Ok _ _ _ _ _ (check_index_ok o i Hi)).
  by rewrite (bind_Ok _ _ _ _ _ (GetUInt64Value_ok i Hi Hi1)).
Qed.

Lemma shr32_ok x n : n < 32 → shr32 x n o = Ok (Z.shiftr x n, o).
Proof. intros. unfold shr32. by rewrite (proj2 (Z.ltb_lt _ _)). Qed.

Lemma shl32_ok x n : n < 32 → shl32 x n o = Ok (u32 (Z.shiftl x n), o).
Proof. intros. unfold shl32. by rewrite (proj2 (Z.ltb_lt _ _)). Qed.

Lemma add_int32_ok cur v b : sum_ok cur v b → add_int32 cur v b o = Ok (cur + if b then v else - v, o).
Proof.
  intros (H2 & H3). unfold add_int32, is_int32 in *.
  assert ((lift (if b then Ok v else int32_result (- v)) : M Object Z) o = Ok (if b then v else - v, o)) as E.
  { destruct b; [done|]. specialize (H2 eq_refl). unfold lift, int32_result.
    by rewrite (proj2 (Z.leb_le _ _)), (proj2 (Z.ltb_lt _ _)) by lia. }
  rewrite (bind_Ok _ _ _ _ _ E). unfold lift, int32_result.
  by rewrite (proj2 (Z.leb_le _ _)), (proj2 (Z.ltb_lt _ _)) by lia.
Qed.

End Reads.

(** ** Every operation runs in its domain *)

(** Runs the next step of an operation if it only reads. *)
Ltac read_step :=
  eapply runs_bind;
  [ first [ apply check_index_ok; assumption | apply load_value_ok; assumption
          | apply load_uint64_ok; [assumption | unfold in_range in *; lia | unfold in_range in *; lia]
          | apply GetUInt32Value_ok; assumption | apply GetInt32Value_ok; assumption
          | apply GetUInt64Value_ok; assumption | apply HasFlag_ok; assumption
          | apply HasByteFlag_ok; (assumption || lia) | apply HasFlag64_ok; assumption
          | apply shr32_ok; lia | apply shl32_ok; lia | apply add_int32_ok; assumption
          | reflexivity ]
  | cbv beta iota ].

Create HintDb runs.
#[export] Hint Resolve runs_nothing runs_if runs_then runs_write runs_write2 runs_write2_true runs_force runs_update : runs.

Section Runs.
Context (o : Object) (Ho : obj_inv o).

Lemma runs_SetInt32Value i v : in_range o i → runs true (SetInt32Value i v) o.
Proof using Ho. intros. unfold SetInt32Value. do 2 read_step. auto with runs. Qed.

Lemma runs_SetUInt32Value i v : in_range o i → runs true (SetUInt32Value i v) o.
Proof using Ho. intros. unfold SetUInt32Value. do 2 read_step. auto with runs. Qed.

Lemma runs_SetFloatValue i v : in_range o i → runs true (SetFloatValue i v) o.
Proof using Ho. intros. unfold SetFloatValue. do 2 read_step. auto with runs. Qed.

Lemma runs_SetUInt64Value i v : in_range o i → in_range o (i + 1) → runs true (SetUInt64Value i v) o.
Proof using Ho. intros Hi Hi1. unfold SetUInt64Value, store_uint64. do 2 read_step. auto with runs. Qed.

Lemma runs_AddUInt64Value i v : in_range o i → in_range o (i + 1) → runs true (AddUInt64Value i v) o.
Proof using Ho. intros Hi Hi1. unfold AddUInt64Value, store_uint64. do 2 read_step. auto with runs. Qed.

Lemma runs_RemoveUInt64Value i v : in_range o i → in_range o (i + 1) → runs true (RemoveUInt64Value i v) o.
Proof using Ho. intros Hi Hi1. unfold RemoveUInt64Value. do 2 read_step. auto with runs. Qed.

Lemma runs_SetFlag i f : in_range o i → runs true (SetFlag i f) o.
Proof using Ho. intros Hi. unfold SetFlag. do 2 read_step. auto with runs. Qed.

Lemma runs_RemoveFlag i f : in_range o i → runs true (RemoveFlag i f) o.
Proof using Ho.
  intros Hi. unfold RemoveFlag. do 2 read_step. destruct (inv_values o Ho) as (l & Hl & _).
  rewrite Hl. do 2 read_step. auto with runs.
Qed.

Lemma runs_SetByteValue i k v : in_range o i → 0 ≤ k → k ≠ 4 → runs true (SetByteValue i k v) o.
Proof using Ho.
  intros Hi Hk Hk4. unfold SetByteValue. read_step. destruct (Z.ltb_spec 4 k); [auto with runs|].
  do 2 read_step. apply runs_if; [auto with runs|]. do 2 read_step. auto with runs.
Qed.

Lemma runs_SetUInt16Value i k v : in_range o i → 0 ≤ k → k ≠ 2 → runs true (SetUInt16Value i k v) o.
Proof using Ho.
  intros Hi Hk Hk2. unfold SetUInt16Value. read_step. destruct (Z.ltb_spec 2 k); [auto with runs|].
  do 2 read_step. apply runs_if; [auto with runs|]. do 2 read_step. auto with runs.
Qed.

Lemma runs_SetByteFlag i k f : in_range o i → 0 ≤ k → k ≠ 4 → runs true (SetByteFlag i k f) o.
Proof using Ho.
  intros Hi Hk Hk4. unfold SetByteFlag. read_step. destruct (Z.ltb_spec 4 k); [auto with runs|].
  do 2 read_step. apply runs_if; [auto with runs|]. read_step. auto with runs.
Qed.

Lemma runs_RemoveByteFlag i k f : in_range o i → 0 ≤ k → k ≠ 4 → runs true (RemoveByteFlag i k f) o.
Proof using Ho.
  intros Hi Hk Hk4. unfold RemoveByteFlag. read_step. destruct (Z.ltb_spec 4 k); [auto with runs|].
  do 2 read_step. apply runs_if; [|auto with runs]. read_step. auto with runs.
Qed.

Lemma runs_notify f : runs true (modify (with_notify f)) o.
Proof using Ho.
  exists tt, (with_notify f o), []. split; [done|]. split; [constructor|].
  split; cbn; rewrite ?orb_false_r; try done; [destruct Ho; by split|by intros i ?%not_elem_of_nil].
Qed.

End Runs.

#[export] Hint Resolve runs_SetInt32Value runs_SetUInt32Value runs_SetFloatValue runs_SetUInt64Value
  runs_AddUInt64Value runs_RemoveUInt64Value runs_SetFlag runs_RemoveFlag runs_SetByteValue
  runs_SetUInt16Value runs_SetByteFlag runs_RemoveByteFlag runs_notify : runs.

Lemma runs_SetFlag64 o i f : obj_inv o → in_range o i → in_range o (i + 1) → runs true (SetFlag64 i f) o.
Proof. intros. unfold SetFlag64. read_step. auto with runs. Qed.

Lemma runs_RemoveFlag64 o i f : obj_inv o → in_range o i → in_range o (i + 1) → runs true (RemoveFlag64 i f) o.
Proof. intros. unfold RemoveFlag64. read_step. auto with runs. Qed.
#[export] Hint Resolve runs_SetFlag64 runs_RemoveFlag64 : runs.

(** In its domain an operation runs, and touches only fields of the object. *)
Lemma run_op_runs o c : obj_inv o → op_ok o c → runs (marks c) (run_op c) o.
Proof.
  intros Ho Hc. destruct c; cbn [op_ok marks run_op] in *; repeat match goal with H : _ ∧ _ |- _ => destruct H end;
    unfold SetInt16Value, SetStatFloatValue, SetStatInt32Value, ApplyModUInt32Value, ApplyModInt32Value,
      ApplyModSignedFloatValue, ApplyModPositiveFloatValue, ApplyPercentModFloatValue, GetFloatValue, ToggleFlag,
      ApplyModFlag, ToggleByteFlag, ToggleFlag64, ApplyModFlag64, UpdateUInt32Value,
      SetFieldNotifyFlag, RemoveFieldNotifyFlag; auto with runs.
  all: repeat first [solve [auto with runs] | read_step].
  apply runs_if; apply runs_RemoveByteFlag || apply runs_SetByteFlag; try done; lia.
Qed.

(** ** Outside their domain they fail *)

(** The arguments have the types of the parameters: indices and offsets are not negative. *)
Definition op_typed (c : op) : Prop :=
  match c with
  | OpSetByteValue i k _ | OpSetUInt16Value i k _ | OpSetInt16Value i k _ | OpSetByteFlag i k _
  | OpRemoveByteFlag i k _ | OpToggleByteFlag i k _ => 0 ≤ i ∧ 0 ≤ k
  | OpSetFieldNotifyFlag _ | OpRemoveFieldNotifyFlag _ => True
  | OpSetInt32Value i _ | OpSetUInt32Value i _ | OpUpdateUInt32Value i _ | OpSetFloatValue i _
  | OpSetStatFloatValue i _ | OpSetStatInt32Value i _ | OpApplyModSignedFloatValue i _ _
  | OpApplyModPositiveFloatValue i _ _ | OpApplyPercentModFloatValue i _ _ | OpSetFlag i _
  | OpRemoveFlag i _ | OpToggleFlag i _ | OpApplyModFlag i _ _ | OpForceValuesUpdateAtIndex i
  | OpSetUInt64Value i _ | OpAddUInt64Value i _ | OpRemoveUInt64Value i _ | OpSetFlag64 i _
  | OpRemoveFlag64 i _ | OpToggleFlag64 i _ | OpApplyModFlag64 i _ _
  | OpApplyModUInt32Value i _ _ | OpApplyModInt32Value i _ _ => 0 ≤ i
  end.

Lemma check_index_inv i o a o' : 0 ≤ i → check_index i o = Ok (a, o') → in_range o i ∧ o' = o.
Proof.
  unfold check_index, ASSERT, mbind, M_bind, get, in_range. intros Hi.
  destruct (Z.ltb_spec i (m_valuesCount o)); [intros [= _ <-]; done|done].
Qed.

Lemma load_value_inv i o v o' : load_value i o = Ok (v, o') → v = val o i ∧ o' = o.
Proof.
  unfold load_value, val, mbind, M_bind, get. destruct (m_uint32Values o) as [l|]; [|done]. simpl.
  destruct (l !! Z.to_nat i); [|done]. by intros [= <- <-].
Qed.

Lemma shr32_inv x n o v o' : shr32 x n o = Ok (v, o') → n < 32 ∧ o' = o.
Proof. unfold shr32. destruct (Z.ltb_spec n 32); [by intros [= _ <-]|done]. Qed.

Lemma int32_result_inv z v : int32_result z = Ok v → is_int32 z ∧ v = z.
Proof.
  unfold int32_result, is_int32.
  destruct (Z.leb_spec (- 2 ^ 31) z), (Z.ltb_spec z (2 ^ 31)); intros [= <-]; (split; [lia|done]).
Qed.

Lemma add_int32_inv cur v b o r o' : add_int32 cur v b o = Ok (r, o') → sum_ok cur v b ∧ o' = o.
Proof.
  unfold add_int32, sum_ok. intros (d & o1 & E1 & E2)%bind_inv. unfold lift in E1, E2.
  assert ((b = false → is_int32 (- v)) ∧ d = (if b then v else - v) ∧ o1 = o) as (Hv & -> & ->).
  { destruct b; [by injection E1 as <- <-|]. destruct (int32_result (- v)) as [d'|] eqn:E; [|done].
    injection E1 as <- <-. by apply int32_result_inv in E as [? ->]. }
  destruct (int32_result (cur + _)) as [r'|] eqn:E; [|done]. injection E2 as <- <-.
  by apply int32_result_inv in E as [? ->].
Qed.

(** Takes the next step of a run that succeeded. *)
Ltac run_step E :=
  let a := fresh "a" in let o' := fresh "o" in let E1 := fresh "E" in
  apply bind_inv in E as (a & o' & E1 & E);
  first [ apply check_index_inv in E1 as [? ->]; [|lia]
        | apply load_value_inv in E1 as [-> ->]
        | apply shr32_inv in E1 as [? ->]
        | apply add_int32_inv in E1 as [? ->] ].

Lemma in_range_prev o i : 0 ≤ i → in_range o (i + 1) → in_range o i.
Proof. unfold in_range. lia. Qed.

Section Domain.
Context (o : Object) (Ho : obj_inv o).

Lemma SetUInt32Value_domain i v r o' : 0 ≤ i → SetUInt32Value i v o = Ok (r, o') → in_range o i.
Proof using Type. intros Hi E. run_step E. done. Qed.
Lemma SetInt32Value_domain i v r o' : 0 ≤ i → SetInt32Value i v o = Ok (r, o') → in_range o i.
Proof using Type. intros Hi E. run_step E. done. Qed.
Lemma SetFloatValue_domain i v r o' : 0 ≤ i → SetFloatValue i v o = Ok (r, o') → in_range o i.
Proof using Type. intros Hi E. run_step E. done. Qed.
Lemma SetFlag_domain i v r o' : 0 ≤ i → SetFlag i v o = Ok (r, o') → in_range o i.
Proof using Type. intros Hi E. run_step E. done. Qed.
Lemma RemoveFlag_domain i v r o' : 0 ≤ i → RemoveFlag i v o = Ok (r, o') → in_range o i.
Proof using Type. intros Hi E. run_step E. done. Qed.
Lemma GetUInt32Value_domain i v o' : 0 ≤ i → GetUInt32Value i o = Ok (v, o') → in_range o i ∧ v = val o i ∧ o' = o.
Proof using Type. intros Hi E. run_step E. by apply load_value_inv in E as [-> ->]. Qed.
Lemma GetInt32Value_domain i v o' : 0 ≤ i → GetInt32Value i o = Ok (v, o') → in_range o i ∧ v = i32 (val o i) ∧ o' = o.
Proof using Type. intros Hi E. run_step E. run_step E. by injection E as <- <-. Qed.
Lemma GetUInt64Value_domain i v o' : 0 ≤ i → GetUInt64Value i o = Ok (v, o') → in_range o (i + 1).
Proof using Type. intros Hi E. run_step E. done. Qed.
Lemma SetFlag64_domain i v r o' : 0 ≤ i → SetFlag64 i v o = Ok (r, o') → in_range o (i + 1).
Proof using Type. intros Hi (a & o1 & E & _)%bind_inv. by eapply GetUInt64Value_domain. Qed.
Lemma RemoveFlag64_domain i v r o' : 0 ≤ i → RemoveFlag64 i v o = Ok (r, o') → in_range o (i + 1).
Proof using Type. intros Hi (a & o1 & E & _)%bind_inv. by eapply GetUInt64Value_domain. Qed.

Lemma SetByteValue_domain i k v r o' : 0 ≤ i → 0 ≤ k → SetByteValue i k v o = Ok (r, o') → in_range o i ∧ k ≠ 4.
Proof using Type.
  intros Hi Hk E. run_step E. split; [done|]. intros ->. simpl in E. run_step E. run_step E. lia.
Qed.
Lemma SetUInt16Value_domain i k v r o' : 0 ≤ i → 0 ≤ k → SetUInt16Value i k v o = Ok (r, o') → in_range o i ∧ k ≠ 2.
Proof using Type.
  intros Hi Hk E. run_step E. split; [done|]. intros ->. simpl in E. run_step E. run_step E. lia.
Qed.
Lemma SetByteFlag_domain i k v r o' : 0 ≤ i → 0 ≤ k → SetByteFlag i k v o = Ok (r, o') → in_range o i ∧ k ≠ 4.
Proof using Type.
  intros Hi Hk E. run_step E. split; [done|]. intros ->. simpl in E. run_step E. run_step E. lia.
Qed.
Lemma RemoveByteFlag_domain i k v r o' : 0 ≤ i → 0 ≤ k → RemoveByteFlag i k v o = Ok (r, o') → in_range o i ∧ k ≠ 4.
Proof using Type.
  intros Hi Hk E. run_step E. split; [done|]. intros ->. simpl in E. run_step E. run_step E. lia.
Qed.
Lemma HasByteFlag_domain i k v r o' : 0 ≤ i → 0 ≤ k → HasByteFlag i k v o = Ok (r, o') → in_range o i ∧ k < 4.
Proof using Type.
  intros Hi Hk E. run_step E. split; [done|]. unfold ASSERT, mbind, M_bind in E. by destruct (Z.ltb_spec k 4).
Qed.
Lemma ToggleFlag_domain i v r o' : 0 ≤ i → ToggleFlag i v o = Ok (r, o') → in_range o i.
Proof using Ho.
  intros Hi E. destruct (decide (in_range o i)) as [|Hn]; [done|]. exfalso. unfold in_range in Hn.
  unfold ToggleFlag, HasFlag, mbind, M_bind, get in E. rewrite (proj2 (Z.leb_le _ _)) in E by lia.
  apply Hn. by apply (SetFlag_domain i v r o').
Qed.

End Domain.

Lemma run_op_domain o c o' : obj_inv o → op_typed c → run_op c o = Ok (tt, o') →
  match c with OpForceValuesUpdateAtIndex _ => True | _ => op_ok o c end.
Proof.
  intros Ho Ht E.
  destruct c; cbn [op_typed op_ok run_op] in *; try done; repeat match goal with H : _ ∧ _ |- _ => destruct H end;
    unfold SetStatFloatValue, SetStatInt32Value, ApplyModFlag, ApplyModFlag64 in E;
    try match type of E with (if ?b then _ else _) _ = _ => destruct b end.
  all: try solve
    [ by eapply SetInt32Value_domain | by eapply SetUInt32Value_domain | by eapply SetFloatValue_domain
    | by eapply SetFlag_domain | by eapply RemoveFlag_domain | by eapply ToggleFlag_domain
    | run_step E; done ].
  all: try match type of E with
    | SetByteValue _ _ _ _ = _ => apply SetByteValue_domain in E as [? ?]; auto
    | SetUInt16Value _ _ _ _ = _ => apply SetUInt16Value_domain in E as [? ?]; auto
    | SetInt16Value _ _ _ _ = _ => apply SetUInt16Value_domain in E as [? ?]; auto
    | SetByteFlag _ _ _ _ = _ => apply SetByteFlag_domain in E as [? ?]; auto
    | RemoveByteFlag _ _ _ _ = _ => apply RemoveByteFlag_domain in E as [? ?]; auto
    | ToggleByteFlag _ _ _ _ = _ => apply bind_inv in E as (? & ? & E & _); apply HasByteFlag_domain in E as [? ?]; auto
    | ApplyModUInt32Value _ _ _ _ = _ =>
        apply bind_inv in E as (? & ? & E1 & E); apply GetUInt32Value_domain in E1 as (? & -> & ->); [|done]; run_step E; auto
    | ApplyModInt32Value _ _ _ _ = _ =>
        apply bind_inv in E as (? & ? & E1 & E); apply GetInt32Value_domain in E1 as (? & -> & ->); [|done]; run_step E; auto
    | ToggleFlag64 _ _ _ = _ =>
        apply bind_inv in E as (? & ? & E & _); apply bind_inv in E as (? & ? & E1 & E);
        apply check_index_inv in E1 as [? ->]; [|done]; apply bind_inv in E as (? & ? & E1 & _);
        apply GetUInt64Value_domain in E1; auto
    end.
  all: try solve
    [ eapply SetFlag64_domain in E; eauto using in_range_prev
    | eapply RemoveFlag64_domain in E; eauto using in_range_prev
    | run_step E; eauto using in_range_prev
    | apply bind_inv in E as (? & ? & E & _); run_step E; eauto using in_range_prev
    | apply bind_inv in E as (? & ? & E & _); run_step E; eapply GetUInt64Value_domain in E; eauto using in_range_prev ].
Qed.


Definition two_fields : Object :=
  match _InitValues (new_Object 1 TYPEID_OBJECT 2) with Ok (_, o) => o | Throw _ => new_Object 1 TYPEID_OBJECT 2 end.

Lemma two_fields_inv : obj_inv two_fields.
Proof.
  split.
  - vm_compute. split; congruence.
  - eexists. split; [vm_compute; reflexivity|reflexivity].
  - eexists. split; vm_compute; reflexivity.
Qed.


(** A mask of several flags is not set if one of them is already. *)
Example SetByteFlag_partial :
  match (SetByteFlag 1 0 1;; SetByteFlag 1 0 3;; GetByteValue 1 0) two_fields with
  | Ok (v, _) => v = 1
  | Throw _ => False
  end.
Proof. vm_compute. reflexivity. Qed.
