(* ===== verification/ValuesUpdate.v ===== *)
(** * ValuesUpdate: the update packets of objects.

    [BuildValuesUpdate] of [Object.cpp], [GameObject.cpp] and [Unit.cpp] writes, for one
    viewer, a mask of fields and their values; [Updates/UpdateData.cpp] gathers such blocks
    into a packet.  What the code asks other objects about the viewer (who owns the object,
    groups, game masters, loot rights) is a record of facts. *)
From S2P Require Import Prelude Bits ByteBuffer ObjectGuid Float32 UpdateMask UpdateFields ObjectFields.
Open Scope Z_scope.

Definition UPDATETYPE_VALUES : Z := 0.
Definition UPDATETYPE_CREATE_OBJECT : Z := 1.
Definition UPDATETYPE_CREATE_OBJECT2 : Z := 2.
Definition UPDATETYPE_OUT_OF_RANGE_OBJECTS : Z := 3.

(** A non-null [target], as seen from the object. *)
Record Viewer : Type := mkViewer {
  is_self : bool;        (* target == this *)
  is_owner : bool;       (* the owner's (or caster's) GUID is the target's *)
  in_same_raid : bool;   (* plr && plr->IsInSameRaidWith(target) *)
  IsGameMaster : bool
}.

(** ** The common part *)

Definition value_at (o : Object) (index : Z) : result Z := r ← load_value index o; Ok r.1.
Definition flag_at (flags : option (list Z)) (index : Z) : result Z :=
  match flags with
  | Some l => match l !! Z.to_nat index with Some f => Ok f | None => Throw UndefinedBehaviour end
  | None => Throw UndefinedBehaviour
  end.

(** [updateType == UPDATETYPE_VALUES ? _changesMask.GetBit(index) : m_uint32Values[index]] *)
Definition has_news (updateType : Z) (o : Object) (index : Z) : result bool :=
  if updateType =? UPDATETYPE_VALUES then UpdateMask.GetBit index (_changesMask o)
  else v ← value_at o index; Ok (z2b v).

Section Loop.
Variable send : Z → result bool.
Variable value : Z → M ByteBuffer.t unit.

(** The loop over the fields, on the update mask and the field buffer. *)
Fixpoint fields_loop (n : nat) (index : Z) : M (UpdateMask.t * ByteBuffer.t) unit :=
  match n with
  | O => mret tt
  | S n =>
      b ← lift (send index);
      (if b : bool then
         '(updateMask, fieldBuffer) ← get;
         updateMask ← lift (UpdateMask.SetBit index updateMask);
         '(_, fieldBuffer) ← lift (value index fieldBuffer);
         put (updateMask, fieldBuffer)
       else mret tt);;
      fields_loop n (index + 1)
  end.

Definition write_update (count : Z) : M ByteBuffer.t unit :=
  updateMask ← lift (UpdateMask.SetCount count UpdateMask.new);
  '(_, (updateMask, fieldBuffer)) ← lift (fields_loop (Z.to_nat count) 0 (updateMask, ByteBuffer.new));
  ByteBuffer.shl_uint8 (u8 (UpdateMask.GetBlockCount updateMask));;
  UpdateMask.AppendToPacket updateMask;;
  ByteBuffer.append_buffer fieldBuffer;;
  ByteBuffer.shl_uint8 0.

End Loop.

(** [fieldBuffer << m_uint32Values[index]] *)
Definition shl_value (o : Object) (index : Z) : M ByteBuffer.t unit :=
  v ← lift (value_at o index); ByteBuffer.shl_uint32 v.

(** ** Object *)

Definition GetUpdateFieldData (o : Object) (target : Viewer) : Z * option (list Z) :=
  let visibleFlag := if is_self target then Z.lor UF_FLAG_PUBLIC UF_FLAG_PRIVATE else UF_FLAG_PUBLIC in
  match m_objectTypeId o with
  | TYPEID_ITEM | TYPEID_CONTAINER =>
      (if is_owner target then Z.lor visibleFlag (Z.lor UF_FLAG_OWNER UF_FLAG_ITEM_OWNER) else visibleFlag,
       Some ItemUpdateFieldFlags)
  | TYPEID_UNIT | TYPEID_PLAYER =>
      let visibleFlag := if is_owner target then Z.lor visibleFlag UF_FLAG_OWNER else visibleFlag in
      (if in_same_raid target then Z.lor visibleFlag UF_FLAG_PARTY_MEMBER else visibleFlag,
       Some UnitUpdateFieldFlags)
  | TYPEID_GAMEOBJECT =>
      (if is_owner target then Z.lor visibleFlag UF_FLAG_OWNER else visibleFlag, Some GameObjectUpdateFieldFlags)
  | TYPEID_DYNAMICOBJECT =>
      (if is_owner target then Z.lor visibleFlag UF_FLAG_OWNER else visibleFlag, Some DynamicObjectUpdateFieldFlags)
  | TYPEID_CORPSE =>
      (if is_owner target then Z.lor visibleFlag UF_FLAG_OWNER else visibleFlag, Some CorpseUpdateFieldFlags)
  | TYPEID_AREATRIGGER => (visibleFlag, Some AreaTriggerUpdateFieldFlags)
  | TYPEID_OBJECT => (visibleFlag, None)
  end.

(** Whether a field is written. *)
Definition send_field (updateType : Z) (o : Object) (flags : option (list Z)) (visibleFlag index : Z) : result bool :=
  f ← flag_at flags index;
  if z2b (Z.land (_fieldNotifyFlags o) f) then Ok true
  else b ← has_news updateType o index; Ok (b && z2b (Z.land f visibleFlag)).

Definition BuildValuesUpdate (updateType : Z) (o : Object) (target : option Viewer) : M ByteBuffer.t unit :=
  match target with
  | None => mret tt
  | Some target =>
      let '(visibleFlag, flags) := GetUpdateFieldData o target in
      write_update (send_field updateType o flags visibleFlag) (shl_value o) (m_valuesCount o)
  end.

(** ** GameObject *)

Module GameObject.

Definition GAMEOBJECT_TYPE_CHEST : Z := 3.
Definition GAMEOBJECT_TYPE_GENERIC : Z := 5.
Definition GAMEOBJECT_TYPE_GOOBER : Z := 10.
Definition GO_FLAG_LOCKED : Z := 0x00000002.
Definition GO_FLAG_NOT_SELECTABLE : Z := 0x00000010.
Definition GO_DYNFLAG_LO_ACTIVATE : Z := 0x01.
Definition GO_DYNFLAG_LO_SPARKLE : Z := 0x08.

Record Facts : Type := mkFacts {
  GetGoType : Z;
  groupLootRules : bool;
  HasLootRecipient : bool;
  IsLootAllowedFor : bool;      (* target *)
  ActivateToQuest : bool        (* target *)
}.

Section Update.
Variable go : Facts.

Definition forcedFlags : bool :=
  (GetGoType go =? GAMEOBJECT_TYPE_CHEST) && groupLootRules go && HasLootRecipient go.

Definition send_field (updateType : Z) (o : Object) (visibleFlag index : Z) : result bool :=
  b ← send_field updateType o (Some GameObjectUpdateFieldFlags) visibleFlag index;
  Ok (b || ((index =? GAMEOBJECT_FLAGS) && forcedFlags)).

Definition dynFlags (target : Viewer) : Z :=
  let t := GetGoType go in
  if (t =? GAMEOBJECT_TYPE_CHEST) || (t =? GAMEOBJECT_TYPE_GOOBER) then
    if ActivateToQuest go then Z.lor GO_DYNFLAG_LO_ACTIVATE GO_DYNFLAG_LO_SPARKLE
    else if IsGameMaster target then GO_DYNFLAG_LO_ACTIVATE else 0
  else if t =? GAMEOBJECT_TYPE_GENERIC then
    if ActivateToQuest go then GO_DYNFLAG_LO_SPARKLE else 0
  else 0.

Definition shl_value (o : Object) (target : Viewer) (index : Z) : M ByteBuffer.t unit :=
  if index =? OBJECT_DYNAMIC_FLAGS then
    ByteBuffer.shl_uint16 (dynFlags target);; ByteBuffer.shl_uint16 (u16 (-1))
  else if index =? GAMEOBJECT_FLAGS then
    flags ← lift (value_at o GAMEOBJECT_FLAGS);
    ByteBuffer.shl_uint32
      (if (GetGoType go =? GAMEOBJECT_TYPE_CHEST) && groupLootRules go && negb (IsLootAllowedFor go)
       then Z.lor flags (Z.lor GO_FLAG_LOCKED GO_FLAG_NOT_SELECTABLE) else flags)
  else shl_value o index.

Definition BuildValuesUpdate (updateType : Z) (o : Object) (target : option Viewer) : M ByteBuffer.t unit :=
  match target with
  | None => mret tt
  | Some target =>
      let visibleFlag := if is_owner target then Z.lor UF_FLAG_PUBLIC UF_FLAG_OWNER else UF_FLAG_PUBLIC in
      write_update (send_field updateType o visibleFlag) (shl_value o target) (m_valuesCount o)
  end.

End Update.

End GameObject.

(** ** Unit *)

Module Unit.

Definition UNIT_NPC_FLAG_SPELLCLICK : Z := 0x01000000.
Definition UNIT_FLAG_NOT_SELECTABLE : Z := 0x02000000.
Definition UNIT_BYTE2_FLAG_SANCTUARY : Z := 0x08.
Definition CREATURE_FLAG_EXTRA_TRIGGER : Z := 0x00000080.
Definition UNIT_DYNFLAG_LOOTABLE : Z := 0x0001.
Definition UNIT_DYNFLAG_TRACK_UNIT : Z := 0x0002.
Definition UNIT_DYNFLAG_TAPPED : Z := 0x0004.
Definition UNIT_DYNFLAG_TAPPED_BY_PLAYER : Z := 0x0008.
Definition AURA_STATE_CONFLAGRATE : Z := 14.
Definition AURA_STATE_DEADLY_POISON : Z := 16.
Definition PER_CASTER_AURA_STATE_MASK : Z :=
  Z.lor (Z.shiftl 1 (AURA_STATE_CONFLAGRATE - 1)) (Z.shiftl 1 (AURA_STATE_DEADLY_POISON - 1)).

Record CreatureTemplate : Type := mkTemplate { flags_extra : Z; Modelid1 : Z; Modelid2 : Z }.

(** The unit, if it is a creature. *)
Record CreatureFacts : Type := mkCreature {
  GetCreatureTemplate : CreatureTemplate;
  (* the effects of the spell it is transformed by: whether it is a transform aura, and the
     template of its creature, if that exists *)
  transform_effects : list (bool * option CreatureTemplate);
  hasLootRecipient : bool;
  isTappedBy : bool;                (* target *)
  target_isAllowedToLoot : bool;
  target_CanSeeSpellClickOn : bool
}.

Record Facts : Type := mkFacts {
  creature : option CreatureFacts;
  m_auraStateAuras : list (Z * bool);    (* the state; whether the aura's caster is the target *)
  has_stalked_aura : bool;               (* HasAuraTypeWithCaster(SPELL_AURA_MOD_STALKED, target) *)
  (* IsControlledByPlayer() && the two-side group option && IsInRaidWith(target) *)
  shown_as_friendly : bool;
  factions_hostile : bool;               (* both have a faction template, and ft1 is not friendly to ft2 *)
  target_getFaction : Z
}.

Section Update.
Variable u : Facts.

Definition send_field (updateType : Z) (o : Object) (visibleFlag index : Z) : result bool :=
  f ← flag_at (Some UnitUpdateFieldFlags) index;
  if z2b (Z.land (_fieldNotifyFlags o) f) then Ok true
  else if z2b (Z.land f visibleFlag) then Ok true
  else
    b ← has_news updateType o index;
    if b && z2b (Z.land f visibleFlag) then Ok true
    else if index =? UNIT_FIELD_AURASTATE then
      '(b, _) ← HasFlag UNIT_FIELD_AURASTATE PER_CASTER_AURA_STATE_MASK o; Ok b
    else Ok false.

(** [1 << (itr->first-1)] for an aura state, which is positive. *)
Definition aura_state_bit (state : Z) : Z := Z.shiftl 1 (state - 1).

Definition BuildAuraStateUpdateForTarget (o : Object) : result Z :=
  '(v, _) ← GetUInt32Value UNIT_FIELD_AURASTATE o;
  Ok (foldl (λ auraStates '(state, by_target),
        if z2b (Z.land (aura_state_bit state) PER_CASTER_AURA_STATE_MASK) && by_target
        then Z.lor auraStates (aura_state_bit state) else auraStates)
      (Z.land v (not32 PER_CASTER_AURA_STATE_MASK)) (m_auraStateAuras u)).

Fixpoint transform_template (effects : list (bool * option CreatureTemplate)) (cinfo : CreatureTemplate) : CreatureTemplate :=
  match effects with
  | [] => cinfo
  | (true, Some info) :: _ => info
  | _ :: effects => transform_template effects cinfo
  end.

Definition display_id (displayId : Z) (target : Viewer) : Z :=
  match creature u with
  | None => displayId
  | Some c =>
      let cinfo := transform_template (transform_effects c) (GetCreatureTemplate c) in
      if z2b (Z.land (flags_extra cinfo) CREATURE_FLAG_EXTRA_TRIGGER) then
        if IsGameMaster target then (if z2b (Modelid1 cinfo) then Modelid1 cinfo else 17519)
        else (if z2b (Modelid2 cinfo) then Modelid2 cinfo else 11686)
      else displayId
  end.

Definition dynamic_flags (v : Z) : Z :=
  let dynamicFlags := Z.land v (not32 (Z.lor UNIT_DYNFLAG_TAPPED UNIT_DYNFLAG_TAPPED_BY_PLAYER)) in
  let dynamicFlags :=
    match creature u with
    | None => dynamicFlags
    | Some c =>
        let dynamicFlags :=
          if hasLootRecipient c then
            let dynamicFlags := Z.lor dynamicFlags UNIT_DYNFLAG_TAPPED in
            if isTappedBy c then Z.lor dynamicFlags UNIT_DYNFLAG_TAPPED_BY_PLAYER else dynamicFlags
          else dynamicFlags in
        if target_isAllowedToLoot c then dynamicFlags
        else Z.land dynamicFlags (not32 UNIT_DYNFLAG_LOOTABLE)
    end in
  if z2b (Z.land dynamicFlags UNIT_DYNFLAG_TRACK_UNIT) && negb (has_stalked_aura u)
  then Z.land dynamicFlags (not32 UNIT_DYNFLAG_TRACK_UNIT) else dynamicFlags.

(** The fields that hold floats and are sent as integers. *)
Definition is_attack_time (index : Z) : bool :=
  (UNIT_FIELD_BASEATTACKTIME <=? index) && (index <=? UNIT_FIELD_RANGEDATTACKTIME).
Definition is_stat_mod (index : Z) : bool :=
  ((UNIT_FIELD_NEGSTAT0 <=? index) && (index <=? UNIT_FIELD_NEGSTAT4)) ||
  ((UNIT_FIELD_RESISTANCEBUFFMODSPOSITIVE <=? index) && (index <=? UNIT_FIELD_RESISTANCEBUFFMODSPOSITIVE + 6)) ||
  ((UNIT_FIELD_RESISTANCEBUFFMODSNEGATIVE <=? index) && (index <=? UNIT_FIELD_RESISTANCEBUFFMODSNEGATIVE + 6)) ||
  ((UNIT_FIELD_POSSTAT0 <=? index) && (index <=? UNIT_FIELD_POSSTAT4)).

(** The value sent for a field. *)
Definition sent_value (o : Object) (target : Viewer) (index : Z) : result Z :=
  v ← value_at o index;
  if index =? UNIT_NPC_FLAGS then
    Ok (match creature u with
        | Some c => if target_CanSeeSpellClickOn c then v else Z.land v (not32 UNIT_NPC_FLAG_SPELLCLICK)
        | None => v
        end)
  else if index =? UNIT_FIELD_AURASTATE then BuildAuraStateUpdateForTarget o
  else if is_attack_time index then f32_to_uint32 (if f32_lt v 0 then 0 else v)
  else if is_stat_mod index then f32_to_uint32 v
  else if index =? UNIT_FIELD_FLAGS then
    Ok (if IsGameMaster target then Z.land v (not32 UNIT_FLAG_NOT_SELECTABLE) else v)
  else if index =? UNIT_FIELD_DISPLAYID then Ok (display_id v target)
  else if index =? OBJECT_DYNAMIC_FLAGS then Ok (dynamic_flags v)
  else if ((index =? UNIT_FIELD_BYTES_2) || (index =? UNIT_FIELD_FACTIONTEMPLATE)) &&
          shown_as_friendly u && negb (is_self target) && factions_hostile u then
    Ok (if index =? UNIT_FIELD_BYTES_2 then Z.land v (Z.shiftl UNIT_BYTE2_FLAG_SANCTUARY 8)
        else target_getFaction u)
  else Ok v.

Definition shl_value (o : Object) (target : Viewer) (index : Z) : M ByteBuffer.t unit :=
  v ← lift (sent_value o target index); ByteBuffer.shl_uint32 v.

Definition is_player (o : Object) : bool :=
  match m_objectTypeId o with TYPEID_PLAYER => true | _ => false end.

Definition BuildValuesUpdate (updateType : Z) (o : Object) (target : option Viewer) : M ByteBuffer.t unit :=
  match target with
  | None => mret tt
  | Some target =>
      let valCount := if negb (is_self target) && is_player o then PLAYER_END_NOT_SELF else m_valuesCount o in
      let visibleFlag := if is_self target then Z.lor UF_FLAG_PUBLIC UF_FLAG_PRIVATE else UF_FLAG_PUBLIC in
      let visibleFlag := if is_owner target then Z.lor visibleFlag UF_FLAG_OWNER else visibleFlag in
      let visibleFlag := if in_same_raid target then Z.lor visibleFlag UF_FLAG_PARTY_MEMBER else visibleFlag in
      write_update (send_field updateType o visibleFlag) (shl_value o target) valCount
  end.

End Update.

End Unit.

(** ** UpdateData *)

Module UpdateData.

Record t : Type := mk {
  m_map : Z;
  m_blockCount : Z;
  m_outOfRangeGUIDs : list Z;     (* std::set: in increasing order *)
  m_data : ByteBuffer.t
}.

Definition new (map : Z) : t := mk map 0 [] ByteBuffer.new.

Fixpoint set_insert (x : Z) (l : list Z) : list Z :=
  match l with
  | [] => [x]
  | y :: l' => if x <? y then x :: l else if x =? y then l else y :: set_insert x l'
  end.

Definition AddOutOfRangeGUID (guid : Z) : M t unit :=
  modify (λ d, mk (m_map d) (m_blockCount d) (set_insert guid (m_outOfRangeGUIDs d)) (m_data d)).
Definition AddOutOfRangeGUIDs (guids : list Z) : M t unit :=
  modify (λ d, mk (m_map d) (m_blockCount d) (foldr set_insert (m_outOfRangeGUIDs d) guids) (m_data d)).
Definition AddUpdateBlock (block : ByteBuffer.t) : M t unit := λ d,
  '(_, b) ← ByteBuffer.append_buffer block (m_data d);
  Ok (tt, mk (m_map d) (u32 (m_blockCount d + 1)) (m_outOfRangeGUIDs d) b).
Definition HasData (d : t) : bool :=
  (0 <? m_blockCount d) || negb (match m_outOfRangeGUIDs d with [] => true | _ => false end).
Definition Clear : M t unit := λ d,
  '(_, b) ← ByteBuffer.clear (m_data d); Ok (tt, mk 0 0 [] b).

Fixpoint append_guids (l : list Z) : M ByteBuffer.t unit :=
  match l with [] => mret tt | g :: l => ByteBuffer.appendPackGUID g;; append_guids l end.

(** On the packet, which [Initialize] clears. *)
Definition BuildPacket (d : t) : M ByteBuffer.t bool :=
  p ← get;
  (if ByteBuffer.is_empty p then mret tt else throw AssertionFailed);;
  ByteBuffer.clear;;
  ByteBuffer.shl_uint16 (m_map d);;
  let guids := m_outOfRangeGUIDs d in
  ByteBuffer.shl_uint32 (u32 (m_blockCount d + match guids with [] => 0 | _ => 1 end));;
  (match guids with
   | [] => mret tt
   | _ =>
       ByteBuffer.shl_uint8 UPDATETYPE_OUT_OF_RANGE_OBJECTS;;
       ByteBuffer.shl_uint32 (u32 (Z.of_nat (length guids)));;
       append_guids guids
   end);;
  ByteBuffer.append_buffer (m_data d);;
  mret true.

End UpdateData.

(** [BuildValuesUpdateBlockForPlayer], where [build] is the object's [BuildValuesUpdate]. *)
Definition BuildValuesUpdateBlockForPlayer
    (build : Z → Object → option Viewer → M ByteBuffer.t unit) (o : Object) (target : option Viewer) : M UpdateData.t unit :=
  '(_, buf) ← lift ((ByteBuffer.shl_uint8 UPDATETYPE_VALUES;;
                     ByteBuffer.append_buffer (m_PackGUID o);;
                     build UPDATETYPE_VALUES o target) ByteBuffer.new);
  UpdateData.AddUpdateBlock buf.

Definition BuildOutOfRangeUpdateBlock (o : Object) : M UpdateData.t unit :=
  '(guid, _) ← lift (GetUInt64Value 0 o); UpdateData.AddOutOfRangeGUID guid.
