(* ===== verification/ValuesUpdateProps.v ===== *)
(** * ValuesUpdateProps: the client's view of an object follows the server's. *)
From S2P Require Import Prelude.
From stdpp Require Import list sets gmap.
From S2P Require Import Bits ByteBuffer ByteBufferStream ByteBufferProps ObjectGuid Float32 UpdateMask UpdateFields ObjectFields.
From S2P Require Import ObjectFieldsProps ValuesUpdate.
Open Scope Z_scope.
Import ByteBuffer Stream.

(** ** Writing whole bytes *)

(** [m] appends the bytes [bs] to a packet without pending bits. *)
Definition emits (m : M t unit) (bs : list Z) : Prop := ∀ b s,
  writer b (s, []) → Z.of_nat (length s + length bs) + 1 < MAX_SIZE →
  ∃ b', m b = Ok (tt, b') ∧ writer b' (s ++ bs, []).

Lemma steps_aligned_bytes s l : steps (s, []) (bytes l) = (s ++ l, []).
Proof.
  revert s. induction l as [|z l IH]; intros s; simpl; [by rewrite app_nil_r|].
  unfold steps in *. rewrite IH. by rewrite <- (assoc_L (++)).
Qed.

Lemma emits_ret : emits (mret tt) [].
Proof. intros b s HW _. exists b. by rewrite app_nil_r. Qed.

Lemma emits_bind m1 m2 l1 l2 : emits m1 l1 → emits m2 l2 → emits (m1;; m2) (l1 ++ l2).
Proof.
  intros H1 H2 b s HW Hl. rewrite length_app in Hl.
  destruct (H1 b s HW) as (b1 & E1 & HW1); [lia|].
  destruct (H2 b1 (s ++ l1) HW1) as (b2 & E2 & HW2); [rewrite length_app; lia|].
  exists b2. rewrite (bind_Ok _ _ _ _ _ E1). by rewrite (assoc_L (++)).
Qed.

Lemma emits_val k v : (0 < k)%nat → emits (append_val k v) (le_bytes k v).
Proof.
  intros Hk b s HW Hl. destruct (append_val_writer k v b s [] HW Hk) as (b' & E & HW' & _); [lia|].
  exists b'. split; [done|]. by rewrite steps_aligned_bytes in HW'.
Qed.

Lemma emits_append_buffer o l : writer o (l, []) → emits (append_buffer o) l.
Proof.
  intros [Hs Hw _ _ _] b s HW Hl. simpl in Hs, Hw. unfold append_buffer, size. rewrite Hs, Hw, Nat.ltb_irrefl, firstn_all.
  destruct l as [|x l]; [exists b; by rewrite app_nil_r|]. cbn [length Nat.eqb negb].
  rewrite (append_writer b s []) by (done || lia).
  eexists. split; [done|]. destruct HW as [H1 H2 H3 H4 H5]. split; simpl in *; try done. rewrite H2, length_app. done.
Qed.

Lemma emits_lift {A} (r : result A) a (f : A → M t unit) l : r = Ok a → emits (f a) l → emits (lift r ≫= f) l.
Proof. intros ->. done. Qed.

(** ** The mask in the packet *)

Definition mask_bit (l : list Z) (i : Z) : bool := z2b (default 0 (l !! Z.to_nat i)).

(** The value of a block of an array that has it. *)
Definition block_value (l : list Z) (i : Z) : Z :=
  match UpdateMask.mask_part (UpdateMask.Array l) (32 * i) 32 0 0 with Ok v => v | Throw _ => 0 end.

Lemma block_value_ok l i : 0 ≤ i → 32 * i + 32 ≤ Z.of_nat (length l) →
  UpdateMask.mask_part (UpdateMask.Array l) (32 * i) 32 0 0 = Ok (block_value l i) ∧
  ∀ k, 0 ≤ k → Z.testbit (block_value l i) k = (k <? 32) && mask_bit l (32 * i + k).
Proof.
  intros Hi Hl. unfold block_value.
  destruct (UpdateMask.mask_part_spec l (32 * i) 32 0 0) as (v & Hv & Hb); try lia.
  { intros k Hk. rewrite Z.testbit_0_l. by rewrite (proj2 (Z.ltb_ge _ _)) by lia. }
  rewrite Hv. split; [done|]. intros k Hk. by rewrite Hb.
Qed.

(** The bytes of [n] blocks from the block [i] on. *)
Fixpoint block_bytes (l : list Z) (n : nat) (i : Z) : list Z :=
  match n with O => [] | S n => le_bytes 4 (block_value l i) ++ block_bytes l n (i + 1) end.

Lemma emits_blocks l n i : 0 ≤ i → 32 * (i + Z.of_nat n) ≤ Z.of_nat (length l) →
  emits (UpdateMask.append_blocks (UpdateMask.Array l) n i) (block_bytes l n i).
Proof.
  revert i. induction n as [|n IH]; intros i Hi Hl; cbn [UpdateMask.append_blocks block_bytes]; [apply emits_ret|].
  destruct (block_value_ok l i Hi) as [E _]; [lia|].
  eapply emits_lift; [exact E|]. apply emits_bind; [apply emits_val; lia|]. apply IH; lia.
Qed.

Lemma length_block_bytes l n i : length (block_bytes l n i) = (4 * n)%nat.
Proof. revert i. induction n as [|n IH]; intros i; [done|]. cbn [block_bytes]. rewrite length_app, length_le_bytes, IH. lia. Qed.

Lemma emits_AppendToPacket n m l : UpdateMask.wf n m l → 0 ≤ n →
  emits (UpdateMask.AppendToPacket m) (block_bytes l (Z.to_nat ((n + 31) / 32)) 0).
Proof.
  intros [_ Hb Hl Hlen] Hn. unfold UpdateMask.AppendToPacket, UpdateMask.GetBlockCount. rewrite Hb, Hl.
  pose proof (Z.div_pos (n + 31) 32). apply emits_blocks; lia.
Qed.

(** ** The loop over the fields *)

(** The fields [index .. index+n-1] for which [b] holds. *)
Definition chosen (b : Z → bool) (n : nat) (index : Z) : list Z := List.filter b (seqZ index (Z.of_nat n)).

Definition set_all (fs : list Z) (l : list Z) : list Z := foldl (λ l i, <[Z.to_nat i := 1]> l) l fs.

Definition value_bytes (v : Z → Z) (fs : list Z) : list Z := fs ≫= λ i, le_bytes 4 (v i).

Lemma length_value_bytes v fs : length (value_bytes v fs) = (4 * length fs)%nat.
Proof.
  induction fs as [|i fs IH]; [done|]. unfold value_bytes in *. rewrite bind_cons, length_app, length_le_bytes, IH.
  cbn [length]. lia.
Qed.

Lemma chosen_cons b n index :
  chosen b (S n) index = (if b index then [index] else []) ++ chosen b n (index + 1).
Proof.
  unfold chosen. rewrite seqZ_cons by lia. simpl.
  replace (Z.pred (Z.of_nat (S n))) with (Z.of_nat n) by lia. rewrite <- Z.add_1_r. by destruct (b index).
Qed.

Lemma fields_loop_ok send value b v count n index m l buf s :
  (∀ i, index ≤ i < index + Z.of_nat n → send i = Ok (b i)) →
  (∀ i, index ≤ i < index + Z.of_nat n → b i = true → emits (value i) (le_bytes 4 (v i))) →
  0 ≤ index → index + Z.of_nat n ≤ count → UpdateMask.wf count m l → writer buf (s, []) →
  Z.of_nat (length s) + 4 * Z.of_nat n + 1 < MAX_SIZE →
  ∃ m' buf', fields_loop send value n index (m, buf) = Ok (tt, (m', buf')) ∧
    UpdateMask.wf count m' (set_all (chosen b n index) l) ∧
    writer buf' (s ++ value_bytes v (chosen b n index), []).
Proof.
  revert index m l buf s. induction n as [|n IH]; intros index m l buf s Hs Hv Hi Hc Hm HW Hlim; cbn [fields_loop].
  { exists m, buf. by rewrite app_nil_r. }
  rewrite (bind_Ok (lift (send index)) _ _ (b index) (m, buf)) by (unfold lift; by rewrite Hs by lia).
  rewrite chosen_cons. destruct (b index) eqn:Hb.
  - destruct (UpdateMask.SetBit_wf _ _ _ index Hm) as (m1 & E1 & Hm1); [lia|].
    destruct (Hv index ltac:(lia) Hb buf s HW) as (buf1 & E2 & HW1); [rewrite length_le_bytes; lia|].
    rewrite (bind_Ok _ _ _ tt (m1, buf1)).
    2:{ unfold mbind, M_bind, get, lift, put. by rewrite E1, E2. }
    destruct (IH (index + 1) m1 (<[Z.to_nat index := 1]> l) buf1 (s ++ le_bytes 4 (v index))) as (m' & buf' & E & Hm' & HW');
      [intros; apply Hs; lia|intros; apply Hv; [lia|done]|lia|lia|exact Hm1|exact HW1|
       rewrite length_app, length_le_bytes; lia|].
    exists m', buf'. split; [done|]. split; [done|]. simpl. unfold value_bytes in *.
    by rewrite <- (assoc_L (++)) in HW'.
  - destruct (IH (index + 1) m l buf s) as (m' & buf' & E & Hm' & HW');
      [intros; apply Hs; lia|intros; apply Hv; [lia|done]|lia|lia|done|done|lia|].
    exists m', buf'. done.
Qed.

(** ** Reading a block *)

(** What a client does with an update block: the masks, then a value for each bit. *)
Fixpoint read_masks (n : nat) : M t (list Z) :=
  match n with O => mret [] | S n => m ← read 4; ms ← read_masks n; mret (m :: ms) end.
Fixpoint indices (masks : list Z) (base : Z) : list Z :=
  match masks with
  | [] => []
  | m :: masks => List.filter (λ i, Z.testbit m (i - base)) (seqZ base 32) ++ indices masks (base + 32)
  end.
Fixpoint read_values (fs : list Z) : M t (list (Z * Z)) :=
  match fs with [] => mret [] | i :: fs => v ← read 4; vs ← read_values fs; mret ((i, v) :: vs) end.
Definition read_update : M t (list (Z * Z)) :=
  n ← read 1; masks ← read_masks (Z.to_nat n); vs ← read_values (indices masks 0); read 1;; mret vs.

Fixpoint block_values (l : list Z) (n : nat) (i : Z) : list Z :=
  match n with O => [] | S n => block_value l i :: block_values l n (i + 1) end.

Lemma bytes_app l1 l2 : bytes (l1 ++ l2) = bytes l1 ++ bytes l2.
Proof. apply fmap_app. Qed.

Lemma block_value_bound l i : 0 ≤ i → 32 * i + 32 ≤ Z.of_nat (length l) → 0 ≤ block_value l i < 2 ^ 32.
Proof.
  intros Hi Hl. destruct (block_value_ok l i Hi Hl) as [_ Hb]. apply bits_bound; [lia|].
  intros k Hk. rewrite Hb by lia. by rewrite (proj2 (Z.ltb_ge _ _)) by lia.
Qed.

Lemma read_masks_ok l n i b ks : 0 ≤ i → 32 * (i + Z.of_nat n) ≤ Z.of_nat (length l) →
  reads b (bytes (block_bytes l n i) ++ ks) →
  ∃ b', read_masks n b = Ok (block_values l n i, b') ∧ reads b' ks.
Proof.
  revert i b. induction n as [|n IH]; intros i b Hi Hl Hr; cbn [read_masks block_bytes block_values] in *; [by exists b|].
  rewrite bytes_app, <- (assoc_L (++)) in Hr.
  destruct (read_reads b 4 (block_value l i) _ ltac:(lia) Hr) as (b1 & E1 & Hr1). rewrite (bind_Ok _ _ _ _ _ E1).
  destruct (IH (i + 1) b1) as (b2 & E2 & Hr2); [lia|lia|done|]. rewrite (bind_Ok _ _ _ _ _ E2).
  exists b2. split; [|done]. rewrite Z.mod_small; [done|]. apply block_value_bound; lia.
Qed.

Lemma read_values_ok v fs b ks : reads b (bytes (value_bytes v fs) ++ ks) →
  ∃ b', read_values fs b = Ok ((λ i, (i, u32 (v i))) <$> fs, b') ∧ reads b' ks.
Proof.
  revert b. induction fs as [|i fs IH]; intros b Hr; cbn [read_values]; [by exists b|].
  unfold value_bytes in *. rewrite bind_cons, bytes_app, <- (assoc_L (++)) in Hr.
  destruct (read_reads b 4 (v i) _ ltac:(lia) Hr) as (b1 & E1 & Hr1). rewrite (bind_Ok _ _ _ _ _ E1).
  destruct (IH b1 Hr1) as (b2 & E2 & Hr2). rewrite (bind_Ok _ _ _ _ _ E2). by exists b2.
Qed.

Lemma filter_ext_seqZ (f g : Z → bool) base n :
  (∀ i, base ≤ i < base + n → f i = g i) → List.filter f (seqZ base n) = List.filter g (seqZ base n).
Proof.
  intros H. apply filter_ext_in. intros i Hi. apply H. by apply list_elem_of_In, elem_of_seqZ in Hi.
Qed.

Lemma indices_ok l n i : 0 ≤ i → 32 * (i + Z.of_nat n) ≤ Z.of_nat (length l) →
  indices (block_values l n i) (32 * i) = List.filter (mask_bit l) (seqZ (32 * i) (32 * Z.of_nat n)).
Proof.
  revert i. induction n as [|n IH]; intros i Hi Hl; cbn [indices block_values]; [done|].
  replace (32 * Z.of_nat (S n)) with (32 + 32 * Z.of_nat n) by lia.
  rewrite seqZ_app, List.filter_app by lia. f_equal.
  - apply filter_ext_seqZ. intros k Hk. destruct (block_value_ok l i Hi) as [_ ->]; [lia| |lia].
    rewrite (proj2 (Z.ltb_lt _ _)) by lia. simpl. f_equal. lia.
  - replace (32 * i + 32) with (32 * (i + 1)) by lia. apply IH; lia.
Qed.

Lemma length_set_all fs l : length (set_all fs l) = length l.
Proof. revert l. induction fs as [|i fs IH]; intros l; [done|]. cbn. unfold set_all in IH. by rewrite IH, length_insert. Qed.

Lemma mask_bit_set_all fs l i : 0 ≤ i → Forall (λ j, 0 ≤ j < Z.of_nat (length l)) fs →
  mask_bit (set_all fs l) i = bool_decide (i ∈ fs) || mask_bit l i.
Proof.
  intros Hi. revert l. induction fs as [|j fs IH]; intros l Hf; [done|].
  apply Forall_cons in Hf as [Hj Hf]. cbn [set_all foldl].
  change (foldl _ ?l' fs) with (set_all fs l').
  rewrite IH by by rewrite length_insert. unfold mask_bit.
  destruct (decide (j = i)) as [->|Hne].
  - rewrite list_lookup_insert_eq by lia. rewrite (bool_decide_eq_true_2 (i ∈ i :: fs)) by set_solver.
    by rewrite orb_true_r.
  - rewrite list_lookup_insert_ne by lia. f_equal. apply bool_decide_ext. set_solver.
Qed.

Lemma elem_of_chosen b n index i : i ∈ chosen b n index ↔ index ≤ i < index + Z.of_nat n ∧ b i = true.
Proof. unfold chosen. rewrite list_elem_of_In, filter_In, <- list_elem_of_In, elem_of_seqZ. done. Qed.

(** ** A whole block *)

Definition zero_mask (count : Z) : list Z := replicate (Z.to_nat ((count + 31) / 32 * 32)) 0.
Definition update_bytes (count : Z) (b : Z → bool) (v : Z → Z) : list Z :=
  let fs := chosen b (Z.to_nat count) 0 in
  le_bytes 1 (u8 ((count + 31) / 32)) ++
  block_bytes (set_all fs (zero_mask count)) (Z.to_nat ((count + 31) / 32)) 0 ++
  value_bytes v fs ++ le_bytes 1 0.

Lemma length_zero_mask count : 0 ≤ count → Z.of_nat (length (zero_mask count)) = (count + 31) / 32 * 32.
Proof. intros Hc. unfold zero_mask. rewrite length_replicate. pose proof (Z.div_pos (count + 31) 32 ltac:(lia) ltac:(lia)). lia. Qed.

Lemma chosen_in_mask b count : 0 ≤ count →
  Forall (λ j, 0 ≤ j < Z.of_nat (length (zero_mask count))) (chosen b (Z.to_nat count) 0).
Proof.
  intros Hc. apply Forall_forall. intros j Hj. apply elem_of_chosen in Hj as [Hj _].
  rewrite length_zero_mask by done. pose proof (Z.div_mod (count + 31) 32). pose proof (Z.mod_pos_bound (count + 31) 32). lia.
Qed.

Lemma write_update_ok send value b v count : 0 ≤ count < 2 ^ 16 →
  (∀ i, 0 ≤ i < count → send i = Ok (b i)) →
  (∀ i, 0 ≤ i < count → b i = true → emits (value i) (le_bytes 4 (v i))) →
  emits (write_update send value count) (update_bytes count b v).
Proof.
  intros Hc Hs Hv. unfold write_update.
  destruct (UpdateMask.SetCount_wf count UpdateMask.new) as (m & Em & Hm); [lia|done|].
  eapply emits_lift; [exact Em|].
  destruct (fields_loop_ok send value b v count (Z.to_nat count) 0 m (zero_mask count) new [])
    as (m' & buf & El & Hm' & HW); try done; try lia.
  { intros i Hi. apply Hs. lia. }
  { intros i Hi. apply Hv. lia. }
  { apply writer_new. }
  { unfold MAX_SIZE. simpl length. lia. }
  eapply (emits_lift _ (tt, (m', buf))); [exact El|]. unfold update_bytes.
  apply emits_bind.
  { unfold UpdateMask.GetBlockCount. rewrite (UpdateMask.wf_blocks _ _ _ Hm'). apply emits_val. lia. }
  apply emits_bind; [by apply (emits_AppendToPacket count); [|lia]|].
  apply emits_bind; [by apply emits_append_buffer|]. apply emits_val. lia.
Qed.

Lemma indices_chosen b count : 0 ≤ count →
  indices (block_values (set_all (chosen b (Z.to_nat count) 0) (zero_mask count)) (Z.to_nat ((count + 31) / 32)) 0) 0
  = chosen b (Z.to_nat count) 0.
Proof.
  intros Hc. pose proof (Z.div_mod (count + 31) 32 ltac:(lia)) as Hdiv.
  pose proof (Z.mod_pos_bound (count + 31) 32 ltac:(lia)) as Hmod. pose proof (Z.div_pos (count + 31) 32 ltac:(lia) ltac:(lia)) as Hpos.
  set (nb := (count + 31) / 32) in *.
  pose proof (indices_ok (set_all (chosen b (Z.to_nat count) 0) (zero_mask count)) (Z.to_nat nb) 0) as H.
  rewrite Z.mul_0_r in H. rewrite H; [|lia|rewrite length_set_all, length_zero_mask by done; fold nb; lia].
  replace (32 * Z.of_nat (Z.to_nat nb)) with (count + (32 * nb - count)) by lia.
  rewrite seqZ_app, List.filter_app by lia. rewrite Z.add_0_l.
  assert (∀ i, 0 ≤ i → mask_bit (set_all (chosen b (Z.to_nat count) 0) (zero_mask count)) i = (i <? count) && b i) as Hb.
  { intros i Hi. rewrite mask_bit_set_all by auto using chosen_in_mask.
    assert (mask_bit (zero_mask count) i = false) as ->.
    { unfold mask_bit, zero_mask. destruct (decide (Z.to_nat i < Z.to_nat ((count + 31) / 32 * 32))%nat).
      - by rewrite lookup_replicate_2.
      - by rewrite lookup_ge_None_2 by (rewrite length_replicate; lia). }
    rewrite orb_false_r. apply eq_bool_prop_intro. rewrite bool_decide_spec, elem_of_chosen.
    rewrite andb_True, !Is_true_true, Z.ltb_lt, Z2Nat.id by done. intuition lia. }
  assert (List.filter (mask_bit (set_all (chosen b (Z.to_nat count) 0) (zero_mask count))) (seqZ count (32 * nb - count)) = []) as ->.
  { rewrite (filter_ext_seqZ _ (λ _, false)); [by induction (seqZ count (32 * nb - count))|].
    intros i Hi. rewrite Hb by lia. by rewrite (proj2 (Z.ltb_ge _ _)) by lia. }
  rewrite app_nil_r. unfold chosen at 2. rewrite Z2Nat.id by done.
  apply filter_ext_seqZ. intros i Hi. rewrite Hb by lia. by rewrite (proj2 (Z.ltb_lt _ _)) by lia.
Qed.

(** The client reads back the chosen fields with their values; the block count has 8 bits. *)
Lemma read_update_ok count b v p ks : 0 ≤ count ≤ 255 * 32 →
  reads p (bytes (update_bytes count b v) ++ ks) →
  ∃ p', read_update p = Ok ((λ i, (i, u32 (v i))) <$> chosen b (Z.to_nat count) 0, p') ∧ reads p' ks.
Proof.
  intros Hc. unfold update_bytes, read_update. rewrite !bytes_app, <- !(assoc_L (++)). intros Hr.
  pose proof (Z.div_le_mono (count + 31) (255 * 32 + 31) 32 ltac:(lia) ltac:(lia)) as Hnb.
  change ((255 * 32 + 31) / 32) with 255 in Hnb. pose proof (Z.div_pos (count + 31) 32 ltac:(lia) ltac:(lia)).
  destruct (read_reads p 1 (u8 ((count + 31) / 32)) _ ltac:(lia) Hr) as (p1 & E1 & Hr1).
  rewrite (bind_Ok _ _ _ _ _ E1).
  assert (u8 ((count + 31) / 32) mod 2 ^ (8 * Z.of_nat 1) = (count + 31) / 32) as ->.
  { unfold u8. change (8 * Z.of_nat 1) with 8. rewrite Z.mod_mod by lia. rewrite Z.mod_small; lia. }
  destruct (read_masks_ok (set_all (chosen b (Z.to_nat count) 0) (zero_mask count)) (Z.to_nat ((count + 31) / 32)) 0 p1
    (bytes (value_bytes v (chosen b (Z.to_nat count) 0)) ++ bytes (le_bytes 1 0) ++ ks))
    as (p2 & E2 & Hr2); [lia|rewrite length_set_all, length_zero_mask by lia; lia|exact Hr1|].
  rewrite (bind_Ok _ _ _ _ _ E2), indices_chosen by lia.
  destruct (read_values_ok _ _ _ _ Hr2) as (p3 & E3 & Hr3). rewrite (bind_Ok _ _ _ _ _ E3).
  destruct (read_reads p3 1 0 _ ltac:(lia) Hr3) as (p4 & E4 & Hr4). rewrite (bind_Ok _ _ _ _ _ E4).
  by exists p4.
Qed.

Lemma length_update_bytes count b v : 0 ≤ count < 2 ^ 16 → Z.of_nat (length (update_bytes count b v)) < 1000000.
Proof.
  intros Hc. unfold update_bytes. rewrite !length_app, !length_le_bytes, length_block_bytes, length_value_bytes.
  assert (length (chosen b (Z.to_nat count) 0) ≤ Z.to_nat count)%nat.
  { unfold chosen. etransitivity; [apply List.filter_length_le|]. rewrite length_seqZ. lia. }
  pose proof (Z.div_pos (count + 31) 32 ltac:(lia) ltac:(lia)).
  assert ((count + 31) / 32 ≤ 2049) by (apply Z.div_le_upper_bound; lia). lia.
Qed.

(** A block in a packet of its own. *)
Lemma write_read_update send value b v count : 0 ≤ count ≤ 255 * 32 →
  (∀ i, 0 ≤ i < count → send i = Ok (b i)) →
  (∀ i, 0 ≤ i < count → b i = true → emits (value i) (le_bytes 4 (v i))) →
  ∃ p p', write_update send value count new = Ok (tt, p) ∧
    read_update (received (storage p)) = Ok ((λ i, (i, u32 (v i))) <$> chosen b (Z.to_nat count) 0, p').
Proof.
  intros Hc Hs Hv.
  destruct (write_update_ok send value b v count ltac:(lia) Hs Hv new []) as (p & E & HW).
  { apply writer_new. }
  { pose proof (length_update_bytes count b v ltac:(lia)). unfold MAX_SIZE. cbn [length]. lia. }
  destruct (read_update_ok count b v (received (storage p)) [] Hc) as (p' & E' & _); [|by eauto].
  rewrite (writer_storage _ _ HW), app_nil_r. simpl. apply reads_received.
  - apply bits_then_bytes_phased, all_bytes_bits_then_bytes. apply all_bytes_bytes.
  - pose proof (steps_layout [] [] (bytes (update_bytes count b v))) as H. rewrite steps_aligned_bytes in H. simpl in H.
    by rewrite app_nil_r in H.
Qed.

(** ** The blocks of objects *)

(** The class of the object has a table with a row for each of its fields. *)
Definition has_table (o : Object) (fl : list Z) : Prop :=
  (∀ target, (GetUpdateFieldData o target).2 = Some fl) ∧ m_valuesCount o ≤ Z.of_nat (length fl).

Definition field_flags (fl : list Z) (i : Z) : Z := default 0 (fl !! Z.to_nat i).

(** The fields a viewer may see, and those that are sent to everybody with every update. *)
Definition visible (o : Object) (fl : list Z) (target : Viewer) (i : Z) : bool :=
  z2b (Z.land (field_flags fl i) (GetUpdateFieldData o target).1).
Definition notified (o : Object) (fl : list Z) (i : Z) : bool :=
  z2b (Z.land (_fieldNotifyFlags o) (field_flags fl i)).
Definition sends (updateType : Z) (o : Object) (fl : list Z) (target : Viewer) (i : Z) : bool :=
  notified o fl i || ((if updateType =? UPDATETYPE_VALUES then bit o i else z2b (val o i)) && visible o fl target i).

Lemma value_at_ok o i : obj_inv o → 0 ≤ i < m_valuesCount o → value_at o i = Ok (val o i).
Proof. intros Ho Hi. unfold value_at. by rewrite load_value_ok. Qed.

Lemma has_news_ok updateType o i : obj_inv o → 0 ≤ i < m_valuesCount o →
  has_news updateType o i = Ok (if updateType =? UPDATETYPE_VALUES then bit o i else z2b (val o i)).
Proof.
  intros Ho Hi. unfold has_news. destruct (updateType =? UPDATETYPE_VALUES); [|by rewrite value_at_ok].
  destruct (inv_mask o Ho) as (l & Hm). rewrite (UpdateMask.GetBit_wf _ _ _ _ Hm Hi).
  unfold bit. by rewrite (UpdateMask.wf_bits _ _ _ Hm).
Qed.

Lemma flag_at_ok o fl i : has_table o fl → 0 ≤ i < m_valuesCount o → flag_at (Some fl) i = Ok (field_flags fl i).
Proof.
  intros [_ Hl] Hi. unfold flag_at, field_flags. by destruct (lookup_lt_is_Some_2 fl (Z.to_nat i) ltac:(lia)) as [f ->].
Qed.

Lemma send_field_ok updateType o fl target i : obj_inv o → has_table o fl → 0 ≤ i < m_valuesCount o →
  send_field updateType o (Some fl) (GetUpdateFieldData o target).1 i = Ok (sends updateType o fl target i).
Proof.
  intros Ho Hf Hi. unfold send_field, sends, notified, visible. rewrite (flag_at_ok o) by done.
  unfold mbind, result_bind. destruct (z2b (Z.land (_fieldNotifyFlags o) (field_flags fl i))); [done|].
  by rewrite has_news_ok.
Qed.

Lemma emits_shl_value o i : obj_inv o → 0 ≤ i < m_valuesCount o → emits (shl_value o i) (le_bytes 4 (val o i)).
Proof. intros Ho Hi. eapply emits_lift; [by apply value_at_ok|]. apply emits_val. lia. Qed.

(** The pairs that a block of the object carries. *)
Definition block_of (updateType : Z) (o : Object) (fl : list Z) (target : Viewer) : list (Z * Z) :=
  (λ i, (i, u32 (val o i))) <$> chosen (sends updateType o fl target) (Z.to_nat (m_valuesCount o)) 0.

Lemma values_update updateType o fl target : obj_inv o → has_table o fl → m_valuesCount o ≤ 255 * 32 →
  ∃ p p', BuildValuesUpdate updateType o (Some target) new = Ok (tt, p) ∧
    read_update (received (storage p)) = Ok (block_of updateType o fl target, p').
Proof.
  intros Ho Hf Hc. unfold BuildValuesUpdate, block_of. pose proof (inv_count o Ho).
  pose proof (proj1 Hf target) as Ht. pose proof (λ i, send_field_ok updateType o fl target i Ho Hf) as Hs.
  destruct (GetUpdateFieldData o target) as [vis flags]. simpl in Ht, Hs. subst flags.
  apply write_read_update; [lia|done|]. intros i Hi _. by apply emits_shl_value.
Qed.

(** C25. The block that [BuildValuesUpdate] writes for a viewer, read the way a client reads
    it, gives exactly the fields to be sent with their values: those the object always
    announces, and of those the viewer may see the changed ones (in a creation block, those
    that are not zero).  No other field of the object leaves the server. *)
Theorem values_update_roundtrip updateType o fl target :
  obj_inv o → has_table o fl → m_valuesCount o ≤ 255 * 32 →
  ∃ p p' block, BuildValuesUpdate updateType o (Some target) new = Ok (tt, p) ∧
    read_update (received (storage p)) = Ok (block, p') ∧
    ∀ i v, (i, v) ∈ block ↔
      0 ≤ i < m_valuesCount o ∧ v = u32 (val o i) ∧
      (notified o fl i = true ∨
       visible o fl target i = true ∧
       (if updateType =? UPDATETYPE_VALUES then bit o i = true else val o i ≠ 0)).
Proof.
  intros Ho Hf Hc. destruct (values_update updateType o fl target Ho Hf Hc) as (p & p' & E & E').
  exists p, p', (block_of updateType o fl target). split; [done|]. split; [done|]. intros i v.
  unfold block_of. rewrite list_elem_of_fmap. setoid_rewrite elem_of_chosen.
  pose proof (inv_count o Ho). unfold sends.
  assert (∀ j, z2b (val o j) = true ↔ val o j ≠ 0) as Hz
    by (intros j; unfold z2b; rewrite negb_true_iff; apply Z.eqb_neq).
  split.
  - intros (j & [= -> ->] & Hj & Hs). split; [lia|]. split; [done|].
    apply orb_true_iff in Hs as [Hs|[Hn Hs]%andb_true_iff]; [by left|]. right. split; [done|].
    by destruct (updateType =? UPDATETYPE_VALUES); [|apply Hz].
  - intros (Hi & -> & Hs). exists i. split; [done|]. split; [lia|]. apply orb_true_iff.
    destruct Hs as [Hs|[Hs Hn]]; [by left|]. right. rewrite Hs, andb_true_r.
    by destruct (updateType =? UPDATETYPE_VALUES); [|apply Hz].
Qed.

(** ** A client that follows the updates *)

Definition seen (m : gmap Z Z) (i : Z) : Z := default 0 (m !! i).

Definition apply_block (m : gmap Z Z) (block : list (Z * Z)) : gmap Z Z :=
  foldl (λ m '(i, v), <[i := v]> m) m block.

Definition receive (p : t) (m : gmap Z Z) : result (gmap Z Z) :=
  '(block, _) ← read_update (received (storage p)); Ok (apply_block m block).

(** What happens to an object and to a client near it: the server changes the object, the
    client gets to see it and forgets what it knew, or the server sends its updates. *)
Inductive event : Type :=
| EvOp (c : op)
| EvCreate
| EvUpdate.

Section Client.
Variable target : Viewer.

(** The update round of [ObjectAccessor::Update], for this object and this client. *)
Definition update_round (o : Object) (m : gmap Z Z) : result (Object * gmap Z Z) :=
  if i_objects o then
    '(_, o) ← RemoveUpdateObject o;
    '(_, p) ← BuildValuesUpdate UPDATETYPE_VALUES o (Some target) new;
    '(_, o) ← ClearUpdateMask false o;
    m ← receive p m;
    Ok (o, m)
  else Ok (o, m).

Definition run_event (e : event) (s : Object * gmap Z Z) : result (Object * gmap Z Z) :=
  let '(o, m) := s in
  match e with
  | EvOp c => '(_, o) ← run_op c o; Ok (o, m)
  | EvCreate =>
      '(_, p) ← BuildValuesUpdate UPDATETYPE_CREATE_OBJECT o (Some target) new;
      m ← receive p ∅;
      Ok (o, m)
  | EvUpdate => update_round o m
  end.

Fixpoint run_events (l : list event) (s : Object * gmap Z Z) : result (Object * gmap Z Z) :=
  match l with [] => Ok s | e :: l => s ← run_event e s; run_events l s end.

(** Each operation is in its domain when it is run, and is one that marks the object. *)
Fixpoint events_ok (l : list event) (s : Object * gmap Z Z) : Prop :=
  match l with
  | [] => True
  | e :: l =>
      match e with EvOp c => op_ok s.1 c ∧ marks c = true | _ => True end ∧
      match run_event e s with Ok s' => events_ok l s' | Throw _ => True end
  end.

(** The client agrees with the server on the visible fields that are not marked, and an
    object with a marked field waits in the update list. *)
Record in_step (fl : list Z) (o : Object) (m : gmap Z Z) : Prop := {
  st_inv : obj_inv o;
  st_table : has_table o fl;
  st_small : m_valuesCount o ≤ 255 * 32;
  st_world : m_inWorld o = true;
  st_list : i_objects o = m_objectUpdated o;
  st_marked : ∀ i, 0 ≤ i < m_valuesCount o → bit o i = true → m_objectUpdated o = true;
  st_seen : ∀ i, 0 ≤ i < m_valuesCount o → visible o fl target i = true → bit o i = false → seen m i = u32 (val o i)
}.

End Client.

Lemma seen_apply_block f (fs : list Z) m i :
  seen (apply_block m ((λ j, (j, f j)) <$> fs)) i = if decide (i ∈ fs) then f i else seen m i.
Proof.
  unfold apply_block. revert m. induction fs as [|j fs IH]; intros m; [done|].
  cbn [fmap list_fmap foldl]. change (list_fmap _ _ _ fs) with ((λ j, (j, f j)) <$> fs). rewrite IH.
  unfold seen. destruct (decide (i = j)) as [->|Hne].
  - rewrite lookup_insert_eq. rewrite (decide_True (P := j ∈ j :: fs)) by left. by case_decide.
  - rewrite lookup_insert_ne by done. destruct (decide (i ∈ fs)).
    + by rewrite decide_True by (by right).
    + by rewrite decide_False by (by rewrite elem_of_cons; intros [|]).
Qed.

(** Visibility only depends on the class of the object. *)
Lemma GetUpdateFieldData_eq o o' target : m_objectTypeId o' = m_objectTypeId o →
  GetUpdateFieldData o' target = GetUpdateFieldData o target.
Proof. intros H. unfold GetUpdateFieldData. by rewrite H. Qed.

Lemma has_table_eq o o' fl : m_objectTypeId o' = m_objectTypeId o → m_valuesCount o' = m_valuesCount o →
  has_table o fl → has_table o' fl.
Proof. intros H1 H2 [H3 H4]. split; [intros target; by rewrite (GetUpdateFieldData_eq o)|by rewrite H2]. Qed.

Lemma visible_eq o o' fl target i : m_objectTypeId o' = m_objectTypeId o → visible o' fl target i = visible o fl target i.
Proof. intros H. unfold visible. by rewrite (GetUpdateFieldData_eq o). Qed.

Lemma ClearUpdateMask_ok o : obj_inv o →
  ∃ o', ClearUpdateMask false o = Ok (tt, o') ∧ obj_inv o' ∧ m_objectTypeId o' = m_objectTypeId o ∧
    m_valuesCount o' = m_valuesCount o ∧ m_inWorld o' = m_inWorld o ∧ m_objectUpdated o' = false ∧
    i_objects o' = i_objects o ∧ (∀ i, val o' i = val o i) ∧ (∀ i, bit o' i = false).
Proof.
  intros Ho. destruct (inv_mask o Ho) as (l & Hm). destruct (UpdateMask.Clear_wf _ _ _ Hm) as (m & E & Hm').
  unfold ClearUpdateMask, mbind, M_bind, get, lift, modify, mret, M_ret. rewrite E.
  assert (∀ i, bit (with_mask m o) i = false) as Hb.
  { intros i. unfold bit. cbn. rewrite (UpdateMask.wf_bits _ _ _ Hm').
    destruct (decide (Z.to_nat i < length l)%nat).
    - by rewrite lookup_replicate_2.
    - by rewrite lookup_ge_None_2 by (rewrite length_replicate; lia). }
  destruct (m_objectUpdated o) eqn:Hu; eexists; (split; [done|]);
    (split; [destruct Ho; split; [done|done|by eexists]|]); cbn; auto 10.
Qed.

Section Converge.
Context (target : Viewer) (fl : list Z).

Lemma op_in_step c o m : in_step target fl o m → op_ok o c → marks c = true →
  ∃ o', run_op c o = Ok (tt, o') ∧ in_step target fl o' m.
Proof.
  intros Hs Hok Hmk. destruct (run_op_runs o c (st_inv _ _ _ _ Hs) Hok) as ([] & o' & D & E & HD & He).
  exists o'. split; [done|]. destruct He as [Hinv Hc Ht Hw Hval Hbit Hdirty Hup Hobj].
  rewrite Hmk in Hup, Hobj. rewrite (st_world _ _ _ _ Hs), andb_true_r in Hup, Hobj. simpl in Hup, Hobj.
  split; try done.
  - by eapply has_table_eq; [..|apply Hs].
  - rewrite Hc. apply Hs.
  - by rewrite Hw, (st_world _ _ _ _ Hs).
  - rewrite Hobj, Hup, (st_list _ _ _ _ Hs). by destruct (m_objectUpdated o), (bool_decide (D = [])).
  - intros i Hi Hb. rewrite Hup. destruct (decide (i ∈ D)) as [Hin|Hin].
    + rewrite bool_decide_eq_false_2 by (by intros ->; apply elem_of_nil in Hin). simpl. apply orb_true_r.
    + rewrite Hbit in Hb by (done || lia). rewrite Hc in Hi. by rewrite (st_marked _ _ _ _ Hs i Hi Hb).
  - intros i Hi Hv Hb. destruct (decide (i ∈ D)) as [Hin|Hin]; [rewrite Hdirty in Hb by done; done|].
    rewrite Hc in Hi. rewrite (visible_eq o) in Hv by done. rewrite Hval, Hbit in * by (done || lia).
    by apply (st_seen _ _ _ _ Hs).
Qed.

Lemma receive_block p block p' m : read_update (received (storage p)) = Ok (block, p') →
  receive p m = Ok (apply_block m block).
Proof. unfold receive. by intros ->. Qed.

Lemma create_in_step o m : in_step target fl o m →
  ∃ m', run_event target EvCreate (o, m) = Ok (o, m') ∧ in_step target fl o m' ∧
    ∀ i, 0 ≤ i < m_valuesCount o → visible o fl target i = true → seen m' i = u32 (val o i).
Proof.
  intros Hs. pose proof Hs as [Hinv Ht Hsm _ _ _ _].
  destruct (values_update UPDATETYPE_CREATE_OBJECT o fl target Hinv Ht Hsm) as (p & p' & E & E').
  unfold run_event. rewrite E. cbn -[block_of]. rewrite (receive_block _ _ _ _ E'). cbn -[block_of].
  set (m' := apply_block _ _).
  assert (∀ i, 0 ≤ i < m_valuesCount o → visible o fl target i = true → seen m' i = u32 (val o i)) as Hseen.
  { intros i Hi Hv. unfold m', block_of. rewrite (seen_apply_block (λ i, u32 (val o i))).
    case_decide as Hin; [done|]. rewrite elem_of_chosen in Hin. unfold sends in Hin. rewrite Hv, andb_true_r in Hin.
    pose proof (inv_count o Hinv). change (UPDATETYPE_CREATE_OBJECT =? UPDATETYPE_VALUES) with false in Hin. cbv iota in Hin.
    destruct (z2b (val o i)) eqn:Hz; [exfalso; apply Hin; split; [lia|apply orb_true_r]|].
    unfold z2b in Hz. apply negb_false_iff, Z.eqb_eq in Hz. by rewrite Hz. }
  exists m'. split; [done|]. split; [|done]. destruct Hs. split; auto.
Qed.

Lemma update_in_step o m : in_step target fl o m →
  ∃ o' m', run_event target EvUpdate (o, m) = Ok (o', m') ∧ in_step target fl o' m' ∧
    m_valuesCount o' = m_valuesCount o ∧
    (∀ i, val o' i = val o i) ∧ ∀ i, 0 ≤ i < m_valuesCount o → bit o' i = false.
Proof.
  intros Hs. unfold run_event, update_round. destruct (i_objects o) eqn:Hq.
  2:{ exists o, m. split; [done|]. split; [done|]. split; [done|]. split; [done|]. intros i Hi.
      destruct (bit o i) eqn:Hb; [|done]. apply (st_marked _ _ _ _ Hs i Hi) in Hb.
      by rewrite <- (st_list _ _ _ _ Hs), Hq in Hb. }
  destruct Hs as [Hinv Ht Hsm Hw Hl Hm Hseen]. unfold RemoveUpdateObject, modify. cbn [mbind result_bind].
  set (o1 := with_objects false o).
  assert (obj_inv o1) as Hinv1 by (destruct Hinv; by split).
  destruct (values_update UPDATETYPE_VALUES o1 fl target Hinv1) as (p & p' & E & E'); [by apply (has_table_eq o)|done|].
  rewrite E. cbn -[block_of ClearUpdateMask receive].
  destruct (ClearUpdateMask_ok o1 Hinv1) as (o' & -> & Hinv' & Ht' & Hc' & Hw' & Hu' & Hq' & Hv' & Hb').
  cbn -[block_of receive]. rewrite (receive_block _ _ _ _ E'). cbn -[block_of].
  eexists o', _. split; [done|]. split; [|split; [by rewrite Hc'|split; [done|intros; apply Hb']]].
  split; try done.
  - by apply (has_table_eq o).
  - by rewrite Hc'.
  - by rewrite Hw'.
  - by rewrite Hq', Hu'.
  - intros i _. by rewrite Hb'.
  - intros i Hi Hv _. rewrite Hv'. unfold block_of. rewrite (seen_apply_block (λ i, u32 (val o1 i))).
    case_decide as Hin; [done|]. rewrite Hc' in Hi. rewrite (visible_eq o) in Hv by done.
    rewrite elem_of_chosen in Hin. unfold sends in Hin. rewrite (visible_eq o), Hv, andb_true_r in Hin by done.
    change (UPDATETYPE_VALUES =? UPDATETYPE_VALUES) with true in Hin. cbv iota in Hin.
    pose proof (inv_count o Hinv). change (bit o1 i) with (bit o i) in Hin.
    destruct (bit o i) eqn:Hb; [exfalso; apply Hin; split; [cbn; lia|apply orb_true_r]|]. by apply Hseen.
Qed.

Lemma events_in_step l o m : in_step target fl o m → events_ok target l (o, m) →
  ∃ o' m', run_events target l (o, m) = Ok (o', m') ∧ in_step target fl o' m'.
Proof.
  revert o m. induction l as [|e l IH]; intros o m Hs Hok; [by exists o, m|].
  cbn [events_ok run_events] in *. destruct Hok as [He Hok].
  assert (∃ o1 m1, run_event target e (o, m) = Ok (o1, m1) ∧ in_step target fl o1 m1) as (o1 & m1 & E & Hs1).
  { destruct e as [c| |].
    - destruct He as [Hc Hm]. destruct (op_in_step c o m Hs Hc Hm) as (o1 & E & Hs1).
      exists o1, m. cbn. by rewrite E.
    - destruct (create_in_step o m Hs) as (m1 & E & Hs1 & _). by exists o, m1.
    - destruct (update_in_step o m Hs) as (o1 & m1 & E & Hs1 & _). by exists o1, m1. }
  rewrite E in Hok |- *. by apply IH.
Qed.

End Converge.

(** An object that has just been added to the world. *)
Definition settled (o : Object) : Prop :=
  m_inWorld o = true ∧ i_objects o = false ∧ m_objectUpdated o = false ∧
  ∀ i, 0 ≤ i < m_valuesCount o → bit o i = false.


(** ** A corpse *)

Definition run_or {A} (m : M Object A) (o : Object) : Object := match m o with Ok (_, o') => o' | Throw _ => o end.

Definition a_corpse : Object :=
  run_or (_Create 5 0 HighGuid.HIGHGUID_CORPSE;; SetUInt32Value (CORPSE_FIELD_ITEM + 3) 77;; AddToWorld)
    (new_Object 0x0081 TYPEID_CORPSE CORPSE_END).

Lemma a_corpse_inv : obj_inv a_corpse.
Proof.
  split.
  - vm_compute. split; congruence.
  - eexists. split; [vm_compute; reflexivity|reflexivity].
  - eexists. split; vm_compute; reflexivity.
Qed.

Lemma a_corpse_table : has_table a_corpse CorpseUpdateFieldFlags.
Proof. split; [intros []; reflexivity|vm_compute; congruence]. Qed.

Lemma a_corpse_settled : settled a_corpse.
Proof.
  split; [reflexivity|]. split; [reflexivity|]. split; [reflexivity|]. intros i Hi.
  assert (forallb (λ j, negb (bit a_corpse j)) (seqZ 0 36) = true) as H by by vm_compute.
  rewrite forallb_forall in H. apply negb_true_iff, H, list_elem_of_In, elem_of_seqZ.
  change (m_valuesCount a_corpse) with 36 in Hi. lia.
Qed.

Definition a_viewer : Viewer := mkViewer false false false false.

(** A flag is set, the client is told, then an item changes. *)
Definition corpse_events : list event :=
  [EvOp (OpSetFlag (CORPSE_FIELD_ITEM + 20) 8); EvUpdate; EvOp (OpSetUInt32Value (CORPSE_FIELD_ITEM + 3) 78)].

Lemma corpse_events_ok m : run_event a_viewer EvCreate (a_corpse, ∅) = Ok (a_corpse, m) →
  events_ok a_viewer corpse_events (a_corpse, m).
Proof.
  intros _. cbn [events_ok corpse_events].
  split; [split; [vm_compute; split; congruence|done]|].
  destruct (run_event _ _ _) as [s1|] eqn:E1; [|done]. split; [done|].
  destruct (run_event _ EvUpdate s1) as [s2|] eqn:E2; [|done]. split; [|by destruct (run_event _ (EvOp (OpSetUInt32Value _ _)) s2)].
  split; [|done]. cbn [op_ok]. unfold in_range.
  assert (m_valuesCount s1.1 = 36) as Hc.
  { cbn in E1. match type of E1 with context [SetFlag ?i ?f a_corpse] => set (r := SetFlag i f a_corpse) in E1 end.
    assert (match r with Ok (_, o) => m_valuesCount o = 36 | Throw _ => False end) as Hr by by vm_compute.
    destruct r as [[? o1]|]; [|done]. cbn in E1. by injection E1 as <-. }
  enough (m_valuesCount s2.1 = 36) as Hc2 by (rewrite Hc2; unfold CORPSE_FIELD_ITEM, OBJECT_END; lia).
  destruct s1 as [o1 m1]. cbn [fst] in Hc. unfold run_event, update_round, RemoveUpdateObject, modify in E2.
  destruct (i_objects o1); [|by injection E2 as <-].
  cbn -[BuildValuesUpdate ClearUpdateMask receive] in E2.
  destruct (BuildValuesUpdate _ _ _ _) as [[? p]|]; [|done].
  cbn -[ClearUpdateMask receive] in E2. 
  unfold ClearUpdateMask, mbind, M_bind, get, lift, modify, mret, M_ret, result_bind in E2.
  destruct (UpdateMask.Clear _); [|done]. cbn -[receive] in E2.
  destruct (m_objectUpdated o1); cbn -[receive] in E2; destruct (receive _ _); try done; by injection E2 as <-.
Qed.

Lemma values_update_roundtrip_witness :
  obj_inv a_corpse ∧ ∃ p p' block, BuildValuesUpdate UPDATETYPE_CREATE_OBJECT a_corpse (Some a_viewer) new = Ok (tt, p) ∧
    read_update (received (storage p)) = Ok (block, p') ∧ (16, 77) ∈ block.
Proof.
  split; [exact a_corpse_inv|].
  destruct (values_update_roundtrip UPDATETYPE_CREATE_OBJECT a_corpse CorpseUpdateFieldFlags a_viewer
    a_corpse_inv a_corpse_table ltac:(vm_compute; congruence)) as (p & p' & block & E & E' & H).
  exists p, p', block. split; [exact E|]. split; [exact E'|]. apply H.
  split; [vm_compute; split; congruence|]. split; [reflexivity|]. right. split; [reflexivity|]. vm_compute. congruence.
Defined.

