(* ===== verification/VisibilityProps.v ===== *)
(** * VisibilityProps: what the update code makes of the visibility tables.

    Two consequences of the code as it is: a unit's updates do not depend on what has
    changed, and the tables of flags are one row short of the fields they describe. *)
From S2P Require Import Prelude.
From stdpp Require Import list.
From S2P Require Import Bits ByteBuffer ObjectGuid Float32 UpdateMask UpdateFields ObjectFields.
From S2P Require Import ObjectFieldsProps ValuesUpdate ValuesUpdateProps.
Open Scope Z_scope.

(** ** Updates of units *)

Lemma fields_loop_ext send1 send2 value n index s :
  (∀ i, index ≤ i < index + Z.of_nat n → send1 i = send2 i) →
  fields_loop send1 value n index s = fields_loop send2 value n index s.
Proof.
  revert index s. induction n as [|n IH]; intros index s H; [done|]. cbn [fields_loop].
  rewrite H by lia. unfold mbind, M_bind, lift. destruct (send2 index) as [b|]; [|done].
  match goal with |- match ?x with _ => _ end = _ => destruct x as [[[] s1]|] end; [|done].
  apply IH. intros. apply H. lia.
Qed.

Lemma write_update_ext send1 send2 value count p :
  (∀ i, 0 ≤ i < count → send1 i = send2 i) → write_update send1 value count p = write_update send2 value count p.
Proof.
  intros H. unfold write_update, mbind, M_bind, lift. destruct (UpdateMask.SetCount _ _); [|done].
  rewrite (fields_loop_ext send1 send2); [done|]. intros. apply H. lia.
Qed.

Lemma unit_send_field o vis i f : obj_inv o → 0 ≤ i < m_valuesCount o →
  flag_at (Some UnitUpdateFieldFlags) i = Ok f →
  ∀ ut1 ut2, Unit.send_field ut1 o vis i = Unit.send_field ut2 o vis i.
Proof.
  intros Ho Hi Hf ut1 ut2. unfold Unit.send_field. rewrite Hf. unfold mbind, result_bind.
  destruct (z2b (Z.land (_fieldNotifyFlags o) f)); [done|].
  destruct (z2b (Z.land f vis)); [done|]. rewrite !has_news_ok by done. by rewrite !andb_false_r.
Qed.

(** The block that [Unit::BuildValuesUpdate] writes does not depend on the update type: an
    update of a unit always carries every field the viewer may see, changed or not, just as a
    creation does, because the test of the visibility alone is enough for a field to be
    written. *)
Theorem unit_update_is_full u o target ut p :
  obj_inv o → m_valuesCount o ≤ PLAYER_END →
  (Unit.is_player o = true → PLAYER_END_NOT_SELF ≤ m_valuesCount o) →
  Unit.BuildValuesUpdate u ut o target p = Unit.BuildValuesUpdate u UPDATETYPE_CREATE_OBJECT o target p.
Proof.
  intros Ho Hc Hp. destruct target as [target|]; [|done]. apply write_update_ext. intros i Hi.
  assert (0 ≤ i < m_valuesCount o) as Hi'.
  { destruct (negb (is_self target) && Unit.is_player o) eqn:E; [|done].
    apply andb_true_iff in E as [_ E]. specialize (Hp E). lia. }
  destruct (lookup_lt_is_Some_2 UnitUpdateFieldFlags (Z.to_nat i)) as [f Hf].
  { assert (length UnitUpdateFieldFlags = 1979%nat) as -> by by vm_compute. unfold PLAYER_END, UNIT_END, OBJECT_END in Hc. lia. }
  eapply (unit_send_field _ _ _ f); [done|done|]. unfold flag_at. by rewrite Hf.
Qed.

Definition a_unit : Object :=
  run_or (_Create 9 1500 HighGuid.HIGHGUID_UNIT;; AddToWorld) (new_Object 0x0009 TYPEID_UNIT UNIT_END).

Lemma a_unit_inv : obj_inv a_unit.
Proof.
  split.
  - vm_compute. split; congruence.
  - eexists. split; [vm_compute; reflexivity|reflexivity].
  - eexists. split; vm_compute; reflexivity.
Qed.

Definition unit_facts : Unit.Facts := Unit.mkFacts None [] false false false 0.

Lemma unit_update_is_full_witness :
  Unit.BuildValuesUpdate unit_facts UPDATETYPE_VALUES a_unit (Some a_viewer) ByteBuffer.new =
  Unit.BuildValuesUpdate unit_facts UPDATETYPE_CREATE_OBJECT a_unit (Some a_viewer) ByteBuffer.new.
Proof.
  apply (unit_update_is_full unit_facts a_unit (Some a_viewer) UPDATETYPE_VALUES ByteBuffer.new a_unit_inv);
    vm_compute; congruence.
Defined.

(** Nothing of the unit has changed, and yet its update is not empty. *)
Example idle_unit_update :
  match Unit.BuildValuesUpdate unit_facts UPDATETYPE_VALUES a_unit (Some a_viewer) ByteBuffer.new with
  | Ok (_, p) => (300 <? length (ByteBuffer.storage p))%nat = true
  | Throw _ => False
  end.
Proof. vm_compute. reflexivity. Qed.

(** ** The tables *)

(** A field whose row is zero is never sent. *)
Lemma zero_row_hidden ut o fl target i : field_flags fl i = 0 → sends ut o fl target i = false.
Proof.
  intros H. unfold sends, notified, visible. rewrite H, Z.land_0_r, Z.land_0_l. simpl. by rewrite andb_false_r.
Qed.

(** A public field that nobody is denied. *)
Lemma public_row_visible o fl target i : m_objectTypeId o ≠ TYPEID_OBJECT →
  Z.testbit (field_flags fl i) 0 = true → visible o fl target i = true.
Proof.
  intros Ht Hf. unfold visible, z2b. apply negb_true_iff, Z.eqb_neq. intros H.
  assert (Z.testbit (Z.land (field_flags fl i) (GetUpdateFieldData o target).1) 0 = true) as Hb; [|by rewrite H in Hb].
  rewrite Z.land_spec, Hf. simpl. unfold GetUpdateFieldData.
  destruct (m_objectTypeId o), (is_self target), (is_owner target), (in_same_raid target); done.
Qed.

(** The tables of flags have no row for [OBJECT_DYNAMIC_FLAGS], so that from there on each
    field has the flags of the next one and the last field has none: the dynamic flags of a
    corpse, the state visual of a game object and the duration of an area trigger are sent
    to nobody, the off-hand damage of a unit is visible to everybody, and its mount is hidden
    from other players. *)
Theorem tables_misaligned ut o target :
  sends ut o CorpseUpdateFieldFlags target CORPSE_FIELD_DYNAMIC_FLAGS = false ∧
  sends ut o GameObjectUpdateFieldFlags target GAMEOBJECT_STATE_SPELL_VISUAL_ID = false ∧
  sends ut o AreaTriggerUpdateFieldFlags target AREATRIGGER_DURATION = false ∧
  (m_objectTypeId o = TYPEID_UNIT →
   visible o UnitUpdateFieldFlags target UNIT_FIELD_MINOFFHANDDAMAGE = true ∧
   visible o UnitUpdateFieldFlags target UNIT_FIELD_MAXOFFHANDDAMAGE = true ∧
   (is_self target = false → visible o UnitUpdateFieldFlags target UNIT_FIELD_MOUNTDISPLAYID = false)).
Proof.
  split; [by apply zero_row_hidden|]. split; [by apply zero_row_hidden|].
  split; [by apply zero_row_hidden|]. intros Ht.
  split; [by apply public_row_visible; [rewrite Ht|]|]. split; [by apply public_row_visible; [rewrite Ht|]|].
  intros Hs. unfold visible, GetUpdateFieldData. rewrite Ht, Hs.
  assert (field_flags UnitUpdateFieldFlags UNIT_FIELD_MOUNTDISPLAYID = UF_FLAG_PRIVATE) as -> by by vm_compute.
  by destruct (is_owner target), (in_same_raid target).
Qed.

Lemma tables_misaligned_witness :
  sends UPDATETYPE_VALUES a_corpse CorpseUpdateFieldFlags a_viewer CORPSE_FIELD_DYNAMIC_FLAGS = false ∧
  visible a_unit UnitUpdateFieldFlags a_viewer UNIT_FIELD_MOUNTDISPLAYID = false.
Proof.
  split.
  - destruct (tables_misaligned UPDATETYPE_VALUES a_corpse a_viewer) as [H _]. exact H.
  - destruct (tables_misaligned UPDATETYPE_VALUES a_unit a_viewer) as (_ & _ & _ & H).
    destruct (H eq_refl) as (_ & _ & H'). exact (H' eq_refl).
Defined.
