(* ===== verification/FieldsText.v ===== *)
(** * FieldsText: fields saved as text.

    [Object::_ConcatFields] and [Object::_LoadIntoDataField] keep a range of fields in a
    column of the database, as decimal numbers with spaces; [Tokenizer] of
    [shared/Utilities/Util.cpp] takes such a text apart.  Characters are their codes. *)
From S2P Require Import Prelude.
From stdpp Require Import list sets.
From S2P Require Import Bits UpdateMask ObjectFields ObjectFieldsProps.
Open Scope Z_scope.

(** ** Numbers *)

(** [std::ostream << uint32]: at most ten digits. *)
Fixpoint decimal_loop (n : nat) (z : Z) (acc : list Z) : list Z :=
  match n with
  | O => acc
  | S n => let acc := 48 + z mod 10 :: acc in if z <? 10 then acc else decimal_loop n (z / 10) acc
  end.
Definition decimal (z : Z) : list Z := decimal_loop 10 z [].

Definition isdigit (c : Z) : bool := (48 <=? c) && (c <=? 57).
Definition isspace (c : Z) : bool := (c =? 32) || ((9 <=? c) && (c <=? 13)).

Fixpoint digits_value (s : list Z) (acc : Z) : Z :=
  match s with
  | c :: s => if isdigit c then digits_value s (acc * 10 + (c - 48)) else acc
  | [] => acc
  end.
Fixpoint skip_spaces (s : list Z) : list Z :=
  match s with c :: s' => if isspace c then skip_spaces s' else s | [] => [] end.

(** [atol], with a [long] of 64 bits: a number that does not fit is undefined. *)
Definition atol (s : list Z) : result Z :=
  let v :=
    match skip_spaces s with
    | c :: s' => if c =? 45 then - digits_value s' 0 else if c =? 43 then digits_value s' 0 else digits_value (c :: s') 0
    | [] => 0
    end in
  if (- 2 ^ 63 <=? v) && (v <? 2 ^ 63) then Ok v else Throw UndefinedBehaviour.

(** ** Tokenizer *)

(** The loop of the constructor, [cur] being the text from [posold] to [posnew]; the text ends
    with a zero character, and looking for that one would run on. *)
Fixpoint tokenize (sep : Z) (src cur : list Z) (m_storage : list (list Z)) : result (list (list Z)) :=
  let last := match cur with [] => m_storage | _ => m_storage ++ [cur] end in
  match src with
  | [] => if 0 =? sep then Throw UndefinedBehaviour else Ok last
  | c :: src =>
      if c =? sep then tokenize sep src [] (m_storage ++ [cur])
      else if c =? 0 then Ok last
      else tokenize sep src (cur ++ [c]) m_storage
  end.
Definition Tokenizer (src : list Z) (sep : Z) : result (list (list Z)) := tokenize sep src [] [].

(** ** Fields *)

Fixpoint concat_loop (n : nat) (index startIndex : Z) : M Object (list Z) :=
  match n with
  | O => mret []
  | S n =>
      v ← GetUInt32Value (u16 (index + startIndex));
      ss ← concat_loop n (index + 1) startIndex;
      mret (decimal v ++ 32 :: ss)
  end.
Definition _ConcatFields (startIndex size : Z) : M Object (list Z) := concat_loop (Z.to_nat size) 0 startIndex.

Fixpoint load_loop (tokens : list (list Z)) (field : Z) : M Object unit :=
  match tokens with
  | [] => mret tt
  | token :: tokens =>
      v ← lift (atol token);
      store_value field (u32 v);;
      SetBit field;;
      load_loop tokens (field + 1)
  end.

(** A text with another number of words is ignored. *)
Definition _LoadIntoDataField (data : list Z) (startOffset count : Z) : M Object unit :=
  match data with
  | [] => mret tt
  | _ =>
      tokens ← lift (Tokenizer data 32);
      if Z.of_nat (length tokens) =? count then load_loop tokens startOffset else mret tt
  end.

(** ** Numbers can be read back *)

Definition digit (c : Z) : Prop := 48 ≤ c ≤ 57.

Lemma isdigit_digit c : digit c → isdigit c = true.
Proof. intros [H1 H2]. unfold isdigit. by rewrite (proj2 (Z.leb_le _ _)), (proj2 (Z.leb_le _ _)) by lia. Qed.

Lemma digits_value_app l acc : Forall digit l → ∀ k, digits_value (l ++ k) acc = digits_value k (digits_value l acc).
Proof.
  intros Hl. revert acc. induction Hl as [|c l Hc Hl IH]; intros acc k; [done|]. simpl.
  rewrite (isdigit_digit c Hc). apply IH.
Qed.

Lemma decimal_loop_spec n z acc : 0 ≤ z < 10 ^ Z.of_nat n → (0 < n)%nat →
  ∃ l, decimal_loop n z acc = l ++ acc ∧ Forall digit l ∧ l ≠ [] ∧ digits_value l 0 = z.
Proof.
  revert z acc. induction n as [|n IH]; intros z acc Hz Hn; [lia|]. cbn [decimal_loop].
  pose proof (Z.mod_pos_bound z 10 ltac:(lia)). pose proof (Z.div_mod z 10 ltac:(lia)).
  assert (digit (48 + z mod 10)) as Hd by (unfold digit; lia).
  destruct (Z.ltb_spec z 10) as [Hlt|Hge].
  - exists [48 + z mod 10]. split; [done|]. split; [by constructor|]. split; [done|].
    unfold digits_value. rewrite isdigit_digit by done. rewrite Z.mod_small; lia.
  - rewrite Nat2Z.inj_succ, Z.pow_succ_r in Hz by lia.
    assert (0 ≤ z / 10 < 10 ^ Z.of_nat n) as Hq by (split; [apply Z.div_pos; lia|apply Z.div_lt_upper_bound; lia]).
    destruct n as [|n]; [change (10 ^ Z.of_nat 0) with 1 in *; lia|].
    destruct (IH (z / 10) (48 + z mod 10 :: acc) Hq ltac:(lia)) as (l & -> & Hl & Hne & Hv).
    exists (l ++ [48 + z mod 10]). rewrite <- (assoc_L (++)). split; [done|].
    split; [by apply Forall_app; split; [|constructor]|]. split; [by destruct l|].
    rewrite digits_value_app by done. rewrite Hv. simpl. rewrite isdigit_digit by done. lia.
Qed.

Lemma atol_digits l : Forall digit l → l ≠ [] → 0 ≤ digits_value l 0 < 2 ^ 63 → atol l = Ok (digits_value l 0).
Proof.
  intros Hl Hne Hz. unfold atol. destruct l as [|c l]; [done|]. apply Forall_cons in Hl as [Hc Hl]. unfold digit in Hc.
  assert (skip_spaces (c :: l) = c :: l) as ->.
  { simpl. unfold isspace. rewrite (proj2 (Z.eqb_neq c 32)), (proj2 (Z.leb_gt c 13)) by lia. by rewrite andb_false_r. }
  rewrite (proj2 (Z.eqb_neq c 45)), (proj2 (Z.eqb_neq c 43)) by lia.
  by rewrite (proj2 (Z.leb_le _ _)), (proj2 (Z.ltb_lt _ _)) by lia.
Qed.

Lemma decimal_spec z : 0 ≤ z < 2 ^ 32 → Forall digit (decimal z) ∧ decimal z ≠ [] ∧ atol (decimal z) = Ok z.
Proof.
  intros Hz. destruct (decimal_loop_spec 10 z []) as (l & E & Hl & Hne & Hv); [|lia|].
  { change (10 ^ Z.of_nat 10) with 10000000000. lia. }
  unfold decimal. rewrite E, app_nil_r. split; [done|]. split; [done|]. rewrite <-Hv. apply atol_digits; [done..|lia].
Qed.

(** ** Words can be taken apart *)

Definition words_text (ws : list (list Z)) : list Z := ws ≫= λ w, w ++ [32].

Lemma tokenize_word w rest cur st : Forall (λ c, c ≠ 32 ∧ c ≠ 0) w →
  tokenize 32 (w ++ 32 :: rest) cur st = tokenize 32 rest [] (st ++ [cur ++ w]).
Proof.
  intros Hw. revert cur. induction Hw as [|c w [H1 H2] Hw IH]; intros cur; cbn [app tokenize].
  - by rewrite Z.eqb_refl, app_nil_r.
  - rewrite (proj2 (Z.eqb_neq c 32)), (proj2 (Z.eqb_neq c 0)) by done. rewrite IH. by rewrite <- (assoc_L (++)).
Qed.

Lemma Tokenizer_words ws : Forall (Forall (λ c, c ≠ 32 ∧ c ≠ 0)) ws → Tokenizer (words_text ws) 32 = Ok ws.
Proof.
  unfold Tokenizer. intros Hw. enough (∀ st, tokenize 32 (words_text ws) [] st = Ok (st ++ ws)) as H by apply H.
  induction Hw as [|w ws Hw Hws IH]; intros st; [simpl; by rewrite app_nil_r|].
  unfold words_text in *. rewrite bind_cons, <- (assoc_L (++)). cbn [app].
  rewrite tokenize_word by done. rewrite IH. by rewrite <- (assoc_L (++)).
Qed.

(** ** The round trip *)

Lemma concat_loop_ok o n index startIndex : obj_inv o → 0 ≤ index → 0 ≤ startIndex →
  index + startIndex + Z.of_nat n ≤ m_valuesCount o →
  concat_loop n index startIndex o =
  Ok (words_text ((λ i, decimal (val o i)) <$> seqZ (index + startIndex) (Z.of_nat n)), o).
Proof.
  intros Ho. pose proof (inv_count o Ho) as Hc. revert index. induction n as [|n IH]; intros index Hi Hs Hn; [done|].
  cbn [concat_loop].
  assert (u16 (index + startIndex) = index + startIndex) as -> by (unfold u16; rewrite Z.mod_small; lia).
  rewrite (bind_Ok _ _ _ _ _ (GetUInt32Value_ok o Ho (index + startIndex) ltac:(unfold in_range; lia))).
  rewrite (bind_Ok _ _ _ _ _ (IH (index + 1) ltac:(lia) Hs ltac:(lia))).
  rewrite (seqZ_cons (index + startIndex)) by lia.
  replace (Z.succ (index + startIndex)) with (index + 1 + startIndex) by lia.
  replace (Z.pred (Z.of_nat (S n))) with (Z.of_nat n) by lia.
  unfold words_text. rewrite fmap_cons, bind_cons, <- (assoc_L (++)). done.
Qed.

Lemma load_loop_ok (f : Z → Z) o n field : obj_inv o → 0 ≤ field → field + Z.of_nat n ≤ m_valuesCount o →
  (∀ i, field ≤ i < field + Z.of_nat n → 0 ≤ f i < 2 ^ 32) →
  ∃ o', load_loop ((λ i, decimal (f i)) <$> seqZ field (Z.of_nat n)) field o = Ok (tt, o') ∧ obj_inv o' ∧
    m_valuesCount o' = m_valuesCount o ∧
    ∀ i, 0 ≤ i → let inside := bool_decide (field ≤ i < field + Z.of_nat n) in
      val o' i = (if inside then f i else val o i) ∧ bit o' i = (inside || bit o i).
Proof.
  revert o field. induction n as [|n IH]; intros o field Ho Hf Hn Hv.
  { exists o. split; [done|]. split; [done|]. split; [done|]. intros i Hi.
    rewrite bool_decide_eq_false_2 by lia. done. }
  rewrite (seqZ_cons field) by lia. replace (Z.pred (Z.of_nat (S n))) with (Z.of_nat n) by lia.
  rewrite <- Z.add_1_r, fmap_cons. cbn [load_loop].
  destruct (decimal_spec (f field)) as (_ & _ & E); [apply Hv; lia|].
  rewrite (bind_Ok (lift (atol (decimal (f field)))) _ _ (f field) o) by (unfold lift; by rewrite E).
  destruct (write_bit_ok o field (u32 (f field)) Ho ltac:(lia)) as (o1 & E1 & He & Hv1).
  apply bind_inv in E1 as ([] & o0 & E0 & E1). rewrite (bind_Ok _ _ _ _ _ E0), (bind_Ok _ _ _ _ _ E1).
  destruct (IH o1 (field + 1)) as (o' & E' & Ho' & Hc' & H'); [apply He|lia|rewrite (eff_count _ _ _ _ He); lia|intros; apply Hv; lia|].
  exists o'. split; [done|]. split; [done|]. split; [by rewrite Hc', (eff_count _ _ _ _ He)|].
  intros i Hi. set (inside := bool_decide (field ≤ i < field + Z.of_nat (S n))).
  destruct (H' i Hi) as [Hvi Hbi]. rewrite Hvi, Hbi, Hv1 by done.
  assert (u32 (f field) = f field) as -> by (unfold u32; rewrite Z.mod_small; [done|apply Hv; lia]).
  destruct (decide (i = field)) as [->|Hne].
  - unfold inside. rewrite (bool_decide_eq_true_2 (field ≤ field < _)), bool_decide_eq_false_2 by lia.
    rewrite (eff_dirty _ _ _ _ He) by by left. done.
  - assert (bool_decide (field + 1 ≤ i < field + 1 + Z.of_nat n) = inside) as ->.
    { apply bool_decide_ext. lia. }
    rewrite (eff_bit _ _ _ _ He) by (done || by intros ->%list_elem_of_singleton). done.
Qed.

(** A range of fields saved as text and loaded into an object of the same kind is
    restored: these fields have the saved values and are marked as changed, the others are as
    they were. *)
Theorem fields_text_roundtrip o o2 startIndex size :
  obj_inv o → obj_inv o2 → m_valuesCount o2 = m_valuesCount o → 0 ≤ startIndex → 0 ≤ size →
  startIndex + size ≤ m_valuesCount o → (∀ i, 0 ≤ i → 0 ≤ val o i < 2 ^ 32) →
  ∃ text o', _ConcatFields startIndex size o = Ok (text, o) ∧
    _LoadIntoDataField text startIndex size o2 = Ok (tt, o') ∧ obj_inv o' ∧
    ∀ i, 0 ≤ i → let inside := bool_decide (startIndex ≤ i < startIndex + size) in
      val o' i = (if inside then val o i else val o2 i) ∧ bit o' i = (inside || bit o2 i).
Proof.
  intros Ho Ho2 Hc Hs Hsz Hr Hv. unfold _ConcatFields.
  rewrite (concat_loop_ok o (Z.to_nat size) 0 startIndex) by (done || lia).
  rewrite Z.add_0_l, Z2Nat.id by done. set (ws := (λ i, decimal (val o i)) <$> seqZ startIndex size).
  destruct (load_loop_ok (val o) o2 (Z.to_nat size) startIndex) as (o' & E & Ho' & _ & H'); [done|done|lia|intros; apply Hv; lia|].
  rewrite !Z2Nat.id in E by done. fold ws in E. rewrite Z2Nat.id in H' by done.
  exists (words_text ws), o'. split; [done|]. split; [|done]. unfold _LoadIntoDataField.
  destruct (words_text ws) as [|c text] eqn:Ew.
  - assert (ws = []) as Hnil by (by destruct ws as [|[]]). rewrite Hnil in E. done.
  - rewrite <- Ew. assert (Tokenizer (words_text ws) 32 = Ok ws) as ET.
    { apply Tokenizer_words. apply Forall_fmap, Forall_forall. intros i Hi%elem_of_seqZ. simpl.
      destruct (decimal_spec (val o i)) as (Hd & _ & _); [apply Hv; lia|].
      eapply Forall_impl; [exact Hd|]. unfold digit. intros x Hx. simpl in Hx. split; lia. }
    rewrite (bind_Ok (lift (Tokenizer (words_text ws) 32)) _ _ ws o2) by (unfold lift; by rewrite ET).
    assert (Z.of_nat (length ws) = size) as -> by (unfold ws; rewrite length_fmap, length_seqZ; lia).
    by rewrite Z.eqb_refl.
Qed.

Definition five_fields (l : list Z) : Object :=
  match _InitValues (new_Object 1 TYPEID_OBJECT 5) with
  | Ok (_, o) => with_values (λ _, Some l) o
  | Throw _ => new_Object 1 TYPEID_OBJECT 5
  end.

Lemma five_fields_inv l : length l = 5%nat → obj_inv (five_fields l).
Proof.
  intros Hl. split.
  - vm_compute. split; congruence.
  - exists l. split; [done|]. by rewrite Hl.
  - eexists. split; vm_compute; reflexivity.
Qed.

Lemma five_fields_val l i : 0 ≤ i → Forall (λ z, 0 ≤ z < 2 ^ 32) l → 0 ≤ val (five_fields l) i < 2 ^ 32.
Proof.
  intros Hi Hl. unfold val.
  change (default [] (m_uint32Values (five_fields l))) with l.
  destruct (l !! Z.to_nat i) as [z|] eqn:E; [|by split].
  rewrite Forall_lookup in Hl. exact (Hl _ _ E).
Qed.

Lemma fields_text_roundtrip_witness :
  ∃ text o', _ConcatFields 1 3 (five_fields [1; 20; 4294967295; 0; 5]) = Ok (text, five_fields [1; 20; 4294967295; 0; 5]) ∧
    _LoadIntoDataField text 1 3 (five_fields [9; 9; 9; 9; 9]) = Ok (tt, o') ∧ val o' 2 = 4294967295 ∧ val o' 4 = 9.
Proof.
  destruct (fields_text_roundtrip (five_fields [1; 20; 4294967295; 0; 5]) (five_fields [9; 9; 9; 9; 9]) 1 3)
    as (text & o' & E & E' & _ & H).
  - apply five_fields_inv. reflexivity.
  - apply five_fields_inv. reflexivity.
  - reflexivity.
  - lia.
  - lia.
  - vm_compute. congruence.
  - intros i Hi. apply five_fields_val; [exact Hi|]. repeat constructor; lia.
  - exists text, o'. split; [exact E|]. split; [exact E'|].
    split; [exact (proj1 (H 2 ltac:(lia)))|exact (proj1 (H 4 ltac:(lia)))].
Defined.
