(* ===== verification/OpcodeTable.v ===== *)
(** * OpcodeTable: the opcodes of the protocol and what the server does with each.

    The enumeration [Opcodes] of [game/Server/Protocol/Opcodes.h], the statements of
    [OpcodeTable::Initialize] (Opcodes.cpp), and the table they fill.  Handlers, which are
    pointers to methods of [WorldSession], are known by their names. *)
From S2P Require Import Prelude.
From stdpp Require Import strings list gmap.
Open Scope string_scope.
Open Scope list_scope.
Open Scope Z_scope.

(** ** Data *)

Inductive SessionStatus : Type :=
| STATUS_AUTHED | STATUS_LOGGEDIN | STATUS_TRANSFER | STATUS_LOGGEDIN_OR_RECENTLY_LOGGOUT
| STATUS_NEVER | STATUS_UNHANDLED.

#[global] Instance SessionStatus_eq_dec : EqDecision SessionStatus.
Proof. solve_decision. Defined.

Inductive PacketProcessing : Type := PROCESS_INPLACE | PROCESS_THREADUNSAFE | PROCESS_THREADSAFE.

#[global] Instance PacketProcessing_eq_dec : EqDecision PacketProcessing.
Proof. solve_decision. Defined.

Record OpcodeHandler : Type := mkHandler {
  Handler : string; Name : string; Status : SessionStatus; ProcessingPlace : PacketProcessing }.

#[global] Instance OpcodeHandler_eq_dec : EqDecision OpcodeHandler.
Proof. solve_decision. Defined.

(** A statement of [Initialize]: the enumerator with the status, processing and handler. *)
Definition row : Type := string * OpcodeHandler.

Definition DEFINE_OPCODE_HANDLER (opcode : string) (status : SessionStatus)
    (processing : PacketProcessing) (handler : string) : row :=
  (opcode, mkHandler handler opcode status processing).

(** ** Enumerators *)

Definition Opcodes_1 : list (string * Z) := [
  ("NUM_OPCODE_HANDLERS", 0x7FFF + 1);
  ("UNKNOWN_OPCODE", 0xFFFF + 1);
  ("NULL_OPCODE", 0);
  ("COMPRESSED_OPCODE_MASK", 0x8000);
  ("CMSG_ACCEPT_LEVEL_GRANT", 0x0205);
  ("CMSG_ACCEPT_TRADE", 0x7110);
  ("CMSG_NAME_QUERY", 0x0018);
  ("CMSG_REALM_QUERY", 0x0209);
  ("CMSG_ACTIVATETAXI", 0x6E06);
  ("CMSG_ACTIVATETAXIEXPRESS", 0x0515);
  ("CMSG_ADDON_REGISTERED_PREFIXES", 0x0954);
  ("CMSG_ADD_FRIEND", 0x6527);
  ("CMSG_ADD_IGNORE", 0x4726);
  ("CMSG_ADD_VOICE_IGNORE", 0x0F06);
  ("CMSG_ALTER_APPEARANCE", 0x0914);
  ("CMSG_AREATRIGGER", 0x0937);
  ("CMSG_AREA_SPIRIT_HEALER_QUERY", 0x4907);
  ("CMSG_AREA_SPIRIT_HEALER_QUEUE", 0x4815);
  ("CMSG_ARENA_TEAM_ACCEPT", 0x2A25);
  ("CMSG_ARENA_TEAM_CREATE", 0x04A1);
  ("CMSG_ARENA_TEAM_DECLINE", 0x6925);
  ("CMSG_ARENA_TEAM_DISBAND", 0x6504);
  ("CMSG_ARENA_TEAM_INVITE", 0x2F27);
  ("CMSG_ARENA_TEAM_LEADER", 0x4204);
  ("CMSG_ARENA_TEAM_LEAVE", 0x0E16);
  ("CMSG_ARENA_TEAM_QUERY", 0x0514);
  ("CMSG_ARENA_TEAM_REMOVE", 0x2F05);
  ("CMSG_ARENA_TEAM_ROSTER", 0x6F37);
  ("CMSG_ATTACKSTOP", 0x4106);
  ("CMSG_ATTACKSWING", 0x0926);
  ("CMSG_AUCTION_LIST_BIDDER_ITEMS", 0x6937);
  ("CMSG_AUCTION_LIST_ITEMS", 0x0324);
  ("CMSG_AUCTION_LIST_OWNER_ITEMS", 0x0206);
  ("CMSG_AUCTION_LIST_PENDING_SALES", 0x2C17);
  ("CMSG_AUCTION_PLACE_BID", 0x2306);
  ("CMSG_AUCTION_REMOVE_ITEM", 0x6426);
  ("CMSG_AUCTION_SELL_ITEM", 0x4A06);
  ("CMSG_AUTH_SESSION", 0x09F1);
  ("CMSG_AUTOBANK_ITEM", 0x2537);
  ("CMSG_AUTOEQUIP_GROUND_ITEM", 0x0000);
  ("CMSG_AUTOEQUIP_ITEM", 0x4304);
  ("CMSG_AUTOEQUIP_ITEM_SLOT", 0x4A17);
  ("CMSG_AUTOSTORE_BAG_ITEM", 0x0236);
  ("CMSG_AUTOSTORE_BANK_ITEM", 0x0607);
  ("CMSG_AUTOSTORE_GROUND_ITEM", 0x0000);
  ("CMSG_AUTOSTORE_LOOT_ITEM", 0x0E34);
  ("CMSG_AUTO_DECLINE_GUILD_INVITES", 0x2034);
  ("CMSG_BANKER_ACTIVATE", 0x0005);
  ("CMSG_BATTLEFIELD_JOIN", 0x0000);
  ("CMSG_BATTLEFIELD_LEAVE", 0x3018);
  ("CMSG_BATTLEFIELD_LIST", 0x3814);
  ("CMSG_BATTLEFIELD_MGR_ENTRY_INVITE_RESPONSE", 0x05A3);
  ("CMSG_BATTLEFIELD_MGR_EXIT_REQUEST", 0x2490);
  ("CMSG_BATTLEFIELD_MGR_QUEUE_INVITE_RESPONSE", 0x0413);
  ("CMSG_BATTLEFIELD_MGR_QUEUE_REQUEST", 0x710C);
  ("CMSG_BATTLEFIELD_PORT", 0x711A);
  ("CMSG_BATTLEFIELD_REQUEST_SCORE_DATA", 0x0000);
  ("CMSG_BATTLEFIELD_STATUS", 0x2500);
  ("CMSG_BATTLEGROUND_PLAYER_POSITIONS", 0x3902);
  ("CMSG_BATTLEMASTER_JOIN", 0x7902);
  ("CMSG_BATTLEMASTER_JOIN_ARENA", 0x701C);
  ("CMSG_BATTLEMASTER_JOIN_RATED", 0x3B18);
  ("CMSG_BEGIN_TRADE", 0x721E);
  ("CMSG_BINDER_ACTIVATE", 0x4006);
  ("CMSG_BOT_DETECTED2", 0x0000);
  ("CMSG_BUG", 0x4035);
  ("CMSG_BUSY_TRADE", 0x331C);
  ("CMSG_BUYBACK_ITEM", 0x6C17);
  ("CMSG_BUY_BANK_SLOT", 0x0425);
  ("CMSG_BUY_ITEM", 0x0736);
  ("CMSG_CALENDAR_ADD_EVENT", 0x0726);
  ("CMSG_CALENDAR_ARENA_TEAM", 0x0204);
  ("CMSG_CALENDAR_COMPLAIN", 0x4C36);
  ("CMSG_CALENDAR_CONTEXT_EVENT_SIGNUP", 0x0000);
  ("CMSG_CALENDAR_COPY_EVENT", 0x0207);
  ("CMSG_CALENDAR_EVENT_INVITE", 0x2435);
  ("CMSG_CALENDAR_EVENT_MODERATOR_STATUS", 0x6B35);
  ("CMSG_CALENDAR_EVENT_REMOVE_INVITE", 0x4337);
  ("CMSG_CALENDAR_EVENT_RSVP", 0x0227);
  ("CMSG_CALENDAR_EVENT_SIGNUP", 0x6606);
  ("CMSG_CALENDAR_EVENT_STATUS", 0x2D24);
  ("CMSG_CALENDAR_GET_CALENDAR", 0x2814);
  ("CMSG_CALENDAR_GET_EVENT", 0x6416);
  ("CMSG_CALENDAR_GET_NUM_PENDING", 0x4D05);
  ("CMSG_CALENDAR_GUILD_FILTER", 0x4A16);
  ("CMSG_CALENDAR_REMOVE_EVENT", 0x6636);
  ("CMSG_CALENDAR_UPDATE_EVENT", 0x2114);
  ("CMSG_CANCEL_AURA", 0x0E26);
  ("CMSG_CANCEL_AUTO_REPEAT_SPELL", 0x6C35);
  ("CMSG_CANCEL_CAST", 0x0115);
  ("CMSG_CANCEL_CHANNELLING", 0x6C25);
  ("CMSG_CANCEL_GROWTH_AURA", 0x0000);
  ("CMSG_CANCEL_MOUNT_AURA", 0x0635);
  ("CMSG_CANCEL_QUEUED_SPELL", 0x7B1C);
  ("CMSG_CANCEL_TEMP_ENCHANTMENT", 0x6C37);
  ("CMSG_CANCEL_TRADE", 0x731E);
  ("CMSG_CAST_SPELL", 0x4C07);
  ("CMSG_CHANGEPLAYER_DIFFICULTY", 0x6107);
  ("CMSG_CHANGE_SEATS_ON_CONTROLLED_VEHICLE", 0x7310);
  ("CMSG_CHANNEL_ANNOUNCEMENTS", 0x1146);
  ("CMSG_CHANNEL_BAN", 0x3D56);
  ("CMSG_CHANNEL_DISPLAY_LIST", 0x2144);
  ("CMSG_CHANNEL_INVITE", 0x0144);
  ("CMSG_CHANNEL_KICK", 0x3156);
  ("CMSG_CHANNEL_LIST", 0x047B);
  ("CMSG_CHANNEL_MODERATE", 0x2944);
  ("CMSG_CHANNEL_MODERATOR", 0x0146);
  ("CMSG_CHANNEL_MUTE", 0x2554);
  ("CMSG_CHANNEL_OWNER", 0x3D44);
  ("CMSG_CHANNEL_PASSWORD", 0x2556);
  ("CMSG_CHANNEL_ROSTER_INFO", 0x3546);
  ("CMSG_CHANNEL_SET_OWNER", 0x3556);
  ("CMSG_CHANNEL_SILENCE_ALL", 0x2154);
  ("CMSG_CHANNEL_SILENCE_VOICE", 0x2D54);
  ("CMSG_CHANNEL_UNBAN", 0x2D46);
  ("CMSG_CHANNEL_UNMODERATOR", 0x1954);
  ("CMSG_CHANNEL_UNMUTE", 0x3554);
  ("CMSG_CHANNEL_UNSILENCE_ALL", 0x2546);
  ("CMSG_CHANNEL_UNSILENCE_VOICE", 0x3146);
  ("CMSG_CHANNEL_VOICE_OFF", 0x3144);
  ("CMSG_CHANNEL_VOICE_ON", 0x1144);
  ("CMSG_CHAR_CREATE", 0x0404);
  ("CMSG_CHAR_CUSTOMIZE", 0x21DE);
  ("CMSG_CHAR_DELETE", 0x010C);
  ("CMSG_CHAR_ENUM", 0x0B1D);
  ("CMSG_CHAR_FACTION_CHANGE", 0x2735);
  ("CMSG_CHAR_RACE_CHANGE", 0x0D24);
  ("CMSG_CHAR_RENAME", 0x0289);
  ("CMSG_CHAT_FILTERED", 0x0946);
  ("CMSG_CHAT_IGNORED", 0x0D54);
  ("CMSG_CLEAR_CHANNEL_WATCH", 0x2604);
  ("CMSG_CLEAR_RAID_MARKER", 0x7300);
  ("CMSG_CLEAR_TRADE_ITEM", 0x7018);
  ("CMSG_COMMENTATOR_ENABLE", 0x0B07);
  ("CMSG_COMMENTATOR_ENTER_INSTANCE", 0x4105);
  ("CMSG_COMMENTATOR_EXIT_INSTANCE", 0x6136);
  ("CMSG_COMMENTATOR_GET_MAP_INFO", 0x0026);
  ("CMSG_COMMENTATOR_GET_PARTY_INFO", 0x2412);
  ("CMSG_COMMENTATOR_GET_PLAYER_INFO", 0x0D14);
  ("CMSG_COMMENTATOR_INSTANCE_COMMAND", 0x0917);
  ("CMSG_COMMENTATOR_SKIRMISH_QUEUE_COMMAND", 0x0025);
  ("CMSG_COMMENTATOR_START_WARGAME", 0x25A0);
  ("CMSG_COMPLAIN", 0x0427);
  ("CMSG_COMPLETE_CINEMATIC", 0x2116);
  ("CMSG_COMPLETE_MOVIE", 0x4136);
  ("CMSG_CONNECT_TO_FAILED", 0x2533);
  ("CMSG_CONTACT_LIST", 0x0000);
  ("CMSG_CORPSE_MAP_POSITION_QUERY", 0x6205);
  ("CMSG_CREATURE_QUERY", 0x050F)].

Definition Opcodes_2 : list (string * Z) := [
  ("CMSG_DANCE_QUERY", 0x4E07);
  ("CMSG_DB_QUERY_BULK", 0x0149);
  ("CMSG_DECLINE_CHANNEL_INVITE", 0x0000);
  ("CMSG_DELETEEQUIPMENT_SET", 0x4D07);
  ("CMSG_DEL_FRIEND", 0x6A15);
  ("CMSG_DEL_IGNORE", 0x6D26);
  ("CMSG_DEL_VOICE_IGNORE", 0x0024);
  ("CMSG_DESTROY_ITEM", 0x4A27);
  ("CMSG_DISMISS_CONTROLLED_VEHICLE", 0x0A56);
  ("CMSG_DISMISS_CRITTER", 0x4227);
  ("CMSG_DUEL_ACCEPTED", 0x2136);
  ("CMSG_DUEL_CANCELLED", 0x6624);
  ("CMSG_EJECT_PASSENGER", 0x6927);
  ("CMSG_EMOTE", 0x4C26);
  ("CMSG_ENABLETAXI", 0x0C16);
  ("CMSG_ENABLE_NAGLE", 0x4449);
  ("CMSG_EQUIPMENT_SET_DELETE", 0x0000);
  ("CMSG_EQUIPMENT_SET_SAVE", 0x4F27);
  ("CMSG_EQUIPMENT_SET_USE", 0x0417);
  ("CMSG_FAR_SIGHT", 0x4835);
  ("CMSG_FORCE_MOVE_ROOT_ACK", 0x701E);
  ("CMSG_FORCE_MOVE_UNROOT_ACK", 0x7808);
  ("CMSG_GAMEOBJECT_QUERY", 0x058F);
  ("CMSG_GAMEOBJ_REPORT_USE", 0x4827);
  ("CMSG_GAMEOBJ_USE", 0x4E17);
  ("CMSG_GAMESPEED_SET", 0x0000);
  ("CMSG_GAMETIME_SET", 0x0000);
  ("CMSG_GETDEATHBINDZONE", 0x0000);
  ("CMSG_GET_MAIL_LIST", 0x4D37);
  ("CMSG_GET_MIRRORIMAGE_DATA", 0x0C25);
  ("CMSG_GHOST", 0x0000);
  ("CMSG_GMRESPONSE_RESOLVE", 0x6506);
  ("CMSG_GMSURVEY_SUBMIT", 0x2724);
  ("CMSG_GMTICKET_CREATE", 0x0137);
  ("CMSG_GMTICKET_DELETETICKET", 0x6B14);
  ("CMSG_GMTICKET_GETTICKET", 0x0326);
  ("CMSG_GMTICKET_SYSTEMSTATUS", 0x4205);
  ("CMSG_GMTICKET_UPDATETEXT", 0x0636);
  ("CMSG_GM_INVIS", 0x0000);
  ("CMSG_GM_NUKE", 0x0000);
  ("CMSG_GM_REPORT_LAG", 0x6726);
  ("CMSG_GM_SET_SECURITY_GROUP", 0x0000);
  ("CMSG_GOSSIP_HELLO", 0x1414);
  ("CMSG_GOSSIP_SELECT_OPTION", 0x1341);
  ("CMSG_GRANT_LEVEL", 0x6D16);
  ("CMSG_GROUP_ASSISTANT_LEADER", 0x6025);
  ("CMSG_GROUP_CANCEL", 0x0000);
  ("CMSG_GROUP_CHANGE_SUB_GROUP", 0x4124);
  ("CMSG_GROUP_DISBAND", 0x2804);
  ("CMSG_GROUP_INVITE", 0x0513);
  ("CMSG_GROUP_INVITE_RESPONSE", 0x0410);
  ("CMSG_GROUP_RAID_CONVERT", 0x6E27);
  ("CMSG_GROUP_REQUEST_JOIN_UPDATES", 0x2583);
  ("CMSG_GROUP_SET_LEADER", 0x4C17);
  ("CMSG_GROUP_SET_ROLES", 0x25B1);
  ("CMSG_GROUP_SWAP_SUB_GROUP", 0x0034);
  ("CMSG_GROUP_UNINVITE", 0x0000);
  ("CMSG_GROUP_UNINVITE_GUID", 0x2E07);
  ("CMSG_GUILD_ACCEPT", 0x2531);
  ("CMSG_GUILD_ACHIEVEMENT_MEMBERS", 0x3025);
  ("CMSG_GUILD_ACHIEVEMENT_PROGRESS_QUERY", 0x3235);
  ("CMSG_GUILD_ADD_RANK", 0x3030);
  ("CMSG_GUILD_ASSIGN_MEMBER_RANK", 0x3032);
  ("CMSG_GUILD_BANKER_ACTIVATE", 0x2E37);
  ("CMSG_GUILD_BANK_BUY_TAB", 0x0C37);
  ("CMSG_GUILD_BANK_DEPOSIT_MONEY", 0x0707);
  ("CMSG_GUILD_BANK_LOG_QUERY", 0x3224);
  ("CMSG_GUILD_BANK_MONEY_WITHDRAWN_QUERY", 0x1225);
  ("CMSG_GUILD_BANK_NOTE", 0x0000);
  ("CMSG_GUILD_BANK_QUERY_TAB", 0x2E35);
  ("CMSG_GUILD_BANK_QUERY_TEXT", 0x3220);
  ("CMSG_GUILD_BANK_SWAP_ITEMS", 0x2315);
  ("CMSG_GUILD_BANK_UPDATE_TAB", 0x0106);
  ("CMSG_GUILD_BANK_WITHDRAW_MONEY", 0x0037);
  ("CMSG_GUILD_CHANGE_NAME_REQUEST", 0x1232);
  ("CMSG_GUILD_DECLINE", 0x3231);
  ("CMSG_GUILD_DEL_RANK", 0x3234);
  ("CMSG_GUILD_DEMOTE", 0x1020);
  ("CMSG_GUILD_DISBAND", 0x3226);
  ("CMSG_GUILD_EVENT_LOG_QUERY", 0x1220);
  ("CMSG_GUILD_INFO", 0x0000);
  ("CMSG_GUILD_INFO_TEXT", 0x3227);
  ("CMSG_GUILD_INVITE", 0x24B0);
  ("CMSG_GUILD_LEAVE", 0x1021);
  ("CMSG_GUILD_MEMBER_SEND_SOR_REQUEST", 0x3225);
  ("CMSG_GUILD_MOTD", 0x1035);
  ("CMSG_GUILD_NEWS_UPDATE_STICKY", 0x3223);
  ("CMSG_GUILD_PERMISSIONS", 0x3022);
  ("CMSG_GUILD_PROMOTE", 0x1030);
  ("CMSG_GUILD_QUERY", 0x4426);
  ("CMSG_GUILD_QUERY_NEWS", 0x3020);
  ("CMSG_GUILD_QUERY_RANKS", 0x1026);
  ("CMSG_GUILD_REMOVE", 0x1231);
  ("CMSG_GUILD_REPLACE_GUILD_MASTER", 0x1034);
  ("CMSG_GUILD_REQUEST_CHALLENGE_UPDATE", 0x1224);
  ("CMSG_GUILD_REQUEST_MAX_DAILY_XP", 0x3232);
  ("CMSG_GUILD_REQUEST_PARTY_STATE", 0x3900);
  ("CMSG_GUILD_ROSTER", 0x1226);
  ("CMSG_GUILD_SET_ACHIEVEMENT_TRACKING", 0x1027);
  ("CMSG_GUILD_SET_GUILD_MASTER", 0x3034);
  ("CMSG_GUILD_SET_NOTE", 0x1233);
  ("CMSG_GUILD_SET_RANK_PERMISSIONS", 0x1024);
  ("CMSG_GUILD_SWITCH_RANK", 0x1221);
  ("CMSG_HEARTH_AND_RESURRECT", 0x4B34);
  ("CMSG_IGNORE_TRADE", 0x7112);
  ("CMSG_INITIATE_TRADE", 0x7916);
  ("CMSG_INSPECT", 0x1515);
  ("CMSG_INSPECT_HONOR_STATS", 0x01D6);
  ("CMSG_INSTANCE_LOCK_WARNING_RESPONSE", 0x6234);
  ("CMSG_ITEM_REFUND", 0x6134);
  ("CMSG_ITEM_REFUND_INFO", 0x2206);
  ("CMSG_ITEM_TEXT_QUERY", 0x2406);
  ("CMSG_JOIN_CHANNEL", 0x0156);
  ("CMSG_KEEP_ALIVE", 0x0015);
  ("CMSG_LEARN_PREVIEW_TALENTS", 0x2415);
  ("CMSG_LEARN_PREVIEW_TALENTS_PET", 0x6E24);
  ("CMSG_LEARN_TALENT", 0x2002);
  ("CMSG_LEAVE_CHANNEL", 0x2D56);
  ("CMSG_LFG_GET_STATUS", 0x2581);
  ("CMSG_LFG_JOIN", 0x2430);
  ("CMSG_LFG_LEAVE", 0x2433);
  ("CMSG_LFG_LFR_JOIN", 0x0531);
  ("CMSG_LFG_LFR_LEAVE", 0x0500);
  ("CMSG_LFG_LOCK_INFO_REQUEST", 0x0412);
  ("CMSG_LFG_PROPOSAL_RESULT", 0x0403);
  ("CMSG_LFG_SET_BOOT_VOTE", 0x04B3);
  ("CMSG_LFG_SET_COMMENT", 0x0530);
  ("CMSG_LFG_SET_ROLES", 0x0480);
  ("CMSG_LFG_TELEPORT", 0x2482);
  ("CMSG_LF_GUILD_ADD_RECRUIT", 0x4448);
  ("CMSG_LF_GUILD_BROWSE", 0x0548);
  ("CMSG_LF_GUILD_DECLINE_RECRUIT", 0x1031);
  ("CMSG_LF_GUILD_GET_APPLICATIONS", 0x1230);
  ("CMSG_LF_GUILD_GET_RECRUITS", 0x3230);
  ("CMSG_LF_GUILD_POST_REQUEST", 0x3237);
  ("CMSG_LF_GUILD_REMOVE_RECRUIT", 0x3027);
  ("CMSG_LF_GUILD_SET_GUILD_POST", 0x0448);
  ("CMSG_LIST_INVENTORY", 0x2806);
  ("CMSG_LOAD_SCREEN", 0x0341);
  ("CMSG_LOGOUT_CANCEL", 0x20E0);
  ("CMSG_LOGOUT_REQUEST", 0x1150);
  ("CMSG_LOG_DISCONNECT", 0x09A2);
  ("CMSG_LOOT", 0x0127);
  ("CMSG_LOOT_CURRENCY", 0x781C);
  ("CMSG_LOOT_MASTER_GIVE", 0x4F35);
  ("CMSG_LOOT_METHOD", 0x2F24);
  ("CMSG_LOOT_MONEY", 0x6227);
  ("CMSG_LOOT_RELEASE", 0x2007);
  ("CMSG_LOOT_ROLL", 0x6934);
  ("CMSG_MAIL_CREATE_TEXT_ITEM", 0x0B14)].

Definition Opcodes_3 : list (string * Z) := [
  ("CMSG_MAIL_DELETE", 0x6104);
  ("CMSG_MAIL_MARK_AS_READ", 0x0C07);
  ("CMSG_MAIL_TAKE_ITEM", 0x2B06);
  ("CMSG_MAIL_TAKE_MONEY", 0x4034);
  ("CMSG_MEETINGSTONE_INFO", 0x0000);
  ("CMSG_MESSAGECHAT_ADDON_BATTLEGROUND", 0x0D46);
  ("CMSG_MESSAGECHAT_ADDON_GUILD", 0x0544);
  ("CMSG_MESSAGECHAT_ADDON_OFFICER", 0x3954);
  ("CMSG_MESSAGECHAT_ADDON_PARTY", 0x0546);
  ("CMSG_MESSAGECHAT_ADDON_RAID", 0x1D56);
  ("CMSG_MESSAGECHAT_ADDON_WHISPER", 0x2146);
  ("CMSG_MESSAGECHAT_AFK", 0x0D44);
  ("CMSG_MESSAGECHAT_BATTLEGROUND", 0x2156);
  ("CMSG_MESSAGECHAT_CHANNEL", 0x1D44);
  ("CMSG_MESSAGECHAT_DND", 0x2946);
  ("CMSG_MESSAGECHAT_EMOTE", 0x1156);
  ("CMSG_MESSAGECHAT_GUILD", 0x3956);
  ("CMSG_MESSAGECHAT_OFFICER", 0x1946);
  ("CMSG_MESSAGECHAT_PARTY", 0x1D46);
  ("CMSG_MESSAGECHAT_RAID", 0x9997);
  ("CMSG_MESSAGECHAT_RAID_WARNING", 0x9998);
  ("CMSG_MESSAGECHAT_SAY", 0x016A);
  ("CMSG_MESSAGECHAT_WHISPER", 0x143A);
  ("CMSG_MESSAGECHAT_YELL", 0x1333);
  ("CMSG_MINIGAME_MOVE", 0x2A34);
  ("CMSG_MOUNTSPECIAL_ANIM", 0x2807);
  ("CMSG_MOVE_CHARM_TELEPORT_CHEAT", 0x0000);
  ("CMSG_MOVE_CHNG_TRANSPORT", 0x3102);
  ("CMSG_MOVE_ENABLE_SWIM_TO_FLY_TRANS_ACK", 0x0000);
  ("CMSG_MOVE_FALL_RESET", 0x0AC3);
  ("CMSG_MOVE_FEATHER_FALL_ACK", 0x3110);
  ("CMSG_MOVE_FORCE_FLIGHT_BACK_SPEED_CHANGE_ACK", 0x310E);
  ("CMSG_MOVE_FORCE_FLIGHT_SPEED_CHANGE_ACK", 0x7314);
  ("CMSG_MOVE_FORCE_PITCH_RATE_CHANGE_ACK", 0x3100);
  ("CMSG_MOVE_FORCE_RUN_BACK_SPEED_CHANGE_ACK", 0x3216);
  ("CMSG_MOVE_FORCE_RUN_SPEED_CHANGE_ACK", 0x7818);
  ("CMSG_MOVE_FORCE_SWIM_BACK_SPEED_CHANGE_ACK", 0x7A16);
  ("CMSG_MOVE_FORCE_SWIM_SPEED_CHANGE_ACK", 0x7A10);
  ("CMSG_MOVE_FORCE_TURN_RATE_CHANGE_ACK", 0x7316);
  ("CMSG_MOVE_FORCE_WALK_SPEED_CHANGE_ACK", 0x7210);
  ("CMSG_MOVE_GRAVITY_DISABLE_ACK", 0x3118);
  ("CMSG_MOVE_GRAVITY_ENABLE_ACK", 0x700A);
  ("CMSG_MOVE_HOVER_ACK", 0x3318);
  ("CMSG_MOVE_KNOCK_BACK_ACK", 0x721C);
  ("CMSG_MOVE_NOT_ACTIVE_MOVER", 0x7A1A);
  ("CMSG_MOVE_SET_CAN_FLY", 0x720E);
  ("CMSG_MOVE_SET_CAN_FLY_ACK", 0x790C);
  ("CMSG_MOVE_SET_CAN_TRANSITION_BETWEEN_SWIM_AND_FLY_ACK", 0x3014);
  ("CMSG_MOVE_SET_COLLISION_HEIGHT_ACK", 0x7114);
  ("CMSG_MOVE_SET_RELATIVE_POSITION", 0x0000);
  ("CMSG_MOVE_SET_VEHICLE_REC_ID_ACK", 0x0000);
  ("CMSG_MOVE_SPLINE_DONE", 0x790E);
  ("CMSG_MOVE_TIME_SKIPPED", 0x7A0A);
  ("CMSG_MOVE_TOGGLE_COLLISION_ACK", 0x0000);
  ("CMSG_MOVE_WATER_WALK_ACK", 0x3B00);
  ("CMSG_NEW_SPELL_SLOT", 0x0000);
  ("CMSG_NEXT_CINEMATIC_CAMERA", 0x2014);
  ("CMSG_NPC_TEXT_QUERY", 0x009E);
  ("CMSG_OBJECT_UPDATE_FAILED", 0x0492);
  ("CMSG_OBJECT_UPDATE_RESCUED", 0x3906);
  ("CMSG_OFFER_PETITION", 0x4817);
  ("CMSG_OPENING_CINEMATIC", 0x0CC0);
  ("CMSG_OPEN_ITEM", 0x6A34);
  ("CMSG_OPT_OUT_OF_LOOT", 0x6B16);
  ("CMSG_PAGE_TEXT_QUERY", 0x6614);
  ("CMSG_PARTY_SILENCE", 0x6B26);
  ("CMSG_PARTY_UNSILENCE", 0x4D24);
  ("CMSG_PETITION_BUY", 0x4E05);
  ("CMSG_PETITION_QUERY", 0x4424);
  ("CMSG_PETITION_SHOWLIST", 0x4617);
  ("CMSG_PETITION_SHOW_SIGNATURES", 0x4F15);
  ("CMSG_PETITION_SIGN", 0x0E04);
  ("CMSG_PET_ABANDON", 0x0C24);
  ("CMSG_PET_ACTION", 0x0226);
  ("CMSG_PET_CANCEL_AURA", 0x4B25);
  ("CMSG_PET_CAST_SPELL", 0x6337);
  ("CMSG_PET_LEARN_TALENT", 0x6725);
  ("CMSG_PET_NAME_CACHE", 0x0000);
  ("CMSG_PET_NAME_QUERY", 0x6F24);
  ("CMSG_PET_RENAME", 0x6406);
  ("CMSG_PET_SET_ACTION", 0x6904);
  ("CMSG_PET_SPELL_AUTOCAST", 0x2514);
  ("CMSG_PET_STOP_ATTACK", 0x6C14);
  ("CMSG_PING", 0x08E3);
  ("CMSG_PLAYED_TIME", 0x2097);
  ("CMSG_PLAYER_DIFFICULTY_CHANGE", 0x0000);
  ("CMSG_PLAYER_LOGIN", 0x0A19);
  ("CMSG_PLAYER_LOGOUT", 0x0359);
  ("CMSG_PLAYER_VEHICLE_ENTER", 0x2705);
  ("CMSG_PLAY_DANCE", 0x6914);
  ("CMSG_PUSHQUESTTOPARTY", 0x4B14);
  ("CMSG_PVP_LOG_DATA", 0x7308);
  ("CMSG_QUERY_BATTLEFIELD_STATE", 0x7202);
  ("CMSG_QUERY_GUILD_MEMBERS_FOR_RECIPE", 0x1036);
  ("CMSG_QUERY_GUILD_MEMBER_RECIPES", 0x1037);
  ("CMSG_QUERY_GUILD_RECIPES", 0x3033);
  ("CMSG_QUERY_GUILD_REWARDS", 0x3012);
  ("CMSG_QUERY_GUILD_XP", 0x1237);
  ("CMSG_QUERY_INSPECT_ACHIEVEMENTS", 0x4D27);
  ("CMSG_QUERY_QUESTS_COMPLETED", 0x2317);
  ("CMSG_QUERY_TIME", 0x20DE);
  ("CMSG_QUESTGIVER_ACCEPT_QUEST", 0x6B37);
  ("CMSG_QUESTGIVER_CANCEL", 0x0000);
  ("CMSG_QUESTGIVER_CHOOSE_REWARD", 0x2125);
  ("CMSG_QUESTGIVER_COMPLETE_QUEST", 0x0114);
  ("CMSG_QUESTGIVER_HELLO", 0x0D17);
  ("CMSG_QUESTGIVER_QUERY_QUEST", 0x2F14);
  ("CMSG_QUESTGIVER_QUEST_AUTOLAUNCH", 0x0000);
  ("CMSG_QUESTGIVER_REQUEST_REWARD", 0x2534);
  ("CMSG_QUESTGIVER_STATUS_MULTIPLE_QUERY", 0x6305);
  ("CMSG_QUESTGIVER_STATUS_QUERY", 0x4407);
  ("CMSG_QUESTLOG_REMOVE_QUEST", 0x0D16);
  ("CMSG_QUESTLOG_SWAP_QUEST", 0x0000);
  ("CMSG_QUEST_CONFIRM_ACCEPT", 0x0D15);
  ("CMSG_QUEST_NPC_QUERY", 0x7302);
  ("CMSG_QUEST_POI_QUERY", 0x4037);
  ("CMSG_QUEST_QUERY", 0x0D06);
  ("CMSG_RANDOMIZE_CHAR_NAME", 0x091D);
  ("CMSG_READY_FOR_ACCOUNT_DATA_TIMES", 0x0755);
  ("CMSG_READ_ITEM", 0x2F16);
  ("CMSG_REALM_SPLIT", 0x0B48);
  ("CMSG_RECLAIM_CORPSE", 0x4036);
  ("CMSG_REDIRECTION_AUTH_PROOF", 0x1AA1);
  ("CMSG_REFORGE_ITEM", 0x331A);
  ("CMSG_REORDER_CHARACTERS", 0x0593);
  ("CMSG_REPAIR_ITEM", 0x2917);
  ("CMSG_REPLACE_ACCOUNT_DATA", 0x0000);
  ("CMSG_REPOP_REQUEST", 0x6235);
  ("CMSG_REPORT_PVP_AFK", 0x6734);
  ("CMSG_REQUEST_ACCOUNT_DATA", 0x0A82);
  ("CMSG_REQUEST_CATEGORY_COOLDOWNS", 0x7102);
  ("CMSG_REQUEST_CEMETERY_LIST", 0x720A);
  ("CMSG_REQUEST_HOTFIX", 0x2401);
  ("CMSG_REQUEST_INSPECT_RATED_BG_STATS", 0x3010);
  ("CMSG_REQUEST_PARTY_MEMBER_STATS", 0x0C04);
  ("CMSG_REQUEST_PET_INFO", 0x4924);
  ("CMSG_REQUEST_PVP_OPTIONS_ENABLED", 0x24A1);
  ("CMSG_REQUEST_PVP_REWARDS", 0x780C);
  ("CMSG_REQUEST_RAID_INFO", 0x2F26);
  ("CMSG_REQUEST_RATED_BG_INFO", 0x2423);
  ("CMSG_REQUEST_RATED_BG_STATS", 0x05B3);
  ("CMSG_REQUEST_RESEARCH_HISTORY", 0x3306);
  ("CMSG_REQUEST_VEHICLE_EXIT", 0x2B35);
  ("CMSG_REQUEST_VEHICLE_NEXT_SEAT", 0x4434);
  ("CMSG_REQUEST_VEHICLE_PREV_SEAT", 0x4C04);
  ("CMSG_REQUEST_VEHICLE_SWITCH_SEAT", 0x4C14);
  ("CMSG_RESET_FACTION_CHEAT", 0x4469);
  ("CMSG_RESET_INSTANCES", 0x6E14);
  ("CMSG_RESURRECT_RESPONSE", 0x6827)].

Definition Opcodes_4 : list (string * Z) := [
  ("CMSG_RETURN_TO_GRAVEYARD", 0x301E);
  ("CMSG_ROLE_POLL_BEGIN", 0x0430);
  ("CMSG_SAVE_CUF_PROFILES", 0x730E);
  ("CMSG_SAVE_PLAYER", 0x0000);
  ("CMSG_SEARCH_LFG_JOIN", 0x0000);
  ("CMSG_SEARCH_LFG_LEAVE", 0x0000);
  ("CMSG_SELF_RES", 0x6115);
  ("CMSG_SELL_ITEM", 0x4E15);
  ("CMSG_SEND_MAIL", 0x0523);
  ("CMSG_SEND_SOR_REQUEST_VIA_ADDRESS", 0x0420);
  ("CMSG_SEND_SOR_REQUEST_VIA_BNET_ACCOUNT_ID", 0x0482);
  ("CMSG_SERVERTIME", 0x0000);
  ("CMSG_SETDEATHBINDPOINT", 0x0000);
  ("CMSG_SETSHEATHED", 0x4326);
  ("CMSG_SET_ACTIONBAR_TOGGLES", 0x2506);
  ("CMSG_SET_ACTION_BUTTON", 0x0400);
  ("CMSG_SET_ACTIVE_MOVER", 0x0A53);
  ("CMSG_SET_ACTIVE_VOICE_CHANNEL", 0x4305);
  ("CMSG_SET_ALLOW_LOW_LEVEL_RAID1", 0x4435);
  ("CMSG_SET_ALLOW_LOW_LEVEL_RAID2", 0x0536);
  ("CMSG_SET_CHANNEL_WATCH", 0x4517);
  ("CMSG_SET_CONTACT_NOTES", 0x6135);
  ("CMSG_SET_CURRENCY_FLAGS", 0x7306);
  ("CMSG_SET_EVERYONE_IS_ASSISTANT", 0x2530);
  ("CMSG_SET_FACTION_ATWAR", 0x0706);
  ("CMSG_SET_FACTION_CHEAT", 0x0000);
  ("CMSG_SET_FACTION_INACTIVE", 0x0E37);
  ("CMSG_SET_GUILD_BANK_TEXT", 0x3023);
  ("CMSG_SET_LFG_COMMENT", 0x0000);
  ("CMSG_SET_PET_SLOT", 0x3A04);
  ("CMSG_SET_PLAYER_DECLINED_NAMES", 0x0815);
  ("CMSG_SET_PREFERED_CEMETERY", 0x311E);
  ("CMSG_SET_PRIMARY_TALENT_TREE", 0x4524);
  ("CMSG_SET_RELATIVE_POSITION", 0x311A);
  ("CMSG_SET_SAVED_INSTANCE_EXTEND", 0x6706);
  ("CMSG_SET_SELECTION", 0x1759);
  ("CMSG_SET_SKILL_CHEAT", 0x0000);
  ("CMSG_SET_TAXI_BENCHMARK_MODE", 0x4314);
  ("CMSG_SET_TITLE", 0x2117);
  ("CMSG_SET_TRADE_CURRENCY", 0x3312);
  ("CMSG_SET_TRADE_GOLD", 0x3008);
  ("CMSG_SET_TRADE_ITEM", 0x7B0C);
  ("CMSG_SET_VEHICLE_REC_ID_ACK", 0x3108);
  ("CMSG_SET_WATCHED_FACTION", 0x2434);
  ("CMSG_SHOWING_CLOAK", 0x4135);
  ("CMSG_SHOWING_HELM", 0x0735);
  ("CMSG_SOCKET_GEMS", 0x2F04);
  ("CMSG_SPELLCLICK", 0x0805);
  ("CMSG_SPIRIT_HEALER_ACTIVATE", 0x2E26);
  ("CMSG_SPLIT_ITEM", 0x0F17);
  ("CMSG_STANDSTATECHANGE", 0x0535);
  ("CMSG_START_QUEST", 0x0000);
  ("CMSG_STOP_DANCE", 0x2907);
  ("CMSG_STORE_LOOT_IN_SLOT", 0x0000);
  ("CMSG_SUBMIT_BUG", 0x2520);
  ("CMSG_SUBMIT_COMPLAIN", 0x2501);
  ("CMSG_SUGGESTION_SUBMIT", 0x2512);
  ("CMSG_SUMMON_RESPONSE", 0x6F27);
  ("CMSG_SUSPEND_TOKEN", 0x046D);
  ("CMSG_SWAP_INV_ITEM", 0x2614);
  ("CMSG_SWAP_ITEM", 0x6326);
  ("CMSG_SYNC_DANCE", 0x0036);
  ("CMSG_TAXICLEARALLNODES", 0x0000);
  ("CMSG_TAXIENABLEALLNODES", 0x0000);
  ("CMSG_TAXINODE_STATUS_QUERY", 0x2F25);
  ("CMSG_TAXIQUERYAVAILABLENODES", 0x6C06);
  ("CMSG_TAXISHOWNODES", 0x0000);
  ("CMSG_TELEPORT_TO_UNIT", 0x4206);
  ("CMSG_TEXT_EMOTE", 0x1444);
  ("CMSG_TIME_ADJUSTMENT_RESPONSE", 0x215C);
  ("CMSG_TIME_SYNC_RESP", 0x0853);
  ("CMSG_TIME_SYNC_RESP_FAILED", 0x215A);
  ("CMSG_TOGGLE_PVP", 0x6815);
  ("CMSG_TOTEM_DESTROYED", 0x4207);
  ("CMSG_TRAINER_BUY_SPELL", 0x4415);
  ("CMSG_TRAINER_LIST", 0x2336);
  ("CMSG_TRANSMOGRIFY_ITEMS", 0x3B0E);
  ("CMSG_TRIGGER_CINEMATIC_CHEAT", 0x0000);
  ("CMSG_TURN_IN_PETITION", 0x0B27);
  ("CMSG_TUTORIAL_CLEAR", 0x0885);
  ("CMSG_TUTORIAL_FLAG", 0x07AC);
  ("CMSG_TUTORIAL_RESET", 0x2034);
  ("CMSG_UNACCEPT_TRADE", 0x391A);
  ("CMSG_UNLEARN_SKILL", 0x6106);
  ("CMSG_UNLEARN_SPECIALIZATION", 0x3210);
  ("CMSG_UNREGISTER_ALL_ADDON_PREFIXES", 0x3D54);
  ("CMSG_UPDATE_ACCOUNT_DATA", 0x0800);
  ("CMSG_UPDATE_MISSILE_TRAJECTORY", 0x781E);
  ("CMSG_UPDATE_PROJECTILE_POSITION", 0x0E24);
  ("CMSG_USED_FOLLOW", 0x7912);
  ("CMSG_USE_ITEM", 0x2C06);
  ("CMSG_VIOLENCE_LEVEL", 0x054B);
  ("CMSG_VOICE_SESSION_ENABLE", 0x2314);
  ("CMSG_VOID_STORAGE_QUERY", 0x790A);
  ("CMSG_VOID_STORAGE_TRANSFER", 0x380E);
  ("CMSG_VOID_STORAGE_UNLOCK", 0x7B14);
  ("CMSG_VOID_SWAP_ITEM", 0x3204);
  ("CMSG_WARDEN_DATA", 0x2171);
  ("CMSG_WARGAME_ACCEPT", 0x2410);
  ("CMSG_WARGAME_START", 0x05A0);
  ("CMSG_WHO", 0x09E4);
  ("CMSG_WHOIS", 0x0308);
  ("CMSG_WORLD_STATE_UI_TIMER_UPDATE", 0x4605);
  ("CMSG_WORLD_TELEPORT", 0x24B2);
  ("CMSG_WRAP_ITEM", 0x4F06);
  ("CMSG_ZONEUPDATE", 0x2000);
  ("MSG_AUCTION_HELLO", 0x2307);
  ("MSG_CHANNEL_START", 0x0A15);
  ("MSG_CHANNEL_UPDATE", 0x2417);
  ("MSG_CORPSE_QUERY", 0x4336);
  ("MSG_GM_BIND_OTHER", 0x0000);
  ("MSG_GM_SHOWLABEL", 0x0000);
  ("MSG_GM_SUMMON", 0x0000);
  ("MSG_INSPECT_ARENA_TEAMS", 0x2704);
  ("MSG_LIST_STABLED_PETS", 0x0834);
  ("MSG_MINIMAP_PING", 0x6635);
  ("MSG_MOVE_CHARM_TELEPORT_CHEAT", 0x7A08);
  ("MSG_MOVE_FALL_LAND", 0x0CCF);
  ("MSG_MOVE_HEARTBEAT", 0x0E0B);
  ("MSG_MOVE_JUMP", 0x0CCA);
  ("MSG_MOVE_SET_ALL_SPEED_CHEAT", 0x0000);
  ("MSG_MOVE_SET_COLLISION_HEIGHT", 0x0000);
  ("MSG_MOVE_SET_FACING", 0x0886);
  ("MSG_MOVE_SET_FLIGHT_SPEED_CHEAT", 0x0000);
  ("MSG_MOVE_SET_PITCH", 0x0C43);
  ("MSG_MOVE_SET_RAW_POSITION_ACK", 0x0000);
  ("MSG_MOVE_SET_RUN_BACK_SPEED_CHEAT", 0x0000);
  ("MSG_MOVE_SET_RUN_MODE", 0x081F);
  ("MSG_MOVE_SET_RUN_SPEED_CHEAT", 0x0000);
  ("MSG_MOVE_SET_SWIM_BACK_SPEED_CHEAT", 0x0000);
  ("MSG_MOVE_SET_SWIM_SPEED_CHEAT", 0x0000);
  ("MSG_MOVE_SET_TURN_RATE_CHEAT", 0x0000);
  ("MSG_MOVE_SET_WALK_MODE", 0x0856);
  ("MSG_MOVE_SET_WALK_SPEED_CHEAT", 0x0000);
  ("MSG_MOVE_START_ASCEND", 0x089F);
  ("MSG_MOVE_START_BACKWARD", 0x08D2);
  ("MSG_MOVE_START_DESCEND", 0x0893);
  ("MSG_MOVE_START_FORWARD", 0x0A4B);
  ("MSG_MOVE_START_PITCH_DOWN", 0x0A12);
  ("MSG_MOVE_START_PITCH_UP", 0x0C02);
  ("MSG_MOVE_START_STRAFE_LEFT", 0x0816);
  ("MSG_MOVE_START_STRAFE_RIGHT", 0x0843);
  ("MSG_MOVE_START_SWIM", 0x0C13);
  ("MSG_MOVE_START_TURN_LEFT", 0x0A9E);
  ("MSG_MOVE_START_TURN_RIGHT", 0x0A07);
  ("MSG_MOVE_STOP", 0x0813);
  ("MSG_MOVE_STOP_ASCEND", 0x0A47);
  ("MSG_MOVE_STOP_PITCH", 0x0AC7);
  ("MSG_MOVE_STOP_STRAFE", 0x0A4A);
  ("MSG_MOVE_STOP_SWIM", 0x0C93)].

Definition Opcodes_5 : list (string * Z) := [
  ("MSG_MOVE_STOP_TURN", 0x080A);
  ("MSG_MOVE_TELEPORT", 0x0C54);
  ("MSG_MOVE_TELEPORT_ACK", 0x390C);
  ("MSG_MOVE_TELEPORT_CHEAT", 0x3A10);
  ("MSG_MOVE_TIME_SKIPPED", 0x19B3);
  ("MSG_MOVE_TOGGLE_COLLISION_CHEAT", 0x7B04);
  ("MSG_MOVE_TOGGLE_FALL_LOGGING", 0x0000);
  ("MSG_MOVE_TOGGLE_LOGGING", 0x0000);
  ("MSG_MOVE_UPDATE_MOUSE", 0x0000);
  ("MSG_MOVE_WORLDPORT_ACK", 0x2411);
  ("MSG_NOTIFY_PARTY_SQUELCH", 0x4D06);
  ("MSG_PARTY_ASSIGNMENT", 0x0424);
  ("MSG_PETITION_DECLINE", 0x4905);
  ("MSG_PETITION_RENAME", 0x4005);
  ("MSG_PVP_LOG_DATA", 0x0000);
  ("MSG_QUERY_NEXT_MAIL_TIME", 0x0F04);
  ("MSG_QUEST_PUSH_RESULT", 0x4515);
  ("MSG_RAID_READY_CHECK", 0x0DDC);
  ("MSG_RAID_READY_CHECK_CONFIRM", 0x03C9);
  ("MSG_RAID_READY_CHECK_FINISHED", 0x1591);
  ("MSG_RAID_TARGET_UPDATE", 0x2C36);
  ("MSG_RANDOM_ROLL", 0x0905);
  ("MSG_SAVE_GUILD_EMBLEM", 0x2404);
  ("MSG_SET_DUNGEON_DIFFICULTY", 0x4925);
  ("MSG_SET_RAID_DIFFICULTY", 0x0614);
  ("MSG_START_MOVE_FORWARD", 0x0000);
  ("MSG_TABARDVENDOR_ACTIVATE", 0x6926);
  ("MSG_TALENT_WIPE_CONFIRM", 0x0107);
  ("MSG_VERIFY_CONNECTIVITY", 0x4F57);
  ("SMSG_ACCOUNT_DATA_TIMES", 0x0CD1);
  ("SMSG_ACCOUNT_INFO_RESPONSE", 0x0FC9);
  ("SMSG_ACCOUNT_RESTRICTED_WARNING", 0x51A7);
  ("SMSG_ACHIEVEMENT_DELETED", 0x6A16);
  ("SMSG_ACHIEVEMENT_EARNED", 0x029D);
  ("SMSG_ACTION_BUTTONS", 0x019C);
  ("SMSG_ACTIVATETAXIREPLY", 0x6A37);
  ("SMSG_ADDON_INFO", 0x0C80);
  ("SMSG_ADD_RUNE_POWER", 0x6915);
  ("SMSG_AI_REACTION", 0x0637);
  ("SMSG_ALL_ACHIEVEMENT_DATA", 0x12D1);
  ("SMSG_AREA_SPIRIT_HEALER_TIME", 0x0734);
  ("SMSG_AREA_TRIGGER_MESSAGE", 0x4505);
  ("SMSG_AREA_TRIGGER_MOVEMENT_UPDATE", 0x0A91);
  ("SMSG_ARENA_ERROR", 0x2D17);
  ("SMSG_ARENA_UNIT_DESTROYED", 0x2637);
  ("SMSG_ARENA_TEAM_CHANGE_FAILED_QUEUED", 0x6E34);
  ("SMSG_ARENA_TEAM_COMMAND_RESULT", 0x06C1);
  ("SMSG_ARENA_TEAM_EVENT", 0x0617);
  ("SMSG_ARENA_TEAM_INVITE", 0x0F36);
  ("SMSG_ARENA_TEAM_QUERY_RESPONSE", 0x6336);
  ("SMSG_ARENA_TEAM_ROSTER", 0x14C0);
  ("SMSG_ARENA_TEAM_STATS", 0x4425);
  ("SMSG_ATTACKERSTATEUPDATE", 0x05A5);
  ("SMSG_ATTACKSTART", 0x11D5);
  ("SMSG_ATTACKSTOP", 0x0690);
  ("SMSG_ATTACKSWING_BADFACING", 0x0B36);
  ("SMSG_ATTACKSWING_CANT_ATTACK", 0x0016);
  ("SMSG_ATTACKSWING_DEADTARGET", 0x2B26);
  ("SMSG_ATTACKSWING_NOTINRANGE", 0x6C07);
  ("SMSG_AUCTION_BIDDER_LIST_RESULT", 0x0027);
  ("SMSG_AUCTION_BIDDER_NOTIFICATION", 0x4E27);
  ("SMSG_AUCTION_COMMAND_RESULT", 0x4C25);
  ("SMSG_AUCTION_LIST_PENDING_SALES", 0x6A27);
  ("SMSG_AUCTION_LIST_RESULT", 0x6637);
  ("SMSG_AUCTION_OWNER_LIST_RESULT", 0x6C34);
  ("SMSG_AUCTION_OWNER_NOTIFICATION", 0x4116);
  ("SMSG_AUCTION_REMOVED_NOTIFICATION", 0x2334);
  ("SMSG_AURACASTLOG", 0x0000);
  ("SMSG_AURA_POINTS_DEPLETED", 0x7CB7);
  ("SMSG_AURA_UPDATE", 0x036E);
  ("SMSG_AURA_UPDATE_ALL", 0x6916);
  ("SMSG_AUTH_CHALLENGE", 0x0221);
  ("SMSG_AUTH_RESPONSE", 0x0890);
  ("SMSG_AVAILABLE_VOICE_CHANNEL", 0x2E16);
  ("SMSG_AVERAGE_ITEM_LEVEL_INFORM", 0x04C5);
  ("SMSG_BARBER_SHOP_RESULT", 0x6125);
  ("SMSG_BATTLEFIELD_LIST", 0x0ACC);
  ("SMSG_BATTLEFIELD_MGR_EJECTED", 0x0091);
  ("SMSG_BATTLEFIELD_MGR_EJECT_PENDING", 0x0095);
  ("SMSG_BATTLEFIELD_MGR_ENTERED", 0x06D9);
  ("SMSG_BATTLEFIELD_MGR_ENTRY_INVITE", 0x14D8);
  ("SMSG_BATTLEFIELD_MGR_EXIT_REQUEST", 0x05C5);
  ("SMSG_BATTLEFIELD_MGR_QUEUE_INVITE", 0x0485);
  ("SMSG_BATTLEFIELD_MGR_QUEUE_REQUEST_RESPONSE", 0x0D88);
  ("SMSG_BATTLEFIELD_MGR_STATE_CHANGE", 0x09C1);
  ("SMSG_BATTLEFIELD_PLAYER_POSITIONS", 0x03CC);
  ("SMSG_BATTLEFIELD_PORT_DENIED", 0x0F90);
  ("SMSG_BATTLEFIELD_RATED_INFO", 0x079D);
  ("SMSG_BATTLEFIELD_STATUS", 0x7DA1);
  ("SMSG_BATTLEFIELD_STATUS_QUEUED", 0x11D1);
  ("SMSG_BATTLEFIELD_STATUS_ACTIVE", 0x0CD8);
  ("SMSG_BATTLEFIELD_STATUS_NEEDCONFIRMATION", 0x09D5);
  ("SMSG_BATTLEFIELD_STATUS_WAITFORGROUPS", 0x0BDC);
  ("SMSG_BATTLEFIELD_STATUS_FAILED", 0x0798);
  ("SMSG_BATTLEGROUND_INFO_THROTTLED", 0x0D9D);
  ("SMSG_BATTLEGROUND_PLAYER_JOINED", 0x1281);
  ("SMSG_BATTLEGROUND_PLAYER_LEFT", 0x1581);
  ("SMSG_BINDER_CONFIRM", 0x2835);
  ("SMSG_BINDPOINTUPDATE", 0x04CC);
  ("SMSG_BINDZONEREPLY", 0x0000);
  ("SMSG_BREAK_TARGET", 0x0105);
  ("SMSG_BUY_BANK_SLOT_RESULT", 0x0000);
  ("SMSG_BUY_FAILED", 0x0D95);
  ("SMSG_BUY_ITEM", 0x0F26);
  ("SMSG_CALENDAR_ACTION_PENDING", 0x0000);
  ("SMSG_CALENDAR_ARENA_TEAM", 0x0615);
  ("SMSG_CALENDAR_CLEAR_PENDING_ACTION", 0x2106);
  ("SMSG_CALENDAR_COMMAND_RESULT", 0x6F36);
  ("SMSG_CALENDAR_EVENT_INVITE", 0x4E16);
  ("SMSG_CALENDAR_EVENT_INVITE_ALERT", 0x2A05);
  ("SMSG_CALENDAR_EVENT_INVITE_NOTES", 0x0E17);
  ("SMSG_CALENDAR_EVENT_INVITE_NOTES_ALERT", 0x2535);
  ("SMSG_CALENDAR_EVENT_INVITE_REMOVED", 0x0725);
  ("SMSG_CALENDAR_EVENT_INVITE_REMOVED_ALERT", 0x2617);
  ("SMSG_CALENDAR_EVENT_INVITE_STATUS_ALERT", 0x6625);
  ("SMSG_CALENDAR_EVENT_MODERATOR_STATUS_ALERT", 0x6B06);
  ("SMSG_CALENDAR_EVENT_REMOVED_ALERT", 0x6D35);
  ("SMSG_CALENDAR_EVENT_STATUS", 0x2A27);
  ("SMSG_CALENDAR_EVENT_UPDATED_ALERT", 0x0907);
  ("SMSG_CALENDAR_FILTER_GUILD", 0x4A26);
  ("SMSG_CALENDAR_RAID_LOCKOUT_ADDED", 0x2305);
  ("SMSG_CALENDAR_RAID_LOCKOUT_REMOVED", 0x2E25);
  ("SMSG_CALENDAR_RAID_LOCKOUT_UPDATED", 0x4636);
  ("SMSG_CALENDAR_SEND_CALENDAR", 0x6805);
  ("SMSG_CALENDAR_SEND_EVENT", 0x0C35);
  ("SMSG_CALENDAR_SEND_NUM_PENDING", 0x078C);
  ("SMSG_CALENDAR_UPDATE_INVITE_LIST", 0x0000)].

Definition Opcodes_6 : list (string * Z) := [
  ("SMSG_CAMERA_SHAKE", 0x4214);
  ("SMSG_CANCEL_AUTO_REPEAT", 0x6436);
  ("SMSG_CANCEL_COMBAT", 0x0281);
  ("SMSG_CAST_FAILED", 0x1598);
  ("SMSG_CHALLENGE_MODE_COMPLETE", 0x0EC8);
  ("SMSG_CHALLENGE_MODE_REWARDS", 0x0AD8);
  ("SMSG_CHALLENGE_MODE_ALL_MAP_STATS", 0x0784);
  ("SMSG_CHALLENGE_MODE_MAP_STATS_UPDATE", 0x1098);
  ("SMSG_CHALLENGE_MODE_REQUEST_LEADERS", 0x03D4);
  ("SMSG_CHALLENGE_MODE_NEW_PLAYER_RECORD", 0x07C9);
  ("SMSG_CHANNEL_LIST", 0x052C);
  ("SMSG_CHANNEL_MEMBER_COUNT", 0x6414);
  ("SMSG_CHANNEL_NOTIFY", 0x0825);
  ("SMSG_CHARACTER_LOGIN_FAILED", 0x4417);
  ("SMSG_CHAR_CREATE", 0x1495);
  ("SMSG_CHAR_CUSTOMIZE", 0x04E0);
  ("SMSG_CHAR_DELETE", 0x14C1);
  ("SMSG_CHAR_ENUM", 0x0FDD);
  ("SMSG_CHAR_FACTION_CHANGE", 0x4C06);
  ("SMSG_CHAR_RENAME", 0x12C6);
  ("SMSG_CHAT_IGNORED_ACCOUNT_MUTED", 0x02C5);
  ("SMSG_CHAT_NOT_IN_PARTY", 0x6A14);
  ("SMSG_CHAT_PLAYER_AMBIGUOUS", 0x2F34);
  ("SMSG_CHAT_PLAYER_NOT_FOUND", 0x14D1);
  ("SMSG_CHAT_RESTRICTED", 0x099C);
  ("SMSG_CHAT_SERVER_DISCONNECTED", 0x1294);
  ("SMSG_CHAT_SERVER_RECONNECTED", 0x04DD);
  ("SMSG_CHAT_WRONG_FACTION", 0x6724);
  ("SMSG_CHECK_FOR_BOTS", 0x0000);
  ("SMSG_CLEAR_BOSS_EMOTES", 0x1395);
  ("SMSG_CLEAR_COOLDOWN", 0x0627);
  ("SMSG_CLEAR_COOLDOWNS", 0x59B4);
  ("SMSG_CLEAR_FAR_SIGHT_IMMEDIATE", 0x2A04);
  ("SMSG_CLEAR_TARGET", 0x4B26);
  ("SMSG_CLIENTCACHE_VERSION", 0x1489);
  ("SMSG_CLIENT_CONTROL_UPDATE", 0x2837);
  ("SMSG_COMBAT_EVENT_FAILED", 0x2B07);
  ("SMSG_COMBAT_LOG_MULTIPLE", 0x0000);
  ("SMSG_COMMENTATOR_MAP_INFO", 0x0327);
  ("SMSG_COMMENTATOR_PARTY_INFO", 0x38B0);
  ("SMSG_COMMENTATOR_PLAYER_INFO", 0x2F36);
  ("SMSG_COMMENTATOR_SKIRMISH_QUEUE_RESULT1", 0x2126);
  ("SMSG_COMMENTATOR_SKIRMISH_QUEUE_RESULT2", 0x6814);
  ("SMSG_COMMENTATOR_STATE_CHANGED", 0x0737);
  ("SMSG_COMPLAIN_RESULT", 0x6D24);
  ("SMSG_COMPRESSED_MOVES", 0x0517);
  ("SMSG_COMSAT_CONNECT_FAIL", 0x6317);
  ("SMSG_COMSAT_DISCONNECT", 0x0316);
  ("SMSG_COMSAT_RECONNECT_TRY", 0x4D35);
  ("SMSG_CONTACT_LIST", 0x1924);
  ("SMSG_CONVERT_RUNE", 0x4F14);
  ("SMSG_COOLDOWN_CHEAT", 0x4537);
  ("SMSG_COOLDOWN_EVENT", 0x4F26);
  ("SMSG_CORPSE_MAP_POSITION_QUERY_RESPONSE", 0x0E35);
  ("SMSG_CORPSE_NOT_IN_INSTANCE", 0x2A14);
  ("SMSG_CORPSE_RECLAIM_DELAY", 0x13C9);
  ("SMSG_CREATURE_QUERY_RESPONSE", 0x06D8);
  ("SMSG_CRITERIA_DELETED", 0x039C);
  ("SMSG_CRITERIA_UPDATE", 0x05D4);
  ("SMSG_CROSSED_INEBRIATION_THRESHOLD", 0x2036);
  ("SMSG_CURRENCY_LOOT_REMOVED", 0x1DB4);
  ("SMSG_CURRENCY_LOOT_RESTORED", 0x30A0);
  ("SMSG_CUSTOM_LOAD_SCREEN", 0x03DC);
  ("SMSG_DAMAGE_CALC_LOG", 0x2436);
  ("SMSG_DAMAGE_DONE_OBSOLETE", 0x0000);
  ("SMSG_DANCE_QUERY_RESPONSE", 0x2F06);
  ("SMSG_DB_REPLY", 0x00DC);
  ("SMSG_DEATH_RELEASE_LOC", 0x2F07);
  ("SMSG_DEBUG_RUNE_REGEN", 0x0C9C);
  ("SMSG_DEFENSE_MESSAGE", 0x0314);
  ("SMSG_DESTROY_OBJECT", 0x04D1);
  ("SMSG_DESTRUCTIBLE_BUILDING_DAMAGE", 0x4825);
  ("SMSG_DIFFERENT_INSTANCE_FROM_PARTY", 0x0DD5);
  ("SMSG_DISENCHANT_CREDIT", 0x12C9);
  ("SMSG_DISMOUNT", 0x2135);
  ("SMSG_DISMOUNTRESULT", 0x0CC5);
  ("SMSG_DISPEL_FAILED", 0x0307);
  ("SMSG_DISPLAY_GAME_ERROR", 0x07D5);
  ("SMSG_DONT_AUTO_PUSH_SPELLS_TO_ACTION_BAR", 0x0BD9);
  ("SMSG_DROP_NEW_CONNECTION", 0x4D40);
  ("SMSG_DUEL_COMPLETE", 0x2527);
  ("SMSG_DUEL_COUNTDOWN", 0x4836);
  ("SMSG_DUEL_INBOUNDS", 0x0A27);
  ("SMSG_DUEL_OUTOFBOUNDS", 0x0C26);
  ("SMSG_DUEL_REQUESTED", 0x4504);
  ("SMSG_DUEL_WINNER", 0x2D36);
  ("SMSG_DUMP_RIDE_TICKETS_RESPONSE", 0x10D5);
  ("SMSG_DURABILITY_DAMAGE_DEATH", 0x4C27);
  ("SMSG_ECHO_PARTY_SQUELCH", 0x0814);
  ("SMSG_EMOTE", 0x9994);
  ("SMSG_ENABLE_BARBER_SHOP", 0x2D16);
  ("SMSG_ENCHANTMENTLOG", 0x6035);
  ("SMSG_ENVIRONMENTALDAMAGELOG", 0x6C05);
  ("SMSG_EQUIPMENT_SET_LIST", 0x2E04);
  ("SMSG_EQUIPMENT_SET_SAVED", 0x0888);
  ("SMSG_EQUIPMENT_SET_USE_RESULT", 0x12CD);
  ("SMSG_EXPECTED_SPAM_RECORDS", 0x4D36);
  ("SMSG_EXPLORATION_EXPERIENCE", 0x0D84);
  ("SMSG_FAILED_PLAYER_CONDITION", 0x02CD);
  ("SMSG_FEATURE_SYSTEM_STATUS", 0x15D1);
  ("SMSG_FEIGN_DEATH_RESISTED", 0x0D05);
  ("SMSG_FISH_ESCAPED", 0x2205);
  ("SMSG_FISH_NOT_HOOKED", 0x0A17);
  ("SMSG_FLIGHT_SPLINE_SYNC", 0x0924);
  ("SMSG_FLOOD_DETECTED", 0x0542);
  ("SMSG_FORCEACTIONSHOW", 0x0000);
  ("SMSG_FORCED_DEATH_UPDATE", 0x2606);
  ("SMSG_FORCE_DISPLAY_UPDATE", 0x0000);
  ("SMSG_FORCE_SEND_QUEUED_PACKETS", 0x0321);
  ("SMSG_FORCE_SET_VEHICLE_REC_ID", 0x70A1);
  ("SMSG_FORGE_MASTER_SET", 0x70B7);
  ("SMSG_FRIEND_STATUS", 0x0717);
  ("SMSG_GAMEOBJECT_CUSTOM_ANIM", 0x028D);
  ("SMSG_GAMEOBJECT_DESPAWN_ANIM", 0x0981);
  ("SMSG_GAMEOBJECT_PAGETEXT", 0x2925);
  ("SMSG_GAMEOBJECT_QUERY_RESPONSE", 0x0290);
  ("SMSG_GAMEOBJECT_RESET_STATE", 0x2A16);
  ("SMSG_GAMESPEED_SET", 0x4E34);
  ("SMSG_GAMETIME_SET", 0x0650);
  ("SMSG_GAMETIME_UPDATE", 0x0225);
  ("SMSG_GAME_EVENT_DEBUG_LOG", 0x0190);
  ("SMSG_GAME_OBJECT_ACTIVATE_ANIM_KIT", 0x14A3);
  ("SMSG_GMRESPONSE_DB_ERROR", 0x0006);
  ("SMSG_GMRESPONSE_RECEIVED", 0x2E34);
  ("SMSG_GMRESPONSE_STATUS_UPDATE", 0x0A04);
  ("SMSG_GMTICKET_CREATE", 0x2107);
  ("SMSG_GMTICKET_DELETETICKET", 0x6D17);
  ("SMSG_GMTICKET_GETTICKET", 0x2C15);
  ("SMSG_GMTICKET_SYSTEMSTATUS", 0x0D35);
  ("SMSG_GMTICKET_UPDATETEXT", 0x6535);
  ("SMSG_GM_MESSAGECHAT", 0x6434);
  ("SMSG_GM_PLAYER_INFO", 0x4A15);
  ("SMSG_GM_TICKET_STATUS_UPDATE", 0x2C25);
  ("SMSG_GODMODE", 0x0405);
  ("SMSG_GOSSIP_COMPLETE", 0x0806);
  ("SMSG_GOSSIP_MESSAGE", 0x13AD);
  ("SMSG_GOSSIP_POI", 0x15A7);
  ("SMSG_GROUPACTION_THROTTLED", 0x1394);
  ("SMSG_GROUP_CANCEL", 0x4D25);
  ("SMSG_GROUP_DECLINE", 0x6835);
  ("SMSG_GROUP_DESTROYED", 0x2207);
  ("SMSG_GROUP_INVITE", 0x11DD);
  ("SMSG_GROUP_LIST", 0x4C24);
  ("SMSG_GROUP_SET_LEADER", 0x0526);
  ("SMSG_GROUP_SET_ROLE", 0x39A6);
  ("SMSG_GROUP_UNINVITE", 0x0A07);
  ("SMSG_GUILD_ACHIEVEMENT_DATA", 0x54B7);
  ("SMSG_GUILD_ACHIEVEMENT_DELETED", 0x35A0);
  ("SMSG_GUILD_ACHIEVEMENT_EARNED", 0x50B5);
  ("SMSG_GUILD_ACHIEVEMENT_MEMBERS", 0x38A5)].

Definition Opcodes_7 : list (string * Z) := [
  ("SMSG_GUILD_BANK_LIST", 0x78A5);
  ("SMSG_GUILD_BANK_LOG_QUERY_RESULT", 0x30B2);
  ("SMSG_GUILD_BANK_MONEY_WITHDRAWN", 0x5DB4);
  ("SMSG_GUILD_BANK_QUERY_TEXT_RESULT", 0x75A3);
  ("SMSG_GUILD_CANCEL", 0x0000);
  ("SMSG_GUILD_CHALLENGE_COMPLETED", 0x39A3);
  ("SMSG_GUILD_CHALLENGE_UPDATED", 0x18B1);
  ("SMSG_GUILD_CHANGE_NAME_RESULT", 0x3CB1);
  ("SMSG_GUILD_COMMAND_RESULT", 0x7DB3);
  ("SMSG_GUILD_COMMAND_RESULT_2", 0x2707);
  ("SMSG_GUILD_CRITERIA_DATA", 0x14B4);
  ("SMSG_GUILD_CRITERIA_DELETED", 0x55B1);
  ("SMSG_GUILD_DECLINE", 0x2C07);
  ("SMSG_GUILD_EVENT", 0x11CC);
  ("SMSG_GUILD_EVENT_LOG_QUERY_RESULT", 0x10B2);
  ("SMSG_GUILD_FLAGGED_FOR_RENAME", 0x30B6);
  ("SMSG_GUILD_INVITE", 0x14A2);
  ("SMSG_GUILD_INVITE_CANCEL", 0x0606);
  ("SMSG_GUILD_KNOWN_RECIPES", 0x0000);
  ("SMSG_GUILD_MAX_DAILY_XP", 0x79B5);
  ("SMSG_GUILD_MEMBERS_FOR_RECIPE", 0x1CB7);
  ("SMSG_GUILD_MEMBER_DAILY_RESET", 0x10A5);
  ("SMSG_GUILD_MEMBER_RECIPES", 0x1CB0);
  ("SMSG_GUILD_MEMBER_UPDATE_NOTE", 0x7CA0);
  ("SMSG_GUILD_MOVE_COMPLETE", 0x11B2);
  ("SMSG_GUILD_MOVE_STARTING", 0x70A4);
  ("SMSG_GUILD_NEWS_DELETED", 0x74A7);
  ("SMSG_GUILD_NEWS_UPDATE", 0x35A7);
  ("SMSG_GUILD_PARTY_STATE_RESPONSE", 0x50A6);
  ("SMSG_GUILD_PERMISSIONS_QUERY_RESULTS", 0x34A3);
  ("SMSG_GUILD_QUERY_RESPONSE", 0x0E06);
  ("SMSG_GUILD_RANK", 0x30B4);
  ("SMSG_GUILD_RANKS_UPDATE", 0x5DA0);
  ("SMSG_GUILD_RECIPES", 0x10B3);
  ("SMSG_GUILD_RENAMED", 0x74A6);
  ("SMSG_GUILD_REPUTATION_REACTION_CHANGED", 0x74B0);
  ("SMSG_GUILD_REPUTATION_WEEKLY_CAP", 0x1A83);
  ("SMSG_GUILD_RESET", 0x1CB5);
  ("SMSG_GUILD_REWARDS_LIST", 0x1DB0);
  ("SMSG_GUILD_ROSTER", 0x0C0A);
  ("SMSG_GUILD_SET_NOTE", 0x0000);
  ("SMSG_GUILD_TRADESKILL_UPDATE", 0x0000);
  ("SMSG_GUILD_UPDATE_ROSTER", 0x18B0);
  ("SMSG_GUILD_XP", 0x3DB0);
  ("SMSG_GUILD_XP_GAIN", 0x14A1);
  ("SMSG_GUILD_XP_UPDATE", 0x0000);
  ("SMSG_HEALTH_UPDATE", 0x13D8);
  ("SMSG_HIGHEST_THREAT_UPDATE", 0x4104);
  ("SMSG_HOTFIX_INFO", 0x1584);
  ("SMSG_HOTFIX_NOTIFY", 0x0EDC);
  ("SMSG_INITIALIZE_FACTIONS", 0x0598);
  ("SMSG_INITIAL_SPELLS", 0x173F);
  ("SMSG_INIT_CURRENCY", 0x1595);
  ("SMSG_INIT_WORLD_STATES", 0x0FDC);
  ("SMSG_INSPECT", 0x0000);
  ("SMSG_INSPECT_HONOR_STATS", 0x109C);
  ("SMSG_INSPECT_RATED_BG_STATS", 0x1498);
  ("SMSG_INSPECT_RESULTS_UPDATE", 0x0B98);
  ("SMSG_INSPECT_TALENT", 0x4014);
  ("SMSG_INSTANCE_LOCK_WARNING_QUERY", 0x4F17);
  ("SMSG_INSTANCE_RESET", 0x6F05);
  ("SMSG_INSTANCE_RESET_FAILED", 0x4725);
  ("SMSG_INSTANCE_SAVE_CREATED", 0x0124);
  ("SMSG_INVALIDATE_DANCE", 0x0E27);
  ("SMSG_INVALIDATE_PLAYER", 0x0ED5);
  ("SMSG_INVALID_PROMOTION_CODE", 0x6F25);
  ("SMSG_INVENTORY_CHANGE_FAILURE", 0x2236);
  ("SMSG_ITEM_ADD_PASSIVE", 0x1384);
  ("SMSG_ITEM_COOLDOWN", 0x4D14);
  ("SMSG_ITEM_ENCHANT_TIME_UPDATE", 0x0799);
  ("SMSG_ITEM_EXPIRE_PURCHASE_REFUND", 0x0F81);
  ("SMSG_ITEM_PUSH_RESULT", 0x129D);
  ("SMSG_ITEM_REFUND_INFO_RESPONSE", 0x15A3);
  ("SMSG_ITEM_REFUND_RESULT", 0x06C5);
  ("SMSG_ITEM_REMOVE_PASSIVE", 0x1298);
  ("SMSG_ITEM_SEND_PASSIVE", 0x0DDD);
  ("SMSG_ITEM_TEXT_QUERY_RESPONSE", 0x2725);
  ("SMSG_ITEM_TIME_UPDATE", 0x0CC0);
  ("SMSG_JOINED_BATTLEGROUND_QUEUE", 0x0000);
  ("SMSG_KICK_REASON", 0x0000);
  ("SMSG_LEARNED_DANCE_MOVES", 0x0E05);
  ("SMSG_LEARNED_SPELL", 0x058C);
  ("SMSG_LEVELUP_INFO", 0x00CD);
  ("SMSG_LFG_BOOT_PROPOSAL_UPDATE", 0x0F05);
  ("SMSG_LFG_DISABLED", 0x0895);
  ("SMSG_LFG_JOIN_RESULT", 0x0291);
  ("SMSG_LFG_OFFER_CONTINUE", 0x12C4);
  ("SMSG_LFG_OPEN_FROM_GOSSIP", 0x0000);
  ("SMSG_LFG_PARTY_INFO", 0x048D);
  ("SMSG_LFG_PLAYER_INFO", 0x07D9);
  ("SMSG_LFG_PLAYER_REWARD", 0x0E90);
  ("SMSG_LFG_PROPOSAL_UPDATE", 0x12C8);
  ("SMSG_LFG_QUEUE_STATUS", 0x0498);
  ("SMSG_LFG_ROLE_CHECK_UPDATE", 0x08D1);
  ("SMSG_LFG_ROLE_CHOSEN", 0x6A26);
  ("SMSG_LFG_SLOT_INVALID", 0x119D);
  ("SMSG_LFG_TELEPORT_DENIED", 0x049D);
  ("SMSG_LFG_UPDATE_LIST", 0x0000);
  ("SMSG_LFG_UPDATE_SEARCH", 0x54A1);
  ("SMSG_LFG_UPDATE_STATUS", 0x0E98);
  ("SMSG_LFG_UPDATE_STATUS_NONE", 0x0A89);
  ("SMSG_LF_GUILD_APPLICANT_LIST_UPDATED", 0x10A4);
  ("SMSG_LF_GUILD_APPLICATIONS_LIST_CHANGED", 0x71A5);
  ("SMSG_LF_GUILD_BROWSE_UPDATED", 0x1DA3);
  ("SMSG_LF_GUILD_COMMAND_RESULT", 0x54A6);
  ("SMSG_LF_GUILD_MEMBERSHIP_LIST_UPDATED", 0x1CA5);
  ("SMSG_LF_GUILD_POST_UPDATED", 0x35B7);
  ("SMSG_LF_GUILD_RECRUIT_LIST_UPDATED", 0x1CB2);
  ("SMSG_LIST_INVENTORY", 0x7CB0);
  ("SMSG_LOAD_CUF_PROFILES", 0x09CC);
  ("SMSG_LOGIN_SETTIMESPEED", 0x0C8D);
  ("SMSG_LOGIN_VERIFY_WORLD", 0x0434);
  ("SMSG_LOGOUT_CANCEL_ACK", 0x05D5);
  ("SMSG_LOGOUT_COMPLETE", 0x15C9);
  ("SMSG_LOGOUT_RESPONSE", 0x14D5);
  ("SMSG_LOG_XPGAIN", 0x09CD);
  ("SMSG_LOOT_ALL_PASSED", 0x0DC1);
  ("SMSG_LOOT_CLEAR_MONEY", 0x2B37);
  ("SMSG_LOOT_CONTENTS", 0x0580);
  ("SMSG_LOOT_ITEM_NOTIFY", 0x6D15);
  ("SMSG_LOOT_LIST", 0x1199);
  ("SMSG_LOOT_MASTER_LIST", 0x0994);
  ("SMSG_LOOT_MONEY_NOTIFY", 0x0180);
  ("SMSG_LOOT_RELEASE_RESPONSE", 0x12C1);
  ("SMSG_LOOT_REMOVED", 0x0E8C);
  ("SMSG_LOOT_RESPONSE", 0x08CD);
  ("SMSG_LOOT_ROLL", 0x158C);
  ("SMSG_LOOT_ROLL_WON", 0x0985);
  ("SMSG_LOOT_SLOT_CHANGED", 0x2935);
  ("SMSG_LOOT_START_ROLL", 0x10C8);
  ("SMSG_MAIL_LIST_RESULT", 0x4217);
  ("SMSG_MAP_OBJ_EVENTS", 0x0A84);
  ("SMSG_MEETINGSTONE_COMPLETE", 0x2524);
  ("SMSG_MEETINGSTONE_IN_PROGRESS", 0x2D35);
  ("SMSG_MEETINGSTONE_MEMBER_ADDED", 0x0000);
  ("SMSG_MEETINGSTONE_SETQUEUE", 0x0000);
  ("SMSG_MESSAGECHAT", 0x0699);
  ("SMSG_MESSAGE_BOX", 0x14D9);
  ("SMSG_MINIGAME_SETUP", 0x6727);
  ("SMSG_MINIGAME_STATE", 0x2E17);
  ("SMSG_MIRRORIMAGE_DATA", 0x2634);
  ("SMSG_MISSILE_CANCEL", 0x03CD);
  ("SMSG_MODIFY_COOLDOWN", 0x6016);
  ("SMSG_MONEY_NOTIFY", 0x0DCC);
  ("SMSG_MONSTER_MOVE", 0x114C);
  ("SMSG_MONSTER_MOVE_TRANSPORT", 0x2004);
  ("SMSG_MOTD", 0x12DC);
  ("SMSG_MOUNTRESULT", 0x15D0);
  ("SMSG_MOUNTSPECIAL_ANIM", 0x0217);
  ("SMSG_MOVE_COLLISION_DISABLE", 0x31B0)].

Definition Opcodes_8 : list (string * Z) := [
  ("SMSG_MOVE_COLLISION_ENABLE", 0x11A7);
  ("SMSG_MOVE_FEATHER_FALL", 0x79B0);
  ("SMSG_MOVE_GRAVITY_DISABLE", 0x75B2);
  ("SMSG_MOVE_GRAVITY_ENABLE", 0x30B3);
  ("SMSG_MOVE_KNOCK_BACK", 0x5CB4);
  ("SMSG_MOVE_LAND_WALK", 0x34B7);
  ("SMSG_MOVE_NORMAL_FALL", 0x51B6);
  ("SMSG_MOVE_ROOT", 0x7DA0);
  ("SMSG_MOVE_SET_ACTIVE_MOVER", 0x11B3);
  ("SMSG_MOVE_SET_CAN_FLY", 0x0F48);
  ("SMSG_MOVE_SET_CAN_TRANSITION_BETWEEN_SWIM_AND_FLY", 0x59A2);
  ("SMSG_MOVE_SET_COLLISION_HEIGHT", 0x11B0);
  ("SMSG_MOVE_SET_COMPOUND_STATE", 0x75A0);
  ("SMSG_MOVE_SET_FLIGHT_BACK_SPEED", 0x30A2);
  ("SMSG_MOVE_SET_FLIGHT_SPEED", 0x0E54);
  ("SMSG_MOVE_SET_HOVER", 0x5CB3);
  ("SMSG_MOVE_SET_PITCH_RATE", 0x75B0);
  ("SMSG_MOVE_SET_RUN_BACK_SPEED", 0x71B1);
  ("SMSG_MOVE_SET_RUN_SPEED", 0x0758);
  ("SMSG_MOVE_SET_SWIM_BACK_SPEED", 0x5CA6);
  ("SMSG_MOVE_SET_SWIM_SPEED", 0x0905);
  ("SMSG_MOVE_SET_TURN_RATE", 0x30A5);
  ("SMSG_MOVE_SET_VEHICLE_REC_ID", 0x0000);
  ("SMSG_MOVE_SET_WALK_IN_AIR", 0x0000);
  ("SMSG_MOVE_SET_WALK_SPEED", 0x051D);
  ("SMSG_MOVE_UNROOT", 0x7DB4);
  ("SMSG_MOVE_UNSET_CAN_FLY", 0x034D);
  ("SMSG_MOVE_UNSET_CAN_TRANSITION_BETWEEN_SWIM_AND_FLY", 0x7DB2);
  ("SMSG_MOVE_UNSET_HOVER", 0x51B3);
  ("SMSG_MOVE_UNSET_WALK_IN_AIR", 0x0000);
  ("SMSG_MOVE_UPDATE_COLLISION_HEIGHT", 0x59A3);
  ("SMSG_MOVE_UPDATE_FLIGHT_BACK_SPEED", 0x74A0);
  ("SMSG_MOVE_UPDATE_FLIGHT_SPEED", 0x30B1);
  ("SMSG_MOVE_UPDATE_KNOCK_BACK", 0x3DB2);
  ("SMSG_MOVE_UPDATE_PITCH_RATE", 0x1DB5);
  ("SMSG_MOVE_UPDATE_RUN_BACK_SPEED", 0x3DA6);
  ("SMSG_MOVE_UPDATE_RUN_SPEED", 0x14A6);
  ("SMSG_MOVE_UPDATE_SWIM_BACK_SPEED", 0x30B5);
  ("SMSG_MOVE_UPDATE_SWIM_SPEED", 0x59B5);
  ("SMSG_MOVE_UPDATE_TELEPORT", 0x50B2);
  ("SMSG_MOVE_UPDATE_TURN_RATE", 0x5DA1);
  ("SMSG_MOVE_UPDATE_WALK_SPEED", 0x54A2);
  ("SMSG_MOVE_WATER_WALK", 0x75B1);
  ("SMSG_MULTIPLE_PACKETS", 0x6736);
  ("SMSG_NAME_QUERY_RESPONSE", 0x0BD0);
  ("SMSG_NEW_TAXI_PATH", 0x4B35);
  ("SMSG_NEW_WORLD", 0x04D9);
  ("SMSG_NEW_WORLD_ABORT", 0x0399);
  ("SMSG_NOTIFICATION", 0x14A0);
  ("SMSG_NOTIFY_DANCE", 0x4904);
  ("SMSG_NOTIFY_DEST_LOC_SPELL_CAST", 0x6204);
  ("SMSG_NPC_TEXT_UPDATE", 0x4436);
  ("SMSG_NPC_WONT_TALK", 0x0000);
  ("SMSG_OFFER_PETITION_ERROR", 0x2716);
  ("SMSG_ON_CANCEL_EXPECTED_RIDE_VEHICLE_AURA", 0x4D34);
  ("SMSG_OPEN_CONTAINER", 0x4714);
  ("SMSG_OPEN_LFG_DUNGEON_FINDER", 0x2C37);
  ("SMSG_OVERRIDE_LIGHT", 0x4225);
  ("SMSG_PAGE_TEXT_QUERY_RESPONSE", 0x0384);
  ("SMSG_PARTYKILLLOG", 0x4937);
  ("SMSG_PARTY_COMMAND_RESULT", 0x6E07);
  ("SMSG_PARTY_MEMBER_STATS", 0x2104);
  ("SMSG_PARTY_MEMBER_STATS_FULL", 0x0215);
  ("SMSG_PAUSE_MIRROR_TIMER", 0x4015);
  ("SMSG_PERIODICAURALOG", 0x0416);
  ("SMSG_PETGODMODE", 0x2E36);
  ("SMSG_PETITION_ALREADY_SIGNED", 0x10CD);
  ("SMSG_PETITION_QUERY_RESPONSE", 0x4B37);
  ("SMSG_PETITION_SHOWLIST", 0x6405);
  ("SMSG_PETITION_SHOW_SIGNATURES", 0x0716);
  ("SMSG_PETITION_SIGN_RESULTS", 0x6217);
  ("SMSG_PET_ACTION_FEEDBACK", 0x08C4);
  ("SMSG_PET_ACTION_SOUND", 0x13D1);
  ("SMSG_PET_ADDED", 0x0DD4);
  ("SMSG_PET_BROKEN", 0x2E27);
  ("SMSG_PET_CAST_FAILED", 0x01D9);
  ("SMSG_PET_DISMISS_SOUND", 0x0ED1);
  ("SMSG_PET_GUIDS", 0x15CD);
  ("SMSG_PET_LEARNED_SPELL", 0x1594);
  ("SMSG_PET_MODE", 0x0085);
  ("SMSG_PET_NAME_INVALID", 0x0380);
  ("SMSG_PET_NAME_QUERY_RESPONSE", 0x0198);
  ("SMSG_PET_REMOVED_SPELL", 0x0F9D);
  ("SMSG_PET_RENAMEABLE", 0x2B27);
  ("SMSG_PET_SLOT_UPDATED", 0x03C0);
  ("SMSG_PET_SPELLS", 0x4114);
  ("SMSG_PET_TAME_FAILURE", 0x0689);
  ("SMSG_PET_UPDATE_COMBO_POINTS", 0x4325);
  ("SMSG_PLAYED_TIME", 0x0995);
  ("SMSG_PLAYERBINDERROR", 0x6A24);
  ("SMSG_PLAYERBOUND", 0x12DD);
  ("SMSG_PLAYER_DIFFICULTY_CHANGE", 0x2217);
  ("SMSG_PLAYER_MOVE", 0x1109);
  ("SMSG_PLAYER_SKINNED", 0x0116);
  ("SMSG_PLAYER_UNK_DEAD_ALIVE", 0x0000);
  ("SMSG_PLAYER_VEHICLE_DATA", 0x4115);
  ("SMSG_PLAY_DANCE", 0x4704);
  ("SMSG_PLAY_MUSIC", 0x4B06);
  ("SMSG_PLAY_OBJECT_SOUND", 0x2635);
  ("SMSG_PLAY_ONE_SHOT_ANIM_KIT", 0x4A35);
  ("SMSG_PLAY_SOUND", 0x2134);
  ("SMSG_PLAY_SPELL_VISUAL", 0x07D0);
  ("SMSG_PLAY_SPELL_VISUAL_KIT", 0x01C1);
  ("SMSG_PLAY_TIME_WARNING", 0x4814);
  ("SMSG_PONG", 0x1121);
  ("SMSG_POWER_UPDATE", 0x0DC5);
  ("SMSG_PRE_RESURRECT", 0x6C36);
  ("SMSG_PROCRESIST", 0x0426);
  ("SMSG_PROPOSE_LEVEL_GRANT", 0x6114);
  ("SMSG_PUREMOUNT_CANCELLED_OBSOLETE", 0x0000);
  ("SMSG_PVP_CREDIT", 0x6015);
  ("SMSG_PVP_LOG_DATA", 0x0795);
  ("SMSG_PVP_OPTIONS_ENABLED", 0x0381);
  ("SMSG_QUERY_QUESTS_COMPLETED_RESPONSE", 0x6314);
  ("SMSG_QUERY_TIME_RESPONSE", 0x0F91);
  ("SMSG_QUESTGIVER_OFFER_REWARD", 0x2427);
  ("SMSG_QUESTGIVER_QUEST_COMPLETE", 0x55A4);
  ("SMSG_QUESTGIVER_QUEST_DETAILS", 0x03ED);
  ("SMSG_QUESTGIVER_QUEST_FAILED", 0x4236);
  ("SMSG_QUESTGIVER_QUEST_INVALID", 0x4016);
  ("SMSG_QUESTGIVER_QUEST_LIST", 0x0134);
  ("SMSG_QUESTGIVER_REQUEST_ITEMS", 0x07F4);
  ("SMSG_QUESTGIVER_STATUS", 0x2115);
  ("SMSG_QUESTGIVER_STATUS_MULTIPLE", 0x4F25);
  ("SMSG_QUESTLOG_FULL", 0x0E36);
  ("SMSG_QUESTUPDATE_ADD_ITEM", 0x0000);
  ("SMSG_QUESTUPDATE_ADD_KILL", 0x0D27);
  ("SMSG_QUESTUPDATE_ADD_PVP_KILL", 0x4416);
  ("SMSG_QUESTUPDATE_COMPLETE", 0x2937);
  ("SMSG_QUESTUPDATE_FAILED", 0x6324);
  ("SMSG_QUESTUPDATE_FAILEDTIMER", 0x6427);
  ("SMSG_QUEST_NPC_QUERY_RESPONSE", 0x75A1);
  ("SMSG_QUEST_CONFIRM_ACCEPT", 0x6F07);
  ("SMSG_QUEST_FORCE_REMOVE", 0x6605);
  ("SMSG_QUEST_POI_QUERY_RESPONSE", 0x6304);
  ("SMSG_QUEST_QUERY_RESPONSE", 0x13BF);
  ("SMSG_RAID_GROUP_ONLY", 0x0837);
  ("SMSG_RAID_INSTANCE_INFO", 0x6626);
  ("SMSG_RAID_INSTANCE_MESSAGE", 0x6E15);
  ("SMSG_RAID_MARKERS_CHANGED", 0x0595);
  ("SMSG_RAID_READY_CHECK_THROTTLED_ERROR", 0x2607);
  ("SMSG_RAID_SUMMON_FAILED", 0x18B6);
  ("SMSG_RANDOMIZE_CHAR_NAME", 0x0AD9);
  ("SMSG_RATED_BG_RATING", 0x15A1);
  ("SMSG_RATED_BG_STATS", 0x0394);
  ("SMSG_READ_ITEM_FAILED", 0x0F16);
  ("SMSG_READ_ITEM_OK", 0x2605);
  ("SMSG_REALM_SPLIT", 0x0F89);
  ("SMSG_REALM_QUERY", 0x10CC);
  ("SMSG_REAL_GROUP_UPDATE", 0x0F34)].

Definition Opcodes_9 : list (string * Z) := [
  ("SMSG_RECEIVED_MAIL", 0x2924);
  ("SMSG_REDIRECT_CLIENT", 0x0328);
  ("SMSG_REFER_A_FRIEND_EXPIRED", 0x4934);
  ("SMSG_REFER_A_FRIEND_FAILURE", 0x2037);
  ("SMSG_REFORGE_RESULT", 0x03D5);
  ("SMSG_REMOVED_SPELL", 0x02D9);
  ("SMSG_REPORT_PVP_AFK_RESULT", 0x2D06);
  ("SMSG_REQUEST_CEMETERY_LIST_RESPONSE", 0x1389);
  ("SMSG_REQUEST_PVP_REWARDS_RESPONSE", 0x0389);
  ("SMSG_RESEARCH_COMPLETE", 0x35A6);
  ("SMSG_RESEARCH_SETUP_HISTORY", 0x10B6);
  ("SMSG_RESET_COMPRESSION_CONTEXT", 0x0142);
  ("SMSG_RESET_FAILED_NOTIFY", 0x4616);
  ("SMSG_RESISTLOG", 0x0000);
  ("SMSG_RESPOND_INSPECT_ACHIEVEMENTS", 0x0DD1);
  ("SMSG_RESURRECT_REQUEST", 0x0FD0);
  ("SMSG_RESYNC_RUNES", 0x6224);
  ("SMSG_ROLE_POLL_BEGIN", 0x0CDC);
  ("SMSG_RWHOIS", 0x2437);
  ("SMSG_SELL_ITEM", 0x6105);
  ("SMSG_SCENARIO_STATE", 0x009C);
  ("SMSG_SCENARIO_POIS", 0x0C88);
  ("SMSG_SCENARIO_PROGRESS_UPDATE", 0x0295);
  ("SMSG_SEND_MAIL_RESULT", 0x4927);
  ("SMSG_SEND_UNLEARN_SPELLS", 0x4E25);
  ("SMSG_SERVERTIME", 0x0789);
  ("SMSG_SERVER_FIRST_ACHIEVEMENT", 0x6424);
  ("SMSG_SERVER_INFO_RESPONSE", 0x0ED4);
  ("SMSG_SERVER_MESSAGE", 0x6C04);
  ("SMSG_SERVER_PERF", 0x74B6);
  ("SMSG_SET_AI_ANIM_KIT", 0x0000);
  ("SMSG_SET_DF_FAST_LAUNCH_RESULT", 0x01C0);
  ("SMSG_SET_FACTION_ATWAR", 0x4216);
  ("SMSG_SET_FACTION_STANDING", 0x0126);
  ("SMSG_SET_FACTION_VISIBLE", 0x2525);
  ("SMSG_SET_FLAT_SPELL_MODIFIER", 0x2834);
  ("SMSG_SET_FORCED_REACTIONS", 0x069D);
  ("SMSG_SET_MELEE_ANIM_KIT", 0x0000);
  ("SMSG_SET_MOVEMENT_ANIM_KIT", 0x0000);
  ("SMSG_SET_PCT_SPELL_MODIFIER", 0x0224);
  ("SMSG_SET_PHASE_SHIFT", 0x0BD4);
  ("SMSG_SET_PLAYER_DECLINED_NAMES_RESULT", 0x08CC);
  ("SMSG_SET_PLAY_HOVER_ANIM", 0x0A80);
  ("SMSG_SET_PROFICIENCY", 0x00C1);
  ("SMSG_SET_PROJECTILE_POSITION", 0x2616);
  ("SMSG_SHOWTAXINODES", 0x2A36);
  ("SMSG_SHOW_BANK", 0x01C4);
  ("SMSG_SHOW_RATINGS", 0x0A85);
  ("SMSG_SOCKET_GEMS_RESULT", 0x6014);
  ("SMSG_SOR_START_EXPERIENCE_INCOMPLETE", 0x11DC);
  ("SMSG_SPELLBREAKLOG", 0x6B17);
  ("SMSG_SPELLDAMAGESHIELD", 0x2927);
  ("SMSG_SPELLDISPELLOG", 0x4516);
  ("SMSG_SPELLENERGIZELOG", 0x0414);
  ("SMSG_SPELLHEALLOG", 0x2816);
  ("SMSG_SPELLINSTAKILLLOG", 0x6216);
  ("SMSG_SPELLINTERRUPTLOG", 0x1DA7);
  ("SMSG_SPELLLOGEXECUTE", 0x0626);
  ("SMSG_SPELLLOGMISS", 0x0625);
  ("SMSG_SPELLNONMELEEDAMAGELOG", 0x4315);
  ("SMSG_SPELLORDAMAGE_IMMUNE", 0x4507);
  ("SMSG_SPELLSTEALLOG", 0x4E26);
  ("SMSG_SPELL_CATEGORY_COOLDOWN", 0x71B6);
  ("SMSG_SPELL_COOLDOWN", 0x4B16);
  ("SMSG_SPELL_DELAYED", 0x0715);
  ("SMSG_SPELL_FAILED_OTHER", 0x0C34);
  ("SMSG_SPELL_FAILURE", 0x108C);
  ("SMSG_SPELL_GO", 0x0765);
  ("SMSG_SPELL_START", 0x1675);
  ("SMSG_SPELL_UPDATE_CHAIN_TARGETS", 0x6006);
  ("SMSG_SPIRIT_HEALER_CONFIRM", 0x4917);
  ("SMSG_SPLINE_MOVE_COLLISION_DISABLE", 0x35B1);
  ("SMSG_SPLINE_MOVE_COLLISION_ENABLE", 0x3CB0);
  ("SMSG_SPLINE_MOVE_GRAVITY_DISABLE", 0x5DB5);
  ("SMSG_SPLINE_MOVE_GRAVITY_ENABLE", 0x3CA6);
  ("SMSG_SPLINE_MOVE_ROOT", 0x51B4);
  ("SMSG_SPLINE_MOVE_SET_ANIM", 0x4335);
  ("SMSG_SPLINE_MOVE_SET_FEATHER_FALL", 0x3DA5);
  ("SMSG_SPLINE_MOVE_SET_FLIGHT_BACK_SPEED", 0x38B3);
  ("SMSG_SPLINE_MOVE_SET_FLIGHT_SPEED", 0x39A0);
  ("SMSG_SPLINE_MOVE_SET_FLYING", 0x31B5);
  ("SMSG_SPLINE_MOVE_SET_HOVER", 0x14B6);
  ("SMSG_SPLINE_MOVE_SET_LAND_WALK", 0x3DA7);
  ("SMSG_SPLINE_MOVE_SET_NORMAL_FALL", 0x38B2);
  ("SMSG_SPLINE_MOVE_SET_PITCH_RATE", 0x14B0);
  ("SMSG_SPLINE_MOVE_SET_RUN_BACK_SPEED", 0x3DB3);
  ("SMSG_SPLINE_MOVE_SET_RUN_MODE", 0x75A7);
  ("SMSG_SPLINE_MOVE_SET_RUN_SPEED", 0x51B7);
  ("SMSG_SPLINE_MOVE_SET_SWIM_BACK_SPEED", 0x59A1);
  ("SMSG_SPLINE_MOVE_SET_SWIM_SPEED", 0x39A4);
  ("SMSG_SPLINE_MOVE_SET_TURN_RATE", 0x78B5);
  ("SMSG_SPLINE_MOVE_SET_WALK_MODE", 0x54B6);
  ("SMSG_SPLINE_MOVE_SET_WALK_SPEED", 0x34A5);
  ("SMSG_SPLINE_MOVE_SET_WATER_WALK", 0x50A2);
  ("SMSG_SPLINE_MOVE_START_SWIM", 0x31A5);
  ("SMSG_SPLINE_MOVE_STOP_SWIM", 0x1DA2);
  ("SMSG_SPLINE_MOVE_UNROOT", 0x75B6);
  ("SMSG_SPLINE_MOVE_UNSET_FLYING", 0x58A6);
  ("SMSG_SPLINE_MOVE_UNSET_HOVER", 0x7DA5);
  ("SMSG_SPLINE_MOVE_WATER_WALK", 0x50A2);
  ("SMSG_STABLE_RESULT", 0x118D);
  ("SMSG_STANDSTATE_UPDATE", 0x6F04);
  ("SMSG_START_MIRROR_TIMER", 0x6824);
  ("SMSG_START_TIMER", 0x0988);
  ("SMSG_STOP_DANCE", 0x4637);
  ("SMSG_STOP_MIRROR_TIMER", 0x0B06);
  ("SMSG_STREAMING_MOVIE", 0x0989);
  ("SMSG_SUMMON_CANCEL", 0x0B34);
  ("SMSG_SUMMON_REQUEST", 0x079C);
  ("SMSG_SUPERCEDED_SPELL", 0x0F99);
  ("SMSG_SUPPRESS_NPC_GREETINGS", 0x0F85);
  ("SMSG_SUSPEND_COMMS", 0x4140);
  ("SMSG_SUSPEND_TOKEN_RESPONSE", 0x03DD);
  ("SMSG_TALENTS_ERROR", 0x0916);
  ("SMSG_TALENTS_INFO", 0x6F26);
  ("SMSG_TALENTS_INVOLUNTARILY_RESET", 0x2C27);
  ("SMSG_TAXINODE_STATUS", 0x2936);
  ("SMSG_TEST_DROP_RATE_RESULT", 0x6816);
  ("SMSG_TEXT_EMOTE", 0x1185);
  ("SMSG_THREAT_CLEAR", 0x0199);
  ("SMSG_THREAT_REMOVE", 0x0EC0);
  ("SMSG_THREAT_UPDATE", 0x1080);
  ("SMSG_TIME_ADJUSTMENT", 0x159C);
  ("SMSG_TIME_SYNC_REQ", 0x0AD4);
  ("SMSG_TITLE_EARNED", 0x02D0);
  ("SMSG_TOGGLE_XP_GAIN", 0x6704);
  ("SMSG_TOTEM_CREATED", 0x2414);
  ("SMSG_TRADE_STATUS", 0x0DC0);
  ("SMSG_TRADE_STATUS_EXTENDED", 0x70A2);
  ("SMSG_TRAINER_BUY_FAILED", 0x08C5);
  ("SMSG_TRAINER_BUY_SUCCEEDED", 0x6A05);
  ("SMSG_TRAINER_LIST", 0x08C9);
  ("SMSG_TRANSFER_ABORTED", 0x0537);
  ("SMSG_TRANSFER_PENDING", 0x13CD);
  ("SMSG_TRIGGER_CINEMATIC", 0x15BE);
  ("SMSG_TRIGGER_MOVIE", 0x1198);
  ("SMSG_TURN_IN_PETITION_RESULTS", 0x0F07);
  ("SMSG_TUTORIAL_FLAGS", 0x0D7E);
  ("SMSG_UNIT_HEALTH_FREQUENT", 0x2C26);
  ("SMSG_UNIT_SPELLCAST_START", 0x2517);
  ("SMSG_UPDATE_ACCOUNT_DATA", 0x0684);
  ("SMSG_UPDATE_ACCOUNT_DATA_COMPLETE", 0x0000);
  ("SMSG_UPDATE_COMBO_POINTS", 0x6B34);
  ("SMSG_UPDATE_CURRENCY", 0x0000);
  ("SMSG_UPDATE_CURRENCY_WEEK_LIMIT", 0x70A7);
  ("SMSG_UPDATE_DUNGEON_ENCOUNTER_FOR_LOOT", 0x03D9);
  ("SMSG_UPDATE_INSTANCE_ENCOUNTER_UNIT", 0x4007);
  ("SMSG_UPDATE_INSTANCE_OWNERSHIP", 0x4915);
  ("SMSG_UPDATE_LAST_INSTANCE", 0x0437);
  ("SMSG_UPDATE_OBJECT", 0x0C65)].

Definition Opcodes_10 : list (string * Z) := [
  ("SMSG_UPDATE_SERVER_PLAYER_POSITION", 0x0E84);
  ("SMSG_UPDATE_WORLD_STATE", 0x13C8);
  ("SMSG_USERLIST_ADD", 0x13C5);
  ("SMSG_USERLIST_REMOVE", 0x0899);
  ("SMSG_USERLIST_UPDATE", 0x0AC5);
  ("SMSG_VOICESESSION_FULL", 0x6225);
  ("SMSG_VOICE_CHAT_STATUS", 0x07DC);
  ("SMSG_VOICE_PARENTAL_CONTROLS", 0x0CC9);
  ("SMSG_VOICE_SESSION_LEAVE", 0x08D0);
  ("SMSG_VOICE_SESSION_ROSTER_UPDATE", 0x1291);
  ("SMSG_VOICE_SET_TALKER_MUTED", 0x6E35);
  ("SMSG_VOID_ITEM_SWAP_RESPONSE", 0x78A2);
  ("SMSG_VOID_STORAGE_CONTENTS", 0x0F9C);
  ("SMSG_VOID_STORAGE_FAILED", 0x078D);
  ("SMSG_VOID_STORAGE_TRANSFER_CHANGES", 0x06C9);
  ("SMSG_VOID_TRANSFER_RESULT", 0x05C9);
  ("SMSG_WAIT_QUEUE_FINISH", 0x06C8);
  ("SMSG_WAIT_QUEUE_UPDATE", 0x05D1);
  ("SMSG_WARDEN_DATA", 0x12D9);
  ("SMSG_WARGAME_CHECK_ENTRY", 0x3DA4);
  ("SMSG_WARGAME_REQUEST_SENT", 0x0E85);
  ("SMSG_WEATHER", 0x1391);
  ("SMSG_WEEKLY_LAST_RESET", 0x01D4);
  ("SMSG_WEEKLY_RESET_CURRENCY", 0x3CA1);
  ("SMSG_WEEKLY_SPELL_USAGE", 0x39B7);
  ("SMSG_WEEKLY_SPELL_USAGE_UPDATE", 0x11B5);
  ("SMSG_WHO", 0x11C0);
  ("SMSG_WHOIS", 0x0D89);
  ("SMSG_WORLD_SERVER_INFO", 0x1091);
  ("SMSG_WORLD_STATE_UI_TIMER_UPDATE", 0x4A14);
  ("SMSG_XP_GAIN_ABORTED", 0x1188);
  ("SMSG_ZONE_UNDER_ATTACK", 0x053F)].

Definition Opcodes : list (string * Z) :=
  Opcodes_1 ++ Opcodes_2 ++ Opcodes_3 ++ Opcodes_4 ++ Opcodes_5 ++ Opcodes_6 ++ Opcodes_7 ++ Opcodes_8 ++ Opcodes_9 ++ Opcodes_10.

(** The value of an enumerator; all names in the code are declared. *)
Fixpoint find_name {A} (l : list (string * A)) (name : string) : option A :=
  match l with
  | [] => None
  | (n, a) :: l' => if String.eqb n name then Some a else find_name l' name
  end.

Definition opcode (name : string) : Z := default (-1) (find_name Opcodes name).

Definition NUM_OPCODE_HANDLERS : Z := 0x7FFF + 1.
Definition UNKNOWN_OPCODE : Z := 0xFFFF + 1.
Definition NULL_OPCODE : Z := 0.
Definition COMPRESSED_OPCODE_MASK : Z := 0x8000.

(** ** The statements of [OpcodeTable::Initialize] *)

Definition Initialize_1 : list row := [
  DEFINE_OPCODE_HANDLER "CMSG_ACCEPT_LEVEL_GRANT" STATUS_LOGGEDIN PROCESS_THREADUNSAFE "HandleAcceptGrantLevel";
  DEFINE_OPCODE_HANDLER "CMSG_ACCEPT_TRADE" STATUS_LOGGEDIN PROCESS_THREADUNSAFE "HandleAcceptTradeOpcode";
  DEFINE_OPCODE_HANDLER "CMSG_ACTIVATETAXI" STATUS_LOGGEDIN PROCESS_THREADSAFE "HandleActivateTaxiOpcode";
  DEFINE_OPCODE_HANDLER "CMSG_ACTIVATETAXIEXPRESS" STATUS_LOGGEDIN PROCESS_THREADSAFE "HandleActivateTaxiExpressOpcode";
  DEFINE_OPCODE_HANDLER "CMSG_ADDON_REGISTERED_PREFIXES" STATUS_LOGGEDIN PROCESS_THREADUNSAFE "HandleAddonRegisteredPrefixesOpcode";
  DEFINE_OPCODE_HANDLER "CMSG_ADD_FRIEND" STATUS_LOGGEDIN PROCESS_THREADUNSAFE "HandleAddFriendOpcode";
  DEFINE_OPCODE_HANDLER "CMSG_ADD_IGNORE" STATUS_LOGGEDIN PROCESS_THREADUNSAFE "HandleAddIgnoreOpcode";
  DEFINE_OPCODE_HANDLER "CMSG_ADD_VOICE_IGNORE" STATUS_UNHANDLED PROCESS_INPLACE "Handle_NULL";
  DEFINE_OPCODE_HANDLER "CMSG_ALTER_APPEARANCE" STATUS_LOGGEDIN PROCESS_THREADUNSAFE "HandleAlterAppearance";
  DEFINE_OPCODE_HANDLER "CMSG_AREATRIGGER" STATUS_LOGGEDIN PROCESS_THREADUNSAFE "HandleAreaTriggerOpcode";
  DEFINE_OPCODE_HANDLER "CMSG_AREA_SPIRIT_HEALER_QUERY" STATUS_LOGGEDIN PROCESS_THREADUNSAFE "HandleAreaSpiritHealerQueryOpcode";
  DEFINE_OPCODE_HANDLER "CMSG_AREA_SPIRIT_HEALER_QUEUE" STATUS_LOGGEDIN PROCESS_THREADUNSAFE "HandleAreaSpiritHealerQueueOpcode";
  DEFINE_OPCODE_HANDLER "CMSG_ARENA_TEAM_ACCEPT" STATUS_LOGGEDIN PROCESS_THREADUNSAFE "HandleArenaTeamAcceptOpcode";
  DEFINE_OPCODE_HANDLER "CMSG_ARENA_TEAM_CREATE" STATUS_LOGGEDIN PROCESS_THREADUNSAFE "HandleArenaTeamCreateOpcode";
  DEFINE_OPCODE_HANDLER "CMSG_ARENA_TEAM_DECLINE" STATUS_LOGGEDIN PROCESS_THREADUNSAFE "HandleArenaTeamDeclineOpcode";
  DEFINE_OPCODE_HANDLER "CMSG_ARENA_TEAM_DISBAND" STATUS_LOGGEDIN PROCESS_THREADUNSAFE "HandleArenaTeamDisbandOpcode";
  DEFINE_OPCODE_HANDLER "CMSG_ARENA_TEAM_INVITE" STATUS_LOGGEDIN PROCESS_THREADUNSAFE "HandleArenaTeamInviteOpcode";
  DEFINE_OPCODE_HANDLER "CMSG_ARENA_TEAM_LEADER" STATUS_LOGGEDIN PROCESS_THREADUNSAFE "HandleArenaTeamLeaderOpcode";
  DEFINE_OPCODE_HANDLER "CMSG_ARENA_TEAM_LEAVE" STATUS_LOGGEDIN PROCESS_THREADUNSAFE "HandleArenaTeamLeaveOpcode";
  DEFINE_OPCODE_HANDLER "CMSG_ARENA_TEAM_QUERY" STATUS_LOGGEDIN PROCESS_THREADUNSAFE "HandleArenaTeamQueryOpcode";
  DEFINE_OPCODE_HANDLER "CMSG_ARENA_TEAM_REMOVE" STATUS_LOGGEDIN PROCESS_THREADUNSAFE "HandleArenaTeamRemoveOpcode";
  DEFINE_OPCODE_HANDLER "CMSG_ARENA_TEAM_ROSTER" STATUS_LOGGEDIN PROCESS_THREADUNSAFE "HandleArenaTeamRosterOpcode";
  DEFINE_OPCODE_HANDLER "CMSG_ATTACKSTOP" STATUS_LOGGEDIN PROCESS_INPLACE "HandleAttackStopOpcode";
  DEFINE_OPCODE_HANDLER "CMSG_ATTACKSWING" STATUS_LOGGEDIN PROCESS_INPLACE "HandleAttackSwingOpcode";
  DEFINE_OPCODE_HANDLER "CMSG_AUCTION_LIST_BIDDER_ITEMS" STATUS_LOGGEDIN PROCESS_THREADUNSAFE "HandleAuctionListBidderItems";
  DEFINE_OPCODE_HANDLER "CMSG_AUCTION_LIST_ITEMS" STATUS_LOGGEDIN PROCESS_THREADUNSAFE "HandleAuctionListItems";
  DEFINE_OPCODE_HANDLER "CMSG_AUCTION_LIST_OWNER_ITEMS" STATUS_LOGGEDIN PROCESS_THREADUNSAFE "HandleAuctionListOwnerItems";
  DEFINE_OPCODE_HANDLER "CMSG_AUCTION_LIST_PENDING_SALES" STATUS_LOGGEDIN PROCESS_THREADUNSAFE "HandleAuctionListPendingSales";
  DEFINE_OPCODE_HANDLER "CMSG_AUCTION_PLACE_BID" STATUS_LOGGEDIN PROCESS_THREADUNSAFE "HandleAuctionPlaceBid";
  DEFINE_OPCODE_HANDLER "CMSG_AUCTION_REMOVE_ITEM" STATUS_LOGGEDIN PROCESS_THREADUNSAFE "HandleAuctionRemoveItem";
  DEFINE_OPCODE_HANDLER "CMSG_AUCTION_SELL_ITEM" STATUS_LOGGEDIN PROCESS_THREADUNSAFE "HandleAuctionSellItem";
  DEFINE_OPCODE_HANDLER "CMSG_AUTH_SESSION" STATUS_NEVER PROCESS_THREADUNSAFE "Handle_EarlyProccess";
  DEFINE_OPCODE_HANDLER "CMSG_AUTOBANK_ITEM" STATUS_LOGGEDIN PROCESS_THREADUNSAFE "HandleAutoBankItemOpcode";
  DEFINE_OPCODE_HANDLER "CMSG_AUTOEQUIP_ITEM" STATUS_LOGGEDIN PROCESS_THREADUNSAFE "HandleAutoEquipItemOpcode";
  DEFINE_OPCODE_HANDLER "CMSG_AUTOEQUIP_ITEM_SLOT" STATUS_LOGGEDIN PROCESS_THREADUNSAFE "HandleAutoEquipItemSlotOpcode";
  DEFINE_OPCODE_HANDLER "CMSG_AUTOSTORE_BAG_ITEM" STATUS_LOGGEDIN PROCESS_THREADUNSAFE "HandleAutoStoreBagItemOpcode";
  DEFINE_OPCODE_HANDLER "CMSG_AUTOSTORE_BANK_ITEM" STATUS_LOGGEDIN PROCESS_THREADUNSAFE "HandleAutoStoreBankItemOpcode";
  DEFINE_OPCODE_HANDLER "CMSG_AUTOSTORE_LOOT_ITEM" STATUS_LOGGEDIN PROCESS_THREADUNSAFE "HandleAutostoreLootItemOpcode";
  DEFINE_OPCODE_HANDLER "CMSG_AUTO_DECLINE_GUILD_INVITES" STATUS_LOGGEDIN PROCESS_THREADUNSAFE "HandleAutoDeclineGuildInvites";
  DEFINE_OPCODE_HANDLER "CMSG_BANKER_ACTIVATE" STATUS_LOGGEDIN PROCESS_THREADUNSAFE "HandleBankerActivateOpcode";
  DEFINE_OPCODE_HANDLER "CMSG_BATTLEFIELD_LEAVE" STATUS_LOGGEDIN PROCESS_INPLACE "HandleBattlefieldLeaveOpcode";
  DEFINE_OPCODE_HANDLER "CMSG_BATTLEFIELD_LIST" STATUS_LOGGEDIN PROCESS_THREADUNSAFE "HandleBattlefieldListOpcode";
  DEFINE_OPCODE_HANDLER "CMSG_BATTLEFIELD_MGR_ENTRY_INVITE_RESPONSE" STATUS_LOGGEDIN PROCESS_INPLACE "HandleBfEntryInviteResponse";
  DEFINE_OPCODE_HANDLER "CMSG_BATTLEFIELD_MGR_EXIT_REQUEST" STATUS_LOGGEDIN PROCESS_INPLACE "HandleBfExitRequest";
  DEFINE_OPCODE_HANDLER "CMSG_BATTLEFIELD_MGR_QUEUE_INVITE_RESPONSE" STATUS_LOGGEDIN PROCESS_INPLACE "HandleBfQueueInviteResponse";
  DEFINE_OPCODE_HANDLER "CMSG_BATTLEFIELD_MGR_QUEUE_REQUEST" STATUS_UNHANDLED PROCESS_INPLACE "Handle_NULL";
  DEFINE_OPCODE_HANDLER "CMSG_BATTLEFIELD_PORT" STATUS_LOGGEDIN PROCESS_THREADUNSAFE "HandleBattleFieldPortOpcode";
  DEFINE_OPCODE_HANDLER "CMSG_BATTLEFIELD_STATUS" STATUS_LOGGEDIN PROCESS_THREADUNSAFE "HandleBattlefieldStatusOpcode";
  DEFINE_OPCODE_HANDLER "CMSG_BATTLEGROUND_PLAYER_POSITIONS" STATUS_LOGGEDIN PROCESS_INPLACE "HandleBattlegroundPlayerPositionsOpcode";
  DEFINE_OPCODE_HANDLER "CMSG_BATTLEMASTER_JOIN" STATUS_LOGGEDIN PROCESS_THREADUNSAFE "HandleBattlemasterJoinOpcode";
  DEFINE_OPCODE_HANDLER "CMSG_BATTLEMASTER_JOIN_ARENA" STATUS_LOGGEDIN PROCESS_THREADUNSAFE "HandleBattlemasterJoinArena";
  DEFINE_OPCODE_HANDLER "CMSG_BATTLEMASTER_JOIN_RATED" STATUS_UNHANDLED PROCESS_INPLACE "Handle_NULL";
  DEFINE_OPCODE_HANDLER "CMSG_BEGIN_TRADE" STATUS_LOGGEDIN PROCESS_THREADUNSAFE "HandleBeginTradeOpcode";
  DEFINE_OPCODE_HANDLER "CMSG_BINDER_ACTIVATE" STATUS_LOGGEDIN PROCESS_THREADUNSAFE "HandleBinderActivateOpcode";
  DEFINE_OPCODE_HANDLER "CMSG_BUG" STATUS_LOGGEDIN PROCESS_THREADUNSAFE "HandleBugOpcode";
  DEFINE_OPCODE_HANDLER "CMSG_BUSY_TRADE" STATUS_LOGGEDIN PROCESS_THREADUNSAFE "HandleBusyTradeOpcode";
  DEFINE_OPCODE_HANDLER "CMSG_BUYBACK_ITEM" STATUS_LOGGEDIN PROCESS_THREADUNSAFE "HandleBuybackItem";
  DEFINE_OPCODE_HANDLER "CMSG_BUY_BANK_SLOT" STATUS_LOGGEDIN PROCESS_THREADUNSAFE "HandleBuyBankSlotOpcode";
  DEFINE_OPCODE_HANDLER "CMSG_BUY_ITEM" STATUS_LOGGEDIN PROCESS_THREADUNSAFE "HandleBuyItemOpcode";
  DEFINE_OPCODE_HANDLER "CMSG_CALENDAR_ADD_EVENT" STATUS_LOGGEDIN PROCESS_THREADUNSAFE "HandleCalendarAddEvent";
  DEFINE_OPCODE_HANDLER "CMSG_CALENDAR_ARENA_TEAM" STATUS_LOGGEDIN PROCESS_THREADUNSAFE "HandleCalendarArenaTeam";
  DEFINE_OPCODE_HANDLER "CMSG_CALENDAR_COMPLAIN" STATUS_LOGGEDIN PROCESS_THREADUNSAFE "HandleCalendarComplain";
  DEFINE_OPCODE_HANDLER "CMSG_CALENDAR_COPY_EVENT" STATUS_LOGGEDIN PROCESS_THREADUNSAFE "HandleCalendarCopyEvent";
  DEFINE_OPCODE_HANDLER "CMSG_CALENDAR_EVENT_INVITE" STATUS_LOGGEDIN PROCESS_THREADUNSAFE "HandleCalendarEventInvite";
  DEFINE_OPCODE_HANDLER "CMSG_CALENDAR_EVENT_MODERATOR_STATUS" STATUS_LOGGEDIN PROCESS_THREADUNSAFE "HandleCalendarEventModeratorStatus";
  DEFINE_OPCODE_HANDLER "CMSG_CALENDAR_EVENT_REMOVE_INVITE" STATUS_LOGGEDIN PROCESS_THREADUNSAFE "HandleCalendarEventRemoveInvite";
  DEFINE_OPCODE_HANDLER "CMSG_CALENDAR_EVENT_RSVP" STATUS_LOGGEDIN PROCESS_THREADUNSAFE "HandleCalendarEventRsvp";
  DEFINE_OPCODE_HANDLER "CMSG_CALENDAR_EVENT_SIGNUP" STATUS_LOGGEDIN PROCESS_THREADUNSAFE "HandleCalendarEventSignup";
  DEFINE_OPCODE_HANDLER "CMSG_CALENDAR_EVENT_STATUS" STATUS_LOGGEDIN PROCESS_THREADUNSAFE "HandleCalendarEventStatus";
  DEFINE_OPCODE_HANDLER "CMSG_CALENDAR_GET_CALENDAR" STATUS_LOGGEDIN PROCESS_THREADUNSAFE "HandleCalendarGetCalendar";
  DEFINE_OPCODE_HANDLER "CMSG_CALENDAR_GET_EVENT" STATUS_LOGGEDIN PROCESS_THREADUNSAFE "HandleCalendarGetEvent";
  DEFINE_OPCODE_HANDLER "CMSG_CALENDAR_GET_NUM_PENDING" STATUS_LOGGEDIN PROCESS_THREADUNSAFE "HandleCalendarGetNumPending";
  DEFINE_OPCODE_HANDLER "CMSG_CALENDAR_GUILD_FILTER" STATUS_LOGGEDIN PROCESS_THREADUNSAFE "HandleCalendarGuildFilter";
  DEFINE_OPCODE_HANDLER "CMSG_CALENDAR_REMOVE_EVENT" STATUS_LOGGEDIN PROCESS_THREADUNSAFE "HandleCalendarRemoveEvent";
  DEFINE_OPCODE_HANDLER "CMSG_CALENDAR_UPDATE_EVENT" STATUS_LOGGEDIN PROCESS_THREADUNSAFE "HandleCalendarUpdateEvent";
  DEFINE_OPCODE_HANDLER "CMSG_CANCEL_AURA" STATUS_LOGGEDIN PROCESS_THREADUNSAFE "HandleCancelAuraOpcode";
  DEFINE_OPCODE_HANDLER "CMSG_CANCEL_AUTO_REPEAT_SPELL" STATUS_LOGGEDIN PROCESS_THREADUNSAFE "HandleCancelAutoRepeatSpellOpcode";
  DEFINE_OPCODE_HANDLER "CMSG_CANCEL_CAST" STATUS_LOGGEDIN PROCESS_THREADSAFE "HandleCancelCastOpcode";
  DEFINE_OPCODE_HANDLER "CMSG_CANCEL_CHANNELLING" STATUS_LOGGEDIN PROCESS_THREADUNSAFE "HandleCancelChanneling";
  DEFINE_OPCODE_HANDLER "CMSG_CANCEL_MOUNT_AURA" STATUS_LOGGEDIN PROCESS_THREADUNSAFE "HandleCancelMountAuraOpcode";
  DEFINE_OPCODE_HANDLER "CMSG_CANCEL_QUEUED_SPELL" STATUS_UNHANDLED PROCESS_INPLACE "Handle_NULL";
  DEFINE_OPCODE_HANDLER "CMSG_CANCEL_TEMP_ENCHANTMENT" STATUS_LOGGEDIN PROCESS_THREADUNSAFE "HandleCancelTempEnchantmentOpcode";
  DEFINE_OPCODE_HANDLER "CMSG_CANCEL_TRADE" STATUS_LOGGEDIN_OR_RECENTLY_LOGGOUT PROCESS_THREADUNSAFE "HandleCancelTradeOpcode";
  DEFINE_OPCODE_HANDLER "CMSG_CAST_SPELL" STATUS_LOGGEDIN PROCESS_THREADSAFE "HandleCastSpellOpcode";
  DEFINE_OPCODE_HANDLER "CMSG_CHANGEPLAYER_DIFFICULTY" STATUS_UNHANDLED PROCESS_INPLACE "Handle_NULL";
  DEFINE_OPCODE_HANDLER "CMSG_CHANGE_SEATS_ON_CONTROLLED_VEHICLE" STATUS_LOGGEDIN PROCESS_THREADUNSAFE "HandleChangeSeatsOnControlledVehicle";
  DEFINE_OPCODE_HANDLER "CMSG_CHANNEL_ANNOUNCEMENTS" STATUS_LOGGEDIN PROCESS_THREADUNSAFE "HandleChannelAnnouncements";
  DEFINE_OPCODE_HANDLER "CMSG_CHANNEL_BAN" STATUS_LOGGEDIN PROCESS_THREADUNSAFE "HandleChannelBan";
  DEFINE_OPCODE_HANDLER "CMSG_CHANNEL_DISPLAY_LIST" STATUS_LOGGEDIN PROCESS_THREADUNSAFE "HandleChannelDisplayListQuery";
  DEFINE_OPCODE_HANDLER "CMSG_CHANNEL_INVITE" STATUS_LOGGEDIN PROCESS_THREADUNSAFE "HandleChannelInvite";
  DEFINE_OPCODE_HANDLER "CMSG_CHANNEL_KICK" STATUS_LOGGEDIN PROCESS_THREADUNSAFE "HandleChannelKick";
  DEFINE_OPCODE_HANDLER "CMSG_CHANNEL_LIST" STATUS_LOGGEDIN PROCESS_THREADUNSAFE "HandleChannelList";
  DEFINE_OPCODE_HANDLER "CMSG_CHANNEL_MODERATE" STATUS_UNHANDLED PROCESS_THREADUNSAFE "Handle_NULL";
  DEFINE_OPCODE_HANDLER "CMSG_CHANNEL_MODERATOR" STATUS_LOGGEDIN PROCESS_THREADUNSAFE "HandleChannelModerator";
  DEFINE_OPCODE_HANDLER "CMSG_CHANNEL_MUTE" STATUS_LOGGEDIN PROCESS_THREADUNSAFE "HandleChannelMute";
  DEFINE_OPCODE_HANDLER "CMSG_CHANNEL_OWNER" STATUS_LOGGEDIN PROCESS_THREADUNSAFE "HandleChannelOwner";
  DEFINE_OPCODE_HANDLER "CMSG_CHANNEL_PASSWORD" STATUS_LOGGEDIN PROCESS_THREADUNSAFE "HandleChannelPassword";
  DEFINE_OPCODE_HANDLER "CMSG_CHANNEL_ROSTER_INFO" STATUS_UNHANDLED PROCESS_INPLACE "Handle_NULL";
  DEFINE_OPCODE_HANDLER "CMSG_CHANNEL_SET_OWNER" STATUS_LOGGEDIN PROCESS_THREADUNSAFE "HandleChannelSetOwner";
  DEFINE_OPCODE_HANDLER "CMSG_CHANNEL_SILENCE_ALL" STATUS_UNHANDLED PROCESS_INPLACE "Handle_NULL";
  DEFINE_OPCODE_HANDLER "CMSG_CHANNEL_SILENCE_VOICE" STATUS_UNHANDLED PROCESS_INPLACE "Handle_NULL";
  DEFINE_OPCODE_HANDLER "CMSG_CHANNEL_UNBAN" STATUS_LOGGEDIN PROCESS_THREADUNSAFE "HandleChannelUnban";
  DEFINE_OPCODE_HANDLER "CMSG_CHANNEL_UNMODERATOR" STATUS_LOGGEDIN PROCESS_THREADUNSAFE "HandleChannelUnmoderator";
  DEFINE_OPCODE_HANDLER "CMSG_CHANNEL_UNMUTE" STATUS_LOGGEDIN PROCESS_THREADUNSAFE "HandleChannelUnmute";
  DEFINE_OPCODE_HANDLER "CMSG_CHANNEL_UNSILENCE_ALL" STATUS_UNHANDLED PROCESS_INPLACE "Handle_NULL";
  DEFINE_OPCODE_HANDLER "CMSG_CHANNEL_UNSILENCE_VOICE" STATUS_UNHANDLED PROCESS_INPLACE "Handle_NULL";
  DEFINE_OPCODE_HANDLER "CMSG_CHANNEL_VOICE_OFF" STATUS_LOGGEDIN PROCESS_THREADUNSAFE "HandleChannelVoiceOnOpcode";
  DEFINE_OPCODE_HANDLER "CMSG_CHANNEL_VOICE_ON" STATUS_LOGGEDIN PROCESS_THREADUNSAFE "HandleChannelVoiceOnOpcode";
  DEFINE_OPCODE_HANDLER "CMSG_CHAR_CREATE" STATUS_AUTHED PROCESS_THREADUNSAFE "HandleCharCreateOpcode";
  DEFINE_OPCODE_HANDLER "CMSG_CHAR_CUSTOMIZE" STATUS_AUTHED PROCESS_THREADUNSAFE "HandleCharCustomize";
  DEFINE_OPCODE_HANDLER "CMSG_CHAR_DELETE" STATUS_AUTHED PROCESS_THREADUNSAFE "HandleCharDeleteOpcode";
  DEFINE_OPCODE_HANDLER "CMSG_CHAR_ENUM" STATUS_AUTHED PROCESS_THREADUNSAFE "HandleCharEnumOpcode";
  DEFINE_OPCODE_HANDLER "CMSG_CHAR_FACTION_CHANGE" STATUS_AUTHED PROCESS_THREADUNSAFE "HandleCharFactionOrRaceChange";
  DEFINE_OPCODE_HANDLER "CMSG_CHAR_RACE_CHANGE" STATUS_AUTHED PROCESS_THREADUNSAFE "HandleCharFactionOrRaceChange";
  DEFINE_OPCODE_HANDLER "CMSG_CHAR_RENAME" STATUS_AUTHED PROCESS_THREADUNSAFE "HandleCharRenameOpcode";
  DEFINE_OPCODE_HANDLER "CMSG_CHAT_FILTERED" STATUS_UNHANDLED PROCESS_INPLACE "Handle_NULL";
  DEFINE_OPCODE_HANDLER "CMSG_CHAT_IGNORED" STATUS_LOGGEDIN PROCESS_THREADUNSAFE "HandleChatIgnoredOpcode";
  DEFINE_OPCODE_HANDLER "CMSG_CLEAR_CHANNEL_WATCH" STATUS_UNHANDLED PROCESS_INPLACE "Handle_NULL";
  DEFINE_OPCODE_HANDLER "CMSG_CLEAR_RAID_MARKER" STATUS_UNHANDLED PROCESS_INPLACE "Handle_NULL";
  DEFINE_OPCODE_HANDLER "CMSG_CLEAR_TRADE_ITEM" STATUS_LOGGEDIN PROCESS_THREADUNSAFE "HandleClearTradeItemOpcode";
  DEFINE_OPCODE_HANDLER "CMSG_COMMENTATOR_ENABLE" STATUS_UNHANDLED PROCESS_INPLACE "Handle_NULL";
  DEFINE_OPCODE_HANDLER "CMSG_COMMENTATOR_ENTER_INSTANCE" STATUS_UNHANDLED PROCESS_INPLACE "Handle_NULL";
  DEFINE_OPCODE_HANDLER "CMSG_COMMENTATOR_EXIT_INSTANCE" STATUS_UNHANDLED PROCESS_INPLACE "Handle_NULL";
  DEFINE_OPCODE_HANDLER "CMSG_COMMENTATOR_GET_MAP_INFO" STATUS_UNHANDLED PROCESS_INPLACE "Handle_NULL";
  DEFINE_OPCODE_HANDLER "CMSG_COMMENTATOR_GET_PARTY_INFO" STATUS_UNHANDLED PROCESS_INPLACE "Handle_NULL";
  DEFINE_OPCODE_HANDLER "CMSG_COMMENTATOR_GET_PLAYER_INFO" STATUS_UNHANDLED PROCESS_INPLACE "Handle_NULL";
  DEFINE_OPCODE_HANDLER "CMSG_COMMENTATOR_INSTANCE_COMMAND" STATUS_UNHANDLED PROCESS_INPLACE "Handle_NULL";
  DEFINE_OPCODE_HANDLER "CMSG_COMMENTATOR_SKIRMISH_QUEUE_COMMAND" STATUS_UNHANDLED PROCESS_INPLACE "Handle_NULL";
  DEFINE_OPCODE_HANDLER "CMSG_COMMENTATOR_START_WARGAME" STATUS_UNHANDLED PROCESS_INPLACE "Handle_NULL";
  DEFINE_OPCODE_HANDLER "CMSG_COMPLAIN" STATUS_LOGGEDIN PROCESS_THREADUNSAFE "HandleComplainOpcode";
  DEFINE_OPCODE_HANDLER "CMSG_COMPLETE_CINEMATIC" STATUS_LOGGEDIN PROCESS_THREADUNSAFE "HandleCompleteCinematic";
  DEFINE_OPCODE_HANDLER "CMSG_COMPLETE_MOVIE" STATUS_UNHANDLED PROCESS_INPLACE "Handle_NULL";
  DEFINE_OPCODE_HANDLER "CMSG_CONNECT_TO_FAILED" STATUS_UNHANDLED PROCESS_INPLACE "Handle_NULL";
  DEFINE_OPCODE_HANDLER "CMSG_CONTACT_LIST" STATUS_LOGGEDIN PROCESS_THREADUNSAFE "HandleContactListOpcode";
  DEFINE_OPCODE_HANDLER "CMSG_CORPSE_MAP_POSITION_QUERY" STATUS_LOGGEDIN PROCESS_THREADUNSAFE "HandleCorpseMapPositionQuery";
  DEFINE_OPCODE_HANDLER "CMSG_CREATURE_QUERY" STATUS_LOGGEDIN PROCESS_INPLACE "HandleCreatureQueryOpcode";
  DEFINE_OPCODE_HANDLER "CMSG_DANCE_QUERY" STATUS_UNHANDLED PROCESS_INPLACE "Handle_NULL";
  DEFINE_OPCODE_HANDLER "CMSG_DELETEEQUIPMENT_SET" STATUS_UNHANDLED PROCESS_INPLACE "Handle_NULL";
  DEFINE_OPCODE_HANDLER "CMSG_DEL_FRIEND" STATUS_LOGGEDIN PROCESS_THREADUNSAFE "HandleDelFriendOpcode";
  DEFINE_OPCODE_HANDLER "CMSG_DEL_IGNORE" STATUS_LOGGEDIN PROCESS_THREADUNSAFE "HandleDelIgnoreOpcode";
  DEFINE_OPCODE_HANDLER "CMSG_DEL_VOICE_IGNORE" STATUS_UNHANDLED PROCESS_INPLACE "Handle_NULL";
  DEFINE_OPCODE_HANDLER "CMSG_DESTROY_ITEM" STATUS_LOGGEDIN PROCESS_THREADUNSAFE "HandleDestroyItemOpcode";
  DEFINE_OPCODE_HANDLER "CMSG_DISMISS_CONTROLLED_VEHICLE" STATUS_LOGGEDIN PROCESS_THREADUNSAFE "HandleDismissControlledVehicle";
  DEFINE_OPCODE_HANDLER "CMSG_DISMISS_CRITTER" STATUS_LOGGEDIN PROCESS_THREADUNSAFE "HandleDismissCritter";
  DEFINE_OPCODE_HANDLER "CMSG_DUEL_ACCEPTED" STATUS_LOGGEDIN PROCESS_THREADUNSAFE "HandleDuelAcceptedOpcode";
  DEFINE_OPCODE_HANDLER "CMSG_DUEL_CANCELLED" STATUS_LOGGEDIN PROCESS_THREADUNSAFE "HandleDuelCancelledOpcode";
  DEFINE_OPCODE_HANDLER "CMSG_EJECT_PASSENGER" STATUS_UNHANDLED PROCESS_INPLACE "Handle_NULL";
  DEFINE_OPCODE_HANDLER "CMSG_EMOTE" STATUS_LOGGEDIN PROCESS_THREADUNSAFE "HandleEmoteOpcode";
  DEFINE_OPCODE_HANDLER "CMSG_ENABLETAXI" STATUS_LOGGEDIN PROCESS_THREADSAFE "HandleTaxiQueryAvailableNodes";
  DEFINE_OPCODE_HANDLER "CMSG_ENABLE_NAGLE" STATUS_NEVER PROCESS_INPLACE "Handle_EarlyProccess"].

Definition Initialize_2 : list row := [
  DEFINE_OPCODE_HANDLER "CMSG_EQUIPMENT_SET_SAVE" STATUS_LOGGEDIN PROCESS_THREADUNSAFE "HandleEquipmentSetSave";
  DEFINE_OPCODE_HANDLER "CMSG_EQUIPMENT_SET_USE" STATUS_LOGGEDIN PROCESS_THREADUNSAFE "HandleEquipmentSetUse";
  DEFINE_OPCODE_HANDLER "CMSG_FAR_SIGHT" STATUS_LOGGEDIN PROCESS_THREADUNSAFE "HandleFarSightOpcode";
  DEFINE_OPCODE_HANDLER "CMSG_FORCE_MOVE_ROOT_ACK" STATUS_UNHANDLED PROCESS_THREADSAFE "HandleMoveRootAck";
  DEFINE_OPCODE_HANDLER "CMSG_FORCE_MOVE_UNROOT_ACK" STATUS_UNHANDLED PROCESS_THREADSAFE "HandleMoveUnRootAck";
  DEFINE_OPCODE_HANDLER "CMSG_GAMEOBJECT_QUERY" STATUS_LOGGEDIN PROCESS_INPLACE "HandleGameObjectQueryOpcode";
  DEFINE_OPCODE_HANDLER "CMSG_GAMEOBJ_REPORT_USE" STATUS_LOGGEDIN PROCESS_THREADUNSAFE "HandleGameobjectReportUse";
  DEFINE_OPCODE_HANDLER "CMSG_GAMEOBJ_USE" STATUS_LOGGEDIN PROCESS_THREADUNSAFE "HandleGameObjectUseOpcode";
  DEFINE_OPCODE_HANDLER "CMSG_GET_MAIL_LIST" STATUS_LOGGEDIN PROCESS_THREADUNSAFE "HandleGetMailList";
  DEFINE_OPCODE_HANDLER "CMSG_GET_MIRRORIMAGE_DATA" STATUS_LOGGEDIN PROCESS_THREADUNSAFE "HandleMirrorImageDataRequest";
  DEFINE_OPCODE_HANDLER "CMSG_GMRESPONSE_RESOLVE" STATUS_LOGGEDIN PROCESS_THREADUNSAFE "HandleGMResponseResolve";
  DEFINE_OPCODE_HANDLER "CMSG_GMSURVEY_SUBMIT" STATUS_LOGGEDIN PROCESS_THREADUNSAFE "HandleGMSurveySubmit";
  DEFINE_OPCODE_HANDLER "CMSG_GMTICKET_CREATE" STATUS_LOGGEDIN PROCESS_THREADUNSAFE "HandleGMTicketCreateOpcode";
  DEFINE_OPCODE_HANDLER "CMSG_GMTICKET_DELETETICKET" STATUS_LOGGEDIN PROCESS_THREADUNSAFE "HandleGMTicketDeleteOpcode";
  DEFINE_OPCODE_HANDLER "CMSG_GMTICKET_GETTICKET" STATUS_LOGGEDIN PROCESS_THREADUNSAFE "HandleGMTicketGetTicketOpcode";
  DEFINE_OPCODE_HANDLER "CMSG_GMTICKET_SYSTEMSTATUS" STATUS_LOGGEDIN PROCESS_THREADUNSAFE "HandleGMTicketSystemStatusOpcode";
  DEFINE_OPCODE_HANDLER "CMSG_GMTICKET_UPDATETEXT" STATUS_LOGGEDIN PROCESS_THREADUNSAFE "HandleGMTicketUpdateOpcode";
  DEFINE_OPCODE_HANDLER "CMSG_GM_REPORT_LAG" STATUS_LOGGEDIN PROCESS_THREADUNSAFE "HandleReportLag";
  DEFINE_OPCODE_HANDLER "CMSG_GOSSIP_HELLO" STATUS_LOGGEDIN PROCESS_THREADUNSAFE "HandleGossipHelloOpcode";
  DEFINE_OPCODE_HANDLER "CMSG_GOSSIP_SELECT_OPTION" STATUS_LOGGEDIN PROCESS_THREADUNSAFE "HandleGossipSelectOptionOpcode";
  DEFINE_OPCODE_HANDLER "CMSG_GRANT_LEVEL" STATUS_LOGGEDIN PROCESS_THREADUNSAFE "HandleGrantLevel";
  DEFINE_OPCODE_HANDLER "CMSG_GROUP_ASSISTANT_LEADER" STATUS_LOGGEDIN PROCESS_THREADUNSAFE "HandleGroupAssistantLeaderOpcode";
  DEFINE_OPCODE_HANDLER "CMSG_GROUP_CHANGE_SUB_GROUP" STATUS_LOGGEDIN PROCESS_THREADUNSAFE "HandleGroupChangeSubGroupOpcode";
  DEFINE_OPCODE_HANDLER "CMSG_GROUP_DISBAND" STATUS_LOGGEDIN PROCESS_THREADUNSAFE "HandleGroupDisbandOpcode";
  DEFINE_OPCODE_HANDLER "CMSG_GROUP_INVITE" STATUS_LOGGEDIN PROCESS_THREADUNSAFE "HandleGroupInviteOpcode";
  DEFINE_OPCODE_HANDLER "CMSG_GROUP_INVITE_RESPONSE" STATUS_LOGGEDIN PROCESS_THREADUNSAFE "HandleGroupInviteResponseOpcode";
  DEFINE_OPCODE_HANDLER "CMSG_GROUP_RAID_CONVERT" STATUS_LOGGEDIN PROCESS_THREADUNSAFE "HandleGroupRaidConvertOpcode";
  DEFINE_OPCODE_HANDLER "CMSG_GROUP_REQUEST_JOIN_UPDATES" STATUS_UNHANDLED PROCESS_INPLACE "Handle_NULL";
  DEFINE_OPCODE_HANDLER "CMSG_GROUP_SET_LEADER" STATUS_LOGGEDIN PROCESS_THREADUNSAFE "HandleGroupSetLeaderOpcode";
  DEFINE_OPCODE_HANDLER "CMSG_GROUP_SET_ROLES" STATUS_LOGGEDIN PROCESS_INPLACE "HandleGroupSetRolesOpcode";
  DEFINE_OPCODE_HANDLER "CMSG_GROUP_SWAP_SUB_GROUP" STATUS_UNHANDLED PROCESS_THREADUNSAFE "HandleGroupSwapSubGroupOpcode";
  DEFINE_OPCODE_HANDLER "CMSG_GROUP_UNINVITE_GUID" STATUS_LOGGEDIN PROCESS_THREADUNSAFE "HandleGroupUninviteGuidOpcode";
  DEFINE_OPCODE_HANDLER "CMSG_GUILD_ACCEPT" STATUS_LOGGEDIN PROCESS_THREADUNSAFE "HandleGuildAcceptOpcode";
  DEFINE_OPCODE_HANDLER "CMSG_GUILD_ACHIEVEMENT_MEMBERS" STATUS_UNHANDLED PROCESS_INPLACE "Handle_NULL";
  DEFINE_OPCODE_HANDLER "CMSG_GUILD_ACHIEVEMENT_PROGRESS_QUERY" STATUS_LOGGEDIN PROCESS_THREADUNSAFE "HandleGuildAchievementProgressQuery";
  DEFINE_OPCODE_HANDLER "CMSG_GUILD_ADD_RANK" STATUS_LOGGEDIN PROCESS_THREADUNSAFE "HandleGuildAddRankOpcode";
  DEFINE_OPCODE_HANDLER "CMSG_GUILD_ASSIGN_MEMBER_RANK" STATUS_LOGGEDIN PROCESS_THREADUNSAFE "HandleGuildAssignRankOpcode";
  DEFINE_OPCODE_HANDLER "CMSG_GUILD_BANKER_ACTIVATE" STATUS_LOGGEDIN PROCESS_THREADUNSAFE "HandleGuildBankerActivate";
  DEFINE_OPCODE_HANDLER "CMSG_GUILD_BANK_BUY_TAB" STATUS_LOGGEDIN PROCESS_THREADUNSAFE "HandleGuildBankBuyTab";
  DEFINE_OPCODE_HANDLER "CMSG_GUILD_BANK_DEPOSIT_MONEY" STATUS_LOGGEDIN PROCESS_THREADUNSAFE "HandleGuildBankDepositMoney";
  DEFINE_OPCODE_HANDLER "CMSG_GUILD_BANK_LOG_QUERY" STATUS_LOGGEDIN PROCESS_THREADUNSAFE "HandleGuildBankLogQuery";
  DEFINE_OPCODE_HANDLER "CMSG_GUILD_BANK_MONEY_WITHDRAWN_QUERY" STATUS_LOGGEDIN PROCESS_THREADUNSAFE "HandleGuildBankMoneyWithdrawn";
  DEFINE_OPCODE_HANDLER "CMSG_GUILD_BANK_QUERY_TAB" STATUS_LOGGEDIN PROCESS_THREADUNSAFE "HandleGuildBankQueryTab";
  DEFINE_OPCODE_HANDLER "CMSG_GUILD_BANK_QUERY_TEXT" STATUS_LOGGEDIN PROCESS_THREADUNSAFE "HandleQueryGuildBankTabText";
  DEFINE_OPCODE_HANDLER "CMSG_GUILD_BANK_SWAP_ITEMS" STATUS_LOGGEDIN PROCESS_THREADUNSAFE "HandleGuildBankSwapItems";
  DEFINE_OPCODE_HANDLER "CMSG_GUILD_BANK_UPDATE_TAB" STATUS_LOGGEDIN PROCESS_THREADUNSAFE "HandleGuildBankUpdateTab";
  DEFINE_OPCODE_HANDLER "CMSG_GUILD_BANK_WITHDRAW_MONEY" STATUS_LOGGEDIN PROCESS_THREADUNSAFE "HandleGuildBankWithdrawMoney";
  DEFINE_OPCODE_HANDLER "CMSG_GUILD_CHANGE_NAME_REQUEST" STATUS_UNHANDLED PROCESS_INPLACE "Handle_NULL";
  DEFINE_OPCODE_HANDLER "CMSG_GUILD_DECLINE" STATUS_LOGGEDIN PROCESS_THREADUNSAFE "HandleGuildDeclineOpcode";
  DEFINE_OPCODE_HANDLER "CMSG_GUILD_DEL_RANK" STATUS_LOGGEDIN PROCESS_THREADUNSAFE "HandleGuildDelRankOpcode";
  DEFINE_OPCODE_HANDLER "CMSG_GUILD_DEMOTE" STATUS_LOGGEDIN PROCESS_THREADUNSAFE "HandleGuildDemoteOpcode";
  DEFINE_OPCODE_HANDLER "CMSG_GUILD_DISBAND" STATUS_LOGGEDIN PROCESS_THREADUNSAFE "HandleGuildDisbandOpcode";
  DEFINE_OPCODE_HANDLER "CMSG_GUILD_EVENT_LOG_QUERY" STATUS_LOGGEDIN PROCESS_THREADUNSAFE "HandleGuildEventLogQueryOpcode";
  DEFINE_OPCODE_HANDLER "CMSG_GUILD_INFO_TEXT" STATUS_LOGGEDIN PROCESS_THREADUNSAFE "HandleGuildChangeInfoTextOpcode";
  DEFINE_OPCODE_HANDLER "CMSG_GUILD_INVITE" STATUS_LOGGEDIN PROCESS_THREADUNSAFE "HandleGuildInviteOpcode";
  DEFINE_OPCODE_HANDLER "CMSG_GUILD_LEAVE" STATUS_LOGGEDIN PROCESS_THREADUNSAFE "HandleGuildLeaveOpcode";
  DEFINE_OPCODE_HANDLER "CMSG_GUILD_MEMBER_SEND_SOR_REQUEST" STATUS_UNHANDLED PROCESS_INPLACE "Handle_NULL";
  DEFINE_OPCODE_HANDLER "CMSG_GUILD_MOTD" STATUS_LOGGEDIN PROCESS_THREADUNSAFE "HandleGuildMOTDOpcode";
  DEFINE_OPCODE_HANDLER "CMSG_GUILD_NEWS_UPDATE_STICKY" STATUS_LOGGEDIN PROCESS_INPLACE "HandleGuildNewsUpdateStickyOpcode";
  DEFINE_OPCODE_HANDLER "CMSG_GUILD_PERMISSIONS" STATUS_LOGGEDIN PROCESS_THREADUNSAFE "HandleGuildPermissions";
  DEFINE_OPCODE_HANDLER "CMSG_GUILD_PROMOTE" STATUS_LOGGEDIN PROCESS_THREADUNSAFE "HandleGuildPromoteOpcode";
  DEFINE_OPCODE_HANDLER "CMSG_GUILD_QUERY" STATUS_AUTHED PROCESS_THREADUNSAFE "HandleGuildQueryOpcode";
  DEFINE_OPCODE_HANDLER "CMSG_GUILD_QUERY_NEWS" STATUS_LOGGEDIN PROCESS_INPLACE "HandleGuildQueryNewsOpcode";
  DEFINE_OPCODE_HANDLER "CMSG_GUILD_QUERY_RANKS" STATUS_LOGGEDIN PROCESS_THREADUNSAFE "HandleGuildQueryRanksOpcode";
  DEFINE_OPCODE_HANDLER "CMSG_GUILD_REMOVE" STATUS_LOGGEDIN PROCESS_THREADUNSAFE "HandleGuildRemoveOpcode";
  DEFINE_OPCODE_HANDLER "CMSG_GUILD_REPLACE_GUILD_MASTER" STATUS_UNHANDLED PROCESS_INPLACE "Handle_NULL";
  DEFINE_OPCODE_HANDLER "CMSG_GUILD_REQUEST_CHALLENGE_UPDATE" STATUS_UNHANDLED PROCESS_INPLACE "Handle_NULL";
  DEFINE_OPCODE_HANDLER "CMSG_GUILD_REQUEST_MAX_DAILY_XP" STATUS_LOGGEDIN PROCESS_THREADUNSAFE "HandleGuildRequestMaxDailyXP";
  DEFINE_OPCODE_HANDLER "CMSG_GUILD_REQUEST_PARTY_STATE" STATUS_LOGGEDIN PROCESS_THREADUNSAFE "HandleGuildRequestPartyState";
  DEFINE_OPCODE_HANDLER "CMSG_GUILD_ROSTER" STATUS_LOGGEDIN PROCESS_THREADUNSAFE "HandleGuildRosterOpcode";
  DEFINE_OPCODE_HANDLER "CMSG_GUILD_SET_ACHIEVEMENT_TRACKING" STATUS_UNHANDLED PROCESS_INPLACE "Handle_NULL";
  DEFINE_OPCODE_HANDLER "CMSG_GUILD_SET_GUILD_MASTER" STATUS_LOGGEDIN PROCESS_THREADUNSAFE "HandleGuildSetGuildMaster";
  DEFINE_OPCODE_HANDLER "CMSG_GUILD_SET_NOTE" STATUS_LOGGEDIN PROCESS_THREADUNSAFE "HandleGuildSetNoteOpcode";
  DEFINE_OPCODE_HANDLER "CMSG_GUILD_SET_RANK_PERMISSIONS" STATUS_LOGGEDIN PROCESS_THREADUNSAFE "HandleGuildSetRankPermissionsOpcode";
  DEFINE_OPCODE_HANDLER "CMSG_GUILD_SWITCH_RANK" STATUS_UNHANDLED PROCESS_INPLACE "Handle_NULL";
  DEFINE_OPCODE_HANDLER "CMSG_HEARTH_AND_RESURRECT" STATUS_UNHANDLED PROCESS_THREADUNSAFE "HandleHearthAndResurrect";
  DEFINE_OPCODE_HANDLER "CMSG_IGNORE_TRADE" STATUS_LOGGEDIN PROCESS_THREADUNSAFE "HandleIgnoreTradeOpcode";
  DEFINE_OPCODE_HANDLER "CMSG_INITIATE_TRADE" STATUS_LOGGEDIN PROCESS_THREADUNSAFE "HandleInitiateTradeOpcode";
  DEFINE_OPCODE_HANDLER "CMSG_INSPECT" STATUS_LOGGEDIN PROCESS_THREADUNSAFE "HandleInspectOpcode";
  DEFINE_OPCODE_HANDLER "CMSG_INSPECT_HONOR_STATS" STATUS_LOGGEDIN PROCESS_THREADUNSAFE "HandleInspectHonorStatsOpcode";
  DEFINE_OPCODE_HANDLER "CMSG_INSTANCE_LOCK_WARNING_RESPONSE" STATUS_UNHANDLED PROCESS_INPLACE "Handle_NULL";
  DEFINE_OPCODE_HANDLER "CMSG_ITEM_REFUND" STATUS_LOGGEDIN PROCESS_THREADUNSAFE "HandleItemRefund";
  DEFINE_OPCODE_HANDLER "CMSG_ITEM_REFUND_INFO" STATUS_LOGGEDIN PROCESS_THREADUNSAFE "HandleItemRefundInfoRequest";
  DEFINE_OPCODE_HANDLER "CMSG_ITEM_TEXT_QUERY" STATUS_LOGGEDIN PROCESS_THREADUNSAFE "HandleItemTextQuery";
  DEFINE_OPCODE_HANDLER "CMSG_JOIN_CHANNEL" STATUS_LOGGEDIN PROCESS_THREADUNSAFE "HandleJoinChannel";
  DEFINE_OPCODE_HANDLER "CMSG_KEEP_ALIVE" STATUS_NEVER PROCESS_THREADUNSAFE "Handle_EarlyProccess";
  DEFINE_OPCODE_HANDLER "CMSG_LEARN_PREVIEW_TALENTS" STATUS_LOGGEDIN PROCESS_THREADUNSAFE "HandleLearnPreviewTalents";
  DEFINE_OPCODE_HANDLER "CMSG_LEARN_PREVIEW_TALENTS_PET" STATUS_LOGGEDIN PROCESS_THREADUNSAFE "HandleLearnPreviewTalentsPet";
  DEFINE_OPCODE_HANDLER "CMSG_LEARN_TALENT" STATUS_LOGGEDIN PROCESS_THREADUNSAFE "HandleLearnTalentOpcode";
  DEFINE_OPCODE_HANDLER "CMSG_LEAVE_CHANNEL" STATUS_LOGGEDIN PROCESS_THREADUNSAFE "HandleLeaveChannel";
  DEFINE_OPCODE_HANDLER "CMSG_LFG_GET_STATUS" STATUS_LOGGEDIN PROCESS_THREADSAFE "HandleLfgGetStatus";
  DEFINE_OPCODE_HANDLER "CMSG_LFG_JOIN" STATUS_LOGGEDIN PROCESS_THREADUNSAFE "HandleLfgJoinOpcode";
  DEFINE_OPCODE_HANDLER "CMSG_LFG_LEAVE" STATUS_LOGGEDIN PROCESS_THREADUNSAFE "HandleLfgLeaveOpcode";
  DEFINE_OPCODE_HANDLER "CMSG_LFG_LFR_JOIN" STATUS_UNHANDLED PROCESS_INPLACE "Handle_NULL";
  DEFINE_OPCODE_HANDLER "CMSG_LFG_LFR_LEAVE" STATUS_UNHANDLED PROCESS_INPLACE "Handle_NULL";
  DEFINE_OPCODE_HANDLER "CMSG_LFG_LOCK_INFO_REQUEST" STATUS_LOGGEDIN PROCESS_THREADSAFE "HandleLfgGetLockInfoOpcode";
  DEFINE_OPCODE_HANDLER "CMSG_LFG_PROPOSAL_RESULT" STATUS_LOGGEDIN PROCESS_THREADUNSAFE "HandleLfgProposalResultOpcode";
  DEFINE_OPCODE_HANDLER "CMSG_LFG_SET_BOOT_VOTE" STATUS_UNHANDLED PROCESS_THREADUNSAFE "HandleLfgSetBootVoteOpcode";
  DEFINE_OPCODE_HANDLER "CMSG_LFG_SET_COMMENT" STATUS_UNHANDLED PROCESS_INPLACE "Handle_NULL";
  DEFINE_OPCODE_HANDLER "CMSG_LFG_SET_ROLES" STATUS_UNHANDLED PROCESS_THREADUNSAFE "HandleLfgSetRolesOpcode";
  DEFINE_OPCODE_HANDLER "CMSG_LFG_TELEPORT" STATUS_UNHANDLED PROCESS_THREADUNSAFE "HandleLfgTeleportOpcode";
  DEFINE_OPCODE_HANDLER "CMSG_LF_GUILD_ADD_RECRUIT" STATUS_LOGGEDIN PROCESS_THREADUNSAFE "HandleGuildFinderAddRecruit";
  DEFINE_OPCODE_HANDLER "CMSG_LF_GUILD_BROWSE" STATUS_LOGGEDIN PROCESS_THREADUNSAFE "HandleGuildFinderBrowse";
  DEFINE_OPCODE_HANDLER "CMSG_LF_GUILD_DECLINE_RECRUIT" STATUS_LOGGEDIN PROCESS_THREADUNSAFE "HandleGuildFinderDeclineRecruit";
  DEFINE_OPCODE_HANDLER "CMSG_LF_GUILD_GET_APPLICATIONS" STATUS_LOGGEDIN PROCESS_THREADUNSAFE "HandleGuildFinderGetApplications";
  DEFINE_OPCODE_HANDLER "CMSG_LF_GUILD_GET_RECRUITS" STATUS_LOGGEDIN PROCESS_THREADUNSAFE "HandleGuildFinderGetRecruits";
  DEFINE_OPCODE_HANDLER "CMSG_LF_GUILD_POST_REQUEST" STATUS_LOGGEDIN PROCESS_THREADUNSAFE "HandleGuildFinderPostRequest";
  DEFINE_OPCODE_HANDLER "CMSG_LF_GUILD_REMOVE_RECRUIT" STATUS_LOGGEDIN PROCESS_THREADUNSAFE "HandleGuildFinderRemoveRecruit";
  DEFINE_OPCODE_HANDLER "CMSG_LF_GUILD_SET_GUILD_POST" STATUS_LOGGEDIN PROCESS_THREADUNSAFE "HandleGuildFinderSetGuildPost";
  DEFINE_OPCODE_HANDLER "CMSG_LIST_INVENTORY" STATUS_LOGGEDIN PROCESS_THREADUNSAFE "HandleListInventoryOpcode";
  DEFINE_OPCODE_HANDLER "CMSG_LOAD_SCREEN" STATUS_AUTHED PROCESS_THREADUNSAFE "HandleLoadScreenOpcode";
  DEFINE_OPCODE_HANDLER "CMSG_LOGOUT_CANCEL" STATUS_LOGGEDIN PROCESS_THREADUNSAFE "HandleLogoutCancelOpcode";
  DEFINE_OPCODE_HANDLER "CMSG_LOGOUT_REQUEST" STATUS_LOGGEDIN PROCESS_THREADUNSAFE "HandleLogoutRequestOpcode";
  DEFINE_OPCODE_HANDLER "CMSG_LOG_DISCONNECT" STATUS_NEVER PROCESS_INPLACE "Handle_EarlyProccess";
  DEFINE_OPCODE_HANDLER "CMSG_LOOT" STATUS_LOGGEDIN PROCESS_THREADUNSAFE "HandleLootOpcode";
  DEFINE_OPCODE_HANDLER "CMSG_LOOT_CURRENCY" STATUS_UNHANDLED PROCESS_INPLACE "Handle_NULL";
  DEFINE_OPCODE_HANDLER "CMSG_LOOT_MASTER_GIVE" STATUS_LOGGEDIN PROCESS_THREADUNSAFE "HandleLootMasterGiveOpcode";
  DEFINE_OPCODE_HANDLER "CMSG_LOOT_METHOD" STATUS_LOGGEDIN PROCESS_THREADUNSAFE "HandleLootMethodOpcode";
  DEFINE_OPCODE_HANDLER "CMSG_LOOT_MONEY" STATUS_LOGGEDIN PROCESS_THREADUNSAFE "HandleLootMoneyOpcode";
  DEFINE_OPCODE_HANDLER "CMSG_LOOT_RELEASE" STATUS_LOGGEDIN PROCESS_THREADUNSAFE "HandleLootReleaseOpcode";
  DEFINE_OPCODE_HANDLER "CMSG_LOOT_ROLL" STATUS_LOGGEDIN PROCESS_THREADUNSAFE "HandleLootRoll";
  DEFINE_OPCODE_HANDLER "CMSG_MAIL_CREATE_TEXT_ITEM" STATUS_LOGGEDIN PROCESS_THREADUNSAFE "HandleMailCreateTextItem";
  DEFINE_OPCODE_HANDLER "CMSG_MAIL_DELETE" STATUS_LOGGEDIN PROCESS_THREADUNSAFE "HandleMailDelete";
  DEFINE_OPCODE_HANDLER "CMSG_MAIL_MARK_AS_READ" STATUS_LOGGEDIN PROCESS_THREADUNSAFE "HandleMailMarkAsRead";
  DEFINE_OPCODE_HANDLER "CMSG_MAIL_TAKE_ITEM" STATUS_LOGGEDIN PROCESS_THREADUNSAFE "HandleMailTakeItem";
  DEFINE_OPCODE_HANDLER "CMSG_MAIL_TAKE_MONEY" STATUS_LOGGEDIN PROCESS_THREADUNSAFE "HandleMailTakeMoney";
  DEFINE_OPCODE_HANDLER "CMSG_MESSAGECHAT_ADDON_BATTLEGROUND" STATUS_LOGGEDIN PROCESS_THREADUNSAFE "HandleAddonMessagechatOpcode";
  DEFINE_OPCODE_HANDLER "CMSG_MESSAGECHAT_ADDON_GUILD" STATUS_LOGGEDIN PROCESS_THREADUNSAFE "HandleAddonMessagechatOpcode";
  DEFINE_OPCODE_HANDLER "CMSG_MESSAGECHAT_ADDON_OFFICER" STATUS_LOGGEDIN PROCESS_THREADUNSAFE "HandleAddonMessagechatOpcode";
  DEFINE_OPCODE_HANDLER "CMSG_MESSAGECHAT_ADDON_PARTY" STATUS_LOGGEDIN PROCESS_THREADUNSAFE "HandleAddonMessagechatOpcode";
  DEFINE_OPCODE_HANDLER "CMSG_MESSAGECHAT_ADDON_RAID" STATUS_LOGGEDIN PROCESS_THREADUNSAFE "HandleAddonMessagechatOpcode";
  DEFINE_OPCODE_HANDLER "CMSG_MESSAGECHAT_ADDON_WHISPER" STATUS_LOGGEDIN PROCESS_THREADUNSAFE "HandleAddonMessagechatOpcode";
  DEFINE_OPCODE_HANDLER "CMSG_MESSAGECHAT_AFK" STATUS_LOGGEDIN PROCESS_THREADUNSAFE "HandleMessagechatOpcode";
  DEFINE_OPCODE_HANDLER "CMSG_MESSAGECHAT_BATTLEGROUND" STATUS_LOGGEDIN PROCESS_THREADUNSAFE "HandleMessagechatOpcode";
  DEFINE_OPCODE_HANDLER "CMSG_MESSAGECHAT_CHANNEL" STATUS_LOGGEDIN PROCESS_THREADUNSAFE "HandleMessagechatOpcode";
  DEFINE_OPCODE_HANDLER "CMSG_MESSAGECHAT_DND" STATUS_LOGGEDIN PROCESS_THREADUNSAFE "HandleMessagechatOpcode";
  DEFINE_OPCODE_HANDLER "CMSG_MESSAGECHAT_EMOTE" STATUS_LOGGEDIN PROCESS_THREADUNSAFE "HandleMessagechatOpcode";
  DEFINE_OPCODE_HANDLER "CMSG_MESSAGECHAT_GUILD" STATUS_LOGGEDIN PROCESS_THREADUNSAFE "HandleMessagechatOpcode";
  DEFINE_OPCODE_HANDLER "CMSG_MESSAGECHAT_OFFICER" STATUS_LOGGEDIN PROCESS_THREADUNSAFE "HandleMessagechatOpcode";
  DEFINE_OPCODE_HANDLER "CMSG_MESSAGECHAT_PARTY" STATUS_LOGGEDIN PROCESS_THREADUNSAFE "HandleMessagechatOpcode";
  DEFINE_OPCODE_HANDLER "CMSG_MESSAGECHAT_RAID" STATUS_LOGGEDIN PROCESS_THREADUNSAFE "HandleMessagechatOpcode";
  DEFINE_OPCODE_HANDLER "CMSG_MESSAGECHAT_RAID_WARNING" STATUS_LOGGEDIN PROCESS_THREADUNSAFE "HandleMessagechatOpcode";
  DEFINE_OPCODE_HANDLER "CMSG_MESSAGECHAT_SAY" STATUS_LOGGEDIN PROCESS_THREADUNSAFE "HandleMessagechatOpcode";
  DEFINE_OPCODE_HANDLER "CMSG_MESSAGECHAT_WHISPER" STATUS_LOGGEDIN PROCESS_THREADUNSAFE "HandleMessagechatOpcode";
  DEFINE_OPCODE_HANDLER "CMSG_MESSAGECHAT_YELL" STATUS_LOGGEDIN PROCESS_THREADUNSAFE "HandleMessagechatOpcode";
  DEFINE_OPCODE_HANDLER "CMSG_MINIGAME_MOVE" STATUS_UNHANDLED PROCESS_INPLACE "Handle_NULL";
  DEFINE_OPCODE_HANDLER "CMSG_MOUNTSPECIAL_ANIM" STATUS_LOGGEDIN PROCESS_THREADUNSAFE "HandleMountSpecialAnimOpcode";
  DEFINE_OPCODE_HANDLER "CMSG_MOVE_CHNG_TRANSPORT" STATUS_LOGGEDIN PROCESS_THREADSAFE "HandleMovementOpcodes";
  DEFINE_OPCODE_HANDLER "CMSG_MOVE_FALL_RESET" STATUS_UNHANDLED PROCESS_THREADSAFE "HandleMovementOpcodes"].

Definition Initialize_3 : list row := [
  DEFINE_OPCODE_HANDLER "CMSG_MOVE_FEATHER_FALL_ACK" STATUS_UNHANDLED PROCESS_THREADSAFE "HandleFeatherFallAck";
  DEFINE_OPCODE_HANDLER "CMSG_MOVE_FORCE_FLIGHT_BACK_SPEED_CHANGE_ACK" STATUS_LOGGEDIN PROCESS_THREADSAFE "HandleForceSpeedChangeAck";
  DEFINE_OPCODE_HANDLER "CMSG_MOVE_FORCE_FLIGHT_SPEED_CHANGE_ACK" STATUS_LOGGEDIN PROCESS_THREADSAFE "HandleForceSpeedChangeAck";
  DEFINE_OPCODE_HANDLER "CMSG_MOVE_FORCE_PITCH_RATE_CHANGE_ACK" STATUS_LOGGEDIN PROCESS_THREADSAFE "HandleForceSpeedChangeAck";
  DEFINE_OPCODE_HANDLER "CMSG_MOVE_FORCE_RUN_BACK_SPEED_CHANGE_ACK" STATUS_LOGGEDIN PROCESS_THREADSAFE "HandleForceSpeedChangeAck";
  DEFINE_OPCODE_HANDLER "CMSG_MOVE_FORCE_RUN_SPEED_CHANGE_ACK" STATUS_LOGGEDIN PROCESS_THREADSAFE "HandleForceSpeedChangeAck";
  DEFINE_OPCODE_HANDLER "CMSG_MOVE_FORCE_SWIM_BACK_SPEED_CHANGE_ACK" STATUS_LOGGEDIN PROCESS_THREADSAFE "HandleForceSpeedChangeAck";
  DEFINE_OPCODE_HANDLER "CMSG_MOVE_FORCE_SWIM_SPEED_CHANGE_ACK" STATUS_LOGGEDIN PROCESS_THREADSAFE "HandleForceSpeedChangeAck";
  DEFINE_OPCODE_HANDLER "CMSG_MOVE_FORCE_TURN_RATE_CHANGE_ACK" STATUS_LOGGEDIN PROCESS_THREADSAFE "HandleForceSpeedChangeAck";
  DEFINE_OPCODE_HANDLER "CMSG_MOVE_FORCE_WALK_SPEED_CHANGE_ACK" STATUS_LOGGEDIN PROCESS_THREADSAFE "HandleForceSpeedChangeAck";
  DEFINE_OPCODE_HANDLER "CMSG_MOVE_GRAVITY_DISABLE_ACK" STATUS_UNHANDLED PROCESS_INPLACE "Handle_NULL";
  DEFINE_OPCODE_HANDLER "CMSG_MOVE_GRAVITY_ENABLE_ACK" STATUS_UNHANDLED PROCESS_INPLACE "Handle_NULL";
  DEFINE_OPCODE_HANDLER "CMSG_MOVE_HOVER_ACK" STATUS_UNHANDLED PROCESS_THREADUNSAFE "HandleMoveHoverAck";
  DEFINE_OPCODE_HANDLER "CMSG_MOVE_KNOCK_BACK_ACK" STATUS_UNHANDLED PROCESS_THREADSAFE "HandleMoveKnockBackAck";
  DEFINE_OPCODE_HANDLER "CMSG_MOVE_NOT_ACTIVE_MOVER" STATUS_LOGGEDIN PROCESS_THREADSAFE "HandleMoveNotActiveMover";
  DEFINE_OPCODE_HANDLER "CMSG_MOVE_SET_CAN_FLY" STATUS_UNHANDLED PROCESS_INPLACE "Handle_NULL";
  DEFINE_OPCODE_HANDLER "CMSG_MOVE_SET_CAN_FLY_ACK" STATUS_UNHANDLED PROCESS_THREADSAFE "HandleMoveSetCanFlyAckOpcode";
  DEFINE_OPCODE_HANDLER "CMSG_MOVE_SET_CAN_TRANSITION_BETWEEN_SWIM_AND_FLY_ACK" STATUS_UNHANDLED PROCESS_INPLACE "Handle_NULL";
  DEFINE_OPCODE_HANDLER "CMSG_MOVE_SET_COLLISION_HEIGHT_ACK" STATUS_LOGGEDIN PROCESS_THREADSAFE "HandleSetCollisionHeightAck";
  DEFINE_OPCODE_HANDLER "CMSG_MOVE_SPLINE_DONE" STATUS_LOGGEDIN PROCESS_THREADSAFE "HandleMoveSplineDoneOpcode";
  DEFINE_OPCODE_HANDLER "CMSG_MOVE_TIME_SKIPPED" STATUS_LOGGEDIN PROCESS_INPLACE "HandleMoveTimeSkippedOpcode";
  DEFINE_OPCODE_HANDLER "CMSG_MOVE_WATER_WALK_ACK" STATUS_UNHANDLED PROCESS_THREADSAFE "HandleMoveWaterWalkAck";
  DEFINE_OPCODE_HANDLER "CMSG_NAME_QUERY" STATUS_LOGGEDIN PROCESS_THREADUNSAFE "HandleNameQueryOpcode";
  DEFINE_OPCODE_HANDLER "CMSG_NEXT_CINEMATIC_CAMERA" STATUS_LOGGEDIN PROCESS_THREADUNSAFE "HandleNextCinematicCamera";
  DEFINE_OPCODE_HANDLER "CMSG_NPC_TEXT_QUERY" STATUS_LOGGEDIN PROCESS_THREADUNSAFE "HandleNpcTextQueryOpcode";
  DEFINE_OPCODE_HANDLER "CMSG_OBJECT_UPDATE_FAILED" STATUS_LOGGEDIN PROCESS_INPLACE "HandleObjectUpdateFailedOpcode";
  DEFINE_OPCODE_HANDLER "CMSG_OBJECT_UPDATE_RESCUED" STATUS_UNHANDLED PROCESS_INPLACE "Handle_NULL";
  DEFINE_OPCODE_HANDLER "CMSG_OFFER_PETITION" STATUS_LOGGEDIN PROCESS_THREADUNSAFE "HandleOfferPetitionOpcode";
  DEFINE_OPCODE_HANDLER "CMSG_OPENING_CINEMATIC" STATUS_LOGGEDIN PROCESS_THREADUNSAFE "HandleOpeningCinematic";
  DEFINE_OPCODE_HANDLER "CMSG_OPEN_ITEM" STATUS_LOGGEDIN PROCESS_THREADUNSAFE "HandleOpenItemOpcode";
  DEFINE_OPCODE_HANDLER "CMSG_OPT_OUT_OF_LOOT" STATUS_AUTHED PROCESS_THREADUNSAFE "HandleOptOutOfLootOpcode";
  DEFINE_OPCODE_HANDLER "CMSG_PAGE_TEXT_QUERY" STATUS_LOGGEDIN PROCESS_THREADUNSAFE "HandlePageTextQueryOpcode";
  DEFINE_OPCODE_HANDLER "CMSG_PARTY_SILENCE" STATUS_UNHANDLED PROCESS_INPLACE "Handle_NULL";
  DEFINE_OPCODE_HANDLER "CMSG_PARTY_UNSILENCE" STATUS_UNHANDLED PROCESS_INPLACE "Handle_NULL";
  DEFINE_OPCODE_HANDLER "CMSG_PETITION_BUY" STATUS_LOGGEDIN PROCESS_THREADUNSAFE "HandlePetitionBuyOpcode";
  DEFINE_OPCODE_HANDLER "CMSG_PETITION_QUERY" STATUS_LOGGEDIN PROCESS_THREADUNSAFE "HandlePetitionQueryOpcode";
  DEFINE_OPCODE_HANDLER "CMSG_PETITION_SHOWLIST" STATUS_LOGGEDIN PROCESS_THREADUNSAFE "HandlePetitionShowListOpcode";
  DEFINE_OPCODE_HANDLER "CMSG_PETITION_SHOW_SIGNATURES" STATUS_LOGGEDIN PROCESS_THREADUNSAFE "HandlePetitionShowSignOpcode";
  DEFINE_OPCODE_HANDLER "CMSG_PETITION_SIGN" STATUS_LOGGEDIN PROCESS_THREADUNSAFE "HandlePetitionSignOpcode";
  DEFINE_OPCODE_HANDLER "CMSG_PET_ABANDON" STATUS_LOGGEDIN PROCESS_THREADUNSAFE "HandlePetAbandon";
  DEFINE_OPCODE_HANDLER "CMSG_PET_ACTION" STATUS_LOGGEDIN PROCESS_THREADUNSAFE "HandlePetAction";
  DEFINE_OPCODE_HANDLER "CMSG_PET_CANCEL_AURA" STATUS_LOGGEDIN PROCESS_THREADUNSAFE "HandlePetCancelAuraOpcode";
  DEFINE_OPCODE_HANDLER "CMSG_PET_CAST_SPELL" STATUS_LOGGEDIN PROCESS_THREADUNSAFE "HandlePetCastSpellOpcode";
  DEFINE_OPCODE_HANDLER "CMSG_PET_LEARN_TALENT" STATUS_LOGGEDIN PROCESS_THREADUNSAFE "HandlePetLearnTalent";
  DEFINE_OPCODE_HANDLER "CMSG_PET_NAME_QUERY" STATUS_LOGGEDIN PROCESS_THREADUNSAFE "HandlePetNameQuery";
  DEFINE_OPCODE_HANDLER "CMSG_PET_RENAME" STATUS_LOGGEDIN PROCESS_THREADUNSAFE "HandlePetRename";
  DEFINE_OPCODE_HANDLER "CMSG_PET_SET_ACTION" STATUS_LOGGEDIN PROCESS_THREADUNSAFE "HandlePetSetAction";
  DEFINE_OPCODE_HANDLER "CMSG_PET_SPELL_AUTOCAST" STATUS_LOGGEDIN PROCESS_THREADUNSAFE "HandlePetSpellAutocastOpcode";
  DEFINE_OPCODE_HANDLER "CMSG_PET_STOP_ATTACK" STATUS_LOGGEDIN PROCESS_THREADUNSAFE "HandlePetStopAttack";
  DEFINE_OPCODE_HANDLER "CMSG_PING" STATUS_NEVER PROCESS_INPLACE "Handle_EarlyProccess";
  DEFINE_OPCODE_HANDLER "CMSG_PLAYED_TIME" STATUS_LOGGEDIN PROCESS_THREADUNSAFE "HandlePlayedTime";
  DEFINE_OPCODE_HANDLER "CMSG_PLAYER_LOGIN" STATUS_AUTHED PROCESS_THREADUNSAFE "HandlePlayerLoginOpcode";
  DEFINE_OPCODE_HANDLER "CMSG_PLAYER_VEHICLE_ENTER" STATUS_LOGGEDIN PROCESS_THREADUNSAFE "HandleEnterPlayerVehicle";
  DEFINE_OPCODE_HANDLER "CMSG_PLAY_DANCE" STATUS_UNHANDLED PROCESS_INPLACE "Handle_NULL";
  DEFINE_OPCODE_HANDLER "CMSG_PUSHQUESTTOPARTY" STATUS_LOGGEDIN PROCESS_THREADUNSAFE "HandlePushQuestToParty";
  DEFINE_OPCODE_HANDLER "CMSG_PVP_LOG_DATA" STATUS_LOGGEDIN PROCESS_INPLACE "HandlePVPLogDataOpcode";
  DEFINE_OPCODE_HANDLER "CMSG_QUERY_BATTLEFIELD_STATE" STATUS_UNHANDLED PROCESS_INPLACE "Handle_NULL";
  DEFINE_OPCODE_HANDLER "CMSG_QUERY_GUILD_MEMBERS_FOR_RECIPE" STATUS_UNHANDLED PROCESS_INPLACE "Handle_NULL";
  DEFINE_OPCODE_HANDLER "CMSG_QUERY_GUILD_MEMBER_RECIPES" STATUS_UNHANDLED PROCESS_INPLACE "Handle_NULL";
  DEFINE_OPCODE_HANDLER "CMSG_QUERY_GUILD_RECIPES" STATUS_UNHANDLED PROCESS_INPLACE "Handle_NULL";
  DEFINE_OPCODE_HANDLER "CMSG_QUERY_GUILD_REWARDS" STATUS_LOGGEDIN PROCESS_INPLACE "HandleGuildRewardsQueryOpcode";
  DEFINE_OPCODE_HANDLER "CMSG_QUERY_GUILD_XP" STATUS_LOGGEDIN PROCESS_THREADUNSAFE "HandleGuildQueryXPOpcode";
  DEFINE_OPCODE_HANDLER "CMSG_QUERY_INSPECT_ACHIEVEMENTS" STATUS_LOGGEDIN PROCESS_THREADUNSAFE "HandleQueryInspectAchievements";
  DEFINE_OPCODE_HANDLER "CMSG_QUERY_QUESTS_COMPLETED" STATUS_LOGGEDIN PROCESS_THREADUNSAFE "HandleQueryQuestsCompleted";
  DEFINE_OPCODE_HANDLER "CMSG_QUERY_TIME" STATUS_LOGGEDIN PROCESS_THREADUNSAFE "HandleQueryTimeOpcode";
  DEFINE_OPCODE_HANDLER "CMSG_QUESTGIVER_ACCEPT_QUEST" STATUS_LOGGEDIN PROCESS_THREADUNSAFE "HandleQuestgiverAcceptQuestOpcode";
  DEFINE_OPCODE_HANDLER "CMSG_QUESTGIVER_CHOOSE_REWARD" STATUS_LOGGEDIN PROCESS_THREADUNSAFE "HandleQuestgiverChooseRewardOpcode";
  DEFINE_OPCODE_HANDLER "CMSG_QUESTGIVER_COMPLETE_QUEST" STATUS_LOGGEDIN PROCESS_THREADUNSAFE "HandleQuestgiverCompleteQuest";
  DEFINE_OPCODE_HANDLER "CMSG_QUESTGIVER_HELLO" STATUS_LOGGEDIN PROCESS_THREADUNSAFE "HandleQuestgiverHelloOpcode";
  DEFINE_OPCODE_HANDLER "CMSG_QUESTGIVER_QUERY_QUEST" STATUS_LOGGEDIN PROCESS_THREADUNSAFE "HandleQuestgiverQueryQuestOpcode";
  DEFINE_OPCODE_HANDLER "CMSG_QUESTGIVER_REQUEST_REWARD" STATUS_LOGGEDIN PROCESS_THREADUNSAFE "HandleQuestgiverRequestRewardOpcode";
  DEFINE_OPCODE_HANDLER "CMSG_QUESTGIVER_STATUS_MULTIPLE_QUERY" STATUS_LOGGEDIN PROCESS_THREADUNSAFE "HandleQuestgiverStatusMultipleQuery";
  DEFINE_OPCODE_HANDLER "CMSG_QUESTGIVER_STATUS_QUERY" STATUS_LOGGEDIN PROCESS_INPLACE "HandleQuestgiverStatusQueryOpcode";
  DEFINE_OPCODE_HANDLER "CMSG_QUESTLOG_REMOVE_QUEST" STATUS_LOGGEDIN PROCESS_THREADUNSAFE "HandleQuestLogRemoveQuest";
  DEFINE_OPCODE_HANDLER "CMSG_QUEST_CONFIRM_ACCEPT" STATUS_LOGGEDIN PROCESS_THREADUNSAFE "HandleQuestConfirmAccept";
  DEFINE_OPCODE_HANDLER "CMSG_QUEST_NPC_QUERY" STATUS_UNHANDLED PROCESS_INPLACE "Handle_NULL";
  DEFINE_OPCODE_HANDLER "CMSG_QUEST_POI_QUERY" STATUS_LOGGEDIN PROCESS_THREADUNSAFE "HandleQuestPOIQuery";
  DEFINE_OPCODE_HANDLER "CMSG_QUEST_QUERY" STATUS_LOGGEDIN PROCESS_THREADUNSAFE "HandleQuestQueryOpcode";
  DEFINE_OPCODE_HANDLER "CMSG_RANDOMIZE_CHAR_NAME" STATUS_AUTHED PROCESS_THREADUNSAFE "HandleRandomizeCharNameOpcode";
  DEFINE_OPCODE_HANDLER "CMSG_READY_FOR_ACCOUNT_DATA_TIMES" STATUS_AUTHED PROCESS_THREADUNSAFE "HandleReadyForAccountDataTimes";
  DEFINE_OPCODE_HANDLER "CMSG_READ_ITEM" STATUS_LOGGEDIN PROCESS_THREADUNSAFE "HandleReadItem";
  DEFINE_OPCODE_HANDLER "CMSG_REALM_QUERY" STATUS_AUTHED PROCESS_THREADUNSAFE "HandlePlayerNameQueryOpcode";
  DEFINE_OPCODE_HANDLER "SMSG_REALM_QUERY" STATUS_AUTHED PROCESS_THREADUNSAFE "Handle_ServerSide";
  DEFINE_OPCODE_HANDLER "CMSG_REALM_SPLIT" STATUS_AUTHED PROCESS_THREADUNSAFE "HandleRealmSplitOpcode";
  DEFINE_OPCODE_HANDLER "CMSG_RECLAIM_CORPSE" STATUS_LOGGEDIN PROCESS_THREADUNSAFE "HandleReclaimCorpseOpcode";
  DEFINE_OPCODE_HANDLER "CMSG_REDIRECTION_AUTH_PROOF" STATUS_UNHANDLED PROCESS_INPLACE "Handle_NULL";
  DEFINE_OPCODE_HANDLER "CMSG_REFORGE_ITEM" STATUS_LOGGEDIN PROCESS_INPLACE "HandleReforgeItemOpcode";
  DEFINE_OPCODE_HANDLER "CMSG_REORDER_CHARACTERS" STATUS_AUTHED PROCESS_INPLACE "HandleReorderCharacters";
  DEFINE_OPCODE_HANDLER "CMSG_REPAIR_ITEM" STATUS_LOGGEDIN PROCESS_THREADUNSAFE "HandleRepairItemOpcode";
  DEFINE_OPCODE_HANDLER "CMSG_REPOP_REQUEST" STATUS_LOGGEDIN PROCESS_THREADUNSAFE "HandleRepopRequestOpcode";
  DEFINE_OPCODE_HANDLER "CMSG_REPORT_PVP_AFK" STATUS_LOGGEDIN PROCESS_THREADUNSAFE "HandleReportPvPAFK";
  DEFINE_OPCODE_HANDLER "CMSG_REQUEST_ACCOUNT_DATA" STATUS_AUTHED PROCESS_THREADUNSAFE "HandleRequestAccountData";
  DEFINE_OPCODE_HANDLER "CMSG_REQUEST_CATEGORY_COOLDOWNS" STATUS_LOGGEDIN PROCESS_INPLACE "HandleRequestCategoryCooldowns";
  DEFINE_OPCODE_HANDLER "CMSG_REQUEST_CEMETERY_LIST" STATUS_UNHANDLED PROCESS_INPLACE "Handle_NULL";
  DEFINE_OPCODE_HANDLER "CMSG_REQUEST_HOTFIX" STATUS_AUTHED PROCESS_INPLACE "HandleRequestHotfix";
  DEFINE_OPCODE_HANDLER "CMSG_REQUEST_INSPECT_RATED_BG_STATS" STATUS_UNHANDLED PROCESS_INPLACE "Handle_NULL";
  DEFINE_OPCODE_HANDLER "CMSG_REQUEST_PARTY_MEMBER_STATS" STATUS_LOGGEDIN PROCESS_THREADUNSAFE "HandleRequestPartyMemberStatsOpcode";
  DEFINE_OPCODE_HANDLER "CMSG_REQUEST_PET_INFO" STATUS_UNHANDLED PROCESS_THREADUNSAFE "HandleRequestPetInfoOpcode";
  DEFINE_OPCODE_HANDLER "CMSG_REQUEST_PVP_OPTIONS_ENABLED" STATUS_LOGGEDIN PROCESS_INPLACE "HandleRequestPvpOptions";
  DEFINE_OPCODE_HANDLER "CMSG_REQUEST_PVP_REWARDS" STATUS_LOGGEDIN PROCESS_INPLACE "HandleRequestPvpReward";
  DEFINE_OPCODE_HANDLER "CMSG_REQUEST_RAID_INFO" STATUS_LOGGEDIN PROCESS_THREADUNSAFE "HandleRequestRaidInfoOpcode";
  DEFINE_OPCODE_HANDLER "CMSG_REQUEST_RATED_BG_INFO" STATUS_LOGGEDIN PROCESS_INPLACE "HandleRequestRatedBgInfo";
  DEFINE_OPCODE_HANDLER "CMSG_REQUEST_RATED_BG_STATS" STATUS_LOGGEDIN PROCESS_INPLACE "HandleRequestRatedBgStats";
  DEFINE_OPCODE_HANDLER "CMSG_REQUEST_RESEARCH_HISTORY" STATUS_UNHANDLED PROCESS_INPLACE "Handle_NULL";
  DEFINE_OPCODE_HANDLER "CMSG_REQUEST_VEHICLE_EXIT" STATUS_LOGGEDIN PROCESS_THREADUNSAFE "HandleRequestVehicleExit";
  DEFINE_OPCODE_HANDLER "CMSG_REQUEST_VEHICLE_NEXT_SEAT" STATUS_LOGGEDIN PROCESS_THREADUNSAFE "HandleChangeSeatsOnControlledVehicle";
  DEFINE_OPCODE_HANDLER "CMSG_REQUEST_VEHICLE_PREV_SEAT" STATUS_LOGGEDIN PROCESS_THREADUNSAFE "HandleChangeSeatsOnControlledVehicle";
  DEFINE_OPCODE_HANDLER "CMSG_REQUEST_VEHICLE_SWITCH_SEAT" STATUS_LOGGEDIN PROCESS_THREADUNSAFE "HandleChangeSeatsOnControlledVehicle";
  DEFINE_OPCODE_HANDLER "CMSG_RESET_FACTION_CHEAT" STATUS_UNHANDLED PROCESS_INPLACE "Handle_NULL";
  DEFINE_OPCODE_HANDLER "CMSG_RESET_INSTANCES" STATUS_LOGGEDIN PROCESS_THREADUNSAFE "HandleResetInstancesOpcode";
  DEFINE_OPCODE_HANDLER "CMSG_RESURRECT_RESPONSE" STATUS_LOGGEDIN PROCESS_THREADUNSAFE "HandleResurrectResponseOpcode";
  DEFINE_OPCODE_HANDLER "CMSG_RETURN_TO_GRAVEYARD" STATUS_LOGGEDIN PROCESS_THREADUNSAFE "HandleReturnToGraveyard";
  DEFINE_OPCODE_HANDLER "CMSG_ROLE_POLL_BEGIN" STATUS_UNHANDLED PROCESS_INPLACE "Handle_NULL";
  DEFINE_OPCODE_HANDLER "CMSG_SAVE_CUF_PROFILES" STATUS_LOGGEDIN PROCESS_INPLACE "HandleSaveCUFProfiles";
  DEFINE_OPCODE_HANDLER "CMSG_SELF_RES" STATUS_LOGGEDIN PROCESS_THREADUNSAFE "HandleSelfResOpcode";
  DEFINE_OPCODE_HANDLER "CMSG_SELL_ITEM" STATUS_LOGGEDIN PROCESS_THREADUNSAFE "HandleSellItemOpcode";
  DEFINE_OPCODE_HANDLER "CMSG_SEND_MAIL" STATUS_LOGGEDIN PROCESS_THREADUNSAFE "HandleSendMail";
  DEFINE_OPCODE_HANDLER "CMSG_SEND_SOR_REQUEST_VIA_ADDRESS" STATUS_UNHANDLED PROCESS_INPLACE "Handle_NULL";
  DEFINE_OPCODE_HANDLER "CMSG_SEND_SOR_REQUEST_VIA_BNET_ACCOUNT_ID" STATUS_UNHANDLED PROCESS_INPLACE "Handle_NULL";
  DEFINE_OPCODE_HANDLER "CMSG_SETSHEATHED" STATUS_LOGGEDIN PROCESS_INPLACE "HandleSetSheathedOpcode";
  DEFINE_OPCODE_HANDLER "CMSG_SET_ACTIONBAR_TOGGLES" STATUS_AUTHED PROCESS_THREADUNSAFE "HandleSetActionBarToggles";
  DEFINE_OPCODE_HANDLER "CMSG_SET_ACTION_BUTTON" STATUS_LOGGEDIN PROCESS_THREADUNSAFE "HandleSetActionButtonOpcode";
  DEFINE_OPCODE_HANDLER "CMSG_SET_ACTIVE_MOVER" STATUS_LOGGEDIN PROCESS_THREADUNSAFE "HandleSetActiveMoverOpcode";
  DEFINE_OPCODE_HANDLER "CMSG_SET_ACTIVE_VOICE_CHANNEL" STATUS_UNHANDLED PROCESS_THREADUNSAFE "HandleSetActiveVoiceChannel";
  DEFINE_OPCODE_HANDLER "CMSG_SET_ALLOW_LOW_LEVEL_RAID1" STATUS_UNHANDLED PROCESS_INPLACE "Handle_NULL";
  DEFINE_OPCODE_HANDLER "CMSG_SET_ALLOW_LOW_LEVEL_RAID2" STATUS_UNHANDLED PROCESS_INPLACE "Handle_NULL";
  DEFINE_OPCODE_HANDLER "CMSG_SET_CHANNEL_WATCH" STATUS_LOGGEDIN PROCESS_THREADUNSAFE "HandleSetChannelWatch";
  DEFINE_OPCODE_HANDLER "CMSG_SET_CONTACT_NOTES" STATUS_LOGGEDIN PROCESS_THREADUNSAFE "HandleSetContactNotesOpcode";
  DEFINE_OPCODE_HANDLER "CMSG_SET_CURRENCY_FLAGS" STATUS_UNHANDLED PROCESS_INPLACE "Handle_NULL";
  DEFINE_OPCODE_HANDLER "CMSG_SET_EVERYONE_IS_ASSISTANT" STATUS_UNHANDLED PROCESS_INPLACE "Handle_NULL";
  DEFINE_OPCODE_HANDLER "CMSG_SET_FACTION_ATWAR" STATUS_LOGGEDIN PROCESS_THREADUNSAFE "HandleSetFactionAtWar";
  DEFINE_OPCODE_HANDLER "CMSG_SET_FACTION_INACTIVE" STATUS_LOGGEDIN PROCESS_THREADUNSAFE "HandleSetFactionInactiveOpcode";
  DEFINE_OPCODE_HANDLER "CMSG_SET_GUILD_BANK_TEXT" STATUS_LOGGEDIN PROCESS_THREADUNSAFE "HandleSetGuildBankTabText";
  DEFINE_OPCODE_HANDLER "CMSG_SET_PET_SLOT" STATUS_UNHANDLED PROCESS_INPLACE "Handle_NULL";
  DEFINE_OPCODE_HANDLER "CMSG_SET_PLAYER_DECLINED_NAMES" STATUS_AUTHED PROCESS_THREADUNSAFE "HandleSetPlayerDeclinedNames";
  DEFINE_OPCODE_HANDLER "CMSG_SET_PREFERED_CEMETERY" STATUS_UNHANDLED PROCESS_INPLACE "Handle_NULL";
  DEFINE_OPCODE_HANDLER "CMSG_SET_PRIMARY_TALENT_TREE" STATUS_UNHANDLED PROCESS_INPLACE "Handle_NULL";
  DEFINE_OPCODE_HANDLER "CMSG_SET_RELATIVE_POSITION" STATUS_UNHANDLED PROCESS_INPLACE "Handle_NULL";
  DEFINE_OPCODE_HANDLER "CMSG_SET_SAVED_INSTANCE_EXTEND" STATUS_LOGGEDIN PROCESS_THREADUNSAFE "HandleSetSavedInstanceExtend";
  DEFINE_OPCODE_HANDLER "CMSG_SET_SELECTION" STATUS_LOGGEDIN PROCESS_INPLACE "HandleSetSelectionOpcode";
  DEFINE_OPCODE_HANDLER "CMSG_SET_TAXI_BENCHMARK_MODE" STATUS_AUTHED PROCESS_THREADUNSAFE "HandleSetTaxiBenchmarkOpcode";
  DEFINE_OPCODE_HANDLER "CMSG_SET_TITLE" STATUS_LOGGEDIN PROCESS_THREADUNSAFE "HandleSetTitleOpcode";
  DEFINE_OPCODE_HANDLER "CMSG_SET_TRADE_CURRENCY" STATUS_UNHANDLED PROCESS_INPLACE "Handle_NULL";
  DEFINE_OPCODE_HANDLER "CMSG_SET_TRADE_GOLD" STATUS_LOGGEDIN PROCESS_THREADUNSAFE "HandleSetTradeGoldOpcode";
  DEFINE_OPCODE_HANDLER "CMSG_SET_TRADE_ITEM" STATUS_LOGGEDIN PROCESS_THREADUNSAFE "HandleSetTradeItemOpcode";
  DEFINE_OPCODE_HANDLER "CMSG_SET_VEHICLE_REC_ID_ACK" STATUS_UNHANDLED PROCESS_INPLACE "Handle_NULL";
  DEFINE_OPCODE_HANDLER "CMSG_SET_WATCHED_FACTION" STATUS_LOGGEDIN PROCESS_THREADUNSAFE "HandleSetWatchedFactionOpcode";
  DEFINE_OPCODE_HANDLER "CMSG_SHOWING_CLOAK" STATUS_LOGGEDIN PROCESS_THREADUNSAFE "HandleShowingCloakOpcode";
  DEFINE_OPCODE_HANDLER "CMSG_SHOWING_HELM" STATUS_LOGGEDIN PROCESS_THREADUNSAFE "HandleShowingHelmOpcode";
  DEFINE_OPCODE_HANDLER "CMSG_SOCKET_GEMS" STATUS_LOGGEDIN PROCESS_THREADUNSAFE "HandleSocketOpcode"].

Definition Initialize_4 : list row := [
  DEFINE_OPCODE_HANDLER "CMSG_SPELLCLICK" STATUS_LOGGEDIN PROCESS_THREADUNSAFE "HandleSpellClick";
  DEFINE_OPCODE_HANDLER "CMSG_SPIRIT_HEALER_ACTIVATE" STATUS_LOGGEDIN PROCESS_THREADUNSAFE "HandleSpiritHealerActivateOpcode";
  DEFINE_OPCODE_HANDLER "CMSG_SPLIT_ITEM" STATUS_LOGGEDIN PROCESS_THREADUNSAFE "HandleSplitItemOpcode";
  DEFINE_OPCODE_HANDLER "CMSG_STANDSTATECHANGE" STATUS_LOGGEDIN PROCESS_THREADUNSAFE "HandleStandStateChangeOpcode";
  DEFINE_OPCODE_HANDLER "CMSG_STOP_DANCE" STATUS_UNHANDLED PROCESS_INPLACE "Handle_NULL";
  DEFINE_OPCODE_HANDLER "CMSG_SUBMIT_BUG" STATUS_UNHANDLED PROCESS_INPLACE "Handle_NULL";
  DEFINE_OPCODE_HANDLER "CMSG_SUBMIT_COMPLAIN" STATUS_UNHANDLED PROCESS_INPLACE "Handle_NULL";
  DEFINE_OPCODE_HANDLER "CMSG_SUGGESTION_SUBMIT" STATUS_UNHANDLED PROCESS_INPLACE "Handle_NULL";
  DEFINE_OPCODE_HANDLER "CMSG_SUMMON_RESPONSE" STATUS_LOGGEDIN PROCESS_THREADUNSAFE "HandleSummonResponseOpcode";
  DEFINE_OPCODE_HANDLER "CMSG_SUSPEND_TOKEN" STATUS_UNHANDLED PROCESS_INPLACE "Handle_NULL";
  DEFINE_OPCODE_HANDLER "CMSG_SWAP_INV_ITEM" STATUS_LOGGEDIN PROCESS_THREADUNSAFE "HandleSwapInvItemOpcode";
  DEFINE_OPCODE_HANDLER "CMSG_SWAP_ITEM" STATUS_LOGGEDIN PROCESS_THREADUNSAFE "HandleSwapItem";
  DEFINE_OPCODE_HANDLER "CMSG_SYNC_DANCE" STATUS_UNHANDLED PROCESS_INPLACE "Handle_NULL";
  DEFINE_OPCODE_HANDLER "CMSG_TAXINODE_STATUS_QUERY" STATUS_LOGGEDIN PROCESS_THREADSAFE "HandleTaxiNodeStatusQueryOpcode";
  DEFINE_OPCODE_HANDLER "CMSG_TAXIQUERYAVAILABLENODES" STATUS_LOGGEDIN PROCESS_THREADSAFE "HandleTaxiQueryAvailableNodes";
  DEFINE_OPCODE_HANDLER "CMSG_TELEPORT_TO_UNIT" STATUS_UNHANDLED PROCESS_INPLACE "Handle_NULL";
  DEFINE_OPCODE_HANDLER "CMSG_TEXT_EMOTE" STATUS_LOGGEDIN PROCESS_THREADUNSAFE "HandleTextEmoteOpcode";
  DEFINE_OPCODE_HANDLER "CMSG_TIME_ADJUSTMENT_RESPONSE" STATUS_UNHANDLED PROCESS_INPLACE "Handle_NULL";
  DEFINE_OPCODE_HANDLER "CMSG_TIME_SYNC_RESP" STATUS_LOGGEDIN PROCESS_INPLACE "HandleTimeSyncResp";
  DEFINE_OPCODE_HANDLER "CMSG_TIME_SYNC_RESP_FAILED" STATUS_UNHANDLED PROCESS_INPLACE "Handle_NULL";
  DEFINE_OPCODE_HANDLER "CMSG_TOGGLE_PVP" STATUS_LOGGEDIN PROCESS_THREADUNSAFE "HandleTogglePvP";
  DEFINE_OPCODE_HANDLER "CMSG_TOTEM_DESTROYED" STATUS_LOGGEDIN PROCESS_THREADUNSAFE "HandleTotemDestroyed";
  DEFINE_OPCODE_HANDLER "CMSG_TRAINER_BUY_SPELL" STATUS_LOGGEDIN PROCESS_THREADUNSAFE "HandleTrainerBuySpellOpcode";
  DEFINE_OPCODE_HANDLER "CMSG_TRAINER_LIST" STATUS_LOGGEDIN PROCESS_THREADUNSAFE "HandleTrainerListOpcode";
  DEFINE_OPCODE_HANDLER "CMSG_TRANSMOGRIFY_ITEMS" STATUS_LOGGEDIN PROCESS_THREADUNSAFE "HandleTransmogrifyItems";
  DEFINE_OPCODE_HANDLER "CMSG_TURN_IN_PETITION" STATUS_LOGGEDIN PROCESS_THREADUNSAFE "HandleTurnInPetitionOpcode";
  DEFINE_OPCODE_HANDLER "CMSG_TUTORIAL_CLEAR" STATUS_LOGGEDIN PROCESS_THREADUNSAFE "HandleTutorialClear";
  DEFINE_OPCODE_HANDLER "CMSG_TUTORIAL_FLAG" STATUS_LOGGEDIN PROCESS_THREADUNSAFE "HandleTutorialFlag";
  DEFINE_OPCODE_HANDLER "CMSG_TUTORIAL_RESET" STATUS_LOGGEDIN PROCESS_THREADUNSAFE "HandleTutorialReset";
  DEFINE_OPCODE_HANDLER "CMSG_UNACCEPT_TRADE" STATUS_LOGGEDIN PROCESS_THREADUNSAFE "HandleUnacceptTradeOpcode";
  DEFINE_OPCODE_HANDLER "CMSG_UNLEARN_SKILL" STATUS_LOGGEDIN PROCESS_THREADUNSAFE "HandleUnlearnSkillOpcode";
  DEFINE_OPCODE_HANDLER "CMSG_UNLEARN_SPECIALIZATION" STATUS_UNHANDLED PROCESS_INPLACE "Handle_NULL";
  DEFINE_OPCODE_HANDLER "CMSG_UNREGISTER_ALL_ADDON_PREFIXES" STATUS_LOGGEDIN PROCESS_THREADUNSAFE "HandleUnregisterAddonPrefixesOpcode";
  DEFINE_OPCODE_HANDLER "CMSG_UPDATE_ACCOUNT_DATA" STATUS_AUTHED PROCESS_THREADUNSAFE "HandleUpdateAccountData";
  DEFINE_OPCODE_HANDLER "CMSG_UPDATE_MISSILE_TRAJECTORY" STATUS_UNHANDLED PROCESS_THREADUNSAFE "HandleUpdateMissileTrajectory";
  DEFINE_OPCODE_HANDLER "CMSG_UPDATE_PROJECTILE_POSITION" STATUS_UNHANDLED PROCESS_THREADUNSAFE "HandleUpdateProjectilePosition";
  DEFINE_OPCODE_HANDLER "CMSG_USED_FOLLOW" STATUS_UNHANDLED PROCESS_INPLACE "Handle_NULL";
  DEFINE_OPCODE_HANDLER "CMSG_USE_ITEM" STATUS_LOGGEDIN PROCESS_THREADUNSAFE "HandleUseItemOpcode";
  DEFINE_OPCODE_HANDLER "CMSG_VIOLENCE_LEVEL" STATUS_AUTHED PROCESS_INPLACE "HandleViolenceLevel";
  DEFINE_OPCODE_HANDLER "CMSG_VOICE_SESSION_ENABLE" STATUS_AUTHED PROCESS_THREADUNSAFE "HandleVoiceSessionEnableOpcode";
  DEFINE_OPCODE_HANDLER "CMSG_VOID_STORAGE_QUERY" STATUS_LOGGEDIN PROCESS_INPLACE "HandleVoidStorageQuery";
  DEFINE_OPCODE_HANDLER "CMSG_VOID_STORAGE_TRANSFER" STATUS_LOGGEDIN PROCESS_INPLACE "HandleVoidStorageTransfer";
  DEFINE_OPCODE_HANDLER "CMSG_VOID_STORAGE_UNLOCK" STATUS_LOGGEDIN PROCESS_INPLACE "HandleVoidStorageUnlock";
  DEFINE_OPCODE_HANDLER "CMSG_VOID_SWAP_ITEM" STATUS_LOGGEDIN PROCESS_INPLACE "HandleVoidSwapItem";
  DEFINE_OPCODE_HANDLER "CMSG_WARDEN_DATA" STATUS_UNHANDLED PROCESS_THREADUNSAFE "HandleWardenDataOpcode";
  DEFINE_OPCODE_HANDLER "CMSG_WARGAME_ACCEPT" STATUS_UNHANDLED PROCESS_INPLACE "Handle_NULL";
  DEFINE_OPCODE_HANDLER "CMSG_WARGAME_START" STATUS_UNHANDLED PROCESS_INPLACE "Handle_NULL";
  DEFINE_OPCODE_HANDLER "CMSG_WHO" STATUS_LOGGEDIN PROCESS_THREADUNSAFE "HandleWhoOpcode";
  DEFINE_OPCODE_HANDLER "CMSG_WHOIS" STATUS_LOGGEDIN PROCESS_THREADUNSAFE "HandleWhoisOpcode";
  DEFINE_OPCODE_HANDLER "CMSG_WORLD_STATE_UI_TIMER_UPDATE" STATUS_LOGGEDIN PROCESS_INPLACE "HandleWorldStateUITimerUpdate";
  DEFINE_OPCODE_HANDLER "CMSG_WORLD_TELEPORT" STATUS_UNHANDLED PROCESS_THREADUNSAFE "HandleWorldTeleportOpcode";
  DEFINE_OPCODE_HANDLER "CMSG_WRAP_ITEM" STATUS_UNHANDLED PROCESS_THREADUNSAFE "HandleWrapItemOpcode";
  DEFINE_OPCODE_HANDLER "CMSG_ZONEUPDATE" STATUS_LOGGEDIN PROCESS_THREADSAFE "HandleZoneUpdateOpcode";
  DEFINE_OPCODE_HANDLER "MSG_AUCTION_HELLO" STATUS_LOGGEDIN PROCESS_THREADUNSAFE "HandleAuctionHelloOpcode";
  DEFINE_OPCODE_HANDLER "MSG_CHANNEL_START" STATUS_NEVER PROCESS_INPLACE "Handle_ServerSide";
  DEFINE_OPCODE_HANDLER "MSG_CHANNEL_UPDATE" STATUS_NEVER PROCESS_INPLACE "Handle_ServerSide";
  DEFINE_OPCODE_HANDLER "MSG_CORPSE_QUERY" STATUS_LOGGEDIN PROCESS_THREADUNSAFE "HandleCorpseQueryOpcode";
  DEFINE_OPCODE_HANDLER "MSG_INSPECT_ARENA_TEAMS" STATUS_LOGGEDIN PROCESS_THREADUNSAFE "HandleInspectArenaTeamsOpcode";
  DEFINE_OPCODE_HANDLER "MSG_LIST_STABLED_PETS" STATUS_UNHANDLED PROCESS_THREADUNSAFE "HandleListStabledPetsOpcode";
  DEFINE_OPCODE_HANDLER "MSG_MINIMAP_PING" STATUS_LOGGEDIN PROCESS_THREADUNSAFE "HandleMinimapPingOpcode";
  DEFINE_OPCODE_HANDLER "MSG_MOVE_CHARM_TELEPORT_CHEAT" STATUS_UNHANDLED PROCESS_INPLACE "Handle_NULL";
  DEFINE_OPCODE_HANDLER "MSG_MOVE_FALL_LAND" STATUS_LOGGEDIN PROCESS_THREADSAFE "HandleMovementOpcodes";
  DEFINE_OPCODE_HANDLER "MSG_MOVE_HEARTBEAT" STATUS_LOGGEDIN PROCESS_THREADSAFE "HandleMovementOpcodes";
  DEFINE_OPCODE_HANDLER "MSG_MOVE_JUMP" STATUS_LOGGEDIN PROCESS_THREADSAFE "HandleMovementOpcodes";
  DEFINE_OPCODE_HANDLER "MSG_MOVE_SET_FACING" STATUS_LOGGEDIN PROCESS_THREADSAFE "HandleMovementOpcodes";
  DEFINE_OPCODE_HANDLER "MSG_MOVE_SET_PITCH" STATUS_LOGGEDIN PROCESS_THREADSAFE "HandleMovementOpcodes";
  DEFINE_OPCODE_HANDLER "MSG_MOVE_SET_RUN_MODE" STATUS_UNHANDLED PROCESS_INPLACE "Handle_NULL";
  DEFINE_OPCODE_HANDLER "MSG_MOVE_SET_WALK_MODE" STATUS_UNHANDLED PROCESS_INPLACE "Handle_NULL";
  DEFINE_OPCODE_HANDLER "MSG_MOVE_START_ASCEND" STATUS_LOGGEDIN PROCESS_THREADSAFE "HandleMovementOpcodes";
  DEFINE_OPCODE_HANDLER "MSG_MOVE_START_BACKWARD" STATUS_LOGGEDIN PROCESS_THREADSAFE "HandleMovementOpcodes";
  DEFINE_OPCODE_HANDLER "MSG_MOVE_START_DESCEND" STATUS_LOGGEDIN PROCESS_THREADSAFE "HandleMovementOpcodes";
  DEFINE_OPCODE_HANDLER "MSG_MOVE_START_FORWARD" STATUS_LOGGEDIN PROCESS_THREADSAFE "HandleMovementOpcodes";
  DEFINE_OPCODE_HANDLER "MSG_MOVE_START_PITCH_DOWN" STATUS_LOGGEDIN PROCESS_THREADSAFE "HandleMovementOpcodes";
  DEFINE_OPCODE_HANDLER "MSG_MOVE_START_PITCH_UP" STATUS_LOGGEDIN PROCESS_THREADSAFE "HandleMovementOpcodes";
  DEFINE_OPCODE_HANDLER "MSG_MOVE_START_STRAFE_LEFT" STATUS_LOGGEDIN PROCESS_THREADSAFE "HandleMovementOpcodes";
  DEFINE_OPCODE_HANDLER "MSG_MOVE_START_STRAFE_RIGHT" STATUS_LOGGEDIN PROCESS_THREADSAFE "HandleMovementOpcodes";
  DEFINE_OPCODE_HANDLER "MSG_MOVE_START_SWIM" STATUS_LOGGEDIN PROCESS_THREADSAFE "HandleMovementOpcodes";
  DEFINE_OPCODE_HANDLER "MSG_MOVE_START_TURN_LEFT" STATUS_LOGGEDIN PROCESS_THREADSAFE "HandleMovementOpcodes";
  DEFINE_OPCODE_HANDLER "MSG_MOVE_START_TURN_RIGHT" STATUS_LOGGEDIN PROCESS_THREADSAFE "HandleMovementOpcodes";
  DEFINE_OPCODE_HANDLER "MSG_MOVE_STOP" STATUS_LOGGEDIN PROCESS_THREADSAFE "HandleMovementOpcodes";
  DEFINE_OPCODE_HANDLER "MSG_MOVE_STOP_ASCEND" STATUS_LOGGEDIN PROCESS_THREADSAFE "HandleMovementOpcodes";
  DEFINE_OPCODE_HANDLER "MSG_MOVE_STOP_PITCH" STATUS_LOGGEDIN PROCESS_THREADSAFE "HandleMovementOpcodes";
  DEFINE_OPCODE_HANDLER "MSG_MOVE_STOP_STRAFE" STATUS_LOGGEDIN PROCESS_THREADSAFE "HandleMovementOpcodes";
  DEFINE_OPCODE_HANDLER "MSG_MOVE_STOP_SWIM" STATUS_LOGGEDIN PROCESS_THREADSAFE "HandleMovementOpcodes";
  DEFINE_OPCODE_HANDLER "MSG_MOVE_STOP_TURN" STATUS_LOGGEDIN PROCESS_THREADSAFE "HandleMovementOpcodes";
  DEFINE_OPCODE_HANDLER "MSG_MOVE_TELEPORT" STATUS_NEVER PROCESS_INPLACE "Handle_ServerSide";
  DEFINE_OPCODE_HANDLER "MSG_MOVE_TELEPORT_ACK" STATUS_LOGGEDIN PROCESS_THREADSAFE "HandleMoveTeleportAck";
  DEFINE_OPCODE_HANDLER "MSG_MOVE_TELEPORT_CHEAT" STATUS_UNHANDLED PROCESS_INPLACE "Handle_NULL";
  DEFINE_OPCODE_HANDLER "MSG_MOVE_TIME_SKIPPED" STATUS_UNHANDLED PROCESS_INPLACE "Handle_NULL";
  DEFINE_OPCODE_HANDLER "MSG_MOVE_TOGGLE_COLLISION_CHEAT" STATUS_UNHANDLED PROCESS_INPLACE "Handle_NULL";
  DEFINE_OPCODE_HANDLER "MSG_MOVE_WORLDPORT_ACK" STATUS_TRANSFER PROCESS_THREADUNSAFE "HandleMoveWorldportAckOpcode";
  DEFINE_OPCODE_HANDLER "MSG_NOTIFY_PARTY_SQUELCH" STATUS_UNHANDLED PROCESS_INPLACE "Handle_NULL";
  DEFINE_OPCODE_HANDLER "MSG_PARTY_ASSIGNMENT" STATUS_LOGGEDIN PROCESS_THREADUNSAFE "HandlePartyAssignmentOpcode";
  DEFINE_OPCODE_HANDLER "MSG_PETITION_DECLINE" STATUS_LOGGEDIN PROCESS_THREADUNSAFE "HandlePetitionDeclineOpcode";
  DEFINE_OPCODE_HANDLER "MSG_PETITION_RENAME" STATUS_LOGGEDIN PROCESS_THREADUNSAFE "HandlePetitionRenameOpcode";
  DEFINE_OPCODE_HANDLER "MSG_QUERY_NEXT_MAIL_TIME" STATUS_LOGGEDIN PROCESS_THREADUNSAFE "HandleQueryNextMailTime";
  DEFINE_OPCODE_HANDLER "MSG_QUEST_PUSH_RESULT" STATUS_LOGGEDIN PROCESS_THREADUNSAFE "HandleQuestPushResult";
  DEFINE_OPCODE_HANDLER "MSG_RAID_READY_CHECK" STATUS_LOGGEDIN PROCESS_THREADUNSAFE "HandleRaidReadyCheckOpcode";
  DEFINE_OPCODE_HANDLER "MSG_RAID_READY_CHECK_CONFIRM" STATUS_LOGGEDIN PROCESS_INPLACE "Handle_NULL";
  DEFINE_OPCODE_HANDLER "MSG_RAID_READY_CHECK_FINISHED" STATUS_LOGGEDIN PROCESS_THREADUNSAFE "HandleRaidReadyCheckFinishedOpcode";
  DEFINE_OPCODE_HANDLER "MSG_RAID_TARGET_UPDATE" STATUS_LOGGEDIN PROCESS_THREADUNSAFE "HandleRaidTargetUpdateOpcode";
  DEFINE_OPCODE_HANDLER "MSG_RANDOM_ROLL" STATUS_LOGGEDIN PROCESS_THREADUNSAFE "HandleRandomRollOpcode";
  DEFINE_OPCODE_HANDLER "MSG_SAVE_GUILD_EMBLEM" STATUS_LOGGEDIN PROCESS_THREADUNSAFE "HandleSaveGuildEmblemOpcode";
  DEFINE_OPCODE_HANDLER "MSG_SET_DUNGEON_DIFFICULTY" STATUS_LOGGEDIN PROCESS_THREADUNSAFE "HandleSetDungeonDifficultyOpcode";
  DEFINE_OPCODE_HANDLER "MSG_SET_RAID_DIFFICULTY" STATUS_LOGGEDIN PROCESS_THREADUNSAFE "HandleSetRaidDifficultyOpcode";
  DEFINE_OPCODE_HANDLER "MSG_TABARDVENDOR_ACTIVATE" STATUS_LOGGEDIN PROCESS_THREADUNSAFE "HandleTabardVendorActivateOpcode";
  DEFINE_OPCODE_HANDLER "MSG_TALENT_WIPE_CONFIRM" STATUS_LOGGEDIN PROCESS_THREADUNSAFE "HandleTalentWipeConfirmOpcode";
  DEFINE_OPCODE_HANDLER "MSG_VERIFY_CONNECTIVITY" STATUS_NEVER PROCESS_INPLACE "Handle_EarlyProccess";
  DEFINE_OPCODE_HANDLER "SMSG_ACCOUNT_DATA_TIMES" STATUS_NEVER PROCESS_INPLACE "Handle_ServerSide";
  DEFINE_OPCODE_HANDLER "SMSG_ACCOUNT_INFO_RESPONSE" STATUS_UNHANDLED PROCESS_INPLACE "Handle_ServerSide";
  DEFINE_OPCODE_HANDLER "SMSG_ACCOUNT_RESTRICTED_WARNING" STATUS_UNHANDLED PROCESS_INPLACE "Handle_ServerSide";
  DEFINE_OPCODE_HANDLER "SMSG_ACHIEVEMENT_DELETED" STATUS_NEVER PROCESS_INPLACE "Handle_ServerSide";
  DEFINE_OPCODE_HANDLER "SMSG_ACHIEVEMENT_EARNED" STATUS_NEVER PROCESS_INPLACE "Handle_ServerSide";
  DEFINE_OPCODE_HANDLER "SMSG_ACTION_BUTTONS" STATUS_NEVER PROCESS_INPLACE "Handle_ServerSide";
  DEFINE_OPCODE_HANDLER "SMSG_ACTIVATETAXIREPLY" STATUS_NEVER PROCESS_INPLACE "Handle_ServerSide";
  DEFINE_OPCODE_HANDLER "SMSG_ADDON_INFO" STATUS_NEVER PROCESS_INPLACE "Handle_ServerSide";
  DEFINE_OPCODE_HANDLER "SMSG_ADD_RUNE_POWER" STATUS_NEVER PROCESS_INPLACE "Handle_ServerSide";
  DEFINE_OPCODE_HANDLER "SMSG_AI_REACTION" STATUS_NEVER PROCESS_INPLACE "Handle_ServerSide";
  DEFINE_OPCODE_HANDLER "SMSG_ALL_ACHIEVEMENT_DATA" STATUS_NEVER PROCESS_INPLACE "Handle_ServerSide";
  DEFINE_OPCODE_HANDLER "SMSG_AREA_SPIRIT_HEALER_TIME" STATUS_NEVER PROCESS_INPLACE "Handle_ServerSide";
  DEFINE_OPCODE_HANDLER "SMSG_AREA_TRIGGER_MESSAGE" STATUS_NEVER PROCESS_INPLACE "Handle_ServerSide";
  DEFINE_OPCODE_HANDLER "SMSG_AREA_TRIGGER_MOVEMENT_UPDATE" STATUS_UNHANDLED PROCESS_INPLACE "Handle_ServerSide";
  DEFINE_OPCODE_HANDLER "SMSG_ARENA_ERROR" STATUS_NEVER PROCESS_INPLACE "Handle_ServerSide";
  DEFINE_OPCODE_HANDLER "SMSG_ARENA_UNIT_DESTROYED" STATUS_NEVER PROCESS_INPLACE "Handle_ServerSide";
  DEFINE_OPCODE_HANDLER "SMSG_ARENA_TEAM_CHANGE_FAILED_QUEUED" STATUS_UNHANDLED PROCESS_INPLACE "Handle_ServerSide";
  DEFINE_OPCODE_HANDLER "SMSG_ARENA_TEAM_COMMAND_RESULT" STATUS_NEVER PROCESS_INPLACE "Handle_ServerSide";
  DEFINE_OPCODE_HANDLER "SMSG_ARENA_TEAM_EVENT" STATUS_NEVER PROCESS_INPLACE "Handle_ServerSide";
  DEFINE_OPCODE_HANDLER "SMSG_ARENA_TEAM_INVITE" STATUS_NEVER PROCESS_INPLACE "Handle_ServerSide";
  DEFINE_OPCODE_HANDLER "SMSG_ARENA_TEAM_QUERY_RESPONSE" STATUS_NEVER PROCESS_INPLACE "Handle_ServerSide";
  DEFINE_OPCODE_HANDLER "SMSG_ARENA_TEAM_ROSTER" STATUS_NEVER PROCESS_INPLACE "Handle_ServerSide";
  DEFINE_OPCODE_HANDLER "SMSG_ARENA_TEAM_STATS" STATUS_NEVER PROCESS_INPLACE "Handle_ServerSide";
  DEFINE_OPCODE_HANDLER "SMSG_ATTACKERSTATEUPDATE" STATUS_NEVER PROCESS_INPLACE "Handle_ServerSide";
  DEFINE_OPCODE_HANDLER "SMSG_ATTACKSTART" STATUS_NEVER PROCESS_INPLACE "Handle_ServerSide";
  DEFINE_OPCODE_HANDLER "SMSG_ATTACKSTOP" STATUS_NEVER PROCESS_INPLACE "Handle_ServerSide";
  DEFINE_OPCODE_HANDLER "SMSG_ATTACKSWING_BADFACING" STATUS_NEVER PROCESS_INPLACE "Handle_ServerSide";
  DEFINE_OPCODE_HANDLER "SMSG_ATTACKSWING_CANT_ATTACK" STATUS_NEVER PROCESS_INPLACE "Handle_ServerSide";
  DEFINE_OPCODE_HANDLER "SMSG_ATTACKSWING_DEADTARGET" STATUS_NEVER PROCESS_INPLACE "Handle_ServerSide";
  DEFINE_OPCODE_HANDLER "SMSG_ATTACKSWING_NOTINRANGE" STATUS_NEVER PROCESS_INPLACE "Handle_ServerSide";
  DEFINE_OPCODE_HANDLER "SMSG_AUCTION_BIDDER_LIST_RESULT" STATUS_NEVER PROCESS_INPLACE "Handle_ServerSide";
  DEFINE_OPCODE_HANDLER "SMSG_AUCTION_BIDDER_NOTIFICATION" STATUS_NEVER PROCESS_INPLACE "Handle_ServerSide";
  DEFINE_OPCODE_HANDLER "SMSG_AUCTION_COMMAND_RESULT" STATUS_NEVER PROCESS_INPLACE "Handle_ServerSide";
  DEFINE_OPCODE_HANDLER "SMSG_AUCTION_LIST_PENDING_SALES" STATUS_NEVER PROCESS_INPLACE "Handle_ServerSide";
  DEFINE_OPCODE_HANDLER "SMSG_AUCTION_LIST_RESULT" STATUS_NEVER PROCESS_INPLACE "Handle_ServerSide";
  DEFINE_OPCODE_HANDLER "SMSG_AUCTION_OWNER_LIST_RESULT" STATUS_NEVER PROCESS_INPLACE "Handle_ServerSide";
  DEFINE_OPCODE_HANDLER "SMSG_AUCTION_OWNER_NOTIFICATION" STATUS_NEVER PROCESS_INPLACE "Handle_ServerSide";
  DEFINE_OPCODE_HANDLER "SMSG_AUCTION_REMOVED_NOTIFICATION" STATUS_NEVER PROCESS_INPLACE "Handle_ServerSide";
  DEFINE_OPCODE_HANDLER "SMSG_AURA_POINTS_DEPLETED" STATUS_UNHANDLED PROCESS_INPLACE "Handle_ServerSide";
  DEFINE_OPCODE_HANDLER "SMSG_AURA_UPDATE" STATUS_NEVER PROCESS_INPLACE "Handle_ServerSide";
  DEFINE_OPCODE_HANDLER "SMSG_AURA_UPDATE_ALL" STATUS_NEVER PROCESS_INPLACE "Handle_ServerSide";
  DEFINE_OPCODE_HANDLER "SMSG_AUTH_CHALLENGE" STATUS_NEVER PROCESS_INPLACE "Handle_ServerSide"].

Definition Initialize_5 : list row := [
  DEFINE_OPCODE_HANDLER "SMSG_AUTH_RESPONSE" STATUS_NEVER PROCESS_INPLACE "Handle_ServerSide";
  DEFINE_OPCODE_HANDLER "SMSG_AVAILABLE_VOICE_CHANNEL" STATUS_UNHANDLED PROCESS_INPLACE "Handle_ServerSide";
  DEFINE_OPCODE_HANDLER "SMSG_AVERAGE_ITEM_LEVEL_INFORM" STATUS_UNHANDLED PROCESS_INPLACE "Handle_ServerSide";
  DEFINE_OPCODE_HANDLER "SMSG_BARBER_SHOP_RESULT" STATUS_NEVER PROCESS_INPLACE "Handle_ServerSide";
  DEFINE_OPCODE_HANDLER "SMSG_BATTLEFIELD_LIST" STATUS_NEVER PROCESS_INPLACE "Handle_ServerSide";
  DEFINE_OPCODE_HANDLER "SMSG_BATTLEFIELD_MGR_EJECTED" STATUS_NEVER PROCESS_INPLACE "Handle_ServerSide";
  DEFINE_OPCODE_HANDLER "SMSG_BATTLEFIELD_MGR_EJECT_PENDING" STATUS_UNHANDLED PROCESS_INPLACE "Handle_ServerSide";
  DEFINE_OPCODE_HANDLER "SMSG_BATTLEFIELD_MGR_ENTERED" STATUS_NEVER PROCESS_INPLACE "Handle_ServerSide";
  DEFINE_OPCODE_HANDLER "SMSG_BATTLEFIELD_MGR_ENTRY_INVITE" STATUS_NEVER PROCESS_INPLACE "Handle_ServerSide";
  DEFINE_OPCODE_HANDLER "SMSG_BATTLEFIELD_MGR_EXIT_REQUEST" STATUS_UNHANDLED PROCESS_INPLACE "Handle_ServerSide";
  DEFINE_OPCODE_HANDLER "SMSG_BATTLEFIELD_MGR_QUEUE_INVITE" STATUS_NEVER PROCESS_INPLACE "Handle_ServerSide";
  DEFINE_OPCODE_HANDLER "SMSG_BATTLEFIELD_MGR_QUEUE_REQUEST_RESPONSE" STATUS_NEVER PROCESS_INPLACE "Handle_ServerSide";
  DEFINE_OPCODE_HANDLER "SMSG_BATTLEFIELD_MGR_STATE_CHANGE" STATUS_UNHANDLED PROCESS_INPLACE "Handle_ServerSide";
  DEFINE_OPCODE_HANDLER "SMSG_BATTLEFIELD_PLAYER_POSITIONS" STATUS_NEVER PROCESS_INPLACE "Handle_ServerSide";
  DEFINE_OPCODE_HANDLER "SMSG_BATTLEFIELD_PORT_DENIED" STATUS_UNHANDLED PROCESS_INPLACE "Handle_ServerSide";
  DEFINE_OPCODE_HANDLER "SMSG_BATTLEFIELD_RATED_INFO" STATUS_NEVER PROCESS_INPLACE "Handle_ServerSide";
  DEFINE_OPCODE_HANDLER "SMSG_BATTLEFIELD_STATUS" STATUS_NEVER PROCESS_INPLACE "Handle_ServerSide";
  DEFINE_OPCODE_HANDLER "SMSG_BATTLEFIELD_STATUS_QUEUED" STATUS_NEVER PROCESS_INPLACE "Handle_ServerSide";
  DEFINE_OPCODE_HANDLER "SMSG_BATTLEFIELD_STATUS_ACTIVE" STATUS_NEVER PROCESS_INPLACE "Handle_ServerSide";
  DEFINE_OPCODE_HANDLER "SMSG_BATTLEFIELD_STATUS_NEEDCONFIRMATION" STATUS_NEVER PROCESS_INPLACE "Handle_ServerSide";
  DEFINE_OPCODE_HANDLER "SMSG_BATTLEFIELD_STATUS_WAITFORGROUPS" STATUS_NEVER PROCESS_INPLACE "Handle_ServerSide";
  DEFINE_OPCODE_HANDLER "SMSG_BATTLEFIELD_STATUS_FAILED" STATUS_NEVER PROCESS_INPLACE "Handle_ServerSide";
  DEFINE_OPCODE_HANDLER "SMSG_BATTLEGROUND_INFO_THROTTLED" STATUS_UNHANDLED PROCESS_INPLACE "Handle_ServerSide";
  DEFINE_OPCODE_HANDLER "SMSG_BATTLEGROUND_PLAYER_JOINED" STATUS_NEVER PROCESS_INPLACE "Handle_ServerSide";
  DEFINE_OPCODE_HANDLER "SMSG_BATTLEGROUND_PLAYER_LEFT" STATUS_NEVER PROCESS_INPLACE "Handle_ServerSide";
  DEFINE_OPCODE_HANDLER "SMSG_BINDER_CONFIRM" STATUS_NEVER PROCESS_INPLACE "Handle_ServerSide";
  DEFINE_OPCODE_HANDLER "SMSG_BINDPOINTUPDATE" STATUS_NEVER PROCESS_INPLACE "Handle_ServerSide";
  DEFINE_OPCODE_HANDLER "SMSG_BREAK_TARGET" STATUS_NEVER PROCESS_INPLACE "Handle_ServerSide";
  DEFINE_OPCODE_HANDLER "SMSG_BUY_FAILED" STATUS_NEVER PROCESS_INPLACE "Handle_ServerSide";
  DEFINE_OPCODE_HANDLER "SMSG_BUY_ITEM" STATUS_NEVER PROCESS_INPLACE "Handle_ServerSide";
  DEFINE_OPCODE_HANDLER "SMSG_CALENDAR_ARENA_TEAM" STATUS_NEVER PROCESS_INPLACE "Handle_ServerSide";
  DEFINE_OPCODE_HANDLER "SMSG_CALENDAR_CLEAR_PENDING_ACTION" STATUS_NEVER PROCESS_INPLACE "Handle_ServerSide";
  DEFINE_OPCODE_HANDLER "SMSG_CALENDAR_COMMAND_RESULT" STATUS_NEVER PROCESS_INPLACE "Handle_ServerSide";
  DEFINE_OPCODE_HANDLER "SMSG_CALENDAR_EVENT_INVITE" STATUS_NEVER PROCESS_INPLACE "Handle_ServerSide";
  DEFINE_OPCODE_HANDLER "SMSG_CALENDAR_EVENT_INVITE_ALERT" STATUS_NEVER PROCESS_INPLACE "Handle_ServerSide";
  DEFINE_OPCODE_HANDLER "SMSG_CALENDAR_EVENT_INVITE_NOTES" STATUS_UNHANDLED PROCESS_INPLACE "Handle_ServerSide";
  DEFINE_OPCODE_HANDLER "SMSG_CALENDAR_EVENT_INVITE_NOTES_ALERT" STATUS_UNHANDLED PROCESS_INPLACE "Handle_ServerSide";
  DEFINE_OPCODE_HANDLER "SMSG_CALENDAR_EVENT_INVITE_REMOVED" STATUS_NEVER PROCESS_INPLACE "Handle_ServerSide";
  DEFINE_OPCODE_HANDLER "SMSG_CALENDAR_EVENT_INVITE_REMOVED_ALERT" STATUS_NEVER PROCESS_INPLACE "Handle_ServerSide";
  DEFINE_OPCODE_HANDLER "SMSG_CALENDAR_EVENT_INVITE_STATUS_ALERT" STATUS_UNHANDLED PROCESS_INPLACE "Handle_ServerSide";
  DEFINE_OPCODE_HANDLER "SMSG_CALENDAR_EVENT_MODERATOR_STATUS_ALERT" STATUS_NEVER PROCESS_INPLACE "Handle_ServerSide";
  DEFINE_OPCODE_HANDLER "SMSG_CALENDAR_EVENT_REMOVED_ALERT" STATUS_NEVER PROCESS_INPLACE "Handle_ServerSide";
  DEFINE_OPCODE_HANDLER "SMSG_CALENDAR_EVENT_STATUS" STATUS_NEVER PROCESS_INPLACE "Handle_ServerSide";
  DEFINE_OPCODE_HANDLER "SMSG_CALENDAR_EVENT_UPDATED_ALERT" STATUS_NEVER PROCESS_INPLACE "Handle_ServerSide";
  DEFINE_OPCODE_HANDLER "SMSG_CALENDAR_FILTER_GUILD" STATUS_NEVER PROCESS_INPLACE "Handle_ServerSide";
  DEFINE_OPCODE_HANDLER "SMSG_CALENDAR_RAID_LOCKOUT_ADDED" STATUS_NEVER PROCESS_INPLACE "Handle_ServerSide";
  DEFINE_OPCODE_HANDLER "SMSG_CALENDAR_RAID_LOCKOUT_REMOVED" STATUS_NEVER PROCESS_INPLACE "Handle_ServerSide";
  DEFINE_OPCODE_HANDLER "SMSG_CALENDAR_RAID_LOCKOUT_UPDATED" STATUS_NEVER PROCESS_INPLACE "Handle_ServerSide";
  DEFINE_OPCODE_HANDLER "SMSG_CALENDAR_SEND_CALENDAR" STATUS_NEVER PROCESS_INPLACE "Handle_ServerSide";
  DEFINE_OPCODE_HANDLER "SMSG_CALENDAR_SEND_EVENT" STATUS_NEVER PROCESS_INPLACE "Handle_ServerSide";
  DEFINE_OPCODE_HANDLER "SMSG_CALENDAR_SEND_NUM_PENDING" STATUS_NEVER PROCESS_INPLACE "Handle_ServerSide";
  DEFINE_OPCODE_HANDLER "SMSG_CAMERA_SHAKE" STATUS_UNHANDLED PROCESS_INPLACE "Handle_ServerSide";
  DEFINE_OPCODE_HANDLER "SMSG_CANCEL_AUTO_REPEAT" STATUS_NEVER PROCESS_INPLACE "Handle_ServerSide";
  DEFINE_OPCODE_HANDLER "SMSG_CANCEL_COMBAT" STATUS_NEVER PROCESS_INPLACE "Handle_ServerSide";
  DEFINE_OPCODE_HANDLER "SMSG_CAST_FAILED" STATUS_NEVER PROCESS_INPLACE "Handle_ServerSide";
  DEFINE_OPCODE_HANDLER "SMSG_CHANNEL_LIST" STATUS_NEVER PROCESS_INPLACE "Handle_ServerSide";
  DEFINE_OPCODE_HANDLER "SMSG_CHANNEL_MEMBER_COUNT" STATUS_NEVER PROCESS_INPLACE "Handle_ServerSide";
  DEFINE_OPCODE_HANDLER "SMSG_CHANNEL_NOTIFY" STATUS_NEVER PROCESS_INPLACE "Handle_ServerSide";
  DEFINE_OPCODE_HANDLER "SMSG_CHARACTER_LOGIN_FAILED" STATUS_UNHANDLED PROCESS_INPLACE "Handle_ServerSide";
  DEFINE_OPCODE_HANDLER "SMSG_CHAR_CREATE" STATUS_NEVER PROCESS_INPLACE "Handle_ServerSide";
  DEFINE_OPCODE_HANDLER "SMSG_CHAR_CUSTOMIZE" STATUS_NEVER PROCESS_INPLACE "Handle_ServerSide";
  DEFINE_OPCODE_HANDLER "SMSG_CHAR_DELETE" STATUS_NEVER PROCESS_INPLACE "Handle_ServerSide";
  DEFINE_OPCODE_HANDLER "SMSG_CHAR_ENUM" STATUS_NEVER PROCESS_INPLACE "Handle_ServerSide";
  DEFINE_OPCODE_HANDLER "SMSG_CHAR_FACTION_CHANGE" STATUS_NEVER PROCESS_INPLACE "Handle_ServerSide";
  DEFINE_OPCODE_HANDLER "SMSG_CHAR_RENAME" STATUS_NEVER PROCESS_INPLACE "Handle_ServerSide";
  DEFINE_OPCODE_HANDLER "SMSG_CHAT_IGNORED_ACCOUNT_MUTED" STATUS_UNHANDLED PROCESS_INPLACE "Handle_ServerSide";
  DEFINE_OPCODE_HANDLER "SMSG_CHAT_NOT_IN_PARTY" STATUS_UNHANDLED PROCESS_INPLACE "Handle_ServerSide";
  DEFINE_OPCODE_HANDLER "SMSG_CHAT_PLAYER_AMBIGUOUS" STATUS_UNHANDLED PROCESS_INPLACE "Handle_ServerSide";
  DEFINE_OPCODE_HANDLER "SMSG_CHAT_PLAYER_NOT_FOUND" STATUS_NEVER PROCESS_INPLACE "Handle_ServerSide";
  DEFINE_OPCODE_HANDLER "SMSG_CHAT_RESTRICTED" STATUS_NEVER PROCESS_INPLACE "Handle_ServerSide";
  DEFINE_OPCODE_HANDLER "SMSG_CHAT_SERVER_DISCONNECTED" STATUS_UNHANDLED PROCESS_INPLACE "Handle_ServerSide";
  DEFINE_OPCODE_HANDLER "SMSG_CHAT_SERVER_RECONNECTED" STATUS_UNHANDLED PROCESS_INPLACE "Handle_ServerSide";
  DEFINE_OPCODE_HANDLER "SMSG_CHAT_WRONG_FACTION" STATUS_NEVER PROCESS_INPLACE "Handle_ServerSide";
  DEFINE_OPCODE_HANDLER "SMSG_CLEAR_BOSS_EMOTES" STATUS_UNHANDLED PROCESS_INPLACE "Handle_ServerSide";
  DEFINE_OPCODE_HANDLER "SMSG_CLEAR_COOLDOWN" STATUS_NEVER PROCESS_INPLACE "Handle_ServerSide";
  DEFINE_OPCODE_HANDLER "SMSG_CLEAR_COOLDOWNS" STATUS_NEVER PROCESS_INPLACE "Handle_ServerSide";
  DEFINE_OPCODE_HANDLER "SMSG_CLEAR_FAR_SIGHT_IMMEDIATE" STATUS_UNHANDLED PROCESS_INPLACE "Handle_ServerSide";
  DEFINE_OPCODE_HANDLER "SMSG_CLEAR_TARGET" STATUS_NEVER PROCESS_INPLACE "Handle_ServerSide";
  DEFINE_OPCODE_HANDLER "SMSG_CLIENTCACHE_VERSION" STATUS_NEVER PROCESS_INPLACE "Handle_ServerSide";
  DEFINE_OPCODE_HANDLER "SMSG_CLIENT_CONTROL_UPDATE" STATUS_NEVER PROCESS_INPLACE "Handle_ServerSide";
  DEFINE_OPCODE_HANDLER "SMSG_COMBAT_EVENT_FAILED" STATUS_NEVER PROCESS_INPLACE "Handle_ServerSide";
  DEFINE_OPCODE_HANDLER "SMSG_COMMENTATOR_MAP_INFO" STATUS_UNHANDLED PROCESS_INPLACE "Handle_ServerSide";
  DEFINE_OPCODE_HANDLER "SMSG_COMMENTATOR_PARTY_INFO" STATUS_UNHANDLED PROCESS_INPLACE "Handle_ServerSide";
  DEFINE_OPCODE_HANDLER "SMSG_COMMENTATOR_PLAYER_INFO" STATUS_UNHANDLED PROCESS_INPLACE "Handle_ServerSide";
  DEFINE_OPCODE_HANDLER "SMSG_COMMENTATOR_SKIRMISH_QUEUE_RESULT1" STATUS_UNHANDLED PROCESS_INPLACE "Handle_ServerSide";
  DEFINE_OPCODE_HANDLER "SMSG_COMMENTATOR_SKIRMISH_QUEUE_RESULT2" STATUS_UNHANDLED PROCESS_INPLACE "Handle_ServerSide";
  DEFINE_OPCODE_HANDLER "SMSG_COMMENTATOR_STATE_CHANGED" STATUS_UNHANDLED PROCESS_INPLACE "Handle_ServerSide";
  DEFINE_OPCODE_HANDLER "SMSG_COMPLAIN_RESULT" STATUS_NEVER PROCESS_INPLACE "Handle_ServerSide";
  DEFINE_OPCODE_HANDLER "SMSG_COMPRESSED_MOVES" STATUS_UNHANDLED PROCESS_INPLACE "Handle_ServerSide";
  DEFINE_OPCODE_HANDLER "SMSG_COMSAT_CONNECT_FAIL" STATUS_UNHANDLED PROCESS_INPLACE "Handle_ServerSide";
  DEFINE_OPCODE_HANDLER "SMSG_COMSAT_DISCONNECT" STATUS_UNHANDLED PROCESS_INPLACE "Handle_ServerSide";
  DEFINE_OPCODE_HANDLER "SMSG_COMSAT_RECONNECT_TRY" STATUS_UNHANDLED PROCESS_INPLACE "Handle_ServerSide";
  DEFINE_OPCODE_HANDLER "SMSG_CONTACT_LIST" STATUS_NEVER PROCESS_INPLACE "Handle_ServerSide";
  DEFINE_OPCODE_HANDLER "SMSG_CONVERT_RUNE" STATUS_NEVER PROCESS_INPLACE "Handle_ServerSide";
  DEFINE_OPCODE_HANDLER "SMSG_COOLDOWN_CHEAT" STATUS_UNHANDLED PROCESS_INPLACE "Handle_ServerSide";
  DEFINE_OPCODE_HANDLER "SMSG_COOLDOWN_EVENT" STATUS_NEVER PROCESS_INPLACE "Handle_ServerSide";
  DEFINE_OPCODE_HANDLER "SMSG_CORPSE_MAP_POSITION_QUERY_RESPONSE" STATUS_UNHANDLED PROCESS_INPLACE "Handle_ServerSide";
  DEFINE_OPCODE_HANDLER "SMSG_CORPSE_NOT_IN_INSTANCE" STATUS_NEVER PROCESS_INPLACE "Handle_ServerSide";
  DEFINE_OPCODE_HANDLER "SMSG_CORPSE_RECLAIM_DELAY" STATUS_NEVER PROCESS_INPLACE "Handle_ServerSide";
  DEFINE_OPCODE_HANDLER "SMSG_CREATURE_QUERY_RESPONSE" STATUS_NEVER PROCESS_INPLACE "Handle_ServerSide";
  DEFINE_OPCODE_HANDLER "SMSG_CRITERIA_DELETED" STATUS_NEVER PROCESS_INPLACE "Handle_ServerSide";
  DEFINE_OPCODE_HANDLER "SMSG_CRITERIA_UPDATE" STATUS_NEVER PROCESS_INPLACE "Handle_ServerSide";
  DEFINE_OPCODE_HANDLER "SMSG_CROSSED_INEBRIATION_THRESHOLD" STATUS_NEVER PROCESS_INPLACE "Handle_ServerSide";
  DEFINE_OPCODE_HANDLER "SMSG_CURRENCY_LOOT_REMOVED" STATUS_UNHANDLED PROCESS_INPLACE "Handle_ServerSide";
  DEFINE_OPCODE_HANDLER "SMSG_CURRENCY_LOOT_RESTORED" STATUS_UNHANDLED PROCESS_INPLACE "Handle_ServerSide";
  DEFINE_OPCODE_HANDLER "SMSG_CUSTOM_LOAD_SCREEN" STATUS_NEVER PROCESS_INPLACE "Handle_ServerSide";
  DEFINE_OPCODE_HANDLER "SMSG_DAMAGE_CALC_LOG" STATUS_UNHANDLED PROCESS_INPLACE "Handle_ServerSide";
  DEFINE_OPCODE_HANDLER "SMSG_DANCE_QUERY_RESPONSE" STATUS_UNHANDLED PROCESS_INPLACE "Handle_ServerSide";
  DEFINE_OPCODE_HANDLER "SMSG_DB_REPLY" STATUS_NEVER PROCESS_INPLACE "Handle_ServerSide";
  DEFINE_OPCODE_HANDLER "SMSG_DEATH_RELEASE_LOC" STATUS_NEVER PROCESS_INPLACE "Handle_ServerSide";
  DEFINE_OPCODE_HANDLER "SMSG_DEBUG_RUNE_REGEN" STATUS_UNHANDLED PROCESS_INPLACE "Handle_ServerSide";
  DEFINE_OPCODE_HANDLER "SMSG_DEFENSE_MESSAGE" STATUS_UNHANDLED PROCESS_INPLACE "Handle_ServerSide";
  DEFINE_OPCODE_HANDLER "SMSG_DESTROY_OBJECT" STATUS_NEVER PROCESS_INPLACE "Handle_ServerSide";
  DEFINE_OPCODE_HANDLER "SMSG_DESTRUCTIBLE_BUILDING_DAMAGE" STATUS_NEVER PROCESS_INPLACE "Handle_ServerSide";
  DEFINE_OPCODE_HANDLER "SMSG_DIFFERENT_INSTANCE_FROM_PARTY" STATUS_UNHANDLED PROCESS_INPLACE "Handle_ServerSide";
  DEFINE_OPCODE_HANDLER "SMSG_DISENCHANT_CREDIT" STATUS_UNHANDLED PROCESS_INPLACE "Handle_ServerSide";
  DEFINE_OPCODE_HANDLER "SMSG_DISMOUNT" STATUS_NEVER PROCESS_INPLACE "Handle_ServerSide";
  DEFINE_OPCODE_HANDLER "SMSG_DISMOUNTRESULT" STATUS_NEVER PROCESS_INPLACE "Handle_ServerSide";
  DEFINE_OPCODE_HANDLER "SMSG_DISPEL_FAILED" STATUS_NEVER PROCESS_INPLACE "Handle_ServerSide";
  DEFINE_OPCODE_HANDLER "SMSG_DISPLAY_GAME_ERROR" STATUS_UNHANDLED PROCESS_INPLACE "Handle_ServerSide";
  DEFINE_OPCODE_HANDLER "SMSG_DONT_AUTO_PUSH_SPELLS_TO_ACTION_BAR" STATUS_UNHANDLED PROCESS_INPLACE "Handle_ServerSide";
  DEFINE_OPCODE_HANDLER "SMSG_DROP_NEW_CONNECTION" STATUS_UNHANDLED PROCESS_INPLACE "Handle_ServerSide";
  DEFINE_OPCODE_HANDLER "SMSG_DUEL_COMPLETE" STATUS_NEVER PROCESS_INPLACE "Handle_ServerSide";
  DEFINE_OPCODE_HANDLER "SMSG_DUEL_COUNTDOWN" STATUS_NEVER PROCESS_INPLACE "Handle_ServerSide";
  DEFINE_OPCODE_HANDLER "SMSG_DUEL_INBOUNDS" STATUS_NEVER PROCESS_INPLACE "Handle_ServerSide";
  DEFINE_OPCODE_HANDLER "SMSG_DUEL_OUTOFBOUNDS" STATUS_NEVER PROCESS_INPLACE "Handle_ServerSide";
  DEFINE_OPCODE_HANDLER "SMSG_DUEL_REQUESTED" STATUS_NEVER PROCESS_INPLACE "Handle_ServerSide"].

Definition Initialize_6 : list row := [
  DEFINE_OPCODE_HANDLER "SMSG_DUEL_WINNER" STATUS_NEVER PROCESS_INPLACE "Handle_ServerSide";
  DEFINE_OPCODE_HANDLER "SMSG_DUMP_RIDE_TICKETS_RESPONSE" STATUS_UNHANDLED PROCESS_INPLACE "Handle_ServerSide";
  DEFINE_OPCODE_HANDLER "SMSG_DURABILITY_DAMAGE_DEATH" STATUS_NEVER PROCESS_INPLACE "Handle_ServerSide";
  DEFINE_OPCODE_HANDLER "SMSG_ECHO_PARTY_SQUELCH" STATUS_UNHANDLED PROCESS_INPLACE "Handle_ServerSide";
  DEFINE_OPCODE_HANDLER "SMSG_EMOTE" STATUS_NEVER PROCESS_INPLACE "Handle_ServerSide";
  DEFINE_OPCODE_HANDLER "SMSG_ENABLE_BARBER_SHOP" STATUS_NEVER PROCESS_INPLACE "Handle_ServerSide";
  DEFINE_OPCODE_HANDLER "SMSG_ENCHANTMENTLOG" STATUS_NEVER PROCESS_INPLACE "Handle_ServerSide";
  DEFINE_OPCODE_HANDLER "SMSG_ENVIRONMENTALDAMAGELOG" STATUS_NEVER PROCESS_INPLACE "Handle_ServerSide";
  DEFINE_OPCODE_HANDLER "SMSG_EQUIPMENT_SET_LIST" STATUS_NEVER PROCESS_INPLACE "Handle_ServerSide";
  DEFINE_OPCODE_HANDLER "SMSG_EQUIPMENT_SET_SAVED" STATUS_NEVER PROCESS_INPLACE "Handle_ServerSide";
  DEFINE_OPCODE_HANDLER "SMSG_EQUIPMENT_SET_USE_RESULT" STATUS_NEVER PROCESS_INPLACE "Handle_ServerSide";
  DEFINE_OPCODE_HANDLER "SMSG_EXPECTED_SPAM_RECORDS" STATUS_UNHANDLED PROCESS_INPLACE "Handle_ServerSide";
  DEFINE_OPCODE_HANDLER "SMSG_EXPLORATION_EXPERIENCE" STATUS_NEVER PROCESS_INPLACE "Handle_ServerSide";
  DEFINE_OPCODE_HANDLER "SMSG_FAILED_PLAYER_CONDITION" STATUS_UNHANDLED PROCESS_INPLACE "Handle_ServerSide";
  DEFINE_OPCODE_HANDLER "SMSG_FEATURE_SYSTEM_STATUS" STATUS_NEVER PROCESS_INPLACE "Handle_ServerSide";
  DEFINE_OPCODE_HANDLER "SMSG_FEIGN_DEATH_RESISTED" STATUS_UNHANDLED PROCESS_INPLACE "Handle_ServerSide";
  DEFINE_OPCODE_HANDLER "SMSG_FISH_ESCAPED" STATUS_NEVER PROCESS_INPLACE "Handle_ServerSide";
  DEFINE_OPCODE_HANDLER "SMSG_FISH_NOT_HOOKED" STATUS_NEVER PROCESS_INPLACE "Handle_ServerSide";
  DEFINE_OPCODE_HANDLER "SMSG_FLIGHT_SPLINE_SYNC" STATUS_UNHANDLED PROCESS_INPLACE "Handle_ServerSide";
  DEFINE_OPCODE_HANDLER "SMSG_FLOOD_DETECTED" STATUS_UNHANDLED PROCESS_INPLACE "Handle_ServerSide";
  DEFINE_OPCODE_HANDLER "SMSG_FORCED_DEATH_UPDATE" STATUS_UNHANDLED PROCESS_INPLACE "Handle_ServerSide";
  DEFINE_OPCODE_HANDLER "SMSG_FORCE_SEND_QUEUED_PACKETS" STATUS_UNHANDLED PROCESS_INPLACE "Handle_ServerSide";
  DEFINE_OPCODE_HANDLER "SMSG_FORCE_SET_VEHICLE_REC_ID" STATUS_UNHANDLED PROCESS_INPLACE "Handle_ServerSide";
  DEFINE_OPCODE_HANDLER "SMSG_FORGE_MASTER_SET" STATUS_UNHANDLED PROCESS_INPLACE "Handle_ServerSide";
  DEFINE_OPCODE_HANDLER "SMSG_FRIEND_STATUS" STATUS_NEVER PROCESS_INPLACE "Handle_ServerSide";
  DEFINE_OPCODE_HANDLER "SMSG_GAMEOBJECT_CUSTOM_ANIM" STATUS_NEVER PROCESS_INPLACE "Handle_ServerSide";
  DEFINE_OPCODE_HANDLER "SMSG_GAMEOBJECT_DESPAWN_ANIM" STATUS_NEVER PROCESS_INPLACE "Handle_ServerSide";
  DEFINE_OPCODE_HANDLER "SMSG_GAMEOBJECT_PAGETEXT" STATUS_NEVER PROCESS_INPLACE "Handle_ServerSide";
  DEFINE_OPCODE_HANDLER "SMSG_GAMEOBJECT_QUERY_RESPONSE" STATUS_NEVER PROCESS_INPLACE "Handle_ServerSide";
  DEFINE_OPCODE_HANDLER "SMSG_GAMEOBJECT_RESET_STATE" STATUS_NEVER PROCESS_INPLACE "Handle_ServerSide";
  DEFINE_OPCODE_HANDLER "SMSG_GAMESPEED_SET" STATUS_UNHANDLED PROCESS_INPLACE "Handle_ServerSide";
  DEFINE_OPCODE_HANDLER "SMSG_GAMETIME_SET" STATUS_UNHANDLED PROCESS_INPLACE "Handle_ServerSide";
  DEFINE_OPCODE_HANDLER "SMSG_GAMETIME_UPDATE" STATUS_UNHANDLED PROCESS_INPLACE "Handle_ServerSide";
  DEFINE_OPCODE_HANDLER "SMSG_GAME_EVENT_DEBUG_LOG" STATUS_UNHANDLED PROCESS_INPLACE "Handle_ServerSide";
  DEFINE_OPCODE_HANDLER "SMSG_GAME_OBJECT_ACTIVATE_ANIM_KIT" STATUS_UNHANDLED PROCESS_INPLACE "Handle_ServerSide";
  DEFINE_OPCODE_HANDLER "SMSG_GMRESPONSE_DB_ERROR" STATUS_UNHANDLED PROCESS_INPLACE "Handle_ServerSide";
  DEFINE_OPCODE_HANDLER "SMSG_GMRESPONSE_RECEIVED" STATUS_NEVER PROCESS_INPLACE "Handle_ServerSide";
  DEFINE_OPCODE_HANDLER "SMSG_GMRESPONSE_STATUS_UPDATE" STATUS_NEVER PROCESS_INPLACE "Handle_ServerSide";
  DEFINE_OPCODE_HANDLER "SMSG_GMTICKET_CREATE" STATUS_NEVER PROCESS_INPLACE "Handle_ServerSide";
  DEFINE_OPCODE_HANDLER "SMSG_GMTICKET_DELETETICKET" STATUS_NEVER PROCESS_INPLACE "Handle_ServerSide";
  DEFINE_OPCODE_HANDLER "SMSG_GMTICKET_GETTICKET" STATUS_NEVER PROCESS_INPLACE "Handle_ServerSide";
  DEFINE_OPCODE_HANDLER "SMSG_GMTICKET_SYSTEMSTATUS" STATUS_NEVER PROCESS_INPLACE "Handle_ServerSide";
  DEFINE_OPCODE_HANDLER "SMSG_GMTICKET_UPDATETEXT" STATUS_NEVER PROCESS_INPLACE "Handle_ServerSide";
  DEFINE_OPCODE_HANDLER "SMSG_GM_MESSAGECHAT" STATUS_UNHANDLED PROCESS_INPLACE "Handle_ServerSide";
  DEFINE_OPCODE_HANDLER "SMSG_GM_PLAYER_INFO" STATUS_UNHANDLED PROCESS_INPLACE "Handle_ServerSide";
  DEFINE_OPCODE_HANDLER "SMSG_GM_TICKET_STATUS_UPDATE" STATUS_UNHANDLED PROCESS_INPLACE "Handle_ServerSide";
  DEFINE_OPCODE_HANDLER "SMSG_GODMODE" STATUS_UNHANDLED PROCESS_INPLACE "Handle_ServerSide";
  DEFINE_OPCODE_HANDLER "SMSG_GOSSIP_COMPLETE" STATUS_NEVER PROCESS_INPLACE "Handle_ServerSide";
  DEFINE_OPCODE_HANDLER "SMSG_GOSSIP_MESSAGE" STATUS_NEVER PROCESS_INPLACE "Handle_ServerSide";
  DEFINE_OPCODE_HANDLER "SMSG_GOSSIP_POI" STATUS_NEVER PROCESS_INPLACE "Handle_ServerSide";
  DEFINE_OPCODE_HANDLER "SMSG_GROUPACTION_THROTTLED" STATUS_UNHANDLED PROCESS_INPLACE "Handle_ServerSide";
  DEFINE_OPCODE_HANDLER "SMSG_GROUP_CANCEL" STATUS_UNHANDLED PROCESS_INPLACE "Handle_ServerSide";
  DEFINE_OPCODE_HANDLER "SMSG_GROUP_DECLINE" STATUS_NEVER PROCESS_INPLACE "Handle_ServerSide";
  DEFINE_OPCODE_HANDLER "SMSG_GROUP_DESTROYED" STATUS_NEVER PROCESS_INPLACE "Handle_ServerSide";
  DEFINE_OPCODE_HANDLER "SMSG_GROUP_INVITE" STATUS_NEVER PROCESS_INPLACE "Handle_ServerSide";
  DEFINE_OPCODE_HANDLER "SMSG_GROUP_LIST" STATUS_NEVER PROCESS_INPLACE "Handle_ServerSide";
  DEFINE_OPCODE_HANDLER "SMSG_GROUP_SET_LEADER" STATUS_NEVER PROCESS_INPLACE "Handle_ServerSide";
  DEFINE_OPCODE_HANDLER "SMSG_GROUP_SET_ROLE" STATUS_NEVER PROCESS_INPLACE "Handle_ServerSide";
  DEFINE_OPCODE_HANDLER "SMSG_GROUP_UNINVITE" STATUS_NEVER PROCESS_INPLACE "Handle_ServerSide";
  DEFINE_OPCODE_HANDLER "SMSG_GUILD_ACHIEVEMENT_DATA" STATUS_NEVER PROCESS_INPLACE "Handle_ServerSide";
  DEFINE_OPCODE_HANDLER "SMSG_GUILD_ACHIEVEMENT_DELETED" STATUS_NEVER PROCESS_INPLACE "Handle_ServerSide";
  DEFINE_OPCODE_HANDLER "SMSG_GUILD_ACHIEVEMENT_EARNED" STATUS_NEVER PROCESS_INPLACE "Handle_ServerSide";
  DEFINE_OPCODE_HANDLER "SMSG_GUILD_ACHIEVEMENT_MEMBERS" STATUS_UNHANDLED PROCESS_INPLACE "Handle_ServerSide";
  DEFINE_OPCODE_HANDLER "SMSG_GUILD_BANK_LIST" STATUS_NEVER PROCESS_INPLACE "Handle_ServerSide";
  DEFINE_OPCODE_HANDLER "SMSG_GUILD_BANK_LOG_QUERY_RESULT" STATUS_NEVER PROCESS_INPLACE "Handle_ServerSide";
  DEFINE_OPCODE_HANDLER "SMSG_GUILD_BANK_MONEY_WITHDRAWN" STATUS_NEVER PROCESS_INPLACE "Handle_ServerSide";
  DEFINE_OPCODE_HANDLER "SMSG_GUILD_BANK_QUERY_TEXT_RESULT" STATUS_NEVER PROCESS_INPLACE "Handle_ServerSide";
  DEFINE_OPCODE_HANDLER "SMSG_GUILD_CHALLENGE_COMPLETED" STATUS_UNHANDLED PROCESS_INPLACE "Handle_ServerSide";
  DEFINE_OPCODE_HANDLER "SMSG_GUILD_CHALLENGE_UPDATED" STATUS_UNHANDLED PROCESS_INPLACE "Handle_ServerSide";
  DEFINE_OPCODE_HANDLER "SMSG_GUILD_CHANGE_NAME_RESULT" STATUS_UNHANDLED PROCESS_INPLACE "Handle_ServerSide";
  DEFINE_OPCODE_HANDLER "SMSG_GUILD_COMMAND_RESULT" STATUS_NEVER PROCESS_INPLACE "Handle_ServerSide";
  DEFINE_OPCODE_HANDLER "SMSG_GUILD_COMMAND_RESULT_2" STATUS_NEVER PROCESS_INPLACE "Handle_ServerSide";
  DEFINE_OPCODE_HANDLER "SMSG_GUILD_CRITERIA_DATA" STATUS_NEVER PROCESS_INPLACE "Handle_ServerSide";
  DEFINE_OPCODE_HANDLER "SMSG_GUILD_CRITERIA_DELETED" STATUS_NEVER PROCESS_INPLACE "Handle_ServerSide";
  DEFINE_OPCODE_HANDLER "SMSG_GUILD_DECLINE" STATUS_NEVER PROCESS_INPLACE "Handle_ServerSide";
  DEFINE_OPCODE_HANDLER "SMSG_GUILD_EVENT" STATUS_NEVER PROCESS_INPLACE "Handle_ServerSide";
  DEFINE_OPCODE_HANDLER "SMSG_GUILD_EVENT_LOG_QUERY_RESULT" STATUS_NEVER PROCESS_INPLACE "Handle_ServerSide";
  DEFINE_OPCODE_HANDLER "SMSG_GUILD_FLAGGED_FOR_RENAME" STATUS_UNHANDLED PROCESS_INPLACE "Handle_ServerSide";
  DEFINE_OPCODE_HANDLER "SMSG_GUILD_INVITE" STATUS_NEVER PROCESS_INPLACE "Handle_ServerSide";
  DEFINE_OPCODE_HANDLER "SMSG_GUILD_INVITE_CANCEL" STATUS_UNHANDLED PROCESS_INPLACE "Handle_ServerSide";
  DEFINE_OPCODE_HANDLER "SMSG_GUILD_MAX_DAILY_XP" STATUS_NEVER PROCESS_INPLACE "Handle_ServerSide";
  DEFINE_OPCODE_HANDLER "SMSG_GUILD_MEMBERS_FOR_RECIPE" STATUS_UNHANDLED PROCESS_INPLACE "Handle_ServerSide";
  DEFINE_OPCODE_HANDLER "SMSG_GUILD_MEMBER_DAILY_RESET" STATUS_NEVER PROCESS_INPLACE "Handle_ServerSide";
  DEFINE_OPCODE_HANDLER "SMSG_GUILD_MEMBER_RECIPES" STATUS_UNHANDLED PROCESS_INPLACE "Handle_ServerSide";
  DEFINE_OPCODE_HANDLER "SMSG_GUILD_MEMBER_UPDATE_NOTE" STATUS_UNHANDLED PROCESS_INPLACE "Handle_ServerSide";
  DEFINE_OPCODE_HANDLER "SMSG_GUILD_MOVE_COMPLETE" STATUS_UNHANDLED PROCESS_INPLACE "Handle_ServerSide";
  DEFINE_OPCODE_HANDLER "SMSG_GUILD_MOVE_STARTING" STATUS_UNHANDLED PROCESS_INPLACE "Handle_ServerSide";
  DEFINE_OPCODE_HANDLER "SMSG_GUILD_NEWS_DELETED" STATUS_UNHANDLED PROCESS_INPLACE "Handle_ServerSide";
  DEFINE_OPCODE_HANDLER "SMSG_GUILD_NEWS_UPDATE" STATUS_NEVER PROCESS_INPLACE "Handle_ServerSide";
  DEFINE_OPCODE_HANDLER "SMSG_GUILD_PARTY_STATE_RESPONSE" STATUS_NEVER PROCESS_INPLACE "Handle_ServerSide";
  DEFINE_OPCODE_HANDLER "SMSG_GUILD_PERMISSIONS_QUERY_RESULTS" STATUS_NEVER PROCESS_INPLACE "Handle_ServerSide";
  DEFINE_OPCODE_HANDLER "SMSG_GUILD_QUERY_RESPONSE" STATUS_NEVER PROCESS_INPLACE "Handle_ServerSide";
  DEFINE_OPCODE_HANDLER "SMSG_GUILD_RANK" STATUS_NEVER PROCESS_INPLACE "Handle_ServerSide";
  DEFINE_OPCODE_HANDLER "SMSG_GUILD_RANKS_UPDATE" STATUS_NEVER PROCESS_INPLACE "Handle_ServerSide";
  DEFINE_OPCODE_HANDLER "SMSG_GUILD_RECIPES" STATUS_UNHANDLED PROCESS_INPLACE "Handle_ServerSide";
  DEFINE_OPCODE_HANDLER "SMSG_GUILD_RENAMED" STATUS_NEVER PROCESS_INPLACE "Handle_ServerSide";
  DEFINE_OPCODE_HANDLER "SMSG_GUILD_REPUTATION_REACTION_CHANGED" STATUS_UNHANDLED PROCESS_INPLACE "Handle_ServerSide";
  DEFINE_OPCODE_HANDLER "SMSG_GUILD_REPUTATION_WEEKLY_CAP" STATUS_NEVER PROCESS_INPLACE "Handle_ServerSide";
  DEFINE_OPCODE_HANDLER "SMSG_GUILD_RESET" STATUS_UNHANDLED PROCESS_INPLACE "Handle_ServerSide";
  DEFINE_OPCODE_HANDLER "SMSG_GUILD_REWARDS_LIST" STATUS_NEVER PROCESS_INPLACE "Handle_ServerSide";
  DEFINE_OPCODE_HANDLER "SMSG_GUILD_ROSTER" STATUS_NEVER PROCESS_INPLACE "Handle_ServerSide";
  DEFINE_OPCODE_HANDLER "SMSG_GUILD_UPDATE_ROSTER" STATUS_UNHANDLED PROCESS_INPLACE "Handle_ServerSide";
  DEFINE_OPCODE_HANDLER "SMSG_GUILD_XP" STATUS_NEVER PROCESS_INPLACE "Handle_ServerSide";
  DEFINE_OPCODE_HANDLER "SMSG_GUILD_XP_GAIN" STATUS_NEVER PROCESS_INPLACE "Handle_ServerSide";
  DEFINE_OPCODE_HANDLER "SMSG_HEALTH_UPDATE" STATUS_UNHANDLED PROCESS_INPLACE "Handle_ServerSide";
  DEFINE_OPCODE_HANDLER "SMSG_HIGHEST_THREAT_UPDATE" STATUS_NEVER PROCESS_INPLACE "Handle_ServerSide";
  DEFINE_OPCODE_HANDLER "SMSG_HOTFIX_INFO" STATUS_NEVER PROCESS_INPLACE "Handle_ServerSide";
  DEFINE_OPCODE_HANDLER "SMSG_HOTFIX_NOTIFY" STATUS_UNHANDLED PROCESS_INPLACE "Handle_ServerSide";
  DEFINE_OPCODE_HANDLER "SMSG_INITIALIZE_FACTIONS" STATUS_NEVER PROCESS_INPLACE "Handle_ServerSide";
  DEFINE_OPCODE_HANDLER "SMSG_INITIAL_SPELLS" STATUS_NEVER PROCESS_INPLACE "Handle_ServerSide";
  DEFINE_OPCODE_HANDLER "SMSG_INIT_CURRENCY" STATUS_NEVER PROCESS_INPLACE "Handle_ServerSide";
  DEFINE_OPCODE_HANDLER "SMSG_INIT_WORLD_STATES" STATUS_NEVER PROCESS_INPLACE "Handle_ServerSide";
  DEFINE_OPCODE_HANDLER "SMSG_INSPECT_HONOR_STATS" STATUS_NEVER PROCESS_INPLACE "Handle_ServerSide";
  DEFINE_OPCODE_HANDLER "SMSG_INSPECT_RATED_BG_STATS" STATUS_UNHANDLED PROCESS_INPLACE "Handle_ServerSide";
  DEFINE_OPCODE_HANDLER "SMSG_INSPECT_RESULTS_UPDATE" STATUS_UNHANDLED PROCESS_INPLACE "Handle_ServerSide";
  DEFINE_OPCODE_HANDLER "SMSG_INSPECT_TALENT" STATUS_NEVER PROCESS_THREADUNSAFE "Handle_ServerSide";
  DEFINE_OPCODE_HANDLER "SMSG_INSTANCE_LOCK_WARNING_QUERY" STATUS_NEVER PROCESS_INPLACE "Handle_ServerSide";
  DEFINE_OPCODE_HANDLER "SMSG_INSTANCE_RESET" STATUS_NEVER PROCESS_INPLACE "Handle_ServerSide";
  DEFINE_OPCODE_HANDLER "SMSG_INSTANCE_RESET_FAILED" STATUS_NEVER PROCESS_INPLACE "Handle_ServerSide";
  DEFINE_OPCODE_HANDLER "SMSG_INSTANCE_SAVE_CREATED" STATUS_NEVER PROCESS_INPLACE "Handle_ServerSide";
  DEFINE_OPCODE_HANDLER "SMSG_INVALIDATE_DANCE" STATUS_UNHANDLED PROCESS_INPLACE "Handle_ServerSide";
  DEFINE_OPCODE_HANDLER "SMSG_INVALIDATE_PLAYER" STATUS_UNHANDLED PROCESS_INPLACE "Handle_ServerSide";
  DEFINE_OPCODE_HANDLER "SMSG_INVALID_PROMOTION_CODE" STATUS_UNHANDLED PROCESS_INPLACE "Handle_ServerSide";
  DEFINE_OPCODE_HANDLER "SMSG_INVENTORY_CHANGE_FAILURE" STATUS_NEVER PROCESS_INPLACE "Handle_ServerSide";
  DEFINE_OPCODE_HANDLER "SMSG_ITEM_ADD_PASSIVE" STATUS_UNHANDLED PROCESS_INPLACE "Handle_ServerSide";
  DEFINE_OPCODE_HANDLER "SMSG_ITEM_COOLDOWN" STATUS_NEVER PROCESS_INPLACE "Handle_ServerSide";
  DEFINE_OPCODE_HANDLER "SMSG_ITEM_ENCHANT_TIME_UPDATE" STATUS_NEVER PROCESS_INPLACE "Handle_ServerSide";
  DEFINE_OPCODE_HANDLER "SMSG_ITEM_EXPIRE_PURCHASE_REFUND" STATUS_UNHANDLED PROCESS_INPLACE "Handle_ServerSide";
  DEFINE_OPCODE_HANDLER "SMSG_ITEM_PUSH_RESULT" STATUS_NEVER PROCESS_INPLACE "Handle_ServerSide";
  DEFINE_OPCODE_HANDLER "SMSG_ITEM_REFUND_INFO_RESPONSE" STATUS_NEVER PROCESS_INPLACE "Handle_ServerSide";
  DEFINE_OPCODE_HANDLER "SMSG_ITEM_REFUND_RESULT" STATUS_NEVER PROCESS_INPLACE "Handle_ServerSide";
  DEFINE_OPCODE_HANDLER "SMSG_ITEM_REMOVE_PASSIVE" STATUS_UNHANDLED PROCESS_INPLACE "Handle_ServerSide";
  DEFINE_OPCODE_HANDLER "SMSG_ITEM_SEND_PASSIVE" STATUS_UNHANDLED PROCESS_INPLACE "Handle_ServerSide";
  DEFINE_OPCODE_HANDLER "SMSG_ITEM_TEXT_QUERY_RESPONSE" STATUS_NEVER PROCESS_INPLACE "Handle_ServerSide";
  DEFINE_OPCODE_HANDLER "SMSG_ITEM_TIME_UPDATE" STATUS_NEVER PROCESS_INPLACE "Handle_ServerSide";
  DEFINE_OPCODE_HANDLER "SMSG_LEARNED_DANCE_MOVES" STATUS_NEVER PROCESS_INPLACE "Handle_ServerSide";
  DEFINE_OPCODE_HANDLER "SMSG_LEARNED_SPELL" STATUS_NEVER PROCESS_INPLACE "Handle_ServerSide";
  DEFINE_OPCODE_HANDLER "SMSG_LEVELUP_INFO" STATUS_NEVER PROCESS_INPLACE "Handle_ServerSide";
  DEFINE_OPCODE_HANDLER "SMSG_LFG_BOOT_PROPOSAL_UPDATE" STATUS_NEVER PROCESS_INPLACE "Handle_ServerSide";
  DEFINE_OPCODE_HANDLER "SMSG_LFG_DISABLED" STATUS_NEVER PROCESS_INPLACE "Handle_ServerSide";
  DEFINE_OPCODE_HANDLER "SMSG_LFG_JOIN_RESULT" STATUS_NEVER PROCESS_INPLACE "Handle_ServerSide";
  DEFINE_OPCODE_HANDLER "SMSG_LFG_OFFER_CONTINUE" STATUS_NEVER PROCESS_INPLACE "Handle_ServerSide";
  DEFINE_OPCODE_HANDLER "SMSG_LFG_PARTY_INFO" STATUS_NEVER PROCESS_INPLACE "Handle_ServerSide";
  DEFINE_OPCODE_HANDLER "SMSG_LFG_PLAYER_INFO" STATUS_NEVER PROCESS_INPLACE "Handle_ServerSide";
  DEFINE_OPCODE_HANDLER "SMSG_LFG_PLAYER_REWARD" STATUS_NEVER PROCESS_INPLACE "Handle_ServerSide";
  DEFINE_OPCODE_HANDLER "SMSG_LFG_PROPOSAL_UPDATE" STATUS_NEVER PROCESS_INPLACE "Handle_ServerSide";
  DEFINE_OPCODE_HANDLER "SMSG_LFG_QUEUE_STATUS" STATUS_NEVER PROCESS_INPLACE "Handle_ServerSide";
  DEFINE_OPCODE_HANDLER "SMSG_LFG_ROLE_CHECK_UPDATE" STATUS_NEVER PROCESS_INPLACE "Handle_ServerSide";
  DEFINE_OPCODE_HANDLER "SMSG_LFG_ROLE_CHOSEN" STATUS_NEVER PROCESS_INPLACE "Handle_ServerSide";
  DEFINE_OPCODE_HANDLER "SMSG_LFG_SLOT_INVALID" STATUS_UNHANDLED PROCESS_INPLACE "Handle_ServerSide"].

Definition Initialize_7 : list row := [
  DEFINE_OPCODE_HANDLER "SMSG_LFG_TELEPORT_DENIED" STATUS_NEVER PROCESS_INPLACE "Handle_ServerSide";
  DEFINE_OPCODE_HANDLER "SMSG_LFG_UPDATE_SEARCH" STATUS_NEVER PROCESS_INPLACE "Handle_ServerSide";
  DEFINE_OPCODE_HANDLER "SMSG_LFG_UPDATE_STATUS" STATUS_NEVER PROCESS_INPLACE "Handle_ServerSide";
  DEFINE_OPCODE_HANDLER "SMSG_LFG_UPDATE_STATUS_NONE" STATUS_UNHANDLED PROCESS_INPLACE "Handle_ServerSide";
  DEFINE_OPCODE_HANDLER "SMSG_LF_GUILD_APPLICANT_LIST_UPDATED" STATUS_NEVER PROCESS_INPLACE "Handle_ServerSide";
  DEFINE_OPCODE_HANDLER "SMSG_LF_GUILD_APPLICATIONS_LIST_CHANGED" STATUS_NEVER PROCESS_INPLACE "Handle_ServerSide";
  DEFINE_OPCODE_HANDLER "SMSG_LF_GUILD_BROWSE_UPDATED" STATUS_NEVER PROCESS_INPLACE "Handle_ServerSide";
  DEFINE_OPCODE_HANDLER "SMSG_LF_GUILD_COMMAND_RESULT" STATUS_NEVER PROCESS_INPLACE "Handle_ServerSide";
  DEFINE_OPCODE_HANDLER "SMSG_LF_GUILD_MEMBERSHIP_LIST_UPDATED" STATUS_NEVER PROCESS_INPLACE "Handle_ServerSide";
  DEFINE_OPCODE_HANDLER "SMSG_LF_GUILD_POST_UPDATED" STATUS_NEVER PROCESS_INPLACE "Handle_ServerSide";
  DEFINE_OPCODE_HANDLER "SMSG_LF_GUILD_RECRUIT_LIST_UPDATED" STATUS_NEVER PROCESS_INPLACE "Handle_ServerSide";
  DEFINE_OPCODE_HANDLER "SMSG_LIST_INVENTORY" STATUS_NEVER PROCESS_INPLACE "Handle_ServerSide";
  DEFINE_OPCODE_HANDLER "SMSG_LOAD_CUF_PROFILES" STATUS_NEVER PROCESS_INPLACE "Handle_ServerSide";
  DEFINE_OPCODE_HANDLER "SMSG_LOGIN_SETTIMESPEED" STATUS_NEVER PROCESS_INPLACE "Handle_ServerSide";
  DEFINE_OPCODE_HANDLER "SMSG_LOGIN_VERIFY_WORLD" STATUS_NEVER PROCESS_INPLACE "Handle_ServerSide";
  DEFINE_OPCODE_HANDLER "SMSG_LOGOUT_CANCEL_ACK" STATUS_NEVER PROCESS_INPLACE "Handle_ServerSide";
  DEFINE_OPCODE_HANDLER "SMSG_LOGOUT_COMPLETE" STATUS_NEVER PROCESS_INPLACE "Handle_ServerSide";
  DEFINE_OPCODE_HANDLER "SMSG_LOGOUT_RESPONSE" STATUS_NEVER PROCESS_INPLACE "Handle_ServerSide";
  DEFINE_OPCODE_HANDLER "SMSG_LOG_XPGAIN" STATUS_NEVER PROCESS_INPLACE "Handle_ServerSide";
  DEFINE_OPCODE_HANDLER "SMSG_LOOT_ALL_PASSED" STATUS_NEVER PROCESS_INPLACE "Handle_ServerSide";
  DEFINE_OPCODE_HANDLER "SMSG_LOOT_CLEAR_MONEY" STATUS_NEVER PROCESS_INPLACE "Handle_ServerSide";
  DEFINE_OPCODE_HANDLER "SMSG_LOOT_CONTENTS" STATUS_UNHANDLED PROCESS_INPLACE "Handle_ServerSide";
  DEFINE_OPCODE_HANDLER "SMSG_LOOT_ITEM_NOTIFY" STATUS_UNHANDLED PROCESS_INPLACE "Handle_ServerSide";
  DEFINE_OPCODE_HANDLER "SMSG_LOOT_LIST" STATUS_NEVER PROCESS_INPLACE "Handle_ServerSide";
  DEFINE_OPCODE_HANDLER "SMSG_LOOT_MASTER_LIST" STATUS_NEVER PROCESS_INPLACE "Handle_ServerSide";
  DEFINE_OPCODE_HANDLER "SMSG_LOOT_MONEY_NOTIFY" STATUS_NEVER PROCESS_INPLACE "Handle_ServerSide";
  DEFINE_OPCODE_HANDLER "SMSG_LOOT_RELEASE_RESPONSE" STATUS_NEVER PROCESS_INPLACE "Handle_ServerSide";
  DEFINE_OPCODE_HANDLER "SMSG_LOOT_REMOVED" STATUS_NEVER PROCESS_INPLACE "Handle_ServerSide";
  DEFINE_OPCODE_HANDLER "SMSG_LOOT_RESPONSE" STATUS_NEVER PROCESS_INPLACE "Handle_ServerSide";
  DEFINE_OPCODE_HANDLER "SMSG_LOOT_ROLL" STATUS_NEVER PROCESS_INPLACE "Handle_ServerSide";
  DEFINE_OPCODE_HANDLER "SMSG_LOOT_ROLL_WON" STATUS_NEVER PROCESS_INPLACE "Handle_ServerSide";
  DEFINE_OPCODE_HANDLER "SMSG_LOOT_SLOT_CHANGED" STATUS_NEVER PROCESS_INPLACE "Handle_ServerSide";
  DEFINE_OPCODE_HANDLER "SMSG_LOOT_START_ROLL" STATUS_NEVER PROCESS_INPLACE "Handle_ServerSide";
  DEFINE_OPCODE_HANDLER "SMSG_MAIL_LIST_RESULT" STATUS_NEVER PROCESS_INPLACE "Handle_ServerSide";
  DEFINE_OPCODE_HANDLER "SMSG_MAP_OBJ_EVENTS" STATUS_UNHANDLED PROCESS_INPLACE "Handle_ServerSide";
  DEFINE_OPCODE_HANDLER "SMSG_MEETINGSTONE_COMPLETE" STATUS_UNHANDLED PROCESS_INPLACE "Handle_ServerSide";
  DEFINE_OPCODE_HANDLER "SMSG_MEETINGSTONE_IN_PROGRESS" STATUS_UNHANDLED PROCESS_INPLACE "Handle_ServerSide";
  DEFINE_OPCODE_HANDLER "SMSG_MESSAGECHAT" STATUS_NEVER PROCESS_INPLACE "Handle_ServerSide";
  DEFINE_OPCODE_HANDLER "SMSG_MESSAGE_BOX" STATUS_UNHANDLED PROCESS_INPLACE "Handle_ServerSide";
  DEFINE_OPCODE_HANDLER "SMSG_MINIGAME_SETUP" STATUS_UNHANDLED PROCESS_INPLACE "Handle_ServerSide";
  DEFINE_OPCODE_HANDLER "SMSG_MINIGAME_STATE" STATUS_UNHANDLED PROCESS_INPLACE "Handle_ServerSide";
  DEFINE_OPCODE_HANDLER "SMSG_MIRRORIMAGE_DATA" STATUS_NEVER PROCESS_INPLACE "Handle_ServerSide";
  DEFINE_OPCODE_HANDLER "SMSG_MISSILE_CANCEL" STATUS_UNHANDLED PROCESS_INPLACE "Handle_ServerSide";
  DEFINE_OPCODE_HANDLER "SMSG_MODIFY_COOLDOWN" STATUS_NEVER PROCESS_INPLACE "Handle_ServerSide";
  DEFINE_OPCODE_HANDLER "SMSG_MONEY_NOTIFY" STATUS_UNHANDLED PROCESS_INPLACE "Handle_ServerSide";
  DEFINE_OPCODE_HANDLER "SMSG_MONSTER_MOVE" STATUS_NEVER PROCESS_INPLACE "Handle_ServerSide";
  DEFINE_OPCODE_HANDLER "SMSG_MONSTER_MOVE_TRANSPORT" STATUS_NEVER PROCESS_INPLACE "Handle_ServerSide";
  DEFINE_OPCODE_HANDLER "SMSG_MOTD" STATUS_NEVER PROCESS_INPLACE "Handle_ServerSide";
  DEFINE_OPCODE_HANDLER "SMSG_MOUNTRESULT" STATUS_UNHANDLED PROCESS_INPLACE "Handle_ServerSide";
  DEFINE_OPCODE_HANDLER "SMSG_MOUNTSPECIAL_ANIM" STATUS_NEVER PROCESS_INPLACE "Handle_ServerSide";
  DEFINE_OPCODE_HANDLER "SMSG_MOVE_COLLISION_DISABLE" STATUS_UNHANDLED PROCESS_INPLACE "Handle_ServerSide";
  DEFINE_OPCODE_HANDLER "SMSG_MOVE_COLLISION_ENABLE" STATUS_UNHANDLED PROCESS_INPLACE "Handle_ServerSide";
  DEFINE_OPCODE_HANDLER "SMSG_MOVE_FEATHER_FALL" STATUS_NEVER PROCESS_INPLACE "Handle_ServerSide";
  DEFINE_OPCODE_HANDLER "SMSG_MOVE_GRAVITY_DISABLE" STATUS_UNHANDLED PROCESS_INPLACE "Handle_ServerSide";
  DEFINE_OPCODE_HANDLER "SMSG_MOVE_GRAVITY_ENABLE" STATUS_UNHANDLED PROCESS_INPLACE "Handle_ServerSide";
  DEFINE_OPCODE_HANDLER "SMSG_MOVE_KNOCK_BACK" STATUS_NEVER PROCESS_INPLACE "Handle_ServerSide";
  DEFINE_OPCODE_HANDLER "SMSG_MOVE_LAND_WALK" STATUS_NEVER PROCESS_INPLACE "Handle_ServerSide";
  DEFINE_OPCODE_HANDLER "SMSG_MOVE_NORMAL_FALL" STATUS_NEVER PROCESS_INPLACE "Handle_ServerSide";
  DEFINE_OPCODE_HANDLER "SMSG_MOVE_ROOT" STATUS_NEVER PROCESS_INPLACE "Handle_ServerSide";
  DEFINE_OPCODE_HANDLER "SMSG_MOVE_SET_ACTIVE_MOVER" STATUS_NEVER PROCESS_INPLACE "Handle_ServerSide";
  DEFINE_OPCODE_HANDLER "SMSG_MOVE_SET_CAN_FLY" STATUS_NEVER PROCESS_INPLACE "Handle_ServerSide";
  DEFINE_OPCODE_HANDLER "SMSG_MOVE_SET_CAN_TRANSITION_BETWEEN_SWIM_AND_FLY" STATUS_UNHANDLED PROCESS_INPLACE "Handle_ServerSide";
  DEFINE_OPCODE_HANDLER "SMSG_MOVE_SET_COLLISION_HEIGHT" STATUS_NEVER PROCESS_INPLACE "Handle_ServerSide";
  DEFINE_OPCODE_HANDLER "SMSG_MOVE_SET_COMPOUND_STATE" STATUS_UNHANDLED PROCESS_INPLACE "Handle_ServerSide";
  DEFINE_OPCODE_HANDLER "SMSG_MOVE_SET_FLIGHT_BACK_SPEED" STATUS_NEVER PROCESS_INPLACE "Handle_ServerSide";
  DEFINE_OPCODE_HANDLER "SMSG_MOVE_SET_FLIGHT_SPEED" STATUS_NEVER PROCESS_INPLACE "Handle_ServerSide";
  DEFINE_OPCODE_HANDLER "SMSG_MOVE_SET_HOVER" STATUS_NEVER PROCESS_INPLACE "Handle_ServerSide";
  DEFINE_OPCODE_HANDLER "SMSG_MOVE_SET_PITCH_RATE" STATUS_NEVER PROCESS_INPLACE "Handle_ServerSide";
  DEFINE_OPCODE_HANDLER "SMSG_MOVE_SET_RUN_BACK_SPEED" STATUS_NEVER PROCESS_INPLACE "Handle_ServerSide";
  DEFINE_OPCODE_HANDLER "SMSG_MOVE_SET_RUN_SPEED" STATUS_NEVER PROCESS_INPLACE "Handle_ServerSide";
  DEFINE_OPCODE_HANDLER "SMSG_MOVE_SET_SWIM_BACK_SPEED" STATUS_NEVER PROCESS_INPLACE "Handle_ServerSide";
  DEFINE_OPCODE_HANDLER "SMSG_MOVE_SET_SWIM_SPEED" STATUS_NEVER PROCESS_INPLACE "Handle_ServerSide";
  DEFINE_OPCODE_HANDLER "SMSG_MOVE_SET_TURN_RATE" STATUS_NEVER PROCESS_INPLACE "Handle_ServerSide";
  DEFINE_OPCODE_HANDLER "SMSG_MOVE_SET_WALK_SPEED" STATUS_NEVER PROCESS_INPLACE "Handle_ServerSide";
  DEFINE_OPCODE_HANDLER "SMSG_MOVE_UNROOT" STATUS_NEVER PROCESS_INPLACE "Handle_ServerSide";
  DEFINE_OPCODE_HANDLER "SMSG_MOVE_UNSET_CAN_FLY" STATUS_NEVER PROCESS_INPLACE "Handle_ServerSide";
  DEFINE_OPCODE_HANDLER "SMSG_MOVE_UNSET_CAN_TRANSITION_BETWEEN_SWIM_AND_FLY" STATUS_UNHANDLED PROCESS_INPLACE "Handle_ServerSide";
  DEFINE_OPCODE_HANDLER "SMSG_MOVE_UNSET_HOVER" STATUS_NEVER PROCESS_INPLACE "Handle_ServerSide";
  DEFINE_OPCODE_HANDLER "SMSG_MOVE_UPDATE_COLLISION_HEIGHT" STATUS_UNHANDLED PROCESS_INPLACE "Handle_ServerSide";
  DEFINE_OPCODE_HANDLER "SMSG_MOVE_UPDATE_FLIGHT_BACK_SPEED" STATUS_UNHANDLED PROCESS_INPLACE "Handle_ServerSide";
  DEFINE_OPCODE_HANDLER "SMSG_MOVE_UPDATE_FLIGHT_SPEED" STATUS_UNHANDLED PROCESS_INPLACE "Handle_NULL";
  DEFINE_OPCODE_HANDLER "SMSG_MOVE_UPDATE_KNOCK_BACK" STATUS_UNHANDLED PROCESS_INPLACE "Handle_ServerSide";
  DEFINE_OPCODE_HANDLER "SMSG_MOVE_UPDATE_PITCH_RATE" STATUS_UNHANDLED PROCESS_INPLACE "Handle_ServerSide";
  DEFINE_OPCODE_HANDLER "SMSG_MOVE_UPDATE_RUN_BACK_SPEED" STATUS_UNHANDLED PROCESS_INPLACE "Handle_ServerSide";
  DEFINE_OPCODE_HANDLER "SMSG_MOVE_UPDATE_RUN_SPEED" STATUS_NEVER PROCESS_INPLACE "Handle_NULL";
  DEFINE_OPCODE_HANDLER "SMSG_MOVE_UPDATE_SWIM_BACK_SPEED" STATUS_UNHANDLED PROCESS_INPLACE "Handle_ServerSide";
  DEFINE_OPCODE_HANDLER "SMSG_MOVE_UPDATE_SWIM_SPEED" STATUS_UNHANDLED PROCESS_INPLACE "Handle_ServerSide";
  DEFINE_OPCODE_HANDLER "SMSG_MOVE_UPDATE_TELEPORT" STATUS_NEVER PROCESS_INPLACE "Handle_NULL";
  DEFINE_OPCODE_HANDLER "SMSG_MOVE_UPDATE_TURN_RATE" STATUS_UNHANDLED PROCESS_INPLACE "Handle_ServerSide";
  DEFINE_OPCODE_HANDLER "SMSG_MOVE_UPDATE_WALK_SPEED" STATUS_UNHANDLED PROCESS_INPLACE "Handle_ServerSide";
  DEFINE_OPCODE_HANDLER "SMSG_MOVE_WATER_WALK" STATUS_NEVER PROCESS_INPLACE "Handle_ServerSide";
  DEFINE_OPCODE_HANDLER "SMSG_MULTIPLE_PACKETS" STATUS_UNHANDLED PROCESS_INPLACE "Handle_ServerSide";
  DEFINE_OPCODE_HANDLER "SMSG_NAME_QUERY_RESPONSE" STATUS_NEVER PROCESS_INPLACE "Handle_ServerSide";
  DEFINE_OPCODE_HANDLER "SMSG_NEW_TAXI_PATH" STATUS_NEVER PROCESS_INPLACE "Handle_ServerSide";
  DEFINE_OPCODE_HANDLER "SMSG_NEW_WORLD" STATUS_NEVER PROCESS_INPLACE "Handle_ServerSide";
  DEFINE_OPCODE_HANDLER "SMSG_NEW_WORLD_ABORT" STATUS_UNHANDLED PROCESS_INPLACE "Handle_ServerSide";
  DEFINE_OPCODE_HANDLER "SMSG_NOTIFICATION" STATUS_NEVER PROCESS_INPLACE "Handle_ServerSide";
  DEFINE_OPCODE_HANDLER "SMSG_NOTIFY_DANCE" STATUS_UNHANDLED PROCESS_INPLACE "Handle_ServerSide";
  DEFINE_OPCODE_HANDLER "SMSG_NOTIFY_DEST_LOC_SPELL_CAST" STATUS_UNHANDLED PROCESS_INPLACE "Handle_ServerSide";
  DEFINE_OPCODE_HANDLER "SMSG_NPC_TEXT_UPDATE" STATUS_NEVER PROCESS_INPLACE "Handle_ServerSide";
  DEFINE_OPCODE_HANDLER "SMSG_OFFER_PETITION_ERROR" STATUS_UNHANDLED PROCESS_INPLACE "Handle_ServerSide";
  DEFINE_OPCODE_HANDLER "SMSG_ON_CANCEL_EXPECTED_RIDE_VEHICLE_AURA" STATUS_NEVER PROCESS_INPLACE "Handle_ServerSide";
  DEFINE_OPCODE_HANDLER "SMSG_OPEN_CONTAINER" STATUS_UNHANDLED PROCESS_INPLACE "Handle_ServerSide";
  DEFINE_OPCODE_HANDLER "SMSG_OPEN_LFG_DUNGEON_FINDER" STATUS_UNHANDLED PROCESS_INPLACE "Handle_ServerSide";
  DEFINE_OPCODE_HANDLER "SMSG_OVERRIDE_LIGHT" STATUS_NEVER PROCESS_INPLACE "Handle_ServerSide";
  DEFINE_OPCODE_HANDLER "SMSG_PAGE_TEXT_QUERY_RESPONSE" STATUS_NEVER PROCESS_INPLACE "Handle_ServerSide";
  DEFINE_OPCODE_HANDLER "SMSG_PARTYKILLLOG" STATUS_NEVER PROCESS_INPLACE "Handle_ServerSide";
  DEFINE_OPCODE_HANDLER "SMSG_PARTY_COMMAND_RESULT" STATUS_NEVER PROCESS_INPLACE "Handle_ServerSide";
  DEFINE_OPCODE_HANDLER "SMSG_PARTY_MEMBER_STATS" STATUS_NEVER PROCESS_INPLACE "Handle_ServerSide";
  DEFINE_OPCODE_HANDLER "SMSG_PARTY_MEMBER_STATS_FULL" STATUS_NEVER PROCESS_INPLACE "Handle_ServerSide";
  DEFINE_OPCODE_HANDLER "SMSG_PAUSE_MIRROR_TIMER" STATUS_UNHANDLED PROCESS_INPLACE "Handle_ServerSide";
  DEFINE_OPCODE_HANDLER "SMSG_PERIODICAURALOG" STATUS_NEVER PROCESS_INPLACE "Handle_ServerSide";
  DEFINE_OPCODE_HANDLER "SMSG_PETGODMODE" STATUS_NEVER PROCESS_INPLACE "Handle_ServerSide";
  DEFINE_OPCODE_HANDLER "SMSG_PETITION_ALREADY_SIGNED" STATUS_UNHANDLED PROCESS_INPLACE "Handle_ServerSide";
  DEFINE_OPCODE_HANDLER "SMSG_PETITION_QUERY_RESPONSE" STATUS_NEVER PROCESS_INPLACE "Handle_ServerSide";
  DEFINE_OPCODE_HANDLER "SMSG_PETITION_SHOWLIST" STATUS_NEVER PROCESS_INPLACE "Handle_ServerSide";
  DEFINE_OPCODE_HANDLER "SMSG_PETITION_SHOW_SIGNATURES" STATUS_NEVER PROCESS_INPLACE "Handle_ServerSide";
  DEFINE_OPCODE_HANDLER "SMSG_PETITION_SIGN_RESULTS" STATUS_NEVER PROCESS_INPLACE "Handle_ServerSide";
  DEFINE_OPCODE_HANDLER "SMSG_PET_ACTION_FEEDBACK" STATUS_NEVER PROCESS_INPLACE "Handle_ServerSide";
  DEFINE_OPCODE_HANDLER "SMSG_PET_ACTION_SOUND" STATUS_NEVER PROCESS_INPLACE "Handle_ServerSide";
  DEFINE_OPCODE_HANDLER "SMSG_PET_ADDED" STATUS_UNHANDLED PROCESS_INPLACE "Handle_ServerSide";
  DEFINE_OPCODE_HANDLER "SMSG_PET_BROKEN" STATUS_UNHANDLED PROCESS_INPLACE "Handle_ServerSide";
  DEFINE_OPCODE_HANDLER "SMSG_PET_CAST_FAILED" STATUS_NEVER PROCESS_INPLACE "Handle_ServerSide";
  DEFINE_OPCODE_HANDLER "SMSG_PET_DISMISS_SOUND" STATUS_UNHANDLED PROCESS_INPLACE "Handle_ServerSide";
  DEFINE_OPCODE_HANDLER "SMSG_PET_GUIDS" STATUS_UNHANDLED PROCESS_INPLACE "Handle_ServerSide";
  DEFINE_OPCODE_HANDLER "SMSG_PET_LEARNED_SPELL" STATUS_NEVER PROCESS_INPLACE "Handle_ServerSide";
  DEFINE_OPCODE_HANDLER "SMSG_PET_MODE" STATUS_UNHANDLED PROCESS_INPLACE "Handle_ServerSide";
  DEFINE_OPCODE_HANDLER "SMSG_PET_NAME_INVALID" STATUS_NEVER PROCESS_INPLACE "Handle_ServerSide";
  DEFINE_OPCODE_HANDLER "SMSG_PET_NAME_QUERY_RESPONSE" STATUS_NEVER PROCESS_INPLACE "Handle_ServerSide";
  DEFINE_OPCODE_HANDLER "SMSG_PET_REMOVED_SPELL" STATUS_NEVER PROCESS_INPLACE "Handle_ServerSide";
  DEFINE_OPCODE_HANDLER "SMSG_PET_RENAMEABLE" STATUS_UNHANDLED PROCESS_INPLACE "Handle_ServerSide";
  DEFINE_OPCODE_HANDLER "SMSG_PET_SLOT_UPDATED" STATUS_UNHANDLED PROCESS_INPLACE "Handle_ServerSide";
  DEFINE_OPCODE_HANDLER "SMSG_PET_SPELLS" STATUS_NEVER PROCESS_INPLACE "Handle_ServerSide";
  DEFINE_OPCODE_HANDLER "SMSG_PET_TAME_FAILURE" STATUS_UNHANDLED PROCESS_INPLACE "Handle_ServerSide";
  DEFINE_OPCODE_HANDLER "SMSG_PET_UPDATE_COMBO_POINTS" STATUS_NEVER PROCESS_INPLACE "Handle_ServerSide";
  DEFINE_OPCODE_HANDLER "SMSG_PLAYED_TIME" STATUS_NEVER PROCESS_INPLACE "Handle_ServerSide";
  DEFINE_OPCODE_HANDLER "SMSG_PLAYERBINDERROR" STATUS_UNHANDLED PROCESS_INPLACE "Handle_ServerSide";
  DEFINE_OPCODE_HANDLER "SMSG_PLAYERBOUND" STATUS_NEVER PROCESS_INPLACE "Handle_ServerSide";
  DEFINE_OPCODE_HANDLER "SMSG_PLAYER_DIFFICULTY_CHANGE" STATUS_UNHANDLED PROCESS_INPLACE "Handle_ServerSide";
  DEFINE_OPCODE_HANDLER "SMSG_PLAYER_MOVE" STATUS_NEVER PROCESS_INPLACE "Handle_ServerSide";
  DEFINE_OPCODE_HANDLER "SMSG_PLAYER_SKINNED" STATUS_NEVER PROCESS_INPLACE "Handle_ServerSide";
  DEFINE_OPCODE_HANDLER "SMSG_PLAYER_VEHICLE_DATA" STATUS_NEVER PROCESS_INPLACE "Handle_ServerSide";
  DEFINE_OPCODE_HANDLER "SMSG_PLAY_DANCE" STATUS_NEVER PROCESS_INPLACE "Handle_ServerSide";
  DEFINE_OPCODE_HANDLER "SMSG_PLAY_MUSIC" STATUS_NEVER PROCESS_INPLACE "Handle_ServerSide";
  DEFINE_OPCODE_HANDLER "SMSG_PLAY_OBJECT_SOUND" STATUS_NEVER PROCESS_INPLACE "Handle_ServerSide";
  DEFINE_OPCODE_HANDLER "SMSG_PLAY_ONE_SHOT_ANIM_KIT" STATUS_NEVER PROCESS_INPLACE "Handle_ServerSide";
  DEFINE_OPCODE_HANDLER "SMSG_PLAY_SOUND" STATUS_NEVER PROCESS_INPLACE "Handle_ServerSide";
  DEFINE_OPCODE_HANDLER "SMSG_PLAY_SPELL_VISUAL" STATUS_UNHANDLED PROCESS_INPLACE "Handle_ServerSide";
  DEFINE_OPCODE_HANDLER "SMSG_PLAY_SPELL_VISUAL_KIT" STATUS_NEVER PROCESS_INPLACE "Handle_ServerSide";
  DEFINE_OPCODE_HANDLER "SMSG_PLAY_TIME_WARNING" STATUS_UNHANDLED PROCESS_INPLACE "Handle_ServerSide"].

Definition Initialize_8 : list row := [
  DEFINE_OPCODE_HANDLER "SMSG_PONG" STATUS_NEVER PROCESS_INPLACE "Handle_ServerSide";
  DEFINE_OPCODE_HANDLER "SMSG_POWER_UPDATE" STATUS_NEVER PROCESS_INPLACE "Handle_ServerSide";
  DEFINE_OPCODE_HANDLER "SMSG_PRE_RESURRECT" STATUS_NEVER PROCESS_INPLACE "Handle_ServerSide";
  DEFINE_OPCODE_HANDLER "SMSG_PROCRESIST" STATUS_NEVER PROCESS_INPLACE "Handle_ServerSide";
  DEFINE_OPCODE_HANDLER "SMSG_PROPOSE_LEVEL_GRANT" STATUS_NEVER PROCESS_INPLACE "Handle_ServerSide";
  DEFINE_OPCODE_HANDLER "SMSG_PVP_CREDIT" STATUS_NEVER PROCESS_INPLACE "Handle_ServerSide";
  DEFINE_OPCODE_HANDLER "SMSG_PVP_LOG_DATA" STATUS_NEVER PROCESS_INPLACE "Handle_ServerSide";
  DEFINE_OPCODE_HANDLER "SMSG_PVP_OPTIONS_ENABLED" STATUS_NEVER PROCESS_INPLACE "Handle_ServerSide";
  DEFINE_OPCODE_HANDLER "SMSG_QUERY_QUESTS_COMPLETED_RESPONSE" STATUS_NEVER PROCESS_INPLACE "Handle_ServerSide";
  DEFINE_OPCODE_HANDLER "SMSG_QUERY_TIME_RESPONSE" STATUS_NEVER PROCESS_INPLACE "Handle_ServerSide";
  DEFINE_OPCODE_HANDLER "SMSG_QUESTGIVER_OFFER_REWARD" STATUS_NEVER PROCESS_INPLACE "Handle_ServerSide";
  DEFINE_OPCODE_HANDLER "SMSG_QUESTGIVER_QUEST_COMPLETE" STATUS_NEVER PROCESS_INPLACE "Handle_ServerSide";
  DEFINE_OPCODE_HANDLER "SMSG_QUESTGIVER_QUEST_DETAILS" STATUS_NEVER PROCESS_INPLACE "Handle_ServerSide";
  DEFINE_OPCODE_HANDLER "SMSG_QUESTGIVER_QUEST_FAILED" STATUS_NEVER PROCESS_INPLACE "Handle_ServerSide";
  DEFINE_OPCODE_HANDLER "SMSG_QUESTGIVER_QUEST_INVALID" STATUS_NEVER PROCESS_INPLACE "Handle_ServerSide";
  DEFINE_OPCODE_HANDLER "SMSG_QUESTGIVER_QUEST_LIST" STATUS_NEVER PROCESS_INPLACE "Handle_ServerSide";
  DEFINE_OPCODE_HANDLER "SMSG_QUESTGIVER_REQUEST_ITEMS" STATUS_NEVER PROCESS_INPLACE "Handle_ServerSide";
  DEFINE_OPCODE_HANDLER "SMSG_QUESTGIVER_STATUS" STATUS_NEVER PROCESS_INPLACE "Handle_ServerSide";
  DEFINE_OPCODE_HANDLER "SMSG_QUESTGIVER_STATUS_MULTIPLE" STATUS_NEVER PROCESS_INPLACE "Handle_ServerSide";
  DEFINE_OPCODE_HANDLER "SMSG_QUESTLOG_FULL" STATUS_NEVER PROCESS_INPLACE "Handle_ServerSide";
  DEFINE_OPCODE_HANDLER "SMSG_QUESTUPDATE_ADD_KILL" STATUS_NEVER PROCESS_INPLACE "Handle_ServerSide";
  DEFINE_OPCODE_HANDLER "SMSG_QUESTUPDATE_ADD_PVP_KILL" STATUS_NEVER PROCESS_INPLACE "Handle_ServerSide";
  DEFINE_OPCODE_HANDLER "SMSG_QUESTUPDATE_COMPLETE" STATUS_NEVER PROCESS_INPLACE "Handle_ServerSide";
  DEFINE_OPCODE_HANDLER "SMSG_QUESTUPDATE_FAILED" STATUS_NEVER PROCESS_INPLACE "Handle_ServerSide";
  DEFINE_OPCODE_HANDLER "SMSG_QUESTUPDATE_FAILEDTIMER" STATUS_NEVER PROCESS_INPLACE "Handle_ServerSide";
  DEFINE_OPCODE_HANDLER "SMSG_QUEST_CONFIRM_ACCEPT" STATUS_NEVER PROCESS_INPLACE "Handle_ServerSide";
  DEFINE_OPCODE_HANDLER "SMSG_QUEST_FORCE_REMOVE" STATUS_NEVER PROCESS_INPLACE "Handle_ServerSide";
  DEFINE_OPCODE_HANDLER "SMSG_QUEST_NPC_QUERY_RESPONSE" STATUS_UNHANDLED PROCESS_INPLACE "Handle_ServerSide";
  DEFINE_OPCODE_HANDLER "SMSG_QUEST_POI_QUERY_RESPONSE" STATUS_NEVER PROCESS_INPLACE "Handle_ServerSide";
  DEFINE_OPCODE_HANDLER "SMSG_QUEST_QUERY_RESPONSE" STATUS_NEVER PROCESS_INPLACE "Handle_ServerSide";
  DEFINE_OPCODE_HANDLER "SMSG_RAID_GROUP_ONLY" STATUS_NEVER PROCESS_INPLACE "Handle_ServerSide";
  DEFINE_OPCODE_HANDLER "SMSG_RAID_INSTANCE_INFO" STATUS_NEVER PROCESS_INPLACE "Handle_ServerSide";
  DEFINE_OPCODE_HANDLER "SMSG_RAID_INSTANCE_MESSAGE" STATUS_NEVER PROCESS_INPLACE "Handle_ServerSide";
  DEFINE_OPCODE_HANDLER "SMSG_RAID_MARKERS_CHANGED" STATUS_UNHANDLED PROCESS_INPLACE "Handle_ServerSide";
  DEFINE_OPCODE_HANDLER "SMSG_RAID_READY_CHECK_THROTTLED_ERROR" STATUS_UNHANDLED PROCESS_INPLACE "Handle_ServerSide";
  DEFINE_OPCODE_HANDLER "SMSG_RAID_SUMMON_FAILED" STATUS_UNHANDLED PROCESS_INPLACE "Handle_ServerSide";
  DEFINE_OPCODE_HANDLER "SMSG_RANDOMIZE_CHAR_NAME" STATUS_NEVER PROCESS_THREADUNSAFE "Handle_ServerSide";
  DEFINE_OPCODE_HANDLER "SMSG_RATED_BG_RATING" STATUS_UNHANDLED PROCESS_INPLACE "Handle_ServerSide";
  DEFINE_OPCODE_HANDLER "SMSG_RATED_BG_STATS" STATUS_NEVER PROCESS_INPLACE "Handle_ServerSide";
  DEFINE_OPCODE_HANDLER "SMSG_READ_ITEM_FAILED" STATUS_NEVER PROCESS_INPLACE "Handle_ServerSide";
  DEFINE_OPCODE_HANDLER "SMSG_READ_ITEM_OK" STATUS_NEVER PROCESS_INPLACE "Handle_ServerSide";
  DEFINE_OPCODE_HANDLER "SMSG_REALM_SPLIT" STATUS_NEVER PROCESS_INPLACE "Handle_ServerSide";
  DEFINE_OPCODE_HANDLER "SMSG_REAL_GROUP_UPDATE" STATUS_UNHANDLED PROCESS_INPLACE "Handle_ServerSide";
  DEFINE_OPCODE_HANDLER "SMSG_RECEIVED_MAIL" STATUS_NEVER PROCESS_INPLACE "Handle_ServerSide";
  DEFINE_OPCODE_HANDLER "SMSG_REDIRECT_CLIENT" STATUS_UNHANDLED PROCESS_INPLACE "Handle_ServerSide";
  DEFINE_OPCODE_HANDLER "SMSG_REFER_A_FRIEND_EXPIRED" STATUS_UNHANDLED PROCESS_INPLACE "Handle_ServerSide";
  DEFINE_OPCODE_HANDLER "SMSG_REFER_A_FRIEND_FAILURE" STATUS_NEVER PROCESS_INPLACE "Handle_ServerSide";
  DEFINE_OPCODE_HANDLER "SMSG_REFORGE_RESULT" STATUS_NEVER PROCESS_INPLACE "Handle_ServerSide";
  DEFINE_OPCODE_HANDLER "SMSG_REMOVED_SPELL" STATUS_NEVER PROCESS_INPLACE "Handle_ServerSide";
  DEFINE_OPCODE_HANDLER "SMSG_REPORT_PVP_AFK_RESULT" STATUS_UNHANDLED PROCESS_INPLACE "Handle_ServerSide";
  DEFINE_OPCODE_HANDLER "SMSG_REQUEST_CEMETERY_LIST_RESPONSE" STATUS_UNHANDLED PROCESS_INPLACE "Handle_ServerSide";
  DEFINE_OPCODE_HANDLER "SMSG_REQUEST_PVP_REWARDS_RESPONSE" STATUS_NEVER PROCESS_INPLACE "Handle_ServerSide";
  DEFINE_OPCODE_HANDLER "SMSG_RESEARCH_COMPLETE" STATUS_UNHANDLED PROCESS_INPLACE "Handle_ServerSide";
  DEFINE_OPCODE_HANDLER "SMSG_RESEARCH_SETUP_HISTORY" STATUS_UNHANDLED PROCESS_INPLACE "Handle_ServerSide";
  DEFINE_OPCODE_HANDLER "SMSG_RESET_COMPRESSION_CONTEXT" STATUS_UNHANDLED PROCESS_INPLACE "Handle_ServerSide";
  DEFINE_OPCODE_HANDLER "SMSG_RESET_FAILED_NOTIFY" STATUS_NEVER PROCESS_INPLACE "Handle_ServerSide";
  DEFINE_OPCODE_HANDLER "SMSG_RESPOND_INSPECT_ACHIEVEMENTS" STATUS_NEVER PROCESS_INPLACE "Handle_ServerSide";
  DEFINE_OPCODE_HANDLER "SMSG_RESURRECT_REQUEST" STATUS_NEVER PROCESS_INPLACE "Handle_ServerSide";
  DEFINE_OPCODE_HANDLER "SMSG_RESYNC_RUNES" STATUS_NEVER PROCESS_INPLACE "Handle_ServerSide";
  DEFINE_OPCODE_HANDLER "SMSG_ROLE_POLL_BEGIN" STATUS_UNHANDLED PROCESS_INPLACE "Handle_ServerSide";
  DEFINE_OPCODE_HANDLER "SMSG_RWHOIS" STATUS_UNHANDLED PROCESS_INPLACE "Handle_ServerSide";
  DEFINE_OPCODE_HANDLER "SMSG_SELL_ITEM" STATUS_NEVER PROCESS_INPLACE "Handle_ServerSide";
  DEFINE_OPCODE_HANDLER "SMSG_SEND_MAIL_RESULT" STATUS_NEVER PROCESS_INPLACE "Handle_ServerSide";
  DEFINE_OPCODE_HANDLER "SMSG_SEND_UNLEARN_SPELLS" STATUS_NEVER PROCESS_INPLACE "Handle_ServerSide";
  DEFINE_OPCODE_HANDLER "SMSG_SERVERTIME" STATUS_UNHANDLED PROCESS_INPLACE "Handle_ServerSide";
  DEFINE_OPCODE_HANDLER "SMSG_SERVER_FIRST_ACHIEVEMENT" STATUS_NEVER PROCESS_INPLACE "Handle_ServerSide";
  DEFINE_OPCODE_HANDLER "SMSG_SERVER_INFO_RESPONSE" STATUS_UNHANDLED PROCESS_INPLACE "Handle_ServerSide";
  DEFINE_OPCODE_HANDLER "SMSG_SERVER_MESSAGE" STATUS_NEVER PROCESS_INPLACE "Handle_ServerSide";
  DEFINE_OPCODE_HANDLER "SMSG_SERVER_PERF" STATUS_UNHANDLED PROCESS_INPLACE "Handle_ServerSide";
  DEFINE_OPCODE_HANDLER "SMSG_SET_DF_FAST_LAUNCH_RESULT" STATUS_UNHANDLED PROCESS_INPLACE "Handle_ServerSide";
  DEFINE_OPCODE_HANDLER "SMSG_SET_FACTION_ATWAR" STATUS_UNHANDLED PROCESS_INPLACE "Handle_ServerSide";
  DEFINE_OPCODE_HANDLER "SMSG_SET_FACTION_STANDING" STATUS_NEVER PROCESS_INPLACE "Handle_ServerSide";
  DEFINE_OPCODE_HANDLER "SMSG_SET_FACTION_VISIBLE" STATUS_NEVER PROCESS_INPLACE "Handle_ServerSide";
  DEFINE_OPCODE_HANDLER "SMSG_SET_FLAT_SPELL_MODIFIER" STATUS_NEVER PROCESS_INPLACE "Handle_ServerSide";
  DEFINE_OPCODE_HANDLER "SMSG_SET_FORCED_REACTIONS" STATUS_NEVER PROCESS_INPLACE "Handle_ServerSide";
  DEFINE_OPCODE_HANDLER "SMSG_SET_PCT_SPELL_MODIFIER" STATUS_NEVER PROCESS_INPLACE "Handle_ServerSide";
  DEFINE_OPCODE_HANDLER "SMSG_SET_PHASE_SHIFT" STATUS_NEVER PROCESS_INPLACE "Handle_ServerSide";
  DEFINE_OPCODE_HANDLER "SMSG_SET_PLAYER_DECLINED_NAMES_RESULT" STATUS_NEVER PROCESS_INPLACE "Handle_ServerSide";
  DEFINE_OPCODE_HANDLER "SMSG_SET_PLAY_HOVER_ANIM" STATUS_NEVER PROCESS_INPLACE "Handle_ServerSide";
  DEFINE_OPCODE_HANDLER "SMSG_SET_PROFICIENCY" STATUS_NEVER PROCESS_INPLACE "Handle_ServerSide";
  DEFINE_OPCODE_HANDLER "SMSG_SET_PROJECTILE_POSITION" STATUS_NEVER PROCESS_INPLACE "Handle_ServerSide";
  DEFINE_OPCODE_HANDLER "SMSG_SHOWTAXINODES" STATUS_NEVER PROCESS_INPLACE "Handle_ServerSide";
  DEFINE_OPCODE_HANDLER "SMSG_SHOW_BANK" STATUS_NEVER PROCESS_INPLACE "Handle_ServerSide";
  DEFINE_OPCODE_HANDLER "SMSG_SHOW_RATINGS" STATUS_UNHANDLED PROCESS_INPLACE "Handle_ServerSide";
  DEFINE_OPCODE_HANDLER "SMSG_SOCKET_GEMS_RESULT" STATUS_NEVER PROCESS_INPLACE "Handle_ServerSide";
  DEFINE_OPCODE_HANDLER "SMSG_SOR_START_EXPERIENCE_INCOMPLETE" STATUS_UNHANDLED PROCESS_INPLACE "Handle_ServerSide";
  DEFINE_OPCODE_HANDLER "SMSG_SPELLBREAKLOG" STATUS_NEVER PROCESS_INPLACE "Handle_ServerSide";
  DEFINE_OPCODE_HANDLER "SMSG_SPELLDAMAGESHIELD" STATUS_NEVER PROCESS_INPLACE "Handle_ServerSide";
  DEFINE_OPCODE_HANDLER "SMSG_SPELLDISPELLOG" STATUS_NEVER PROCESS_INPLACE "Handle_ServerSide";
  DEFINE_OPCODE_HANDLER "SMSG_SPELLENERGIZELOG" STATUS_NEVER PROCESS_INPLACE "Handle_ServerSide";
  DEFINE_OPCODE_HANDLER "SMSG_SPELLHEALLOG" STATUS_NEVER PROCESS_INPLACE "Handle_ServerSide";
  DEFINE_OPCODE_HANDLER "SMSG_SPELLINSTAKILLLOG" STATUS_NEVER PROCESS_INPLACE "Handle_ServerSide";
  DEFINE_OPCODE_HANDLER "SMSG_SPELLINTERRUPTLOG" STATUS_NEVER PROCESS_INPLACE "Handle_ServerSide";
  DEFINE_OPCODE_HANDLER "SMSG_SPELLLOGEXECUTE" STATUS_NEVER PROCESS_INPLACE "Handle_ServerSide";
  DEFINE_OPCODE_HANDLER "SMSG_SPELLLOGMISS" STATUS_NEVER PROCESS_INPLACE "Handle_ServerSide";
  DEFINE_OPCODE_HANDLER "SMSG_SPELLNONMELEEDAMAGELOG" STATUS_NEVER PROCESS_INPLACE "Handle_ServerSide";
  DEFINE_OPCODE_HANDLER "SMSG_SPELLORDAMAGE_IMMUNE" STATUS_NEVER PROCESS_INPLACE "Handle_ServerSide";
  DEFINE_OPCODE_HANDLER "SMSG_SPELLSTEALLOG" STATUS_NEVER PROCESS_INPLACE "Handle_ServerSide";
  DEFINE_OPCODE_HANDLER "SMSG_SPELL_CATEGORY_COOLDOWN" STATUS_NEVER PROCESS_INPLACE "Handle_ServerSide";
  DEFINE_OPCODE_HANDLER "SMSG_SPELL_COOLDOWN" STATUS_NEVER PROCESS_INPLACE "Handle_ServerSide";
  DEFINE_OPCODE_HANDLER "SMSG_SPELL_DELAYED" STATUS_NEVER PROCESS_INPLACE "Handle_ServerSide";
  DEFINE_OPCODE_HANDLER "SMSG_SPELL_FAILED_OTHER" STATUS_NEVER PROCESS_INPLACE "Handle_ServerSide";
  DEFINE_OPCODE_HANDLER "SMSG_SPELL_FAILURE" STATUS_NEVER PROCESS_INPLACE "Handle_ServerSide";
  DEFINE_OPCODE_HANDLER "SMSG_SPELL_GO" STATUS_NEVER PROCESS_INPLACE "Handle_ServerSide";
  DEFINE_OPCODE_HANDLER "SMSG_SPELL_START" STATUS_NEVER PROCESS_INPLACE "Handle_ServerSide";
  DEFINE_OPCODE_HANDLER "SMSG_SPELL_UPDATE_CHAIN_TARGETS" STATUS_UNHANDLED PROCESS_INPLACE "Handle_ServerSide";
  DEFINE_OPCODE_HANDLER "SMSG_SPIRIT_HEALER_CONFIRM" STATUS_NEVER PROCESS_INPLACE "Handle_ServerSide";
  DEFINE_OPCODE_HANDLER "SMSG_SPLINE_MOVE_COLLISION_DISABLE" STATUS_UNHANDLED PROCESS_INPLACE "Handle_ServerSide";
  DEFINE_OPCODE_HANDLER "SMSG_SPLINE_MOVE_COLLISION_ENABLE" STATUS_UNHANDLED PROCESS_INPLACE "Handle_ServerSide";
  DEFINE_OPCODE_HANDLER "SMSG_SPLINE_MOVE_GRAVITY_DISABLE" STATUS_NEVER PROCESS_INPLACE "Handle_ServerSide";
  DEFINE_OPCODE_HANDLER "SMSG_SPLINE_MOVE_GRAVITY_ENABLE" STATUS_NEVER PROCESS_INPLACE "Handle_ServerSide";
  DEFINE_OPCODE_HANDLER "SMSG_SPLINE_MOVE_ROOT" STATUS_NEVER PROCESS_INPLACE "Handle_ServerSide";
  DEFINE_OPCODE_HANDLER "SMSG_SPLINE_MOVE_SET_ANIM" STATUS_NEVER PROCESS_INPLACE "Handle_ServerSide";
  DEFINE_OPCODE_HANDLER "SMSG_SPLINE_MOVE_SET_FEATHER_FALL" STATUS_NEVER PROCESS_INPLACE "Handle_ServerSide";
  DEFINE_OPCODE_HANDLER "SMSG_SPLINE_MOVE_SET_FLIGHT_BACK_SPEED" STATUS_NEVER PROCESS_INPLACE "Handle_ServerSide";
  DEFINE_OPCODE_HANDLER "SMSG_SPLINE_MOVE_SET_FLIGHT_SPEED" STATUS_NEVER PROCESS_INPLACE "Handle_ServerSide";
  DEFINE_OPCODE_HANDLER "SMSG_SPLINE_MOVE_SET_FLYING" STATUS_NEVER PROCESS_INPLACE "Handle_ServerSide";
  DEFINE_OPCODE_HANDLER "SMSG_SPLINE_MOVE_SET_HOVER" STATUS_NEVER PROCESS_INPLACE "Handle_ServerSide";
  DEFINE_OPCODE_HANDLER "SMSG_SPLINE_MOVE_SET_LAND_WALK" STATUS_NEVER PROCESS_INPLACE "Handle_ServerSide";
  DEFINE_OPCODE_HANDLER "SMSG_SPLINE_MOVE_SET_NORMAL_FALL" STATUS_NEVER PROCESS_INPLACE "Handle_ServerSide";
  DEFINE_OPCODE_HANDLER "SMSG_SPLINE_MOVE_SET_PITCH_RATE" STATUS_NEVER PROCESS_INPLACE "Handle_ServerSide";
  DEFINE_OPCODE_HANDLER "SMSG_SPLINE_MOVE_SET_RUN_BACK_SPEED" STATUS_NEVER PROCESS_INPLACE "Handle_ServerSide";
  DEFINE_OPCODE_HANDLER "SMSG_SPLINE_MOVE_SET_RUN_MODE" STATUS_NEVER PROCESS_INPLACE "Handle_ServerSide";
  DEFINE_OPCODE_HANDLER "SMSG_SPLINE_MOVE_SET_RUN_SPEED" STATUS_NEVER PROCESS_INPLACE "Handle_ServerSide";
  DEFINE_OPCODE_HANDLER "SMSG_SPLINE_MOVE_SET_SWIM_BACK_SPEED" STATUS_NEVER PROCESS_INPLACE "Handle_ServerSide";
  DEFINE_OPCODE_HANDLER "SMSG_SPLINE_MOVE_SET_SWIM_SPEED" STATUS_NEVER PROCESS_INPLACE "Handle_ServerSide";
  DEFINE_OPCODE_HANDLER "SMSG_SPLINE_MOVE_SET_TURN_RATE" STATUS_NEVER PROCESS_INPLACE "Handle_ServerSide";
  DEFINE_OPCODE_HANDLER "SMSG_SPLINE_MOVE_SET_WALK_MODE" STATUS_NEVER PROCESS_INPLACE "Handle_ServerSide";
  DEFINE_OPCODE_HANDLER "SMSG_SPLINE_MOVE_SET_WALK_SPEED" STATUS_NEVER PROCESS_INPLACE "Handle_ServerSide";
  DEFINE_OPCODE_HANDLER "SMSG_SPLINE_MOVE_SET_WATER_WALK" STATUS_NEVER PROCESS_INPLACE "Handle_ServerSide";
  DEFINE_OPCODE_HANDLER "SMSG_SPLINE_MOVE_START_SWIM" STATUS_NEVER PROCESS_INPLACE "Handle_ServerSide";
  DEFINE_OPCODE_HANDLER "SMSG_SPLINE_MOVE_STOP_SWIM" STATUS_NEVER PROCESS_INPLACE "Handle_ServerSide";
  DEFINE_OPCODE_HANDLER "SMSG_SPLINE_MOVE_UNROOT" STATUS_NEVER PROCESS_INPLACE "Handle_ServerSide";
  DEFINE_OPCODE_HANDLER "SMSG_SPLINE_MOVE_UNSET_FLYING" STATUS_NEVER PROCESS_INPLACE "Handle_ServerSide";
  DEFINE_OPCODE_HANDLER "SMSG_SPLINE_MOVE_UNSET_HOVER" STATUS_NEVER PROCESS_INPLACE "Handle_ServerSide";
  DEFINE_OPCODE_HANDLER "SMSG_STABLE_RESULT" STATUS_NEVER PROCESS_INPLACE "Handle_ServerSide";
  DEFINE_OPCODE_HANDLER "SMSG_STANDSTATE_UPDATE" STATUS_NEVER PROCESS_INPLACE "Handle_ServerSide";
  DEFINE_OPCODE_HANDLER "SMSG_START_MIRROR_TIMER" STATUS_NEVER PROCESS_INPLACE "Handle_ServerSide";
  DEFINE_OPCODE_HANDLER "SMSG_START_TIMER" STATUS_NEVER PROCESS_INPLACE "Handle_ServerSide";
  DEFINE_OPCODE_HANDLER "SMSG_STOP_DANCE" STATUS_NEVER PROCESS_INPLACE "Handle_ServerSide";
  DEFINE_OPCODE_HANDLER "SMSG_STOP_MIRROR_TIMER" STATUS_NEVER PROCESS_INPLACE "Handle_ServerSide";
  DEFINE_OPCODE_HANDLER "SMSG_STREAMING_MOVIE" STATUS_UNHANDLED PROCESS_INPLACE "Handle_ServerSide";
  DEFINE_OPCODE_HANDLER "SMSG_SUMMON_CANCEL" STATUS_NEVER PROCESS_INPLACE "Handle_ServerSide";
  DEFINE_OPCODE_HANDLER "SMSG_SUMMON_REQUEST" STATUS_NEVER PROCESS_INPLACE "Handle_ServerSide";
  DEFINE_OPCODE_HANDLER "SMSG_SUPERCEDED_SPELL" STATUS_NEVER PROCESS_INPLACE "Handle_ServerSide";
  DEFINE_OPCODE_HANDLER "SMSG_SUPPRESS_NPC_GREETINGS" STATUS_UNHANDLED PROCESS_INPLACE "Handle_ServerSide";
  DEFINE_OPCODE_HANDLER "SMSG_SUSPEND_COMMS" STATUS_UNHANDLED PROCESS_INPLACE "Handle_ServerSide";
  DEFINE_OPCODE_HANDLER "SMSG_SUSPEND_TOKEN_RESPONSE" STATUS_UNHANDLED PROCESS_INPLACE "Handle_ServerSide";
  DEFINE_OPCODE_HANDLER "SMSG_TALENTS_ERROR" STATUS_UNHANDLED PROCESS_INPLACE "Handle_ServerSide";
  DEFINE_OPCODE_HANDLER "SMSG_TALENTS_INFO" STATUS_NEVER PROCESS_INPLACE "Handle_ServerSide"].

Definition Initialize_9 : list row := [
  DEFINE_OPCODE_HANDLER "SMSG_TALENTS_INVOLUNTARILY_RESET" STATUS_UNHANDLED PROCESS_INPLACE "Handle_ServerSide";
  DEFINE_OPCODE_HANDLER "SMSG_TAXINODE_STATUS" STATUS_NEVER PROCESS_INPLACE "Handle_ServerSide";
  DEFINE_OPCODE_HANDLER "SMSG_TEST_DROP_RATE_RESULT" STATUS_UNHANDLED PROCESS_INPLACE "Handle_ServerSide";
  DEFINE_OPCODE_HANDLER "SMSG_TEXT_EMOTE" STATUS_NEVER PROCESS_INPLACE "Handle_ServerSide";
  DEFINE_OPCODE_HANDLER "SMSG_THREAT_CLEAR" STATUS_NEVER PROCESS_INPLACE "Handle_ServerSide";
  DEFINE_OPCODE_HANDLER "SMSG_THREAT_REMOVE" STATUS_NEVER PROCESS_INPLACE "Handle_ServerSide";
  DEFINE_OPCODE_HANDLER "SMSG_THREAT_UPDATE" STATUS_NEVER PROCESS_INPLACE "Handle_ServerSide";
  DEFINE_OPCODE_HANDLER "SMSG_TIME_ADJUSTMENT" STATUS_UNHANDLED PROCESS_INPLACE "Handle_ServerSide";
  DEFINE_OPCODE_HANDLER "SMSG_TIME_SYNC_REQ" STATUS_NEVER PROCESS_INPLACE "Handle_ServerSide";
  DEFINE_OPCODE_HANDLER "SMSG_TITLE_EARNED" STATUS_NEVER PROCESS_INPLACE "Handle_ServerSide";
  DEFINE_OPCODE_HANDLER "SMSG_TOGGLE_XP_GAIN" STATUS_UNHANDLED PROCESS_INPLACE "Handle_ServerSide";
  DEFINE_OPCODE_HANDLER "SMSG_TOTEM_CREATED" STATUS_NEVER PROCESS_INPLACE "Handle_ServerSide";
  DEFINE_OPCODE_HANDLER "SMSG_TRADE_STATUS" STATUS_NEVER PROCESS_INPLACE "Handle_ServerSide";
  DEFINE_OPCODE_HANDLER "SMSG_TRADE_STATUS_EXTENDED" STATUS_NEVER PROCESS_INPLACE "Handle_ServerSide";
  DEFINE_OPCODE_HANDLER "SMSG_TRAINER_BUY_FAILED" STATUS_NEVER PROCESS_INPLACE "Handle_ServerSide";
  DEFINE_OPCODE_HANDLER "SMSG_TRAINER_BUY_SUCCEEDED" STATUS_NEVER PROCESS_INPLACE "Handle_ServerSide";
  DEFINE_OPCODE_HANDLER "SMSG_TRAINER_LIST" STATUS_NEVER PROCESS_INPLACE "Handle_ServerSide";
  DEFINE_OPCODE_HANDLER "SMSG_TRANSFER_ABORTED" STATUS_NEVER PROCESS_INPLACE "Handle_ServerSide";
  DEFINE_OPCODE_HANDLER "SMSG_TRANSFER_PENDING" STATUS_NEVER PROCESS_INPLACE "Handle_ServerSide";
  DEFINE_OPCODE_HANDLER "SMSG_TRIGGER_CINEMATIC" STATUS_NEVER PROCESS_INPLACE "Handle_ServerSide";
  DEFINE_OPCODE_HANDLER "SMSG_TRIGGER_MOVIE" STATUS_NEVER PROCESS_INPLACE "Handle_ServerSide";
  DEFINE_OPCODE_HANDLER "SMSG_TURN_IN_PETITION_RESULTS" STATUS_NEVER PROCESS_INPLACE "Handle_ServerSide";
  DEFINE_OPCODE_HANDLER "SMSG_TUTORIAL_FLAGS" STATUS_NEVER PROCESS_INPLACE "Handle_ServerSide";
  DEFINE_OPCODE_HANDLER "SMSG_UNIT_HEALTH_FREQUENT" STATUS_UNHANDLED PROCESS_INPLACE "Handle_ServerSide";
  DEFINE_OPCODE_HANDLER "SMSG_UNIT_SPELLCAST_START" STATUS_UNHANDLED PROCESS_INPLACE "Handle_ServerSide";
  DEFINE_OPCODE_HANDLER "SMSG_UPDATE_ACCOUNT_DATA" STATUS_NEVER PROCESS_INPLACE "Handle_ServerSide";
  DEFINE_OPCODE_HANDLER "SMSG_UPDATE_ACCOUNT_DATA_COMPLETE" STATUS_NEVER PROCESS_INPLACE "Handle_ServerSide";
  DEFINE_OPCODE_HANDLER "SMSG_UPDATE_COMBO_POINTS" STATUS_NEVER PROCESS_INPLACE "Handle_ServerSide";
  DEFINE_OPCODE_HANDLER "SMSG_UPDATE_CURRENCY" STATUS_NEVER PROCESS_INPLACE "Handle_ServerSide";
  DEFINE_OPCODE_HANDLER "SMSG_UPDATE_CURRENCY_WEEK_LIMIT" STATUS_NEVER PROCESS_INPLACE "Handle_ServerSide";
  DEFINE_OPCODE_HANDLER "SMSG_UPDATE_DUNGEON_ENCOUNTER_FOR_LOOT" STATUS_UNHANDLED PROCESS_INPLACE "Handle_ServerSide";
  DEFINE_OPCODE_HANDLER "SMSG_UPDATE_INSTANCE_ENCOUNTER_UNIT" STATUS_NEVER PROCESS_INPLACE "Handle_ServerSide";
  DEFINE_OPCODE_HANDLER "SMSG_UPDATE_INSTANCE_OWNERSHIP" STATUS_NEVER PROCESS_INPLACE "Handle_ServerSide";
  DEFINE_OPCODE_HANDLER "SMSG_UPDATE_LAST_INSTANCE" STATUS_NEVER PROCESS_INPLACE "Handle_ServerSide";
  DEFINE_OPCODE_HANDLER "SMSG_UPDATE_OBJECT" STATUS_NEVER PROCESS_INPLACE "Handle_ServerSide";
  DEFINE_OPCODE_HANDLER "SMSG_UPDATE_SERVER_PLAYER_POSITION" STATUS_UNHANDLED PROCESS_INPLACE "Handle_ServerSide";
  DEFINE_OPCODE_HANDLER "SMSG_UPDATE_WORLD_STATE" STATUS_NEVER PROCESS_INPLACE "Handle_ServerSide";
  DEFINE_OPCODE_HANDLER "SMSG_USERLIST_ADD" STATUS_UNHANDLED PROCESS_INPLACE "Handle_ServerSide";
  DEFINE_OPCODE_HANDLER "SMSG_USERLIST_REMOVE" STATUS_UNHANDLED PROCESS_INPLACE "Handle_ServerSide";
  DEFINE_OPCODE_HANDLER "SMSG_USERLIST_UPDATE" STATUS_UNHANDLED PROCESS_INPLACE "Handle_ServerSide";
  DEFINE_OPCODE_HANDLER "SMSG_VOICESESSION_FULL" STATUS_UNHANDLED PROCESS_INPLACE "Handle_ServerSide";
  DEFINE_OPCODE_HANDLER "SMSG_VOICE_CHAT_STATUS" STATUS_UNHANDLED PROCESS_INPLACE "Handle_ServerSide";
  DEFINE_OPCODE_HANDLER "SMSG_VOICE_PARENTAL_CONTROLS" STATUS_UNHANDLED PROCESS_INPLACE "Handle_ServerSide";
  DEFINE_OPCODE_HANDLER "SMSG_VOICE_SESSION_LEAVE" STATUS_UNHANDLED PROCESS_INPLACE "Handle_ServerSide";
  DEFINE_OPCODE_HANDLER "SMSG_VOICE_SESSION_ROSTER_UPDATE" STATUS_UNHANDLED PROCESS_INPLACE "Handle_ServerSide";
  DEFINE_OPCODE_HANDLER "SMSG_VOICE_SET_TALKER_MUTED" STATUS_UNHANDLED PROCESS_INPLACE "Handle_ServerSide";
  DEFINE_OPCODE_HANDLER "SMSG_VOID_ITEM_SWAP_RESPONSE" STATUS_NEVER PROCESS_INPLACE "Handle_ServerSide";
  DEFINE_OPCODE_HANDLER "SMSG_VOID_STORAGE_CONTENTS" STATUS_NEVER PROCESS_INPLACE "Handle_ServerSide";
  DEFINE_OPCODE_HANDLER "SMSG_VOID_STORAGE_FAILED" STATUS_NEVER PROCESS_INPLACE "Handle_ServerSide";
  DEFINE_OPCODE_HANDLER "SMSG_VOID_STORAGE_TRANSFER_CHANGES" STATUS_NEVER PROCESS_INPLACE "Handle_ServerSide";
  DEFINE_OPCODE_HANDLER "SMSG_VOID_TRANSFER_RESULT" STATUS_NEVER PROCESS_INPLACE "Handle_ServerSide";
  DEFINE_OPCODE_HANDLER "SMSG_WAIT_QUEUE_FINISH" STATUS_UNHANDLED PROCESS_INPLACE "Handle_ServerSide";
  DEFINE_OPCODE_HANDLER "SMSG_WAIT_QUEUE_UPDATE" STATUS_UNHANDLED PROCESS_INPLACE "Handle_ServerSide";
  DEFINE_OPCODE_HANDLER "SMSG_WARDEN_DATA" STATUS_UNHANDLED PROCESS_INPLACE "Handle_ServerSide";
  DEFINE_OPCODE_HANDLER "SMSG_WARGAME_CHECK_ENTRY" STATUS_UNHANDLED PROCESS_INPLACE "Handle_ServerSide";
  DEFINE_OPCODE_HANDLER "SMSG_WARGAME_REQUEST_SENT" STATUS_UNHANDLED PROCESS_INPLACE "Handle_ServerSide";
  DEFINE_OPCODE_HANDLER "SMSG_WEATHER" STATUS_NEVER PROCESS_INPLACE "Handle_ServerSide";
  DEFINE_OPCODE_HANDLER "SMSG_WEEKLY_LAST_RESET" STATUS_UNHANDLED PROCESS_INPLACE "Handle_ServerSide";
  DEFINE_OPCODE_HANDLER "SMSG_WEEKLY_RESET_CURRENCY" STATUS_UNHANDLED PROCESS_INPLACE "Handle_ServerSide";
  DEFINE_OPCODE_HANDLER "SMSG_WEEKLY_SPELL_USAGE" STATUS_UNHANDLED PROCESS_INPLACE "Handle_ServerSide";
  DEFINE_OPCODE_HANDLER "SMSG_WEEKLY_SPELL_USAGE_UPDATE" STATUS_UNHANDLED PROCESS_INPLACE "Handle_ServerSide";
  DEFINE_OPCODE_HANDLER "SMSG_WHO" STATUS_NEVER PROCESS_INPLACE "Handle_ServerSide";
  DEFINE_OPCODE_HANDLER "SMSG_WHOIS" STATUS_NEVER PROCESS_INPLACE "Handle_ServerSide";
  DEFINE_OPCODE_HANDLER "SMSG_WORLD_SERVER_INFO" STATUS_NEVER PROCESS_INPLACE "Handle_ServerSide";
  DEFINE_OPCODE_HANDLER "SMSG_WORLD_STATE_UI_TIMER_UPDATE" STATUS_NEVER PROCESS_INPLACE "Handle_ServerSide";
  DEFINE_OPCODE_HANDLER "SMSG_XP_GAIN_ABORTED" STATUS_UNHANDLED PROCESS_INPLACE "Handle_ServerSide";
  DEFINE_OPCODE_HANDLER "SMSG_ZONE_UNDER_ATTACK" STATUS_NEVER PROCESS_INPLACE "Handle_ServerSide"].

Definition rows : list row :=
  Initialize_1 ++ Initialize_2 ++ Initialize_3 ++ Initialize_4 ++ Initialize_5 ++ Initialize_6 ++ Initialize_7 ++ Initialize_8 ++ Initialize_9.

(** ** The table *)

(** [_internalTable]: the entries that are not null. *)
Definition table : Type := gmap Z OpcodeHandler.

Definition ValidateAndSetOpcode (op : Z) (h : OpcodeHandler) (t : table) : table :=
  if (op <? NUM_OPCODE_HANDLERS) && negb (op =? 0) then
    match t !! op with Some _ => t (* tried to override *) | None => <[op := h]> t end
  else t (* invalid opcode, or value 0 *).

Fixpoint fill (l : list row) (t : table) : table :=
  match l with
  | [] => t
  | (n, h) :: l' => fill l' (ValidateAndSetOpcode (opcode n) h t)
  end.

Definition Initialize : table := fill rows ∅.

(** [OpcodeTable::operator[]], which does not check the index. *)
Definition at_opcode (t : table) (index : Z) : result (option OpcodeHandler) :=
  if (0 <=? index) && (index <? NUM_OPCODE_HANDLERS) then Ok (t !! index)
  else Throw UndefinedBehaviour.

(** The opcodes that have a row. *)
Definition has_row (t : table) (op : Z) : Prop := 0 ≤ op < NUM_OPCODE_HANDLERS ∧ is_Some (t !! op).
#[export] Instance has_row_dec t op : Decision (has_row t op).
Proof. unfold has_row. apply _. Defined.

(** [GetOpcodeNameForLogging], less the number at its end. *)
Definition GetOpcodeNameForLogging (t : table) (id : Z) : string :=
  if id <? UNKNOWN_OPCODE then
    match t !! Z.land id 0x7FFF with
    | Some h => Name h +:+ (if Z.land id COMPRESSED_OPCODE_MASK =? 0 then "" else "_COMPRESSED")
    | None => "UNKNOWN OPCODE"
    end
  else "INVALID OPCODE".
