(* ===== verification/WorldSocket.v ===== *)
(** * WorldSocket: the connection of a client.

    [game/Server/WorldSocket.{h,cpp}]: the bytes that arrive are cut into packets, which are
    handled at once or given to the session; packets for the client go through a buffer and a
    queue to the peer.  Headers are encrypted once the client has named its account
    ([shared/Cryptography/Authentication/AuthCrypt.cpp]).  The cryptographic functions are
    OpenSSL's and are parameters; so are the peer, the reactor, the clock and the login
    database, which answer from the history of calls.  The ACE message blocks and the message
    queue are modelled as far as the code uses them, locks are taken to be free. *)
From S2P Require Import Prelude.
From stdpp Require Import strings list.
From S2P Require Import Bits ByteBuffer Timer OpcodeTable.
Open Scope string_scope.
Open Scope list_scope.
Open Scope Z_scope.

(** ** Cryptography *)

(** A big number, keyed hashing and a stream cipher. *)
Class Crypto := {
  BigNumber : Type;
  SetHexStr : list Z → BigNumber;
  HMAC_SHA1 : list Z → BigNumber → list Z;
  ARC4 : Type;
  ARC4_Init : list Z → ARC4;
  ARC4_UpdateData : list Z → ARC4 → list Z * ARC4;
}.

Module AuthCrypt.
Section AuthCrypt.
Context `{Crypto}.

(** The two ciphers and [_initialized]; before [Init] the ciphers are not used. *)
Record t : Type := mk {
  _clientDecrypt : option ARC4; _serverEncrypt : option ARC4; _initialized : bool }.

Definition new : t := mk None None false.

Definition ServerEncryptionKey : list Z :=
  [0x08; 0xF1; 0x95; 0x9F; 0x47; 0xE5; 0xD2; 0xDB; 0xA1; 0x3D; 0x77; 0x8F; 0x3F; 0x3E; 0xE7; 0x00].
Definition ServerDecryptionKey : list Z :=
  [0x40; 0xAA; 0xD3; 0x92; 0x26; 0x71; 0x43; 0x47; 0x3A; 0x31; 0x08; 0xA6; 0xE7; 0xDC; 0x98; 0x2A].

(** The first 1024 bytes of the key streams are dropped. *)
Definition cipher (key : list Z) (K : BigNumber) : ARC4 :=
  (ARC4_UpdateData (replicate 1024 0) (ARC4_Init (HMAC_SHA1 key K))).2.

Definition Init (K : BigNumber) : t :=
  mk (Some (cipher ServerDecryptionKey K)) (Some (cipher ServerEncryptionKey K)) true.

Definition DecryptRecv (data : list Z) (c : t) : list Z * t :=
  if _initialized c then
    match _clientDecrypt c with
    | Some k => let '(d, k') := ARC4_UpdateData data k in (d, mk (Some k') (_serverEncrypt c) true)
    | None => (data, c)
    end
  else (data, c).

Definition EncryptSend (data : list Z) (c : t) : list Z * t :=
  if _initialized c then
    match _serverEncrypt c with
    | Some k => let '(d, k') := ARC4_UpdateData data k in (d, mk (_clientDecrypt c) (Some k') true)
    | None => (data, c)
    end
  else (data, c).

End AuthCrypt.
End AuthCrypt.

(** ** Packets and blocks *)

Module WorldPacket.

Record t : Type := mk { m_opcode : Z; buffer : ByteBuffer.t }.

Definition new (opcode : Z) : t := mk opcode ByteBuffer.new.
Definition size (p : t) : nat := ByteBuffer.size (buffer p).
Definition is_empty (p : t) : bool := ByteBuffer.is_empty (buffer p).
Definition resize (n : nat) (p : t) : t :=
  mk (m_opcode p) (ByteBuffer.mk 0 n (ByteBuffer.bitpos (buffer p)) (ByteBuffer.curbitval (buffer p))
                     (ByteBuffer.vec_resize n (ByteBuffer.storage (buffer p)))).
(** Bytes written behind the packet's back, into its storage. *)
Definition poke (pos : nat) (bytes : list Z) (p : t) : t :=
  mk (m_opcode p)
     (ByteBuffer.mk (ByteBuffer.rpos (buffer p)) (ByteBuffer.wpos (buffer p))
        (ByteBuffer.bitpos (buffer p)) (ByteBuffer.curbitval (buffer p))
        (ByteBuffer.overwrite pos bytes (ByteBuffer.storage (buffer p)))).

End WorldPacket.

(** [PacketFilter::DropHighBytes] *)
Definition DropHighBytes (opcode : Z) : Z := Z.land opcode 0xFFFF.

(** An [ACE_Message_Block] whose reading position is at its base. *)
Module Block.

Record t : Type := mk { capacity : nat; content : list Z }.

Definition length (b : t) : nat := List.length (content b).
Definition space (b : t) : nat := (capacity b - length b)%nat.
Definition reset (b : t) : t := mk (capacity b) [].
(** [copy] does nothing when there is no space. *)
Definition copy (bytes : list Z) (b : t) : bool * t :=
  if (space b <? List.length bytes)%nat then (false, b) else (true, mk (capacity b) (content b ++ bytes)).

End Block.

(** ** Headers *)

(** [struct ServerPktHeader]: the bytes of the header; [cmd] is a [uint16]. *)
Definition isLargePacket (size : Z) : bool := 0x7FFF <? size.
Definition getHeaderLength (size : Z) : nat := (2 + (if isLargePacket size then 3 else 2))%nat.
Definition ServerPktHeader (size cmd : Z) : list Z :=
  (if isLargePacket size then [u8 (Z.lor 0x80 (Z.land 0xFF (Z.shiftr size 16)))] else [])
  ++ [u8 (Z.land 0xFF size); u8 (Z.land 0xFF (Z.shiftr size 8))]
  ++ [u8 (Z.land 0xFF cmd); u8 (Z.land 0xFF (Z.shiftr cmd 8))].

(** The header of an encrypted connection, put over the first four bytes of the other. *)
Definition encrypted_length (size opcode : Z) : Z :=
  Z.lor (u32 (Z.shiftl (u32 size) 13)) (Z.land (u32 opcode) 0x1FFF).
Definition encrypted_header (size opcode : Z) (header : list Z) : list Z :=
  let totalLength := encrypted_length size opcode in
  ByteBuffer.overwrite 0
    [Z.land totalLength 0xFF; Z.land (Z.shiftr totalLength 8) 0xFF;
     Z.land (Z.shiftr totalLength 16) 0xFF; Z.land (Z.shiftr totalLength 24) 0xFF] header.

(** ** The world around a socket *)

(** A session is known by its account. *)
Definition session : Type := Z.

(** The row of [LOGIN_SEL_ACCOUNT_INFO_BY_NAME]. *)
Record AccountInfo : Type := mkAccountInfo {
  acc_id : Z; acc_sessionkey : list Z; acc_last_ip : list Z; acc_locked : Z; acc_expansion : Z;
  acc_mutetime : Z; acc_locale : Z; acc_recruiter : Z; acc_os : list Z }.

(** The arguments of the constructor of [WorldSession], and the addons it is told of. *)
Record NewSession : Type := mkNewSession {
  ns_id : Z; ns_security : Z; ns_expansion : Z; ns_mutetime : Z; ns_locale : Z;
  ns_recruiter : Z; ns_isRecruiter : bool }.
Record AddonInfo : Type := mkAddonInfo { addon_Name : list Z; addon_Enabled : Z; addon_CRC : Z }.

Inductive call : Type :=
| Wire (bytes : list Z)                        (* peer().send took these bytes *)
| CloseWriter                                  (* peer().close_writer *)
| CancelWakeup | ScheduleWakeup                (* reactor *)
| RemoveHandler
| Accepted (p : WorldPacket.t)                 (* SendPacket has stored the packet *)
| QueuePacket (s : session) (p : WorldPacket.t)
| ResetTimeOutTime (s : session)
| SetLatency (s : session) (latency : Z)
| UpdateMuteTime (mutetime id : Z)             (* statements of the login database *)
| UpdateLastIp (address account : list Z)
| New (s : NewSession)
| Addon (s : session) (a : AddonInfo)
| InitWarden (s : session)
| Sleep (microseconds : Z)
| AddSession (s : session).                    (* World::AddSession *)

Inductive send_result : Type := Sent (n : nat) | WouldBlock | SendError.

Record Env : Type := mkEnv {
  send : list call → list Z → send_result;
  reactor_ok : list call → bool;
  gettimeofday : list call → Z;                (* microseconds *)
  time : list call → Z;                        (* seconds *)
  random_bytes : list call → list Z;           (* BigNumber::SetRand(16 * 8) *)
  uncompress : list Z → nat → option (list Z); (* zlib: at most so many bytes *)
  address : list Z;                            (* of the peer *)
  account_by_name : list Z → option AccountInfo;
  gmlevel : Z → option Z;
  is_banned : Z → bool;
  is_recruiter : Z → bool;
  has_skip_overspeed : session → bool;         (* RBAC_PERM_SKIP_CHECK_OVERSPEED_PING *)
  world_closed : bool;
  player_security_limit : Z;
  config_expansion : Z;
  config_max_overspeed_pings : Z;
  config_warden_enabled : bool;
  config_session_add_delay : Z }.

(** [errno], which goes with a result of -1. *)
Inductive errno_t : Type := EWOULDBLOCK | EINVAL | ECONNRESET | OtherErrno.

#[global] Instance errno_eq_dec : EqDecision errno_t.
Proof. solve_decision. Defined.

Section WorldSocket.
Context `{!Crypto} (env : Env).

Record t : Type := mk {
  closing_ : bool;
  m_LastPingTime : Z;
  m_OverSpeedPings : Z;
  m_Crypt : AuthCrypt.t;
  m_Session : option session;
  m_RecvWPct : option WorldPacket.t;
  m_RecvPct : Block.t;
  m_Header : Block.t;
  m_WorldHeader : Block.t;
  m_OutBuffer : option Block.t;
  msg_queue : list Block.t;
  m_OutActive : bool;
  m_Seed : Z;
  calls : list call }.                         (* newest first *)

Definition high_water_mark : Z := 8 * 1024 * 1024.
Definition sizeof_ClientPktHeader : nat := 6.
Definition sizeof_WorldPktHeader : nat := 4.

Definition new (seed : Z) : t :=
  mk false 0 0 AuthCrypt.new None None (Block.mk 0 []) (Block.mk sizeof_ClientPktHeader [])
     (Block.mk sizeof_WorldPktHeader []) None [] false (u32 seed) [].

Definition set_closing (b : bool) (s : t) : t :=
  mk b (m_LastPingTime s) (m_OverSpeedPings s) (m_Crypt s) (m_Session s) (m_RecvWPct s) (m_RecvPct s)
     (m_Header s) (m_WorldHeader s) (m_OutBuffer s) (msg_queue s) (m_OutActive s) (m_Seed s) (calls s).
Definition set_pings (last n : Z) (s : t) : t :=
  mk (closing_ s) last n (m_Crypt s) (m_Session s) (m_RecvWPct s) (m_RecvPct s)
     (m_Header s) (m_WorldHeader s) (m_OutBuffer s) (msg_queue s) (m_OutActive s) (m_Seed s) (calls s).
Definition set_Crypt (c : AuthCrypt.t) (s : t) : t :=
  mk (closing_ s) (m_LastPingTime s) (m_OverSpeedPings s) c (m_Session s) (m_RecvWPct s) (m_RecvPct s)
     (m_Header s) (m_WorldHeader s) (m_OutBuffer s) (msg_queue s) (m_OutActive s) (m_Seed s) (calls s).
Definition set_Session (x : option session) (s : t) : t :=
  mk (closing_ s) (m_LastPingTime s) (m_OverSpeedPings s) (m_Crypt s) x (m_RecvWPct s) (m_RecvPct s)
     (m_Header s) (m_WorldHeader s) (m_OutBuffer s) (msg_queue s) (m_OutActive s) (m_Seed s) (calls s).
(** The packet being received and the block that refers to its contents. *)
Definition set_Recv (p : option WorldPacket.t) (b : Block.t) (s : t) : t :=
  mk (closing_ s) (m_LastPingTime s) (m_OverSpeedPings s) (m_Crypt s) (m_Session s) p b
     (m_Header s) (m_WorldHeader s) (m_OutBuffer s) (msg_queue s) (m_OutActive s) (m_Seed s) (calls s).
Definition set_Header (b : Block.t) (s : t) : t :=
  mk (closing_ s) (m_LastPingTime s) (m_OverSpeedPings s) (m_Crypt s) (m_Session s) (m_RecvWPct s) (m_RecvPct s)
     b (m_WorldHeader s) (m_OutBuffer s) (msg_queue s) (m_OutActive s) (m_Seed s) (calls s).
Definition set_WorldHeader (b : Block.t) (s : t) : t :=
  mk (closing_ s) (m_LastPingTime s) (m_OverSpeedPings s) (m_Crypt s) (m_Session s) (m_RecvWPct s) (m_RecvPct s)
     (m_Header s) b (m_OutBuffer s) (msg_queue s) (m_OutActive s) (m_Seed s) (calls s).
Definition set_OutBuffer (b : option Block.t) (s : t) : t :=
  mk (closing_ s) (m_LastPingTime s) (m_OverSpeedPings s) (m_Crypt s) (m_Session s) (m_RecvWPct s) (m_RecvPct s)
     (m_Header s) (m_WorldHeader s) b (msg_queue s) (m_OutActive s) (m_Seed s) (calls s).
Definition set_msg_queue (q : list Block.t) (s : t) : t :=
  mk (closing_ s) (m_LastPingTime s) (m_OverSpeedPings s) (m_Crypt s) (m_Session s) (m_RecvWPct s) (m_RecvPct s)
     (m_Header s) (m_WorldHeader s) (m_OutBuffer s) q (m_OutActive s) (m_Seed s) (calls s).
Definition set_OutActive (b : bool) (s : t) : t :=
  mk (closing_ s) (m_LastPingTime s) (m_OverSpeedPings s) (m_Crypt s) (m_Session s) (m_RecvWPct s) (m_RecvPct s)
     (m_Header s) (m_WorldHeader s) (m_OutBuffer s) (msg_queue s) b (m_Seed s) (calls s).
Definition record_call (c : call) (s : t) : t :=
  mk (closing_ s) (m_LastPingTime s) (m_OverSpeedPings s) (m_Crypt s) (m_Session s) (m_RecvWPct s) (m_RecvPct s)
     (m_Header s) (m_WorldHeader s) (m_OutBuffer s) (msg_queue s) (m_OutActive s) (m_Seed s) (c :: calls s).

Definition emit (c : call) : X t unit := modifyX (record_call c).
(** What the environment answers now. *)
Definition ask {A} (f : list call → A) : X t A := s ← getX; mret (f (calls s)).

(** ** Closing *)

Definition CloseSocket : X t unit :=
  s ← getX;
  if closing_ s then mret tt
  else modifyX (set_closing true);; emit CloseWriter;; modifyX (set_Session None).

Definition handle_close (invalid_handle : bool) : X t Z :=
  modifyX (set_closing true);;
  (when invalid_handle do emit CloseWriter);;
  modifyX (set_Session None);;
  emit RemoveHandler;;
  mret 0.

(** ** Output *)

(** [cur_bytes_] of the message queue. *)
Definition cur_bytes (q : list Block.t) : Z := Z.of_nat (sum_list (Block.capacity <$> q)).
(** [enqueue_tail] and [enqueue_head] without waiting. *)
Definition enqueue (at_head : bool) (b : Block.t) : X t bool :=
  s ← getX;
  if high_water_mark <=? cur_bytes (msg_queue s) then mret false
  else modifyX (set_msg_queue (if at_head then b :: msg_queue s else msg_queue s ++ [b]));; mret true.

Definition SendPacket (pct : WorldPacket.t) : X t Z :=
  s ← getX;
  if closing_ s then mret (-1)
  else
    let size := u32 (Z.of_nat (WorldPacket.size pct) + 2) in
    let header := ServerPktHeader size (u16 (WorldPacket.m_opcode pct)) in
    header ← (if AuthCrypt._initialized (m_Crypt s) then
                let '(h, c) := AuthCrypt.EncryptSend
                                 (encrypted_header (Z.of_nat (WorldPacket.size pct)) (WorldPacket.m_opcode pct) header)
                                 (m_Crypt s) in
                modifyX (set_Crypt c);; mret h
              else mret header);
    let bytes := header ++ ByteBuffer.storage (WorldPacket.buffer pct) in
    match m_OutBuffer s with
    | None => throwX UndefinedBehaviour
    | Some out =>
      if (length bytes <=? Block.space out)%nat && match msg_queue s with [] => true | _ => false end then
        modifyX (set_OutBuffer (Some (Block.copy bytes out).2));; emit (Accepted pct);; mret 0
      else
        ok ← enqueue false (Block.mk (length bytes) bytes);
        if ok : bool then emit (Accepted pct);; mret 0 else mret (-1)
    end.

Definition cancel_wakeup_output : X t Z :=
  s ← getX;
  if negb (m_OutActive s) then mret 0
  else
    modifyX (set_OutActive false);;
    ok ← ask (reactor_ok env);
    emit CancelWakeup;;
    mret (if ok : bool then 0 else -1).

Definition schedule_wakeup_output : X t Z :=
  s ← getX;
  if m_OutActive s then mret 0
  else
    modifyX (set_OutActive true);;
    ok ← ask (reactor_ok env);
    emit ScheduleWakeup;;
    mret (if ok : bool then 0 else -1).

(** [peer().send]: the peer takes a prefix of the bytes. *)
Definition peer_send (bytes : list Z) : X t send_result :=
  r ← ask (λ h, send env h bytes);
  match r with
  | Sent n =>
    let n := Nat.min n (length bytes) in
    (when negb (n =? 0)%nat do emit (Wire (take n bytes)));; mret (Sent n)
  | r => mret r
  end.

Definition WRITE_MASK : Z := 2.

Definition handle_output_queue : X t Z :=
  s ← getX;
  match msg_queue s with
  | [] => cancel_wakeup_output
  | mblk :: q =>
    modifyX (set_msg_queue q);;
    let bytes := Block.content mblk in
    r ← peer_send bytes;
    match r with
    | Sent n =>
      if (n =? 0)%nat then mret (-1)
      else if (n <? length bytes)%nat then
        ok ← enqueue true (Block.mk (Block.capacity mblk) (drop n bytes));
        if ok : bool then schedule_wakeup_output else mret (-1)
      else match q with [] => cancel_wakeup_output | _ => mret WRITE_MASK end
    | WouldBlock => enqueue true mblk;; schedule_wakeup_output
    | SendError => mret (-1)
    end
  end.

Definition handle_output : X t Z :=
  s ← getX;
  if closing_ s then mret (-1)
  else match m_OutBuffer s with
  | None => throwX UndefinedBehaviour
  | Some out =>
    let bytes := Block.content out in
    if (length bytes =? 0)%nat then handle_output_queue
    else
      r ← peer_send bytes;
      match r with
      | Sent n =>
        if (n =? 0)%nat then mret (-1)
        else if (n <? length bytes)%nat then
          modifyX (set_OutBuffer (Some (Block.mk (Block.capacity out) (drop n bytes))));;
          schedule_wakeup_output
        else modifyX (set_OutBuffer (Some (Block.reset out)));; handle_output_queue
      | WouldBlock => schedule_wakeup_output
      | SendError => mret (-1)
      end
  end.

(** [do ret = handle_output(get_handle()); while (ret > 0);] *)
Fixpoint output_loop (fuel : nat) : X t Z :=
  match fuel with
  | O => throwX Diverges
  | S fuel => ret ← handle_output; if 0 <? ret then output_loop fuel else mret ret
  end.

(** Each further round takes a block off the queue. *)
Definition Update : X t Z :=
  s ← getX;
  if closing_ s then mret (-1)
  else match m_OutActive s, m_OutBuffer s with
  | true, _ => mret 0
  | false, None => throwX UndefinedBehaviour
  | false, Some out =>
    if (Block.length out =? 0)%nat && match msg_queue s with [] => true | _ => false end then mret 0
    else output_loop (S (S (length (msg_queue s))))
  end.

(** The members set by [open], whose greeting is not an opcode. *)
Definition MSG_VERIFY_CONNECTIVITY : Z := 0x4F57.
Definition bytes_of (s : string) : list Z := (λ c, Z.of_nat (Ascii.nat_of_ascii c)) <$> String.list_ascii_of_string s.

(** A packet filled by stream operations that cannot fail. *)
Definition packet_of (opcode : Z) (m : M ByteBuffer.t unit) : result WorldPacket.t :=
  '(_, b) ← m ByteBuffer.new; Ok (WorldPacket.mk opcode b).

(** The manager's hook gives the size of the output buffer, or fails. *)
Definition open (OnSocketOpen : option nat) (peer_ok : bool) : X t Z :=
  s ← getX;
  match m_OutBuffer s with
  | Some _ => mret (-1)
  | None =>
    modifyX (set_OutActive true);;
    match OnSocketOpen with
    | None => mret (-1)
    | Some m_OutBufferSize =>
      modifyX (set_OutBuffer (Some (Block.mk m_OutBufferSize [])));;
      if negb peer_ok then mret (-1)
      else
        packet ← liftX (packet_of MSG_VERIFY_CONNECTIVITY
                   (ByteBuffer.shl_string (bytes_of "RLD OF WARCRAFT CONNECTION - SERVER TO CLIENT")));
        ret ← SendPacket packet;
        if ret =? -1 then mret (-1)
        else ok ← ask (reactor_ok env); mret (if ok : bool then 0 else -1)
    end
  end.

(** ** Handlers of the socket itself *)

(** Reading from the packet that is being handled. *)
Definition from_packet {A} (m : M ByteBuffer.t A) (b : ByteBuffer.t) : X t (A * ByteBuffer.t) :=
  liftX (m b).

Definition SMSG_AUTH_CHALLENGE : Z := 0x0221.
Definition SMSG_AUTH_RESPONSE : Z := 0x0890.
Definition SMSG_PONG : Z := 0x1121.
Definition AUTH_FAILED : Z := 13.
Definition AUTH_REJECT : Z := 14.
Definition AUTH_UNAVAILABLE : Z := 16.
Definition AUTH_UNKNOWN_ACCOUNT : Z := 21.
Definition AUTH_BANNED : Z := 28.
Definition SEC_PLAYER : Z := 0.
Definition LOCALE_enUS : Z := 0.
Definition TOTAL_LOCALES : Z := 9.

Definition SendAuthResponseError (code : Z) : X t unit :=
  packet ← liftX (packet_of SMSG_AUTH_RESPONSE
             (ByteBuffer.WriteBit 0;; ByteBuffer.WriteBit 0;; ByteBuffer.shl_uint8 (u8 code)));
  SendPacket packet;; mret tt.

Definition HandleSendAuthSession : X t Z :=
  seed1 ← ask (random_bytes env);
  seed2 ← ask (random_bytes env);
  s ← getX;
  packet ← liftX (packet_of SMSG_AUTH_CHALLENGE
             (ByteBuffer.append seed1;; ByteBuffer.append seed2;; ByteBuffer.shl_uint32 (m_Seed s)));
  SendPacket packet.

(** What [HandleAuthSession] reads from its packet. *)
Record AuthSession : Type := mkAuthSession {
  digest : list Z; clientBuild : Z; clientSeed : Z; addonsData : list Z; account : list Z }.

Definition read_AuthSession : M ByteBuffer.t AuthSession :=
  ByteBuffer.read_skip 4;;
  d8 ← ByteBuffer.shr_uint8; d13 ← ByteBuffer.shr_uint8; d3 ← ByteBuffer.shr_uint8;
  ByteBuffer.read_skip 4;;
  d6 ← ByteBuffer.shr_uint8;
  build ← ByteBuffer.shr_uint16;
  d2 ← ByteBuffer.shr_uint8; d0 ← ByteBuffer.shr_uint8; d7 ← ByteBuffer.shr_uint8;
  d11 ← ByteBuffer.shr_uint8;
  ByteBuffer.read_skip 4;;
  d5 ← ByteBuffer.shr_uint8; d15 ← ByteBuffer.shr_uint8; d14 ← ByteBuffer.shr_uint8;
  d12 ← ByteBuffer.shr_uint8;
  ByteBuffer.read_skip 8;;
  ByteBuffer.read_skip 1;;
  seed ← ByteBuffer.shr_uint32;
  ByteBuffer.read_skip 4;;
  d1 ← ByteBuffer.shr_uint8; d9 ← ByteBuffer.shr_uint8; d4 ← ByteBuffer.shr_uint8;
  d17 ← ByteBuffer.shr_uint8; d16 ← ByteBuffer.shr_uint8; d19 ← ByteBuffer.shr_uint8;
  d18 ← ByteBuffer.shr_uint8; d10 ← ByteBuffer.shr_uint8;
  ByteBuffer.read_skip 1;;
  addonSize ← ByteBuffer.shr_uint32;
  (* addonsData.contents() of an empty packet *)
  (if addonSize =? 0 then throw UndefinedBehaviour else mret tt);;
  addons ← ByteBuffer.read_bytes (Z.to_nat addonSize);
  ByteBuffer.ReadBit;;
  accountNameLength ← ByteBuffer.ReadBits 11;
  name ← ByteBuffer.ReadString (Z.to_nat accountNameLength);
  mret (mkAuthSession [d0; d1; d2; d3; d4; d5; d6; d7; d8; d9; d10; d11; d12; d13; d14; d15; d16; d17; d18; d19]
          build seed addons name).

(** [WorldSession::ReadAddonsInfo]: the list of addons, one by one. *)
Fixpoint addons_loop (fuel : nat) (i addonsCount : Z) (sess : session) (addonInfo : ByteBuffer.t) : X t unit :=
  match fuel with
  | O => throwX Diverges
  | S fuel =>
    if addonsCount <=? i then
      '(currentTime, _) ← from_packet ByteBuffer.shr_uint32 addonInfo; mret tt
    else if (ByteBuffer.size addonInfo <? ByteBuffer.rpos addonInfo + 1)%nat then mret tt
    else
      '(a, addonInfo) ← from_packet
        (addonName ← ByteBuffer.shr_string;
         enabled ← ByteBuffer.shr_uint8; crc ← ByteBuffer.shr_uint32; unk1 ← ByteBuffer.shr_uint32;
         mret (mkAddonInfo addonName enabled crc)) addonInfo;
      emit (Addon sess a);;
      addons_loop fuel (i + 1) addonsCount sess addonInfo
  end.

Definition ReadAddonsInfo (sess : session) (bytes : list Z) : X t unit :=
  if (length bytes <? 4)%nat then mret tt
  else
    let size := le_val (take 4 bytes) in
    if (size =? 0) || (0xFFFFF <? size) then mret tt
    else match uncompress env (drop 4 bytes) (Z.to_nat size) with
    | None => mret tt
    | Some data =>
      let addonInfo := ByteBuffer.received
                         (ByteBuffer.overwrite 0 data (replicate (Z.to_nat size) 0)) in
      '(addonsCount, addonInfo) ← from_packet ByteBuffer.shr_uint32 addonInfo;
      (* every round reads at least the nine bytes behind the name *)
      addons_loop (S (S (Z.to_nat size))) 0 addonsCount sess addonInfo
    end.

Definition Win : list Z := bytes_of "Win".
Definition OSX : list Z := bytes_of "OSX".

(** [HandleAuthSession] from its checks on; [None] is the [return -1] of a check. *)
Definition check_account (a : AuthSession) : X t (option (AccountInfo * NewSession)) :=
  if world_closed env then SendAuthResponseError AUTH_REJECT;; mret None
  else match account_by_name env (account a) with
  | None => SendAuthResponseError AUTH_UNKNOWN_ACCOUNT;; mret None
  | Some fields =>
    let expansion := if config_expansion env <? acc_expansion fields then config_expansion env
                     else acc_expansion fields in
    if (acc_locked fields =? 1) && negb (bool_decide (acc_last_ip fields = address env)) then
      SendAuthResponseError AUTH_FAILED;; mret None
    else
      let id := acc_id fields in
      mutetime ← (if acc_mutetime fields <? 0 then
                    now ← ask (time env);
                    m ← liftX (d ← time_sub 0 (acc_mutetime fields); time_add now d);
                    emit (UpdateMuteTime m id);; mret m
                  else mret (acc_mutetime fields));
      let locale := if TOTAL_LOCALES <=? acc_locale fields then LOCALE_enUS else acc_locale fields in
      if config_warden_enabled env && negb (bool_decide (acc_os fields = Win)) && negb (bool_decide (acc_os fields = OSX)) then
        SendAuthResponseError AUTH_REJECT;; mret None
      else
        let security := default 0 (gmlevel env id) in
        if is_banned env id then SendAuthResponseError AUTH_BANNED;; mret None
        else if (SEC_PLAYER <? player_security_limit env) && (security <? player_security_limit env) then
          SendAuthResponseError AUTH_UNAVAILABLE;; mret None
        else
          mret (Some (fields, mkNewSession id security (u8 expansion) mutetime locale
                                (acc_recruiter fields) (is_recruiter env id)))
  end.

Definition HandleAuthSession (recvPacket : WorldPacket.t) : X t Z :=
  '(a, _) ← from_packet read_AuthSession (WorldPacket.buffer recvPacket);
  r ← check_account a;
  match r with
  | None => mret (-1)
  | Some (fields, ns) =>
    (* the digest of the account's key is computed here, and not looked at *)
    emit (UpdateLastIp (address env) (account a));;
    emit (New ns);; modifyX (set_Session (Some (ns_id ns)));;
    let k := SetHexStr (acc_sessionkey fields) in
    modifyX (set_Crypt (AuthCrypt.Init k));;
    ReadAddonsInfo (ns_id ns) (addonsData a);;
    (when config_warden_enabled env do
       when bool_decide (acc_os fields = Win) do emit (InitWarden (ns_id ns)));;
    emit (Sleep (config_session_add_delay env));;
    emit (AddSession (ns_id ns));;
    mret 0
  end.

(** [ACE_Time_Value (27)], and the zero value of the first ping. *)
Definition ping_interval : Z := 27 * 1000000.

Definition HandlePing (recvPacket : WorldPacket.t) : X t Z :=
  '(latency, b) ← from_packet ByteBuffer.shr_uint32 (WorldPacket.buffer recvPacket);
  '(ping, _) ← from_packet ByteBuffer.shr_uint32 b;
  s ← getX;
  now ← ask (gettimeofday env);
  kicked ←
    (if m_LastPingTime s =? 0 then modifyX (set_pings now (m_OverSpeedPings s));; mret false
     else
       let diff_time := now - m_LastPingTime s in
       if diff_time <? ping_interval then
         let n := u32 (m_OverSpeedPings s + 1) in
         modifyX (set_pings now n);;
         let max_count := config_max_overspeed_pings env in
         mret (z2b max_count && (max_count <? n) &&
               match m_Session s with Some x => negb (has_skip_overspeed env x) | None => false end)
       else modifyX (set_pings now 0);; mret false);
  if kicked : bool then mret (-1)
  else match m_Session s with
  | None => mret (-1)
  | Some x =>
    emit (SetLatency x latency);;
    packet ← liftX (packet_of SMSG_PONG (ByteBuffer.shl_uint32 ping));
    SendPacket packet
  end.

Definition CMSG_PING : Z := 0x08E3.
Definition CMSG_AUTH_SESSION : Z := 0x09F1.
Definition CMSG_KEEP_ALIVE : Z := 0x0015.
Definition CMSG_LOG_DISCONNECT : Z := 0x09A2.
Definition CMSG_ENABLE_NAGLE : Z := 0x4449.

(** The opcode table is the one [Initialize] has filled, a parameter to keep terms small. *)
Context (opcodeTable : table).

(** The default case of [ProcessIncoming]. *)
Definition queue_for_session (x : session) (opcode : Z) (new_pct : WorldPacket.t) : X t Z :=
  if NUM_OPCODE_HANDLERS <=? opcode then mret 0
  else
    handler ← liftX (at_opcode opcodeTable opcode);
    match handler with
    | None => mret 0
    | Some h =>
      if bool_decide (Status h = STATUS_UNHANDLED) then mret 0
      else emit (ResetTimeOutTime x);; emit (QueuePacket x new_pct);; mret 0
    end.

Definition ProcessIncoming (new_pct : WorldPacket.t) : X t Z :=
  let opcode := DropHighBytes (WorldPacket.m_opcode new_pct) in
  s ← getX;
  if closing_ s then mret (-1)
  else catch_ByteBufferException
    (if opcode =? CMSG_PING then HandlePing new_pct
     else if opcode =? CMSG_AUTH_SESSION then
       match m_Session s with
       | Some _ => mret (-1)
       | None => HandleAuthSession new_pct
       end
     else if opcode =? CMSG_KEEP_ALIVE then mret 0
     else if opcode =? CMSG_LOG_DISCONNECT then mret 0
     else if opcode =? MSG_VERIFY_CONNECTIVITY then
       '(str, _) ← from_packet ByteBuffer.shr_string (WorldPacket.buffer new_pct);
       if bool_decide (str = bytes_of "D OF WARCRAFT CONNECTION - CLIENT TO SERVER")
       then HandleSendAuthSession else mret (-1)
     else if opcode =? CMSG_ENABLE_NAGLE then
       (* WorldSession::HandleEnableNagleAlgorithm returns 0 *)
       match m_Session s with Some _ => mret 0 | None => mret (-1) end
     else
       match m_Session s with None => mret (-1) | Some x => queue_for_session x opcode new_pct end)
    (mret (-1)).

(** ** Input *)

(** The new packet and the block over its contents. *)
Definition start_packet (opcode : Z) (size : nat) : X t unit :=
  s ← getX;
  let p := WorldPacket.new (DropHighBytes opcode) in
  if (0 <? size)%nat then modifyX (set_Recv (Some (WorldPacket.resize size p)) (Block.mk size []))
  else if (Block.space (m_RecvPct s) =? 0)%nat then modifyX (set_Recv (Some p) (m_RecvPct s))
  else throwX AssertionFailed.

(** [None] is the result 0, [Some e] the result -1 with [errno] set to [e]. *)
Definition handle_input_header : X t (option errno_t) :=
  s ← getX;
  match m_RecvWPct s with
  | Some _ => throwX AssertionFailed
  | None =>
    if AuthCrypt._initialized (m_Crypt s) then
      let '(authHeader, c) := AuthCrypt.DecryptRecv (take 4 (Block.content (m_WorldHeader s))) (m_Crypt s) in
      modifyX (set_Crypt c);;
      modifyX (set_WorldHeader (Block.mk (Block.capacity (m_WorldHeader s)) authHeader));;
      let val := le_val authHeader in
      let opcode := Z.land val 0x1FFF in
      let size := u16 (Z.shiftr (Z.land val (u32 (Z.lnot 0xFFF))) 13) in
      if (20240 <? size) || (0xFFFF <=? opcode) then mret (Some EINVAL)
      else start_packet opcode (Z.to_nat size);; mret None
    else
      let authHeader := Block.content (m_Header s) in
      let size := le_val (take 2 authHeader) in
      let cmd := le_val (take 4 (drop 2 authHeader)) in
      if (size <? 4) || (10240 <? size) || ((0xFFFF <? cmd) && negb (Z.shiftr cmd 16 =? 0x4C52))
      then mret (Some EINVAL)
      else start_packet cmd (Z.to_nat (size - 4));; mret None
  end.

(** [m_WorldHeader] on an encrypted connection, [m_Header] before. *)
Definition current_header (s : t) : Block.t :=
  if AuthCrypt._initialized (m_Crypt s) then m_WorldHeader s else m_Header s.
Definition set_header (initialized : bool) (b : Block.t) : t → t :=
  if initialized then set_WorldHeader b else set_Header b.

Section input.
(** What is done with a complete packet: [ProcessIncoming], below. *)
Context (process : WorldPacket.t → X t Z).

Definition handle_input_payload : X t (option errno_t) :=
  s ← getX;
  let initialized := AuthCrypt._initialized (m_Crypt s) in
  match m_RecvWPct s with
  | None => throwX AssertionFailed
  | Some p =>
    if negb (Block.space (m_RecvPct s) =? 0)%nat || negb (Block.space (current_header s) =? 0)%nat
    then throwX AssertionFailed
    else
      ret ← process p;
      modifyX (set_Recv None (Block.mk 0 []));;
      modifyX (λ s, set_header initialized
                      (Block.reset (if initialized then m_WorldHeader s else m_Header s)) s);;
      mret (if ret =? -1 then Some EINVAL else None)
  end.

(** What the loop of [handle_input_missing_data] finds in the received bytes: its body from
    the header on.  [None] means that the loop goes on with the remaining bytes. *)
Definition receive_header (message : list Z) : X t (option errno_t * list Z) :=
  s ← getX;
  let h := current_header s in
  if (0 <? Block.space h)%nat then
    let to_header := Nat.min (length message) (Block.space h) in
    let h' := (Block.copy (take to_header message) h).2 in
    modifyX (set_header (AuthCrypt._initialized (m_Crypt s)) h');;
    let message := drop to_header message in
    if (0 <? Block.space h')%nat then
      if (length message =? 0)%nat then mret (Some EWOULDBLOCK, message)
      else throwX AssertionFailed
    else
      r ← handle_input_header; mret (r, message)
  else mret (None, message).

Definition receive_payload (message : list Z) : X t (option errno_t * list Z) :=
  s ← getX;
  match m_RecvWPct s with
  | None => mret (Some EINVAL, message)
  | Some p =>
    let b := m_RecvPct s in
    if (0 <? Block.space b)%nat then
      let to_data := Nat.min (length message) (Block.space b) in
      let b' := (Block.copy (take to_data message) b).2 in
      modifyX (set_Recv (Some (WorldPacket.poke (Block.length b) (take to_data message) p)) b');;
      let message := drop to_data message in
      if (0 <? Block.space b')%nat then
        if (length message =? 0)%nat then mret (Some EWOULDBLOCK, message)
        else throwX AssertionFailed
      else mret (None, message)
    else mret (None, message)
  end.

Fixpoint message_loop (fuel : nat) (message : list Z) : X t (option errno_t) :=
  match message with
  | [] => mret None
  | _ =>
    match fuel with
    | O => throwX Diverges
    | S fuel =>
      '(r, message) ← receive_header message;
      match r with
      | Some e => mret (Some e)
      | None =>
        '(r, message) ← receive_payload message;
        match r with
        | Some e => mret (Some e)
        | None =>
          ret ← handle_input_payload;
          match ret with Some e => mret (Some e) | None => message_loop fuel message end
        end
      end
    end
  end.

(** The answer of [peer().recv] into a buffer of 4096 bytes. *)
Inductive recv_result : Type := Received (bytes : list Z) | PeerClosed | RecvError (e : errno_t).
Definition recv_size : nat := Z.to_nat 4096.

Definition handle_input_missing_data (n : recv_result) : X t (errno_t + Z) :=
  match n with
  | RecvError e => mret (inl e)
  | PeerClosed => mret (inr 0)
  | Received message =>
    r ← message_loop (length message) message;
    mret (match r with
          | Some e => inl e
          | None => inr (if (length message =? recv_size)%nat then 1 else 2)
          end)
  end.

(** A result of -1 other than [Update]'s sets [errno] to [ECONNRESET]. *)
Definition handle_input (n : recv_result) : X t Z :=
  s ← getX;
  if closing_ s then mret (-1)
  else
    ret ← handle_input_missing_data n;
    match ret with
    | inl EWOULDBLOCK => Update
    | inl _ => mret (-1)
    | inr r => if r =? 0 then mret (-1) else if r =? 1 then mret 1 else Update
    end.

End input.

End WorldSocket.
