(* ===== verification/WorldSocketInput.v ===== *)
(** * WorldSocketInput: how the bytes of a client become packets.

    A received message is either a proper part of a packet or begins with the rest of one
    ([iteration_spec]); so the way in which the network cuts the stream does not matter, and
    the packets of a client come out as they were sent. *)
From S2P Require Import Prelude.
From stdpp Require Import list.
From S2P Require Import Bits ByteBuffer ByteBufferStream Timer OpcodeTable WorldSocket.
Open Scope Z_scope.

(** ** What the code relies on in the stream cipher *)

Class CryptoLaws `{Crypto} : Prop := {
  ARC4_length d k : length (ARC4_UpdateData d k).1 = length d;
  ARC4_involution d k : ARC4_UpdateData (ARC4_UpdateData d k).1 k = (d, (ARC4_UpdateData d k).2);
}.

(** ** The state of reception *)

Section input.
Context `{CL : CryptoLaws} (process : WorldPacket.t → X t Z).

(** The four members that receive, and whether headers are encrypted. *)
Definition inputs (s : t) := (m_RecvWPct s, m_RecvPct s, m_Header s, m_WorldHeader s).
Definition encrypted (s : t) : bool := AuthCrypt._initialized (m_Crypt s).
Definition other_header (s : t) : Block.t := if encrypted s then m_Header s else m_WorldHeader s.

(** Handling a packet leaves reception alone and never ends encryption. *)
Definition keeps_input (m : X t Z) : Prop := ∀ s r s',
  m s = (Ok r, s') → inputs s' = inputs s ∧ (encrypted s = true → encrypted s' = true).

Hypothesis process_keeps : ∀ p, keeps_input (process p).

Record headers_ok (s : t) : Prop := {
  cap_Header : Block.capacity (m_Header s) = sizeof_ClientPktHeader;
  cap_WorldHeader : Block.capacity (m_WorldHeader s) = sizeof_WorldPktHeader;
  other_empty : Block.content (other_header s) = [] }.

(** Between packets, or in the middle of a header. *)
Definition at_header (s : t) : Prop :=
  headers_ok s ∧ m_RecvWPct s = None ∧ m_RecvPct s = Block.mk 0 [] ∧
  (0 < Block.space (current_header s))%nat.

(** A packet of which the bytes [c] have arrived. *)
Definition partial_packet (opcode : Z) (n : nat) (c : list Z) : WorldPacket.t :=
  WorldPacket.mk opcode (ByteBuffer.mk 0 n 8 0 (c ++ replicate (n - length c) 0)).

(** Nothing of the next packet has arrived. *)
Definition idle (s : t) : Prop := at_header s ∧ Block.content (current_header s) = [].

Definition in_payload (s : t) (opcode : Z) (n : nat) (c : list Z) : Prop :=
  headers_ok s ∧ Block.space (current_header s) = 0%nat ∧ (length c ≤ n)%nat ∧
  m_RecvPct s = Block.mk n c ∧ m_RecvWPct s = Some (partial_packet opcode n c).

Definition receiving (s : t) : Prop :=
  at_header s ∨ ∃ opcode n c, (length c < n)%nat ∧ in_payload s opcode n c.

(** A round of the loop of [handle_input_missing_data]. *)
Definition iteration (message : list Z) : X t (option errno_t * list Z) :=
  '(r, message) ← receive_header message;
  match r with
  | Some e => mret (Some e, message)
  | None =>
    '(r, message) ← receive_payload message;
    match r with
    | Some e => mret (Some e, message)
    | None => ret ← handle_input_payload process; mret (ret, message)
    end
  end.

Lemma message_loop_iteration n z message s :
  message_loop process (S n) (z :: message) s =
  match iteration (z :: message) s with
  | (Ok (Some e, _), s') => (Ok (Some e), s')
  | (Ok (None, rest), s') => message_loop process n rest s'
  | (Throw e, s') => (Throw e, s')
  end.
Proof.
  cbn [message_loop]. unfold iteration, mbind, X_bind, mret, X_ret.
  destruct (receive_header (z :: message) s) as [[[[e|] m1]|e] s1]; try done.
  destruct (receive_payload m1 s1) as [[[[e|] m2]|e] s2]; try done.
  by destruct (handle_input_payload process s2) as [[[e|]|e] s3].
Qed.

(** ** The payload *)

Lemma set_header_current s b :
  current_header (set_header (encrypted s) b s) = b.
Proof. unfold current_header, encrypted. destruct (AuthCrypt._initialized (m_Crypt s)) eqn:E; simpl; by rewrite E. Qed.

(** A complete packet and what becomes of it. *)
Lemma handle_input_payload_full s opcode n c :
  in_payload s opcode n c → length c = n →
  match handle_input_payload process s with
  | (Ok None, s') => idle s'
  | (Ok (Some e), _) => e = EINVAL
  | (Throw _, _) => True
  end.
Proof using process_keeps.
  intros ([C1 C2 O] & Hh & _ & Hb & Hp) Hn. unfold handle_input_payload, mbind, X_bind, getX. cbn beta.
  rewrite Hp, Hb, Hh. unfold Block.space, Block.length. cbn [Block.capacity Block.content].
  rewrite Hn, Nat.sub_diag. cbn [negb orb Nat.eqb].
  destruct (process (partial_packet opcode n c) s) as [[ret|e] s'] eqn:E; [|done].
  destruct (process_keeps _ _ _ _ E) as [Hi Henc]. unfold inputs in Hi. injection Hi as H1 H2 H3 H4.
  cbn. destruct (ret =? -1); [done|].
  unfold other_header, encrypted in *.
  destruct (AuthCrypt._initialized (m_Crypt s)) eqn:Ei; cbn.
  - specialize (Henc eq_refl).
    repeat split; unfold other_header, current_header, encrypted, Block.space, Block.length; cbn;
      rewrite ?Henc, ?H3, ?H4; cbn; rewrite ?C1, ?C2; try done; cbn; lia.
  - repeat split; unfold other_header, current_header, encrypted, Block.space, Block.length; cbn;
      rewrite ?H3, ?H4; cbn; rewrite ?C1, ?C2; try done;
      destruct (AuthCrypt._initialized (m_Crypt s')); cbn; rewrite ?H3, ?H4, ?O, ?C1, ?C2; cbn; try done; lia.
Qed.

Lemma overwrite_end (n : nat) (c bytes : list Z) :
  (length c + length bytes ≤ n)%nat →
  ByteBuffer.overwrite (length c) bytes (c ++ replicate (n - length c) 0)
  = (c ++ bytes) ++ replicate (n - length (c ++ bytes)) 0.
Proof.
  intros Hl. unfold ByteBuffer.overwrite. rewrite take_app_length, drop_app_ge by lia.
  rewrite drop_replicate, length_app, <- app_assoc. do 3 f_equal. lia.
Qed.

(** What [receive_payload] does with bytes that fit. *)
Definition push_payload (opcode : Z) (n : nat) (c bytes : list Z) (s : t) : t :=
  set_Recv (Some (partial_packet opcode n (c ++ bytes))) (Block.mk n (c ++ bytes)) s.

Lemma push_payload_in s opcode n c bytes :
  in_payload s opcode n c → (length c + length bytes ≤ n)%nat →
  in_payload (push_payload opcode n c bytes s) opcode n (c ++ bytes).
Proof. intros (H1 & H2 & H3 & H4 & H5) Hl. destruct H1. repeat split; cbn; try done. rewrite length_app. lia. Qed.

Lemma receive_payload_spec s opcode n c m :
  in_payload s opcode n c →
  receive_payload m s =
    (if (length m <? n - length c)%nat
     then (Ok (Some EWOULDBLOCK, []), push_payload opcode n c m s)
     else (Ok (None, drop (n - length c) m), push_payload opcode n c (take (n - length c) m) s)).
Proof.
  intros (H1 & H2 & H3 & H4 & H5). unfold receive_payload, mbind, X_bind, getX. cbn beta. rewrite H5, H4.
  unfold Block.space, Block.length. cbn [Block.capacity Block.content].
  destruct (Nat.ltb_spec 0 (n - length c)) as [Hs|Hs].
  - unfold Block.copy, Block.space, Block.length. cbn [Block.capacity Block.content].
    assert (Nat.min (length m) (n - length c) = if (length m <? n - length c)%nat then length m else (n - length c)%nat) as ->
      by (destruct (Nat.ltb_spec (length m) (n - length c)); lia).
    destruct (Nat.ltb_spec (length m) (n - length c)) as [Hm|Hm].
    + rewrite (take_ge m) by lia. rewrite (proj2 (Nat.ltb_ge _ (length m))) by lia.
      cbn [snd Block.capacity Block.content modifyX]. rewrite length_app, drop_all.
      rewrite (proj2 (Nat.ltb_lt 0 _)) by lia. cbn.
      unfold push_payload. do 2 f_equal. unfold WorldPacket.poke, partial_packet.
      cbn [WorldPacket.m_opcode WorldPacket.buffer ByteBuffer.rpos ByteBuffer.wpos ByteBuffer.bitpos ByteBuffer.curbitval ByteBuffer.storage].
      by rewrite overwrite_end by lia.
    + assert (length (take (n - length c) m) = (n - length c)%nat) as Hl by (rewrite length_take; lia).
      rewrite Hl, Nat.ltb_irrefl. cbn [snd Block.capacity Block.content modifyX].
      rewrite length_app, Hl. rewrite (proj2 (Nat.ltb_ge 0 _)) by lia. cbn.
      unfold push_payload. do 2 f_equal. unfold WorldPacket.poke, partial_packet.
      cbn [WorldPacket.m_opcode WorldPacket.buffer ByteBuffer.rpos ByteBuffer.wpos ByteBuffer.bitpos ByteBuffer.curbitval ByteBuffer.storage].
      by rewrite overwrite_end by lia.
  - assert (n - length c = 0)%nat as -> by lia. rewrite (proj2 (Nat.ltb_ge _ 0)) by lia. cbn.
    unfold push_payload. rewrite app_nil_r. destruct s; cbn in *. by subst.
Qed.

(** ** The header *)

Definition push_header (bytes : list Z) (s : t) : t :=
  set_header (encrypted s)
    (Block.mk (Block.capacity (current_header s)) (Block.content (current_header s) ++ bytes)) s.

(** A complete header that has not been looked at. *)
Definition header_full (s : t) : Prop :=
  headers_ok s ∧ m_RecvWPct s = None ∧ m_RecvPct s = Block.mk 0 [] ∧
  Block.space (current_header s) = 0%nat.

Lemma encrypted_push bytes s : encrypted (push_header bytes s) = encrypted s.
Proof. unfold push_header. destruct (encrypted s) eqn:E; exact E. Qed.

Lemma current_push bytes s :
  current_header (push_header bytes s)
  = Block.mk (Block.capacity (current_header s)) (Block.content (current_header s) ++ bytes).
Proof. apply set_header_current. Qed.

Lemma push_header_ok bytes s : headers_ok s → headers_ok (push_header bytes s).
Proof.
  intros [C1 C2 O]. unfold push_header, other_header, current_header, encrypted in *.
  destruct (AuthCrypt._initialized (m_Crypt s)) eqn:E; split; cbn;
    unfold other_header, encrypted; cbn; rewrite ?E; try done.
Qed.

Lemma push_header_at bytes s :
  at_header s → (length bytes < Block.space (current_header s))%nat → at_header (push_header bytes s).
Proof.
  intros (H1 & H2 & H3 & H4) Hl. split; [by apply push_header_ok|]. rewrite current_push.
  unfold Block.space, Block.length in *. cbn. rewrite length_app. repeat split.
  - unfold push_header. by destruct (encrypted s).
  - unfold push_header. by destruct (encrypted s).
  - lia.
Qed.

Lemma push_header_full bytes s :
  at_header s → length bytes = Block.space (current_header s) → header_full (push_header bytes s).
Proof.
  intros (H1 & H2 & H3 & H4) Hl. split; [by apply push_header_ok|]. rewrite current_push.
  unfold Block.space, Block.length in *. cbn. rewrite length_app. repeat split.
  - unfold push_header. by destruct (encrypted s).
  - unfold push_header. by destruct (encrypted s).
  - lia.
Qed.

Lemma DecryptRecv_length data c : length (AuthCrypt.DecryptRecv data c).1 = length data.
Proof using CL.
  unfold AuthCrypt.DecryptRecv. destruct (AuthCrypt._initialized c); [|done].
  destruct (AuthCrypt._clientDecrypt c) as [k|]; [|done].
  rewrite <- (ARC4_length data k). by destruct (ARC4_UpdateData data k).
Qed.

Lemma DecryptRecv_initialized data c :
  AuthCrypt._initialized (AuthCrypt.DecryptRecv data c).2 = AuthCrypt._initialized c.
Proof.
  unfold AuthCrypt.DecryptRecv. destruct (AuthCrypt._initialized c) eqn:E; [|done].
  destruct (AuthCrypt._clientDecrypt c); [|done]. by destruct (ARC4_UpdateData data _).
Qed.

Lemma start_packet_spec opcode n s :
  m_RecvPct s = Block.mk 0 [] →
  start_packet opcode n s = (Ok tt, set_Recv (Some (partial_packet (DropHighBytes opcode) n [])) (Block.mk n []) s).
Proof.
  intros Hb. unfold start_packet, mbind, X_bind, getX. cbn beta.
  destruct (Nat.ltb_spec 0 n).
  - unfold modifyX. do 3 f_equal. unfold WorldPacket.resize, partial_packet, WorldPacket.new. cbn.
    unfold ByteBuffer.vec_resize. by rewrite take_nil.
  - rewrite Hb. cbn. assert (n = 0%nat) as -> by lia. reflexivity.
Qed.

Lemma handle_input_header_full s :
  header_full s →
  match handle_input_header s with
  | (Ok None, s') => ∃ opcode n, in_payload s' opcode n []
  | (Ok (Some e), _) => e = EINVAL
  | (Throw _, _) => False
  end.
Proof using CL.
  intros ([C1 C2 O] & Hp & Hb & Hs). unfold handle_input_header, mbind, X_bind, getX. cbn beta.
  rewrite Hp. unfold current_header, other_header, encrypted in *.
  destruct (AuthCrypt._initialized (m_Crypt s)) eqn:E.
  - destruct (AuthCrypt.DecryptRecv (take 4 (Block.content (m_WorldHeader s))) (m_Crypt s)) as [h c] eqn:D.
    assert (length h = 4%nat) as Hl.
    { pose proof (DecryptRecv_length (take 4 (Block.content (m_WorldHeader s))) (m_Crypt s)) as Hd.
      rewrite D in Hd. cbn in Hd. rewrite Hd, length_take. unfold Block.space, Block.length in Hs.
      rewrite C2 in Hs. unfold sizeof_WorldPktHeader in *. lia. }
    assert (AuthCrypt._initialized c = true) as Hc.
    { pose proof (DecryptRecv_initialized (take 4 (Block.content (m_WorldHeader s))) (m_Crypt s)) as Hd.
      rewrite D in Hd. cbn in Hd. by rewrite Hd. }
    cbn [modifyX]. destruct (_ || _); [done|]. rewrite start_packet_spec by done. cbn [mret X_ret].
    eexists _, _. repeat split; cbn; unfold other_header, current_header, encrypted, Block.space, Block.length; cbn;
      rewrite ?Hc; cbn; rewrite ?C1, ?C2, ?Hl; cbn; try done; lia.
  - destruct (_ || _); [done|]. rewrite start_packet_spec by done. cbn [mret X_ret].
    eexists _, _. repeat split; cbn; unfold other_header, current_header, encrypted; cbn;
      rewrite ?E; cbn; try done; lia.
Qed.

Lemma receive_header_spec s m :
  at_header s →
  receive_header m s =
    (if (length m <? Block.space (current_header s))%nat
     then (Ok (Some EWOULDBLOCK, []), push_header m s)
     else match handle_input_header (push_header (take (Block.space (current_header s)) m) s) with
          | (Ok r, s') => (Ok (r, drop (Block.space (current_header s)) m), s')
          | (Throw e, s') => (Throw e, s')
          end).
Proof.
  intros (H1 & H2 & H3 & H4). unfold receive_header, mbind, X_bind, getX. cbn beta.
  rewrite (proj2 (Nat.ltb_lt 0 _)) by lia. unfold push_header. fold (encrypted s).
  set (h := current_header s) in *. destruct (Nat.ltb_spec (length m) (Block.space h)) as [Hm|Hm].
  - rewrite Nat.min_l by lia. rewrite take_ge, drop_all by lia. unfold Block.copy.
    rewrite (proj2 (Nat.ltb_ge _ (length m))) by lia. cbn [snd modifyX].
    unfold Block.space, Block.length in *. cbn [Block.capacity Block.content].
    rewrite length_app. by rewrite (proj2 (Nat.ltb_lt 0 _)) by lia.
  - rewrite Nat.min_r by lia. unfold Block.copy.
    assert (length (take (Block.space h) m) = Block.space h) as Hl by (rewrite length_take; lia).
    rewrite Hl, Nat.ltb_irrefl. cbn [snd modifyX].
    unfold Block.space, Block.length in *. cbn [Block.capacity Block.content].
    rewrite length_app, Hl. rewrite (proj2 (Nat.ltb_ge 0 _)) by lia.
    by destruct (handle_input_header _) as [[r|e] s'].
Qed.

Lemma receive_header_done s opcode n c m :
  in_payload s opcode n c → receive_header m s = (Ok (None, m), s).
Proof.
  intros (H1 & H2 & H3). unfold receive_header, mbind, X_bind, getX. cbn beta. by rewrite H2.
Qed.

(** ** A round of the loop *)

Definition finish (message : list Z) : X t (option errno_t * list Z) :=
  '(r, message) ← receive_payload message;
  match r with
  | Some e => mret (Some e, message)
  | None => ret ← handle_input_payload process; mret (ret, message)
  end.

Lemma iteration_finish message s :
  iteration message s =
  match receive_header message s with
  | (Ok (Some e, m), s') => (Ok (Some e, m), s')
  | (Ok (None, m), s') => finish m s'
  | (Throw e, s') => (Throw e, s')
  end.
Proof.
  unfold iteration, finish, mbind, X_bind. by destruct (receive_header message s) as [[[[e|] m]|e] s'].
Qed.

(** What happened, with the bytes that are left. *)
Definition with_rest (rest : list Z) (out : result (option errno_t) * t)
    : result (option errno_t * list Z) * t :=
  match out with (Ok r, s') => (Ok (r, rest), s') | (Throw e, s') => (Throw e, s') end.

Definition outcome_ok (out : result (option errno_t) * t) : Prop :=
  match out with (Ok None, s') => idle s' | (Ok (Some e), _) => e = EINVAL | (Throw _, _) => True end.

(** [f] takes [m] as a proper part of what it waits for, or ends within [m]. *)
Definition partial_or_complete (f : list Z → X t (option errno_t * list Z)) (s : t) (m : list Z) : Prop :=
  (∃ s', receiving s' ∧ f m s = (Ok (Some EWOULDBLOCK, []), s') ∧ ∀ m', f (m ++ m') s = iteration m' s') ∨
  (∃ k out, (k ≤ length m)%nat ∧ (m ≠ [] → receiving s → (0 < k)%nat) ∧ outcome_ok out ∧
    ∀ rest, f (take k m ++ rest) s = with_rest rest out).

Lemma finish_iteration s opcode n c m : in_payload s opcode n c → iteration m s = finish m s.
Proof. intros Hs. by rewrite iteration_finish, (receive_header_done _ _ _ _ _ Hs). Qed.

Lemma finish_spec s opcode n c m :
  in_payload s opcode n c → partial_or_complete finish s m.
Proof using process_keeps.
  intros Hs. assert (length c ≤ n)%nat as Hc by apply Hs.
  destruct (decide (length m < n - length c)%nat) as [Hm|Hm].
  - left. exists (push_payload opcode n c m s).
    assert (in_payload (push_payload opcode n c m s) opcode n (c ++ m)) as Hp
      by (apply push_payload_in; [done|lia]).
    split; [right; eexists _, _, _; split; [|exact Hp]; rewrite length_app; lia|].
    split; unfold finish, mbind, X_bind.
    + rewrite (receive_payload_spec _ _ _ _ _ Hs). by rewrite (proj2 (Nat.ltb_lt _ _)) by lia.
    + intros m'. rewrite (finish_iteration _ _ _ _ _ Hp). unfold finish, mbind, X_bind.
      rewrite (receive_payload_spec _ _ _ _ _ Hs), (receive_payload_spec _ _ _ _ _ Hp).
      rewrite !length_app, take_app, drop_app, (take_ge m), (drop_ge m) by lia. cbn [app].
      rewrite Nat.sub_add_distr.
      assert ((length m + length m' <? n - length c) = (length m' <? n - length c - length m))%nat as ->
        by (destruct (Nat.ltb_spec (length m + length m') (n - length c)), (Nat.ltb_spec (length m') (n - length c - length m)); lia).
      unfold push_payload. rewrite <- !app_assoc. by destruct (_ <? _)%nat.
  - right. exists (n - length c)%nat, (handle_input_payload process (push_payload opcode n c (take (n - length c) m) s)).
    split_and!; [lia| |..].
    + intros Hne Hr. destruct (decide (n - length c = 0)%nat); [|lia]. exfalso.
      destruct Hr as [(_ & _ & _ & Hr)|(o & n' & c' & Hr1 & (_ & _ & _ & Hr2 & _))].
      * destruct Hs as (_ & Hs & _). lia.
      * destruct Hs as (_ & _ & _ & Hs & _). rewrite Hs in Hr2. injection Hr2 as -> ->. lia.
    + apply (handle_input_payload_full _ opcode n (c ++ take (n - length c) m)).
      * apply push_payload_in; [done|]. rewrite length_take. lia.
      * rewrite length_app, length_take. lia.
    + intros rest. unfold finish, mbind, X_bind. rewrite (receive_payload_spec _ _ _ _ _ Hs).
      rewrite length_app, length_take, Nat.min_l by lia.
      rewrite (proj2 (Nat.ltb_ge _ _)) by lia.
      assert (length (take (n - length c) m) = (n - length c)%nat) as Hl by (rewrite length_take; lia).
      rewrite take_app_le by lia. rewrite (take_ge (take _ m)) by lia.
      rewrite drop_app_ge by lia. rewrite Hl, Nat.sub_diag, drop_0. unfold with_rest.
      by destruct (handle_input_payload process _) as [[r|e] s'].
Qed.

Lemma iteration_spec s m : receiving s → partial_or_complete iteration s m.
Proof using process_keeps CL.
  intros [Hs|(opcode & n & c & Hc & Hs)].
  2:{ destruct (finish_spec s opcode n c m Hs) as [(s' & H1 & H2 & H3)|(k & out & H1 & H2 & H3 & H4)].
      - left. exists s'. split; [done|]. rewrite (finish_iteration _ _ _ _ _ Hs). split; [done|].
        intros m'. by rewrite (finish_iteration _ _ _ _ _ Hs).
      - right. exists k, out. split_and!; [done..|]. intros rest. by rewrite (finish_iteration _ _ _ _ _ Hs). }
  set (h := Block.space (current_header s)) in *.
  assert (0 < h)%nat as Hh by apply Hs.
  destruct (decide (length m < h)%nat) as [Hm|Hm].
  { left. exists (push_header m s). pose proof (push_header_at m s Hs Hm) as Hp.
    split; [by left|]. split.
    - rewrite iteration_finish, receive_header_spec by done. by rewrite (proj2 (Nat.ltb_lt _ _)) by done.
    - intros m'. rewrite !iteration_finish, !receive_header_spec by done. fold h.
      rewrite current_push. unfold Block.space at 1 2 3. unfold Block.length. cbn [Block.capacity Block.content].
      assert (h = Block.capacity (current_header s) - length (Block.content (current_header s)))%nat as Eh by done.
      rewrite !length_app, Nat.sub_add_distr, <- Eh.
      assert ((length m + length m' <? h) = (length m' <? h - length m))%nat as ->
        by (destruct (Nat.ltb_spec (length m + length m') h), (Nat.ltb_spec (length m') (h - length m)); lia).
      rewrite take_app, drop_app, (take_ge m), (drop_ge m) by lia. cbn [app].
      assert (∀ x, push_header x (push_header m s) = push_header (m ++ x) s) as Hpp.
      { intros x. unfold push_header at 1. rewrite encrypted_push, current_push. cbn [Block.capacity Block.content].
        rewrite <- app_assoc. unfold push_header. by destruct (encrypted s). }
      by rewrite !Hpp. }
  pose proof (push_header_full (take h m) s Hs) as Hf. rewrite length_take in Hf. fold h in Hf.
  specialize (Hf ltac:(lia)). pose proof (handle_input_header_full _ Hf) as Hr.
  assert (∀ x, iteration (take h m ++ x) s =
     match handle_input_header (push_header (take h m) s) with
     | (Ok (Some e), s') => (Ok (Some e, x), s')
     | (Ok None, s') => finish x s'
     | (Throw e, s') => (Throw e, s')
     end) as Hx.
  { intros x. rewrite iteration_finish, receive_header_spec by done. fold h.
    assert (length (take h m) = h) as Hl by (rewrite length_take; lia).
    rewrite length_app, Hl. rewrite (proj2 (Nat.ltb_ge _ _)) by lia.
    rewrite take_app_le, (take_ge (take h m)) by lia. rewrite drop_app_ge, Hl, Nat.sub_diag, drop_0 by lia.
    by destruct (handle_input_header _) as [[[e|]|e] s']. }
  destruct (handle_input_header (push_header (take h m) s)) as [[[e|]|e] s'].
  - right. exists h, (Ok (Some e), s'). split_and!; [lia|lia|exact Hr|]. intros rest. by rewrite Hx.
  - destruct Hr as (opcode & n & Hp).
    destruct (finish_spec s' opcode n [] (drop h m) Hp) as [(s2 & H1 & H2 & H3)|(k & out & H1 & H2 & H3 & H4)].
    + left. exists s2. split; [done|]. split.
      * by rewrite <- (take_drop h m) at 1; rewrite Hx.
      * intros m'. rewrite <- H3, <- Hx, app_assoc, take_drop. done.
    + right. exists (h + k)%nat, out. rewrite length_drop in H1. split_and!; [lia|lia|done|].
      intros rest. rewrite <- H4, <- Hx. f_equal. rewrite app_assoc. f_equal.
      by rewrite take_take_drop.
  - done.
Qed.

(** ** A whole message *)

Lemma idle_receiving s : idle s → receiving s.
Proof. intros [Hs _]. by left. Qed.

(** One message, however much of a packet it ends with. *)
Definition absorb (m : list Z) : X t (option errno_t) :=
  r ← message_loop process (length m) m; mret (if decide (r = Some EWOULDBLOCK) then None else r).

Lemma message_loop_fuel n1 n2 m s :
  receiving s → (length m ≤ n1)%nat → (length m ≤ n2)%nat →
  message_loop process n1 m s = message_loop process n2 m s.
Proof using process_keeps CL.
  revert n2 m s. induction n1 as [|n1 IH]; intros n2 m s Hs H1 H2.
  { destruct m; [|simpl in H1; lia]. by destruct n2. }
  destruct m as [|z m]; [by destruct n2|]. destruct n2 as [|n2]; [simpl in H2; lia|].
  rewrite !message_loop_iteration.
  destruct (iteration_spec s (z :: m) Hs) as [(s' & _ & -> & _)|(k & out & Hk & Hpos & Hout & Hr)]; [done|].
  specialize (Hr (drop k (z :: m))). rewrite take_drop in Hr. rewrite Hr.
  specialize (Hpos ltac:(done) Hs).
  destruct out as [[[e|]|e] s']; simpl; [done| |done]. apply IH; [by apply idle_receiving|..].
  - rewrite length_drop. simpl in *. lia.
  - rewrite length_drop. simpl in *. lia.
Qed.

Lemma absorb_iteration m s :
  receiving s → m ≠ [] →
  absorb m s =
  match iteration m s with
  | (Ok (Some e, _), s') => (Ok (if decide (e = EWOULDBLOCK) then None else Some e), s')
  | (Ok (None, rest), s') => absorb rest s'
  | (Throw e, s') => (Throw e, s')
  end.
Proof using process_keeps CL.
  intros Hs Hm. destruct m as [|z m]; [done|]. unfold absorb at 1. unfold mbind, X_bind.
  cbn [length]. rewrite message_loop_iteration.
  destruct (iteration_spec s (z :: m) Hs) as [(s' & _ & -> & _)|(k & out & Hk & Hpos & Hout & Hr)]; [done|].
  specialize (Hr (drop k (z :: m))). rewrite take_drop in Hr. rewrite Hr.
  specialize (Hpos ltac:(done) Hs).
  destruct out as [[[e|]|e] s']; cbn [with_rest]; [by destruct e| |done].
  rewrite (message_loop_fuel _ (length (drop k (z :: m)))); [done|by apply idle_receiving|..|done].
  rewrite length_drop. simpl in *. lia.
Qed.

Definition then_absorb (m : list Z) (r : option errno_t) : X t (option errno_t) :=
  match r with None => absorb m | Some e => mret (Some e) end.

Lemma absorb_app a b s :
  receiving s →
  absorb (a ++ b) s = (absorb a ≫= then_absorb b) s ∧
  (∀ s', absorb a s = (Ok None, s') → receiving s').
Proof using process_keeps CL.
  remember (length a) as n eqn:Hn. revert a b s Hn.
  induction n as [n IH] using lt_wf_ind. intros a b s Hn Hs.
  destruct (decide (a = [])) as [->|Ha]; [split; [done|]; by intros s' [= <-]|].
  unfold mbind, X_bind. rewrite (absorb_iteration a) by done.
  destruct (decide (b = [])) as [->|Hb].
  { rewrite app_nil_r, absorb_iteration by done.
    destruct (iteration_spec s a Hs) as [(s' & Hs' & -> & Hr)|(k & out & Hk & Hpos & Hout & Hr)].
    - split; [done|]. by intros ? [= <-].
    - specialize (Hr (drop k a)). rewrite take_drop in Hr. rewrite Hr. specialize (Hpos Ha Hs).
      destruct out as [[[e|]|e] s']; cbn [with_rest].
      + split; [by destruct (decide _)|]. cbn in Hout. subst e. by intros ? [=].
      + destruct (IH (length (drop k a)) ltac:(rewrite length_drop; lia) (drop k a) [] s' eq_refl
                    (idle_receiving _ Hout)) as [H1 H2].
        rewrite app_nil_r in H1. split; [|done]. rewrite H1 at 1. done.
      + split; [done|]. by intros ? [=]. }
  rewrite absorb_iteration by (done || by destruct a).
  destruct (iteration_spec s a Hs) as [(s' & Hs' & -> & Hr)|(k & out & Hk & Hpos & Hout & Hr)].
  - rewrite Hr. split; [|by intros ? [= <-]]. cbn [then_absorb decide]. by rewrite <- absorb_iteration.
  - pose proof (Hr (drop k a)) as Hr1. rewrite take_drop in Hr1. rewrite Hr1.
    pose proof (Hr (drop k a ++ b)) as Hr2. rewrite app_assoc, take_drop in Hr2. rewrite Hr2.
    specialize (Hpos Ha Hs). destruct out as [[[e|]|e] s']; cbn [with_rest].
    + split; [by destruct (decide _); cbn in Hout; subst|]. cbn in Hout. subst e. by intros ? [=].
    + apply (IH (length (drop k a))); [rewrite length_drop; lia|done|by apply idle_receiving].
    + split; [done|]. by intros ? [=].
Qed.

(** ** A stream of messages *)

(** The messages of a stream, until the connection is given up. *)
Fixpoint receive (messages : list (list Z)) : X t (option errno_t) :=
  match messages with
  | [] => mret None
  | m :: messages =>
    r ← handle_input_missing_data process (Received m);
    match r with
    | inl EWOULDBLOCK | inr _ => receive messages
    | inl e => mret (Some e)
    end
  end.

Lemma receive_absorb messages s :
  receiving s → receive messages s = absorb (concat messages) s.
Proof using process_keeps CL.
  revert s. induction messages as [|m messages IH]; intros s Hs; [done|].
  cbn [concat receive]. destruct (absorb_app m (concat messages) s Hs) as [-> Hr].
  unfold absorb in Hr |- * at 1. unfold handle_input_missing_data, mbind, X_bind in *.
  destruct (message_loop process (length m) m s) as [[[e|]|e] s'] eqn:E; cbn in *; [| |done].
  - destruct e; cbn in *; [apply IH; by apply Hr|done..].
  - apply IH. by apply Hr.
Qed.

(** ** The packets of a client *)

(** A packet as the client sends it: an opcode and its payload. *)
Definition message : Type := Z * list Z.

Definition plain_header (s : t) (p : message) : list Z :=
  let n := Z.of_nat (length p.2) in
  if encrypted s then le_bytes 4 (Z.lor (Z.shiftl n 13) p.1) else le_bytes 2 (n + 4) ++ le_bytes 4 p.1.
(** The client's cipher is in step with the server's; the stream cipher is its own inverse. *)
Definition wire_header (s : t) (p : message) : list Z := (AuthCrypt.DecryptRecv (plain_header s p) (m_Crypt s)).1.
Definition sendable (s : t) (p : message) : bool :=
  let n := Z.of_nat (length p.2) in
  if encrypted s then (0 <=? p.1) && (p.1 <? 2 ^ 13) && (n <=? 20240)
  else (0 <=? p.1) && (p.1 <=? 0xFFFF) && (n + 4 <=? 10240).

(** The server when a packet has arrived, before it is handled. *)
Definition arrived (p : message) (s : t) : t :=
  set_Recv (Some (partial_packet p.1 (length p.2) p.2)) (Block.mk (length p.2) p.2)
    (set_header (encrypted s) (Block.mk (Block.capacity (current_header s)) (plain_header s p))
       (set_Crypt (AuthCrypt.DecryptRecv (plain_header s p) (m_Crypt s)).2 s)).

Lemma DecryptRecv_involution data c :
  AuthCrypt.DecryptRecv (AuthCrypt.DecryptRecv data c).1 c = (data, (AuthCrypt.DecryptRecv data c).2).
Proof using CL.
  unfold AuthCrypt.DecryptRecv. destruct (AuthCrypt._initialized c); [|done].
  destruct (AuthCrypt._clientDecrypt c) as [k|]; [|done].
  pose proof (ARC4_involution data k) as Hi. destruct (ARC4_UpdateData data k) as [d k'].
  cbn in *. by rewrite Hi.
Qed.

Lemma header_fields n op :
  0 ≤ n < 2 ^ 16 → 0 ≤ op < 2 ^ 13 →
  let val := Z.lor (Z.shiftl n 13) op in
  0 ≤ val < 2 ^ 32 ∧ Z.land val 0x1FFF = op ∧
  u16 (Z.shiftr (Z.land val (u32 (Z.lnot 0xFFF))) 13) = n.
Proof.
  intros Hn Hop val. assert (val = op + n * 2 ^ 13) as Hv.
  { unfold val. rewrite Z.lor_comm. by apply PackGUID.lor_shiftl_add. }
  split; [lia|]. split.
  - change 0x1FFF with (Z.ones 13). rewrite Z.land_ones, Hv, Z_mod_plus_full by lia. by apply Z.mod_small.
  - rewrite Z.shiftr_land, (Z.shiftr_div_pow2 val) by lia.
    change (Z.shiftr (u32 (Z.lnot 0xFFF)) 13) with (Z.ones 19).
    rewrite Hv, Z.div_add, (Z.div_small op) by lia. rewrite Z.land_ones by lia.
    unfold u16. rewrite (Z.mod_small _ (2 ^ 19)), Z.mod_small by lia. lia.
Qed.

Lemma le_val_small k v : 0 ≤ v < 2 ^ (8 * Z.of_nat k) → le_val (le_bytes k v) = v.
Proof. intros Hv. rewrite le_val_le_bytes. by apply Z.mod_small. Qed.

Lemma length_plain_header s p :
  length (plain_header s p) = if encrypted s then 4%nat else 6%nat.
Proof. unfold plain_header. destruct (encrypted s); [|rewrite length_app]; by rewrite !length_le_bytes. Qed.

Lemma idle_space s : idle s → Block.space (current_header s) = if encrypted s then 4%nat else 6%nat.
Proof.
  intros [([C1 C2 _] & _) Hc]. unfold Block.space, Block.length. rewrite Hc.
  unfold current_header, encrypted. destruct (AuthCrypt._initialized (m_Crypt s)); by rewrite ?C1, ?C2.
Qed.

Lemma handle_header_arrived s p :
  idle s → sendable s p = true →
  handle_input_header (push_header (wire_header s p) s)
  = (Ok None, set_Recv (Some (partial_packet p.1 (length p.2) [])) (Block.mk (length p.2) []) (arrived p s)).
Proof using CL.
  intros Hi Hw. pose proof (idle_space s Hi) as Hsp. destruct Hi as [([C1 C2 O] & H2 & H3 & H4) Hc].
  unfold handle_input_header, mbind, X_bind, getX. cbn beta.
  assert (m_RecvWPct (push_header (wire_header s p) s) = None) as -> by (unfold push_header; by destruct (encrypted s)).
  pose proof (encrypted_push (wire_header s p) s) as He. unfold encrypted in He at 1. rewrite He. clear He.
  unfold push_header, wire_header, arrived, sendable, current_header in *. fold (encrypted s) in *.
  pose proof (DecryptRecv_length (plain_header s p) (m_Crypt s)) as Hl.
  rewrite length_plain_header in Hl.
  destruct (encrypted s) eqn:E; rewrite Hc; cbn [app set_header m_Crypt set_WorldHeader set_Header m_WorldHeader m_Header Block.content Block.capacity].
  - rewrite take_ge by lia. rewrite DecryptRecv_involution. cbn [modifyX].
    unfold plain_header. rewrite E.
    destruct (header_fields (Z.of_nat (length p.2)) p.1) as (Hv & Ho & Hn); [lia..|].
    rewrite le_val_small by (change (8 * Z.of_nat 4) with 32; lia). rewrite Ho, Hn.
    rewrite (proj2 (Z.ltb_ge _ _)), (proj2 (Z.leb_gt _ _)) by lia. cbn [orb].
    rewrite start_packet_spec by done. rewrite Nat2Z.id. cbn [mret X_ret].
    unfold DropHighBytes. change 0xFFFF with (Z.ones 16). rewrite Z.land_ones, Z.mod_small by lia.
    by destruct s.
  - assert (AuthCrypt.DecryptRecv (plain_header s p) (m_Crypt s) = (plain_header s p, m_Crypt s)) as ->.
    { unfold AuthCrypt.DecryptRecv. unfold encrypted in E. by rewrite E. }
    cbn [fst snd]. unfold plain_header. rewrite E.
    rewrite take_app_le by (rewrite length_le_bytes; lia). rewrite take_ge by (rewrite length_le_bytes; lia).
    rewrite drop_app_ge by (rewrite length_le_bytes; lia). rewrite length_le_bytes, Nat.sub_diag, drop_0.
    rewrite take_ge by (rewrite length_le_bytes; lia).
    rewrite !le_val_small by (cbn; lia).
    rewrite (proj2 (Z.ltb_ge _ 4)), (proj2 (Z.ltb_ge 10240 _)), (proj2 (Z.ltb_ge 0xFFFF _)) by lia. cbn [orb andb].
    rewrite start_packet_spec by done. rewrite Z.add_simpl_r, Nat2Z.id. cbn [mret X_ret].
    unfold DropHighBytes. change 0xFFFF with (Z.ones 16). rewrite Z.land_ones, Z.mod_small by lia.
    by destruct s.
Qed.

Lemma arrived_in_payload s p c :
  idle s → (length c ≤ length p.2)%nat →
  in_payload (set_Recv (Some (partial_packet p.1 (length p.2) c)) (Block.mk (length p.2) c) (arrived p s))
    p.1 (length p.2) c.
Proof.
  intros [([C1 C2 O] & H2 & H3 & H4) Hc] Hl. unfold arrived, current_header, other_header in *.
  pose proof (DecryptRecv_initialized (plain_header s p) (m_Crypt s)) as Hd.
  pose proof (length_plain_header s p) as Hp. unfold encrypted in *.
  destruct (AuthCrypt._initialized (m_Crypt s)) eqn:E;
  repeat split; cbn; unfold other_header, current_header, encrypted, Block.space, Block.length; cbn;
    rewrite ?Hd; cbn; rewrite ?C1, ?C2, ?Hp; cbn; try done; lia.
Qed.

Lemma absorb_message s p rest :
  idle s → sendable s p = true →
  absorb (wire_header s p ++ p.2 ++ rest) s =
  (modifyX (arrived p);; handle_input_payload process ≫= then_absorb rest) s.
Proof using process_keeps CL.
  intros Hi Hw. pose proof (idle_space s Hi) as Hsp.
  assert (length (wire_header s p) = Block.space (current_header s)) as Hl.
  { unfold wire_header. by rewrite DecryptRecv_length, length_plain_header. }
  assert (wire_header s p ++ p.2 ++ rest ≠ []) as Hne.
  { destruct (wire_header s p); [|done]. rewrite Hsp in Hl. by destruct (encrypted s). }
  rewrite absorb_iteration by (done || by apply idle_receiving).
  rewrite iteration_finish, receive_header_spec by apply Hi.
  rewrite length_app, Hl. rewrite (proj2 (Nat.ltb_ge _ _)) by lia.
  rewrite take_app_le, take_ge by lia. rewrite drop_app_ge, Hl, Nat.sub_diag, drop_0 by lia.
  rewrite handle_header_arrived by done. unfold finish, mbind, X_bind, modifyX.
  rewrite (receive_payload_spec _ p.1 (length p.2) []) by (apply arrived_in_payload; [done|simpl; lia]).
  cbn [length]. rewrite length_app, Nat.sub_0_r. rewrite (proj2 (Nat.ltb_ge _ _)) by lia.
  rewrite take_app_le, take_ge by lia. rewrite drop_app_ge, Nat.sub_diag, drop_0 by lia.
  assert (push_payload p.1 (length p.2) [] p.2
     (set_Recv (Some (partial_packet p.1 (length p.2) [])) (Block.mk (length p.2) []) (arrived p s))
     = arrived p s) as -> by done.
  pose proof (handle_input_payload_full (arrived p s) p.1 (length p.2) p.2) as Hf.
  specialize (Hf (arrived_in_payload s p p.2 Hi ltac:(lia)) eq_refl).
  destruct (handle_input_payload process (arrived p s)) as [[[e|]|e] s']; cbn; [|done..].
  by subst e.
Qed.

(** What a client sends, while its packets are accepted, and what the server does with it. *)
Fixpoint stream (ps : list message) (s : t) : list Z :=
  match ps with
  | [] => []
  | p :: ps =>
    wire_header s p ++ p.2 ++
    match handle_input_payload process (arrived p s) with (Ok None, s') => stream ps s' | _ => [] end
  end.
Fixpoint all_sendable (ps : list message) (s : t) : bool :=
  match ps with
  | [] => true
  | p :: ps =>
    sendable s p &&
    match handle_input_payload process (arrived p s) with (Ok None, s') => all_sendable ps s' | _ => true end
  end.
Fixpoint deliver (ps : list message) : X t (option errno_t) :=
  match ps with
  | [] => mret None
  | p :: ps =>
    modifyX (arrived p);;
    r ← handle_input_payload process;
    match r with None => deliver ps | Some e => mret (Some e) end
  end.

Lemma absorb_stream ps s :
  idle s → all_sendable ps s = true → absorb (stream ps s) s = deliver ps s.
Proof using process_keeps CL.
  revert s. induction ps as [|p ps IH]; intros s Hi Hw; [done|].
  cbn [stream all_sendable deliver] in *. apply andb_true_iff in Hw as [Hw1 Hw2].
  rewrite absorb_message by done.
  pose proof (handle_input_payload_full (arrived p s) p.1 (length p.2) p.2) as Hf.
  specialize (Hf (arrived_in_payload s p p.2 Hi ltac:(lia)) eq_refl).
  unfold mbind, X_bind, modifyX in *.
  destruct (handle_input_payload process (arrived p s)) as [[[e|]|e] s']; cbn; [done| |done].
  by apply IH.
Qed.

End input.
