(* ===== verification/WorldSocketOutput.v ===== *)
(** * WorldSocketOutput: the packets for a client leave in order.

    [SendPacket] puts frames behind one another, in the output buffer or in the queue; the
    output methods move bytes from there to the peer without changing their order.  What is
    on the wire and what is pending is therefore the sequence of the accepted packets. *)
From S2P Require Import Prelude.
From stdpp Require Import list.
From S2P Require Import Bits ByteBuffer ByteBufferStream Timer OpcodeTable WorldSocket WorldSocketInput.
Open Scope Z_scope.

Section output.
Context `{CL : CryptoLaws} (env : Env).

(** ** What has been sent *)

Fixpoint wire_of (h : list call) : list Z :=
  match h with
  | [] => []
  | Wire bytes :: h => wire_of h ++ bytes
  | _ :: h => wire_of h
  end.

(** A packet as the client sees it: 13 bits of the opcode are left. *)
Definition seen (p : WorldPacket.t) : message :=
  (Z.land (u32 (WorldPacket.m_opcode p)) 0x1FFF, ByteBuffer.storage (WorldPacket.buffer p)).

Definition buffered (s : t) : list Z := from_option Block.content [] (m_OutBuffer s).
Definition pending (s : t) : list Z := buffered s ++ concat (Block.content <$> msg_queue s).
Definition outgoing (s : t) : list Z := wire_of (calls s) ++ pending s.

(** ** Frames *)

Definition frame_header (p : message) : list Z :=
  le_bytes 4 (Z.lor (Z.shiftl (Z.of_nat (length p.2)) 13) p.1).
Definition frame (k : ARC4) (p : message) : list Z := (ARC4_UpdateData (frame_header p) k).1 ++ p.2.
Definition next_cipher (k : ARC4) (p : message) : ARC4 := (ARC4_UpdateData (frame_header p) k).2.

(** A large packet has a header of another form. *)
Definition small (p : message) : Prop := Z.of_nat (length p.2) + 2 ≤ 0x7FFF ∧ 0 ≤ p.1 < 2 ^ 13.

Inductive frames : ARC4 → list Z → list message → ARC4 → Prop :=
| frames_nil k : frames k [] [] k
| frames_cons k p b ps k' :
    small p → frames (next_cipher k p) b ps k' → frames k (frame k p ++ b) (p :: ps) k'.

Lemma frames_snoc k b ps k' p :
  frames k b ps k' → small p → frames k (b ++ frame k' p) (ps ++ [p]) (next_cipher k' p).
Proof.
  induction 1 as [k|k q b ps k' Hq Hf IH]; intros Hp; simpl.
  - rewrite <- (app_nil_r (frame k p)). constructor; [done|constructor].
  - rewrite <- app_assoc. constructor; auto.
Qed.

(** ** The client's reader *)

(** A reader of encrypted frames, as in [handle_input_header]; [None] for an incomplete one. *)
Fixpoint client_read (fuel : nat) (k : ARC4) (bytes : list Z) : option (list message) :=
  match fuel, bytes with
  | _, [] => Some []
  | O, _ => None
  | S fuel, _ =>
    if (length bytes <? 4)%nat then None
    else
      let '(h, k') := ARC4_UpdateData (take 4 bytes) k in
      let val := le_val h in
      let n := Z.to_nat (u16 (Z.shiftr (Z.land val (u32 (Z.lnot 0xFFF))) 13)) in
      let rest := drop 4 bytes in
      if (length rest <? n)%nat then None
      else
        ps ← client_read fuel k' (drop n rest);
        mret ((Z.land val 0x1FFF, take n rest) :: ps)
  end.

Lemma client_read_S fuel k bytes :
  (4 ≤ length bytes)%nat →
  client_read (S fuel) k bytes =
    let '(h, k') := ARC4_UpdateData (take 4 bytes) k in
    let val := le_val h in
    let n := Z.to_nat (u16 (Z.shiftr (Z.land val (u32 (Z.lnot 0xFFF))) 13)) in
    let rest := drop 4 bytes in
    if (length rest <? n)%nat then None
    else
      ps ← client_read fuel k' (drop n rest);
      mret ((Z.land val 0x1FFF, take n rest) :: ps).
Proof.
  intros Hl. cbn [client_read]. destruct bytes; [simpl in Hl; lia|].
  by rewrite (proj2 (Nat.ltb_ge _ 4)) by done.
Qed.

Lemma client_read_frames fuel k b ps k' :
  frames k b ps k' → (length b ≤ fuel)%nat → client_read fuel k b = Some ps.
Proof using CL.
  intros Hf. revert fuel. induction Hf as [k|k p b ps k' [Hp1 Hp2] Hf IH]; intros fuel Hl.
  { by destruct fuel. }
  assert (length (ARC4_UpdateData (frame_header p) k).1 = 4%nat) as H4
    by (rewrite ARC4_length; apply length_le_bytes).
  unfold frame in *. rewrite !length_app, H4 in Hl. destruct fuel as [|fuel]; [lia|].
  rewrite client_read_S by (rewrite !length_app, H4; lia). rewrite <- app_assoc.
  rewrite take_app_le, take_ge, drop_app_ge, H4, Nat.sub_diag, drop_0 by lia.
  rewrite ARC4_involution. unfold frame_header.
  destruct (header_fields (Z.of_nat (length p.2)) p.1) as (Hv & Ho & Hn); [lia..|].
  rewrite le_val_small by (change (8 * Z.of_nat 4) with 32; lia). cbv zeta. rewrite Ho, Hn, Nat2Z.id.
  rewrite length_app. rewrite (proj2 (Nat.ltb_ge _ _)) by lia.
  rewrite take_app_le, take_ge, drop_app_ge, Nat.sub_diag, drop_0 by lia.
  unfold next_cipher, frame_header in IH. rewrite IH by lia. by destruct p.
Qed.

(** ** Sending *)

Lemma encrypted_length_small p :
  small (seen p) →
  encrypted_length (Z.of_nat (WorldPacket.size p)) (WorldPacket.m_opcode p)
  = Z.lor (Z.shiftl (Z.of_nat (length (seen p).2)) 13) (seen p).1.
Proof.
  intros [Hn Ho]. unfold encrypted_length. unfold seen, WorldPacket.size, ByteBuffer.size in *. simpl in *.
  f_equal. unfold u32. rewrite (Z.mod_small (Z.of_nat _)) by lia.
  rewrite Z.shiftl_mul_pow2, Z.mod_small by lia. done.
Qed.

Lemma land_255 z : Z.land z 0xFF = z mod 2 ^ 8.
Proof. change 0xFF with (Z.ones 8). by rewrite Z.land_ones by lia. Qed.

Lemma encrypted_header_frame p :
  small (seen p) →
  encrypted_header (Z.of_nat (WorldPacket.size p)) (WorldPacket.m_opcode p)
    (ServerPktHeader (u32 (Z.of_nat (WorldPacket.size p) + 2)) (u16 (WorldPacket.m_opcode p)))
  = frame_header (seen p).
Proof.
  intros Hs. unfold encrypted_header. rewrite encrypted_length_small by done. unfold frame_header.
  set (v := Z.lor _ _). unfold ServerPktHeader, isLargePacket. destruct Hs as [Hn Ho].
  unfold seen, WorldPacket.size, ByteBuffer.size in *. simpl in Hn.
  rewrite (proj2 (Z.ltb_ge _ _)) by (unfold u32; rewrite Z.mod_small; lia).
  unfold ByteBuffer.overwrite. cbn. rewrite !land_255. rewrite !Z.shiftr_div_pow2 by lia.
  rewrite !Z.div_div by lia. reflexivity.
Qed.

(** The packets that were accepted since the cipher was [k0] are on the wire or pending, in
    order, behind what had been sent before. *)
Record out_ok (k0 : ARC4) (before : list Z) (ps : list message) (s : t) : Prop := {
  ok_buffer : is_Some (m_OutBuffer s);
  ok_queue : Forall (λ b, (0 < Block.capacity b)%nat) (msg_queue s);
  ok_encrypted : encrypted s = true;
  ok_frames : ∃ k, AuthCrypt._serverEncrypt (m_Crypt s) = Some k ∧
                ∃ b, outgoing s = before ++ b ∧ frames k0 b ps k }.

Lemma SendPacket_ok k0 before ps p s :
  out_ok k0 before ps s → small (seen p) →
  ∃ r s', SendPacket p s = (Ok r, s') ∧ (r = -1 ∨ out_ok k0 before (ps ++ [seen p]) s').
Proof using CL.
  intros [[out Ho] Hq He (k & Hk & b0 & Hb0 & Hf)] Hp. unfold SendPacket, mbind, X_bind, getX. cbn beta iota.
  destruct (closing_ s); [by eexists _, _; split; [done|left]|].
  unfold encrypted in He. rewrite He. unfold AuthCrypt.EncryptSend. rewrite He, Hk, encrypted_header_frame by done.
  pose proof (frames_snoc _ _ _ _ _ Hf Hp) as Hf'. unfold frame, next_cipher in Hf'.
  destruct (ARC4_UpdateData (frame_header (seen p)) k) as [h k'] eqn:E. cbn [fst snd] in Hf'.
  unfold modifyX, mret, X_ret. rewrite Ho.
  assert (h ≠ []) as Hh. { intros ->. pose proof (ARC4_length (frame_header (seen p)) k) as Hl. rewrite E in Hl.
    unfold frame_header in Hl. by rewrite length_le_bytes in Hl. }
  unfold outgoing, pending, buffered in Hb0. rewrite Ho in Hb0. cbn [from_option] in Hb0.
  change (ByteBuffer.storage (WorldPacket.buffer p)) with (seen p).2.
  set (bytes := h ++ (seen p).2) in *.
  assert (0 < length bytes)%nat as Hb by (unfold bytes; rewrite length_app; destruct h; [done|simpl; lia]).
  destruct (_ && _) eqn:Ec.
  - apply andb_true_iff in Ec as [Hsp Eq]. apply Nat.leb_le in Hsp. destruct (msg_queue s) as [|b q] eqn:Eq'; [|done].
    cbn. eexists _, _. split; [done|]. right. split; cbn; [done|by rewrite Eq'|done|].
    exists k'. split; [done|]. exists (b0 ++ bytes). split; [|done].
    unfold outgoing, pending, buffered. cbn. rewrite Eq'. cbn in *.
    unfold Block.copy. rewrite (proj2 (Nat.ltb_ge _ _)) by lia. cbn.
    rewrite app_nil_r in *. by rewrite !app_assoc, <- Hb0, <- !app_assoc.
  - unfold enqueue, mbind, X_bind, getX. cbn. destruct (_ <=? _); cbn; [by eexists _, _; split; [done|left]|].
    eexists _, _. split; [done|]. right. split; cbn; [by rewrite Ho|..|done|].
    + apply Forall_app. split; [done|]. by constructor.
    + exists k'. split; [done|]. exists (b0 ++ bytes). split; [|done].
      unfold outgoing, pending, buffered. cbn. rewrite Ho. cbn.
      rewrite fmap_app, concat_app. cbn. rewrite app_nil_r. by rewrite (app_assoc before), <- Hb0, <- !app_assoc.
Qed.

(** ** Writing to the peer *)

(** An output method either gives the connection up or does not change what is outgoing. *)
Definition moves (s s' : t) : Prop :=
  outgoing s' = outgoing s ∧ m_Crypt s' = m_Crypt s ∧
  is_Some (m_OutBuffer s') ∧ Forall (λ b, (0 < Block.capacity b)%nat) (msg_queue s') ∧
  cur_bytes (msg_queue s') ≤ cur_bytes (msg_queue s).

Lemma moves_ok k0 before ps s s' : out_ok k0 before ps s → moves s s' → out_ok k0 before ps s'.
Proof.
  intros [H1 H2 H3 (k & H4 & b & H5)] (E1 & E3 & E4 & E5 & _). split; [done..| |].
  - unfold encrypted. by rewrite E3.
  - exists k. rewrite E3. split; [done|]. exists b. by rewrite E1.
Qed.

Lemma moves_trans s1 s2 s3 : moves s1 s2 → moves s2 s3 → moves s1 s3.
Proof. unfold moves. intros (? & ? & ? & ? & ?) (? & ? & ? & ? & ?). split_and!; try congruence; try done. lia. Qed.

Definition writes (m : X t Z) (s : t) : Prop :=
  ∃ r s', m s = (Ok r, s') ∧ (r = -1 ∨ moves s s').

Lemma cur_bytes_cons b q : cur_bytes (b :: q) = Z.of_nat (Block.capacity b) + cur_bytes q.
Proof. unfold cur_bytes. by rewrite <- Nat2Z.inj_add. Qed.

Lemma wakeup_writes (c : X t Z) s :
  is_Some (m_OutBuffer s) → Forall (λ b, (0 < Block.capacity b)%nat) (msg_queue s) →
  c = cancel_wakeup_output env ∨ c = schedule_wakeup_output env →
  ∃ r s', c s = (Ok r, s') ∧ r ≤ 0 ∧ moves s s' ∧ msg_queue s' = msg_queue s.
Proof.
  intros Hb Hq [->| ->]; unfold cancel_wakeup_output, schedule_wakeup_output, ask, mbind, X_bind, getX; cbn;
    destruct (m_OutActive s); cbn;
    eexists _, _; (split; [done|]); (split; [try destruct (reactor_ok _ _); lia|]); repeat split; cbn; try done; lia.
Qed.

Lemma peer_send_writes bytes s :
  ∃ r s', peer_send env bytes s = (Ok r, s') ∧
    (match r with
     | Sent n => (n ≤ length bytes)%nat ∧ ∃ h, calls s' = h ++ calls s ∧ wire_of (calls s') = wire_of (calls s) ++ take n bytes
     | _ => s' = s
     end) ∧ m_OutBuffer s' = m_OutBuffer s ∧ msg_queue s' = msg_queue s ∧ m_Crypt s' = m_Crypt s.
Proof.
  unfold peer_send, ask, mbind, X_bind, getX, mret, X_ret. cbn beta iota.
  destruct (send env (calls s) bytes) as [n| |]; [|by eexists _, _..].
  destruct (Nat.eqb_spec (Nat.min n (length bytes)) 0) as [E|E]; cbn.
  - eexists _, _. split; [done|]. split; [|done]. split; [lia|]. exists []. rewrite E, take_0, app_nil_r. done.
  - eexists _, _. split; [done|]. split; [|done]. split; [lia|]. eexists [_]. done.
Qed.

Definition queue_fits (s : t) : Prop := cur_bytes (msg_queue s) ≤ high_water_mark.

Lemma requeue_ok b s :
  cur_bytes (msg_queue s) < high_water_mark →
  enqueue true b s = (Ok true, set_msg_queue (b :: msg_queue s) s).
Proof.
  intros Hq. unfold enqueue, mbind, X_bind, getX. cbn beta iota.
  by rewrite (proj2 (Z.leb_gt _ _)) by done.
Qed.

(** [moves], and a positive result takes a block off the queue. *)
Definition moves_on (m : X t Z) (s : t) : Prop :=
  ∃ r s', m s = (Ok r, s') ∧
    (r = -1 ∨ moves s s' ∧ (0 < r → (length (msg_queue s') < length (msg_queue s))%nat)).

(** The continuation of the output methods: a state with nothing lost, and a wake-up. *)
Lemma wakeup_moves_on c s s1 r s2 n :
  c s1 = (Ok r, s2) → r ≤ 0 → moves s s1 → moves s1 s2 →
  ∃ r s', c s1 = (Ok r, s') ∧ (r = -1 ∨ moves s s' ∧ (0 < r → (length (msg_queue s') < n)%nat)).
Proof. intros E Hr H1 H2. exists r, s2. split; [done|]. right. split; [by eapply moves_trans|lia]. Qed.

Lemma handle_output_queue_moves s :
  is_Some (m_OutBuffer s) → buffered s = [] → Forall (λ b, (0 < Block.capacity b)%nat) (msg_queue s) →
  queue_fits s → moves_on (handle_output_queue env) s.
Proof.
  intros Hb He Hq Hf. unfold moves_on, handle_output_queue. unfold mbind at 1 2, X_bind at 1 2, getX. cbn beta iota.
  destruct (msg_queue s) as [|b q] eqn:Eq.
  { destruct (wakeup_writes (cancel_wakeup_output env) s) as (r & s' & E & Hr & Hm & _); [done|by rewrite Eq|by left|].
    exists r, s'. split; [done|]. right. split; [done|lia]. }
  apply Forall_cons in Hq as [Hcap Hq]. unfold queue_fits in Hf. rewrite Eq, cur_bytes_cons in Hf.
  unfold modifyX at 1. cbn beta iota.
  set (s1 := set_msg_queue q s).
  destruct (peer_send_writes (Block.content b) s1) as (r & s2 & E & Hr & Hb2 & Hq2 & Hc2).
  unfold mbind at 1, X_bind at 1. rewrite E.
  destruct r as [n| |].
  - destruct Hr as (Hn & h & Hh & Hw).
    destruct (Nat.eqb_spec n 0) as [->|Hn0]; [eexists _, _; split; [done|by left]|].
    destruct (Nat.ltb_spec n (length (Block.content b))) as [Hlt|Hge].
    + unfold mbind at 1, X_bind at 1. rewrite requeue_ok by (rewrite Hq2; cbn; lia). cbv iota.
      assert (moves s (set_msg_queue (Block.mk (Block.capacity b) (drop n (Block.content b)) :: msg_queue s2) s2)) as Hm.
      { split_and!; [|cbn; rewrite ?Hb2, ?Hc2, ?Hq2; try done..].
        - unfold outgoing, pending, buffered in *. cbn. rewrite Hw, Hb2, Hq2. cbn.
          rewrite He, Eq. cbn. rewrite <- app_assoc. f_equal. rewrite app_assoc. f_equal.
          by rewrite take_drop.
        - by constructor.
        - rewrite Eq, !cur_bytes_cons. cbn. lia. }
      destruct (wakeup_writes (schedule_wakeup_output env)
                  (set_msg_queue (Block.mk (Block.capacity b) (drop n (Block.content b)) :: msg_queue s2) s2))
        as (r & s3 & E3 & Hr & Hm3 & _); [apply Hm..|by right|].
      by eapply wakeup_moves_on.
    + assert (moves s s2) as Hm.
      { split_and!; [|rewrite ?Hb2, ?Hc2, ?Hq2; try done..].
        - unfold outgoing, pending, buffered in *. rewrite Hw, Hb2, Hq2. cbn.
          rewrite He, Eq. cbn. rewrite <- app_assoc. f_equal. by rewrite take_ge.
        - rewrite Eq, cur_bytes_cons. change (msg_queue s1) with q. lia. }
      destruct q as [|b' q'].
      * destruct (wakeup_writes (cancel_wakeup_output env) s2) as (r & s3 & E3 & Hr & Hm3 & _); [apply Hm..|by left|].
        by eapply wakeup_moves_on.
      * eexists _, _. split; [done|]. right. split; [done|]. intros _. rewrite Hq2. simpl. lia.
  - subst s2. unfold mbind at 1, X_bind at 1. rewrite requeue_ok by (cbn; lia). cbv iota.
    assert (moves s (set_msg_queue (b :: msg_queue s1) s1)) as Hm.
    { split_and!; cbn; try done.
      - unfold outgoing, pending, buffered. cbn. by rewrite Eq.
      - by constructor.
      - by rewrite Eq. }
    destruct (wakeup_writes (schedule_wakeup_output env) (set_msg_queue (b :: msg_queue s1) s1))
      as (r & s3 & E3 & Hr & Hm3 & _); [apply Hm..|by right|].
    by eapply wakeup_moves_on.
  - eexists _, _. split; [done|by left].
Qed.

Lemma moves_on_after m s s1 :
  moves s s1 → msg_queue s1 = msg_queue s → moves_on m s1 →
  ∃ r s', m s1 = (Ok r, s') ∧ (r = -1 ∨ moves s s' ∧ (0 < r → (length (msg_queue s') < length (msg_queue s))%nat)).
Proof.
  intros Hm Hq (r & s' & E & Hr). exists r, s'. split; [done|]. destruct Hr as [?|[H1 H2]]; [by left|right].
  rewrite Hq in H2. split; [by eapply moves_trans|done].
Qed.

Lemma handle_output_moves s :
  is_Some (m_OutBuffer s) → Forall (λ b, (0 < Block.capacity b)%nat) (msg_queue s) →
  queue_fits s → moves_on (handle_output env) s.
Proof.
  intros [out Ho] Hq Hf. unfold moves_on, handle_output. unfold mbind at 1, X_bind at 1, getX. cbn beta iota.
  destruct (closing_ s); [by eexists _, _; split; [done|left]|]. rewrite Ho.
  destruct (Nat.eqb_spec (length (Block.content out)) 0) as [E0|E0].
  { apply handle_output_queue_moves; [by rewrite Ho| |done..]. unfold buffered. rewrite Ho. by apply nil_length_inv. }
  destruct (peer_send_writes (Block.content out) s) as (r & s2 & E & Hr & Hb2 & Hq2 & Hc2).
  unfold mbind at 1, X_bind at 1. rewrite E. destruct r as [n| |].
  - destruct Hr as (Hn & h & Hh & Hw).
    destruct (Nat.eqb_spec n 0) as [->|Hn0]; [by eexists _, _; split; [done|left]|].
    assert (∀ c, take n (Block.content out) ++ Block.content c = Block.content out →
       moves s (set_OutBuffer (Some c) s2)) as Hm.
    { intros c Hc. split_and!; [|cbn; rewrite ?Hc2, ?Hq2; try done..].
      unfold outgoing, pending, buffered. cbn. rewrite Hw, Hq2, Ho. cbn. rewrite <- Hc, <- !app_assoc. do 2 f_equal.
      rewrite Hc. done. }
    destruct (Nat.ltb_spec n (length (Block.content out))) as [Hlt|Hge].
    + specialize (Hm (Block.mk (Block.capacity out) (drop n (Block.content out))) (take_drop _ _)).
      unfold mbind at 1, X_bind at 1, modifyX at 1. cbv iota beta.
      destruct (wakeup_writes (schedule_wakeup_output env)
        (set_OutBuffer (Some (Block.mk (Block.capacity out) (drop n (Block.content out)))) s2))
        as (r & s3 & E3 & Hr & Hm3 & _); [apply Hm..|by right|].
      by eapply wakeup_moves_on.
    + specialize (Hm (Block.reset out) ltac:(by rewrite take_ge, app_nil_r by lia)).
      unfold mbind at 1, X_bind at 1, modifyX at 1. cbv iota beta.
      apply moves_on_after; [done|by cbn|].
      apply handle_output_queue_moves; [done..|by rewrite <- Hq2 in Hq|]. unfold queue_fits. cbn. by rewrite Hq2.
  - subst s2. destruct (wakeup_writes (schedule_wakeup_output env) s) as (r & s3 & E3 & Hr & Hm3 & _);
      [by rewrite Ho|done|by right|].
    eapply wakeup_moves_on; [done|done| |done]. by split_and!.
  - by eexists _, _; split; [done|left].
Qed.

Lemma output_loop_moves fuel s :
  is_Some (m_OutBuffer s) → Forall (λ b, (0 < Block.capacity b)%nat) (msg_queue s) → queue_fits s →
  (length (msg_queue s) < fuel)%nat → writes (output_loop env fuel) s.
Proof.
  revert s. induction fuel as [|fuel IH]; intros s Hb Hq Hf Hl; [lia|].
  unfold writes. cbn [output_loop]. unfold mbind at 1, X_bind at 1.
  destruct (handle_output_moves s Hb Hq Hf) as (r & s' & -> & Hr).
  destruct (Z.ltb_spec 0 r) as [Hpos|Hpos].
  - destruct Hr as [->|[Hm Hlen]]; [lia|]. specialize (Hlen Hpos).
    destruct (IH s') as (r2 & s2 & E2 & Hr2); [apply Hm..| |lia|].
    + unfold queue_fits in *. destruct Hm as (_ & _ & _ & _ & Hm). lia.
    + exists r2, s2. split; [done|]. destruct Hr2 as [?|?]; [by left|right; by eapply moves_trans].
  - exists r, s'. split; [done|]. destruct Hr as [?|[? _]]; [by left|by right].
Qed.

Lemma Update_moves s :
  is_Some (m_OutBuffer s) → Forall (λ b, (0 < Block.capacity b)%nat) (msg_queue s) → queue_fits s →
  writes (Update env) s.
Proof.
  intros [out Ho] Hq Hf. unfold writes, Update. unfold mbind at 1, X_bind at 1, getX. cbn beta iota.
  destruct (closing_ s); [by eexists _, _; split; [done|left]|]. rewrite Ho.
  assert (moves s s) as Hm by (split_and!; try done; by rewrite Ho).
  destruct (m_OutActive s); [by eexists _, _; split; [done|right]|].
  destruct (_ && _); [by eexists _, _; split; [done|right]|].
  apply output_loop_moves; [by rewrite Ho|done..|lia].
Qed.

(** ** A run of the connection *)

Inductive op : Type :=
| Send (p : WorldPacket.t)     (* SendPacket *)
| Output                       (* the reactor calls handle_output *)
| Tick.                        (* Update, every ten milliseconds *)

Definition exec (o : op) : X t Z :=
  match o with Send p => SendPacket p | Output => handle_output env | Tick => Update env end.

(** Whether the connection is still there afterwards: a result of -1 ends it. *)
Fixpoint run (ops : list op) : X t bool :=
  match ops with
  | [] => mret true
  | o :: ops => r ← exec o; if r =? -1 then mret false else run ops
  end.

Fixpoint sent (ops : list op) : list message :=
  match ops with
  | [] => []
  | Send p :: ops => seen p :: sent ops
  | _ :: ops => sent ops
  end.

(** Packets with a small header, and a queue that is at most full when it is written. *)
Definition op_ok (o : op) (s : t) : bool :=
  match o with
  | Send p => Z.of_nat (WorldPacket.size p) + 2 <=? 0x7FFF
  | _ => cur_bytes (msg_queue s) <=? high_water_mark
  end.
Fixpoint ops_ok (ops : list op) (s : t) : bool :=
  match ops with
  | [] => true
  | o :: ops => op_ok o s && match exec o s with (Ok r, s') => (r =? -1) || ops_ok ops s' | _ => true end
  end.

Lemma seen_small p : Z.of_nat (WorldPacket.size p) + 2 ≤ 0x7FFF → small (seen p).
Proof.
  intros Hp. split; [done|]. unfold seen. cbn [fst]. change 0x1FFF with (Z.ones 13).
  rewrite Z.land_ones by lia. apply Z.mod_pos_bound. lia.
Qed.

Lemma run_ok k0 before ps ops s :
  out_ok k0 before ps s → ops_ok ops s = true →
  ∃ b s', run ops s = (Ok b, s') ∧ (b = true → out_ok k0 before (ps ++ sent ops) s').
Proof using CL.
  revert ps s. induction ops as [|o ops IH]; intros ps s Hs Hok.
  { exists true, s. split; [done|]. intros _. by rewrite app_nil_r. }
  cbn [ops_ok run] in *. apply andb_true_iff in Hok as [Ho Hok]. unfold mbind, X_bind.
  assert (∃ r s', exec o s = (Ok r, s') ∧ (r = -1 ∨ out_ok k0 before (ps ++ sent [o]) s')) as (r & s' & E & Hr).
  { destruct o as [p| |]; cbn [op_ok exec] in *; apply Z.leb_le in Ho.
    - by apply SendPacket_ok, seen_small.
    - destruct (handle_output_moves s) as (r & s' & H1 & H2); [apply Hs..|done|].
      exists r, s'. split; [done|]. rewrite app_nil_r. destruct H2 as [?|[Hm _]]; [by left|right].
      by eapply moves_ok.
    - destruct (Update_moves s) as (r & s' & H1 & H2); [apply Hs..|done|].
      exists r, s'. split; [done|]. rewrite app_nil_r. destruct H2 as [?|Hm]; [by left|right].
      by eapply moves_ok. }
  rewrite E in Hok |- *. destruct (Z.eqb_spec r (-1)) as [->|Hne]; [by exists false, s'|].
  destruct Hr as [->|Hs']; [done|]. cbn [orb] in Hok.
  destruct (IH _ s' Hs' Hok) as (b & s2 & E2 & Hb). exists b, s2. split; [done|].
  intros ->. specialize (Hb eq_refl). rewrite <- app_assoc in Hb. by destruct o.
Qed.

End output.
