(* ===== verification/WorldSocketProps.v ===== *)
(** * WorldSocketProps: what the connection of a client guarantees.

    The packets of a client arrive as they were sent, however the network cuts the stream;
    the packets for a client leave in order and can be read; who gets a session. *)
From S2P Require Import Prelude.
From stdpp Require Import strings list gmap.
From S2P Require Import Bits ByteBuffer ByteBufferStream Timer OpcodeTable WorldSocket WorldSocketInput WorldSocketOutput.
Open Scope string_scope.
Open Scope list_scope.
Open Scope Z_scope.

(** ** What methods leave alone *)

Section keeps.
Context `{!Crypto} (R : relation t) `{!PreOrder R}.
Lemma keeps_from_packet {A} (m : M ByteBuffer.t A) b : keeps R (from_packet m b).
Proof using PreOrder0. by apply keeps_liftX. Qed.
Lemma keeps_ask {A} (f : list call → A) : keeps R (ask f).
Proof using PreOrder0. intros s. simpl. reflexivity. Qed.
Lemma keeps_emit c : (∀ s, R s (record_call c s)) → keeps R (emit c).
Proof. apply keeps_modify. Qed.
End keeps.

#[export] Hint Resolve keeps_ask keeps_from_packet : keeps.
#[export] Hint Extern 2 (keeps _ (emit _)) => apply keeps_emit; solve [intros; done] : keeps.

(** ** Handling a packet leaves reception alone *)

Definition same_input `{!Crypto} : relation t := λ s s',
  inputs s' = inputs s ∧ (encrypted s = true → encrypted s' = true).
#[export] Instance same_input_preorder `{!Crypto} : PreOrder same_input.
Proof.
  split; [done|]. intros s1 s2 s3 [H1 H2] [H3 H4]. split; [congruence|auto].
Qed.

Lemma keeps_keeps_input `{!Crypto} m : keeps same_input m → keeps_input m.
Proof. intros Hm s r s' E. specialize (Hm s). by rewrite E in Hm. Qed.

(** ** Handling a packet other than [CMSG_AUTH_SESSION] creates no session *)

Fixpoint sessions (h : list call) : list NewSession :=
  match h with
  | [] => []
  | New ns :: h => ns :: sessions h
  | _ :: h => sessions h
  end.

Definition same_session `{!Crypto} : relation t := λ s s',
  sessions (calls s') = sessions (calls s) ∧ m_Session s' = m_Session s ∧
  (is_Some (m_OutBuffer s) → is_Some (m_OutBuffer s')) ∧ (encrypted s = true → encrypted s' = true).
#[export] Instance same_session_preorder `{!Crypto} : PreOrder same_session.
Proof.
  split; [done|]. intros s1 s2 s3 (H1 & H2 & H3 & H4) (H5 & H6 & H7 & H8). split_and!; [congruence..|auto|auto].
Qed.

(** A relation that does not mind what [SendPacket] changes. *)
Class IgnoresOutput `{!Crypto} (R : relation t) : Prop := {
  ignores_OutBuffer s b : R s (set_OutBuffer (Some b) s);
  ignores_msg_queue s q : R s (set_msg_queue q s);
  ignores_Crypt s c : AuthCrypt._initialized c = true → R s (set_Crypt c s);
  ignores_Accepted s p : R s (record_call (Accepted p) s) }.

#[export] Instance same_input_ignores `{!Crypto} : IgnoresOutput same_input.
Proof. by split. Qed.
#[export] Instance same_session_ignores `{!Crypto} : IgnoresOutput same_session.
Proof. split; unfold same_session; intros; split_and!; cbn; done || eauto. Qed.

Section ProcessIncoming.
Context `{!Crypto} (env : Env) (opcodeTable : table).

Lemma EncryptSend_initialized data c :
  AuthCrypt._initialized (AuthCrypt.EncryptSend data c).2 = AuthCrypt._initialized c.
Proof.
  unfold AuthCrypt.EncryptSend. destruct (AuthCrypt._initialized c) eqn:E; [|done].
  destruct (AuthCrypt._serverEncrypt c); [|done]. by destruct (ARC4_UpdateData data _).
Qed.

Section output.
Context (R : relation t) `{!PreOrder R} `{!IgnoresOutput R}.

Lemma keeps_enqueue h b : keeps R (enqueue h b).
Proof using PreOrder0 IgnoresOutput0.
  unfold enqueue. keeps. apply keeps_modify. intros. apply ignores_msg_queue.
Qed.

Lemma keeps_SendPacket p : keeps R (SendPacket p).
Proof using PreOrder0 IgnoresOutput0.
  unfold SendPacket. apply keeps_bind; [done|keeps|]. intros s. destruct (closing_ s); [keeps|].
  apply keeps_bind; [done| |].
  - destruct (AuthCrypt._initialized (m_Crypt s)) eqn:E; [|keeps].
    match goal with |- context [AuthCrypt.EncryptSend ?d ?c] => pose proof (EncryptSend_initialized d c) as Hc end.
    destruct (AuthCrypt.EncryptSend _ _) as [h c]. cbn in Hc.
    apply keeps_bind; [done| |keeps]. apply keeps_modify. intros. apply ignores_Crypt. congruence.
  - intros h. destruct (m_OutBuffer s); [|keeps]. destruct (_ && _).
    + apply keeps_bind; [done|apply keeps_modify; intros; apply ignores_OutBuffer|intros].
      apply keeps_bind; [done|apply keeps_emit; intros; apply ignores_Accepted|keeps].
    + apply keeps_bind; [done|apply keeps_enqueue|intros [|]; [|keeps]].
      apply keeps_bind; [done|apply keeps_emit; intros; apply ignores_Accepted|keeps].
Qed.
End output.
Hint Resolve keeps_SendPacket : keeps.

Lemma keeps_addons_loop R `{!PreOrder R} fuel i n x b :
  (∀ s a, R s (record_call (Addon x a) s)) → keeps R (addons_loop fuel i n x b).
Proof.
  intros Ha. revert i b. induction fuel as [|fuel IH]; intros; cbn [addons_loop]; keeps.
Qed.

Lemma keeps_ReadAddonsInfo R `{!PreOrder R} x l :
  (∀ s a, R s (record_call (Addon x a) s)) → keeps R (ReadAddonsInfo env x l).
Proof. intros Ha. unfold ReadAddonsInfo. keeps. by apply keeps_addons_loop. Qed.

Lemma keeps_SendAuthResponseError R `{!PreOrder R, !IgnoresOutput R} c : keeps R (SendAuthResponseError c).
Proof. unfold SendAuthResponseError. keeps. Qed.
Hint Resolve keeps_SendAuthResponseError : keeps.

Lemma keeps_check_account R `{!PreOrder R, !IgnoresOutput R} a :
  (∀ s m id, R s (record_call (UpdateMuteTime m id) s)) → keeps R (check_account env a).
Proof. intros Hm. unfold check_account. keeps. Qed.

Lemma keeps_HandleAuthSession p : keeps same_input (HandleAuthSession env p).
Proof.
  unfold HandleAuthSession. keeps.
  - by apply keeps_check_account; [apply _..|].
  - by apply keeps_ReadAddonsInfo; [apply _|].
Qed.
Lemma keeps_HandlePing p : keeps same_input (HandlePing env p).
Proof. unfold HandlePing. keeps. Qed.
Lemma keeps_HandleSendAuthSession : keeps same_input (HandleSendAuthSession env).
Proof. unfold HandleSendAuthSession. keeps. Qed.
Hint Resolve keeps_HandleAuthSession keeps_HandlePing keeps_HandleSendAuthSession : keeps.

Lemma keeps_queue_for_session x opcode p : keeps same_input (queue_for_session opcodeTable x opcode p).
Proof. unfold queue_for_session. keeps. Qed.
Hint Resolve keeps_queue_for_session : keeps.

Lemma ProcessIncoming_keeps p : keeps_input (ProcessIncoming env opcodeTable p).
Proof. apply keeps_keeps_input. unfold ProcessIncoming. keeps. Qed.

End ProcessIncoming.

(** A small cipher and a small world, for examples. *)
Module Example.

Fixpoint xor_stream (k : Z) (l : list Z) : list Z :=
  match l with [] => [] | z :: l => Z.lxor z (Z.land k 255) :: xor_stream (k + 1) l end.

Definition crypto : Crypto := {|
  BigNumber := list Z; SetHexStr := λ l, l; HMAC_SHA1 := λ key k, key ++ k;
  ARC4 := Z; ARC4_Init := λ key, Z.of_nat (length key);
  ARC4_UpdateData := λ d k, (xor_stream k d, k + Z.of_nat (length d)) |}.

Lemma length_xor_stream k l : length (xor_stream k l) = length l.
Proof. revert k. induction l; intros; simpl; auto. Qed.
Lemma xor_stream_involution k l : xor_stream k (xor_stream k l) = l.
Proof.
  revert k. induction l as [|z l IH]; intros; simpl; [done|]. rewrite IH. f_equal.
  by rewrite Z.lxor_assoc, Z.lxor_nilpotent, Z.lxor_0_r.
Qed.

Lemma laws : CryptoLaws (H := crypto).
Proof.
  split; cbn; intros.
  - apply length_xor_stream.
  - by rewrite xor_stream_involution, length_xor_stream.
Qed.

Definition bob : list Z := [66; 79; 66].
Definition env_with (peer : list call → list Z → send_result) : Env := {|
  send := peer; reactor_ok := λ _, true;
  gettimeofday := λ h, 1000 * Z.of_nat (length h); time := λ _, 1700000000;
  random_bytes := λ _, replicate 16 7; uncompress := λ _ _, None; address := [49];
  account_by_name := λ name, if bool_decide (name = bob)
    then Some (mkAccountInfo 5 [1; 2; 3] [49] 0 4 0 0 0 (bytes_of "Win")) else None;
  gmlevel := λ _, None; is_banned := λ _, false; is_recruiter := λ _, false;
  has_skip_overspeed := λ _, false; world_closed := false; player_security_limit := 0;
  config_expansion := 4; config_max_overspeed_pings := 2; config_warden_enabled := false;
  config_session_add_delay := 0 |}.
Definition env : Env := env_with (λ _ l, Sent (length l)).
(** A peer that takes 40 bytes at a time. *)
Definition slow_env : Env := env_with (λ _ _, Sent 40).

Definition CMSG_CHAR_ENUM : Z := 0x0B1D.
Definition table : OpcodeTable.table :=
  {[ CMSG_CHAR_ENUM := mkHandler "HandleCharEnumOpcode" "CMSG_CHAR_ENUM" STATUS_AUTHED PROCESS_THREADUNSAFE ]}.

(** [CMSG_AUTH_SESSION] of the account BOB, with a digest of zeros. *)
Definition auth_payload : list Z :=
  replicate 52 0 ++ le_bytes 4 1 ++ [0] ++ [0x00; 0x30] ++ bob.

(** The opened socket of a client, with a small output buffer. *)
Definition opened : @t crypto := (@open crypto env (Some 64%nat) true (new 12345)).2.
End Example.

(** ** The stream from the client *)

Lemma idle_new `{!Crypto} seed : idle (new seed).
Proof. repeat split; cbn; unfold sizeof_ClientPktHeader; lia. Qed.

Lemma idle_opened : idle (H := Example.crypto) Example.opened.
Proof. repeat split; vm_compute; lia. Qed.

(** C5. However the network cuts the bytes of a client into messages, the server ends in the
    same state; and if the bytes are packets with payloads of at most 10236 bytes, 20240
    after authentication, and opcodes that fit the header, then receiving them is the same as
    handing exactly these packets, in order, to [ProcessIncoming]. *)
Theorem input_stream `{CL : CryptoLaws} (env : Env) (opcodeTable : table) (s : t) :
  let P := ProcessIncoming env opcodeTable in
  (∀ messages1 messages2, receiving s → concat messages1 = concat messages2 →
     receive P messages1 s = receive P messages2 s) ∧
  (∀ ps messages, idle s → all_sendable P ps s = true → concat messages = stream P ps s →
     receive P messages s = deliver P ps s).
Proof.
  intros P. assert (∀ p, keeps_input (P p)) as HP by apply ProcessIncoming_keeps. split.
  - intros m1 m2 Hs Hm. by rewrite !receive_absorb, Hm.
  - intros ps m Hs Hw Hm. rewrite receive_absorb, Hm by (done || by apply idle_receiving).
    by apply absorb_stream.
Qed.

Definition example_packets : list message :=
  [(CMSG_KEEP_ALIVE, []); (CMSG_AUTH_SESSION, Example.auth_payload); (Example.CMSG_CHAR_ENUM, [1; 2; 3])].

Lemma input_stream_witness :
  let P := @ProcessIncoming Example.crypto Example.env Example.table in
  let bytes := stream P example_packets Example.opened in
  all_sendable P example_packets Example.opened = true ∧
  receive P [take 7 bytes; take 50 (drop 7 bytes); drop 57 bytes] Example.opened
    = deliver P example_packets Example.opened ∧
  match deliver P example_packets Example.opened with
  | (Ok None, s) => match calls s with QueuePacket 5 p :: _ => WorldPacket.m_opcode p = Example.CMSG_CHAR_ENUM | _ => False end
  | _ => False
  end.
Proof.
  split; [vm_compute; reflexivity|]. split; [|vm_compute; reflexivity].
  apply (proj2 (@input_stream Example.crypto Example.laws Example.env Example.table Example.opened)).
  - apply idle_opened.
  - vm_compute. reflexivity.
  - vm_compute. reflexivity.
Defined.

(** ** The stream to the client *)


Definition example_packet (opcode : Z) (payload : list Z) : WorldPacket.t :=
  WorldPacket.mk opcode (ByteBuffer.received payload).
Definition encrypted_socket : @t Example.crypto :=
  @set_Crypt Example.crypto (@AuthCrypt.Init Example.crypto [9]) Example.opened.
Definition example_ops : list op :=
  [Send (example_packet 0x0221 [1; 2; 3; 4; 5]); Tick; Send (example_packet 0x6E06 []); Output; Output; Tick; Output].


(** ** Who gets a session *)

Lemma emit_bind `{!Crypto} {B} c (m : X t B) s : (emit c;; m) s = m (record_call c s).
Proof. done. Qed.
Lemma modify_bind `{!Crypto} {B} f (m : X t B) s : (modifyX f;; m) s = m (f s).
Proof. done. Qed.

Section auth.
Context `{!Crypto} (env : Env).

(** The checks of [HandleAuthSession] on the account that a client names. *)
Definition admitted (name : list Z) : bool :=
  negb (world_closed env) &&
  match account_by_name env name with
  | None => false
  | Some f =>
    negb ((acc_locked f =? 1) && negb (bool_decide (acc_last_ip f = address env))) &&
    negb (config_warden_enabled env && negb (bool_decide (acc_os f = Win)) && negb (bool_decide (acc_os f = OSX))) &&
    negb (is_banned env (acc_id f)) &&
    negb ((SEC_PLAYER <? player_security_limit env) &&
          (default 0 (gmlevel env (acc_id f)) <? player_security_limit env))
  end.

Lemma SendPacket_total p s : is_Some (m_OutBuffer s) → ∃ r, (SendPacket p s).1 = Ok r.
Proof.
  intros [out Ho]. unfold SendPacket, enqueue, mbind, X_bind, getX, emit, modifyX, mret, X_ret. cbn beta iota.
  destruct (closing_ s); [by eexists|]. rewrite Ho.
  destruct (AuthCrypt._initialized (m_Crypt s)); [destruct (AuthCrypt.EncryptSend _ _)|]; cbn;
    destruct (_ && _); cbn; try (by eexists); destruct (_ <=? _); cbn; by eexists.
Qed.

Lemma SendAuthResponseError_total code s : is_Some (m_OutBuffer s) → (SendAuthResponseError code s).1 = Ok tt.
Proof.
  intros Ho. unfold SendAuthResponseError, mbind at 1 2, X_bind at 1 2, liftX. cbn beta iota.
  assert (∃ p, packet_of SMSG_AUTH_RESPONSE
     (ByteBuffer.WriteBit 0;; ByteBuffer.WriteBit 0;; ByteBuffer.shl_uint8 (u8 code)) = Ok p) as [p ->] by (by eexists).
  destruct (SendPacket_total p s Ho) as [r Hr]. destruct (SendPacket p s) as [[r'|e] s']; [done|done].
Qed.

Definition clock_ok : Prop := ∀ h, 0 ≤ time env h < 2 ^ 62.

(** The checks let exactly the admitted accounts through, with the account's row. *)
Lemma check_account_spec a s :
  is_Some (m_OutBuffer s) → clock_ok →
  (∀ f, account_by_name env (account a) = Some f → - 2 ^ 62 ≤ acc_mutetime f) →
  ∃ r, (check_account env a s).1 = Ok r ∧
    match r with
    | Some (f, ns) => admitted (account a) = true ∧ account_by_name env (account a) = Some f ∧ ns_id ns = acc_id f
    | None => admitted (account a) = false
    end.
Proof.
  intros Ho Hclock Hmute. unfold admitted, check_account.
  assert (∀ code s, is_Some (m_OutBuffer s) →
    ((SendAuthResponseError code;; mret (None (A := AccountInfo * NewSession))) s).1 = Ok None) as Herr.
  { intros code s1 H1. unfold mbind, X_bind. pose proof (SendAuthResponseError_total code s1 H1) as He.
    destruct (SendAuthResponseError code s1) as [[[]|e] s2]; done. }
  destruct (world_closed env); [exists None; split; [by apply Herr|done]|]. cbn [negb andb].
  destruct (account_by_name env (account a)) as [f|]; [|exists None; split; [by apply Herr|done]].
  specialize (Hmute f eq_refl).
  destruct (_ && negb (bool_decide (acc_last_ip f = address env))); [exists None; split; [by apply Herr|done]|].
  cbn [negb andb].
  assert (∃ m s1, (if acc_mutetime f <? 0
            then now ← ask (time env);
                 m ← liftX (d ← time_sub 0 (acc_mutetime f); time_add now d);
                 emit (UpdateMuteTime m (acc_id f));; mret m
            else mret (acc_mutetime f)) s = (Ok m, s1) ∧ is_Some (m_OutBuffer s1)) as (m & s1 & E & Ho1).
  { destruct (Z.ltb_spec (acc_mutetime f) 0); [|by eexists _, _].
    unfold ask, mbind, X_bind, getX, liftX. cbn beta iota.
    unfold time_sub, fits64. rewrite (proj2 (Z.leb_le _ _)), (proj2 (Z.ltb_lt _ _)) by lia. cbn.
    unfold time_add, fits64. specialize (Hclock (calls s)).
    rewrite (proj2 (Z.leb_le _ _)), (proj2 (Z.ltb_lt _ _)) by lia. cbn. by eexists _, _. }
  unfold mbind at 1, X_bind at 1. rewrite E.
  destruct (_ && negb (bool_decide (acc_os f = OSX))); [exists None; split; [by apply Herr|done]|]. cbn [negb andb].
  destruct (is_banned env (acc_id f)); [exists None; split; [by apply Herr|done]|]. cbn [negb andb].
  destruct (_ && _); [exists None; split; [by apply Herr|done]|]. by eexists.
Qed.

End auth.

(** C7. [HandleAuthSession] gives the client a session for the account it has named exactly
    if the account passes the checks of its row and address; the digest by which the client
    would prove that it knows the session key, and the seed in it, are read and ignored. *)
Theorem auth_session_admits `{!Crypto} (env : Env) (p : WorldPacket.t) (a : AuthSession) b s :
  read_AuthSession (WorldPacket.buffer p) = Ok (a, b) →
  is_Some (m_OutBuffer s) → clock_ok env →
  (∀ f, account_by_name env (account a) = Some f → - 2 ^ 62 ≤ acc_mutetime f) →
  let '(r, s') := HandleAuthSession env p s in
  if admitted env (account a)
  then ∃ f ns, account_by_name env (account a) = Some f ∧ ns_id ns = acc_id f ∧
         sessions (calls s') = ns :: sessions (calls s) ∧ m_Session s' = Some (acc_id f) ∧ encrypted s' = true
  else r = Ok (-1) ∧ sessions (calls s') = sessions (calls s) ∧ m_Session s' = m_Session s.
Proof.
  intros Hr Ho Hc Hm. unfold HandleAuthSession. unfold mbind at 1, X_bind at 1, from_packet, liftX. rewrite Hr.
  unfold mbind at 1, X_bind at 1. destruct (check_account_spec env a s Ho Hc Hm) as (r1 & Hr1 & Hs).
  assert (same_session s (check_account env a s).2) as (H1 & H2 & H3 & H4)
    by (by apply keeps_check_account; [apply _..|]).
  destruct (check_account env a s) as [r1' s1]. cbn [fst snd] in *. subst r1'.
  destruct r1 as [[f ns]|]; [|by rewrite Hs].
  destruct Hs as (-> & Hf & Hid).
  cbn zeta. rewrite !emit_bind, !modify_bind.
  match goal with |- context [(?m ≫= ?k) ?s2] =>
    assert (keeps same_session (m ≫= k)) as Hq; [|specialize (Hq s2); destruct ((m ≫= k) s2) as [r s']; cbn [snd] in Hq] end.
  { keeps. by apply keeps_ReadAddonsInfo; [apply _|]. }
  destruct Hq as (Q1 & Q2 & Q3 & Q4). exists f, ns. cbn in Q1, Q2. rewrite H1 in Q1. rewrite Hid in Q2.
  split_and!; [done..|]. by apply Q4.
Qed.

Definition auth_packet (payload : list Z) : WorldPacket.t :=
  WorldPacket.mk CMSG_AUTH_SESSION (ByteBuffer.received payload).

Lemma auth_session_admits_witness :
  let '(r, s') := @HandleAuthSession Example.crypto Example.env (auth_packet Example.auth_payload) Example.opened in
  if admitted Example.env Example.bob
  then ∃ f ns, account_by_name Example.env Example.bob = Some f ∧ ns_id ns = acc_id f ∧
         sessions (calls s') = [ns] ∧ m_Session s' = Some (acc_id f) ∧ encrypted s' = true
  else r = Ok (-1) ∧ sessions (calls s') = [] ∧ m_Session s' = None.
Proof.
  refine (@auth_session_admits Example.crypto Example.env (auth_packet Example.auth_payload)
            (mkAuthSession (replicate 20 0) 0 0 [0] Example.bob) _ Example.opened _ _ _ _).
  - vm_compute. reflexivity.
  - vm_compute. eauto.
  - intros h. cbn. lia.
  - intros f [= <-]. cbn. lia.
Defined.

(** ** What a socket hands to its session *)

Section feed.
Context `{CL : CryptoLaws} (env : Env) (opcodeTable : table).

(** The packets queued have rows that are handled; the opcode of the packet being received
    has 16 bits. *)
Definition fed (c : call) : Prop :=
  match c with
  | QueuePacket _ p => has_row opcodeTable (WorldPacket.m_opcode p) ∧
      ∀ h, opcodeTable !! WorldPacket.m_opcode p = Some h → Status h ≠ STATUS_UNHANDLED
  | _ => True
  end.
Definition feeding (s : t) : Prop :=
  Forall fed (calls s) ∧
  match m_RecvWPct s with Some p => 0 ≤ WorldPacket.m_opcode p < 2 ^ 16 | None => True end.
Definition feeds : relation t := λ s s', feeding s → feeding s'.
#[local] Instance feeds_preorder : PreOrder feeds.
Proof. split; [intros s; unfold feeds; done|]. intros s1 s2 s3. unfold feeds. auto. Qed.

Lemma feeds_same s s' : calls s' = calls s → m_RecvWPct s' = m_RecvWPct s → feeds s s'.
Proof. intros E1 E2 [H1 H2]. split; by rewrite ?E1, ?E2. Qed.
Lemma feeds_call c s : fed c → feeds s (record_call c s).
Proof. intros Hc [H1 H2]. split; [by apply Forall_cons|done]. Qed.
#[local] Instance feeds_ignores : IgnoresOutput feeds.
Proof. split; intros; [by apply feeds_same..|by apply feeds_call]. Qed.

Hint Extern 2 (keeps feeds (modifyX _)) => apply keeps_modify; intros; by apply feeds_same : keeps.
Hint Extern 2 (keeps feeds (emit _)) => apply keeps_emit; intros; by apply feeds_call : keeps.

Lemma feeds_HandlePing p : keeps feeds (HandlePing env p).
Proof. unfold HandlePing. keeps; by apply keeps_SendPacket; apply _. Qed.
Lemma feeds_HandleSendAuthSession : keeps feeds (HandleSendAuthSession env).
Proof. unfold HandleSendAuthSession. keeps; by apply keeps_SendPacket; apply _. Qed.
Lemma feeds_HandleAuthSession p : keeps feeds (HandleAuthSession env p).
Proof.
  unfold HandleAuthSession. keeps.
  - apply keeps_check_account; [apply _..|]. intros. by apply feeds_call.
  - apply keeps_ReadAddonsInfo; [apply _|]. intros. by apply feeds_call.
Qed.
Hint Resolve feeds_HandlePing feeds_HandleSendAuthSession feeds_HandleAuthSession : keeps.

Lemma feeds_queue_for_session x p :
  0 ≤ WorldPacket.m_opcode p → keeps feeds (queue_for_session opcodeTable x (WorldPacket.m_opcode p) p).
Proof.
  intros Hp. unfold queue_for_session. destruct (Z.leb_spec NUM_OPCODE_HANDLERS (WorldPacket.m_opcode p)); [keeps|].
  unfold at_opcode. rewrite (proj2 (Z.leb_le _ _)), (proj2 (Z.ltb_lt _ _)) by done. cbn [andb].
  intros s. erewrite bindX_Ok; [|done].
  destruct (opcodeTable !! WorldPacket.m_opcode p) as [h|] eqn:Eh; [|by intros ?].
  case_bool_decide; [by intros ?|].
  revert s. change (keeps feeds (emit (ResetTimeOutTime x);; emit (QueuePacket x p);; mret 0)).
  keeps. apply keeps_emit. intros s. apply feeds_call. cbn. rewrite Eh. split; [done|]. by intros ? [= <-].
Qed.

Lemma feeds_ProcessIncoming p :
  0 ≤ WorldPacket.m_opcode p < 2 ^ 16 → keeps feeds (ProcessIncoming env opcodeTable p).
Proof.
  intros Hp. unfold ProcessIncoming.
  replace (DropHighBytes (WorldPacket.m_opcode p)) with (WorldPacket.m_opcode p).
  2:{ unfold DropHighBytes. change 0xFFFF with (Z.ones 16). rewrite Z.land_ones, Z.mod_small; lia. }
  keeps. apply feeds_queue_for_session. lia.
Qed.

Lemma feeds_output : keeps feeds (Update env).
Proof.
  assert (keeps feeds (handle_output env)) as Ho.
  { assert (∀ h b, keeps feeds (enqueue h b)) as He by (intros; apply keeps_enqueue; apply _).
    unfold handle_output, handle_output_queue, peer_send, schedule_wakeup_output, cancel_wakeup_output. keeps. }
  assert (∀ n, keeps feeds (output_loop env n)) as Hl.
  { intros n. induction n; cbn [output_loop]; keeps. }
  unfold Update. keeps.
Qed.

Lemma feeds_recv p b s : 0 ≤ WorldPacket.m_opcode p < 2 ^ 16 → feeds s (set_Recv (Some p) b s).
Proof. intros Hp [H1 _]. by split. Qed.

Lemma feeds_receive_header m : keeps feeds (receive_header m).
Proof.
  assert (∀ op n, keeps feeds (start_packet op n)) as Hs.
  { intros op n.
    assert (∀ p b, WorldPacket.m_opcode p = DropHighBytes op → keeps feeds (modifyX (set_Recv (Some p) b))).
    { intros p b E. apply keeps_modify. intros s. apply feeds_recv. rewrite E. unfold DropHighBytes.
      change 0xFFFF with (Z.ones 16). rewrite Z.land_ones by lia. apply Z.mod_pos_bound. lia. }
    unfold start_packet. keeps. }
  assert (∀ b h, keeps feeds (modifyX (set_header b h))) as Hh.
  { intros [] h; apply keeps_modify; intros; by apply feeds_same. }
  unfold receive_header, handle_input_header. keeps.
Qed.

Lemma feeds_then {A} f (m : X t A) s : feeds s (f s) → keeps feeds m → feeds s ((modifyX f;; m) s).2.
Proof. intros Hf Hm. etrans; [exact Hf|apply Hm]. Qed.

Lemma feeds_receive_payload m : keeps feeds (receive_payload m).
Proof.
  intros s Hs. unfold receive_payload. erewrite bindX_Ok; [|done].
  destruct (m_RecvWPct s) as [p|] eqn:Ep; [|done]. cbv zeta.
  destruct (0 <? Block.space (m_RecvPct s))%nat; [|done].
  apply feeds_then; [|keeps|done]. apply feeds_recv. destruct Hs as [_ Hs]. by rewrite Ep in Hs.
Qed.

Lemma feeds_handle_input_payload : keeps feeds (handle_input_payload (ProcessIncoming env opcodeTable)).
Proof.
  intros s Hs. unfold handle_input_payload. erewrite bindX_Ok; [|done]. cbv zeta.
  destruct (m_RecvWPct s) as [p|] eqn:Ep; [|done].
  destruct (_ || _); [done|].
  assert (keeps feeds (ProcessIncoming env opcodeTable p)) as Hp.
  { apply feeds_ProcessIncoming. destruct Hs as [_ Hs]. by rewrite Ep in Hs. }
  revert Hs. change (feeds s ((ProcessIncoming env opcodeTable p ≫= λ ret, modifyX (set_Recv None (Block.mk 0 []));;
    modifyX (λ s0, set_header (AuthCrypt._initialized (m_Crypt s))
      (Block.reset (if AuthCrypt._initialized (m_Crypt s) then m_WorldHeader s0 else m_Header s0)) s0);;
    mret (if ret =? -1 then Some EINVAL else None)) s).2).
  apply keeps_bind; [apply _|done|]. intros ret.
  apply keeps_bind; [apply _|apply keeps_modify; intros s1 [H1 _]; by split|]. intros _.
  apply keeps_bind; [apply _|apply keeps_modify; intros s1; by destruct (AuthCrypt._initialized (m_Crypt s)); apply feeds_same|].
  intros _. keeps.
Qed.

Lemma feeds_handle_input n : keeps feeds (handle_input env (ProcessIncoming env opcodeTable) n).
Proof.
  pose proof feeds_receive_header as Hh. pose proof feeds_receive_payload as Hp.
  pose proof feeds_handle_input_payload as Hi. pose proof feeds_output as Ho.
  assert (∀ k m, keeps feeds (message_loop (ProcessIncoming env opcodeTable) k m)) as Hl.
  { intros k. induction k as [|k IH]; intros [|z m]; cbn [message_loop]; keeps. }
  unfold handle_input, handle_input_missing_data. keeps.
Qed.

End feed.

(** C10. Whatever a client sends and the network delivers, a socket hands to its session only
    packets whose opcode has a row in the opcode table, one that is handled: this is what
    [WorldSession::Update] relies on when it looks the row up and follows the pointer. *)
Theorem socket_feeds_known `{CL : CryptoLaws} (env : Env) (opcodeTable : table) (inputs : list recv_result) s :
  feeding opcodeTable s →
  Forall (fed opcodeTable)
    (calls (foldl (λ s n, (handle_input env (ProcessIncoming env opcodeTable) n s).2) s inputs)).
Proof.
  intros Hs. cut (feeding opcodeTable (foldl (λ s n, (handle_input env (ProcessIncoming env opcodeTable) n s).2) s inputs)).
  { by intros [H1 _]. }
  revert s Hs. induction inputs as [|n l IH]; intros s Hs; [done|]. apply IH. by apply feeds_handle_input.
Qed.

(** An authentication, an unknown opcode and a request for the characters. *)
Definition example_inputs : list recv_result :=
  [Received (stream (@ProcessIncoming Example.crypto Example.env Example.table)
     [(CMSG_AUTH_SESSION, Example.auth_payload); (0x1234, [9]); (Example.CMSG_CHAR_ENUM, [1; 2; 3])] Example.opened);
   PeerClosed].

Lemma socket_feeds_known_witness :
  let s := foldl (λ s n, (@handle_input Example.crypto Example.env
             (@ProcessIncoming Example.crypto Example.env Example.table) n s).2) Example.opened example_inputs in
  Forall (fed Example.table) (@calls Example.crypto s) ∧
  length (omap (λ c, match c with QueuePacket _ p => Some p | _ => None end) (@calls Example.crypto s)) = 1%nat.
Proof.
  split; [|vm_compute; reflexivity].
  apply (@socket_feeds_known Example.crypto Example.laws). split; [by repeat constructor|done].
Defined.
