(* ===== verification/OpcodeTableProps.v ===== *)
(** * OpcodeTableProps: what the table of opcodes holds, and what it keeps from the client. *)
From S2P Require Import Prelude.
From stdpp Require Import strings list gmap.
From S2P Require Import OpcodeTable.
Open Scope string_scope.
Open Scope list_scope.
Open Scope Z_scope.

#[local] Opaque opcode.

(** The first row of an opcode. *)
Definition first_row (l : list row) (op : Z) : option OpcodeHandler :=
  snd <$> head (filter (λ r : row, opcode r.1 = op) l).

Definition valid_index (op : Z) : bool := (op <? NUM_OPCODE_HANDLERS) && negb (op =? 0).

Lemma fill_lookup l t op :
  fill l t !! op =
  match t !! op with Some h => Some h | None => if valid_index op then first_row l op else None end.
Proof.
  revert t. induction l as [|[n h] l IH]; intros t; cbn [fill].
  - destruct (t !! op); [done|]. by destruct (valid_index op).
  - rewrite IH. unfold ValidateAndSetOpcode, first_row. fold (valid_index (opcode n)).
    destruct (decide (opcode n = op)) as [<-|Hne].
    + rewrite (filter_cons_True _ (n, h)) by done. cbn.
      destruct (valid_index (opcode n)); [|done].
      destruct (t !! opcode n) eqn:E; [by rewrite E|]. set (t' := <[opcode n:=h]> t).
      assert (t' !! opcode n = Some h) as -> by exact (lookup_insert_eq (M := gmap Z) t (opcode n) h). done.
    + rewrite (filter_cons_False _ (n, h)) by done.
      assert ((if valid_index (opcode n) then match t !! opcode n with Some _ => t | None => <[opcode n:=h]> t end else t) !! op
              = t !! op) as ->; [|done].
      destruct (valid_index (opcode n)); [|done]. destruct (t !! opcode n); [done|].
      exact (lookup_insert_ne (M := gmap Z) t (opcode n) op h Hne).
Qed.

(** The rows that leave nothing in the table. *)
Definition dead (r : row) : bool := negb (bool_decide (Name <$> Initialize !! opcode r.1 = Some r.1)).
Definition dead_rows : list string := fst <$> filter (λ r, dead r = true) rows.

(** C27. [OpcodeTable::Initialize] puts under each opcode the first of its rows that has it, if
    the opcode is not 0 and below the size of the table, and nothing else.  Of the 1243 rows
    exactly ten leave nothing: three have the opcode 0, three one that is too large, and four
    the opcode of an earlier row. *)
Theorem Initialize_spec :
  (∀ op, Initialize !! op = if valid_index op then first_row rows op else None) ∧
  dead_rows =
    ["CMSG_CONTACT_LIST"; "CMSG_MESSAGECHAT_RAID"; "CMSG_MESSAGECHAT_RAID_WARNING"; "CMSG_TUTORIAL_RESET";
     "SMSG_EMOTE"; "SMSG_GROUP_UNINVITE"; "SMSG_ITEM_TIME_UPDATE"; "SMSG_MOVE_SET_SWIM_SPEED";
     "SMSG_UPDATE_ACCOUNT_DATA_COMPLETE"; "SMSG_UPDATE_CURRENCY"].
Proof.
  split; [|vm_compute; reflexivity].
  intros op. unfold Initialize. by rewrite fill_lookup.
Qed.
