(* ===== verification/WorldSession.v ===== *)
(** * WorldSession: the session of an account.

    [game/Server/WorldSession.{h,cpp}] and [shared/Threading/LockedQueue.h]: packets that the
    network thread has queued are dispatched by their row of the opcode table and the state of
    the player; the session is timed out, logged out and torn down.  Packets are heap objects.
    The handlers of opcodes are the environment's and may do to the session what they like;
    what the network thread does between two rounds of the loop is a script that the session
    consumes.  The socket is known by whether it is closed and by what is sent to it. *)
From S2P Require Import Prelude.
From stdpp Require Import strings list gmap.
From S2P Require Import ByteBuffer Timer OpcodeTable WorldSocket.
Open Scope string_scope.
Open Scope list_scope.
Open Scope Z_scope.

(** ** Data *)

(** A packet and where it lives. *)
Record packet : Type := mkPacket { address : Z; contents : WorldPacket.t }.
Definition GetOpcode (p : packet) : Z := WorldPacket.m_opcode (contents p).

(** What a session sees of its player. *)
Record Player : Type := mkPlayer { IsInWorld : bool; IsBeingTeleportedFar : bool }.

(** Why a packet was not handled. *)
Inductive skipped : Type :=
| RecentlyLoggedOut | InTransfer               (* dropped without a word *)
| NotLoggedIn | StillInWorld | NotPassedQueue  (* LogUnexpectedOpcode *)
| NotAllowed | NotHandled.

(** What a session does to others, newest first; [Handle] also says which player there was
    and whether the session was queued. *)
Inductive call : Type :=
| Handle (h : OpcodeHandler) (p : packet) (player : option Player) (inQueue : bool)
| Skip (p : packet) (why : skipped)
| Delay (p : packet)                           (* queued again *)
| Delete (p : packet)
| SocketSend (p : WorldPacket.t)
| CloseSocket
| RemoveReference
| WardenUpdate
| QueryCallbacks
| BeforeSave                                   (* LogoutPlayer up to its second loop *)
| SaveToDB
| Cleanup                                      (* LogoutPlayer from the channels to the map *)
| SetOffline.                                  (* statements of the databases *)

(** What the network thread does. *)
Inductive network_event : Type := Arrive (p : packet) | Disconnect.

Record t : Type := mk {
  _player : option Player;
  m_Socket : option bool;                      (* whether the socket is closed *)
  m_timeOutTime : Z;
  _logoutTime : Z;
  m_inQueue : bool;
  m_playerLoading : bool;
  m_playerLogout : bool;
  m_playerRecentlyLogout : bool;
  m_playerSave : bool;
  _warden : bool;
  _recvQueue : list packet;
  heap : gset Z;                               (* the packets that are alive *)
  network : list (list network_event);         (* what the network thread is going to do *)
  calls : list call }.

(** How moving a player to another map ends. *)
Inductive worldport : Type := InvalidDestination | NotEntered (teleported_again : bool) | Entered.

Record Env : Type := mkEnv {
  handler : string → WorldPacket.t → X t unit;
  socket_send : list call → bool;              (* whether WorldSocket::SendPacket succeeds *)
  time : list call → Z;
  worldport_ends : list call → worldport;
  teleported_by_logout : list call → bool;     (* by what LogoutPlayer does before its second loop *)
  config_socket_timeouttime : Z }.

Definition set_player (x : option Player) (s : t) : t :=
  mk x (m_Socket s) (m_timeOutTime s) (_logoutTime s) (m_inQueue s) (m_playerLoading s) (m_playerLogout s)
     (m_playerRecentlyLogout s) (m_playerSave s) (_warden s) (_recvQueue s) (heap s) (network s) (calls s).
Definition set_Socket (x : option bool) (s : t) : t :=
  mk (_player s) x (m_timeOutTime s) (_logoutTime s) (m_inQueue s) (m_playerLoading s) (m_playerLogout s)
     (m_playerRecentlyLogout s) (m_playerSave s) (_warden s) (_recvQueue s) (heap s) (network s) (calls s).
Definition set_timeOutTime (x : Z) (s : t) : t :=
  mk (_player s) (m_Socket s) x (_logoutTime s) (m_inQueue s) (m_playerLoading s) (m_playerLogout s)
     (m_playerRecentlyLogout s) (m_playerSave s) (_warden s) (_recvQueue s) (heap s) (network s) (calls s).
Definition set_logoutTime (x : Z) (s : t) : t :=
  mk (_player s) (m_Socket s) (m_timeOutTime s) x (m_inQueue s) (m_playerLoading s) (m_playerLogout s)
     (m_playerRecentlyLogout s) (m_playerSave s) (_warden s) (_recvQueue s) (heap s) (network s) (calls s).
Definition set_inQueue (x : bool) (s : t) : t :=
  mk (_player s) (m_Socket s) (m_timeOutTime s) (_logoutTime s) x (m_playerLoading s) (m_playerLogout s)
     (m_playerRecentlyLogout s) (m_playerSave s) (_warden s) (_recvQueue s) (heap s) (network s) (calls s).
(** [m_playerLogout] and [m_playerSave]. *)
Definition set_playerLogout (x save : bool) (s : t) : t :=
  mk (_player s) (m_Socket s) (m_timeOutTime s) (_logoutTime s) (m_inQueue s) (m_playerLoading s) x
     (m_playerRecentlyLogout s) save (_warden s) (_recvQueue s) (heap s) (network s) (calls s).
Definition set_playerRecentlyLogout (x : bool) (s : t) : t :=
  mk (_player s) (m_Socket s) (m_timeOutTime s) (_logoutTime s) (m_inQueue s) (m_playerLoading s) (m_playerLogout s)
     x (m_playerSave s) (_warden s) (_recvQueue s) (heap s) (network s) (calls s).
Definition set_recvQueue (x : list packet) (s : t) : t :=
  mk (_player s) (m_Socket s) (m_timeOutTime s) (_logoutTime s) (m_inQueue s) (m_playerLoading s) (m_playerLogout s)
     (m_playerRecentlyLogout s) (m_playerSave s) (_warden s) x (heap s) (network s) (calls s).
Definition set_heap (x : gset Z) (s : t) : t :=
  mk (_player s) (m_Socket s) (m_timeOutTime s) (_logoutTime s) (m_inQueue s) (m_playerLoading s) (m_playerLogout s)
     (m_playerRecentlyLogout s) (m_playerSave s) (_warden s) (_recvQueue s) x (network s) (calls s).
Definition set_network (x : list (list network_event)) (s : t) : t :=
  mk (_player s) (m_Socket s) (m_timeOutTime s) (_logoutTime s) (m_inQueue s) (m_playerLoading s) (m_playerLogout s)
     (m_playerRecentlyLogout s) (m_playerSave s) (_warden s) (_recvQueue s) (heap s) x (calls s).
Definition record_call (c : call) (s : t) : t :=
  mk (_player s) (m_Socket s) (m_timeOutTime s) (_logoutTime s) (m_inQueue s) (m_playerLoading s) (m_playerLogout s)
     (m_playerRecentlyLogout s) (m_playerSave s) (_warden s) (_recvQueue s) (heap s) (network s) (c :: calls s).

Definition emit (c : call) : X t unit := modifyX (record_call c).
Definition ask {A} (f : list call → A) : X t A := s ← getX; mret (f (calls s)).

(** ** The heap of packets *)

(** Reading through a pointer to a packet. *)
Definition deref (p : packet) : X t unit :=
  s ← getX; if bool_decide (address p ∈ heap s) then mret tt else throwX UndefinedBehaviour.
Definition delete_packet (p : packet) : X t unit :=
  deref p;; s ← getX; modifyX (set_heap (heap s ∖ {[address p]}));; emit (Delete p).

(** ** The queue of packets: [LockedQueue] *)

Definition QueuePacket (p : packet) : X t unit :=
  s ← getX; modifyX (set_recvQueue (_recvQueue s ++ [p])).

(** [next] with a filter, which sees the front before it is taken. *)
Definition next (Process : packet → X t bool) : X t (option packet) :=
  s ← getX;
  match _recvQueue s with
  | [] => mret None
  | p :: q => ok ← Process p; if ok : bool then modifyX (set_recvQueue q);; mret (Some p) else mret None
  end.

(** One turn of the network thread. *)
Definition network_step (e : network_event) : X t unit :=
  match e with
  | Arrive p => s ← getX; modifyX (set_heap ({[address p]} ∪ heap s));; QueuePacket p
  | Disconnect => s ← getX;
    match m_Socket s with Some _ => modifyX (set_Socket (Some true)) | None => mret tt end
  end.
Fixpoint network_steps (es : list network_event) : X t unit :=
  match es with [] => mret tt | e :: es => network_step e;; network_steps es end.
Definition network_turn : X t unit :=
  s ← getX;
  match network s with
  | [] => mret tt
  | es :: n => modifyX (set_network n);; network_steps es
  end.

(** The packet is thread-safe: done in [Map::Update], or in [World::UpdateSessions]. *)
Inductive filter : Type := MapSessionFilter | WorldSessionFilter.
Definition ProcessLogout (f : filter) : bool := match f with MapSessionFilter => false | WorldSessionFilter => true end.

Section WorldSession.
Context (env : Env) (opcodeTable : table).

(** The row of a packet; a null pointer is followed. *)
Definition opHandle (opcode : Z) : X t OpcodeHandler :=
  h ← liftX (at_opcode opcodeTable opcode);
  match h with Some h => mret h | None => throwX UndefinedBehaviour end.

Definition Process (f : filter) (p : packet) : X t bool :=
  deref p;;
  h ← opHandle (DropHighBytes (GetOpcode p));
  s ← getX;
  match f with
  | MapSessionFilter =>
    match ProcessingPlace h with
    | PROCESS_INPLACE => mret true
    | PROCESS_THREADUNSAFE => mret false
    | PROCESS_THREADSAFE => mret (match _player s with None => false | Some pl => IsInWorld pl end)
    end
  | WorldSessionFilter =>
    match ProcessingPlace h with
    | PROCESS_INPLACE => mret true
    | PROCESS_THREADUNSAFE => mret true
    | PROCESS_THREADSAFE => mret (match _player s with None => true | Some pl => negb (IsInWorld pl) end)
    end
  end.

(** ** Sending *)

Definition SendPacket (p : WorldPacket.t) (forced : bool) : X t unit :=
  s ← getX;
  match m_Socket s with
  | None => mret tt
  | Some closed =>
    if WorldPacket.m_opcode p =? NULL_OPCODE then mret tt
    else if WorldPacket.m_opcode p =? UNKNOWN_OPCODE then mret tt
    else
      allowed ← (if forced then mret true
                 else h ← liftX (at_opcode opcodeTable (WorldPacket.m_opcode p));
                      mret (match h with
                            | Some h => negb (bool_decide (Status h = STATUS_UNHANDLED))
                            | None => false
                            end));
      if allowed : bool then
        ok ← ask (socket_send env);
        emit (SocketSend p);;
        if ok : bool then mret tt else modifyX (set_Socket (Some true));; emit CloseSocket
      else mret tt
  end.

Definition KickPlayer : X t unit :=
  s ← getX;
  match m_Socket s with
  | None => mret tt
  | Some _ => modifyX (set_Socket (Some true));; emit CloseSocket
  end.

(** ** Time *)

Definition UpdateTimeOutTime (diff : Z) : X t unit :=
  s ← getX;
  modifyX (set_timeOutTime (if m_timeOutTime s <? diff then 0 else m_timeOutTime s - diff)).
Definition ResetTimeOutTime : X t unit := modifyX (set_timeOutTime (config_socket_timeouttime env)).
Definition IsConnectionIdle (s : t) : bool := (m_timeOutTime s <=? 0) && negb (m_inQueue s).
Definition LogoutRequest (requestTime : Z) : X t unit := modifyX (set_logoutTime requestTime).
Definition ShouldLogOut (currTime : Z) (s : t) : bool :=
  (0 <? _logoutTime s) && (_logoutTime s + 20 <=? currTime).
Definition SetInQueue (state : bool) : X t unit := modifyX (set_inQueue state).

(** ** Logging out *)

Definition SMSG_LOGOUT_COMPLETE : Z := 0x15C9.

(** [HandleMoveWorldportAckOpcode], as far as the session is concerned, and [LogoutPlayer],
    which it may call.  The fuel bounds the transfers, which the environment may repeat. *)
Definition set_far (b : bool) (pl : Player) : Player := mkPlayer (IsInWorld pl) b.

Fixpoint finish_transfers (logout : X t unit) (first : bool) (fuel : nat) : X t unit :=
  match fuel with
  | O => throwX Diverges
  | S fuel =>
    s ← getX;
    match _player s with
    | None => if first then mret tt else throwX UndefinedBehaviour
    | Some pl =>
      if IsBeingTeleportedFar pl then
        modifyX (set_player (Some (set_far false pl)));;
        r ← ask (worldport_ends env);
        match r with
        | InvalidDestination => logout
        | NotEntered again => modifyX (set_player (Some (mkPlayer false again)))
        | Entered => modifyX (set_player (Some (mkPlayer true false)))
        end;;
        finish_transfers logout first fuel
      else mret tt
    end
  end.

Fixpoint LogoutPlayer (fuel : nat) (save : bool) : X t unit :=
  match fuel with
  | O => throwX Diverges
  | S fuel =>
    let logout := LogoutPlayer fuel false in
    finish_transfers logout true fuel;;
    modifyX (set_playerLogout true save);;
    s ← getX;
    (match _player s with
     | None => mret tt
     | Some pl =>
       far ← ask (teleported_by_logout env);
       emit BeforeSave;;
       modifyX (set_player (Some (if far : bool then set_far true pl else pl)));;
       finish_transfers logout false fuel;;
       (when save do emit SaveToDB);;
       emit Cleanup;;
       modifyX (set_player None);;
       SendPacket (WorldPacket.new SMSG_LOGOUT_COMPLETE) false;;
       emit SetOffline
     end);;
    modifyX (set_playerLogout false false);;
    modifyX (set_playerRecentlyLogout true);;
    LogoutRequest 0
  end.

(** ** Update *)

Definition CMSG_CHAR_ENUM : Z := 0x0B1D.

(** Handler and what is caught around it; the script hook before it and the log of the tail
    behind it are left out. *)
Definition run_handler (h : OpcodeHandler) (p : packet) : X t unit :=
  s ← getX;
  emit (Handle h p (_player s) (m_inQueue s));;
  catch_ByteBufferException (handler env (Handler h) (contents p)) (mret tt).

(** The [switch] on the status of the opcode; the result says whether the packet was put
    back into the queue. *)
Definition dispatch (h : OpcodeHandler) (p : packet) : X t bool :=
  s ← getX;
  match Status h with
  | STATUS_LOGGEDIN =>
    match _player s with
    | None =>
      if negb (m_playerRecentlyLogout s) then QueuePacket p;; emit (Delay p);; mret true
      else emit (Skip p RecentlyLoggedOut);; mret false
    | Some pl =>
      if IsInWorld pl then run_handler h p;; mret false
      else emit (Skip p InTransfer);; mret false
    end
  | STATUS_LOGGEDIN_OR_RECENTLY_LOGGOUT =>
    if (match _player s with None => true | Some _ => false end)
       && negb (m_playerRecentlyLogout s) && negb (m_playerLogout s)
    then emit (Skip p NotLoggedIn);; mret false
    else run_handler h p;; mret false
  | STATUS_TRANSFER =>
    match _player s with
    | None => emit (Skip p NotLoggedIn);; mret false
    | Some pl =>
      if IsInWorld pl then emit (Skip p StillInWorld);; mret false
      else run_handler h p;; mret false
    end
  | STATUS_AUTHED =>
    if m_inQueue s then emit (Skip p NotPassedQueue);; mret false
    else
      (when (GetOpcode p =? CMSG_CHAR_ENUM) do modifyX (set_playerRecentlyLogout false));;
      run_handler h p;; mret false
  | STATUS_NEVER => emit (Skip p NotAllowed);; mret false
  | STATUS_UNHANDLED => emit (Skip p NotHandled);; mret false
  end.

(** What the loop does with the packet it has taken; its locals are [firstDelayedPacket] and
    [deletePacket]. *)
Definition process_packet (packet : packet) (firstDelayedPacket : option Z) (deletePacket : bool)
    : X t (option Z * bool) :=
  deref packet;;
  h ← opHandle (GetOpcode packet);
  delayed ← dispatch h packet;
  let firstDelayedPacket :=
    if delayed : bool then
      match firstDelayedPacket with None => Some (address packet) | Some a => Some a end
    else firstDelayedPacket in
  let deletePacket := if delayed : bool then false else deletePacket in
  (when deletePacket do delete_packet packet);;
  mret (firstDelayedPacket, deletePacket).

(** The loop over the queue. *)
Fixpoint update_loop (fuel : nat) (updater : filter) (firstDelayedPacket : option Z) (deletePacket : bool)
    : X t unit :=
  match fuel with
  | O => throwX Diverges
  | S fuel =>
    network_turn;;
    s ← getX;
    match m_Socket s, _recvQueue s with
    | Some false, front :: _ =>
      if bool_decide (Some (address front) = firstDelayedPacket) then mret tt
      else
        r ← next (Process updater);
        match r with
        | None => mret tt
        | Some packet =>
          '(firstDelayedPacket, deletePacket) ← process_packet packet firstDelayedPacket deletePacket;
          update_loop fuel updater firstDelayedPacket deletePacket
        end
    | _, _ => mret tt
    end
  end.

(** The packets that are in the queue or are going to arrive. *)
Definition arrivals (es : list network_event) : list packet :=
  omap (λ e, match e with Arrive p => Some p | Disconnect => None end) es.
Definition to_come (s : t) : list packet := _recvQueue s ++ arrivals (concat (network s)).

(** Every round but the last takes a packet that has not been dispatched yet. *)
Definition update_fuel (s : t) : nat := S (length (to_come s)).

Definition warden_update : X t unit := s ← getX; when _warden s do emit WardenUpdate.

(** Kicking idle players from the character selection screen. *)
Definition close_idle : X t unit :=
  s ← getX;
  when IsConnectionIdle s do
    match m_Socket s with
    | None => throwX UndefinedBehaviour
    | Some _ => modifyX (set_Socket (Some true));; emit CloseSocket
    end.

(** Behind the loop; [false] asks the world to delete the session.  [max_transfers] bounds the
    transfers that a logout finishes. *)
Definition finish_update (max_transfers : nat) (updater : filter) : X t bool :=
  s ← getX;
  match m_Socket s with Some false => warden_update | _ => mret tt end;;
  emit QueryCallbacks;;
  if ProcessLogout updater then
    currTime ← ask (time env);
    s ← getX;
    (when (ShouldLogOut currTime s && negb (m_playerLoading s)) do LogoutPlayer max_transfers true);;
    s ← getX;
    match m_Socket s, _player s with Some _, Some _ => warden_update | _, _ => mret tt end;;
    s ← getX;
    match m_Socket s with
    | Some true => emit RemoveReference;; modifyX (set_Socket None);; mret false
    | Some false => mret true
    | None => mret false
    end
  else mret true.

Definition Update (max_transfers : nat) (diff : Z) (updater : filter) : X t bool :=
  UpdateTimeOutTime diff;;
  close_idle;;
  s ← getX;
  update_loop (update_fuel s) updater None true;;
  finish_update max_transfers updater.

(** ** The end of a session *)

Fixpoint delete_packets (q : list packet) : X t unit :=
  match q with
  | [] => modifyX (set_recvQueue [])
  | p :: q => modifyX (set_recvQueue q);; delete_packet p;; delete_packets q
  end.

Definition destructor (max_transfers : nat) : X t unit :=
  s ← getX;
  (match _player s with Some _ => LogoutPlayer max_transfers true | None => mret tt end);;
  s ← getX;
  (match m_Socket s with
   | Some _ => emit CloseSocket;; emit RemoveReference;; modifyX (set_Socket None)
   | None => mret tt
   end);;
  s ← getX;
  delete_packets (_recvQueue s);;
  emit SetOffline.

(** A new session; [ResetTimeOutTime] if it has a socket. *)
Definition new (socket : bool) (script : list (list network_event)) : t :=
  mk None (if socket then Some false else None) (if socket then config_socket_timeouttime env else 0)
     0 false false false false false false [] ∅ script [].

End WorldSession.
