(* ===== verification/WorldSessionProps.v ===== *)
(** * WorldSessionProps: packets are dispatched once, in order, and not after they are deleted. *)
From S2P Require Import Prelude.
From stdpp Require Import strings list gmap sets.
From S2P Require Import ByteBuffer Timer OpcodeTable WorldSocket WorldSession.
Open Scope string_scope.
Open Scope list_scope.
Open Scope Z_scope.

(** ** Reading the calls of a session *)

(** The packets that were dispatched, oldest first, and whether they were put back. *)
Definition verdict_of (c : call) : option (packet * bool) :=
  match c with
  | Handle _ p _ _ => Some (p, false)
  | Skip p _ => Some (p, false)
  | Delay p => Some (p, true)
  | _ => None
  end.
Definition trace (h : list call) : list (packet * bool) := omap verdict_of (reverse h).

(** The packets that were deleted, oldest first. *)
Definition deleted (h : list call) : list packet :=
  omap (λ c, match c with Delete p => Some p | _ => None end) (reverse h).

Lemma trace_app cs h : trace (cs ++ h) = trace h ++ trace cs.
Proof. unfold trace. by rewrite reverse_app, omap_app. Qed.
Lemma deleted_app cs h : deleted (cs ++ h) = deleted h ++ deleted cs.
Proof. unfold deleted. by rewrite reverse_app, omap_app. Qed.

(** Calls that have nothing to do with packets. *)
Definition silent (c : call) : bool :=
  match c with Handle _ _ _ _ | Skip _ _ | Delay _ | Delete _ => false | _ => true end.

Lemma silent_trace cs : Forall silent cs → trace cs = [] ∧ deleted cs = [].
Proof.
  unfold trace, deleted. intros H. assert (Forall silent (reverse cs)) as H' by by rewrite Forall_reverse.
  clear H. revert H'. generalize (reverse cs). intros l. induction 1 as [|c l Hc _ [IH1 IH2]]; [done|].
  by destruct c.
Qed.

(** The states of the player in which a handler may run. *)
Definition guard (st : SessionStatus) (pl : option Player) (inQueue : bool) : bool :=
  match st, pl with
  | STATUS_LOGGEDIN, Some pl => IsInWorld pl
  | STATUS_TRANSFER, Some pl => negb (IsInWorld pl)
  | STATUS_AUTHED, _ => negb inQueue
  | STATUS_LOGGEDIN_OR_RECENTLY_LOGGOUT, _ => true
  | _, _ => false
  end.
Definition guarded (opcodeTable : table) (c : call) : Prop :=
  match c with
  | Handle h p pl q => opcodeTable !! GetOpcode p = Some h ∧ guard (Status h) pl q = true
  | _ => True
  end.

(** ** What is relied on *)

(** Handlers leave the queue, the packets and the network thread alone, and throw nothing but
    what is caught. *)
Class HandlersOk (env : Env) : Prop := handlers_ok : ∀ name p s,
  let '(r, s') := handler env name p s in
  _recvQueue s' = _recvQueue s ∧ heap s' = heap s ∧ network s' = network s ∧
  (∃ cs, calls s' = cs ++ calls s ∧ Forall silent cs) ∧
  match r with Ok _ => True | Throw e => is_ByteBufferException e = true end.

(** Packets have a row in the table, and new ones a new address. *)
Definition known (opcodeTable : table) (p : packet) : Prop := has_row opcodeTable (GetOpcode p).
#[export] Instance known_dec opcodeTable p : Decision (known opcodeTable p).
Proof. unfold known. apply _. Defined.

Record wf (opcodeTable : table) (s : t) : Prop := {
  wf_known : Forall (known opcodeTable) (to_come s);
  wf_nodup : NoDup (address <$> to_come s);
  wf_alive : Forall (λ p, address p ∈ heap s) (_recvQueue s);
  wf_new : Forall (λ p, address p ∉ heap s) (arrivals (concat (network s))) }.

Definition addresses (ps : list packet) : gset Z := list_to_set (address <$> ps).

Lemma known_row opcodeTable p :
  known opcodeTable p → ∃ h, opcodeTable !! GetOpcode p = Some h ∧
    (∀ s, opHandle opcodeTable (GetOpcode p) s = (Ok h, s)) ∧ DropHighBytes (GetOpcode p) = GetOpcode p.
Proof.
  unfold known, has_row, NUM_OPCODE_HANDLERS. intros [Hr [h Hh]]. exists h. split; [done|]. split.
  - intros s. unfold opHandle, mbind, X_bind, liftX, at_opcode, NUM_OPCODE_HANDLERS.
    rewrite (proj2 (Z.leb_le _ _)), (proj2 (Z.ltb_lt _ _)) by lia. cbn. by rewrite Hh.
  - unfold DropHighBytes. change 0xFFFF with (Z.ones 16). rewrite Z.land_ones by lia. apply Z.mod_small.
    change (2 ^ 16) with 65536. lia.
Qed.

(** ** The network thread *)

Lemma arrivals_app es1 es2 : arrivals (es1 ++ es2) = arrivals es1 ++ arrivals es2.
Proof. apply omap_app. Qed.

Lemma network_steps_spec es s : ∃ s', network_steps es s = (Ok tt, s') ∧
  _recvQueue s' = _recvQueue s ++ arrivals es ∧ heap s' = heap s ∪ addresses (arrivals es) ∧
  network s' = network s ∧ calls s' = calls s.
Proof.
  revert s. induction es as [|e es IH]; intros s.
  - exists s. cbn. rewrite app_nil_r. unfold addresses. cbn. rewrite (right_id_L ∅ (∪)). done.
  - destruct e as [p|]; cbn [network_steps network_step].
    + destruct (IH (set_recvQueue (_recvQueue s ++ [p]) (set_heap ({[address p]} ∪ heap s) s)))
        as (s' & E & Hq & Hh & Hn & Hc).
      exists s'. split; [exact E|]. split; [rewrite Hq; cbn; by rewrite <- app_assoc|].
      split; [|by rewrite Hn, Hc]. rewrite Hh. unfold addresses. cbn.
      by rewrite (assoc_L (∪) (heap s)), (comm_L (∪) (heap s)).
    + unfold mbind at 1, X_bind at 1. unfold mbind at 1, X_bind at 1, getX at 1.
      destruct (m_Socket s) eqn:Es; cbn.
      * destruct (IH (set_Socket (Some true) s)) as (s' & E & Hq & Hh & Hn & Hc). by exists s'.
      * apply IH.
Qed.

Lemma network_turn_spec s : ∃ s' es k, network_turn s = (Ok tt, s') ∧
  es = concat (take k (network s)) ∧ network s' = drop k (network s) ∧
  _recvQueue s' = _recvQueue s ++ arrivals es ∧ heap s' = heap s ∪ addresses (arrivals es) ∧
  calls s' = calls s.
Proof.
  unfold network_turn, mbind at 1, X_bind at 1, getX at 1. destruct (network s) as [|es n] eqn:En.
  - exists s, [], 0%nat. cbn. rewrite app_nil_r, En. unfold addresses. cbn. rewrite (right_id_L ∅ (∪)). done.
  - unfold mbind, X_bind, modifyX. destruct (network_steps_spec es (set_network n s)) as (s' & E & Hq & Hh & Hn & Hc).
    exists s', es, 1%nat. cbn. rewrite app_nil_r, drop_0. done.
Qed.

(** ** One packet *)

Section Session.
Context (env : Env) (opcodeTable : table) `{!HandlersOk env}.

Lemma run_handler_spec h p s :
  guard (Status h) (_player s) (m_inQueue s) = true → opcodeTable !! GetOpcode p = Some h →
  ∃ s' cs, run_handler env h p s = (Ok tt, s') ∧
    _recvQueue s' = _recvQueue s ∧ heap s' = heap s ∧ network s' = network s ∧
    calls s' = cs ++ calls s ∧ trace cs = [(p, false)] ∧ deleted cs = [] ∧ Forall (guarded opcodeTable) cs.
Proof using All.
  intros Hg Hh. unfold run_handler, mbind at 1, X_bind at 1, getX.
  unfold mbind at 1, X_bind at 1, emit at 1, modifyX at 1. unfold catch_ByteBufferException.
  set (c := Handle h p (_player s) (m_inQueue s)).
  pose proof (handlers_ok (Handler h) (contents p) (record_call c s)) as Hok.
  destruct (handler env (Handler h) (contents p) (record_call c s)) as [r s'].
  destruct Hok as (Hq & Hp & Hn & (cs & Hc & Hsil) & Hr).
  exists s', (cs ++ [c]). split; [destruct r as [[]|e]; [done|by rewrite Hr]|].
  split; [done|]. split; [done|]. split; [done|].
  split; [by rewrite Hc, <- app_assoc|]. destruct (silent_trace cs Hsil) as [E1 E2].
  rewrite trace_app, deleted_app, E1, E2. split; [done|]. split; [done|].
  apply Forall_app. split; [|by repeat constructor].
  eapply Forall_impl; [exact Hsil|]. by intros [].
Qed.

(** The session after a packet was dispatched: put back or not. *)
Definition dispatched (p : packet) (d : bool) (s s' : t) : Prop :=
  _recvQueue s' = _recvQueue s ++ (if d then [p] else []) ∧ heap s' = heap s ∧ network s' = network s ∧
  ∃ cs, calls s' = cs ++ calls s ∧ trace cs = [(p, d)] ∧ deleted cs = [] ∧ Forall (guarded opcodeTable) cs.

Lemma dispatched_emit p s c :
  verdict_of c = Some (p, false) → (∀ p, c ≠ Delete p) → guarded opcodeTable c →
  dispatched p false s (record_call c s).
Proof using All.
  intros Hv Hd Hg. split_and!; [cbn; by rewrite app_nil_r|done..|]. exists [c].
  split; [done|]. unfold trace, deleted. cbn. rewrite Hv. destruct c; split_and!; done || by apply Forall_singleton.
Qed.

Lemma dispatch_spec h p s :
  opcodeTable !! GetOpcode p = Some h →
  ∃ d s', dispatch env h p s = (Ok d, s') ∧ dispatched p d s s'.
Proof using All.
  intros Hh. unfold dispatch, mbind at 1, X_bind at 1, getX.
  assert (∀ why, ∃ d s', (emit (Skip p why);; mret false) s = (Ok d, s') ∧ dispatched p d s s') as Hskip.
  { intros why. exists false, (record_call (Skip p why) s). split; [done|]. by apply dispatched_emit. }
  assert (∀ s0, _recvQueue s0 = _recvQueue s → heap s0 = heap s → network s0 = network s → calls s0 = calls s →
    guard (Status h) (_player s0) (m_inQueue s0) = true →
    ∃ d s', (run_handler env h p;; mret false) s0 = (Ok d, s') ∧ dispatched p d s s') as Hrun.
  { intros s0 E1 E2 E3 E4 Hg. destruct (run_handler_spec h p s0 Hg Hh) as (s' & cs & E & Hq & Hp & Hn & Hc & Ht).
    exists false, s'. split; [unfold mbind, X_bind; by rewrite E|].
    split_and!; [by rewrite Hq, E1, app_nil_r|congruence..|]. exists cs. by rewrite Hc, E4. }
  destruct (Status h) eqn:Est.
  - destruct (m_inQueue s) eqn:Eq; [apply Hskip|]. unfold mbind at 1, X_bind at 1.
    destruct (GetOpcode p =? CMSG_CHAR_ENUM); apply Hrun; cbn; by rewrite ?Eq.
  - destruct (_player s) as [pl|] eqn:Epl.
    + destruct (IsInWorld pl) eqn:Ew; [|done]. apply Hrun; try done. cbn. by rewrite Epl.
    + destruct (m_playerRecentlyLogout s); [apply Hskip|]. cbn [negb].
      exists true, (record_call (Delay p) (set_recvQueue (_recvQueue s ++ [p]) s)). split; [done|].
      split_and!; [done..|]. exists [Delay p].
      split_and!; done || by apply Forall_singleton.
  - destruct (_player s) as [pl|] eqn:Epl; [|apply Hskip].
    destruct (IsInWorld pl) eqn:Ew; [apply Hskip|]. apply Hrun; try done. cbn. by rewrite Epl, Ew.
  - destruct (_ && _); [apply Hskip|]. apply Hrun; done.
  - apply Hskip.
  - apply Hskip.
Qed.

Lemma deref_alive p s : address p ∈ heap s → deref p s = (Ok tt, s).
Proof. intros H. unfold deref, mbind, X_bind, getX. by rewrite bool_decide_true. Qed.

Lemma Process_spec f p s :
  known opcodeTable p → address p ∈ heap s → ∃ b, Process opcodeTable f p s = (Ok b, s).
Proof using All.
  intros Hk Hp. destruct (known_row _ _ Hk) as (h & _ & Eh & Ed).
  unfold Process. unfold mbind at 1, X_bind at 1. rewrite deref_alive by done.
  unfold mbind at 1, X_bind at 1. rewrite Ed, Eh. unfold mbind, X_bind, getX.
  destruct f, (ProcessingPlace h); by eexists.
Qed.

Lemma delete_packet_spec p s : address p ∈ heap s →
  delete_packet p s = (Ok tt, record_call (Delete p) (set_heap (heap s ∖ {[address p]}) s)).
Proof.
  intros H. unfold delete_packet, mbind at 1, X_bind at 1. by rewrite deref_alive.
Qed.

Lemma process_packet_spec (p : packet) (first : option Z) (dp : bool) (s : t) :
  known opcodeTable p → address p ∈ heap s →
  ∃ (d : bool) s' cs, process_packet env opcodeTable p first dp s =
      (Ok (if d then Some (default (address p) first) else first, negb d && dp), s') ∧
    _recvQueue s' = _recvQueue s ++ (if d then [p] else []) ∧ network s' = network s ∧
    calls s' = cs ++ calls s ∧ trace cs = [(p, d)] ∧ deleted cs = (if negb d && dp then [p] else []) ∧
    heap s' = heap s ∖ addresses (deleted cs) ∧ Forall (guarded opcodeTable) cs.
Proof using All.
  intros Hk Hp. destruct (known_row _ _ Hk) as (h & Hh & Eh & _).
  destruct (dispatch_spec h p s Hh) as (d & s1 & Ed & Hq & Hheap & Hn & cs & Hc & Ht & Hdel & Hg).
  unfold process_packet. unfold mbind at 1, X_bind at 1. rewrite deref_alive by done.
  unfold mbind at 1, X_bind at 1. rewrite Eh. unfold mbind at 1, X_bind at 1. rewrite Ed.
  unfold mbind at 1, X_bind at 1. unfold addresses.
  destruct d; [|destruct dp].
  - exists true, s1, cs. cbn. rewrite Hdel. cbn. rewrite (difference_empty_L (heap s)).
    split; [by destruct first|]. done.
  - rewrite delete_packet_spec by by rewrite Hheap. eexists false, _, (Delete p :: cs). split; [done|].
    change (Delete p :: cs) with ([Delete p] ++ cs). rewrite trace_app, deleted_app, Hdel, Ht. cbn.
    rewrite (right_id_L ∅ (∪)), Hheap. split_and!; try done; [by rewrite Hc|by constructor].
  - exists false, s1, cs. cbn. rewrite Hdel. cbn. by rewrite (difference_empty_L (heap s)).
Qed.

(** ** Well-formed sessions stay well-formed *)

Lemma wf_turn s s' es k :
  wf opcodeTable s → es = concat (take k (network s)) → network s' = drop k (network s) →
  _recvQueue s' = _recvQueue s ++ arrivals es → heap s' = heap s ∪ addresses (arrivals es) →
  wf opcodeTable s' ∧ to_come s' = to_come s.
Proof.
  intros [Hk Hd Ha Hn] -> En Eq Eh.
  assert (arrivals (concat (network s)) =
          arrivals (concat (take k (network s))) ++ arrivals (concat (network s'))) as Earr.
  { by rewrite <- arrivals_app, <- concat_app, En, take_drop. }
  assert (to_come s' = to_come s) as Et.
  { unfold to_come. by rewrite Eq, Earr, <- app_assoc. }
  split; [|done]. split; rewrite ?Et; try done.
  - rewrite Eq, Eh. apply Forall_app. split.
    + eapply Forall_impl; [exact Ha|]. intros p Hp. apply elem_of_union. by left.
    + apply Forall_forall. intros p Hp. apply elem_of_union. right.
      unfold addresses. apply elem_of_list_to_set, list_elem_of_fmap. eauto.
  - rewrite Earr in Hn. apply Forall_app in Hn as [_ Hn]. rewrite Eh.
    rewrite Forall_forall in Hn |- *. intros p Hp. rewrite not_elem_of_union. split; [by apply Hn|].
    unfold addresses. rewrite elem_of_list_to_set. intros Hin.
    unfold to_come in Hd. rewrite Earr, !fmap_app, !NoDup_app in Hd.
    destruct Hd as (_ & _ & (_ & Hd & _)). apply (Hd _ Hin). apply list_elem_of_fmap. eauto.
Qed.

(** A packet is taken, and perhaps put back, or deleted. *)
Lemma wf_taken s s' p q (d : bool) del :
  wf opcodeTable s → _recvQueue s = p :: q → _recvQueue s' = q ++ (if d then [p] else []) →
  network s' = network s → del = [] ∨ (del = [p] ∧ d = false) → heap s' = heap s ∖ addresses del →
  wf opcodeTable s'.
Proof.
  intros [Hk Hd Ha Hn] Eq Eq' En Edel Eh.
  set (arr := arrivals (concat (network s))) in *.
  assert (to_come s = p :: q ++ arr) as Et by (unfold to_come; by rewrite Eq).
  assert (to_come s' = q ++ (if d then [p] else []) ++ arr) as Et'.
  { unfold to_come. by rewrite Eq', En, <- app_assoc. }
  rewrite Et in Hk, Hd. rewrite Eq in Ha.
  apply Forall_cons in Hk as [Hk1 Hk]. apply Forall_app in Hk as [Hk2 Hk3].
  apply Forall_cons in Ha as [Ha1 Ha]. cbn [fmap list_fmap] in Hd. apply NoDup_cons in Hd as [Hd1 Hd].
  split.
  - rewrite Et'. apply Forall_app. split; [done|]. apply Forall_app. split; [|done].
    destruct d; [by apply Forall_singleton|done].
  - rewrite Et'. destruct d; cbn; [|done].
    rewrite fmap_app in *. cbn. rewrite <- Permutation_middle. by apply NoDup_cons.
  - rewrite Eq', Eh. apply Forall_app. split.
    + rewrite Forall_forall in Ha |- *. intros p' Hp'. rewrite elem_of_difference. split; [by apply Ha|].
      destruct Edel as [->|[-> _]]; unfold addresses; cbn; [apply not_elem_of_empty|].
      rewrite (right_id_L ∅ (∪)), elem_of_singleton. intros E. apply Hd1. rewrite fmap_app, elem_of_app. left.
      rewrite <- E. apply list_elem_of_fmap. eauto.
    + destruct d; [|done]. apply Forall_singleton. destruct Edel as [->|[_ [=]]].
      unfold addresses. cbn. by rewrite difference_empty_L.
  - rewrite En, Eh. eapply Forall_impl; [exact Hn|]. cbn. intros p' Hp' [? _]%elem_of_difference. by apply Hp'.
Qed.

(** ** The loop *)

(** Of packets with the verdict whether they were put back: those that were not, and those
    that were; and those that were done with before the first that was put back. *)
Definition finished (tr : list (packet * bool)) : list packet :=
  omap (λ x : packet * bool, if x.2 then None else Some x.1) tr.
Definition delayed (tr : list (packet * bool)) : list packet :=
  omap (λ x : packet * bool, if x.2 then Some x.1 else None) tr.
Fixpoint before_delay (tr : list (packet * bool)) : list packet :=
  match tr with
  | (p, false) :: tr => p :: before_delay tr
  | _ => []
  end.

(** The part of the queue from the first packet that was put back on, and the locals. *)
Definition locals (rest : list (packet * bool)) (first : option Z) (dp : bool) : Prop :=
  match rest with
  | [] => first = None ∧ dp = true
  | (p, _) :: _ => first = Some (address p) ∧ dp = false
  end.

(** How the loop goes from a queue [pre] followed by [rest]. *)
Definition loop_result (pre : list packet) (rest : list (packet * bool)) (dp : bool) (s s' : t) : Prop :=
  ∃ cs k pre' rest', let arrived := arrivals (concat (take k (network s))) in
    _recvQueue s' = pre' ++ rest'.*1 ∧ network s' = drop k (network s) ∧
    (trace cs).*1 ++ pre' ++ finished rest' = pre ++ finished rest ++ arrived ∧
    delayed rest' = delayed rest ++ delayed (trace cs) ∧
    calls s' = cs ++ calls s ∧ Forall (guarded opcodeTable) cs ∧
    deleted cs = (if dp then before_delay (trace cs) else []) ∧
    heap s' = (heap s ∪ addresses arrived) ∖ addresses (deleted cs) ∧ wf opcodeTable s'.

Lemma loop_done pre rest dp s s' k :
  wf opcodeTable s' → _recvQueue s' = (pre ++ rest.*1) ++ arrivals (concat (take k (network s))) →
  network s' = drop k (network s) → calls s' = calls s →
  heap s' = heap s ∪ addresses (arrivals (concat (take k (network s)))) →
  loop_result pre rest dp s s'.
Proof.
  intros Hwf Eq En Ec Eh. set (arr := arrivals _) in *.
  exists [], k, pre, (rest ++ ((., false) <$> arr)). fold arr.
  assert (delayed ((., false) <$> arr) = [] ∧ finished ((., false) <$> arr) = arr) as [E1 E2].
  { clear. induction arr as [|p l [IH1 IH2]]; [done|]. cbn. unfold delayed, finished in *. cbn. by rewrite IH1, IH2. }
  unfold delayed, finished in *. rewrite !omap_app, E1, E2, fmap_app, <- list_fmap_compose.
  assert (fst ∘ (., false) <$> arr = arr) as E3.
  { clear. induction arr; [done|]. cbn. by f_equal. }
  split_and!; try done; [by rewrite E3, app_assoc|by destruct dp|].
  cbn. by rewrite difference_empty_L.
Qed.

(** The packet at the front has not been dispatched before. *)
Lemma split_queue (pre : list packet) rest first dp arr p q :
  locals rest first dp → (pre ++ rest.*1) ++ arr = p :: q → Some (address p) ≠ first →
  ∃ pre1 rest1, locals rest1 first dp ∧ q = pre1 ++ rest1.*1 ∧
    p :: pre1 ++ finished rest1 = pre ++ finished rest ++ arr ∧ delayed rest1 = delayed rest ∧
    match rest with [] => rest1 = [] ∧ S (length pre1) = (length pre + length arr)%nat
                  | _ => rest1 ≠ [] ∧ S (length pre1) = length pre end.
Proof.
  intros Hl Hq Hp. destruct rest as [|[pd b] rest].
  - exists q, []. cbn in *. rewrite app_nil_r in *. split; [done|]. split; [done|]. rewrite Hq.
    split; [done|]. split; [done|]. split; [done|]. by rewrite <- length_app, Hq.
  - destruct Hl as [Hl ->]. destruct pre as [|p' pre]; cbn in Hq; [by injection Hq as -> _|].
    injection Hq as -> Hq.
    assert (delayed ((., false) <$> arr) = [] ∧ finished ((., false) <$> arr) = arr) as [E1 E2].
    { clear. induction arr as [|x l [IH1 IH2]]; [done|]. cbn. unfold delayed, finished in *. cbn. by rewrite IH1, IH2. }
    assert (fst ∘ (., false) <$> arr = arr) as E3 by (clear; induction arr; [done|]; cbn; by f_equal).
    exists pre, (((pd, b) :: rest) ++ ((., false) <$> arr)).
    unfold delayed, finished in *. rewrite !omap_app, E1, E2, fmap_app, <- list_fmap_compose, E3.
    split_and!; try done; [by rewrite <- Hq, <- app_assoc|by rewrite app_nil_r].
Qed.

Lemma arrivals_split k k2 (n : list (list network_event)) :
  arrivals (concat (take (k + k2) n)) =
  arrivals (concat (take k n)) ++ arrivals (concat (take k2 (drop k n))).
Proof. by rewrite <- arrivals_app, <- concat_app, take_take_drop. Qed.

(** One round, followed by the others. *)
Lemma loop_round pre rest dp s s1 s2 s' p q k cs1 (d : bool) pre1 rest1 :
  let arr := arrivals (concat (take k (network s))) in
  wf opcodeTable s1 → _recvQueue s1 = p :: q →
  network s1 = drop k (network s) → heap s1 = heap s ∪ addresses arr → calls s1 = calls s →
  p :: pre1 ++ finished rest1 = pre ++ finished rest ++ arr → delayed rest1 = delayed rest →
  network s2 = network s1 → calls s2 = cs1 ++ calls s1 → trace cs1 = [(p, d)] →
  deleted cs1 = (if negb d && dp then [p] else []) → heap s2 = heap s1 ∖ addresses (deleted cs1) →
  Forall (guarded opcodeTable) cs1 →
  loop_result pre1 (rest1 ++ (if d then [(p, true)] else [])) (negb d && dp) s2 s' →
  loop_result pre rest dp s s'.
Proof.
  intros arr Hwf Hq Hn1 Hh1 Hc1 Hfin Hdel1 Hn2 Hc2 Ht1 Hd1 Hh2 Hg1
    (cs2 & k2 & pre' & rest' & Hq' & Hn' & Hf' & Hd' & Hc' & Hg' & Hdel' & Hh' & Hwf').
  exists (cs2 ++ cs1), (k + k2)%nat, pre', rest'. cbv zeta. rewrite arrivals_split. fold arr.
  rewrite Hn2, Hn1 in Hn', Hf', Hh'. set (arr2 := arrivals (concat (take k2 (drop k (network s))))) in *.
  rewrite trace_app, deleted_app, Ht1. unfold delayed, finished in *. rewrite !omap_app in Hf', Hd'.
  split; [done|]. split; [by rewrite Hn', drop_drop|].
  split.
  { cbn. rewrite Hf', !app_assoc, <- (app_assoc pre), <- Hfin. by destruct d; cbn; rewrite ?app_nil_r, <- ?app_assoc. }
  split. { rewrite Hd', Hdel1, <- app_assoc. f_equal. by destruct d. }
  split. { by rewrite Hc', Hc2, Hc1, app_assoc. }
  split. { by apply Forall_app. }
  split. { rewrite Hd1, Hdel'. by destruct d, dp. }
  split; [|done]. rewrite Hh', Hh2, Hh1.
  assert (address p ∉ addresses arr2) as Hnew.
  { destruct Hwf as [_ Hnd _ _]. unfold to_come in Hnd. rewrite Hq, fmap_app in Hnd.
    apply NoDup_app in Hnd as (_ & Hnd & _). unfold addresses. rewrite elem_of_list_to_set.
    intros (x & Ex & Hx)%list_elem_of_fmap. apply (Hnd (address p)); [by left|]. apply list_elem_of_fmap. exists x. split; [done|].
    rewrite Hn1. rewrite <- (take_drop k2 (drop k (network s))), concat_app, arrivals_app.
    apply elem_of_app. by left. }
  assert (addresses (arr ++ arr2) = addresses arr ∪ addresses arr2) as -> by (unfold addresses; by rewrite fmap_app, list_to_set_app_L).
  assert (addresses (deleted cs1 ++ deleted cs2) = addresses (deleted cs1) ∪ addresses (deleted cs2)) as -> by (unfold addresses; by rewrite fmap_app, list_to_set_app_L).
  assert (addresses (deleted cs1) ## addresses arr2) as Hdisj.
  { rewrite Hd1. unfold addresses at 1. destruct (negb d && dp); cbn; clear - Hnew; set_solver. }
  clear - Hdisj. set_solver.
Qed.

Lemma update_loop_spec fuel f first dp pre rest s :
  wf opcodeTable s → locals rest first dp → _recvQueue s = pre ++ rest.*1 →
  (length pre + match rest with [] => length (arrivals (concat (network s))) | _ => 0 end < fuel)%nat →
  ∃ s', update_loop env opcodeTable fuel f first dp s = (Ok tt, s') ∧ loop_result pre rest dp s s'.
Proof using All.
  revert first dp pre rest s. induction fuel as [|fuel IH]; intros first dp pre rest s Hwf Hl Hq Hf; [lia|].
  cbn [update_loop]. destruct (network_turn_spec s) as (s1 & es & k & E1 & Ees & Hn1 & Hq1 & Hh1 & Hc1).
  destruct (wf_turn s s1 es k) as [Hwf1 Ht1]; [done..|].
  unfold mbind at 1, X_bind at 1. rewrite E1. unfold mbind at 1, X_bind at 1, getX at 1.
  rewrite Hq in Hq1. subst es. set (arr := arrivals (concat (take k (network s)))) in *.
  assert (∃ s', (mret tt : X t unit) s1 = (Ok tt, s') ∧ loop_result pre rest dp s s') as Hdone.
  { exists s1. split; [done|]. by eapply loop_done. }
  destruct (m_Socket s1) as [[]|]; [done| |done].
  destruct (_recvQueue s1) as [|p q] eqn:Eq1; [done|].
  case_bool_decide as Efirst; [done|].
  assert (known opcodeTable p ∧ address p ∈ heap s1) as [Hk Ha].
  { destruct Hwf1 as [Hk _ Ha _]. unfold to_come in Hk. rewrite Eq1 in Hk, Ha.
    apply Forall_cons in Hk as [? _]. by apply Forall_cons in Ha as [? _]. }
  destruct (Process_spec f p s1 Hk Ha) as [b Ep].
  unfold mbind at 1, X_bind at 1, next. unfold mbind at 1, X_bind at 1, getX at 1. rewrite Eq1.
  unfold mbind at 1, X_bind at 1. rewrite Ep. destruct b; [|done]. cbn beta iota.
  unfold mbind at 1, X_bind at 1, modifyX. cbn beta iota.
  destruct (split_queue pre rest first dp arr p q) as (pre1 & rest1 & Hl1 & -> & Hfin & Hdel & Hlen); [done..|].
  destruct (process_packet_spec p first dp (set_recvQueue (pre1 ++ rest1.*1) s1))
    as (d & s2 & cs & E2 & Hq2 & Hn2 & Hc2 & Ht2 & Hd2 & Hh2 & Hg2); [done..|].
  unfold mret at 1, X_ret at 1. unfold mbind at 1, X_bind at 1. rewrite E2. cbn beta iota.
  destruct (IH (if d then Some (default (address p) first) else first) (negb d && dp) pre1
              (rest1 ++ (if d then [(p, true)] else [])) s2) as (s' & E' & Hr).
  - eapply (wf_taken s1 s2 p _ d (deleted cs)); [done..|exact Hq2|done| |done].
    rewrite Hd2. destruct d, dp; cbn; auto.
  - destruct d; [|by rewrite app_nil_r]. destruct rest1 as [|[pd b] rest1]; cbn.
    + by destruct Hl1 as [-> _].
    + by destruct Hl1 as [-> _].
  - rewrite Hq2, fmap_app. destruct d; cbn; by rewrite ?app_nil_r, ?app_assoc.
  - assert (length (arrivals (concat (network s))) =
            length arr + length (arrivals (concat (network s2))))%nat as El.
    { rewrite Hn2. cbn. rewrite Hn1, <- (take_drop k (network s)) at 1.
      by rewrite concat_app, arrivals_app, length_app. }
    destruct rest; destruct Hlen as [E Hlen]; [subst rest1|destruct rest1; [done|]]; destruct d; cbn [app]; lia.
  - exists s'. split; [done|]. eapply loop_round; [exact Hwf1|exact Eq1|done..].
Qed.

(** ** The rest of an update *)

(** A method that returns, and has nothing to do with packets. *)
Definition quiet (s s' : t) : Prop :=
  _recvQueue s' = _recvQueue s ∧ heap s' = heap s ∧ network s' = network s ∧
  ∃ cs, calls s' = cs ++ calls s ∧ Forall silent cs.
#[export] Instance quiet_preorder : PreOrder quiet.
Proof.
  split; [intros s; split_and!; [done..|by exists []]|].
  intros s1 s2 s3 (E1 & E2 & E3 & cs & E4 & Hs) (E1' & E2' & E3' & cs' & E4' & Hs').
  split_and!; [congruence..|]. exists (cs' ++ cs). split; [by rewrite E4', E4, app_assoc|by apply Forall_app].
Qed.

Definition quietly {A} (m : X t A) (s : t) : Prop := ∃ a s', m s = (Ok a, s') ∧ quiet s s'.

Lemma quietly_ret {A} (a : A) s : quietly (mret a) s.
Proof. exists a, s. split; [done|]. reflexivity. Qed.
Lemma quietly_bind {A B} (m : X t A) (k : A → X t B) s :
  quietly m s → (∀ a s', m s = (Ok a, s') → quietly (k a) s') → quietly (m ≫= k) s.
Proof.
  intros (a & s1 & E & H1) Hk. destruct (Hk a s1 E) as (b & s2 & E2 & H2).
  exists b, s2. split; [by rewrite (bindX_Ok _ _ _ _ _ E)|by etrans].
Qed.
Lemma quietly_modify f s : quiet s (f s) → quietly (modifyX f) s.
Proof. by exists tt, (f s). Qed.
Lemma quietly_emit c s : silent c → quietly (emit c) s.
Proof.
  intros Hc. apply quietly_modify. split_and!; [done..|]. exists [c]. split; [done|by apply Forall_singleton].
Qed.
Lemma quietly_getX s : quietly getX s.
Proof. exists s, s. split; [done|]. reflexivity. Qed.
Lemma quietly_ask {A} (g : list call → A) s : quietly (ask g) s.
Proof. exists (g (calls s)), s. split; [done|]. reflexivity. Qed.

Create HintDb quiet.
Hint Resolve quietly_ret quietly_getX quietly_ask : quiet.
Hint Extern 2 (quietly (emit _) _) => by apply quietly_emit : quiet.
Ltac quietly_modify := apply quietly_modify; split_and!; [done..|by exists []].
Hint Extern 2 (quietly (modifyX _) _) => quietly_modify : quiet.
Hint Extern 2 (quietly (LogoutRequest _) _) => quietly_modify : quiet.

(** One step along the structure of a method. *)
Ltac quietly_step :=
  match goal with
  | |- quietly (match ?x with _ => _ end) _ => destruct x eqn:?
  | |- quietly (_ ≫= _) _ => apply quietly_bind; [|intros ? ? ?]
  | |- quietly _ _ => solve [eauto with quiet]
  end.
Ltac quietly := repeat quietly_step.

Lemma SendPacket_quiet p forced s :
  0 ≤ WorldPacket.m_opcode p < NUM_OPCODE_HANDLERS → quietly (SendPacket env opcodeTable p forced) s.
Proof.
  intros Hop. unfold SendPacket.
  assert (∀ s, quietly (liftX (at_opcode opcodeTable (WorldPacket.m_opcode p))) s) as Hh.
  { intros s0. unfold at_opcode, liftX. rewrite (proj2 (Z.leb_le _ _)), (proj2 (Z.ltb_lt _ _)) by lia.
    eexists _, s0. split; [done|]. reflexivity. }
  quietly.
Qed.

(** No transfer fails for its destination, or leads to another. *)
Definition transfers_end : Prop :=
  ∀ h, worldport_ends env h = Entered ∨ worldport_ends env h = NotEntered false.

Lemma finish_transfers_quiet (H : transfers_end) logout (first : bool) n s :
  first = true ∨ is_Some (_player s) → quietly (finish_transfers env logout first (S (S n))) s.
Proof.
  intros Hf. cbn [finish_transfers]. apply quietly_bind; [auto with quiet|]. intros ? ? [= <- <-].
  destruct (_player s) as [pl|]; [|destruct Hf as [->|[? [=]]]; cbn; auto with quiet].
  destruct (IsBeingTeleportedFar pl); [|auto with quiet].
  apply quietly_bind; [auto with quiet|]. intros _ s1 _.
  apply quietly_bind; [auto with quiet|]. intros r s2 [= <- <-].
  destruct (H (calls s1)) as [-> | ->].
  all: apply quietly_bind; [auto with quiet|]; intros ? s3 [= <- <-].
  all: apply quietly_bind; [auto with quiet|]; intros ? ? [= <- <-]; cbn; auto with quiet.
Qed.

Lemma LogoutPlayer_quiet (H : transfers_end) n save s :
  quietly (LogoutPlayer env opcodeTable (S (S (S n))) save) s.
Proof.
  remember (S (S n)) as m eqn:Em. cbn [LogoutPlayer].
  generalize (LogoutPlayer env opcodeTable m false). intros logout. subst m.
  apply quietly_bind; [by apply finish_transfers_quiet; [|left]|]. intros _ s1 _.
  apply quietly_bind; [auto with quiet|]. intros _ s2 _.
  apply quietly_bind; [auto with quiet|]. intros ? ? [= <- <-].
  apply quietly_bind; [|intros; quietly].
  destruct (_player s2) as [pl|]; [|auto with quiet].
  apply quietly_bind; [auto with quiet|]. intros far s3 _.
  apply quietly_bind; [auto with quiet|]. intros _ s4 _.
  apply quietly_bind; [auto with quiet|]. intros ? s5 [= <- <-].
  apply quietly_bind; [apply finish_transfers_quiet; [done|right; by eexists]|]. intros _ s6 _.
  quietly. apply SendPacket_quiet. done.
Qed.

(** ** Updates *)

Lemma wf_quiet s s' : quiet s s' → wf opcodeTable s → wf opcodeTable s'.
Proof.
  intros (Eq & Eh & En & _) [H1 H2 H3 H4].
  assert (to_come s' = to_come s) as Et by (unfold to_come; congruence).
  split; rewrite ?Et, ?Eq, ?Eh, ?En; done.
Qed.

Lemma warden_update_quiet s : quietly warden_update s.
Proof. unfold warden_update. quietly. Qed.

Lemma close_idle_quiet s : is_Some (m_Socket s) → quietly close_idle s.
Proof.
  intros [c Hc]. unfold close_idle. apply quietly_bind; [auto with quiet|]. intros ? ? [= <- <-].
  destruct (IsConnectionIdle s); [|auto with quiet]. rewrite Hc. quietly.
Qed.

Lemma finish_update_quiet n f s :
  transfers_end → ∃ b s', finish_update env opcodeTable (S (S (S n))) f s = (Ok b, s') ∧ quiet s s' ∧
    (b = false → f = WorldSessionFilter ∧ m_Socket s' = None) ∧
    (b = true → f = WorldSessionFilter → m_Socket s' = Some false).
Proof using All.
  intros Hends.
  assert (quietly (finish_update env opcodeTable (S (S (S n))) f) s) as (b & s' & E & Hq).
  { unfold finish_update. remember (S (S (S n))) as m eqn:Em.
    pose proof (warden_update_quiet). assert (∀ s, quietly (LogoutPlayer env opcodeTable m true) s) as Hl.
    { intros s0. rewrite Em. by apply LogoutPlayer_quiet. }
    clear Em. quietly. }
  exists b, s'. split; [done|]. split; [done|]. unfold finish_update in E.
  apply bindX_inv in E as (? & s1 & _ & E). apply bindX_inv in E as (? & s2 & _ & E).
  apply bindX_inv in E as (? & s3 & _ & E). destruct f; cbn [ProcessLogout] in E; [by injection E as <- _|].
  apply bindX_inv in E as (? & s4 & _ & E). apply bindX_inv in E as (? & s5 & _ & E).
  apply bindX_inv in E as (? & s6 & _ & E). apply bindX_inv in E as (? & s7 & _ & E).
  apply bindX_inv in E as (? & s8 & _ & E). apply bindX_inv in E as (? & s9 & [= <- <-] & E).
  destruct (m_Socket s8) as [[]|] eqn:Es; [|by injection E as <- <-|by injection E as <- <-].
  apply bindX_inv in E as (? & s10 & _ & E). apply bindX_inv in E as (? & s11 & [= _ <-] & E).
  by injection E as <- <-.
Qed.

Lemma delayed_finished (tr : list (packet * bool)) :
  tr.*1 ≡ₚ finished tr ++ delayed tr ∧ finished tr `sublist_of` tr.*1 ∧ delayed tr `sublist_of` tr.*1.
Proof.
  induction tr as [|[p d] tr (IH1 & IH2 & IH3)]; [done|]. unfold finished, delayed in *. cbn.
  destruct d; cbn; (split; [|split; by constructor]); rewrite IH1; [apply Permutation_middle|done].
Qed.

(** An update in three phases: what is quiet before the loop, the loop, what is behind it. *)
Lemma Update_phases n diff f s :
  wf opcodeTable s → is_Some (m_Socket s) → transfers_end →
  ∃ s1 s2 b s3, Update env opcodeTable (S (S (S n))) diff f s = (Ok b, s3) ∧
    quiet s s1 ∧ loop_result (_recvQueue s1) [] true s1 s2 ∧ wf opcodeTable s2 ∧ quiet s2 s3 ∧ wf opcodeTable s3 ∧
    (b = false → f = WorldSessionFilter ∧ m_Socket s3 = None) ∧
    (b = true → f = WorldSessionFilter → m_Socket s3 = Some false).
Proof using All.
  intros Hwf Hsock Hends.
  set (s0 := set_timeOutTime (if m_timeOutTime s <? diff then 0 else m_timeOutTime s - diff) s).
  destruct (close_idle_quiet s0 Hsock) as (a & s1 & E1 & Q1).
  assert (quiet s s1) as Q.
  { etrans; [|exact Q1]. split_and!; [done..|by exists []]. }
  assert (wf opcodeTable s1) as Hwf1 by by eapply wf_quiet.
  destruct (update_loop_spec (update_fuel s1) f None true (_recvQueue s1) [] s1)
    as (s2 & E2 & Hloop);
    [done|done|by rewrite app_nil_r|unfold update_fuel, to_come; rewrite length_app; lia|].
  assert (wf opcodeTable s2) as Hwf2 by (by destruct Hloop as (? & ? & ? & ? & ? & ? & ? & ? & ? & ? & ? & ? & ?)).
  destruct (finish_update_quiet n f s2 Hends) as (b & s3 & E3 & Q3 & Hb & Hb').
  exists s1, s2, b, s3. split_and!; try done; [|by eapply wf_quiet].
  unfold Update. erewrite bindX_Ok; [|done]. erewrite bindX_Ok; [|exact E1].
  erewrite bindX_Ok; [|done]. by erewrite bindX_Ok; [|exact E2].
Qed.

End Session.


(** ** An example

    At the character selection a packet for a player in world arrives between two others. *)
Module Example.

Definition opcodeTable : table :=
  fill [DEFINE_OPCODE_HANDLER "CMSG_CHAR_ENUM" STATUS_AUTHED PROCESS_THREADUNSAFE "HandleCharEnumOpcode";
        DEFINE_OPCODE_HANDLER "CMSG_WORLD_STATE_UI_TIMER_UPDATE" STATUS_LOGGEDIN PROCESS_INPLACE "HandleWorldStateUITimerUpdate"] ∅.
Definition env : Env :=
  mkEnv (λ _ _, mret tt) (λ _, true) (λ _, 1000) (λ _, Entered) (λ _, false) 900000.
#[export] Instance env_ok : HandlersOk env.
Proof. intros name p s. cbn. split_and!; try done. by exists []. Qed.

Definition char_enum (a : Z) : packet := mkPacket a (WorldPacket.new CMSG_CHAR_ENUM).
Definition in_world (a : Z) : packet :=
  mkPacket a (WorldPacket.new (opcode "CMSG_WORLD_STATE_UI_TIMER_UPDATE")).
Definition session : t :=
  set_heap {[1; 2; 3]} (set_recvQueue [char_enum 1; in_world 2; char_enum 3] (new env true [[]; [Arrive (in_world 4)]])).

Lemma session_wf : wf opcodeTable session.
Proof. split; apply (bool_decide_eq_true_1 _); vm_compute; reflexivity. Qed.
End Example.

