(* ===== verification/SpeedSending.v ===== *)
(** * SpeedSending: who hears of a changed speed.

    [Unit::SetSpeed] (SpeedChange.v) sends up to three packets; [WorldSession::SendPacket]
    (WorldSession.v) looks their opcodes up in the table of Opcodes.cpp (OpcodeTable.v). *)
From S2P Require Import Prelude.
From stdpp Require Import strings list gmap.
From S2P Require Import ByteBuffer OpcodeTable OpcodeTableProps SpeedChange WorldSocket WorldSession.
Open Scope string_scope.
Open Scope list_scope.
Open Scope Z_scope.

(** What [SendPacket] does with an opcode that is in the range of the table. *)
Definition passes (opcodeTable : table) (op : Z) : bool :=
  match opcodeTable !! op with
  | Some h => negb (bool_decide (Status h = STATUS_UNHANDLED))
  | None => false
  end.

Lemma SendPacket_passes env opcodeTable p s c :
  m_Socket s = Some c → 0 < WorldPacket.m_opcode p < NUM_OPCODE_HANDLERS →
  SendPacket env opcodeTable p false s =
  if passes opcodeTable (WorldPacket.m_opcode p) then SendPacket env opcodeTable p true s else (Ok tt, s).
Proof.
  unfold NUM_OPCODE_HANDLERS, passes. intros Hs Hp. unfold SendPacket.
  erewrite !bindX_Ok; [|done..]. rewrite Hs. unfold NULL_OPCODE, UNKNOWN_OPCODE.
  rewrite (proj2 (Z.eqb_neq _ 0)), (proj2 (Z.eqb_neq _ (0xFFFF + 1))) by lia.
  unfold at_opcode, NUM_OPCODE_HANDLERS.
  rewrite (proj2 (Z.leb_le _ _)), (proj2 (Z.ltb_lt _ _)) by lia. cbn [andb].
  unfold mbind, X_bind, liftX. cbn beta iota.
  by destruct (opcodeTable !! WorldPacket.m_opcode p) as [h|]; [cbn; destruct (bool_decide _)|].
Qed.

(** With the rows of Opcodes.cpp the player's own client and the observers of a creature
    hear of every changed speed, but the observers of a player only of its running speed: the
    packets about the eight others have rows with [STATUS_UNHANDLED], and [SendPacket] drops
    them. *)
Theorem speed_updates_dropped env (t : UnitMoveType) p s c :
  m_Socket s = Some c →
  let '(spline, self, update) := moveTypeToOpcode t in
  (WorldPacket.m_opcode p = spline ∨ WorldPacket.m_opcode p = self →
     SendPacket env Initialize p false s = SendPacket env Initialize p true s) ∧
  (WorldPacket.m_opcode p = update →
     SendPacket env Initialize p false s =
     if bool_decide (t = MOVE_RUN) then SendPacket env Initialize p true s else (Ok tt, s)).
Proof.
  intros Hs.
  assert (let '(spline, self, update) := moveTypeToOpcode t in
    passes Initialize spline = true ∧ passes Initialize self = true ∧
    passes Initialize update = bool_decide (t = MOVE_RUN) ∧
    0 < spline < NUM_OPCODE_HANDLERS ∧ 0 < self < NUM_OPCODE_HANDLERS ∧ 0 < update < NUM_OPCODE_HANDLERS) as H.
  { destruct t; vm_compute; by split_and!. }
  destruct (moveTypeToOpcode t) as [[spline self] update]. destruct H as (P1 & P2 & P3 & R1 & R2 & R3).
  split; [intros [E|E]|intros E]; (erewrite SendPacket_passes; [|done|by rewrite E]); rewrite E; [by rewrite P1|by rewrite P2|by rewrite P3].
Qed.

Lemma speed_updates_dropped_witness :
  let env := WorldSession.mkEnv (λ _ _, mret tt) (λ _, true) (λ _, 0) (λ _, Entered) (λ _, false) 60000 in
  let s := WorldSession.new env true [] in
  let p := WorldPacket.new (moveTypeToOpcode MOVE_SWIM).2 in
  m_Socket s = Some false ∧ SendPacket env Initialize p false s = (Ok tt, s).
Proof.
  cbv zeta. split; [reflexivity|].
  set (env := WorldSession.mkEnv _ _ _ _ _ _).
  apply (speed_updates_dropped env MOVE_SWIM (WorldPacket.new (moveTypeToOpcode MOVE_SWIM).2) (WorldSession.new env true []) false); reflexivity.
Defined.
