(* ===== verification/LoginQueue.v ===== *)
(** * LoginQueue: the sessions of the world and the queue in front of it.

    [game/World/World.cpp]: sessions wait in [addSessQueue] until [UpdateSessions] adds them;
    while the player limit is reached they stay in [m_QueuedPlayer], and whoever leaves lets
    the first of the queue in.  Sessions are heap objects that the world deletes; what they do
    is behind the interface [SessionOps], which WorldSession.v implements.  The order in which
    unordered maps are walked is the environment's; the clock stands still during a call. *)
From S2P Require Import Prelude.
From stdpp Require Import list gmap.
Open Scope list_scope.
Open Scope Z_scope.

(** ** The interface to sessions *)

(** The packets that tell a client where it stands. *)
Inductive notice : Type :=
| AuthResponse (code : Z) (queuePos : Z)       (* SendAuthResponse *)
| AuthWaitQue (position : Z)                   (* SendAuthWaitQue *)
| AddonsInfo | ClientCacheVersion | AccountDataTimes | TutorialsData.

Class SessionOps (Session : Type) : Type := {
  GetAccountId : Session → Z;
  IsInQueue : Session → bool;
  PlayerLoading : Session → bool;
  SkipsQueue : Session → bool;                 (* HasPermission(RBAC_PERM_SKIP_QUEUE) *)
  SetInQueue : bool → Session → Session;
  ResetTimeOutTime : Session → Session;
  KickPlayer : Session → Session;
  Tell : notice → Session → Session;
  Update : Z → Session → result bool * Session;
  destroy : Session → result unit }.

(** ** The state of the world *)

Section World.
Context {Session : Type} `{!SessionOps Session}.

Record t : Type := mk {
  heap : gmap Z Session;                       (* the sessions that are alive *)
  m_sessions : gmap Z Z;                       (* by account *)
  m_QueuedPlayer : list Z;
  m_disconnects : gmap Z Z;                    (* when an account was last disconnected *)
  m_playerLimit : Z;
  addSessQueue : list Z;
  m_maxActiveSessionCount : Z;
  m_maxQueuedSessionCount : Z;
  told : list (Z * notice) }.                  (* newest first *)

Record Env : Type := mkEnv {
  time : Z;
  walk : gmap Z Z → list Z;                    (* the keys of an unordered map *)
  config_disconnect_tolerance : Z }.

Context (env : Env).

Definition set_heap x s := mk x (m_sessions s) (m_QueuedPlayer s) (m_disconnects s) (m_playerLimit s) (addSessQueue s)
  (m_maxActiveSessionCount s) (m_maxQueuedSessionCount s) (told s).
Definition set_sessions x s := mk (heap s) x (m_QueuedPlayer s) (m_disconnects s) (m_playerLimit s) (addSessQueue s)
  (m_maxActiveSessionCount s) (m_maxQueuedSessionCount s) (told s).
Definition set_QueuedPlayer x s := mk (heap s) (m_sessions s) x (m_disconnects s) (m_playerLimit s) (addSessQueue s)
  (m_maxActiveSessionCount s) (m_maxQueuedSessionCount s) (told s).
Definition set_disconnects x s := mk (heap s) (m_sessions s) (m_QueuedPlayer s) x (m_playerLimit s) (addSessQueue s)
  (m_maxActiveSessionCount s) (m_maxQueuedSessionCount s) (told s).
Definition set_addSessQueue x s := mk (heap s) (m_sessions s) (m_QueuedPlayer s) (m_disconnects s) (m_playerLimit s) x
  (m_maxActiveSessionCount s) (m_maxQueuedSessionCount s) (told s).
Definition set_counters x y s := mk (heap s) (m_sessions s) (m_QueuedPlayer s) (m_disconnects s) (m_playerLimit s)
  (addSessQueue s) x y (told s).
Definition set_told x s := mk (heap s) (m_sessions s) (m_QueuedPlayer s) (m_disconnects s) (m_playerLimit s)
  (addSessQueue s) (m_maxActiveSessionCount s) (m_maxQueuedSessionCount s) x.

Definition new (limit : Z) : t := mk ∅ ∅ [] ∅ limit [] 0 0 [].

(** Sessions are used through pointers. *)
Definition deref (a : Z) : X t Session :=
  s ← getX; match heap s !! a with Some x => mret x | None => throwX UndefinedBehaviour end.
Definition on_session (a : Z) (f : Session → Session) : X t unit :=
  x ← deref a; s ← getX; modifyX (set_heap (<[a := f x]> (heap s))).
Definition tell (a : Z) (n : notice) : X t unit :=
  on_session a (Tell n);; s ← getX; modifyX (set_told ((a, n) :: told s)).
Definition delete_session (a : Z) : X t unit :=
  x ← deref a; liftX (destroy x);; s ← getX; modifyX (set_heap (delete a (heap s))).

(** ** Counters *)

Definition GetActiveAndQueuedSessionCount (s : t) : Z := u32 (Z.of_nat (size (m_sessions s))).
Definition GetActiveSessionCount (s : t) : Z :=
  u32 (Z.of_nat (size (m_sessions s)) - Z.of_nat (length (m_QueuedPlayer s))).
Definition GetQueuedSessionCount (s : t) : Z := u32 (Z.of_nat (length (m_QueuedPlayer s))).
Definition UpdateMaxSessionCounters : X t unit :=
  s ← getX;
  modifyX (set_counters (Z.max (m_maxActiveSessionCount s) (GetActiveSessionCount s))
                        (Z.max (m_maxQueuedSessionCount s) (GetQueuedSessionCount s))).

(** ** The queue *)

Definition AUTH_OK : Z := 12.
Definition AUTH_WAIT_QUEUE : Z := 27.

Fixpoint GetQueuePos_loop (sess : Z) (q : list Z) (position : Z) : Z :=
  match q with
  | [] => 0
  | a :: q => if a =? sess then position else GetQueuePos_loop sess q (u32 (position + 1))
  end.
Definition GetQueuePos (sess : Z) (s : t) : Z := wrap_signed 32 (GetQueuePos_loop sess (m_QueuedPlayer s) 1).

Definition AddQueuedPlayer (sess : Z) : X t unit :=
  on_session sess (SetInQueue true);;
  s ← getX;
  modifyX (set_QueuedPlayer (m_QueuedPlayer s ++ [sess]));;
  s ← getX;
  tell sess (AuthResponse AUTH_WAIT_QUEUE (u32 (GetQueuePos sess s))).

(** The search for a session: what is in front of it, what is behind it, its position. *)
Fixpoint find_queued (sess : Z) (q : list Z) (position : Z) : option (list Z * list Z * Z) :=
  match q with
  | [] => None
  | a :: q =>
    if a =? sess then Some ([], q, position)
    else match find_queued sess q (u32 (position + 1)) with
         | Some (before, after, n) => Some (a :: before, after, n)
         | None => None
         end
  end.

Fixpoint announce (q : list Z) (position : Z) : X t unit :=
  match q with
  | [] => mret tt
  | a :: q => tell a (AuthWaitQue position);; announce q (u32 (position + 1))
  end.

Definition accept (pop_sess : Z) : X t unit :=
  on_session pop_sess (SetInQueue false);;
  on_session pop_sess ResetTimeOutTime;;
  tell pop_sess (AuthWaitQue 0);;
  tell pop_sess AddonsInfo;;
  tell pop_sess ClientCacheVersion;;
  tell pop_sess AccountDataTimes;;
  tell pop_sess TutorialsData.

(** The first in the queue is let in if there is room; then all the others move up. *)
Definition accept_first (sessions : Z) (rest : list Z) (position : Z) : X t (list Z * Z) :=
  s ← getX;
  match m_QueuedPlayer s with
  | pop_sess :: q =>
    if negb (z2b (m_playerLimit s)) || (sessions <? m_playerLimit s) then
      accept pop_sess;;
      modifyX (set_QueuedPlayer q);;
      mret (q, 1)
    else mret (rest, position)
  | [] => mret (rest, position)
  end.

Definition RemoveQueuedPlayer (sess : Z) : X t bool :=
  s ← getX;
  let sessions := GetActiveSessionCount s in
  '(found, rest, position) ←
    match find_queued sess (m_QueuedPlayer s) 1 with
    | Some (before, after, position) =>
      on_session sess (SetInQueue false);;
      on_session sess ResetTimeOutTime;;
      modifyX (set_QueuedPlayer (before ++ after));;
      mret (true, after, position)
    | None => mret (false, [], 1)
    end;
  let sessions := if negb found && z2b sessions then sessions - 1 else sessions in
  '(rest, position) ← accept_first sessions rest position;
  announce rest position;;
  mret found.

(** ** Adding and removing sessions *)

(** [difftime(i->second, time(NULL)) < tolerance] *)
Fixpoint recently_loop (account : Z) (keys : list Z) : X t bool :=
  match keys with
  | [] => mret false
  | k :: keys =>
    s ← getX;
    match m_disconnects s !! k with
    | None => throwX UndefinedBehaviour
    | Some d =>
      if d - time env <? config_disconnect_tolerance env then
        if k =? account then mret true else recently_loop account keys
      else modifyX (set_disconnects (delete k (m_disconnects s)));; recently_loop account keys
    end
  end.
Definition HasRecentlyDisconnected (sess : Z) : X t bool :=
  x ← deref sess;
  if z2b (config_disconnect_tolerance env) then
    s ← getX; recently_loop (GetAccountId x) (walk env (m_disconnects s))
  else mret false.

(** Kicks the session of an account, unless its player is being loaded. *)
Definition RemoveSession (id : Z) : X t bool :=
  s ← getX;
  match m_sessions s !! id with
  | Some a =>
    x ← deref a;
    if PlayerLoading x then mret false else on_session a KickPlayer;; mret true
  | None => mret true
  end.

Definition AddSession (a : Z) : X t unit := s ← getX; modifyX (set_addSessQueue (addSessQueue s ++ [a])).

(** The old session of the same account goes; the result is [decrease_session]. *)
Definition replace_old (account : Z) : X t bool :=
  s ← getX;
  match m_sessions s !! account with
  | None => mret true
  | Some old =>
    queued ← RemoveQueuedPlayer old;
    delete_session old;;
    mret (negb queued)
  end.

Definition AddSession_ (a : Z) : X t unit :=
  x ← deref a;
  let account := GetAccountId x in
  ok ← RemoveSession account;
  if negb ok then on_session a KickPlayer;; delete_session a
  else
    decrease_session ← replace_old account;
    s ← getX;
    modifyX (set_sessions (<[account := a]> (m_sessions s)));;
    s ← getX;
    let Sessions := GetActiveAndQueuedSessionCount s in
    let pLimit := m_playerLimit s in
    let Sessions := if decrease_session : bool then u32 (Sessions - 1) else Sessions in
    x ← deref a;
    wait ← (if (0 <? pLimit) && (pLimit <=? Sessions) && negb (SkipsQueue x)
            then b ← HasRecentlyDisconnected a; mret (negb b) else mret false);
    if wait : bool then
      AddQueuedPlayer a;; UpdateMaxSessionCounters
    else
      tell a (AuthResponse AUTH_OK 0);;
      tell a ClientCacheVersion;;
      tell a TutorialsData;;
      UpdateMaxSessionCounters.

Fixpoint add_loop (fuel : nat) : X t unit :=
  match fuel with
  | O => throwX Diverges
  | S fuel =>
    s ← getX;
    match addSessQueue s with
    | [] => mret tt
    | a :: q => modifyX (set_addSessQueue q);; AddSession_ a;; add_loop fuel
    end
  end.

Definition remove_from_world (account a : Z) : X t unit :=
  queued ← RemoveQueuedPlayer a;
  (if negb queued && z2b (config_disconnect_tolerance env) then
     x ← deref a; s ← getX; modifyX (set_disconnects (<[GetAccountId x := time env]> (m_disconnects s)))
   else mret tt);;
  RemoveQueuedPlayer a;;
  s ← getX;
  modifyX (set_sessions (delete account (m_sessions s)));;
  delete_session a.

Fixpoint update_loop (diff : Z) (accounts : list Z) : X t unit :=
  match accounts with
  | [] => mret tt
  | account :: accounts =>
    s ← getX;
    match m_sessions s !! account with
    | None => throwX UndefinedBehaviour
    | Some a =>
      x ← deref a;
      let '(r, x') := Update diff x in
      modifyX (set_heap (<[a := x']> (heap s)));;
      alive ← liftX r;
      (if alive : bool then mret tt else remove_from_world account a);;
      update_loop diff accounts
    end
  end.

(** Adding a session adds none to [addSessQueue]. *)
Definition UpdateSessions (diff : Z) : X t unit :=
  s ← getX;
  add_loop (S (length (addSessQueue s)));;
  s ← getX;
  update_loop diff (walk env (m_sessions s)).

(** ** Kicking everybody *)

Fixpoint kick_loop (accounts : list Z) : X t unit :=
  match accounts with
  | [] => mret tt
  | account :: accounts =>
    s ← getX;
    match m_sessions s !! account with
    | None => throwX UndefinedBehaviour
    | Some a => on_session a KickPlayer;; kick_loop accounts
    end
  end.
Definition KickAll : X t unit :=
  modifyX (set_QueuedPlayer []);;
  s ← getX; kick_loop (walk env (m_sessions s)).

End World.
Arguments t Session : clear implicits.
