(* ===== verification/LoginQueueProps.v ===== *)
(** * LoginQueueProps: the queue in front of the world is fair, tight and honest.

    Proved for any sessions that keep the laws of [SessionLaws]. *)
From S2P Require Import Prelude.
From stdpp Require Import list gmap.
From S2P Require Import LoginQueue.
Open Scope list_scope.
Open Scope Z_scope.

(** ** What the world relies on

    [fine] sessions can be updated, [dying] ones only destroyed. *)
Class SessionLaws (Session : Type) `{!SessionOps Session} : Type := {
  fine : Session → Prop;
  dying : Session → Prop;
  fine_dying x : fine x → dying x;
  same_account x b n d :
    GetAccountId (SetInQueue b x) = GetAccountId x ∧ GetAccountId (ResetTimeOutTime x) = GetAccountId x ∧
    GetAccountId (KickPlayer x) = GetAccountId x ∧ GetAccountId (Tell n x) = GetAccountId x ∧
    GetAccountId (Update d x).2 = GetAccountId x;
  same_skips x b n d :
    SkipsQueue (SetInQueue b x) = SkipsQueue x ∧ SkipsQueue (ResetTimeOutTime x) = SkipsQueue x ∧
    SkipsQueue (KickPlayer x) = SkipsQueue x ∧ SkipsQueue (Tell n x) = SkipsQueue x ∧
    SkipsQueue (Update d x).2 = SkipsQueue x;
  queue_flag x b n d :
    IsInQueue (SetInQueue b x) = b ∧ IsInQueue (ResetTimeOutTime x) = IsInQueue x ∧
    IsInQueue (KickPlayer x) = IsInQueue x ∧ IsInQueue (Tell n x) = IsInQueue x ∧
    IsInQueue (Update d x).2 = IsInQueue x;
  fine_kept x b n : fine x →
    fine (SetInQueue b x) ∧ fine (ResetTimeOutTime x) ∧ fine (KickPlayer x) ∧ fine (Tell n x);
  dying_kept x b n : dying x →
    dying (SetInQueue b x) ∧ dying (ResetTimeOutTime x) ∧ dying (KickPlayer x) ∧ dying (Tell n x);
  Update_returns x d : fine x →
    ∃ b, (Update d x).1 = Ok b ∧ dying (Update d x).2 ∧ (b = true → fine (Update d x).2);
  destroy_returns x : dying x → destroy x = Ok tt }.

Section World.
Context {Session : Type} `{!SessionOps Session, !SessionLaws Session}.
#[local] Abbreviation World := (LoginQueue.t Session).

(** ** The heap of sessions *)

(** Sessions may have been told something, kicked, or taken off the queue (those of [R]). *)
Definition similar (taken : bool) (x x' : Session) : Prop :=
  GetAccountId x' = GetAccountId x ∧ SkipsQueue x' = SkipsQueue x ∧
  IsInQueue x' = (if taken then false else IsInQueue x) ∧ (fine x → fine x') ∧ (dying x → dying x').
Definition heap_rel (R : gset Z) (h h' : gmap Z Session) : Prop :=
  ∀ b, match h !! b, h' !! b with
       | Some x, Some x' => similar (bool_decide (b ∈ R)) x x'
       | None, None => True
       | _, _ => False
       end.

Lemma heap_rel_refl h : heap_rel ∅ h h.
Proof. intros b. destruct (h !! b); [|done]. rewrite bool_decide_false by set_solver. by split_and!. Qed.

Lemma heap_rel_trans R1 R2 h1 h2 h3 :
  heap_rel R1 h1 h2 → heap_rel R2 h2 h3 → heap_rel (R1 ∪ R2) h1 h3.
Proof.
  intros H1 H2 b. specialize (H1 b). specialize (H2 b).
  destruct (h1 !! b) as [x1|], (h2 !! b) as [x2|], (h3 !! b) as [x3|]; try done.
  destruct H1 as (A1 & B1 & C1 & D1 & E1), H2 as (A2 & B2 & C2 & D2 & E2).
  split_and!; [congruence|congruence| |auto|auto]. rewrite C2, C1.
  assert (bool_decide (b ∈ R1 ∪ R2) = bool_decide (b ∈ R1) || bool_decide (b ∈ R2)) as ->.
  { rewrite <- bool_decide_or. apply bool_decide_ext, elem_of_union. }
  by destruct (bool_decide (b ∈ R1)), (bool_decide (b ∈ R2)).
Qed.

Lemma heap_rel_lookup R h h' b x :
  heap_rel R h h' → h !! b = Some x → ∃ x', h' !! b = Some x' ∧ similar (bool_decide (b ∈ R)) x x'.
Proof. intros H E. specialize (H b). rewrite E in H. destruct (h' !! b); [eauto|done]. Qed.
Lemma heap_rel_lookup_r R h h' b x' :
  heap_rel R h h' → h' !! b = Some x' → ∃ x, h !! b = Some x ∧ similar (bool_decide (b ∈ R)) x x'.
Proof. intros H E. specialize (H b). rewrite E in H. destruct (h !! b); [eauto|done]. Qed.

Lemma heap_rel_insert (R : gset Z) h a x x' :
  h !! a = Some x → similar (bool_decide (a ∈ R)) x x' → R ⊆ {[a]} → heap_rel R h (<[a := x']> h).
Proof.
  intros Ha Hs HR b. destruct (decide (a = b)) as [<-|Hne].
  - by rewrite Ha, lookup_insert_eq.
  - rewrite lookup_insert_ne by done. destruct (h !! b); [|done].
    rewrite bool_decide_false by set_solver. by split_and!.
Qed.

(** The world before and after sessions were talked to. *)
Record talked (R : gset Z) (w w' : World) : Prop := {
  talked_heap : heap_rel R (heap w) (heap w');
  talked_sessions : m_sessions w' = m_sessions w;
  talked_disconnects : m_disconnects w' = m_disconnects w;
  talked_limit : m_playerLimit w' = m_playerLimit w;
  talked_new : addSessQueue w' = addSessQueue w }.

Lemma talked_refl w : talked ∅ w w.
Proof. split; try done. apply heap_rel_refl. Qed.
Lemma talked_trans R1 R2 w1 w2 w3 : talked R1 w1 w2 → talked R2 w2 w3 → talked (R1 ∪ R2) w1 w3.
Proof. intros [] []. split; [by eapply heap_rel_trans|congruence..]. Qed.

Lemma deref_ok a (w : World) x : heap w !! a = Some x → deref a w = (Ok x, w).
Proof. intros H. unfold deref, mbind, X_bind, getX. by rewrite H. Qed.
Lemma on_session_ok a f (w : World) x :
  heap w !! a = Some x → on_session a f w = (Ok tt, set_heap (<[a := f x]> (heap w)) w).
Proof. intros H. unfold on_session. by rewrite (bindX_Ok _ _ _ _ _ (deref_ok _ _ _ H)). Qed.
Lemma tell_ok a n (w : World) x :
  heap w !! a = Some x → tell a n w = (Ok tt, set_told ((a, n) :: told w) (set_heap (<[a := Tell n x]> (heap w)) w)).
Proof. intros H. unfold tell. by rewrite (bindX_Ok _ _ _ _ _ (on_session_ok _ _ _ _ H)). Qed.

Lemma similar_ops x n :
  similar false x (ResetTimeOutTime x) ∧ similar false x (KickPlayer x) ∧ similar false x (Tell n x) ∧
  similar true x (SetInQueue false x).
Proof.
  destruct (same_account x false n 0) as (? & ? & ? & ? & _), (same_skips x false n 0) as (? & ? & ? & ? & _),
    (queue_flag x false n 0) as (? & ? & ? & ? & _).
  split_and!; split_and!; try done; intros Hx;
    first [by apply (fine_kept x false n)|by apply (dying_kept x false n)].
Qed.

(** ** Announcements *)

(** The position in the queue that a session was told last. *)
Fixpoint position_told (a : Z) (h : list (Z * notice)) : option Z :=
  match h with
  | [] => None
  | (b, n) :: h =>
    if b =? a then
      match n with
      | AuthWaitQue p => Some p
      | AuthResponse c p => if c =? AUTH_WAIT_QUEUE then Some p else position_told a h
      | _ => position_told a h
      end
    else position_told a h
  end.
(** Everyone in the queue knows its position. *)
Definition told_ok (q : list Z) (h : list (Z * notice)) : Prop :=
  ∀ i b, q !! i = Some b → position_told b h = Some (Z.of_nat i + 1).

Lemma position_told_other a b n h : b ≠ a → position_told a ((b, n) :: h) = position_told a h.
Proof. intros Hne. cbn. by rewrite (proj2 (Z.eqb_neq _ _)). Qed.

Definition alive (q : list Z) (w : World) : Prop := Forall (λ b, is_Some (heap w !! b)) q.

Lemma alive_talked R q w w' : talked R w w' → alive q w → alive q w'.
Proof.
  intros T Ha. eapply Forall_impl; [exact Ha|]. intros b [x Hx].
  destruct (heap_rel_lookup _ _ _ _ _ (talked_heap _ _ _ T) Hx) as (x' & E & _). eauto.
Qed.

Lemma tell_talked a n (w : World) : is_Some (heap w !! a) →
  ∃ w', tell a n w = (Ok tt, w') ∧ talked ∅ w w' ∧ m_QueuedPlayer w' = m_QueuedPlayer w ∧ told w' = (a, n) :: told w.
Proof.
  intros [x Hx]. eexists. split; [by apply tell_ok|]. split; [|done]. split; try done. cbn.
  eapply heap_rel_insert; [done| |set_solver]. rewrite bool_decide_false by set_solver. apply similar_ops.
Qed.

Lemma announce_ok q pos (w : World) :
  NoDup q → alive q w → 0 ≤ pos → pos + Z.of_nat (length q) < 2 ^ 32 →
  ∃ w', announce q pos w = (Ok tt, w') ∧ talked ∅ w w' ∧ m_QueuedPlayer w' = m_QueuedPlayer w ∧
    (∀ i b, q !! i = Some b → position_told b (told w') = Some (pos + Z.of_nat i)) ∧
    (∀ b, b ∉ q → position_told b (told w') = position_told b (told w)).
Proof.
  revert pos w. induction q as [|a q IH]; intros pos w Hnd Ha Hp Hlen.
  - exists w. split_and!; try done. apply talked_refl.
  - apply NoDup_cons in Hnd as [Hnin Hnd]. pose proof Ha as [Hx Ha']%Forall_cons. cbn [length] in Hlen.
    destruct (tell_talked a (AuthWaitQue pos) w Hx) as (w1 & E1 & T1 & Q1 & Ht1).
    destruct (IH (pos + 1) w1) as (w2 & E2 & T2 & Q2 & Hin & Hout); [done|by eapply alive_talked|lia..|].
    exists w2. cbn [announce]. rewrite (bindX_Ok _ _ _ _ _ E1).
    unfold u32. rewrite Z.mod_small by lia. split; [done|].
    split; [rewrite <- (union_empty_l_L ∅); by eapply talked_trans|]. split; [congruence|]. split.
    + intros [|i] b Hb; cbn in Hb.
      * injection Hb as <-. rewrite Hout, Ht1 by done. cbn. rewrite Z.eqb_refl. by rewrite Z.add_0_r.
      * rewrite (Hin i b Hb). f_equal. lia.
    + intros b Hb. apply not_elem_of_cons in Hb as [Hne Hb]. rewrite Hout, Ht1 by done. by apply position_told_other.
Qed.

Lemma accept_ok a (w : World) : is_Some (heap w !! a) →
  ∃ w', accept a w = (Ok tt, w') ∧ talked {[a]} w w' ∧ m_QueuedPlayer w' = m_QueuedPlayer w ∧
    (∀ b, b ≠ a → position_told b (told w') = position_told b (told w)).
Proof.
  intros [x Hx]. unfold accept.
  rewrite (bindX_Ok _ _ _ _ _ (on_session_ok a (SetInQueue false) w x Hx)).
  set (w1 := set_heap (<[a:=SetInQueue false x]> (heap w)) w).
  assert (heap w1 !! a = Some (SetInQueue false x)) as Hx1 by apply lookup_insert_eq.
  rewrite (bindX_Ok _ _ _ _ _ (on_session_ok a ResetTimeOutTime w1 _ Hx1)).
  set (w2 := set_heap (<[a:=ResetTimeOutTime (SetInQueue false x)]> (heap w1)) w1).
  assert (talked {[a]} w w2) as T2.
  { destruct (similar_ops (SetInQueue false x) AddonsInfo) as (S1 & _), (similar_ops x AddonsInfo) as (_ & _ & _ & S2).
    rewrite <- (union_empty_r_L {[a]}). apply (talked_trans _ _ w w1 w2).
    - split; try done. apply (heap_rel_insert _ _ _ x); [done| |done]. by rewrite bool_decide_true by set_solver.
    - split; try done. apply (heap_rel_insert _ _ _ _ _ Hx1); [|set_solver]. by rewrite bool_decide_false by set_solver. }
  assert (is_Some (heap w2 !! a)) as H2 by (eexists; apply lookup_insert_eq).
  assert (∀ ns w0, is_Some (heap w0 !! a) → talked {[a]} w w0 → m_QueuedPlayer w0 = m_QueuedPlayer w →
    (∀ b, b ≠ a → position_told b (told w0) = position_told b (told w)) →
    ∃ w', foldr (λ n m, tell a n;; m) (tell a TutorialsData) ns w0 = (Ok tt, w') ∧ talked {[a]} w w' ∧ m_QueuedPlayer w' = m_QueuedPlayer w ∧
      (∀ b, b ≠ a → position_told b (told w') = position_told b (told w))) as Htells.
  { assert (∀ n w0 w3, talked {[a]} w w0 → m_QueuedPlayer w0 = m_QueuedPlayer w →
      (∀ b, b ≠ a → position_told b (told w0) = position_told b (told w)) →
      talked ∅ w0 w3 → m_QueuedPlayer w3 = m_QueuedPlayer w0 → told w3 = (a, n) :: told w0 →
      talked {[a]} w w3 ∧ m_QueuedPlayer w3 = m_QueuedPlayer w ∧
      (∀ b, b ≠ a → position_told b (told w3) = position_told b (told w))) as Hstep.
    { intros n w0 w3 T0 Q0 P0 T3 Q3 Ht3. split_and!; [rewrite <- (union_empty_r_L {[a]}); by eapply talked_trans|congruence|].
      intros b Hb. rewrite Ht3, position_told_other by done. by apply P0. }
    induction ns as [|n ns IH]; intros w0 H0 T0 Q0 P0; cbn [foldr].
    - destruct (tell_talked a TutorialsData w0 H0) as (w3 & E3 & T3 & Q3 & Ht3). exists w3. split; [done|]. by eapply Hstep.
    - destruct (tell_talked a n w0 H0) as (w3 & E3 & T3 & Q3 & Ht3). rewrite (bindX_Ok _ _ _ _ _ E3).
      destruct (Hstep n w0 w3) as (? & ? & ?); [done..|]. apply IH; [|done..].
      destruct H0 as [y Hy]. destruct (heap_rel_lookup _ _ _ _ _ (talked_heap _ _ _ T3) Hy) as (y' & ? & _). eauto. }
  exact (Htells [AuthWaitQue 0; AddonsInfo; ClientCacheVersion; AccountDataTimes] w2 H2 T2 eq_refl (λ _ _, eq_refl)).
Qed.

(** ** Taking a session off the queue *)

Lemma find_queued_in a q pos :
  a ∈ q → 0 ≤ pos → pos + Z.of_nat (length q) < 2 ^ 32 →
  ∃ before after, find_queued a q pos = Some (before, after, pos + Z.of_nat (length before)) ∧ q = before ++ a :: after ∧ a ∉ before.
Proof.
  revert pos. induction q as [|b q IH]; intros pos Hin Hp Hlen; [by apply elem_of_nil in Hin|]. cbn [find_queued length] in *.
  destruct (Z.eqb_spec b a) as [->|Hne].
  - exists [], q. split; [by rewrite Z.add_0_r|]. split; [done|apply not_elem_of_nil].
  - apply elem_of_cons in Hin as [->|Hin]; [done|].
    destruct (IH (pos + 1)) as (before & after & E & Eq & Hn); [done|lia|lia|].
    exists (b :: before), after. unfold u32. rewrite Z.mod_small, E by lia. split; [|split].
    + cbn [length]. do 2 f_equal. lia.
    + by rewrite Eq.
    + by apply not_elem_of_cons.
Qed.
Lemma find_queued_out a q pos : a ∉ q → find_queued a q pos = None.
Proof.
  revert pos. induction q as [|b q IH]; intros pos Hn; [done|]. apply not_elem_of_cons in Hn as [Hne Hn].
  cbn. rewrite (proj2 (Z.eqb_neq _ _)), IH by done. done.
Qed.

(** The queue without a session, and without its first if there is room. *)
Definition without (a : Z) (q : list Z) : list Z := filter (λ b, b ≠ a) q.
Definition room (limit sessions : Z) : bool := (limit =? 0) || (sessions <? limit).
Definition moved_up (limit sessions : Z) (q : list Z) : list Z := if room limit sessions then tail q else q.

Lemma without_split a before after : NoDup (before ++ a :: after) → without a (before ++ a :: after) = before ++ after.
Proof.
  intros (_ & Hd & Hnd)%NoDup_app. apply NoDup_cons in Hnd as [Hn _]. unfold without.
  rewrite filter_app, filter_cons_False by auto.
  assert (∀ l : list Z, a ∉ l → filter (λ b, b ≠ a) l = l) as Hf.
  { induction l as [|b l IH]; intros Hl; [done|]. apply not_elem_of_cons in Hl as [? ?].
    rewrite filter_cons_True by done. by rewrite IH. }
  rewrite !Hf; [done|done|]. intros Hin. apply (Hd a Hin). by left.
Qed.
Lemma without_notin a q : a ∉ q → without a q = q.
Proof.
  induction q as [|b l IH]; intros Hl; [done|]. apply not_elem_of_cons in Hl as [? ?].
  unfold without in *. rewrite filter_cons_True by done. by rewrite IH.
Qed.

(** Accepting the first and telling the others, when those in [before] know their positions
    and [rest] begins at [position]. *)
Lemma accept_first_ok sessions before rest position (w : World) :
  m_QueuedPlayer w = before ++ rest → NoDup (before ++ rest) → alive (before ++ rest) w →
  1 + Z.of_nat (length (before ++ rest)) < 2 ^ 32 →
  rest = [] ∨ position = 1 + Z.of_nat (length before) → told_ok before (told w) →
  ∃ w' R, ('(rest, position) ← accept_first sessions rest position; announce rest position) w = (Ok tt, w') ∧
    talked R w w' ∧ (∀ b, b ∈ R ↔ b ∈ before ++ rest ∧ b ∉ m_QueuedPlayer w') ∧
    m_QueuedPlayer w' = moved_up (m_playerLimit w) sessions (before ++ rest) ∧
    told_ok (m_QueuedPlayer w') (told w').
Proof.
  intros Hq Hnd Hal Hlen Hpos Htold.
  assert (m_QueuedPlayer w = before ++ rest → ∃ w' R, announce rest position w = (Ok tt, w') ∧
    talked R w w' ∧ (∀ b, b ∈ R ↔ b ∈ before ++ rest ∧ b ∉ m_QueuedPlayer w') ∧
    m_QueuedPlayer w' = before ++ rest ∧ told_ok (m_QueuedPlayer w') (told w')) as Hstay.
  { intros _. destruct Hpos as [->| ->].
    - exists w, ∅. rewrite app_nil_r in *. split; [done|]. split; [apply talked_refl|].
      split; [|split; [done|by rewrite Hq]]. intros b. rewrite Hq. set_solver.
    - unfold alive in Hal. apply Forall_app in Hal as [_ Hal]. pose proof Hnd as (_ & Hdis & Hnd2)%NoDup_app.
      rewrite length_app in Hlen.
      destruct (announce_ok rest (1 + Z.of_nat (length before)) w) as (w' & E & T & Q & Hin & Hout); [done|done|lia|lia|].
      exists w', ∅. split; [done|]. split; [done|]. rewrite Q, Hq. split; [intros b; set_solver|]. split; [done|].
      intros i b Hb. apply lookup_app_Some in Hb as [Hb|[Hi Hb]].
      + rewrite Hout; [by apply Htold|]. intros Hr. apply (Hdis b); [|done]. by eapply list_elem_of_lookup_2.
      + rewrite (Hin _ _ Hb). f_equal. lia. }
  unfold moved_up, room. unfold accept_first. unfold mbind at 1 2, X_bind at 1 2, getX. rewrite Hq.
  destruct (before ++ rest) as [|p q] eqn:Eq.
  { destruct Hstay as (w' & R & E & T & HR & Q & Ht); [done|]. exists w', R. split; [done|]. split; [done|]. split; [done|].
    split; [|done]. rewrite Q. by destruct (_ || _). }
  unfold z2b. rewrite negb_involutive.
  destruct ((m_playerLimit w =? 0) || (sessions <? m_playerLimit w)) eqn:Eroom; [|by apply Hstay].
  cbn [tail]. clear Hstay. unfold alive in Hal. pose proof Hal as [Hp Hal']%Forall_cons.
  apply NoDup_cons in Hnd as [Hnp Hnd]. cbn [length] in Hlen.
  destruct (accept_ok p w Hp) as (w1 & E1 & T1 & Q1 & Ht1).
  destruct (announce_ok q 1 (set_QueuedPlayer q w1)) as (w2 & E2 & T2 & Q2 & Hin & Hout); [done| |lia|lia|].
  { apply (alive_talked {[p]} q w); [|done]. by destruct T1; split. }
  exists w2, {[p]}. split; [|split; [|split; [|split]]].
  - unfold mbind, X_bind, modifyX. rewrite E1. exact E2.
  - rewrite <- (union_empty_r_L {[p]}). eapply talked_trans; [|exact T2]. by destruct T1; split.
  - intros b. rewrite Q2. cbn. rewrite elem_of_singleton, elem_of_cons. split; [by intros ->; auto|]. intros [[->|?] ?]; done.
  - done.
  - rewrite Q2. cbn. intros i b Hb. rewrite (Hin _ _ Hb). f_equal. lia.
Qed.

Definition active (w : World) : Z := Z.of_nat (size (m_sessions w)) - Z.of_nat (length (m_QueuedPlayer w)).

(** What is relied on: everyone in the queue is alive, and the counters are small. *)
Record queue_ok (w : World) : Prop := {
  queue_nodup : NoDup (m_QueuedPlayer w);
  queue_alive : alive (m_QueuedPlayer w) w;
  queue_size : (length (m_QueuedPlayer w) <= size (m_sessions w))%nat;
  queue_small : 1 + Z.of_nat (size (m_sessions w)) < 2 ^ 32;
  queue_told : told_ok (m_QueuedPlayer w) (told w) }.

Definition others (w : World) (a : Z) : Z :=
  if bool_decide (a ∈ m_QueuedPlayer w) then active w else Z.max 0 (active w - 1).

Lemma RemoveQueuedPlayer_ok a (w : World) :
  queue_ok w →
  ∃ w' R, RemoveQueuedPlayer a w = (Ok (bool_decide (a ∈ m_QueuedPlayer w)), w') ∧ talked R w w' ∧
    (∀ b, b ∈ R ↔ b ∈ m_QueuedPlayer w ∧ b ∉ m_QueuedPlayer w') ∧
    m_QueuedPlayer w' = moved_up (m_playerLimit w) (others w a) (without a (m_QueuedPlayer w)) ∧
    queue_ok w'.
Proof.
  intros [Hnd Hal Hsz Hsm Htold]. unfold RemoveQueuedPlayer. unfold mbind at 1, X_bind at 1, getX.
  assert (GetActiveSessionCount w = active w) as ->.
  { unfold GetActiveSessionCount, u32. apply Z.mod_small. unfold active. lia. }
  assert (∀ w' R q, talked R w w' → m_QueuedPlayer w' = moved_up (m_playerLimit w) (others w a) q → q `sublist_of` m_QueuedPlayer w →
            told_ok (m_QueuedPlayer w') (told w') → queue_ok w') as Hok'.
  { intros w' R q T Eq Hsub Ht.
    assert (m_QueuedPlayer w' `sublist_of` m_QueuedPlayer w) as Hs'.
    { rewrite Eq. unfold moved_up. destruct (room _ _); [|done]. destruct q; [apply sublist_nil_l|]. cbn. etrans; [|exact Hsub]. by constructor. }
    split; [by eapply sublist_NoDup| | | |done].
    - eapply (alive_talked R); [done|]. unfold alive in *. rewrite Forall_forall in *. intros b Hb.
      apply Hal. by eapply elem_of_submseteq, sublist_submseteq.
    - rewrite (talked_sessions _ _ _ T). apply sublist_length in Hs'. lia.
    - by rewrite (talked_sessions _ _ _ T). }
  unfold others in *. case_bool_decide as Hin.
  - destruct (find_queued_in a (m_QueuedPlayer w) 1) as (before & after & -> & Eq & Hn); [done|lia|lia|].
    rewrite Eq in Hnd, Hal, Hsz, Htold. rewrite Eq, without_split in * by done.
    unfold alive in Hal. apply Forall_app in Hal as [Hal1 [[x Hx] Hal2]%Forall_cons].
    set (w1 := set_QueuedPlayer (before ++ after) (set_heap (<[a := ResetTimeOutTime (SetInQueue false x)]> (heap w)) w)).
    rewrite (bindX_Ok _ _ w (true, after, 1 + Z.of_nat (length before)) w1).
    2:{ rewrite (bindX_Ok _ _ _ _ _ (on_session_ok a (SetInQueue false) w x Hx)).
        erewrite bindX_Ok; [|apply on_session_ok; apply lookup_insert_eq]. cbn. by rewrite insert_insert_eq. }
    cbn [negb andb].
    assert (talked {[a]} w w1) as T1.
    { split; try done. apply (heap_rel_insert _ _ _ _ _ Hx); [|done]. rewrite bool_decide_true by set_solver.
      destruct (similar_ops (SetInQueue false x) AddonsInfo) as ((A1 & A2 & A3 & A4 & A5) & _), (similar_ops x AddonsInfo) as (_ & _ & _ & (B1 & B2 & B3 & B4 & B5)).
      split_and!; [congruence|congruence|congruence|auto|auto]. }
    pose proof Hnd as (Hnd1 & Hnd2 & Hnd3)%NoDup_app. pose proof Hnd3 as [Hna Hnd4]%NoDup_cons.
    assert (NoDup (before ++ after)) as Hnd'.
    { apply NoDup_app. split_and!; [done| |done]. intros b Hb Hb'. apply (Hnd2 b Hb). by right. }
    destruct (accept_first_ok (active w) before after (1 + Z.of_nat (length before)) w1)
      as (w2 & R & E2 & T2 & HR & Q2 & Ht2); [done|done| | |by right| |].
    { apply (alive_talked {[a]} _ w); [done|]. by apply Forall_app. }
    { rewrite length_app in *. cbn in Hsz. lia. }
    { intros i b Hb. apply Htold. by apply lookup_app_l_Some. }
    apply bindX_inv in E2 as ([rest position] & w3 & E3 & E4).
    exists w2, ({[a]} ∪ R). rewrite (bindX_Ok _ _ _ _ _ E3). cbn beta iota. rewrite (bindX_Ok _ _ _ _ _ E4).
    split; [done|]. assert (talked ({[a]} ∪ R) w w2) as T by by eapply talked_trans.
    split; [done|]. split; [|split; [done|]].
    + intros b. rewrite elem_of_union, elem_of_singleton, HR, !elem_of_app, elem_of_cons.
      assert (a ∉ m_QueuedPlayer w2).
      { rewrite Q2. intros Hx2. assert (a ∈ before ++ after) as [?|?]%elem_of_app; [|done|done].
        unfold moved_up in Hx2. destruct (room _ _); [|done]. destruct (before ++ after); [done|]. by right. }
      split; [intros [->|[[?|?] ?]]; auto|]. intros [[?|[->|?]] ?]; auto.
    + eapply (Hok' w2 _ (before ++ after)); [done|done| |done]. apply sublist_app; [done|]. by constructor.
  - rewrite find_queued_out, without_notin by done. rewrite (bindX_Ok _ _ w (false, [], 1) w) by done.
    cbv zeta. assert ((if negb false && z2b (active w) then active w - 1 else active w) = Z.max 0 (active w - 1)) as ->.
    { unfold z2b. cbn. unfold active. destruct (Z.eqb_spec (Z.of_nat (size (m_sessions w)) - Z.of_nat (length (m_QueuedPlayer w))) 0); cbn; lia. }
    destruct (accept_first_ok (Z.max 0 (active w - 1)) (m_QueuedPlayer w) [] 1 w)
      as (w2 & R & E2 & T2 & HR & Q2 & Ht2); rewrite ?app_nil_r; [done|done|done|lia|by left|done|].
    rewrite app_nil_r in *.
    apply bindX_inv in E2 as ([rest position] & w3 & E3 & E4).
    exists w2, R. rewrite (bindX_Ok _ _ _ _ _ E3). cbn beta iota. rewrite (bindX_Ok _ _ _ _ _ E4).
    split; [done|]. split; [done|]. split; [done|]. split; [done|]. by eapply Hok'.
Qed.

(** ** The invariant of the world *)

(** Sessions in the queue, and only those, carry the flag; the queue is told its positions;
    nobody waits while there is room. *)
Record inv (w : World) : Prop := {
  inv_queue : queue_ok w;
  inv_in a : a ∈ m_QueuedPlayer w → ∃ acc, m_sessions w !! acc = Some a;
  inv_map acc a : m_sessions w !! acc = Some a →
    ∃ x, heap w !! a = Some x ∧ GetAccountId x = acc ∧ fine x ∧ IsInQueue x = bool_decide (a ∈ m_QueuedPlayer w);
  inv_new_nodup : NoDup (addSessQueue w);
  inv_new a : a ∈ addSessQueue w → (∀ acc, m_sessions w !! acc ≠ Some a) ∧
    ∃ x, heap w !! a = Some x ∧ fine x ∧ IsInQueue x = false;
  inv_small : 1 + Z.of_nat (size (m_sessions w)) + Z.of_nat (length (addSessQueue w)) < 2 ^ 32;
  inv_tight : m_QueuedPlayer w ≠ [] → m_playerLimit w ≤ active w;
  inv_limit : 0 ≤ m_playerLimit w }.

(** A session that was taken from [addSessQueue] and is not yet in the world. *)
Record pending (a : Z) (w : World) : Prop := {
  pending_in acc : m_sessions w !! acc ≠ Some a;
  pending_new : a ∉ addSessQueue w;
  pending_session : ∃ x, heap w !! a = Some x ∧ fine x ∧ IsInQueue x = false;
  pending_small : 2 + Z.of_nat (size (m_sessions w)) + Z.of_nat (length (addSessQueue w)) < 2 ^ 32 }.

Lemma pending_not_queued a w : inv w → pending a w → a ∉ m_QueuedPlayer w.
Proof. intros I P Hin. destruct (inv_in _ I a Hin) as [acc E]. by eapply pending_in. Qed.

(** Talking to sessions without telling positions changes nothing here. *)
Lemma inv_talked w w' :
  talked ∅ w w' → m_QueuedPlayer w' = m_QueuedPlayer w →
  (∀ b, b ∈ m_QueuedPlayer w → position_told b (told w') = position_told b (told w)) → inv w → inv w'.
Proof.
  intros T Q Ht [[K1 K2 K3 K4 K5] I2 I3 I4 I5 I6 I7 I8].
  assert (∀ a x, heap w !! a = Some x → ∃ x', heap w' !! a = Some x' ∧ similar false x x') as Hh.
  { intros a x Hx. destruct (heap_rel_lookup _ _ _ _ _ (talked_heap _ _ _ T) Hx) as (x' & E & S).
    rewrite bool_decide_false in S by set_solver. eauto. }
  pose proof (alive_talked _ _ _ _ T K2). destruct T as [_ Ts Td Tl Tn].
  split; try (rewrite ?Q, ?Ts, ?Tl, ?Tn; done).
  - split; rewrite ?Q, ?Ts; try done. intros i b Hb. rewrite Ht; [by apply K5|]. by eapply list_elem_of_lookup_2.
  - intros acc a. rewrite Ts, Q. intros E. destruct (I3 _ _ E) as (x & Hx & A1 & A2 & A3).
    destruct (Hh _ _ Hx) as (x' & Hx' & B1 & _ & B3 & B4 & _). exists x'. split_and!; [done|congruence|auto|congruence].
  - intros a. rewrite Tn, Ts. intros Ha. destruct (I5 _ Ha) as (A0 & x & Hx & A2 & A3). split; [done|].
    destruct (Hh _ _ Hx) as (x' & Hx' & B1 & _ & B3 & B4 & _). exists x'. split_and!; [done|auto|congruence].
  - unfold active. rewrite Q, Ts, Tl. done.
Qed.

Lemma pending_talked a R w w' : talked R w w' → a ∉ R → pending a w → pending a w'.
Proof.
  intros T Ha [P1 P2 (x & Hx & P3 & P4) P5].
  destruct (heap_rel_lookup _ _ _ _ _ (talked_heap _ _ _ T) Hx) as (x' & E & B1 & _ & B3 & B4 & _).
  rewrite bool_decide_false in B3 by done. destruct T as [_ Ts Td Tl Tn].
  split; rewrite ?Ts, ?Tn; try done. exists x'. split_and!; [done|auto|congruence].
Qed.

Lemma kick_talked a (w : World) x : heap w !! a = Some x →
  ∃ w', on_session a KickPlayer w = (Ok tt, w') ∧ talked ∅ w w' ∧ m_QueuedPlayer w' = m_QueuedPlayer w ∧ told w' = told w.
Proof.
  intros Hx. eexists. split; [by apply on_session_ok|]. split; [|done]. split; try done. cbn.
  apply (heap_rel_insert _ _ _ _ _ Hx); [|set_solver]. rewrite bool_decide_false by set_solver. by apply (similar_ops x AddonsInfo).
Qed.

Lemma delete_session_ok a (w : World) x : heap w !! a = Some x → dying x →
  delete_session a w = (Ok tt, set_heap (delete a (heap w)) w).
Proof.
  intros Hx Hd. unfold delete_session. rewrite (bindX_Ok _ _ _ _ _ (deref_ok _ _ _ Hx)).
  by rewrite (bindX_Ok _ _ w tt w) by (unfold liftX; by rewrite destroy_returns).
Qed.

(** A session that nobody refers to can go. *)
Lemma inv_delete a w : inv w → pending a w → inv (set_heap (delete a (heap w)) w).
Proof.
  intros I P. pose proof (pending_not_queued _ _ I P) as Hnq. destruct I as [[K1 K2 K3 K4 K5] I2 I3 I4 I5 I6 I7 I8].
  split; try done.
  - split; try done. unfold alive in *. cbn. rewrite Forall_forall in *. intros b Hb.
    rewrite lookup_delete_ne; [by apply K2|congruence].
  - intros acc b E. destruct (I3 acc b E) as (x & Hx & ?). exists x. cbn.
    rewrite lookup_delete_ne; [done|]. intros ->. by eapply pending_in.
  - intros b Hb. destruct (I5 b Hb) as (? & x & Hx & ?). split; [done|]. exists x. cbn.
    rewrite lookup_delete_ne; [done|]. intros ->. by eapply pending_new.
Qed.

(** ** Adding a session *)

(** No session may skip the queue. *)
Definition plain (w : World) : Prop := ∀ a x, heap w !! a = Some x → SkipsQueue x = false.

Lemma plain_talked R w w' : talked R w w' → plain w → plain w'.
Proof.
  intros T Hp a x' Hx'. destruct (heap_rel_lookup_r _ _ _ _ _ (talked_heap _ _ _ T) Hx') as (x & Hx & _ & B & _).
  rewrite B. by eapply Hp.
Qed.

(** The session in the place of an old one, or of none. *)
Lemma place_session acc a w w1 R (q : list Z) :
  inv w → pending a w → talked R w w1 → (∀ b, b ∈ R ↔ b ∈ m_QueuedPlayer w ∧ b ∉ m_QueuedPlayer w1) →
  m_QueuedPlayer w1 `sublist_of` m_QueuedPlayer w → queue_ok w1 →
  (∃ x, heap w !! a = Some x ∧ GetAccountId x = acc) →
  (∀ old, m_sessions w !! acc = Some old → old ∉ m_QueuedPlayer w1) →
  let h := match m_sessions w !! acc with Some old => delete old (heap w1) | None => heap w1 end in
  let w2 := set_sessions (<[acc := a]> (m_sessions w1)) (set_heap h w1) in
  (m_QueuedPlayer w1 ≠ [] → m_playerLimit w ≤ active w2) → inv w2.
Proof.
  intros I P T HR Hsub [K1 K2 K3 K4 K5] (xa & Hxa & Hacc) Hold h w2 Htight.
  pose proof (pending_not_queued _ _ I P) as Hnq.
  destruct (pending_talked a R w w1 T) as [P1 P2 (x1 & Hx1 & P3 & P4) P5]; [rewrite HR; naive_solver|done|].
  assert (∀ b, m_sessions w !! acc ≠ Some b → h !! b = heap w1 !! b) as Hh.
  { intros b Hb. unfold h. destruct (m_sessions w !! acc) as [old|] eqn:E; [|done]. apply lookup_delete_ne. congruence. }
  assert (∀ acc' b, acc' ≠ acc → m_sessions w !! acc' = Some b → m_sessions w !! acc ≠ Some b) as Hinj.
  { intros acc' b Hne E E'. destruct (inv_map _ I _ _ E) as (x & Hx & <- & _), (inv_map _ I _ _ E') as (x' & Hx' & <- & _).
    congruence. }
  assert (∀ b, b ∈ m_QueuedPlayer w1 → ∃ acc', acc' ≠ acc ∧ m_sessions w !! acc' = Some b) as Hq.
  { intros b Hb. destruct (inv_in _ I b) as [acc' E]; [by eapply elem_of_submseteq, sublist_submseteq|].
    exists acc'. split; [|done]. intros ->. by apply (Hold b). }
  assert (h !! a = Some x1) as Hha by (rewrite Hh; [done|by apply (pending_in _ _ P)]).
  assert (GetAccountId x1 = acc) as Hacc1.
  { destruct (heap_rel_lookup _ _ _ _ _ (talked_heap _ _ _ T) Hxa) as (x' & E & B & _). congruence. }
  assert (a ∉ m_QueuedPlayer w1) as Hnq1.
  { intros Hin. by apply Hnq; eapply elem_of_submseteq, sublist_submseteq. }
  pose proof T as [_ Ts Td Tl Tn].
  assert (Z.of_nat (size (<[acc := a]> (m_sessions w1))) ≤ 1 + Z.of_nat (size (m_sessions w)) ∧
          (size (m_sessions w) <= size (<[acc := a]> (m_sessions w1)))%nat) as [Hsz1 Hsz2].
  { rewrite Ts, map_size_insert. destruct (m_sessions w !! acc); cbn; lia. }
  rewrite Ts, Tn in P5. split; cbn.
  - split; cbn; [done| |rewrite Ts in K3; lia|lia|done].
    unfold alive in *. rewrite Forall_forall in *. intros b Hb. cbn. destruct (Hq b Hb) as (acc' & Hne & E).
    rewrite Hh by (by eapply Hinj). by apply K2.
  - intros b Hb. destruct (Hq b Hb) as (acc' & Hne & E). exists acc'. by rewrite lookup_insert_ne, Ts.
  - intros acc' b. destruct (decide (acc = acc')) as [<-|Hne].
    + rewrite lookup_insert_eq. intros [= <-]. exists x1. rewrite bool_decide_false by done. by split_and!.
    + rewrite lookup_insert_ne, Ts by done. intros E. destruct (inv_map _ I _ _ E) as (x & Hx & A1 & A2 & A3).
      destruct (heap_rel_lookup _ _ _ _ _ (talked_heap _ _ _ T) Hx) as (x' & Hx' & B1 & _ & B3 & B4 & _).
      exists x'. rewrite Hh by (by eapply Hinj). split_and!; [done|congruence|auto|].
      rewrite B3, A3. specialize (HR b). pose proof (elem_of_submseteq (m_QueuedPlayer w1) (m_QueuedPlayer w) b) as Hs.
      repeat case_bool_decide; try done; naive_solver eauto using sublist_submseteq.
  - rewrite Tn. by apply (inv_new_nodup _ I).
  - intros b. rewrite Tn. intros Hb. destruct (inv_new _ I b Hb) as (A0 & x & Hx & A1 & A2). split.
    + intros acc'. destruct (decide (acc = acc')) as [<-|Hne]; [|by rewrite lookup_insert_ne, Ts].
      rewrite lookup_insert_eq. intros [= ->]. by apply (pending_new _ _ P).
    + destruct (heap_rel_lookup _ _ _ _ _ (talked_heap _ _ _ T) Hx) as (x' & Hx' & B1 & _ & B3 & B4 & _).
      exists x'. rewrite Hh by done. split_and!; [done|auto|]. rewrite B3, A2. by destruct (bool_decide _).
  - rewrite Tn. lia.
  - rewrite Tl. done.
  - rewrite Tl. by apply (inv_limit _ I).
Qed.

Lemma moved_up_sublist limit n q : moved_up limit n q `sublist_of` q.
Proof. unfold moved_up. destruct (room _ _); [|done]. destruct q; [done|]. cbn. by constructor. Qed.
Lemma moved_up_length limit n q :
  Z.of_nat (length (moved_up limit n q)) =
  if room limit n then Z.max 0 (Z.of_nat (length q) - 1) else Z.of_nat (length q).
Proof. unfold moved_up. destruct (room _ _); [|done]. destruct q; cbn [tail length]; lia. Qed.
Lemma without_sublist a q : without a q `sublist_of` q.
Proof. apply sublist_filter. Qed.
Lemma without_length a q : NoDup q →
  Z.of_nat (length (without a q)) = Z.of_nat (length q) - (if bool_decide (a ∈ q) then 1 else 0).
Proof.
  intros Hnd. case_bool_decide as Hin; [|by rewrite without_notin, Z.sub_0_r].
  apply list_elem_of_split in Hin as (l1 & l2 & ->). rewrite without_split by done.
  rewrite !length_app. cbn [length]. lia.
Qed.

(** How many are active, when a session has left the queue or the world. *)
Lemma removed_active a (w w' : World) :
  NoDup (m_QueuedPlayer w) → m_sessions w' = m_sessions w →
  m_QueuedPlayer w' = moved_up (m_playerLimit w) (others w a) (without a (m_QueuedPlayer w)) →
  let q := Z.of_nat (length (m_QueuedPlayer w)) - (if bool_decide (a ∈ m_QueuedPlayer w) then 1 else 0) in
  active w' = Z.of_nat (size (m_sessions w)) -
    (if room (m_playerLimit w) (others w a) then Z.max 0 (q - 1) else q).
Proof. intros Hnd Es Eq q. unfold active. by rewrite Es, Eq, moved_up_length, without_length. Qed.

(** ** Who was disconnected recently *)

Definition walk_ok (env : Env) : Prop := ∀ m, walk env m ≡ₚ (map_to_list m).*1.

Lemma walk_keys env m k : walk_ok env → k ∈ walk env m ↔ is_Some (m !! k).
Proof.
  intros H. rewrite (H m). rewrite list_elem_of_fmap. split.
  - intros ([k' v] & -> & Hv). apply elem_of_map_to_list in Hv. by eexists.
  - intros [v Hv]. exists (k, v). split; [done|]. by apply elem_of_map_to_list.
Qed.
Lemma walk_nodup env m : walk_ok env → NoDup (walk env m).
Proof. intros H. rewrite (H m). apply NoDup_fst_map_to_list. Qed.

Lemma recently_loop_ok env account keys (w : World) :
  NoDup keys → (∀ k, k ∈ keys → is_Some (m_disconnects w !! k)) →
  ∃ b d, recently_loop env account keys w = (Ok b, set_disconnects d w).
Proof.
  revert w. induction keys as [|k keys IH]; intros w Hnd Hk.
  - exists false, (m_disconnects w). by destruct w.
  - apply NoDup_cons in Hnd as [Hn Hnd]. cbn [recently_loop]. unfold mbind at 1, X_bind at 1, getX at 1.
    destruct (Hk k) as [d Hd]; [by left|]. rewrite Hd. destruct (d - time env <? _).
    + destruct (k =? account); [exists true, (m_disconnects w); by destruct w|].
      apply IH; [done|]. intros k' ?. apply Hk. by right.
    + unfold mbind, X_bind, modifyX. destruct (IH (set_disconnects (delete k (m_disconnects w)) w)) as (b & d' & E); [done| |].
      * intros k' Hk'. cbn. rewrite lookup_delete_ne by congruence. apply Hk. by right.
      * exists b, d'. by rewrite E.
Qed.

Lemma HasRecentlyDisconnected_ok env a (w : World) x :
  walk_ok env → heap w !! a = Some x →
  ∃ b d, HasRecentlyDisconnected env a w = (Ok b, set_disconnects d w) ∧
    (config_disconnect_tolerance env = 0 → b = false).
Proof.
  intros Hw Hx. unfold HasRecentlyDisconnected. rewrite (bindX_Ok _ _ _ _ _ (deref_ok _ _ _ Hx)).
  unfold z2b. destruct (Z.eqb_spec (config_disconnect_tolerance env) 0) as [E|E]; cbn [negb].
  - exists false, (m_disconnects w). split; [by destruct w|done].
  - unfold mbind, X_bind, getX.
    destruct (recently_loop_ok env (GetAccountId x) (walk env (m_disconnects w)) w) as (b & d & ->).
    + by apply walk_nodup.
    + intros k Hk. by apply walk_keys in Hk.
    + exists b, d. by split.
Qed.

(** ** What an operation achieves *)

(** The invariant holds again; the queue has kept its order, newcomers at its end; and if no
    one skips it, the limit is kept. *)
Definition progress (env : Env) (newcomers : list Z) (w w' : World) : Prop :=
  inv w' ∧ m_playerLimit w' = m_playerLimit w ∧
  m_QueuedPlayer w' `sublist_of` m_QueuedPlayer w ++ newcomers ∧
  (plain w → plain w' ∧
     (config_disconnect_tolerance env = 0 → 0 < m_playerLimit w → active w ≤ m_playerLimit w → active w' ≤ m_playerLimit w)).

Lemma progress_refl env w : inv w → progress env [] w w.
Proof. intros I. split_and!; [done..|by rewrite app_nil_r|done]. Qed.
Lemma progress_trans env l1 l2 w1 w2 w3 :
  progress env l1 w1 w2 → progress env l2 w2 w3 → progress env (l1 ++ l2) w1 w3.
Proof.
  intros (I1 & L1 & S1 & P1) (I2 & L2 & S2 & P2). split_and!; [done|congruence| |].
  - rewrite app_assoc. etrans; [exact S2|]. by apply sublist_app.
  - intros Hp. destruct (P1 Hp) as [Hp2 B1]. destruct (P2 Hp2) as [Hp3 B2]. split; [done|].
    intros Ht Hl Ha. rewrite L1 in B2. auto.
Qed.

Lemma AddQueuedPlayer_ok acc a (w : World) :
  inv w → m_sessions w !! acc = Some a → a ∉ m_QueuedPlayer w → m_playerLimit w ≤ active w - 1 →
  ∃ w', AddQueuedPlayer a w = (Ok tt, w') ∧ inv w' ∧ m_QueuedPlayer w' = m_QueuedPlayer w ++ [a] ∧
    m_sessions w' = m_sessions w ∧ m_playerLimit w' = m_playerLimit w ∧ addSessQueue w' = addSessQueue w ∧
    (plain w → plain w').
Proof.
  intros I Hs Hn Hact. pose proof I as [[K1 K2 K3 K4 K5] I2 I3 I4 I5 I6 I7 I8].
  destruct (I3 _ _ Hs) as (x & Hx & A1 & A2 & A3).
  unfold AddQueuedPlayer. rewrite (bindX_Ok _ _ _ _ _ (on_session_ok _ (SetInQueue true) _ _ Hx)).
  unfold mbind at 1, X_bind at 1, getX at 1. unfold mbind at 1, X_bind at 1, modifyX at 1. unfold mbind at 1, X_bind at 1, getX at 1.
  cbn [m_QueuedPlayer set_heap].
  set (w1 := set_QueuedPlayer (m_QueuedPlayer w ++ [a]) (set_heap (<[a:=SetInQueue true x]> (heap w)) w)).
  assert (u32 (GetQueuePos a w1) = Z.of_nat (length (m_QueuedPlayer w)) + 1) as ->.
  { assert (∀ q p, a ∉ q → 0 ≤ p → p + Z.of_nat (length q) < 2 ^ 32 → GetQueuePos_loop a (q ++ [a]) p = p + Z.of_nat (length q)) as Hpos.
    { induction q as [|b q IH]; intros p Hq Hp Hl; cbn [app GetQueuePos_loop length] in *.
      - rewrite Z.eqb_refl. lia.
      - apply not_elem_of_cons in Hq as [Hne Hq]. rewrite (proj2 (Z.eqb_neq _ _)) by done.
        unfold u32. rewrite Z.mod_small, IH by (done || lia). lia. }
    unfold GetQueuePos. cbn [w1 m_QueuedPlayer set_QueuedPlayer]. unfold active in Hact.
    rewrite Hpos by (done || lia). unfold u32, wrap_signed. 
    set (n := 1 + Z.of_nat (length (m_QueuedPlayer w))).
    assert (0 ≤ n < 4294967296) as Hr by lia. replace (Z.of_nat (length (m_QueuedPlayer w)) + 1) with n by lia.
    clearbody n. change (2 ^ (32 - 1)) with 2147483648. change (2 ^ 32) with 4294967296.
    rewrite Zminus_mod_idemp_l. rewrite Z.add_simpl_r. by apply Z.mod_small. }
  assert (heap w1 !! a = Some (SetInQueue true x)) as Hx1 by apply lookup_insert_eq.
  rewrite (tell_ok a _ w1 _ Hx1). eexists. split; [done|].
  set (x2 := Tell _ (SetInQueue true x)).
  assert (GetAccountId x2 = acc ∧ fine x2 ∧ IsInQueue x2 = true ∧ SkipsQueue x2 = SkipsQueue x) as (B1 & B2 & B3 & B4).
  { unfold x2. set (n := AuthResponse _ _). pose proof (same_account (SetInQueue true x) true n 0) as (_ & _ & _ & -> & _).
    pose proof (same_account x true n 0) as (-> & _). pose proof (queue_flag (SetInQueue true x) true n 0) as (_ & _ & _ & -> & _).
    pose proof (queue_flag x true n 0) as (-> & _). pose proof (same_skips (SetInQueue true x) true n 0) as (_ & _ & _ & -> & _).
    pose proof (same_skips x true n 0) as (-> & _). split_and!; try done.
    apply (fine_kept _ true). by apply (fine_kept _ true n). }
  assert (∀ b, b ≠ a → <[a:=x2]> (heap w1) !! b = heap w !! b) as Hoth.
  { intros b Hb. rewrite lookup_insert_ne by done. cbn. by rewrite lookup_insert_ne by done. }
  split; [|split_and!; try done].
  - split; cbn; try done.
    + split; cbn.
      * apply NoDup_app. split_and!; [done| |apply NoDup_singleton]. intros b Hb ->%list_elem_of_singleton. done.
      * unfold alive in *. apply Forall_app. split; [|apply Forall_singleton; cbn; by rewrite lookup_insert_eq].
        rewrite Forall_forall in *. intros b Hb. cbn. rewrite Hoth by congruence. by apply K2.
      * rewrite length_app. cbn. unfold active in Hact. lia.
      * done.
      * intros i b Hb. apply lookup_app_Some in Hb as [Hb|[Hi Hb]].
        -- rewrite position_told_other; [by apply K5|]. intros <-. apply Hn. by eapply list_elem_of_lookup_2.
        -- apply list_lookup_singleton_Some in Hb as [Hi' <-]. cbn. rewrite Z.eqb_refl. f_equal. lia.
    + intros b [Hb| ->%list_elem_of_singleton]%elem_of_app; [by apply I2|by exists acc].
    + intros acc' b E. destruct (decide (b = a)) as [->|Hne].
      * assert (acc' = acc) as ->.
        { destruct (I3 _ _ E) as (x' & Hx' & <- & _). congruence. }
        exists x2. rewrite lookup_insert_eq, bool_decide_true by (apply elem_of_app; right; by left). by split_and!.
      * rewrite Hoth by done. destruct (I3 _ _ E) as (x' & Hx' & ? & ? & Hf). exists x'. split_and!; try done.
        rewrite Hf. apply bool_decide_ext. rewrite elem_of_app, list_elem_of_singleton. naive_solver.
    + intros b Hb. destruct (I5 b Hb) as (C0 & x' & Hx' & C1 & C2). split; [done|].
      exists x'. rewrite Hoth; [done|]. intros ->. by eapply C0.
    + intros _. unfold active in *. cbn. rewrite length_app. cbn. lia.
  - intros Hp b x' Hx'. cbn in Hx'. destruct (decide (b = a)) as [->|Hne].
    + rewrite lookup_insert_eq in Hx'. injection Hx' as <-. rewrite B4. by eapply Hp.
    + rewrite Hoth in Hx' by done. by eapply Hp.
Qed.

(** An old session of the account makes way. *)
Lemma replace_old_ok a x (w : World) :
  inv w → pending a w → heap w !! a = Some x →
  ∃ (dec : bool) w1, replace_old (GetAccountId x) w = (Ok dec, w1) ∧
    let w2 := set_sessions (<[GetAccountId x := a]> (m_sessions w1)) w1 in
    inv w2 ∧ (a ∉ m_QueuedPlayer w2) ∧ m_playerLimit w2 = m_playerLimit w ∧ addSessQueue w2 = addSessQueue w ∧
    m_QueuedPlayer w2 `sublist_of` m_QueuedPlayer w ∧
    (∃ x2, heap w2 !! a = Some x2 ∧ SkipsQueue x2 = SkipsQueue x) ∧ (plain w → plain w2) ∧
    let L := m_playerLimit w in
    let S := Z.of_nat (size (m_sessions w2)) - (if dec then 1 else 0) in
    0 < L → 0 ≤ S ∧
      (L ≤ S → L ≤ active w2 - 1 ∧ (active w ≤ L → active w2 - 1 ≤ L)) ∧ (S < L → active w ≤ L → active w2 ≤ L).
Proof.
  intros I P Hx. set (acc := GetAccountId x). pose proof (pending_not_queued _ _ I P) as Hnq.
  unfold replace_old. unfold mbind at 1, X_bind at 1, getX at 1.
  destruct (m_sessions w !! acc) as [old|] eqn:Eold.
  - destruct (inv_map _ I _ _ Eold) as (xo & Hxo & O1 & O2 & O3).
    destruct (RemoveQueuedPlayer_ok old w (inv_queue _ I)) as (w1 & R & E1 & T1 & HR & Q1 & K1).
    destruct (heap_rel_lookup _ _ _ _ _ (talked_heap _ _ _ T1) Hxo) as (xo1 & Hxo1 & _ & _ & _ & D1 & _).
    exists (negb (bool_decide (old ∈ m_QueuedPlayer w))), (set_heap (delete old (heap w1)) w1).
    split. { rewrite (bindX_Ok _ _ _ _ _ E1). rewrite (bindX_Ok _ _ _ _ _ (delete_session_ok old w1 xo1 Hxo1 (fine_dying _ (D1 O2)))). done. }
    assert (a ≠ old) as Hne by (intros ->; by eapply (pending_in _ _ P)).
    assert (a ∉ R) as HaR by (rewrite HR; naive_solver).
    destruct (heap_rel_lookup _ _ _ _ _ (talked_heap _ _ _ T1) Hx) as (x1 & Hx1 & _ & S1 & _).
    assert (old ∉ m_QueuedPlayer w1) as Ho1.
    { rewrite Q1. intros Hin. assert (old ∈ without old (m_QueuedPlayer w)) as Hin'
        by (eapply elem_of_submseteq, sublist_submseteq, moved_up_sublist; done).
      unfold without in Hin'. by apply list_elem_of_filter in Hin' as [? _]. }
    assert (m_QueuedPlayer w1 `sublist_of` m_QueuedPlayer w) as Hsub.
    { rewrite Q1. etrans; [apply moved_up_sublist|apply without_sublist]. }
    pose proof (removed_active old w w1 (queue_nodup _ (inv_queue _ I)) (talked_sessions _ _ _ T1) Q1) as Hact.
    assert (Z.of_nat (length (m_QueuedPlayer w)) = 0 ∨ m_playerLimit w ≤ active w) as Htight.
    { destruct (m_QueuedPlayer w) eqn:E; [by left|right]. apply (inv_tight _ I). by rewrite E. }
    set (w2 := set_sessions (<[acc := a]> (m_sessions (set_heap (delete old (heap w1)) w1))) (set_heap (delete old (heap w1)) w1)).
    assert (size (m_sessions w2) = size (m_sessions w)) as Hsz.
    { cbn. rewrite (talked_sessions _ _ _ T1), map_size_insert, Eold. done. }
    assert (active w2 = active w1) as Ha2 by (unfold active; cbn in *; by rewrite Hsz, (talked_sessions _ _ _ T1)).
    pose proof (queue_size _ (inv_queue _ I)) as Hqs.
    assert (bool_decide (old ∈ m_QueuedPlayer w) = true → 0 < Z.of_nat (length (m_QueuedPlayer w))) as Hpos.
    { intros Hin%bool_decide_eq_true. destruct (m_QueuedPlayer w); [by apply elem_of_nil in Hin|cbn; lia]. }
    cbv zeta. fold acc w2. rewrite Hsz.
    assert (inv w2) as I2.
    { pose proof (place_session acc a w w1 R [] I P T1 HR Hsub K1) as Hp. rewrite Eold in Hp. apply Hp.
      - by exists x.
      - by intros ? [= <-].
      - clear Hp. intros Hq. change (m_playerLimit w ≤ active w2). rewrite Ha2, Hact. unfold others, room in *. unfold active in *.
        assert (m_QueuedPlayer w ≠ []) as Hq0 by (intros E; rewrite E in Hsub; by apply sublist_nil_r in Hsub).
        specialize (inv_tight _ I Hq0) as Ht. unfold active in Ht.
        destruct (bool_decide _), (_ || _); lia. }
    split; [done|]. split; [intros Hin; apply Hnq; by eapply elem_of_submseteq, sublist_submseteq|].
    split; [apply (talked_limit _ _ _ T1)|]. split; [apply (talked_new _ _ _ T1)|]. split; [done|].
    split. { exists x1. split; [cbn; by rewrite lookup_delete_ne|done]. }
    split. { intros Hp b y Hy. cbn in Hy. apply lookup_delete_Some in Hy as [_ Hy]. by eapply plain_talked. }
    intros HL. rewrite Ha2, Hact. clear -HL Htight Hqs Hpos Eold. 
    assert (0 < Z.of_nat (size (m_sessions w))).
    { assert (size (m_sessions w) ≠ 0)%nat; [|lia]. intros E%map_size_empty_iff. by rewrite E in Eold. }
    unfold others, room, active in *. destruct (Z.eqb_spec (m_playerLimit w) 0); [lia|].
    destruct (bool_decide (old ∈ m_QueuedPlayer w)); cbn [negb orb];
      match goal with |- context [?s <? ?l] => destruct (Z.ltb_spec s l) end;
      repeat split; try intros; try (specialize (Hpos eq_refl)); lia.
  - exists true, w. split; [done|]. cbv zeta. fold acc.
    set (w2 := set_sessions (<[acc:=a]> (m_sessions w)) w).
    assert (Z.of_nat (size (m_sessions w2)) = Z.of_nat (size (m_sessions w)) + 1) as Hsz.
    { cbn. rewrite map_size_insert, Eold. cbn. lia. }
    assert (active w2 = active w + 1) as Ha2 by (unfold active in *; rewrite Hsz; cbn; lia).
    assert (inv w2) as I2.
    { pose proof (place_session acc a w w ∅ [] I P (talked_refl w)) as Hp. cbv zeta in Hp. rewrite Eold in Hp.
      assert (set_heap (heap w) w = w) as Ew by by destruct w.
      rewrite Ew in Hp. apply Hp; [set_solver|done|apply (inv_queue _ I)|by exists x|done|].
      intros Hq. change (m_playerLimit w ≤ active w2). rewrite Ha2. pose proof (inv_tight _ I Hq). lia. }
    split; [done|]. split; [done|]. split; [done|]. split; [done|]. split; [done|].
    split; [by exists x|]. split; [done|]. intros HL. rewrite Ha2, Hsz.
    assert (Z.of_nat (length (m_QueuedPlayer w)) = 0 ∨ m_playerLimit w ≤ active w) as Htight.
    { destruct (m_QueuedPlayer w) eqn:E; [by left|right]. apply (inv_tight _ I). by rewrite E. }
    unfold active in *. repeat split; intros; lia.
Qed.

Lemma counters_ok (w : World) :
  ∃ x y, UpdateMaxSessionCounters w = (Ok tt, set_counters x y w).
Proof. by eexists _, _. Qed.
Lemma inv_counters x y w : inv w → inv (set_counters x y w).
Proof. apply inv_talked; [|done|done]. split; try done. apply heap_rel_refl. Qed.

(** Telling a session that is not queued. *)
Lemma tell_inv a n w : inv w → a ∉ m_QueuedPlayer w → is_Some (heap w !! a) →
  ∃ w', tell a n w = (Ok tt, w') ∧ inv w' ∧ talked ∅ w w' ∧ m_QueuedPlayer w' = m_QueuedPlayer w.
Proof.
  intros I Hn Ha. destruct (tell_talked a n w Ha) as (w' & E & T & Q & Ht). exists w'. split; [done|].
  split; [|done]. eapply inv_talked; [exact T|done| |done]. intros b Hb. rewrite Ht. apply position_told_other. congruence.
Qed.

Lemma talked_active R w w' : talked R w w' → m_QueuedPlayer w' = m_QueuedPlayer w → active w' = active w.
Proof. intros T Q. unfold active. by rewrite Q, (talked_sessions _ _ _ T). Qed.

(** A session is told that it is in. *)
Lemma admit_ok a w x :
  inv w → a ∉ m_QueuedPlayer w → heap w !! a = Some x →
  ∃ w', (tell a (AuthResponse AUTH_OK 0);; tell a ClientCacheVersion;; tell a TutorialsData;; UpdateMaxSessionCounters) w
          = (Ok tt, w') ∧ inv w' ∧ talked ∅ w w' ∧ m_QueuedPlayer w' = m_QueuedPlayer w.
Proof.
  intros I Hn Hx.
  destruct (tell_inv a (AuthResponse AUTH_OK 0) w I Hn) as (w1 & E1 & I1 & T1 & Q1); [by eexists|].
  assert (∀ w0, talked ∅ w w0 → is_Some (heap w0 !! a)) as Ha.
  { intros w0 T. destruct (heap_rel_lookup _ _ _ _ _ (talked_heap _ _ _ T) Hx) as (x' & ? & _). eauto. }
  assert (∀ w0 w3, talked ∅ w w0 → talked ∅ w0 w3 → talked ∅ w w3) as Htr.
  { intros w0 w3 T0 T3. rewrite <- (union_empty_l_L ∅). by eapply talked_trans. }
  destruct (tell_inv a ClientCacheVersion w1 I1) as (w2 & E2 & I2 & T2 & Q2); [by rewrite Q1|by apply Ha|].
  destruct (tell_inv a TutorialsData w2 I2) as (w3 & E3 & I3 & T3 & Q3); [by rewrite Q2, Q1|eauto|].
  destruct (counters_ok w3) as (y & z & E4). exists (set_counters y z w3).
  rewrite (bindX_Ok _ _ _ _ _ E1), (bindX_Ok _ _ _ _ _ E2), (bindX_Ok _ _ _ _ _ E3). split; [done|].
  split; [by apply inv_counters|]. split; [|cbn; congruence].
  assert (talked ∅ w w3) as T by eauto. by destruct T; split.
Qed.

Lemma RemoveSession_ok acc w : inv w →
  ∃ b w', RemoveSession acc w = (Ok b, w') ∧ inv w' ∧ talked ∅ w w' ∧ m_QueuedPlayer w' = m_QueuedPlayer w.
Proof.
  intros I. unfold RemoveSession. unfold mbind at 1, X_bind at 1, getX at 1.
  destruct (m_sessions w !! acc) as [old|] eqn:E; [|exists true, w; split_and!; [done|done|apply talked_refl|done]].
  destruct (inv_map _ I _ _ E) as (x & Hx & _). rewrite (bindX_Ok _ _ _ _ _ (deref_ok _ _ _ Hx)).
  destruct (PlayerLoading x); [exists false, w; split_and!; [done|done|apply talked_refl|done]|].
  destruct (kick_talked old w x Hx) as (w' & E' & T & Q & Ht). exists true, w'. rewrite (bindX_Ok _ _ _ _ _ E').
  split_and!; try done. eapply inv_talked; [exact T|done|by rewrite Ht|done].
Qed.

Lemma AddSession__ok env a (w : World) :
  walk_ok env → inv w → pending a w →
  ∃ w', AddSession_ env a w = (Ok tt, w') ∧ progress env [a] w w' ∧ addSessQueue w' = addSessQueue w.
Proof.
  intros Hw I P. destruct (pending_session _ _ P) as (x & Hx & _).
  unfold AddSession_. rewrite (bindX_Ok _ _ _ _ _ (deref_ok _ _ _ Hx)). cbv zeta.
  destruct (RemoveSession_ok (GetAccountId x) w I) as (ok & w1 & E1 & I1 & T1 & Q1). rewrite (bindX_Ok _ _ _ _ _ E1).
  assert (pending a w1) as P1 by (eapply pending_talked; [exact T1|set_solver|done]).
  destruct (heap_rel_lookup _ _ _ _ _ (talked_heap _ _ _ T1) Hx) as (x1 & Hx1 & Hacc & Hskip & _ & F1 & _).
  pose proof (talked_active _ _ _ T1 Q1) as Ha1.
  destruct ok; cbn [negb].
  - rewrite <- Hacc.
    destruct (replace_old_ok a x1 w1 I1 P1 Hx1) as (dec & w2 & E2 & I2 & Hn2 & L2 & N2 & S2 & (x2 & Hx2 & Hskip2) & Pl2 & Har).
    cbv zeta in *. set (acc := GetAccountId x1) in *.
    rewrite (bindX_Ok _ _ _ _ _ E2). unfold mbind at 1, X_bind at 1, getX at 1. unfold mbind at 1, X_bind at 1, modifyX at 1.
    unfold mbind at 1, X_bind at 1, getX at 1.
    set (w3 := set_sessions (<[acc:=a]> (m_sessions w2)) w2) in *.
    assert (GetActiveAndQueuedSessionCount w3 = Z.of_nat (size (m_sessions w3))) as ->.
    { unfold GetActiveAndQueuedSessionCount, u32. apply Z.mod_small. pose proof (inv_small _ I2). lia. }
    rewrite (bindX_Ok _ _ _ _ _ (deref_ok _ _ _ Hx2)). rewrite L2, (talked_limit _ _ _ T1) in *.
    set (L := m_playerLimit w) in *.
    set (S := if dec then u32 (Z.of_nat (size (m_sessions w3)) - 1) else Z.of_nat (size (m_sessions w3))).
    assert (plain w → plain w3) as Hpl by (intros; apply Pl2; by eapply plain_talked).
    assert (0 < L → S = Z.of_nat (size (m_sessions w3)) - (if dec then 1 else 0)) as HS.
    { intros HL. destruct (Har HL) as [H0 _]. unfold S. destruct dec; [|lia]. unfold u32. apply Z.mod_small.
      pose proof (inv_small _ I2). lia. }
    (* admitted *)
    assert (∀ d, (plain w → config_disconnect_tolerance env = 0 → 0 < L → active w ≤ L → active w3 ≤ L) → 
      ∃ w', (tell a (AuthResponse AUTH_OK 0);; tell a ClientCacheVersion;; tell a TutorialsData;; UpdateMaxSessionCounters)
        (set_disconnects d w3) = (Ok tt, w') ∧ progress env [a] w w' ∧ addSessQueue w' = addSessQueue w) as Hadmit.
    { intros d Hb. assert (inv (set_disconnects d w3)) as I3.
      { destruct I2 as [[]]. by repeat (split; try done). }
      destruct (admit_ok a (set_disconnects d w3) x2 I3) as (w4 & E4 & I4 & T4 & Q4); [done|done|].
      exists w4. split; [done|]. split; [|rewrite (talked_new _ _ _ T4); cbn; by rewrite <- (talked_new _ _ _ T1)].
      split; [done|]. split; [rewrite (talked_limit _ _ _ T4); done|]. split.
      - rewrite Q4. cbn. rewrite <- Q1. by apply sublist_inserts_r.
      - intros Hp. split; [eapply plain_talked; [exact T4|]; by apply Hpl|]. intros.
        rewrite (talked_active _ _ _ T4 Q4). by apply Hb. }
    destruct ((0 <? L) && (L <=? S) && negb (SkipsQueue x2)) eqn:Ewait.
    + apply andb_prop in Ewait as [[HL%Z.ltb_lt HLS%Z.leb_le]%andb_prop Hsk].
      destruct (HasRecentlyDisconnected_ok env a w3 x2 Hw Hx2) as (b & d & Er & Hb0).
      rewrite (bindX_Ok _ _ _ (negb b) (set_disconnects d w3)) by by rewrite (bindX_Ok _ _ _ _ _ Er).
      destruct b; cbn [negb]. { apply Hadmit. intros _ Ht. by specialize (Hb0 Ht). }
      assert (inv (set_disconnects d w3)) as I3.
      { destruct I2 as [[]]. by repeat (split; try done). }
      destruct (Har HL) as (_ & [Hr1 Hr2] & _); [rewrite <- HS by done; done|].
      destruct (AddQueuedPlayer_ok acc a (set_disconnects d w3) I3) as (w4 & E4 & I4 & Q4 & M4 & L4 & N4 & Pl4).
      { cbn. apply lookup_insert_eq. } { done. } { change (m_playerLimit w3 ≤ active w3 - 1). by rewrite L2. }
      rewrite (bindX_Ok _ _ _ _ _ E4). destruct (counters_ok w4) as (y & z & E5). exists (set_counters y z w4).
      split; [done|]. split; [|cbn; rewrite N4; cbn; by rewrite <- (talked_new _ _ _ T1)].
      split; [by apply inv_counters|]. split; [cbn; by rewrite L4|]. split.
      { cbn. rewrite Q4. cbn. rewrite <- Q1. by apply sublist_app. }
      intros Hp. split; [by apply Pl4, Hpl|]. intros _ _ Hle. unfold active. cbn. rewrite M4, Q4, length_app. cbn.
      rewrite Ha1 in Hr2. specialize (Hr2 Hle). unfold active in Hr2. cbn in Hr2. lia.
    + rewrite (bindX_Ok _ _ w3 false w3) by done. cbn iota. 
      destruct (Hadmit (m_disconnects w3)) as (w' & E' & Hr').
      * intros Hp Ht HL Hle. assert (SkipsQueue x2 = false) as Hf by (rewrite Hskip2, Hskip; by eapply Hp).
        rewrite Hf in Ewait. cbn in Ewait. rewrite andb_true_r in Ewait.
        apply andb_false_iff in Ewait as [Hx'%Z.ltb_ge|HLS%Z.leb_gt]; [lia|].
        destruct (Har HL) as (_ & _ & Hr). apply Hr; [rewrite <- HS by done; done|lia].
      * exists w'. split; [|done]. rewrite <- E'. by destruct w3.
  - destruct (kick_talked a w1 x1 Hx1) as (w2 & E2 & T2 & Q2 & Ht2). rewrite (bindX_Ok _ _ _ _ _ E2).
    assert (inv w2) as I2 by (eapply inv_talked; [exact T2|done|by rewrite Ht2|done]).
    assert (pending a w2) as P2 by (eapply pending_talked; [exact T2|set_solver|done]).
    destruct (pending_session _ _ P2) as (x2 & Hx2 & F2 & _).
    exists (set_heap (delete a (heap w2)) w2).
    split; [by apply (delete_session_ok _ _ _ Hx2), fine_dying|].
    split; [|cbn; by rewrite (talked_new _ _ _ T2), (talked_new _ _ _ T1)].
    split; [by apply inv_delete|]. split; [cbn; by rewrite (talked_limit _ _ _ T2), (talked_limit _ _ _ T1)|].
    split; [cbn; rewrite Q2, Q1; by apply sublist_inserts_r|]. intros Hp. split.
    + intros b y Hy. cbn in Hy. apply lookup_delete_Some in Hy as [_ Hy].
      eapply (plain_talked _ _ _ T2); [eapply plain_talked; [exact T1|done]|done].
    + intros. unfold active in *. cbn. by rewrite Q2, Q1, (talked_sessions _ _ _ T2), (talked_sessions _ _ _ T1).
Qed.

Lemma add_loop_ok env fuel (w : World) :
  walk_ok env → inv w → (length (addSessQueue w) < fuel)%nat →
  ∃ w', add_loop env fuel w = (Ok tt, w') ∧ progress env (addSessQueue w) w w'.
Proof.
  intros Hw. revert w. induction fuel as [|fuel IH]; intros w I Hf; [lia|].
  cbn [add_loop]. unfold mbind at 1, X_bind at 1, getX at 1.
  destruct (addSessQueue w) as [|a q] eqn:Eq; [exists w; split; [done|by apply progress_refl]|].
  unfold mbind at 1, X_bind at 1, modifyX at 1.
  set (w1 := set_addSessQueue q w).
  pose proof I as [[K1 K2 K3 K4 K5] I2 I3 I4 I5 I6 I7 I8]. rewrite Eq in I4, I6. pose proof I4 as [Hn Hnd]%NoDup_cons.
  cbn [length] in I6, Hf.
  assert (inv w1) as I1.
  { split; cbn; try done; [|lia]. intros b Hb. apply I5. rewrite Eq. by right. }
  assert (pending a w1) as P1.
  { destruct (I5 a) as [A1 A2]; [rewrite Eq; by left|]. split; cbn; done || lia. }
  destruct (AddSession__ok env a w1 Hw I1 P1) as (w2 & E2 & Pr2 & Q2). rewrite (bindX_Ok _ _ _ _ _ E2).
  destruct (IH w2) as (w3 & E3 & Pr3); [apply Pr2|rewrite Q2; cbn; lia|].
  exists w3. split; [done|]. rewrite Q2 in Pr3.
  destruct (progress_trans _ _ _ _ _ _ Pr2 Pr3) as (R1 & R2 & R3 & R4). split_and!; try done.
Qed.

(** The new state of a session after an update. *)
Record updated (b : bool) (x x' : Session) : Prop := {
  updated_account : GetAccountId x' = GetAccountId x;
  updated_skips : SkipsQueue x' = SkipsQueue x;
  updated_flag : IsInQueue x' = IsInQueue x;
  updated_dying : dying x';
  updated_fine : b = true → fine x' }.

Lemma Update_updated d x : fine x → ∃ b x', Update d x = (Ok b, x') ∧ updated b x x'.
Proof.
  intros Hf. destruct (Update_returns x d Hf) as (b & E & D & F). exists b, (Update d x).2.
  rewrite <- E. split; [by destruct (Update d x)|].
  destruct (same_account x b AddonsInfo d) as (_ & _ & _ & _ & ?), (same_skips x b AddonsInfo d) as (_ & _ & _ & _ & ?),
    (queue_flag x b AddonsInfo d) as (_ & _ & _ & _ & ?). by split.
Qed.

(** A session that is still fine. *)
Lemma updated_inv acc a x x' (w : World) env :
  inv w → m_sessions w !! acc = Some a → heap w !! a = Some x → updated true x x' →
  progress env [] w (set_heap (<[a := x']> (heap w)) w).
Proof.
  intros I Hs Hx [A B C D F]. specialize (F eq_refl).
  assert (talked ∅ w (set_heap (<[a := x']> (heap w)) w)) as T.
  { split; try done. apply (heap_rel_insert _ _ _ _ _ Hx); [|set_solver]. rewrite bool_decide_false by set_solver.
    by split_and!. }
  split; [by eapply inv_talked|]. split; [done|]. split; [by rewrite app_nil_r|].
  intros Hp. split; [by eapply plain_talked|]. by intros.
Qed.

(** One that is not leaves the queue, twice, and then the world. *)
Lemma removed_inv acc a w R w2 h :
  inv w → m_sessions w !! acc = Some a →
  (∀ b, b ≠ a → h !! b = heap w !! b) → heap_rel R h (heap w2) →
  m_sessions w2 = m_sessions w → m_playerLimit w2 = m_playerLimit w → addSessQueue w2 = addSessQueue w →
  (∀ b, b ∈ R ↔ b ∈ m_QueuedPlayer w ∧ b ∉ m_QueuedPlayer w2) →
  m_QueuedPlayer w2 `sublist_of` m_QueuedPlayer w → a ∉ m_QueuedPlayer w2 → queue_ok w2 →
  (m_QueuedPlayer w2 ≠ [] → m_playerLimit w ≤ active w2 - 1) → (length (m_QueuedPlayer w2) < size (m_sessions w))%nat →
  inv (set_heap (delete a (heap w2)) (set_sessions (delete acc (m_sessions w2)) w2)).
Proof.
  intros I Hs Hh HR Es El En Hin Hsub Hna [K1 K2 K3 K4 K5] Htight Hlen.
  assert (size (delete acc (m_sessions w2)) = pred (size (m_sessions w))) as Hsz.
  { rewrite Es, map_size_delete, Hs. done. }
  assert (∀ acc' b, m_sessions w !! acc' = Some b → b = a → acc' = acc) as Hinj.
  { intros acc' b E ->. destruct (inv_map _ I _ _ E) as (x & Hx & <- & _), (inv_map _ I _ _ Hs) as (x' & Hx' & <- & _).
    congruence. }
  assert (∀ b x, b ≠ a → heap w !! b = Some x →
    ∃ x', delete a (heap w2) !! b = Some x' ∧ similar (bool_decide (b ∈ R)) x x') as Hlk.
  { intros b x Hb Hx. rewrite <- Hh in Hx by done. destruct (heap_rel_lookup _ _ _ _ _ HR Hx) as (x' & ? & ?).
    exists x'. by rewrite lookup_delete_ne by done. }
  split; cbn.
  - split; cbn; try done; [|lia|rewrite Es in K4; lia]. unfold alive in *. rewrite Forall_forall in *. intros b Hb. cbn.
    rewrite lookup_delete_ne by congruence. by apply K2.
  - intros b Hb. destruct (inv_in _ I b) as [acc' E]; [by eapply elem_of_submseteq, sublist_submseteq|].
    exists acc'. rewrite Es, lookup_delete_ne; [done|]. intros <-. congruence.
  - intros acc' b E. rewrite Es in E. apply lookup_delete_Some in E as [Hne E].
    assert (b ≠ a) as Hb by (intros Hb; by eapply Hne, eq_sym, Hinj).
    destruct (inv_map _ I _ _ E) as (x & Hx & A1 & A2 & A3). destruct (Hlk b x Hb Hx) as (x' & Hx' & B1 & _ & B3 & B4 & _).
    exists x'. split_and!; [done|congruence|auto|]. rewrite B3, A3. specialize (Hin b).
    pose proof (elem_of_submseteq (m_QueuedPlayer w2) (m_QueuedPlayer w) b) as Hsm.
    repeat case_bool_decide; try done; naive_solver eauto using sublist_submseteq.
  - rewrite En. by apply (inv_new_nodup _ I).
  - intros b. rewrite En. intros Hb. destruct (inv_new _ I b Hb) as (A0 & x & Hx & A1 & A2).
    assert (b ≠ a) as Hne by (intros ->; by eapply A0). split.
    + intros acc' E. rewrite Es in E. apply lookup_delete_Some in E as [_ E]. by eapply A0.
    + destruct (Hlk b x Hne Hx) as (x' & Hx' & B1 & _ & B3 & B4 & _). exists x'. split_and!; [done|auto|].
      rewrite B3, A2. by destruct (bool_decide _).
  - rewrite Hsz, En. pose proof (inv_small _ I). lia.
  - intros Hq. specialize (Htight Hq). rewrite El. unfold active in *. cbn. rewrite Hsz. rewrite Es in Htight. lia.
  - rewrite El. by apply (inv_limit _ I).
Qed.

Lemma remove_from_world_ok env acc a x x' (w : World) :
  inv w → m_sessions w !! acc = Some a → heap w !! a = Some x → updated false x x' →
  ∃ w', remove_from_world env acc a (set_heap (<[a := x']> (heap w)) w) = (Ok tt, w') ∧
    progress env [] w w' ∧ m_sessions w' = delete acc (m_sessions w).
Proof.
  intros I Hs Hx [A B C D _]. set (w0 := set_heap (<[a := x']> (heap w)) w).
  assert (queue_ok w0) as K0.
  { destruct (inv_queue _ I) as [K1 K2 K3 K4 K5]. split; try done. unfold alive in *. rewrite Forall_forall in *.
    intros b Hb. cbn. destruct (decide (a = b)) as [<-|?]; [by rewrite lookup_insert_eq|].
    rewrite lookup_insert_ne by done. by apply K2. }
  assert (heap w0 !! a = Some x') as Hx0 by apply lookup_insert_eq.
  unfold remove_from_world.
  destruct (RemoveQueuedPlayer_ok a w0 K0) as (w1 & R1 & E1 & T1 & HR1 & Q1 & K1). rewrite (bindX_Ok _ _ _ _ _ E1).
  destruct (heap_rel_lookup _ _ _ _ _ (talked_heap _ _ _ T1) Hx0) as (x1 & Hx1 & _ & _ & _ & _ & D1).
  assert (∃ d, (if negb (bool_decide (a ∈ m_QueuedPlayer w0)) && z2b (config_disconnect_tolerance env) then
     x ← deref a; s ← getX; modifyX (set_disconnects (<[GetAccountId x := time env]> (m_disconnects s))) else mret tt) w1
     = (Ok tt, set_disconnects d w1)) as [d Ed].
  { destruct (_ && _); [|exists (m_disconnects w1); by destruct w1].
    rewrite (bindX_Ok _ _ _ _ _ (deref_ok _ _ _ Hx1)). by eexists. }
  rewrite (bindX_Ok _ _ _ _ _ Ed). set (w1' := set_disconnects d w1).
  assert (queue_ok w1') as K1' by (by destruct K1; split).
  destruct (RemoveQueuedPlayer_ok a w1' K1') as (w2 & R2 & E2 & T2 & HR2 & Q2 & K2). rewrite (bindX_Ok _ _ _ _ _ E2).
  destruct (heap_rel_lookup _ _ _ _ _ (talked_heap _ _ _ T2) Hx1) as (x2 & Hx2 & _ & _ & _ & _ & D2).
  unfold mbind at 1, X_bind at 1, getX at 1. unfold mbind at 1, X_bind at 1, modifyX at 1.
  rewrite (delete_session_ok a (set_sessions (delete acc (m_sessions w2)) w2) x2 Hx2 (D2 (D1 D))).
  eexists. split; [done|].
  assert (m_sessions w2 = m_sessions w) as Es by by rewrite (talked_sessions _ _ _ T2); cbn; rewrite (talked_sessions _ _ _ T1).
  assert (m_QueuedPlayer w2 `sublist_of` m_QueuedPlayer w1) as S2.
  { rewrite Q2. etrans; [apply moved_up_sublist|apply without_sublist]. }
  assert (m_QueuedPlayer w1 `sublist_of` m_QueuedPlayer w) as S1.
  { rewrite Q1. etrans; [apply moved_up_sublist|apply without_sublist]. }
  assert (a ∉ m_QueuedPlayer w1) as Hn1.
  { rewrite Q1. intros Hin. assert (a ∈ without a (m_QueuedPlayer w0)) as Hin'
      by (eapply elem_of_submseteq, sublist_submseteq, moved_up_sublist; done).
    unfold without in Hin'. by apply list_elem_of_filter in Hin' as [? _]. }
  assert (a ∉ m_QueuedPlayer w2) as Hn2 by (intros Hin; apply Hn1; by eapply elem_of_submseteq, sublist_submseteq).
  pose proof (removed_active a w0 w1 (queue_nodup _ K0) (talked_sessions _ _ _ T1) Q1) as Ha1.
  pose proof (removed_active a w1' w2 (queue_nodup _ K1') (talked_sessions _ _ _ T2) Q2) as Ha2.
  assert (Z.of_nat (length (m_QueuedPlayer w)) = 0 ∨ m_playerLimit w ≤ active w) as Htight.
  { destruct (m_QueuedPlayer w) eqn:E; [by left|right]. apply (inv_tight _ I). by rewrite E. }
  assert (bool_decide (a ∈ m_QueuedPlayer w) = true → 0 < Z.of_nat (length (m_QueuedPlayer w))) as Hpos.
  { intros Hin%bool_decide_eq_true. destruct (m_QueuedPlayer w); [by apply elem_of_nil in Hin|cbn; lia]. }
  assert (0 < Z.of_nat (size (m_sessions w))) as Hsz.
  { assert (size (m_sessions w) ≠ 0)%nat; [|lia]. intros E%map_size_empty_iff. by rewrite E in Hs. }
  assert (let L := m_playerLimit w in (length (m_QueuedPlayer w2) < size (m_sessions w))%nat ∧
    (Z.of_nat (length (m_QueuedPlayer w2)) = 0 ∨ L ≤ active w2 - 1) ∧ (0 < L → active w ≤ L → active w2 - 1 ≤ L)) as (Ar1 & Ar2 & Ar3).
  { pose proof (inv_limit _ I). pose proof (queue_size _ (inv_queue _ I)) as Hqs.
    unfold others in *. rewrite (bool_decide_false (a ∈ m_QueuedPlayer w1')) in Ha2 by done.
    unfold active, room in *. cbn [m_sessions m_QueuedPlayer m_playerLimit w1' w0 set_disconnects set_heap] in *.
    rewrite Es in *. rewrite (talked_sessions _ _ _ T1), (talked_limit _ _ _ T1) in *. cbn [m_sessions m_playerLimit w0 set_heap] in *.
    clear -Ha1 Ha2 Htight Hpos Hsz Hqs H. cbv zeta.
    destruct (bool_decide (a ∈ m_QueuedPlayer w)); [specialize (Hpos eq_refl)|];
      destruct (Z.eqb_spec (m_playerLimit w) 0); cbn [orb] in *;
      repeat match goal with H : context [?s <? ?l] |- _ => destruct (Z.ltb_spec s l) end; split_and!; lia. }
  split; [|cbn; by rewrite Es].
  assert (∀ b, b ∈ R1 ∪ R2 ↔ b ∈ m_QueuedPlayer w ∧ b ∉ m_QueuedPlayer w2) as HR.
  { intros b. rewrite elem_of_union, HR1, HR2. cbn.
    pose proof (elem_of_submseteq (m_QueuedPlayer w2) (m_QueuedPlayer w1) b) as M2.
    pose proof (elem_of_submseteq (m_QueuedPlayer w1) (m_QueuedPlayer w) b) as M1.
    destruct (decide (b ∈ m_QueuedPlayer w1)); naive_solver eauto using sublist_submseteq. }
  split.
  { apply (removed_inv acc a w (R1 ∪ R2) w2 (heap w0)); try done.
    - intros b Hb. cbn. by rewrite lookup_insert_ne.
    - eapply heap_rel_trans; [apply (talked_heap _ _ _ T1)|apply (talked_heap _ _ _ T2)].
    - rewrite (talked_limit _ _ _ T2). cbn. by rewrite (talked_limit _ _ _ T1).
    - rewrite (talked_new _ _ _ T2). cbn. by rewrite (talked_new _ _ _ T1).
    - by transitivity (m_QueuedPlayer w1).
    - intros Hq. destruct Ar2 as [Ar2|?]; [|done]. destruct (m_QueuedPlayer w2); [done|cbn in Ar2; lia]. }
  split; [cbn; rewrite (talked_limit _ _ _ T2); cbn; by rewrite (talked_limit _ _ _ T1)|].
  split; [rewrite app_nil_r; cbn; by transitivity (m_QueuedPlayer w1)|]. intros Hp.
  assert (plain w0) as Hp0.
  { intros b y Hy. cbn in Hy. apply lookup_insert_Some in Hy as [[_ <-]|[_ Hy]]; [rewrite B|]; by eapply Hp. }
  split.
  { intros b y Hy. cbn in Hy. apply lookup_delete_Some in Hy as [_ Hy].
    eapply (plain_talked _ _ _ T2); [|done]. by apply (plain_talked _ _ _ T1). }
  intros _ HL Hle. specialize (Ar3 HL Hle). unfold active in *. cbn. rewrite map_size_delete, Es, Hs. rewrite Es in Ar3. lia.
Qed.

Lemma tick_loop_ok env diff accounts (w : World) :
  inv w → NoDup accounts → (∀ acc, acc ∈ accounts → is_Some (m_sessions w !! acc)) →
  ∃ w', LoginQueue.update_loop env diff accounts w = (Ok tt, w') ∧ progress env [] w w'.
Proof.
  revert w. induction accounts as [|acc accounts IH]; intros w I Hnd Hacc.
  - exists w. split; [done|by apply progress_refl].
  - cbn [LoginQueue.update_loop]. unfold mbind at 1, X_bind at 1, getX at 1.
    apply NoDup_cons in Hnd as [Hn Hnd]. destruct (Hacc acc) as [a Ha]; [by left|]. rewrite Ha.
    destruct (inv_map _ I _ _ Ha) as (x & Hx & A1 & A2 & A3). rewrite (bindX_Ok _ _ _ _ _ (deref_ok _ _ _ Hx)).
    destruct (Update_updated diff x A2) as (b & x' & -> & U). unfold mbind at 1, X_bind at 1, modifyX at 1.
    rewrite (bindX_Ok (liftX _) _ _ b (set_heap (<[a:=x']> (heap w)) w)) by done.
    assert (∃ w1, (if b : bool then mret tt else remove_from_world env acc a) (set_heap (<[a:=x']> (heap w)) w) = (Ok tt, w1) ∧
      progress env [] w w1 ∧ (∀ acc', acc' ∈ accounts → m_sessions w1 !! acc' = m_sessions w !! acc')) as (w1 & E1 & P1 & M1).
    { destruct b.
      - eexists. split; [done|]. split; [by eapply updated_inv|done].
      - destruct (remove_from_world_ok env acc a x x' w I Ha Hx U) as (w1 & E1 & P1 & M1). exists w1. split; [done|].
        split; [done|]. intros acc' Hin. rewrite M1, lookup_delete_ne; [done|congruence]. }
    rewrite (bindX_Ok _ _ _ _ _ E1). destruct (IH w1) as (w2 & E2 & P2); [apply P1|done| |].
    + intros acc' Hin. rewrite M1 by done. apply Hacc. by right.
    + exists w2. split; [done|]. exact (progress_trans _ [] [] _ _ _ P1 P2).
Qed.

Lemma UpdateSessions_ok env diff (w : World) :
  walk_ok env → inv w → ∃ w', UpdateSessions env diff w = (Ok tt, w') ∧ progress env (addSessQueue w) w w'.
Proof.
  intros Hw I. unfold UpdateSessions. unfold mbind at 1, X_bind at 1, getX at 1.
  destruct (add_loop_ok env (S (length (addSessQueue w))) w Hw I) as (w1 & E1 & P1); [lia|].
  rewrite (bindX_Ok _ _ _ _ _ E1). unfold mbind at 1, X_bind at 1, getX at 1.
  destruct (tick_loop_ok env diff (walk env (m_sessions w1)) w1) as (w2 & E2 & P2).
  - apply P1.
  - by apply walk_nodup.
  - intros acc Hin. by eapply walk_keys.
  - exists w2. split; [done|]. rewrite <- (app_nil_r (addSessQueue w)). by eapply progress_trans.
Qed.

(** ** The world as a state machine *)

(** The network thread hands a new session over; the world ticks.  In a [strict] world nobody
    may skip the queue. *)
Inductive step (strict : bool) : World → World → Prop :=
| step_login a x w :
    heap w !! a = None → fine x → IsInQueue x = false → (strict = true → SkipsQueue x = false) →
    2 + Z.of_nat (size (m_sessions w)) + Z.of_nat (length (addSessQueue w)) < 2 ^ 32 →
    step strict w (AddSession a (set_heap (<[a := x]> (heap w)) w)).2
| step_tick env diff w w' :
    walk_ok env → (strict = true → config_disconnect_tolerance env = 0) →
    UpdateSessions env diff w = (Ok tt, w') → step strict w w'.

Lemma new_inv limit : 0 ≤ limit → inv (new limit : World).
Proof.
  intros HL. split; try done.
  - split; try done; [constructor|by constructor].
  - intros a Ha. by apply elem_of_nil in Ha.
  - constructor.
  - intros a Ha. by apply elem_of_nil in Ha.
Qed.

Lemma login_inv a x (w : World) :
  inv w → heap w !! a = None → fine x → IsInQueue x = false →
  2 + Z.of_nat (size (m_sessions w)) + Z.of_nat (length (addSessQueue w)) < 2 ^ 32 →
  inv (AddSession a (set_heap (<[a := x]> (heap w)) w)).2.
Proof.
  intros [[K1 K2 K3 K4 K5] I2 I3 I4 I5 I6 I7 I8] Hn Hf Hq Hsm.
  change (inv (set_addSessQueue (addSessQueue w ++ [a]) (set_heap (<[a := x]> (heap w)) w))).
  assert (∀ b y, heap w !! b = Some y → <[a:=x]> (heap w) !! b = Some y) as Hold.
  { intros b y Hy. rewrite lookup_insert_ne; [done|congruence]. }
  split; cbn; try done.
  - split; cbn; try done. unfold alive in *. eapply Forall_impl; [exact K2|]. intros b [y Hy]. exists y. by apply Hold.
  - intros acc b E. destruct (I3 acc b E) as (y & Hy & ?). exists y. split; [by apply Hold|done].
  - apply NoDup_app. split_and!; [done| |apply NoDup_singleton]. intros b Hb ->%list_elem_of_singleton.
    destruct (I5 a Hb) as (_ & y & Hy & _). congruence.
  - intros b [Hb| ->%list_elem_of_singleton]%elem_of_app.
    + destruct (I5 b Hb) as (A0 & y & Hy & ?). split; [done|]. exists y. split; [by apply Hold|done].
    + split; [|exists x; by rewrite lookup_insert_eq]. intros acc E. destruct (I3 acc a E) as (y & Hy & _). congruence.
  - rewrite length_app. cbn. lia.
Qed.

(** What holds of every world that is reached. *)
Definition good (strict : bool) (limit : Z) (w : World) : Prop :=
  inv w ∧ m_playerLimit w = limit ∧ (strict = true → plain w ∧ (0 < limit → active w ≤ limit)).

Lemma reachable_good strict limit w : 0 ≤ limit → rtc (step strict) (new limit) w → good strict limit w.
Proof.
  intros HL Hr. remember (new limit) as w0 eqn:E0.
  assert (good strict limit w0) as Hg.
  { subst w0. split; [by apply new_inv|]. split; [done|]. intros _. split; [by intros a x Hx|]. intros. unfold active. cbn [m_sessions m_QueuedPlayer new].
    rewrite map_size_empty. cbn. lia. }
  clear E0. induction Hr as [w|w w1 w2 Hs Hr IH]; [done|]. apply IH. clear IH Hr w2. destruct Hg as (I & L & P).
  destruct Hs as [a x w Hn Hf Hq Hsk Hsm|env diff w w' Hw Ht E].
  - split; [by apply login_inv|]. split; [done|]. intros Hst. destruct (P Hst) as [Hp Hb]. split; [|done].
    intros b y Hy. change (<[a := x]> (heap w) !! b = Some y) in Hy.
    apply lookup_insert_Some in Hy as [[_ <-]|[_ Hy]]; [by apply Hsk|by eapply Hp].
  - destruct (UpdateSessions_ok env diff w Hw I) as (w1 & E1 & I1 & L1 & _ & P1).
    rewrite E in E1. injection E1 as <-. split; [done|]. split; [congruence|]. intros Hst.
    destruct (P Hst) as [Hp Hb]. destruct (P1 Hp) as [Hp1 Hb1]. split; [done|].
    intros HL0. rewrite L in Hb1. apply Hb1; auto.
Qed.

End World.
