(* ===== verification/SessionPackets.v ===== *)
(** * SessionPackets: what a session tells its client about logging in.

    [game/Handlers/AuthHandler.cpp] and the senders of [game/Server/WorldSession.cpp] that the
    login queue uses: a session as [World] sees it, with its account, its addons and its
    tutorials, and the packets it sends through [WorldSession::SendPacket].  The rows of the
    login database and the clock are the environment's. *)
From S2P Require Import Prelude.
From stdpp Require Import strings list gmap.
From S2P Require Import ByteBuffer OpcodeTable WorldSocket WorldSession LoginQueue.
Open Scope string_scope.
Open Scope list_scope.
Open Scope Z_scope.

Module SessionPackets.

(** ** Data *)

Definition SMSG_AUTH_RESPONSE : Z := 0x0890.
Definition SMSG_CLIENTCACHE_VERSION : Z := 0x1489.
Definition SMSG_ACCOUNT_DATA_TIMES : Z := 0x0CD1.
Definition SMSG_TUTORIAL_FLAGS : Z := 0x0D7E.
Definition SMSG_ADDON_INFO : Z := 0x0C80.

Definition NUM_ACCOUNT_DATA_TYPES : nat := 8.
Definition GLOBAL_CACHE_MASK : Z := 0x15.
Definition MAX_ACCOUNT_TUTORIAL_VALUES : nat := 8.
Definition STANDARD_ADDON_CRC : Z := 0x4C1C776D.

Record AddonInfo : Type := mkAddonInfo {
  Name : list Z; Enabled : Z; CRC : Z; State : Z; UsePublicKeyOrCRC : bool }.

(** [AddonInfo addon(addonName, enabled, crc, 2, true)] of [ReadAddonsInfo]. *)
Definition read_addon (a : WorldSocket.AddonInfo) : AddonInfo :=
  mkAddonInfo (addon_Name a) (addon_Enabled a) (addon_CRC a) 2 true.

Record t : Type := mk {
  session : WorldSession.t;
  _accountId : Z;
  m_expansion : Z;
  skip_queue : bool;                           (* RBAC_PERM_SKIP_QUEUE *)
  m_addonsList : list AddonInfo;
  m_accountData : list Z;                      (* when each was written *)
  m_Tutorials : list Z }.

Definition set_session (x : WorldSession.t) (s : t) : t :=
  mk x (_accountId s) (m_expansion s) (skip_queue s) (m_addonsList s) (m_accountData s) (m_Tutorials s).
Definition set_addonsList (x : list AddonInfo) (s : t) : t :=
  mk (session s) (_accountId s) (m_expansion s) (skip_queue s) x (m_accountData s) (m_Tutorials s).

(** A method of the session itself. *)
Definition on {A} (m : X WorldSession.t A) : X t A := λ s,
  let '(r, x) := m (session s) in (r, set_session x s).

(** The rows of a query, which is null if there are none. *)
Record Env : Type := mkEnv {
  session_env : WorldSession.Env;
  realm_classes : list (Z * Z);                (* class, expansion *)
  realm_races : list (Z * Z);                  (* race, expansion *)
  now : t → Z;
  config_clientcache_version : Z;
  max_transfers : nat }.

Section SessionPackets.
Context (env : Env) (opcodeTable : table).

(** A packet is written and sent. *)
Definition send (opcode : Z) (m : M ByteBuffer.t unit) : X t unit :=
  '(_, b) ← liftX (m ByteBuffer.new);
  on (SendPacket (session_env env) opcodeTable (WorldPacket.mk opcode b) false).

(** ** The packets *)

Fixpoint write_rows (rows : list (Z * Z)) : M ByteBuffer.t unit :=
  match rows with
  | [] => mret tt
  | (f0, f1) :: rows => ByteBuffer.shl_uint8 f1;; ByteBuffer.shl_uint8 f0;; write_rows rows
  end.

(** The arguments [queued] and [queuePos] are not used for the contents. *)
Definition write_auth_response (code expansion : Z) : M ByteBuffer.t unit :=
  ByteBuffer.WriteBit 0;;
  ByteBuffer.WriteBit 1;; ByteBuffer.WriteBit 0;;
  ByteBuffer.WriteBit 0;;
  ByteBuffer.WriteBits (Z.of_nat (length (realm_races env))) 23;;
  ByteBuffer.WriteBit 0;;
  ByteBuffer.WriteBits 0 21;;
  ByteBuffer.WriteBits (Z.of_nat (length (realm_classes env))) 23;;
  ByteBuffer.WriteBits 0 22;;
  ByteBuffer.WriteBit 0;;
  ByteBuffer.FlushBits;;
  ByteBuffer.shl_uint8 0;;
  write_rows (realm_classes env);;
  write_rows (realm_races env);;
  ByteBuffer.shl_uint32 0;; ByteBuffer.shl_uint32 0;; ByteBuffer.shl_uint32 0;;
  ByteBuffer.shl_uint8 expansion;; ByteBuffer.shl_uint8 expansion;;
  ByteBuffer.shl_uint8 code.

Definition SendAuthResponse (code queuePos : Z) : X t unit :=
  match realm_classes env, realm_races env with
  | _ :: _, _ :: _ => s ← getX; send SMSG_AUTH_RESPONSE (write_auth_response code (m_expansion s))
  | _, _ => mret tt
  end.

Definition SendAuthWaitQue (position : Z) : X t unit :=
  if position =? 0 then
    send SMSG_AUTH_RESPONSE
      (ByteBuffer.WriteBit 0;; ByteBuffer.WriteBit 0;; ByteBuffer.FlushBits;; ByteBuffer.shl_uint8 AUTH_OK)
  else
    send SMSG_AUTH_RESPONSE
      (ByteBuffer.WriteBit 1;; ByteBuffer.WriteBit 0;; ByteBuffer.WriteBit 0;; ByteBuffer.FlushBits;;
       ByteBuffer.shl_uint8 AUTH_WAIT_QUEUE;; ByteBuffer.shl_uint32 position).

Definition SendClientCacheVersion (version : Z) : X t unit :=
  send SMSG_CLIENTCACHE_VERSION (ByteBuffer.shl_uint32 version).

Fixpoint write_uint32s (l : list Z) : M ByteBuffer.t unit :=
  match l with [] => mret tt | x :: l => ByteBuffer.shl_uint32 x;; write_uint32s l end.

Definition SendAccountDataTimes (mask : Z) : X t unit :=
  s ← getX;
  send SMSG_ACCOUNT_DATA_TIMES
    (ByteBuffer.shl_uint32 (now env s);; write_uint32s (take NUM_ACCOUNT_DATA_TYPES (m_accountData s));;
     ByteBuffer.shl_uint32 mask;; ByteBuffer.shl_uint8 1).

Definition SendTutorialsData : X t unit :=
  s ← getX; send SMSG_TUTORIAL_FLAGS (write_uint32s (take MAX_ACCOUNT_TUTORIAL_VALUES (m_Tutorials s))).

Definition addonPublicKey : list Z :=
  [0xC3; 0x5B; 0x50; 0x84; 0xB9; 0x3E; 0x32; 0x42; 0x8C; 0xD0; 0xC7; 0x48; 0xFA; 0x0E; 0x5D; 0x54;
   0x5A; 0xA3; 0x0E; 0x14; 0xBA; 0x9E; 0x0D; 0xB9; 0x5D; 0x8B; 0xEE; 0xB6; 0x84; 0x93; 0x45; 0x75;
   0xFF; 0x31; 0xFE; 0x2F; 0x64; 0x3F; 0x3D; 0x6D; 0x07; 0xD9; 0x44; 0x9B; 0x40; 0x85; 0x59; 0x34;
   0x4E; 0x10; 0xE1; 0xE7; 0x43; 0x69; 0xEF; 0x7C; 0x16; 0xFC; 0xB4; 0xED; 0x1B; 0x95; 0x28; 0xA8;
   0x23; 0x76; 0x51; 0x31; 0x57; 0x30; 0x2B; 0x79; 0x08; 0x50; 0x10; 0x1C; 0x4A; 0x1A; 0x2C; 0xC8;
   0x8B; 0x8F; 0x05; 0x2D; 0x22; 0x3D; 0xDB; 0x5A; 0x24; 0x7A; 0x0F; 0x13; 0x50; 0x37; 0x8F; 0x5A;
   0xCC; 0x9E; 0x04; 0x44; 0x0E; 0x87; 0x01; 0xD4; 0xA3; 0x15; 0x94; 0x16; 0x34; 0xC6; 0xC2; 0xC3;
   0xFB; 0x49; 0xFE; 0xE1; 0xF9; 0xDA; 0x8C; 0x50; 0x3C; 0xBE; 0x2C; 0xBB; 0x57; 0xED; 0x46; 0xB9;
   0xAD; 0x8B; 0xC6; 0xDF; 0x0E; 0xD6; 0x0F; 0xBE; 0x80; 0xB3; 0x8B; 0x1E; 0x77; 0xCF; 0xAD; 0x22;
   0xCF; 0xB7; 0x4B; 0xCF; 0xFB; 0xF0; 0x6B; 0x11; 0x45; 0x2D; 0x7A; 0x81; 0x18; 0xF2; 0x92; 0x7E;
   0x98; 0x56; 0x5D; 0x5E; 0x69; 0x72; 0x0A; 0x0D; 0x03; 0x0A; 0x85; 0xA2; 0x85; 0x9C; 0xCB; 0xFB;
   0x56; 0x6E; 0x8F; 0x44; 0xBB; 0x8F; 0x02; 0x22; 0x68; 0x63; 0x97; 0xBC; 0x85; 0xBA; 0xA8; 0xF7;
   0xB5; 0x40; 0x68; 0x3C; 0x77; 0x86; 0x6F; 0x4B; 0xD7; 0x88; 0xCA; 0x8A; 0xD7; 0xCE; 0x36; 0xF0;
   0x45; 0x6E; 0xD5; 0x64; 0x79; 0x0F; 0x17; 0xFC; 0x64; 0xDD; 0x10; 0x6F; 0xF3; 0xF5; 0xE0; 0xA6;
   0xC3; 0xFB; 0x1B; 0x8C; 0x29; 0xEF; 0x8E; 0xE5; 0x34; 0xCB; 0xD1; 0x2A; 0xCE; 0x79; 0xC3; 0x9A;
   0x0D; 0x36; 0xEA; 0x01; 0xE0; 0xAA; 0x91; 0x20; 0x54; 0xF0; 0x72; 0xD8; 0x1E; 0xC7; 0x89; 0xD2].

Definition write_addon (a : AddonInfo) : M ByteBuffer.t unit :=
  ByteBuffer.shl_uint8 (State a);;
  ByteBuffer.shl_uint8 (Z.b2z (UsePublicKeyOrCRC a));;
  (when UsePublicKeyOrCRC a do
     (let usepk := negb (CRC a =? STANDARD_ADDON_CRC) in
      ByteBuffer.shl_uint8 (Z.b2z usepk);;
      (when usepk do ByteBuffer.append addonPublicKey);;
      ByteBuffer.shl_uint32 0));;
  ByteBuffer.shl_uint8 0.

Fixpoint write_addons (l : list AddonInfo) : M ByteBuffer.t unit :=
  match l with [] => mret tt | a :: l => write_addon a;; write_addons l end.

Definition SendAddonsInfo : X t unit :=
  s ← getX;
  '(_, b) ← liftX (write_addons (m_addonsList s) ByteBuffer.new);
  modifyX (set_addonsList []);;
  '(_, b) ← liftX (ByteBuffer.shl_uint32 0 b);
  on (SendPacket (session_env env) opcodeTable (WorldPacket.mk SMSG_ADDON_INFO b) false).

(** What [World] has a session say. *)
Definition tell (n : notice) : X t unit :=
  match n with
  | AuthResponse code queuePos => SendAuthResponse code queuePos
  | AuthWaitQue position => SendAuthWaitQue position
  | AddonsInfo => SendAddonsInfo
  | ClientCacheVersion => SendClientCacheVersion (config_clientcache_version env)
  | AccountDataTimes => SendAccountDataTimes GLOBAL_CACHE_MASK
  | TutorialsData => SendTutorialsData
  end.

(** ** A session as the world uses it *)

#[export] Instance session_ops : SessionOps t := {
  GetAccountId := _accountId;
  IsInQueue s := m_inQueue (session s);
  PlayerLoading s := m_playerLoading (session s);
  SkipsQueue := skip_queue;
  SetInQueue b s := (on (WorldSession.SetInQueue b) s).2;
  ResetTimeOutTime s := (on (WorldSession.ResetTimeOutTime (session_env env)) s).2;
  KickPlayer s := (on WorldSession.KickPlayer s).2;
  Tell n s := (tell n s).2;
  Update diff s :=
    on (WorldSession.Update (session_env env) opcodeTable (max_transfers env) diff WorldSessionFilter) s;
  destroy s := (WorldSession.destructor (session_env env) opcodeTable (max_transfers env) (session s)).1 }.

End SessionPackets.
End SessionPackets.
