(* ===== verification/SessionPacketsProps.v ===== *)
(** * SessionPacketsProps: sessions keep what the login queue relies on.

    [WorldSession] with the packets of SessionPackets.v implements the interface of the login
    queue; and what becomes of the addons that a client says it has. *)
From S2P Require Import Prelude.
From stdpp Require Import strings list gmap sets.
From S2P Require Import Bits ByteBuffer ByteBufferStream OpcodeTable WorldSocket WorldSession WorldSessionProps LoginQueue LoginQueueProps SessionPackets.
Open Scope string_scope.
Open Scope list_scope.
Open Scope Z_scope.

(** ** The flag of the queue is the world's *)

Definition same_queue : relation WorldSession.t := λ s s', m_inQueue s' = m_inQueue s.
#[export] Instance same_queue_preorder : PreOrder same_queue.
Proof. split; [done|]. unfold same_queue. intros ???. congruence. Qed.

(** [SetInQueue] is called by [World] only. *)
Class HandlersKeepQueue (env : WorldSession.Env) : Prop :=
  handlers_keep_queue : ∀ name p, keeps same_queue (handler env name p).

Section Queue.
Context (env : WorldSession.Env) (opcodeTable : table) `{!HandlersKeepQueue env}.

Lemma same_queue_ask {A} (f : list WorldSession.call → A) : keeps same_queue (ask f).
Proof. by intros s. Qed.
Lemma same_queue_emit c : keeps same_queue (emit c).
Proof. by intros s. Qed.
Hint Resolve same_queue_ask same_queue_emit : keeps.

Lemma same_queue_network es : keeps same_queue (network_steps es).
Proof. induction es as [|[] es IH]; cbn [network_steps network_step]; unfold QueuePacket; keeps. Qed.
Lemma same_queue_turn : keeps same_queue network_turn.
Proof. unfold network_turn. keeps. apply same_queue_network. Qed.

Lemma same_queue_SendPacket p forced : keeps same_queue (WorldSession.SendPacket env opcodeTable p forced).
Proof. unfold WorldSession.SendPacket. keeps. Qed.
Lemma same_queue_deref p : keeps same_queue (WorldSession.deref p).
Proof. unfold WorldSession.deref. keeps. Qed.
Hint Resolve same_queue_turn same_queue_SendPacket same_queue_deref : keeps.
Lemma same_queue_delete p : keeps same_queue (delete_packet p).
Proof. unfold delete_packet. keeps. Qed.
Hint Resolve same_queue_delete : keeps.

Lemma same_queue_transfers logout first n :
  keeps same_queue logout → keeps same_queue (finish_transfers env logout first n).
Proof. intros Hl. induction n as [|n IH]; cbn [finish_transfers]; keeps. Qed.
Lemma same_queue_LogoutPlayer n save : keeps same_queue (LogoutPlayer env opcodeTable n save).
Proof.
  revert save. induction n as [|n IH]; intros save; cbn [LogoutPlayer]; [keeps|]. unfold LogoutRequest.
  pose proof (λ first, same_queue_transfers _ first n (IH false)). keeps.
Qed.
Hint Resolve same_queue_LogoutPlayer : keeps.

Lemma same_queue_run_handler h p : keeps same_queue (run_handler env h p).
Proof using HandlersKeepQueue0. unfold run_handler. pose proof (@handlers_keep_queue env _). keeps. Qed.
Hint Resolve same_queue_run_handler : keeps.
Lemma same_queue_Process f p : keeps same_queue (Process opcodeTable f p).
Proof. unfold Process, opHandle. keeps. Qed.
Hint Resolve same_queue_Process : keeps.
Lemma same_queue_process_packet p first dp : keeps same_queue (process_packet env opcodeTable p first dp).
Proof using HandlersKeepQueue0. unfold process_packet, opHandle, dispatch, QueuePacket. keeps. Qed.
Hint Resolve same_queue_process_packet : keeps.
Lemma same_queue_loop n f first dp : keeps same_queue (WorldSession.update_loop env opcodeTable n f first dp).
Proof using HandlersKeepQueue0.
  revert first dp. induction n as [|n IH]; intros; cbn [WorldSession.update_loop]; unfold next; keeps.
Qed.
Hint Resolve same_queue_loop : keeps.

Lemma same_queue_Update n diff f : keeps same_queue (WorldSession.Update env opcodeTable n diff f).
Proof using HandlersKeepQueue0.
  unfold WorldSession.Update, UpdateTimeOutTime, close_idle, finish_update, warden_update. keeps.
Qed.

End Queue.

(** ** What a session says is its own affair *)

Definition said : relation WorldSession.t := λ s s',
  quiet s s' ∧ m_inQueue s' = m_inQueue s ∧ (is_Some (m_Socket s) → is_Some (m_Socket s')).
#[export] Instance said_preorder : PreOrder said.
Proof.
  split; [intros s; split; [reflexivity|done]|]. intros s1 s2 s3 (Q1 & E1 & S1) (Q2 & E2 & S2).
  split; [by etrans|]. split; [congruence|auto].
Qed.

Definition told : relation SessionPackets.t := λ s s',
  said (SessionPackets.session s) (SessionPackets.session s') ∧
  SessionPackets._accountId s' = SessionPackets._accountId s ∧ SessionPackets.skip_queue s' = SessionPackets.skip_queue s ∧
  (length (SessionPackets.m_addonsList s') ≤ length (SessionPackets.m_addonsList s))%nat.
#[export] Instance told_preorder : PreOrder told.
Proof.
  split; [intros s; split; [reflexivity|done]|]. intros s1 s2 s3 (Q1 & E1 & F1 & L1) (Q2 & E2 & F2 & L2).
  split; [by etrans|]. split_and!; [congruence..|lia].
Qed.

Lemma said_emit c : silent c → keeps said (emit c).
Proof. intros Hc. apply keeps_modify. intros s. split; [|done]. split_and!; [done..|]. exists [c]. split; [done|by apply Forall_singleton]. Qed.
Lemma said_same f : (∀ s, quiet s (f s)) → (∀ s, m_inQueue (f s) = m_inQueue s) →
  (∀ s, is_Some (m_Socket s) → is_Some (m_Socket (f s))) → keeps said (modifyX f).
Proof. intros H1 H2 H3. apply keeps_modify. intros s. split; auto. Qed.
Lemma quiet_same f : (∀ s, _recvQueue (f s) = _recvQueue s ∧ WorldSession.heap (f s) = WorldSession.heap s ∧ network (f s) = network s ∧ calls (f s) = calls s) →
  ∀ s, quiet s (f s).
Proof. intros H s. destruct (H s) as (E1 & E2 & E3 & E4). split_and!; [done..|]. by exists []. Qed.

Section Told.
Context (env : SessionPackets.Env) (opcodeTable : table).

Lemma said_SendPacket p forced :
  keeps said (WorldSession.SendPacket (SessionPackets.session_env env) opcodeTable p forced).
Proof.
  unfold WorldSession.SendPacket.
  assert (keeps said (modifyX (set_Socket (Some true)))) as H1.
  { apply said_same; [by apply quiet_same|done|by eexists]. }
  pose proof (said_emit (SocketSend p) I). pose proof (said_emit CloseSocket I).
  assert (∀ A (f : list WorldSession.call → A), keeps said (ask f)) by (intros A f s; cbn; reflexivity).
  keeps.
Qed.

Lemma said_KickPlayer : keeps said WorldSession.KickPlayer.
Proof.
  unfold WorldSession.KickPlayer.
  assert (keeps said (modifyX (set_Socket (Some true)))) as H1.
  { apply said_same; [by apply quiet_same|done|by eexists]. }
  pose proof (said_emit CloseSocket I). keeps.
Qed.

Lemma told_on {A} (m : X WorldSession.t A) : keeps said m → keeps told (SessionPackets.on m).
Proof.
  intros Hm s. unfold SessionPackets.on. specialize (Hm (SessionPackets.session s)).
  destruct (m (SessionPackets.session s)) as [r x]. by split.
Qed.

Lemma told_send opcode m : keeps told (SessionPackets.send env opcodeTable opcode m).
Proof.
  unfold SessionPackets.send. pose proof (λ p, told_on _ (said_SendPacket p false)). keeps.
Qed.

Lemma told_tell n : keeps told (SessionPackets.tell env opcodeTable n).
Proof.
  pose proof told_send. pose proof (λ p, told_on _ (said_SendPacket p false)).
  assert (keeps told (modifyX (SessionPackets.set_addonsList []))).
  { apply keeps_modify. intros s. split; [reflexivity|]. split_and!; [done..|cbn; lia]. }
  destruct n; cbn [SessionPackets.tell];
    unfold SessionPackets.SendAuthResponse, SessionPackets.SendAuthWaitQue, SessionPackets.SendAddonsInfo,
      SessionPackets.SendClientCacheVersion, SessionPackets.SendAccountDataTimes, SessionPackets.SendTutorialsData; keeps.
Qed.

End Told.

(** ** The packets can be written *)

Section Writes.
Import ByteBuffer Stream.

(** A method that writes at most [n] bytes, if there is room for them. *)
Definition within {A} (n : Z) (m : M ByteBuffer.t A) : Prop := ∀ b w,
  writer b w → Z.of_nat (length w.1) + n ≤ MAX_SIZE →
  ∃ a b' w', m b = Ok (a, b') ∧ writer b' w' ∧ Z.of_nat (length w'.1) ≤ Z.of_nat (length w.1) + n.

Lemma within_ret {A} (a : A) : within 0 (mret a).
Proof. intros b w Hw _. exists a, b, w. split; [done|]. split; [done|lia]. Qed.
Lemma within_bind {A B} n k (m : M ByteBuffer.t A) (f : A → M ByteBuffer.t B) :
  0 ≤ k → within n m → (∀ a, within k (f a)) → within (n + k) (m ≫= f).
Proof.
  intros Hk Hm Hf b w Hw Hs. destruct (Hm b w Hw) as (a & b1 & w1 & E1 & Hw1 & Hs1); [lia|].
  destruct (Hf a b1 w1 Hw1) as (c & b2 & w2 & E2 & Hw2 & Hs2); [lia|].
  exists c, b2, w2. split; [by rewrite (bind_Ok _ _ _ _ _ E1)|]. split; [done|lia].
Qed.
Lemma within_weaken {A} n k (m : M ByteBuffer.t A) : n ≤ k → within n m → within k m.
Proof. intros Hn Hm b w Hw Hs. destruct (Hm b w Hw) as (a & b' & w' & ? & ? & ?); [lia|]. exists a, b', w'. split_and!; [done..|lia]. Qed.

Lemma within_WriteBit z : within 1 (WriteBit z).
Proof.
  intros b [s acc] Hw Hs. cbn in Hs. destruct (WriteBit_writer z b s acc Hw) as (b' & E & Hw' & _); [lia|].
  exists (z2b z), b', (step (s, acc) (TBit (z2b z))). split; [done|]. split; [done|]. cbn.
  destruct (length acc =? 7)%nat; cbn; rewrite ?length_app; cbn; lia.
Qed.
Lemma within_WriteBits v n : within (Z.of_nat n) (WriteBits v n).
Proof.
  induction n as [|n IH]; [apply within_ret|]. cbn [WriteBits].
  eapply within_weaken; [|apply within_bind; [|apply within_WriteBit|intros; exact IH]]; lia.
Qed.
Lemma within_FlushBits : within 1 FlushBits.
Proof.
  intros b [s acc] Hw Hs. cbn in Hs. destruct (FlushBits_writer b s acc Hw) as (b' & E & Hw' & _); [lia|].
  exists tt, b', (s ++ flush acc, []). split; [done|]. split; [done|]. cbn. rewrite length_app. destruct acc; cbn; lia.
Qed.
Lemma within_append src : src ≠ [] → within (Z.of_nat (length src)) (append src).
Proof.
  intros Hsrc b [s acc] Hw Hs. cbn in Hs.
  assert (length src ≠ 0)%nat by (by destruct src).
  exists tt, (mk (rpos b) (wpos b + length src) (bitpos b) (curbitval b) (s ++ src)), (s ++ src, acc).
  split; [apply (append_writer b s acc src Hw Hsrc); lia|]. split; [|cbn; rewrite length_app; lia].
  destruct Hw as [? Hp ? ? ?]. split; cbn in *; try done. rewrite length_app. lia.
Qed.
Lemma within_append_val k v : (0 < k)%nat → within (Z.of_nat k + 2) (append_val k v).
Proof.
  intros Hk. unfold append_val. eapply within_weaken; [|apply within_bind; [|apply within_FlushBits|intros; apply within_append]].
  - rewrite length_le_bytes. lia.
  - lia.
  - intros E. apply (f_equal length) in E. rewrite length_le_bytes in E. cbn in E. lia.
Qed.

End Writes.

Section Returns.
Import ByteBuffer SessionPackets.
Context (env : SessionPackets.Env) (opcodeTable : table).

(** Steps along a writer; the bounds add up. *)
Ltac write_step := lazymatch goal with
  | |- within _ (mret _) => apply within_ret
  | |- within _ (WriteBit _) => apply within_WriteBit
  | |- within _ (WriteBits _ _) => apply within_WriteBits
  | |- within _ FlushBits => apply within_FlushBits
  | |- within _ (shl_uint8 _) => apply (within_append_val 1); lia
  | |- within _ (shl_uint32 _) => apply (within_append_val 4); lia
  | |- within _ (_ ≫= _) => eapply within_bind; [|write_step|intros; write_step]; lia
  | |- within _ _ => eassumption || eauto
  end.

Lemma within_rows rows : within (6 * Z.of_nat (length rows)) (write_rows rows).
Proof.
  induction rows as [|[f0 f1] rows IH]; [apply within_ret|]. cbn [write_rows length].
  eapply within_weaken; [|write_step]; lia.
Qed.
Lemma within_uint32s l : within (6 * Z.of_nat (length l)) (write_uint32s l).
Proof.
  induction l as [|x l IH]; [apply within_ret|]. cbn [write_uint32s length].
  eapply within_weaken; [|write_step]; lia.
Qed.
Lemma within_addon a : within 274 (write_addon a).
Proof.
  unfold write_addon.
  assert (within 256 (append addonPublicKey)) by by apply (within_append addonPublicKey).
  destruct (UsePublicKeyOrCRC a), (CRC a =? STANDARD_ADDON_CRC); cbn [negb Z.b2z];
    (eapply within_weaken; [|write_step]); lia.
Qed.
Lemma within_addons l : within (274 * Z.of_nat (length l)) (write_addons l).
Proof.
  induction l as [|a l IH]; [apply within_ret|]. cbn [write_addons length].
  eapply within_weaken; [|eapply within_bind; [|apply within_addon|intros; exact IH]; lia]. lia.
Qed.

Lemma sends_returns opcode p s :
  0 ≤ opcode < NUM_OPCODE_HANDLERS →
  ∃ s', on (WorldSession.SendPacket (session_env env) opcodeTable (WorldPacket.mk opcode p) false) s = (Ok tt, s').
Proof.
  intros Hop. unfold on.
  destruct (SendPacket_quiet (session_env env) opcodeTable (WorldPacket.mk opcode p) false (session s)) as ([] & x & E & _); [done|].
  rewrite E. by eexists.
Qed.
Lemma send_returns n opcode m s :
  0 ≤ opcode < NUM_OPCODE_HANDLERS → within n m → n ≤ MAX_SIZE →
  ∃ s', send env opcodeTable opcode m s = (Ok tt, s').
Proof.
  intros Hop Hm Hn. unfold send. destruct (Hm new ([], []) Stream.writer_new) as ([] & b & w & E & _); [cbn; lia|].
  erewrite bindX_Ok; [|by unfold liftX; rewrite E]. by apply sends_returns.
Qed.

(** The rows of the login database fit into a packet, and so do the addons of the session. *)
Definition rows_fit : Prop :=
  Z.of_nat (length (realm_classes env)) + Z.of_nat (length (realm_races env)) ≤ 1000000.
Definition addons_fit (s : SessionPackets.t) : Prop := Z.of_nat (length (m_addonsList s)) ≤ 30000.

Lemma tell_returns n s : rows_fit → addons_fit s → ∃ s', tell env opcodeTable n s = (Ok tt, s').
Proof.
  unfold rows_fit, addons_fit, MAX_SIZE. intros Hrows Haddons.
  pose proof within_rows. pose proof within_uint32s.
  destruct n as [code pos|pos| | | |]; cbn [tell].
  - unfold SendAuthResponse. destruct (realm_classes env) as [|c cs] eqn:Ec; [by eexists|].
    destruct (realm_races env) as [|r rs] eqn:Er; [by eexists|]. rewrite <- Ec, <- Er in Hrows.
    rewrite (bindX_Ok _ _ s s s) by done.
    eapply send_returns; [done|unfold write_auth_response; write_step|unfold MAX_SIZE; lia].
  - unfold SendAuthWaitQue. destruct (pos =? 0); (eapply send_returns; [done|write_step|unfold MAX_SIZE; lia]).
  - unfold SendAddonsInfo. rewrite (bindX_Ok _ _ s s s) by done.
    destruct (within_addons (m_addonsList s) new ([], []) Stream.writer_new) as ([] & b & w & E & Hw & Hl); [cbn; unfold MAX_SIZE; lia|].
    erewrite bindX_Ok; [|by unfold liftX; rewrite E]. cbn beta iota. erewrite bindX_Ok; [|done].
    destruct (within_append_val 4 0 ltac:(lia) b w Hw) as ([] & b' & w' & E' & _); [cbn in Hl |- *; unfold MAX_SIZE; lia|].
    erewrite bindX_Ok; [|unfold shl_uint32, liftX; by rewrite E']. by apply sends_returns.
  - eapply send_returns; [done|unfold shl_uint32; apply (within_append_val 4); lia|unfold MAX_SIZE; lia].
  - unfold SendAccountDataTimes. rewrite (bindX_Ok _ _ s s s) by done.
    eapply send_returns; [done|write_step|unfold MAX_SIZE, NUM_ACCOUNT_DATA_TYPES; rewrite length_take; lia].
  - unfold SendTutorialsData. rewrite (bindX_Ok _ _ s s s) by done.
    eapply send_returns; [done|apply within_uint32s|unfold MAX_SIZE, MAX_ACCOUNT_TUTORIAL_VALUES; rewrite length_take; lia].
Qed.

End Returns.

(** ** The end of a session *)

Lemma delete_packets_returns q s :
  NoDup (address <$> q) → Forall (λ p, address p ∈ WorldSession.heap s) q → ∃ s', delete_packets q s = (Ok tt, s').
Proof.
  revert s. induction q as [|p q IH]; intros s Hn Ha; [by eexists|].
  cbn [fmap list_fmap] in Hn. apply NoDup_cons in Hn as [Hp Hn]. apply Forall_cons in Ha as [Hap Ha].
  cbn [delete_packets]. erewrite bindX_Ok; [|done]. erewrite bindX_Ok; [|by apply delete_packet_spec].
  apply IH; [done|]. cbn. rewrite Forall_forall in Ha |- *. intros p' Hp'. apply elem_of_difference. split; [by apply Ha|].
  rewrite elem_of_singleton. intros E. apply Hp. rewrite <- E. by apply list_elem_of_fmap_2.
Qed.

Lemma destructor_returns env opcodeTable `{!HandlersOk env} n s :
  transfers_end env → wf opcodeTable s → (destructor env opcodeTable (S (S (S n))) s).1 = Ok tt.
Proof.
  intros Hends Hwf. unfold destructor.
  assert (quietly (match _player s with Some _ => LogoutPlayer env opcodeTable (S (S (S n))) true | None => mret tt end) s)
    as (? & s1 & E1 & Q1).
  { destruct (_player s); [by apply LogoutPlayer_quiet|apply quietly_ret]. }
  assert (quietly (match m_Socket s1 with
     | Some _ => emit CloseSocket;; emit RemoveReference;; modifyX (set_Socket None) | None => mret tt end) s1)
    as (? & s2 & E2 & Q2).
  { destruct (m_Socket s1); [|apply quietly_ret].
    apply quietly_bind; [by apply quietly_emit|]. intros _ ? [= <-].
    apply quietly_bind; [by apply quietly_emit|]. intros _ ? [= <-]. apply quietly_modify. by apply quiet_same. }
  destruct (wf_quiet opcodeTable s s2 ltac:(by etrans) Hwf) as [_ Hd Ha _].
  destruct (delete_packets_returns (_recvQueue s2) s2) as [s3 E3]; [|done|].
  { unfold to_come in Hd. rewrite fmap_app in Hd. by apply NoDup_app in Hd as [? _]. }
  erewrite bindX_Ok; [|done]. erewrite bindX_Ok; [|exact E1]. erewrite bindX_Ok; [|done].
  erewrite bindX_Ok; [|exact E2]. erewrite bindX_Ok; [|done]. by erewrite bindX_Ok; [|exact E3].
Qed.

(** ** Sessions implement the interface of the queue *)

Record EnvOk (env : SessionPackets.Env) : Prop := {
  env_handlers :: HandlersOk (SessionPackets.session_env env);
  env_queue :: HandlersKeepQueue (SessionPackets.session_env env);
  env_transfers : transfers_end (SessionPackets.session_env env);
  env_max : (3 ≤ SessionPackets.max_transfers env)%nat }.
Existing Class EnvOk.

Section Laws.
Import SessionPackets.
Context (env : SessionPackets.Env) (opcodeTable : table) `{!EnvOk env}.
#[local] Instance ops : SessionOps SessionPackets.t := session_ops env opcodeTable.

Definition fine (s : SessionPackets.t) : Prop := wf opcodeTable (session s) ∧ is_Some (m_Socket (session s)).
Definition dying (s : SessionPackets.t) : Prop := wf opcodeTable (session s).

Lemma told_kept s s' : told s s' →
  _accountId s' = _accountId s ∧ skip_queue s' = skip_queue s ∧ m_inQueue (session s') = m_inQueue (session s) ∧
  (fine s → fine s') ∧ (dying s → dying s').
Proof.
  intros ((Hq & Hf & Hs) & Ha & Hk & _). split_and!; [done..| |].
  - intros [H1 H2]. split; [by eapply wf_quiet|auto].
  - intros H1. by eapply wf_quiet.
Qed.

Lemma SetInQueue_kept b s : let s' := SetInQueue b s in
  _accountId s' = _accountId s ∧ skip_queue s' = skip_queue s ∧ m_inQueue (session s') = b ∧
  (fine s → fine s') ∧ (dying s → dying s').
Proof.
  assert (quiet (session s) (set_inQueue b (session s))) as Hq by by apply quiet_same.
  split_and!; [done..| |]; [intros [H1 H2]; split; [by eapply wf_quiet|done]|intros H1; by eapply wf_quiet].
Qed.
Lemma ResetTimeOutTime_told s : told s (ResetTimeOutTime s).
Proof. split; [|done]. split; [by apply quiet_same|done]. Qed.
Lemma KickPlayer_told s : told s (KickPlayer s).
Proof. apply (told_on _ said_KickPlayer s). Qed.
Lemma Tell_told n s : told s (Tell n s).
Proof. apply (told_tell env opcodeTable n s). Qed.

Lemma Update_kept d s : let s' := (Update d s).2 in
  _accountId s' = _accountId s ∧ skip_queue s' = skip_queue s ∧ m_inQueue (session s') = m_inQueue (session s).
Proof using All.
  cbn. unfold on.
  pose proof (same_queue_Update (session_env env) opcodeTable (max_transfers env) d WorldSessionFilter (session s)) as H.
  destruct (WorldSession.Update _ _ _ _ _ _) as [r x]. done.
Qed.

#[export] Instance session_laws : SessionLaws SessionPackets.t.
Proof using All.
  refine {| LoginQueueProps.fine := fine; LoginQueueProps.dying := dying |}.
  - by intros x [H _].
  - intros x b n d. destruct (SetInQueue_kept b x) as (? & _). destruct (Update_kept d x) as (? & _).
    destruct (told_kept _ _ (ResetTimeOutTime_told x)) as (? & _), (told_kept _ _ (KickPlayer_told x)) as (? & _),
      (told_kept _ _ (Tell_told n x)) as (? & _). by split_and!.
  - intros x b n d. destruct (SetInQueue_kept b x) as (_ & ? & _). destruct (Update_kept d x) as (_ & ? & _).
    destruct (told_kept _ _ (ResetTimeOutTime_told x)) as (_ & ? & _), (told_kept _ _ (KickPlayer_told x)) as (_ & ? & _),
      (told_kept _ _ (Tell_told n x)) as (_ & ? & _). by split_and!.
  - intros x b n d. destruct (SetInQueue_kept b x) as (_ & _ & ? & _). destruct (Update_kept d x) as (_ & _ & ?).
    destruct (told_kept _ _ (ResetTimeOutTime_told x)) as (_ & _ & ? & _), (told_kept _ _ (KickPlayer_told x)) as (_ & _ & ? & _),
      (told_kept _ _ (Tell_told n x)) as (_ & _ & ? & _). by split_and!.
  - intros x b n H. split_and!; [by apply SetInQueue_kept| | |];
      (eapply told_kept; [|exact H]); [apply ResetTimeOutTime_told|apply KickPlayer_told|apply Tell_told].
  - intros x b n H. split_and!; [by apply SetInQueue_kept| | |];
      (eapply told_kept; [|exact H]); [apply ResetTimeOutTime_told|apply KickPlayer_told|apply Tell_told].
  - intros x d [Hwf Hs]. pose proof (env_max env _) as Hm. cbn. unfold on, dying, fine.
    destruct (max_transfers env) as [|[|[|n]]]; [lia..|].
    destruct (Update_phases (session_env env) opcodeTable n d WorldSessionFilter (session x) Hwf Hs (env_transfers env _))
      as (? & ? & b & s3 & E & _ & _ & _ & _ & Hwf3 & _ & Hb).
    rewrite E. exists b. split; [done|]. split; [done|]. intros Hb'. split; [done|].
    exists false. by apply Hb.
  - intros x Hx. pose proof (env_max env _) as Hm. cbn. destruct (max_transfers env) as [|[|[|n]]]; [lia..|].
    apply destructor_returns; [apply _|by apply env_transfers|done].
Defined.

End Laws.

(** ** The queue, whatever the sessions *)

(** C9. Whatever sessions arrive and however the world ticks: a tick ends and follows no pointer
    to a deleted session; exactly the sessions in the queue carry the flag that keeps them from
    acting; each was last told its present position; nobody waits while there is room; a tick
    keeps the order of the queue, with the newcomers at its end in the order of their arrival;
    and if nobody may skip the queue, never more than the limit are in. *)
Theorem login_queue `{SessionLaws Session} (strict : bool) (limit : Z) (w : LoginQueue.t Session) :
  0 ≤ limit → rtc (step strict) (new limit) w →
  (∀ env diff, walk_ok env → ∃ w', UpdateSessions env diff w = (Ok tt, w') ∧
     m_QueuedPlayer w' `sublist_of` m_QueuedPlayer w ++ addSessQueue w) ∧
  (∀ acc a, m_sessions w !! acc = Some a → ∃ x, LoginQueue.heap w !! a = Some x ∧ GetAccountId x = acc ∧
     IsInQueue x = bool_decide (a ∈ m_QueuedPlayer w)) ∧
  (∀ i a, m_QueuedPlayer w !! i = Some a → position_told a (LoginQueue.told w) = Some (Z.of_nat i + 1)) ∧
  (m_QueuedPlayer w ≠ [] → limit ≤ active w) ∧
  (strict = true → 0 < limit → active w ≤ limit).
Proof.
  intros HL Hr. destruct (reachable_good strict limit w HL Hr) as (I & L & P). split_and!.
  - intros env diff Hw. destruct (UpdateSessions_ok env diff w Hw I) as (w' & E & _ & _ & S & _). by exists w'.
  - intros acc a E. destruct (inv_map _ I _ _ E) as (x & ? & ? & _ & ?). by exists x.
  - apply (queue_told _ (inv_queue _ I)).
  - rewrite <- L. apply (inv_tight _ I).
  - intros Hs. by apply P.
Qed.

(** C28. A disconnected account is remembered for good: disconnections lie in the past, so the
    difference that [HasRecentlyDisconnected] compares with the tolerance is negative, and the
    account skips the queue however long ago it was disconnected. *)
Theorem disconnected_skip_forever `{SessionLaws Session} env a x (w : LoginQueue.t Session) :
  LoginQueue.heap w !! a = Some x → walk_ok env → 0 < config_disconnect_tolerance env →
  map_Forall (λ _ disconnected, disconnected ≤ time env) (m_disconnects w) →
  HasRecentlyDisconnected env a w = (Ok (bool_decide (is_Some (m_disconnects w !! GetAccountId x))), w).
Proof.
  intros Hx Hw Ht Hd. unfold HasRecentlyDisconnected. rewrite (bindX_Ok _ _ _ _ _ (deref_ok _ _ _ Hx)).
  unfold z2b. rewrite (proj2 (Z.eqb_neq _ 0)) by lia. cbn [negb]. unfold mbind at 1, X_bind at 1, getX at 1.
  rewrite <- (bool_decide_ext _ _ (walk_keys env (m_disconnects w) (GetAccountId x) Hw)).
  assert (∀ k, k ∈ walk env (m_disconnects w) → ∃ d, m_disconnects w !! k = Some d ∧ d ≤ time env) as Hk.
  { intros k Hin. apply (walk_keys _ _ _ Hw) in Hin as [d E]. exists d. split; [done|]. by apply (Hd k). }
  revert Hk. generalize (walk env (m_disconnects w)). intros keys Hk.
  induction keys as [|k keys IH]; [done|]. cbn [recently_loop]. unfold mbind at 1, X_bind at 1, getX at 1.
  destruct (Hk k) as (d & -> & Hle); [by left|]. rewrite (proj2 (Z.ltb_lt _ _)) by lia.
  destruct (Z.eqb_spec k (GetAccountId x)) as [->|Hne].
  - rewrite bool_decide_true by (by left). done.
  - rewrite IH by (intros; apply Hk; by right). f_equal. f_equal. apply bool_decide_ext.
    rewrite elem_of_cons. naive_solver.
Qed.

(** Two clients come to a realm for one; then the first is disconnected. *)
Module Example.
Import SessionPackets.

Definition env : SessionPackets.Env :=
  SessionPackets.mkEnv WorldSessionProps.Example.env [(1, 0); (2, 0)] [(1, 0)] (λ _, 1000) 3 3.
#[export] Instance env_ok : EnvOk env.
Proof. split; [exact WorldSessionProps.Example.env_ok|by intros name p s|by left|cbn; lia]. Qed.
#[export] Instance ops : SessionOps SessionPackets.t := session_ops env WorldSessionProps.Example.opcodeTable.
#[export] Instance laws : SessionLaws SessionPackets.t := session_laws env WorldSessionProps.Example.opcodeTable.

Definition client (account : Z) (script : list (list network_event)) : SessionPackets.t :=
  SessionPackets.mk (WorldSession.new (session_env env) true script) account 4 false [] (replicate 8 0) (replicate 8 0).
Definition world_env (tolerance now : Z) : LoginQueue.Env := LoginQueue.mkEnv now (λ m, (map_to_list m).*1) tolerance.
Definition arrive (a : Z) (x : SessionPackets.t) (w : LoginQueue.t SessionPackets.t) : LoginQueue.t SessionPackets.t :=
  (AddSession a (LoginQueue.set_heap (<[a := x]> (LoginQueue.heap w)) w)).2.
Definition tick (tolerance now : Z) (w : LoginQueue.t SessionPackets.t) : LoginQueue.t SessionPackets.t :=
  (UpdateSessions (world_env tolerance now) 50 w).2.
Definition world0 : LoginQueue.t SessionPackets.t :=
  arrive 20 (client 2 []) (arrive 10 (client 1 [[]; [Disconnect]]) (LoginQueue.new 1)).
Definition world1 := tick 0 1000 world0.
Definition world2 := tick 0 1100 world1.

Lemma walk_env_ok tolerance now : walk_ok (world_env tolerance now).
Proof. by intros m. Qed.
Lemma client_fine account script :
  arrivals (concat script) = [] → LoginQueueProps.fine (client account script).
Proof. intros E. split; [|by eexists]. 
  split; [by rewrite (E : to_come (session (client account script)) = [])
    |by rewrite (E : to_come (session (client account script)) = []); constructor|constructor|].
  change (Forall (λ p, address p ∉ (∅ : gset Z)) (arrivals (concat script))). by rewrite E.
Qed.

Lemma reachable : rtc (LoginQueueProps.step true) (LoginQueue.new 1) world1.
Proof.
  eapply rtc_l; [apply (step_login true 10 (client 1 [[]; [Disconnect]])); [done|by apply client_fine|done|done|done]|].
  eapply rtc_l; [apply (step_login true 20 (client 2 [])); [done|by apply client_fine|done|done|vm_compute; done]|].
  apply rtc_once. apply (step_tick true (world_env 0 1000) 50); [apply walk_env_ok|done|].
  vm_compute. reflexivity.
Qed.
End Example.

#[local] Existing Instance Example.ops.
Lemma login_queue_witness :
  (m_QueuedPlayer Example.world1 = [20] ∧ position_told 20 (LoginQueue.told Example.world1) = Some 1) ∧
  (0 < 1 → LoginQueueProps.active Example.world1 ≤ 1) ∧
  (∃ w', UpdateSessions (Example.world_env 0 1100) 50 Example.world1 = (Ok tt, w') ∧
    m_QueuedPlayer w' `sublist_of` m_QueuedPlayer Example.world1 ++ addSessQueue Example.world1) ∧
  m_QueuedPlayer Example.world2 = [] ∧ map_to_list (m_sessions Example.world2) = [(2, 20)].
Proof.
  destruct (@login_queue SessionPackets.t _ Example.laws true 1 Example.world1) as (Ht & _ & Hp & _ & Hb);
    [done|apply Example.reachable|].
  split; [split; [vm_compute; reflexivity|apply (Hp 0%nat 20); vm_compute; reflexivity]|].
  split; [by apply Hb|]. split; [apply Ht, Example.walk_env_ok|]. split; vm_compute; reflexivity.
Defined.

(** Disconnected at 1100, back two years later. *)
Lemma disconnected_skip_forever_witness :
  let w := Example.arrive 30 (Example.client 1 []) (Example.tick 60 1100 Example.world1) in
  (HasRecentlyDisconnected (Example.world_env 60 63073100) 30 w).1 = Ok true ∧
  map_to_list (m_disconnects w) = [(1, 1100)].
Proof.
  intros w. split; [|vm_compute; reflexivity].
  rewrite (@disconnected_skip_forever SessionPackets.t _ Example.laws (Example.world_env 60 63073100) 30 (Example.client 1 []) w).
  - vm_compute. reflexivity.
  - vm_compute. reflexivity.
  - apply Example.walk_env_ok.
  - done.
  - apply (bool_decide_eq_true_1 _). vm_compute. reflexivity.
Defined.
