(* ===== verification/AddonsProps.v ===== *)
(** * AddonsProps: the addons of a client, from its login packet to the answer.

    [ReadAddonsInfo] of WorldSocket.v reads the list a client sends; [SendAddonsInfo] of
    SessionPackets.v answers it when the client is let in from the queue. *)
From S2P Require Import Prelude.
From stdpp Require Import strings list gmap.
From S2P Require Import Bits ByteBuffer ByteBufferStream ByteBufferProps OpcodeTable WorldSocket WorldSocketProps WorldSession WorldSessionProps LoginQueue LoginQueueProps SessionPackets SessionPacketsProps.
Open Scope string_scope.
Open Scope list_scope.
Open Scope Z_scope.

(** ** Reading what a client sends *)

(** An addon as the client sends it, with the word that is not used. *)
Definition encode_addon (a : WorldSocket.AddonInfo) : list Z :=
  addon_Name a ++ 0 :: addon_Enabled a :: le_bytes 4 (addon_CRC a) ++ le_bytes 4 0.
Definition encode_addons (l : list WorldSocket.AddonInfo) (time : Z) : list Z :=
  le_bytes 4 (Z.of_nat (length l)) ++ concat (encode_addon <$> l) ++ le_bytes 4 time.
Definition addon_ok (a : WorldSocket.AddonInfo) : Prop :=
  Forall (λ c, c ≠ 0) (addon_Name a) ∧ 0 ≤ addon_Enabled a < 256 ∧ 0 ≤ addon_CRC a < 2 ^ 32.
#[export] Instance addon_ok_dec a : Decision (addon_ok a).
Proof. unfold addon_ok. apply _. Defined.

(** What is left to be read. *)
Definition left (b : ByteBuffer.t) : list Z := drop (ByteBuffer.rpos b) (ByteBuffer.storage b).

Lemma left_size (b : ByteBuffer.t) z l : left b = z :: l → (ByteBuffer.rpos b < ByteBuffer.size b)%nat.
Proof.
  unfold left, ByteBuffer.size. intros E. destruct (decide (ByteBuffer.rpos b < length (ByteBuffer.storage b))%nat); [done|].
  by rewrite drop_ge in E by lia.
Qed.

Lemma read_left b k v rest : (0 < k)%nat → left b = le_bytes k v ++ rest →
  ∃ b', ByteBuffer.read k b = Ok (v mod 2 ^ (8 * Z.of_nat k), b') ∧ left b' = rest.
Proof.
  intros Hk E. unfold ByteBuffer.read, ByteBuffer.read_at.
  assert (ByteBuffer.rpos b + k ≤ ByteBuffer.size b)%nat as Hs.
  { pose proof (f_equal length E) as El. unfold left in El. rewrite length_drop, length_app, length_le_bytes in El.
    unfold ByteBuffer.size. lia. }
  rewrite (proj2 (Nat.ltb_ge _ _)) by lia. cbn [mbind result_bind].
  change (drop (ByteBuffer.rpos b) (ByteBuffer.storage b)) with (left b).
  rewrite E, take_app_le, take_ge by (rewrite length_le_bytes; lia). rewrite le_val_le_bytes.
  eexists. split; [done|]. unfold left in E |- *. cbn. rewrite <- drop_drop, E.
  by rewrite drop_app_length' by by rewrite length_le_bytes.
Qed.

Lemma read_byte_left b z rest : 0 ≤ z < 256 → left b = z :: rest →
  ∃ b', ByteBuffer.read 1 b = Ok (z, b') ∧ left b' = rest.
Proof.
  intros Hz E. destruct (read_left b 1 z rest) as (b' & E' & H'); [lia|by cbn; rewrite Z.mod_small by lia|].
  exists b'. split; [|done]. rewrite E'. by rewrite Z.mod_small by (cbn; lia).
Qed.

Section Read.
Context `{!Crypto} (env : WorldSocket.Env).

(** The session has been told of the addons. *)
Definition with_addons (sess : WorldSocket.session) (l : list WorldSocket.AddonInfo) (s : WorldSocket.t) : WorldSocket.t :=
  foldl (λ s a, WorldSocket.record_call (Addon sess a) s) s l.

Definition read_one_addon : M ByteBuffer.t WorldSocket.AddonInfo :=
  addonName ← ByteBuffer.shr_string;
  enabled ← ByteBuffer.shr_uint8; crc ← ByteBuffer.shr_uint32; unk1 ← ByteBuffer.shr_uint32;
  mret (mkAddonInfo addonName enabled crc).

Lemma read_one_addon_ok a b rest : addon_ok a → left b = encode_addon a ++ rest →
  ∃ b', read_one_addon b = Ok (a, b') ∧ left b' = rest.
Proof.
  intros (Hn & He & Hc) E. unfold encode_addon in E. rewrite <- app_assoc in E. cbn [app] in E. rewrite <- app_assoc in E.
  destruct (shr_string_loop_spec (ByteBuffer.size b) b [] (addon_Name a) _ ltac:(unfold left in E; apply (f_equal length) in E;
    rewrite length_drop, length_app in E; cbn [length] in E; unfold ByteBuffer.size; lia) Hn E) as (b1 & E1 & H1).
  destruct (read_byte_left b1 _ _ He H1) as (b2 & E2 & H2).
  destruct (read_left b2 4 _ _ ltac:(lia) H2) as (b3 & E3 & H3).
  destruct (read_left b3 4 _ _ ltac:(lia) H3) as (b4 & E4 & H4).
  exists b4. split; [|done]. unfold read_one_addon.
  erewrite bind_Ok; [|exact E1]. erewrite bind_Ok; [|exact E2]. erewrite bind_Ok; [|exact E3].
  erewrite bind_Ok; [|exact E4]. cbn [app]. rewrite Z.mod_small by (change (8 * Z.of_nat 4) with 32; lia). by destruct a.
Qed.

Lemma addons_loop_ok fuel i count sess l time b s :
  Forall addon_ok l → (length l < fuel)%nat → i + Z.of_nat (length l) = count →
  left b = concat (encode_addon <$> l) ++ le_bytes 4 time →
  addons_loop fuel i count sess b s = (Ok tt, with_addons sess l s).
Proof.
  revert i b s fuel. induction l as [|a l IH]; intros i b s fuel Hok Hf Hc Hl;
    (destruct fuel as [|fuel]; [cbn in Hf; lia|]); cbn [addons_loop length] in *.
  - rewrite (proj2 (Z.leb_le _ _)) by lia. 
    assert (left b = le_bytes 4 time ++ []) as Hl' by (rewrite app_nil_r; exact Hl).
    destruct (read_left b 4 time [] ltac:(lia) Hl') as (b' & E & _). unfold from_packet.
    erewrite bindX_Ok; [|unfold liftX, ByteBuffer.shr_uint32; by rewrite E]. done.
  - rewrite (proj2 (Z.leb_gt _ _)) by lia. apply Forall_cons in Hok as [Ha Hok].
    cbn [fmap list_fmap concat] in Hl. rewrite <- app_assoc in Hl.
    assert (∃ z r, left b = z :: r) as (z & r & Ez).
    { rewrite Hl. unfold encode_addon. destruct (addon_Name a); by do 2 eexists. }
    rewrite (proj2 (Nat.ltb_ge _ _)) by (apply left_size in Ez; lia).
    destruct (read_one_addon_ok a b _ Ha Hl) as (b' & E & Hl'). unfold from_packet. fold read_one_addon.
    erewrite bindX_Ok; [|unfold liftX; by rewrite E]. cbn beta iota. erewrite bindX_Ok; [|done].
    rewrite (IH (i + 1) b' _ fuel Hok); [done|lia|lia|done].
Qed.

Lemma ReadAddonsInfo_ok sess compressed l time s :
  let data := encode_addons l time in
  Forall addon_ok l → Z.of_nat (length data) ≤ 0xFFFFF → uncompress env compressed (length data) = Some data →
  ReadAddonsInfo env sess (le_bytes 4 (Z.of_nat (length data)) ++ compressed) s = (Ok tt, with_addons sess l s).
Proof.
  intros data Hok Hl Hu. unfold ReadAddonsInfo.
  rewrite (proj2 (Nat.ltb_ge _ _)) by (rewrite length_app, length_le_bytes; lia).
  rewrite take_app_le, take_ge, drop_app_length' by by rewrite length_le_bytes.
  rewrite le_val_le_bytes, Z.mod_small by (split; [lia|change (2 ^ (8 * Z.of_nat 4)) with 4294967296; lia]).
  assert (length data = length (concat (encode_addon <$> l)) + 8)%nat as Hlen.
  { unfold data, encode_addons. rewrite !length_app, !length_le_bytes. lia. }
  rewrite (proj2 (Z.eqb_neq _ _)), (proj2 (Z.ltb_ge _ _)) by lia. cbn [orb]. rewrite Nat2Z.id, Hu.
  assert (ByteBuffer.overwrite 0 data (replicate (length data) 0) = data) as ->.
  { unfold ByteBuffer.overwrite. cbn [take app Nat.add]. by rewrite drop_ge, app_nil_r by by rewrite length_replicate. }
  assert (length l ≤ length (concat (encode_addon <$> l)))%nat as Hshort.
  { clear. induction l as [|a l IH]; [done|]. rewrite fmap_cons. cbn [concat length]. rewrite length_app.
    assert (1 ≤ length (encode_addon a))%nat by (unfold encode_addon; rewrite length_app; cbn [length]; lia).
    lia. }
  destruct (read_left (ByteBuffer.received data) 4 (Z.of_nat (length l)) _ ltac:(lia) eq_refl) as (b & E & Hb).
  unfold from_packet. erewrite bindX_Ok; [|unfold liftX, ByteBuffer.shr_uint32; by rewrite E]. cbn beta iota.
  rewrite Z.mod_small by (change (2 ^ (8 * Z.of_nat 4)) with 4294967296; lia).
  by rewrite (addons_loop_ok _ 0 _ sess l time b s Hok); [|lia|lia|].
Qed.

End Read.

(** ** Answering it *)

Section Answer.
Import ByteBuffer Stream SessionPackets.

(** Whether pieces of these lengths, behind [n] bytes, all begin below the limit. *)
Fixpoint fits (n : Z) (ps : list Z) : bool :=
  match ps with [] => true | p :: ps => (n <? MAX_SIZE) && fits (n + p) ps end.
Definition total (ps : list Z) : Z := foldr Z.add 0 ps.

(** A method that writes whole bytes, piece by piece. *)
Definition pieces (ps : list Z) (m : M ByteBuffer.t unit) : Prop := ∀ b s,
  writer b (s, []) →
  if fits (Z.of_nat (length s)) ps
  then ∃ b' s', m b = Ok (tt, b') ∧ writer b' (s', []) ∧ Z.of_nat (length s') = Z.of_nat (length s) + total ps
  else m b = Throw AssertionFailed.

Lemma pieces_ret : pieces [] (mret tt).
Proof. intros b s Hw. exists b, s. split; [done|]. split; [done|cbn; lia]. Qed.
Lemma fits_app n ps qs : fits n (ps ++ qs) = fits n ps && fits (n + total ps) qs.
Proof.
  revert n. induction ps as [|p ps IH]; intros n; cbn; [by rewrite Z.add_0_r|].
  rewrite IH, andb_assoc, Z.add_assoc. done.
Qed.
Lemma total_app ps qs : total (ps ++ qs) = total ps + total qs.
Proof. unfold total. induction ps as [|p ps IH]; [done|]. cbn [app foldr]. lia. Qed.
Lemma pieces_bind ps qs m k : pieces ps m → pieces qs k → pieces (ps ++ qs) (m;; k).
Proof.
  intros Hm Hk b s Hw. specialize (Hm b s Hw). rewrite fits_app. destruct (fits _ ps).
  - destruct Hm as (b1 & s1 & E1 & Hw1 & Hl1). specialize (Hk b1 s1 Hw1). rewrite Hl1 in Hk. cbn [andb].
    destruct (fits _ qs).
    + destruct Hk as (b2 & s2 & E2 & Hw2 & Hl2). exists b2, s2.
      split; [by rewrite (bind_Ok _ _ _ _ _ E1)|]. split; [done|]. rewrite total_app. lia.
    + by rewrite (bind_Ok _ _ _ _ _ E1).
  - by rewrite (bind_Throw _ _ _ _ Hm).
Qed.

Lemma append_full b s src : writer b (s, []) → src ≠ [] → MAX_SIZE ≤ Z.of_nat (length s) →
  append src b = Throw AssertionFailed.
Proof.
  intros [Hs _ _ _ _] Hsrc Hl. unfold append, size. cbn in Hs. rewrite Hs, (proj2 (Z.ltb_ge _ _)) by lia.
  by destruct src.
Qed.
Lemma pieces_append src : src ≠ [] → pieces [Z.of_nat (length src)] (append src).
Proof.
  intros Hsrc b s Hw. cbn [fits total foldr]. rewrite andb_true_r, Z.add_0_r.
  destruct (Z.ltb_spec (Z.of_nat (length s)) MAX_SIZE) as [Hl|Hl]; [|by eapply append_full].
  rewrite (append_writer b s [] src Hw Hsrc Hl).
  exists (ByteBuffer.mk (rpos b) (wpos b + length src) (bitpos b) (curbitval b) (s ++ src)), (s ++ src). split; [done|].
  split; [|rewrite length_app; lia]. destruct Hw as [? Hp ? ? ?]. split; cbn in *; try done. rewrite length_app. lia.
Qed.
Lemma pieces_append_val k v : (0 < k)%nat → pieces [Z.of_nat k] (append_val k v).
Proof.
  intros Hk b s Hw.
  assert (le_bytes k v ≠ []) as Hn.
  { intros E. apply (f_equal length) in E. rewrite length_le_bytes in E. cbn in E. lia. }
  pose proof (pieces_append (le_bytes k v) Hn b s Hw) as H. rewrite length_le_bytes in H.
  assert (append_val k v b = append (le_bytes k v) b) as ->; [|done].
  unfold append_val. assert (FlushBits b = Ok (tt, b)) as E; [|by rewrite (bind_Ok _ _ _ _ _ E)].
  destruct Hw as [_ _ Hb _ _]. cbn in Hb. unfold FlushBits. by rewrite Hb.
Qed.

(** What is sent for an addon: its key if its checksum is not the standard one. *)
Definition addon_pieces (a : WorldSocket.AddonInfo) : list Z :=
  if addon_CRC a =? STANDARD_ADDON_CRC then [1; 1; 1; 4; 1] else [1; 1; 1; 256; 4; 1].
Definition answer_size (l : list WorldSocket.AddonInfo) : Z :=
  total ((λ a, if addon_CRC a =? STANDARD_ADDON_CRC then 8 else 264) <$> l).

Lemma pieces_addon a : pieces (addon_pieces a) (write_addon (read_addon a)).
Proof.
  unfold write_addon, addon_pieces. cbn [State UsePublicKeyOrCRC CRC read_addon Z.b2z].
  assert (∀ v, pieces [1] (shl_uint8 v)) as H1 by (intros v; apply (pieces_append_val 1); lia).
  assert (∀ v, pieces [4] (shl_uint32 v)) as H4 by (intros v; apply (pieces_append_val 4); lia).
  destruct (addon_CRC a =? STANDARD_ADDON_CRC); cbn [negb].
  - apply (pieces_bind [1] [1; 1; 4; 1]); [done|]. apply (pieces_bind [1] [1; 4; 1]); [done|].
    apply (pieces_bind [1; 4] [1]); [|done]. apply (pieces_bind [1] [4]); [done|].
    by apply (pieces_bind [] [4]); [apply pieces_ret|].
  - apply (pieces_bind [1] [1; 1; 256; 4; 1]); [done|]. apply (pieces_bind [1] [1; 256; 4; 1]); [done|].
    apply (pieces_bind [1; 256; 4] [1]); [|done]. apply (pieces_bind [1] [256; 4]); [done|].
    apply (pieces_bind [256] [4]); [by apply (pieces_append addonPublicKey)|done].
Qed.
Lemma pieces_addons l : pieces (concat (addon_pieces <$> l)) (write_addons (read_addon <$> l)).
Proof.
  induction l as [|a l IH]; [apply pieces_ret|]. cbn [fmap list_fmap write_addons concat].
  apply pieces_bind; [apply pieces_addon|exact IH].
Qed.
Lemma total_addons l : total (concat (addon_pieces <$> l)) = answer_size l.
Proof.
  unfold answer_size. induction l as [|a l IH]; [done|]. cbn [fmap list_fmap concat total foldr].
  rewrite total_app, IH. unfold addon_pieces. by destruct (addon_CRC a =? _).
Qed.
(** The last piece begins where the others end. *)
Lemma fits_last n ps p : Forall (λ q, 0 ≤ q) ps → fits n (ps ++ [p]) = (n + total ps <? MAX_SIZE).
Proof.
  revert n. induction ps as [|q ps IH]; intros n Hq; cbn.
  - by rewrite andb_true_r, Z.add_0_r.
  - apply Forall_cons in Hq as [Hq Hps]. rewrite IH by done.
    assert (0 ≤ total ps) by (clear - Hps; unfold total; induction Hps; cbn [foldr]; [done|lia]).
    unfold total in *. rewrite (Z.add_assoc n). destruct (Z.ltb_spec n MAX_SIZE), (Z.ltb_spec (n + q + foldr Z.add 0 ps) MAX_SIZE); cbn; lia.
Qed.
Lemma fits_addons l : fits 0 (concat (addon_pieces <$> l) ++ [4]) = (answer_size l <? MAX_SIZE).
Proof.
  rewrite fits_last, total_addons; [done|]. induction l as [|a l IH]; [constructor|]. cbn. apply Forall_app. split; [|done].
  unfold addon_pieces. destruct (addon_CRC a =? _); repeat constructor; lia.
Qed.

Lemma SendAddonsInfo_result env opcodeTable s l :
  m_addonsList s = read_addon <$> l →
  (SendAddonsInfo env opcodeTable s).1 = if answer_size l <? MAX_SIZE then Ok tt else Throw AssertionFailed.
Proof.
  intros El. unfold SendAddonsInfo. rewrite (bindX_Ok _ _ s s s) by done. rewrite El, <- fits_addons, fits_app.
  pose proof (pieces_addons l ByteBuffer.new [] Stream.writer_new) as Hp. change (Z.of_nat (length (@nil Z))) with 0 in Hp.
  destruct (fits 0 (concat (addon_pieces <$> l))).
  - destruct Hp as (b & s1 & E & Hw & Hl). erewrite bindX_Ok; [|unfold liftX; by rewrite E]. cbn beta iota.
    erewrite bindX_Ok; [|done]. cbn [andb].
    pose proof (pieces_append_val 4 0 ltac:(lia) b s1 Hw) as H4. change (Z.of_nat 4) with 4 in H4. rewrite Hl in H4.
    destruct (fits _ [4]).
    + destruct H4 as (b' & s' & E' & _ & _). erewrite bindX_Ok; [|unfold liftX, shl_uint32; by rewrite E']. cbn beta iota.
      destruct (sends_returns env opcodeTable SMSG_ADDON_INFO b' (set_addonsList [] s)) as [s2 E2]; [done|]. by rewrite E2.
    + erewrite bindX_Throw; [done|]. unfold liftX, shl_uint32. by rewrite H4.
  - cbn [andb]. erewrite bindX_Throw; [done|]. unfold liftX. by rewrite Hp.
Qed.

End Answer.


(** A client with nameless addons, whose list is sent as its length and the byte that it
    repeats. *)
Module Hostile.
Definition nameless : WorldSocket.AddonInfo := mkAddonInfo [] 0 0.
Definition inflate (l : list Z) (n : nat) : option (list Z) :=
  Some (take 4 l ++ replicate (n - 4) (le_val (drop 4 l))).
Definition env : WorldSocket.Env :=
  let e := WorldSocketProps.Example.env in
  WorldSocket.mkEnv (send e) (reactor_ok e) (gettimeofday e) (WorldSocket.time e) (random_bytes e) inflate (WorldSocket.address e)
    (account_by_name e) (gmlevel e) (is_banned e) (is_recruiter e) (has_skip_overspeed e) (world_closed e)
    (player_security_limit e) (config_expansion e) (config_max_overspeed_pings e) (config_warden_enabled e)
    (config_session_add_delay e).
Definition client (n : nat) : SessionPackets.t :=
  SessionPackets.set_addonsList (SessionPackets.read_addon <$> replicate n nameless) (Example.client 7 []).

Lemma list_sent n :
  encode_addons (replicate n nameless) 0 = le_bytes 4 (Z.of_nat n) ++ replicate (10 * n + 4) 0.
Proof.
  unfold encode_addons. rewrite length_replicate. f_equal. rewrite Nat.add_comm, Nat.mul_comm.
  rewrite fmap_replicate. induction n as [|n IH]; [done|]. rewrite replicate_S. cbn [concat].
  rewrite <- app_assoc, IH. change (encode_addon nameless) with (replicate 10 0).
  rewrite <- replicate_add. done.
Qed.
Lemma list_length n : length (encode_addons (replicate n nameless) 0) = (10 * n + 8)%nat.
Proof. rewrite list_sent, length_app, length_le_bytes, length_replicate. lia. Qed.
Lemma list_inflated n :
  inflate (le_bytes 4 (Z.of_nat n) ++ [0]) (10 * n + 8) = Some (encode_addons (replicate n nameless) 0).
Proof.
  unfold inflate. rewrite list_sent, take_app_length', drop_app_length' by by rewrite length_le_bytes.
  do 3 f_equal. lia.
Qed.
Lemma answer n : answer_size (replicate n nameless) = 264 * Z.of_nat n.
Proof.
  unfold answer_size. rewrite fmap_replicate. induction n as [|n IH]; [done|]. rewrite replicate_S.
  unfold total in *. cbn [foldr]. rewrite IH. cbn [addon_CRC nameless]. rewrite (proj2 (Z.eqb_neq 0 _)) by done. lia.
Qed.
End Hostile.

#[local] Existing Instance WorldSocketProps.Example.crypto.
