(* ===== verification/RBAC.v ===== *)
(** * RBAC: the permissions of an account.

    [game/Accounts/RBAC.{h,cpp}] and the part of [game/Accounts/AccountMgr.cpp] that belongs to
    it: an account has groups, roles and permissions of its own, some of them denied; groups
    consist of roles and roles of permissions; [CalculateNewPermissions] keeps what follows from
    them.  Everything is stored per realm in three tables of the login database, whose
    statements (LoginDatabase.cpp) are modelled as they are executed, one after the other. *)
From S2P Require Import Prelude.
From stdpp Require Import list gmap sets sorting.
Open Scope list_scope.
Open Scope Z_scope.

Module RBAC.

(** ** Data *)

Definition RBAC_PERM_SKIP_QUEUE : Z := 2.
Definition RBAC_PERM_MAX : Z := 49.

Inductive RBACCommandResult : Type :=
| RBAC_OK | RBAC_CANT_ADD_ALREADY_ADDED | RBAC_CANT_REVOKE_NOT_IN_LIST
| RBAC_IN_GRANTED_LIST | RBAC_IN_DENIED_LIST | RBAC_ID_DOES_NOT_EXISTS.

(** [std::bitset<RBAC_PERM_MAX>]: the positions that are set. *)
Definition bitset : Type := gset Z.

(** The definitions of [AccountMgr]: permissions, the permissions of roles, the roles of groups. *)
Record AccountMgr : Type := mkAccountMgr {
  _permissions : gset Z;
  _roles : gmap Z bitset;
  mgr_groups : gmap Z (gset Z);
  _defaultGroups : gset Z;
  _defaultSecGroups : gmap Z (gset Z) }.

Record RBACData : Type := mkRBACData {
  _realmId : Z;
  _groups : gset Z;
  _grantedRoles : gset Z;
  _deniedRoles : gset Z;
  _grantedPerms : bitset;
  _deniedPerms : bitset;
  _globalPerms : bitset }.
Definition new (realmId : Z) : RBACData := mkRBACData realmId ∅ ∅ ∅ ∅ ∅ ∅.

(** The rows of one account: by identifier and realm, -1 for all realms. *)
Record Rows : Type := mkRows {
  rbac_account_groups : gset (Z * Z);
  rbac_account_roles : gmap (Z * Z) bool;
  rbac_account_permissions : gmap (Z * Z) bool }.

(** An account in memory and in the database. *)
Record t : Type := mk { rbac : RBACData; rows : Rows }.

Definition set_groups x d := mkRBACData (_realmId d) x (_grantedRoles d) (_deniedRoles d) (_grantedPerms d) (_deniedPerms d) (_globalPerms d).
Definition set_grantedRoles x d := mkRBACData (_realmId d) (_groups d) x (_deniedRoles d) (_grantedPerms d) (_deniedPerms d) (_globalPerms d).
Definition set_deniedRoles x d := mkRBACData (_realmId d) (_groups d) (_grantedRoles d) x (_grantedPerms d) (_deniedPerms d) (_globalPerms d).
Definition set_grantedPerms x d := mkRBACData (_realmId d) (_groups d) (_grantedRoles d) (_deniedRoles d) x (_deniedPerms d) (_globalPerms d).
Definition set_deniedPerms x d := mkRBACData (_realmId d) (_groups d) (_grantedRoles d) (_deniedRoles d) (_grantedPerms d) x (_globalPerms d).
Definition set_globalPerms x d := mkRBACData (_realmId d) (_groups d) (_grantedRoles d) (_deniedRoles d) (_grantedPerms d) (_deniedPerms d) x.
Definition modify_rbac (f : RBACData → RBACData) : X t unit := modifyX (λ s, mk (f (rbac s)) (rows s)).

(** ** The statements *)

Definition visible (realm : Z) (k : Z * Z) : Prop := k.2 = realm ∨ k.2 = -1.
#[export] Instance visible_dec realm k : Decision (visible realm k).
Proof. unfold visible. apply _. Defined.

(** [... GROUP BY groupId], in some order. *)
Definition SEL_RBAC_ACCOUNT_GROUPS (realm : Z) (r : Rows) : list Z :=
  elements (set_map fst (filter (visible realm) (rbac_account_groups r)) : gset Z).
Definition INS_RBAC_ACCOUNT_GROUP (group realm : Z) (r : Rows) : Rows :=
  mkRows ({[(group, realm)]} ∪ rbac_account_groups r) (rbac_account_roles r) (rbac_account_permissions r).
Definition DEL_RBAC_ACCOUNT_GROUP (group realm : Z) (r : Rows) : Rows :=
  mkRows (filter (λ k, ¬ (k.1 = group ∧ visible realm k)) (rbac_account_groups r)) (rbac_account_roles r) (rbac_account_permissions r).

(** [... ORDER BY roleId, realmId] *)
Definition row_le (x y : Z * Z * bool) : Prop :=
  x.1.1 < y.1.1 ∨ (x.1.1 = y.1.1 ∧ x.1.2 ≤ y.1.2).
#[export] Instance row_le_dec : RelDecision row_le.
Proof. intros x y. unfold row_le. apply _. Defined.
Definition select_rows (realm : Z) (m : gmap (Z * Z) bool) : list (Z * bool) :=
  (λ x : Z * Z * bool, (x.1.1, x.2)) <$> merge_sort row_le (filter (λ x, visible realm x.1) (map_to_list m)).
Definition delete_rows (id realm : Z) (m : gmap (Z * Z) bool) : gmap (Z * Z) bool :=
  filter (λ x : Z * Z * bool, ¬ (x.1.1 = id ∧ visible realm x.1)) m.

Definition SEL_RBAC_ACCOUNT_ROLES realm r := select_rows realm (rbac_account_roles r).
(** [INSERT ... ON DUPLICATE KEY UPDATE granted] *)
Definition INS_RBAC_ACCOUNT_ROLE (role : Z) (granted : bool) (realm : Z) (r : Rows) : Rows :=
  mkRows (rbac_account_groups r) (<[(role, realm) := granted]> (rbac_account_roles r)) (rbac_account_permissions r).
Definition DEL_RBAC_ACCOUNT_ROLE (role realm : Z) (r : Rows) : Rows :=
  mkRows (rbac_account_groups r) (delete_rows role realm (rbac_account_roles r)) (rbac_account_permissions r).

Definition SEL_RBAC_ACCOUNT_PERMISSIONS realm r := select_rows realm (rbac_account_permissions r).
Definition INS_RBAC_ACCOUNT_PERMISSION (perm : Z) (granted : bool) (realm : Z) (r : Rows) : Rows :=
  mkRows (rbac_account_groups r) (rbac_account_roles r) (<[(perm, realm) := granted]> (rbac_account_permissions r)).
Definition DEL_RBAC_ACCOUNT_PERMISSION (perm realm : Z) (r : Rows) : Rows :=
  mkRows (rbac_account_groups r) (rbac_account_roles r) (delete_rows perm realm (rbac_account_permissions r)).

Definition Execute (f : Rows → Rows) : X t unit := modifyX (λ s, mk (rbac s) (f (rows s))).

(** [bitset::test], [set] and [reset] throw for a position that is not there. *)
Definition in_bitset (p : Z) : X t unit := if p <? RBAC_PERM_MAX then mret tt else throwX OutOfRange.
Definition test (f : RBACData → bitset) (p : Z) : X t bool :=
  in_bitset p;; s ← getX; mret (bool_decide (p ∈ f (rbac s))).

(** ** Definitions of roles *)

(** [RBACRole::GrantPermission] and [RevokePermission], [RBACGroup::GrantRole] and [RevokeRole]. *)
Definition role_GrantPermission (permissionId : Z) (_perms : bitset) : bitset :=
  if permissionId <? RBAC_PERM_MAX then {[permissionId]} ∪ _perms else _perms.
Definition role_RevokePermission (permissionId : Z) (_perms : bitset) : bitset :=
  if permissionId <? RBAC_PERM_MAX then _perms ∖ {[permissionId]} else _perms.
Definition group_GrantRole (roleId : Z) (roles : gset Z) : gset Z := {[roleId]} ∪ roles.
Definition group_RevokeRole (roleId : Z) (roles : gset Z) : gset Z := roles ∖ {[roleId]}.

Section RBAC.
Context (sAccountMgr : AccountMgr).

(** ** The permissions that follow *)

Definition inherit (group : Z) (tempGrantedRoles : gset Z) : gset Z :=
  match mgr_groups sAccountMgr !! group with
  | None => tempGrantedRoles
  | Some roles => roles ∪ tempGrantedRoles
  end.
Definition add_role (role : Z) (perms : bitset) : bitset :=
  match _roles sAccountMgr !! role with Some p => perms ∪ p | None => perms end.
Definition remove_role (role : Z) (perms : bitset) : bitset :=
  match _roles sAccountMgr !! role with Some p => perms ∖ p | None => perms end.

Definition global_permissions (d : RBACData) : bitset :=
  let tempGrantedRoles := foldr inherit (_grantedRoles d) (elements (_groups d)) in
  let perms := foldr add_role (_grantedPerms d) (elements tempGrantedRoles) in
  let perms := perms ∖ _deniedPerms d in
  foldr remove_role perms (elements (_deniedRoles d)).

Definition CalculateNewPermissions : X t unit := modify_rbac (λ d, set_globalPerms (global_permissions d) d).

(** A change is saved and takes effect, unless it comes from the database. *)
Definition save (realmId : Z) (statement : Rows → Rows) : X t unit :=
  if negb (realmId =? 0) then Execute statement;; CalculateNewPermissions else mret tt.

(** ** Groups *)

Definition AddGroup (groupId realmId : Z) : X t RBACCommandResult :=
  match mgr_groups sAccountMgr !! groupId with
  | None => mret RBAC_ID_DOES_NOT_EXISTS
  | Some _ =>
    s ← getX;
    if bool_decide (groupId ∈ _groups (rbac s)) then mret RBAC_CANT_ADD_ALREADY_ADDED
    else
      modify_rbac (set_groups ({[groupId]} ∪ _groups (rbac s)));;
      save realmId (INS_RBAC_ACCOUNT_GROUP groupId realmId);;
      mret RBAC_OK
  end.

Definition RemoveGroup (groupId realmId : Z) : X t RBACCommandResult :=
  s ← getX;
  if negb (bool_decide (groupId ∈ _groups (rbac s))) then mret RBAC_CANT_REVOKE_NOT_IN_LIST
  else
    modify_rbac (set_groups (_groups (rbac s) ∖ {[groupId]}));;
    save realmId (DEL_RBAC_ACCOUNT_GROUP groupId realmId);;
    mret RBAC_OK.

(** ** Roles *)

Definition GrantRole (roleId realmId : Z) : X t RBACCommandResult :=
  match _roles sAccountMgr !! roleId with
  | None => mret RBAC_ID_DOES_NOT_EXISTS
  | Some _ =>
    s ← getX;
    if bool_decide (roleId ∈ _deniedRoles (rbac s)) then mret RBAC_IN_DENIED_LIST
    else if bool_decide (roleId ∈ _grantedRoles (rbac s)) then mret RBAC_CANT_ADD_ALREADY_ADDED
    else
      modify_rbac (set_grantedRoles ({[roleId]} ∪ _grantedRoles (rbac s)));;
      save realmId (INS_RBAC_ACCOUNT_ROLE roleId true realmId);;
      mret RBAC_OK
  end.

Definition DenyRole (roleId realmId : Z) : X t RBACCommandResult :=
  match _roles sAccountMgr !! roleId with
  | None => mret RBAC_ID_DOES_NOT_EXISTS
  | Some _ =>
    s ← getX;
    if bool_decide (roleId ∈ _grantedRoles (rbac s)) then mret RBAC_IN_GRANTED_LIST
    else if bool_decide (roleId ∈ _deniedRoles (rbac s)) then mret RBAC_CANT_ADD_ALREADY_ADDED
    else
      modify_rbac (set_deniedRoles ({[roleId]} ∪ _deniedRoles (rbac s)));;
      save realmId (INS_RBAC_ACCOUNT_ROLE roleId false realmId);;
      mret RBAC_OK
  end.

Definition RevokeRole (roleId realmId : Z) : X t RBACCommandResult :=
  s ← getX;
  let d := rbac s in
  modify_rbac (λ d, set_deniedRoles (_deniedRoles d ∖ {[roleId]}) (set_grantedRoles (_grantedRoles d ∖ {[roleId]}) d));;
  if negb (bool_decide (roleId ∈ _grantedRoles d)) && negb (bool_decide (roleId ∈ _deniedRoles d))
  then mret RBAC_CANT_REVOKE_NOT_IN_LIST
  else save realmId (DEL_RBAC_ACCOUNT_ROLE roleId realmId);; mret RBAC_OK.

(** ** Permissions *)

Definition GrantPermission (permissionId realmId : Z) : X t RBACCommandResult :=
  if negb (bool_decide (permissionId ∈ _permissions sAccountMgr)) then mret RBAC_ID_DOES_NOT_EXISTS
  else
    denied ← test _deniedPerms permissionId;
    if denied : bool then mret RBAC_IN_DENIED_LIST
    else
      granted ← test _grantedPerms permissionId;
      if granted : bool then mret RBAC_CANT_ADD_ALREADY_ADDED
      else
        modify_rbac (λ d, set_grantedPerms ({[permissionId]} ∪ _grantedPerms d) d);;
        save realmId (INS_RBAC_ACCOUNT_PERMISSION permissionId true realmId);;
        mret RBAC_OK.

Definition DenyPermission (permissionId realmId : Z) : X t RBACCommandResult :=
  if negb (bool_decide (permissionId ∈ _permissions sAccountMgr)) then mret RBAC_ID_DOES_NOT_EXISTS
  else
    granted ← test _grantedPerms permissionId;
    if granted : bool then mret RBAC_IN_GRANTED_LIST
    else
      denied ← test _deniedPerms permissionId;
      if denied : bool then mret RBAC_CANT_ADD_ALREADY_ADDED
      else
        modify_rbac (λ d, set_deniedPerms ({[permissionId]} ∪ _deniedPerms d) d);;
        save realmId (INS_RBAC_ACCOUNT_PERMISSION permissionId false realmId);;
        mret RBAC_OK.

(** The second test is evaluated only if the first list lacks the permission. *)
Definition RevokePermission (permissionId realmId : Z) : X t RBACCommandResult :=
  granted ← test _grantedPerms permissionId;
  listed ← (if granted : bool then mret true else test _deniedPerms permissionId);
  if negb listed then mret RBAC_CANT_REVOKE_NOT_IN_LIST
  else
    modify_rbac (λ d, set_deniedPerms (_deniedPerms d ∖ {[permissionId]})
                        (set_grantedPerms (_grantedPerms d ∖ {[permissionId]}) d));;
    save realmId (DEL_RBAC_ACCOUNT_PERMISSION permissionId realmId);;
    mret RBAC_OK.

Definition HasPermission (permission : Z) : X t bool := test _globalPerms permission.

(** ** Loading *)

Fixpoint load_groups (ids : list Z) : X t unit :=
  match ids with [] => mret tt | g :: ids => AddGroup g 0;; load_groups ids end.
Fixpoint load_roles (l : list (Z * bool)) : X t unit :=
  match l with
  | [] => mret tt
  | (id, granted) :: l => (if granted : bool then GrantRole id 0 else DenyRole id 0);; load_roles l
  end.
Fixpoint load_permissions (l : list (Z * bool)) : X t unit :=
  match l with
  | [] => mret tt
  | (id, granted) :: l => (if granted : bool then GrantPermission id 0 else DenyPermission id 0);; load_permissions l
  end.

Definition LoadFromDB : X t unit :=
  s ← getX;
  let realm := _realmId (rbac s) in
  load_groups (SEL_RBAC_ACCOUNT_GROUPS realm (rows s));;
  load_roles (SEL_RBAC_ACCOUNT_ROLES realm (rows s));;
  load_permissions (SEL_RBAC_ACCOUNT_PERMISSIONS realm (rows s));;
  load_groups (elements (_defaultGroups sAccountMgr));;
  CalculateNewPermissions.

(** [AccountMgr::HasPermission]: a fresh [RBACData] of the account. *)
Definition mgr_HasPermission (accountId permissionId realmId : Z) (r : Rows) : result bool :=
  if accountId =? 0 then Ok false
  else ((LoadFromDB;; HasPermission permissionId) (mk (new realmId) r)).1.

(** ** The groups of a security level *)

Definition sec_groups (level : Z) : list Z :=
  elements (default ∅ (_defaultSecGroups sAccountMgr !! level)).

Fixpoint add_groups (ids : list Z) (realmId : Z) : X t unit :=
  match ids with [] => mret tt | g :: ids => AddGroup g realmId;; add_groups ids realmId end.
Fixpoint remove_groups (ids : list Z) (realmId : Z) : X t unit :=
  match ids with [] => mret tt | g :: ids => RemoveGroup g realmId;; remove_groups ids realmId end.
(** [access]: level and realm of the rows of [account_access], as [SEL_ACCOUNT_ACCESS_BY_ID]
    selects them. *)
Fixpoint remove_access (access : list (Z * Z)) : X t unit :=
  match access with
  | [] => mret tt
  | (secLevel, realmId) :: access => remove_groups (sec_groups secLevel) realmId;; remove_access access
  end.

(** [UpdateAccountAccess] for an account that is loaded; the rows of [account_access] are
    written afterwards. *)
Definition UpdateAccountAccess (access : list (Z * Z)) (securityLevel realmId : Z) : X t unit :=
  remove_access access;;
  add_groups (sec_groups securityLevel) realmId.

End RBAC.

(** ** The definitions of [AccountMgr] *)

Definition no_definitions : AccountMgr := mkAccountMgr ∅ ∅ ∅ ∅ ∅.

(** The tables of the login database. *)
Record Tables : Type := mkTables {
  rbac_permissions : list Z;
  rbac_roles : list Z;
  rbac_role_permissions : list (Z * Z);
  rbac_groups : list Z;
  rbac_group_roles : list (Z * Z);
  rbac_security_level_groups : list (Z * Z);     (* ordered by level *)
  config_DefaultGroups : list Z }.               (* the words of RBAC.DefaultGroups, as numbers *)

(** The rows of a relation: the pointer that [operator[]] makes for a missing key is null. *)
Fixpoint fill_relation (f : Z → gset Z → gset Z) (l : list (Z * Z)) (m : gmap Z (gset Z)) : result (gmap Z (gset Z)) :=
  match l with
  | [] => Ok m
  | (id, x) :: l =>
    match m !! id with
    | None => Throw UndefinedBehaviour
    | Some s => fill_relation f l (<[id := f x s]> m)
    end
  end.

(** [lastSecId] stays 255, so the pointer is looked up for every other level. *)
Fixpoint fill_levels (l : list (Z * Z)) (groups : option Z) (m : gmap Z (gset Z)) : result (gmap Z (gset Z)) :=
  match l with
  | [] => Ok m
  | (secId, group) :: l =>
    let groups := if negb (255 =? secId) then Some secId else groups in
    match groups with
    | None => Throw UndefinedBehaviour
    | Some level => fill_levels l groups (<[level := {[group]} ∪ default ∅ (m !! level)]> m)
    end
  end.

(** An empty table ends the loading. *)
Definition LoadRBAC (db : Tables) : result AccountMgr :=
  let permissions := list_to_set (rbac_permissions db) in
  let roles := list_to_map ((λ id, (id, ∅)) <$> rbac_roles db) in
  let groups := list_to_map ((λ id, (id, ∅)) <$> rbac_groups db) in
  if bool_decide (rbac_permissions db = []) then Ok no_definitions
  else if bool_decide (rbac_roles db = []) then Ok (mkAccountMgr permissions ∅ ∅ ∅ ∅)
  else if bool_decide (rbac_role_permissions db = []) then Ok (mkAccountMgr permissions roles ∅ ∅ ∅)
  else
    roles ← fill_relation role_GrantPermission (rbac_role_permissions db) roles;
    if bool_decide (rbac_groups db = []) then Ok (mkAccountMgr permissions roles ∅ ∅ ∅)
    else if bool_decide (rbac_group_roles db = []) then Ok (mkAccountMgr permissions roles groups ∅ ∅)
    else
      groups ← fill_relation group_GrantRole (rbac_group_roles db) groups;
      if bool_decide (rbac_security_level_groups db = []) then Ok (mkAccountMgr permissions roles groups ∅ ∅)
      else
        levels ← fill_levels (rbac_security_level_groups db) None ∅;
        Ok (mkAccountMgr permissions roles groups
              (list_to_set (filter (λ g, g ≠ 0) (config_DefaultGroups db))) levels).

End RBAC.
