(* ===== verification/RBACProps.v ===== *)
(** * RBACProps: what an account may do is what the database says. *)
From S2P Require Import Prelude.
From stdpp Require Import list gmap sets sorting.
From S2P Require Import RBAC.
Open Scope list_scope.
Open Scope Z_scope.
Import RBAC.

(** ** What a list of permissions follows from *)

(** A role that the account has, of its own or through a group. *)
Definition has_role (mgr : AccountMgr) (d : RBACData) (role : Z) : Prop :=
  role ∈ _grantedRoles d ∨
  ∃ g roles, g ∈ _groups d ∧ mgr_groups mgr !! g = Some roles ∧ role ∈ roles.
(** A permission of a role. *)
Definition gives (mgr : AccountMgr) (role p : Z) : Prop := ∃ perms, _roles mgr !! role = Some perms ∧ p ∈ perms.
Definition allowed (mgr : AccountMgr) (d : RBACData) (p : Z) : Prop :=
  (p ∈ _grantedPerms d ∨ ∃ role, has_role mgr d role ∧ gives mgr role p) ∧
  (p ∉ _deniedPerms d) ∧ ¬ (∃ role, role ∈ _deniedRoles d ∧ gives mgr role p).

Lemma inherited_roles mgr l acc role :
  role ∈ foldr (inherit mgr) acc l ↔
  role ∈ acc ∨ ∃ g roles, g ∈ l ∧ mgr_groups mgr !! g = Some roles ∧ role ∈ roles.
Proof.
  induction l as [|g l IH]; cbn [foldr].
  { split; [by left|]. intros [?|(? & ? & []%elem_of_nil & _)]. done. }
  unfold inherit at 1. destruct (mgr_groups mgr !! g) as [roles|] eqn:E; [rewrite elem_of_union|]; rewrite IH;
    setoid_rewrite elem_of_cons; split; [naive_solver..|naive_solver|naive_solver].
Qed.
Lemma added_roles mgr l acc p :
  p ∈ foldr (add_role mgr) acc l ↔ p ∈ acc ∨ ∃ role, role ∈ l ∧ gives mgr role p.
Proof.
  induction l as [|g l IH]; cbn [foldr].
  { split; [by left|]. intros [?|(? & []%elem_of_nil & _)]. done. }
  unfold add_role at 1, gives. destruct (_roles mgr !! g) as [perms|] eqn:E; [rewrite elem_of_union|]; rewrite IH;
    setoid_rewrite elem_of_cons; unfold gives; naive_solver.
Qed.
Lemma removed_roles mgr l acc p :
  p ∈ foldr (remove_role mgr) acc l ↔ p ∈ acc ∧ ¬ (∃ role, role ∈ l ∧ gives mgr role p).
Proof.
  induction l as [|g l IH]; cbn [foldr].
  { split; [|by intros []]. intros ?. split; [done|]. by intros (? & []%elem_of_nil & _). }
  unfold remove_role at 1, gives. destruct (_roles mgr !! g) as [perms|] eqn:E; [rewrite elem_of_difference|]; rewrite IH;
    setoid_rewrite elem_of_cons; unfold gives; naive_solver.
Qed.

Lemma global_permissions_spec mgr d p : p ∈ global_permissions mgr d ↔ allowed mgr d p.
Proof.
  unfold global_permissions, allowed, has_role. rewrite removed_roles, elem_of_difference, added_roles.
  setoid_rewrite elem_of_elements. setoid_rewrite inherited_roles. setoid_rewrite elem_of_elements. tauto.
Qed.

(** ** Rows that grant or deny *)

(** The row that counts: the one for all realms goes before that of the realm. *)
Definition decided (m : gmap (Z * Z) bool) (realm id : Z) : option bool :=
  match m !! (id, -1) with Some b => Some b | None => m !! (id, realm) end.

Fixpoint first_row (l : list (Z * bool)) (id : Z) : option bool :=
  match l with
  | [] => None
  | (k, b) :: l => if decide (k = id) then Some b else first_row l id
  end.

#[local] Instance row_le_trans : Transitive row_le.
Proof. intros x y z. unfold row_le. lia. Qed.
#[local] Instance row_le_total : Total row_le.
Proof. intros x y. unfold row_le. lia. Qed.

Lemma first_row_sorted realm (l : list (Z * Z * bool)) id :
  -1 < realm → StronglySorted row_le l → Forall (λ x, visible realm x.1) l →
  match first_row ((λ x : Z * Z * bool, (x.1.1, x.2)) <$> l) id with
  | Some b => (id, -1, b) ∈ l ∨ ((id, realm, b) ∈ l ∧ ∀ b', (id, -1, b') ∉ l)
  | None => ∀ k b, (id, k, b) ∉ l
  end.
Proof.
  intros Hr Hs. induction Hs as [|[[i k] b] l Hs IH Hx]; intros Hv; cbn; [by intros ?? ?%elem_of_nil|].
  apply Forall_cons in Hv as [Hk Hv]. specialize (IH Hv). destruct (decide (i = id)) as [->|Hne].
  - destruct Hk as [Hk|Hk]; cbn in Hk; subst k; [|left; apply elem_of_cons; by left].
    right. split; [apply elem_of_cons; by left|]. intros b' [[= ? ?]|Hin]%elem_of_cons; [lia|].
    rewrite Forall_forall in Hx. specialize (Hx _ Hin). unfold row_le in Hx. cbn in Hx. lia.
  - destruct (first_row _ id); setoid_rewrite elem_of_cons; naive_solver.
Qed.

Lemma select_rows_first realm m id : -1 < realm → first_row (select_rows realm m) id = decided m realm id.
Proof.
  intros Hr. unfold select_rows. set (l := merge_sort row_le (filter (λ x : Z * Z * bool, visible realm x.1) (map_to_list m))).
  assert (∀ k b, (id, k, b) ∈ l ↔ m !! (id, k) = Some b ∧ (k = realm ∨ k = -1)) as Hl.
  { intros k b. unfold l. rewrite merge_sort_Permutation, list_elem_of_filter, elem_of_map_to_list. unfold visible. cbn. tauto. }
  assert (StronglySorted row_le l) as Hs by apply (StronglySorted_merge_sort _ _).
  assert (Forall (λ x : Z * Z * bool, visible realm x.1) l) as Hv.
  { apply Forall_forall. intros x Hx. unfold l in Hx. rewrite merge_sort_Permutation in Hx. by apply list_elem_of_filter in Hx as [? _]. }
  pose proof (first_row_sorted realm l id Hr Hs Hv) as H. destruct (first_row _ id) as [b|]; unfold decided.
  - destruct H as [[-> _]%Hl|[[E _]%Hl H]]; [done|]. destruct (m !! (id, -1)) as [b'|] eqn:E'; [|done].
    exfalso. apply (H b'), Hl. auto.
  - destruct (m !! (id, -1)) as [b'|] eqn:E'; [exfalso; apply (H (-1) b'), Hl; auto|].
    destruct (m !! (id, realm)) as [b'|] eqn:E''; [exfalso; apply (H realm b'), Hl; auto|done].
Qed.

Lemma decided_insert m realm k id b id' : k = realm ∨ k = -1 → decided m realm id = None →
  decided (<[(id, k) := b]> m) realm id' = if decide (id' = id) then Some b else decided m realm id'.
Proof.
  unfold decided. intros Hk Hd. destruct (decide (id' = id)) as [->|Hne].
  - destruct (decide (k = -1)) as [->|Hk'].
    + by rewrite lookup_insert_eq.
    + destruct Hk as [->|?]; [|done]. rewrite (lookup_insert_ne _ (id, realm) (id, -1)) by congruence.
      destruct (m !! (id, -1)) eqn:E; [done|]. by rewrite lookup_insert_eq.
  - by rewrite !lookup_insert_ne by congruence.
Qed.
Lemma decided_delete m realm id id' :
  decided (delete_rows id realm m) realm id' = if decide (id' = id) then None else decided m realm id'.
Proof.
  unfold decided, delete_rows, visible. rewrite !map_lookup_filter. cbn.
  destruct (decide (id' = id)) as [->|Hne].
  - destruct (m !! (id, -1)), (m !! (id, realm)); cbn; rewrite ?option_guard_False by naive_solver; done.
  - destruct (m !! (id', -1)), (m !! (id', realm)); cbn; rewrite ?option_guard_True by naive_solver; done.
Qed.

(** ** Loading *)

(** What a row does to the granted and the denied identifiers. *)
Definition flag_step (exists_ : Z → Prop) `{!∀ id, Decision (exists_ id)} (gd : gset Z * gset Z) (row : Z * bool)
    : gset Z * gset Z :=
  let '(id, granted) := row in
  if decide (exists_ id) then
    if decide (id ∈ gd.1 ∨ id ∈ gd.2) then gd
    else if granted : bool then ({[id]} ∪ gd.1, gd.2) else (gd.1, {[id]} ∪ gd.2)
  else gd.

Lemma flag_steps exists_ `{!∀ id, Decision (exists_ id)} l gd id :
  let gd' := foldl (flag_step exists_) gd l in
  (id ∈ gd'.1 ↔ id ∈ gd.1 ∨ ((id ∉ gd.1) ∧ (id ∉ gd.2) ∧ exists_ id ∧ first_row l id = Some true)) ∧
  (id ∈ gd'.2 ↔ id ∈ gd.2 ∨ ((id ∉ gd.1) ∧ (id ∉ gd.2) ∧ exists_ id ∧ first_row l id = Some false)).
Proof.
  revert gd. induction l as [|[k b] l IH]; intros [G D]; cbn [foldl first_row].
  { cbn. naive_solver. }
  cbv zeta in IH |- *. destruct (IH (flag_step exists_ (G, D) (k, b))) as [IH1 IH2]. rewrite IH1, IH2. clear IH IH1 IH2.
  unfold flag_step. cbn [fst snd].
  destruct (decide (exists_ k)); [destruct (decide (k ∈ G ∨ k ∈ D))|]; [| destruct b|];
    (destruct (decide (k = id)) as [->|]; cbn [fst snd]; rewrite ?elem_of_union, ?elem_of_singleton; naive_solver).
Qed.

Definition mgr_ok (mgr : AccountMgr) : Prop := ∀ p, p ∈ _permissions mgr → p < RBAC_PERM_MAX.

(** Only these fields are loaded. *)
Definition with_roles (gd : gset Z * gset Z) (d : RBACData) : RBACData := set_deniedRoles gd.2 (set_grantedRoles gd.1 d).
Definition with_perms (gd : gset Z * gset Z) (d : RBACData) : RBACData := set_deniedPerms gd.2 (set_grantedPerms gd.1 d).

Lemma load_groups_ok mgr ids s : ∃ groups,
  load_groups mgr ids s = (Ok tt, RBAC.mk (set_groups groups (rbac s)) (rows s)) ∧
  ∀ g, g ∈ groups ↔ g ∈ _groups (rbac s) ∨ (g ∈ ids ∧ is_Some (mgr_groups mgr !! g)).
Proof.
  revert s. induction ids as [|g ids IH]; intros s; cbn [load_groups].
  { exists (_groups (rbac s)). split; [by destruct s as [[] ?]|]. intros g. rewrite elem_of_nil. tauto. }
  assert (∃ G, AddGroup mgr g 0 s = ((AddGroup mgr g 0 s).1, RBAC.mk (set_groups G (rbac s)) (rows s)) ∧
    is_Some (match (AddGroup mgr g 0 s).1 with Ok x => Some x | _ => None end) ∧
    ∀ g', g' ∈ G ↔ g' ∈ _groups (rbac s) ∨ (g' = g ∧ is_Some (mgr_groups mgr !! g'))) as (G & E & Hok & HG).
  { unfold AddGroup. destruct (mgr_groups mgr !! g) as [r|] eqn:Eg.
    - unfold mbind, X_bind, getX. destruct (decide (g ∈ _groups (rbac s))).
      + rewrite bool_decide_true by done. exists (_groups (rbac s)). split; [by destruct s as [[] ?]|]. split; [by eexists|].
        intros g'. naive_solver.
      + rewrite bool_decide_false by done. exists ({[g]} ∪ _groups (rbac s)). split; [done|]. split; [by eexists|].
        intros g'. rewrite elem_of_union, elem_of_singleton. naive_solver.
    - exists (_groups (rbac s)). split; [by destruct s as [[] ?]|]. split; [by eexists|]. intros g'. rewrite <- not_eq_None_Some. naive_solver. }
  destruct (AddGroup mgr g 0 s) as [[x|?] s1] eqn:Ea; [|by destruct Hok]. injection E as ->.
  rewrite (bindX_Ok _ _ _ _ _ Ea).
  destruct (IH (RBAC.mk (set_groups G (rbac s)) (rows s))) as (G' & E' & HG'). exists G'. split; [exact E'|].
  intros g'. rewrite HG'. cbn. rewrite HG, elem_of_cons. naive_solver.
Qed.

Lemma load_roles_ok mgr l s :
  load_roles mgr l s = (Ok tt, RBAC.mk (with_roles
    (foldl (flag_step (λ id, is_Some (_roles mgr !! id))) (_grantedRoles (rbac s), _deniedRoles (rbac s)) l) (rbac s)) (rows s)).
Proof.
  revert s. induction l as [|[id b] l IH]; intros s; cbn [load_roles foldl]; [by destruct s as [[] ?]|].
  set (gd := flag_step _ _ (id, b)).
  assert (∃ x, (if b then GrantRole mgr id 0 else DenyRole mgr id 0) s = (Ok x, RBAC.mk (with_roles gd (rbac s)) (rows s))) as [x E].
  { unfold gd, flag_step, GrantRole, DenyRole, with_roles. cbn [fst snd]. unfold mbind, X_bind, getX.
    destruct (_roles mgr !! id) as [r|] eqn:Er; [rewrite decide_True by by eexists|rewrite decide_False by by intros []].
    2: { destruct b; eexists; by destruct s as [[] ?]. }
    destruct (decide (id ∈ _grantedRoles (rbac s))), (decide (id ∈ _deniedRoles (rbac s))); destruct b;
      repeat first [rewrite bool_decide_true by done | rewrite bool_decide_false by done];
      first [rewrite decide_True by tauto | rewrite decide_False by tauto];
      eexists; destruct s as [[] ?]; reflexivity. }
  rewrite (bindX_Ok _ _ _ _ _ E), IH. clearbody gd. by destruct gd.
Qed.

Lemma in_bitset_ok p s : p < RBAC_PERM_MAX → in_bitset p s = (Ok tt, s).
Proof. intros H. unfold in_bitset. by rewrite (proj2 (Z.ltb_lt _ _)). Qed.
Lemma test_ok f p s : p < RBAC_PERM_MAX → test f p s = (Ok (bool_decide (p ∈ f (rbac s))), s).
Proof. intros H. unfold test. by rewrite (bindX_Ok _ _ _ _ _ (in_bitset_ok p s H)). Qed.

Lemma load_permissions_ok mgr l s : mgr_ok mgr →
  load_permissions mgr l s = (Ok tt, RBAC.mk (with_perms
    (foldl (flag_step (λ id, id ∈ _permissions mgr)) (_grantedPerms (rbac s), _deniedPerms (rbac s)) l) (rbac s)) (rows s)).
Proof.
  intros Hm. revert s. induction l as [|[id b] l IH]; intros s; cbn [load_permissions foldl]; [by destruct s as [[] ?]|].
  set (gd := flag_step _ _ (id, b)).
  assert (∃ x, (if b then GrantPermission mgr id 0 else DenyPermission mgr id 0) s = (Ok x, RBAC.mk (with_perms gd (rbac s)) (rows s))) as [x E].
  { unfold gd, flag_step, GrantPermission, DenyPermission, with_perms. cbn [fst snd].
    destruct (decide (id ∈ _permissions mgr)) as [Hin|].
    2: { rewrite bool_decide_false by done. destruct b; eexists; by destruct s as [[] ?]. }
    rewrite bool_decide_true by done. cbn [negb]. unfold mbind, X_bind.
    destruct (decide (id ∈ _grantedPerms (rbac s))), (decide (id ∈ _deniedPerms (rbac s))); destruct b;
      repeat first [rewrite bool_decide_true by done | rewrite bool_decide_false by done | rewrite (test_ok _ id) by auto];
      first [rewrite decide_True by tauto | rewrite decide_False by tauto];
      eexists; destruct s as [[] ?]; reflexivity. }
  rewrite (bindX_Ok _ _ _ _ _ E), IH. clearbody gd. by destruct gd.
Qed.

(** ** Memory and database agree *)

(** Granted and denied identifiers are those whose rows say so. *)
Definition agrees (exists_ : Z → Prop) (m : gmap (Z * Z) bool) (realm : Z) (G D : gset Z) : Prop := ∀ id,
  (id ∈ G ↔ exists_ id ∧ decided m realm id = Some true) ∧ (id ∈ D ↔ exists_ id ∧ decided m realm id = Some false).

Lemma agrees_unique ex m realm G1 D1 G2 D2 : agrees ex m realm G1 D1 → agrees ex m realm G2 D2 → G1 = G2 ∧ D1 = D2.
Proof. intros H1 H2. split; apply set_eq; intros x; destruct (H1 x) as [E1 E2], (H2 x) as [E3 E4]; by rewrite ?E1, ?E2, ?E3, ?E4. Qed.
Lemma agrees_undecided ex m realm G D id : agrees ex m realm G D → ex id → id ∉ G → id ∉ D → decided m realm id = None.
Proof. intros H Hx HG HD. destruct (H id) as [E1 E2]. destruct (decided m realm id) as [[]|]; naive_solver. Qed.
Lemma agrees_insert ex m realm G D id k (b : bool) :
  agrees ex m realm G D → ex id → id ∉ G → id ∉ D → k = realm ∨ k = -1 →
  agrees ex (<[(id, k) := b]> m) realm (if b then {[id]} ∪ G else G) (if b then D else {[id]} ∪ D).
Proof.
  intros H Hx HG HD Hk id'. pose proof (agrees_undecided _ _ _ _ _ _ H Hx HG HD) as Hn.
  rewrite decided_insert by done. destruct (H id') as [E1 E2].
  destruct (decide (id' = id)) as [->|]; destruct b; rewrite ?elem_of_union, ?elem_of_singleton; naive_solver.
Qed.
Lemma agrees_delete ex m realm G D id :
  agrees ex m realm G D → agrees ex (delete_rows id realm m) realm (G ∖ {[id]}) (D ∖ {[id]}).
Proof.
  intros H id'. rewrite decided_delete, !elem_of_difference, !elem_of_singleton. destruct (H id') as [E1 E2].
  destruct (decide (id' = id)) as [->|]; naive_solver.
Qed.
Lemma agrees_loaded ex `{!∀ id, Decision (ex id)} m realm : -1 < realm →
  let gd := foldl (flag_step ex) (∅, ∅) (select_rows realm m) in agrees ex m realm gd.1 gd.2.
Proof.
  intros Hr gd id. destruct (flag_steps ex (select_rows realm m) (∅, ∅) id) as [E1 E2]. unfold gd. rewrite E1, E2.
  rewrite select_rows_first by done. cbn. set_solver.
Qed.

Record coherent (mgr : AccountMgr) (s : t) : Prop := {
  co_groups g : g ∈ _groups (rbac s) ↔
    is_Some (mgr_groups mgr !! g) ∧
    ((∃ k, (g, k) ∈ rbac_account_groups (rows s) ∧ (k = _realmId (rbac s) ∨ k = -1)) ∨ g ∈ _defaultGroups mgr);
  co_roles : agrees (λ id, is_Some (_roles mgr !! id)) (rbac_account_roles (rows s)) (_realmId (rbac s))
    (_grantedRoles (rbac s)) (_deniedRoles (rbac s));
  co_perms : agrees (λ id, id ∈ _permissions mgr) (rbac_account_permissions (rows s)) (_realmId (rbac s))
    (_grantedPerms (rbac s)) (_deniedPerms (rbac s));
  co_global : _globalPerms (rbac s) = global_permissions mgr (rbac s) }.

(** What is in memory is determined by the database. *)
Lemma coherent_unique mgr s1 s2 :
  coherent mgr s1 → coherent mgr s2 → rows s1 = rows s2 → _realmId (rbac s1) = _realmId (rbac s2) → rbac s1 = rbac s2.
Proof.
  intros [G1 R1 P1 A1] [G2 R2 P2 A2] Er Ei. rewrite Er, Ei in *.
  destruct s1 as [[r1 g1 gr1 dr1 gp1 dp1 a1] w1], s2 as [[r2 g2 gr2 dr2 gp2 dp2 a2] w2]. cbn in *. subst r2 w2.
  assert (g1 = g2) as -> by (apply set_eq; intros x; by rewrite G1, G2).
  destruct (agrees_unique _ _ _ _ _ _ _ R1 R2) as [-> ->], (agrees_unique _ _ _ _ _ _ _ P1 P2) as [-> ->].
  f_equal. rewrite A1, A2. done.
Qed.

Lemma selected_groups realm r g :
  g ∈ SEL_RBAC_ACCOUNT_GROUPS realm r ↔ ∃ k, (g, k) ∈ rbac_account_groups r ∧ (k = realm ∨ k = -1).
Proof.
  unfold SEL_RBAC_ACCOUNT_GROUPS. rewrite elem_of_elements, elem_of_map. unfold visible. split.
  - intros ([g' k] & -> & [Hv Hin]%elem_of_filter). eauto.
  - intros (k & Hin & Hk). exists (g, k). split; [done|]. by apply elem_of_filter.
Qed.

Lemma LoadFromDB_ok mgr realm r : mgr_ok mgr → -1 < realm →
  ∃ s, LoadFromDB mgr (RBAC.mk (new realm) r) = (Ok tt, s) ∧ coherent mgr s ∧ rows s = r ∧ _realmId (rbac s) = realm.
Proof.
  intros Hm Hr. unfold LoadFromDB. erewrite bindX_Ok; [|done]. cbn [rbac rows _realmId new].
  destruct (load_groups_ok mgr (SEL_RBAC_ACCOUNT_GROUPS realm r) (RBAC.mk (new realm) r)) as (G & E1 & HG).
  rewrite (bindX_Ok _ _ _ _ _ E1). rewrite (bindX_Ok _ _ _ _ _ (load_roles_ok mgr _ _)).
  rewrite (bindX_Ok _ _ _ _ _ (load_permissions_ok mgr _ _ Hm)).
  set (s2 := RBAC.mk _ _). destruct (load_groups_ok mgr (elements (_defaultGroups mgr)) s2) as (G' & E2 & HG').
  rewrite (bindX_Ok _ _ _ _ _ E2). eexists. split; [done|]. split; [|done]. cbn in HG, HG'.
  split; cbn; [|by apply agrees_loaded..|done].
  intros id. rewrite HG', HG, elem_of_elements, selected_groups. set_solver.
Qed.

(** ** Commands *)

Inductive command : Type :=
| CAddGroup (g : Z) | CRemoveGroup (g : Z)
| CGrantRole (id : Z) | CDenyRole (id : Z) | CRevokeRole (id : Z)
| CGrantPermission (id : Z) | CDenyPermission (id : Z) | CRevokePermission (id : Z).
Definition execute (mgr : AccountMgr) (c : command) (realm : Z) : X t RBACCommandResult :=
  match c with
  | CAddGroup g => AddGroup mgr g realm
  | CRemoveGroup g => RemoveGroup mgr g realm
  | CGrantRole id => GrantRole mgr id realm
  | CDenyRole id => DenyRole mgr id realm
  | CRevokeRole id => RevokeRole mgr id realm
  | CGrantPermission id => GrantPermission mgr id realm
  | CDenyPermission id => DenyPermission mgr id realm
  | CRevokePermission id => RevokePermission mgr id realm
  end.
Fixpoint run (mgr : AccountMgr) (cs : list (command * Z)) : X t (list RBACCommandResult) :=
  match cs with
  | [] => mret []
  | (c, realm) :: cs => x ← execute mgr c realm; xs ← run mgr cs; mret (x :: xs)
  end.

(** Commands for the realm of the account; for all realms only such that add something.  The
    default groups are not removed; a permission that is revoked has a place in the bit sets. *)
Definition admissible (mgr : AccountMgr) (realm : Z) (c : command * Z) : Prop :=
  match c.1 with
  | CAddGroup _ | CGrantRole _ | CDenyRole _ | CGrantPermission _ | CDenyPermission _ => c.2 = realm ∨ c.2 = -1
  | CRemoveGroup g => c.2 = realm ∧ g ∉ _defaultGroups mgr
  | CRevokeRole _ => c.2 = realm
  | CRevokePermission p => c.2 = realm ∧ p < RBAC_PERM_MAX
  end.

Section Commands.
Context (mgr : AccountMgr) (realm : Z) (Hm : mgr_ok mgr) (Hr : 0 < realm).

Definition kept (s s' : t) : Prop := coherent mgr s' ∧ _realmId (rbac s') = _realmId (rbac s).
Definition fine_command (s : t) (m : X t RBACCommandResult) : Prop := ∃ x s', m s = (Ok x, s') ∧ kept s s'.

Lemma fine_same s x : coherent mgr s → fine_command s (mret x).
Proof. intros H. by exists x, s. Qed.

(** A change that is saved. *)
Lemma fine_save s f k statement x : k ≠ 0 →
  let d := f (rbac s) in
  kept s (RBAC.mk (set_globalPerms (global_permissions mgr d) d) (statement (rows s))) →
  fine_command s (modify_rbac f;; save mgr k statement;; mret x).
Proof.
  intros Hk d H. exists x. eexists. split; [|exact H]. unfold save. rewrite (proj2 (Z.eqb_neq _ _)) by done. done.
Qed.

Lemma AddGroup_fine s g k : coherent mgr s → _realmId (rbac s) = realm → k = realm ∨ k = -1 →
  fine_command s (AddGroup mgr g k).
Proof using Hr Hm.
  intros H Er Hk. unfold AddGroup. destruct (mgr_groups mgr !! g) as [r|] eqn:E; [|by apply fine_same].
  unfold fine_command. erewrite bindX_Ok; [|done]. case_bool_decide as Hin; [by apply fine_same|].
  apply fine_save; [lia|]. destruct H as [HG HR HP HA]. split; [|done]. split; cbn; try done.
  intros g'. rewrite elem_of_union, elem_of_singleton, HG. setoid_rewrite elem_of_union. setoid_rewrite elem_of_singleton.
  rewrite Er. split.
  - intros [->|[? [(k' & ? & ?)|?]]]; [|naive_solver..]. split; [by eexists|]. left. exists k. auto.
  - intros [? [(k' & [[= -> ->]|?] & ?)|?]]; naive_solver.
Qed.

Lemma RemoveGroup_fine s g : coherent mgr s → _realmId (rbac s) = realm → g ∉ _defaultGroups mgr →
  fine_command s (RemoveGroup mgr g realm).
Proof using Hr Hm.
  intros H Er Hd. unfold RemoveGroup, fine_command. erewrite bindX_Ok; [|done].
  case_bool_decide as Hin; [|by apply fine_same]. cbn [negb].
  apply fine_save; [lia|]. destruct H as [HG HR HP HA]. split; [|done]. split; cbn; try done.
  intros g'. rewrite elem_of_difference, elem_of_singleton, HG. setoid_rewrite elem_of_filter. unfold visible. cbn.
  rewrite Er. split.
  - intros [[? [(k' & ? & ?)|?]] Hne]; split; [done| |done|by right]. left. exists k'. naive_solver.
  - intros [? [(k' & [? ?] & ?)|?]]; [|split; [naive_solver|congruence]]. split; [naive_solver|]. intros ->. naive_solver.
Qed.

Lemma GrantRole_fine s id k : coherent mgr s → _realmId (rbac s) = realm → k = realm ∨ k = -1 →
  fine_command s (GrantRole mgr id k).
Proof using Hr Hm.
  intros H Er Hk. unfold GrantRole. destruct (_roles mgr !! id) as [r|] eqn:E; [|by apply fine_same].
  unfold fine_command. erewrite bindX_Ok; [|done].
  case_bool_decide; [by apply fine_same|]. case_bool_decide; [by apply fine_same|].
  apply fine_save; [lia|]. destruct H as [HG HR HP HA]. split; [|done]. split; cbn; try done.
  apply (agrees_insert _ _ _ _ _ _ _ true HR); [by eexists|done..|by rewrite Er].
Qed.
Lemma DenyRole_fine s id k : coherent mgr s → _realmId (rbac s) = realm → k = realm ∨ k = -1 →
  fine_command s (DenyRole mgr id k).
Proof using Hr Hm.
  intros H Er Hk. unfold DenyRole. destruct (_roles mgr !! id) as [r|] eqn:E; [|by apply fine_same].
  unfold fine_command. erewrite bindX_Ok; [|done].
  case_bool_decide; [by apply fine_same|]. case_bool_decide; [by apply fine_same|].
  apply fine_save; [lia|]. destruct H as [HG HR HP HA]. split; [|done]. split; cbn; try done.
  apply (agrees_insert _ _ _ _ _ _ _ false HR); [by eexists|done..|by rewrite Er].
Qed.
Lemma RevokeRole_fine s id : coherent mgr s → _realmId (rbac s) = realm → fine_command s (RevokeRole mgr id realm).
Proof using Hr Hm.
  intros H Er. unfold RevokeRole, fine_command. erewrite bindX_Ok; [|done].
  destruct (negb _ && negb _) eqn:En.
  - apply andb_true_iff in En as [E1%negb_true_iff%bool_decide_eq_false E2%negb_true_iff%bool_decide_eq_false].
    exists RBAC_CANT_REVOKE_NOT_IN_LIST, s. split; [|done]. unfold modify_rbac. erewrite bindX_Ok; [|done].
    destruct s as [[r g gr dr gp dp a] w]. cbn in *. by rewrite !difference_disjoint_L by set_solver.
  - apply fine_save; [lia|]. destruct H as [HG HR HP HA]. split; [|done]. split; cbn; try done.
    rewrite Er in *. by apply agrees_delete.
Qed.

Lemma GrantPermission_fine s id k : coherent mgr s → _realmId (rbac s) = realm → k = realm ∨ k = -1 →
  fine_command s (GrantPermission mgr id k).
Proof using Hr Hm.
  intros H Er Hk. unfold GrantPermission. case_bool_decide; [|by apply fine_same]. cbn [negb].
  unfold fine_command. erewrite bindX_Ok; [|apply test_ok; auto]. case_bool_decide; [by apply fine_same|].
  erewrite bindX_Ok; [|apply test_ok; auto]. case_bool_decide; [by apply fine_same|].
  apply fine_save; [lia|]. destruct H as [HG HR HP HA]. split; [|done]. split; cbn; try done.
  by apply (agrees_insert _ _ _ _ _ _ _ true HP); [..|by rewrite Er].
Qed.
Lemma DenyPermission_fine s id k : coherent mgr s → _realmId (rbac s) = realm → k = realm ∨ k = -1 →
  fine_command s (DenyPermission mgr id k).
Proof using Hr Hm.
  intros H Er Hk. unfold DenyPermission. case_bool_decide; [|by apply fine_same]. cbn [negb].
  unfold fine_command. erewrite bindX_Ok; [|apply test_ok; auto]. case_bool_decide; [by apply fine_same|].
  erewrite bindX_Ok; [|apply test_ok; auto]. case_bool_decide; [by apply fine_same|].
  apply fine_save; [lia|]. destruct H as [HG HR HP HA]. split; [|done]. split; cbn; try done.
  by apply (agrees_insert _ _ _ _ _ _ _ false HP); [..|by rewrite Er].
Qed.
Lemma RevokePermission_fine s id : coherent mgr s → _realmId (rbac s) = realm → id < RBAC_PERM_MAX →
  fine_command s (RevokePermission mgr id realm).
Proof using Hr Hm.
  intros H Er Hid. unfold RevokePermission, fine_command. erewrite bindX_Ok; [|by apply test_ok].
  set (listed := bool_decide (id ∈ _grantedPerms (rbac s)) || bool_decide (id ∈ _deniedPerms (rbac s))).
  erewrite (bindX_Ok _ _ _ listed); [|by unfold listed; destruct (bool_decide (id ∈ _grantedPerms (rbac s))); [|apply test_ok]].
  destruct listed; [|by apply fine_same].
  apply fine_save; [lia|]. destruct H as [HG HR HP HA]. split; [|done]. split; cbn; try done.
  rewrite Er in *. by apply agrees_delete.
Qed.

Lemma execute_fine s c : coherent mgr s → _realmId (rbac s) = realm → admissible mgr realm c →
  fine_command s (execute mgr c.1 c.2).
Proof using Hr Hm.
  intros H Er Ha. destruct c as [[] k]; cbn in Ha |- *;
    [by apply AddGroup_fine| |by apply GrantRole_fine|by apply DenyRole_fine| |by apply GrantPermission_fine
    |by apply DenyPermission_fine|].
  - destruct Ha as [-> ?]. by apply RemoveGroup_fine.
  - subst k. by apply RevokeRole_fine.
  - destruct Ha as [-> ?]. by apply RevokePermission_fine.
Qed.

Lemma commands_ok cs s : coherent mgr s → _realmId (rbac s) = realm → Forall (admissible mgr realm) cs →
  ∃ xs s', run mgr cs s = (Ok xs, s') ∧ kept s s'.
Proof using Hr Hm.
  intros H Er Hcs. revert s H Er. induction Hcs as [|[c k] cs Hc Hcs IH]; intros s H Er; [by exists [], s|].
  destruct (execute_fine s (c, k) H Er Hc) as (x & s1 & E1 & H1 & Er1). cbn in E1.
  destruct (IH s1 H1) as (xs & s2 & E2 & H2 & Er2); [congruence|].
  exists (x :: xs), s2. split; [|split; [done|congruence]]. cbn [run].
  rewrite (bindX_Ok _ _ _ _ _ E1), (bindX_Ok _ _ _ _ _ E2). done.
Qed.

End Commands.

Lemma HasPermission_ok p s : p < RBAC_PERM_MAX → HasPermission p s = (Ok (bool_decide (p ∈ _globalPerms (rbac s))), s).
Proof. apply test_ok. Qed.

(** C11. An account that is loaded, and then changed by commands for its realm (or additions for
    all realms; no default group is removed), may do exactly what the rules give it: what it
    has of its own or through the roles it has, of its own or through groups, less what is
    denied to it, directly or by a role.  No list has it both ways; and memory is what a fresh
    load from the database finds, so the answer of [AccountMgr::HasPermission] is the same. *)
Theorem permissions_coherent mgr realm r cs :
  mgr_ok mgr → 0 < realm → Forall (admissible mgr realm) cs →
  ∃ xs s, (LoadFromDB mgr;; run mgr cs) (RBAC.mk (new realm) r) = (Ok xs, s) ∧
    (∀ p, p < RBAC_PERM_MAX → HasPermission p s = (Ok (bool_decide (p ∈ global_permissions mgr (rbac s))), s) ∧
       (p ∈ global_permissions mgr (rbac s) ↔ allowed mgr (rbac s) p) ∧
       ∀ account, account ≠ 0 → mgr_HasPermission mgr account p realm (rows s) = (HasPermission p s).1) ∧
    _grantedRoles (rbac s) ## _deniedRoles (rbac s) ∧ _grantedPerms (rbac s) ## _deniedPerms (rbac s) ∧
    (LoadFromDB mgr (RBAC.mk (new realm) (rows s))).2 = s.
Proof.
  intros Hm Hr Hcs. destruct (LoadFromDB_ok mgr realm r Hm) as (s1 & E1 & H1 & _ & Er1); [lia|].
  destruct (commands_ok mgr realm Hm Hr cs s1 H1 Er1 Hcs) as (xs & s2 & E2 & H2 & Er2).
  destruct (LoadFromDB_ok mgr realm (rows s2) Hm) as (s3 & E3 & H3 & Ew3 & Er3); [lia|].
  assert (s3 = s2) as ->.
  { assert (rbac s3 = rbac s2) by (apply (coherent_unique mgr); [done..|congruence]). destruct s2, s3; cbn in *; congruence. }
  exists xs, s2. split; [by rewrite (bindX_Ok _ _ _ _ _ E1)|]. split.
  - intros p Hp. rewrite HasPermission_ok by done. rewrite (co_global _ _ H2). split; [done|].
    split; [apply global_permissions_spec|]. intros account Ha. unfold mgr_HasPermission.
    rewrite (proj2 (Z.eqb_neq _ _)) by done. rewrite (bindX_Ok _ _ _ _ _ E3), HasPermission_ok by done.
    by rewrite (co_global _ _ H2).
  - destruct H2 as [_ HR HP _]. rewrite E3. split_and!; [| |done]; intros id ??;
      [destruct (HR id) as [E E']|destruct (HP id) as [E E']]; naive_solver.
Qed.

(** ** An example

    Everybody is in a group whose role lets in without waiting; the account is denied that
    permission on all realms, then is given another role, and is forgiven. *)
Module Example.
Definition mgr : AccountMgr :=
  mkAccountMgr {[2; 10; 23]} {[1 := {[2]}; 7 := {[10; 23]}]} {[5 := {[1]}]} {[5]} ∅.
Definition stored : Rows := mkRows ∅ {[(7, 2) := false]} {[(2, 1) := false; (23, -1) := true; (23, 1) := false]}.
Definition commands : list (command * Z) :=
  [(CGrantRole 7, -1); (CRevokePermission 2, 1); (CDenyPermission 10, 1); (CGrantPermission 10, 1)].
End Example.

Lemma permissions_coherent_witness :
  (∃ xs s, (LoadFromDB Example.mgr;; run Example.mgr Example.commands) (RBAC.mk (new 1) Example.stored) = (Ok xs, s) ∧
     (LoadFromDB Example.mgr (RBAC.mk (new 1) (rows s))).2 = s) ∧
  let '(r, s) := (LoadFromDB Example.mgr;; run Example.mgr Example.commands) (RBAC.mk (new 1) Example.stored) in
  (r, elements (_globalPerms (rbac s))) = (Ok [RBAC_OK; RBAC_OK; RBAC_OK; RBAC_IN_DENIED_LIST], [23; 2]).
Proof.
  split; [|vm_compute; reflexivity].
  destruct (permissions_coherent Example.mgr 1 Example.stored Example.commands) as (xs & s & E & _ & _ & _ & E').
  - intros p Hp. assert (p = 2 ∨ p = 10 ∨ p = 23) as H by (unfold Example.mgr in Hp; cbn in Hp; set_solver).
    destruct H as [->|[->| ->]]; reflexivity.
  - done.
  - repeat constructor; done || by right.
  - by exists xs, s.
Defined.
