(* ===== verification/Threat.v ===== *)
(** * Threat: whom a creature hates, and whom it attacks.

    [game/Combat/ThreatManager.{h,cpp}], [game/Combat/HostileRefManager.{h,cpp}] on the linked
    references of [shared/Dynamic]: a creature keeps two lists of references to the units it
    hates, those it can reach now and the others; every unit keeps a list of the references
    that lead to it.  References are heap objects, deleted by either end.  Units are known by
    their GUIDs.  What the code asks other subsystems about units is a record of facts, which
    holds for the time of one call. *)
From S2P Require Import Prelude Float32.
From stdpp Require Import gmap sorting.
From Stdlib Require Import SpecFloat.
Open Scope Z_scope.

(** ** Floats *)
Definition f32_sub (x y : Z) : Z := f32_encode (SFsub prec emax (f32_decode x) (f32_decode y)).
Definition f32_le (x y : Z) : bool := SFleb (f32_decode x) (f32_decode y).
(** Conversion of an integer, to the nearest float. *)
Definition f32_of_int (z : Z) : Z := f32_encode (binary_normalize prec emax z 0 false).
Definition f32_1_1 : Z := 0x3F8CCCCD.
Definition f32_1_3 : Z := 0x3FA66666.
Definition f32_100 : Z := 0x42C80000.
Definition f32_one : Z := 0x3F800000.

Definition CalculatePct (base pct : Z) : Z := f32_div (f32_mul base (f32_of_int pct)) f32_100.
Definition AddPct (base pct : Z) : Z := f32_add base (CalculatePct base pct).

(** ** The data *)

Record HostileReference := mkRef {
  iRefTo : option Z;
  iRefFrom : option Z;                       (* a threat manager, by its owner *)
  linked : option Z;                         (* whose hostile references it is among *)
  iThreat : Z;
  iTempThreatModifier : Z;
  iUnitGuid : Z;
  iOnline : bool;
  iAccessible : bool }.

Record ThreatContainer := mkContainer { iThreatList : list Z; iDirty : bool }.

Record ThreatManager := mkManager {
  iCurrentVictim : option Z;
  iUpdateTimer : Z;
  iThreatContainer : ThreatContainer;
  iThreatOfflineContainer : ThreatContainer }.

(** Of a unit, its two managers; the second is the list of the references to it. *)
Record UnitState := mkUnit { m_ThreatManager : ThreatManager; m_HostileRefManager : list Z }.

(** What goes to the clients around a creature: its GUID, that of the unit in question, and
    units with their threat. *)
Inductive message :=
| SMSG_THREAT_UPDATE (owner : Z) (entries : list (Z * Z))
| SMSG_HIGHEST_THREAT_UPDATE (owner victim : Z) (entries : list (Z * Z))
| SMSG_THREAT_CLEAR (owner : Z)
| SMSG_THREAT_REMOVE (owner victim : Z).

Record state := mkState {
  units : gmap Z UnitState;
  refs : gmap Z HostileReference;
  next_address : Z;                                 (* the next address of a reference *)
  sent : list message }.

Definition set_units m s := mkState m (refs s) (next_address s) (sent s).
Definition set_refs m s := mkState (units s) m (next_address s) (sent s).
Definition set_next_address a s := mkState (units s) (refs s) a (sent s).
Definition set_sent l s := mkState (units s) (refs s) (next_address s) l.

Definition set_link t f (R : HostileReference) :=
  mkRef t f (linked R) (iThreat R) (iTempThreatModifier R) (iUnitGuid R) (iOnline R) (iAccessible R).
Definition set_linked l (R : HostileReference) :=
  mkRef (iRefTo R) (iRefFrom R) l (iThreat R) (iTempThreatModifier R) (iUnitGuid R) (iOnline R) (iAccessible R).
Definition set_iThreat x (R : HostileReference) :=
  mkRef (iRefTo R) (iRefFrom R) (linked R) x (iTempThreatModifier R) (iUnitGuid R) (iOnline R) (iAccessible R).
Definition set_iTemp x (R : HostileReference) :=
  mkRef (iRefTo R) (iRefFrom R) (linked R) (iThreat R) x (iUnitGuid R) (iOnline R) (iAccessible R).
Definition set_iOnline b (R : HostileReference) :=
  mkRef (iRefTo R) (iRefFrom R) (linked R) (iThreat R) (iTempThreatModifier R) (iUnitGuid R) b (iAccessible R).
Definition set_iAccessible b (R : HostileReference) :=
  mkRef (iRefTo R) (iRefFrom R) (linked R) (iThreat R) (iTempThreatModifier R) (iUnitGuid R) (iOnline R) b.

Definition set_victim v (M : ThreatManager) :=
  mkManager v (iUpdateTimer M) (iThreatContainer M) (iThreatOfflineContainer M).
Definition set_timer t (M : ThreatManager) :=
  mkManager (iCurrentVictim M) t (iThreatContainer M) (iThreatOfflineContainer M).
Definition set_online c (M : ThreatManager) :=
  mkManager (iCurrentVictim M) (iUpdateTimer M) c (iThreatOfflineContainer M).
Definition set_offline c (M : ThreatManager) :=
  mkManager (iCurrentVictim M) (iUpdateTimer M) (iThreatContainer M) c.
Definition set_manager M (U : UnitState) := mkUnit M (m_HostileRefManager U).
Definition set_hated l (U : UnitState) := mkUnit (m_ThreatManager U) l.

(** ** Pointers

    To follow one that leads nowhere is undefined. *)

Definition get_ref (r : Z) : X state HostileReference :=
  s ← getX; match refs s !! r with Some R => mret R | None => throwX UndefinedBehaviour end.
Definition with_ref (r : Z) (f : HostileReference → HostileReference) : X state unit :=
  R ← get_ref r; modifyX (λ s, set_refs (<[r := f R]> (refs s)) s).
Definition get_unit (u : Z) : X state UnitState :=
  s ← getX; match units s !! u with Some U => mret U | None => throwX UndefinedBehaviour end.
Definition with_unit (u : Z) (f : UnitState → UnitState) : X state unit :=
  U ← get_unit u; modifyX (λ s, set_units (<[u := f U]> (units s)) s).
Definition get_manager (u : Z) : X state ThreatManager := U ← get_unit u; mret (m_ThreatManager U).
Definition with_manager (u : Z) (f : ThreatManager → ThreatManager) : X state unit :=
  with_unit u (λ U, set_manager (f (m_ThreatManager U)) U).
Definition send (m : message) : X state unit := modifyX (λ s, set_sent (sent s ++ [m]) s).

(** [getTarget()->] and [GetSource()->] *)
Definition target (r : Z) : X state Z :=
  R ← get_ref r; match iRefTo R with Some t => get_unit t;; mret t | None => throwX UndefinedBehaviour end.
Definition source (r : Z) : X state Z :=
  R ← get_ref r; match iRefFrom R with Some f => get_unit f;; mret f | None => throwX UndefinedBehaviour end.

(** The element after [x]. *)
Fixpoint successor (x : Z) (l : list Z) : option Z :=
  match l with [] => None | y :: l => if y =? x then head l else successor x l end.

(** ** Containers of references *)

Definition container_remove (r : Z) (c : ThreatContainer) : ThreatContainer :=
  mkContainer (filter (λ x, x ≠ r) (iThreatList c)) (iDirty c).
Definition addReference (r : Z) (c : ThreatContainer) : ThreatContainer :=
  mkContainer (iThreatList c ++ [r]) (iDirty c).
Definition setDirty (u : Z) (b : bool) : X state unit :=
  with_manager u (λ M, set_online (mkContainer (iThreatList (iThreatContainer M)) b) M).
Definition isThreatListEmpty (M : ThreatManager) : bool :=
  match iThreatList (iThreatContainer M) with [] => true | _ => false end.

(** [std::list::sort] with [ThreatOrderPred], which is stable.  (With a NaN the comparison is
    no ordering, and the order that results is up to the library.) *)
Fixpoint sort_insert (threat : Z → Z) (x : Z) (l : list Z) : list Z :=
  match l with
  | [] => [x]
  | y :: l' => if f32_lt (threat x) (threat y) then y :: sort_insert threat x l' else x :: l
  end.
Definition threat_sort (threat : Z → Z) (l : list Z) : list Z := foldr (sort_insert threat) [] l.

Fixpoint getReferenceByTarget (l : list Z) (guid : Z) : X state (option Z) :=
  match l with
  | [] => mret None
  | r :: l => R ← get_ref r; if iUnitGuid R =? guid then mret (Some r) else getReferenceByTarget l guid
  end.

(** ** Links *)

(** [LinkedListElement::delink] *)
Definition delink (r : Z) : X state unit :=
  R ← get_ref r;
  match linked R with
  | Some u =>
      with_unit u (λ U, set_hated (filter (λ x, x ≠ r) (m_HostileRefManager U)) U);;
      with_ref r (set_linked None)
  | None => mret tt
  end.

(** [targetObjectBuildLink], which puts the reference first in the target's list *)
Definition addHatedBy (u r : Z) : X state unit :=
  with_unit u (λ U, set_hated (r :: m_HostileRefManager U) U);; with_ref r (set_linked (Some u)).

Definition unlink (r : Z) : X state unit := target r;; delink r;; with_ref r (set_link None None).

Definition link (r : Z) (to : option Z) (from : Z) : X state unit :=
  R ← get_ref r;
  (when bool_decide (is_Some (iRefTo R)) do unlink r);;
  match to with
  | Some t => with_ref r (set_link (Some t) (Some from));; addHatedBy t r
  | None => mret tt
  end.

(** [delete], with the destructor of the list element *)
Definition delete_ref (r : Z) : X state unit := delink r;; modifyX (λ s, set_refs (delete r (refs s)) s).

(** [next()] *)
Definition next (r : Z) : X state (option Z) :=
  R ← get_ref r;
  match linked R with
  | Some u => U ← get_unit u; mret (successor r (m_HostileRefManager U))
  | None => mret None
  end.

(** ** Facts

    What units answer while a call runs; [is_creature] never changes.  [owners] bounds the
    length of a chain of owners. *)

Record Spell := mkSpell {
  Attributes_NO_THREAT : bool;
  pctMod : option Z;                         (* of its row of spell_threat *)
  energizes : bool;                          (* some effect does *)
  SchoolMask : Z }.

Record Facts := mkFacts {
  IsGameMaster : Z → bool;                   (* a player and game master *)
  IsAlive : Z → bool;
  cannot_have_list : Z → bool;               (* dying, a totem, or summoned by a player *)
  in_flight : Z → bool;
  IsInMap : Z → Z → bool;
  InSamePhase : Z → Z → bool;
  isInAccessiblePlaceFor : Z → Z → bool;     (* target, creature *)
  IsWithinCombatRange : Z → Z → bool;        (* creature, target *)
  GetCharmerOrOwner : Z → option Z;
  owners : nat;
  GetRedirectThreatPercent : Z → Z;
  GetRedirectThreatTarget : Z → option Z;
  GetUnit : Z → Z → option Z;                (* creature, GUID *)
  ApplySpellMod : Z → Spell → Z → Z;         (* that of the owner of the unit's spells *)
  HasThreatAura : Z → bool;
  m_threatModifier : Z → Z → Z;              (* unit, school *)
  CanCreatureAttack : Z → Z → bool;
  second_choice : Z → Z → bool;              (* immune to the creature's blows, or under an aura that damage breaks *)
  IsWithinMeleeRange : Z → Z → bool;
  CanSeeOrDetect : Z → Z → bool;
  faction : Z → Z;
  GetVictim : Z → option Z;
  PlayerLogout : Z → bool }.

Section Threat.
Context (is_creature : Z → bool).
(** The conversion to [uint32] of floats for which the language leaves it undefined. *)
Context (platform : Z → Z).
Context (F : Facts).

Definition to_uint32 (x : Z) : Z := match f32_to_uint32 x with Ok v => v | Throw _ => platform x end.

(** ** Telling the clients (Unit.cpp) *)

Fixpoint entries (conv : Z → Z) (l : list Z) : X state (list (Z * Z)) :=
  match l with
  | [] => mret []
  | r :: l => R ← get_ref r; es ← entries conv l; mret ((iUnitGuid R, conv (iThreat R)) :: es)
  end.

Definition SendThreatListUpdate (u : Z) : X state unit :=
  M ← get_manager u;
  when negb (isThreatListEmpty M) do
    (es ← entries (λ t, to_uint32 (f32_mul t f32_100)) (iThreatList (iThreatContainer M));
     send (SMSG_THREAT_UPDATE u es)).

Definition SendChangeCurrentVictimOpcode (u r : Z) : X state unit :=
  M ← get_manager u;
  when negb (isThreatListEmpty M) do
    (R ← get_ref r;
     es ← entries to_uint32 (iThreatList (iThreatContainer M));
     send (SMSG_HIGHEST_THREAT_UPDATE u (iUnitGuid R) es)).

Definition SendRemoveFromThreatListOpcode (u r : Z) : X state unit :=
  R ← get_ref r; send (SMSG_THREAT_REMOVE u (iUnitGuid R)).

Definition SendClearThreatListOpcode (u : Z) : X state unit := send (SMSG_THREAT_CLEAR u).

(** ** Events of references *)

Inductive UNIT_EVENT_TYPE :=
| UEV_THREAT_REF_ONLINE_STATUS
| UEV_THREAT_REF_THREAT_CHANGE (fValue : Z)
| UEV_THREAT_REF_REMOVE_FROM_LIST
| UEV_THREAT_REF_ASSECCIBLE_STATUS.

Definition setCurrentVictim (u : Z) (p : option Z) : X state unit :=
  M ← get_manager u;
  match p with
  | Some r => when negb (bool_decide (iCurrentVictim M = Some r)) do SendChangeCurrentVictimOpcode u r
  | None => mret tt
  end;;
  with_manager u (set_victim p).

(** The current victim leaves. *)
Definition drop_victim (u r : Z) : X state unit :=
  M ← get_manager u;
  when bool_decide (iCurrentVictim M = Some r) do (setCurrentVictim u None;; setDirty u true).

Definition processThreatEvent (u : Z) (type : UNIT_EVENT_TYPE) (r : Z) : X state unit :=
  M ← get_manager u;
  match type with
  | UEV_THREAT_REF_THREAT_CHANGE fValue =>
      let current := bool_decide (iCurrentVictim M = Some r) in
      when (current && f32_lt fValue 0) || (negb current && f32_lt 0 fValue) do setDirty u true
  | UEV_THREAT_REF_ONLINE_STATUS =>
      R ← get_ref r;
      if negb (iOnline R) then
        drop_victim u r;;
        SendRemoveFromThreatListOpcode u r;;
        with_manager u (λ M, set_online (container_remove r (iThreatContainer M)) M);;
        with_manager u (λ M, set_offline (addReference r (iThreatOfflineContainer M)) M)
      else
        (match iCurrentVictim M with
         | Some v => V ← get_ref v;
             when f32_lt (f32_mul f32_1_1 (iThreat V)) (iThreat R) do setDirty u true
         | None => mret tt
         end);;
        with_manager u (λ M, set_online (addReference r (iThreatContainer M)) M);;
        with_manager u (λ M, set_offline (container_remove r (iThreatOfflineContainer M)) M)
  | UEV_THREAT_REF_REMOVE_FROM_LIST =>
      drop_victim u r;;
      SendRemoveFromThreatListOpcode u r;;
      R ← get_ref r;
      if iOnline R then with_manager u (λ M, set_online (container_remove r (iThreatContainer M)) M)
      else with_manager u (λ M, set_offline (container_remove r (iThreatOfflineContainer M)) M)
  | UEV_THREAT_REF_ASSECCIBLE_STATUS => mret tt
  end.

(** ** References *)

Definition fireStatusChanged (r : Z) (type : UNIT_EVENT_TYPE) : X state unit :=
  R ← get_ref r;
  match iRefFrom R with Some u => processThreatEvent u type r | None => mret tt end.

Definition setAccessibleState (r : Z) (isAccessible : bool) : X state unit :=
  R ← get_ref r;
  when negb (eqb (iAccessible R) isAccessible) do
    (with_ref r (set_iAccessible isAccessible);; fireStatusChanged r UEV_THREAT_REF_ASSECCIBLE_STATUS).

Definition setOnlineOfflineState (r : Z) (isOnline : bool) : X state unit :=
  R ← get_ref r;
  when negb (eqb (iOnline R) isOnline) do
    (with_ref r (set_iOnline isOnline);;
     (when negb isOnline do setAccessibleState r false);;
     fireStatusChanged r UEV_THREAT_REF_ONLINE_STATUS).

(** Whether the target of a valid reference is online, and whether it is accessible. *)
Definition reachable (t r : Z) : X state (bool * bool) :=
  get_unit t;;
  if IsGameMaster F t || in_flight F t then mret (false, false)
  else
    src ← source r;
    if IsInMap F t src && InSamePhase F t src then
      if is_creature src then
        if isInAccessiblePlaceFor F t src then mret (true, true)
        else mret (IsWithinCombatRange F src t, false)
      else throwX UndefinedBehaviour
    else mret (false, false).

Definition updateOnlineStatus (r : Z) : X state unit :=
  R ← get_ref r;
  (match iRefTo R with
   | Some _ => mret tt
   | None =>
       src ← source r;
       match GetUnit F src (iUnitGuid R) with Some t => link r (Some t) src | None => mret tt end
   end);;
  R ← get_ref r;
  st ← (match iRefTo R with Some t => reachable t r | None => mret (false, false) end);
  setAccessibleState r st.2;;
  setOnlineOfflineState r st.1.

(** [invalidate], whose [sourceObjectDestroyLink] sets the reference offline *)
Definition invalidate (r : Z) : X state unit :=
  setOnlineOfflineState r false;; delink r;;
  with_ref r (λ R, set_link None (iRefFrom R) R).

Definition removeReference (r : Z) : X state unit :=
  invalidate r;; fireStatusChanged r UEV_THREAT_REF_REMOVE_FROM_LIST.

(** ** How much threat *)

(** [GetFirstSchoolInMask] of [SharedDefines.h]: seven schools *)
Definition GetFirstSchoolInMask (mask : Z) : Z :=
  default 0 (head (filter (λ i, Z.testbit mask i = true) [0; 1; 2; 3; 4; 5; 6])).

Definition ApplyTotalThreatModifier (u threat mask : Z) : Z :=
  if negb (HasThreatAura F u) || f32_lt threat 0 then threat
  else f32_mul threat (m_threatModifier F u (GetFirstSchoolInMask mask)).

Definition calcThreat (hatedUnit threat mask : Z) (threatSpell : option Spell) : Z :=
  match threatSpell with
  | None => ApplyTotalThreatModifier hatedUnit threat mask
  | Some sp =>
      let threat := match pctMod sp with
        | Some pct => if negb (f32_eq pct f32_one) then f32_mul threat pct else threat
        | None => threat end in
      if energizes sp then threat
      else ApplyTotalThreatModifier hatedUnit (ApplySpellMod F hatedUnit sp threat) mask
  end.

(** For pointers that are not null. *)
Definition isValidProcess (hatedUnit hatingUnit : Z) (threatSpell : option Spell) : X state bool :=
  if hatedUnit =? hatingUnit then mret false
  else
    get_unit hatedUnit;; get_unit hatingUnit;;
    if IsGameMaster F hatedUnit then mret false
    else if negb (IsAlive F hatedUnit) || negb (IsAlive F hatingUnit) then mret false
    else if negb (IsInMap F hatedUnit hatingUnit) || negb (InSamePhase F hatedUnit hatingUnit) then mret false
    else if match threatSpell with Some sp => Attributes_NO_THREAT sp | None => false end then mret false
    else if is_creature hatingUnit then mret true else throwX AssertionFailed.

(** ** Adding threat

    A reference that gets threat adds its target's owner to the list, through
    [ThreatManager::addThreat]; [rec] is that call with no threat. *)

Section Adding.
Context (rec : Z → Z → X state unit).

(** [HostileReference::addThreat] *)
Definition ref_addThreat (r modThreat : Z) : X state unit :=
  with_ref r (λ R, set_iThreat (f32_add (iThreat R) modThreat) R);;
  R ← get_ref r;
  (when negb (iOnline R) do updateOnlineStatus r);;
  (when negb (f32_eq modThreat 0) do fireStatusChanged r (UEV_THREAT_REF_THREAT_CHANGE modThreat));;
  R ← get_ref r;
  match iRefTo R with
  | Some t =>
      when f32_le 0 modThreat do
        (get_unit t;;
         match GetCharmerOrOwner F t with
         | Some victimOwner =>
             get_unit victimOwner;;
             when IsAlive F victimOwner do (src ← source r; rec src victimOwner)
         | None => mret tt
         end)
  | None => mret tt
  end.

Definition setThreat (r threat : Z) : X state unit :=
  R ← get_ref r; ref_addThreat r (f32_sub threat (iThreat R)).

(** [HostileReference::addThreatPercent] *)
Definition ref_addThreatPercent (r percent : Z) : X state unit :=
  R ← get_ref r; ref_addThreat r (f32_sub (AddPct (iThreat R) percent) (iThreat R)).

(** [HostileReference::addTempThreat] *)
Definition ref_addTempThreat (r threat : Z) : X state unit :=
  with_ref r (set_iTemp threat);;
  when negb (f32_eq threat 0) do ref_addThreat r threat.

Definition setTempThreat (r threat : Z) : X state unit :=
  R ← get_ref r; ref_addTempThreat r (f32_sub threat (iThreat R)).

Definition resetTempThreat (r : Z) : X state unit :=
  R ← get_ref r;
  when negb (f32_eq (iTempThreatModifier R) 0) do
    (ref_addThreat r (f32_opp (iTempThreatModifier R));; with_ref r (set_iTemp 0)).

(** [ThreatContainer::addThreat] *)
Definition container_addThreat (l : list Z) (victim threat : Z) : X state (option Z) :=
  get_unit victim;;
  ref ← getReferenceByTarget l victim;
  (match ref with Some r => ref_addThreat r threat | None => mret tt end);;
  mret ref.

(** The constructor of [HostileReference] *)
Definition new_reference (refUnit u threat : Z) : X state Z :=
  s ← getX;
  let r := next_address s in
  modifyX (λ s, set_refs (<[r := mkRef None None None threat 0 refUnit true true]> (refs s)) (set_next_address (r + 1) s));;
  link r (Some refUnit) u;;
  mret r.

(** [ThreatManager::_addThreat] *)
Definition manager__addThreat (u victim threat : Z) : X state unit :=
  M ← get_manager u;
  ref ← container_addThreat (iThreatList (iThreatContainer M)) victim threat;
  ref ← match ref with
        | Some r => mret (Some r)
        | None =>
            M ← get_manager u;
            container_addThreat (iThreatList (iThreatOfflineContainer M)) victim threat
        end;
  match ref with
  | Some _ => mret tt
  | None =>
      r ← new_reference victim u 0;
      with_manager u (λ M, set_online (addReference r (iThreatContainer M)) M);;
      ref_addThreat r threat;;
      get_unit victim;;
      when IsGameMaster F victim do setOnlineOfflineState r false
  end.

Definition doAddThreat (u victim threat : Z) : X state unit :=
  get_unit victim;;
  threat ←
    (if f32_lt 0 threat && negb (GetRedirectThreatPercent F victim =? 0) then
       match GetRedirectThreatTarget F victim with
       | Some redirectTarget =>
           let redirectThreat := CalculatePct threat (GetRedirectThreatPercent F victim) in
           manager__addThreat u redirectTarget redirectThreat;;
           mret (f32_sub threat redirectThreat)
       | None => mret threat
       end
     else mret threat);
  manager__addThreat u victim threat.

(** [ThreatManager::addThreat] *)
Definition manager_addThreat (u victim threat mask : Z) (threatSpell : option Spell) : X state unit :=
  valid ← isValidProcess victim u threatSpell;
  when (valid : bool) do doAddThreat u victim (calcThreat victim threat mask threatSpell).

End Adding.

Definition SPELL_SCHOOL_MASK_NORMAL : Z := 1.

(** [GetSource()->addThreat(victimOwner, 0.0f)] with at most [fuel] owners behind one another *)
Fixpoint add_owner (fuel : nat) (u victim : Z) : X state unit :=
  match fuel with
  | O => throwX Diverges
  | S fuel => manager_addThreat (add_owner fuel) u victim 0 SPELL_SCHOOL_MASK_NORMAL None
  end.
Definition rec : Z → Z → X state unit := add_owner (owners F).

(** ** The threat manager *)

Definition CanHaveThreatList (u : Z) : bool := is_creature u && IsAlive F u && negb (cannot_have_list F u).

(** [ThreatContainer::update] *)
Definition update (u : Z) : X state unit :=
  s ← getX;
  let threat r := match refs s !! r with Some R => iThreat R | None => 0 end in
  with_manager u (λ M,
    let c := iThreatContainer M in
    set_online (mkContainer (if iDirty c then threat_sort threat (iThreatList c) else iThreatList c) false) M).

(** The loop of [selectNextVictim] from one reference on; [again] is its restart with
    [noPriorityTargetFound]. *)
Fixpoint select_from (attacker : Z) (noPriorityTargetFound : bool) (l : list Z) (currentVictim : option Z)
    (again : option Z → X state (option Z)) : X state (option Z) :=
  match l with
  | [] => mret None
  | currentRef :: rest =>
      R ← get_ref currentRef;
      t ← match iRefTo R with Some t => get_unit t;; mret t | None => throwX AssertionFailed end;
      if negb noPriorityTargetFound && second_choice F attacker t then
        match rest with
        | [] => again currentVictim
        | _ => select_from attacker noPriorityTargetFound rest
                 (if bool_decide (currentVictim = Some currentRef) then None else currentVictim) again
        end
      else if CanCreatureAttack F attacker t then
        match currentVictim with
        | None => mret (Some currentRef)
        | Some v =>
            V ← get_ref v;
            if (v =? currentRef) || f32_le (iThreat R) (f32_mul f32_1_1 (iThreat V)) then
              if v =? currentRef then mret (Some currentRef)
              else tv ← target v; mret (Some (if CanCreatureAttack F attacker tv then v else currentRef))
            else if f32_lt (f32_mul f32_1_3 (iThreat V)) (iThreat R)
                    || (f32_lt (f32_mul f32_1_1 (iThreat V)) (iThreat R) && IsWithinMeleeRange F attacker t)
            then mret (Some currentRef)
            else select_from attacker noPriorityTargetFound rest currentVictim again
        end
      else select_from attacker noPriorityTargetFound rest currentVictim again
  end.

(** [--end()] of an empty list is undefined. *)
Definition selectNextVictim (attacker : Z) (l : list Z) (currentVictim : option Z) : X state (option Z) :=
  match l with
  | [] => throwX UndefinedBehaviour
  | _ => select_from attacker false l currentVictim (λ currentVictim,
           select_from attacker true l currentVictim (λ _, mret None))
  end.

Definition getHostilTarget (u : Z) : X state (option Z) :=
  update u;;
  M ← get_manager u;
  nextVictim ← (if is_creature u then selectNextVictim u (iThreatList (iThreatContainer M)) (iCurrentVictim M)
                else throwX UndefinedBehaviour);
  setCurrentVictim u nextVictim;;
  match nextVictim with Some r => R ← get_ref r; mret (iRefTo R) | None => mret None end.

(** [Creature::SelectVictim], if no taunt decides it *)
Definition SelectVictim_threat (u : Z) : X state (option Z) :=
  M ← get_manager u;
  if CanHaveThreatList u && negb (isThreatListEmpty M) then getHostilTarget u else mret None.

Definition getThreat (u victim : Z) (alsoSearchOfflineList : bool) : X state Z :=
  get_unit victim;;
  M ← get_manager u;
  ref ← getReferenceByTarget (iThreatList (iThreatContainer M)) victim;
  ref ← match ref with
        | None => if alsoSearchOfflineList then getReferenceByTarget (iThreatList (iThreatOfflineContainer M)) victim
                  else mret None
        | Some r => mret (Some r)
        end;
  match ref with Some r => R ← get_ref r; mret (iThreat R) | None => mret 0 end.

Definition manager_modifyThreatPercent (u victim percent : Z) : X state unit :=
  get_unit victim;;
  M ← get_manager u;
  ref ← getReferenceByTarget (iThreatList (iThreatContainer M)) victim;
  match ref with Some r => ref_addThreatPercent rec r percent | None => mret tt end.

Definition tauntApply (u taunter : Z) : X state unit :=
  get_unit taunter;;
  M ← get_manager u;
  ref ← getReferenceByTarget (iThreatList (iThreatContainer M)) taunter;
  match iCurrentVictim M, ref with
  | Some v, Some r =>
      V ← get_ref v; R ← get_ref r;
      when f32_lt (iThreat R) (iThreat V) && f32_eq (iTempThreatModifier R) 0 do setTempThreat rec r (iThreat V)
  | _, _ => mret tt
  end.

Definition tauntFadeOut (u taunter : Z) : X state unit :=
  get_unit taunter;;
  M ← get_manager u;
  ref ← getReferenceByTarget (iThreatList (iThreatContainer M)) taunter;
  match ref with Some r => resetTempThreat rec r | None => mret tt end.

(** [Spell::EffectTaunt], as far as threat goes *)
Definition EffectTaunt_threat (unitTarget caster : Z) : X state unit :=
  when CanHaveThreatList unitTarget && negb (bool_decide (GetVictim F unitTarget = Some caster)) do
    (M ← get_manager unitTarget;
     (match iCurrentVictim M with
      | Some v =>
          myThreat ← getThreat unitTarget caster false;
          V ← get_ref v;
          when f32_lt myThreat (iThreat V) do
            manager_addThreat rec unitTarget caster (f32_sub (iThreat V) myThreat) SPELL_SCHOOL_MASK_NORMAL None
      | None => mret tt
      end);;
     M ← get_manager unitTarget;
     when negb (isThreatListEmpty M) do
       (forcedVictim ← getReferenceByTarget (iThreatList (iThreatContainer M)) caster;
        match forcedVictim with Some r => setCurrentVictim unitTarget (Some r) | None => mret tt end)).

Definition THREAT_UPDATE_INTERVAL : Z := 1000.

Definition isNeedUpdateToClient (u time : Z) : X state bool :=
  M ← get_manager u;
  if isThreatListEmpty M then mret false
  else if iUpdateTimer M <=? time then with_manager u (set_timer THREAT_UPDATE_INTERVAL);; mret true
  else with_manager u (set_timer (u32 (iUpdateTimer M - time)));; mret false.

(** [Unit::Update] *)
Definition Update_threat (u p_time : Z) : X state unit :=
  when CanHaveThreatList u do
    (b ← isNeedUpdateToClient u p_time; when (b : bool) do SendThreatListUpdate u).

(** The loops of [resetAllAggro] and [resetAggro], at one node of the list; an element that has
    left the list has no next one. *)
Fixpoint each_node (body : Z → X state unit) (fuel : nat) (u : Z) (node : option Z) : X state unit :=
  match node with
  | None => mret tt
  | Some r =>
      match fuel with
      | O => throwX Diverges
      | S fuel =>
          body r;;
          M ← get_manager u;
          if bool_decide (r ∈ iThreatList (iThreatContainer M)) then
            each_node body fuel u (successor r (iThreatList (iThreatContainer M)))
          else throwX UndefinedBehaviour
      end
  end.
(** Each unit is in the list at most once. *)
Definition for_nodes (u : Z) (body : Z → X state unit) : X state unit :=
  s ← getX; M ← get_manager u;
  each_node body (size (units s)) u (head (iThreatList (iThreatContainer M))).

Definition resetAllAggro (u : Z) : X state unit :=
  M ← get_manager u;
  when negb (isThreatListEmpty M) do
    (for_nodes u (λ r, setThreat rec r 0);; setDirty u true).
Definition resetAggro (u : Z) (predicate : Z → bool) : X state unit :=
  for_nodes u (λ r, t ← target r; when predicate t do (setThreat rec r 0;; setDirty u true)).

(** [ThreatContainer::clearReferences], less the clearing of the list *)
Fixpoint clear_each (l : list Z) : X state unit :=
  match l with [] => mret tt | r :: l => unlink r;; delete_ref r;; clear_each l end.
Definition clear_online (u : Z) : X state unit :=
  M ← get_manager u;
  clear_each (iThreatList (iThreatContainer M));;
  with_manager u (λ M, set_online (mkContainer [] (iDirty (iThreatContainer M))) M).
Definition clear_offline (u : Z) : X state unit :=
  M ← get_manager u;
  clear_each (iThreatList (iThreatOfflineContainer M));;
  with_manager u (λ M, set_offline (mkContainer [] (iDirty (iThreatOfflineContainer M))) M).

(** [ThreatManager::clearReferences] *)
Definition clearReferences (u : Z) : X state unit :=
  clear_online u;; clear_offline u;;
  with_manager u (λ M, set_timer THREAT_UPDATE_INTERVAL (set_victim None M)).

(** [Unit::AddThreat], [Unit::DeleteThreatList] *)
Definition AddThreat (u victim fThreat mask : Z) (threatSpell : option Spell) : X state unit :=
  when CanHaveThreatList u do manager_addThreat rec u victim fThreat mask threatSpell.
Definition DeleteThreatList (u : Z) : X state unit :=
  M ← get_manager u;
  (when CanHaveThreatList u && negb (isThreatListEmpty M) do SendClearThreatListOpcode u);;
  clearReferences u.

(** ** The hostile references of a unit (HostileRefManager.cpp)

    Loops that go to the next reference after the body, and loops that look it up before; they
    run over a list as long as it is now. *)

Fixpoint while_ref (body : Z → X state unit) (fuel : nat) (ref : option Z) : X state unit :=
  match ref with
  | None => mret tt
  | Some r =>
      match fuel with
      | O => throwX Diverges
      | S fuel => body r;; ref ← next r; while_ref body fuel ref
      end
  end.
Definition for_hostile (u : Z) (body : Z → X state unit) : X state unit :=
  U ← get_unit u;
  while_ref body (length (m_HostileRefManager U)) (head (m_HostileRefManager U)).

(** The body says whether to go on. *)
Fixpoint while_saved (body : Z → X state bool) (fuel : nat) (ref : option Z) : X state unit :=
  match ref with
  | None => mret tt
  | Some r =>
      match fuel with
      | O => throwX Diverges
      | S fuel => nextRef ← next r; go_on ← body r; when (go_on : bool) do while_saved body fuel nextRef
      end
  end.
Definition for_hostile_saved (u : Z) (body : Z → X state bool) : X state unit :=
  U ← get_unit u;
  while_saved body (length (m_HostileRefManager U)) (head (m_HostileRefManager U)).

Definition threatAssist (u victim baseThreat : Z) (threatSpell : option Spell) : X state unit :=
  U ← get_unit u;
  get_unit victim;;
  let mask := match threatSpell with Some sp => SchoolMask sp | None => SPELL_SCHOOL_MASK_NORMAL end in
  let threat := calcThreat victim baseThreat mask threatSpell in
  let threat := f32_div threat (f32_of_int (u32 (Z.of_nat (length (m_HostileRefManager U))))) in
  for_hostile u (λ r,
    src ← source r;
    valid ← isValidProcess victim src threatSpell;
    when (valid : bool) do doAddThreat rec src victim threat).

Definition addTempThreat (u threat : Z) (apply : bool) : X state unit :=
  for_hostile u (λ r,
    if apply then R ← get_ref r; when f32_eq (iTempThreatModifier R) 0 do ref_addTempThreat rec r threat
    else resetTempThreat rec r).

Definition addThreatPercent (u percent : Z) : X state unit := for_hostile u (λ r, ref_addThreatPercent rec r percent).
Definition setOnlineOfflineState_all (u : Z) (isOnline : bool) : X state unit :=
  for_hostile u (λ r, setOnlineOfflineState r isOnline).
Definition updateThreatTables (u : Z) : X state unit := for_hostile u updateOnlineStatus.

Definition drop_reference (r : Z) : X state unit := removeReference r;; delete_ref r.

Definition deleteReferences (u : Z) : X state unit :=
  for_hostile_saved u (λ r, drop_reference r;; mret true).
Definition deleteReferencesForFaction (u fac : Z) : X state unit :=
  for_hostile_saved u (λ r, src ← source r; (when faction F src =? fac do drop_reference r);; mret true).
Definition deleteReference (u creature : Z) : X state unit :=
  for_hostile_saved u (λ r, src ← source r; if src =? creature then drop_reference r;; mret false else mret true).
Definition setOnlineOfflineState_one (u creature : Z) (isOnline : bool) : X state unit :=
  for_hostile_saved u (λ r,
    src ← source r; if src =? creature then setOnlineOfflineState r isOnline;; mret false else mret true).
Definition UpdateVisibility (u : Z) : X state unit :=
  for_hostile_saved u (λ r, src ← source r; (when negb (CanSeeOrDetect F src u) do drop_reference r);; mret true).

(** [RefManager::clearReferences] *)
Fixpoint clear_hostile (fuel : nat) (u : Z) : X state unit :=
  U ← get_unit u;
  match head (m_HostileRefManager U), fuel with
  | None, _ => mret tt
  | Some r, O => throwX Diverges
  | Some r, S fuel => invalidate r;; delink r;; clear_hostile fuel u
  end.

(** ** Units *)

(** [Unit::SetPhaseMask], the part about hostile references; [in_phase] is [InSamePhase] of a
    unit with the new mask.  The pointers of both lists are sorted and merged. *)
Fixpoint each_target (u : Z) (in_phase : Z → bool) (l : list Z) : X state unit :=
  match l with
  | [] => mret tt
  | r :: l =>
      R ← get_ref r;
      (match iRefTo R with
       | Some t => setOnlineOfflineState_one t u (in_phase t)
       | None => mret tt
       end);;
      each_target u in_phase l
  end.
Definition SetPhaseMask_references (u : Z) (in_phase : Z → bool) : X state unit :=
  when is_creature u || (negb (IsGameMaster F u) && negb (PlayerLogout F u)) do
    (for_hostile u (λ r,
       src ← source r; when is_creature src do setOnlineOfflineState_one u src (in_phase src));;
     when is_creature u do
       (M ← get_manager u;
        each_target u in_phase (merge_sort Z.le
          (iThreatList (iThreatContainer M) ++ iThreatList (iThreatOfflineContainer M))))).

(** A unit appears, with [ThreatManager(this)] and [HostileRefManager(this)]; and it goes, when
    the members are destroyed in reverse order. *)
Definition new_unit (u : Z) : X state unit :=
  modifyX (λ s, set_units (<[u := mkUnit (mkManager None THREAT_UPDATE_INTERVAL (mkContainer [] false) (mkContainer [] false)) []]>
                             (units s)) s).
Definition delete_unit (u : Z) : X state unit :=
  deleteReferences u;;
  U ← get_unit u; clear_hostile (length (m_HostileRefManager U)) u;;
  clearReferences u;; clear_offline u;; clear_online u;;
  modifyX (λ s, set_units (delete u (units s)) s).

End Threat.

(** Nothing is there yet. *)
Definition init : state := mkState ∅ ∅ 1 [].
