(* ===== verification/ThreatLists.v ===== *)
(** * ThreatLists: why the lists of threat stay well formed.

    A method is followed step by step ([returns]); [wf] says what the lists look like between
    calls, [quiet], [keep], [grow] and [gone] what a method leaves of them. *)
From S2P Require Import Prelude Float32 Threat.
From stdpp Require Import gmap sorting.
From Stdlib Require Import SpecFloat.
Open Scope Z_scope.

(** ** Looking at a state *)

Definition live (s : state) (u : Z) : Prop := is_Some (units s !! u).
Definition nobody : UnitState :=
  mkUnit (mkManager None THREAT_UPDATE_INTERVAL (mkContainer [] false) (mkContainer [] false)) [].
Definition unit_at (s : state) (u : Z) : UnitState := default nobody (units s !! u).
Definition online (s : state) (u : Z) := iThreatList (iThreatContainer (m_ThreatManager (unit_at s u))).
Definition offline (s : state) (u : Z) := iThreatList (iThreatOfflineContainer (m_ThreatManager (unit_at s u))).
Definition victim (s : state) (u : Z) := iCurrentVictim (m_ThreatManager (unit_at s u)).
Definition hostile (s : state) (u : Z) := m_HostileRefManager (unit_at s u).

Definition upd_unit (u : Z) (g : UnitState → UnitState) (s : state) : state :=
  set_units (<[u := g (unit_at s u)]> (units s)) s.
Definition upd_ref (r : Z) (g : HostileReference → HostileReference) (s : state) : state :=
  set_refs (alter g r (refs s)) s.

Lemma unit_at_upd u g s v : unit_at (upd_unit u g s) v = if decide (v = u) then g (unit_at s u) else unit_at s v.
Proof.
  unfold unit_at at 1, upd_unit. cbn. destruct (decide (v = u)) as [->|].
  - by rewrite lookup_insert_eq.
  - by rewrite lookup_insert_ne by done.
Qed.
Lemma unit_at_upd_ref r g s v : unit_at (upd_ref r g s) v = unit_at s v.
Proof. done. Qed.
Lemma unit_at_set_refs m s v : unit_at (set_refs m s) v = unit_at s v.
Proof. done. Qed.
Lemma unit_at_set_sent l s v : unit_at (set_sent l s) v = unit_at s v.
Proof. done. Qed.
Lemma live_upd u g s v : live s u → live (upd_unit u g s) v ↔ live s v.
Proof.
  intros Hu. unfold live, upd_unit. cbn. destruct (decide (u = v)) as [->|].
  - rewrite lookup_insert_eq. split; eauto.
  - by rewrite lookup_insert_ne by done.
Qed.

(** One step of a method. *)
Lemma returns_get_ref r R s (Q : HostileReference → state → Prop) :
  refs s !! r = Some R → Q R s → returns (get_ref r) s Q.
Proof. intros H HQ. unfold ends, get_ref, mbind, X_bind, getX. by rewrite H. Qed.
Lemma returns_with_ref r R g s (Q : unit → state → Prop) :
  refs s !! r = Some R → Q tt (upd_ref r g s) → returns (with_ref r g) s Q.
Proof.
  intros H HQ. unfold with_ref. apply ends_bind, (returns_get_ref _ R); [done|]. apply ends_modifyX.
  replace (<[r:=g R]> (refs s)) with (alter g r (refs s)); [done|].
  apply map_eq. intros i. destruct (decide (i = r)) as [->|].
  - by rewrite lookup_alter_eq, lookup_insert_eq, H.
  - by rewrite lookup_alter_ne, lookup_insert_ne by done.
Qed.
Lemma returns_get_unit u s (Q : UnitState → state → Prop) :
  live s u → Q (unit_at s u) s → returns (get_unit u) s Q.
Proof. intros [U H] HQ. unfold ends, get_unit, mbind, X_bind, getX. unfold unit_at in HQ. rewrite H in *. done. Qed.
Lemma returns_with_unit u g s (Q : unit → state → Prop) :
  live s u → Q tt (upd_unit u g s) → returns (with_unit u g) s Q.
Proof. intros H HQ. unfold with_unit. apply ends_bind, returns_get_unit; done. Qed.
Lemma returns_get_manager u s (Q : ThreatManager → state → Prop) :
  live s u → Q (m_ThreatManager (unit_at s u)) s → returns (get_manager u) s Q.
Proof. intros H HQ. unfold get_manager. apply ends_bind, returns_get_unit; done. Qed.
Lemma returns_with_manager u g s (Q : unit → state → Prop) :
  live s u → Q tt (upd_unit u (λ U, set_manager (g (m_ThreatManager U)) U) s) → returns (with_manager u g) s Q.
Proof. intros H HQ. apply returns_with_unit; done. Qed.
Lemma returns_send m s (Q : unit → state → Prop) : Q tt (set_sent (sent s ++ [m]) s) → returns (send m) s Q.
Proof. done. Qed.

(** ** Well-formed lists *)

Definition ref_of (f t : Z) (b : bool) (R : HostileReference) : Prop :=
  iRefTo R = Some t ∧ iRefFrom R = Some f ∧ linked R = Some t ∧ iUnitGuid R = t ∧ iOnline R = b.

(** The reference [r] leads from creature [f] to unit [t], which is online or not. *)
Definition edge (s : state) (r f t : Z) (b : bool) : Prop := ∃ R, refs s !! r = Some R ∧ ref_of f t b R.
Definition hates (s : state) (r f t : Z) : Prop := ∃ b, edge s r f t b.

(** Every reference has a live source and a live target, is in the source's list for its state
    and in the target's list; there is no other entry in any list, nobody is hated twice, and
    the victim of a creature is in reach. *)
Record wf (is_creature : Z → bool) (s : state) : Prop := {
  wf_edge r R : refs s !! r = Some R →
    ∃ f t b, ref_of f t b R ∧ live s f ∧ live s t ∧ is_creature f = true ∧ r < next_address s;
  wf_online u r : r ∈ online s u ↔ ∃ t, edge s r u t true;
  wf_offline u r : r ∈ offline s u ↔ ∃ t, edge s r u t false;
  wf_hostile u r : r ∈ hostile s u ↔ ∃ f, hates s r f u;
  wf_NoDup_online u : NoDup (online s u);
  wf_NoDup_offline u : NoDup (offline s u);
  wf_NoDup_hostile u : NoDup (hostile s u);
  wf_victim u r : victim s u = Some r → r ∈ online s u;
  wf_unique r r' f t : hates s r f t → hates s r' f t → r = r' }.

Lemma edge_fun s r f t b f' t' b' : edge s r f t b → edge s r f' t' b' → f' = f ∧ t' = t ∧ b' = b.
Proof. intros (R & H & H1 & H2 & _ & _ & H3) (R' & H' & H1' & H2' & _ & _ & H3'). simplify_eq. auto. Qed.
Lemma hates_fun s r f t f' t' : hates s r f t → hates s r f' t' → f' = f ∧ t' = t.
Proof. intros [b H] [b' H']. destruct (edge_fun _ _ _ _ _ _ _ _ H H') as (? & ? & ?). done. Qed.
Lemma edge_hates s r f t b : edge s r f t b → hates s r f t.
Proof. intros H. by exists b. Qed.

Lemma edge_upd_ref r g s r' f t b :
  edge (upd_ref r g s) r' f t b ↔
  if decide (r' = r) then ∃ R, refs s !! r = Some R ∧ ref_of f t b (g R) else edge s r' f t b.
Proof.
  unfold edge, upd_ref. cbn. destruct (decide (r' = r)) as [->|].
  - rewrite lookup_alter_eq. split.
    + intros (R & H & HR). apply fmap_Some in H as (R0 & H & ->). eauto.
    + intros (R & H & HR). exists (g R). by rewrite H.
  - by rewrite lookup_alter_ne by done.
Qed.
(** A change that leaves the core of a reference alone. *)
Lemma edge_upd_same r g s r' f t b :
  (∀ R f t b, ref_of f t b (g R) ↔ ref_of f t b R) → edge (upd_ref r g s) r' f t b ↔ edge s r' f t b.
Proof.
  intros Hg. rewrite edge_upd_ref. destruct (decide (r' = r)) as [->|]; [|done].
  split; intros (R & H & HR); exists R; split; try done; by apply Hg.
Qed.
Lemma is_Some_upd_ref r g s r' : is_Some (refs (upd_ref r g s) !! r') ↔ is_Some (refs s !! r').
Proof. unfold upd_ref. cbn. by rewrite lookup_alter_is_Some. Qed.

Section wf.
Context (is_creature : Z → bool).
Abbreviation wf := (wf is_creature).

Lemma wf_edge_facts s r f t b : wf s → edge s r f t b → live s f ∧ live s t ∧ is_creature f = true ∧ r < next_address s.
Proof.
  intros W (R & H & HR). destruct (wf_edge _ _ W r R H) as (f' & t' & b' & HR' & ?).
  destruct (edge_fun s r f t b f' t' b') as (-> & -> & ->); [by exists R..|]. done.
Qed.
Lemma wf_hates_facts s r f t : wf s → hates s r f t → live s f ∧ live s t ∧ is_creature f = true ∧ r < next_address s.
Proof. intros W [b H]. by eapply wf_edge_facts. Qed.
Lemma wf_lookup s r : wf s → is_Some (refs s !! r) → ∃ f t b, edge s r f t b.
Proof. intros W [R H]. destruct (wf_edge _ _ W r R H) as (f & t & b & HR & _). exists f, t, b. by exists R. Qed.

(** States with the same lists, up to the order of the online ones. *)
Lemma wf_sim s s' :
  (∀ r f t b, edge s' r f t b ↔ edge s r f t b) → (∀ r, is_Some (refs s' !! r) ↔ is_Some (refs s !! r)) →
  (∀ u, live s' u ↔ live s u) → next_address s' = next_address s →
  (∀ u, online s' u ≡ₚ online s u) → (∀ u, offline s' u = offline s u) → (∀ u, hostile s' u = hostile s u) →
  (∀ u r, victim s' u = Some r → r ∈ online s u) →
  wf s → wf s'.
Proof.
  intros He Hd Hl Hf Hon Hoff Hho Hv W. split.
  - intros r R H. destruct (wf_lookup s r W) as (f & t & b & E); [apply Hd; eauto|].
    destruct (wf_edge_facts _ _ _ _ _ W E) as (? & ? & ? & ?).
    apply He in E as (R' & H' & HR). simplify_eq. exists f, t, b. rewrite !Hl, Hf. done.
  - intros u r. rewrite Hon, (wf_online _ _ W). f_equiv. intros t. symmetry. apply He.
  - intros u r. rewrite Hoff, (wf_offline _ _ W). f_equiv. intros t. symmetry. apply He.
  - intros u r. rewrite Hho, (wf_hostile _ _ W). by split; intros (f & b & E); exists f, b; apply He.
  - intros u. rewrite Hon. apply (wf_NoDup_online _ _ W).
  - intros u. rewrite Hoff. apply (wf_NoDup_offline _ _ W).
  - intros u. rewrite Hho. apply (wf_NoDup_hostile _ _ W).
  - intros u r H. rewrite Hon. eauto.
  - intros r r' f t [b H] [b' H']. apply He in H, H'. eapply (wf_unique _ _ W); by eexists.
Qed.

End wf.

(** ** What the small methods change *)

Lemma lookup_upd_ref r g s R : refs s !! r = Some R → refs (upd_ref r g s) !! r = Some (g R).
Proof. intros H. unfold upd_ref. cbn. by rewrite lookup_alter_eq, H. Qed.
Lemma live_upd_2 u g s v : live s u → live s v → live (upd_unit u g s) v.
Proof. intros Hu. by rewrite live_upd. Qed.

Create HintDb threat.
#[export] Hint Resolve lookup_upd_ref live_upd_2 : threat.
#[export] Hint Extern 3 (_ = Some _) => eassumption : threat.
#[export] Hint Extern 3 (live _ _) => eassumption : threat.

(** One step of a method whose pointers are known to be good. *)
Ltac step :=
  match goal with
  | |- returns (mret _) _ _ => apply ends_ret
  | |- returns (_ ≫= _) _ _ => apply ends_bind
  | |- returns (get_ref _) _ _ => eapply returns_get_ref; [solve [eauto with threat]|]
  | |- returns (with_ref _ _) _ _ => eapply returns_with_ref; [solve [eauto with threat]|]
  | |- returns (get_unit _) _ _ => eapply returns_get_unit; [solve [eauto with threat]|]
  | |- returns (get_manager _) _ _ => eapply returns_get_manager; [solve [eauto with threat]|]
  | |- returns (with_manager _ _) _ _ => eapply returns_with_manager; [solve [eauto with threat]|]
  | |- returns (with_unit _ _) _ _ => eapply returns_with_unit; [solve [eauto with threat]|]
  | |- returns (setDirty _ _) _ _ => eapply returns_with_manager; [solve [eauto with threat]|]
  | |- returns (send _) _ _ => apply returns_send
  | |- returns getX _ _ => apply ends_getX
  | |- returns (modifyX _) _ _ => apply ends_modifyX
  | |- returns (when _ do _) _ _ => apply ends_when; intros
  end.
Ltac steps := repeat (step; cbn beta iota).

(** Read the lists of a state after changes of units. *)
Ltac views :=
  unfold online, offline, hostile, victim in *;
  rewrite ?unit_at_set_refs, ?unit_at_upd, ?unit_at_set_sent, ?unit_at_upd_ref, ?unit_at_upd, ?unit_at_upd_ref, ?unit_at_upd in *;
  cbn in *.

(** Changes of threat, dirty flags, timers, victims that are in reach, and packets. *)
Record quiet (s s' : state) : Prop := {
  quiet_edge r f t b : edge s' r f t b ↔ edge s r f t b;
  quiet_dom r : is_Some (refs s' !! r) ↔ is_Some (refs s !! r);
  quiet_live u : live s' u ↔ live s u;
  quiet_next : next_address s' = next_address s;
  quiet_online u : online s' u = online s u;
  quiet_offline u : offline s' u = offline s u;
  quiet_hostile u : hostile s' u = hostile s u;
  quiet_victim u r : victim s' u = Some r → victim s u = Some r ∨ r ∈ online s u }.

#[export] Instance quiet_preorder : PreOrder quiet.
Proof.
  split.
  - intros s. split; auto; done.
  - intros s1 s2 s3 [? ? ? ? H5 ? ? H8] [? ? ? ? ? ? ? H8']. split; intros; try (etrans; eauto; done).
    destruct (H8' _ _ H) as [|Hin]; [eauto|]. rewrite H5 in Hin. auto.
Qed.

Lemma quiet_wf c s s' : quiet s s' → wf c s → wf c s'.
Proof.
  intros [? ? ? ? H5 ? ? H8] W. eapply (wf_sim c s s'); eauto.
  - intros u. by rewrite H5.
  - intros u r Hv. destruct (H8 _ _ Hv); [by apply (wf_victim _ _ W)|done].
Qed.

Lemma quiet_sent l s : quiet s (set_sent l s).
Proof. split; intros; try done. by left. Qed.
Lemma quiet_upd_ref r g s : (∀ R f t b, ref_of f t b (g R) ↔ ref_of f t b R) → quiet s (upd_ref r g s).
Proof.
  intros Hg. split; intros; try done; [by apply edge_upd_same|apply is_Some_upd_ref|by left].
Qed.
(** A change of a manager that keeps its lists. *)
Lemma quiet_upd_unit u g s :
  live s u →
  (let M := m_ThreatManager (unit_at s u) in let M' := m_ThreatManager (g (unit_at s u)) in
   iThreatList (iThreatContainer M') = iThreatList (iThreatContainer M) ∧
   iThreatList (iThreatOfflineContainer M') = iThreatList (iThreatOfflineContainer M) ∧
   (∀ r, iCurrentVictim M' = Some r → iCurrentVictim M = Some r ∨ r ∈ iThreatList (iThreatContainer M))) →
  m_HostileRefManager (g (unit_at s u)) = m_HostileRefManager (unit_at s u) →
  quiet s (upd_unit u g s).
Proof.
  intros Hu (H1 & H2 & H3) H4. split; intros; try done; [by apply live_upd|views; case_decide; subst; auto..].
Qed.

Lemma entries_ok conv l s :
  (∀ r, r ∈ l → is_Some (refs s !! r)) → returns (entries conv l) s (λ _ s', s' = s).
Proof.
  induction l as [|r l IH]; intros H; cbn [entries]; steps; [done|].
  destruct (H r) as [R HR]; [set_solver|]. steps.
  eapply ends_mono; [apply IH; set_solver|]. intros es s' ->. by steps.
Qed.

Lemma getReferenceByTarget_ok l guid s :
  (∀ r, r ∈ l → is_Some (refs s !! r)) →
  returns (getReferenceByTarget l guid) s (λ o s', s' = s ∧
    match o with
    | Some r => r ∈ l ∧ ∃ R, refs s !! r = Some R ∧ iUnitGuid R = guid
    | None => ∀ r R, r ∈ l → refs s !! r = Some R → iUnitGuid R ≠ guid
    end).
Proof.
  induction l as [|r l IH]; intros H; cbn [getReferenceByTarget]; [step; set_solver|].
  destruct (H r) as [R HR]; [set_solver|]. do 2 step. destruct (Z.eqb_spec (iUnitGuid R) guid) as [|Hne].
  - steps. split; [done|]. split; [set_solver|eauto].
  - eapply ends_mono; [apply IH; set_solver|]. intros [r'|] s' [-> Ho]; (split; [done|]); [set_solver|].
    intros r' R' [->|]%elem_of_cons; [|by apply Ho]. intros. by simplify_eq.
Qed.

(** Of a list that [r] joins or leaves. *)
Definition rejoin (into : bool) (r : Z) (l : list Z) : list Z := if into then l ++ [r] else filter (λ x, x ≠ r) l.
Lemma elem_of_rejoin into r l x : x ∈ rejoin into r l ↔ if decide (x = r) then into = true ∨ (into = true ∧ x ∈ l) else x ∈ l.
Proof. unfold rejoin. destruct into; [rewrite elem_of_app, elem_of_cons|rewrite list_elem_of_filter]; case_decide; set_solver. Qed.
Lemma NoDup_rejoin into r l : NoDup l → (into = true → r ∉ l) → NoDup (rejoin into r l).
Proof.
  intros Hl Hr. destruct into; cbn; [|by apply NoDup_filter].
  apply NoDup_app. split_and!; [done| |apply NoDup_singleton]. intros x Hx ->%list_elem_of_singleton. by apply Hr.
Qed.

Lemma filter_absent (r : Z) (l : list Z) : r ∉ l → filter (λ x, x ≠ r) l = l.
Proof.
  induction l as [|y l IH]; [done|]. intros H. apply not_elem_of_cons in H as [Hne Hr].
  rewrite filter_cons_True by done. f_equal. auto.
Qed.

Lemma filter_disjoint (P l : list Z) : (∀ x, x ∈ l → x ∉ P) → filter (λ x, x ∉ P) l = l.
Proof.
  induction l as [|y l IH]; [done|]. intros H. rewrite filter_cons_True by (apply H; set_solver).
  f_equal. apply IH. set_solver.
Qed.
Lemma filter_within (P l : list Z) : (∀ x, x ∈ l → x ∈ P) → filter (λ x, x ∉ P) l = [].
Proof.
  induction l as [|y l IH]; [done|]. intros H. rewrite filter_cons_False; [apply IH; set_solver|].
  intros Hy. apply Hy, H. set_solver.
Qed.
Lemma filter_not_in_single (r : Z) (l : list Z) : filter (λ x, x ∉ [r]) l = filter (λ x, x ≠ r) l.
Proof. apply list_filter_iff. set_solver. Qed.
Lemma filter_out (r : Z) (pre l : list Z) : NoDup (pre ++ r :: l) → filter (λ x, x ∉ [r]) (pre ++ r :: l) = pre ++ l.
Proof.
  intros H. rewrite filter_not_in_single, filter_app, filter_cons_False by (by intros []).
  apply NoDup_app in H as (_ & H & (Hr & _)%NoDup_cons). rewrite !filter_absent; [done..|].
  intros Hin. apply (H r Hin). set_solver.
Qed.
Lemma successor_app (r : Z) pre l : r ∉ pre → successor r (pre ++ r :: l) = head l.
Proof.
  induction pre as [|x pre IH]; intros H; cbn; [by rewrite Z.eqb_refl|].
  apply not_elem_of_cons in H as [? ?]. destruct (Z.eqb_spec x r); [done|auto].
Qed.
Lemma NoDup_split (r : Z) pre l : NoDup (pre ++ r :: l) → r ∉ pre.
Proof. intros (_ & H & _)%NoDup_app Hr. apply (H r Hr). set_solver. Qed.
Lemma returns_assoc {A B C} (m : X state A) (n : X state B) (k : X state C) s Q :
  returns ((m;; n);; k) s Q → returns (m;; n;; k) s Q.
Proof. unfold ends, mbind, X_bind. destruct (m s) as [[a|e] s']; done. Qed.

#[local] Unset Default Proof Using.

Section ops.
Context (is_creature : Z → bool) (platform : Z → Z) (F : Facts).
Abbreviation wf := (wf is_creature).

Lemma online_lookup s u r : wf s → r ∈ online s u → is_Some (refs s !! r).
Proof. intros W H. apply (wf_online _ _ W) in H as (t & R & H & _). eauto. Qed.
Lemma offline_lookup s u r : wf s → r ∈ offline s u → is_Some (refs s !! r).
Proof. intros W H. apply (wf_offline _ _ W) in H as (t & R & H & _). eauto. Qed.

(** Packets change nothing else. *)
Definition only_sent (s s' : state) : Prop := ∃ l, s' = set_sent l s.

Lemma SendThreatListUpdate_ok u s :
  live s u → wf s → returns (SendThreatListUpdate platform u) s (λ _, only_sent s).
Proof.
  intros Hu W. unfold SendThreatListUpdate, only_sent. steps; [|exists (sent s); by destruct s].
  eapply ends_mono; [apply entries_ok; intros r Hr; by eapply (online_lookup s u)|].
  intros es s' ->. steps. eauto.
Qed.
Lemma SendChangeCurrentVictimOpcode_ok u r s :
  live s u → is_Some (refs s !! r) → wf s → returns (SendChangeCurrentVictimOpcode platform u r) s (λ _, only_sent s).
Proof.
  intros Hu [R HR] W. unfold SendChangeCurrentVictimOpcode, only_sent. steps; [|exists (sent s); by destruct s].
  eapply ends_mono; [apply entries_ok; intros r' Hr; by eapply (online_lookup s u)|].
  intros es s' ->. steps. eauto.
Qed.

(** A victim that is in reach, or none. *)
Lemma setCurrentVictim_ok u p s :
  live s u → wf s → (∀ r, p = Some r → r ∈ online s u) →
  returns (setCurrentVictim platform u p) s (λ _ s', quiet s s' ∧ victim s' u = p ∧ refs s' = refs s).
Proof.
  intros Hu W Hp. unfold setCurrentVictim. steps.
  assert (∀ l, quiet s (upd_unit u (λ U, set_manager (set_victim p (m_ThreatManager U)) U) (set_sent l s)) ∧
               victim (upd_unit u (λ U, set_manager (set_victim p (m_ThreatManager U)) U) (set_sent l s)) u = p) as Hq.
  { intros l. split; [|views; by rewrite decide_True].
    etrans; [apply (quiet_sent l)|]. apply quiet_upd_unit; [done| |done].
    cbn. split_and!; auto. }
  destruct p as [r|]; steps.
  - eapply ends_mono; [apply SendChangeCurrentVictimOpcode_ok; [done| |done]|].
    + eapply online_lookup; eauto.
    + intros [] s' [l ->]. eapply returns_with_manager; [done|]. destruct (Hq l). done.
  - destruct (Hq (sent s)). by destruct s.
  - destruct (Hq (sent s)). by destruct s.
Qed.

(** The same lists and references; fewer victims. *)
Record same_lists (s s' : state) : Prop := {
  sl_refs : refs s' = refs s;
  sl_next : next_address s' = next_address s;
  sl_live u : live s' u ↔ live s u;
  sl_online u : online s' u = online s u;
  sl_offline u : offline s' u = offline s u;
  sl_hostile u : hostile s' u = hostile s u;
  sl_victim u x : victim s' u = Some x → victim s u = Some x }.

Lemma same_lists_upd u g s :
  live s u →
  (let M := m_ThreatManager (unit_at s u) in let M' := m_ThreatManager (g (unit_at s u)) in
   iThreatList (iThreatContainer M') = iThreatList (iThreatContainer M) ∧
   iThreatList (iThreatOfflineContainer M') = iThreatList (iThreatOfflineContainer M) ∧
   (∀ r, iCurrentVictim M' = Some r → iCurrentVictim M = Some r)) →
  m_HostileRefManager (g (unit_at s u)) = m_HostileRefManager (unit_at s u) →
  same_lists s (upd_unit u g s).
Proof.
  intros Hu (H1 & H2 & H3) H4. split; intros; try done; [by apply live_upd|views; case_decide; subst; auto..].
Qed.
Lemma same_lists_refl s : same_lists s s.
Proof. by split. Qed.
Lemma same_lists_trans s1 s2 s3 : same_lists s1 s2 → same_lists s2 s3 → same_lists s1 s3.
Proof. intros [A1 A2 A3 A4 A5 A6 A7] [? ? B3 ? ? ? ?]. split; intros; try congruence; [by rewrite B3|auto]. Qed.

(** Within an event, also when [r] is on its way between the lists. *)
Lemma drop_victim_ok u r s :
  live s u →
  returns (drop_victim platform u r) s (λ _ s', same_lists s s' ∧ victim s' u ≠ Some r).
Proof.
  intros Hu. unfold drop_victim, setCurrentVictim. steps.
  - split; [eapply same_lists_trans; apply same_lists_upd; eauto with threat; done|].
    views. by repeat case_decide.
  - apply bool_decide_eq_false in H. split; [apply same_lists_refl|done].
Qed.

Lemma setAccessibleState_ok r R b s f :
  refs s !! r = Some R → iRefFrom R = Some f → live s f →
  returns (setAccessibleState platform r b) s (λ _ s', ∃ b', s' = upd_ref r (set_iAccessible b') s).
Proof.
  intros HR Hf Hl. unfold setAccessibleState, fireStatusChanged. steps.
  - cbn. rewrite Hf. cbn [processThreatEvent]. unfold processThreatEvent. steps. eauto.
  - exists (iAccessible R). destruct s as [us rs a l]. unfold upd_ref, set_refs. cbn in *.
    cut (alter (set_iAccessible (iAccessible R)) r rs = rs); [by intros ->|].
    apply map_eq. intros i. destruct (decide (i = r)) as [->|]; [|by rewrite lookup_alter_ne].
    rewrite lookup_alter_eq, HR. by destruct R.
Qed.

(** What methods that neither make nor delete references keep. *)
Record keep (s s' : state) : Prop := {
  keep_wf : wf s';
  keep_live u : live s' u ↔ live s u;
  keep_hostile u : hostile s' u = hostile s u;
  keep_hates r f t : hates s' r f t ↔ hates s r f t }.

Lemma keep_refl s : wf s → keep s s.
Proof. intros W. by split. Qed.
Lemma keep_trans s1 s2 s3 : keep s1 s2 → keep s2 s3 → keep s1 s3.
Proof. intros [? A1 B1 C1] [? A2 B2 C2]. split; intros; [done|by rewrite A2|by rewrite B2|by rewrite C2]. Qed.
Lemma quiet_keep s s' : wf s → quiet s s' → keep s s'.
Proof.
  intros W Q. split; [by eapply quiet_wf|apply Q..|].
  intros r f t. by split; intros [b H]; exists b; apply Q.
Qed.

Definition moved_edge (s : state) (r f t : Z) (b : bool) (r' f' t' : Z) (b' : bool) : Prop :=
  if decide (r' = r) then f' = f ∧ t' = t ∧ b' = b else edge s r' f' t' b'.

Lemma wf_moved s s' r f t b :
  wf s → edge s r f t (negb b) →
  (∀ r' f' t' b', edge s' r' f' t' b' ↔ moved_edge s r f t b r' f' t' b') →
  (∀ r', is_Some (refs s' !! r') → is_Some (refs s !! r')) →
  (∀ u, live s' u ↔ live s u) → next_address s' = next_address s → (∀ u, hostile s' u = hostile s u) →
  (∀ u, online s' u = if decide (u = f) then rejoin b r (online s u) else online s u) →
  (∀ u, offline s' u = if decide (u = f) then rejoin (negb b) r (offline s u) else offline s u) →
  (∀ u x, victim s' u = Some x → victim s u = Some x ∧ (b = false → ¬ (u = f ∧ x = r))) →
  keep s s'.
Proof.
  intros W E He Hd Hl Hn Hh Hon Hoff Hv.
  assert (∀ r' f' t', hates s' r' f' t' ↔ hates s r' f' t') as Hates.
  { intros r' f' t'. unfold hates. setoid_rewrite He. unfold moved_edge. case_decide as Hr; [|done]. subst r'. split.
    - intros (b' & -> & -> & ->). eauto.
    - intros (b' & E'). destruct (edge_fun _ _ _ _ _ _ _ _ E E') as (-> & -> & ->). by exists b. }
  assert (∀ u, b = true → r ∉ online s u) as Nin.
  { intros u -> Hin. apply (wf_online _ _ W) in Hin as [t' E']. by destruct (edge_fun _ _ _ _ _ _ _ _ E E') as (_ & _ & ?). }
  assert (∀ u, negb b = true → r ∉ offline s u) as Nin'.
  { intros u Hb Hin. apply (wf_offline _ _ W) in Hin as [t' E']. destruct b; [done|].
    by destruct (edge_fun _ _ _ _ _ _ _ _ E E') as (_ & _ & ?). }
  split; try done. split.
  - intros r' R H. destruct (wf_lookup _ s r' W) as (f' & t' & b' & E'); [apply Hd; eauto|].
    destruct (wf_edge_facts _ _ _ _ _ _ W E') as (? & ? & ? & ?).
    assert (hates s' r' f' t') as [b'' (R' & H' & HR)] by (apply Hates; by exists b').
    simplify_eq. exists f', t', b''. rewrite !Hl, Hn. done.
  - intros u x. setoid_rewrite He. rewrite Hon. unfold moved_edge.
    destruct (decide (u = f)) as [->|Hu]; [rewrite elem_of_rejoin|]; (destruct (decide (x = r)) as [->|Hx]; [|apply (wf_online _ _ W)]).
    + split; [intros [->|[-> _]]; eauto|intros (? & _ & _ & ->); auto].
    + rewrite (wf_online _ _ W). split; [|by intros (? & ? & _)].
      intros [t' E']. by destruct (edge_fun _ _ _ _ _ _ _ _ E E') as (? & ? & ?).
  - intros u x. setoid_rewrite He. rewrite Hoff. unfold moved_edge.
    destruct (decide (u = f)) as [->|Hu]; [rewrite elem_of_rejoin|]; (destruct (decide (x = r)) as [->|Hx]; [|apply (wf_offline _ _ W)]).
    + destruct b; cbn; split; [intros [|[? _]]; done|intros (? & _ & _ & ?); done|eauto|auto].
    + rewrite (wf_offline _ _ W). split; [|by intros (? & ? & _)].
      intros [t' E']. by destruct (edge_fun _ _ _ _ _ _ _ _ E E') as (? & ? & ?).
  - intros u x. rewrite Hh, (wf_hostile _ _ W). by setoid_rewrite Hates.
  - intros u. rewrite Hon. case_decide; [apply NoDup_rejoin; [|auto]|]; apply (wf_NoDup_online _ _ W).
  - intros u. rewrite Hoff. case_decide; [apply NoDup_rejoin; [|auto]|]; apply (wf_NoDup_offline _ _ W).
  - intros u. rewrite Hh. apply (wf_NoDup_hostile _ _ W).
  - intros u x Hx. destruct (Hv u x Hx) as [Hx' Hb]. apply (wf_victim _ _ W) in Hx'. rewrite Hon.
    case_decide; [|done]. rewrite elem_of_rejoin. case_decide; [|done]. subst. left. destruct b; [done|]. by destruct Hb.
  - intros r1 r2 f' t' H1 H2. apply Hates in H1, H2. by eapply (wf_unique _ _ W).
Qed.

Lemma SendRemoveFromThreatListOpcode_ok u r s :
  is_Some (refs s !! r) → returns (SendRemoveFromThreatListOpcode u r) s (λ _, only_sent s).
Proof. intros [R HR]. unfold SendRemoveFromThreatListOpcode, only_sent. steps. eauto. Qed.

Lemma ref_of_accessible b' R f t b : ref_of f t b (set_iAccessible b' R) ↔ ref_of f t b R.
Proof. by destruct R. Qed.

(** What becomes of the online lists. *)
Definition rejoined (s s' : state) (f r : Z) (b : bool) : Prop :=
  ∀ u, online s' u = if decide (u = f) then rejoin b r (online s u) else online s u.

Section toggle.
Context (s : state) (r f t : Z) (b : bool) (R : HostileReference) (g : HostileReference → HostileReference).
Context (W : wf s) (HR : refs s !! r = Some R) (Hb : ref_of f t (negb b) R).
Context (Hg : ∀ R f t b, ref_of f t b (g R) ↔ ref_of f t b R).
Let s0 : state := upd_ref r g (upd_ref r (set_iOnline b) s).

Lemma toggle_edge r0 f0 t0 b0 : edge s0 r0 f0 t0 b0 ↔ moved_edge s r f t b r0 f0 t0 b0.
Proof.
  subst s0. rewrite edge_upd_same by done. rewrite edge_upd_ref. unfold moved_edge. case_decide; [|done].
  destruct Hb as (? & ? & ? & ? & _). split.
  - intros (R0 & HR0 & HR0'). simplify_eq. unfold ref_of in HR0'. cbn in HR0'. naive_solver.
  - intros (-> & -> & ->). exists R. split; [done|]. by split_and!.
Qed.

(** The end of the event: the reference changes the list. *)
Lemma toggle_lists s1 s2 :
  same_lists s0 s1 → (b = false → victim s1 f ≠ Some r) → live s f →
  s2 = upd_unit f (λ U, set_manager (set_offline (if b then container_remove r (iThreatOfflineContainer (m_ThreatManager U)) else addReference r (iThreatOfflineContainer (m_ThreatManager U))) (m_ThreatManager U)) U)
       (upd_unit f (λ U, set_manager (set_online (if b then addReference r (iThreatContainer (m_ThreatManager U)) else container_remove r (iThreatContainer (m_ThreatManager U))) (m_ThreatManager U)) U) s1) →
  keep s s2 ∧ edge s2 r f t b ∧ rejoined s s2 f r b.
Proof.
  intros [A1 A2 A3 A4 A5 A6 A7] Hv Lf ->.
  assert (live s1 f) by by apply A3.
  assert (rejoined s s1 f r b → True) as _ by done.
  split_and!.
  - eapply (wf_moved s _ r f t b); [done|by exists R|..].
    + intros r0 f0 t0 b0. rewrite <- toggle_edge. unfold edge. cbn. by rewrite A1.
    + cbn. rewrite A1. intros r'. subst s0. by rewrite !is_Some_upd_ref.
    + intros u. rewrite !live_upd by eauto with threat. apply A3.
    + done.
    + intros u. unfold hostile in *. rewrite !unit_at_upd. repeat case_decide; subst; cbn; apply A6.
    + intros u. unfold online in *. rewrite !unit_at_upd. repeat case_decide; subst; cbn; try done; try apply A4.
      destruct b; cbn; by rewrite A4.
    + intros u. unfold offline in *. rewrite !unit_at_upd. repeat case_decide; subst; cbn; try done; try apply A5.
      destruct b; cbn; by rewrite A5.
    + intros u x Hx. assert (victim s1 u = Some x) as Hx1.
      { unfold victim in *. rewrite !unit_at_upd in Hx. repeat case_decide; subst; done. }
      split; [by apply A7|]. intros Hb' [-> ->]. by apply Hv.
  - assert (edge s0 r f t b) as (R' & ? & ?) by (apply toggle_edge; unfold moved_edge; by rewrite decide_True).
    exists R'. cbn. by rewrite A1.
  - intros u. unfold online in *. rewrite !unit_at_upd. repeat case_decide; subst; cbn; try done; try apply A4.
    destruct b; cbn; by rewrite A4.
Qed.

End toggle.

Lemma setOnlineOfflineState_ok r b' s f t b :
  wf s → edge s r f t b →
  returns (setOnlineOfflineState platform r b') s (λ _ s',
    keep s s' ∧ edge s' r f t b' ∧
    if decide (b' = b) then s' = s else rejoined s s' f r b').
Proof.
  intros W E. pose proof E as (R & HR & HRo). pose proof HRo as (H1 & H2 & H3 & H4 & H5).
  destruct (wf_edge_facts _ _ _ _ _ _ W E) as (Lf & Lt & _ & _).
  unfold setOnlineOfflineState. do 2 step. rewrite H5. apply ends_when; intros Hb.
  2:{ apply negb_false_iff, eqb_prop in Hb as ->. rewrite decide_True by done. split_and!; [by apply keep_refl|done..]. }
  assert (b = negb b') as -> by (by destruct b, b').
  eapply ends_mono with (P := λ _ s', keep s s' ∧ edge s' r f t b' ∧ rejoined s s' f r b').
  2:{ intros [] s'. rewrite decide_False by (by destruct b'). done. }
  do 3 step; apply ends_when; intros Hb'.
  - (* goes offline *)
    apply negb_true_iff in Hb' as ->.
    eapply ends_mono; [eapply setAccessibleState_ok; [by apply lookup_upd_ref|done|done]|].
    intros [] s' [a ->]. unfold fireStatusChanged. do 2 step. cbn [iRefFrom set_iOnline set_iAccessible]. rewrite H2.
    unfold processThreatEvent. do 4 step. cbn [iOnline set_iOnline set_iAccessible negb].
    step. eapply ends_mono; [by apply drop_victim_ok|]. intros [] s1 [Hs1 Hv]. step.
    eapply ends_mono; [apply SendRemoveFromThreatListOpcode_ok; rewrite (sl_refs _ _ Hs1), !is_Some_upd_ref; eauto|].
    intros [] s2 [l ->]. assert (live s1 f) by by apply (sl_live _ _ Hs1). steps.
    eapply (toggle_lists s r f t false R (set_iAccessible a) W HR HRo (ref_of_accessible a) (set_sent l s1)); try done.
    by destruct Hs1.
  - (* comes online *)
    apply negb_false_iff in Hb' as ->.
    unfold fireStatusChanged. do 2 step. cbn [iRefFrom set_iOnline]. rewrite H2.
    unfold processThreatEvent. do 4 step. cbn [iOnline set_iOnline negb]. step.
    eapply ends_mono with (P := λ _ s', same_lists (upd_ref r (set_iOnline true) s) s').
    + destruct (iCurrentVictim _) as [v|] eqn:Ev; [|step; apply same_lists_refl].
      assert (is_Some (refs (upd_ref r (set_iOnline true) s) !! v)) as [V HV].
      { rewrite is_Some_upd_ref. eapply (online_lookup s f); [done|]. by apply (wf_victim _ _ W). }
      steps; [apply same_lists_upd; done|apply same_lists_refl].
    + intros [] s1 Hs1. assert (live s1 f) by by apply (sl_live _ _ Hs1). steps.
      eapply (toggle_lists s r f t true R (λ R, R) W HR HRo ltac:(done) s1); try done.
      destruct Hs1 as [A1 A2 A3 A4 A5 A6 A7]. split; try done. rewrite A1. unfold upd_ref. cbn.
      apply map_eq. intros i. destruct (decide (i = r)) as [->|]; rewrite ?lookup_alter_eq, ?lookup_alter_ne by done; [|done].
      by rewrite HR.
Qed.

(** ** Facts that make sense *)

(** Owners and redirect targets are units that exist; nobody is their own owner's owner, and
    chains of owners are as short as [owners] says. *)
Definition fine_facts (L : Z → Prop) : Prop :=
  (∀ u o, L u → GetCharmerOrOwner F u = Some o → L o) ∧
  (∀ u o, L u → GetRedirectThreatTarget F u = Some o → L o) ∧
  ∃ rank : Z → nat,
    (∀ u, (rank u < owners F)%nat) ∧ (∀ u o, GetCharmerOrOwner F u = Some o → (rank o < rank u)%nat).

Lemma reachable_ok r s f t :
  wf s → hates s r f t → returns (reachable is_creature F t r) s (λ _ s', s' = s).
Proof.
  intros W H. destruct (wf_hates_facts _ _ _ _ _ W H) as (Lf & Lt & Hc & _). destruct H as (b & R & HR & H1 & H2 & _).
  unfold reachable, source. do 2 step. destruct (_ || _); [by step|]. do 3 step. rewrite H2. do 3 step.
  destruct (_ && _); [|by step]. rewrite Hc. by destruct (isInAccessiblePlaceFor F t f); step.
Qed.

(** A change of one reference that is not online can only make some lists longer. *)
Definition longer (s s' : state) : Prop := ∀ u, online s u `prefix_of` online s' u.
#[local] Instance longer_preorder : PreOrder longer.
Proof. split; [intros s u; done|]. intros s1 s2 s3 H1 H2 u. etrans; [apply H1|apply H2]. Qed.

Lemma updateOnlineStatus_ok r s f t b :
  wf s → edge s r f t b →
  returns (updateOnlineStatus is_creature platform F r) s (λ _ s', keep s s' ∧ (b = false → longer s s')).
Proof.
  intros W E. pose proof E as (R & HR & H1 & H2 & H3 & H4 & H5).
  destruct (wf_edge_facts _ _ _ _ _ _ W E) as (Lf & Lt & _ & _).
  unfold updateOnlineStatus. do 3 step. rewrite H1. do 4 step. rewrite H1.
  eapply ends_mono; [eapply reachable_ok; [done|by exists b]|]. intros [on acc] s' ->. cbn [fst snd]. step.
  eapply ends_mono; [by eapply setAccessibleState_ok|]. intros [] s1 [a ->].
  assert (quiet s (upd_ref r (set_iAccessible a) s)) as Q by apply quiet_upd_ref, ref_of_accessible.
  eapply ends_mono; [eapply setOnlineOfflineState_ok; [by eapply quiet_wf|by apply Q]|].
  intros [] s2 (K & _ & Hon). split; [eapply keep_trans; [by eapply quiet_keep|done]|].
  intros ->. case_decide; [subst s2; intros u; done|]. destruct on; [|done].
  intros u. rewrite (Hon u), (quiet_online _ _ Q). case_decide; [by apply prefix_app_r|done].
Qed.

(** What adding threat to the lists of [f] keeps. *)
Record grow (f : Z) (s s' : state) : Prop := {
  grow_wf : wf s';
  grow_live u : live s' u ↔ live s u;
  grow_hates r f' t : hates s r f' t → hates s' r f' t;
  grow_hostile r t : hates s r f t → hostile s' t = hostile s t;
  grow_longer : longer s s' }.

Lemma grow_refl f s : wf s → grow f s s.
Proof. intros W. split; done. Qed.
Lemma grow_trans f s1 s2 s3 : grow f s1 s2 → grow f s2 s3 → grow f s1 s3.
Proof.
  intros [? A2 A3 A4 A5] [? B2 B3 B4 B5]. split; [done|..].
  - intros u. by rewrite B2.
  - eauto.
  - intros r t H. rewrite <- (A4 _ _ H). eauto.
  - by etrans.
Qed.
Lemma keep_grow f s s' : keep s s' → longer s s' → grow f s s'.
Proof. intros [? ? ? A4] ?. split; try done. intros. by apply A4. Qed.
Lemma quiet_grow f s s' : wf s → quiet s s' → grow f s s'.
Proof. intros W Q. apply keep_grow; [by apply quiet_keep|]. intros u. by rewrite (quiet_online _ _ Q). Qed.

Definition with_edge (s : state) (r f t : Z) (r' f' t' : Z) (b' : bool) : Prop :=
  if decide (r' = r) then f' = f ∧ t' = t ∧ b' = true else edge s r' f' t' b'.

(** A new reference. *)
Lemma wf_new s s' f t :
  let r := next_address s in
  wf s → live s f → live s t → is_creature f = true → (∀ r, ¬ hates s r f t) →
  (∀ r' f' t' b', edge s' r' f' t' b' ↔ with_edge s r f t r' f' t' b') →
  (∀ r', is_Some (refs s' !! r') → r' = r ∨ is_Some (refs s !! r')) →
  (∀ u, live s' u ↔ live s u) → next_address s' = r + 1 →
  (∀ u, hostile s' u = if decide (u = t) then r :: hostile s u else hostile s u) →
  (∀ u, online s' u = if decide (u = f) then online s u ++ [r] else online s u) →
  (∀ u, offline s' u = offline s u) → (∀ u, victim s' u = victim s u) →
  grow f s s'.
Proof.
  intros r W Lf Lt Hc Hno He Hd Hl Hn Hh Hon Hoff Hv.
  assert (∀ f' t' b', ¬ edge s r f' t' b') as Fresh.
  { intros f' t' b' E. destruct (wf_edge_facts _ _ _ _ _ _ W E) as (_ & _ & _ & ?). subst r. lia. }
  assert (∀ r' f' t', hates s' r' f' t' ↔ (r' = r ∧ f' = f ∧ t' = t) ∨ hates s r' f' t') as Hates.
  { intros r' f' t'. unfold hates. setoid_rewrite He. unfold with_edge. case_decide; [subst r'|]; [|naive_solver].
    split; [naive_solver|]. intros [(_ & -> & ->)|[b E]]; [eauto|by apply Fresh in E]. }
  assert (wf s') as W'.
  { split.
    - intros r' R H. destruct (decide (r' = r)) as [->|Hne].
      + assert (edge s' r f t true) as (R' & H' & HR') by (apply He; unfold with_edge; by rewrite decide_True).
        simplify_eq. exists f, t, true. rewrite !Hl, Hn. split_and!; try done. lia.
      + destruct (Hd r') as [|Hs]; [eauto|done|]. destruct (wf_lookup _ s r' W Hs) as (f' & t' & b' & E).
        destruct (wf_edge_facts _ _ _ _ _ _ W E) as (? & ? & ? & ?).
        assert (edge s' r' f' t' b') as (R' & H' & HR') by (apply He; unfold with_edge; by rewrite decide_False).
        simplify_eq. exists f', t', b'. rewrite !Hl, Hn. split_and!; try done. subst r. lia.
    - intros u x. setoid_rewrite He. rewrite Hon. unfold with_edge.
      destruct (decide (u = f)) as [->|Hu]; [rewrite elem_of_app, list_elem_of_singleton|];
        (destruct (decide (x = r)) as [->|]; [|rewrite ?(wf_online _ _ W); naive_solver]).
      + split; eauto.
      + rewrite (wf_online _ _ W). split; [intros [t' E]; by apply Fresh in E|naive_solver].
    - intros u x. setoid_rewrite He. rewrite Hoff, (wf_offline _ _ W). unfold with_edge. case_decide; [subst x|done].
      split; [intros [t' E]; by apply Fresh in E|naive_solver].
    - intros u x. setoid_rewrite Hates. rewrite Hh. destruct (decide (u = t)) as [->|]; rewrite ?elem_of_cons, (wf_hostile _ _ W); naive_solver.
    - intros u. rewrite Hon. case_decide; [|apply (wf_NoDup_online _ _ W)].
      apply (NoDup_rejoin true); [apply (wf_NoDup_online _ _ W)|]. intros _ Hin. apply (wf_online _ _ W) in Hin as [t' E]. by apply Fresh in E.
    - intros u. rewrite Hoff. apply (wf_NoDup_offline _ _ W).
    - intros u. rewrite Hh. case_decide; [|apply (wf_NoDup_hostile _ _ W)]. apply NoDup_cons. split; [|apply (wf_NoDup_hostile _ _ W)].
      intros Hin. apply (wf_hostile _ _ W) in Hin as (f' & b' & E). by apply Fresh in E.
    - intros u x Hx. rewrite Hv in Hx. apply (wf_victim _ _ W) in Hx. rewrite Hon. case_decide; [|done]. apply elem_of_app. auto.
    - intros r1 r2 f' t' [(-> & -> & ->)|H1]%Hates [(-> & ? & ?)|H2]%Hates; subst; try done; [by apply Hno in H2|by apply Hno in H1|].
      by eapply (wf_unique _ _ W). }
  split; try done.
  - intros. apply Hates. auto.
  - intros r' t' H. rewrite Hh. case_decide; [subst|done]. by apply Hno in H.
  - intros u. rewrite Hon. case_decide; [by apply prefix_app_r|done].
Qed.

Lemma new_reference_ok s f t :
  wf s → live s f → live s t → is_creature f = true → (∀ r, ¬ hates s r f t) →
  returns (new_reference t f 0) s (λ r s1, live s1 f ∧ r = next_address s ∧
    let s2 := upd_unit f (λ U, set_manager (set_online (addReference r (iThreatContainer (m_ThreatManager U))) (m_ThreatManager U)) U) s1 in
    grow f s s2 ∧ edge s2 r f t true ∧ online s2 f = online s f ++ [r]).
Proof.
  intros W Lf Lt Hc Hno. match goal with |- returns _ _ ?q => set (Q := q) end.
  unfold new_reference, link, addHatedBy.
  set (R0 := mkRef None None None 0 0 t true true).
  do 6 step. eapply (returns_get_ref _ R0); [cbn; by rewrite lookup_insert_eq|].
  step. apply ends_when; intros Hb; [by apply bool_decide_eq_true in Hb as [? ?]|].
  set (s1 := set_refs _ _). assert (refs s1 !! next_address s = Some R0) as H1 by (cbn; by rewrite lookup_insert_eq).
  step. eapply (returns_with_ref _ R0); [done|].
  step. eapply returns_with_unit; [done|]. eapply returns_with_ref; [by apply lookup_upd_ref|]. step.
  assert (live s1 f ∧ live s1 t) as [Lf1 Lt1] by done.
  unfold Q. split; [by apply live_upd_2|]. split; [done|].
  cbn zeta. match goal with |- grow f s ?x ∧ _ => set (s2 := x) end.
  assert (∀ r0 f0 t0 b0, edge s2 r0 f0 t0 b0 ↔ with_edge s (next_address s) f t r0 f0 t0 b0) as He.
  { intros r0 f0 t0 b0. unfold with_edge, edge, s2, s1, upd_unit, upd_ref. cbn.
    destruct (decide (r0 = next_address s)) as [->|]; [|by rewrite !lookup_alter_ne, lookup_insert_ne by done].
    rewrite !lookup_alter_eq, lookup_insert_eq. cbn. split.
    - intros (R & [= <-] & HR1 & HR2 & _ & _ & HR3). cbn in HR1, HR2, HR3. naive_solver.
    - intros (-> & -> & ->). eexists. split; [done|by split_and!]. }
  assert (∀ u, online s2 u = if decide (u = f) then online s u ++ [next_address s] else online s u) as Hon.
  { intros u. unfold s2. views. repeat case_decide; subst; done. }
  split_and!.
  - eapply (wf_new s s2 f t); try done.
    + intros r'. unfold s2, s1, upd_unit, upd_ref. cbn. rewrite !lookup_alter_is_Some.
      destruct (decide (r' = next_address s)) as [->|]; [by left|]. rewrite lookup_insert_ne by done. auto.
    + intros u. unfold s2. rewrite live_upd by (by apply live_upd_2). by apply (live_upd t _ (upd_ref (next_address s) (set_link (Some t) (Some f)) s1)).
    + intros u. unfold s2. views. repeat case_decide; subst; done.
    + intros u. unfold s2. views. repeat case_decide; subst; done.
    + intros u. unfold s2. views. repeat case_decide; subst; done.
  - apply He. unfold with_edge. by rewrite decide_True.
  - by rewrite Hon, decide_True.
Qed.

(** ** Adding threat *)

Lemma hates_lookup s r f t : hates s r f t → ∃ R, refs s !! r = Some R ∧ iRefTo R = Some t ∧ iRefFrom R = Some f ∧ iUnitGuid R = t.
Proof. intros (b & R & HR & ? & ? & ? & ? & ?). eauto 6. Qed.

Lemma fire_threat_change_ok r v s f t :
  wf s → hates s r f t →
  returns (fireStatusChanged platform r (UEV_THREAT_REF_THREAT_CHANGE v)) s (λ _, quiet s).
Proof.
  intros W H. destruct (wf_hates_facts _ _ _ _ _ W H) as (Lf & Lt & _). destruct (hates_lookup _ _ _ _ H) as (R & HR & _ & Hf & _).
  unfold fireStatusChanged, processThreatEvent. do 2 step. rewrite Hf. steps; [|done]. apply quiet_upd_unit; [done| |done]. cbn. auto.
Qed.

Definition sane (s : state) : Prop :=
  (∀ u o, live s u → GetCharmerOrOwner F u = Some o → live s o) ∧
  (∀ u o, live s u → GetRedirectThreatTarget F u = Some o → live s o).
Lemma sane_live s s' : (∀ u, live s' u ↔ live s u) → sane s → sane s'.
Proof. intros H [H1 H2]. split; intros u o; rewrite !H; eauto. Qed.

Section adding.
Context (rank : Z → nat) (Hrank : ∀ u o, GetCharmerOrOwner F u = Some o → (rank o < rank u)%nat).

Definition adds (u : Z) (m : X state unit) : Prop := ∀ s, wf s → sane s → live s u → returns m s (λ _ s', grow u s s').
Definition rec_ok (n : nat) (rec : Z → Z → X state unit) : Prop :=
  ∀ s u v, wf s → sane s → live s u → live s v → is_creature u = true → (rank v < n)%nat →
    returns (rec u v) s (λ _ s', grow u s s').

Context (n : nat) (rec : Z → Z → X state unit) (Hrec : rec_ok n rec).

Lemma ref_addThreat_ok r modThreat s f t b :
  wf s → sane s → edge s r f t b → (rank t ≤ n)%nat →
  returns (ref_addThreat is_creature platform F rec r modThreat) s (λ _ s', grow f s s').
Proof.
  intros W Sa E Hn. pose proof E as (R & HR & H1 & H2 & H3 & H4 & H5).
  destruct (wf_edge_facts _ _ _ _ _ _ W E) as (Lf & Lt & Hc & _).
  unfold ref_addThreat. do 2 step.
  match goal with |- returns _ ?x _ => set (s1 := x) end.
  assert (quiet s s1) as Q1 by (apply quiet_upd_ref; intros R'; by destruct R'). assert (wf s1) as W1 by by eapply quiet_wf.
  assert (edge s1 r f t b) as E1 by by apply Q1.
  assert (refs s1 !! r = Some (set_iThreat (f32_add (iThreat R) modThreat) R)) as HR1 by (unfold s1; by erewrite lookup_upd_ref).
  do 3 step. cbn [iOnline set_iThreat]. rewrite H5.
  eapply ends_mono with (P := λ _ s', grow f s s').
  { apply ends_when; intros Hb; [|by apply quiet_grow].
    eapply ends_mono; [by eapply updateOnlineStatus_ok|]. intros [] s2 [K L]. eapply grow_trans; [by apply quiet_grow|].
    apply keep_grow; [done|]. apply L. by destruct b. }
  intros [] s2 G2. assert (hates s2 r f t) as E2 by (eapply grow_hates; [done|by exists b]). step.
  eapply ends_mono with (P := λ _ s', grow f s s').
  { apply ends_when; intros Hb; [|done]. eapply ends_mono; [eapply fire_threat_change_ok; [apply G2|done]|].
    intros [] s3 Q. eapply grow_trans; [done|]. apply quiet_grow; [apply G2|done]. }
  intros [] s3 G3. assert (hates s3 r f t) as E3 by (eapply grow_hates; [done|by exists b]).
  destruct (hates_lookup _ _ _ _ E3) as (R3 & HR3 & To3 & From3 & _).
  assert (∀ u, live s u → live s3 u) as L3 by (intros u; by rewrite (grow_live _ _ _ G3)).
  do 2 step. rewrite To3. apply ends_when; intros _; [|done]. do 2 step.
  destruct (GetCharmerOrOwner F t) as [o|] eqn:Eo; [|done].
  assert (live s3 o) by (apply L3; by eapply (proj1 Sa)).
  do 2 step. apply ends_when; intros _; [|done]. unfold source. do 3 step. rewrite From3. do 3 step.
  eapply ends_mono; [apply Hrec; eauto|].
  - apply G3.
  - eapply sane_live; [|done]. apply G3.
  - specialize (Hrank _ _ Eo). lia.
  - intros [] s4 G4. by eapply grow_trans.
Qed.

Lemma container_addThreat_ok l v threat s f b :
  wf s → sane s → live s v → (rank v ≤ n)%nat →
  (∀ r, r ∈ l ↔ ∃ t, edge s r f t b) →
  returns (container_addThreat is_creature platform F rec l v threat) s (λ o s', grow f s s' ∧
    match o with Some r => hates s r f v | None => s' = s ∧ ∀ r, ¬ edge s r f v b end).
Proof.
  intros W Sa Lv Hn Hl. unfold container_addThreat. do 3 step.
  eapply ends_mono; [apply getReferenceByTarget_ok|].
  { intros r Hr. apply Hl in Hr as (t & R & ? & ?). eauto. }
  intros [r|] s' [-> Ho].
  - destruct Ho as (Hr & R & HR & Hg). apply Hl in Hr as (t & E). pose proof E as (R' & HR' & _ & _ & _ & Ht & _). simplify_eq.
    step. eapply ends_mono; [by eapply ref_addThreat_ok|]. intros [] s' G. step. split; [done|]. by exists b.
  - step. step. step. split; [by apply grow_refl|]. split; [done|]. intros r E. pose proof E as (R & HR & _ & _ & _ & Ht & _).
    eapply (Ho r R); [apply Hl; eauto|done..].
Qed.

Lemma edge_target s r f t b : edge s r f t b → ∀ t', edge s r f t' b → t' = t.
Proof. intros E t' E'. by destruct (edge_fun _ _ _ _ _ _ _ _ E E') as (_ & -> & _). Qed.

Lemma manager__addThreat_ok u v threat s :
  wf s → sane s → live s u → live s v → is_creature u = true → (rank v ≤ n)%nat →
  returns (manager__addThreat is_creature platform F rec u v threat) s (λ _ s', grow u s s').
Proof.
  intros W Sa Lu Lv Hc Hn. unfold manager__addThreat. do 3 step.
  eapply ends_mono; [eapply (container_addThreat_ok _ _ _ _ u true); try done; apply (wf_online _ _ W)|].
  intros o s1 [G1 Ho]. step. destruct o as [r|]; [by do 2 step|]. destruct Ho as [-> Hon].
  do 2 step. eapply ends_mono; [eapply (container_addThreat_ok _ _ _ _ u false); try done; apply (wf_offline _ _ W)|].
  intros [r|] s2 [G2 Ho]; [by step|]. destruct Ho as [-> Hoff].
  step. eapply ends_mono; [eapply new_reference_ok; try done|].
  { intros r [[] E]; [by apply Hon in E|by apply Hoff in E]. }
  intros r s2 (L2 & -> & G3 & E3 & On3). do 2 step.
  match type of E3 with edge ?x _ _ _ _ => set (s3 := x) in * end.
  step. eapply ends_mono; [eapply ref_addThreat_ok; [apply G3| |done|done]|].
  { eapply sane_live; [|done]. apply G3. }
  intros [] s4 G4. assert (hates s4 (next_address s) u v) as [b E4] by (eapply grow_hates; [done|by exists true]).
  assert (live s4 v) by by apply (grow_live _ _ _ G4), (grow_live _ _ _ G3).
  do 2 step. apply ends_when; intros _; [|by eapply grow_trans].
  eapply ends_mono; [eapply setOnlineOfflineState_ok; [apply G4|done]|].
  intros [] s5 (K & _ & Hr). assert (grow u s s4) as G by by eapply grow_trans.
  split; [apply K| | | |].
  - intros x. by rewrite (keep_live _ _ K), (grow_live _ _ _ G).
  - intros r f t Hh. apply (keep_hates _ _ K). by eapply grow_hates.
  - intros r t Hh. rewrite (keep_hostile _ _ K). by eapply grow_hostile.
  - destruct (decide (false = b)) as [<-|]; [subst s5; apply G|]. intros x. rewrite (Hr x). case_decide; [subst x|apply G].
    destruct (grow_longer _ _ _ G4 u) as [l Hl]. rewrite On3 in Hl. cbn. rewrite Hl, <- app_assoc, filter_app.
    rewrite filter_absent; [by apply prefix_app_r|]. intros Hy.
    apply (wf_online _ _ W) in Hy as [t Ey]. destruct (wf_edge_facts _ _ _ _ _ _ W Ey) as (_ & _ & _ & ?). lia.
Qed.

Lemma doAddThreat_ok u v threat s :
  wf s → sane s → live s u → live s v → is_creature u = true → (rank v ≤ n)%nat →
  (f32_lt 0 threat = true → ∀ o, (rank o ≤ n)%nat) →
  returns (doAddThreat is_creature platform F rec u v threat) s (λ _ s', grow u s s').
Proof.
  intros W Sa Lu Lv Hc Hn Ho. unfold doAddThreat. do 3 step.
  eapply ends_mono with (P := λ _ s', grow u s s').
  - destruct (f32_lt 0 threat) eqn:Et; [|by apply ends_ret, grow_refl].
    destruct (negb _); [|by apply ends_ret, grow_refl]. cbn [andb].
    destruct (GetRedirectThreatTarget F v) as [o|] eqn:Eo; [|by apply ends_ret, grow_refl].
    step. eapply ends_mono; [apply manager__addThreat_ok; eauto; by eapply (proj2 Sa)|]. by intros [] s' G; step.
  - intros th s1 G1. eapply ends_mono; [apply manager__addThreat_ok; try done; [apply G1| |by apply G1..]|].
    + eapply sane_live; [|done]. apply G1.
    + intros [] s2 G2. by eapply grow_trans.
Qed.

Lemma isValidProcess_ok v u sp s :
  live s u → live s v → is_creature u = true → returns (isValidProcess is_creature F v u sp) s (λ _ s', s' = s).
Proof.
  intros Lu Lv Hc. unfold isValidProcess. destruct (v =? u); [done|]. do 4 step.
  repeat match goal with |- returns (if ?b then _ else _) _ _ => destruct b eqn:?; try (by step) end. congruence.
Qed.

Lemma manager_addThreat_ok u v threat mask sp s :
  wf s → sane s → live s u → live s v → is_creature u = true → (rank v ≤ n)%nat →
  (f32_lt 0 (calcThreat F v threat mask sp) = true → ∀ o, (rank o ≤ n)%nat) →
  returns (manager_addThreat is_creature platform F rec u v threat mask sp) s (λ _ s', grow u s s').
Proof.
  intros W Sa Lu Lv Hc Hn Ho. unfold manager_addThreat. step. eapply ends_mono; [by apply isValidProcess_ok|].
  intros b s' ->. apply ends_when; intros _; [by apply doAddThreat_ok|by apply grow_refl].
Qed.

End adding.

(** No threat is no threat, whatever the modifier. *)
Lemma no_threat m : f32_lt 0 (f32_mul 0 m) = false.
Proof.
  unfold f32_mul. change (f32_decode 0) with (S754_zero false).
  destruct (f32_decode m) as [[]|[]| |[] p e]; vm_compute; done.
Qed.
Lemma calcThreat_0 v : f32_lt 0 (calcThreat F v 0 SPELL_SCHOOL_MASK_NORMAL None) = false.
Proof. cbn. unfold ApplyTotalThreatModifier. destruct (_ || _); [done|apply no_threat]. Qed.

Section facts.
Context (rank : Z → nat) (Hrank : ∀ u o, GetCharmerOrOwner F u = Some o → (rank o < rank u)%nat).
Context (Hmax : ∀ u, (rank u < owners F)%nat).

Lemma add_owner_ok n : rec_ok rank n (add_owner is_creature platform F n).
Proof.
  induction n as [|n IH]; intros s u v W Sa Lu Lv Hc Hn; [lia|]. cbn [add_owner].
  eapply (manager_addThreat_ok rank Hrank n _ IH); try done; [lia|]. by rewrite calcThreat_0.
Qed.

Abbreviation rec := (rec is_creature platform F).
Lemma rec_fine : rec_ok rank (owners F) rec.
Proof. apply add_owner_ok. Qed.
Lemma rank_le u : (rank u ≤ owners F)%nat.
Proof. specialize (Hmax u). lia. Qed.

Lemma addThreat_ok r modThreat s f t :
  wf s → sane s → hates s r f t →
  returns (ref_addThreat is_creature platform F rec r modThreat) s (λ _ s', grow f s s').
Proof. intros W Sa [b E]. by eapply (ref_addThreat_ok rank Hrank _ _ rec_fine); eauto using rank_le. Qed.

(** The callers of [HostileReference::addThreat]. *)
Ltac adds := steps; try (by apply grow_refl); try (eapply ends_mono; [by eapply addThreat_ok|]).

Lemma setThreat_ok r threat s f t :
  wf s → sane s → hates s r f t → returns (setThreat is_creature platform F rec r threat) s (λ _ s', grow f s s').
Proof. intros W Sa H. destruct (hates_lookup _ _ _ _ H) as (R & HR & _). unfold setThreat. adds. done. Qed.
Lemma addThreatPercent_ok r percent s f t :
  wf s → sane s → hates s r f t → returns (ref_addThreatPercent is_creature platform F rec r percent) s (λ _ s', grow f s s').
Proof. intros W Sa H. destruct (hates_lookup _ _ _ _ H) as (R & HR & _). unfold ref_addThreatPercent. adds. done. Qed.

Lemma set_iTemp_quiet r x s : quiet s (upd_ref r (set_iTemp x) s).
Proof. apply quiet_upd_ref. intros R. by destruct R. Qed.

Lemma addTempThreat_ok r threat s f t :
  wf s → sane s → hates s r f t → returns (ref_addTempThreat is_creature platform F rec r threat) s (λ _ s', grow f s s').
Proof.
  intros W Sa H. destruct (hates_lookup _ _ _ _ H) as (R & HR & _). unfold ref_addTempThreat. step. step.
  assert (quiet s (upd_ref r (set_iTemp threat) s)) as Q by apply set_iTemp_quiet.
  apply ends_when; intros _; [|by apply quiet_grow]. destruct H as [b E].
  eapply ends_mono; [eapply (addThreat_ok r _ _ f t)|].
  - by eapply quiet_wf.
  - eapply sane_live; [|done]. apply Q.
  - exists b. by apply Q.
  - intros [] s' G. eapply grow_trans; [by apply quiet_grow|done].
Qed.
Lemma setTempThreat_ok r threat s f t :
  wf s → sane s → hates s r f t → returns (setTempThreat is_creature platform F rec r threat) s (λ _ s', grow f s s').
Proof.
  intros W Sa H. destruct (hates_lookup _ _ _ _ H) as (R & HR & _). unfold setTempThreat. steps. by eapply addTempThreat_ok.
Qed.
Lemma resetTempThreat_ok r s f t :
  wf s → sane s → hates s r f t → returns (resetTempThreat is_creature platform F rec r) s (λ _ s', grow f s s').
Proof.
  intros W Sa H. destruct (hates_lookup _ _ _ _ H) as (R & HR & _). unfold resetTempThreat. adds. intros [] s' G.
  destruct (hates_lookup _ _ _ _ (grow_hates _ _ _ G _ _ _ H)) as (R' & HR' & _). step.
  eapply grow_trans; [done|]. apply quiet_grow; [apply G|apply set_iTemp_quiet].
Qed.

Lemma AddThreat_ok u v threat mask sp s :
  wf s → sane s → live s u → live s v → is_creature u = true →
  returns (manager_addThreat is_creature platform F rec u v threat mask sp) s (λ _ s', grow u s s').
Proof.
  intros. apply (manager_addThreat_ok rank Hrank _ _ rec_fine); auto using rank_le.
Qed.

(** ** The threat manager *)

(** The least that calls keep. *)
Definition stays (s s' : state) : Prop := wf s' ∧ ∀ u, live s' u ↔ live s u.
Lemma stays_refl s : wf s → stays s s.
Proof. done. Qed.
Lemma stays_trans s1 s2 s3 : stays s1 s2 → stays s2 s3 → stays s1 s3.
Proof. intros [_ H1] [W H2]. split; [done|]. intros u. by rewrite H2. Qed.
Lemma grow_stays f s s' : grow f s s' → stays s s'.
Proof. intros G. split; apply G. Qed.
Lemma keep_stays s s' : keep s s' → stays s s'.
Proof. intros G. split; apply G. Qed.
Lemma quiet_stays s s' : wf s → quiet s s' → stays s s'.
Proof. intros. by apply keep_stays, quiet_keep. Qed.

Lemma sort_insert_perm th x l : sort_insert th x l ≡ₚ x :: l.
Proof. induction l as [|y l IH]; cbn; [done|]. case_match; [|done]. rewrite IH. by rewrite Permutation_swap. Qed.
Lemma threat_sort_perm th l : threat_sort th l ≡ₚ l.
Proof. induction l as [|x l IH]; cbn; [done|]. by rewrite sort_insert_perm, IH. Qed.

Lemma update_ok u s :
  wf s → live s u → returns (update u) s (λ _ s', keep s s' ∧ online s' u ≡ₚ online s u ∧ refs s' = refs s).
Proof.
  intros W Lu. unfold update. step. step. step.
  match goal with |- context [upd_unit u ?g s] => set (s' := upd_unit u g s) end.
  assert (∀ v, online s' v ≡ₚ online s v) as Hon.
  { intros v. unfold s'. unfold online. rewrite unit_at_upd. case_decide; [subst|done]. cbn. destruct (iDirty _); [by rewrite threat_sort_perm|done]. }
  split_and!; [|done..]. split.
  - eapply (wf_sim is_creature s s'); try done.
    + intros v. by apply live_upd.
    + intros v. unfold s'. views. case_decide; subst; done.
    + intros v. unfold s'. views. case_decide; subst; done.
    + intros v r Hr. apply (wf_victim _ _ W). unfold s' in Hr. views. case_decide; subst; done.
  - intros v. by apply live_upd.
  - intros v. unfold s'. views. case_decide; subst; done.
  - done.
Qed.

Lemma select_from_ok u b l cur again s :
  wf s → (∀ r, r ∈ l → r ∈ online s u) → (∀ r, cur = Some r → r ∈ online s u) →
  (∀ cur', (∀ r, cur' = Some r → r ∈ online s u) → returns (again cur') s (λ o s', s' = s ∧ ∀ r, o = Some r → r ∈ online s u)) →
  returns (select_from F u b l cur again) s (λ o s', s' = s ∧ ∀ r, o = Some r → r ∈ online s u).
Proof.
  intros W. revert cur. induction l as [|r l IH]; intros cur Hl Hcur Hag; [done|]. cbn [select_from].
  assert (∀ x, x ∈ online s u → ∃ R t, refs s !! x = Some R ∧ iRefTo R = Some t ∧ live s t) as Hon.
  { intros x Hx. apply (wf_online _ _ W) in Hx as [t E]. destruct (wf_edge_facts _ _ _ _ _ _ W E) as (_ & ? & _).
    destruct E as (R & ? & ? & _). eauto 6. }
  destruct (Hon r) as (R & t & HR & Ht & Lt); [by apply Hl; left|]. do 3 step. rewrite Ht. do 3 step.
  assert (∀ cur', (∀ r, cur' = Some r → r ∈ online s u) →
    returns (select_from F u b l cur' again) s (λ o s', s' = s ∧ ∀ r, o = Some r → r ∈ online s u)) as IH'.
  { intros cur' Hc. apply IH; [intros x Hx; apply Hl; by right|done..]. }
  assert (∀ x, x ∈ online s u → returns (mret (Some x)) s (λ o s', s' = s ∧ ∀ r, o = Some r → r ∈ online s u)) as Hret.
  { intros x Hx. step. split; [done|]. by intros ? [= <-]. }
  assert (r ∈ online s u) as Hr by (by apply Hl; left).
  destruct (_ && _).
  { destruct l; [by apply Hag|]. apply IH'. by case_bool_decide. }
  destruct (CanCreatureAttack F u t); [|by apply IH'].
  destruct cur as [v|]; [|by apply Hret].
  destruct (Hon v) as (V & tv & HV & Htv & Ltv); [auto|]. do 2 step.
  destruct (_ || _).
  - destruct (v =? r); [by apply Hret|]. unfold target. do 3 step. rewrite Htv. do 4 step.
    case_match; apply Hret; auto.
  - destruct (_ || _); [by apply Hret|by apply IH'].
Qed.

Lemma selectNextVictim_ok u l cur s :
  wf s → l ≠ [] → (∀ r, r ∈ l → r ∈ online s u) → (∀ r, cur = Some r → r ∈ online s u) →
  returns (selectNextVictim F u l cur) s (λ o s', s' = s ∧ ∀ r, o = Some r → r ∈ online s u).
Proof.
  intros W Hne Hl Hcur. unfold selectNextVictim. destruct l as [|x l]; [done|].
  apply select_from_ok; [done..|]. intros cur' Hc. apply select_from_ok; [done..|]. done.
Qed.

Lemma getHostilTarget_ok u s :
  wf s → live s u → is_creature u = true → online s u ≠ [] →
  returns (getHostilTarget is_creature platform F u) s (λ _ s', stays s s').
Proof.
  intros W Lu Hc Hne. unfold getHostilTarget. step. eapply ends_mono; [by apply update_ok|].
  intros [] s1 (K & Hp & _). assert (live s1 u) as L1 by by apply (keep_live _ _ K).
  do 3 step. rewrite Hc. eapply ends_mono; [apply selectNextVictim_ok; [apply K| |done|]|].
  - intros He. apply Hne. fold (online s1 u) in He. rewrite He in Hp. by apply Permutation_nil in Hp.
  - intros r Hr. apply (wf_victim _ _ (keep_wf _ _ K)). done.
  - intros o s2 [-> Ho]. step. eapply ends_mono; [apply setCurrentVictim_ok; [done|apply K|done]|].
    intros [] s3 (Q & _ & Hrefs). assert (stays s s3) as S3.
    { eapply stays_trans; [by apply keep_stays|]. apply quiet_stays; [apply K|done]. }
    destruct o as [r|]; [|done]. destruct (online_lookup s1 u r) as [R HR]; [apply K|auto|].
    rewrite <- Hrefs in HR. do 3 step. done.
Qed.

Lemma isThreatListEmpty_online s u : isThreatListEmpty (m_ThreatManager (unit_at s u)) = false ↔ online s u ≠ [].
Proof. unfold isThreatListEmpty, online. by destruct (iThreatList _). Qed.

Lemma SelectVictim_ok u s :
  wf s → live s u → returns (SelectVictim_threat is_creature platform F u) s (λ _ s', stays s s').
Proof.
  intros W Lu. unfold SelectVictim_threat, CanHaveThreatList. do 2 step. destruct (_ && _) eqn:E; [|by step].
  apply andb_true_iff in E as [[[Hc _]%andb_true_iff _]%andb_true_iff He].
  apply negb_true_iff, isThreatListEmpty_online in He. by apply getHostilTarget_ok.
Qed.

(** Looking somebody up in a list of [u]. *)
Lemma find_online u v s :
  wf s → returns (getReferenceByTarget (iThreatList (iThreatContainer (m_ThreatManager (unit_at s u)))) v) s
    (λ o s', s' = s ∧ ∀ r, o = Some r → r ∈ online s u ∧ hates s r u v).
Proof.
  intros W. eapply ends_mono; [apply getReferenceByTarget_ok; intros r Hr; by eapply (online_lookup s u)|].
  intros [r|] s' [-> Ho]; (split; [done|]); [|done]. destruct Ho as (Hr & R & HR & Hg). intros ? [= <-]. split; [done|].
  apply (wf_online _ _ W) in Hr as [t E]. exists true. pose proof E as (R' & HR' & _ & _ & _ & Ht & _). by simplify_eq.
Qed.
Lemma find_offline u v s :
  wf s → returns (getReferenceByTarget (iThreatList (iThreatOfflineContainer (m_ThreatManager (unit_at s u)))) v) s
    (λ o s', s' = s ∧ ∀ r, o = Some r → is_Some (refs s !! r)).
Proof.
  intros W. eapply ends_mono; [apply getReferenceByTarget_ok; intros r Hr; by eapply (offline_lookup s u)|].
  intros [r|] s' [-> Ho]; (split; [done|]); [|done]. destruct Ho as (Hr & R & HR & Hg). intros ? [= <-]. eauto.
Qed.

Lemma getThreat_ok u v b s :
  wf s → live s u → live s v → returns (getThreat u v b) s (λ _ s', s' = s).
Proof.
  intros W Lu Lv. unfold getThreat. do 5 step. eapply ends_mono; [by apply find_online|]. intros o s' [-> Ho].
  step. eapply ends_mono with (P := λ o s', s' = s ∧ ∀ r, o = Some r → is_Some (refs s !! r)).
  - destruct o as [r|]; [|destruct b; [by apply find_offline|done]]. step. split; [done|]. intros ? [= <-].
    destruct (Ho r) as [Hr _]; [done|]. by eapply (online_lookup s u).
  - intros [r|] s' [-> Hr]; [|done]. destruct (Hr r) as [R HR]; [done|]. by steps.
Qed.

Lemma modifyThreatPercent_ok u v percent s :
  wf s → sane s → live s u → live s v → returns (manager_modifyThreatPercent is_creature platform F u v percent) s (λ _ s', stays s s').
Proof.
  intros W Sa Lu Lv. unfold manager_modifyThreatPercent. do 5 step. eapply ends_mono; [by apply find_online|].
  intros [r|] s' [-> Ho]; [|done]. destruct (Ho r) as [_ H]; [done|].
  eapply ends_mono; [by eapply addThreatPercent_ok|]. intros [] s'. apply grow_stays.
Qed.

Lemma victim_lookup s u v : wf s → iCurrentVictim (m_ThreatManager (unit_at s u)) = Some v → ∃ V, refs s !! v = Some V.
Proof. intros W Hv. apply (online_lookup s u); [done|]. by apply (wf_victim _ _ W). Qed.

Lemma tauntApply_ok u v s :
  wf s → sane s → live s u → live s v → returns (tauntApply is_creature platform F u v) s (λ _ s', stays s s').
Proof.
  intros W Sa Lu Lv. unfold tauntApply. do 5 step. eapply ends_mono; [by apply find_online|]. intros o s' [-> Ho].
  destruct (iCurrentVictim _) as [w|] eqn:Ew; [|done]. destruct o as [r|]; [|done].
  destruct (victim_lookup _ _ _ W Ew) as [V HV]. destruct (Ho r) as [_ H]; [done|]. destruct (hates_lookup _ _ _ _ H) as (R & HR & _).
  do 4 step. apply ends_when; intros _; [|done].
  eapply ends_mono; [by eapply setTempThreat_ok|]. intros [] s'. apply grow_stays.
Qed.
Lemma tauntFadeOut_ok u v s :
  wf s → sane s → live s u → live s v → returns (tauntFadeOut is_creature platform F u v) s (λ _ s', stays s s').
Proof.
  intros W Sa Lu Lv. unfold tauntFadeOut. do 5 step. eapply ends_mono; [by apply find_online|].
  intros [r|] s' [-> Ho]; [|done]. destruct (Ho r) as [_ H]; [done|].
  eapply ends_mono; [by eapply resetTempThreat_ok|]. intros [] s'. apply grow_stays.
Qed.

Lemma EffectTaunt_ok u v s :
  wf s → sane s → live s u → live s v → returns (EffectTaunt_threat is_creature platform F u v) s (λ _ s', stays s s').
Proof.
  intros W Sa Lu Lv. unfold EffectTaunt_threat. apply ends_when; intros Hc; [|done].
  apply andb_true_iff in Hc as [[[Hc _]%andb_true_iff _]%andb_true_iff _]. do 3 step.
  eapply ends_mono with (P := λ _ s', stays s s').
  - destruct (iCurrentVictim _) as [w|] eqn:Ew; [|done]. destruct (victim_lookup _ _ _ W Ew) as [V HV].
    step. eapply ends_mono; [by apply getThreat_ok|]. intros th s' ->. do 2 step.
    apply ends_when; intros _; [|done]. eapply ends_mono; [by apply AddThreat_ok|]. intros [] s'. apply grow_stays.
  - intros [] s1 S1. assert (live s1 u) as L1 by by apply S1. do 2 step. apply ends_when; intros _; [|done].
    step. eapply ends_mono; [apply find_online, S1|]. intros [r|] s' [-> Ho]; [|done].
    eapply ends_mono; [apply setCurrentVictim_ok; [done|apply S1|]|].
    + intros ? [= <-]. by apply Ho.
    + intros [] s2 [Q _]. eapply stays_trans; [done|]. apply quiet_stays; [apply S1|done].
Qed.

Lemma isNeedUpdateToClient_ok u time s :
  live s u → returns (isNeedUpdateToClient u time) s (λ _ s', quiet s s').
Proof.
  intros Lu. unfold isNeedUpdateToClient. do 2 step. destruct (isThreatListEmpty _); [by step|].
  destruct (_ <=? _); do 3 step; (apply quiet_upd_unit; [done| |done]); cbn; auto.
Qed.

Lemma only_sent_quiet s s' : only_sent s s' → quiet s s'.
Proof. intros [l ->]. apply quiet_sent. Qed.

Lemma Update_ok u time s : wf s → live s u → returns (Update_threat is_creature platform F u time) s (λ _ s', stays s s').
Proof.
  intros W Lu. unfold Update_threat. apply ends_when; intros _; [|done]. step.
  eapply ends_mono; [by apply isNeedUpdateToClient_ok|]. intros b s1 Q. apply ends_when; intros _; [|by apply quiet_stays].
  eapply ends_mono; [apply SendThreatListUpdate_ok; [by apply Q|exact (quiet_wf _ _ _ Q W)]|].
  intros [] s2 Hs%only_sent_quiet. apply quiet_stays; [done|]. by transitivity s1.
Qed.

(** *** Loops over the list *)


Lemma size_live s s' : (∀ u, live s' u ↔ live s u) → size (units s') = size (units s).
Proof.
  intros H. rewrite <- !(size_dom (D := gset Z)). f_equal. apply leibniz_equiv. intros u. rewrite !elem_of_dom. apply H.
Qed.

(** Nobody is twice in the list. *)
Lemma online_length s u : wf s → (length (online s u) ≤ size (units s))%nat.
Proof.
  intros W. set (to r := default 0 (R ← refs s !! r; iRefTo R)).
  assert (∀ r, r ∈ online s u → hates s r u (to r)) as Hto.
  { intros r Hr. apply (wf_online _ _ W) in Hr as [t E]. exists true. unfold to.
    pose proof E as (R & -> & Ht & _). cbn. by rewrite Ht. }
  rewrite <- (length_fmap to), <- (size_dom (D := gset Z)). unfold size, set_size. cbn.
  apply submseteq_length, NoDup_submseteq.
  - apply NoDup_fmap_2_strong; [|apply (wf_NoDup_online _ _ W)]. intros x y Hx Hy Hxy.
    apply Hto in Hx, Hy. rewrite Hxy in Hx. by eapply (wf_unique _ _ W).
  - intros t Ht. apply list_elem_of_fmap in Ht as (r & -> & Hr). apply elem_of_elements, elem_of_dom.
    by apply (wf_hates_facts _ _ _ _ _ W (Hto r Hr)).
Qed.

Lemma each_node_ok u body :
  (∀ s r, wf s → sane s → live s u → r ∈ online s u → returns (body r) s (λ _ s', grow u s s')) →
  ∀ fuel s pre l, wf s → sane s → live s u → online s u = pre ++ l → (size (units s) ≤ fuel + length pre)%nat →
  returns (each_node body fuel u (head l)) s (λ _ s', grow u s s').
Proof.
  intros Hbody fuel. induction fuel as [|fuel IH]; intros s pre l W Sa Lu Hl Hfuel.
  { destruct l as [|r l]; [by apply ends_ret, grow_refl|]. exfalso. pose proof (online_length s u W) as Hle.
    rewrite Hl, length_app in Hle. cbn in Hle. lia. }
  destruct l as [|r l]; [by apply ends_ret, grow_refl|]. cbn [head each_node]. step.
  eapply ends_mono; [apply Hbody; try done; rewrite Hl; set_solver|]. intros [] s1 G.
  assert (live s1 u) as L1 by by apply (grow_live _ _ _ G). destruct (grow_longer _ _ _ G u) as [ext Hext].
  rewrite Hl, <- app_assoc in Hext. cbn in Hext. do 2 step.
  fold (online s1 u). rewrite bool_decide_eq_true_2 by (rewrite Hext; set_solver).
  rewrite Hext, successor_app. 2:{ eapply NoDup_split. rewrite <- Hext. apply (wf_NoDup_online _ _ (grow_wf _ _ _ G)). }
  eapply ends_mono; [apply (IH s1 (pre ++ [r]))|].
  - apply G.
  - eapply sane_live; [|done]. apply G.
  - done.
  - by rewrite <- app_assoc.
  - rewrite (size_live s s1), length_app; [cbn; lia|apply G].
  - intros [] s2 G2. by eapply grow_trans.
Qed.

Lemma for_nodes_ok u body s :
  (∀ s r, wf s → sane s → live s u → r ∈ online s u → returns (body r) s (λ _ s', grow u s s')) →
  wf s → sane s → live s u → returns (for_nodes u body) s (λ _ s', grow u s s').
Proof. intros Hbody W Sa Lu. unfold for_nodes. do 4 step. apply (each_node_ok u body Hbody _ s []); try done. cbn. lia. Qed.

Lemma setDirty_quiet u b s : live s u → returns (setDirty u b) s (λ _ s', quiet s s').
Proof. intros Lu. step. apply quiet_upd_unit; [done| |done]. cbn. auto. Qed.

Lemma resetAllAggro_ok u s :
  wf s → sane s → live s u → returns (resetAllAggro is_creature platform F u) s (λ _ s', stays s s').
Proof.
  intros W Sa Lu. unfold resetAllAggro. do 2 step. apply ends_when; intros _; [|done]. step.
  eapply ends_mono; [apply for_nodes_ok; try done|].
  - clear dependent s. intros s r W Sa Lu Hr. apply (wf_online _ _ W) in Hr as [t E%edge_hates]. by eapply setThreat_ok.
  - intros [] s1 G. eapply ends_mono; [apply setDirty_quiet; by apply G|]. intros [] s2 Q.
    eapply stays_trans; [by eapply grow_stays|]. apply quiet_stays; [apply G|done].
Qed.

Lemma resetAggro_ok u predicate s :
  wf s → sane s → live s u → returns (resetAggro is_creature platform F u predicate) s (λ _ s', stays s s').
Proof.
  intros W Sa Lu. eapply ends_mono; [apply for_nodes_ok; try done|intros [] s'; apply grow_stays].
  clear dependent s. intros s r W Sa Lu Hr. apply (wf_online _ _ W) in Hr as [t E]. pose proof E as (R & HR & Ht & _).
  destruct (wf_edge_facts _ _ _ _ _ _ W E) as (_ & Lt & _). apply edge_hates in E. unfold target. do 3 step. rewrite Ht. do 3 step.
  apply ends_when; intros _; [|by apply grow_refl]. step. eapply ends_mono; [by eapply setThreat_ok|].
  intros [] s1 G. eapply ends_mono; [apply setDirty_quiet; by apply G|]. intros [] s2 Q.
  eapply grow_trans; [done|]. apply quiet_grow; [apply G|done].
Qed.

(** ** Deleting references *)

(** The references [P] are gone. *)
Record gone (P : list Z) (s s' : state) : Prop := {
  gone_wf : wf s';
  gone_live u : live s' u ↔ live s u;
  gone_hates r f t : hates s' r f t ↔ (r ∉ P) ∧ hates s r f t;
  gone_hostile u : hostile s' u = filter (λ x, x ∉ P) (hostile s u) }.

Lemma wf_erase P s s' :
  wf s →
  (∀ r f t b, edge s' r f t b ↔ (r ∉ P) ∧ edge s r f t b) →
  (∀ r, is_Some (refs s' !! r) → (r ∉ P) ∧ is_Some (refs s !! r)) →
  (∀ u, live s' u ↔ live s u) → next_address s' = next_address s →
  (∀ u, online s' u = filter (λ x, x ∉ P) (online s u)) →
  (∀ u, offline s' u = filter (λ x, x ∉ P) (offline s u)) →
  (∀ u, hostile s' u = filter (λ x, x ∉ P) (hostile s u)) →
  (∀ u x, victim s' u = Some x → victim s u = Some x ∧ x ∉ P) →
  gone P s s'.
Proof.
  intros W He Hd Hl Hn Hon Hoff Hh Hv.
  assert (∀ r f t, hates s' r f t ↔ (r ∉ P) ∧ hates s r f t) as Hates.
  { intros r f t. unfold hates. setoid_rewrite He. naive_solver. }
  split; try done. split.
  - intros r R H. destruct (Hd r) as [Hr Hs]; [eauto|]. destruct (wf_lookup _ s r W Hs) as (f & t & b & E).
    destruct (wf_edge_facts _ _ _ _ _ _ W E) as (? & ? & ? & ?).
    assert (edge s' r f t b) as (R' & H' & HR) by by apply He. simplify_eq.
    exists f, t, b. rewrite !Hl, Hn. done.
  - intros u x. setoid_rewrite He. rewrite Hon, list_elem_of_filter, (wf_online _ _ W). naive_solver.
  - intros u x. setoid_rewrite He. rewrite Hoff, list_elem_of_filter, (wf_offline _ _ W). naive_solver.
  - intros u x. setoid_rewrite Hates. rewrite Hh, list_elem_of_filter, (wf_hostile _ _ W). naive_solver.
  - intros u. rewrite Hon. apply NoDup_filter, (wf_NoDup_online _ _ W).
  - intros u. rewrite Hoff. apply NoDup_filter, (wf_NoDup_offline _ _ W).
  - intros u. rewrite Hh. apply NoDup_filter, (wf_NoDup_hostile _ _ W).
  - intros u x Hx. destruct (Hv u x Hx) as [Hx' Hr]. rewrite Hon, list_elem_of_filter. split; [done|by apply (wf_victim _ _ W)].
  - intros r1 r2 f t H1 H2. apply Hates in H1 as [_ H1], H2 as [_ H2]. by eapply (wf_unique _ _ W).
Qed.

Lemma gone_keep s s1 s2 P : keep s s1 → gone P s1 s2 → gone P s s2.
Proof.
  intros [? A2 A3 A4] [? B2 B3 B4]. split; [done|..]; intros.
  - by rewrite B2.
  - by rewrite B3, A4.
  - by rewrite B4, A3.
Qed.

(** The reference as [removeReference] leaves it. *)
Definition cut (R : HostileReference) : HostileReference := set_link None (iRefFrom R) (set_linked None R).

Lemma drop_reference_ok r s f t b :
  wf s → edge s r f t b → returns (drop_reference platform r) s (λ _ s', gone [r] s s').
Proof.
  intros W E. unfold drop_reference, removeReference, invalidate. do 3 step.
  eapply ends_mono; [by eapply setOnlineOfflineState_ok|]. intros [] s1 (K & E1 & _).
  pose proof E1 as (R & HR & H1 & H2 & H3 & H4 & H5). pose proof (keep_wf _ _ K) as W1.
  destruct (wf_edge_facts _ _ _ _ _ _ W1 E1) as (Lf & Lt & _ & _).
  unfold delink at 1. do 3 step. rewrite H3. do 3 step.
  set (s2 := upd_unit t _ s1). assert (refs s2 !! r = Some R) as HR2 by done.
  eapply returns_with_ref; [by apply lookup_upd_ref|]. set (s3 := upd_ref r _ (upd_ref r _ s2)).
  assert (refs s3 !! r = Some (cut R)) as HR3 by (unfold s3; by erewrite lookup_upd_ref by by apply lookup_upd_ref).
  assert (live s3 f) as L3 by by apply live_upd_2.
  unfold fireStatusChanged. do 2 step. cbn [cut iRefFrom set_link set_linked]. rewrite H2. unfold processThreatEvent. do 3 step.
  eapply ends_mono; [by apply drop_victim_ok|]. intros [] s4 [[A1 A2 A3 A4 A5 A6 A7] Hv]. step.
  eapply ends_mono; [apply SendRemoveFromThreatListOpcode_ok; rewrite A1; eauto|]. intros [] s5 [l ->].
  assert (refs (set_sent l s4) !! r = Some (cut R)) as HR4 by (cbn; by rewrite A1).
  assert (live s4 f) as L4 by by apply A3. do 2 step. cbn [cut iOnline set_link set_linked]. rewrite H5. step.
  unfold delete_ref, delink. do 3 step. cbn [cut linked set_link set_linked]. do 2 step.
  apply (gone_keep s s1); [done|]. clear K W E.
  assert (∀ u, online s4 u = online s1 u) as On4.
  { intros u. rewrite A4. unfold s3, s2. views. case_decide; by subst. }
  assert (∀ u, offline s4 u = offline s1 u) as Off4.
  { intros u. rewrite A5. unfold s3, s2. views. case_decide; by subst. }
  eapply wf_erase; [done|..].
  - intros r' f' t' b'. unfold edge. cbn. rewrite A1. unfold s3, s2, upd_ref, upd_unit. cbn.
    rewrite list_elem_of_singleton. destruct (decide (r' = r)) as [->|Hne].
    + rewrite lookup_delete_eq. naive_solver.
    + rewrite lookup_delete_ne, !lookup_alter_ne by done. naive_solver.
  - intros r'. cbn. rewrite A1. unfold s3, s2, upd_ref, upd_unit. cbn. rewrite list_elem_of_singleton.
    destruct (decide (r' = r)) as [->|Hne]; [rewrite lookup_delete_eq; by intros []|].
    by rewrite lookup_delete_ne, !lookup_alter_ne by done.
  - intros u. trans (live s4 u); [by apply (live_upd f _ (set_sent l s4))|]. rewrite A3. by apply (live_upd t _ s1).
  - done.
  - intros u. rewrite filter_not_in_single, filter_absent.
    2:{ intros Hin. apply (wf_online _ _ W1) in Hin as [t' E']. by destruct (edge_fun _ _ _ _ _ _ _ _ E1 E') as (_ & _ & ?). }
    rewrite <- On4. views. case_decide; by subst.
  - intros u. rewrite filter_not_in_single, <- Off4. destruct (decide (u = f)) as [->|Hne].
    + views. by rewrite decide_True.
    + rewrite filter_absent. { views. by rewrite decide_False. }
      rewrite Off4. intros Hin. apply (wf_offline _ _ W1) in Hin as [t' E']. by destruct (edge_fun _ _ _ _ _ _ _ _ E1 E') as (? & _ & _).
  - intros u. rewrite filter_not_in_single. trans (hostile s3 u).
    { rewrite <- A6. views. case_decide; by subst. }
    destruct (decide (u = t)) as [->|Hne].
    + unfold s3, s2. views. by rewrite decide_True.
    + rewrite filter_absent. { unfold s3, s2. views. by rewrite decide_False. }
      intros Hin. apply (wf_hostile _ _ W1) in Hin as (f' & b' & E'). by destruct (edge_fun _ _ _ _ _ _ _ _ E1 E') as (_ & ? & _).
  - intros u x Hx. assert (victim s4 u = Some x) as Hx4 by (views; case_decide; by subst).
    rewrite list_elem_of_singleton. assert (victim s1 u = Some x) as Hx1.
    { apply A7 in Hx4. unfold s3, s2 in Hx4. views. case_decide; by subst. }
    split; [done|]. intros ->. apply (wf_victim _ _ W1) in Hx1. apply (wf_online _ _ W1) in Hx1 as [t' E'].
    by destruct (edge_fun _ _ _ _ _ _ _ _ E1 E') as (_ & _ & ?).
Qed.

(** ** Loops over the references to a unit *)

Lemma hostile_hates s u r pre l : wf s → hostile s u = pre ++ r :: l → ∃ f, hates s r f u.
Proof. intros W Hl. apply (wf_hostile _ _ W). rewrite Hl. apply elem_of_app. right. by left. Qed.

Lemma next_ok s u r pre l :
  wf s → hostile s u = pre ++ r :: l → returns (next r) s (λ o s', s' = s ∧ o = head l).
Proof.
  intros W Hl. assert (∃ f, hates s r f u) as (f & b & E) by by eapply hostile_hates.
  destruct (wf_edge_facts _ _ _ _ _ _ W E) as (_ & Lu & _). destruct E as (R & HR & _ & _ & Hlk & _).
  unfold next. do 2 step. rewrite Hlk. do 3 step. split; [done|]. fold (hostile s u). rewrite Hl. apply successor_app.
  eapply NoDup_split. rewrite <- Hl. apply (wf_NoDup_hostile _ _ W).
Qed.

(** Where the next reference is looked up first, the body may delete its own. *)
Lemma while_saved_ok u body (J : state → list Z → Prop) (P : state → Prop) :
  (∀ s, J s [] → P s) →
  (∀ s r l, J s (r :: l) → wf s ∧ ∃ pre, hostile s u = pre ++ r :: l) →
  (∀ s r l, J s (r :: l) → returns (body r) s (λ (go : bool) s', if go then J s' l else P s')) →
  ∀ l s, J s l → returns (while_saved body (length l) (head l)) s (λ _, P).
Proof.
  intros Hnil Hcons Hbody l. induction l as [|r l IH]; intros s HJ; [by apply Hnil|]. cbn [length head while_saved].
  destruct (Hcons _ _ _ HJ) as [W [pre Hl]]. step. eapply ends_mono; [by eapply next_ok|]. intros o s' [-> ->].
  step. eapply ends_mono; [by apply (Hbody s r l)|]. intros [] s' H; [by apply IH|done].
Qed.

(** The body deletes its reference or leaves the list of [u] as it is. *)
Definition may_drop (u : Z) (body : Z → X state bool) : Prop := ∀ s r f t, wf s → sane s → hates s r f t → t = u →
  returns (body r) s (λ _ s', stays s s' ∧ (hostile s' u = hostile s u ∨ hostile s' u = filter (λ x, x ∉ [r]) (hostile s u))).

Lemma for_hostile_saved_ok u body s :
  may_drop u body → wf s → sane s → live s u → returns (for_hostile_saved u body) s (λ _ s', stays s s').
Proof.
  intros Hbody W Sa Lu. unfold for_hostile_saved. do 2 step. fold (hostile s u).
  apply (while_saved_ok u body (λ s' l, stays s s' ∧ ∃ pre, hostile s' u = pre ++ l) (stays s)).
  - by intros s' [? _].
  - intros s' r l [S' [pre Hl]]. split; [apply S'|eauto].
  - intros s' r l [S' [pre Hl]]. destruct S' as [W' L'].
    assert (∃ f, hates s' r f u) as [f H] by by eapply hostile_hates.
    eapply ends_mono; [eapply Hbody; [done|by eapply sane_live|done..]|]. intros go s2 [S2 Hs2].
    assert (stays s s2) as S3 by by eapply stays_trans. destruct go; [|done]. split; [done|]. destruct Hs2 as [-> | ->].
    + exists (pre ++ [r]). by rewrite Hl, <- app_assoc.
    + exists pre. rewrite Hl. apply filter_out. rewrite <- Hl. apply (wf_NoDup_hostile _ _ W').
  - split; [by apply stays_refl|]. by exists [].
Qed.

Lemma drop_ok r s f t :
  wf s → hates s r f t → returns (drop_reference platform r) s (λ _ s', stays s s' ∧ ∀ u, hostile s' u = filter (λ x, x ∉ [r]) (hostile s u)).
Proof. intros W [b E]. eapply ends_mono; [by eapply drop_reference_ok|]. intros [] s' G. split; [split|]; apply G. Qed.

Lemma source_ok r s f t : wf s → hates s r f t → returns (source r) s (λ x s', s' = s ∧ x = f).
Proof.
  intros W H. destruct (wf_hates_facts _ _ _ _ _ W H) as (Lf & _). destruct (hates_lookup _ _ _ _ H) as (R & HR & _ & Hf & _).
  unfold source. do 2 step. rewrite Hf. by do 3 step.
Qed.

Lemma deleteReferences_ok u s :
  wf s → live s u → returns (deleteReferences platform u) s (λ _ s', stays s s' ∧ hostile s' u = []).
Proof.
  intros W Lu. unfold deleteReferences, for_hostile_saved. do 2 step. fold (hostile s u).
  apply (while_saved_ok u _ (λ s' l, stays s s' ∧ hostile s' u = l) (λ s', stays s s' ∧ hostile s' u = [])).
  - done.
  - intros s' r l [S' Hl]. split; [apply S'|by exists []].
  - intros s' r l [[W' L'] Hl]. assert (∃ f, hates s' r f u) as [f H] by by apply (hostile_hates _ _ _ [] l).
    step. eapply ends_mono; [by eapply drop_ok|]. intros [] s2 [S2 Hs2]. step. split; [by eapply stays_trans|].
    rewrite Hs2, Hl. apply (filter_out r []). cbn. rewrite <- Hl. apply (wf_NoDup_hostile _ _ W').
  - done.
Qed.

Lemma may_drop_if u (b : Z → bool) :
  may_drop u (λ r, src ← source r; (when b src do drop_reference platform r);; mret true).
Proof.
  intros s r f t W Sa H ->. step. eapply ends_mono; [by eapply source_ok|]. intros x s' [-> ->]. step.
  apply ends_when; intros _; [|by step; auto using stays_refl]. eapply ends_mono; [by eapply drop_ok|].
  intros [] s' [S' Hs']. step. auto.
Qed.

Lemma deleteReference_ok u creature s :
  wf s → sane s → live s u → returns (deleteReference platform u creature) s (λ _ s', stays s s').
Proof.
  apply for_hostile_saved_ok. intros s0 r f t W Sa H ->. step. eapply ends_mono; [by eapply source_ok|]. intros x s' [-> ->].
  destruct (f =? creature); [|by step; auto using stays_refl]. step. eapply ends_mono; [by eapply drop_ok|].
  intros [] s' [S' Hs']. step. auto.
Qed.

Lemma for_saved_keep u body s :
  (∀ s r f, wf s → hates s r f u → returns (body r) s (λ (_ : bool) s', keep s s')) →
  wf s → live s u → returns (for_hostile_saved u body) s (λ _ s', keep s s').
Proof.
  intros Hbody W Lu. unfold for_hostile_saved. do 2 step. fold (hostile s u).
  apply (while_saved_ok u body (λ s' l, keep s s' ∧ ∃ pre, hostile s' u = pre ++ l) (keep s)).
  - by intros s' [? _].
  - intros s' r l [S' [pre Hl]]. split; [apply S'|eauto].
  - intros s' r l [S' [pre Hl]]. pose proof (keep_wf _ _ S') as W'.
    assert (∃ f, hates s' r f u) as [f H] by by eapply hostile_hates.
    eapply ends_mono; [by eapply Hbody|]. intros go s2 K2.
    assert (keep s s2) as K3 by by eapply keep_trans. destruct go; [|done]. split; [done|].
    exists (pre ++ [r]). by rewrite (keep_hostile _ _ K2), Hl, <- app_assoc.
  - split; [by apply keep_refl|]. by exists [].
Qed.

Lemma setOnlineOfflineState_one_ok u creature b s :
  wf s → live s u → returns (setOnlineOfflineState_one platform u creature b) s (λ _ s', keep s s').
Proof.
  apply for_saved_keep. intros s0 r f W H. step. eapply ends_mono; [by eapply source_ok|]. intros x s' [-> ->].
  destruct (f =? creature); [|by step; apply keep_refl]. step. destruct H as [b' E].
  eapply ends_mono; [by eapply setOnlineOfflineState_ok|]. intros [] s' [K _]. by step.
Qed.

(** Where the next reference is looked up after the body. *)
Definition same_hostile (u : Z) (s s' : state) : Prop := stays s s' ∧ hostile s' u = hostile s u.

Lemma while_ref_ok u body s0 :
  (∀ s r f, wf s → sane s → (∀ x, live s x ↔ live s0 x) → hates s r f u → returns (body r) s (λ _ s', same_hostile u s s')) →
  ∀ l pre s, wf s → sane s → (∀ x, live s x ↔ live s0 x) → hostile s u = pre ++ l →
  returns (while_ref body (length l) (head l)) s (λ _ s', same_hostile u s s').
Proof.
  intros Hbody l. induction l as [|r l IH]; intros pre s W Sa L Hl; [by apply ends_ret|]. cbn [length head while_ref].
  assert (∃ f, hates s r f u) as [f H] by by eapply hostile_hates.
  step. eapply ends_mono; [by eapply Hbody|]. intros [] s1 [[W1 L1] H1].
  step. eapply ends_mono; [eapply (next_ok s1 u r pre l); [done|by rewrite H1]|]. intros o s' [-> ->].
  eapply ends_mono; [apply (IH (pre ++ [r])); [done|by eapply sane_live| |by rewrite H1, Hl, <- app_assoc]|].
  - intros x. by rewrite L1.
  - intros [] s2 [S2 H2]. split; [by eapply stays_trans|]. by rewrite H2.
Qed.

Lemma for_hostile_ok u body s0 :
  (∀ s r f, wf s → sane s → (∀ x, live s x ↔ live s0 x) → hates s r f u → returns (body r) s (λ _ s', same_hostile u s s')) →
  wf s0 → sane s0 → live s0 u → returns (for_hostile u body) s0 (λ _ s', same_hostile u s0 s').
Proof. intros Hbody W Sa Lu. unfold for_hostile. do 2 step. by apply (while_ref_ok u body s0 Hbody _ []). Qed.

Lemma keep_same u s s' : keep s s' → same_hostile u s s'.
Proof. intros K. split; [by apply keep_stays|apply K]. Qed.
Lemma grow_same u s s' r f : grow f s s' → hates s r f u → same_hostile u s s'.
Proof. intros G H. split; [by eapply grow_stays|by eapply grow_hostile]. Qed.

(** The operations of HostileRefManager. *)
Ltac hostile := intros W0 Sa0 Lu; eapply ends_mono;
  [apply for_hostile_ok; [intros s r f W Sa L H|done..]|by intros [] s' [? _]].
Ltac grows := let G := fresh in intros [] ? G; cbn beta in G; eapply grow_same; eassumption.

Lemma threatAssist_ok u v base sp s0 :
  wf s0 → sane s0 → live s0 u → live s0 v → returns (threatAssist is_creature platform F u v base sp) s0 (λ _ s', stays s0 s').
Proof.
  intros W0 Sa0 Lu Lv. unfold threatAssist. do 4 step. set (threat := f32_div _ _). clearbody threat.
  revert W0 Sa0 Lu. hostile. step. eapply ends_mono; [by eapply source_ok|]. intros x s' [-> ->].
  destruct (wf_hates_facts _ _ _ _ _ W H) as (Lf & _ & Hc & _). assert (live s v) by by apply L.
  step. eapply ends_mono; [by apply isValidProcess_ok|]. intros b s' ->. apply ends_when; intros _; [|done].
  eapply ends_mono; [apply (doAddThreat_ok rank Hrank _ _ rec_fine); auto using rank_le|]. grows.
Qed.
Lemma addTempThreat_all_ok u threat b s0 :
  wf s0 → sane s0 → live s0 u → returns (addTempThreat is_creature platform F u threat b) s0 (λ _ s', stays s0 s').
Proof.
  hostile. destruct b; [|eapply ends_mono; [by eapply resetTempThreat_ok|grows]].
  destruct (hates_lookup _ _ _ _ H) as (R & HR & _). do 2 step. apply ends_when; intros _; [|done].
  eapply ends_mono; [by eapply addTempThreat_ok|grows].
Qed.
Lemma addThreatPercent_all_ok u percent s0 :
  wf s0 → sane s0 → live s0 u → returns (addThreatPercent is_creature platform F u percent) s0 (λ _ s', stays s0 s').
Proof. hostile. eapply ends_mono; [by eapply addThreatPercent_ok|grows]. Qed.
Lemma setOnlineOfflineState_all_ok u b s0 :
  wf s0 → sane s0 → live s0 u → returns (setOnlineOfflineState_all platform u b) s0 (λ _ s', stays s0 s').
Proof.
  hostile. destruct H as [b' E]. eapply ends_mono; [by eapply setOnlineOfflineState_ok|].
  intros [] s' [K _]. by apply keep_same.
Qed.
Lemma updateThreatTables_ok u s0 :
  wf s0 → sane s0 → live s0 u → returns (updateThreatTables is_creature platform F u) s0 (λ _ s', stays s0 s').
Proof.
  hostile. destruct H as [b' E]. eapply ends_mono; [by eapply updateOnlineStatus_ok|].
  intros [] s' [K _]. by apply keep_same.
Qed.

Lemma each_target_ok u in_phase l s :
  wf s → (∀ r, r ∈ l → ∃ f t, hates s r f t) → returns (each_target platform u in_phase l) s (λ _ s', keep s s').
Proof.
  revert s. induction l as [|r l IH]; intros s W Hl; [by apply ends_ret, keep_refl|]. cbn [each_target].
  destruct (Hl r) as (f & t & H); [set_solver|]. destruct (hates_lookup _ _ _ _ H) as (R & HR & Ht & _).
  destruct (wf_hates_facts _ _ _ _ _ W H) as (_ & Lt & _). do 3 step. rewrite Ht.
  eapply ends_mono; [by apply setOnlineOfflineState_one_ok|]. intros [] s1 K.
  eapply ends_mono; [apply IH; [apply K|]|].
  - intros x Hx. destruct (Hl x) as (f' & t' & H'); [set_solver|]. exists f', t'. by apply K.
  - intros [] s2 K2. by eapply keep_trans.
Qed.

Lemma SetPhaseMask_ok u in_phase s0 :
  wf s0 → sane s0 → live s0 u → returns (SetPhaseMask_references is_creature platform F u in_phase) s0 (λ _ s', stays s0 s').
Proof.
  intros W0 Sa0 Lu. unfold SetPhaseMask_references. apply ends_when; intros _; [|done]. step.
  eapply ends_mono with (P := λ _ s', stays s0 s').
  - revert W0 Sa0 Lu. hostile. step. eapply ends_mono; [by eapply source_ok|]. intros x s' [-> ->].
    apply ends_when; intros _; [|done]. destruct (wf_hates_facts _ _ _ _ _ W H) as (_ & Lt & _).
    eapply ends_mono; [by apply setOnlineOfflineState_one_ok|]. intros [] s' K. by apply keep_same.
  - intros [] s1 [W1 L1]. apply ends_when; intros _; [|done]. assert (live s1 u) by by apply L1. do 2 step.
    eapply ends_mono; [apply each_target_ok; [done|]|].
    + intros r Hr. rewrite merge_sort_Permutation in Hr. apply elem_of_app in Hr as [Hr|Hr].
      * apply (wf_online _ _ W1) in Hr as [t E%edge_hates]. eauto.
      * apply (wf_offline _ _ W1) in Hr as [t E%edge_hates]. eauto.
    + intros [] s2 K. eapply stays_trans; [done|by apply keep_stays].
Qed.

(** ** Clearing a manager *)

(** Between the deletion of references and that of the list that held them. *)
Record erasing (P : list Z) (s s' : state) : Prop := {
  er_refs r : refs s' !! r = if decide (r ∈ P) then None else refs s !! r;
  er_next : next_address s' = next_address s;
  er_live u : live s' u ↔ live s u;
  er_hostile u : hostile s' u = filter (λ x, x ∉ P) (hostile s u) }.
Definition manager_at (s : state) (u : Z) : ThreatManager := m_ThreatManager (unit_at s u).

Lemma clear_one_ok P r f t s s1 :
  wf s → erasing P s s1 → r ∉ P → hates s r f t →
  returns (unlink r;; delete_ref r) s1 (λ _ s2, erasing (r :: P) s s2 ∧ ∀ u, manager_at s2 u = manager_at s1 u).
Proof.
  intros W [E1 E2 E3 E4] Hr H. destruct (wf_hates_facts _ _ _ _ _ W H) as (_ & Lt & _).
  destruct H as (b & R & HR & H1 & H2 & H3 & H4 & H5). assert (live s1 t) as Lt1 by by apply E3.
  assert (refs s1 !! r = Some R) as HR1 by by rewrite E1, decide_False.
  unfold unlink, target, delink. do 4 step. rewrite H1. do 6 step. rewrite H3. do 3 step.
  set (s2 := upd_unit t _ s1). assert (refs s2 !! r = Some R) as HR2 by done. eapply returns_with_ref; [by apply lookup_upd_ref|].
  unfold delete_ref, delink. do 2 step. eapply returns_get_ref; [apply lookup_upd_ref; by apply lookup_upd_ref|].
  cbn [linked set_link set_linked]. do 2 step. split; [split|].
  - intros x. cbn. destruct (decide (x = r)) as [->|Hne].
    + rewrite lookup_delete_eq, decide_True by left. done.
    + rewrite lookup_delete_ne, !lookup_alter_ne by done. rewrite E1. apply decide_ext. clear -Hne. set_solver.
  - done.
  - intros u. trans (live s1 u); [by apply (live_upd t _ s1)|apply E3].
  - intros u. assert (hostile s1 u = filter (λ x, x ∉ P) (hostile s u)) as Hu by done.
    trans (filter (λ x, x ≠ r) (filter (λ x, x ∉ P) (hostile s u))).
    + rewrite <- Hu. destruct (decide (u = t)) as [->|Hne].
      * unfold s2. views. by rewrite decide_True.
      * rewrite filter_absent. { unfold s2. views. by rewrite decide_False. }
        rewrite Hu, list_elem_of_filter. intros [_ Hin]. apply (wf_hostile _ _ W) in Hin as (f' & b' & E').
        destruct (edge_fun s r f t b f' u b') as (_ & ? & _); [by exists R|done|done].
    + rewrite list_filter_filter. apply list_filter_iff. clear. set_solver.
  - intros u. unfold manager_at, s2. rewrite unit_at_set_refs, !unit_at_upd_ref, unit_at_upd. by case_decide; subst.
Qed.

Lemma clear_each_ok s l : wf s → ∀ P s1, erasing P s s1 → NoDup l → (∀ r, r ∈ l → (r ∉ P) ∧ ∃ f t, hates s r f t) →
  returns (clear_each l) s1 (λ _ s2, erasing (reverse l ++ P) s s2 ∧ ∀ u, manager_at s2 u = manager_at s1 u).
Proof.
  intros W. induction l as [|r l IH]; intros P s1 E Hnd Hl; [done|]. cbn [clear_each].
  apply NoDup_cons in Hnd as [Hr Hnd]. destruct (Hl r) as (HP & f & t & H); [by left|].
  apply returns_assoc. step.
  eapply ends_mono; [by eapply clear_one_ok|]. intros [] s2 [E2 M2].
  eapply ends_mono; [apply (IH (r :: P)); [done..|]|].
  - intros x Hx. destruct (Hl x) as [Hx' ?]; [by right|]. split; [|done]. clear -Hx Hr Hx'. set_solver.
  - intros [] s3 [E3 M3]. rewrite reverse_cons, <- app_assoc. split; [done|]. intros u. by rewrite M3.
Qed.

Lemma erasing_manager P s s1 u g :
  erasing P s s1 → live s1 u → erasing P s (upd_unit u (λ U, set_manager (g U) U) s1).
Proof.
  intros [E1 E2 E3 E4] L. split; try done.
  - intros v. rewrite <- E3. by apply live_upd.
  - intros v. rewrite <- E4. unfold hostile. rewrite unit_at_upd. by case_decide; subst.
Qed.
Lemma manager_at_upd u g s v :
  manager_at (upd_unit u (λ U, set_manager (g U) U) s) v = if decide (v = u) then g (unit_at s u) else manager_at s v.
Proof. unfold manager_at. rewrite unit_at_upd. by case_decide. Qed.

Lemma clearReferences_ok u s :
  wf s → live s u →
  returns (clearReferences u) s (λ _ s', gone (reverse (offline s u) ++ reverse (online s u)) s s' ∧ online s' u = [] ∧ offline s' u = []).
Proof.
  intros W Lu. unfold clearReferences, clear_online, clear_offline. do 4 step. fold (online s u).
  assert (erasing [] s s) as E0.
  { split; try done. intros v. symmetry. apply filter_disjoint. by intros ? _ ?%not_elem_of_nil. }
  eapply ends_mono; [apply (clear_each_ok s _ W [] s E0); [apply (wf_NoDup_online _ _ W)|]|].
  { intros r Hr. split; [by intros ?%not_elem_of_nil|]. apply (wf_online _ _ W) in Hr as [t E%edge_hates]. eauto. }
  intros [] s1 [E1 M1]. rewrite app_nil_r in E1. assert (live s1 u) as L1 by by apply E1. do 5 step.
  match goal with |- returns _ ?x _ => set (s2 := x) end.
  assert (erasing (reverse (online s u)) s s2) as E2 by by apply erasing_manager.
  assert (iThreatList (iThreatOfflineContainer (m_ThreatManager (unit_at s2 u))) = offline s u) as ->.
  { change (m_ThreatManager (unit_at s2 u)) with (manager_at s2 u). unfold s2. rewrite manager_at_upd, decide_True by done.
    cbn. by rewrite (M1 u : m_ThreatManager _ = _). }
  eapply ends_mono; [apply (clear_each_ok s _ W _ s2 E2); [apply (wf_NoDup_offline _ _ W)|]|].
  { intros r Hr. apply (wf_offline _ _ W) in Hr as [t E]. split; [|by eauto using edge_hates]. rewrite elem_of_reverse.
    intros Hr. apply (wf_online _ _ W) in Hr as [t' E']. by destruct (edge_fun _ _ _ _ _ _ _ _ E E') as (_ & _ & ?). }
  intros [] s3 [E3 M3]. assert (live s3 u) as L3 by by apply E3. do 2 step.
  match goal with |- gone ?P _ ?x ∧ _ => set (s4 := x); set (Q := P) in * end.
  assert (erasing Q s s4) as [F1 F2 F3 F4] by (apply erasing_manager; [by apply erasing_manager|by apply live_upd_2]).
  assert (∀ v, manager_at s4 v = if decide (v = u) then mkManager None THREAT_UPDATE_INTERVAL (mkContainer [] (iDirty (iThreatContainer (manager_at s u)))) (mkContainer [] (iDirty (iThreatOfflineContainer (manager_at s u)))) else manager_at s v) as M4.
  { intros v. unfold s4. rewrite manager_at_upd. destruct (decide (v = u)) as [->|Hv].
    - change (m_ThreatManager (unit_at ?x ?y)) with (manager_at x y). rewrite manager_at_upd, decide_True by done.
      change (m_ThreatManager (unit_at ?x ?y)) with (manager_at x y). rewrite M3. unfold s2.
      rewrite manager_at_upd, decide_True by done. change (m_ThreatManager (unit_at ?x ?y)) with (manager_at x y). by rewrite M1.
    - rewrite manager_at_upd, decide_False, M3 by done. unfold s2. by rewrite manager_at_upd, decide_False, M1 by done. }
  assert (∀ x, x ∈ Q ↔ ∃ t, hates s x u t) as HQ.
  { intros x. unfold Q. rewrite elem_of_app, !elem_of_reverse, (wf_online _ _ W), (wf_offline _ _ W). unfold hates.
    split; [intros [[t ?]|[t ?]]; eauto|intros [t [[] ?]]; eauto]. }
  split; [|split; [change (iThreatList (iThreatContainer (manager_at s4 u)) = [])|change (iThreatList (iThreatOfflineContainer (manager_at s4 u)) = [])]; by rewrite M4, decide_True].
  apply wf_erase; try done.
  - intros r f t b. unfold edge. rewrite F1. case_decide; naive_solver.
  - intros r. rewrite F1. case_decide; [by intros []|done].
  - intros v. change (iThreatList (iThreatContainer (manager_at s4 v)) = filter (λ x, x ∉ Q) (online s v)). rewrite M4. case_decide as Hv.
    + subst v. symmetry. apply filter_within. intros x Hx. apply HQ. apply (wf_online _ _ W) in Hx as [t ?]. exists t. by exists true.
    + symmetry. apply filter_disjoint. intros x Hx Hin. apply HQ in Hin as [t H]. apply (wf_online _ _ W) in Hx as [t' E'%edge_hates].
      by destruct (hates_fun _ _ _ _ _ _ H E').
  - intros v. change (iThreatList (iThreatOfflineContainer (manager_at s4 v)) = filter (λ x, x ∉ Q) (offline s v)). rewrite M4. case_decide as Hv.
    + subst v. symmetry. apply filter_within. intros x Hx. apply HQ. apply (wf_offline _ _ W) in Hx as [t ?]. exists t. by exists false.
    + symmetry. apply filter_disjoint. intros x Hx Hin. apply HQ in Hin as [t H]. apply (wf_offline _ _ W) in Hx as [t' E'%edge_hates].
      by destruct (hates_fun _ _ _ _ _ _ H E').
  - intros v x. change (iCurrentVictim (manager_at s4 v) = Some x → victim s v = Some x ∧ (x ∉ Q)). rewrite M4. case_decide as Hv; [done|].
    intros Hx. split; [done|]. intros Hin. apply HQ in Hin as [t H]. apply (wf_victim _ _ W) in Hx.
    apply (wf_online _ _ W) in Hx as [t' E'%edge_hates]. by destruct (hates_fun _ _ _ _ _ _ H E').
Qed.

Lemma gone_stays P s s' : gone P s s' → stays s s'.
Proof. intros G. split; apply G. Qed.

Lemma DeleteThreatList_ok u s :
  wf s → live s u → returns (DeleteThreatList is_creature F u) s (λ _ s', stays s s').
Proof.
  intros W Lu. unfold DeleteThreatList. do 3 step.
  eapply ends_mono with (P := λ _, only_sent s); [apply ends_when; intros _; [unfold SendClearThreatListOpcode; step; by eexists|by exists (sent s); destruct s]|].
  intros [] s1 Q%only_sent_quiet. pose proof (quiet_wf _ _ _ Q W) as W1.
  eapply ends_mono; [apply clearReferences_ok; [done|by apply Q]|]. intros [] s2 (G & _).
  eapply stays_trans; [by apply quiet_stays|by eapply gone_stays].
Qed.

Lemma Unit_AddThreat_ok u v threat mask sp s :
  wf s → sane s → live s u → live s v → returns (AddThreat is_creature platform F u v threat mask sp) s (λ _ s', stays s s').
Proof.
  intros W Sa Lu Lv. unfold AddThreat. apply ends_when; intros Hc; [|done].
  apply andb_true_iff in Hc as [[Hc _]%andb_true_iff _]. eapply ends_mono; [by apply AddThreat_ok|].
  intros [] s'. apply grow_stays.
Qed.

(** ** Units *)

Lemma wf_new_unit u s :
  wf s → ¬ live s u → returns (new_unit u) s (λ _ s', wf s' ∧ ∀ v, live s' v ↔ v = u ∨ live s v).
Proof.
  intros W Hu. unfold new_unit. step. set (s' := set_units _ s).
  assert (∀ v, unit_at s' v = unit_at s v) as Hat.
  { intros v. unfold unit_at, s'. cbn. destruct (decide (v = u)) as [->|]; [|by rewrite lookup_insert_ne by done].
    rewrite lookup_insert_eq. unfold live in Hu. destruct (units s !! u) eqn:E; [|done]. destruct Hu. eauto. }
  assert (∀ v, live s' v ↔ v = u ∨ live s v) as Hl.
  { intros v. unfold live, s'. cbn. destruct (decide (v = u)) as [->|].
    - rewrite lookup_insert_eq. naive_solver.
    - rewrite lookup_insert_ne by done. naive_solver. }
  split; [|done]. destruct W as [W1 W2 W3 W4 W5 W6 W7 W8 W9].
  split; unfold online, offline, hostile, victim; intros; rewrite ?Hat in *; eauto.
  - destruct (W1 _ _ H) as (f & t & b & ? & ? & ? & ? & ?). exists f, t, b. rewrite !Hl. auto 10.
Qed.

Lemma clear_hostile_nil n u s : live s u → hostile s u = [] → returns (clear_hostile platform n u) s (λ _ s', s' = s).
Proof. intros Lu Hu. destruct n; cbn [clear_hostile]; do 2 step; fold (hostile s u); by rewrite Hu. Qed.
Lemma clear_offline_nil u s : live s u → offline s u = [] → returns (clear_offline u) s (λ _, quiet s).
Proof.
  intros Lu Hu. unfold clear_offline. do 3 step. fold (offline s u). rewrite Hu. cbn [clear_each]. do 2 step.
  apply quiet_upd_unit; [done| |done]. cbn. split_and!; auto.
Qed.
Lemma clear_online_nil u s : live s u → online s u = [] → returns (clear_online u) s (λ _, quiet s).
Proof.
  intros Lu Hu. unfold clear_online. do 3 step. fold (online s u). rewrite Hu. cbn [clear_each]. do 2 step.
  apply quiet_upd_unit; [done| |done]. cbn. split_and!; auto.
Qed.

Lemma wf_delete_unit u s :
  wf s → online s u = [] → offline s u = [] → hostile s u = [] →
  let s' := set_units (delete u (units s)) s in wf s' ∧ ∀ v, live s' v ↔ v ≠ u ∧ live s v.
Proof.
  intros W On Off Ho s'.
  assert (∀ v, online s' v = online s v ∧ offline s' v = offline s v ∧ hostile s' v = hostile s v) as Hat.
  { intros v. unfold online, offline, hostile, unit_at, s'. cbn. destruct (decide (v = u)) as [->|].
    - rewrite lookup_delete_eq. by rewrite <- On, <- Off, <- Ho at 1.
    - by rewrite lookup_delete_ne by done. }
  assert (∀ v, live s' v ↔ v ≠ u ∧ live s v) as Hl.
  { intros v. unfold live, s'. cbn. rewrite lookup_delete_is_Some. naive_solver. }
  split; [|done]. split.
  - intros r R H. destruct (wf_edge _ _ W r R H) as (f & t & b & HR & ? & ? & ? & ?). exists f, t, b. rewrite !Hl.
    assert (edge s r f t b) as E by by exists R. split_and!; try done; intros ->.
    + destruct b.
      * assert (r ∈ online s u) as Hin by (apply (wf_online _ _ W); eauto). rewrite On in Hin. by apply not_elem_of_nil in Hin.
      * assert (r ∈ offline s u) as Hin by (apply (wf_offline _ _ W); eauto). rewrite Off in Hin. by apply not_elem_of_nil in Hin.
    + assert (r ∈ hostile s u) as Hin by (apply (wf_hostile _ _ W); eauto using edge_hates). rewrite Ho in Hin. by apply not_elem_of_nil in Hin.
  - intros v r. destruct (Hat v) as (-> & _ & _). apply (wf_online _ _ W).
  - intros v r. destruct (Hat v) as (_ & -> & _). apply (wf_offline _ _ W).
  - intros v r. destruct (Hat v) as (_ & _ & ->). apply (wf_hostile _ _ W).
  - intros v. destruct (Hat v) as (-> & _ & _). apply (wf_NoDup_online _ _ W).
  - intros v. destruct (Hat v) as (_ & -> & _). apply (wf_NoDup_offline _ _ W).
  - intros v. destruct (Hat v) as (_ & _ & ->). apply (wf_NoDup_hostile _ _ W).
  - intros v r. destruct (Hat v) as (-> & _ & _). intros Hv. apply (wf_victim _ _ W). unfold victim, unit_at, s' in *. cbn in Hv.
    destruct (decide (v = u)) as [->|]; [by rewrite lookup_delete_eq in Hv|by rewrite lookup_delete_ne in Hv].
  - intros r r' f t. apply (wf_unique _ _ W).
Qed.

Lemma delete_unit_ok u s :
  wf s → live s u → returns (delete_unit platform u) s (λ _ s', wf s' ∧ ∀ v, live s' v ↔ v ≠ u ∧ live s v).
Proof.
  intros W Lu. unfold delete_unit. step. eapply ends_mono; [by apply deleteReferences_ok|].
  intros [] s1 [[W1 L1] H1]. assert (live s1 u) as Lu1 by by apply L1. do 3 step.
  eapply ends_mono; [by apply clear_hostile_nil|]. intros [] s' ->.
  step. eapply ends_mono; [by apply clearReferences_ok|]. intros [] s2 (G & On & Off).
  assert (live s2 u) as Lu2 by by apply G. assert (hostile s2 u = []) as Ho2 by (rewrite (gone_hostile _ _ _ G), H1; done).
  step. eapply ends_mono; [by apply clear_offline_nil|]. intros [] s3 Q3.
  step. eapply ends_mono; [apply clear_online_nil; [by apply Q3|by rewrite (quiet_online _ _ Q3)]|]. intros [] s4 Q4.
  assert (quiet s2 s4) as Q by by transitivity s3.
  step. destruct (wf_delete_unit u s4) as [W5 L5]; [eapply quiet_wf; [done|apply G]|by rewrite (quiet_online _ _ Q)|by rewrite (quiet_offline _ _ Q)|by rewrite (quiet_hostile _ _ Q)|].
  split; [done|]. intros v. by rewrite L5, (quiet_live _ _ Q), (gone_live _ _ _ G), L1.
Qed.

End facts.
End ops.
