(* ===== verification/ThreatProps.v ===== *)
(** * ThreatProps: threat lists never dangle, and who is attacked. *)
From S2P Require Import Prelude Float32 Threat ThreatLists.
From stdpp Require Import gmap sorting.
From Stdlib Require Import SpecFloat.
Open Scope Z_scope.

(** ** Calls, one after the other *)

Inductive call :=
| cAddThreat (u victim fThreat mask : Z) (sp : option Spell)
| cDeleteThreatList (u : Z)
| cModifyThreatPercent (u victim percent : Z)
| cSelectVictim (u : Z)
| cTauntApply (u taunter : Z)
| cTauntFadeOut (u taunter : Z)
| cEffectTaunt (u caster : Z)
| cResetAllAggro (u : Z)
| cResetAggro (u : Z) (predicate : Z → bool)
| cUpdate (u time : Z)
| cThreatAssist (u victim base : Z) (sp : option Spell)
| cAddTempThreat (u threat : Z) (apply : bool)
| cAddThreatPercent (u percent : Z)
| cSetOnlineOfflineState (u : Z) (b : bool)
| cSetOnlineOfflineState_one (u creature : Z) (b : bool)
| cUpdateThreatTables (u : Z)
| cDeleteReferences (u : Z)
| cDeleteReferencesForFaction (u fac : Z)
| cDeleteReference (u creature : Z)
| cUpdateVisibility (u : Z)
| cSetPhaseMask (u : Z) (in_phase : Z → bool).

(** The units that the caller hands over. *)
Definition call_units (c : call) : list Z :=
  match c with
  | cAddThreat u v _ _ _ | cModifyThreatPercent u v _ | cTauntApply u v | cTauntFadeOut u v | cEffectTaunt u v
  | cThreatAssist u v _ _ => [u; v]
  | cDeleteThreatList u | cSelectVictim u | cResetAllAggro u | cResetAggro u _ | cUpdate u _ | cAddTempThreat u _ _
  | cAddThreatPercent u _ | cSetOnlineOfflineState u _ | cSetOnlineOfflineState_one u _ _ | cUpdateThreatTables u
  | cDeleteReferences u | cDeleteReferencesForFaction u _ | cDeleteReference u _ | cUpdateVisibility u
  | cSetPhaseMask u _ => [u]
  end.

Section exec.
Context (is_creature : Z → bool) (platform : Z → Z).

Definition exec_call (F : Facts) (c : call) : X state unit :=
  match c with
  | cAddThreat u v x m sp => AddThreat is_creature platform F u v x m sp
  | cDeleteThreatList u => DeleteThreatList is_creature F u
  | cModifyThreatPercent u v p => manager_modifyThreatPercent is_creature platform F u v p
  | cSelectVictim u => SelectVictim_threat is_creature platform F u;; mret tt
  | cTauntApply u v => tauntApply is_creature platform F u v
  | cTauntFadeOut u v => tauntFadeOut is_creature platform F u v
  | cEffectTaunt u v => EffectTaunt_threat is_creature platform F u v
  | cResetAllAggro u => resetAllAggro is_creature platform F u
  | cResetAggro u p => resetAggro is_creature platform F u p
  | cUpdate u t => Update_threat is_creature platform F u t
  | cThreatAssist u v x sp => threatAssist is_creature platform F u v x sp
  | cAddTempThreat u x b => addTempThreat is_creature platform F u x b
  | cAddThreatPercent u p => addThreatPercent is_creature platform F u p
  | cSetOnlineOfflineState u b => setOnlineOfflineState_all platform u b
  | cSetOnlineOfflineState_one u c b => setOnlineOfflineState_one platform u c b
  | cUpdateThreatTables u => updateThreatTables is_creature platform F u
  | cDeleteReferences u => deleteReferences platform u
  | cDeleteReferencesForFaction u f => deleteReferencesForFaction platform F u f
  | cDeleteReference u c => deleteReference platform u c
  | cUpdateVisibility u => UpdateVisibility platform F u
  | cSetPhaseMask u p => SetPhaseMask_references is_creature platform F u p
  end.

Inductive event := NewUnit (u : Z) | DeleteUnit (u : Z) | Call (F : Facts) (c : call).

Definition exec (e : event) : X state unit :=
  match e with NewUnit u => new_unit u | DeleteUnit u => delete_unit platform u | Call F c => exec_call F c end.
Fixpoint run (es : list event) : X state unit := match es with [] => mret tt | e :: es => exec e;; run es end.

(** Units are made once, and callers and facts know existing units only. *)
Fixpoint fine (L : gset Z) (es : list event) : Prop :=
  match es with
  | [] => True
  | NewUnit u :: es => (u ∉ L) ∧ fine ({[u]} ∪ L) es
  | DeleteUnit u :: es => u ∈ L ∧ fine (L ∖ {[u]}) es
  | Call F c :: es => fine_facts F (λ u, u ∈ L) ∧ Forall (λ u, u ∈ L) (call_units c) ∧ fine L es
  end.

Lemma init_wf : wf is_creature init.
Proof.
  assert (∀ r, refs init !! r = None) as Hr by (intros; apply lookup_empty).
  assert (∀ r f t b, ¬ edge init r f t b) as He by (intros r f t b (R & H & _); by rewrite Hr in H).
  assert (∀ u, unit_at init u = nobody) as Hu by (intros; unfold unit_at; cbn; by rewrite lookup_empty).
  split.
  - intros r R H. by rewrite Hr in H.
  - intros u r. unfold online. rewrite Hu. cbn. split; [by intros ?%not_elem_of_nil|intros [t E]; by apply He in E].
  - intros u r. unfold offline. rewrite Hu. cbn. split; [by intros ?%not_elem_of_nil|intros [t E]; by apply He in E].
  - intros u r. unfold hostile. rewrite Hu. cbn. split; [by intros ?%not_elem_of_nil|intros (t & b & E); by apply He in E].
  - intros u. unfold online. rewrite Hu. constructor.
  - intros u. unfold offline. rewrite Hu. constructor.
  - intros u. unfold hostile. rewrite Hu. constructor.
  - intros u r. unfold victim. by rewrite Hu.
  - intros r r' f t [b E]. by apply He in E.
Qed.

Lemma exec_call_ok F c s :
  wf is_creature s → fine_facts F (live s) → Forall (live s) (call_units c) →
  returns (exec_call F c) s (λ _ s', stays is_creature s s').
Proof.
  intros W (S1 & S2 & rank & Hmax & Hrank) Hc. assert (sane F s) as Sa by done.
  destruct c; cbn [call_units exec_call] in *; repeat (apply Forall_cons in Hc as [? Hc]).
  - by eapply Unit_AddThreat_ok.
  - by eapply DeleteThreatList_ok.
  - by eapply modifyThreatPercent_ok.
  - apply ends_bind. eapply ends_mono; [by eapply SelectVictim_ok|]. done.
  - by eapply tauntApply_ok.
  - by eapply tauntFadeOut_ok.
  - by eapply EffectTaunt_ok.
  - by eapply resetAllAggro_ok.
  - by eapply resetAggro_ok.
  - by eapply Update_ok.
  - by eapply threatAssist_ok.
  - by eapply addTempThreat_all_ok.
  - by eapply addThreatPercent_all_ok.
  - by eapply setOnlineOfflineState_all_ok.
  - eapply ends_mono; [by eapply setOnlineOfflineState_one_ok|]. intros [] s' K. by eapply keep_stays.
  - by eapply updateThreatTables_ok.
  - eapply ends_mono; [by eapply deleteReferences_ok|]. by intros [] s' [? _].
  - eapply for_hostile_saved_ok; try done. eapply (may_drop_if _ _ _ _ (λ src, faction F src =? fac)).
  - by eapply deleteReference_ok.
  - eapply for_hostile_saved_ok; try done. eapply (may_drop_if _ _ _ _ (λ src, negb (CanSeeOrDetect F src u))).
  - by eapply SetPhaseMask_ok.
    Unshelve. all: first [exact rank|done].
Qed.

Lemma run_fine es : ∀ s L, wf is_creature s → (∀ u, live s u ↔ u ∈ L) → fine L es →
  ∃ s', run es s = (Ok tt, s') ∧ wf is_creature s'.
Proof.
  assert (∀ e es s Q, returns (exec e) s Q → (∀ s', Q tt s' → ∃ s2, run es s' = (Ok tt, s2) ∧ wf is_creature s2) →
    ∃ s2, run (e :: es) s = (Ok tt, s2) ∧ wf is_creature s2) as Hcons.
  { intros e es' s Q. unfold ends. cbn [run]. destruct (exec e s) as [[[]|x] s'] eqn:E; [|done]. intros HQ Hk.
    destruct (Hk _ HQ) as (s2 & Hrun & W2). exists s2. split; [|done]. by erewrite bindX_Ok by done. }
  induction es as [|e es IH]; intros s L W HL Hf; [by exists s|]. destruct e as [u|u|F c]; cbn in Hf.
  - destruct Hf as [Hu Hf]. eapply Hcons; [apply (wf_new_unit is_creature platform); [done|by intros ?%HL]|].
    intros s' [W' L']. apply (IH s' ({[u]} ∪ L)); [done| |done]. intros v. rewrite L', HL. set_solver.
  - destruct Hf as [Hu Hf]. eapply Hcons; [apply delete_unit_ok; [done|by apply HL]|].
    intros s' [W' L']. apply (IH s' (L ∖ {[u]})); [done| |done]. intros v. rewrite L', HL. set_solver.
  - destruct Hf as (HF & Hc & Hf). eapply Hcons; [apply exec_call_ok; [done| |]|].
    + destruct HF as (H1 & H2 & H3). split_and!; [..|done]; intros u o; rewrite !HL; eauto.
    + eapply Forall_impl; [done|]. intros u. by rewrite HL.
    + intros s' [W' L']. apply (IH s' L); [done| |done]. intros u. by rewrite L'.
Qed.

(** C12. Whatever units appear and vanish and whatever is called on their threat and hostile
    reference managers, as long as callers and facts name existing units and nobody is an owner
    of himself: every call returns, no dangling pointer is followed and no assertion fails; and
    every reference is in the list of its source that fits its state and in the list of its
    target, both of which exist, nobody is hated twice by the same creature, and the victim of
    a creature is among the units it can reach. *)
Theorem threat_lists_sound es :
  fine ∅ es → ∃ s, run es init = (Ok tt, s) ∧ wf is_creature s.
Proof.
  intros Hf. eapply run_fine; [apply init_wf| |done]. intros u. unfold live. cbn. rewrite lookup_empty.
  split; [by intros []|set_solver].
Qed.

End exec.

(** ** Whom a creature attacks *)

(** The order of floats that are numbers. *)
Definition is_nan (x : Z) : bool := match f32_decode x with S754_nan => true | _ => false end.
Definition key_of (f : spec_float) : Z :=
  match f with
  | S754_finite s m e => (if s then -1 else 1) * ((e + 150) * 2 ^ 24 + Z.pos m)
  | S754_infinity s => (if s then -1 else 1) * 2 ^ 40
  | _ => 0
  end.
Definition key (x : Z) : Z := key_of (f32_decode x).
Definition bounded_float (f : spec_float) : Prop :=
  match f with S754_finite _ m e => Z.pos m < 2 ^ 24 ∧ -150 < e < 256 | _ => True end.

Lemma f32_decode_bounded x : bounded_float (f32_decode x).
Proof.
  unfold f32_decode. assert (0 ≤ Z.land x (2 ^ 23 - 1) < 2 ^ 23) as Hm.
  { change (2 ^ 23 - 1) with (Z.ones 23). rewrite Z.land_ones by lia. apply Z.mod_pos_bound. lia. }
  assert (0 ≤ Z.land (Z.shiftr x 23) 255 < 2 ^ 8) as He.
  { change 255 with (Z.ones 8). rewrite Z.land_ones by lia. apply Z.mod_pos_bound. lia. }
  generalize dependent (Z.land x (2 ^ 23 - 1)). generalize dependent (Z.land (Z.shiftr x 23) 255). intros e He m Hm.
  destruct (Z.eqb_spec e 0); [destruct m; cbn; lia|]. destruct (Z.eqb_spec e 255); [by case_match|].
  destruct (m + 2 ^ 23) eqn:Em; cbn; lia.
Qed.

Lemma SFcompare_key f g :
  bounded_float f → bounded_float g → f ≠ S754_nan → g ≠ S754_nan → SFcompare f g = Some (key_of f ?= key_of g).
Proof.
  intros Hf Hg Nf Ng.
  destruct f as [s|s| |s m e], g as [s'|s'| |s' m' e']; try done; cbn [SFcompare key_of bounded_float] in *.
  all: try (destruct s); try (destruct s'); f_equal; symmetry;
    try (apply Z.compare_lt_iff; lia); try (apply Z.compare_gt_iff; lia); try (apply Z.compare_eq_iff; lia).
  all: destruct (Z.compare_spec e e') as [->|H|H];
    [|first [apply Z.compare_lt_iff; lia|apply Z.compare_gt_iff; lia]..].
  all: change (Pos.compare_cont Eq m m') with (Z.pos m ?= Z.pos m');
    destruct (Z.compare_spec (Z.pos m) (Z.pos m')) as [[= ->]|H|H]; cbn [CompOpp];
    first [apply Z.compare_eq_iff; lia|apply Z.compare_lt_iff; lia|apply Z.compare_gt_iff; lia].
Qed.

Lemma f32_lt_key x y : is_nan x = false → is_nan y = false → f32_lt x y = (key x <? key y).
Proof.
  unfold is_nan, f32_lt, SFltb, key. intros Hx Hy.
  rewrite SFcompare_key; [unfold Z.ltb; by case_match|apply f32_decode_bounded..| |]; intros E; by rewrite E in *.
Qed.
Lemma f32_le_key x y : is_nan x = false → is_nan y = false → f32_le x y = (key x <=? key y).
Proof.
  unfold is_nan, f32_le, SFleb, key. intros Hx Hy.
  rewrite SFcompare_key; [unfold Z.leb; by case_match|apply f32_decode_bounded..| |]; intros E; by rewrite E in *.
Qed.
Lemma f32_le_nan x y : is_nan y = true → f32_le x y = false.
Proof. unfold is_nan, f32_le, SFleb. destruct (f32_decode y); try done. by destruct (f32_decode x). Qed.

Section choice.
Context (F : Facts) (u : Z) (s : state).

Definition threat_of (r : Z) : Z := match refs s !! r with Some R => iThreat R | None => 0 end.
Definition target_of (r : Z) : Z := match refs s !! r with Some R => default 0 (iRefTo R) | None => 0 end.
Definition attackable (r : Z) : bool := CanCreatureAttack F u (target_of r).
(** Not one that the creature would rather leave alone. *)
Definition preferred (r : Z) : bool := negb (second_choice F u (target_of r)).

(** At most 110 per cent of the victim's threat; more than 130, or 110 in melee. *)
Definition near (v r : Z) : bool := f32_le (threat_of r) (f32_mul f32_1_1 (threat_of v)).
Definition beats (v r : Z) : bool :=
  f32_lt (f32_mul f32_1_3 (threat_of v)) (threat_of r)
  || (f32_lt (f32_mul f32_1_1 (threat_of v)) (threat_of r) && IsWithinMeleeRange F u (target_of r)).
Definition challenges (v r : Z) : bool := attackable r && preferred r && negb (near v r) && beats v r.

(** The references in front of [v]. *)
Fixpoint before (v : Z) (l : list Z) : list Z :=
  match l with [] => [] | r :: l => if r =? v then [] else r :: before v l end.

(** Decreasing threat. *)
Definition ranked (l : list Z) : Prop := StronglySorted (λ a b, f32_lt (threat_of a) (threat_of b) = false) l.
Definition numbers (l : list Z) : Prop := ∀ r, r ∈ l → is_nan (threat_of r) = false.

Lemma sort_insert_ranked x l : numbers (x :: l) → ranked l → ranked (sort_insert threat_of x l).
Proof.
  intros Hn Hr. induction Hr as [|y l Hr IH Hy]; cbn [sort_insert]; [repeat constructor|].
  assert (is_nan (threat_of x) = false) as Nx by (apply Hn; by left).
  assert (is_nan (threat_of y) = false) as Ny by (apply Hn; right; by left).
  destruct (f32_lt (threat_of x) (threat_of y)) eqn:E.
  - constructor; [apply IH; intros z [->|Hz]%elem_of_cons; apply Hn; [by left|right; by right]|].
    rewrite Forall_forall in *. intros z. rewrite sort_insert_perm, elem_of_cons. intros [->|Hz]; [|auto].
    rewrite f32_lt_key in * by done. apply Z.ltb_ge. apply Z.ltb_lt in E. lia.
  - constructor; [by constructor|]. constructor; [done|]. rewrite Forall_forall in *. intros z Hz.
    assert (is_nan (threat_of z) = false) as Nz by (apply Hn; right; by right). specialize (Hy z Hz).
    rewrite f32_lt_key in * by done. apply Z.ltb_ge. apply Z.ltb_ge in E, Hy. lia.
Qed.
Lemma threat_sort_ranked l : numbers l → ranked (threat_sort threat_of l).
Proof.
  induction l as [|x l IH]; intros Hn; cbn [threat_sort foldr]; [constructor|].
  apply sort_insert_ranked; [|apply IH; intros z Hz; apply Hn; by right].
  intros z. rewrite elem_of_cons. fold (threat_sort threat_of l). rewrite threat_sort_perm, <- elem_of_cons. apply Hn.
Qed.

(** What the loop of [selectNextVictim] stops at, and what it makes of it. *)
Definition stops (cur : option Z) (r : Z) : bool :=
  attackable r && preferred r && match cur with None => true | Some v => (v =? r) || near v r || beats v r end.
Definition chosen (cur : option Z) (r : Z) : Z :=
  match cur with Some v => if (v =? r) || near v r then if attackable v then v else r else r | None => r end.

Definition good (r : Z) : Prop := ∃ R t, refs s !! r = Some R ∧ iRefTo R = Some t ∧ live s t.

Lemma select_from_spec cur again l :
  (∀ r, r ∈ l → good r) → (∀ v, cur = Some v → good v ∧ preferred v = true) →
  select_from F u false l cur again s =
    match find (stops cur) l with
    | Some r => (Ok (Some (chosen cur r)), s)
    | None => if match last l with Some r => preferred r | None => true end then (Ok None, s) else again cur s
    end.
Proof.
  intros Hl Hcur. induction l as [|r l IH]; [done|]. cbn [select_from find].
  destruct (Hl r) as (R & t & HR & Ht & [U HU]); [by left|].
  assert (threat_of r = iThreat R) as Th by (unfold threat_of; by rewrite HR).
  assert (target_of r = t) as Tg by (unfold target_of; by rewrite HR, Ht).
  assert (get_ref r s = (Ok R, s)) as Gr by (unfold get_ref, mbind, X_bind, getX; by rewrite HR).
  assert (get_unit t s = (Ok U, s)) as Gu by (unfold get_unit, mbind, X_bind, getX; by rewrite HU).
  rewrite (bindX_Ok _ _ _ _ _ Gr), Ht. erewrite bindX_Ok; [|by erewrite bindX_Ok by exact Gu].
  specialize (IH (λ r' Hr', Hl r' (list_elem_of_further _ _ _ Hr'))).
  unfold stops at 1. unfold preferred at 1, attackable at 1. rewrite Tg. cbn [negb andb].
  destruct (second_choice F u t) eqn:Esc; cbn [negb andb].
  - rewrite andb_false_r. cbn [andb]. destruct l as [|r' l]; [cbn; unfold preferred; by rewrite Tg, Esc|].
    rewrite bool_decide_eq_false_2; [|intros ->; destruct (Hcur r eq_refl) as [_ Hp]; unfold preferred in Hp; by rewrite Tg, Esc in Hp].
    rewrite IH. done.
  - rewrite andb_true_r.
    assert (select_from F u false l cur again s =
      match find (stops cur) l with
      | Some r => (Ok (Some (chosen cur r)), s)
      | None => if match last (r :: l) with Some r => preferred r | None => true end then (Ok None, s) else again cur s
      end) as IH'.
    { destruct l as [|r' l]; [cbn; unfold preferred; by rewrite Tg, Esc|]. exact IH. }
    destruct (CanCreatureAttack F u t) eqn:Eat; cbn [andb]; [|exact IH'].
    destruct cur as [v|]; [|done].
    destruct (Hcur v eq_refl) as [(V & tv & HV & Htv & [UV HUV]) _].
    assert (threat_of v = iThreat V) as Thv by (unfold threat_of; by rewrite HV).
    assert (target_of v = tv) as Tgv by (unfold target_of; by rewrite HV, Htv).
    erewrite bindX_Ok by (unfold get_ref, mbind, X_bind, getX; by rewrite HV).
    assert (near v r = f32_le (iThreat R) (f32_mul f32_1_1 (iThreat V))) as Hn by (unfold near; by rewrite Th, Thv).
    assert (beats v r = f32_lt (f32_mul f32_1_3 (iThreat V)) (iThreat R)
      || (f32_lt (f32_mul f32_1_1 (iThreat V)) (iThreat R) && IsWithinMeleeRange F u t)) as Hb by (unfold beats; by rewrite Th, Thv, Tg).
    rewrite <- Hn, <- Hb. destruct (Z.eqb_spec v r) as [->|Hne]; cbn [orb].
    + unfold chosen. by rewrite Z.eqb_refl; destruct (attackable r).
    + destruct (near v r) eqn:En; cbn [orb].
      * unfold target. erewrite bindX_Ok; [|erewrite bindX_Ok by (unfold get_ref, mbind, X_bind, getX; by rewrite HV); rewrite Htv; erewrite bindX_Ok; [done|unfold get_unit, mbind, X_bind, getX; by rewrite HUV]].
        unfold chosen. rewrite En, orb_true_r. unfold attackable. by rewrite Tgv.
      * destruct (beats v r) eqn:Eb; [|exact IH']. unfold chosen. by rewrite En, (proj2 (Z.eqb_neq v r) Hne).
Qed.

Lemma ranked_near v r l :
  numbers (r :: l) → ranked (r :: l) → near v r = true → ∀ x, x ∈ l → near v x = true.
Proof.
  unfold near. intros Hn Hr Hnear x Hx. apply StronglySorted_inv in Hr as [_ Hr]. rewrite Forall_forall in Hr. specialize (Hr x Hx).
  destruct (is_nan (f32_mul f32_1_1 (threat_of v))) eqn:En; [by rewrite f32_le_nan in Hnear|].
  assert (is_nan (threat_of r) = false) by (apply Hn; by left). assert (is_nan (threat_of x) = false) by (apply Hn; by right).
  rewrite f32_le_key in * by done. rewrite f32_lt_key in Hr by done. apply Z.leb_le. apply Z.leb_le in Hnear. apply Z.ltb_ge in Hr. lia.
Qed.

Lemma elem_of_before v x l : x ∈ before v l → x ∈ l.
Proof. induction l as [|r l IH]; cbn; [done|]. case_match; [by intros ?%not_elem_of_nil|]. rewrite !elem_of_cons. naive_solver. Qed.
Lemma find_none (f : Z → bool) l : (∀ x, x ∈ l → f x = false) → find f l = None.
Proof. induction l as [|x l IH]; intros H; [done|]. cbn. rewrite H by by left. apply IH. intros y Hy. apply H. by right. Qed.

(** A victim that can be attacked stays, unless somebody ahead of it challenges it. *)
Lemma stops_victim v l :
  numbers l → ranked l → v ∈ l → attackable v = true → preferred v = true →
  chosen (Some v) <$> find (stops (Some v)) l = Some (default v (find (challenges v) (before v l))).
Proof.
  intros Hn Hr Hv Ha Hp. induction l as [|r l IH]; [by apply not_elem_of_nil in Hv|]. cbn [find before].
  rewrite Z.eqb_sym. destruct (Z.eqb_spec v r) as [<-|Hne].
  { unfold stops. rewrite Ha, Hp, Z.eqb_refl. cbn. unfold chosen. by rewrite Z.eqb_refl, Ha. }
  assert (v ∈ l) as Hvl by (apply elem_of_cons in Hv as [|]; done). assert (numbers l) as Hnl by (intros x Hx; apply Hn; by right).
  pose proof Hr as Hr'. apply StronglySorted_inv in Hr' as [Hrl _]. specialize (IH Hnl Hrl Hvl).
  unfold stops at 1. rewrite (proj2 (Z.eqb_neq v r) Hne). cbn [orb find]. unfold challenges at 1.
  destruct (attackable r && preferred r); cbn [andb]; [|exact IH].
  destruct (near v r) eqn:En; cbn [orb negb andb].
  - rewrite find_none. { cbn. unfold chosen. by rewrite En, orb_true_r, Ha. }
    intros x Hx. unfold challenges. by rewrite (ranked_near v r l Hn Hr En x (elem_of_before _ _ _ Hx)), andb_false_r.
  - destruct (beats v r); [|exact IH]. cbn. unfold chosen. by rewrite En, (proj2 (Z.eqb_neq v r) Hne).
Qed.

End choice.

(** The choice, given the list; the state without the order of the list and the dirty flag. *)
Lemma selectNextVictim_spec is_creature F u s l cur :
  wf is_creature s → l ≠ [] → (∀ r, r ∈ l → r ∈ online s u) →
  (∀ v, cur = Some v → v ∈ online s u ∧ preferred F u s v = true) →
  match find (stops F u s cur) l with
  | Some r => selectNextVictim F u l cur s = (Ok (Some (chosen F u s cur r)), s)
  | None => (∀ r, last l = Some r → preferred F u s r = true) → selectNextVictim F u l cur s = (Ok None, s)
  end.
Proof.
  intros W Hne Hl Hcur.
  assert (∀ r, r ∈ online s u → good s r) as Hgood.
  { intros r Hr. apply (wf_online _ _ W) in Hr as [t E]. destruct (wf_edge_facts _ _ _ _ _ _ W E) as (_ & ? & _).
    destruct E as (R & ? & ? & _). by exists R, t. }
  unfold selectNextVictim. destruct l as [|x l]; [done|]. rewrite select_from_spec.
  - destruct (find _ _); [done|]. intros Hlast. destruct (last (x :: l)); [by rewrite Hlast|done].
  - auto.
  - intros v Hv. destruct (Hcur v Hv). auto.
Qed.

Lemma update_eq is_creature u s :
  wf is_creature s → live s u → iDirty (iThreatContainer (m_ThreatManager (unit_at s u))) = true →
  ∃ us, let s1 := set_units us s in update u s = (Ok tt, s1) ∧ keep is_creature s s1 ∧
    online s1 u = threat_sort (threat_of s) (online s u) ∧ victim s1 u = victim s u.
Proof.
  intros W Lu Hd. pose proof (update_ok is_creature u s W Lu) as Hok.
  assert (returns (update u) s (λ _ s1, ∃ us, s1 = set_units us s ∧ online s1 u = threat_sort (threat_of s) (online s u) ∧ victim s1 u = victim s u)) as Hc.
  { unfold update. do 3 step. eexists. split; [done|]. unfold online, victim. rewrite !unit_at_upd, decide_True by done. cbn. by rewrite Hd. }
  unfold ends in *. destruct (update u s) as [[[]|] s1]; [|done]. destruct Hok as [K _], Hc as (us & -> & H1 & H2). by exists us.
Qed.

Lemma returns_elim {A} (m : X state A) s Q : returns m s Q → ∃ a s', m s = (Ok a, s') ∧ Q a s'.
Proof. unfold ends. destruct (m s) as [[a|] s']; [eauto|done]. Qed.

(** The choice is all that decides the new victim. *)
Lemma getHostilTarget_choice is_creature platform F u s us :
  let s1 := set_units us s in
  is_creature u = true → update u s = (Ok tt, s1) → wf is_creature s1 → live s1 u → online s1 u ≠ [] →
  ∃ p o s', selectNextVictim F u (online s1 u) (victim s1 u) s1 = (Ok p, s1) ∧
    getHostilTarget is_creature platform F u s = (Ok o, s') ∧ victim s' u = p ∧ online s' u = online s1 u ∧ o = target_of s <$> p.
Proof.
  intros s1 Hc Hup W1 L1 Hne.
  destruct (returns_elim _ _ _ (selectNextVictim_ok is_creature F u (online s1 u) (victim s1 u) s1 W1 Hne (λ _ H, H) (wf_victim _ _ W1 u)))
    as (p & s2 & Hsel & -> & Hp).
  assert (returns (getHostilTarget is_creature platform F u) s
    (λ o s', victim s' u = p ∧ online s' u = online s1 u ∧ o = target_of s <$> p)) as Hret.
  { unfold getHostilTarget. step. unfold ends at 1. rewrite Hup. do 3 step. rewrite Hc.
    unfold ends at 1. change (m_ThreatManager (unit_at s1 u)) with (manager_at s1 u) in *.
    change (iThreatList (iThreatContainer (manager_at s1 u))) with (online s1 u). change (iCurrentVictim (manager_at s1 u)) with (victim s1 u).
    rewrite Hsel. step. eapply ends_mono; [by apply (setCurrentVictim_ok is_creature)|]. intros [] s2 (Q & Hv & Hrefs).
    destruct p as [r|]; [|step; split_and!; [done|apply Q|done]].
    destruct (online_lookup is_creature s1 u r W1 (Hp r eq_refl)) as [R HR].
    assert (refs s !! r = Some R) as HRs by done. rewrite <- Hrefs in HR. do 3 step. split_and!; [done|apply Q|].
    cbn. unfold target_of. rewrite HRs. specialize (Hp r eq_refl). apply (wf_online _ _ W1) in Hp as (t & R' & HR' & Ht & _).
    change (refs s1) with (refs s) in HR'. rewrite HR' in HRs. simplify_eq. by rewrite Ht. }
  destruct (returns_elim _ _ _ Hret) as (o & s' & Hrun & Hv & Hon & Ho). by exists p, o, s'.
Qed.

(** C13. A creature whose list is to be sorted attacks by rank of threat, with the rules of 110
    and 130 per cent: a victim that can be attacked stays unless somebody with more threat has
    over 130 per cent of its threat, or over 110 per cent within melee range; without a victim
    the highest in rank that can be attacked is taken.  Units that would rather be left alone
    (immune, or under control that breaks) are passed over.  But a victim that cannot be
    attacked still shields itself: units out of melee range with between 110 and 130 per cent
    of its threat are not attacked either, and the creature is left without a victim. *)
Theorem victim_rule is_creature platform F u s :
  wf is_creature s → live s u → is_creature u = true → online s u ≠ [] →
  iDirty (iThreatContainer (m_ThreatManager (unit_at s u))) = true → numbers s (online s u) →
  ∃ l o s', getHostilTarget is_creature platform F u s = (Ok o, s') ∧
    l ≡ₚ online s u ∧ ranked s l ∧ online s' u = l ∧ o = target_of s <$> victim s' u ∧
    (∀ v, victim s u = Some v → attackable F u s v = true → preferred F u s v = true →
       victim s' u = Some (default v (find (challenges F u s v) (before v l)))) ∧
    (victim s u = None → ∀ r, find (λ r, attackable F u s r && preferred F u s r) l = Some r → victim s' u = Some r) ∧
    (∀ v, victim s u = Some v → attackable F u s v = false → preferred F u s v = true →
       (∀ r, r ∈ l → attackable F u s r = true → preferred F u s r = true → near s v r = false ∧ beats F u s v r = false) →
       (∀ r, last l = Some r → preferred F u s r = true) → victim s' u = None).
Proof.
  intros W Lu Hc Hne Hd Hnum. destruct (update_eq is_creature u s W Lu Hd) as (us & Hup & K & Hon & Hv).
  set (s1 := set_units us s) in *. set (l := threat_sort (threat_of s) (online s u)) in *.
  assert (l ≡ₚ online s u) as Hp by apply threat_sort_perm.
  assert (ranked s l) as Hr by by apply threat_sort_ranked.
  assert (numbers s l) as Hnl by (intros r Hin; apply Hnum; by rewrite <- Hp).
  assert (l ≠ []) as Hnel by (intros El; apply Hne; rewrite El in Hp; by apply Permutation_nil in Hp).
  destruct (getHostilTarget_choice is_creature platform F u s us Hc Hup (keep_wf _ _ _ K)) as (p & o & s' & Hsel & Hrun & Hv' & Hon' & Ho);
    [by apply (keep_live _ _ _ K)|fold s1; by rewrite Hon|].
  fold s1 in Hsel, Hon'. rewrite Hon, Hv in Hsel. rewrite Hon in Hon'.
  assert (∀ cur, (∀ v, cur = Some v → v ∈ online s u ∧ preferred F u s v = true) → cur = victim s u →
    match find (stops F u s cur) l with
    | Some r => p = Some (chosen F u s cur r)
    | None => (∀ r, last l = Some r → preferred F u s r = true) → p = None
    end) as Hspec.
  { intros cur Hcur ->. pose proof (selectNextVictim_spec is_creature F u s1 l (victim s u) (keep_wf _ _ _ K) Hnel) as H.
    change (stops F u s1) with (stops F u s) in H. change (chosen F u s1) with (chosen F u s) in H. change (preferred F u s1) with (preferred F u s) in H.
    assert (∀ r, r ∈ l ↔ r ∈ online s u) as Hin by (intros r; by rewrite Hp).
    rewrite Hon in H. specialize (H (λ _ H, H)). rewrite Hsel in H.
    destruct (find _ l); [|intros Hl]; [cut (Some (chosen F u s (victim s u) z) = p); [done|]|];
      (assert (∀ v, victim s u = Some v → v ∈ l ∧ preferred F u s v = true) as Hcur' by (intros v Hvv; rewrite Hin; by apply Hcur)).
    - by injection (H Hcur').
    - by injection (H Hcur' Hl). }
  exists l, o, s'. split_and!; try done.
  - by rewrite Hv'.
  - intros v Hvic Ha Hpr. assert (v ∈ l) as Hvl by (rewrite Hp; by apply (wf_victim _ _ W)).
    specialize (Hspec (Some v)). pose proof (stops_victim F u s v l Hnl Hr Hvl Ha Hpr) as Hst.
    destruct (find (stops F u s (Some v)) l) as [r|]; [|done]. cbn in Hst. rewrite <- Hst, Hv'. apply Hspec; [|done].
    intros ? [= <-]. split; [by rewrite <- Hp|done].
  - intros Hvic r Hf. specialize (Hspec None). rewrite Hv'.
    assert (∀ k, find (stops F u s None) k = find (λ r, attackable F u s r && preferred F u s r) k) as Hs.
    { induction k as [|x k IH]; [done|]. cbn. unfold stops at 1. rewrite andb_true_r, IH. done. }
    rewrite Hs, Hf in Hspec. by apply Hspec.
  - intros v Hvic Ha Hpr Hbetween Hlast. specialize (Hspec (Some v)). rewrite Hv'.
    rewrite find_none in Hspec; [apply Hspec; [|done..]; intros ? [= <-]; split; [by apply (wf_victim _ _ W)|done]|].
    intros r Hin. unfold stops. destruct (attackable F u s r) eqn:Ear; [|done]. destruct (preferred F u s r) eqn:Epr; [|done].
    destruct (Hbetween r Hin Ear Epr) as [-> ->]. destruct (Z.eqb_spec v r); [congruence|done].
Qed.


(** ** A fight: creature 100, the players 1 and 2, and the pet 3 of player 2. *)
Module Fight.

Definition is_creature (u : Z) : bool := (u =? 100) || (u =? 3).
Definition platform (_ : Z) : Z := 0.
Definition facts : Facts := {|
  IsGameMaster _ := false; IsAlive _ := true; cannot_have_list _ := false; in_flight _ := false;
  IsInMap _ _ := true; InSamePhase _ _ := true; isInAccessiblePlaceFor _ _ := true; IsWithinCombatRange _ _ := true;
  GetCharmerOrOwner u := if u =? 3 then Some 2 else None; owners := 2;
  GetRedirectThreatPercent _ := 0; GetRedirectThreatTarget _ := None; GetUnit _ _ := None;
  ApplySpellMod _ _ x := x; HasThreatAura _ := false; m_threatModifier _ _ := f32_one;
  CanCreatureAttack _ _ := true; second_choice _ _ := false; IsWithinMeleeRange _ _ := true;
  CanSeeOrDetect _ _ := true; faction _ := 0; GetVictim _ := None; PlayerLogout _ := false |}.

Definition fifty : Z := 0x42480000.
Definition sixty : Z := 0x42700000.
Definition units_come : list event := [NewUnit 100; NewUnit 1; NewUnit 2; NewUnit 3].
(** The first hit, a choice, and more threat from somebody else. *)
Definition overtaken : list event :=
  units_come ++ [Call facts (cAddThreat 100 1 fifty 1 None); Call facts (cSelectVictim 100); Call facts (cAddThreat 100 2 sixty 1 None)].
(** The pet brings its owner along; then the owner goes offline, and the pet is gone. *)
Definition pet_fight : list event :=
  units_come ++ [Call facts (cAddThreat 100 3 fifty 1 None); Call facts (cSelectVictim 100);
    Call facts (cSetOnlineOfflineState 2 false); DeleteUnit 3; Call facts (cUpdate 100 1000)].

Lemma facts_fine (L : gset Z) : 2 ∈ L → fine_facts facts (λ u, u ∈ L).
Proof.
  intros H2. split_and!; [intros u o _; cbn; case_match; by intros [= <-]|done|].
  exists (λ u, if (u =? 3)%Z then 1%nat else 0%nat). split; intros u; cbn; [case_match; lia|].
  intros o. destruct (u =? 3); [intros [= <-]; cbn; lia|done].
Qed.

Ltac fine := repeat first [done|apply facts_fine; set_solver|split|constructor|set_solver].
Lemma overtaken_fine : fine ∅ overtaken.
Proof. cbn. fine. Qed.
Lemma pet_fight_fine : fine ∅ pet_fight.
Proof. cbn. fine. Qed.

Definition now : state := (run is_creature platform overtaken init).2.
Lemma now_wf : wf is_creature now.
Proof.
  destruct (run_fine is_creature platform overtaken init ∅ (init_wf is_creature)) as (s & Hs & W); [|apply overtaken_fine|].
  - intros u. unfold live. cbn. rewrite lookup_empty. split; [by intros []|set_solver].
  - unfold now. by rewrite Hs.
Qed.

(** In the second fight, the creature hates the owner, who is offline. *)
Example pet_fight_end :
  let s := (run is_creature platform pet_fight init).2 in
  (online s 100, offline s 100, victim s 100, hostile s 2) = ([], [2], None, [2]).
Proof. by vm_compute. Qed.

End Fight.

Lemma threat_lists_sound_witness :
  fine ∅ Fight.pet_fight ∧ ∃ s, run Fight.is_creature Fight.platform Fight.pet_fight init = (Ok tt, s) ∧ wf Fight.is_creature s.
Proof. split; [exact Fight.pet_fight_fine|exact (threat_lists_sound Fight.is_creature Fight.platform Fight.pet_fight Fight.pet_fight_fine)]. Defined.

(** Player 2 has overtaken player 1 by more than 110 per cent, in melee range. *)
Lemma victim_rule_witness :
  victim Fight.now 100 = Some 1 ∧
  ∃ o s', getHostilTarget Fight.is_creature Fight.platform Fight.facts 100 Fight.now = (Ok o, s') ∧ victim s' 100 = Some 2 ∧ online s' 100 = [2; 1].
Proof.
  split; [by vm_compute|].
  destruct (victim_rule Fight.is_creature Fight.platform Fight.facts 100 Fight.now Fight.now_wf)
    as (l & o & s' & Hrun & Hp & Hr & Hl & Ho & Hrule & _).
  - by eexists; vm_compute.
  - done.
  - by vm_compute.
  - by vm_compute.
  - intros r Hr. assert (r = 1 ∨ r = 2) as [-> | ->]; [|by vm_compute..].
    replace (online Fight.now 100) with [1; 2] in Hr by by vm_compute. set_solver.
  - exists o, s'. split; [exact Hrun|].
    assert (l = [2; 1]) as ->. { rewrite <- Hl. change s' with (Ok o, s').2. rewrite <- Hrun. by vm_compute. }
    split; [|exact Hl]. rewrite (Hrule 1) by by vm_compute. by vm_compute.
Defined.
