(* ===== verification/BigNumber.v ===== *)
(** * BigNumber: the wrappers of OpenSSL.

    [shared/Cryptography/BigNumber.{h,cpp}] and [SHA1.{h,cpp}].  OpenSSL itself is a parameter
    ([OpenSSL]) with the laws that its manual pages state ([OpenSSLLaws]); a [BIGNUM] is the
    integer it holds.  [_array], the array that [AsByteArray] returns and keeps, is its contents
    at the time of the call, which is how every caller uses it. *)
From S2P Require Import Prelude.
From stdpp Require Import list.
From S2P Require Import Bits.
Open Scope Z_scope.

(** ** OpenSSL *)

Class OpenSSL : Type := {
  BN_add : Z → Z → Z;
  BN_sub : Z → Z → Z;
  BN_mul : Z → Z → Z;
  BN_div : Z → Z → Z;
  BN_mod : Z → Z → Z;
  BN_exp : Z → Z → Z;
  BN_mod_exp : Z → Z → Z → Z;
  BN_add_word : Z → Z → Z;
  BN_lshift : Z → Z → Z;
  BN_get_word : Z → Z;
  BN_num_bytes : Z → nat;
  BN_bin2bn : list Z → Z;
  BN_bn2bin : Z → list Z;
  BN_hex2bn : list Z → Z → Z;                  (* digits, the number held before *)
  BN_bn2hex : Z → list Z;
  BN_bn2dec : Z → list Z;
  SHA_CTX : Type;
  SHA1_Init : SHA_CTX;
  SHA1_Update : SHA_CTX → list Z → SHA_CTX;
  SHA1_Final : SHA_CTX → list Z }.

(** The digest of one message. *)
Definition SHA1 `{OpenSSL} (data : list Z) : list Z := SHA1_Final (SHA1_Update SHA1_Init data).

(** The value of a string of hexadecimal digits. *)
Definition hex_digit (c : Z) : option Z :=
  if (48 <=? c) && (c <=? 57) then Some (c - 48)
  else if (65 <=? c) && (c <=? 70) then Some (c - 55)
  else if (97 <=? c) && (c <=? 102) then Some (c - 87)
  else None.
Fixpoint hex_loop (str : list Z) (acc : Z) : option Z :=
  match str with
  | [] => Some acc
  | c :: str => d ← hex_digit c; hex_loop str (16 * acc + d)
  end.
Definition hex_val (str : list Z) : option Z := match str with [] => None | _ => hex_loop str 0 end.

(** The least number of bytes that hold a number. *)
Definition num_bytes (z : Z) : nat := if z =? 0 then 0 else Z.to_nat (Z.log2 z / 8 + 1).

Class OpenSSLLaws `{OpenSSL} : Prop := {
  BN_add_law a b : BN_add a b = a + b;
  BN_mul_law a b : BN_mul a b = a * b;
  BN_mod_law a m : 0 ≤ a → 0 < m → BN_mod a m = a mod m;
  BN_mod_exp_law a p m : 0 ≤ a → 0 ≤ p → 1 < m → Z.odd m = true → BN_mod_exp a p m = a ^ p mod m;
  BN_num_bytes_law a : 0 ≤ a → BN_num_bytes a = num_bytes a;
  BN_bin2bn_law bytes : Forall is_byte bytes → BN_bin2bn bytes = le_val (rev bytes);
  BN_bn2bin_law a : 0 ≤ a → BN_bn2bin a = rev (le_bytes (num_bytes a) a);
  BN_hex2bn_law str old z : hex_val str = Some z → BN_hex2bn str old = z;
  BN_hex2bn_nil_law old : BN_hex2bn [] old = old;
  BN_bn2hex_law a : 0 ≤ a → hex_val (BN_bn2hex a) = Some a;
  SHA1_stream_law (chunks : list (list Z)) :
    SHA1_Final (fold_left SHA1_Update chunks SHA1_Init) = SHA1 (concat chunks);
  SHA1_length_law data : length (SHA1 data) = 20%nat;
  SHA1_bytes_law data : Forall is_byte (SHA1 data) }.

(** ** Big numbers *)

Module BigNumber.
Section BigNumber.
Context `{OpenSSL}.

Definition t : Type := Z.

Definition SetDword (val : Z) : t := u32 val.

(** The first addition is to what the number held before. *)
Definition SetQword (val : Z) (bn : t) : t :=
  BN_add_word (BN_lshift (BN_add_word bn (u32 (Z.shiftr val 32))) 32) (u32 (Z.land val 0xFFFFFFFF)).

(** A local array of 1000 bytes is filled from the other end. *)
Definition SetBinary (bytes : list Z) : result t :=
  if (1000 <? length bytes)%nat then Throw UndefinedBehaviour else Ok (BN_bin2bn (rev bytes)).

Definition SetHexStr (str : list Z) (bn : t) : t := BN_hex2bn str bn.

Definition add (a b : t) : t := BN_add a b.
Definition sub (a b : t) : t := BN_sub a b.
Definition mul (a b : t) : t := BN_mul a b.
Definition div (a b : t) : t := BN_div a b.
Definition rem (a b : t) : t := BN_mod a b.
Definition Exp (a b : t) : t := BN_exp a b.
Definition ModExp (a e m : t) : t := BN_mod_exp a e m.

Definition GetNumBytes (bn : t) : nat := BN_num_bytes bn.
Definition AsDword (bn : t) : Z := u32 (BN_get_word bn).
Definition isZero (bn : t) : bool := bn =? 0.

(** The bytes stand at the front of the array, zeros behind them, and the whole array is
    turned around. *)
Definition AsByteArray (bn : t) (minSize : nat) (reverse : bool) : list Z :=
  let length := if (GetNumBytes bn <=? minSize)%nat then minSize else GetNumBytes bn in
  let _array := BN_bn2bin bn ++ replicate (length - GetNumBytes bn) 0 in
  if reverse then rev _array else _array.

Definition AsHexStr (bn : t) : list Z := BN_bn2hex bn.
Definition AsDecStr (bn : t) : list Z := BN_bn2dec bn.

End BigNumber.
End BigNumber.

(** ** SHA1 *)

Module SHA1Hash.
Section SHA1Hash.
Context `{OpenSSL}.

Record t : Type := mk { mC : SHA_CTX; mDigest : list Z }.

Definition SHA_DIGEST_LENGTH : nat := 20.

Definition new : t := mk SHA1_Init (replicate SHA_DIGEST_LENGTH 0).
Definition Initialize (h : t) : t := mk SHA1_Init (mDigest h).
Definition UpdateData (dta : list Z) (h : t) : t := mk (SHA1_Update (mC h) dta) (mDigest h).
Fixpoint UpdateBigNumbers (bns : list BigNumber.t) (h : t) : t :=
  match bns with
  | [] => h
  | bn :: bns => UpdateBigNumbers bns (UpdateData (BigNumber.AsByteArray bn 0 true) h)
  end.
(** The context is not used again before [Initialize]. *)
Definition Finalize (h : t) : t := mk (mC h) (SHA1_Final (mC h)).
Definition GetDigest (h : t) : list Z := mDigest h.

End SHA1Hash.
End SHA1Hash.

(** ** What the laws give *)

Lemma log2_256_bounds z : 0 < z → 256 ^ (Z.log2 z / 8) ≤ z < 256 ^ (Z.log2 z / 8 + 1).
Proof.
  intros Hz. change 256 with (2 ^ 8).
  assert (0 ≤ Z.log2 z / 8) by (apply Z.div_pos; [apply Z.log2_nonneg|lia]).
  rewrite <- !Z.pow_mul_r by lia. destruct (Z.log2_spec z Hz) as [H1 H2]. split.
  - etrans; [|exact H1]. apply Z.pow_le_mono_r; [lia|]. apply Z.mul_div_le. lia.
  - eapply Z.lt_le_trans; [exact H2|]. apply Z.pow_le_mono_r; [lia|].
    pose proof (Z.mul_succ_div_gt (Z.log2 z) 8). lia.
Qed.

Lemma num_bytes_spec z : 0 ≤ z → z < 256 ^ Z.of_nat (num_bytes z).
Proof.
  intros Hz. unfold num_bytes. destruct (Z.eqb_spec z 0) as [->|]; [by cbv|].
  rewrite Z2Nat.id; [apply log2_256_bounds; lia|]. pose proof (Z.div_pos (Z.log2 z) 8 (Z.log2_nonneg z)). lia.
Qed.

Lemma num_bytes_le z k : 0 ≤ z < 256 ^ Z.of_nat k → (num_bytes z ≤ k)%nat.
Proof.
  intros Hz. unfold num_bytes. destruct (Z.eqb_spec z 0) as [->|]; [lia|].
  destruct (log2_256_bounds z) as [Hl _]; [lia|].
  assert (Z.log2 z / 8 < Z.of_nat k); [|pose proof (Z.div_pos (Z.log2 z) 8 (Z.log2_nonneg z)); lia].
  apply (Z.pow_lt_mono_r_iff 256); [lia..|]. lia.
Qed.

(** A number that needs all of its [k] bytes. *)
Definition full (k : nat) (z : Z) : Prop := 256 ^ (Z.of_nat k - 1) ≤ z < 256 ^ Z.of_nat k.
#[global] Instance full_dec k z : Decision (full k z).
Proof. unfold full. apply _. Defined.

Lemma full_num_bytes k z : (0 < k)%nat → full k z → num_bytes z = k.
Proof.
  intros Hk [H1 H2]. assert (0 < 256 ^ (Z.of_nat k - 1)) by (apply Z.pow_pos_nonneg; lia).
  apply Nat.le_antisymm; [apply num_bytes_le; lia|].
  destruct (decide (k ≤ num_bytes z)%nat) as [|Hn]; [done|]. exfalso.
  pose proof (num_bytes_spec z ltac:(lia)) as Hs.
  assert (256 ^ Z.of_nat (num_bytes z) ≤ 256 ^ (Z.of_nat k - 1)); [|lia].
  apply Z.pow_le_mono_r; lia.
Qed.

Lemma pow_256 k : 0 ≤ k → 256 ^ k = 2 ^ (8 * k).
Proof. intros. change 256 with (2 ^ 8). by rewrite <- Z.pow_mul_r by lia. Qed.

Lemma le_val_le_bytes_small k z : 0 ≤ z < 256 ^ Z.of_nat k → le_val (le_bytes k z) = z.
Proof. intros Hz. rewrite le_val_le_bytes, <- pow_256 by lia. by apply Z.mod_small. Qed.

Lemma le_val_replicate_app n l : le_val (replicate n 0 ++ l) = 256 ^ Z.of_nat n * le_val l.
Proof.
  induction n as [|n IH]; [by rewrite Z.mul_1_l|]. cbn [replicate app le_val].
  rewrite IH, Nat2Z.inj_succ, Z.pow_succ_r by lia. ring.
Qed.

(** The bytes of a number, with zeros up to a greater size. *)
Lemma le_bytes_pad n k z : 0 ≤ z < 256 ^ Z.of_nat n → (n ≤ k)%nat → le_bytes k z = le_bytes n z ++ replicate (k - n) 0.
Proof.
  revert k z. induction n as [|n IH]; intros k z Hz Hk.
  - assert (z = 0) as -> by (change (256 ^ Z.of_nat 0) with 1 in Hz; lia). simpl. rewrite Nat.sub_0_r. clear.
    induction k as [|k IH]; [done|]. cbn [le_bytes replicate]. change (0 / 256) with 0. by rewrite IH.
  - destruct k as [|k]; [lia|]. simpl. f_equal. apply IH; [|lia].
    rewrite Nat2Z.inj_succ, Z.pow_succ_r in Hz by lia.
    split; [apply Z.div_pos; lia|apply Z.div_lt_upper_bound; lia].
Qed.

Lemma hex_loop_nonneg str acc z : 0 ≤ acc → hex_loop str acc = Some z → 0 ≤ z.
Proof.
  revert acc. induction str as [|c str IH]; intros acc Ha; simpl; [by intros [= ->]|].
  destruct (hex_digit c) as [d|] eqn:Ed; simpl; [|done]. apply IH.
  unfold hex_digit in Ed. repeat case_match; try done; injection Ed as <-; rewrite ?andb_true_iff, ?Z.leb_le in *; lia.
Qed.
Lemma hex_val_nonneg str z : hex_val str = Some z → 0 ≤ z.
Proof. unfold hex_val. destruct str; [done|]. apply hex_loop_nonneg. lia. Qed.

Section laws.
#[local] Set Default Proof Using "Type*".
Context `{OpenSSLLaws}.

Lemma SetBinary_val bytes :
  Forall is_byte bytes → (length bytes ≤ 1000)%nat → BigNumber.SetBinary bytes = Ok (le_val bytes).
Proof.
  intros Hb Hl. unfold BigNumber.SetBinary. rewrite (proj2 (Nat.ltb_ge _ _)) by done.
  by rewrite BN_bin2bn_law, rev_involutive by by apply Forall_rev.
Qed.

Lemma AsByteArray_val a n :
  0 ≤ a → BigNumber.AsByteArray a n true = replicate (n - num_bytes a) 0 ++ le_bytes (num_bytes a) a.
Proof.
  intros Ha. unfold BigNumber.AsByteArray, BigNumber.GetNumBytes.
  rewrite BN_num_bytes_law, BN_bn2bin_law by done. rewrite rev_app_distr, rev_involutive.
  rewrite (rev_alt (replicate _ _)), (reverse_replicate _ _ : rev_append _ [] = _). do 2 f_equal.
  destruct (Nat.leb_spec (num_bytes a) n); lia.
Qed.

Lemma AsByteArray_bytes a n : 0 ≤ a → Forall is_byte (BigNumber.AsByteArray a n true).
Proof.
  intros Ha. rewrite AsByteArray_val by done. apply Forall_app. split.
  - apply Forall_replicate. by unfold is_byte.
  - apply le_bytes_is_byte.
Qed.

Lemma AsByteArray_length a n : 0 ≤ a → length (BigNumber.AsByteArray a n true) = Nat.max n (num_bytes a).
Proof. intros Ha. rewrite AsByteArray_val, length_app, length_replicate, length_le_bytes by done. lia. Qed.

(** A number of full size is its little-endian bytes, whatever least size is asked for. *)
Lemma AsByteArray_full a n k :
  (0 < k)%nat → full k a → (n ≤ k)%nat → BigNumber.AsByteArray a n true = le_bytes k a.
Proof.
  intros Hk Hf Hn. assert (0 ≤ a).
  { destruct Hf. assert (0 < 256 ^ (Z.of_nat k - 1)) by (apply Z.pow_pos_nonneg; lia). lia. }
  rewrite AsByteArray_val, (full_num_bytes k) by done. by replace (n - k)%nat with 0%nat by lia.
Qed.

(** ** Digests *)

Lemma SHA1Hash_BigNumbers bns h :
  SHA1Hash.mC (SHA1Hash.UpdateBigNumbers bns h) =
  fold_left SHA1_Update ((λ bn, BigNumber.AsByteArray bn 0 true) <$> bns) (SHA1Hash.mC h).
Proof. revert h. induction bns as [|bn bns IH]; intros h; simpl; [done|]. by rewrite IH. Qed.

Lemma SHA1_two d1 d2 : SHA1_Final (SHA1_Update (SHA1_Update SHA1_Init d1) d2) = SHA1 (d1 ++ d2).
Proof.
  transitivity (SHA1_Final (fold_left SHA1_Update [d1; d2] SHA1_Init)); [done|].
  rewrite SHA1_stream_law. simpl. by rewrite app_nil_r.
Qed.

(** The value of a digest, and the digest again if all its bytes are needed. *)
Lemma SHA1_val_bound d : 0 ≤ le_val (SHA1 d) < 256 ^ 20.
Proof.
  pose proof (le_val_bound (SHA1 d) (SHA1_bytes_law d)) as Hb. rewrite SHA1_length_law in Hb.
  by rewrite pow_256 by lia.
Qed.
Lemma SHA1_val_bytes d : le_bytes 20 (le_val (SHA1 d)) = SHA1 d.
Proof. rewrite <- (SHA1_length_law d) at 1. apply le_bytes_le_val, SHA1_bytes_law. Qed.
Lemma SetBinary_SHA1 d : BigNumber.SetBinary (SHA1 d) = Ok (le_val (SHA1 d)).
Proof. apply SetBinary_val; [apply SHA1_bytes_law|]. rewrite SHA1_length_law. lia. Qed.

End laws.
