(* ===== verification/RealmList.v ===== *)
(** * RealmList: the realms of the log-on server and the builds of clients.

    [authserver/Realms/RealmList.{h,cpp}] and [authserver/Authentication/AuthCodes.{h,cpp}].
    The map of realms is ordered by name, as [std::map] is; its rows come from the login
    database and the text of an address from ACE: both are arguments. *)
From S2P Require Import Prelude.
From stdpp Require Import list sorting.
From S2P Require Import Bits.
Open Scope Z_scope.

(** ** Client builds *)

Module AuthHelper.

Record RealmBuildInfo : Type := mkRealmBuildInfo {
  Build : Z; MajorVersion : Z; MinorVersion : Z; BugfixVersion : Z; HotfixVersion : Z }.

Definition POST_BC_EXP_FLAG : Z := 0x2.
Definition PRE_BC_EXP_FLAG : Z := 0x1.
Definition NO_VALID_EXP_FLAG : Z := 0x0.

(** The tables, with their terminators. *)
Definition PostBcAcceptedClientBuilds : list RealmBuildInfo :=
  [mkRealmBuildInfo 17399 5 4 0 32; mkRealmBuildInfo 17128 5 3 0 32; mkRealmBuildInfo 16769 5 2 0 32;
   mkRealmBuildInfo 16357 5 1 0 97; mkRealmBuildInfo 16309 5 1 0 32; mkRealmBuildInfo 16135 5 0 5 98;
   mkRealmBuildInfo 15595 4 3 4 32; mkRealmBuildInfo 14545 4 2 2 32; mkRealmBuildInfo 13623 4 0 6 97;
   mkRealmBuildInfo 12340 3 3 5 97; mkRealmBuildInfo 11723 3 3 3 97; mkRealmBuildInfo 11403 3 3 2 32;
   mkRealmBuildInfo 11159 3 3 0 97; mkRealmBuildInfo 10505 3 2 2 97; mkRealmBuildInfo 9947 3 1 3 32;
   mkRealmBuildInfo 8606 2 4 3 32; mkRealmBuildInfo 0 0 0 0 32].
Definition PreBcAcceptedClientBuilds : list RealmBuildInfo :=
  [mkRealmBuildInfo 6141 1 12 3 32; mkRealmBuildInfo 6005 1 12 2 32; mkRealmBuildInfo 5875 1 12 1 32;
   mkRealmBuildInfo 0 0 0 0 32].

(** [for (int i = 0; table[i].Build; ++i) if (table[i].Build == build)]; a table without a
    terminator would be left. *)
Fixpoint find_build (table : list RealmBuildInfo) (build : Z) : option RealmBuildInfo :=
  match table with
  | [] => None
  | info :: table =>
    if Build info =? 0 then None
    else if Build info =? build then Some info
    else find_build table build
  end.

Definition IsPreBCAcceptedClientBuild (build : Z) : bool :=
  bool_decide (is_Some (find_build PreBcAcceptedClientBuilds build)).
Definition IsPostBCAcceptedClientBuild (build : Z) : bool :=
  bool_decide (is_Some (find_build PostBcAcceptedClientBuilds build)).
Definition IsAcceptedClientBuild (build : Z) : bool :=
  IsPostBCAcceptedClientBuild build || IsPreBCAcceptedClientBuild build.

Definition GetBuildInfo (build : Z) : option RealmBuildInfo :=
  match find_build PostBcAcceptedClientBuilds build with
  | Some info => Some info
  | None => find_build PreBcAcceptedClientBuilds build
  end.

(** [_expversion] as both challenges compute it. *)
Definition expversion (build : Z) : Z :=
  u8 (if IsPostBCAcceptedClientBuild build then POST_BC_EXP_FLAG
      else if IsPreBCAcceptedClientBuild build then PRE_BC_EXP_FLAG
      else NO_VALID_EXP_FLAG).

(** No build is in both tables. *)
Lemma find_build_In table build info : find_build table build = Some info →
  info ∈ table ∧ Build info = build ∧ build ≠ 0.
Proof.
  induction table as [|x table IH]; [done|]. simpl.
  destruct (Z.eqb_spec (Build x) 0); [done|]. rewrite elem_of_cons.
  destruct (Z.eqb_spec (Build x) build); [intros [= ->]; subst; auto|].
  intros E. destruct (IH E) as (? & ? & ?). auto.
Qed.

Lemma builds_disjoint build : IsPostBCAcceptedClientBuild build && IsPreBCAcceptedClientBuild build = false.
Proof.
  unfold IsPostBCAcceptedClientBuild, IsPreBCAcceptedClientBuild.
  destruct (find_build PostBcAcceptedClientBuilds build) as [i|] eqn:E1; [|done].
  destruct (find_build PreBcAcceptedClientBuilds build) as [j|] eqn:E2; [|done]. exfalso.
  apply find_build_In in E1 as (H1 & <- & H0). apply find_build_In in E2 as (H2 & E & _).
  unfold PreBcAcceptedClientBuilds in H2. rewrite !elem_of_cons, elem_of_nil in H2.
  unfold PostBcAcceptedClientBuilds in H1. rewrite !elem_of_cons, elem_of_nil in H1.
  destruct H2 as [->|[->|[->|[->|[]]]]]; repeat (destruct H1 as [->|H1]; [simpl in E, H0; lia|]); done.
Qed.

End AuthHelper.

(** ** Realms *)

Definition SEC_PLAYER : Z := 0.
Definition SEC_ADMINISTRATOR : Z := 3.

(** [level <= SEC_ADMINISTRATOR ? AccountTypes(level) : SEC_ADMINISTRATOR] *)
Definition account_type (level : Z) : Z := if level <=? SEC_ADMINISTRATOR then level else SEC_ADMINISTRATOR.

Definition REALM_FLAG_OFFLINE : Z := 0x02.
Definition REALM_FLAG_SPECIFYBUILD : Z := 0x04.

Record Realm : Type := mkRealm {
  RealmAddress : list Z; name : list Z; icon : Z; flag : Z; timezone : Z; m_ID : Z;
  allowedSecurityLevel : Z; populationLevel : Z; gamebuild : Z }.

(** The columns of [LOGIN_SEL_REALMLIST] that are used. *)
Record RealmRow : Type := mkRealmRow {
  row_id : Z; row_name : list Z; row_address : list Z; row_port : Z; row_icon : Z; row_flag : Z;
  row_timezone : Z; row_allowedSecurityLevel : Z; row_population : Z; row_gamebuild : Z }.

Module RealmList.

Record t : Type := mk { m_realms : list Realm; m_UpdateInterval : Z; m_NextUpdateTime : Z }.

(** [RealmList::RealmList] at time [now]. *)
Definition new (now : Z) : t := mk [] 0 now.

(** The order of [std::string]. *)
Fixpoint name_ltb (a b : list Z) : bool :=
  match a, b with
  | _, [] => false
  | [], _ :: _ => true
  | x :: a, y :: b => (x <? y) || ((x =? y) && name_ltb a b)
  end.

(** [m_realms[name] = realm], the key being the realm's name. *)
Fixpoint map_set (realm : Realm) (m : list Realm) : list Realm :=
  match m with
  | [] => [realm]
  | r :: m =>
    if name_ltb (name r) (name realm) then r :: map_set realm m
    else if bool_decide (name r = name realm) then realm :: m
    else realm :: r :: m
  end.

Definition AddRealm (NewRealm : Realm) (s : t) : t :=
  mk (map_set NewRealm (m_realms s)) (m_UpdateInterval s) (m_NextUpdateTime s).

Section RealmList.
(** [ACE_INET_Addr(port, address).addr_to_string] *)
Context (addr_to_string : Z → list Z → list Z).

Definition UpdateRealm (id : Z) (name address : list Z) (port icon flag timezone allowedSecurityLevel popu build : Z)
    (s : t) : t :=
  mk (map_set (mkRealm (addr_to_string port address) name icon flag timezone id allowedSecurityLevel popu build)
        (m_realms s)) (m_UpdateInterval s) (m_NextUpdateTime s).

Definition update_row (s : t) (r : RealmRow) : t :=
  UpdateRealm (row_id r) (row_name r) (row_address r) (row_port r) (row_icon r) (row_flag r) (row_timezone r)
    (account_type (row_allowedSecurityLevel r)) (row_population r) (row_gamebuild r) s.

(** The query gives no result when there are no rows. *)
Definition UpdateRealms (rows : list RealmRow) (s : t) : t := fold_left update_row rows s.

Definition Initialize (updateInterval : Z) (rows : list RealmRow) (s : t) : t :=
  UpdateRealms rows (mk (m_realms s) updateInterval (m_NextUpdateTime s)).

(** [UpdateIfNeed], which looks at the clock twice; the database is asked only if the list is
    renewed. *)
Definition needs_update (now : Z) (s : t) : bool := z2b (m_UpdateInterval s) && negb (now <? m_NextUpdateTime s).
Definition UpdateIfNeed (now now' : Z) (rows : list RealmRow) (s : t) : t :=
  if needs_update now s
  then UpdateRealms rows (mk [] (m_UpdateInterval s) (now' + m_UpdateInterval s))
  else s.

End RealmList.

(** ** The map *)

Fixpoint map_get (key : list Z) (m : list Realm) : option Realm :=
  match m with [] => None | r :: m => if decide (name r = key) then Some r else map_get key m end.

Definition name_lt (r1 r2 : Realm) : Prop := name_ltb (name r1) (name r2) = true.

Lemma name_ltb_trans a b c : name_ltb a b = true → name_ltb b c = true → name_ltb a c = true.
Proof.
  revert b c. induction a as [|x a IH]; intros [|y b] [|z c]; simpl; try done.
  rewrite !orb_true_iff, !andb_true_iff, !Z.ltb_lt, !Z.eqb_eq.
  intros [?|[-> ?]] [?|[-> ?]]; [left; lia|left; lia|left; lia|right; split; [done|eauto]].
Qed.

Lemma name_ltb_irrefl a : name_ltb a a = false.
Proof. induction a as [|x a IH]; simpl; [done|]. by rewrite Z.ltb_irrefl, Z.eqb_refl. Qed.

Lemma name_ltb_total a b : name_ltb a b = false → a ≠ b → name_ltb b a = true.
Proof.
  revert b. induction a as [|x a IH]; intros [|y b]; simpl; try done.
  rewrite orb_false_iff, orb_true_iff, andb_true_iff, andb_false_iff, Z.ltb_ge, Z.ltb_lt, Z.eqb_eq, Z.eqb_neq.
  intros [? [?|?]] Hn; [left; lia|]. destruct (decide (x = y)) as [->|]; [|left; lia].
  right. split; [done|]. apply IH; congruence.
Qed.

#[global] Instance name_lt_trans : Transitive name_lt.
Proof. intros a b c. apply name_ltb_trans. Qed.

Lemma map_set_hd realm m r : HdRel name_lt r m → name_lt r realm → HdRel name_lt r (map_set realm m).
Proof.
  intros Hm Hr. destruct m as [|x m]; simpl; [by constructor|]. inversion Hm; subst.
  repeat case_match; by constructor.
Qed.

(** The map stays in order, and an update changes the entry of its key only. *)
Lemma map_set_sorted realm m : Sorted name_lt m → Sorted name_lt (map_set realm m).
Proof.
  induction 1 as [|x m Hs IH Hd]; simpl; [repeat constructor|].
  destruct (name_ltb (name x) (name realm)) eqn:E; [by constructor; [|apply map_set_hd]|].
  case_bool_decide as En.
  - constructor; [done|]. destruct Hd as [|y m Hy]; constructor. unfold name_lt in *. by rewrite <- En.
  - constructor; [by constructor|]. constructor. by apply name_ltb_total.
Qed.

Lemma map_get_set key realm m :
  Sorted name_lt m → map_get key (map_set realm m) = if decide (name realm = key) then Some realm else map_get key m.
Proof.
  intros Hs. apply Sorted_StronglySorted in Hs; [|apply _]. induction Hs as [|x m Hs IH Hf]; simpl; [done|].
  destruct (name_ltb (name x) (name realm)) eqn:E; simpl.
  - rewrite IH. destruct (decide (name x = key)) as [<-|]; [|done].
    rewrite decide_False; [done|]. intros En. rewrite En in E. by rewrite name_ltb_irrefl in E.
  - case_bool_decide as En; simpl; [|done]. destruct (decide (name realm = key)) as [|]; [done|].
    rewrite decide_False by congruence. done.
Qed.

Lemma UpdateRealms_sorted addr rows s :
  Sorted name_lt (m_realms s) → Sorted name_lt (m_realms (UpdateRealms addr rows s)).
Proof.
  revert s. induction rows as [|r rows IH]; intros s Hs; simpl; [done|]. apply IH. by apply map_set_sorted.
Qed.

Lemma UpdateIfNeed_sorted addr now now' rows s :
  Sorted name_lt (m_realms s) → Sorted name_lt (m_realms (UpdateIfNeed addr now now' rows s)).
Proof.
  intros Hs. unfold UpdateIfNeed. destruct (needs_update now s); [|done]. apply UpdateRealms_sorted. constructor.
Qed.

End RealmList.
