(* ===== verification/RealmSocket.v ===== *)
(** * RealmSocket: a connection to the log-on server.

    [authserver/Server/RealmSocket.{h,cpp}]: an input buffer of 4096 bytes, a queue of what the
    peer did not take at once, and a session that is told when bytes have come in.  The session
    is an interface ([Session]), as [RealmSocket::Session] is.  ACE's message blocks and queue
    are modelled as far as the code uses them; the peer and the reactor answer from the history
    of calls. *)
From S2P Require Import Prelude.
From stdpp Require Import list.
From S2P Require Import Bits ByteBuffer.
Open Scope Z_scope.

Module RealmSocket.

(** ** Data *)

Inductive io : Type :=
| Sending (buf : list Z)                       (* send was called *)
| Wire (bytes : list Z)                        (* peer().send took these bytes *)
| Lost (bytes : list Z)                        (* bytes given up after an error *)
| Shutdown                                     (* ACE_Svc_Handler::shutdown *)
| CloseWriter
| ScheduleWakeup | CancelWakeup | RegisterHandler | RemoveHandler | RemoveReference.

Inductive send_result : Type := Sent (n : nat) | WouldBlock | SendError.
Inductive recv_result : Type := Received (bytes : list Z) | RecvWouldBlock | RecvError.

Record Env : Type := mkEnv {
  peer_send : list io → list Z → send_result;
  reactor_ok : list io → bool }.

(** [input_buffer_] holds [input] behind [skipped] bytes that have been read; a queued block is
    its size and what is left of it. *)
Record t : Type := mk {
  input : list Z;
  skipped : nat;
  msg_queue : list (nat * list Z);
  closing_ : bool;
  has_session : bool;                          (* session_ != NULL *)
  _remoteAddress : list Z;
  _remotePort : Z;
  log : list io }.                             (* newest first *)

Definition input_size : nat := 4096.
Definition high_water_mark : Z := 8 * 1024 * 1024.

Definition new : t := mk [] 0 [] false false [] 0 [].

Definition set_input (l : list Z) (n : nat) (s : t) : t :=
  mk l n (msg_queue s) (closing_ s) (has_session s) (_remoteAddress s) (_remotePort s) (log s).
Definition set_msg_queue (q : list (nat * list Z)) (s : t) : t :=
  mk (input s) (skipped s) q (closing_ s) (has_session s) (_remoteAddress s) (_remotePort s) (log s).
Definition set_closing (b : bool) (s : t) : t :=
  mk (input s) (skipped s) (msg_queue s) b (has_session s) (_remoteAddress s) (_remotePort s) (log s).
(** The old session is deleted. *)
Definition set_session (s : t) : t :=
  mk (input s) (skipped s) (msg_queue s) (closing_ s) true (_remoteAddress s) (_remotePort s) (log s).
Definition set_remote (address : list Z) (port : Z) (s : t) : t :=
  mk (input s) (skipped s) (msg_queue s) (closing_ s) (has_session s) address port (log s).
Definition record_io (e : io) (s : t) : t :=
  mk (input s) (skipped s) (msg_queue s) (closing_ s) (has_session s) (_remoteAddress s) (_remotePort s) (e :: log s).

Definition emit (e : io) : X t unit := modifyX (record_io e).
Definition ask {A} (f : list io → A) : X t A := s ← getX; mret (f (log s)).

(** ** Reading *)

Definition recv_len : X t nat := s ← getX; mret (length (input s)).

Definition recv_soft (len : nat) : X t (option (list Z)) :=
  s ← getX; mret (if (length (input s) <? len)%nat then None else Some (take len (input s))).

(** The reading position may not pass the writing one. *)
Definition recv_skip (len : nat) : X t unit :=
  s ← getX;
  if (length (input s) <? len)%nat then throwX UndefinedBehaviour
  else modifyX (set_input (drop len (input s)) (skipped s + len)).

Definition recv (len : nat) : X t (option (list Z)) :=
  ret ← recv_soft len;
  match ret with Some buf => recv_skip len;; mret (Some buf) | None => mret None end.

(** [input_buffer_.space()] *)
Definition space (s : t) : nat := (input_size - (skipped s + length (input s)))%nat.
Definition crunch : X t unit := modifyX (λ s, set_input (input s) 0 s).

(** ** Writing *)

Section RealmSocket.
Context (env : Env).

(** [None] is the result -1. *)
Definition noblk_send (message_block : list Z) : X t (option nat) :=
  if (length message_block =? 0)%nat then mret None
  else
    r ← ask (λ h, peer_send env h message_block);
    match r with
    | SendError => mret None
    | WouldBlock => mret (Some 0%nat)
    | Sent n =>
      let n := Nat.min n (length message_block) in
      if (n =? 0)%nat then mret None else emit (Wire (take n message_block));; mret (Some n)
    end.

Definition cur_bytes (q : list (nat * list Z)) : Z := Z.of_nat (sum_list (fst <$> q)).
(** [enqueue_tail] and [enqueue_head] without waiting. *)
Definition enqueue (at_head : bool) (mb : nat * list Z) : X t bool :=
  s ← getX;
  if high_water_mark <=? cur_bytes (msg_queue s) then mret false
  else modifyX (set_msg_queue (if at_head then mb :: msg_queue s else msg_queue s ++ [mb]));; mret true.

(** The end of [send]: the rest of the block is cloned and queued. *)
Definition send_later (size : nat) (rest : list Z) : X t bool :=
  ok ← enqueue false (size, rest);
  if ok : bool then ok ← ask (reactor_ok env); emit ScheduleWakeup;; mret ok
  else emit (Lost rest);; mret false.

Definition send (buf : list Z) : X t bool :=
  emit (Sending buf);;
  if (length buf =? 0)%nat then mret true
  else
    s ← getX;
    match msg_queue s with
    | [] =>
      n ← noblk_send buf;
      match n with
      | None => emit (Lost buf);; mret false
      | Some un => if (un =? length buf)%nat then mret true else send_later (length buf) (drop un buf)
      end
    | _ => send_later (length buf) buf
    end.

Definition handle_output : X t Z :=
  s ← getX;
  if closing_ s then mret (-1)
  else match msg_queue s with
  | [] => emit CancelWakeup;; mret 0
  | (size, mb) :: q =>
    modifyX (set_msg_queue q);;
    n ← noblk_send mb;
    match n with
    | None => emit (Lost mb);; mret (-1)
    | Some n =>
      if (n =? length mb)%nat then mret 1
      else
        ok ← enqueue true (size, drop n mb);
        if ok : bool then mret 0 else emit (Lost (drop n mb));; mret (-1)
    end
  end.

Definition shutdown : X t unit := emit Shutdown.

End RealmSocket.

(** ** The session of a socket *)

(** [RealmSocket::Session]: an object that refers to its socket. *)
Class Session (S : Type) : Type := {
  socket : S → t;
  set_socket : t → S → S;
  OnRead : X S unit;
  OnAccept : X S unit;
  OnClose : X S unit }.

Class SessionLaws (S : Type) `{Session S} : Prop := {
  socket_set x s : socket (set_socket x s) = x;
  set_socket_socket s : set_socket (socket s) s = s;
  set_socket_set x y s : set_socket x (set_socket y s) = set_socket x s }.

Section Session.
Context {S : Type} `{Session S}.

(** A method of the socket, called by its session. *)
Definition on {A} (m : X t A) : X S A := λ s,
  let '(r, x) := m (socket s) in (r, set_socket x s).

(** [open]: the address of the peer, and what the reactor says. *)
Definition open (peer : option (list Z * Z)) (registered : bool) : X S Z :=
  match peer with
  | None => mret (-1)
  | Some (address, port) =>
    on (modifyX (set_remote address port));;
    if negb registered then mret (-1)
    else
      on (emit RegisterHandler);;
      s ← getX;
      (when has_session (socket s) do OnAccept);;
      on (emit RemoveReference);;
      mret 0
  end.

Definition close : X S Z :=
  on shutdown;;
  on (modifyX (set_closing true));;
  on (emit RemoveReference);;
  mret 0.

Definition handle_close (invalid_handle : bool) : X S Z :=
  on (modifyX (set_closing true));;
  (when invalid_handle do on (emit CloseWriter));;
  s ← getX;
  (when has_session (socket s) do OnClose);;
  on (emit RemoveHandler);;
  mret 0.

(** [peer().recv] gives at most as many bytes as there is space; none is the end. *)
Definition handle_input (r : recv_result) : X S Z :=
  s ← getX;
  if closing_ (socket s) then mret (-1)
  else
    let space := space (socket s) in
    match r with
    | RecvWouldBlock => mret 0
    | RecvError => mret (-1)
    | Received bytes =>
      let bytes := take space bytes in
      if (length bytes =? 0)%nat then mret (-1)
      else
        on (modifyX (λ x, set_input (input x ++ bytes) (skipped x) x));;
        (when has_session (socket s) do (OnRead;; on crunch));;
        mret (if (length bytes =? space)%nat then 1 else 0)
    end.

End Session.

(** ** What has been sent arrives, in order *)

(** The bytes on the wire, those given up, and those waiting. *)
Fixpoint wire (h : list io) : list Z :=
  match h with [] => [] | Wire b :: h => wire h ++ b | _ :: h => wire h end.
Fixpoint lost (h : list io) : list Z :=
  match h with [] => [] | Lost b :: h => lost h ++ b | _ :: h => lost h end.
Fixpoint sent (h : list io) : list Z :=
  match h with [] => [] | Sending b :: h => sent h ++ b | _ :: h => sent h end.
Definition pending (s : t) : list Z := concat (snd <$> msg_queue s).

(** Nothing was lost, and the peer has a prefix of what was sent. *)
Definition in_order (s : t) : Prop := lost (log s) = [] → sent (log s) = wire (log s) ++ pending s.

(** No empty block waits in the queue, and each has the size of its data block. *)
Definition queue_ok (s : t) : Prop := Forall (λ mb, (0 < length mb.2 ≤ mb.1)%nat) (msg_queue s).

Inductive op : Type := Send (buf : list Z) | Output | Quiet (e : io).
Definition quiet (e : io) : bool :=
  match e with Sending _ | Wire _ | Lost _ => false | _ => true end.

Definition run_op (env : Env) (o : op) : X t Z :=
  match o with
  | Send buf => ok ← send env buf; mret (if ok : bool then 1 else 0)
  | Output => handle_output env
  | Quiet e => (when quiet e do emit e);; mret 0
  end.
Fixpoint run_ops (env : Env) (ops : list op) : X t unit :=
  match ops with [] => mret tt | o :: ops => run_op env o;; run_ops env ops end.

Ltac bind := unfold ask, emit, mbind, X_bind, getX, modifyX, mret, X_ret; cbv beta iota.

Lemma noblk_send_cases env mb s :
  noblk_send env mb s = (Ok None, s) ∨
  (∃ n, noblk_send env mb s = (Ok (Some n), s) ∧ n = 0%nat ∧ mb ≠ []) ∨
  (∃ n, noblk_send env mb s = (Ok (Some n), record_io (Wire (take n mb)) s) ∧ (0 < n ≤ length mb)%nat).
Proof.
  unfold noblk_send. destruct (Nat.eqb_spec (length mb) 0); [by left|].
  bind. destruct (peer_send env (log s) mb) as [n'| |]; [|right; left|by left].
  - destruct (Nat.eqb_spec (Nat.min n' (length mb)) 0); [by left|]. right; right.
    eexists. split; [reflexivity|lia].
  - eexists. split; [done|]. by destruct mb.
Qed.

(** Bytes [mb] of what was sent are neither on the wire nor in the queue. *)
Definition owing (mb : list Z) (s : t) : Prop :=
  (lost (log s) = [] → sent (log s) = wire (log s) ++ pending s ++ mb) ∧ queue_ok s.
(** Those bytes belong in front of the queue. *)
Definition owing_front (mb : list Z) (s : t) : Prop :=
  (lost (log s) = [] → sent (log s) = wire (log s) ++ mb ++ pending s) ∧ queue_ok s.

Definition good (s : t) : Prop := in_order s ∧ queue_ok s.

Lemma good_lost s b : queue_ok s → b ≠ [] → good (record_io (Lost b) s).
Proof. intros Hq Hb. split; [|done]. intros Hl. simpl in Hl. by apply app_eq_nil in Hl as [_ ->]. Qed.

Lemma good_quiet s e : good s → quiet e = true → good (record_io e s).
Proof. intros [Ho Hq] He. split; [|done]. intros Hl. destruct e; try done; apply Ho, Hl. Qed.

Lemma pending_snoc s mb : pending (set_msg_queue (msg_queue s ++ [mb]) s) = pending s ++ mb.2.
Proof. unfold pending. simpl. rewrite fmap_app, concat_app. simpl. by rewrite app_nil_r. Qed.

Lemma send_later_good env size rest s :
  owing rest s → (0 < length rest ≤ size)%nat → ∃ r s', send_later env size rest s = (Ok r, s') ∧ good s'.
Proof.
  intros [Ho Hq] Hr. unfold send_later, enqueue. bind.
  destruct (high_water_mark <=? cur_bytes (msg_queue s)).
  - do 2 eexists. split; [done|]. apply good_lost; [done|]. destruct rest; [simpl in Hr; lia|done].
  - do 2 eexists. split; [done|]. apply good_quiet; [|done]. split.
    + intros Hl. change (sent (log s) = wire (log s) ++ pending (set_msg_queue (msg_queue s ++ [(size, rest)]) s)).
      rewrite pending_snoc. by apply Ho.
    + apply Forall_app. split; [done|]. by constructor.
Qed.

Lemma owing_wire n mb s : owing mb s → msg_queue s = [] → owing (drop n mb) (record_io (Wire (take n mb)) s).
Proof.
  intros [Ho Hq] E. split; [|done]. intros Hl. specialize (Ho Hl). unfold pending in *. simpl. rewrite E in *.
  simpl in *. by rewrite <- app_assoc, take_drop.
Qed.

Lemma owing_nil s : owing [] s → good s.
Proof. intros [Ho Hq]. split; [|done]. intros Hl. by rewrite (Ho Hl), app_nil_r. Qed.

Lemma send_good env buf s : good s → ∃ r s', send env buf s = (Ok r, s') ∧ good s'.
Proof.
  intros [Ho Hq]. unfold send. bind.
  assert (owing buf (record_io (Sending buf) s)) as Hw.
  { split; [|done]. intros Hl. specialize (Ho Hl). simpl. by rewrite Ho, app_assoc. }
  destruct (Nat.eqb_spec (length buf) 0) as [E|E].
  { do 2 eexists. split; [done|]. apply owing_nil. by destruct buf. }
  change (msg_queue (record_io (Sending buf) s)) with (msg_queue s).
  destruct (msg_queue s) as [|mb q] eqn:Eq; [|apply send_later_good; [done|lia]].
  destruct (noblk_send_cases env buf (record_io (Sending buf) s)) as [Hn|[(n & Hn & -> & _)|(n & Hn & Hl)]]; rewrite Hn.
  - do 2 eexists. split; [done|]. apply good_lost; [done|by destruct buf].
  - rewrite (proj2 (Nat.eqb_neq _ _)) by lia. apply send_later_good; [by rewrite drop_0|]. rewrite length_drop. lia.
  - destruct (Nat.eqb_spec n (length buf)) as [->|].
    + do 2 eexists. split; [done|]. apply owing_nil. rewrite <- (drop_all buf). by apply owing_wire.
    + apply send_later_good; [by apply owing_wire|]. rewrite length_drop. lia.
Qed.

Lemma handle_output_good env s : good s → ∃ r s', handle_output env s = (Ok r, s') ∧ good s'.
Proof.
  intros [Ho Hq]. unfold handle_output. bind. destruct (closing_ s) eqn:Ec; [by repeat econstructor|].
  destruct (msg_queue s) as [|[size mb] q] eqn:Eq.
  { do 2 eexists. split; [done|]. by apply good_quiet. }
  unfold queue_ok in Hq. rewrite Eq in Hq. apply Forall_cons in Hq as [Hmb Hq]. simpl in Hmb.
  set (s1 := set_msg_queue q s).
  assert (owing_front mb s1) as [Hw _].
  { split; [|done]. intros Hl. etrans; [exact (Ho Hl)|]. unfold pending. by rewrite Eq. }
  destruct (noblk_send_cases env mb s1) as [Hn|[(n & Hn & -> & _)|(n & Hn & Hl)]]; rewrite Hn.
  - do 2 eexists. split; [done|]. apply good_lost; [done|]. destruct mb; [simpl in Hmb; lia|done].
  - rewrite (proj2 (Nat.eqb_neq _ _)) by lia. unfold enqueue. bind. rewrite drop_0.
    destruct (high_water_mark <=? cur_bytes (msg_queue s1)); do 2 eexists; (split; [done|]).
    + apply good_lost; [done|]. destruct mb; [simpl in Hmb; lia|done].
    + split; [|by constructor]. intros Hl. etrans; [exact (Hw Hl)|done].
  - destruct (Nat.eqb_spec n (length mb)) as [->|].
    + do 2 eexists. split; [done|]. split; [|done]. intros Hl'. etrans; [exact (Hw Hl')|]. simpl.
      rewrite firstn_all. by rewrite <- app_assoc.
    + unfold enqueue. bind. change (msg_queue (record_io _ s1)) with (msg_queue s1).
      destruct (high_water_mark <=? cur_bytes (msg_queue s1)); do 2 eexists; (split; [done|]).
      * apply good_lost; [done|]. intros E. apply (f_equal length) in E. rewrite length_drop in E. simpl in E. lia.
      * split; [|constructor; [simpl; rewrite length_drop; lia|done]]. intros Hl'. etrans; [exact (Hw Hl')|]. simpl.
        unfold pending. simpl. rewrite <- app_assoc. f_equal. by rewrite app_assoc, take_drop.
Qed.

Lemma run_ops_good env ops s : good s → ∃ s', run_ops env ops s = (Ok tt, s') ∧ good s'.
Proof.
  revert s. induction ops as [|o ops IH]; intros s Hs; simpl; [by exists s|].
  assert (∃ r s', run_op env o s = (Ok r, s') ∧ good s') as (r & s' & E & Hg).
  { destruct o as [buf| |e]; simpl.
    - destruct (send_good env buf s Hs) as (r & s' & E & Hg). rewrite (bindX_Ok _ _ _ _ _ E).
      do 2 eexists. split; [reflexivity|exact Hg].
    - by apply handle_output_good.
    - bind. destruct (quiet e) eqn:He; do 2 eexists; (split; [done|]); [by apply good_quiet|done]. }
  rewrite (bindX_Ok _ _ _ _ _ E). by apply IH.
Qed.

End RealmSocket.
