(* ===== verification/AuthSocket.v ===== *)
(** * AuthSocket: logging in to the log-on server.

    [authserver/Server/AuthSocket.{h,cpp}]: the commands of a client (SRP6 log-on, reconnection,
    realm list, patch transfer), one definition per handler, and the loop that dispatches them.
    The login database, the clock, the configuration and the random numbers answer from the
    history of calls; OpenSSL is the parameter of BigNumber.v.  The list of realms, a singleton
    that all connections share, is part of the state. *)
From S2P Require Import Prelude.
From stdpp Require Import strings list.
From S2P Require Import Bits ByteBuffer BigNumber RealmList RealmSocket FieldsText.
Open Scope string_scope.
Open Scope list_scope.
Open Scope Z_scope.

Module AuthSocket.

(** ** Data *)

Definition AUTH_LOGON_CHALLENGE : Z := 0x00.
Definition AUTH_LOGON_PROOF : Z := 0x01.
Definition AUTH_RECONNECT_CHALLENGE : Z := 0x02.
Definition AUTH_RECONNECT_PROOF : Z := 0x03.
Definition REALM_LIST : Z := 0x10.
Definition XFER_ACCEPT : Z := 0x32.
Definition XFER_RESUME : Z := 0x33.
Definition XFER_CANCEL : Z := 0x34.

Definition WOW_SUCCESS : Z := 0x00.
Definition WOW_FAIL_BANNED : Z := 0x03.
Definition WOW_FAIL_UNKNOWN_ACCOUNT : Z := 0x04.
Definition WOW_FAIL_VERSION_INVALID : Z := 0x09.
Definition WOW_FAIL_SUSPENDED : Z := 0x0C.

Inductive eStatus : Type := STATUS_CONNECTED | STATUS_AUTHED.

(** The packed structures that are received: their sizes and members. *)
Definition sizeof_sAuthLogonChallenge_C : nat := 35.
Definition ch_size (buf : list Z) : Z := le_val (take 2 (drop 2 buf)).
Definition ch_build (buf : list Z) : Z := le_val (take 2 (drop 11 buf)).
(** Members that the code takes for C strings reach to the next zero. *)
Definition ch_os (buf : list Z) : list Z := ByteBuffer.c_string (drop 17 buf).
Definition ch_I (buf : list Z) : list Z := ByteBuffer.c_string (drop 34 buf).
(** [ch->country[4-i-1]] for [i] from 0 to 3 *)
Definition ch_country_reversed (buf : list Z) : list Z := rev (take 4 (drop 21 buf)).

Record sAuthLogonProof_C : Type := mkLogonProof { lp_A : list Z; lp_M1 : list Z }.
Definition sizeof_sAuthLogonProof_C : nat := 75.
Definition logon_proof (buf : list Z) : sAuthLogonProof_C :=
  mkLogonProof (take 32 (drop 1 buf)) (take 20 (drop 33 buf)).

Record sAuthReconnectProof_C : Type := mkReconnectProof { rp_R1 : list Z; rp_R2 : list Z }.
Definition sizeof_sAuthReconnectProof_C : nat := 58.
Definition reconnect_proof (buf : list Z) : sAuthReconnectProof_C :=
  mkReconnectProof (take 16 (drop 1 buf)) (take 20 (drop 17 buf)).

(** [sAuthLogonProof_S] and [sAuthLogonProof_S_Old] *)
Definition logon_proof_S (M2 : list Z) (unk1 unk2 unk3 : Z) : list Z :=
  [AUTH_LOGON_PROOF; 0] ++ M2 ++ le_bytes 4 unk1 ++ le_bytes 4 unk2 ++ le_bytes 2 unk3.
Definition logon_proof_S_old (M2 : list Z) (unk2 : Z) : list Z :=
  [AUTH_LOGON_PROOF; 0] ++ M2 ++ le_bytes 4 unk2.

(** The row of [LOGIN_SEL_LOGONCHALLENGE]. *)
Record LogonRow : Type := mkLogonRow {
  row_sha_pass_hash : list Z; row_id : Z; row_locked : Z; row_last_ip : list Z; row_gmlevel : Z;
  row_v : list Z; row_s : list Z }.

Inductive statement : Type :=
| LOGIN_DEL_EXPIRED_IP_BANS
| LOGIN_UPD_EXPIRED_ACCOUNT_BANS
| LOGIN_UPD_VS (v s login : list Z)
| LOGIN_UPD_LOGONPROOF (sessionkey ip : list Z) (locale : Z) (os login : list Z)
| LOGIN_UPD_FAILEDLOGINS (login : list Z)
| LOGIN_INS_ACCOUNT_AUTO_BANNED (id seconds : Z)
| LOGIN_INS_IP_AUTO_BANNED (ip : list Z) (seconds : Z).

Inductive query : Type :=
| LOGIN_SEL_IP_BANNED (ip : list Z)
| LOGIN_SEL_LOGONCHALLENGE (login : list Z)
| LOGIN_SEL_ACCOUNT_BANNED (id : Z)
| LOGIN_SEL_SESSIONKEY (login : list Z)
| LOGIN_SEL_FAILEDLOGINS (login : list Z)
| LOGIN_SEL_ACCOUNT_ID_BY_NAME (login : list Z)
| LOGIN_SEL_NUM_CHARS_ON_REALM (realm account : Z)
| LOGIN_SEL_REALMLIST.

Inductive call : Type :=
| Execute (st : statement)
| Query (q : query)
| Rand (numbits : Z)
| Time
| Seek (offset : Z)                            (* fseek on the patch *)
| StartPatcher.

(** A null result is [None]; a null column is read as 0. *)
Record Env : Type := mkEnv {
  socket_env : RealmSocket.Env;
  ip_banned : list call → list Z → bool;
  logonchallenge : list call → list Z → option LogonRow;
  account_banned : list call → Z → option (Z * Z);           (* bandate, unbandate *)
  sessionkey : list call → list Z → option (list Z * Z);     (* sessionkey, gmlevel *)
  failedlogins : list call → list Z → option (Z * Z);        (* id, failed_logins *)
  account_id : list call → list Z → option Z;
  num_chars : list call → Z → Z → option Z;
  realmlist : list call → list RealmRow;
  SetRand : list call → Z → Z;                               (* BN_rand, odd, highest bit set *)
  time : list call → Z;
  addr_to_string : Z → list Z → list Z;
  config_WrongPass_MaxCount : Z;
  config_WrongPass_BanTime : Z;
  config_WrongPass_BanType : bool }.

Record t : Type := mk {
  socket : RealmSocket.t;
  bn_N : BigNumber.t; bn_s : BigNumber.t; bn_g : BigNumber.t; bn_v : BigNumber.t;
  bn_b : BigNumber.t; bn_B : BigNumber.t; bn_K : BigNumber.t;
  _reconnectProof : BigNumber.t;
  _authed : bool;
  _login : list Z;
  _localizationName : list Z;
  _os : list Z;
  _build : Z;
  _expversion : Z;
  _accountSecurityLevel : Z;
  pPatch : bool;                               (* not NULL *)
  realm_list : RealmList.t;                    (* *sRealmList *)
  calls : list call }.                         (* newest first *)

Definition set_socket (x : RealmSocket.t) (s : t) : t :=
  mk x (bn_N s) (bn_s s) (bn_g s) (bn_v s) (bn_b s) (bn_B s) (bn_K s) (_reconnectProof s) (_authed s) (_login s)
     (_localizationName s) (_os s) (_build s) (_expversion s) (_accountSecurityLevel s) (pPatch s) (realm_list s) (calls s).
Definition set_vs (v' s' : BigNumber.t) (s : t) : t :=
  mk (socket s) (bn_N s) s' (bn_g s) v' (bn_b s) (bn_B s) (bn_K s) (_reconnectProof s) (_authed s) (_login s)
     (_localizationName s) (_os s) (_build s) (_expversion s) (_accountSecurityLevel s) (pPatch s) (realm_list s) (calls s).
Definition set_b (b B : BigNumber.t) (s : t) : t :=
  mk (socket s) (bn_N s) (bn_s s) (bn_g s) (bn_v s) b B (bn_K s) (_reconnectProof s) (_authed s) (_login s)
     (_localizationName s) (_os s) (_build s) (_expversion s) (_accountSecurityLevel s) (pPatch s) (realm_list s) (calls s).
Definition set_K (K : BigNumber.t) (s : t) : t :=
  mk (socket s) (bn_N s) (bn_s s) (bn_g s) (bn_v s) (bn_b s) (bn_B s) K (_reconnectProof s) (_authed s) (_login s)
     (_localizationName s) (_os s) (_build s) (_expversion s) (_accountSecurityLevel s) (pPatch s) (realm_list s) (calls s).
Definition set_reconnectProof (x : BigNumber.t) (s : t) : t :=
  mk (socket s) (bn_N s) (bn_s s) (bn_g s) (bn_v s) (bn_b s) (bn_B s) (bn_K s) x (_authed s) (_login s)
     (_localizationName s) (_os s) (_build s) (_expversion s) (_accountSecurityLevel s) (pPatch s) (realm_list s) (calls s).
Definition set_authed (x : bool) (s : t) : t :=
  mk (socket s) (bn_N s) (bn_s s) (bn_g s) (bn_v s) (bn_b s) (bn_B s) (bn_K s) (_reconnectProof s) x (_login s)
     (_localizationName s) (_os s) (_build s) (_expversion s) (_accountSecurityLevel s) (pPatch s) (realm_list s) (calls s).
Definition set_login (x : list Z) (s : t) : t :=
  mk (socket s) (bn_N s) (bn_s s) (bn_g s) (bn_v s) (bn_b s) (bn_B s) (bn_K s) (_reconnectProof s) (_authed s) x
     (_localizationName s) (_os s) (_build s) (_expversion s) (_accountSecurityLevel s) (pPatch s) (realm_list s) (calls s).
Definition set_localizationName (x : list Z) (s : t) : t :=
  mk (socket s) (bn_N s) (bn_s s) (bn_g s) (bn_v s) (bn_b s) (bn_B s) (bn_K s) (_reconnectProof s) (_authed s) (_login s)
     x (_os s) (_build s) (_expversion s) (_accountSecurityLevel s) (pPatch s) (realm_list s) (calls s).
(** [_build], [_expversion] and [_os], which the challenges set together. *)
Definition set_client (build expversion : Z) (os : list Z) (s : t) : t :=
  mk (socket s) (bn_N s) (bn_s s) (bn_g s) (bn_v s) (bn_b s) (bn_B s) (bn_K s) (_reconnectProof s) (_authed s) (_login s)
     (_localizationName s) os build expversion (_accountSecurityLevel s) (pPatch s) (realm_list s) (calls s).
Definition set_os (x : list Z) (s : t) : t := set_client (_build s) (_expversion s) x s.
Definition set_accountSecurityLevel (x : Z) (s : t) : t :=
  mk (socket s) (bn_N s) (bn_s s) (bn_g s) (bn_v s) (bn_b s) (bn_B s) (bn_K s) (_reconnectProof s) (_authed s) (_login s)
     (_localizationName s) (_os s) (_build s) (_expversion s) x (pPatch s) (realm_list s) (calls s).
Definition set_realm_list (x : RealmList.t) (s : t) : t :=
  mk (socket s) (bn_N s) (bn_s s) (bn_g s) (bn_v s) (bn_b s) (bn_B s) (bn_K s) (_reconnectProof s) (_authed s) (_login s)
     (_localizationName s) (_os s) (_build s) (_expversion s) (_accountSecurityLevel s) (pPatch s) x (calls s).
Definition record_call (c : call) (s : t) : t :=
  mk (socket s) (bn_N s) (bn_s s) (bn_g s) (bn_v s) (bn_b s) (bn_B s) (bn_K s) (_reconnectProof s) (_authed s) (_login s)
     (_localizationName s) (_os s) (_build s) (_expversion s) (_accountSecurityLevel s) (pPatch s) (realm_list s) (c :: calls s).

Definition bytes_of (s : string) : list Z :=
  (λ c, Z.of_nat (Ascii.nat_of_ascii c)) <$> String.list_ascii_of_string s.

(** [localeNames] and [GetLocaleByName] of [shared/Common.cpp] *)
Definition LOCALE_enUS : Z := 0.
Definition localeNames : list (list Z) :=
  bytes_of <$> ["enUS"; "koKR"; "frFR"; "deDE"; "zhCN"; "zhTW"; "esES"; "esMX"; "ruRU"].
Fixpoint locale_loop (names : list (list Z)) (i : Z) (name : list Z) : Z :=
  match names with
  | [] => LOCALE_enUS
  | n :: names => if bool_decide (name = n) then i else locale_loop names (i + 1) name
  end.
Definition GetLocaleByName (name : list Z) : Z := locale_loop localeNames 0 name.

Section AuthSocket.
Context `{OpenSSL} (env : Env).

(** ** Small steps *)

Definition emit (c : call) : X t unit := modifyX (record_call c).
(** The environment answers [c] from what happened before. *)
Definition ask {A} (c : call) (f : list call → A) : X t A := s ← getX; emit c;; mret (f (calls s)).
Definition Execute_ (st : statement) : X t unit := emit (Execute st).

(** A method of the socket. *)
Definition sock {A} (m : X RealmSocket.t A) : X t A := λ s,
  let '(r, x) := m (socket s) in (r, set_socket x s).
(** No handler looks at the result of [send]. *)
Definition send (buf : list Z) : X t unit := sock (RealmSocket.send (socket_env env) buf);; mret tt.
Definition shutdown : X t unit := sock RealmSocket.shutdown.

(** Stream operations on the local [ByteBuffer pkt]. *)
Definition write (m : M ByteBuffer.t unit) (pkt : ByteBuffer.t) : X t ByteBuffer.t :=
  '(_, pkt) ← liftX (m pkt); mret pkt.

(** [len] bytes behind a pointer into an array, for [memcpy], [memcmp] and [append]. *)
Definition bytes_at (array : list Z) (len : nat) : result (list Z) :=
  if (length array <? len)%nat then Throw UndefinedBehaviour else Ok (take len array).

(** The constructor. *)
Definition N_hex : list Z := bytes_of "894B645E89E1535BBDAD5B8B290650530801B18EBFBF5E8FAB3C82872A3E9BB7".
Definition new (realms : RealmList.t) (sock : RealmSocket.t) : t :=
  mk sock (BigNumber.SetHexStr N_hex 0) 0 (BigNumber.SetDword 7) 0 0 0 0 0 false [] [] [] 0 0 SEC_PLAYER false realms [].

Definition s_BYTE_SIZE : nat := 32.

(** ** The log-on challenge *)

(** [mDigest] of [_SetVSFields]: the hash of the database as 20 bytes. *)
Definition password_digest (rI : list Z) : list Z :=
  let I := BigNumber.SetHexStr rI 0 in
  let n := BigNumber.GetNumBytes I in
  rev (if (n <=? SHA1Hash.SHA_DIGEST_LENGTH)%nat
       then ByteBuffer.overwrite 0 (take n (BigNumber.AsByteArray I 0 true)) (replicate SHA1Hash.SHA_DIGEST_LENGTH 0)
       else replicate SHA1Hash.SHA_DIGEST_LENGTH 0).

Definition _SetVSFields (rI : list Z) : X t unit :=
  s ← ask (Rand (Z.of_nat s_BYTE_SIZE * 8)) (λ h, SetRand env h (Z.of_nat s_BYTE_SIZE * 8));
  let mDigest := password_digest rI in
  let sha := SHA1Hash.UpdateData (BigNumber.AsByteArray s 0 true) SHA1Hash.new in
  let sha := SHA1Hash.Finalize (SHA1Hash.UpdateData mDigest sha) in
  x ← liftX (BigNumber.SetBinary (SHA1Hash.GetDigest sha));
  st ← getX;
  let v := BigNumber.ModExp (bn_g st) x (bn_N st) in
  modifyX (set_vs v s);;
  Execute_ (LOGIN_UPD_VS (BigNumber.AsHexStr v) (BigNumber.AsHexStr s) (_login st)).

(** How both challenges are read: [None] is a return. *)
Definition recv_challenge : X t (option (list Z)) :=
  n ← sock RealmSocket.recv_len;
  if (n <? sizeof_sAuthLogonChallenge_C)%nat then mret None
  else
    header ← sock (RealmSocket.recv 4);
    match header with
    | None => mret None
    | Some header =>
      let remaining := ch_size header in
      n ← sock RealmSocket.recv_len;
      if (remaining <? Z.of_nat (sizeof_sAuthLogonChallenge_C - 4)) || (Z.of_nat n <? remaining) then mret None
      else
        body ← sock (RealmSocket.recv (Z.to_nat remaining));
        match body with
        | None => mret None
        | Some body => mret (Some (header ++ body ++ [0]))
        end
    end.

(** The reply with the numbers of the exchange, from the salt and verifier on. *)
Definition challenge_numbers (pkt : ByteBuffer.t) : X t ByteBuffer.t :=
  b ← ask (Rand (19 * 8)) (λ h, SetRand env h (19 * 8));
  s ← getX;
  let gmod := BigNumber.ModExp (bn_g s) b (bn_N s) in
  let B := BigNumber.rem (BigNumber.add (BigNumber.mul (bn_v s) 3) gmod) (bn_N s) in
  modifyX (set_b b B);;
  (if (32 <? BigNumber.GetNumBytes gmod)%nat then throwX AssertionFailed else mret tt);;
  unk3 ← ask (Rand (16 * 8)) (λ h, SetRand env h (16 * 8));
  B32 ← liftX (bytes_at (BigNumber.AsByteArray B 32 true) 32);
  g1 ← liftX (bytes_at (BigNumber.AsByteArray (bn_g s) 0 true) 1);
  N32 ← liftX (bytes_at (BigNumber.AsByteArray (bn_N s) 32 true) 32);
  unk16 ← liftX (bytes_at (BigNumber.AsByteArray unk3 16 true) 16);
  write
    (ByteBuffer.shl_uint8 (if AuthHelper.IsAcceptedClientBuild (_build s) then WOW_SUCCESS else WOW_FAIL_VERSION_INVALID);;
     ByteBuffer.append B32;;
     ByteBuffer.shl_uint8 1;;
     ByteBuffer.append g1;;
     ByteBuffer.shl_uint8 32;;
     ByteBuffer.append N32;;
     ByteBuffer.append (BigNumber.AsByteArray (bn_s s) 0 true);;
     ByteBuffer.append unk16;;
     (* securityFlags is 0: nothing is asked for *)
     ByteBuffer.shl_uint8 0) pkt.

(** [v] and [s] of the account, from the database or made anew; both are stored as strings of
    hexadecimal digits, two for a byte. *)
Definition account_numbers (fields : LogonRow) : X t unit :=
  if negb (length (row_v fields) =? s_BYTE_SIZE * 2)%nat || negb (length (row_s fields) =? s_BYTE_SIZE * 2)%nat
  then _SetVSFields (row_sha_pass_hash fields)
  else
    s ← getX;
    modifyX (set_vs (BigNumber.SetHexStr (row_v fields) (bn_v s)) (BigNumber.SetHexStr (row_s fields) (bn_s s))).

(** The part of [_HandleLogonChallenge] for an account that may log in. *)
Definition challenge_account (ch : list Z) (fields : LogonRow) (pkt : ByteBuffer.t) : X t ByteBuffer.t :=
  account_numbers fields;;
  pkt ← challenge_numbers pkt;
  modifyX (set_accountSecurityLevel (account_type (row_gmlevel fields)));;
  modifyX (set_localizationName (ch_country_reversed ch));;
  mret pkt.

(** What the reply says, after its first two bytes. *)
Definition challenge_reply (ch : list Z) (pkt : ByteBuffer.t) : X t ByteBuffer.t :=
  Execute_ LOGIN_DEL_EXPIRED_IP_BANS;;
  s ← getX;
  let ip_address := RealmSocket._remoteAddress (socket s) in
  result ← ask (Query (LOGIN_SEL_IP_BANNED ip_address)) (λ h, ip_banned env h ip_address);
  if result : bool then write (ByteBuffer.shl_uint8 WOW_FAIL_BANNED) pkt
  else
    res2 ← ask (Query (LOGIN_SEL_LOGONCHALLENGE (_login s))) (λ h, logonchallenge env h (_login s));
    match res2 with
    | None => write (ByteBuffer.shl_uint8 WOW_FAIL_UNKNOWN_ACCOUNT) pkt
    | Some fields =>
      if (row_locked fields =? 1) && negb (bool_decide (row_last_ip fields = ip_address)) then
        write (ByteBuffer.shl_uint8 WOW_FAIL_SUSPENDED) pkt
      else
        Execute_ LOGIN_UPD_EXPIRED_ACCOUNT_BANS;;
        banresult ← ask (Query (LOGIN_SEL_ACCOUNT_BANNED (row_id fields))) (λ h, account_banned env h (row_id fields));
        match banresult with
        | Some (bandate, unbandate) =>
          write (ByteBuffer.shl_uint8 (if bandate =? unbandate then WOW_FAIL_BANNED else WOW_FAIL_SUSPENDED)) pkt
        | None => challenge_account ch fields pkt
        end
    end.

Definition _HandleLogonChallenge : X t bool :=
  buf ← recv_challenge;
  match buf with
  | None => mret false
  | Some ch =>
    modifyX (set_login (ch_I ch));;
    modifyX (set_client (ch_build ch) (AuthHelper.expversion (ch_build ch)) (ch_os ch));;
    if (4 <? length (ch_os ch))%nat then mret false
    else
      modifyX (set_os (rev (ch_os ch)));;
      pkt ← write (ByteBuffer.shl_uint8 AUTH_LOGON_CHALLENGE;; ByteBuffer.shl_uint8 0) ByteBuffer.new;
      pkt ← challenge_reply ch pkt;
      send (ByteBuffer.storage pkt);;
      mret true
  end.

(** ** The log-on proof *)

(** The bytes of an array at even and at odd places. *)
Fixpoint every_other (l : list Z) : list Z :=
  match l with x :: _ :: l => x :: every_other l | [x] => [x] | [] => [] end.
Fixpoint interleave (l1 l2 : list Z) : list Z :=
  match l1, l2 with x :: l1, y :: l2 => x :: y :: interleave l1 l2 | _, _ => [] end.

(** [vK]: the digests of both halves of [S], byte by byte in turn. *)
Definition session_key (t32 : list Z) : list Z :=
  let sha := SHA1Hash.Finalize (SHA1Hash.UpdateData (every_other t32) (SHA1Hash.Initialize SHA1Hash.new)) in
  let even := SHA1Hash.GetDigest sha in
  let sha := SHA1Hash.Finalize (SHA1Hash.UpdateData (every_other (tail t32)) (SHA1Hash.Initialize sha)) in
  interleave even (SHA1Hash.GetDigest sha).

Definition sha_BigNumbers (bns : list BigNumber.t) : list Z :=
  SHA1Hash.GetDigest (SHA1Hash.Finalize (SHA1Hash.UpdateBigNumbers bns (SHA1Hash.Initialize SHA1Hash.new))).

(** [M], the answer that the client should give. *)
Definition expected_M (login : list Z) (N g s A B K : BigNumber.t) : result BigNumber.t :=
  t3 ← BigNumber.SetBinary (zip_with Z.lxor (sha_BigNumbers [N]) (sha_BigNumbers [g]));
  let sha := SHA1Hash.Finalize (SHA1Hash.UpdateData login (SHA1Hash.Initialize SHA1Hash.new)) in
  let t4 := SHA1Hash.GetDigest sha in
  let sha := SHA1Hash.UpdateBigNumbers [t3] (SHA1Hash.Initialize sha) in
  let sha := SHA1Hash.UpdateBigNumbers [s; A; B; K] (SHA1Hash.UpdateData t4 sha) in
  BigNumber.SetBinary (SHA1Hash.GetDigest (SHA1Hash.Finalize sha)).

(** [S] and the key [K] that comes from it. *)
Definition server_S (A : BigNumber.t) (s : t) : result BigNumber.t :=
  u ← BigNumber.SetBinary (sha_BigNumbers [A; bn_B s]);
  Ok (BigNumber.ModExp (BigNumber.mul A (BigNumber.ModExp (bn_v s) u (bn_N s))) (bn_b s) (bn_N s)).
Definition server_K (S : BigNumber.t) : result BigNumber.t :=
  t32 ← bytes_at (BigNumber.AsByteArray S 32 true) 32;
  BigNumber.SetBinary (session_key t32).

(** [!memcmp(M.AsByteArray(), lp.M1, 20)] *)
Definition proof_matches (M : BigNumber.t) (M1 : list Z) : result bool :=
  M20 ← bytes_at (BigNumber.AsByteArray M 0 true) 20;
  Ok (bool_decide (M20 = M1)).

(** The answer to a right password. *)
Definition logon_accepted (A M : BigNumber.t) : X t unit :=
  s ← getX;
  Execute_ (LOGIN_UPD_LOGONPROOF (BigNumber.AsHexStr (bn_K s)) (RealmSocket._remoteAddress (socket s))
              (GetLocaleByName (_localizationName s)) (_os s) (_login s));;
  let M2 := sha_BigNumbers [A; M; bn_K s] in
  (if z2b (Z.land (_expversion s) AuthHelper.POST_BC_EXP_FLAG)
   then send (logon_proof_S M2 0x00800000 0 0) else send (logon_proof_S_old M2 0));;
  modifyX (set_authed true).

(** The answer to a wrong one, and the ban of those who try too often. *)
Definition logon_refused : X t unit :=
  send [AUTH_LOGON_PROOF; WOW_FAIL_UNKNOWN_ACCOUNT; 3; 0];;
  s ← getX;
  let MaxWrongPassCount := u32 (config_WrongPass_MaxCount env) in
  if 0 <? MaxWrongPassCount then
    Execute_ (LOGIN_UPD_FAILEDLOGINS (_login s));;
    loginfail ← ask (Query (LOGIN_SEL_FAILEDLOGINS (_login s))) (λ h, failedlogins env h (_login s));
    match loginfail with
    | None => mret tt
    | Some (acc_id, failed_logins) =>
      if MaxWrongPassCount <=? failed_logins then
        let WrongPassBanTime := u32 (config_WrongPass_BanTime env) in
        if config_WrongPass_BanType env then Execute_ (LOGIN_INS_ACCOUNT_AUTO_BANNED acc_id WrongPassBanTime)
        else Execute_ (LOGIN_INS_IP_AUTO_BANNED (RealmSocket._remoteAddress (socket s)) WrongPassBanTime)
      else mret tt
    end
  else mret tt.

Definition _HandleLogonProof : X t bool :=
  buf ← sock (RealmSocket.recv sizeof_sAuthLogonProof_C);
  match buf with
  | None => mret false
  | Some buf =>
    let lp := logon_proof buf in
    s ← getX;
    if _expversion s =? AuthHelper.NO_VALID_EXP_FLAG then shutdown;; mret true
    else
      A ← liftX (BigNumber.SetBinary (lp_A lp));
      if BigNumber.isZero A then shutdown;; mret true
      else
        S ← liftX (server_S A s);
        K ← liftX (server_K S);
        modifyX (set_K K);;
        M ← liftX (expected_M (_login s) (bn_N s) (bn_g s) (bn_s s) A (bn_B s) K);
        ok ← liftX (proof_matches M (lp_M1 lp));
        (if ok : bool then logon_accepted A M else logon_refused);;
        mret true
  end.

(** ** Reconnection *)

Definition _HandleReconnectChallenge : X t bool :=
  buf ← recv_challenge;
  match buf with
  | None => mret false
  | Some ch =>
    modifyX (set_login (ch_I ch));;
    result ← ask (Query (LOGIN_SEL_SESSIONKEY (ch_I ch))) (λ h, sessionkey env h (ch_I ch));
    match result with
    | None => shutdown;; mret false
    | Some (key, gmlevel) =>
      modifyX (set_client (ch_build ch) (AuthHelper.expversion (ch_build ch)) (ch_os ch));;
      if (4 <? length (ch_os ch))%nat then mret false
      else
        modifyX (set_os (rev (ch_os ch)));;
        modifyX (set_accountSecurityLevel (account_type gmlevel));;
        modifyX (λ s, set_K (BigNumber.SetHexStr key (bn_K s)) s);;
        proof ← ask (Rand (16 * 8)) (λ h, SetRand env h (16 * 8));
        modifyX (set_reconnectProof proof);;
        proof16 ← liftX (bytes_at (BigNumber.AsByteArray proof 16 true) 16);
        pkt ← write
          (ByteBuffer.shl_uint8 AUTH_RECONNECT_CHALLENGE;;
           ByteBuffer.shl_uint8 0;;
           ByteBuffer.append proof16;;
           ByteBuffer.shl_uint64 0;; ByteBuffer.shl_uint64 0) ByteBuffer.new;
        send (ByteBuffer.storage pkt);;
        mret true
    end
  end.

(** The digest that a client with the session key sends. *)
Definition reconnect_digest (login : list Z) (t1 proof K : BigNumber.t) : list Z :=
  let sha := SHA1Hash.UpdateData login (SHA1Hash.Initialize SHA1Hash.new) in
  SHA1Hash.GetDigest (SHA1Hash.Finalize (SHA1Hash.UpdateBigNumbers [t1; proof; K] sha)).

Definition _HandleReconnectProof : X t bool :=
  buf ← sock (RealmSocket.recv sizeof_sAuthReconnectProof_C);
  match buf with
  | None => mret false
  | Some buf =>
    let lp := reconnect_proof buf in
    s ← getX;
    if (length (_login s) =? 0)%nat || (BigNumber.GetNumBytes (_reconnectProof s) =? 0)%nat
       || (BigNumber.GetNumBytes (bn_K s) =? 0)%nat
    then mret false
    else
      t1 ← liftX (BigNumber.SetBinary (rp_R1 lp));
      if bool_decide (reconnect_digest (_login s) t1 (_reconnectProof s) (bn_K s) = rp_R2 lp) then
        pkt ← write (ByteBuffer.shl_uint8 AUTH_RECONNECT_PROOF;; ByteBuffer.shl_uint8 0;; ByteBuffer.shl_uint16 0)
                ByteBuffer.new;
        send (ByteBuffer.storage pkt);;
        modifyX (set_authed true);;
        mret true
      else shutdown;; mret false
  end.

(** ** The list of realms *)

Definition has_flag (flags flag : Z) : bool := z2b (Z.land flags flag).

(** Whether a realm fits the client. *)
Definition okBuild (s : t) (realm : Realm) : bool :=
  (has_flag (_expversion s) AuthHelper.POST_BC_EXP_FLAG && (gamebuild realm =? _build s))
  || (has_flag (_expversion s) AuthHelper.PRE_BC_EXP_FLAG
      && negb (AuthHelper.IsPreBCAcceptedClientBuild (i32 (gamebuild realm)))).

(** The flags that are sent; [None] is [continue]. *)
Definition realm_flag (s : t) (realm : Realm) : option Z :=
  match AuthHelper.GetBuildInfo (i32 (gamebuild realm)) with
  | Some _ =>
    Some (if okBuild s realm then flag realm
          else Z.lor (flag realm) (Z.lor REALM_FLAG_OFFLINE REALM_FLAG_SPECIFYBUILD))
  | None =>
    if okBuild s realm then Some (Z.land (flag realm) (u32 (Z.lnot REALM_FLAG_SPECIFYBUILD))) else None
  end.

Definition realm_name (s : t) (realm : Realm) (flag : Z) : list Z :=
  if has_flag (_expversion s) AuthHelper.PRE_BC_EXP_FLAG && has_flag flag REALM_FLAG_SPECIFYBUILD then
    match AuthHelper.GetBuildInfo (i32 (gamebuild realm)) with
    | Some b =>
      name realm ++ bytes_of " (" ++ decimal (AuthHelper.MajorVersion b) ++ bytes_of "."
        ++ decimal (AuthHelper.MinorVersion b) ++ bytes_of "." ++ decimal (AuthHelper.BugfixVersion b) ++ bytes_of ")"
    | None => name realm                       (* the flag is only left with a build *)
    end
  else name realm.

(** The entry of a realm. *)
Definition write_realm (s : t) (realm : Realm) (flag AmountOfCharacters : Z) : M ByteBuffer.t unit :=
  let post := has_flag (_expversion s) AuthHelper.POST_BC_EXP_FLAG in
  let lock := if _accountSecurityLevel s <? allowedSecurityLevel realm then 1 else 0 in
  ByteBuffer.shl_uint8 (icon realm);;
  (when post do ByteBuffer.shl_uint8 lock);;
  ByteBuffer.shl_uint8 flag;;
  ByteBuffer.shl_string (realm_name s realm flag);;
  ByteBuffer.shl_string (RealmAddress realm);;
  ByteBuffer.shl_float (populationLevel realm);;
  ByteBuffer.shl_uint8 AmountOfCharacters;;
  ByteBuffer.shl_uint8 (timezone realm);;
  ByteBuffer.shl_uint8 (if post then 0x2C else 0);;
  when post && has_flag flag REALM_FLAG_SPECIFYBUILD do
    match AuthHelper.GetBuildInfo (i32 (gamebuild realm)) with
    | Some b =>
      ByteBuffer.shl_uint8 (AuthHelper.MajorVersion b);;
      ByteBuffer.shl_uint8 (AuthHelper.MinorVersion b);;
      ByteBuffer.shl_uint8 (AuthHelper.BugfixVersion b);;
      ByteBuffer.shl_uint16 (AuthHelper.Build b)
    | None => throw UndefinedBehaviour
    end.

Fixpoint realms_loop (id : Z) (realms : list Realm) (pkt : ByteBuffer.t) (RealmListSize : Z) : X t (ByteBuffer.t * Z) :=
  match realms with
  | [] => mret (pkt, RealmListSize)
  | realm :: realms =>
    s ← getX;
    match realm_flag s realm with
    | None => realms_loop id realms pkt RealmListSize
    | Some flag =>
      result ← ask (Query (LOGIN_SEL_NUM_CHARS_ON_REALM (m_ID realm) id)) (λ h, num_chars env h (m_ID realm) id);
      pkt ← write (write_realm s realm flag (u8 (default 0 result))) pkt;
      realms_loop id realms pkt (RealmListSize + 1)
    end
  end.

(** [sRealmList->UpdateIfNeed()] *)
Definition UpdateRealmList : X t unit :=
  s ← getX;
  if z2b (RealmList.m_UpdateInterval (realm_list s)) then
    now ← ask Time (time env);
    if RealmList.needs_update now (realm_list s) then
      now' ← ask Time (time env);
      rows ← ask (Query LOGIN_SEL_REALMLIST) (realmlist env);
      modifyX (set_realm_list (RealmList.UpdateIfNeed (addr_to_string env) now now' rows (realm_list s)))
    else mret tt
  else mret tt.

Definition _HandleRealmList : X t bool :=
  n ← sock RealmSocket.recv_len;
  if (n <? 5)%nat then mret false
  else
    sock (RealmSocket.recv_skip 5);;
    s ← getX;
    result ← ask (Query (LOGIN_SEL_ACCOUNT_ID_BY_NAME (_login s))) (λ h, account_id env h (_login s));
    match result with
    | None => shutdown;; mret false
    | Some id =>
      UpdateRealmList;;
      s ← getX;
      let post := has_flag (_expversion s) AuthHelper.POST_BC_EXP_FLAG in
      '(pkt, RealmListSize) ← realms_loop id (RealmList.m_realms (realm_list s)) ByteBuffer.new 0;
      pkt ← write (if post then ByteBuffer.shl_uint8 0x10;; ByteBuffer.shl_uint8 0
                   else ByteBuffer.shl_uint8 0;; ByteBuffer.shl_uint8 2) pkt;
      RealmListSizeBuffer ← write
        (ByteBuffer.shl_uint32 0;;
         if post then ByteBuffer.shl_uint16 RealmListSize else ByteBuffer.shl_uint32 RealmListSize) ByteBuffer.new;
      hdr ← write
        (ByteBuffer.shl_uint8 REALM_LIST;;
         ByteBuffer.shl_uint16 (Z.of_nat (ByteBuffer.size pkt + ByteBuffer.size RealmListSizeBuffer));;
         ByteBuffer.append_buffer RealmListSizeBuffer;;
         ByteBuffer.append_buffer pkt) ByteBuffer.new;
      send (ByteBuffer.storage hdr);;
      mret true
    end.

(** ** Patches *)

Definition _HandleXferResume : X t bool :=
  n ← sock RealmSocket.recv_len;
  s ← getX;
  if (n <? 9)%nat || negb (pPatch s) then mret false
  else
    sock (RealmSocket.recv_skip 1);;
    start ← sock (RealmSocket.recv 8);
    emit (Seek (i64 (le_val (default [] start))));;
    emit StartPatcher;;
    mret true.

Definition _HandleXferCancel : X t bool :=
  sock (RealmSocket.recv_skip 1);; shutdown;; mret true.

Definition _HandleXferAccept : X t bool :=
  s ← getX;
  if negb (pPatch s) then mret false
  else sock (RealmSocket.recv_skip 1);; emit (Seek 0);; emit StartPatcher;; mret true.

(** ** The commands *)

Record AuthHandler : Type := mkAuthHandler { cmd : Z; status : eStatus; handler : X t bool }.

Definition table : list AuthHandler :=
  [mkAuthHandler AUTH_LOGON_CHALLENGE STATUS_CONNECTED _HandleLogonChallenge;
   mkAuthHandler AUTH_LOGON_PROOF STATUS_CONNECTED _HandleLogonProof;
   mkAuthHandler AUTH_RECONNECT_CHALLENGE STATUS_CONNECTED _HandleReconnectChallenge;
   mkAuthHandler AUTH_RECONNECT_PROOF STATUS_CONNECTED _HandleReconnectProof;
   mkAuthHandler REALM_LIST STATUS_AUTHED _HandleRealmList;
   mkAuthHandler XFER_ACCEPT STATUS_CONNECTED _HandleXferAccept;
   mkAuthHandler XFER_RESUME STATUS_CONNECTED _HandleXferResume;
   mkAuthHandler XFER_CANCEL STATUS_CONNECTED _HandleXferCancel].

(** The first entry of the table for a command, given [_authed]. *)
Definition admits (authed : bool) (_cmd : Z) (h : AuthHandler) : bool :=
  (cmd h =? _cmd) && match status h with STATUS_CONNECTED => true | STATUS_AUTHED => authed end.
Definition find_handler (authed : bool) (_cmd : Z) : option AuthHandler :=
  head (filter (λ h, admits authed _cmd h = true) table).

Fixpoint OnRead_loop (fuel : nat) : X t unit :=
  match fuel with
  | O => throwX Diverges
  | S fuel =>
    buf ← sock (RealmSocket.recv_soft 1);
    match buf with
    | Some (_cmd :: _) =>
      s ← getX;
      match find_handler (_authed s) _cmd with
      | Some h => ok ← handler h; if ok : bool then OnRead_loop fuel else mret tt
      | None => shutdown
      end
    | _ => mret tt
    end
  end.

(** A handler that succeeds has taken its command from the input. *)
Definition OnRead : X t unit := s ← getX; OnRead_loop (S (length (RealmSocket.input (socket s)))).
Definition OnAccept : X t unit := mret tt.
Definition OnClose : X t unit := mret tt.

End AuthSocket.

#[export] Instance session `{OpenSSL} (env : Env) : RealmSocket.Session t := {
  RealmSocket.socket := socket;
  RealmSocket.set_socket := set_socket;
  RealmSocket.OnRead := OnRead env;
  RealmSocket.OnAccept := OnAccept;
  RealmSocket.OnClose := OnClose }.

#[export] Instance session_laws `{OpenSSL} (env : Env) : RealmSocket.SessionLaws t (H := session env).
Proof. split; [done|by intros []|done]. Qed.

(** [RealmAcceptor::make_svc_handler] *)
Definition make_svc_handler `{OpenSSL} (realms : RealmList.t) : t := new realms (RealmSocket.set_session RealmSocket.new).

End AuthSocket.
