(* ===== verification/Srp6.v ===== *)
(** * Srp6: the other side of the log-on.

    A client of the SRP6 exchange, as a specification: it hashes numbers as arrays of fixed
    size, and knows the password by its digest.  The arithmetic that makes both sides agree,
    and a concrete [OpenSSL] to run the exchange with. *)
From S2P Require Import Prelude.
From stdpp Require Import strings list.
From S2P Require Import Bits ByteBuffer BigNumber AuthSocket.
Open Scope string_scope.
Open Scope list_scope.
Open Scope Z_scope.

(** ** Numbers modulo [N] *)

Definition eqm (N a b : Z) : Prop := a mod N = b mod N.

#[export] Instance eqm_equivalence N : Equivalence (eqm N).
Proof. unfold eqm. split; [done|by intros ? ? ->|by intros ? ? ? -> ->]. Qed.
#[export] Instance add_proper N : Proper (eqm N ==> eqm N ==> eqm N) Z.add.
Proof. intros a a' Ha b b' Hb. unfold eqm in *. by rewrite Zplus_mod, Ha, Hb, <- Zplus_mod. Qed.
#[export] Instance sub_proper N : Proper (eqm N ==> eqm N ==> eqm N) Z.sub.
Proof. intros a a' Ha b b' Hb. unfold eqm in *. by rewrite Zminus_mod, Ha, Hb, <- Zminus_mod. Qed.
#[export] Instance mul_proper N : Proper (eqm N ==> eqm N ==> eqm N) Z.mul.
Proof. intros a a' Ha b b' Hb. unfold eqm in *. by rewrite Zmult_mod, Ha, Hb, <- Zmult_mod. Qed.
Lemma eqm_mod N a : eqm N (a mod N) a.
Proof. apply Zmod_mod. Qed.
#[export] Instance pow_proper N : Proper (eqm N ==> eq ==> eqm N) Z.pow.
Proof.
  intros a b Hab e e' <-. destruct (decide (0 ≤ e)) as [He|He]; [|by rewrite !Z.pow_neg_r by lia].
  pattern e. apply natlike_ind; [done| |done].
  intros x Hx IH. rewrite !Z.pow_succ_r by done. by rewrite IH, Hab.
Qed.

(** Powers by repeated squaring. *)
Fixpoint pow_pos_mod (a : Z) (p : positive) (m : Z) : Z :=
  match p with
  | xH => a mod m
  | xO p => let r := pow_pos_mod a p m in r * r mod m
  | xI p => let r := pow_pos_mod a p m in a * (r * r mod m) mod m
  end.
Definition mod_pow (a p m : Z) : Z :=
  match p with Z0 => 1 mod m | Zpos p => pow_pos_mod a p m | Zneg _ => 0 end.

Lemma pow_pos_mod_spec a p m : pow_pos_mod a p m = a ^ Z.pos p mod m.
Proof.
  induction p as [p IH|p IH|]; simpl pow_pos_mod; [| |by rewrite Z.pow_1_r].
  - rewrite IH. change (eqm m (a * (a ^ Z.pos p mod m * (a ^ Z.pos p mod m) mod m)) (a ^ Z.pos p~1)).
    rewrite !eqm_mod, Pos2Z.inj_xI, Z.pow_add_r, Z.pow_1_r, Z.pow_twice_r by lia.
    by rewrite (Z.mul_comm a).
  - rewrite IH. change (eqm m (a ^ Z.pos p mod m * (a ^ Z.pos p mod m)) (a ^ Z.pos p~0)).
    by rewrite !eqm_mod, Pos2Z.inj_xO, Z.pow_twice_r.
Qed.

Lemma mod_pow_spec a p m : 0 ≤ p → mod_pow a p m = a ^ p mod m.
Proof. intros Hp. destruct p as [|p|p]; [done| |lia]. apply pow_pos_mod_spec. Qed.

(** What the server computes from [A] and what the client computes from [B]. *)
Lemma srp_agree N g v b B a u x :
  0 ≤ a → 0 ≤ b → 0 ≤ u → 0 ≤ x →
  eqm N v (g ^ x) → eqm N B (v * 3 + g ^ b) →
  eqm N ((g ^ a * v ^ u) ^ b) ((B - 3 * g ^ x) ^ (a + u * x)).
Proof.
  intros Ha Hb Hu Hx Hv HB. rewrite HB, Hv.
  replace (g ^ x * 3 + g ^ b - 3 * g ^ x) with (g ^ b) by ring.
  rewrite <- !Z.pow_mul_r, <- Z.pow_add_r, <- Z.pow_mul_r by nia.
  by replace ((a + x * u) * b) with (b * (a + u * x)) by ring.
Qed.

(** ** The client *)

Section client.
Context `{OpenSSL}.

(** The private exponent of a password digest. *)
Definition private_x (salt password : list Z) : Z := le_val (SHA1 (salt ++ password)).

(** The key of a shared secret. *)
Definition shared_key (S : Z) : list Z :=
  AuthSocket.interleave (SHA1 (AuthSocket.every_other (le_bytes 32 S)))
    (SHA1 (AuthSocket.every_other (tail (le_bytes 32 S)))).

Definition xor_digest (N g : Z) : list Z := zip_with Z.lxor (SHA1 (le_bytes 32 N)) (SHA1 (le_bytes 1 g)).

Definition client_M1 (login : list Z) (N g : Z) (salt A B K : list Z) : list Z :=
  SHA1 (xor_digest N g ++ SHA1 login ++ salt ++ A ++ B ++ K).
Definition client_M2 (A M1 K : list Z) : list Z := SHA1 (A ++ M1 ++ K).

(** The reply to a challenge, if it says success. *)
Record challenge : Type := mkChallenge { c_B : list Z; c_g : Z; c_N : list Z; c_salt : list Z }.

Definition read_challenge (reply : list Z) : option challenge :=
  match reply with
  | cmd :: zero :: code :: reply =>
    if (cmd =? AuthSocket.AUTH_LOGON_CHALLENGE) && (code =? AuthSocket.WOW_SUCCESS) && (length reply =? 116)%nat then
      Some (mkChallenge (take 32 reply) (default 0 (reply !! 33%nat)) (take 32 (drop 35 reply)) (take 32 (drop 67 reply)))
    else None
  | _ => None
  end.

Record client : Type := mkClient { cl_login : list Z; cl_password : list Z; cl_a : Z }.

(** What the client derives from a challenge. *)
Definition client_A (c : client) (ch : challenge) : Z := mod_pow (c_g ch) (cl_a c) (le_val (c_N ch)).
Definition client_u (c : client) (ch : challenge) : Z := le_val (SHA1 (le_bytes 32 (client_A c ch) ++ c_B ch)).
Definition client_S (c : client) (ch : challenge) : Z :=
  let x := private_x (c_salt ch) (cl_password c) in
  let N := le_val (c_N ch) in
  mod_pow (le_val (c_B ch) - 3 * mod_pow (c_g ch) x N) (cl_a c + client_u c ch * x) N.
Definition client_K (c : client) (ch : challenge) : list Z := shared_key (client_S c ch).
Definition client_proof (c : client) (ch : challenge) : list Z :=
  client_M1 (cl_login c) (le_val (c_N ch)) (c_g ch) (c_salt ch) (le_bytes 32 (client_A c ch)) (c_B ch) (client_K c ch).

(** The packet that a proof travels in; nobody looks at the other members. *)
Definition proof_packet (A M1 : list Z) : list Z :=
  [AuthSocket.AUTH_LOGON_PROOF] ++ A ++ M1 ++ replicate 20 0 ++ [0; 0].
Definition client_answer (c : client) (ch : challenge) : list Z :=
  proof_packet (le_bytes 32 (client_A c ch)) (client_proof c ch).

(** The server's proof, as the client expects it. *)
Definition client_expects (c : client) (ch : challenge) : list Z :=
  client_M2 (le_bytes 32 (client_A c ch)) (client_proof c ch) (client_K c ch).

End client.

(** ** A concrete library *)

Module Toy.

(** Twenty bytes that depend on every byte of the data. *)
Definition digest (data : list Z) : list Z :=
  le_bytes 20 (fold_left (λ h b, (h * 0x1000193 + b + 1) mod 2 ^ 160) data 0x6745230189ABCDEF).

(** Digits of a byte, and of a number without leading zeros. *)
Definition hex_char (d : Z) : Z := if d <? 10 then 48 + d else 55 + d.
Definition hex_bytes (l : list Z) : list Z := l ≫= λ b, [hex_char (b / 16); hex_char (b mod 16)].

#[export] Instance openssl : OpenSSL := {
  BN_add := Z.add; BN_sub := Z.sub; BN_mul := Z.mul; BN_div := Z.quot; BN_mod := Z.rem; BN_exp := Z.pow;
  BN_mod_exp := mod_pow; BN_add_word := Z.add; BN_lshift := Z.shiftl; BN_get_word := Z.abs;
  BN_num_bytes := num_bytes;
  BN_bin2bn l := le_val (rev l);
  BN_bn2bin a := rev (le_bytes (num_bytes a) a);
  BN_hex2bn str old := default old (hex_val str);
  BN_bn2hex a := if a =? 0 then [48] else hex_bytes (rev (le_bytes (num_bytes a) a));
  BN_bn2dec _ := [];
  SHA_CTX := list Z; SHA1_Init := []; SHA1_Update c l := c ++ l; SHA1_Final := digest }.

Lemma hex_digit_char d : 0 ≤ d < 16 → hex_digit (hex_char d) = Some d.
Proof.
  intros Hd. unfold hex_digit, hex_char. destruct (Z.ltb_spec d 10).
  - rewrite (proj2 (andb_true_iff _ _)) by (split; apply Z.leb_le; lia). f_equal. lia.
  - rewrite (proj2 (andb_false_iff _ _)) by (right; apply Z.leb_gt; lia).
    rewrite (proj2 (andb_true_iff _ _)) by (split; apply Z.leb_le; lia). f_equal. lia.
Qed.

Lemma hex_loop_app l1 l2 acc : hex_loop (l1 ++ l2) acc = hex_loop l1 acc ≫= hex_loop l2.
Proof. revert acc. induction l1 as [|c l1 IH]; intros acc; simpl; [done|]. by destruct (hex_digit c); simpl. Qed.

Lemma hex_loop_bytes l : Forall is_byte l → hex_loop (hex_bytes (rev l)) 0 = Some (le_val l).
Proof.
  induction 1 as [|b l Hb Hl IH]; [done|]. simpl rev. unfold hex_bytes. rewrite bind_app, hex_loop_app.
  fold (hex_bytes (rev l)). rewrite IH. simpl. unfold is_byte in Hb.
  rewrite !hex_digit_char by (pose proof (Z.div_mod b 16); pose proof (Z.mod_pos_bound b 16); lia). simpl.
  f_equal. pose proof (Z.div_mod b 16). lia.
Qed.

#[export] Instance laws : OpenSSLLaws.
Proof.
  split; try done.
  - intros a m Ha Hm. by apply Z.rem_mod_nonneg.
  - intros a p m _ Hp _ _. by apply mod_pow_spec.
  - intros str old z E. simpl. by rewrite E.
  - intros a Ha. simpl. destruct (Z.eqb_spec a 0) as [->|Hn]; [done|].
    assert (hex_loop (hex_bytes (rev (le_bytes (num_bytes a) a))) 0 = Some a) as E.
    { rewrite hex_loop_bytes by apply le_bytes_is_byte. f_equal. apply le_val_le_bytes_small.
      split; [done|]. by apply num_bytes_spec. }
    unfold hex_val. destruct (hex_bytes (rev _)) eqn:El; [|done]. simpl in E. congruence.
  - intros chunks. change (digest (fold_left app chunks []) = digest (concat chunks)). f_equal.
    assert (∀ l, fold_left app chunks l = l ++ concat chunks) as E; [|apply E].
    induction chunks as [|c chunks IH]; intros l; simpl; [by rewrite app_nil_r|]. by rewrite IH, <- app_assoc.
  - intros data. apply le_bytes_is_byte.
Qed.

End Toy.
