(* ===== verification/AuthSocketRuns.v ===== *)
(** * AuthSocketRuns: the handlers of the log-on server, step by step.

    What each part of a handler does from a state whose numbers are as the constructor and the
    challenges leave them ([sane]), for a login database whose strings are hexadecimal where
    they should be ([EnvLaws]). *)
From S2P Require Import Prelude Bits ByteBuffer ByteBufferStream BigNumber RealmList RealmSocket AuthSocket Srp6.
From stdpp Require Import strings list sorting.
Open Scope Z_scope.

(** ** The socket *)

Section socket.
Import RealmSocket.

Definition answers (h : list io) : list (list Z) := omap (λ e, match e with Sending b => Some b | _ => None end) h.

(** Output that leaves the input alone and answers nothing new. *)
Record calm (x x' : t) : Prop := {
  calm_input : input x' = input x;
  calm_skipped : skipped x' = skipped x;
  calm_closing : closing_ x' = closing_ x;
  calm_session : has_session x' = has_session x;
  calm_address : _remoteAddress x' = _remoteAddress x;
  calm_answers : answers (log x') = answers (log x) }.

#[export] Instance calm_preorder : PreOrder calm.
Proof. split; [by split|]. intros ? ? ? [] []. split; etrans; eauto. Qed.

Lemma calm_io x e : match e with Sending _ => False | _ => True end → calm x (record_io e x).
Proof. intros He. split; try done. by destruct e. Qed.

Lemma noblk_send_ends env mb x : returns (noblk_send env mb) x (λ _ x', calm x x').
Proof.
  unfold ends. destruct (noblk_send_cases env mb x) as [E|[(n & E & _)|(n & E & _)]]; rewrite E; [done..|]. by apply calm_io.
Qed.

Lemma send_later_ends env size rest x : returns (send_later env size rest) x (λ _ x', calm x x').
Proof.
  unfold send_later, enqueue, ends. bind. destruct (high_water_mark <=? cur_bytes (msg_queue x)); by split.
Qed.

Lemma send_ends env buf x : returns (send env buf) x (λ _ x', calm (record_io (Sending buf) x) x').
Proof.
  unfold send. apply ends_bind. apply ends_modifyX. destruct (length buf =? 0)%nat; [by apply ends_ret|].
  apply ends_bind, ends_getX. destruct (msg_queue _) as [|mb q]; [|by apply send_later_ends].
  apply ends_bind. eapply ends_mono; [apply noblk_send_ends|]. intros [un|] y Hy.
  - case_match; [by apply ends_ret|]. eapply ends_mono; [apply send_later_ends|]. intros ? z Hz. by etrans.
  - apply ends_bind, ends_modifyX, ends_ret. etrans; [exact Hy|by apply calm_io].
Qed.

End socket.

(** ** Steps *)

Import AuthSocket.
Abbreviation input s := (RealmSocket.input (socket s)).
Abbreviation log s := (RealmSocket.log (socket s)).
Abbreviation address s := (RealmSocket._remoteAddress (socket s)).

(** The state after [n] bytes of the input have been taken. *)
Definition consume (n : nat) (s : t) : t :=
  set_socket (RealmSocket.set_input (drop n (input s)) (RealmSocket.skipped (socket s) + n) (socket s)) s.

Lemma consume_0 s : consume 0 s = s.
Proof. unfold consume. rewrite drop_0, Nat.add_0_r. by destruct s as [[]]. Qed.

Section steps.
Context `{OpenSSL} (env : Env).

Lemma ends_sock {A} (m : X RealmSocket.t A) s E (Q : A → t → Prop) :
  ends m (socket s) E (λ a x, Q a (set_socket x s)) → ends (sock m) s E Q.
Proof. unfold ends, sock. by destruct (m (socket s)) as [[a|e] x]. Qed.

Lemma ends_ask {A} c (f : list call → A) s E (Q : A → t → Prop) :
  Q (f (calls s)) (record_call c s) → ends (ask c f) s E Q.
Proof. done. Qed.
Lemma ends_emit c s E (Q : unit → t → Prop) : Q tt (record_call c s) → ends (emit c) s E Q.
Proof. done. Qed.

Lemma ends_recv n s E (Q : option (list Z) → t → Prop) :
  ((length (input s) < n)%nat → Q None s) →
  ((n ≤ length (input s))%nat → Q (Some (take n (input s))) (consume n s)) →
  ends (sock (RealmSocket.recv n)) s E Q.
Proof.
  intros H1 H2. apply ends_sock. unfold ends, RealmSocket.recv, RealmSocket.recv_soft, RealmSocket.recv_skip. RealmSocket.bind.
  destruct (Nat.ltb_spec (length (input s)) n) as [Hl|Hl].
  - specialize (H1 Hl). by destruct s.
  - rewrite (proj2 (Nat.ltb_ge _ _)) by done. by apply H2.
Qed.

Lemma ends_skip n s E (Q : unit → t → Prop) :
  (n ≤ length (input s))%nat → Q tt (consume n s) → ends (sock (RealmSocket.recv_skip n)) s E Q.
Proof.
  intros Hn HQ. apply ends_sock. unfold ends, RealmSocket.recv_skip. RealmSocket.bind.
  by rewrite (proj2 (Nat.ltb_ge _ _)) by done.
Qed.

Lemma ends_recv_len s E (Q : nat → t → Prop) : Q (length (input s)) s → ends (sock RealmSocket.recv_len) s E Q.
Proof. intros HQ. by destruct s. Qed.

Lemma ends_write m l pkt b s E (Q : ByteBuffer.t → t → Prop) :
  Whole.holds pkt b → Whole.appends m l → Z.of_nat (length b + length l) < ByteBuffer.MAX_SIZE →
  (∀ pkt', Whole.holds pkt' (b ++ l) → Q pkt' s) → ends (write m pkt) s E Q.
Proof.
  intros Hp Hm Hl HQ. destruct (Hm pkt b Hp Hl) as (pkt' & E' & Hp').
  unfold write. apply ends_bind, ends_liftX. rewrite E'. by apply HQ.
Qed.

(** [send] changes the socket only, and adds its answer. *)
Lemma ends_send buf s E (Q : unit → t → Prop) :
  (∀ x, calm (RealmSocket.record_io (RealmSocket.Sending buf) (socket s)) x → Q tt (set_socket x s)) →
  ends (send env buf) s E Q.
Proof.
  intros HQ. unfold send. apply ends_bind, ends_sock. eapply ends_weaken; [eapply ends_mono; [apply send_ends|]|done].
  intros ? x Hx. apply ends_ret. by apply HQ.
Qed.

Lemma ends_shutdown s E (Q : unit → t → Prop) :
  Q tt (set_socket (RealmSocket.record_io RealmSocket.Shutdown (socket s)) s) → ends shutdown s E Q.
Proof. done. Qed.

(** ** The frame of a challenge *)

Definition challenge_remaining (i : list Z) : nat := Z.to_nat (ch_size (take 4 i)).
Definition challenge_complete (i : list Z) : bool :=
  let n := challenge_remaining i in (31 <=? n)%nat && (n <=? length i - 4)%nat.

(** What [recv_challenge] takes from the input, and what it finds. *)
Definition challenge_eaten (i : list Z) : nat :=
  if (length i <? 35)%nat then 0 else if challenge_complete i then 4 + challenge_remaining i else 4.
Definition challenge_of (i : list Z) : option (list Z) :=
  if (length i <? 35)%nat then None
  else if challenge_complete i then Some (take (4 + challenge_remaining i) i ++ [0]) else None.

Lemma ends_recv_challenge s E (Q : option (list Z) → t → Prop) :
  Q (challenge_of (input s)) (consume (challenge_eaten (input s)) s) → ends recv_challenge s E Q.
Proof.
  unfold recv_challenge, challenge_of, challenge_eaten, challenge_complete, challenge_remaining. intros HQ.
  apply ends_bind, ends_recv_len. change sizeof_sAuthLogonChallenge_C with 35%nat.
  destruct (Nat.ltb_spec (length (input s)) 35) as [Hl|Hl]; [by rewrite consume_0 in HQ|].
  apply ends_bind, ends_recv; [lia|]. intros _. apply ends_bind, ends_recv_len.
  set (remaining := ch_size (take 4 (input s))) in *.
  change (input (consume 4 s)) with (drop 4 (input s)). rewrite length_drop.
  destruct (Z.ltb_spec remaining (Z.of_nat (35 - 4))) as [H1|H1]; simpl orb.
  { rewrite (proj2 (Nat.leb_gt _ _)) in HQ by lia. by apply ends_ret. }
  destruct (Z.ltb_spec (Z.of_nat (length (input s) - 4)) remaining) as [H2|H2].
  { rewrite (proj2 (Nat.leb_le _ _)), (proj2 (Nat.leb_gt _ _)) in HQ by lia. by apply ends_ret. }
  rewrite (proj2 (Nat.leb_le 31 _)), (proj2 (Nat.leb_le (Z.to_nat remaining) _)) in HQ by lia. simpl andb in HQ.
  apply ends_bind, ends_recv; change (input (consume 4 s)) with (drop 4 (input s)); rewrite length_drop; [lia|].
  intros _. apply ends_ret. replace (take 4 (input s) ++ take (Z.to_nat remaining) (drop 4 (input s)) ++ [0])
    with (take (4 + Z.to_nat remaining) (input s) ++ [0]) by (rewrite <- take_take_drop; by rewrite <- app_assoc).
  unfold consume in *. cbn in *. by rewrite drop_drop, <- Nat.add_assoc.
Qed.

End steps.

(** ** The numbers of an exchange *)

Definition N_val : Z := 0x894B645E89E1535BBDAD5B8B290650530801B18EBFBF5E8FAB3C82872A3E9BB7.
Definition g_val : Z := 7.

Lemma N_hex_val : hex_val N_hex = Some N_val.
Proof. by vm_compute. Qed.
Lemma N_full : full 32 N_val.
Proof. apply (bool_decide_unpack _). by vm_compute. Qed.
Lemma N_bounds : 1 < N_val < 256 ^ 32.
Proof. done. Qed.

(** The bytes that [UpdateBigNumbers] takes from a number. *)
Definition minimal (z : Z) : list Z := le_bytes (num_bytes z) z.

Lemma minimal_full k z : (0 < k)%nat → full k z → minimal z = le_bytes k z.
Proof. intros Hk Hz. unfold minimal. by rewrite (full_num_bytes k). Qed.
Lemma full_nonneg k z : (0 < k)%nat → full k z → 0 < z.
Proof. intros Hk [? _]. assert (0 < 256 ^ (Z.of_nat k - 1)) by (apply Z.pow_pos_nonneg; lia). lia. Qed.

Lemma zip_lxor_bytes l1 l2 : Forall is_byte l1 → Forall is_byte l2 → Forall is_byte (zip_with Z.lxor l1 l2).
Proof.
  intros H1. revert l2. induction H1 as [|x l1 Hx Hl IH]; intros l2 [|y l2' Hy Hl2]; simpl; constructor; [|by apply IH].
  apply (lxor_bound _ _ 8); unfold is_byte in *; lia.
Qed.

Lemma bytes_at_all l n : length l = n → bytes_at l n = Ok l.
Proof. intros <-. unfold bytes_at. by rewrite Nat.ltb_irrefl, firstn_all. Qed.

Section numbers.
#[local] Set Default Proof Using "Type*".
Context `{OpenSSLLaws}.

Lemma AsByteArray_minimal z : 0 ≤ z → BigNumber.AsByteArray z 0 true = minimal z.
Proof. intros Hz. rewrite AsByteArray_val by done. done. Qed.

Lemma sha_BigNumbers_eq bns :
  Forall (λ z, 0 ≤ z) bns → sha_BigNumbers bns = SHA1 (concat (minimal <$> bns)).
Proof.
  intros Hb. unfold sha_BigNumbers, SHA1Hash.GetDigest, SHA1Hash.Finalize. cbn [SHA1Hash.mDigest].
  rewrite SHA1Hash_BigNumbers. cbn [SHA1Hash.mC SHA1Hash.Initialize]. rewrite SHA1_stream_law. do 2 f_equal.
  apply list_fmap_ext. intros i z Hz. apply AsByteArray_minimal. by eapply Forall_lookup_1.
Qed.

(** The mask of the proof: the digests of [N] and [g], byte by byte. *)
Definition t3_val : Z := le_val (xor_digest N_val g_val).

Lemma xor_digest_length N g : length (xor_digest N g) = 20%nat.
Proof. unfold xor_digest. by rewrite length_zip_with, !SHA1_length_law. Qed.
Lemma xor_digest_bytes N g : Forall is_byte (xor_digest N g).
Proof. apply zip_lxor_bytes; apply SHA1_bytes_law. Qed.

Lemma expected_M_eq login s A B K :
  0 ≤ s → 0 ≤ A → 0 ≤ B → 0 ≤ K →
  expected_M login N_val g_val s A B K =
  Ok (le_val (SHA1 (minimal t3_val ++ SHA1 login ++ minimal s ++ minimal A ++ minimal B ++ minimal K))).
Proof.
  intros Hs HA HB HK. unfold expected_M. rewrite !sha_BigNumbers_eq by (repeat constructor; done).
  cbn [fmap list_fmap concat]. rewrite !app_nil_r.
  rewrite (minimal_full 32 N_val), (minimal_full 1 g_val) by first [apply N_full | lia | done].
  fold (xor_digest N_val g_val).
  rewrite SetBinary_val; [|apply xor_digest_bytes|rewrite xor_digest_length; lia].
  cbn [mbind result_bind]. unfold SHA1Hash.GetDigest, SHA1Hash.Finalize. cbn [SHA1Hash.mDigest SHA1Hash.UpdateBigNumbers].
  fold t3_val.
  assert (0 ≤ t3_val) as Ht by apply le_val_bound, xor_digest_bytes.
  cbn [SHA1Hash.UpdateData SHA1Hash.Initialize SHA1Hash.new SHA1Hash.mC].
  rewrite !AsByteArray_minimal by done.
  match goal with |- BigNumber.SetBinary ?d = _ =>
    replace d with (SHA1 (minimal t3_val ++ SHA1 login ++ minimal s ++ minimal A ++ minimal B ++ minimal K)) end;
    [apply SetBinary_SHA1|].
  symmetry. transitivity (SHA1_Final (fold_left SHA1_Update
    [minimal t3_val; SHA1 login; minimal s; minimal A; minimal B; minimal K] SHA1_Init)); [done|].
  rewrite SHA1_stream_law. cbn [concat]. by rewrite app_nil_r.
Qed.

(** [session_key] is the key of the specification. *)
Lemma session_key_eq l :
  session_key l = interleave (SHA1 (every_other l)) (SHA1 (every_other (tail l))).
Proof. done. Qed.

Lemma interleave_length l1 l2 : length l1 = length l2 → length (interleave l1 l2) = (2 * length l1)%nat.
Proof.
  revert l2. induction l1 as [|x l1 IH]; intros [|y l2] Hl; simpl in *; try done. rewrite IH; lia.
Qed.
Lemma interleave_bytes l1 l2 : Forall is_byte l1 → Forall is_byte l2 → Forall is_byte (interleave l1 l2).
Proof.
  intros H1. revert l2. induction H1 as [|x l1 Hx Hl IH]; intros l2 [|y l2' Hy Hl2]; simpl; [constructor..|].
  constructor; [done|constructor; auto].
Qed.

Lemma session_key_length l : length (session_key l) = 40%nat.
Proof. rewrite session_key_eq, interleave_length; by rewrite !SHA1_length_law. Qed.
Lemma session_key_bytes l : Forall is_byte (session_key l).
Proof. rewrite session_key_eq. apply interleave_bytes; apply SHA1_bytes_law. Qed.

(** The array that the key is computed from: short numbers are moved up. *)
Definition array32 (z : Z) : list Z := replicate (32 - num_bytes z) 0 ++ minimal z.

Lemma server_K_eq S : 0 ≤ S < 256 ^ 32 → server_K S = Ok (le_val (session_key (array32 S))).
Proof.
  intros HS. unfold server_K. rewrite AsByteArray_val by lia.
  pose proof (num_bytes_le S 32 HS). fold (minimal S). fold (array32 S).
  assert (length (array32 S) = 32%nat) as Hl.
  { unfold array32, minimal. rewrite length_app, length_replicate, length_le_bytes. lia. }
  rewrite bytes_at_all by done. cbn [mbind result_bind].
  rewrite SetBinary_val; [done|apply session_key_bytes|rewrite session_key_length; lia].
Qed.

Lemma array32_full S : full 32 S → array32 S = le_bytes 32 S.
Proof. intros HS. unfold array32, minimal. rewrite (full_num_bytes 32) by (done || lia). done. Qed.
Lemma array32_0 : array32 0 = replicate 32 0.
Proof. done. Qed.

Lemma proof_matches_eq M M1 :
  full 20 M → proof_matches M M1 = Ok (bool_decide (le_bytes 20 M = M1)).
Proof.
  intros HM. unfold proof_matches. rewrite (AsByteArray_full _ _ 20) by (done || lia).
  by rewrite bytes_at_all by apply length_le_bytes.
Qed.

End numbers.

(** ** States *)

(** What is left when the socket and the history are taken away. *)
Definition core (s : t) : t :=
  mk RealmSocket.new (bn_N s) (bn_s s) (bn_g s) (bn_v s) (bn_b s) (bn_B s) (bn_K s) (_reconnectProof s) (_authed s)
     (_login s) (_localizationName s) (_os s) (_build s) (_expversion s) (_accountSecurityLevel s) (pPatch s)
     (realm_list s) [].

(** Talk to the database and to the peer, with the answers [l]. *)
Record talk (l : list (list Z)) (s s' : t) : Prop := {
  talk_core : core s' = core s;
  talk_input : input s' = input s;
  talk_closing : RealmSocket.closing_ (socket s') = RealmSocket.closing_ (socket s);
  talk_session : RealmSocket.has_session (socket s') = RealmSocket.has_session (socket s);
  talk_address : address s' = address s;
  talk_answers : answers (log s') = l ++ answers (log s) }.

Lemma talk_refl s : talk [] s s.
Proof. done. Qed.
Lemma talk_trans l1 l2 s1 s2 s3 : talk l1 s1 s2 → talk l2 s2 s3 → talk (l2 ++ l1) s1 s3.
Proof. intros [H1 H2 H3 H4 H5 H6] [? ? ? ? ? H7]. split; [congruence..|]. by rewrite H7, H6, app_assoc. Qed.
Lemma talk_call c s : talk [] s (record_call c s).
Proof. done. Qed.
Lemma talk_send l buf s s' x :
  talk l s s' → calm (RealmSocket.record_io (RealmSocket.Sending buf) (socket s')) x → talk (buf :: l) s (set_socket x s').
Proof.
  intros [H1 H2 H3 H4 H5 H6] [C1 C2 C3 C4 C5 C6]. split; [done|by etrans..|].
  etrans; [exact C6|]. change (buf :: answers (log s') = buf :: l ++ answers (log s)). by rewrite H6.
Qed.
Lemma talk_field {A} (f : t → A) l s s' : talk l s s' → (∀ s, f (core s) = f s) → f s' = f s.
Proof. intros [Hc _ _ _ _ _] Hf. by rewrite <- (Hf s'), Hc. Qed.

Record sane (s : t) : Prop := {
  sane_N : bn_N s = N_val;
  sane_g : bn_g s = g_val;
  sane_s : 0 ≤ bn_s s;
  sane_v : 0 ≤ bn_v s;
  sane_b : 0 ≤ bn_b s;
  sane_B : 0 ≤ bn_B s < N_val;
  sane_K : 0 ≤ bn_K s;
  sane_proof : 0 ≤ _reconnectProof s }.

Lemma sane_core s s' : core s' = core s → sane s → sane s'.
Proof.
  intros Hc [H1 H2 H3 H4 H5 H6 H7 H8].
  assert (∀ {A} (f : t → A), (∀ s, f (core s) = f s) → f s' = f s) as Hf.
  { intros A f Hf. by rewrite <- (Hf s'), Hc. }
  split; by rewrite Hf.
Qed.

Class EnvLaws (env : Env) : Prop := {
  SetRand_law h n : 0 < n → 2 ^ (n - 1) ≤ SetRand env h n < 2 ^ n;
  hash_law h login row : logonchallenge env h login = Some row → is_Some (hex_val (row_sha_pass_hash row));
  v_law h login row : logonchallenge env h login = Some row → length (row_v row) = 64%nat → is_Some (hex_val (row_v row));
  s_law h login row : logonchallenge env h login = Some row → length (row_s row) = 64%nat →
    ∃ s, hex_val (row_s row) = Some s ∧ 0 < s;
  key_law h login key lvl : sessionkey env h login = Some (key, lvl) → key = [] ∨ is_Some (hex_val key) }.

(** ** The outcome of a proof *)

Section proof.
#[local] Set Default Proof Using "Type*".
Context `{OpenSSLLaws} (env : Env).

Definition proof_u (s : t) (A : Z) : Z := le_val (SHA1 (minimal A ++ minimal (bn_B s))).
Definition proof_S (s : t) (A : Z) : Z := (A * (bn_v s ^ proof_u s A mod N_val)) ^ bn_b s mod N_val.
Definition proof_K (s : t) (A : Z) : Z := le_val (session_key (array32 (proof_S s A))).
Definition proof_digest (s : t) (A : Z) : list Z :=
  SHA1 (minimal t3_val ++ SHA1 (_login s) ++ minimal (bn_s s) ++ minimal A ++ minimal (bn_B s) ++ minimal (proof_K s A)).

Lemma digest_not_full d : ¬ full 20 (le_val (SHA1 d)) → (num_bytes (le_val (SHA1 d)) ≤ 19)%nat.
Proof.
  intros Hf. pose proof (SHA1_val_bound d) as Hb. unfold full in Hf.
  change (256 ^ (Z.of_nat 20 - 1)) with (256 ^ 19) in Hf. change (256 ^ Z.of_nat 20) with (256 ^ 20) in Hf.
  apply num_bytes_le. change (Z.of_nat 19) with 19. lia.
Qed.

Lemma proof_u_nonneg s A : 0 ≤ proof_u s A.
Proof. apply SHA1_val_bound. Qed.
Lemma proof_S_bound s A : 0 ≤ proof_S s A < 256 ^ 32.
Proof.
  pose proof (Z.mod_pos_bound ((A * (bn_v s ^ proof_u s A mod N_val)) ^ bn_b s) N_val ltac:(done)).
  pose proof N_bounds. unfold proof_S. lia.
Qed.
Lemma proof_K_nonneg s A : 0 ≤ proof_K s A.
Proof. apply le_val_bound, session_key_bytes. Qed.

Lemma server_S_eq s A : sane s → 0 ≤ A → server_S A s = Ok (proof_S s A).
Proof.
  intros [HN Hg Hs Hv Hb HB HK Hp] HA. unfold server_S. rewrite HN.
  rewrite sha_BigNumbers_eq by (repeat constructor; lia). cbn [fmap list_fmap concat]. rewrite app_nil_r.
  rewrite SetBinary_SHA1. cbn [mbind result_bind]. fold (proof_u s A).
  unfold BigNumber.ModExp, BigNumber.mul.
  assert (0 ≤ bn_v s ^ proof_u s A mod N_val) by (by apply Z.mod_pos_bound).
  rewrite (BN_mod_exp_law (bn_v s)), BN_mul_law, BN_mod_exp_law; try done; [|by apply proof_u_nonneg].
  by apply Z.mul_nonneg_nonneg.
Qed.

(** [logon_refused] only talks. *)
Lemma ends_logon_refused s E (Q : unit → t → Prop) :
  (∀ s', talk [[1; 4; 3; 0]] s s' → Q tt s') → ends (logon_refused env) s E Q.
Proof.
  intros HQ. unfold logon_refused. apply ends_bind, ends_send. intros x Hx. apply ends_bind, ends_getX.
  assert (talk [[1; 4; 3; 0]] s (set_socket x s)) as Ht by by apply (talk_send []).
  assert (∀ c s', talk [[1; 4; 3; 0]] s s' → talk [[1; 4; 3; 0]] s (record_call c s')) as Hc.
  { intros c s' []. by split. }
  case_match; [|by apply ends_ret, HQ].
  apply ends_bind, ends_emit, ends_bind, ends_ask.
  destruct (failedlogins env _ _) as [[acc_id failed]|]; [|by apply ends_ret, HQ, Hc, Hc].
  case_match; [|by apply ends_ret, HQ, Hc, Hc]. case_match; by apply ends_emit, HQ, Hc, Hc, Hc.
Qed.

Definition lp_A_val (s : t) : Z := le_val (lp_A (logon_proof (take 75 (input s)))).
Definition lp_M1_of (s : t) : list Z := lp_M1 (logon_proof (take 75 (input s))).
(** The proof packet of a client that may go on. *)
Definition proof_ready (s : t) : Prop :=
  (75 ≤ length (input s))%nat ∧ _expversion s ≠ AuthHelper.NO_VALID_EXP_FLAG ∧ lp_A_val s ≠ 0.

(** The reply to a right proof. *)
Definition logon_reply (s : t) (A : Z) : list Z :=
  let M2 := SHA1 (minimal A ++ minimal (le_val (proof_digest s A)) ++ minimal (proof_K s A)) in
  if z2b (Z.land (_expversion s) AuthHelper.POST_BC_EXP_FLAG)
  then logon_proof_S M2 0x00800000 0 0 else logon_proof_S_old M2 0.
Definition logon_statement (s : t) (A : Z) : statement :=
  LOGIN_UPD_LOGONPROOF (BigNumber.AsHexStr (proof_K s A)) (address s) (GetLocaleByName (_localizationName s))
    (_os s) (_login s).

Lemma ends_HandleLogonProof s E (Q : bool → t → Prop) :
  sane s → Forall is_byte (input s) →
  ((length (input s) < 75)%nat → Q false s) →
  ((75 ≤ length (input s))%nat → ¬ proof_ready s →
   Q true (set_socket (RealmSocket.record_io RealmSocket.Shutdown (socket (consume 75 s))) s)) →
  (proof_ready s → ¬ full 20 (le_val (proof_digest s (lp_A_val s))) → E UndefinedBehaviour) →
  (proof_ready s → lp_M1_of s = proof_digest s (lp_A_val s) →
   ∀ s', talk [logon_reply s (lp_A_val s)] (set_K (proof_K s (lp_A_val s)) (consume 75 s)) s' →
     calls s' = Execute (logon_statement s (lp_A_val s)) :: calls s → Q true (set_authed true s')) →
  (proof_ready s → lp_M1_of s ≠ proof_digest s (lp_A_val s) →
   ∀ s', talk [[1; 4; 3; 0]] (set_K (proof_K s (lp_A_val s)) (consume 75 s)) s' → Q true s') →
  ends (_HandleLogonProof env) s E Q.
Proof.
  intros Hs Hb Hshort Hstop Hub Hyes Hno. unfold _HandleLogonProof. change sizeof_sAuthLogonProof_C with 75%nat.
  apply ends_bind, ends_recv; [intros Hl; by apply ends_ret, Hshort|]. intros Hl. apply ends_bind, ends_getX.
  change (_expversion (consume 75 s)) with (_expversion s).
  destruct (Z.eqb_spec (_expversion s) AuthHelper.NO_VALID_EXP_FLAG) as [Hx|Hx].
  { apply ends_bind, ends_shutdown, ends_ret, Hstop; [done|]. by intros (_ & ? & _). }
  set (A := lp_A_val s) in *.
  assert (Forall is_byte (lp_A (logon_proof (take 75 (input s))))) as HbA by by apply Forall_take, Forall_drop, Forall_take.
  assert (0 ≤ A) as HA by by apply le_val_bound.
  apply ends_bind, ends_liftX. rewrite SetBinary_val; [|done|simpl; rewrite length_take; lia]. fold (lp_A_val s). fold A.
  unfold BigNumber.isZero. destruct (Z.eqb_spec A 0) as [HA0|HA0].
  { apply ends_bind, ends_shutdown, ends_ret, Hstop; [done|]. by intros (_ & _ & ?). }
  assert (proof_ready s) as Hr by done. specialize (Hub Hr). specialize (Hyes Hr). specialize (Hno Hr).
  destruct Hs as [HN Hg Hss Hv Hbb HB HK Hp].
  apply ends_bind, ends_liftX. rewrite (server_S_eq (consume 75 s)) by done.
  apply ends_bind, ends_liftX. rewrite server_K_eq by apply proof_S_bound.
  change (proof_S (consume 75 s) A) with (proof_S s A). fold (proof_K s A).
  apply ends_bind, ends_modifyX, ends_bind, ends_liftX.
  cbn [consume set_socket bn_N bn_g bn_s bn_B _login]. rewrite HN, Hg.
  rewrite expected_M_eq by (done || apply HB || apply proof_K_nonneg).
  fold (proof_digest s A). apply ends_bind, ends_liftX.
  destruct (decide (full 20 (le_val (proof_digest s A)))) as [Hf|Hf].
  2:{ unfold proof_matches, bytes_at. rewrite AsByteArray_minimal by apply SHA1_val_bound.
      unfold minimal. rewrite length_le_bytes, (proj2 (Nat.ltb_lt _ _)); [by apply Hub|].
      pose proof (digest_not_full _ Hf : (num_bytes (le_val (proof_digest s A)) ≤ 19)%nat). lia. }
  rewrite proof_matches_eq by done.
  replace (le_bytes 20 (le_val (proof_digest s A))) with (proof_digest s A) by (symmetry; apply SHA1_val_bytes).
  change (lp_M1 (logon_proof (take 75 (input s)))) with (lp_M1_of s).
  case_bool_decide as HM.
  - unfold logon_accepted. apply ends_bind, ends_bind, ends_getX, ends_bind, ends_emit.
    match goal with |- ends (mbind _ ?m) _ _ _ => replace m with (send env (logon_reply s A)) end.
    2:{ unfold logon_reply. cbn [set_K bn_K _expversion].
        rewrite sha_BigNumbers_eq by (repeat constructor; [done|apply SHA1_val_bound|apply proof_K_nonneg]).
        cbn [fmap list_fmap concat]. rewrite app_nil_r.
        change (_expversion (consume 75 s)) with (_expversion s). by case_match. }
    apply ends_bind, ends_send. intros x Hsx. apply ends_modifyX, ends_ret, Hyes; [done| |done].
    apply (talk_send []); [|exact Hsx]. by split.
  - apply ends_bind, ends_logon_refused. intros s' Ht. apply ends_ret. apply Hno; [|done]. by intros E'.
Qed.

End proof.

(** ** The outcome of a challenge *)

Section challenge.
#[local] Set Default Proof Using "Type*".
Context `{OpenSSLLaws} (env : Env) `{!EnvLaws env}.

(** The digest that the database holds for a password. *)
Definition digest_bytes (I : Z) : list Z := if (num_bytes I <=? 20)%nat then rev (le_bytes 20 I) else replicate 20 0.

Lemma password_digest_eq rI I : hex_val rI = Some I → password_digest rI = digest_bytes I.
Proof.
  intros E. pose proof (hex_val_nonneg _ _ E) as HI. unfold password_digest, digest_bytes.
  unfold BigNumber.SetHexStr. rewrite (BN_hex2bn_law _ _ I) by done. unfold BigNumber.GetNumBytes.
  rewrite BN_num_bytes_law by done. change SHA1Hash.SHA_DIGEST_LENGTH with 20%nat.
  destruct (Nat.leb_spec (num_bytes I) 20) as [Hn|Hn]; [|done]. f_equal. rewrite AsByteArray_minimal by done.
  unfold minimal. rewrite firstn_all2 by (rewrite length_le_bytes; lia).
  rewrite (le_bytes_pad (num_bytes I) 20) by first [done | split; [done|by apply num_bytes_spec]].
  unfold ByteBuffer.overwrite. rewrite take_0, length_le_bytes. cbn [app]. by rewrite drop_replicate.
Qed.

(** Where the salt and the verifier come from. *)
Definition stored (row : LogonRow) : bool := (length (row_v row) =? 64)%nat && (length (row_s row) =? 64)%nat.
Definition numbers_of (row : LogonRow) (v s : Z) : Prop :=
  if stored row then hex_val (row_v row) = Some v ∧ hex_val (row_s row) = Some s
  else full 32 s ∧ ∃ I, hex_val (row_sha_pass_hash row) = Some I ∧
       v = g_val ^ private_x (le_bytes 32 s) (digest_bytes I) mod N_val.

Lemma SetRand_full h n k : n = 8 * Z.of_nat k → (0 < k)%nat → full k (SetRand env h n).
Proof.
  intros -> Hk. pose proof (SetRand_law h (8 * Z.of_nat k)) as [H1 H2]; [lia|]. unfold full. rewrite !pow_256 by lia.
  split; [|done]. etrans; [|exact H1]. apply Z.pow_le_mono_r; lia.
Qed.

(** The state after the challenge has chosen [v] and [s]. *)
Lemma ends_account_numbers row s E (Q : unit → t → Prop) :
  sane s → is_Some (hex_val (row_sha_pass_hash row)) →
  (length (row_v row) = 64%nat → is_Some (hex_val (row_v row))) →
  (length (row_s row) = 64%nat → ∃ z, hex_val (row_s row) = Some z ∧ 0 < z) →
  (∀ v' s' s1, numbers_of row v' s' → 0 ≤ v' → 0 < s' → talk [] (set_vs v' s' s) s1 → Q tt s1) →
  ends (account_numbers env row) s E Q.
Proof.
  intros Hs [I HI] Hv Hss HQ. unfold account_numbers, numbers_of, stored in *. change (s_BYTE_SIZE * 2)%nat with 64%nat.
  destruct (Nat.eqb_spec (length (row_v row)) 64) as [E1|E1], (Nat.eqb_spec (length (row_s row)) 64) as [E2|E2]; simpl in *.
  { apply ends_bind, ends_getX, ends_modifyX. destruct (Hv E1) as [v' Ev], (Hss E2) as (s' & Es & Hs').
    unfold BigNumber.SetHexStr. rewrite (BN_hex2bn_law _ _ _ Ev), (BN_hex2bn_law _ _ _ Es).
    eapply HQ; [by split|by eapply hex_val_nonneg|done|apply talk_refl]. }
  all: unfold _SetVSFields; apply ends_bind, ends_ask; change (Z.of_nat s_BYTE_SIZE * 8) with 256.
  all: set (salt := SetRand env (calls s) 256); assert (full 32 salt) as Hf by (apply SetRand_full; [done|lia]).
  all: apply ends_bind, ends_liftX; rewrite (password_digest_eq _ _ HI), (AsByteArray_full _ _ 32) by (done || lia).
  all: unfold SHA1Hash.GetDigest, SHA1Hash.Finalize, SHA1Hash.UpdateData, SHA1Hash.new;
    cbn [SHA1Hash.mC SHA1Hash.mDigest]; rewrite SHA1_two, SetBinary_SHA1.
  all: apply ends_bind, ends_getX, ends_bind, ends_modifyX, ends_emit.
  all: unfold BigNumber.ModExp; cbn [record_call bn_g bn_N]; rewrite (sane_N s Hs), (sane_g s Hs).
  all: rewrite BN_mod_exp_law by (done || apply SHA1_val_bound); fold (private_x (le_bytes 32 salt) (digest_bytes I)).
  all: pose proof (full_nonneg 32 salt ltac:(lia) Hf).
  all: eapply HQ; [split; [exact Hf|eauto]|by apply Z.mod_pos_bound|done|by split].
Qed.

(** The numbers of the reply. *)
Definition reply_numbers (code : Z) (s : t) (unk : list Z) : list Z :=
  [code] ++ array32 (bn_B s) ++ [1; 7; 32] ++ le_bytes 32 N_val ++ minimal (bn_s s) ++ unk ++ [0].
Definition build_code (s : t) : Z :=
  if AuthHelper.IsAcceptedClientBuild (_build s) then WOW_SUCCESS else WOW_FAIL_VERSION_INVALID.

Lemma num_bytes_pos z : 0 < z → (0 < num_bytes z)%nat.
Proof.
  intros Hz. pose proof (num_bytes_spec z ltac:(lia)) as Hs. destruct (num_bytes z); [change (256 ^ Z.of_nat 0) with 1 in Hs|]; lia.
Qed.

Lemma ends_challenge_numbers pkt s E (Q : ByteBuffer.t → t → Prop) :
  sane s → 0 < bn_s s → Z.of_nat (num_bytes (bn_s s)) < 1000000 → Whole.holds pkt [0; 0] →
  (∀ b s1 pkt' unk, talk [] (set_b b ((bn_v s * 3 + g_val ^ b mod N_val) mod N_val) s) s1 →
     2 ^ 151 ≤ b < 2 ^ 152 → length unk = 16%nat →
     Whole.holds pkt' ([0; 0] ++ reply_numbers (build_code s) s1 unk) → Q pkt' s1) →
  ends (challenge_numbers env pkt) s E Q.
Proof.
  intros Hs Hpos Hsmall Hp HQ. pose proof Hs as [HN Hg Hss Hv Hbb HB HK Hpr]. unfold challenge_numbers.
  apply ends_bind, ends_ask. change (19 * 8) with 152. set (b := SetRand env (calls s) 152).
  assert (2 ^ 151 ≤ b < 2 ^ 152) as Hb by exact (SetRand_law (calls s) 152 eq_refl).
  apply ends_bind, ends_getX. cbn [record_call bn_g bn_N bn_v]. rewrite HN, Hg.
  unfold BigNumber.ModExp, BigNumber.rem, BigNumber.add, BigNumber.mul.
  rewrite (BN_mod_exp_law g_val b) by (done || lia). set (gmod := g_val ^ b mod N_val).
  assert (0 ≤ gmod < N_val) as Hgm by by apply Z.mod_pos_bound.
  rewrite BN_mul_law, BN_add_law, BN_mod_law by (done || lia).
  set (B := (bn_v s * 3 + gmod) mod N_val). assert (0 ≤ B < N_val) as HBB by by apply Z.mod_pos_bound.
  assert (0 ≤ B < 256 ^ 32) as HB32 by (pose proof N_bounds; lia).
  apply ends_bind, ends_modifyX, ends_bind. unfold BigNumber.GetNumBytes.
  rewrite BN_num_bytes_law by apply Hgm.
  rewrite (proj2 (Nat.ltb_ge _ _)) by (apply num_bytes_le; pose proof N_bounds; change (Z.of_nat 32) with 32; lia).
  apply ends_ret, ends_bind, ends_ask. change (16 * 8) with 128. set (unk3 := SetRand env _ 128).
  assert (full 16 unk3) as Hu by (apply SetRand_full; [done|lia]).
  assert (length (array32 B) = 32%nat) as HlB.
  { pose proof (num_bytes_le B 32 HB32). unfold array32, minimal. rewrite length_app, length_replicate, length_le_bytes. lia. }
  apply ends_bind, ends_liftX. rewrite AsByteArray_val by lia. fold (minimal B). fold (array32 B).
  rewrite bytes_at_all by done.
  apply ends_bind, ends_liftX. rewrite (AsByteArray_full g_val 0 1), bytes_at_all by (done || lia).
  apply ends_bind, ends_liftX. rewrite (AsByteArray_full N_val 32 32) by (lia || apply N_full).
  rewrite bytes_at_all by apply length_le_bytes.
  apply ends_bind, ends_liftX. rewrite (AsByteArray_full unk3 16 16) by (done || lia).
  rewrite bytes_at_all by apply length_le_bytes.
  rewrite AsByteArray_minimal by (cbn; lia). cbn [record_call set_b bn_s].
  assert (minimal (bn_s s) ≠ []) as Hms.
  { pose proof (num_bytes_pos _ Hpos). intros E'. apply (f_equal length) in E'. unfold minimal in E'. rewrite length_le_bytes in E'. simpl in E'. lia. }
  assert (array32 B ≠ []) as HB0 by (intros E'; by rewrite E' in HlB).
  set (s1 := record_call (Rand 128) _). apply (ends_write _ (reply_numbers (build_code s) s1 (le_bytes 16 unk3)) pkt [0; 0]); [done| | |].
  - unfold reply_numbers. change (bn_B s1) with B. change (bn_s s1) with (bn_s s).
    change ([build_code s] ++ array32 B ++ [1; 7; 32] ++ le_bytes 32 N_val ++ minimal (bn_s s) ++ le_bytes 16 unk3 ++ [0])
      with ([build_code s] ++ array32 B ++ [1] ++ [7] ++ [32] ++ le_bytes 32 N_val ++ minimal (bn_s s) ++ le_bytes 16 unk3 ++ [0]).
    replace [build_code s] with (le_bytes 1 (build_code s)) by (unfold build_code; by case_match).
    unfold build_code. cbn [_build record_call].
    whole.
  - unfold reply_numbers, minimal. change (bn_B s1) with B. change (bn_s s1) with (bn_s s). rewrite !length_app, HlB, !length_le_bytes. simpl length.
    unfold ByteBuffer.MAX_SIZE. lia.
  - intros pkt' Hp'. eapply HQ; [|exact Hb| |exact Hp']; [done|by rewrite length_le_bytes].
Qed.

(** What the database says of a log-on, with the history that each question sees. *)
Definition verdict (h : list call) (ip login : list Z) : Z + LogonRow :=
  let h := Execute LOGIN_DEL_EXPIRED_IP_BANS :: h in
  if ip_banned env h ip then inl WOW_FAIL_BANNED
  else
    let h := Query (LOGIN_SEL_IP_BANNED ip) :: h in
    match logonchallenge env h login with
    | None => inl WOW_FAIL_UNKNOWN_ACCOUNT
    | Some row =>
      if (row_locked row =? 1) && negb (bool_decide (row_last_ip row = ip)) then inl WOW_FAIL_SUSPENDED
      else
        let h := Execute LOGIN_UPD_EXPIRED_ACCOUNT_BANS :: Query (LOGIN_SEL_LOGONCHALLENGE login) :: h in
        match account_banned env h (row_id row) with
        | Some (bandate, unbandate) => inl (if bandate =? unbandate then WOW_FAIL_BANNED else WOW_FAIL_SUSPENDED)
        | None => inr row
        end
    end.

(** The members that a challenge sets before anything is asked. *)
Definition challenged (ch : list Z) (s : t) : t :=
  set_os (rev (ch_os ch)) (set_client (ch_build ch) (AuthHelper.expversion (ch_build ch)) (ch_os ch) (set_login (ch_I ch) s)).

(** The state after a challenge whose account may log in. *)
Definition accepted_state (ch : list Z) (row : LogonRow) (v salt b : Z) (s : t) : t :=
  set_localizationName (ch_country_reversed ch)
    (set_accountSecurityLevel (account_type (row_gmlevel row))
      (set_b b ((v * 3 + g_val ^ b mod N_val) mod N_val) (set_vs v salt s))).

Lemma numbers_small row v salt : numbers_of row v salt → Z.of_nat (num_bytes salt) < 1000000.
Proof.
  unfold numbers_of, stored. destruct (_ && _) eqn:E.
  - apply andb_true_iff in E as [_ El%Nat.eqb_eq]. intros [_ Es].
    assert (∀ str acc z, 0 ≤ acc → hex_loop str acc = Some z → z < (acc + 1) * 16 ^ Z.of_nat (length str)) as Hl.
    { clear. induction str as [|c str IH]; intros acc z Ha; cbn [hex_loop length].
      - intros [= ->]. change (16 ^ Z.of_nat 0) with 1. lia.
      - destruct (hex_digit c) as [d|] eqn:Ed; [|done]. cbn [mbind option_bind]. intros Ez.
        assert (0 ≤ d < 16) by (unfold hex_digit in Ed; repeat case_match; try done; injection Ed as <-;
          rewrite ?andb_true_iff, ?Z.leb_le in *; lia).
        apply IH in Ez; [|lia]. rewrite Nat2Z.inj_succ, Z.pow_succ_r by lia.
        assert (0 < 16 ^ Z.of_nat (length str)) by (apply Z.pow_pos_nonneg; lia). nia. }
    pose proof (hex_val_nonneg _ _ Es). unfold hex_val in Es. destruct (row_s row) eqn:Er; [done|]. rewrite <- Er in *.
    apply Hl in Es; [|lia]. rewrite El in Es.
    assert (num_bytes salt ≤ 32)%nat; [|lia]. apply num_bytes_le. change (256 ^ Z.of_nat 32) with ((0 + 1) * 16 ^ Z.of_nat 64). lia.
  - intros [Hf _]. rewrite (full_num_bytes 32) by (done || lia). lia.
Qed.

Lemma ends_challenge_account ch row pkt s E (Q : ByteBuffer.t → t → Prop) :
  sane s → (∃ h, logonchallenge env h (_login s) = Some row) → Whole.holds pkt [0; 0] →
  (∀ v salt b s1 pkt' unk, numbers_of row v salt → 0 ≤ v → 0 < salt → 2 ^ 151 ≤ b < 2 ^ 152 → length unk = 16%nat →
     talk [] (accepted_state ch row v salt b s) s1 →
     Whole.holds pkt' ([0; 0] ++ reply_numbers (build_code s) s1 unk) → Q pkt' s1) →
  ends (challenge_account env ch row pkt) s E Q.
Proof using All.
  intros Hs (h & Hrow) Hp HQ. unfold challenge_account.
  apply ends_bind, ends_account_numbers; [done|by eapply hash_law|by eapply v_law|by eapply s_law|].
  intros v salt s1 Hn Hv Hsalt Ht1. pose proof (numbers_small _ _ _ Hn) as Hsm.
  assert (sane s1) as Hs1.
  { eapply sane_core; [apply (talk_core _ _ _ Ht1)|]. destruct Hs. split; try done; cbn; lia. }
  assert (bn_s s1 = salt) as Es by (by apply (talk_field bn_s _ _ _ Ht1)).
  assert (bn_v s1 = v) as Ev by (by apply (talk_field bn_v _ _ _ Ht1)).
  assert (_build s1 = _build s) as Eb by (by apply (talk_field _build _ _ _ Ht1)).
  apply ends_bind, ends_challenge_numbers; [done|lia|by rewrite Es|done|].
  intros b s2 pkt' unk Ht2 Hb Hu Hp'. apply ends_bind, ends_modifyX, ends_bind, ends_modifyX, ends_ret.
  apply (HQ v salt b _ pkt' unk); try done.
  - rewrite Ev in Ht2. destruct Ht1 as [Hc1 ? ? ? ? Hl1], Ht2 as [Hc2 Hi2 ? ? ? Hl2].
    split; [|by etrans..|by etrans; [exact Hl2|]].
    change (set_localizationName (ch_country_reversed ch) (set_accountSecurityLevel (account_type (row_gmlevel row))
      (core s2)) = accepted_state ch row v salt b (core s)).
    rewrite Hc2. change (core (set_b ?x ?y s1)) with (set_b x y (core s1)). by rewrite Hc1.
  - unfold build_code in *. by rewrite <- Eb.
Qed.

Lemma verdict_row h ip login row : verdict h ip login = inr row → ∃ h', logonchallenge env h' login = Some row.
Proof.
  unfold verdict. destruct (ip_banned _ _ _); [done|]. destruct (logonchallenge _ _ _) eqn:E; [|done].
  case_match; [done|]. destruct (account_banned _ _ _) as [[]|]; [done|]. intros [= <-]. eauto.
Qed.

Lemma ends_challenge_reply ch pkt s E (Q : ByteBuffer.t → t → Prop) :
  sane s → Whole.holds pkt [0; 0] →
  (∀ code s' pkt', verdict (calls s) (address s) (_login s) = inl code → 0 ≤ code < 256 → talk [] s s' →
     Whole.holds pkt' [0; 0; code] → Q pkt' s') →
  (∀ row v salt b s' pkt' unk, verdict (calls s) (address s) (_login s) = inr row →
     numbers_of row v salt → 0 ≤ v → 0 < salt → 2 ^ 151 ≤ b < 2 ^ 152 → length unk = 16%nat →
     talk [] (accepted_state ch row v salt b s) s' →
     Whole.holds pkt' ([0; 0] ++ reply_numbers (build_code s) s' unk) → Q pkt' s') →
  ends (challenge_reply env ch pkt) s E Q.
Proof using All.
  intros Hs Hp Hno Hyes. unfold challenge_reply, verdict in *.
  assert (∀ code s', 0 ≤ code < 256 → (∀ pkt', Whole.holds pkt' [0; 0; code] → Q pkt' s') →
    ends (write (ByteBuffer.shl_uint8 code) pkt) s' E Q) as Hw.
  { intros code s' Hc HQ. apply (ends_write _ [code] pkt [0; 0]); [done| |done|exact HQ].
    replace [code] with (le_bytes 1 code) by (cbn [le_bytes]; by rewrite Z.mod_small by lia). apply (Whole.appends_val 1). lia. }
  apply ends_bind, ends_emit, ends_bind, ends_getX, ends_bind, ends_ask.
  cbn [record_call socket calls _login].
  destruct (ip_banned env _ (address s)) eqn:Eb; [apply Hw; [done|]; intros; by eapply Hno|].
  apply ends_bind, ends_ask. cbn [record_call socket calls _login].
  destruct (logonchallenge env _ (_login s)) as [row|] eqn:Er; [|apply Hw; [done|]; intros; by eapply Hno].
  destruct ((row_locked row =? 1) && _) eqn:El; [apply Hw; [done|]; intros; by eapply Hno|].
  apply ends_bind, ends_emit, ends_bind, ends_ask. cbn [record_call socket calls _login].
  destruct (account_banned env _ (row_id row)) as [[x y]|] eqn:Ea.
  { apply Hw; [by case_match|]. intros. eapply Hno; [reflexivity|by case_match|done|done]. }
  apply ends_challenge_account; [by apply (sane_core s)|eexists; exact Er|done|].
  intros v salt b s1 pkt' unk Hn Hv Hsalt Hbb Hu Ht Hp'. apply (Hyes row v salt b s1 pkt' unk); try done. by destruct Ht.
Qed.

Lemma ends_HandleLogonChallenge s E (Q : bool → t → Prop) :
  sane s →
  let n := challenge_eaten (input s) in
  (challenge_of (input s) = None → Q false (consume n s)) →
  (∀ ch, challenge_of (input s) = Some ch → (4 < length (ch_os ch))%nat →
     Q false (set_client (ch_build ch) (AuthHelper.expversion (ch_build ch)) (ch_os ch) (set_login (ch_I ch) (consume n s)))) →
  (∀ ch code s', challenge_of (input s) = Some ch → (length (ch_os ch) ≤ 4)%nat →
     verdict (calls s) (address s) (ch_I ch) = inl code →
     talk [[0; 0; code]] (challenged ch (consume n s)) s' → Q true s') →
  (∀ ch row v salt b s' unk, challenge_of (input s) = Some ch → (length (ch_os ch) ≤ 4)%nat →
     verdict (calls s) (address s) (ch_I ch) = inr row →
     numbers_of row v salt → 0 ≤ v → 0 < salt → 2 ^ 151 ≤ b < 2 ^ 152 → length unk = 16%nat →
     talk [[0; 0] ++ reply_numbers (build_code (challenged ch s)) s' unk]
       (accepted_state ch row v salt b (challenged ch (consume n s))) s' → Q true s') →
  ends (_HandleLogonChallenge env) s E Q.
Proof using All.
  intros Hs n Hnone Hos Hno Hyes. unfold _HandleLogonChallenge.
  apply ends_bind, ends_recv_challenge. fold n. destruct (challenge_of (input s)) as [ch|] eqn:Ec; [|by apply ends_ret, Hnone].
  apply ends_bind, ends_modifyX, ends_bind, ends_modifyX.
  destruct (Nat.ltb_spec 4 (length (ch_os ch))) as [Hl|Hl]; [by apply ends_ret, (Hos ch)|].
  apply ends_bind, ends_modifyX. fold (challenged ch (consume n s)). set (s1 := challenged ch (consume n s)).
  apply ends_bind, (ends_write _ [0; 0] _ []); [apply Whole.holds_new| |done|].
  { change [0; 0] with ([0] ++ [0]). whole. }
  intros pkt Hp. apply ends_bind, ends_challenge_reply; [by destruct Hs; split|done| |].
  - intros code s' pkt' Hv Hc Ht Hp'. apply ends_bind, ends_send. rewrite (Whole.holds_storage _ _ Hp').
    intros x Hx. apply ends_ret, (Hno ch code); [done|lia|done|].
    by apply (talk_send []).
  - intros row v salt b s' pkt' unk Hv Hn Hvn Hsalt Hb Hu Ht Hp'. apply ends_bind, ends_send.
    rewrite (Whole.holds_storage _ _ Hp'). intros x Hx.
    apply ends_ret, (Hyes ch row v salt b _ unk); try done.
    by apply (talk_send []).
Qed.

End challenge.
