(* ===== verification/AuthSocketProps.v ===== *)
(** * AuthSocketProps: who gets into the log-on server.

    A client that knows the password is let in and both sides hold the same key; nobody gets in
    without a proof that matches; and the proofs that match although nobody knows a password.
    Packets arrive through [RealmSocket::handle_input]. *)
From S2P Require Import Prelude Bits ByteBuffer ByteBufferStream BigNumber RealmList RealmSocket AuthSocket Srp6 AuthSocketRuns.
From stdpp Require Import strings list sorting.
Open Scope Z_scope.
Import AuthSocket.

(** ** Packets through the socket *)

(** Bytes have come in behind what was left. *)
Definition received (bytes : list Z) (s : t) : t :=
  set_socket (RealmSocket.set_input (input s ++ bytes) (RealmSocket.skipped (socket s)) (socket s)) s.
Definition crunched (s : t) : t := set_socket (RealmSocket.set_input (input s) 0 (socket s)) s.
Abbreviation space s := (RealmSocket.space (socket s)).

(** A connection that waits for the next packet. *)
Record idle (s : t) : Prop := {
  idle_sane : sane s;
  idle_input : input s = [];
  idle_skipped : RealmSocket.skipped (socket s) = 0%nat;
  idle_closing : RealmSocket.closing_ (socket s) = false;
  idle_session : RealmSocket.has_session (socket s) = true }.

Section input.
Context `{OpenSSL} (env : Env).

Definition handle_input (r : RealmSocket.recv_result) : X t Z := RealmSocket.handle_input (H := session env) r.

Lemma ends_on {A} (m : X RealmSocket.t A) s E (Q : A → t → Prop) :
  ends m (socket s) E (λ a x, Q a (set_socket x s)) → ends (RealmSocket.on (H := session env) m) s E Q.
Proof. unfold ends, RealmSocket.on. cbn. by destruct (m (socket s)) as [[a|e] x]. Qed.

Lemma ends_handle_input bytes s E (Q : Z → t → Prop) :
  RealmSocket.closing_ (socket s) = false → RealmSocket.has_session (socket s) = true →
  (0 < length bytes < space s)%nat →
  ends (OnRead env) (received bytes s) E (λ _ s', Q 0 (crunched s')) →
  ends (handle_input (RealmSocket.Received bytes)) s E Q.
Proof.
  intros Hc Hh Hl HQ. unfold handle_input, RealmSocket.handle_input. apply ends_bind, ends_getX.
  cbn [RealmSocket.socket session]. rewrite Hc. rewrite firstn_all2 by lia.
  rewrite (proj2 (Nat.eqb_neq _ _)) by lia. apply ends_bind, ends_on, ends_modifyX. fold (received bytes s).
  apply ends_bind. rewrite Hh. apply ends_bind. eapply ends_mono; [exact HQ|]. intros [] s' HQ'.
  apply ends_on, ends_modifyX. fold (crunched s'). rewrite (proj2 (Nat.eqb_neq _ _)) by lia. by apply ends_ret.
Qed.

(** One packet that its handler takes whole. *)
Lemma ends_OnRead_one h s c r E (Q : unit → t → Prop) :
  input s = c :: r → find_handler env (_authed s) c = Some h →
  ends (handler h) s E (λ _ s', input s' = [] ∧ Q tt s') → ends (OnRead env) s E Q.
Proof.
  intros Hi Hf HQ. unfold OnRead. apply ends_bind, ends_getX. rewrite Hi. cbn [length OnRead_loop].
  apply ends_bind, ends_sock. unfold RealmSocket.recv_soft. apply ends_bind, ends_getX, ends_ret. rewrite Hi. cbn [length Nat.ltb Nat.leb take].
  replace (set_socket (socket s) s) with s by (by destruct s). apply ends_bind, ends_getX. rewrite Hf.
  apply ends_bind. eapply ends_mono; [exact HQ|]. intros [] s' [He HQ']; [|by apply ends_ret].
  apply ends_bind, ends_sock. unfold RealmSocket.recv_soft. apply ends_bind, ends_getX, ends_ret. rewrite He. cbn [length Nat.ltb Nat.leb take].
  replace (set_socket (socket s') s') with s' by (by destruct s'). by apply ends_ret.
Qed.

(** A packet of an idle connection. *)
Lemma ends_packet h bytes s c r E (Q : Z → t → Prop) :
  idle s → bytes = c :: r → (length bytes < 4096)%nat → find_handler env (_authed s) c = Some h →
  ends (handler h) (received bytes s) E (λ _ s', input s' = [] ∧ Q 0 (crunched s')) →
  ends (handle_input (RealmSocket.Received bytes)) s E Q.
Proof.
  intros [Hs Hi Hk Hc Hh] -> Hl Hf HQ. apply ends_handle_input; [done..| |].
  - unfold RealmSocket.space. rewrite Hi, Hk. change RealmSocket.input_size with 4096%nat. cbn [length] in *. lia.
  - eapply ends_OnRead_one; [|exact Hf|exact HQ]. cbn. by rewrite Hi.
Qed.

End input.

(** ** A proof that matches *)

Section accepted.
#[local] Set Default Proof Using "Type*".
Context `{OpenSSLLaws} (env : Env).

Lemma take_packet (A M1 : list Z) :
  length A = 32%nat → length M1 = 20%nat →
  length (proof_packet A M1) = 75%nat ∧ lp_A (logon_proof (proof_packet A M1)) = A ∧ lp_M1 (logon_proof (proof_packet A M1)) = M1.
Proof.
  intros HA HM. unfold proof_packet, logon_proof. cbn [lp_A lp_M1]. split; [|split].
  - rewrite !length_app, HA, HM, length_replicate. done.
  - change (drop 1 ([AUTH_LOGON_PROOF] ++ ?l)) with l. by rewrite <- HA, take_app_length.
  - change (drop 33 ([AUTH_LOGON_PROOF] ++ ?l)) with (drop 32 l). rewrite <- HA at 1. rewrite drop_app_length.
    by rewrite <- HM, take_app_length.
Qed.

Lemma proof_accepted s A :
  idle s → _expversion s ≠ AuthHelper.NO_VALID_EXP_FLAG → full 32 A → full 20 (le_val (proof_digest s A)) →
  returns (handle_input env (RealmSocket.Received (proof_packet (le_bytes 32 A) (proof_digest s A)))) s (λ r s',
    r = 0 ∧ idle s' ∧ _authed s' = true ∧ bn_K s' = proof_K s A ∧
    answers (log s') = logon_reply s A :: answers (log s) ∧
    calls s' = Execute (logon_statement s A) :: calls s).
Proof.
  intros Hid Hx HA HM. pose proof (full_nonneg 32 A ltac:(lia) HA) as HA0.
  assert (length (proof_digest s A) = 20%nat) as HlM by apply SHA1_length_law.
  assert (Forall is_byte (proof_digest s A)) as HbM by apply SHA1_bytes_law.
  destruct (take_packet (le_bytes 32 A) (proof_digest s A)) as (Hl & HpA & HpM); [apply length_le_bytes|done|].
  set (packet := proof_packet (le_bytes 32 A) (proof_digest s A)) in *.
  set (s0 := received packet s).
  assert (input s0 = packet) as Hi0 by (cbn; by rewrite (idle_input s Hid)).
  assert (take 75 (input s0) = packet) as Ht by (rewrite Hi0; apply firstn_all2; lia).
  assert (lp_A_val s0 = A) as EA.
  { unfold lp_A_val. rewrite Ht, HpA. apply le_val_le_bytes_small. change (256 ^ Z.of_nat 32) with (256 ^ 32). destruct HA. lia. }
  assert (lp_M1_of s0 = proof_digest s A) as EM by (unfold lp_M1_of; by rewrite Ht).
  eapply ends_packet; [done|reflexivity|lia|reflexivity|]. fold s0.
  apply (ends_HandleLogonProof env s0).
  - destruct (idle_sane s Hid). by split.
  - rewrite Hi0. unfold packet, proof_packet. repeat apply Forall_app_2; try done.
    + by repeat constructor.
    + apply le_bytes_is_byte.
    + apply Forall_replicate. done.
    + by repeat constructor.
  - rewrite Hi0. lia.
  - intros _ []. split; [rewrite Hi0; lia|]. split; [done|]. rewrite EA. lia.
  - rewrite EA. done.
  - rewrite EA. intros _ _ s' Ht' Hc. cbn [set_authed socket]. split.
    + etrans; [apply (talk_input _ _ _ Ht')|]. cbn [set_K consume set_socket socket RealmSocket.input RealmSocket.set_input].
      rewrite Hi0. apply drop_ge. lia.
    + split; [done|]. split; [|split; [done|split; [|split]]].
      * split; [| |done|..].
        -- destruct (idle_sane s Hid). assert (sane (set_K (proof_K s A) (consume 75 s0))) as Hs1.
           { split; try done. apply proof_K_nonneg. }
           apply (sane_core _ s') in Hs1; [|apply (talk_core _ _ _ Ht')]. destruct Hs1. by split.
        -- cbn. etrans; [apply (talk_input _ _ _ Ht')|]. cbn [set_K consume set_socket socket RealmSocket.input RealmSocket.set_input].
           rewrite Hi0. apply drop_ge. lia.
        -- cbn. etrans; [apply (talk_closing _ _ _ Ht')|]. apply (idle_closing s Hid).
        -- cbn. etrans; [apply (talk_session _ _ _ Ht')|]. apply (idle_session s Hid).
      * by apply (talk_field bn_K _ _ _ Ht').
      * apply (talk_answers _ _ _ Ht').
      * exact Hc.
  - rewrite EA, EM. by intros _ [].
Qed.

End accepted.

(** ** A challenge that is answered *)

(** A complete challenge packet in the name of [login], from a build that is accepted. *)
Record challenge_packet (packet login : list Z) : Prop := {
  packet_frame : challenge_of packet = Some (packet ++ [0]);
  packet_taken : challenge_eaten packet = length packet;
  packet_small : (length packet < 4096)%nat;
  packet_command : head packet = Some AUTH_LOGON_CHALLENGE;
  packet_login : ch_I (packet ++ [0]) = login;
  packet_os : (length (ch_os (packet ++ [0%Z])) ≤ 4)%nat;
  packet_build : AuthHelper.IsAcceptedClientBuild (ch_build (packet ++ [0])) = true }.

Lemma expversion_accepted build :
  AuthHelper.IsAcceptedClientBuild build = true → AuthHelper.expversion build ≠ AuthHelper.NO_VALID_EXP_FLAG.
Proof.
  unfold AuthHelper.IsAcceptedClientBuild, AuthHelper.expversion.
  destruct (AuthHelper.IsPostBCAcceptedClientBuild build), (AuthHelper.IsPreBCAcceptedClientBuild build); done.
Qed.

(** The salts of the database have their full size, as those that the server makes. *)
Definition full_salt (row : LogonRow) : Prop :=
  stored row = true → ∃ salt, hex_val (row_s row) = Some salt ∧ full 32 salt.

(** What a client sees of the state after a challenge. *)
Definition offered (s : t) : challenge := mkChallenge (array32 (bn_B s)) g_val (le_bytes 32 N_val) (le_bytes 32 (bn_s s)).

Lemma take_drop_middle {A} n k (l1 l2 l3 : list A) :
  length l1 = n → length l2 = k → take k (drop n (l1 ++ l2 ++ l3)) = l2.
Proof. intros <- <-. by rewrite drop_app_length, take_app_length. Qed.

Section offered.
#[local] Set Default Proof Using "All".
Context `{OpenSSLLaws} (env : Env) `{!EnvLaws env}.

Record offer (row : LogonRow) (login : list Z) (s s1 : t) : Prop := {
  offer_idle : idle s1;
  offer_numbers : numbers_of row (bn_v s1) (bn_s s1);
  offer_salt : full 32 (bn_s s1);
  offer_b : 2 ^ 151 ≤ bn_b s1 < 2 ^ 152;
  offer_B : bn_B s1 = (bn_v s1 * 3 + g_val ^ bn_b s1 mod N_val) mod N_val;
  offer_login : _login s1 = login;
  offer_version : _expversion s1 ≠ AuthHelper.NO_VALID_EXP_FLAG;
  offer_address : address s1 = address s;
  offer_authed : _authed s1 = _authed s;
  offer_reply : ∃ reply, answers (log s1) = reply :: answers (log s) ∧ read_challenge reply = Some (offered s1) }.

Lemma array32_length z : 0 ≤ z < 256 ^ 32 → length (array32 z) = 32%nat.
Proof.
  intros Hz. pose proof (num_bytes_le z 32 Hz). unfold array32, minimal. rewrite length_app, length_replicate, length_le_bytes. lia.
Qed.

Lemma read_reply s unk :
  sane s → full 32 (bn_s s) → length unk = 16%nat →
  read_challenge ([0; 0] ++ reply_numbers WOW_SUCCESS s unk) = Some (offered s).
Proof.
  intros Hs Hf Hu. unfold reply_numbers, offered. rewrite (minimal_full 32) by (done || lia).
  assert (length (array32 (bn_B s)) = 32%nat) as HB by (apply array32_length; pose proof (sane_B s Hs); pose proof N_bounds; lia).
  unfold read_challenge. cbn [app].
  change (AUTH_LOGON_CHALLENGE =? AUTH_LOGON_CHALLENGE) with true. change (WOW_SUCCESS =? WOW_SUCCESS) with true. cbn [andb].
  set (l := array32 (bn_B s)) in *. set (n := le_bytes 32 N_val). set (salt := le_bytes 32 (bn_s s)).
  assert (length n = 32%nat) as Hn by apply length_le_bytes. assert (length salt = 32%nat) as Hsa by apply length_le_bytes.
  change (l ++ 1 :: 7 :: 32 :: n ++ salt ++ unk ++ [0]) with (l ++ [1; 7; 32] ++ n ++ salt ++ unk ++ [0]).
  rewrite !length_app, HB, Hn, Hsa, Hu. cbn [length Nat.add Nat.eqb].
  f_equal. f_equal.
  - rewrite <- HB. apply take_app_length.
  - rewrite lookup_app_r by lia. by rewrite HB.
  - rewrite (app_assoc l). apply take_drop_middle; [by rewrite length_app, HB|done].
  - rewrite (app_assoc l), (app_assoc (l ++ _)). apply take_drop_middle; [by rewrite !length_app, HB, Hn|done].
Qed.

Lemma challenge_offers packet login row s :
  idle s → challenge_packet packet login → verdict env (calls s) (address s) login = inr row → full_salt row →
  returns (handle_input env (RealmSocket.Received packet)) s (λ r s1, r = 0 ∧ offer row login s s1).
Proof.
  intros Hid [Hc He Hl Hcmd HI Hos Hb] Hv Hfs. destruct packet as [|c packet]; [done|]. injection Hcmd as ->.
  set (pkt := AUTH_LOGON_CHALLENGE :: packet) in *. remember (pkt ++ [0]) as ch0 eqn:Ech. set (s0 := received pkt s).
  assert (input s0 = pkt) as Hi0 by (cbn; by rewrite (idle_input s Hid)).
  assert (sane s0) as Hs0 by (destruct (idle_sane s Hid); by split).
  eapply (ends_packet env); [done|reflexivity|done|reflexivity|]. fold pkt. fold s0.
  apply (ends_HandleLogonChallenge env s0); [done|..]; rewrite Hi0, Hc; [done|intros ch [= <-] ?; lia|..].
  { intros ch code s' [= <-] _ Hv'. rewrite HI in Hv'. change (calls s0) with (calls s) in Hv'. change (address s0) with (address s) in Hv'. congruence. }
  intros ch row' v salt b s' unk [= <-] _ Hv' Hn Hvn Hsalt Hbb Hu Ht.
  rewrite HI in Hv'. change (calls s0) with (calls s) in Hv'. change (address s0) with (address s) in Hv'.
  rewrite Hv in Hv'. injection Hv' as <-.
  set (s1 := accepted_state _ _ _ _ _ _) in Ht.
  assert (∀ {A} (f : t → A), (∀ s, f (core s) = f s) → f s' = f s1) as Hf by (intros A f; apply (talk_field f _ _ _ Ht)).
  assert (input s' = []) as Hi'.
  { etrans; [apply (talk_input _ _ _ Ht)|]. change (drop (challenge_eaten pkt) (input s0) = []). rewrite Hi0, He. apply drop_all. }
  assert (full 32 salt) as Hfull.
  { unfold numbers_of in Hn. destruct (stored row) eqn:Est; [|apply Hn]. destruct (Hfs Est) as (z & Ez & Hz). destruct Hn as [_ Hn]. congruence. }
  assert (sane s') as Hs'.
  { apply (sane_core s1); [apply (talk_core _ _ _ Ht)|]. destruct Hs0. split; try done; cbn; [lia|lia|by apply Z.mod_pos_bound]. }
  split; [done|]. split; [done|]. split; cbn [crunched set_socket].
  - split; [by destruct Hs'; split|done|done|..].
    + etrans; [apply (talk_closing _ _ _ Ht)|apply (idle_closing s Hid)].
    + etrans; [apply (talk_session _ _ _ Ht)|apply (idle_session s Hid)].
  - cbn. by rewrite (Hf _ bn_v), (Hf _ bn_s).
  - cbn. by rewrite (Hf _ bn_s).
  - cbn. by rewrite (Hf _ bn_b).
  - cbn. by rewrite (Hf _ bn_B), (Hf _ bn_v), (Hf _ bn_b).
  - cbn. by rewrite (Hf _ _login).
  - cbn. rewrite (Hf _ _expversion) by done. by apply expversion_accepted.
  - etrans; [apply (talk_address _ _ _ Ht)|done].
  - cbn. by rewrite (Hf _ _authed).
  - eexists. split; [apply (talk_answers _ _ _ Ht)|]. change (offered (crunched s')) with (offered s').
    unfold build_code. change (_build (challenged ch0 s0)) with (ch_build ch0). rewrite Hb.
    apply read_reply; [done| |done]. by rewrite (Hf _ bn_s).
Qed.

End offered.

(** ** Both sides compute the same *)

Section agree.
#[local] Set Default Proof Using "Type*".
Context `{OpenSSLLaws}.

(** The row belongs to the password with the digest [p]. *)
Definition password_of (row : LogonRow) (p : list Z) : Prop :=
  if stored row then ∃ salt, hex_val (row_s row) = Some salt ∧
    hex_val (row_v row) = Some (g_val ^ private_x (le_bytes 32 salt) p mod N_val)
  else ∃ I, hex_val (row_sha_pass_hash row) = Some I ∧ digest_bytes I = p.

Lemma password_numbers row p v salt :
  password_of row p → numbers_of row v salt → v = g_val ^ private_x (le_bytes 32 salt) p mod N_val.
Proof.
  unfold password_of, numbers_of. destruct (stored row).
  - intros (z & Ez & Ev) [Ev' Es]. congruence.
  - intros (I & EI & <-) [_ (I' & EI' & ->)]. congruence.
Qed.

(** No number of the exchange begins with a zero byte. *)
Record full_exchange (c : client) (s : t) : Prop := {
  full_B : full 32 (bn_B s);
  full_A : full 32 (client_A c (offered s));
  full_S : full 32 (client_S c (offered s));
  full_K : full 40 (le_val (client_K c (offered s)));
  full_t3 : full 20 t3_val;
  full_M : full 20 (le_val (client_proof c (offered s))) }.

#[export] Instance full_exchange_dec c s : Decision (full_exchange c s).
Proof.
  refine (cast_if (decide (full 32 (bn_B s) ∧ full 32 (client_A c (offered s)) ∧ full 32 (client_S c (offered s)) ∧
    full 40 (le_val (client_K c (offered s))) ∧ full 20 t3_val ∧ full 20 (le_val (client_proof c (offered s)))))).
  - abstract (by destruct a as (? & ? & ? & ? & ? & ?)).
  - abstract (intros []; by apply n).
Defined.

Lemma digest_full l : length l = 20%nat → Forall is_byte l → full 20 (le_val l) → minimal (le_val l) = l.
Proof. intros Hl Hb Hf. rewrite (minimal_full 20) by (done || lia). rewrite <- Hl at 1. by apply le_bytes_le_val. Qed.

Lemma client_K_full c ch : full 40 (le_val (client_K c ch)) → minimal (le_val (client_K c ch)) = client_K c ch.
Proof.
  intros Hf. rewrite (minimal_full 40) by (done || lia).
  assert (length (client_K c ch) = 40%nat) as Hl.
  { unfold client_K, shared_key. rewrite interleave_length; by rewrite !SHA1_length_law. }
  rewrite <- Hl at 1. apply le_bytes_le_val, interleave_bytes; apply SHA1_bytes_law.
Qed.

Lemma client_N s : le_val (c_N (offered s)) = N_val.
Proof. apply le_val_le_bytes_small. done. Qed.

Section client.
Context (c : client) (row : LogonRow) (s : t).
Context (Hs : sane s) (Hnum : numbers_of row (bn_v s) (bn_s s)) (Hsalt : full 32 (bn_s s)).
Context (HB : bn_B s = (bn_v s * 3 + g_val ^ bn_b s mod N_val) mod N_val).
Context (Hpw : password_of row (cl_password c)) (Hlog : _login s = cl_login c) (Ha : 0 ≤ cl_a c).
Context (Hfull : full_exchange c s).

Lemma client_B : c_B (offered s) = le_bytes 32 (bn_B s) ∧ le_val (c_B (offered s)) = bn_B s.
Proof.
  cbn [offered c_B]. rewrite array32_full by apply Hfull. split; [done|]. apply le_val_le_bytes_small.
  pose proof (sane_B s Hs). pose proof N_bounds. change (256 ^ Z.of_nat 32) with (256 ^ 32). lia.
Qed.

Lemma agree_u : proof_u s (client_A c (offered s)) = client_u c (offered s).
Proof.
  unfold proof_u, client_u. rewrite (proj1 client_B). rewrite !(minimal_full 32) by (apply Hfull || lia). done.
Qed.

Lemma agree_S : proof_S s (client_A c (offered s)) = client_S c (offered s).
Proof.
  pose proof (proof_u_nonneg s (client_A c (offered s))) as Hu. unfold proof_S, client_S. rewrite agree_u in *. cbv zeta.
  set (u := client_u c (offered s)) in *. rewrite client_N, (proj2 client_B). cbn [offered c_g c_salt].
  set (x := private_x (le_bytes 32 (bn_s s)) (cl_password c)).
  assert (0 ≤ x) as Hx by apply SHA1_val_bound.
  rewrite !mod_pow_spec by (done || nia).
  change (eqm N_val ((client_A c (offered s) * (bn_v s ^ u mod N_val)) ^ bn_b s)
    ((bn_B s - 3 * (g_val ^ x mod N_val)) ^ (cl_a c + u * x))).
  unfold client_A. rewrite client_N, mod_pow_spec by done. cbn [offered c_g]. rewrite !eqm_mod.
  apply srp_agree; [done|apply Hs|done|done|..].
  - rewrite (password_numbers _ _ _ _ Hpw Hnum). apply eqm_mod.
  - rewrite HB. by rewrite !eqm_mod.
Qed.

Lemma agree_K : proof_K s (client_A c (offered s)) = le_val (client_K c (offered s)).
Proof. unfold proof_K, client_K, shared_key. rewrite agree_S, array32_full by apply Hfull. by rewrite session_key_eq. Qed.

Lemma agree_proof : proof_digest s (client_A c (offered s)) = client_proof c (offered s).
Proof.
  unfold proof_digest, client_proof, client_M1. rewrite agree_K, Hlog, client_N, (proj1 client_B).
  f_equal. f_equal; [|do 2 f_equal; [|f_equal; [|f_equal]]].
  - apply digest_full; [apply xor_digest_length|apply xor_digest_bytes|apply (full_t3 _ _ Hfull)].
  - by apply minimal_full; [lia|].
  - apply minimal_full; [lia|apply Hfull].
  - apply minimal_full; [lia|apply Hfull].
  - apply client_K_full, Hfull.
Qed.

End client.
End agree.

(** C14. A client that knows the password of an account, and follows SRP6, gets in: to its
    challenge the server answers with a reply that the client can read; to the proof that the
    client makes of it, with the proof that the client expects.  The connection is then
    authenticated, both sides hold the same key, and it is stored for the account.  The
    condition [full_exchange]: no number of the exchange begins with a zero byte. *)
Theorem srp6_login `{OpenSSLLaws} (env : Env) `{!EnvLaws env} (s : t) (packet : list Z) (c : client) (row : LogonRow) :
  idle s → challenge_packet packet (cl_login c) →
  verdict env (calls s) (address s) (cl_login c) = inr row → full_salt row → password_of row (cl_password c) →
  0 ≤ cl_a c →
  returns (handle_input env (RealmSocket.Received packet)) s (λ _ s1, ∃ reply ch,
    answers (log s1) = reply :: answers (log s) ∧ read_challenge reply = Some ch ∧
    (full_exchange c s1 →
     returns (handle_input env (RealmSocket.Received (client_answer c ch))) s1 (λ _ s2,
       _authed s2 = true ∧ bn_K s2 = le_val (client_K c ch) ∧
       (∃ rest, answers (log s2) = ([AUTH_LOGON_PROOF; 0] ++ client_expects c ch ++ rest) :: answers (log s1)) ∧
       ∃ locale os, calls s2 = Execute (LOGIN_UPD_LOGONPROOF (BigNumber.AsHexStr (le_val (client_K c ch))) (address s)
                                          locale os (cl_login c)) :: calls s1))).
Proof.
  intros Hid Hp Hv Hfs Hpw Ha. eapply ends_mono; [by apply (challenge_offers env packet (cl_login c) row)|].
  intros _ s1 [_ Ho]. destruct (offer_reply _ _ _ _ Ho) as (reply & Hr & Hch). exists reply, (offered s1). do 2 (split; [done|]).
  intros Hf. destruct Ho as [Hi Hn Hsalt Hb HB Hlog Hver Hadr Hau _].
  pose proof (agree_proof c row s1 (idle_sane s1 Hi) Hn Hsalt HB Hpw Hlog Ha Hf) as EM.
  pose proof (agree_K c row s1 (idle_sane s1 Hi) Hn Hsalt HB Hpw Hlog Ha Hf) as EK.
  unfold client_answer. rewrite <- EM.
  eapply ends_mono; [apply (proof_accepted env s1); [done|done|apply Hf|rewrite EM; apply Hf]|].
  intros r s2 (_ & _ & Hauth & HK & Hans & Hcalls). split; [done|]. split; [by rewrite HK, EK|]. split.
  - unfold logon_reply in Hans. rewrite EM, EK in Hans.
    assert (SHA1 (minimal (client_A c (offered s1)) ++ minimal (le_val (client_proof c (offered s1))) ++
      minimal (le_val (client_K c (offered s1)))) = client_expects c (offered s1)) as E2.
    { unfold client_expects, client_M2. f_equal. f_equal; [apply minimal_full; [lia|apply Hf]|]. f_equal.
      - apply digest_full; [apply SHA1_length_law|apply SHA1_bytes_law|apply (full_M _ _ Hf)].
      - apply client_K_full, Hf. }
    rewrite E2 in Hans. destruct (z2b _); eexists; rewrite Hans; unfold logon_proof_S, logon_proof_S_old; reflexivity.
  - rewrite Hcalls. unfold logon_statement. rewrite EK, Hlog, Hadr. eauto.
Qed.

(** ** Proofs without a password *)

(** [A] is the modulus that the server has sent: then [S] is 0. *)
Definition forged_proof `{OpenSSL} (login : list Z) (ch : challenge) : list Z :=
  client_M1 login (le_val (c_N ch)) (c_g ch) (c_salt ch) (c_N ch) (c_B ch) (shared_key 0).
Definition forged_answer `{OpenSSL} (login : list Z) (ch : challenge) : list Z :=
  proof_packet (c_N ch) (forged_proof login ch).

(** Nothing has been agreed on this connection: the numbers are 0, and [S] is 1. *)
Definition one_key `{OpenSSL} : list Z := session_key (replicate 31 0 ++ [1]).
Definition blind_answer `{OpenSSL} (login : list Z) : list Z :=
  proof_packet (le_bytes 32 N_val)
    (SHA1 (xor_digest N_val g_val ++ SHA1 login ++ le_bytes 32 N_val ++ one_key)).

Section forged.
#[local] Set Default Proof Using "Type*".
Context `{OpenSSLLaws} (env : Env) `{!EnvLaws env}.

Lemma key_full k : length k = 40%nat → Forall is_byte k → full 40 (le_val k) → minimal (le_val k) = k.
Proof. intros Hl Hb Hf. rewrite (minimal_full 40) by (done || lia). rewrite <- Hl at 1. by apply le_bytes_le_val. Qed.

Lemma minimal_t3 : full 20 t3_val → minimal t3_val = xor_digest N_val g_val.
Proof. intros Hf. apply digest_full; [apply xor_digest_length|apply xor_digest_bytes|done]. Qed.

Lemma proof_S_N s : 0 < bn_b s → proof_S s N_val = 0.
Proof.
  intros Hb. unfold proof_S.
  change (eqm N_val ((N_val * (bn_v s ^ proof_u s N_val mod N_val)) ^ bn_b s) 0).
  assert (eqm N_val N_val 0) as HN by done. rewrite HN at 2. rewrite Z.mul_0_l, Z.pow_0_l by lia. done.
Qed.

Lemma forged_digest login row s0 s :
  offer row login s0 s → full 32 (bn_B s) → full 40 (le_val (shared_key 0)) → full 20 t3_val →
  proof_digest s N_val = client_M1 login N_val g_val (le_bytes 32 (bn_s s)) (le_bytes 32 N_val) (array32 (bn_B s)) (shared_key 0) ∧
  proof_K s N_val = le_val (shared_key 0).
Proof.
  intros Ho HB HK Ht. pose proof (offer_b _ _ _ _ Ho).
  assert (proof_K s N_val = le_val (shared_key 0)) as EK.
  { unfold proof_K. rewrite proof_S_N by lia. rewrite array32_0, session_key_eq. done. }
  split; [|done]. unfold proof_digest, client_M1. rewrite EK, minimal_t3, (offer_login _ _ _ _ Ho) by done.
  rewrite (minimal_full 32 (bn_s s)), (minimal_full 32 N_val), (minimal_full 32 (bn_B s)), array32_full
    by first [apply (offer_salt _ _ _ _ Ho) | apply N_full | done | lia].
  rewrite (key_full (shared_key 0)); [done| | |done].
  - unfold shared_key. rewrite interleave_length; by rewrite !SHA1_length_law.
  - unfold shared_key. apply interleave_bytes; apply SHA1_bytes_law.
Qed.

(** A refused challenge leaves the numbers alone. *)
Lemma challenge_refused packet login code s :
  idle s → challenge_packet packet login → verdict env (calls s) (address s) login = inl code →
  returns (handle_input env (RealmSocket.Received packet)) s (λ r s1, r = 0 ∧ idle s1 ∧
    bn_b s1 = bn_b s ∧ bn_s s1 = bn_s s ∧ bn_B s1 = bn_B s ∧ _login s1 = login ∧
    _expversion s1 ≠ AuthHelper.NO_VALID_EXP_FLAG ∧ address s1 = address s ∧
    answers (log s1) = [AUTH_LOGON_CHALLENGE; 0; code] :: answers (log s)).
Proof using All.
  intros Hid [Hc He Hl Hcmd HI Hos Hb] Hv. destruct packet as [|c packet]; [done|]. injection Hcmd as ->.
  set (pkt := AUTH_LOGON_CHALLENGE :: packet) in *. remember (pkt ++ [0]) as ch0 eqn:Ech. set (s0 := received pkt s).
  assert (input s0 = pkt) as Hi0 by (cbn; by rewrite (idle_input s Hid)).
  assert (sane s0) as Hs0 by (destruct (idle_sane s Hid); by split).
  eapply (ends_packet env); [done|reflexivity|done|reflexivity|]. fold pkt. fold s0.
  apply (ends_HandleLogonChallenge env s0); [done|..]; rewrite Hi0, Hc; [done|intros ch [= <-] ?; lia|..].
  2:{ intros ch row v salt b s' unk [= <-] _ Hv'. rewrite HI in Hv'.
      change (calls s0) with (calls s) in Hv'. change (address s0) with (address s) in Hv'. congruence. }
  intros ch code' s' [= <-] _ Hv' Ht. rewrite HI in Hv'.
  change (calls s0) with (calls s) in Hv'. change (address s0) with (address s) in Hv'. rewrite Hv in Hv'. injection Hv' as <-.
  set (s1 := challenged _ _) in Ht.
  assert (∀ {A} (f : t → A), (∀ s, f (core s) = f s) → f s' = f s1) as Hf by (intros A f; apply (talk_field f _ _ _ Ht)).
  assert (input s' = []) as Hi'.
  { etrans; [apply (talk_input _ _ _ Ht)|]. change (drop (challenge_eaten pkt) (input s0) = []). rewrite Hi0, He. apply drop_all. }
  assert (sane s') as Hs'.
  { apply (sane_core s1); [apply (talk_core _ _ _ Ht)|]. destruct Hs0. by split. }
  split; [done|]. split; [done|]. split; [|split_and!]; cbn [crunched set_socket].
  - split; [by destruct Hs'; split|done|done|..].
    + etrans; [apply (talk_closing _ _ _ Ht)|apply (idle_closing s Hid)].
    + etrans; [apply (talk_session _ _ _ Ht)|apply (idle_session s Hid)].
  - cbn. by rewrite (Hf _ bn_b).
  - cbn. by rewrite (Hf _ bn_s).
  - cbn. by rewrite (Hf _ bn_B).
  - cbn. by rewrite (Hf _ _login).
  - cbn. rewrite (Hf _ _expversion) by done. by apply expversion_accepted.
  - etrans; [apply (talk_address _ _ _ Ht)|done].
  - apply (talk_answers _ _ _ Ht).
Qed.

Lemma blind_digest login s :
  bn_b s = 0 → bn_s s = 0 → bn_B s = 0 → _login s = login → full 40 (le_val one_key) → full 20 t3_val →
  proof_digest s N_val = SHA1 (xor_digest N_val g_val ++ SHA1 login ++ le_bytes 32 N_val ++ one_key) ∧
  proof_K s N_val = le_val one_key.
Proof.
  intros Hb Hss HB Hl HK Ht.
  assert (proof_K s N_val = le_val one_key) as EK.
  { unfold proof_K, proof_S. rewrite Hb, Z.pow_0_r. done. }
  split; [|done]. unfold proof_digest. rewrite EK, minimal_t3, Hss, HB, Hl by done.
  rewrite (minimal_full 32 N_val), (key_full one_key) by first [apply N_full | apply session_key_length | apply session_key_bytes | done | lia].
  done.
Qed.

End forged.

(** C31. The modulus [N] itself as the client's public number: it is not 0, so it passes the
    safeguard, the shared secret becomes 0, and the proof can be computed from the reply to the
    challenge alone.  Whoever sends it is authenticated as [login] without a password, and the
    stored session key is known to him. *)
Theorem forged_login `{OpenSSLLaws} (env : Env) `{!EnvLaws env} (s : t) (packet login : list Z) (row : LogonRow) :
  idle s → challenge_packet packet login → verdict env (calls s) (address s) login = inr row → full_salt row →
  returns (handle_input env (RealmSocket.Received packet)) s (λ _ s1, ∃ reply ch,
    answers (log s1) = reply :: answers (log s) ∧ read_challenge reply = Some ch ∧
    (full 32 (bn_B s1) → full 40 (le_val (shared_key 0)) → full 20 t3_val → full 20 (le_val (forged_proof login ch)) →
     returns (handle_input env (RealmSocket.Received (forged_answer login ch))) s1 (λ _ s2,
       _authed s2 = true ∧
       ∃ locale os, calls s2 = Execute (LOGIN_UPD_LOGONPROOF (BigNumber.AsHexStr (le_val (shared_key 0))) (address s)
                                          locale os login) :: calls s1))).
Proof.
  intros Hid Hp Hv Hfs. eapply ends_mono; [by apply (challenge_offers env packet login row)|].
  intros _ s1 [_ Ho]. destruct (offer_reply _ _ _ _ Ho) as (reply & Hr & Hch). exists reply, (offered s1). do 2 (split; [done|]).
  intros HB HK Ht HM. destruct (forged_digest login row s s1 Ho HB HK Ht) as [ED EK].
  unfold forged_answer, forged_proof in *. rewrite client_N in *. cbn [offered c_N c_g c_salt c_B] in *. rewrite <- ED in *.
  eapply ends_mono; [apply (proof_accepted env s1); [apply Ho|apply Ho|apply N_full|done]|].
  intros r s2 (_ & _ & Hauth & _ & _ & Hcalls). split; [done|]. rewrite Hcalls. unfold logon_statement.
  rewrite EK, (offer_login _ _ _ _ Ho), (offer_address _ _ _ _ Ho). eauto.
Qed.

(** C32. On a new connection ([b], [s] and [B] still 0) a challenge that is refused, with
    whatever [code], can be followed by a proof: the shared secret is 1, the proof depends on
    nothing but the name, and the server accepts it, authenticates the connection and stores a
    known key for the name. *)
Theorem refused_login `{OpenSSLLaws} (env : Env) `{!EnvLaws env} (s : t) (packet login : list Z) (code : Z) :
  idle s → bn_b s = 0 → bn_s s = 0 → bn_B s = 0 → challenge_packet packet login →
  verdict env (calls s) (address s) login = inl code →
  full 40 (le_val one_key) → full 20 t3_val →
  full 20 (le_val (SHA1 (xor_digest N_val g_val ++ SHA1 login ++ le_bytes 32 N_val ++ one_key))) →
  returns (handle_input env (RealmSocket.Received packet)) s (λ _ s1,
    answers (log s1) = [AUTH_LOGON_CHALLENGE; 0; code] :: answers (log s) ∧
    returns (handle_input env (RealmSocket.Received (blind_answer login))) s1 (λ _ s2,
      _authed s2 = true ∧
      ∃ locale os, calls s2 = Execute (LOGIN_UPD_LOGONPROOF (BigNumber.AsHexStr (le_val one_key)) (address s)
                                         locale os login) :: calls s1)).
Proof.
  intros Hid Hb Hss HB Hp Hv HK Ht HM. eapply ends_mono; [by apply (challenge_refused env packet login code)|].
  intros _ s1 (_ & Hi1 & Eb & Es & EB & El & Hver & Ead & Hans). split; [done|].
  rewrite Hb in Eb. rewrite Hss in Es. rewrite HB in EB.
  destruct (blind_digest login s1) as [ED EK]; [done..|].
  unfold blind_answer. rewrite <- ED.
  eapply ends_mono; [apply (proof_accepted env s1); [done|done|apply N_full|by rewrite ED]|].
  intros r s2 (_ & _ & Hauth & _ & _ & Hcalls). split; [done|]. rewrite Hcalls. unfold logon_statement.
  rewrite EK, El, Ead. eauto.
Qed.

(** ** Examples *)

Module Example.
Import Toy.

Definition random (h : list call) (n : Z) : Z := 2 ^ (n - 1) + 0x123456789ABCDEF0123456789 mod 2 ^ (n - 1).
Definition row : LogonRow := mkLogonRow (Toy.hex_bytes (replicate 20 0xA7)) 5 0 [] 2 [] [].
(** An account without numbers; address [9] is banned. *)
Definition env : Env :=
  mkEnv (RealmSocket.mkEnv (λ _ _, RealmSocket.Sent 7) (λ _, true)) (λ _ ip, bool_decide (ip = [9])) (λ _ _, Some row)
    (λ _ _, None) (λ _ _, Some (Toy.hex_bytes (replicate 40 0x5A), 0)) (λ _ _, None) (λ _ _, Some 5) (λ _ _ _, Some 3)
    (λ _, []) random (λ _, 1000) (λ _ _, []) 0 0 false.

#[global] Instance env_laws : EnvLaws env.
Proof.
  split.
  - intros h n Hn. cbn [SetRand env]. unfold random.
    assert (0 < 2 ^ (n - 1)) as Hp by (apply Z.pow_pos_nonneg; lia).
    pose proof (Z.mod_pos_bound 0x123456789ABCDEF0123456789 _ Hp).
    replace (2 ^ n) with (2 * 2 ^ (n - 1)); [lia|]. rewrite <- Z.pow_succ_r by lia. f_equal. lia.
  - intros h l r [= <-]. by vm_compute; eauto.
  - intros h l r [= <-] E. by vm_compute in E.
  - intros h l r [= <-] E. by vm_compute in E.
  - intros h l k lvl [= <- <-]. right. by vm_compute; eauto.
Qed.

(** A connection from an address, and the challenge of a client of build 17399 ("Win", "enGB"). *)
Definition connected (ip : list Z) : t :=
  let s := make_svc_handler (RealmList.new 0) in set_socket (RealmSocket.set_remote ip 3724 (socket s)) s.
Definition name : list Z := [65; 66; 67].
Definition challenge_bytes : list Z :=
  [0; 0; 33; 0; 87; 111; 87; 0; 5; 4; 0; 247; 67; 54; 56; 120; 0; 110; 105; 87; 0; 66; 71; 110; 101; 0; 0; 0; 0;
   1; 0; 0; 127; 3] ++ name.
Definition player : client := mkClient name (replicate 20 0xA7) 987654321987654321.

Lemma connected_idle ip : idle (connected ip).
Proof. by split. Qed.
Lemma challenge_bytes_packet : challenge_packet challenge_bytes name.
Proof. split; try (by vm_compute); vm_compute; lia. Qed.
Lemma row_full_salt : full_salt row.
Proof. intros E. by vm_compute in E. Qed.

Definition offered_state : t := (handle_input env (RealmSocket.Received challenge_bytes) (connected [8])).2.

(** The numbers of the exchange, computed once. *)
Definition B_offered : Z := 6458227586389831579973813122419792168373739134012929412250905443950598173678.
Definition salt_offered : Z := 57896044618658097711785492504343953926634992332910426062411688315779073533833.
Lemma offered_B : bn_B offered_state = B_offered.
Proof. by vm_compute. Qed.
Lemma offered_salt : bn_s offered_state = salt_offered.
Proof. by vm_compute. Qed.
#[local] Opaque offered_state.
Definition offer_seen : challenge := mkChallenge (array32 B_offered) g_val (le_bytes 32 N_val) (le_bytes 32 salt_offered).
Lemma offered_seen : offered offered_state = offer_seen.
Proof. unfold offered. by rewrite offered_B, offered_salt. Qed.

Definition S_agreed : Z := Eval vm_compute in client_S player offer_seen.
Lemma S_agreed_eq : client_S player offer_seen = S_agreed.
Proof. by vm_compute. Qed.

Lemma full_player : full_exchange player offered_state.
Proof.
  split; rewrite ?offered_seen, ?offered_B.
  all: unfold client_proof, client_K; rewrite ?S_agreed_eq; apply (bool_decide_unpack _); by vm_compute.
Qed.

End Example.

Import Toy.

Lemma srp6_login_witness :
  full_exchange Example.player Example.offered_state ∧
  returns (handle_input Example.env (RealmSocket.Received Example.challenge_bytes)) (Example.connected [8]) (λ _ s1, ∃ reply ch,
    answers (log s1) = reply :: answers (log (Example.connected [8])) ∧ read_challenge reply = Some ch ∧
    (full_exchange Example.player s1 →
     returns (handle_input Example.env (RealmSocket.Received (client_answer Example.player ch))) s1 (λ _ s2,
       _authed s2 = true ∧ bn_K s2 = le_val (client_K Example.player ch) ∧
       (∃ rest, answers (log s2) = ([AUTH_LOGON_PROOF; 0] ++ client_expects Example.player ch ++ rest) :: answers (log s1)) ∧
       ∃ locale os, calls s2 = Execute (LOGIN_UPD_LOGONPROOF (BigNumber.AsHexStr (le_val (client_K Example.player ch)))
                                          (address (Example.connected [8])) locale os (cl_login Example.player)) :: calls s1))).
Proof.
  split; [apply Example.full_player|].
  apply (srp6_login Example.env (Example.connected [8]) Example.challenge_bytes Example.player Example.row);
    [apply Example.connected_idle|apply Example.challenge_bytes_packet|by vm_compute|apply Example.row_full_salt| |done].
  exists (le_val (replicate 20 0xA7)). by split; vm_compute.
Defined.

Lemma forged_login_witness :
  returns (handle_input Example.env (RealmSocket.Received Example.challenge_bytes)) (Example.connected [8]) (λ _ s1, ∃ reply ch,
    answers (log s1) = reply :: answers (log (Example.connected [8])) ∧ read_challenge reply = Some ch ∧
    (full 32 (bn_B s1) → full 40 (le_val (shared_key 0)) → full 20 t3_val → full 20 (le_val (forged_proof Example.name ch)) →
     returns (handle_input Example.env (RealmSocket.Received (forged_answer Example.name ch))) s1 (λ _ s2,
       _authed s2 = true ∧
       ∃ locale os, calls s2 = Execute (LOGIN_UPD_LOGONPROOF (BigNumber.AsHexStr (le_val (shared_key 0))) (address (Example.connected [8]))
                                          locale os Example.name) :: calls s1)) ) ∧
  full 32 (bn_B Example.offered_state) ∧ full 40 (le_val (shared_key 0)) ∧ full 20 t3_val ∧
  full 20 (le_val (forged_proof Example.name (offered Example.offered_state))).
Proof.
  split; [|rewrite Example.offered_seen, Example.offered_B; apply (bool_decide_unpack _); by vm_compute].
  apply (forged_login Example.env (Example.connected [8]) Example.challenge_bytes Example.name Example.row);
    [apply Example.connected_idle|apply Example.challenge_bytes_packet|by vm_compute|apply Example.row_full_salt].
Defined.

Lemma refused_login_witness :
  returns (handle_input Example.env (RealmSocket.Received Example.challenge_bytes)) (Example.connected [9]) (λ _ s1,
    answers (log s1) = [AUTH_LOGON_CHALLENGE; 0; WOW_FAIL_BANNED] :: answers (log (Example.connected [9])) ∧
    returns (handle_input Example.env (RealmSocket.Received (blind_answer Example.name))) s1 (λ _ s2,
      _authed s2 = true ∧
      ∃ locale os, calls s2 = Execute (LOGIN_UPD_LOGONPROOF (BigNumber.AsHexStr (le_val one_key)) (address (Example.connected [9]))
                                         locale os Example.name) :: calls s1)).
Proof.
  apply (refused_login Example.env (Example.connected [9]) Example.challenge_bytes Example.name WOW_FAIL_BANNED);
    [apply Example.connected_idle|done|done|done|apply Example.challenge_bytes_packet|by vm_compute|..];
    apply (bool_decide_unpack _); vm_compute; exact I.
Defined.
