(* ===== verification/AuthSocketSafety.v ===== *)
(** * AuthSocketSafety: any commands in any order.

    A connection to the log-on server as a system of steps: bytes arrive, a command is
    dispatched, output goes out.  Every run of the socket ends, is memory safe but for one
    comparison, and nobody is authenticated, or learns of an account, without a proof. *)
From S2P Require Import Prelude Bits ByteBuffer ByteBufferStream FieldsText BigNumber RealmList RealmSocket AuthSocket Srp6 AuthSocketRuns AuthSocketProps.
From stdpp Require Import strings list relations.
Open Scope Z_scope.
Import AuthSocket.

(** ** Steps *)

Section steps.
Context `{OpenSSL} (env : Env).

Inductive step : relation t :=
| step_receive bytes s : Forall is_byte bytes → (length bytes ≤ 4096)%nat → step s (received bytes s)
| step_dispatch c r h ok s s' :
    input s = c :: r → find_handler env (_authed s) c = Some h → handler h s = (Ok ok, s') → step s s'
| step_unknown s s' : shutdown s = (Ok tt, s') → step s s'
| step_crunch s : step s (crunched s)
| step_output r s s' : RealmSocket.on (H := session env) (RealmSocket.handle_output (socket_env env)) s = (Ok r, s') →
    step s s'.

(** The proof of a log-on that the server is about to see is the right one. *)
Definition shows_password (s : t) : Prop :=
  head (input s) = Some AUTH_LOGON_PROOF ∧ proof_ready s ∧ lp_M1_of s = proof_digest s (lp_A_val s).

(** The proof of a reconnection is made with the session key. *)
Definition shows_key (s : t) : Prop :=
  let lp := reconnect_proof (take 58 (input s)) in
  head (input s) = Some AUTH_RECONNECT_PROOF ∧ (58 ≤ length (input s))%nat ∧
  _login s ≠ [] ∧ BigNumber.GetNumBytes (_reconnectProof s) ≠ 0%nat ∧ BigNumber.GetNumBytes (bn_K s) ≠ 0%nat ∧
  rp_R2 lp = reconnect_digest (_login s) (BN_bin2bn (rev (rp_R1 lp))) (_reconnectProof s) (bn_K s).

(** ** What handlers leave alone *)

Definition about_account (c : call) : bool :=
  match c with Query (LOGIN_SEL_ACCOUNT_ID_BY_NAME _) => true | _ => false end.

(** No authentication, but by a proof ([may]), and no question for an account. *)
Record modest (may : bool) (s s' : t) : Prop := {
  modest_authed : _authed s' = _authed s ∨ may = true ∧ _authed s' = true;
  modest_calls : ∃ l, calls s' = l ++ calls s ∧ Forall (λ c, about_account c = false) l }.

#[export] Instance modest_preorder may : PreOrder (modest may).
Proof.
  split.
  - intros s. split; [by left|]. by exists [].
  - intros s1 s2 s3 [A1 (l1 & C1 & F1)] [A2 (l2 & C2 & F2)]. split; [destruct A2 as [->|]; auto|].
    exists (l2 ++ l1). split; [by rewrite C2, C1, app_assoc|by apply Forall_app].
Qed.

Lemma modest_call may c s : about_account c = false → modest may s (record_call c s).
Proof. intros Hc. split; [by left|]. exists [c]. split; [done|by constructor]. Qed.
Lemma modest_same may s s' : _authed s' = _authed s → calls s' = calls s → modest may s s'.
Proof. intros ? Ec. split; [by left|]. by exists []. Qed.

Section modest.
Context (may : bool).
#[local] Abbreviation modest := (modest may).

Lemma keeps_sock {A} (m : X RealmSocket.t A) : keeps modest (sock m).
Proof. intros s. unfold sock. destruct (m (socket s)). by apply modest_same. Qed.
Lemma modest_emit c : about_account c = false → keeps modest (emit c).
Proof. intros Hc s. by apply modest_call. Qed.
Lemma modest_ask {A} c (f : list call → A) : about_account c = false → keeps modest (ask c f).
Proof. intros Hc s. by apply modest_call. Qed.
Lemma keeps_set f : (∀ s, _authed (f s) = _authed s) → (∀ s, calls (f s) = calls s) → keeps modest (modifyX f).
Proof. intros H1 H2. apply keeps_modify. intros s. by apply modest_same. Qed.

#[local] Hint Resolve keeps_sock : keeps.
#[local] Hint Extern 1 (keeps _ (emit _)) => apply modest_emit; done : keeps.
#[local] Hint Extern 1 (keeps _ (ask _ _)) => apply modest_ask; done : keeps.
#[local] Hint Extern 1 (keeps _ (modifyX _)) => apply keeps_set; done : keeps.

Lemma keeps_send buf : keeps modest (send env buf).
Proof. unfold send. keeps. Qed.
Lemma keeps_write m pkt : keeps modest (write m pkt).
Proof. unfold write. keeps. Qed.
Lemma keeps_shutdown : keeps modest shutdown.
Proof. apply keeps_sock. Qed.
Lemma keeps_recv_challenge : keeps modest recv_challenge.
Proof. unfold recv_challenge. keeps. Qed.
#[local] Hint Resolve keeps_send keeps_write keeps_shutdown keeps_recv_challenge : keeps.

Lemma keeps_SetVSFields rI : keeps modest (_SetVSFields env rI).
Proof. unfold _SetVSFields, Execute_. keeps. Qed.
Lemma keeps_challenge_numbers pkt : keeps modest (challenge_numbers env pkt).
Proof. unfold challenge_numbers. keeps. Qed.
#[local] Hint Resolve keeps_SetVSFields keeps_challenge_numbers : keeps.
Lemma keeps_challenge_reply ch pkt : keeps modest (challenge_reply env ch pkt).
Proof. unfold challenge_reply, challenge_account, account_numbers, Execute_. keeps. Qed.
#[local] Hint Resolve keeps_challenge_reply : keeps.
Lemma keeps_LogonChallenge : keeps modest (_HandleLogonChallenge env).
Proof. unfold _HandleLogonChallenge. keeps. Qed.
Lemma keeps_ReconnectChallenge : keeps modest (_HandleReconnectChallenge env).
Proof. unfold _HandleReconnectChallenge. keeps. Qed.
Lemma keeps_XferResume : keeps modest _HandleXferResume.
Proof. unfold _HandleXferResume. keeps. Qed.
Lemma keeps_XferCancel : keeps modest _HandleXferCancel.
Proof. unfold _HandleXferCancel. keeps. Qed.
Lemma keeps_XferAccept : keeps modest _HandleXferAccept.
Proof. unfold _HandleXferAccept. keeps. Qed.

End modest.

Lemma keeps_set_authed : keeps (modest true) (modifyX (set_authed true)).
Proof. apply keeps_modify. intros s. split; [by right|]. by exists []. Qed.

#[local] Hint Resolve keeps_sock keeps_send keeps_write keeps_shutdown : keeps.
#[local] Hint Extern 1 (keeps _ (emit _)) => apply modest_emit; done : keeps.
#[local] Hint Extern 1 (keeps _ (ask _ _)) => apply modest_ask; done : keeps.
#[local] Hint Extern 1 (keeps _ (modifyX (set_authed true))) => apply keeps_set_authed : keeps.
#[local] Hint Extern 1 (keeps _ (modifyX _)) => apply keeps_set; done : keeps.
Lemma keeps_LogonProof : keeps (modest true) (_HandleLogonProof env).
Proof. unfold _HandleLogonProof, logon_accepted, logon_refused, Execute_. keeps. Qed.
Lemma keeps_ReconnectProof : keeps (modest true) (_HandleReconnectProof env).
Proof. unfold _HandleReconnectProof. keeps. Qed.

End steps.

(** ** What handlers do *)

Definition realm_size (r : Realm) : Z := Z.of_nat (length (name r) + length (RealmAddress r) + 64).
Definition realms_size (l : list Realm) : Z := foldr (λ r n, realm_size r + n) 0 l.

(** The rows of the list of realms fit into a packet. *)
Definition row_size (env : Env) (r : RealmRow) : Z :=
  Z.of_nat (length (row_name r) + length (addr_to_string env (row_port r) (row_address r)) + 64).
Class RealmLaws (env : Env) : Prop := {
  rows_law h : foldr (λ r n, row_size env r + n) 0 (realmlist env h) ≤ 9000000 }.

(** A connection as every command leaves it. *)
Record healthy (s : t) : Prop := {
  healthy_sane : sane s;
  healthy_input : Forall is_byte (input s);
  healthy_patch : pPatch s = false;
  healthy_realms : realms_size (RealmList.m_realms (realm_list s)) ≤ 9000000 }.

Lemma healthy_core s s' : core s' = core s → Forall is_byte (input s') → healthy s → healthy s'.
Proof.
  intros Hc Hi [Hs _ Hp Hr]. split; [by apply (sane_core s)|done|..].
  - change (pPatch (core s') = false). by rewrite Hc.
  - change (realms_size (RealmList.m_realms (realm_list (core s'))) ≤ 9000000). by rewrite Hc.
Qed.

Lemma healthy_talk l s s' : talk l s s' → healthy s → healthy s'.
Proof.
  intros Ht Hs. apply (healthy_core s); [apply (talk_core _ _ _ Ht)| |done]. rewrite (talk_input _ _ _ Ht). apply Hs.
Qed.

Lemma healthy_consume n s : healthy s → healthy (consume n s).
Proof. intros Hs. apply (healthy_core s); [done| |done]. apply Forall_drop, Hs. Qed.

(** What dispatching a command leaves. *)
Record fair (s : t) (ok : bool) (s' : t) : Prop := {
  fair_healthy : healthy s';
  fair_eats : ok = true → (length (input s') < length (input s))%nat }.

Lemma challenge_of_eaten i ch : challenge_of i = Some ch → (35 ≤ challenge_eaten i)%nat ∧ (35 ≤ length i)%nat.
Proof.
  unfold challenge_of, challenge_eaten. destruct (Nat.ltb_spec (length i) 35); [done|].
  unfold challenge_complete. destruct ((31 <=? challenge_remaining i)%nat && _) eqn:E; [|done].
  apply andb_true_iff in E as [E%Nat.leb_le _]. lia.
Qed.

(** Other members than those of [healthy] have changed. *)
Ltac unchanged H := destruct H as [[] ? ? ?]; split; [split|..]; done.

Section fair.
#[local] Set Default Proof Using "All".
Context `{OpenSSLLaws} (env : Env) `{!EnvLaws env} `{!RealmLaws env}.

Lemma LogonChallenge_fair s E : healthy s → ends (_HandleLogonChallenge env) s E (fair s).
Proof.
  intros Hs. pose proof (healthy_consume (challenge_eaten (input s)) s Hs) as Hc.
  assert (∀ ch s1 s' l, challenge_of (input s) = Some ch → healthy s1 →
    input s1 = input (consume (challenge_eaten (input s)) s) → talk l s1 s' → fair s true s') as Hf.
  { intros ch s1 s' l Ho H1 Hi Ht. split; [by eapply healthy_talk|]. intros _. rewrite (talk_input _ _ _ Ht), Hi.
    apply challenge_of_eaten in Ho. cbn. rewrite length_drop. lia. }
  apply (ends_HandleLogonChallenge env); [apply Hs|..].
  - intros _. by split.
  - intros ch _ _. split; [|done]. by unchanged Hc.
  - intros ch code s' Ho _ _ Ht. apply (Hf _ _ _ _ Ho) in Ht; [done| |done]. by unchanged Hc.
  - intros ch row v salt b s' unk Ho _ _ _ Hv Hsalt Hb _ Ht. apply (Hf _ _ _ _ Ho) in Ht; [done| |done].
    destruct Hc as [[] ? ? ?]. split; [|done..]. split; try done; cbn; [lia..|]. by apply Z.mod_pos_bound.
Qed.

Lemma LogonProof_fair s (E : exn → Prop) :
  healthy s → (proof_ready s → ¬ full 20 (le_val (proof_digest s (lp_A_val s))) → E UndefinedBehaviour) →
  ends (_HandleLogonProof env) s E (λ ok s', fair s ok s' ∧
    (_authed s' = true → _authed s = true ∨ (proof_ready s ∧ lp_M1_of s = proof_digest s (lp_A_val s)))).
Proof.
  intros Hs HE. pose proof (healthy_consume 75 s Hs) as Hc.
  assert (proof_ready s → healthy (set_K (proof_K s (lp_A_val s)) (consume 75 s))) as HK.
  { intros _. destruct Hc as [[] ? ? ?]. split; [|done..]. split; try done. apply proof_K_nonneg. }
  assert (∀ s', input s' = drop 75 (input s) → (75 ≤ length (input s))%nat → (length (input s') < length (input s))%nat) as Hl.
  { intros s' -> Hl. rewrite length_drop. lia. }
  apply (ends_HandleLogonProof env); [apply Hs..| | |done| |].
  - intros _. by split; [split|left].
  - intros Hn _. split; [split; [by unchanged Hc|intros _; by apply Hl]|by left].
  - intros Hr HM s' Ht _. pose proof (healthy_talk _ _ _ Ht (HK Hr)) as Hs'. split; [|by right].
    split; [by unchanged Hs'|]. intros _. apply Hl; [apply (talk_input _ _ _ Ht)|apply Hr].
  - intros Hr HM s' Ht. split.
    + split; [exact (healthy_talk _ _ _ Ht (HK Hr))|]. intros _. apply Hl; [apply (talk_input _ _ _ Ht)|apply Hr].
    + intros Ha. left. rewrite <- Ha. symmetry. apply (talk_field _authed _ _ _ Ht). done.
Qed.

(** ** Reconnection *)

Lemma ReconnectChallenge_fair s E : healthy s → ends (_HandleReconnectChallenge env) s E (fair s).
Proof.
  intros Hs. pose proof (healthy_consume (challenge_eaten (input s)) s Hs) as Hc. unfold _HandleReconnectChallenge.
  apply ends_bind, ends_recv_challenge. destruct (challenge_of (input s)) as [ch|] eqn:Ec; [|by apply ends_ret].
  apply challenge_of_eaten in Ec as [Ee El]. set (s1 := consume _ s) in *.
  apply ends_bind, ends_modifyX, ends_bind, ends_ask.
  destruct (sessionkey env _ _) as [[key lvl]|] eqn:Ek.
  2:{ apply ends_bind, ends_shutdown, ends_ret. split; [by unchanged Hc|done]. }
  apply ends_bind, ends_modifyX. destruct (4 <? _)%nat; [apply ends_ret; split; [by unchanged Hc|done]|].
  do 3 apply ends_bind, ends_modifyX. apply ends_bind, ends_ask. change (16 * 8) with 128.
  apply ends_bind, ends_modifyX, ends_bind, ends_liftX.
  match goal with |- context [SetRand env ?h 128] => set (r := SetRand env h 128); assert (full 16 r) as Hr by (apply (SetRand_full env); [done|lia]) end.
  rewrite (AsByteArray_full r 16 16), bytes_at_all by (done || lia || apply length_le_bytes).
  match goal with |- ends _ ?x _ _ => set (s2 := x) end.
  assert (healthy s2) as H2.
  { assert (0 ≤ bn_K s2) as HK.
    { cbn. unfold BigNumber.SetHexStr. destruct (key_law _ _ _ _ Ek) as [->|[z Ez]].
      - rewrite BN_hex2bn_nil_law. apply Hs.
      - rewrite (BN_hex2bn_law _ _ _ Ez). by eapply hex_val_nonneg. }
    pose proof (full_nonneg 16 r ltac:(lia) Hr). destruct Hc as [[] ? ? ?]. split; [split|..]; try done. cbn. lia. }
  eapply ends_bind, (ends_write _ ([AUTH_RECONNECT_CHALLENGE] ++ [0] ++ le_bytes 16 r ++ le_bytes 8 0 ++ le_bytes 8 0) _ []);
    [apply Whole.holds_new| |rewrite !length_app, !length_le_bytes; done|].
  { assert (le_bytes 16 r ≠ []) by done. whole. }
  intros pkt _. apply ends_bind, ends_send. intros x Hx. apply ends_ret.
  assert (talk [ByteBuffer.storage pkt] s2 (set_socket x s2)) as Ht by by apply (talk_send []).
  split; [by eapply healthy_talk|]. intros _. rewrite (talk_input _ _ _ Ht). cbn. rewrite length_drop. lia.
Qed.

Lemma ReconnectProof_fair s E :
  healthy s → ends (_HandleReconnectProof env) s E (λ ok s', fair s ok s' ∧
    (_authed s' = true → _authed s = true ∨
      let lp := reconnect_proof (take 58 (input s)) in
      (58 ≤ length (input s))%nat ∧
      _login s ≠ [] ∧ BigNumber.GetNumBytes (_reconnectProof s) ≠ 0%nat ∧ BigNumber.GetNumBytes (bn_K s) ≠ 0%nat ∧
      rp_R2 lp = reconnect_digest (_login s) (BN_bin2bn (rev (rp_R1 lp))) (_reconnectProof s) (bn_K s))).
Proof.
  intros Hs. pose proof (healthy_consume 58 s Hs) as Hc. unfold _HandleReconnectProof.
  change sizeof_sAuthReconnectProof_C with 58%nat.
  apply ends_bind, ends_recv; [intros _; apply ends_ret; by split; [split|left]|]. intros Hl.
  apply ends_bind, ends_getX. case_match eqn:Eg; [apply ends_ret; by split; [split|left]|].
  rewrite !orb_false_iff, !Nat.eqb_neq in Eg. destruct Eg as [[Elog Epr] EK].
  apply ends_bind, ends_liftX. unfold BigNumber.SetBinary. rewrite (proj2 (Nat.ltb_ge _ _)).
  2:{ cbn [reconnect_proof rp_R1]. rewrite length_take. lia. }
  case_bool_decide as HM; [|apply ends_bind, ends_shutdown, ends_ret; split; [split; [by unchanged Hc|done]|by left]].
  eapply ends_bind, (ends_write _ ([AUTH_RECONNECT_PROOF] ++ [0] ++ le_bytes 2 0) _ []); [apply Whole.holds_new|whole|done|].
  intros pkt _. apply ends_bind, ends_send. intros x Hx. apply ends_bind, ends_modifyX, ends_ret.
  assert (talk [ByteBuffer.storage pkt] (consume 58 s) (set_socket x (consume 58 s))) as Ht by by apply (talk_send []).
  pose proof (healthy_talk _ _ _ Ht Hc) as Hs'. split.
  - split; [by unchanged Hs'|]. intros _.
    assert (input (set_authed true (set_socket x (consume 58 s))) = drop 58 (input s)) as -> by apply (talk_input _ _ _ Ht).
    rewrite length_drop. lia.
  - intros _. right. split; [done|]. split; [|done]. intros E0. apply Elog. change (_login (consume 58 s)) with (_login s). by rewrite E0.
Qed.

End fair.

(** ** The list of realms *)

Lemma GetBuildInfo_version build b :
  AuthHelper.GetBuildInfo build = Some b →
  0 ≤ AuthHelper.MajorVersion b < 100 ∧ 0 ≤ AuthHelper.MinorVersion b < 100 ∧ 0 ≤ AuthHelper.BugfixVersion b < 100.
Proof.
  assert (Forall (λ b, 0 ≤ AuthHelper.MajorVersion b < 100 ∧ 0 ≤ AuthHelper.MinorVersion b < 100 ∧ 0 ≤ AuthHelper.BugfixVersion b < 100)
    (AuthHelper.PostBcAcceptedClientBuilds ++ AuthHelper.PreBcAcceptedClientBuilds)) as Hf.
  { apply (bool_decide_unpack _). by vm_compute. }
  apply Forall_app in Hf as [H1 H2]. rewrite Forall_forall in H1, H2. unfold AuthHelper.GetBuildInfo.
  destruct (AuthHelper.find_build AuthHelper.PostBcAcceptedClientBuilds build) as [b'|] eqn:E1.
  - intros [= <-]. apply H1. by apply AuthHelper.find_build_In in E1 as [? _].
  - intros E2. apply H2. by apply AuthHelper.find_build_In in E2 as [? _].
Qed.

Lemma decimal_two z : 0 ≤ z < 100 → (length (decimal z) ≤ 2)%nat.
Proof.
  intros Hz. unfold decimal. cbn [decimal_loop]. case_match eqn:E1; [simpl; lia|].
  rewrite Z.ltb_ge in E1. rewrite (proj2 (Z.ltb_lt (z / 10) 10)); [simpl; lia|]. apply Z.div_lt_upper_bound; lia.
Qed.

Lemma realm_name_length s r flag : (length (realm_name s r flag) ≤ length (name r) + 12)%nat.
Proof.
  unfold realm_name. case_match; [|lia]. destruct (AuthHelper.GetBuildInfo _) as [b|] eqn:E; [|lia].
  apply GetBuildInfo_version in E as (H1%decimal_two & H2%decimal_two & H3%decimal_two).
  rewrite !length_app. change (length (bytes_of " (")) with 2%nat. change (length (bytes_of ".")) with 1%nat.
  change (length (bytes_of ")")) with 1%nat. lia.
Qed.

(** The flags that are sent say that a build is specified only if it is known. *)
Lemma realm_flag_build s r flag :
  realm_flag s r = Some flag → has_flag flag REALM_FLAG_SPECIFYBUILD = true →
  is_Some (AuthHelper.GetBuildInfo (i32 (gamebuild r))).
Proof.
  unfold realm_flag. destruct (AuthHelper.GetBuildInfo _) as [b|]; [eauto|]. case_match; [|done]. intros [= <-].
  unfold has_flag. rewrite <- Z.land_assoc. change (Z.land (u32 (Z.lnot REALM_FLAG_SPECIFYBUILD)) REALM_FLAG_SPECIFYBUILD) with 0.
  by rewrite Z.land_0_r.
Qed.

Lemma write_realm_appends s r flag n :
  realm_flag s r = Some flag →
  ∃ l, Whole.appends (write_realm s r flag n) l ∧ Z.of_nat (length l) ≤ realm_size r.
Proof.
  intros Hf. unfold write_realm.
  set (post := has_flag (_expversion s) AuthHelper.POST_BC_EXP_FLAG). set (lock := if _ <? _ then 1 else 0).
  assert (∃ l5, Whole.appends (when post && has_flag flag REALM_FLAG_SPECIFYBUILD do
    match AuthHelper.GetBuildInfo (i32 (gamebuild r)) with
    | Some b =>
      ByteBuffer.shl_uint8 (AuthHelper.MajorVersion b);; ByteBuffer.shl_uint8 (AuthHelper.MinorVersion b);;
      ByteBuffer.shl_uint8 (AuthHelper.BugfixVersion b);; ByteBuffer.shl_uint16 (AuthHelper.Build b)
    | None => throw UndefinedBehaviour
    end) l5 ∧ (length l5 ≤ 5)%nat) as (l5 & Ha & Hl5).
  { destruct (post && _) eqn:Ep; [|exists []; split; [apply Whole.appends_ret|simpl; lia]].
    apply andb_true_iff in Ep as [_ Ep]. destruct (realm_flag_build _ _ _ Hf Ep) as [b ->].
    eexists. split; [whole|]. rewrite !length_app, !length_le_bytes. lia. }
  pose proof (realm_name_length s r flag) as Hn.
  exists (le_bytes 1 (icon r) ++ (if post then le_bytes 1 lock else []) ++ le_bytes 1 flag ++
    (realm_name s r flag ++ [0]) ++ (RealmAddress r ++ [0]) ++ le_bytes 4 (populationLevel r) ++ le_bytes 1 n ++
    le_bytes 1 (timezone r) ++ le_bytes 1 (if post then 0x2C else 0) ++ l5).
  split.
  - repeat first [exact Ha | solve [eauto with whole] | apply Whole.appends_when | apply Whole.appends_seq].
  - unfold realm_size. rewrite !length_app, !length_le_bytes. change (length [0]) with 1%nat.
    destruct post; rewrite ?length_le_bytes; simpl length; lia.
Qed.

Lemma map_set_size r m : realms_size (RealmList.map_set r m) ≤ realm_size r + realms_size m.
Proof.
  assert (∀ x, 0 ≤ realm_size x) as Hp by (intros x; unfold realm_size; lia).
  unfold realms_size. induction m as [|x m IH]; simpl; [lia|]. pose proof (Hp x).
  case_match; simpl; [lia|]. case_match; simpl; lia.
Qed.

Lemma UpdateRealms_size addr rows s :
  realms_size (RealmList.m_realms (RealmList.UpdateRealms addr rows s)) ≤
  realms_size (RealmList.m_realms s) +
  foldr (λ r n, Z.of_nat (length (row_name r) + length (addr (row_port r) (row_address r)) + 64) + n) 0 rows.
Proof.
  revert s. induction rows as [|r rows IH]; intros s; simpl; [lia|]. unfold RealmList.UpdateRealms in *. simpl.
  etrans; [apply IH|]. unfold RealmList.update_row, RealmList.UpdateRealm. cbn [RealmList.m_realms].
  match goal with |- context [RealmList.map_set ?x ?m] => pose proof (map_set_size x m) as Hs end.
  unfold realm_size in Hs at 1. cbn [RealmList.name RealmList.RealmAddress name RealmAddress] in Hs. lia.
Qed.

Section realm_list.
#[local] Set Default Proof Using "All".
Context `{OpenSSLLaws} (env : Env) `{!EnvLaws env} `{!RealmLaws env}.

Lemma ends_realms_loop id realms pkt l n s E (Q : ByteBuffer.t * Z → t → Prop) :
  Whole.holds pkt l → Z.of_nat (length l) + realms_size realms < ByteBuffer.MAX_SIZE →
  (∀ pkt' l' n' s', talk [] s s' → Whole.holds pkt' l' → Z.of_nat (length l') ≤ Z.of_nat (length l) + realms_size realms →
     Q (pkt', n') s') →
  ends (realms_loop env id realms pkt n) s E Q.
Proof.
  assert (∀ x, 0 ≤ realm_size x) as Hp by (intros x; unfold realm_size; lia).
  assert (∀ r, 0 ≤ realms_size r) as Hp' by (intros r; induction r as [|x r IH]; simpl; [lia|]; specialize (Hp x); lia).
  revert pkt l n s. induction realms as [|r realms IH]; intros pkt l n s Hb Hl HQ; cbn [realms_loop].
  { apply ends_ret. apply (HQ _ l); [apply talk_refl|done|simpl; lia]. }
  cbn [realms_size foldr] in Hl, HQ. fold (realms_size realms) in Hl, HQ. pose proof (Hp r). pose proof (Hp' realms).
  apply ends_bind, ends_getX. destruct (realm_flag s r) as [flag|] eqn:Ef.
  2:{ apply (IH _ l); [done|lia|]. intros pkt' l' n' s' Ht Hh Hl'. apply (HQ _ l'); [done..|lia]. }
  apply ends_bind, ends_ask. set (chars := u8 _).
  destruct (write_realm_appends s r flag chars Ef) as (le & Ha & Hle).
  apply ends_bind, (ends_write _ le _ l); [done|done|lia|]. intros pkt1 Hb1.
  apply (IH _ (l ++ le)); [done|rewrite length_app; lia|]. intros pkt' l' n' s' Ht Hh Hl'.
  apply (HQ _ l'); [|done|rewrite length_app in Hl'; lia]. exact (talk_trans [] [] _ _ _ (talk_call _ s) Ht).
Qed.

Lemma ends_UpdateRealmList s E (Q : unit → t → Prop) :
  healthy s → (∀ s', healthy s' → input s' = input s → Q tt s') → ends (UpdateRealmList env) s E Q.
Proof.
  intros Hs HQ. unfold UpdateRealmList. apply ends_bind, ends_getX.
  destruct (z2b _); [|by apply ends_ret, HQ]. apply ends_bind, ends_ask.
  destruct (RealmList.needs_update _ _) eqn:En; [|apply ends_ret, HQ; [|done]; by unchanged Hs].
  apply ends_bind, ends_ask, ends_bind, ends_ask, ends_modifyX, HQ; [|done].
  destruct Hs as [[] ? ? ?]. split; [split; done|done..|]. cbn [set_realm_list realm_list record_call calls].
  unfold RealmList.UpdateIfNeed. rewrite En. etrans; [apply UpdateRealms_size|]. cbn [RealmList.m_realms realms_size foldr].
  match goal with |- context [realmlist env ?h] => pose proof (rows_law h) as Hr end. unfold row_size in Hr. lia.
Qed.

Lemma RealmList_fair s E : healthy s → ends (_HandleRealmList env) s E (fair s).
Proof.
  intros Hs. pose proof (healthy_consume 5 s Hs) as Hc. unfold _HandleRealmList.
  apply ends_bind, ends_recv_len. destruct (Nat.ltb_spec (length (input s)) 5) as [Hl|Hl]; [by apply ends_ret|].
  apply ends_bind, ends_skip; [done|]. apply ends_bind, ends_getX, ends_bind, ends_ask.
  destruct (account_id _ _ _) as [id|]; [|apply ends_bind, ends_shutdown, ends_ret; split; [by unchanged Hc|done]].
  apply ends_bind, ends_UpdateRealmList; [by unchanged Hc|]. intros s1 H1 Hi1. apply ends_bind, ends_getX.
  pose proof (healthy_realms _ H1) as Hr.
  apply ends_bind, (ends_realms_loop _ _ _ []); [apply Whole.holds_new|unfold ByteBuffer.MAX_SIZE; simpl length; lia|].
  intros pkt l n s2 Ht Hb Hl2. simpl length in Hl2. set (post := has_flag _ _).
  apply ends_bind, (ends_write _ (if post then [16] ++ [0] else [0] ++ [2]) _ l); [done| |unfold ByteBuffer.MAX_SIZE; destruct post; simpl length; lia|].
  { destruct post; whole. }
  intros pkt1 Hb1. set (l1 := l ++ _) in Hb1.
  assert (Z.of_nat (length l1) ≤ 9000002) as Hl1 by (unfold l1; rewrite length_app; destruct post; simpl length; lia).
  apply ends_bind, (ends_write _ (le_bytes 4 0 ++ (if post then le_bytes 2 n else le_bytes 4 n)) _ []);
    [apply Whole.holds_new|destruct post; whole|destruct post; done|].
  intros pkt2 Hb2. set (l2 := [] ++ _) in Hb2. assert (length l2 ≤ 8)%nat as Hl3 by (unfold l2; destruct post; simpl; lia).
  apply ends_bind, (ends_write _ ([REALM_LIST] ++
      le_bytes 2 (Z.of_nat (ByteBuffer.size pkt1 + ByteBuffer.size pkt2)) ++ l2 ++ l1) _ []); [apply Whole.holds_new| | |].
  { apply Whole.appends_seq; [by apply (Whole.appends_val 1); lia|].
    apply Whole.appends_seq; [by apply (Whole.appends_val 2); lia|].
    apply Whole.appends_seq; by apply Whole.appends_buffer. }
  { clearbody l1 l2. rewrite !length_app, length_le_bytes. unfold ByteBuffer.MAX_SIZE. simpl length. lia. }
  intros hdr _. apply ends_bind, ends_send. intros x Hx. apply ends_ret.
  assert (talk [ByteBuffer.storage hdr] s1 (set_socket x s2)) as Ht' by (apply (talk_send [] _ s1 s2); [exact Ht|exact Hx]).
  split; [by eapply healthy_talk|]. intros _. rewrite (talk_input _ _ _ Ht'), Hi1.
  change (length (drop 5 (input s)) < length (input s))%nat. rewrite length_drop. lia.
Qed.

Lemma Xfer_fair s E : healthy s → input s ≠ [] →
  ends _HandleXferResume s E (fair s) ∧ ends _HandleXferCancel s E (fair s) ∧ ends _HandleXferAccept s E (fair s).
Proof.
  intros Hs Hi. pose proof (healthy_patch _ Hs) as Hp. split; [|split].
  - unfold _HandleXferResume. apply ends_bind, ends_recv_len, ends_bind, ends_getX. rewrite Hp, orb_true_r. by apply ends_ret.
  - pose proof (healthy_consume 1 s Hs) as Hc. unfold _HandleXferCancel.
    apply ends_bind, ends_skip; [destruct (input s); [done|simpl; lia]|]. apply ends_bind, ends_shutdown, ends_ret.
    split; [by unchanged Hc|]. intros _. change (length (drop 1 (input s)) < length (input s))%nat.
    destruct (input s); [done|]. simpl. rewrite drop_0. lia.
  - unfold _HandleXferAccept. apply ends_bind, ends_getX. rewrite Hp. by apply ends_ret.
Qed.

End realm_list.

(** ** Runs *)

(** What the server has been shown before it lets anybody in. *)
Definition shown `{OpenSSL} (s : t) : Prop := shows_password s ∨ shows_key s.

(** The digest that [memcmp] reads 20 bytes of has fewer. *)
Definition short_digest `{OpenSSL} (s : t) : Prop :=
  head (input s) = Some AUTH_LOGON_PROOF ∧ proof_ready s ∧ ¬ full 20 (le_val (proof_digest s (lp_A_val s))).

Section runs.
#[local] Set Default Proof Using "All".
Context `{OpenSSLLaws} (env : Env) `{!EnvLaws env} `{!RealmLaws env}.

Record dispatched (s : t) (ok : bool) (s' : t) : Prop := {
  dispatched_fair : fair s ok s';
  dispatched_authed : _authed s' = true → _authed s = true ∨ shown s;
  dispatched_calls q : q ∈ calls s' → about_account q = true → q ∈ calls s ∨ _authed s = true }.

Lemma dispatched_modest may (m : X t bool) s E P :
  ends m s E P → keeps (modest may) m → (∀ ok s', P ok s' → fair s ok s') →
  (may = true → ∀ ok s', P ok s' → _authed s' = true → _authed s = true ∨ shown s) →
  ends m s E (dispatched s).
Proof.
  intros Hm Hk Hf Ha. eapply ends_mono; [apply (ends_and _ _ _ _ _ Hm (keeps_ends _ _ s Hk))|].
  intros ok s' [HP [Hau (l & Hc & Hl)]]. split; [by apply Hf| |].
  - destruct Hau as [->|[Hm' _]]; [by left|]. by apply (Ha Hm' ok).
  - intros q. rewrite Hc, elem_of_app. intros [Hq|Hq] Hab; [|by left].
    rewrite Forall_forall in Hl. specialize (Hl _ Hq). congruence.
Qed.

Lemma ends_dispatch s c r h :
  healthy s → input s = c :: r → find_handler env (_authed s) c = Some h →
  ends (handler h) s (λ e, e = UndefinedBehaviour ∧ short_digest s) (dispatched s).
Proof.
  intros Hs Hi Hf. assert (h ∈ table env ∧ admits (_authed s) c h = true) as [Hin Had].
  { unfold find_handler in Hf. destruct (filter _ _) eqn:E; [done|]. injection Hf as ->.
    assert (h ∈ filter (λ h, admits (_authed s) c h = true) (table env)) as Hin by (rewrite E; left).
    apply list_elem_of_filter in Hin. tauto. }
  assert (input s ≠ []) as Hne by by rewrite Hi.
  assert (∀ m, ends m s (λ e, e = UndefinedBehaviour ∧ short_digest s) (fair s) → keeps (modest false) m →
    ends m s (λ e, e = UndefinedBehaviour ∧ short_digest s) (dispatched s)) as Hplain.
  { intros m Hm Hk. by eapply (dispatched_modest false). }
  unfold admits in Had. apply andb_true_iff in Had as [Hc%Z.eqb_eq Hst]. unfold table in Hin.
  repeat (apply elem_of_cons in Hin as [->|Hin]); [..|by apply elem_of_nil in Hin]; cbn [handler cmd status] in *; subst c.
  - apply Hplain; [by apply (LogonChallenge_fair env)|apply keeps_LogonChallenge].
  - eapply (dispatched_modest true);
      [apply (LogonProof_fair env); [done|]; intros Hr Hn; split; [done|]; split; [by rewrite Hi|done]
      |apply keeps_LogonProof|by intros ok s' [? _]|].
    intros _ ok s' [_ Ha] Hau. destruct (Ha Hau) as [|[Hr HM]]; [by left|]. right. left. split; [by rewrite Hi|done].
  - apply Hplain; [by apply (ReconnectChallenge_fair env)|apply keeps_ReconnectChallenge].
  - eapply (dispatched_modest true); [by apply (ReconnectProof_fair env)|apply keeps_ReconnectProof|by intros ok s' [? _]|].
    intros _ ok s' [_ Ha] Hau. destruct (Ha Hau) as [|Hk]; [by left|]. right. right. split; [by rewrite Hi|done].
  - eapply ends_mono; [by apply (RealmList_fair env)|]. intros ok s' Hfair. split; [done|auto..].
  - apply Hplain; [by apply (Xfer_fair env)|apply keeps_XferAccept].
  - apply Hplain; [by apply (Xfer_fair env)|apply keeps_XferResume].
  - apply Hplain; [by apply (Xfer_fair env)|apply keeps_XferCancel].
Qed.

(** Steps keep connections healthy, and what has been let in or asked has been shown. *)
Definition entitled (s0 s : t) : Prop := ∃ s1, rtc (step env) s0 s1 ∧ rtc (step env) s1 s ∧ shown s1.

Lemma entitled_step s0 s s' : entitled s0 s → step env s s' → entitled s0 s'.
Proof. intros (s1 & ? & ? & ?) Hst. exists s1. split; [done|]. split; [by eapply rtc_r|done]. Qed.

Record accounted (s0 s : t) : Prop := {
  accounted_healthy : healthy s;
  accounted_authed : _authed s = true → entitled s0 s;
  accounted_calls q : q ∈ calls s → about_account q = true → entitled s0 s }.

Lemma accounted_same s0 s s' :
  step env s s' → healthy s' → _authed s' = _authed s → calls s' = calls s → accounted s0 s → accounted s0 s'.
Proof.
  intros Hst Hh Ea Ec [_ Ha Hc]. split; [done|..].
  - rewrite Ea. intros Hau. eapply entitled_step; [by apply Ha|done].
  - rewrite Ec. intros q Hq Hab. eapply entitled_step; [by eapply Hc|done].
Qed.

Lemma handle_output_same s r s' :
  RealmSocket.on (H := session env) (RealmSocket.handle_output (socket_env env)) s = (Ok r, s') →
  ∃ x, s' = set_socket x s ∧ RealmSocket.input x = input s.
Proof.
  unfold RealmSocket.on. cbn [RealmSocket.socket RealmSocket.set_socket session].
  assert (returns (RealmSocket.handle_output (socket_env env)) (socket s) (λ _ x, RealmSocket.input x = input s)) as Ho.
  { unfold RealmSocket.handle_output. apply ends_bind, ends_getX. case_match; [by apply ends_ret|].
    case_match; [by apply ends_bind, ends_modifyX, ends_ret|]. case_match. apply ends_bind, ends_modifyX, ends_bind.
    eapply ends_mono; [apply noblk_send_ends|]. intros [k|] x Hx.
    - case_match; [apply ends_ret; apply (calm_input _ _ Hx)|]. unfold RealmSocket.enqueue.
      apply ends_bind, ends_bind, ends_getX. case_match.
      + apply ends_ret, ends_bind, ends_modifyX, ends_ret. apply (calm_input _ _ Hx).
      + apply ends_bind, ends_modifyX, ends_ret, ends_ret. apply (calm_input _ _ Hx).
    - apply ends_bind, ends_modifyX, ends_ret. apply (calm_input _ _ Hx). }
  unfold ends in Ho. destruct (RealmSocket.handle_output _ _) as [[a|e] x]; [|done]. intros [= <- <-]. eauto.
Qed.

Lemma accounted_step s0 s s' : rtc (step env) s0 s → accounted s0 s → step env s s' → accounted s0 s'.
Proof.
  intros Hr Hac Hst. pose proof (accounted_healthy _ _ Hac) as Hs. pose proof Hst as Hst'.
  destruct Hst' as [bytes s Hb Hl|c r h ok s s' Hi Hf Hh|s s' Hd|s|r s s' Ho].
  - apply (accounted_same _ s); [done| |done..]. apply (healthy_core s); [done| |done]. apply Forall_app. split; [apply Hs|done].
  - pose proof (ends_dispatch s c r h Hs Hi Hf) as Hd. unfold ends in Hd. rewrite Hh in Hd. destruct Hd as [[Hh' _] Ha Hc].
    assert (_authed s = true → entitled s0 s') as He by (intros ?; eapply entitled_step; [by apply Hac|done]).
    assert (shown s → entitled s0 s') as Hsh by (intros ?; exists s; split; [done|]; split; [by apply rtc_once|done]).
    split; [done|..].
    + intros Hau. destruct (Ha Hau); auto.
    + intros q Hq Hab. destruct (Hc q Hq Hab) as [Hq'|]; [|auto]. eapply entitled_step; [by eapply (accounted_calls _ _ Hac)|done].
  - injection Hd as <-. apply (accounted_same _ s); [done| |done..]. by unchanged Hs.
  - apply (accounted_same _ s); [done| |done..]. by unchanged Hs.
  - apply handle_output_same in Ho as (x & -> & Hx). apply (accounted_same _ s); [done| |done..].
    apply (healthy_core s); [done| |done]. cbn. rewrite Hx. apply Hs.
Qed.

Lemma accounted_steps s0 s : healthy s0 → _authed s0 = false → calls s0 = [] → rtc (step env) s0 s → accounted s0 s.
Proof.
  intros Hh Ha Hc. assert (accounted s0 s0) as Hs0.
  { split; [done|congruence|]. rewrite Hc. intros q Hq. by apply elem_of_nil in Hq. }
  revert s. apply (rtc_ind_r (accounted s0)); [done|]. intros s s' Hr Hst IH. by eapply accounted_step.
Qed.

(** ** The loop of commands ends *)

Definition failed (s : t) (e : exn) : Prop := e = UndefinedBehaviour ∧ ∃ s1, rtc (step env) s s1 ∧ short_digest s1.

Lemma failed_after s s' e : rtc (step env) s s' → failed s' e → failed s e.
Proof. intros Hr (-> & s1 & ? & ?). split; [done|]. exists s1. split; [by etrans|done]. Qed.

Lemma ends_recv_soft_1 s E (Q : option (list Z) → t → Prop) :
  Q (if (length (input s) <? 1)%nat then None else Some (take 1 (input s))) s → ends (sock (RealmSocket.recv_soft 1)) s E Q.
Proof. intros HQ. apply ends_sock. unfold RealmSocket.recv_soft. apply ends_bind, ends_getX, ends_ret. by destruct s. Qed.

Lemma ends_OnRead_loop n s :
  healthy s → (length (input s) < n)%nat →
  ends (OnRead_loop env n) s (failed s) (λ _ s', rtc (step env) s s' ∧ healthy s').
Proof.
  revert s. induction n as [|n IH]; intros s Hs Hn; [lia|]. cbn [OnRead_loop].
  apply ends_bind, ends_recv_soft_1. destruct (input s) as [|c r] eqn:Hi; [by apply ends_ret|]. cbn [length Nat.ltb Nat.leb take].
  apply ends_bind, ends_getX. destruct (find_handler env (_authed s) c) as [h|] eqn:Hf.
  2:{ apply ends_shutdown. split; [by apply rtc_once, step_unknown|]. by unchanged Hs. }
  apply ends_bind. pose proof (ends_dispatch s c r h Hs Hi Hf) as Hd. unfold ends in Hd |- *.
  destruct (handler h s) as [[ok|e] s'] eqn:Eh.
  - destruct Hd as [[Hs' Hl] _ _]. assert (rtc (step env) s s') as Hr by by eapply rtc_once, step_dispatch.
    destruct ok; [|done]. specialize (Hl eq_refl). rewrite Hi in Hl. simpl in Hl, Hn.
    specialize (IH s' Hs' ltac:(lia)). unfold ends in IH. destruct (OnRead_loop env n s') as [[[]|e] s''].
    + destruct IH as [Hr' Hs'']. split; [by etrans|done].
    + by eapply failed_after.
  - destruct Hd as [-> Hd]. split; [done|]. by exists s.
Qed.

Lemma ends_handle_input_any r s :
  healthy s → match r with RealmSocket.Received bytes => Forall is_byte bytes | _ => True end →
  ends (handle_input env r) s (failed s) (λ _ s', rtc (step env) s s').
Proof.
  intros Hs Hr. unfold handle_input, RealmSocket.handle_input. apply ends_bind, ends_getX.
  cbn [RealmSocket.socket session]. destruct (RealmSocket.closing_ _); [apply ends_ret, rtc_refl|]. destruct r as [bytes| |]; [|apply ends_ret, rtc_refl..].
  set (b := take _ bytes). assert (Forall is_byte b) as Hb by by apply Forall_take.
  assert (length b ≤ 4096)%nat as Hl.
  { unfold b, RealmSocket.space. rewrite length_take. etrans; [apply Nat.le_min_l|]. change RealmSocket.input_size with 4096%nat. lia. }
  destruct (length b =? 0)%nat; [apply ends_ret, rtc_refl|]. apply ends_bind, ends_on, ends_modifyX. fold (received b s).
  assert (step env s (received b s)) as Hst by by apply step_receive.
  assert (healthy (received b s)) as Hs1.
  { apply (healthy_core s); [done| |done]. apply Forall_app. split; [apply Hs|done]. }
  apply ends_bind, ends_when; intros _; [|by apply ends_ret, rtc_once].
  apply ends_bind. unfold RealmSocket.OnRead, session, OnRead. apply ends_bind, ends_getX.
  eapply ends_weaken; [eapply ends_mono; [by apply ends_OnRead_loop; [|lia]|]|].
  - intros [] s' [Hr' Hs']. apply ends_on, ends_modifyX. fold (crunched s'). apply ends_ret.
    eapply rtc_l; [exact Hst|]. eapply rtc_r; [exact Hr'|]. apply step_crunch.
  - intros e. apply failed_after. by apply rtc_once.
Qed.

End runs.

(** A connection that has been opened by a peer. *)
Definition opened `{OpenSSL} (realms : RealmList.t) (address : list Z) (port : Z) : t :=
  let s := make_svc_handler realms in set_socket (RealmSocket.set_remote address port (socket s)) s.

Lemma opened_healthy `{OpenSSLLaws} realms ip port :
  realms_size (RealmList.m_realms realms) ≤ 9000000 → healthy (opened realms ip port).
Proof.
  intros Hr. split; [|constructor|done|done].
  assert (bn_N (opened realms ip port) = N_val) as HN by (apply BN_hex2bn_law, N_hex_val).
  by split.
Qed.

(** C30. Whatever a client has sent so far, and whatever comes in next: the loop of commands ends,
    every handler takes its command from the input or stops, no assertion fails, no array is
    left and the packets fit into their buffers, with one exception: if the digest of a log-on
    proof ends in a zero byte, the number made of it has fewer than the 20 bytes that are
    compared. *)
Theorem commands_end `{OpenSSLLaws} (env : Env) `{!EnvLaws env} `{!RealmLaws env}
    (realms : RealmList.t) (ip : list Z) (port : Z) (s : t) (bytes : list Z) :
  realms_size (RealmList.m_realms realms) ≤ 9000000 → rtc (step env) (opened realms ip port) s → Forall is_byte bytes →
  ends (handle_input env (RealmSocket.Received bytes)) s
    (λ e, e = UndefinedBehaviour ∧ ∃ s1, rtc (step env) s s1 ∧ short_digest s1) (λ _ s', rtc (step env) s s').
Proof.
  intros Hr Hst Hb. destruct (accounted_steps env (opened realms ip port) s) as [Hs _ _];
    [by apply opened_healthy|done|done|done|]. by apply (ends_handle_input_any env).
Qed.


(** ** Examples *)

Import Toy.

#[global] Instance realm_laws : RealmLaws Example.env.
Proof. split. done. Qed.

(** A client of the example asks to reconnect. *)
Definition reconnect_request : list Z := AUTH_RECONNECT_CHALLENGE :: tail Example.challenge_bytes.

Lemma commands_end_witness :
  ends (handle_input Example.env (RealmSocket.Received reconnect_request)) (opened (RealmList.new 0) [8] 3724)
    (λ e, e = UndefinedBehaviour ∧ ∃ s1, rtc (step Example.env) (opened (RealmList.new 0) [8] 3724) s1 ∧ short_digest s1)
    (λ _ s', rtc (step Example.env) (opened (RealmList.new 0) [8] 3724) s').
Proof.
  apply (commands_end Example.env (RealmList.new 0) [8] 3724); [done|apply rtc_refl|].
  apply (bool_decide_unpack _). by vm_compute.
Defined.

(** The state after the request, and the proof that follows it. *)
Definition asked : t := (handle_input Example.env (RealmSocket.Received reconnect_request) (opened (RealmList.new 0) [8] 3724)).2.
Definition reconnect_answer : list Z :=
  [AUTH_RECONNECT_PROOF] ++ replicate 16 1 ++
  reconnect_digest (_login asked) (BN_bin2bn (replicate 16 1)) (_reconnectProof asked) (bn_K asked) ++ replicate 21 0.
Definition let_in : t := (handle_input Example.env (RealmSocket.Received reconnect_answer) asked).2.

Lemma handle_input_steps r s n :
  healthy s → Forall is_byte r → (handle_input Example.env (RealmSocket.Received r) s).1 = Ok n →
  rtc (step Example.env) s (handle_input Example.env (RealmSocket.Received r) s).2.
Proof.
  intros Hs Hr E. pose proof (ends_handle_input_any Example.env (RealmSocket.Received r) s Hs Hr) as He.
  unfold ends in He. destruct (handle_input _ _ s) as [[a|e] s']; [done|]. simpl in E. congruence.
Qed.

Lemma let_in_reached : rtc (step Example.env) (opened (RealmList.new 0) [8] 3724) let_in.
Proof.
  assert (healthy (opened (RealmList.new 0) [8] 3724)) as H0 by by apply opened_healthy.
  assert (rtc (step Example.env) (opened (RealmList.new 0) [8] 3724) asked) as H1.
  { apply (handle_input_steps _ _ 0); [done|apply (bool_decide_unpack _); by vm_compute|by vm_compute]. }
  destruct (accounted_steps Example.env _ _ H0 eq_refl eq_refl H1) as [H2 _ _].
  etrans; [exact H1|]. apply (handle_input_steps _ _ 0); [done|apply (bool_decide_unpack _); by vm_compute|by vm_compute].
Qed.

