(* ===== verification/Utf8.v ===== *)
(** * Utf8: text between UTF-8 and UTF-16.

    [dep/utf8cpp/utf8/{core,checked}.h], the decoder and encoder that names go through, and the
    functions of [shared/Utilities/Util.{h,cpp}] on top of them.  An iterator and its end are the
    octets between them.  The library's exceptions are all caught at the same place, so they are
    [None] here. *)
From S2P Require Import Prelude Bits ByteBuffer ByteBufferStream.
From stdpp Require Import list.
Open Scope Z_scope.

Module Utf8.

(** ** [utf8::internal] *)

Definition LEAD_SURROGATE_MIN : Z := 0xd800.
Definition LEAD_SURROGATE_MAX : Z := 0xdbff.
Definition TRAIL_SURROGATE_MIN : Z := 0xdc00.
Definition TRAIL_SURROGATE_MAX : Z := 0xdfff.
Definition LEAD_OFFSET : Z := u16 (LEAD_SURROGATE_MIN - Z.shiftr 0x10000 10).
Definition SURROGATE_OFFSET : Z := u32 (0x10000 - Z.shiftl LEAD_SURROGATE_MIN 10 - TRAIL_SURROGATE_MIN).
Definition CODE_POINT_MAX : Z := 0x0010ffff.

Definition mask8 (oc : Z) : Z := Z.land 0xff oc.
Definition mask16 (oc : Z) : Z := Z.land 0xffff oc.
Definition is_trail (oc : Z) : bool := Z.shiftr (mask8 oc) 6 =? 0x2.
Definition is_lead_surrogate (cp : Z) : bool := (LEAD_SURROGATE_MIN <=? cp) && (cp <=? LEAD_SURROGATE_MAX).
Definition is_trail_surrogate (cp : Z) : bool := (TRAIL_SURROGATE_MIN <=? cp) && (cp <=? TRAIL_SURROGATE_MAX).
Definition is_surrogate (cp : Z) : bool := (LEAD_SURROGATE_MIN <=? cp) && (cp <=? TRAIL_SURROGATE_MAX).
Definition is_code_point_valid (cp : Z) : bool := (cp <=? CODE_POINT_MAX) && negb (is_surrogate cp).

Definition sequence_length (oc : Z) : Z :=
  let lead := mask8 oc in
  if lead <? 0x80 then 1
  else if Z.shiftr lead 5 =? 0x6 then 2
  else if Z.shiftr lead 4 =? 0xe then 3
  else if Z.shiftr lead 3 =? 0x1e then 4
  else 0.

Definition is_overlong_sequence (cp length : Z) : bool :=
  if cp <? 0x80 then negb (length =? 1)
  else if cp <? 0x800 then negb (length =? 2)
  else if cp <? 0x10000 then negb (length =? 3)
  else false.

Inductive utf_error : Type :=
| NOT_ENOUGH_ROOM | INVALID_LEAD | INCOMPLETE_SEQUENCE | OVERLONG_SEQUENCE | INVALID_CODE_POINT.

(** An error, or a value and where the iterator is afterwards. *)
Definition decoded (A : Type) : Type := utf_error + A * list Z.

(** [++it]: the octet that is there, a trail one. *)
Definition increase_safely (it : list Z) : decoded Z :=
  match it with
  | _ :: oc :: rest => if is_trail oc then inr (oc, oc :: rest) else inl INCOMPLETE_SEQUENCE
  | _ => inl NOT_ENOUGH_ROOM
  end.
Definition and_then {A B} (r : decoded A) (f : A → list Z → decoded B) : decoded B :=
  match r with inl e => inl e | inr (a, it) => f a it end.

Definition get_sequence_1 (it : list Z) : decoded Z :=
  match it with [] => inl NOT_ENOUGH_ROOM | oc :: _ => inr (mask8 oc, it) end.
Definition get_sequence_2 (it : list Z) : decoded Z :=
  match it with
  | [] => inl NOT_ENOUGH_ROOM
  | oc :: _ =>
    let cp := mask8 oc in
    and_then (increase_safely it) (λ oc1 it,
    inr (Z.land (u32 (Z.shiftl cp 6)) 0x7ff + Z.land oc1 0x3f, it))
  end.
Definition get_sequence_3 (it : list Z) : decoded Z :=
  match it with
  | [] => inl NOT_ENOUGH_ROOM
  | oc :: _ =>
    let cp := mask8 oc in
    and_then (increase_safely it) (λ oc1 it,
    let cp := Z.land (u32 (Z.shiftl cp 12)) 0xffff + Z.land (Z.shiftl (mask8 oc1) 6) 0xfff in
    and_then (increase_safely it) (λ oc2 it,
    inr (cp + Z.land oc2 0x3f, it)))
  end.
Definition get_sequence_4 (it : list Z) : decoded Z :=
  match it with
  | [] => inl NOT_ENOUGH_ROOM
  | oc :: _ =>
    let cp := mask8 oc in
    and_then (increase_safely it) (λ oc1 it,
    let cp := Z.land (u32 (Z.shiftl cp 18)) 0x1fffff + Z.land (Z.shiftl (mask8 oc1) 12) 0x3ffff in
    and_then (increase_safely it) (λ oc2 it,
    let cp := cp + Z.land (Z.shiftl (mask8 oc2) 6) 0xfff in
    and_then (increase_safely it) (λ oc3 it,
    inr (cp + Z.land oc3 0x3f, it))))
  end.

Definition validate_next (it : list Z) : decoded Z :=
  let length := sequence_length (default 0 (head it)) in
  let r := if length =? 0 then inl INVALID_LEAD
           else if length =? 1 then get_sequence_1 it
           else if length =? 2 then get_sequence_2 it
           else if length =? 3 then get_sequence_3 it
           else get_sequence_4 it in
  and_then r (λ cp it,
  if is_code_point_valid cp then
    if negb (is_overlong_sequence cp length) then inr (cp, tail it) else inl OVERLONG_SEQUENCE
  else inl INVALID_CODE_POINT).

(** ** [utf8] *)

Definition next (it : list Z) : option (Z * list Z) :=
  match validate_next it with inr r => Some r | inl _ => None end.

Definition append (cp : Z) : option (list Z) :=
  if negb (is_code_point_valid cp) then None
  else if cp <? 0x80 then Some [u8 cp]
  else if cp <? 0x800 then Some [u8 (Z.lor (Z.shiftr cp 6) 0xc0); u8 (Z.lor (Z.land cp 0x3f) 0x80)]
  else if cp <? 0x10000 then
    Some [u8 (Z.lor (Z.shiftr cp 12) 0xe0); u8 (Z.lor (Z.land (Z.shiftr cp 6) 0x3f) 0x80);
          u8 (Z.lor (Z.land cp 0x3f) 0x80)]
  else
    Some [u8 (Z.lor (Z.shiftr cp 18) 0xf0); u8 (Z.lor (Z.land (Z.shiftr cp 12) 0x3f) 0x80);
          u8 (Z.lor (Z.land (Z.shiftr cp 6) 0x3f) 0x80); u8 (Z.lor (Z.land cp 0x3f) 0x80)].

(** A round takes at least one octet. *)
Fixpoint distance_loop (fuel : nat) (it : list Z) (dist : nat) : option nat :=
  match it, fuel with
  | [], _ => Some dist
  | _, O => None
  | _, S fuel => r ← next it; distance_loop fuel r.2 (S dist)
  end.
Definition distance (it : list Z) : option nat := distance_loop (length it) it 0.

Definition units (cp : Z) : list Z :=
  if 0xffff <? cp then [u16 (Z.shiftr cp 10 + LEAD_OFFSET); u16 (Z.land cp 0x3ff + TRAIL_SURROGATE_MIN)]
  else [u16 cp].
Fixpoint utf8to16_loop (fuel : nat) (it result : list Z) : option (list Z) :=
  match it, fuel with
  | [], _ => Some result
  | _, O => None
  | _, S fuel => r ← next it; utf8to16_loop fuel r.2 (result ++ units r.1)
  end.
Definition utf8to16 (it : list Z) : option (list Z) := utf8to16_loop (length it) it [].

Fixpoint utf16to8_loop (start result : list Z) : option (list Z) :=
  match start with
  | [] => Some result
  | w :: start =>
    let cp := mask16 w in
    if is_lead_surrogate cp then
      match start with
      | w2 :: start =>
        let trail_surrogate := mask16 w2 in
        if is_trail_surrogate trail_surrogate then
          e ← append (u32 (u32 (Z.shiftl cp 10) + trail_surrogate + SURROGATE_OFFSET));
          utf16to8_loop start (result ++ e)
        else None
      | [] => None
      end
    else if is_trail_surrogate cp then None
    else e ← append cp; utf16to8_loop start (result ++ e)
  end.
Definition utf16to8 (start : list Z) : option (list Z) := utf16to8_loop start [].

(** ** Upper and lower case: [Util.h] *)

Definition between (a b c : Z) : bool := (a <=? c) && (c <=? b).

Definition wcharToUpper (wchar : Z) : Z :=
  if between 97 122 wchar then u16 wchar - 0x0020
  else if wchar =? 0x00DF then 0x1E9E
  else if between 0x00E0 0x00F6 wchar then u16 wchar - 0x0020
  else if between 0x00F8 0x00FE wchar then u16 wchar - 0x0020
  else if between 0x0101 0x012F wchar && (wchar mod 2 =? 1) then u16 wchar - 0x0001
  else if between 0x0430 0x044F wchar then u16 wchar - 0x0020
  else if wchar =? 0x0451 then 0x0401
  else wchar.

Definition wcharToLower (wchar : Z) : Z :=
  if between 65 90 wchar then u16 wchar + 0x0020
  else if between 0x00C0 0x00D6 wchar then u16 wchar + 0x0020
  else if between 0x00D8 0x00DE wchar then u16 wchar + 0x0020
  else if between 0x0100 0x012E wchar && (wchar mod 2 =? 0) then u16 wchar + 0x0001
  else if wchar =? 0x1E9E then 0x00DF
  else if wchar =? 0x0401 then 0x0451
  else if between 0x0410 0x042F wchar then u16 wchar + 0x0020
  else wchar.

Definition wstrToLower (s : list Z) : list Z := wcharToLower <$> s.

(** ** [Util.cpp] *)

(** The version for [std::wstring]: one character is made for each code point, and the units are
    written over them; a second unit of the last one goes beyond the end.  What is not UTF-8
    gives the empty string. *)
Definition Utf8toWStr (utf8str : list Z) : result (list Z) :=
  match distance utf8str, utf8to16 utf8str with
  | Some len, Some us => if (len <? length us)%nat then Throw UndefinedBehaviour else Ok us
  | _, _ => Ok []
  end.

(** The version for a buffer of [room] characters, told that it has [wsize]: what is in the first
    [wsize] characters afterwards, if it succeeds.  The terminator goes behind the last code
    point. *)
Definition Utf8toWStr_buf (utf8str : list Z) (room wsize : nat) : result (option (list Z)) :=
  match distance utf8str with
  | None => Ok None
  | Some len =>
    if (wsize <? len)%nat then Ok None
    else match utf8to16 utf8str with
         | None => Ok None
         | Some us => if (room <? length us)%nat then Throw UndefinedBehaviour else Ok (Some (take len us))
         end
  end.

Definition WStrToUtf8 (wstr : list Z) : option (list Z) := utf16to8 wstr.

(** ** [Globals/ObjectMgr.cpp] *)

Definition MAX_INTERNAL_PLAYER_NAME : nat := 15.

Definition normalizePlayerName (name : list Z) : result (option (list Z)) :=
  if bool_decide (name = []) then Ok None
  else
    buf ← Utf8toWStr_buf name (MAX_INTERNAL_PLAYER_NAME + 1) MAX_INTERNAL_PLAYER_NAME;
    match buf with
    | None => mret None
    | Some [] => mret (WStrToUtf8 [])
    | Some (c :: rest) => mret (WStrToUtf8 (wcharToUpper c :: (wcharToLower <$> rest)))
    end.

(** ** What the decoder accepts is what the encoder makes *)

Lemma mask_mod k m b : 0 ≤ k → m = Z.ones k → Z.land b m = b mod 2 ^ k.
Proof. intros Hk ->. by apply Z.land_ones. Qed.
Lemma mask8_byte b : is_byte b → mask8 b = b.
Proof. intros Hb. unfold mask8. rewrite Z.land_comm, (mask_mod 8) by done. by apply Z.mod_small. Qed.
Lemma mask16_unit w : 0 ≤ w < 65536 → mask16 w = w.
Proof. intros Hw. unfold mask16. rewrite Z.land_comm, (mask_mod 16) by done. by apply Z.mod_small. Qed.

(** The octets of a code point. *)
Inductive encoded : Z → list Z → Prop :=
| encoded_1 a : 0 ≤ a < 128 → encoded a [a]
| encoded_2 a b : 2 ≤ a < 32 → 0 ≤ b < 64 → encoded (a * 64 + b) [192 + a; 128 + b]
| encoded_3 a b c : 0 ≤ a < 16 → 0 ≤ b < 64 → 0 ≤ c < 64 → 32 ≤ a * 64 + b →
    is_surrogate (a * 4096 + b * 64 + c) = false →
    encoded (a * 4096 + b * 64 + c) [224 + a; 128 + b; 128 + c]
| encoded_4 a b c d : 0 ≤ a < 8 → 0 ≤ b < 64 → 0 ≤ c < 64 → 0 ≤ d < 64 → 16 ≤ a * 64 + b < 272 →
    encoded (a * 262144 + b * 4096 + c * 64 + d) [240 + a; 128 + b; 128 + c; 128 + d].

Lemma encoded_bytes cp e : encoded cp e → Forall is_byte e ∧ e ≠ [].
Proof. unfold is_byte. destruct 1; (split; [repeat constructor; lia|done]). Qed.
Lemma encoded_valid cp e : encoded cp e → 0 ≤ cp ∧ is_code_point_valid cp = true.
Proof.
  unfold is_code_point_valid, CODE_POINT_MAX. destruct 1 as [a|a b|a b c ???? Hs|a b c d];
    (split; [lia|]); rewrite ?Hs; unfold is_surrogate, LEAD_SURROGATE_MIN, TRAIL_SURROGATE_MAX; lia.
Qed.
(** Only the octets of a code point that needs two units start with one of 0xF0 and above. *)
Lemma encoded_low cp e : encoded cp e → Forall (λ b, b < 0xF0) e ↔ cp ≤ 0xffff.
Proof. destruct 1; rewrite ?Forall_cons, Forall_nil; lia. Qed.

Lemma is_trail_spec b : is_byte b → is_trail b = true ↔ 128 ≤ b < 192.
Proof.
  unfold is_byte. intros Hb. unfold is_trail. rewrite mask8_byte, Z.shiftr_div_pow2 by (done || unfold is_byte; lia).
  rewrite Z.eqb_eq. Z.to_euclidean_division_equations; lia.
Qed.
Lemma sequence_length_spec b : is_byte b →
  sequence_length b = (if b <? 128 then 1 else if (192 <=? b) && (b <? 224) then 2
                       else if (224 <=? b) && (b <? 240) then 3 else if (240 <=? b) && (b <? 248) then 4 else 0).
Proof.
  intros Hb. unfold sequence_length. rewrite mask8_byte, !Z.shiftr_div_pow2 by (done || lia). unfold is_byte in Hb.
  assert (H : ∀ k v, 0 < k → (b / k =? v) = (k * v <=? b) && (b <? k * v + k)).
  { intros k v Hk. apply eq_true_iff_eq. rewrite andb_true_iff, Z.eqb_eq, Z.leb_le, Z.ltb_lt.
    Z.to_euclidean_division_equations; nia. }
  rewrite !H by lia. simpl. reflexivity.
Qed.

(** Decoding, one octet more at a time. *)
Lemma increase_safely_ok x oc rest : is_byte oc → 128 ≤ oc < 192 → increase_safely (x :: oc :: rest) = inr (oc, oc :: rest).
Proof. intros H1 H2. simpl. by rewrite (proj2 (is_trail_spec oc H1)). Qed.
Lemma increase_safely_inv it oc it' : Forall is_byte it → increase_safely it = inr (oc, it') →
  ∃ x rest, it = x :: oc :: rest ∧ it' = oc :: rest ∧ 128 ≤ oc < 192.
Proof.
  intros Hit. destruct it as [|x [|y rest]]; simpl; try done. destruct (is_trail y) eqn:Et; [|done].
  intros [= -> <-]. apply is_trail_spec in Et; [eauto 6|]. by inversion_clear Hit as [|?? _ H2]; inversion_clear H2.
Qed.

(** The arithmetic of the sequences: the bits of the lead octet are masked away. *)
Ltac octets := rewrite ?mask8_byte, ?Z.shiftl_mul_pow2 by (unfold is_byte; lia);
  rewrite ?(mask_mod 6 0x3f), ?(mask_mod 11 0x7ff), ?(mask_mod 12 0xfff), ?(mask_mod 16 0xffff), ?(mask_mod 18 0x3ffff),
    ?(mask_mod 21 0x1fffff) by done;
  unfold u32; Z.to_euclidean_division_equations; lia.

Lemma get_sequence_2_ok a b rest : 0 ≤ a < 32 → 0 ≤ b < 64 →
  get_sequence_2 (192 + a :: 128 + b :: rest) = inr (a * 64 + b, 128 + b :: rest).
Proof.
  intros. unfold get_sequence_2. rewrite increase_safely_ok by (unfold is_byte; lia).
  unfold and_then. do 2 f_equal. octets.
Qed.
Lemma get_sequence_3_ok a b c rest : 0 ≤ a < 16 → 0 ≤ b < 64 → 0 ≤ c < 64 →
  get_sequence_3 (224 + a :: 128 + b :: 128 + c :: rest) = inr (a * 4096 + b * 64 + c, 128 + c :: rest).
Proof.
  intros. unfold get_sequence_3. rewrite increase_safely_ok by (unfold is_byte; lia). unfold and_then.
  rewrite increase_safely_ok by (unfold is_byte; lia). do 2 f_equal. octets.
Qed.
Lemma get_sequence_4_ok a b c d rest : 0 ≤ a < 8 → 0 ≤ b < 64 → 0 ≤ c < 64 → 0 ≤ d < 64 →
  get_sequence_4 (240 + a :: 128 + b :: 128 + c :: 128 + d :: rest) =
  inr (a * 262144 + b * 4096 + c * 64 + d, 128 + d :: rest).
Proof.
  intros. unfold get_sequence_4. rewrite increase_safely_ok by (unfold is_byte; lia). unfold and_then.
  rewrite increase_safely_ok by (unfold is_byte; lia). rewrite increase_safely_ok by (unfold is_byte; lia).
  do 2 f_equal. octets.
Qed.

Lemma next_encoded cp e rest : encoded cp e → next (e ++ rest) = Some (cp, rest).
Proof.
  intros He. destruct (encoded_valid _ _ He) as [_ Hv]. unfold next, validate_next.
  destruct He as [a|a b|a b c|a b c d]; cbn [app head default from_option id];
    rewrite sequence_length_spec by (unfold is_byte; lia).
  - replace (a <? 128) with true by lia. simpl. rewrite mask8_byte by (unfold is_byte; lia).
    rewrite Hv. unfold is_overlong_sequence. by replace (a <? 128) with true by lia.
  - replace (192 + a <? 128) with false by lia. replace ((192 <=? 192 + a) && (192 + a <? 224)) with true by lia.
    cbn [Z.eqb Pos.eqb]. rewrite get_sequence_2_ok by lia. unfold and_then. rewrite Hv. unfold is_overlong_sequence.
    replace (a * 64 + b <? 128) with false by lia. by replace (a * 64 + b <? 2048) with true by lia.
  - replace (224 + a <? 128) with false by lia. replace ((192 <=? 224 + a) && (224 + a <? 224)) with false by lia.
    replace ((224 <=? 224 + a) && (224 + a <? 240)) with true by lia.
    cbn [Z.eqb Pos.eqb]. rewrite get_sequence_3_ok by lia. unfold and_then. rewrite Hv. unfold is_overlong_sequence.
    set (v := a * 4096 + b * 64 + c). replace (v <? 128) with false by lia. replace (v <? 2048) with false by lia.
    by replace (v <? 65536) with true by lia.
  - replace (240 + a <? 128) with false by lia. replace ((192 <=? 240 + a) && (240 + a <? 224)) with false by lia.
    replace ((224 <=? 240 + a) && (240 + a <? 240)) with false by lia.
    replace ((240 <=? 240 + a) && (240 + a <? 248)) with true by lia.
    cbn [Z.eqb Pos.eqb]. rewrite get_sequence_4_ok by lia. unfold and_then. rewrite Hv. unfold is_overlong_sequence.
    set (v := a * 262144 + b * 4096 + c * 64 + d). replace (v <? 128) with false by lia. replace (v <? 2048) with false by lia.
    by replace (v <? 65536) with false by lia.
Qed.

(** Nothing else is accepted. *)
Ltac trail H Hit :=
  match type of H with
  | and_then (increase_safely ?it) _ = inr _ =>
    let E := fresh "E" in let oc := fresh "oc" in let it' := fresh "it" in
    let y := fresh "y" in let z := fresh "z" in
    destruct (increase_safely it) as [?|[oc it']] eqn:E; [done|]; cbn [and_then] in H;
    apply increase_safely_inv in E as (y & z & E & -> & ?); [|exact Hit];
    injection E as <- ->; inversion_clear Hit as [|? ? _ Hit']; rename Hit' into Hit
  end.

Lemma lead_form n b : ∃ a, b = n + a.
Proof. exists (b - n). lia. Qed.

Lemma get_sequence_2_inv oc rest cp it : Forall is_byte (oc :: rest) → 192 ≤ oc < 224 →
  get_sequence_2 (oc :: rest) = inr (cp, it) →
  ∃ a b r, oc = 192 + a ∧ rest = 128 + b :: r ∧ 0 ≤ a < 32 ∧ 0 ≤ b < 64 ∧ cp = a * 64 + b ∧ it = 128 + b :: r.
Proof.
  intros Hit Hl H. pose proof H as H'. unfold get_sequence_2 in H. trail H Hit.
  destruct (lead_form 192 oc) as [a ->], (lead_form 128 oc0) as [b ->].
  rewrite get_sequence_2_ok in H' by lia. injection H' as <- <-. exists a, b, z. repeat split; lia.
Qed.
Lemma get_sequence_3_inv oc rest cp it : Forall is_byte (oc :: rest) → 224 ≤ oc < 240 →
  get_sequence_3 (oc :: rest) = inr (cp, it) →
  ∃ a b c r, oc = 224 + a ∧ rest = 128 + b :: 128 + c :: r ∧ 0 ≤ a < 16 ∧ 0 ≤ b < 64 ∧ 0 ≤ c < 64 ∧
    cp = a * 4096 + b * 64 + c ∧ it = 128 + c :: r.
Proof.
  intros Hit Hl H. pose proof H as H'. unfold get_sequence_3 in H. trail H Hit. trail H Hit.
  destruct (lead_form 224 oc) as [a ->], (lead_form 128 oc0) as [b ->], (lead_form 128 oc1) as [c ->].
  rewrite get_sequence_3_ok in H' by lia. injection H' as <- <-. eexists a, b, c, _. repeat split; lia.
Qed.
Lemma get_sequence_4_inv oc rest cp it : Forall is_byte (oc :: rest) → 240 ≤ oc < 248 →
  get_sequence_4 (oc :: rest) = inr (cp, it) →
  ∃ a b c d r, oc = 240 + a ∧ rest = 128 + b :: 128 + c :: 128 + d :: r ∧ 0 ≤ a < 8 ∧ 0 ≤ b < 64 ∧ 0 ≤ c < 64 ∧
    0 ≤ d < 64 ∧ cp = a * 262144 + b * 4096 + c * 64 + d ∧ it = 128 + d :: r.
Proof.
  intros Hit Hl H. pose proof H as H'. unfold get_sequence_4 in H. trail H Hit. trail H Hit. trail H Hit.
  destruct (lead_form 240 oc) as [a ->], (lead_form 128 oc0) as [b ->], (lead_form 128 oc1) as [c ->], (lead_form 128 oc2) as [d ->].
  rewrite get_sequence_4_ok in H' by lia. injection H' as <- <-. eexists a, b, c, d, _. repeat split; lia.
Qed.

Lemma not_overlong cp n : is_overlong_sequence cp n = false →
  (n = 2 → 128 ≤ cp) ∧ (n = 3 → 2048 ≤ cp) ∧ (n = 4 → 65536 ≤ cp).
Proof.
  unfold is_overlong_sequence. destruct (cp <? 128) eqn:E1; [lia|]. destruct (cp <? 2048) eqn:E2; [lia|].
  destruct (cp <? 65536) eqn:E3; lia.
Qed.

Lemma next_inv it cp rest : Forall is_byte it → it ≠ [] → next it = Some (cp, rest) →
  ∃ e, encoded cp e ∧ it = e ++ rest.
Proof.
  intros Hit Hne. destruct it as [|oc r]; [done|]. unfold next, validate_next. cbn [head default from_option id].
  assert (Hoc : is_byte oc) by by inversion_clear Hit.
  rewrite sequence_length_spec by done. unfold is_byte in Hoc.
  destruct (oc <? 128) eqn:E1.
  { simpl. rewrite mask8_byte by done. destruct (is_code_point_valid oc); [|done].
    destruct (is_overlong_sequence oc 1); [done|]. intros [= <- <-]. exists [oc]. split; [constructor; lia|done]. }
  destruct ((192 <=? oc) && (oc <? 224)) eqn:E2; cbn [Z.eqb Pos.eqb].
  { destruct (get_sequence_2 _) as [|[cp' it']] eqn:E; [done|]. cbn [and_then].
    apply get_sequence_2_inv in E as (a & b & r' & -> & -> & Ha & Hb & -> & ->); [|done|lia].
    destruct (is_code_point_valid _); [|done]. destruct (is_overlong_sequence _ 2) eqn:Eo; [done|].
    intros [= <- <-]. exists [192 + a; 128 + b]. split; [|done].
    apply not_overlong in Eo. constructor; lia. }
  destruct ((224 <=? oc) && (oc <? 240)) eqn:E3; cbn [Z.eqb Pos.eqb].
  { destruct (get_sequence_3 _) as [|[cp' it']] eqn:E; [done|]. cbn [and_then].
    apply get_sequence_3_inv in E as (a & b & c & r' & -> & -> & Ha & Hb & Hc & -> & ->); [|done|lia].
    destruct (is_code_point_valid _) eqn:Ev; [|done]. destruct (is_overlong_sequence _ 3) eqn:Eo; [done|].
    intros [= <- <-]. exists [224 + a; 128 + b; 128 + c]. split; [|done]. apply not_overlong in Eo.
    constructor; try lia. unfold is_code_point_valid in Ev. apply andb_true_iff in Ev as [_ Ev]. by apply negb_true_iff. }
  destruct ((240 <=? oc) && (oc <? 248)) eqn:E4; cbn [Z.eqb Pos.eqb and_then]; [|done].
  destruct (get_sequence_4 _) as [|[cp' it']] eqn:E; [done|]. cbn [and_then].
  apply get_sequence_4_inv in E as (a & b & c & d & r' & -> & -> & Ha & Hb & Hc & Hd & -> & ->); [|done|lia].
  destruct (is_code_point_valid _) eqn:Ev; [|done]. destruct (is_overlong_sequence _ 4) eqn:Eo; [done|].
  intros [= <- <-]. exists [240 + a; 128 + b; 128 + c; 128 + d]. split; [|done].
  apply not_overlong in Eo. unfold is_code_point_valid, CODE_POINT_MAX in Ev. constructor; lia.
Qed.

(** ** Encoding *)

(** The tag of an octet is added to the bits below it. *)
Lemma tag a k t m : 0 ≤ k → 0 ≤ a < 2 ^ k → m = Z.shiftl t k → Z.lor a m = a + t * 2 ^ k.
Proof. intros Hk Ha ->. by apply PackGUID.lor_shiftl_add. Qed.

Lemma append_encoded cp e : encoded cp e → append cp = Some e.
Proof.
  intros He. destruct (encoded_valid _ _ He) as [_ Hv]. unfold append. rewrite Hv. cbn [negb].
  assert (T : ∀ v, Z.lor (Z.land v 63) 128 = v mod 64 + 128).
  { intros v. rewrite (mask_mod 6) by done. rewrite (tag _ 6 2) by (done || (change (2 ^ 6) with 64; Z.to_euclidean_division_equations; lia)). done. }
  assert (L : ∀ a k t m, 0 ≤ k → 0 ≤ a < 2 ^ k → m = Z.shiftl t k → t * 2 ^ k + a < 256 → u8 (Z.lor a m) = t * 2 ^ k + a ∨ t < 0).
  { intros a k t m Hk Ha Hm Hb. destruct (decide (t < 0)) as [|Ht]; [by right|left]. rewrite (tag a k t m) by done.
    unfold u8. rewrite Z.mod_small; [lia|]. split; [nia|]. change (2 ^ 8) with 256. lia. }
  destruct He as [a|a b|a b c|a b c d].
  - replace (a <? 128) with true by lia. unfold u8. by rewrite Z.mod_small by lia.
  - replace (a * 64 + b <? 128) with false by lia. replace (a * 64 + b <? 2048) with true by lia.
    rewrite T, Z.shiftr_div_pow2 by lia. change (2 ^ 6) with 64.
    replace ((a * 64 + b) / 64) with a by (Z.to_euclidean_division_equations; lia).
    destruct (L a 5 6 192) as [->|]; try (lia || done). f_equal. unfold u8.
    apply (f_equal2 cons); [lia|]. apply (f_equal2 cons); [|done]. Z.to_euclidean_division_equations; lia.
  - set (v := a * 4096 + b * 64 + c). replace (v <? 128) with false by lia. replace (v <? 2048) with false by lia.
    replace (v <? 65536) with true by lia. rewrite !T, !Z.shiftr_div_pow2 by lia. change (2 ^ 6) with 64. change (2 ^ 12) with 4096.
    replace (v / 4096) with a by (subst v; Z.to_euclidean_division_equations; lia).
    destruct (L a 4 14 224) as [->|]; try (lia || done). f_equal. unfold u8, v.
    apply (f_equal2 cons); [lia|]. repeat (apply (f_equal2 cons); [Z.to_euclidean_division_equations; lia|]). done.
  - set (v := a * 262144 + b * 4096 + c * 64 + d). replace (v <? 128) with false by lia. replace (v <? 2048) with false by lia.
    replace (v <? 65536) with false by lia. rewrite !T, !Z.shiftr_div_pow2 by lia.
    change (2 ^ 6) with 64. change (2 ^ 12) with 4096. change (2 ^ 18) with 262144.
    replace (v / 262144) with a by (subst v; Z.to_euclidean_division_equations; lia).
    destruct (L a 3 30 240) as [->|]; try (lia || done). f_equal. unfold u8, v.
    apply (f_equal2 cons); [lia|]. repeat (apply (f_equal2 cons); [Z.to_euclidean_division_equations; lia|]). done.
Qed.

Lemma encodable cp : 0 ≤ cp → is_code_point_valid cp = true → ∃ e, encoded cp e.
Proof.
  intros H0 Hv. unfold is_code_point_valid, CODE_POINT_MAX in Hv. apply andb_true_iff in Hv as [Hm Hs].
  apply negb_true_iff in Hs.
  destruct (decide (cp < 128)); [eexists; by apply encoded_1|].
  destruct (decide (cp < 2048)).
  { assert (E : cp = cp / 64 * 64 + cp mod 64) by (Z.to_euclidean_division_equations; lia). rewrite E.
    eexists. apply encoded_2; Z.to_euclidean_division_equations; lia. }
  destruct (decide (cp < 65536)).
  { assert (E : cp = cp / 4096 * 4096 + cp / 64 mod 64 * 64 + cp mod 64) by (Z.to_euclidean_division_equations; lia).
    rewrite E. eexists. apply encoded_3; rewrite <-?E; try done; Z.to_euclidean_division_equations; lia. }
  assert (E : cp = cp / 262144 * 262144 + cp / 4096 mod 64 * 4096 + cp / 64 mod 64 * 64 + cp mod 64)
    by (Z.to_euclidean_division_equations; lia).
  rewrite E. eexists. apply encoded_4; Z.to_euclidean_division_equations; lia.
Qed.

(** ** Texts *)

(** [l] is the UTF-8 text of these code points. *)
Definition text (cps : list Z) (l : list Z) : Prop := ∃ es, Forall2 encoded cps es ∧ l = concat es.

Lemma text_nil : text [] [].
Proof. by exists []. Qed.
Lemma text_cons cp cps e l : encoded cp e → text cps l → text (cp :: cps) (e ++ l).
Proof. intros He (es & H & ->). exists (e :: es). split; [by constructor|done]. Qed.
Lemma text_cons_inv cp cps l : text (cp :: cps) l → ∃ e l', encoded cp e ∧ text cps l' ∧ l = e ++ l'.
Proof. intros (es & H & ->). apply Forall2_cons_inv_l in H as (e & es' & He & H' & ->). exists e, (concat es'). repeat split; [done|by exists es']. Qed.
Lemma text_bytes cps l : text cps l → Forall is_byte l.
Proof.
  revert l. induction cps as [|cp cps IH]; intros l H.
  - destruct H as (es & H & ->). inversion_clear H. constructor.
  - apply text_cons_inv in H as (e & l' & He & Hl & ->). apply Forall_app. split; [by apply (encoded_bytes cp)|auto].
Qed.

(** One round of the decoders. *)
Lemma text_step cp e l' : encoded cp e → ∃ x r, e ++ l' = x :: r ∧ next (x :: r) = Some (cp, l') ∧ (length l' < length (x :: r))%nat.
Proof.
  intros He. destruct (encoded_bytes _ _ He) as [_ Hne]. pose proof (next_encoded cp e l' He) as Hn.
  destruct e as [|x e']; [done|]. exists x, (e' ++ l'). repeat split; [exact Hn|]. simpl. rewrite length_app. lia.
Qed.

Lemma distance_text cps l fuel n : text cps l → (length l ≤ fuel)%nat →
  distance_loop fuel l n = Some (n + length cps)%nat.
Proof.
  revert l fuel n. induction cps as [|cp cps IH]; intros l fuel n H Hf.
  - destruct H as (es & H & ->). inversion_clear H. simpl. rewrite Nat.add_0_r. by destruct fuel.
  - apply text_cons_inv in H as (e & l' & He & Hl & ->). destruct (text_step _ _ l' He) as (x & r & E & Hn & Hlen).
    rewrite E in Hf |- *. destruct fuel as [|fuel]; [simpl in Hf; lia|]. cbn [distance_loop]. rewrite Hn. simpl.
    rewrite IH; [f_equal; lia|done|simpl in *; lia].
Qed.
Lemma utf8to16_text cps l fuel res : text cps l → (length l ≤ fuel)%nat →
  utf8to16_loop fuel l res = Some (res ++ (cps ≫= units)).
Proof.
  revert l fuel res. induction cps as [|cp cps IH]; intros l fuel res H Hf.
  - destruct H as (es & H & ->). inversion_clear H. simpl. rewrite app_nil_r. by destruct fuel.
  - apply text_cons_inv in H as (e & l' & He & Hl & ->). destruct (text_step _ _ l' He) as (x & r & E & Hn & Hlen).
    rewrite E in Hf |- *. destruct fuel as [|fuel]; [simpl in Hf; lia|]. cbn [utf8to16_loop]. rewrite Hn. simpl.
    rewrite IH, <-app_assoc by (done || (simpl in *; lia)). done.
Qed.
Lemma distance_inv fuel l n m : Forall is_byte l → distance_loop fuel l n = Some m → ∃ cps, text cps l.
Proof.
  revert l n. induction fuel as [|fuel IH]; intros l n Hl; (destruct l as [|x r]; [intros _; exists []; apply text_nil|]); [done|].
  cbn [distance_loop]. destruct (next (x :: r)) as [[cp rest]|] eqn:En; [|done]. simpl. intros H.
  apply next_inv in En as (e & He & E); [|done|done]. rewrite E in Hl |- *. apply Forall_app in Hl as [_ Hl].
  apply IH in H as [cps Hc]; [|done]. exists (cp :: cps). by apply text_cons.
Qed.

Lemma distance_spec l : Forall is_byte l → distance l ≠ None → ∃ cps, text cps l ∧
  distance l = Some (length cps) ∧ utf8to16 l = Some (cps ≫= units).
Proof.
  intros Hl. destruct (distance l) as [m|] eqn:Ed; [|done]. intros _.
  destruct (distance_inv _ _ _ _ Hl Ed) as [cps Hc]. exists cps. unfold distance, utf8to16 in *.
  by rewrite <-Ed, (distance_text cps), (utf8to16_text cps).
Qed.

Lemma units_low cp : 0 ≤ cp ≤ 0xffff → units cp = [cp].
Proof. intros H. unfold units. replace (65535 <? cp) with false by lia. unfold u16. by rewrite Z.mod_small by lia. Qed.

(** The encoder undoes the units. *)
Lemma utf16to8_units cp e ws res : encoded cp e → utf16to8_loop (units cp ++ ws) res = utf16to8_loop ws (res ++ e).
Proof.
  intros He. destruct (encoded_valid _ _ He) as [H0 Hv]. pose proof (append_encoded _ _ He) as Ha.
  unfold is_code_point_valid, CODE_POINT_MAX, is_surrogate, LEAD_SURROGATE_MIN, TRAIL_SURROGATE_MAX in Hv.
  apply andb_true_iff in Hv as [Hm Hs]. apply negb_true_iff in Hs.
  destruct (decide (cp ≤ 0xffff)).
  - rewrite units_low by lia. cbn [app utf16to8_loop]. rewrite mask16_unit by lia.
    unfold is_lead_surrogate, is_trail_surrogate, LEAD_SURROGATE_MIN, LEAD_SURROGATE_MAX, TRAIL_SURROGATE_MIN, TRAIL_SURROGATE_MAX.
    replace ((55296 <=? cp) && (cp <=? 56319)) with false by lia.
    replace ((56320 <=? cp) && (cp <=? 57343)) with false by lia. rewrite Ha. done.
  - unfold units. replace (65535 <? cp) with true by lia.
    assert (E1 : u16 (cp ≫ 10 + LEAD_OFFSET) = 55232 + cp / 1024).
    { rewrite Z.shiftr_div_pow2 by lia. change LEAD_OFFSET with 55232. unfold u16. Z.to_euclidean_division_equations; lia. }
    assert (E2 : u16 (Z.land cp 1023 + TRAIL_SURROGATE_MIN) = 56320 + cp mod 1024).
    { rewrite (mask_mod 10) by done. change TRAIL_SURROGATE_MIN with 56320. unfold u16. Z.to_euclidean_division_equations; lia. }
    rewrite E1, E2. cbn [app utf16to8_loop].
    rewrite !mask16_unit by (Z.to_euclidean_division_equations; lia).
    unfold is_lead_surrogate, is_trail_surrogate, LEAD_SURROGATE_MIN, LEAD_SURROGATE_MAX, TRAIL_SURROGATE_MIN, TRAIL_SURROGATE_MAX.
    replace ((55296 <=? 55232 + cp / 1024) && (55232 + cp / 1024 <=? 56319)) with true by (Z.to_euclidean_division_equations; lia).
    replace ((56320 <=? 56320 + cp mod 1024) && (56320 + cp mod 1024 <=? 57343)) with true by (Z.to_euclidean_division_equations; lia).
    replace (u32 (u32 ((55232 + cp / 1024) ≪ 10) + (56320 + cp mod 1024) + SURROGATE_OFFSET)) with cp; [by rewrite Ha|].
    rewrite Z.shiftl_mul_pow2 by lia. change SURROGATE_OFFSET with 4238419968 || (change SURROGATE_OFFSET with (u32 (0x10000 - 0x3600000 - 0xdc00))).
    unfold u32. Z.to_euclidean_division_equations; lia.
Qed.
Lemma utf16to8_text cps l res : text cps l → utf16to8_loop (cps ≫= units) res = Some (res ++ l).
Proof.
  revert l res. induction cps as [|cp cps IH]; intros l res H.
  - destruct H as (es & H & ->). inversion_clear H. simpl. by rewrite app_nil_r.
  - apply text_cons_inv in H as (e & l' & He & Hl & ->). rewrite bind_cons, (utf16to8_units _ e), (IH l') by done.
    by rewrite app_assoc.
Qed.

(** A text whose octets are below 0xF0 has one unit for each code point. *)
Lemma low_text cps l : text cps l → Forall (λ b, b < 0xF0) l → Forall (λ c, 0 ≤ c ≤ 0xffff ∧ is_surrogate c = false) cps.
Proof.
  revert l. induction cps as [|cp cps IH]; intros l H Hl; [constructor|].
  apply text_cons_inv in H as (e & l' & He & Ht & ->). apply Forall_app in Hl as [H1 H2]. constructor; [|eauto].
  apply (encoded_low cp) in H1; [|done]. destruct (encoded_valid _ _ He) as [H0 Hv]. split; [lia|].
  unfold is_code_point_valid in Hv. apply andb_true_iff in Hv as [_ Hs]. by apply negb_true_iff.
Qed.
Lemma low_units cps : Forall (λ c, 0 ≤ c ≤ 0xffff ∧ is_surrogate c = false) cps → cps ≫= units = cps.
Proof. induction 1 as [|c cps [Hc _] _ IH]; [done|]. by rewrite bind_cons, units_low, IH. Qed.
Lemma low_encodable cps : Forall (λ c, 0 ≤ c ≤ 0xffff ∧ is_surrogate c = false) cps → ∃ l, text cps l ∧ Forall (λ b, b < 0xF0) l.
Proof.
  induction 1 as [|c cps [Hc Hs] _ (l & Hl & Hb)]; [exists []; split; [apply text_nil|constructor]|].
  destruct (encodable c) as [e He]; [lia|unfold is_code_point_valid, CODE_POINT_MAX; rewrite Hs; lia|].
  exists (e ++ l). split; [by apply text_cons|]. apply Forall_app. split; [|done]. apply (encoded_low c); [done|lia].
Qed.

(** The name of a channel as a key: only a character beyond the basic plane is dangerous. *)
Lemma Utf8toWStr_low l : Forall is_byte l → Forall (λ b, b < 0xF0) l → ∃ w, Utf8toWStr l = Ok w.
Proof.
  intros Hb Hl. unfold Utf8toWStr. destruct (distance l) eqn:Ed; [|eauto].
  destruct (distance_spec l Hb) as (cps & Ht & Hd & Hu); [by rewrite Ed|]. rewrite Hu.
  rewrite Ed in Hd. injection Hd as ->. rewrite low_units by by apply (low_text _ l).
  replace (length cps <? length cps)%nat with false by (symmetry; apply Nat.ltb_ge; lia). eauto.
Qed.

(** ** Case *)

Lemma case_range c : 0 ≤ c ≤ 0xffff → is_surrogate c = false →
  (0 ≤ wcharToLower c ≤ 0xffff ∧ is_surrogate (wcharToLower c) = false) ∧
  (0 ≤ wcharToUpper c ≤ 0xffff ∧ is_surrogate (wcharToUpper c) = false).
Proof.
  intros Hc. unfold wcharToLower, wcharToUpper, between, is_surrogate, LEAD_SURROGATE_MIN, TRAIL_SURROGATE_MAX, u16.
  rewrite (Z.mod_small c) by lia. intros Hs. split; repeat case_match; lia.
Qed.
Ltac cases_of_case := intros; unfold wcharToLower, wcharToUpper, between, u16;
  rewrite ?(Z.mod_small _ (2 ^ 16)) by lia; repeat case_match; try lia; Z.to_euclidean_division_equations; lia.
Lemma lower_lower c : 0 ≤ c ≤ 0xffff → wcharToLower (wcharToLower c) = wcharToLower c.
Proof. cases_of_case. Qed.
Lemma lower_upper c : 0 ≤ c ≤ 0xffff → wcharToLower (wcharToUpper c) = wcharToLower c.
Proof. cases_of_case. Qed.
Lemma upper_lower c : 0 ≤ c ≤ 0xffff → wcharToUpper (wcharToLower c) = wcharToUpper c.
Proof. cases_of_case. Qed.
Lemma upper_upper c : 0 ≤ c ≤ 0xffff → wcharToUpper (wcharToUpper c) = wcharToUpper c.
Proof. cases_of_case. Qed.

(** ** Names of players *)

(** Between one and fifteen characters of UTF-8, none beyond the basic plane. *)
Definition plain_name (l : list Z) : bool :=
  forallb (λ b, (0 <=? b) && (b <? 0xF0)) l &&
  match distance l with Some n => (1 <=? n)%nat && (n <=? MAX_INTERNAL_PLAYER_NAME)%nat | None => false end.

Definition capitalised (w : list Z) : list Z :=
  match w with [] => [] | c :: rest => wcharToUpper c :: (wcharToLower <$> rest) end.

Definition basic : list Z → Prop := Forall (λ c, 0 ≤ c ≤ 0xffff ∧ is_surrogate c = false).

Lemma plain_text l : plain_name l = true → Forall (λ b, b < 0xF0) l ∧ ∃ cps, text cps l ∧ basic cps ∧
  distance l = Some (length cps) ∧ utf8to16 l = Some cps ∧ (1 ≤ length cps ≤ MAX_INTERNAL_PLAYER_NAME)%nat.
Proof.
  unfold plain_name. rewrite andb_true_iff, forallb_forall. intros [Hf Hd].
  assert (Hb : Forall (λ b, 0 ≤ b < 0xF0) l).
  { apply List.Forall_forall. intros b Hb. specialize (Hf b Hb). lia. }
  destruct (distance l) as [n|] eqn:Ed; [|done]. split; [by eapply Forall_impl; [exact Hb|simpl; lia]|].
  destruct (distance_spec l) as (cps & Ht & Hd' & Hu); [eapply Forall_impl; [exact Hb|unfold is_byte; simpl; lia]|by rewrite Ed|].
  assert (Hl : basic cps) by (apply (low_text _ l); [done|]; eapply Forall_impl; [exact Hb|simpl; lia]).
  rewrite low_units in Hu by done. rewrite Hd' in Ed. injection Ed as <-. apply andb_true_iff in Hd as [H1 H2].
  apply Nat.leb_le in H1, H2. by exists cps.
Qed.

Lemma text_utf8to16 w l : text w l → basic w → utf8to16 l = Some w.
Proof. intros Ht Hw. unfold utf8to16. by rewrite (utf8to16_text w), low_units. Qed.
Lemma text_unique w l l' : text w l → text w l' → l = l'.
Proof.
  intros H H'. pose proof (utf16to8_text _ _ [] H) as E. rewrite (utf16to8_text _ _ [] H') in E. by injection E.
Qed.

Lemma text_plain cps l : text cps l → basic cps → (1 ≤ length cps ≤ MAX_INTERNAL_PLAYER_NAME)%nat → plain_name l = true.
Proof.
  intros Ht Hb Hl. unfold plain_name. unfold distance. rewrite (distance_text cps) by done. rewrite Nat.add_0_l.
  apply andb_true_iff. split; [|apply andb_true_iff; split; apply Nat.leb_le; lia]. apply forallb_forall. apply List.Forall_forall.
  pose proof (text_bytes _ _ Ht) as Hby.
  destruct (low_encodable cps Hb) as (l' & Ht' & Hl'). rewrite (text_unique _ _ _ Ht Ht') in Hby |- *.
  eapply Forall_impl; [apply Forall_and; split; [exact Hby|exact Hl']|]. unfold is_byte. simpl. lia.
Qed.

Lemma capitalised_basic w : basic w → basic (capitalised w).
Proof.
  intros [|c w' [Hc Hs] Hw]; [constructor|]. simpl. constructor; [by apply case_range|].
  apply Forall_fmap. eapply Forall_impl; [exact Hw|]. intros x [Hx Hxs]. by apply case_range.
Qed.
Lemma capitalised_twice w : basic w → capitalised (capitalised w) = capitalised w.
Proof.
  intros [|c w' [Hc Hs] Hw]; [done|]. simpl. rewrite upper_upper by done. f_equal.
  induction Hw as [|x w'' [Hx Hxs] _ IH]; [done|]. rewrite !fmap_cons, lower_lower, IH by done. done.
Qed.
(** Two names get the same capitals exactly if they differ in case only. *)
Lemma capitalised_inj v w : basic v → basic w → capitalised v = capitalised w ↔ wstrToLower v = wstrToLower w.
Proof.
  intros [|c v' [Hc _] Hv] [|d w' [Hd _] Hw]; try done. unfold wstrToLower. simpl. split.
  - intros [= E1 E2]. rewrite <-(lower_upper c), <-(lower_upper d), E1 by done. by f_equal.
  - intros [= E1 E2]. rewrite <-(upper_lower c), <-(upper_lower d), E1 by done. by f_equal.
Qed.

Lemma normalizePlayerName_plain l : plain_name l = true → ∃ cps n, utf8to16 l = Some cps ∧ basic cps ∧
  normalizePlayerName l = Ok (Some n) ∧ text (capitalised cps) n ∧ plain_name n = true.
Proof.
  intros Hp. destruct (plain_text l Hp) as (_ & cps & Ht & Hb & Hd & Hu & Hl).
  destruct (low_encodable (capitalised cps) (capitalised_basic _ Hb)) as (n & Hn & _).
  exists cps, n. split; [done|]. split; [done|].
  assert (Hlen : length (capitalised cps) = length cps) by (destruct cps; simpl; [done|by rewrite length_fmap]).
  split; [|split; [done|by apply (text_plain (capitalised cps)); [done|by apply capitalised_basic|rewrite Hlen]]].
  unfold normalizePlayerName. rewrite bool_decide_eq_false_2.
  2:{ intros ->. destruct cps; [simpl in Hl; lia|]. by destruct Ht as (es & H & E); inversion H; subst; destruct (encoded_bytes _ _ H2); destruct y. }
  unfold Utf8toWStr_buf. rewrite Hd, Hu.
  replace (MAX_INTERNAL_PLAYER_NAME <? length cps)%nat with false by (symmetry; apply Nat.ltb_ge; lia).
  replace (MAX_INTERNAL_PLAYER_NAME + 1 <? length cps)%nat with false by (symmetry; apply Nat.ltb_ge; lia).
  rewrite take_ge by done. simpl. destruct cps as [|c cps]; [simpl in Hl; lia|]. unfold mret, result_ret. f_equal.
  unfold WStrToUtf8, utf16to8. rewrite <-(low_units (wcharToUpper c :: _)) by exact (capitalised_basic _ Hb).
  by rewrite (utf16to8_text _ n).
Qed.

(** C36. Names of players are looked up without regard to case: a name of one to fifteen
    characters of the basic plane has a normal form, which is its own normal form, and two such
    names have the same one exactly if they are the same after [wstrToLower], the accents,
    Cyrillic and the sharp s included. *)
Theorem player_names a b : plain_name a = true → plain_name b = true →
  (∃ n, normalizePlayerName a = Ok (Some n) ∧ normalizePlayerName n = Ok (Some n)) ∧
  (normalizePlayerName a = normalizePlayerName b ↔
   ∃ wa wb, utf8to16 a = Some wa ∧ utf8to16 b = Some wb ∧ wstrToLower wa = wstrToLower wb).
Proof.
  intros Ha Hb.
  destruct (normalizePlayerName_plain a Ha) as (wa & n & Hua & Hba & Hna & Hta & Hpn).
  destruct (normalizePlayerName_plain b Hb) as (wb & m & Hub & Hbb & Hnb & Htb & _).
  rewrite Hna, Hnb. split.
  - exists n. split; [done|]. destruct (normalizePlayerName_plain n Hpn) as (wn & n' & Hun & _ & Hnn & Htn & _).
    rewrite (text_utf8to16 _ _ Hta (capitalised_basic _ Hba)) in Hun. injection Hun as <-.
    rewrite capitalised_twice in Htn by done. by rewrite Hnn, (text_unique _ _ _ Htn Hta).
  - split.
    + intros [= <-]. exists wa, wb. split; [done|]. split; [done|]. apply capitalised_inj; [done..|].
      pose proof (text_utf8to16 _ _ Hta (capitalised_basic _ Hba)) as E.
      rewrite (text_utf8to16 _ _ Htb (capitalised_basic _ Hbb)) in E. by injection E.
    + rewrite Hua, Hub. intros (? & ? & [= <-] & [= <-] & E). apply capitalised_inj in E; [|done..].
      rewrite E in Hta. by rewrite (text_unique _ _ _ Hta Htb).
Qed.
Lemma player_names_witness :
  (* sharp s and small e acute; its capitals *)
  let a := [0xC3; 0x9F; 0xC3; 0xA9] in let b := [0xE1; 0xBA; 0x9E; 0xC3; 0x89] in
  plain_name a = true ∧ plain_name b = true ∧
  ((∃ n, normalizePlayerName a = Ok (Some n) ∧ normalizePlayerName n = Ok (Some n)) ∧
   (normalizePlayerName a = normalizePlayerName b ↔
    ∃ wa wb, utf8to16 a = Some wa ∧ utf8to16 b = Some wb ∧ wstrToLower wa = wstrToLower wb)).
Proof. split; [reflexivity|]. split; [reflexivity|]. apply player_names; reflexivity. Defined.

End Utf8.
