(* ===== verification/Channel.v ===== *)
(** * Channel: chat channels.

    [game/Chat/Channels/Channel.{h,cpp}]: who is on a channel and with which rights, its owner,
    password and bans, and what its members are told.  Channels are objects of the heap that
    managers (ChannelMgr.v) and players point to; [World] holds all of them.  A local
    [WorldPacket] is its opcode and the bytes that the stream operators append to it
    (ByteBufferStream.v).  What players and the configuration answer during a call are [Facts]. *)
From S2P Require Import Prelude.
From stdpp Require Import strings gmap sets list sorting.
From S2P Require Import Bits ByteBuffer ObjectGuid FieldsText.
Open Scope string_scope.
Open Scope list_scope.
Open Scope Z_scope.

Module Channel.

(** ** Constants *)

Definition CHAT_JOINED_NOTICE : Z := 0x00.
Definition CHAT_LEFT_NOTICE : Z := 0x01.
Definition CHAT_YOU_JOINED_NOTICE : Z := 0x02.
Definition CHAT_YOU_LEFT_NOTICE : Z := 0x03.
Definition CHAT_WRONG_PASSWORD_NOTICE : Z := 0x04.
Definition CHAT_NOT_MEMBER_NOTICE : Z := 0x05.
Definition CHAT_NOT_MODERATOR_NOTICE : Z := 0x06.
Definition CHAT_PASSWORD_CHANGED_NOTICE : Z := 0x07.
Definition CHAT_OWNER_CHANGED_NOTICE : Z := 0x08.
Definition CHAT_PLAYER_NOT_FOUND_NOTICE : Z := 0x09.
Definition CHAT_NOT_OWNER_NOTICE : Z := 0x0A.
Definition CHAT_CHANNEL_OWNER_NOTICE : Z := 0x0B.
Definition CHAT_MODE_CHANGE_NOTICE : Z := 0x0C.
Definition CHAT_ANNOUNCEMENTS_ON_NOTICE : Z := 0x0D.
Definition CHAT_ANNOUNCEMENTS_OFF_NOTICE : Z := 0x0E.
Definition CHAT_MUTED_NOTICE : Z := 0x11.
Definition CHAT_PLAYER_KICKED_NOTICE : Z := 0x12.
Definition CHAT_BANNED_NOTICE : Z := 0x13.
Definition CHAT_PLAYER_BANNED_NOTICE : Z := 0x14.
Definition CHAT_PLAYER_UNBANNED_NOTICE : Z := 0x15.
Definition CHAT_PLAYER_ALREADY_MEMBER_NOTICE : Z := 0x17.
Definition CHAT_INVITE_NOTICE : Z := 0x18.
Definition CHAT_INVITE_WRONG_FACTION_NOTICE : Z := 0x19.
Definition CHAT_PLAYER_INVITED_NOTICE : Z := 0x1D.
Definition CHAT_PLAYER_INVITE_BANNED_NOTICE : Z := 0x1E.
Definition CHAT_NOT_IN_LFG_NOTICE : Z := 0x21.

Definition CHANNEL_FLAG_CUSTOM : Z := 0x01.
Definition CHANNEL_FLAG_TRADE : Z := 0x04.
Definition CHANNEL_FLAG_NOT_LFG : Z := 0x08.
Definition CHANNEL_FLAG_GENERAL : Z := 0x10.
Definition CHANNEL_FLAG_CITY : Z := 0x20.
Definition CHANNEL_FLAG_LFG : Z := 0x40.

Definition CHANNEL_DBC_FLAG_ZONE_DEP : Z := 0x00002.
Definition CHANNEL_DBC_FLAG_GLOBAL : Z := 0x00004.
Definition CHANNEL_DBC_FLAG_TRADE : Z := 0x00008.
Definition CHANNEL_DBC_FLAG_CITY_ONLY : Z := 0x00010.
Definition CHANNEL_DBC_FLAG_CITY_ONLY2 : Z := 0x00020.
Definition CHANNEL_DBC_FLAG_GUILD_REQ : Z := 0x20000.
Definition CHANNEL_DBC_FLAG_LFG : Z := 0x40000.

Definition MEMBER_FLAG_NONE : Z := 0x00.
Definition MEMBER_FLAG_OWNER : Z := 0x01.
Definition MEMBER_FLAG_MODERATOR : Z := 0x02.
Definition MEMBER_FLAG_MUTED : Z := 0x08.

Definition SMSG_CHANNEL_NOTIFY : Z := 0x0825.
Definition SMSG_CHANNEL_LIST : Z := 0x052C.
Definition SMSG_MESSAGECHAT : Z := 0x0699.
Definition SMSG_USERLIST_ADD : Z := 0x13C5.
Definition SMSG_USERLIST_REMOVE : Z := 0x0899.
Definition SMSG_USERLIST_UPDATE : Z := 0x0AC5.
Definition CHAT_MSG_CHANNEL : Z := 0x11.
Definition LANG_UNIVERSAL : Z := 0.
Definition SEC_PLAYER : Z := 0.

Definition RBAC_PERM_TWO_SIDE_INTERACTION_CHANNEL : Z := 26.
Definition RBAC_PERM_WHO_SEE_ALL_SEC_LEVELS : Z := 35.
Definition RBAC_PERM_SILENTLY_JOIN_CHANNEL : Z := 45.
Definition RBAC_PERM_CHANGE_CHANNEL_NOT_MODERATOR : Z := 46.

(** ** Members *)

Record PlayerInfo : Type := mkPlayerInfo { player : Z; flags : Z }.
#[global] Instance PlayerInfo_eq_dec : EqDecision PlayerInfo.
Proof. solve_decision. Defined.

Definition has (flags flag : Z) : bool := z2b (Z.land flags flag).
(** [if (state) flags |= flag; else flags &= ~flag] *)
Definition set_flag (flag : Z) (state : bool) (i : PlayerInfo) : PlayerInfo :=
  mkPlayerInfo (player i) (if state then Z.lor (flags i) flag else Z.land (flags i) (u8 (Z.lnot flag))).

Definition IsOwner (i : PlayerInfo) : bool := has (flags i) MEMBER_FLAG_OWNER.
Definition IsModerator (i : PlayerInfo) : bool := has (flags i) MEMBER_FLAG_MODERATOR.
Definition IsMuted (i : PlayerInfo) : bool := has (flags i) MEMBER_FLAG_MUTED.
Definition info_SetOwner : bool → PlayerInfo → PlayerInfo := set_flag MEMBER_FLAG_OWNER.
Definition info_SetModerator : bool → PlayerInfo → PlayerInfo := set_flag MEMBER_FLAG_MODERATOR.
Definition info_SetMuted : bool → PlayerInfo → PlayerInfo := set_flag MEMBER_FLAG_MUTED.

(** What [std::map::operator[]] puts at a key that is not there. *)
Definition fresh_info : PlayerInfo := mkPlayerInfo 0 0.

(** ** Channels *)

Record Channel : Type := mkChannel {
  _announce : bool; _ownership : bool; _IsSaved : bool;
  _flags : Z; _channelId : Z; _Team : Z; _ownerGUID : Z;
  _name : list Z; _password : list Z;
  playersStore : gmap Z PlayerInfo;
  bannedStore : gset Z }.

Definition set_announce (x : bool) (c : Channel) : Channel :=
  mkChannel x (_ownership c) (_IsSaved c) (_flags c) (_channelId c) (_Team c) (_ownerGUID c) (_name c) (_password c) (playersStore c) (bannedStore c).
Definition SetOwnership (x : bool) (c : Channel) : Channel :=
  mkChannel (_announce c) x (_IsSaved c) (_flags c) (_channelId c) (_Team c) (_ownerGUID c) (_name c) (_password c) (playersStore c) (bannedStore c).
Definition set_ownerGUID (x : Z) (c : Channel) : Channel :=
  mkChannel (_announce c) (_ownership c) (_IsSaved c) (_flags c) (_channelId c) (_Team c) x (_name c) (_password c) (playersStore c) (bannedStore c).
Definition set_password (x : list Z) (c : Channel) : Channel :=
  mkChannel (_announce c) (_ownership c) (_IsSaved c) (_flags c) (_channelId c) (_Team c) (_ownerGUID c) (_name c) x (playersStore c) (bannedStore c).
Definition set_players (x : gmap Z PlayerInfo) (c : Channel) : Channel :=
  mkChannel (_announce c) (_ownership c) (_IsSaved c) (_flags c) (_channelId c) (_Team c) (_ownerGUID c) (_name c) (_password c) x (bannedStore c).
Definition set_banned (x : gset Z) (c : Channel) : Channel :=
  mkChannel (_announce c) (_ownership c) (_IsSaved c) (_flags c) (_channelId c) (_Team c) (_ownerGUID c) (_name c) (_password c) (playersStore c) x.

Definition IsConstant (c : Channel) : bool := negb (_channelId c =? 0).
Definition HasFlag (c : Channel) (flag : Z) : bool := has (_flags c) flag.
Definition IsLFG (c : Channel) : bool := HasFlag c CHANNEL_FLAG_LFG.
Definition GetNumPlayers (c : Channel) : nat := size (playersStore c).
Definition IsOn (c : Channel) (who : Z) : bool := bool_decide (is_Some (playersStore c !! who)).
Definition IsBanned (c : Channel) (guid : Z) : bool := bool_decide (guid ∈ bannedStore c).
Definition GetPlayerFlags (c : Channel) (guid : Z) : Z :=
  match playersStore c !! guid with Some i => flags i | None => 0 end.

(** The keys of a [std::map] or [std::set], in order. *)
Definition ascending (s : gset Z) : list Z := merge_sort Z.le (elements s).
Definition members (c : Channel) : list Z := ascending (dom (playersStore c)).

(** ** The world around channels *)

Definition packet : Type := Z * list Z.

Inductive statement : Type :=
| CHAR_INS_CHANNEL (name : list Z) (team : Z)
| CHAR_UPD_CHANNEL (announce ownership : bool) (password bannedList name : list Z) (team : Z)
| CHAR_UPD_CHANNEL_USAGE (name : list Z) (team : Z)
| CHAR_UPD_CHANNEL_OWNERSHIP (ownership : bool) (name : list Z)
| CHAR_DEL_OLD_CHANNELS (seconds : Z).

Inductive call : Type :=
| SendPacket (guid : Z) (p : packet)
| Execute (st : statement)
| SendNotification (guid text value : Z)
| CHAR_SEL_CHANNEL (name : list Z) (team : Z).

(** A manager: the addresses of its channels, by lower-case name. *)
Record ChannelMgr : Type := mkChannelMgr { channels : gmap (list Z) Z; team : Z }.

Record World : Type := mkWorld {
  heap : gmap Z Channel;
  next : Z;                                    (* addresses from here on are free *)
  alliance : ChannelMgr;
  horde : ChannelMgr;
  m_channels : gmap Z (list Z);                (* of every player that is logged in *)
  calls : list call }.                         (* newest first *)

Definition set_heap (x : gmap Z Channel) (s : World) : World := mkWorld x (next s) (alliance s) (horde s) (m_channels s) (calls s).
Definition set_alliance (x : ChannelMgr) (s : World) : World := mkWorld (heap s) (next s) x (horde s) (m_channels s) (calls s).
Definition set_horde (x : ChannelMgr) (s : World) : World := mkWorld (heap s) (next s) (alliance s) x (m_channels s) (calls s).
Definition set_m_channels (x : gmap Z (list Z)) (s : World) : World := mkWorld (heap s) (next s) (alliance s) (horde s) x (calls s).
Definition record_call (c : call) (s : World) : World :=
  mkWorld (heap s) (next s) (alliance s) (horde s) (m_channels s) (c :: calls s).

(** A row of [CHAR_SEL_CHANNEL]; the list of bans may be null. *)
Record ChannelRow : Type := mkChannelRow {
  row_announce : bool; row_ownership : bool; row_password : list Z; row_bannedList : option (list Z) }.

(** What players, their sessions and the configuration answer during a call. *)
Record Facts : Type := mkFacts {
  GetPlayers : list Z;                         (* the order of the hash map of players *)
  IsInWorld : Z → bool;
  GetName : Z → list Z;
  GetTeam : Z → Z;
  HasPermission : Z → Z → bool;
  GetSecurity : Z → Z;
  HasIgnore : Z → Z → bool;                    (* the second by its low part *)
  GetGroup : Z → bool;
  GetGuildId : Z → Z;
  isGMVisible : Z → bool;
  IsVisibleGloballyFor : Z → Z → bool;
  GetChatTag : Z → Z;
  GetZoneId : Z → Z;
  getLevel : Z → Z;
  PlayerLoading : Z → bool;
  IsBeingTeleportedFar : Z → bool;
  GetPlayerNameByGUID : Z → option (list Z);
  CONFIG_ALLOW_TWO_SIDE_INTERACTION_CHANNEL : bool;
  CONFIG_PRESERVE_CUSTOM_CHANNELS : bool;
  CONFIG_PRESERVE_CUSTOM_CHANNEL_DURATION : Z;
  CONFIG_RESTRICTED_LFG_CHANNEL : bool;
  CONFIG_GM_LEVEL_IN_WHO_LIST : Z;
  CONFIG_CHAT_CHANNEL_LEVEL_REQ : Z;
  select_channel : list call → list Z → Z → option ChannelRow }.

Definition emit (c : call) : X World unit := modifyX (record_call c).

(** A pointer to a channel is followed. *)
Definition chan (c : Z) : X World Channel :=
  s ← getX; match heap s !! c with Some ch => mret ch | None => throwX UndefinedBehaviour end.
Definition update (c : Z) (f : Channel → Channel) : X World unit :=
  ch ← chan c; modifyX (λ s, set_heap (<[c := f ch]> (heap s)) s).

(** [playersStore[guid]], read and changed. *)
Definition at_key (c guid : Z) : X World PlayerInfo :=
  ch ← chan c;
  match playersStore ch !! guid with
  | Some i => mret i
  | None => update c (λ ch, set_players (<[guid := fresh_info]> (playersStore ch)) ch);; mret fresh_info
  end.
Definition change_at (c guid : Z) (f : PlayerInfo → PlayerInfo) : X World unit :=
  i ← at_key c guid; update c (λ ch, set_players (<[guid := f i]> (playersStore ch)) ch).

(** The list of a player's channels. *)
Definition change_channels (p : Z) (f : list Z → list Z) : X World unit :=
  s ← getX;
  match m_channels s !! p with
  | Some l => modifyX (set_m_channels (<[p := f l]> (m_channels s)))
  | None => throwX UndefinedBehaviour
  end.
Definition JoinedChannel (p c : Z) : X World unit := change_channels p (λ l, l ++ [c]).
Definition LeftChannel (p c : Z) : X World unit := change_channels p (filter (λ c', c' ≠ c)).

Section Channel.
Context (F : Facts).

Definition FindPlayer (s : World) (guid : Z) : bool := bool_decide (is_Some (m_channels s !! guid)) && IsInWorld F guid.

(** [::tolower] of the C locale *)
Definition tolower (c : Z) : Z := if (65 <=? c) && (c <=? 90) then c + 32 else c.
Definition FindPlayerByName (s : World) (name : list Z) : option Z :=
  head (filter (λ g, FindPlayer s g && bool_decide (tolower <$> GetName F g = tolower <$> name) = true) (GetPlayers F)).

(** ** Packets *)

Definition uint8 (v : Z) : list Z := le_bytes 1 v.
Definition uint32 (v : Z) : list Z := le_bytes 4 v.
Definition uint64 (v : Z) : list Z := le_bytes 8 v.
Definition str (s : list Z) : list Z := s ++ [0].
Definition bytes_of (s : string) : list Z :=
  (λ c, Z.of_nat (Ascii.nat_of_ascii c)) <$> String.list_ascii_of_string s.

Definition MakeNotifyPacket (ch : Channel) (notify_type : Z) (rest : list Z) : packet :=
  (SMSG_CHANNEL_NOTIFY, uint8 notify_type ++ str (_name ch) ++ rest).

Definition MakeJoined ch guid := MakeNotifyPacket ch CHAT_JOINED_NOTICE (uint64 guid).
Definition MakeLeft ch guid := MakeNotifyPacket ch CHAT_LEFT_NOTICE (uint64 guid).
Definition MakeYouJoined ch := MakeNotifyPacket ch CHAT_YOU_JOINED_NOTICE (uint8 (_flags ch) ++ uint32 (_channelId ch) ++ uint32 0).
Definition MakeYouLeft ch := MakeNotifyPacket ch CHAT_YOU_LEFT_NOTICE (uint32 (_channelId ch) ++ uint8 (if IsConstant ch then 1 else 0)).
Definition MakeWrongPassword ch := MakeNotifyPacket ch CHAT_WRONG_PASSWORD_NOTICE [].
Definition MakeNotMember ch := MakeNotifyPacket ch CHAT_NOT_MEMBER_NOTICE [].
Definition MakeNotModerator ch := MakeNotifyPacket ch CHAT_NOT_MODERATOR_NOTICE [].
Definition MakePasswordChanged ch guid := MakeNotifyPacket ch CHAT_PASSWORD_CHANGED_NOTICE (uint64 guid).
Definition MakeOwnerChanged ch guid := MakeNotifyPacket ch CHAT_OWNER_CHANGED_NOTICE (uint64 guid).
Definition MakePlayerNotFound ch name := MakeNotifyPacket ch CHAT_PLAYER_NOT_FOUND_NOTICE (str name).
Definition MakeNotOwner ch := MakeNotifyPacket ch CHAT_NOT_OWNER_NOTICE [].
Definition MakeChannelOwner ch :=
  let name := match GetPlayerNameByGUID F (_ownerGUID ch) with
              | Some (c :: name) => c :: name
              | _ => bytes_of "PLAYER_NOT_FOUND"
              end in
  MakeNotifyPacket ch CHAT_CHANNEL_OWNER_NOTICE
    (str (if IsConstant ch || (_ownerGUID ch =? 0) then bytes_of "Nobody" else name)).
Definition MakeModeChange ch guid oldflags :=
  MakeNotifyPacket ch CHAT_MODE_CHANGE_NOTICE (uint64 guid ++ uint8 oldflags ++ uint8 (GetPlayerFlags ch guid)).
Definition MakeAnnouncementsOn ch guid := MakeNotifyPacket ch CHAT_ANNOUNCEMENTS_ON_NOTICE (uint64 guid).
Definition MakeAnnouncementsOff ch guid := MakeNotifyPacket ch CHAT_ANNOUNCEMENTS_OFF_NOTICE (uint64 guid).
Definition MakeMuted ch := MakeNotifyPacket ch CHAT_MUTED_NOTICE [].
Definition MakePlayerKicked ch bad good := MakeNotifyPacket ch CHAT_PLAYER_KICKED_NOTICE (uint64 bad ++ uint64 good).
Definition MakeBanned ch := MakeNotifyPacket ch CHAT_BANNED_NOTICE [].
Definition MakePlayerBanned ch bad good := MakeNotifyPacket ch CHAT_PLAYER_BANNED_NOTICE (uint64 bad ++ uint64 good).
Definition MakePlayerUnbanned ch bad good := MakeNotifyPacket ch CHAT_PLAYER_UNBANNED_NOTICE (uint64 bad ++ uint64 good).
Definition MakePlayerAlreadyMember ch guid := MakeNotifyPacket ch CHAT_PLAYER_ALREADY_MEMBER_NOTICE (uint64 guid).
Definition MakeInvite ch guid := MakeNotifyPacket ch CHAT_INVITE_NOTICE (uint64 guid).
Definition MakeInviteWrongFaction ch := MakeNotifyPacket ch CHAT_INVITE_WRONG_FACTION_NOTICE [].
Definition MakePlayerInvited ch name := MakeNotifyPacket ch CHAT_PLAYER_INVITED_NOTICE (str name).
Definition MakePlayerInviteBanned ch name := MakeNotifyPacket ch CHAT_PLAYER_INVITE_BANNED_NOTICE (str name).
Definition MakeNotInLfg ch := MakeNotifyPacket ch CHAT_NOT_IN_LFG_NOTICE [].

(** ** Sending *)

Definition SendToOne (data : packet) (who : Z) : X World unit :=
  s ← getX; when FindPlayer s who do emit (SendPacket who data).

Fixpoint send_loop (l : list Z) (data : packet) (to : Z → bool) : X World unit :=
  match l with
  | [] => mret tt
  | g :: l => s ← getX; (when FindPlayer s g && to g do emit (SendPacket g data));; send_loop l data to
  end.

(** [guid] is a speaker, whom members may ignore, or 0. *)
Definition SendToAll (c : Z) (data : packet) (guid : Z) : X World unit :=
  ch ← chan c; send_loop (members ch) data (λ g, (guid =? 0) || negb (HasIgnore F g (HighGuid.GUID_LOPART guid))).
Definition SendToAllButOne (c : Z) (data : packet) (who : Z) : X World unit :=
  ch ← chan c; send_loop (members ch) data (λ g, negb (g =? who)).

Definition JoinNotify (c guid : Z) : X World unit :=
  ch ← chan c;
  let body := uint64 guid ++ uint8 (GetPlayerFlags ch guid) ++ uint8 (_flags ch) ++
              uint32 (Z.of_nat (GetNumPlayers ch)) ++ str (_name ch) in
  if IsConstant ch then SendToAllButOne c (SMSG_USERLIST_ADD, body) guid
  else SendToAll c (SMSG_USERLIST_UPDATE, body) 0.

Definition LeaveNotify (c guid : Z) : X World unit :=
  ch ← chan c;
  let body := uint64 guid ++ uint8 (_flags ch) ++ uint32 (Z.of_nat (GetNumPlayers ch)) ++ str (_name ch) in
  if IsConstant ch then SendToAllButOne c (SMSG_USERLIST_REMOVE, body) guid
  else SendToAll c (SMSG_USERLIST_REMOVE, body) 0.

(** ** The database *)

(** [ostream << uint64]: at most twenty digits. *)
Definition decimal64 (z : Z) : list Z := decimal_loop 20 z [].
Definition ban_text (banned : gset Z) : list Z := concat ((λ g, decimal64 g ++ [32]) <$> ascending banned).

Definition UpdateChannelInDB (c : Z) : X World unit :=
  ch ← chan c;
  when _IsSaved ch do emit (Execute (CHAR_UPD_CHANNEL (_announce ch) (_ownership ch) (_password ch)
                                       (ban_text (bannedStore ch)) (_name ch) (_Team ch))).
Definition UpdateChannelUseageInDB (c : Z) : X World unit :=
  ch ← chan c; emit (Execute (CHAR_UPD_CHANNEL_USAGE (_name ch) (_Team ch))).
Definition DAY : Z := 86400.
Definition CleanOldChannelsInDB : X World unit :=
  when 0 <? u32 (CONFIG_PRESERVE_CUSTOM_CHANNEL_DURATION F) do
    emit (Execute (CHAR_DEL_OLD_CHANNELS (u32 (CONFIG_PRESERVE_CUSTOM_CHANNEL_DURATION F * DAY)))).

(** The bans of a saved channel. *)
Fixpoint load_bans (tokens : list (list Z)) (banned : gset Z) : result (gset Z) :=
  match tokens with
  | [] => Ok banned
  | token :: tokens =>
    v ← atol token;
    load_bans tokens (if u64 v =? 0 then banned else {[u64 v]} ∪ banned)
  end.

(** The constructor, given the entry of the channel in the client's data (its flags), if there
    is one. *)
Definition builtin_flags (dbc_flags : Z) : Z :=
  let f := CHANNEL_FLAG_GENERAL in
  let f := if has dbc_flags CHANNEL_DBC_FLAG_TRADE then Z.lor f CHANNEL_FLAG_TRADE else f in
  let f := if has dbc_flags CHANNEL_DBC_FLAG_CITY_ONLY2 then Z.lor f CHANNEL_FLAG_CITY else f in
  if has dbc_flags CHANNEL_DBC_FLAG_LFG then Z.lor f CHANNEL_FLAG_LFG else Z.lor f CHANNEL_FLAG_NOT_LFG.

Definition new_Channel (entry : option Z) (name : list Z) (channelId Team : Z) : X World Channel :=
  match entry with
  | Some dbc_flags => mret (mkChannel false false false (builtin_flags dbc_flags) channelId Team 0 name [] ∅ ∅)
  | None =>
    let ch := mkChannel true true false CHANNEL_FLAG_CUSTOM channelId Team 0 name [] ∅ ∅ in
    if CONFIG_PRESERVE_CUSTOM_CHANNELS F then
      s ← getX;
      emit (CHAR_SEL_CHANNEL name Team);;
      match select_channel F (calls s) name Team with
      | Some row =>
        banned ← liftX (match row_bannedList row with
                        | Some text => tokens ← Tokenizer text 32; load_bans tokens ∅
                        | None => Ok ∅
                        end);
        mret (mkChannel (row_announce row) (row_ownership row) true CHANNEL_FLAG_CUSTOM channelId Team 0 name
                (row_password row) ∅ banned)
      | None =>
        emit (Execute (CHAR_INS_CHANNEL name Team));;
        mret (mkChannel true true true CHANNEL_FLAG_CUSTOM channelId Team 0 name [] ∅ ∅)
      end
    else mret ch
  end.

(** ** Ownership and modes *)

Definition SetOwner (c guid : Z) (exclaim : bool) : X World unit :=
  ch ← chan c;
  (when negb (_ownerGUID ch =? 0) do
     update c (λ ch, set_players (alter (info_SetOwner false) (_ownerGUID ch) (playersStore ch)) ch));;
  update c (set_ownerGUID guid);;
  when negb (guid =? 0) do
    (ch ← chan c;
     let oldFlag := GetPlayerFlags ch guid in
     change_at c guid (info_SetModerator true);;
     change_at c guid (info_SetOwner true);;
     ch ← chan c;
     SendToAll c (MakeModeChange ch guid oldFlag) 0;;
     (when exclaim do SendToAll c (MakeOwnerChanged ch guid) 0);;
     UpdateChannelInDB c).

Definition SetModerator (c guid : Z) (set : bool) : X World unit :=
  i ← at_key c guid;
  when negb (Bool.eqb (IsModerator i) set) do
    (ch ← chan c;
     let oldFlag := GetPlayerFlags ch guid in
     change_at c guid (info_SetModerator set);;
     ch ← chan c;
     SendToAll c (MakeModeChange ch guid oldFlag) 0).

Definition SetMute (c guid : Z) (set : bool) : X World unit :=
  i ← at_key c guid;
  when negb (Bool.eqb (IsMuted i) set) do
    (ch ← chan c;
     let oldFlag := GetPlayerFlags ch guid in
     change_at c guid (info_SetMuted set);;
     ch ← chan c;
     SendToAll c (MakeModeChange ch guid oldFlag) 0).

(** ** Joining and leaving *)

Definition JoinChannel (c p : Z) (pass : list Z) : X World unit :=
  ch ← chan c;
  if IsOn ch p then when negb (IsConstant ch) do SendToOne (MakePlayerAlreadyMember ch p) p
  else if IsBanned ch p then SendToOne (MakeBanned ch) p
  else if negb (bool_decide (_password ch = [])) && negb (bool_decide (pass = _password ch)) then
    SendToOne (MakeWrongPassword ch) p
  else if HasFlag ch CHANNEL_FLAG_LFG && CONFIG_RESTRICTED_LFG_CHANNEL F && (GetSecurity F p =? SEC_PLAYER) && GetGroup F p
  then SendToOne (MakeNotInLfg ch) p
  else
    JoinedChannel p c;;
    (when _announce ch && negb (HasPermission F p RBAC_PERM_SILENTLY_JOIN_CHANNEL) do SendToAll c (MakeJoined ch p) 0);;
    update c (λ ch, set_players (<[p := mkPlayerInfo p MEMBER_FLAG_NONE]> (playersStore ch)) ch);;
    SendToOne (MakeYouJoined ch) p;;
    JoinNotify c p;;
    when negb (IsConstant ch) do
      (ch ← chan c;
       (when negb (GetNumPlayers ch =? 0)%nat do UpdateChannelUseageInDB c);;
       when (_ownerGUID ch =? 0) && _ownership ch do
         (SetOwner c p (1 <? GetNumPlayers ch)%nat;;
          change_at c p (info_SetModerator true))).

Definition LeaveChannel (c p : Z) (send : bool) : X World unit :=
  ch ← chan c;
  if negb (IsOn ch p) then when send do SendToOne (MakeNotMember ch) p
  else
    (when send do (SendToOne (MakeYouLeft ch) p;; LeftChannel p c));;
    i ← at_key c p;
    let changeowner := IsOwner i in
    update c (λ ch, set_players (delete p (playersStore ch)) ch);;
    (when _announce ch && negb (HasPermission F p RBAC_PERM_SILENTLY_JOIN_CHANNEL) do SendToAll c (MakeLeft ch p) 0);;
    LeaveNotify c p;;
    when negb (IsConstant ch) do
      (UpdateChannelUseageInDB c;;
       ch ← chan c;
       match head (members ch) with
       | Some first =>
         when changeowner && _ownership ch do
           (i ← at_key c first;
            let newowner := player i in
            change_at c newowner (info_SetModerator true);;
            SetOwner c newowner true)
       | None => mret tt
       end).

(** ** Commands of members *)

(** The checks that the commands begin with. *)
Definition as_member (c p : Z) (m : Channel → X World unit) : X World unit :=
  ch ← chan c; if IsOn ch p then m ch else SendToOne (MakeNotMember ch) p.
Definition as_moderator (c p : Z) (m : Channel → X World unit) : X World unit :=
  as_member c p (λ ch,
    i ← at_key c p;
    if negb (IsModerator i) && negb (HasPermission F p RBAC_PERM_CHANGE_CHANNEL_NOT_MODERATOR)
    then SendToOne (MakeNotModerator ch) p else m ch).

Definition KickOrBan (c p : Z) (badname : list Z) (ban : bool) : X World unit :=
  as_moderator c p (λ ch,
    s ← getX;
    match FindPlayerByName s badname with
    | None => SendToOne (MakePlayerNotFound ch badname) p
    | Some victim =>
      if (victim =? 0) || negb (IsOn ch victim) then SendToOne (MakePlayerNotFound ch badname) p
      else
        let changeowner := _ownerGUID ch =? victim in
        if negb (HasPermission F p RBAC_PERM_CHANGE_CHANNEL_NOT_MODERATOR) && changeowner && negb (p =? _ownerGUID ch)
        then SendToOne (MakeNotOwner ch) p
        else
          let silent := HasPermission F p RBAC_PERM_SILENTLY_JOIN_CHANNEL in
          (if ban && negb (IsBanned ch victim) then
             update c (λ ch, set_banned ({[victim]} ∪ bannedStore ch) ch);;
             UpdateChannelInDB c;;
             when negb silent do SendToAll c (MakePlayerBanned ch victim p) 0
           else when negb silent do SendToAll c (MakePlayerKicked ch victim p) 0);;
          update c (λ ch, set_players (delete victim (playersStore ch)) ch);;
          LeftChannel victim c;;
          ch ← chan c;
          when changeowner && _ownership ch && negb (GetNumPlayers ch =? 0)%nat do
            (change_at c p (info_SetModerator true);;
             SetOwner c p true)
    end).
Definition Kick (c p : Z) (badname : list Z) : X World unit := KickOrBan c p badname false.
Definition Ban (c p : Z) (badname : list Z) : X World unit := KickOrBan c p badname true.

Definition UnBan (c p : Z) (badname : list Z) : X World unit :=
  as_moderator c p (λ ch,
    s ← getX;
    let victim := default 0 (FindPlayerByName s badname) in
    if (victim =? 0) || negb (IsBanned ch victim) then SendToOne (MakePlayerNotFound ch badname) p
    else
      update c (λ ch, set_banned (bannedStore ch ∖ {[victim]}) ch);;
      SendToAll c (MakePlayerUnbanned ch victim p) 0;;
      UpdateChannelInDB c).

Definition Password (c p : Z) (pass : list Z) : X World unit :=
  as_moderator c p (λ ch,
    update c (set_password pass);;
    SendToAll c (MakePasswordChanged ch p) 0;;
    UpdateChannelInDB c).

(** [player->GetTeam() != newp->GetTeam() && ...] *)
Definition other_side (p q : Z) : bool :=
  negb (GetTeam F p =? GetTeam F q) &&
  (negb (HasPermission F p RBAC_PERM_TWO_SIDE_INTERACTION_CHANNEL)
   || negb (HasPermission F q RBAC_PERM_TWO_SIDE_INTERACTION_CHANNEL)).

Definition SetMode (c p : Z) (p2n : list Z) (mod_ set : bool) : X World unit :=
  as_moderator c p (λ ch,
    if (p =? _ownerGUID ch) && bool_decide (p2n = GetName F p) && mod_ then mret tt
    else
      s ← getX;
      match FindPlayerByName s p2n with
      | None => SendToOne (MakePlayerNotFound ch p2n) p
      | Some victim =>
        if (victim =? 0) || negb (IsOn ch victim) || other_side p victim then SendToOne (MakePlayerNotFound ch p2n) p
        else if (_ownerGUID ch =? victim) && negb (_ownerGUID ch =? p) then SendToOne (MakeNotOwner ch) p
        else if mod_ then SetModerator c victim set else SetMute c victim set
      end).

Definition SetOwner_player (c p : Z) (newname : list Z) : X World unit :=
  as_member c p (λ ch,
    if negb (HasPermission F p RBAC_PERM_CHANGE_CHANNEL_NOT_MODERATOR) && negb (p =? _ownerGUID ch)
    then SendToOne (MakeNotOwner ch) p
    else
      s ← getX;
      match FindPlayerByName s newname with
      | None => SendToOne (MakePlayerNotFound ch newname) p
      | Some victim =>
        if (victim =? 0) || negb (IsOn ch victim) || other_side p victim then SendToOne (MakePlayerNotFound ch newname) p
        else
          change_at c victim (info_SetModerator true);;
          SetOwner c victim true
      end).

Definition SendWhoOwner (c guid : Z) : X World unit :=
  ch ← chan c; SendToOne (if IsOn ch guid then MakeChannelOwner ch else MakeNotMember ch) guid.

Definition Announce (c p : Z) : X World unit :=
  as_moderator c p (λ ch,
    update c (λ ch, set_announce (negb (_announce ch)) ch);;
    SendToAll c (if negb (_announce ch) then MakeAnnouncementsOn ch p else MakeAnnouncementsOff ch p) 0;;
    UpdateChannelInDB c).

(** The members that [p] may see, with their flags. *)
Fixpoint list_loop (s : World) (ch : Channel) (p : Z) (l : list Z) (data : list Z) (count : Z) : list Z * Z :=
  match l with
  | [] => (data, count)
  | g :: l =>
    if FindPlayer s g &&
       (HasPermission F p RBAC_PERM_WHO_SEE_ALL_SEC_LEVELS || (GetSecurity F g <=? u32 (CONFIG_GM_LEVEL_IN_WHO_LIST F))) &&
       IsVisibleGloballyFor F g p
    then list_loop s ch p l (data ++ uint64 g ++ uint8 (GetPlayerFlags ch g)) (count + 1)
    else list_loop s ch p l data count
  end.

Definition List_ (c p : Z) : X World unit :=
  as_member c p (λ ch,
    s ← getX;
    let '(data, count) := list_loop s ch p (members ch) [] 0 in
    SendToOne (SMSG_CHANNEL_LIST, uint8 1 ++ str (_name ch) ++ uint8 (_flags ch) ++ uint32 count ++ data) p).

Definition Say (c guid : Z) (what : list Z) (lang : Z) : X World unit :=
  if bool_decide (what = []) then mret tt
  else
    s ← getX;
    let chatTag := if FindPlayer s guid then GetChatTag F guid else 0 in
    let lang := if CONFIG_ALLOW_TWO_SIDE_INTERACTION_CHANNEL F then LANG_UNIVERSAL else lang in
    as_member c guid (λ ch,
      i ← at_key c guid;
      if IsMuted i then SendToOne (MakeMuted ch) guid
      else
        SendToAll c (SMSG_MESSAGECHAT,
          uint8 CHAT_MSG_CHANNEL ++ uint32 lang ++ uint64 guid ++ uint32 0 ++ str (_name ch) ++ uint64 guid ++
          uint32 (Z.of_nat (length what) + 1) ++ str what ++ uint8 chatTag) (if IsModerator i then 0 else guid)).

Definition Invite (c p : Z) (newname : list Z) : X World unit :=
  as_member c p (λ ch,
    s ← getX;
    match FindPlayerByName s newname with
    | None => SendToOne (MakePlayerNotFound ch newname) p
    | Some newp =>
      if negb (isGMVisible F newp) then SendToOne (MakePlayerNotFound ch newname) p
      else if IsBanned ch newp then SendToOne (MakePlayerInviteBanned ch newname) p
      else if other_side p newp then SendToOne (MakeInviteWrongFaction ch) p
      else if IsOn ch newp then SendToOne (MakePlayerAlreadyMember ch newp) p
      else
        (when negb (HasIgnore F newp (HighGuid.GUID_LOPART p)) do SendToOne (MakeInvite ch p) newp);;
        SendToOne (MakePlayerInvited ch (GetName F newp)) p
    end).

Definition Voice (c guid1 guid2 : Z) : X World unit := mret tt.
Definition DeVoice (c guid1 guid2 : Z) : X World unit := mret tt.

End Channel.

End Channel.
