(* ===== verification/ChannelMgr.v ===== *)
(** * ChannelMgr: the channels of each side, and what makes players join and leave.

    [game/Chat/Channels/ChannelMgr.{h,cpp}] creates and deletes the channels of Channel.v;
    [game/Handlers/ChannelHandler.cpp] has a handler for each request of a client;
    [Entities/Player/Player.cpp] moves a player between the built-in channels when he changes
    zone, and takes him off all channels when he logs out.  The client's data on channels and
    areas are [Stores]. *)
From S2P Require Import Prelude Bits ByteBuffer ObjectGuid FieldsText Utf8 Channel.
From stdpp Require Import strings gmap sets list.
Open Scope Z_scope.
Import Channel.

Module ChannelMgr.

(** ** Constants *)

Definition ALLIANCE : Z := 469.
Definition HORDE : Z := 67.
Definition AREA_FLAG_SLAVE_CAPITAL : Z := 0x00000008.
Definition AREA_FLAG_ARENA_INSTANCE : Z := 0x00010000.
Definition SMSG_CHANNEL_MEMBER_COUNT : Z := 0x6414.
Definition RBAC_PERM_SKIP_CHECK_CHAT_CHANNEL_REQ : Z := 19.
Definition LANG_CHANNEL_REQ : Z := 6606.

(** ** The client's data *)

Record ChatChannelsEntry : Type := mkChatChannelsEntry { ChannelID : Z; entry_flags : Z; pattern : list Z }.
Record AreaTableEntry : Type := mkAreaTableEntry { area_flags : Z; area_name : list Z }.

Record Stores : Type := mkStores {
  sChatChannelsStore : list (option ChatChannelsEntry);    (* by id *)
  GetAreaEntryByAreaID : Z → option AreaTableEntry;
  LANG_CHANNEL_CITY : list Z }.

Definition LookupEntry (D : Stores) (id : Z) : option ChatChannelsEntry :=
  if Z.of_nat (length (sChatChannelsStore D)) <=? id then None
  else default None (sChatChannelsStore D !! Z.to_nat id).

(** [snprintf] with one argument of type [char const*], for patterns with no other conversion. *)
Fixpoint format (pattern : list Z) (arg : option (list Z)) : result (list Z) :=
  match pattern with
  | [] => Ok []
  | c :: pattern =>
    if c =? 37 then
      match pattern with
      | d :: pattern =>
        if d =? 37 then r ← format pattern arg; mret (37 :: r)
        else if d =? 115 then
          match arg with Some s => r ← format pattern None; mret (s ++ r) | None => Throw UndefinedBehaviour end
        else Throw UndefinedBehaviour
      | [] => Throw UndefinedBehaviour
      end
    else r ← format pattern arg; mret (c :: r)
  end.
Definition snprintf (room : nat) (pattern arg : list Z) : result (list Z) :=
  r ← format pattern (Some arg); mret (take (room - 1) r).

(** ** Managers *)

Inductive side : Type := AllianceChannelMgr | HordeChannelMgr.
#[global] Instance side_eq_dec : EqDecision side.
Proof. solve_decision. Defined.

Definition mgr (m : side) (s : World) : ChannelMgr := match m with AllianceChannelMgr => alliance s | HordeChannelMgr => horde s end.
Definition set_mgr (m : side) (x : ChannelMgr) (s : World) : World :=
  match m with AllianceChannelMgr => set_alliance x s | HordeChannelMgr => set_horde x s end.

(** [Utf8toWStr(name, wname); wstrToLower(wname)] *)
Definition key (name : list Z) : result (list Z) := w ← Utf8.Utf8toWStr name; mret (Utf8.wstrToLower w).

Definition new_World : World := mkWorld ∅ 1 (mkChannelMgr ∅ 0) (mkChannelMgr ∅ 0) ∅ [].

(** The destructor, when the server stops. *)
Definition delete_ChannelMgr (m : side) : X World unit :=
  modifyX (λ s, set_heap (map_fold (λ _ c h, delete c h) (heap s) (channels (mgr m s))) s).

Section ChannelMgr.
Context (D : Stores) (F : Facts).

Definition forTeam (team : Z) : option side :=
  if CONFIG_ALLOW_TWO_SIDE_INTERACTION_CHANNEL F then Some AllianceChannelMgr
  else if team =? ALLIANCE then Some AllianceChannelMgr
  else if team =? HORDE then Some HordeChannelMgr
  else None.

Definition setTeam (m : side) (newTeam : Z) : X World unit :=
  modifyX (λ s, set_mgr m (mkChannelMgr (channels (mgr m s)) newTeam) s).

Definition GetJoinChannel (m : side) (name : list Z) (channelId : Z) : X World Z :=
  wname ← liftX (key name);
  s ← getX;
  match channels (mgr m s) !! wname with
  | Some c => mret c
  | None =>
    nchan ← new_Channel F (entry_flags <$> LookupEntry D channelId) name channelId (team (mgr m s));
    s ← getX;
    let c := next s in
    modifyX (λ s, mkWorld (<[c := nchan]> (heap s)) (c + 1) (alliance s) (horde s) (m_channels s) (calls s));;
    modifyX (λ s, set_mgr m (mkChannelMgr (<[wname := c]> (channels (mgr m s))) (team (mgr m s))) s);;
    mret c
  end.

Definition MakeNotOnPacket (name : list Z) : packet := (SMSG_CHANNEL_NOTIFY, uint8 5 ++ str name).

Definition GetChannel (m : side) (name : list Z) (p : Z) (pkt : bool) : X World (option Z) :=
  wname ← liftX (key name);
  s ← getX;
  match channels (mgr m s) !! wname with
  | None => (when pkt do emit (SendPacket p (MakeNotOnPacket name)));; mret None
  | Some c => mret (Some c)
  end.

(** Deletes a custom channel that nobody is on. *)
Definition mgr_LeftChannel (m : side) (name : list Z) : X World unit :=
  wname ← liftX (key name);
  s ← getX;
  match channels (mgr m s) !! wname with
  | None => mret tt
  | Some c =>
    ch ← chan c;
    when (GetNumPlayers ch =? 0)%nat && negb (IsConstant ch) do
      (modifyX (λ s, set_mgr m (mkChannelMgr (delete wname (channels (mgr m s))) (team (mgr m s))) s);;
       modifyX (λ s, set_heap (delete c (heap s)) s))
  end.

(** ** Players *)

Definition CanJoinConstantChannelInZone (p : Z) (channel : ChatChannelsEntry) (zone : AreaTableEntry) : bool :=
  if has (entry_flags channel) CHANNEL_DBC_FLAG_ZONE_DEP && has (area_flags zone) AREA_FLAG_ARENA_INSTANCE then false
  else if has (entry_flags channel) CHANNEL_DBC_FLAG_CITY_ONLY && negb (has (area_flags zone) AREA_FLAG_SLAVE_CAPITAL) then false
  else if has (entry_flags channel) CHANNEL_DBC_FLAG_GUILD_REQ && negb (GetGuildId F p =? 0) then false
  else true.

(** A round takes a channel off the list. *)
Fixpoint cleanup_loop (fuel : nat) (p : Z) : X World unit :=
  s ← getX;
  match m_channels s !! p, fuel with
  | None, _ => throwX UndefinedBehaviour
  | Some [], _ => mret tt
  | Some (_ :: _), O => throwX Diverges
  | Some (ch :: rest), S fuel =>
    change_channels p (λ _, rest);;
    LeaveChannel F ch p false;;
    (match forTeam (GetTeam F p) with
     | Some m => c ← chan ch; mgr_LeftChannel m (_name c)
     | None => mret tt
     end);;
    cleanup_loop fuel p
  end.
Definition CleanupChannels (p : Z) : X World unit :=
  s ← getX; cleanup_loop (length (default [] (m_channels s !! p))) p.

(** The first channel of the list with this id. *)
Fixpoint used_channel (l : list Z) (i : Z) : X World (option Z) :=
  match l with
  | [] => mret None
  | c :: l => ch ← chan c; if _channelId ch =? i then mret (Some c) else used_channel l i
  end.

(** Which channel to join and which to leave, with a packet or without; [None] is [continue]. *)
Definition choose_channels (m : side) (p : Z) (channel : ChatChannelsEntry) (current_zone : AreaTableEntry)
    (usedChannel : option Z) : X World (option (option Z * option Z * bool)) :=
  if CanJoinConstantChannelInZone p channel current_zone then
    if negb (has (entry_flags channel) CHANNEL_DBC_FLAG_GLOBAL) then
      let city := has (entry_flags channel) CHANNEL_DBC_FLAG_CITY_ONLY in
      if city && bool_decide (is_Some usedChannel) then mret None
      else
        let currentNameExt := if city then LANG_CHANNEL_CITY D else area_name current_zone in
        new_channel_name_buf ← liftX (snprintf 100 (pattern channel) currentNameExt);
        joinChannel ← GetJoinChannel m new_channel_name_buf (ChannelID channel);
        match usedChannel with
        | Some used => if negb (joinChannel =? used) then mret (Some (Some joinChannel, Some used, false))
                       else mret (Some (None, None, true))
        | None => mret (Some (Some joinChannel, None, true))
        end
    else
      joinChannel ← GetJoinChannel m (pattern channel) (ChannelID channel);
      mret (Some (Some joinChannel, None, true))
  else mret (Some (None, usedChannel, true)).

Definition local_channel (m : side) (p : Z) (current_zone : AreaTableEntry) (i : Z) : X World unit :=
  match LookupEntry D i with
  | None => mret tt
  | Some channel =>
    s ← getX;
    usedChannel ← used_channel (default [] (m_channels s !! p)) i;
    choice ← choose_channels m p channel current_zone usedChannel;
    match choice with
    | None => mret tt
    | Some (joinChannel, removeChannel, sendRemove) =>
      (match joinChannel with Some c => JoinChannel F c p [] | None => mret tt end);;
      match removeChannel with
      | Some c =>
        LeaveChannel F c p sendRemove;;
        ch ← chan c;
        let name := _name ch in
        LeftChannel p c;;
        mgr_LeftChannel m name
      | None => mret tt
      end
    end
  end.
Fixpoint local_channels (n : nat) (i : Z) (m : side) (p : Z) (current_zone : AreaTableEntry) : X World unit :=
  match n with
  | O => mret tt
  | S n => local_channel m p current_zone i;; local_channels n (i + 1) m p current_zone
  end.

Definition UpdateLocalChannels (p newZone : Z) : X World unit :=
  if PlayerLoading F p && negb (IsBeingTeleportedFar F p) then mret tt
  else
    match GetAreaEntryByAreaID D newZone with
    | None => mret tt
    | Some current_zone =>
      match forTeam (GetTeam F p) with
      | None => mret tt
      | Some m => local_channels (length (sChatChannelsStore D)) 0 m p current_zone
      end
    end.

Fixpoint leave_lfg (l : list Z) (p : Z) : X World unit :=
  match l with
  | [] => mret tt
  | c :: l => ch ← chan c; if IsLFG ch then LeaveChannel F c p true else leave_lfg l p
  end.
Definition LeaveLFGChannel (p : Z) : X World unit :=
  s ← getX; leave_lfg (default [] (m_channels s !! p)) p.

End ChannelMgr.

End ChannelMgr.
