(* ===== verification/ChannelHandler.v ===== *)
(** * ChannelHandler: what a client may ask of channels.

    [game/Handlers/ChannelHandler.cpp], the part of [ChatHandler.cpp] that speaks on a channel,
    and the events of a player's life that change his channels.  A run of the server is a
    sequence of these; what other subsystems answer may differ from one to the next. *)
From S2P Require Import Prelude Bits ByteBuffer ObjectGuid FieldsText Utf8 Channel ChannelMgr.
From stdpp Require Import strings gmap sets list.
Open Scope Z_scope.
Import Channel ChannelMgr.

Module ChannelHandler.

(** ** Requests *)

Inductive request : Type :=
| CMSG_JOIN_CHANNEL | CMSG_LEAVE_CHANNEL | CMSG_CHANNEL_LIST | CMSG_CHANNEL_PASSWORD | CMSG_CHANNEL_SET_OWNER
| CMSG_CHANNEL_OWNER | CMSG_CHANNEL_MODERATOR | CMSG_CHANNEL_UNMODERATOR | CMSG_CHANNEL_MUTE | CMSG_CHANNEL_UNMUTE
| CMSG_CHANNEL_INVITE | CMSG_CHANNEL_KICK | CMSG_CHANNEL_BAN | CMSG_CHANNEL_UNBAN | CMSG_CHANNEL_ANNOUNCEMENTS
| CMSG_CHANNEL_DISPLAY_LIST | CMSG_GET_CHANNEL_MEMBER_COUNT | CMSG_SET_CHANNEL_WATCH.

(** The payload of a packet is read from its start. *)
Definition parse {A} (m : M ByteBuffer.t A) (payload : list Z) : X World A :=
  liftX (match m (ByteBuffer.received payload) with Ok (a, _) => Ok a | Throw e => Throw e end).

Definition ReadLength (bits : nat) : M ByteBuffer.t nat := n ← ByteBuffer.ReadBits bits; mret (Z.to_nat n).

(** Two lengths and two strings, in the orders that the packets have them. *)
Definition two_strings (bits1 bits2 : nat) (swapped : bool) : M ByteBuffer.t (list Z * list Z) :=
  n1 ← ReadLength bits1;
  n2 ← ReadLength bits2;
  if swapped then
    s2 ← ByteBuffer.ReadString n2; s1 ← ByteBuffer.ReadString n1; mret (s1, s2)
  else
    s1 ← ByteBuffer.ReadString n1; s2 ← ByteBuffer.ReadString n2; mret (s1, s2).
Definition one_string (bits : nat) : M ByteBuffer.t (list Z) := n ← ReadLength bits; ByteBuffer.ReadString n.

Definition join_request : M ByteBuffer.t (Z * list Z * list Z) :=
  channelId ← ByteBuffer.shr_uint32;
  _ ← ByteBuffer.ReadBit;
  _ ← ByteBuffer.ReadBit;
  '(channelName, password) ← two_strings 8 8 false;
  mret (channelId, channelName, password).
Definition leave_request : M ByteBuffer.t (list Z) := _ ← ByteBuffer.shr_uint32; one_string 8.
Definition list_request : M ByteBuffer.t (list Z * list Z) :=
  _ ← ByteBuffer.shr_uint32;
  password ← ReadLength 7;
  _ ← ByteBuffer.ReadBit;
  length ← ReadLength 7;
  _ ← ByteBuffer.ReadBit;
  passwordName ← ByteBuffer.ReadString password;
  channelName ← ByteBuffer.ReadString length;
  mret (passwordName, channelName).

Section ChannelHandler.
Context (D : Stores) (F : Facts) (p : Z).

(** [if (ChannelMgr* cMgr = forTeam(...)) if (Channel* channel = cMgr->GetChannel(...))] *)
Definition on_channel (channelName : list Z) (f : Z → X World unit) : X World unit :=
  match forTeam F (GetTeam F p) with
  | None => mret tt
  | Some m =>
    channel ← GetChannel m channelName p true;
    match channel with Some c => f c | None => mret tt end
  end.
Definition with_target (targetName : list Z) (f : list Z → X World unit) : X World unit :=
  n ← liftX (Utf8.normalizePlayerName targetName);
  match n with None => mret tt | Some targetName => f targetName end.

Definition HandleJoinChannel (recvPacket : list Z) : X World unit :=
  '(channelId, channelName, password) ← parse join_request recvPacket;
  let join :=
    if bool_decide (channelName = []) then mret tt
    else
      match forTeam F (GetTeam F p) with
      | None => mret tt
      | Some m =>
        setTeam m (GetTeam F p);;
        channel ← GetJoinChannel D F m channelName channelId;
        JoinChannel F channel p password
      end in
  if negb (channelId =? 0) then
    match LookupEntry D channelId with
    | None => mret tt
    | Some channel =>
      match GetAreaEntryByAreaID D (GetZoneId F p) with
      | None => mret tt
      | Some zone => if CanJoinConstantChannelInZone F p channel zone then join else mret tt
      end
    end
  else join.

Definition HandleLeaveChannel (recvPacket : list Z) : X World unit :=
  channelName ← parse leave_request recvPacket;
  if bool_decide (channelName = []) then mret tt
  else
    match forTeam F (GetTeam F p) with
    | None => mret tt
    | Some m =>
      channel ← GetChannel m channelName p true;
      (match channel with Some c => LeaveChannel F c p true | None => mret tt end);;
      mgr_LeftChannel m channelName
    end.

Definition HandleChannelList (recvPacket : list Z) : X World unit :=
  '(_, channelName) ← parse list_request recvPacket;
  on_channel channelName (λ c, List_ F c p).

Definition HandleChannelPassword (recvPacket : list Z) : X World unit :=
  '(channelName, password) ← parse (two_strings 8 7 false) recvPacket;
  on_channel channelName (λ c, Password F c p password).

Definition HandleChannelSetOwner (recvPacket : list Z) : X World unit :=
  '(channelName, targetName) ← parse (two_strings 8 7 true) recvPacket;
  with_target targetName (λ targetName, on_channel channelName (λ c, SetOwner_player F c p targetName)).

Definition HandleChannelOwner (recvPacket : list Z) : X World unit :=
  channelName ← parse (one_string 8) recvPacket;
  on_channel channelName (λ c, SendWhoOwner F c p).

Definition HandleChannelModerator (recvPacket : list Z) : X World unit :=
  '(channelName, targetName) ← parse (two_strings 8 7 true) recvPacket;
  with_target targetName (λ targetName, on_channel channelName (λ c, SetMode F c p targetName true true)).

Definition HandleChannelUnmoderator (recvPacket : list Z) : X World unit :=
  '(targetName, channelName) ← parse (two_strings 7 8 true) recvPacket;
  with_target targetName (λ targetName, on_channel channelName (λ c, SetMode F c p targetName true false)).

Definition HandleChannelMute (recvPacket : list Z) : X World unit :=
  '(channelName, targetName) ← parse (two_strings 8 7 false) recvPacket;
  with_target targetName (λ targetName, on_channel channelName (λ c, SetMode F c p targetName false true)).

Definition HandleChannelUnmute (recvPacket : list Z) : X World unit :=
  '(targetName, channelName) ← parse (two_strings 8 7 false) recvPacket;
  with_target targetName (λ targetName, on_channel channelName (λ c, SetMode F c p targetName false false)).

Definition HandleChannelInvite (recvPacket : list Z) : X World unit :=
  '(targetName, channelName) ← parse (two_strings 7 8 false) recvPacket;
  with_target targetName (λ targetName, on_channel channelName (λ c, Invite F c p targetName)).

Definition HandleChannelKick (recvPacket : list Z) : X World unit :=
  '(channelName, targetName) ← parse (two_strings 8 7 false) recvPacket;
  with_target targetName (λ targetName, on_channel channelName (λ c, Kick F c p targetName)).

Definition HandleChannelBan (recvPacket : list Z) : X World unit :=
  '(channelName, targetName) ← parse (two_strings 8 7 true) recvPacket;
  with_target targetName (λ targetName, on_channel channelName (λ c, Ban F c p targetName)).

Definition HandleChannelUnban (recvPacket : list Z) : X World unit :=
  '(channelName, targetName) ← parse (two_strings 7 8 true) recvPacket;
  with_target targetName (λ targetName, on_channel channelName (λ c, UnBan F c p targetName)).

Definition HandleChannelAnnouncements (recvPacket : list Z) : X World unit :=
  channelName ← parse (one_string 8) recvPacket;
  on_channel channelName (λ c, Announce F c p).

Definition HandleChannelDisplayListQuery (recvPacket : list Z) : X World unit := HandleChannelList recvPacket.

Definition HandleGetChannelMemberCount (recvPacket : list Z) : X World unit :=
  channelName ← parse ByteBuffer.shr_string recvPacket;
  on_channel channelName (λ c,
    ch ← chan c;
    emit (SendPacket p (SMSG_CHANNEL_MEMBER_COUNT,
      str (_name ch) ++ uint8 (_flags ch) ++ uint32 (Z.of_nat (GetNumPlayers ch))))).

Definition HandleSetChannelWatch (recvPacket : list Z) : X World unit :=
  _ ← parse ByteBuffer.shr_string recvPacket; mret tt.

Definition handle (r : request) : list Z → X World unit :=
  match r with
  | CMSG_JOIN_CHANNEL => HandleJoinChannel
  | CMSG_LEAVE_CHANNEL => HandleLeaveChannel
  | CMSG_CHANNEL_LIST => HandleChannelList
  | CMSG_CHANNEL_PASSWORD => HandleChannelPassword
  | CMSG_CHANNEL_SET_OWNER => HandleChannelSetOwner
  | CMSG_CHANNEL_OWNER => HandleChannelOwner
  | CMSG_CHANNEL_MODERATOR => HandleChannelModerator
  | CMSG_CHANNEL_UNMODERATOR => HandleChannelUnmoderator
  | CMSG_CHANNEL_MUTE => HandleChannelMute
  | CMSG_CHANNEL_UNMUTE => HandleChannelUnmute
  | CMSG_CHANNEL_INVITE => HandleChannelInvite
  | CMSG_CHANNEL_KICK => HandleChannelKick
  | CMSG_CHANNEL_BAN => HandleChannelBan
  | CMSG_CHANNEL_UNBAN => HandleChannelUnban
  | CMSG_CHANNEL_ANNOUNCEMENTS => HandleChannelAnnouncements
  | CMSG_CHANNEL_DISPLAY_LIST => HandleChannelDisplayListQuery
  | CMSG_GET_CHANNEL_MEMBER_COUNT => HandleGetChannelMemberCount
  | CMSG_SET_CHANNEL_WATCH => HandleSetChannelWatch
  end.

(** [case CHAT_MSG_CHANNEL] of [HandleMessagechatOpcode], after the checks of every message. *)
Definition HandleMessagechat_channel (channel msg : list Z) (lang : Z) : X World unit :=
  if negb (HasPermission F p RBAC_PERM_SKIP_CHECK_CHAT_CHANNEL_REQ) &&
     (u8 (getLevel F p) <? u32 (CONFIG_CHAT_CHANNEL_LEVEL_REQ F))
  then emit (SendNotification p LANG_CHANNEL_REQ (u32 (CONFIG_CHAT_CHANNEL_LEVEL_REQ F)))
  else
    match forTeam F (GetTeam F p) with
    | None => mret tt
    | Some m =>
      chn ← GetChannel m channel p true;
      match chn with Some c => Say F c p (ByteBuffer.c_string msg) lang | None => mret tt end
    end.

End ChannelHandler.

(** ** Runs *)

(** What happens to a player: he logs in, asks for something, speaks, goes to another zone, joins
    a group by the dungeon finder, logs out. *)
Inductive event : Type :=
| Login
| Request (r : request) (payload : list Z)
| Speak (channel msg : list Z) (lang : Z)
| ChangeZone (newZone : Z)
| LeaveLFG
| Logout.

Definition occur (D : Stores) (F : Facts) (p : Z) (e : event) : X World unit :=
  match e with
  | Login => modifyX (λ s, set_m_channels (<[p := []]> (m_channels s)) s)
  | Request r payload => handle D F p r payload
  | Speak channel msg lang => HandleMessagechat_channel F p channel msg lang
  | ChangeZone newZone => UpdateLocalChannels D F p newZone
  | LeaveLFG => LeaveLFGChannel F p
  | Logout => CleanupChannels F p;; modifyX (λ s, set_m_channels (delete p (m_channels s)) s)
  end.

End ChannelHandler.
