(* ===== verification/ChannelRuns.v ===== *)
(** * ChannelRuns: the methods of a channel, step by step.

    Everything in Channel.v reads and changes one channel and the lists of players.  [runs c m x Q]
    says that [m] ends in a result and a state of [Q] when the channel at [c] and the lists are
    [x], whatever the rest of the world is, which it leaves alone.  On top of it: what joining,
    leaving and the commands may do to a channel. *)
From S2P Require Import Prelude Bits ByteBuffer ObjectGuid FieldsText Utf8 Channel ChannelMgr ChannelHandler.
From stdpp Require Import strings gmap sets list sorting.
Open Scope Z_scope.
Import Channel ChannelMgr ChannelHandler.

Create HintDb runs.

Definition view : Type := Channel * gmap Z (list Z).

(** Only the channel at [c], the lists and the calls may differ. *)
Definition framed (c : Z) (x : view) (s s' : World) : Prop :=
  ∃ cs, s' = mkWorld (<[c := x.1]> (heap s)) (next s) (alliance s) (horde s) x.2 (cs ++ calls s).

Definition sees (c : Z) (x : view) (s : World) : Prop := heap s !! c = Some x.1 ∧ m_channels s = x.2.

Definition runs {A} (c : Z) (m : X World A) (x : view) (Q : A → view → Prop) : Prop :=
  ∀ s, sees c x s → returns m s (λ a s', ∃ x', Q a x' ∧ framed c x' s s').

Lemma framed_sees c x s s' : framed c x s s' → sees c x s'.
Proof. intros [cs ->]. split; simpl; [apply lookup_insert_eq|done]. Qed.
Lemma framed_refl c x s : sees c x s → framed c x s s.
Proof. destruct x as [ch m], s as [h n a ho mc cs]. intros [Hh Hm]. simpl in *. exists []. simpl. rewrite insert_id by done. by subst. Qed.
Lemma framed_trans c x y s s1 s2 : framed c x s s1 → framed c y s1 s2 → framed c y s s2.
Proof. intros [cs ->] [cs' ->]. simpl. exists (cs' ++ cs). by rewrite insert_insert_eq, app_assoc. Qed.

Section runs.
Context (c : Z).
Implicit Types (x : view).

Lemma runs_ret {A} (a : A) x (Q : A → view → Prop) : Q a x → runs c (mret a) x Q.
Proof. intros H s Hs. apply ends_ret. exists x. split; [done|by apply framed_refl]. Qed.
Lemma runs_chain {A B} (m : X World A) (f : A → X World B) x Q :
  runs c m x (λ a x', runs c (f a) x' Q) → runs c (m ≫= f) x Q.
Proof.
  intros H s Hs. apply ends_bind. eapply ends_mono; [apply H; done|]. intros a s1 (x1 & H1 & Hf).
  eapply ends_mono; [apply H1; eapply framed_sees; exact Hf|]. intros b s2 (x2 & H2 & Hf2).
  exists x2. split; [done|]. by eapply framed_trans.
Qed.
Lemma runs_mono {A} (m : X World A) x (P Q : A → view → Prop) :
  runs c m x P → (∀ a x', P a x' → Q a x') → runs c m x Q.
Proof. intros H HPQ s Hs. eapply ends_mono; [by apply H|]. intros a s' (x' & H1 & H2). eauto. Qed.
Lemma runs_when (b : bool) m x (Q : unit → view → Prop) :
  (b = true → runs c m x Q) → (b = false → Q tt x) → runs c (when b do m) x Q.
Proof. intros H1 H2. destruct b; [auto|apply runs_ret; auto]. Qed.
Lemma runs_getX x (Q : World → view → Prop) : (∀ s, sees c x s → Q s x) → runs c getX x Q.
Proof. intros H s Hs. apply ends_getX. exists x. split; [auto|by apply framed_refl]. Qed.
Lemma runs_emit k x (Q : unit → view → Prop) : Q tt x → runs c (emit k) x Q.
Proof.
  intros H s [Hh Hm]. apply ends_modifyX. exists x. split; [done|]. exists [k]. unfold record_call. destruct x as [ch m]. simpl in *.
  by rewrite insert_id, Hm by done.
Qed.
Lemma runs_chan x (Q : Channel → view → Prop) : Q x.1 x → runs c (chan c) x Q.
Proof.
  intros H s Hs. unfold chan. apply ends_bind, ends_getX. rewrite (proj1 Hs). apply ends_ret.
  exists x. split; [done|by apply framed_refl].
Qed.
Lemma runs_change f ch m (Q : unit → view → Prop) : Q tt (f ch, m) → runs c (update c f) (ch, m) Q.
Proof.
  intros H. unfold update. apply runs_chain, runs_chan. intros s [Hh Hm]. simpl in *. apply ends_modifyX.
  exists (f ch, m). split; [done|]. exists []. unfold set_heap. by rewrite Hm.
Qed.
Lemma runs_change_channels p f l ch m (Q : unit → view → Prop) : m !! p = Some l →
  Q tt (ch, <[p := f l]> m) → runs c (change_channels p f) (ch, m) Q.
Proof.
  intros Hl H s [Hh Hm]. simpl in *. unfold change_channels. apply ends_bind, ends_getX. rewrite Hm, Hl. apply ends_modifyX.
  exists (ch, <[p := f l]> m). split; [done|]. exists []. unfold set_m_channels. simpl. by rewrite (insert_id (heap s)).
Qed.
Lemma runs_at_key g i ch m (Q : PlayerInfo → view → Prop) : playersStore ch !! g = Some i →
  Q i (ch, m) → runs c (at_key c g) (ch, m) Q.
Proof. intros Hi H. unfold at_key. apply runs_chain, runs_chan. simpl. rewrite Hi. by apply runs_ret. Qed.
(** [playersStore[g]], changed in place. *)
Definition changed_at (g : Z) (f : PlayerInfo → PlayerInfo) (ch : Channel) : Channel :=
  set_players (<[g := f (default fresh_info (playersStore ch !! g))]> (playersStore ch)) ch.
Lemma runs_change_at g f ch m (Q : unit → view → Prop) :
  Q tt (changed_at g f ch, m) → runs c (change_at c g f) (ch, m) Q.
Proof.
  intros H. unfold change_at, at_key. apply runs_chain, runs_chain, runs_chan. simpl. unfold changed_at in H.
  destruct (playersStore ch !! g) as [i|].
  - apply runs_ret, runs_change. exact H.
  - apply runs_chain, runs_change, runs_ret, runs_change. simpl. rewrite insert_insert_eq. exact H.
Qed.

Section sending.
Context (F : Facts).
Lemma runs_SendToOne data g x (Q : unit → view → Prop) : Q tt x → runs c (SendToOne F data g) x Q.
Proof. intros H. unfold SendToOne. apply runs_chain, runs_getX. intros s _. by apply runs_when; [intros; apply runs_emit|]. Qed.
Lemma runs_send_loop l data to x (Q : unit → view → Prop) : Q tt x → runs c (send_loop F l data to) x Q.
Proof.
  intros H. revert x H. induction l as [|g l IH]; intros x H; [by apply runs_ret|]. simpl.
  apply runs_chain, runs_getX. intros s _. apply runs_chain, runs_when; intros _; [apply runs_emit|]; by apply IH.
Qed.
Lemma runs_SendToAll data g x (Q : unit → view → Prop) : Q tt x → runs c (SendToAll F c data g) x Q.
Proof. intros H. apply runs_chain, runs_chan. by apply runs_send_loop. Qed.
Lemma runs_SendToAllButOne data g x (Q : unit → view → Prop) : Q tt x → runs c (SendToAllButOne F c data g) x Q.
Proof. intros H. apply runs_chain, runs_chan. by apply runs_send_loop. Qed.
Lemma runs_JoinNotify g x (Q : unit → view → Prop) : Q tt x → runs c (JoinNotify F c g) x Q.
Proof. intros H. apply runs_chain, runs_chan. destruct (IsConstant _); [by apply runs_SendToAllButOne|by apply runs_SendToAll]. Qed.
Lemma runs_LeaveNotify g x (Q : unit → view → Prop) : Q tt x → runs c (LeaveNotify F c g) x Q.
Proof. intros H. apply runs_chain, runs_chan. destruct (IsConstant _); [by apply runs_SendToAllButOne|by apply runs_SendToAll]. Qed.
Lemma runs_UpdateChannelInDB x (Q : unit → view → Prop) : Q tt x → runs c (UpdateChannelInDB c) x Q.
Proof. intros H. apply runs_chain, runs_chan, runs_when; intros _; [by apply runs_emit|done]. Qed.
Lemma runs_UpdateChannelUseageInDB x (Q : unit → view → Prop) : Q tt x → runs c (UpdateChannelUseageInDB c) x Q.
Proof. intros H. apply runs_chain, runs_chan. by apply runs_emit. Qed.
End sending.

End runs.

(** One step of a run. *)
Ltac runs_step :=
  lazymatch goal with
  | |- runs _ (_ ≫= _) _ _ => apply runs_chain
  | |- runs _ (mret _) _ _ => apply runs_ret
  | |- runs _ (if _ then _ else mret tt) _ _ => apply runs_when; intros ?
  | |- runs _ getX _ _ => apply runs_getX; intros ? ?
  | |- runs _ (chan _) _ _ => apply runs_chan
  | |- runs _ (emit _) _ _ => apply runs_emit
  | |- runs _ (update _ _) _ _ => apply runs_change
  | |- runs _ (change_at _ _ _) _ _ => apply runs_change_at
  | |- runs _ (SendToOne _ _ _) _ _ => apply runs_SendToOne
  | |- runs _ (SendToAll _ _ _ _) _ _ => apply runs_SendToAll
  | |- runs _ (SendToAllButOne _ _ _ _) _ _ => apply runs_SendToAllButOne
  | |- runs _ (JoinNotify _ _ _) _ _ => apply runs_JoinNotify
  | |- runs _ (LeaveNotify _ _ _) _ _ => apply runs_LeaveNotify
  | |- runs _ (UpdateChannelInDB _) _ _ => apply runs_UpdateChannelInDB
  | |- runs _ (UpdateChannelUseageInDB _) _ _ => apply runs_UpdateChannelUseageInDB
  end.
Ltac runs := repeat (runs_step; cbn [fst snd]).

(** ** The entries of members *)

(** The entry of [g] on a channel that [o] owns. *)
Definition info_ok (o g : Z) (i : PlayerInfo) : Prop :=
  (player i = g ∨ player i = 0) ∧ 0 ≤ flags i < 256 ∧ (IsOwner i = true → g = o ∧ g ≠ 0).
Definition channel_ok (ch : Channel) : Prop := map_Forall (info_ok (_ownerGUID ch)) (playersStore ch).

Lemma for_all_bytes (P : Z → bool) : forallb P (seqZ 0 256) = true → ∀ z, 0 ≤ z < 256 → P z = true.
Proof. intros H z Hz. rewrite forallb_forall in H. apply H. apply list_elem_of_In, elem_of_seqZ. lia. Qed.

Lemma set_flag_ok (f : Z) (b : bool) o g i : f = MEMBER_FLAG_MODERATOR ∨ f = MEMBER_FLAG_MUTED →
  info_ok o g i → info_ok o g (set_flag f b i).
Proof.
  intros Hf (Hp & Hr & Ho). destruct i as [pl fl]. simpl in *. split; [done|]. unfold IsOwner, has in *. simpl in *.
  assert (H : (0 <=? (if b then Z.lor fl f else Z.land fl (u8 (Z.lnot f)))) && ((if b then Z.lor fl f else Z.land fl (u8 (Z.lnot f))) <? 256) &&
              Bool.eqb (z2b (Z.land (if b then Z.lor fl f else Z.land fl (u8 (Z.lnot f))) MEMBER_FLAG_OWNER)) (z2b (Z.land fl MEMBER_FLAG_OWNER)) = true).
  { revert fl Hr Ho. intros fl Hr _. revert fl Hr. apply for_all_bytes. destruct Hf as [-> | ->], b; vm_compute; reflexivity. }
  apply andb_true_iff in H as [H He]. apply eqb_prop in He. rewrite He. split; [lia|done].
Qed.
Lemma owner_flag_ok (b : bool) o o' g i : info_ok o g i → (b = true → g = o' ∧ g ≠ 0) → info_ok o' g (info_SetOwner b i).
Proof.
  intros (Hp & Hr & Ho) Hb. destruct i as [pl fl]. simpl in *. split; [done|]. unfold info_SetOwner, IsOwner, has, set_flag in *. simpl in *.
  assert (H : (0 <=? (if b then Z.lor fl 1 else Z.land fl (u8 (Z.lnot 1)))) && ((if b then Z.lor fl 1 else Z.land fl (u8 (Z.lnot 1))) <? 256) &&
              Bool.eqb (z2b (Z.land (if b then Z.lor fl 1 else Z.land fl (u8 (Z.lnot 1))) 1)) b = true).
  { revert fl Hr Ho. intros fl Hr _. revert fl Hr. apply for_all_bytes. destruct b; vm_compute; reflexivity. }
  apply andb_true_iff in H as [H He]. apply eqb_prop in He. unfold MEMBER_FLAG_OWNER. rewrite He. split; [lia|done].
Qed.
Lemma fresh_ok o g : info_ok o g fresh_info.
Proof. split; [by right|]. split; [simpl; lia|]. by vm_compute. Qed.
Lemma new_member_ok o g : info_ok o g (mkPlayerInfo g MEMBER_FLAG_NONE).
Proof. split; [by left|]. split; [simpl; unfold MEMBER_FLAG_NONE; lia|]. by vm_compute. Qed.
Lemma not_owner_ok o o' g i : info_ok o g i → IsOwner i = false → info_ok o' g i.
Proof. intros (Hp & Hr & Ho) Hi. split; [done|]. split; [done|]. by rewrite Hi. Qed.

Lemma changed_at_ok g f ch : channel_ok ch → (∀ i, info_ok (_ownerGUID ch) g i → info_ok (_ownerGUID ch) g (f i)) →
  channel_ok (changed_at g f ch).
Proof.
  intros Hch Hf. unfold channel_ok, changed_at. simpl. apply map_Forall_insert_2; [|done]. apply Hf.
  destruct (playersStore ch !! g) as [i|] eqn:E; simpl; [by apply (Hch g)|apply fresh_ok].
Qed.

(** What [SetOwner] makes of a channel. *)
Definition with_owner (guid : Z) (ch : Channel) : Channel :=
  let ch := if negb (_ownerGUID ch =? 0) then set_players (alter (info_SetOwner false) (_ownerGUID ch) (playersStore ch)) ch else ch in
  let ch := set_ownerGUID guid ch in
  if negb (guid =? 0) then changed_at guid (info_SetOwner true) (changed_at guid (info_SetModerator true) ch) else ch.

Lemma runs_SetOwner c F guid exclaim ch m (Q : unit → view → Prop) :
  Q tt (with_owner guid ch, m) → runs c (SetOwner F c guid exclaim) (ch, m) Q.
Proof.
  intros H. unfold SetOwner, with_owner in *.
  apply runs_chain, runs_chan. cbn [fst]. apply runs_chain. apply runs_when; intros Ho; rewrite Ho in H.
  - apply runs_change. apply runs_chain, runs_change. apply runs_when; intros Hg; rewrite Hg in H; [|done].
    runs; try exact H; done.
  - apply runs_chain, runs_change. apply runs_when; intros Hg; rewrite Hg in H; [|done].
    runs; try exact H; done.
Qed.

Lemma with_owner_ok guid ch : channel_ok ch → channel_ok (with_owner guid ch).
Proof.
  intros Hch. unfold with_owner.
  set (ch1 := if negb (_ownerGUID ch =? 0) then _ else ch).
  assert (H1 : map_Forall (λ g i, ∀ o, info_ok o g i) (playersStore ch1)).
  { intros g i Hi o. subst ch1. destruct (Z.eqb_spec (_ownerGUID ch) 0) as [E|E]; simpl in Hi.
    - pose proof (Hch g i Hi) as Hok. apply (not_owner_ok _ _ _ _ Hok). destruct Hok as (_ & _ & Ho).
      destruct (IsOwner i); [|done]. destruct Ho; [done|]. congruence.
    - destruct (decide (g = _ownerGUID ch)) as [->|Hne].
      + rewrite lookup_alter_eq in Hi. destruct (playersStore ch !! _ownerGUID ch) as [j|] eqn:Ej; [|done]. injection Hi as <-.
        eapply owner_flag_ok; [by apply (Hch _ _ Ej)|done].
      + rewrite lookup_alter_ne in Hi by done. pose proof (Hch g i Hi) as Hok. apply (not_owner_ok _ _ _ _ Hok).
        destruct Hok as (_ & _ & Ho). destruct (IsOwner i); [|done]. destruct Ho; done. }
  assert (H2 : channel_ok (set_ownerGUID guid ch1)) by (intros g i Hi; by apply H1).
  destruct (Z.eqb_spec guid 0) as [->|Hg]; [exact H2|]. simpl.
  apply changed_at_ok; [apply changed_at_ok; [exact H2|]|].
  - intros i Hi. apply set_flag_ok; [by left|done].
  - intros i Hi. eapply owner_flag_ok; [exact Hi|]. done.
Qed.

(** All of a channel but its owner and members. *)
Definition settings (ch : Channel) : bool * bool * bool * Z * Z * Z * list Z * list Z * gset Z :=
  (_announce ch, _ownership ch, _IsSaved ch, _flags ch, _channelId ch, _Team ch, _name ch, _password ch, bannedStore ch).

Lemma settings_with_owner guid ch : settings (with_owner guid ch) = settings ch.
Proof. unfold with_owner. by destruct (negb (_ownerGUID ch =? 0)), (negb (guid =? 0)). Qed.
Lemma owner_with_owner guid ch : _ownerGUID (with_owner guid ch) = guid.
Proof. unfold with_owner. by destruct (negb (_ownerGUID ch =? 0)), (negb (guid =? 0)). Qed.

Lemma changed_at_other g f ch g' : g' ≠ g → playersStore (changed_at g f ch) !! g' = playersStore ch !! g'.
Proof. intros. by apply lookup_insert_ne. Qed.
Lemma changed_at_on g f ch g' : is_Some (playersStore (changed_at g f ch) !! g') ↔ is_Some (playersStore ch !! g') ∨ g' = g.
Proof.
  unfold changed_at. simpl. destruct (decide (g' = g)) as [->|Hne]; [rewrite lookup_insert_eq|rewrite lookup_insert_ne by done]; naive_solver.
Qed.
Lemma with_owner_other guid ch g : g ≠ guid → (_ownerGUID ch ≠ 0 → g ≠ _ownerGUID ch) →
  playersStore (with_owner guid ch) !! g = playersStore ch !! g.
Proof.
  intros H1 H2. unfold with_owner. destruct (Z.eqb_spec (_ownerGUID ch) 0), (Z.eqb_spec guid 0); cbn [negb]; try done;
    rewrite ?changed_at_other by done; simpl; rewrite ?lookup_alter_ne by (intros E; symmetry in E; naive_solver); done.
Qed.
Lemma with_owner_on guid ch g : is_Some (playersStore (with_owner guid ch) !! g) ↔ is_Some (playersStore ch !! g) ∨ (g = guid ∧ guid ≠ 0).
Proof.
  unfold with_owner.
  set (ch1 := if negb (_ownerGUID ch =? 0) then _ else ch).
  assert (H : is_Some (playersStore ch1 !! g) ↔ is_Some (playersStore ch !! g)).
  { subst ch1. destruct (Z.eqb_spec (_ownerGUID ch) 0); [done|]. simpl. apply lookup_alter_is_Some. }
  destruct (Z.eqb_spec guid 0); cbn [negb]; [simpl; rewrite H; naive_solver|]. rewrite !changed_at_on. simpl. rewrite H. naive_solver.
Qed.

Lemma IsOn_spec ch g : IsOn ch g = true ↔ is_Some (playersStore ch !! g).
Proof. unfold IsOn. apply bool_decide_eq_true. Qed.

(** ** Joining *)

Definition joined (p : Z) (ch : Channel) : Channel := set_players (<[p := mkPlayerInfo p MEMBER_FLAG_NONE]> (playersStore ch)) ch.

Lemma runs_JoinChannel c F p pass ch m l : m !! p = Some l →
  runs c (JoinChannel F c p pass) (ch, m) (λ _ x, x = (ch, m) ∨
    IsOn ch p = false ∧ x.2 = <[p := l ++ [c]]> m ∧
    (x.1 = joined p ch ∨
     _ownerGUID ch = 0 ∧ x.1 = changed_at p (info_SetModerator true) (with_owner p (joined p ch)))).
Proof.
  intros Hl. unfold JoinChannel. apply runs_chain, runs_chan. cbn [fst].
  destruct (IsOn ch p); [runs; by left|]. destruct (IsBanned ch p); [runs; by left|].
  destruct (_ && _); [runs; by left|]. destruct (_ && _); [runs; by left|].
  apply runs_chain. unfold JoinedChannel. apply runs_change_channels with (l := l); [done|].
  assert (Ho : _ownerGUID (joined p ch) = _ownerGUID ch) by done. unfold joined in *.
  runs; try (right; split; [done|]; split; [done|]; left; done); apply runs_SetOwner; runs;
    (right; split; [done|]; split; [done|]; right; split; [lia|done]).
Qed.

(** ** Leaving *)

Definition left (p : Z) (ch : Channel) : Channel := set_players (delete p (playersStore ch)) ch.

(** The player field of the entry that an owner who leaves hands the channel to. *)
Definition successor (ch : Channel) : option Z :=
  first ← head (members ch); player <$> playersStore ch !! first.

Lemma members_on ch g : head (members ch) = Some g → is_Some (playersStore ch !! g).
Proof.
  intros H. assert (Hin : g ∈ members ch) by (destruct (members ch); [done|injection H as ->; constructor]).
  unfold members, ascending in Hin. rewrite merge_sort_Permutation in Hin. apply elem_of_elements, elem_of_dom in Hin. done.
Qed.

Lemma runs_LeaveChannel c F p send ch m l : m !! p = Some l →
  runs c (LeaveChannel F c p send) (ch, m) (λ _ x,
    (IsOn ch p = false ∧ x = (ch, m)) ∨
    IsOn ch p = true ∧ x.2 = (if send then <[p := filter (λ c', c' ≠ c) l]> m else m) ∧
    (x.1 = left p ch ∨
     ∃ i o, playersStore ch !! p = Some i ∧ IsOwner i = true ∧ successor (left p ch) = Some o ∧
       x.1 = with_owner o (changed_at o (info_SetModerator true) (left p ch)))).
Proof.
  intros Hl. unfold LeaveChannel. apply runs_chain, runs_chan. cbn [fst].
  destruct (IsOn ch p) eqn:Eon; cbn [negb]; [|runs; by left].
  apply IsOn_spec in Eon as [i Hi]. apply runs_chain.
  apply runs_mono with (P := λ _ x, x = (ch, if send then <[p := filter (λ c', c' ≠ c) l]> m else m)).
  { apply runs_when; intros Es; rewrite Es; [|done]. runs. unfold LeftChannel. by apply runs_change_channels with (l := l). }
  intros _ x ->. apply runs_chain, runs_at_key with (i := i); [done|].
  apply runs_chain, runs_change. fold (left p ch). runs; try (right; split; [done|]; split; [done|]; by left).
  all: destruct (head (members (left p ch))) as [first|] eqn:Eh; runs; try (right; split; [done|]; split; [done|]; by left).
  all: destruct (members_on _ _ Eh) as [j Hj]; apply runs_at_key with (i := j); [done|]; runs; apply runs_SetOwner;
    right; split; [done|]; split; [done|]; right; exists i, (player j); repeat split; [done|by destruct (IsOwner i)|unfold successor; rewrite Eh; simpl in Hj |- *; by rewrite Hj].
Qed.

(** ** What joining and leaving do to others *)

(** [p] comes and goes: he changes nothing of the channel but his own membership, unless he was
    its owner or it had none. *)
Record quiet (p : Z) (ch ch' : Channel) : Prop := {
  quiet_settings : settings ch' = settings ch;
  quiet_members : ∀ g, g ≠ p → g ≠ 0 → is_Some (playersStore ch' !! g) ↔ is_Some (playersStore ch !! g);
  quiet_others : _ownerGUID ch ≠ 0 → (∀ i, playersStore ch !! p = Some i → IsOwner i = false) →
    _ownerGUID ch' = _ownerGUID ch ∧ (∀ g, g ≠ p → playersStore ch' !! g = playersStore ch !! g) ∧
    (∀ i, playersStore ch' !! p = Some i → IsOwner i = false) }.

#[global] Instance quiet_preorder p : PreOrder (quiet p).
Proof.
  split.
  - intros ch. split; [done|done|naive_solver].
  - intros a b c [S1 M1 O1] [S2 M2 O2]. split; [congruence| |].
    + intros g H1 H2. by rewrite M2, M1.
    + intros H0 Hp. destruct (O1 H0 Hp) as (E1 & G1 & P1). destruct O2 as (E2 & G2 & P2); [by rewrite E1|done|].
      split; [congruence|]. split; [|done]. intros g Hg. by rewrite G2, G1.
Qed.

(** The lists of channels, as far as they name other channels than [c]. *)
Definition lists_of (c : Z) (m m' : gmap Z (list Z)) : Prop :=
  ∀ q, (m !! q = None ∧ m' !! q = None) ∨
       ∃ l l', m !! q = Some l ∧ m' !! q = Some l' ∧ ∀ c', c' ≠ c → c' ∈ l' ↔ c' ∈ l.
Lemma lists_of_refl c m : lists_of c m m.
Proof. intros q. destruct (m !! q) as [l|] eqn:E; [right; by exists l, l|by left]. Qed.
Lemma lists_of_insert c m p l l' : m !! p = Some l → (∀ c', c' ≠ c → c' ∈ l' ↔ c' ∈ l) → lists_of c m (<[p := l']> m).
Proof.
  intros Hl H q. destruct (decide (q = p)) as [->|Hne].
  - right. exists l, l'. by rewrite lookup_insert_eq.
  - rewrite lookup_insert_ne by done. apply lists_of_refl.
Qed.
Lemma lists_of_trans c m1 m2 m3 : lists_of c m1 m2 → lists_of c m2 m3 → lists_of c m1 m3.
Proof.
  intros H1 H2 q. destruct (H1 q) as [[E1 E2]|(l & l' & E1 & E2 & H)], (H2 q) as [[E3 E4]|(l2 & l3 & E3 & E4 & H')];
    rewrite ?E2 in E3; try done; [by left|]. injection E3 as <-. right. exists l, l3. split; [done|]. split; [done|].
  intros c' Hc. by rewrite H', H.
Qed.

(** Who has the channel on his list is on it; of [p] this need not hold for a moment. *)
Definition listed_but (P : Z → Prop) (c : Z) (x : view) : Prop :=
  ∀ q l, x.2 !! q = Some l → NoDup l ∧ (¬ P q → c ∈ l → is_Some (playersStore x.1 !! q)).
Definition listed : Z → view → Prop := listed_but (λ _, False).

Lemma joined_quiet p ch : IsOn ch p = false → quiet p ch (joined p ch) ∧
  (_ownerGUID ch = 0 → quiet p ch (changed_at p (info_SetModerator true) (with_owner p (joined p ch)))).
Proof.
  intros Hon. assert (Hn : playersStore ch !! p = None).
  { destruct (playersStore ch !! p) eqn:E; [|done]. enough (IsOn ch p = true) by congruence. apply IsOn_spec. by rewrite E. }
  split; [split|intros H0; split].
  - done.
  - intros g Hg _. unfold joined. simpl. by rewrite lookup_insert_ne.
  - intros _ _. split; [done|]. split.
    + intros g Hg. unfold joined. simpl. by rewrite lookup_insert_ne.
    + intros i. unfold joined. simpl. rewrite lookup_insert_eq. by intros [= <-].
  - unfold changed_at. exact (settings_with_owner p (joined p ch)).
  - intros g Hg Hg0. rewrite changed_at_other, with_owner_other by (done || intros Hne; by destruct Hne).
    unfold joined. simpl. by rewrite lookup_insert_ne.
  - done.
Qed.
Lemma joined_ok p ch : channel_ok ch → channel_ok (joined p ch) ∧
  channel_ok (changed_at p (info_SetModerator true) (with_owner p (joined p ch))).
Proof.
  intros Hch. assert (H : channel_ok (joined p ch)) by (apply map_Forall_insert_2; [apply new_member_ok|exact Hch]).
  split; [exact H|]. apply changed_at_ok; [by apply with_owner_ok|]. intros i Hi. apply set_flag_ok; [by left|done].
Qed.

Lemma left_quiet p ch : quiet p ch (left p ch).
Proof.
  split.
  - done.
  - intros g Hg _. unfold left. simpl. by rewrite lookup_delete_ne.
  - intros _ _. split; [done|]. split; [|unfold left; simpl; intros i; by rewrite lookup_delete_eq].
    intros g Hg. unfold left. simpl. by rewrite lookup_delete_ne.
Qed.
Lemma left_ok p ch : channel_ok ch → channel_ok (left p ch).
Proof. intros Hch g i Hi. unfold left in Hi. simpl in Hi. apply lookup_delete_Some in Hi as [_ Hi]. by apply Hch. Qed.

(** The successor is on the channel, or is nobody. *)
Lemma successor_on ch o : channel_ok ch → successor ch = Some o → o = 0 ∨ is_Some (playersStore ch !! o).
Proof.
  intros Hch. unfold successor. destruct (head (members ch)) as [first|] eqn:Eh; [|done]. simpl.
  destruct (playersStore ch !! first) as [j|] eqn:Ej; [|done]. simpl. intros [= <-].
  destruct (Hch _ _ Ej) as ([-> | ->] & _); [right; by rewrite Ej|by left].
Qed.
Lemma handed_over_quiet p ch i o : channel_ok ch → playersStore ch !! p = Some i → IsOwner i = true →
  successor (left p ch) = Some o →
  quiet p ch (with_owner o (changed_at o (info_SetModerator true) (left p ch))).
Proof.
  intros Hch Hi Ho Hs. pose proof (successor_on _ _ (left_ok p _ Hch) Hs) as Hon. split.
  - rewrite settings_with_owner. done.
  - intros g Hg Hg0. rewrite with_owner_on, changed_at_on. rewrite <-(quiet_members _ _ _ (left_quiet p ch) g Hg Hg0).
    split; [|tauto]. intros [[H| ->]|[-> _]]; [done|by destruct Hon|by destruct Hon].
  - intros _ H. by rewrite (H i Hi) in Ho.
Qed.
Lemma handed_over_ok p ch o : channel_ok ch → channel_ok (with_owner o (changed_at o (info_SetModerator true) (left p ch))).
Proof.
  intros Hch. apply with_owner_ok, changed_at_ok; [by apply left_ok|]. intros i Hi. apply set_flag_ok; [by left|done].
Qed.

(** ** Commands *)

(** Moderators of the channel, its owner, and players with the permission, if they are on it. *)
Definition privileged (F : Facts) (p : Z) (ch : Channel) : Prop :=
  ∃ i, playersStore ch !! p = Some i ∧
    (IsModerator i = true ∨ HasPermission F p RBAC_PERM_CHANGE_CHANNEL_NOT_MODERATOR = true ∨ p = _ownerGUID ch).
(** Those who may act against the owner. *)
Definition sovereign (F : Facts) (p : Z) (ch : Channel) : Prop :=
  HasPermission F p RBAC_PERM_CHANGE_CHANNEL_NOT_MODERATOR = true ∨ p = _ownerGUID ch.

Lemma runs_as_member c F p f ch m (Q : unit → view → Prop) :
  (IsOn ch p = false → Q tt (ch, m)) →
  (∀ i, playersStore ch !! p = Some i → runs c (f ch) (ch, m) Q) → runs c (as_member F c p f) (ch, m) Q.
Proof.
  intros H1 H2. unfold as_member. apply runs_chain, runs_chan. cbn [fst]. destruct (IsOn ch p) eqn:E.
  - apply IsOn_spec in E as [i Hi]. by eapply H2.
  - runs. by apply H1.
Qed.
Lemma runs_as_moderator c F p f ch m (Q : unit → view → Prop) :
  Q tt (ch, m) → (privileged F p ch → runs c (f ch) (ch, m) Q) → runs c (as_moderator F c p f) (ch, m) Q.
Proof.
  intros H1 H2. apply runs_as_member; [done|]. intros i Hi. apply runs_chain, runs_at_key with (i := i); [done|].
  destruct (IsModerator i) eqn:Em; simpl.
  - apply H2. exists i. auto.
  - destruct (HasPermission F p RBAC_PERM_CHANGE_CHANNEL_NOT_MODERATOR) eqn:Eh; simpl; [|by apply runs_SendToOne].
    apply H2. exists i. auto.
Qed.

Lemma FindPlayerByName_listed F c x s name victim : sees c x s → FindPlayerByName F s name = Some victim → is_Some (x.2 !! victim).
Proof.
  intros [_ Hm] H. unfold FindPlayerByName in H. apply head_Some in H as [l H].
  assert (Hin : victim ∈ victim :: l) by constructor. rewrite <-H in Hin. apply list_elem_of_filter in Hin as [Hin _].
  apply andb_true_iff in Hin as [Hin _]. unfold FindPlayer in Hin. apply andb_true_iff in Hin as [Hin _].
  apply bool_decide_eq_true in Hin. by rewrite Hm in Hin.
Qed.

(** What a command may make of a channel and the lists. *)
Record commanded (F : Facts) (p c : Z) (x x' : view) : Prop := {
  cmd_name : _name x'.1 = _name x.1 ∧ _channelId x'.1 = _channelId x.1;
  cmd_ok : channel_ok x.1 → channel_ok x'.1;
  cmd_listed : listed c x → listed c x';
  cmd_lists : lists_of c x.2 x'.2;
  cmd_allowed : x' = x ∨ privileged F p x.1;
  cmd_owner : channel_ok x.1 → _ownerGUID x.1 ≠ 0 → _ownerGUID x'.1 ≠ _ownerGUID x.1 ∨
    playersStore x'.1 !! _ownerGUID x.1 ≠ playersStore x.1 !! _ownerGUID x.1 → sovereign F p x.1 }.

Lemma commanded_refl F p c x : commanded F p c x x.
Proof. split; auto; [apply lists_of_refl|]. intros _ _ [?|?]; congruence. Qed.

(** A command that only changes the channel and throws nobody off it. *)
Lemma commanded_channel F p c ch ch' m : _name ch' = _name ch → _channelId ch' = _channelId ch →
  (channel_ok ch → channel_ok ch') → (∀ g, is_Some (playersStore ch !! g) → is_Some (playersStore ch' !! g)) →
  privileged F p ch →
  (_ownerGUID ch' = _ownerGUID ch ∧ playersStore ch' !! _ownerGUID ch = playersStore ch !! _ownerGUID ch ∨ sovereign F p ch) →
  commanded F p c (ch, m) (ch', m).
Proof.
  intros H1 H2 H3 H4 H5 H6. split; simpl; auto.
  - intros Hl q l Hq. destruct (Hl q l Hq) as [Hn Hc]. split; [done|]. intros. apply H4. by apply Hc.
  - apply lists_of_refl.
  - intros _ _ H. destruct H6 as [[E1 E2]|]; [|done]. by destruct H.
Qed.

(** Changes of settings. *)
Lemma commanded_settings F p c ch ch' m : _name ch' = _name ch → _channelId ch' = _channelId ch →
  playersStore ch' = playersStore ch → _ownerGUID ch' = _ownerGUID ch → privileged F p ch → commanded F p c (ch, m) (ch', m).
Proof.
  intros H1 H2 H3 H4 H5. apply commanded_channel; rewrite ?H3, ?H4; auto. unfold channel_ok. by rewrite H3, H4.
Qed.

Lemma runs_UnBan c F p badname ch m : runs c (UnBan F c p badname) (ch, m) (λ _, commanded F p c (ch, m)).
Proof.
  apply runs_as_moderator; [apply commanded_refl|]. intros Hp. runs. destruct (_ || _); runs; [apply commanded_refl|].
  by apply commanded_settings.
Qed.
Lemma runs_Password c F p pass ch m : runs c (Password F c p pass) (ch, m) (λ _, commanded F p c (ch, m)).
Proof. apply runs_as_moderator; [apply commanded_refl|]. intros Hp. runs. by apply commanded_settings. Qed.
Lemma runs_Announce c F p ch m : runs c (Announce F c p) (ch, m) (λ _, commanded F p c (ch, m)).
Proof. apply runs_as_moderator; [apply commanded_refl|]. intros Hp. runs. by apply commanded_settings. Qed.

(** The flags of a member. *)
Lemma commanded_flag F p c ch m f (b : bool) victim : f = MEMBER_FLAG_MODERATOR ∨ f = MEMBER_FLAG_MUTED → privileged F p ch →
  (victim = _ownerGUID ch → sovereign F p ch) → commanded F p c (ch, m) (changed_at victim (set_flag f b) ch, m).
Proof.
  intros Hf Hp Hs. apply commanded_channel; auto.
  - intros Hch. apply changed_at_ok; [done|]. intros i. by apply set_flag_ok.
  - intros g Hg. apply changed_at_on. by left.
  - destruct (decide (victim = _ownerGUID ch)); [right; auto|left]. split; [done|]. by apply changed_at_other.
Qed.

Lemma runs_SetMode c F p p2n mod_ set ch m : runs c (SetMode F c p p2n mod_ set) (ch, m) (λ _, commanded F p c (ch, m)).
Proof.
  apply runs_as_moderator; [apply commanded_refl|]. intros Hp. destruct (_ && _); [runs; apply commanded_refl|].
  runs. destruct (FindPlayerByName F s p2n) as [victim|]; [|runs; apply commanded_refl].
  destruct ((victim =? 0) || _ || _) eqn:E1; [runs; apply commanded_refl|].
  destruct ((_ownerGUID ch =? victim) && _) eqn:E2; [runs; apply commanded_refl|].
  assert (Hs : victim = _ownerGUID ch → sovereign F p ch).
  { intros ->. rewrite Z.eqb_refl in E2. simpl in E2. right. lia. }
  assert (Hv : is_Some (playersStore ch !! victim)).
  { apply IsOn_spec. destruct (IsOn ch victim); [done|]. by rewrite orb_true_r in E1. }
  destruct Hv as [i Hi].
  destruct mod_; [unfold SetModerator|unfold SetMute]; apply runs_chain, runs_at_key with (i := i); try done;
    runs; try apply commanded_refl; apply commanded_flag; auto.
Qed.

Lemma runs_SetOwner_player c F p newname ch m : runs c (SetOwner_player F c p newname) (ch, m) (λ _, commanded F p c (ch, m)).
Proof.
  apply runs_as_member; [intros; apply commanded_refl|]. intros i Hi.
  destruct (negb _ && _) eqn:E; [runs; apply commanded_refl|].
  assert (Hs : sovereign F p ch).
  { unfold sovereign. destruct (HasPermission F p RBAC_PERM_CHANGE_CHANNEL_NOT_MODERATOR); [by left|right]. simpl in E. lia. }
  assert (Hp : privileged F p ch) by (exists i; destruct Hs; auto).
  runs. destruct (FindPlayerByName F s newname) as [victim|]; [|runs; apply commanded_refl].
  destruct ((victim =? 0) || _ || _); [runs; apply commanded_refl|].
  runs. apply runs_SetOwner. apply commanded_channel; auto.
  - pose proof (settings_with_owner victim (changed_at victim (info_SetModerator true) ch)) as E'. unfold settings in E'. by injection E'.
  - pose proof (settings_with_owner victim (changed_at victim (info_SetModerator true) ch)) as E'. unfold settings in E'. by injection E'.
  - intros Hch. apply with_owner_ok, changed_at_ok; [done|]. intros j. apply set_flag_ok. by left.
  - intros g Hg. apply with_owner_on. left. apply changed_at_on. by left.
Qed.

(** Kicking: [victim] is off the channel and has it off his list. *)
Definition kicked (ban : bool) (victim : Z) (ch : Channel) : Channel :=
  left victim (if ban && negb (IsBanned ch victim) then set_banned ({[victim]} ∪ bannedStore ch) ch else ch).
Lemma runs_KickOrBan_spec c F p badname ban ch m : runs c (KickOrBan F c p badname ban) (ch, m) (λ _ x, x = (ch, m) ∨
  privileged F p ch ∧ ∃ victim l, victim ≠ 0 ∧ is_Some (playersStore ch !! victim) ∧ m !! victim = Some l ∧
    (victim = _ownerGUID ch → sovereign F p ch) ∧
    x.2 = <[victim := filter (λ c', c' ≠ c) l]> m ∧
    x.1 = (if (_ownerGUID ch =? victim) && _ownership ch && negb (GetNumPlayers (kicked ban victim ch) =? 0)%nat
           then with_owner p (changed_at p (info_SetModerator true) (kicked ban victim ch)) else kicked ban victim ch)).
Proof.
  apply runs_as_moderator; [by left|]. intros Hp. apply runs_chain, runs_getX. intros s Hs.
  destruct (FindPlayerByName F s badname) as [victim|] eqn:Ef; [|runs; by left].
  apply (FindPlayerByName_listed _ _ _ _ _ _ Hs) in Ef as [l Hl]. simpl in Hl.
  destruct ((victim =? 0) || negb (IsOn ch victim)) eqn:E1; [runs; by left|].
  apply orb_false_iff in E1 as [E0 E1]. apply negb_false_iff, IsOn_spec in E1.
  cbv zeta. match goal with |- runs _ (if ?b then _ else _) _ _ => destruct b eqn:E2 end; [runs; by left|].
  assert (Hsv : victim = _ownerGUID ch → sovereign F p ch).
  { intros ->. rewrite Z.eqb_refl in E2. unfold sovereign. destruct (HasPermission F p RBAC_PERM_CHANGE_CHANNEL_NOT_MODERATOR); [by left|right].
    simpl in E2. lia. }
  set (ch1 := if ban && negb (IsBanned ch victim) then set_banned ({[victim]} ∪ bannedStore ch) ch else ch).
  apply runs_chain. apply runs_mono with (P := λ _ x, x = (ch1, m)).
  { subst ch1. destruct (ban && negb (IsBanned ch victim)); runs; done. }
  intros _ x ->. apply runs_chain, runs_change. apply runs_chain. unfold LeftChannel. apply runs_change_channels with (l := l); [done|].
  apply runs_chain, runs_chan. cbn [fst]. change (set_players (delete victim (playersStore ch1)) ch1) with (kicked ban victim ch).
  assert (Eo : _ownership (kicked ban victim ch) = _ownership ch) by (unfold kicked; by destruct (ban && _)). rewrite Eo.
  apply runs_when; intros Eb.
  - runs. apply runs_SetOwner. right. split; [done|]. exists victim, l. repeat split; try done; [lia|]. by rewrite Eb.
  - right. split; [done|]. exists victim, l. repeat split; try done; [lia|]. by rewrite Eb.
Qed.

Lemma listed_filter (c : Z) (m : gmap Z (list Z)) l q victim ch' : m !! victim = Some l →
  (∀ q l, q ≠ victim → m !! q = Some l → NoDup l ∧ (c ∈ l → is_Some (playersStore ch' !! q))) → NoDup l →
  ∀ l', <[victim := filter (λ c', c' ≠ c) l]> m !! q = Some l' → NoDup l' ∧ (c ∈ l' → is_Some (playersStore ch' !! q)).
Proof.
  intros Hl Ho Hn l' Hq. destruct (decide (q = victim)) as [->|Hne].
  - rewrite lookup_insert_eq in Hq. injection Hq as <-. split; [by apply NoDup_filter|].
    intros Hc. apply list_elem_of_filter in Hc as [Hc _]. done.
  - rewrite lookup_insert_ne in Hq by done. eauto.
Qed.

Lemma kicked_facts ban victim ch : _name (kicked ban victim ch) = _name ch ∧ _channelId (kicked ban victim ch) = _channelId ch ∧
  _ownerGUID (kicked ban victim ch) = _ownerGUID ch ∧ playersStore (kicked ban victim ch) = delete victim (playersStore ch).
Proof. unfold kicked. by destruct (ban && negb (IsBanned ch victim)). Qed.

Lemma runs_KickOrBan c F p badname ban ch m : runs c (KickOrBan F c p badname ban) (ch, m) (λ _, commanded F p c (ch, m)).
Proof.
  eapply runs_mono; [apply runs_KickOrBan_spec|].
  intros _ [ch' m'] [[= -> ->]|(Hp & victim & l & Hv & Hon & Hl & Hs & Hm & Hx)]; [apply commanded_refl|]. simpl in Hm, Hx. subst m'.
  destruct (kicked_facts ban victim ch) as (Kn & Ki & Ko & Kp). set (k := kicked ban victim ch) in *.
  assert (Kok : channel_ok ch → channel_ok k).
  { intros Hch g i Hi. rewrite Kp in Hi. rewrite Ko. apply lookup_delete_Some in Hi as [_ Hi]. by apply Hch. }
  assert (H : _name ch' = _name ch ∧ _channelId ch' = _channelId ch ∧ (channel_ok ch → channel_ok ch') ∧
    (∀ g, is_Some (playersStore k !! g) → is_Some (playersStore ch' !! g)) ∧ (victim ≠ _ownerGUID ch → ch' = k)).
  { destruct (_ && _) eqn:Eb; subst ch'; [|tauto].
    set (k1 := changed_at p (info_SetModerator true) k). pose proof (settings_with_owner p k1) as E. unfold settings in E.
    injection E as _ _ _ _ E1 _ E2 _ _. split; [by rewrite E2|]. split; [by rewrite E1|]. split; [|split].
    - intros Hch. apply with_owner_ok, changed_at_ok; [auto|]. intros i. apply set_flag_ok. by left.
    - intros g Hg. apply with_owner_on. left. apply changed_at_on. by left.
    - intros Hne. lia. }
  destruct H as (H1 & H2 & H3 & H4 & H5). split; simpl; auto.
  - intros HL q l' Hq. assert (Hq' : NoDup l' ∧ (c ∈ l' → is_Some (playersStore ch' !! q))); [|naive_solver].
    eapply listed_filter; [exact Hl| |by apply (HL victim)|exact Hq].
    intros q1 l1 Hne Hq1. destruct (HL q1 l1 Hq1) as [Hn Hc]. split; [done|]. intros Hin. apply H4. rewrite Kp.
    rewrite lookup_delete_ne by done. apply Hc; [tauto|done].
  - apply (lists_of_insert c m victim l); [done|]. intros c' Hc. rewrite list_elem_of_filter. tauto.
  - intros Hch H0 Hne. destruct (decide (victim = _ownerGUID ch)) as [E|E]; [by apply Hs|].
    rewrite (H5 E), Ko, Kp, lookup_delete_ne in Hne by done. by destruct Hne.
Qed.

(** Commands that change nothing. *)
Lemma runs_SendWhoOwner c F g x (Q : unit → view → Prop) : Q tt x → runs c (SendWhoOwner F c g) x Q.
Proof. intros H. by apply runs_chain, runs_chan, runs_SendToOne. Qed.
Lemma runs_List c F p x (Q : unit → view → Prop) : Q tt x → runs c (List_ F c p) x Q.
Proof.
  intros H. destruct x as [ch m]. apply runs_as_member; [done|]. intros i _. runs.
  destruct (list_loop _ _ _ _ _ _ _) as [data count]. by apply runs_SendToOne.
Qed.
Lemma runs_Say c F p what lang x (Q : unit → view → Prop) : Q tt x → runs c (Say F c p what lang) x Q.
Proof.
  intros H. destruct x as [ch m]. unfold Say. destruct (bool_decide _); [by apply runs_ret|]. runs.
  apply runs_as_member; [done|]. intros i Hi. apply runs_chain, runs_at_key with (i := i); [done|].
  destruct (IsMuted i); by runs.
Qed.
Lemma runs_Invite c F p newname x (Q : unit → view → Prop) : Q tt x → runs c (Invite F c p newname) x Q.
Proof.
  intros H. destruct x as [ch m]. apply runs_as_member; [done|]. intros i Hi. runs.
  destruct (FindPlayerByName F s newname) as [newp|]; [|by runs]. repeat (case_match; [by runs|]). by runs.
Qed.
