(* ===== verification/ChannelSafety.v ===== *)
(** * ChannelSafety: nothing that players do with channels goes wrong.

    [sound] worlds, where managers, channels and the lists of players agree, and [allowed]
    changes; every event of ChannelHandler.v keeps the one and makes only the other, and none
    ends in anything but a malformed packet ([attempt_occur]). *)
From S2P Require Import Prelude Bits ByteBuffer ByteBufferProps ObjectGuid FieldsText Utf8 Channel ChannelMgr ChannelHandler ChannelRuns.
From stdpp Require Import strings gmap sets list sorting.
Open Scope Z_scope.
Import Channel ChannelMgr ChannelHandler.

(** ** Bans in the database *)

Lemma decimal64_spec z : 0 ≤ z < 2 ^ 63 → Forall digit (decimal64 z) ∧ decimal64 z ≠ [] ∧ atol (decimal64 z) = Ok z.
Proof.
  intros Hz. destruct (decimal_loop_spec 20 z []) as (l & E & Hl & Hne & Hv); [|lia|].
  { change (10 ^ Z.of_nat 20) with 100000000000000000000. lia. }
  unfold decimal64. rewrite E, app_nil_r. split; [done|]. split; [done|]. rewrite <-Hv. apply atol_digits; [done..|lia].
Qed.

(** GUIDs that [atol] reads back; those of players are. *)
Definition storable (b : gset Z) : Prop := ∀ g, g ∈ b → 0 < g < 2 ^ 63.

Lemma load_bans_decimals l banned : Forall (λ g, 0 < g < 2 ^ 63) l →
  load_bans (decimal64 <$> l) banned = Ok (list_to_set l ∪ banned).
Proof.
  intros Hl. revert banned. induction Hl as [|g l Hg Hl IH]; intros banned; simpl; [by rewrite (left_id_L ∅ (∪))|].
  destruct (decimal64_spec g) as (_ & _ & ->); [lia|]. simpl. unfold u64. rewrite Z.mod_small by lia.
  rewrite (proj2 (Z.eqb_neq g 0)), IH by lia. f_equal. set_solver.
Qed.
Lemma ban_text_loads b : storable b → Tokenizer (ban_text b) 32 = Ok (decimal64 <$> ascending b) ∧
  load_bans (decimal64 <$> ascending b) ∅ = Ok b.
Proof.
  intros Hb. assert (Hl : Forall (λ g, 0 < g < 2 ^ 63) (ascending b)).
  { apply Forall_forall. intros g Hg. apply Hb. unfold ascending in Hg. rewrite merge_sort_Permutation in Hg. by apply elem_of_elements. }
  split.
  - rewrite <-(Tokenizer_words (decimal64 <$> ascending b)).
    + f_equal. unfold ban_text, words_text. clear Hl. induction (ascending b) as [|g l IH]; [done|]. by rewrite !fmap_cons, bind_cons, <-IH.
    + apply Forall_fmap. eapply Forall_impl; [exact Hl|]. intros g Hg. cbn beta in Hg.
      destruct (decimal64_spec g) as (Hd & _); [lia|]. eapply Forall_impl; [exact Hd|]. unfold digit. simpl. lia.
  - rewrite load_bans_decimals by done. f_equal. rewrite (right_id_L ∅ (∪)). unfold ascending.
    apply set_eq. intros g. rewrite elem_of_list_to_set, merge_sort_Permutation. apply elem_of_elements.
Qed.

(** ** Sound worlds *)

(** Octets below 0xF0: text without characters beyond the basic plane (or no text at all). *)
Definition tame : list Z → Prop := Forall (λ b, 0 ≤ b < 0xF0).

Record sound (s : World) : Prop := {
  sound_channel : ∀ c ch, heap s !! c = Some ch → c < next s ∧ channel_ok ch ∧ tame (_name ch);
  sound_listed : ∀ p l, m_channels s !! p = Some l → NoDup l ∧
    ∀ c, c ∈ l → ∃ ch, heap s !! c = Some ch ∧ is_Some (playersStore ch !! p);
  sound_registered : ∀ c ch, heap s !! c = Some ch → ∃ m k, key (_name ch) = Ok k ∧ channels (mgr m s) !! k = Some c;
  sound_registry : ∀ m k c, channels (mgr m s) !! k = Some c → ∃ ch, heap s !! c = Some ch ∧ key (_name ch) = Ok k;
  sound_apart : ∀ m m' k k' c, channels (mgr m s) !! k = Some c → channels (mgr m' s) !! k' = Some c → m = m' }.

Lemma sound_new : sound new_World.
Proof.
  split; cbn [heap m_channels new_World].
  - intros c ch H. by rewrite lookup_empty in H.
  - intros p l H. by rewrite lookup_empty in H.
  - intros c ch H. by rewrite lookup_empty in H.
  - intros [] k c; cbn [mgr alliance horde channels new_World]; by rewrite lookup_empty.
  - intros [] m' k k' c; cbn [mgr alliance horde channels new_World]; by rewrite lookup_empty.
Qed.

Lemma sound_listed_view s c ch : sound s → heap s !! c = Some ch → listed c (ch, m_channels s).
Proof.
  intros Hs Hc q l Hq. simpl in *. destruct (sound_listed s Hs q l Hq) as [Hn Hl]. split; [done|].
  intros _ Hin. destruct (Hl c Hin) as (ch' & E & Hon). rewrite Hc in E. by injection E as <-.
Qed.

Lemma framed_mgr c x s s' m : framed c x s s' → mgr m s' = mgr m s.
Proof. intros [cs ->]. by destruct m. Qed.

(** A method of one channel keeps the world sound. *)
Lemma sound_framed c ch x s s' : sound s → heap s !! c = Some ch → framed c x s s' →
  channel_ok x.1 → listed c x → lists_of c (m_channels s) x.2 → _name x.1 = _name ch → sound s'.
Proof.
  intros Hs Hc Hf Hok Hl Hm Hn. pose proof (λ m, framed_mgr c x s s' m Hf) as Hg. destruct Hf as [cs ->]. split; simpl.
  - intros c' ch' H. destruct (decide (c' = c)) as [->|Hne].
    + rewrite lookup_insert_eq in H. injection H as <-. destruct (sound_channel s Hs c ch Hc) as (? & _ & ?). by rewrite Hn.
    + rewrite lookup_insert_ne in H by done. by apply (sound_channel s Hs).
  - intros p l Hp. destruct (Hl p l Hp) as [Hnd Hin]. split; [done|]. intros c' Hc'.
    destruct (decide (c' = c)) as [->|Hne].
    + exists x.1. rewrite lookup_insert_eq. split; [done|]. apply Hin; [tauto|done].
    + rewrite lookup_insert_ne by done. destruct (Hm p) as [[_ E]|(l0 & l1 & E0 & E1 & H)]; [congruence|].
      rewrite E1 in Hp. injection Hp as ->. apply H in Hc'; [|done]. by apply (sound_listed s Hs p l0).
  - intros c' ch' H. destruct (decide (c' = c)) as [->|Hne].
    + rewrite lookup_insert_eq in H. injection H as <-. destruct (sound_registered s Hs c ch Hc) as (m & k & Hk & Hr).
      exists m, k. rewrite Hn, Hg. done.
    + rewrite lookup_insert_ne in H by done. destruct (sound_registered s Hs c' ch' H) as (m & k & Hk & Hr).
      exists m, k. by rewrite Hg.
  - intros m k c'. rewrite Hg. intros H. destruct (sound_registry s Hs m k c' H) as (ch' & E & Hk).
    destruct (decide (c' = c)) as [->|Hne]; [|exists ch'; by rewrite lookup_insert_ne].
    exists x.1. rewrite lookup_insert_eq. split; [done|]. rewrite Hc in E. injection E as <-. by rewrite Hn.
  - intros m m' k k' c'. rewrite !Hg. apply (sound_apart s Hs).
Qed.

(** The players who are logged in. *)
Definition present (s : World) (p : Z) : Prop := is_Some (m_channels s !! p).

(** ** Managers *)

Lemma key_tame name : tame name → ∃ k, key name = Ok k.
Proof.
  intros Hn. unfold key. destruct (Utf8.Utf8toWStr_low name) as [w ->]; [| |by eexists];
    (eapply Forall_impl; [exact Hn|]; unfold is_byte; simpl; lia).
Qed.

(** The database answers with what was stored. *)
Definition answers_stored (F : Facts) : Prop := ∀ cs name team row text,
  select_channel F cs name team = Some row → row_bannedList row = Some text → ∃ b, storable b ∧ text = ban_text b.

Lemma new_Channel_ok F entry name channelId Team s : answers_stored F →
  returns (new_Channel F entry name channelId Team) s (λ ch s', (∃ cs, s' = mkWorld (heap s) (next s) (alliance s) (horde s) (m_channels s) cs) ∧
    _name ch = name ∧ playersStore ch = ∅).
Proof.
  intros Hf. assert (Hs : s = mkWorld (heap s) (next s) (alliance s) (horde s) (m_channels s) (calls s)) by by destruct s.
  unfold new_Channel. destruct entry as [fl|]; [apply ends_ret; split; [by eexists|done]|].
  destruct (CONFIG_PRESERVE_CUSTOM_CHANNELS F); [|apply ends_ret; split; [by eexists|done]].
  apply ends_bind, ends_getX, ends_bind, ends_modifyX. destruct (select_channel F (calls s) name Team) as [row|] eqn:Er.
  - apply ends_bind, ends_liftX. destruct (row_bannedList row) as [text|] eqn:Et.
    + destruct (Hf _ _ _ _ _ Er Et) as (b & Hb & ->). destruct (ban_text_loads b Hb) as [-> E2]. cbn [mbind result_bind]. rewrite E2.
      apply ends_ret. split; [by eexists|done].
    + apply ends_ret. split; [by eexists|done].
  - apply ends_bind, ends_modifyX, ends_ret. split; [by eexists|done].
Qed.

(** Channels that are there stay as they are; what is new has a new address. *)
Definition grows (s s' : World) : Prop :=
  next s ≤ next s' ∧ m_channels s' = m_channels s ∧ (∀ c ch, heap s !! c = Some ch → heap s' !! c = Some ch) ∧
  (∀ c, c < next s → heap s !! c = None → heap s' !! c = None).

Lemma mgr_set_mgr m x s m' : mgr m' (set_mgr m x s) = if decide (m' = m) then x else mgr m' s.
Proof. by destruct m, m'. Qed.
Lemma heap_set_mgr m x s : heap (set_mgr m x s) = heap s.
Proof. by destruct m. Qed.
Lemma next_set_mgr m x s : next (set_mgr m x s) = next s.
Proof. by destruct m. Qed.
Lemma lists_set_mgr m x s : m_channels (set_mgr m x s) = m_channels s.
Proof. by destruct m. Qed.

Lemma sound_setTeam m t s : sound s → sound (set_mgr m (mkChannelMgr (channels (mgr m s)) t) s).
Proof.
  intros Hs. assert (H : ∀ m', channels (mgr m' (set_mgr m (mkChannelMgr (channels (mgr m s)) t) s)) = channels (mgr m' s)).
  { intros m'. rewrite mgr_set_mgr. by destruct (decide (m' = m)) as [->|]. }
  split; rewrite ?heap_set_mgr, ?next_set_mgr, ?lists_set_mgr; try apply Hs.
  - intros c ch Hc. destruct (sound_registered s Hs c ch Hc) as (m' & k & Hk & Hr). exists m', k. by rewrite H.
  - intros m' k c. rewrite H. apply Hs.
  - intros m1 m2 k k' c. rewrite !H. apply Hs.
Qed.

(** A new channel, under the key of its name. *)
Section register.
Context (s : World) (m : side) (k : list Z) (nchan : Channel) (cs : list call).
Let c := next s.
Definition registered : World :=
  let s2 := mkWorld (<[c := nchan]> (heap s)) (c + 1) (alliance s) (horde s) (m_channels s) cs in
  set_mgr m (mkChannelMgr (<[k := c]> (channels (mgr m s2))) (team (mgr m s2))) s2.

Lemma registered_mgr m' k' : channels (mgr m' registered) !! k' =
  (if decide (m' = m ∧ k' = k) then Some c else channels (mgr m' s) !! k').
Proof.
  unfold registered. rewrite mgr_set_mgr. destruct (decide (m' = m)) as [->|Hm]; simpl.
  - destruct (decide (k' = k)) as [->|Hk]; [by rewrite lookup_insert_eq, decide_True|].
    rewrite lookup_insert_ne, decide_False by naive_solver. by destruct m.
  - rewrite decide_False by naive_solver. by destruct m'.
Qed.
Lemma registered_heap : heap registered = <[c := nchan]> (heap s).
Proof. apply heap_set_mgr. Qed.
Lemma registered_grows : heap s !! c = None → grows s registered.
Proof.
  intros Hc. unfold grows, registered. rewrite !heap_set_mgr, !next_set_mgr, !lists_set_mgr. cbn [heap next m_channels].
  split; [subst c; lia|]. split; [done|]. split.
  - intros c' ch' H. rewrite lookup_insert_ne; [done|]. congruence.
  - intros c' Hlt H. rewrite lookup_insert_ne; [done|]. subst c. lia.
Qed.

Lemma registered_sound : sound s → channels (mgr m s) !! k = None → key (_name nchan) = Ok k → tame (_name nchan) →
  channel_ok nchan → sound registered.
Proof.
  intros Hs Ek Hk Hn Hok.
  assert (Hc : ∀ c' ch', heap s !! c' = Some ch' → c ≠ c').
  { intros c' ch' H. destruct (sound_channel s Hs c' ch' H). subst c. lia. }
  assert (Hr : ∀ m' k' c', channels (mgr m' s) !! k' = Some c' → c ≠ c').
  { intros m' k' c' H. destruct (sound_registry s Hs m' k' c' H) as (ch' & H' & _). by eapply Hc. }
  assert (Hnx : next registered = c + 1 ∧ m_channels registered = m_channels s) by (unfold registered; by rewrite next_set_mgr, lists_set_mgr).
  destruct Hnx as [Hnx Hml]. split; rewrite ?registered_heap, ?Hnx, ?Hml.
  - intros c' ch' [[<- <-]|[Hne H]]%lookup_insert_Some; [split; [lia|done]|].
    destruct (sound_channel s Hs c' ch' H) as (? & ? & ?). split; [unfold c; lia|done].
  - intros p l Hp. destruct (sound_listed s Hs p l Hp) as [Hnd Hin]. split; [done|]. intros c' Hc'.
    destruct (Hin c' Hc') as (ch' & E & Hon). exists ch'. rewrite lookup_insert_ne by by eapply Hc. done.
  - intros c' ch' [[<- <-]|[Hne H]]%lookup_insert_Some.
    + exists m, k. by rewrite registered_mgr, decide_True.
    + destruct (sound_registered s Hs c' ch' H) as (m' & k' & Hk' & Hr'). exists m', k'. split; [done|].
      rewrite registered_mgr, decide_False; [done|]. intros [-> ->]. congruence.
  - intros m' k' c'. rewrite registered_mgr. destruct (decide (m' = m ∧ k' = k)) as [[-> ->]|Hne].
    + intros [= <-]. exists nchan. by rewrite lookup_insert_eq.
    + intros H. destruct (sound_registry s Hs _ _ _ H) as (ch' & E & ?). exists ch'. rewrite lookup_insert_ne; [done|by eapply Hr].
  - intros m1 m2 k1 k2 c'. rewrite !registered_mgr. destruct (decide (m1 = m ∧ k1 = k)) as [[-> ->]|H1], (decide (m2 = m ∧ k2 = k)) as [[-> ->]|H2].
    + done.
    + intros [= <-] H. by destruct (Hr _ _ _ H).
    + intros H [= <-]. by destruct (Hr _ _ _ H).
    + apply (sound_apart s Hs).
Qed.
End register.

Lemma ends_GetJoinChannel D F m name channelId s : sound s → tame name → answers_stored F →
  returns (GetJoinChannel D F m name channelId) s (λ c s', sound s' ∧ grows s s' ∧ is_Some (heap s' !! c)).
Proof.
  intros Hs Hn Hf. destruct (key_tame name Hn) as [k Hk]. unfold GetJoinChannel.
  apply ends_bind, ends_liftX. rewrite Hk. apply ends_bind, ends_getX.
  destruct (channels (mgr m s) !! k) as [c|] eqn:Ek.
  { apply ends_ret. split; [done|]. split; [split; [lia|done]|]. destruct (sound_registry s Hs m k c Ek) as (ch & -> & _). done. }
  apply ends_bind. eapply ends_mono; [by apply new_Channel_ok|]. intros nchan s1 ([cs ->] & Hnm & Hpl).
  apply ends_bind, ends_getX, ends_bind, ends_modifyX, ends_bind, ends_modifyX, ends_ret. cbn [heap next alliance horde m_channels calls].
  change (sound (registered s m k nchan cs) ∧ grows s (registered s m k nchan cs) ∧ is_Some (heap (registered s m k nchan cs) !! next s)).
  split; [|split].
  - apply registered_sound; rewrite ?Hnm; try done. unfold channel_ok. rewrite Hpl. apply map_Forall_empty.
  - apply registered_grows. destruct (heap s !! next s) as [ch|] eqn:E; [|done]. destruct (sound_channel s Hs _ _ E). lia.
  - rewrite registered_heap, lookup_insert_eq. done.
Qed.

Definition shrinks (s s' : World) : Prop :=
  next s' = next s ∧ m_channels s' = m_channels s ∧ (∀ c ch, heap s' !! c = Some ch → heap s !! c = Some ch) ∧
  (∀ c ch, heap s !! c = Some ch → playersStore ch ≠ ∅ → heap s' !! c = Some ch).

Lemma ends_mgr_LeftChannel m name s : sound s → tame name →
  returns (mgr_LeftChannel m name) s (λ _ s', sound s' ∧ shrinks s s').
Proof.
  intros Hs Hn. destruct (key_tame name Hn) as [k Hk]. unfold mgr_LeftChannel.
  apply ends_bind, ends_liftX. rewrite Hk. apply ends_bind, ends_getX.
  destruct (channels (mgr m s) !! k) as [c|] eqn:Ek; [|by apply ends_ret].
  destruct (sound_registry s Hs m k c Ek) as (ch & Hc & Hkc). unfold chan. apply ends_bind, ends_bind, ends_getX. rewrite Hc. apply ends_ret.
  apply ends_when; [|done]. intros E. apply ends_bind, ends_modifyX, ends_modifyX.
  assert (He : playersStore ch = ∅). { apply map_size_empty_inv. unfold GetNumPlayers in E. apply andb_true_iff in E as [E _]. by apply Nat.eqb_eq. }
  set (s1 := set_mgr _ _ _). assert (Hm : ∀ m' k', channels (mgr m' (set_heap (delete c (heap s1)) s1)) !! k' =
    (if decide (m' = m ∧ k' = k) then None else channels (mgr m' s) !! k')).
  { intros m' k'. transitivity (channels (mgr m' s1) !! k'); [by destruct m'|]. subst s1. rewrite mgr_set_mgr.
    destruct (decide (m' = m)) as [->|Hm]; [|by rewrite decide_False by naive_solver]. cbn [channels].
    destruct (decide (k' = k)) as [->|Hkk]; [by rewrite lookup_delete_eq, decide_True|].
    by rewrite lookup_delete_ne, decide_False by naive_solver. }
  assert (Hh : heap (set_heap (delete c (heap s1)) s1) = delete c (heap s)) by (cbn [heap set_heap]; subst s1; by rewrite heap_set_mgr).
  assert (Hnl : next (set_heap (delete c (heap s1)) s1) = next s ∧ m_channels (set_heap (delete c (heap s1)) s1) = m_channels s)
    by (cbn [next m_channels set_heap]; subst s1; by rewrite next_set_mgr, lists_set_mgr).
  destruct Hnl as [Hnx Hl]. set (s2 := set_heap _ _) in *. clearbody s2. clear s1. split.
  - split; rewrite ?Hh, ?Hnx, ?Hl.
    + intros c' ch' [_ H]%lookup_delete_Some. by apply (sound_channel s Hs).
    + intros p l Hp. destruct (sound_listed s Hs p l Hp) as [Hnd Hin]. split; [done|]. intros c' Hc'.
      destruct (Hin c' Hc') as (ch' & E' & Hon). exists ch'. rewrite lookup_delete_ne; [done|]. intros <-.
      rewrite Hc in E'. injection E' as <-. rewrite He, lookup_empty in Hon. by destruct Hon.
    + intros c' ch' [Hne H]%lookup_delete_Some. destruct (sound_registered s Hs c' ch' H) as (m' & k' & Hk' & Hr).
      exists m', k'. split; [done|]. rewrite Hm, decide_False; [done|]. intros [-> ->]. congruence.
    + intros m' k' c'. rewrite Hm. destruct (decide (m' = m ∧ k' = k)) as [|Hne]; [done|]. intros H.
      destruct (sound_registry s Hs m' k' c' H) as (ch' & E' & Hk'). exists ch'. rewrite lookup_delete_ne; [done|]. intros <-.
      apply Hne. split; [by eapply (sound_apart s Hs)|]. rewrite Hc in E'. injection E' as <-. congruence.
    + intros m1 m2 k1 k2 c'. rewrite !Hm. destruct (decide _); [done|]. destruct (decide _); [done|]. apply (sound_apart s Hs).
  - unfold shrinks. rewrite Hh, Hnx, Hl. split; [done|]. split; [done|]. split; [by intros c' ch' [_ H]%lookup_delete_Some|].
    intros c' ch' H Hne. rewrite lookup_delete_ne; [done|]. intros <-. congruence.
Qed.

(** ** What a player's coming and going leaves alone *)

Record came_and_went (p : Z) (s s' : World) : Prop := {
  caw_next : next s ≤ next s';
  caw_present : ∀ q, present s q → present s' q;
  caw_channels : ∀ c ch', c < next s → heap s' !! c = Some ch' → ∃ ch, heap s !! c = Some ch ∧ quiet p ch ch' }.
#[global] Instance came_and_went_preorder p : PreOrder (came_and_went p).
Proof.
  split.
  - intros s. split; [lia|done|]. intros c ch' _ H. by exists ch'.
  - intros s1 s2 s3 [N1 P1 C1] [N2 P2 C2]. split; [lia|auto|]. intros c ch' Hc H.
    destruct (C2 c ch') as (ch2 & H2 & Q2); [lia|done|]. destruct (C1 c ch2 Hc H2) as (ch1 & H1 & Q1).
    exists ch1. split; [done|]. by transitivity ch2.
Qed.

Lemma framed_came_and_went p c ch x s s' : heap s !! c = Some ch → framed c x s s' → quiet p ch x.1 →
  lists_of c (m_channels s) x.2 → came_and_went p s s'.
Proof.
  intros Hc [cs ->] Hq Hl. split; simpl; [lia| |].
  - intros q [l E]. unfold present. simpl. destruct (Hl q) as [[E' _]|(l0 & l1 & _ & -> & _)]; [congruence|done].
  - intros c' ch' _ [[<- <-]|[Hne H]]%lookup_insert_Some; [by exists ch|by exists ch'].
Qed.
Lemma grows_came_and_went p s s' : grows s s' → came_and_went p s s'.
Proof.
  intros (Hn & Hl & Hh & Hf). split; [done|by unfold present; rewrite Hl|]. intros c ch' Hc H.
  destruct (heap s !! c) as [ch|] eqn:E; [|by rewrite (Hf c Hc E) in H]. exists ch. split; [done|].
  rewrite (Hh _ _ E) in H. by injection H as <-.
Qed.
Lemma shrinks_came_and_went p s s' : shrinks s s' → came_and_went p s s'.
Proof.
  intros (Hn & Hl & Hh & _). split; [lia|by unfold present; rewrite Hl|]. intros c ch' _ H. exists ch'. split; [auto|done].
Qed.

Lemma quiet_name p ch ch' : quiet p ch ch' → _name ch' = _name ch ∧ _channelId ch' = _channelId ch.
Proof. intros [H _ _]. unfold settings in H. injection H as _ _ _ _ E1 _ E2 _ _. done. Qed.

Lemma lists_of_self c p l l' (m : gmap Z (list Z)) : m !! p = Some l → (∀ c', c' ≠ c → c' ∈ l' ↔ c' ∈ l) → lists_of c m (<[p := l']> m).
Proof. apply lists_of_insert. Qed.

Lemma ends_JoinChannel F c p pass s : sound s → present s p → is_Some (heap s !! c) →
  returns (JoinChannel F c p pass) s (λ _ s', sound s' ∧ came_and_went p s s' ∧
    (∀ c', is_Some (heap s !! c') → is_Some (heap s' !! c')) ∧
    ∀ l l', m_channels s !! p = Some l → m_channels s' !! p = Some l' → ∀ c', c' ∈ l → c' ∈ l').
Proof.
  intros Hs [l Hl] [ch Hc]. destruct (sound_channel s Hs c ch Hc) as (_ & Hok & _).
  pose proof (sound_listed_view s c ch Hs Hc) as Hlv.
  eapply ends_mono; [apply (runs_JoinChannel c F p pass ch (m_channels s) l Hl s); done|].
  intros _ s' (x & Hx & Hf).
  assert (H : quiet p ch x.1 ∧ channel_ok x.1 ∧ listed c x ∧ lists_of c (m_channels s) x.2 ∧
    ∀ l', x.2 !! p = Some l' → ∀ c', c' ∈ l → c' ∈ l').
  { destruct Hx as [->|(Hon & Hm & Hx)].
    { split; [done|]. split; [done|]. split; [done|]. split; [apply lists_of_refl|]. simpl. rewrite Hl. by intros l' [= <-]. }
    assert (Hq : quiet p ch x.1 ∧ channel_ok x.1 ∧ ∀ g, is_Some (playersStore ch !! g) ∨ g = p → is_Some (playersStore x.1 !! g)).
    { destruct (joined_quiet p ch Hon) as [Q1 Q2], (joined_ok p ch Hok) as [O1 O2].
      assert (Hj : ∀ g, is_Some (playersStore ch !! g) ∨ g = p → is_Some (playersStore (joined p ch) !! g)).
      { intros g Hg. unfold joined. simpl. apply lookup_insert_is_Some. destruct (decide (p = g)); naive_solver. }
      destruct Hx as [E|[E0 E]]; rewrite E; [done|]. split; [auto|]. split; [done|]. intros g Hg.
      apply changed_at_on. left. apply with_owner_on. left. by apply Hj. }
    destruct Hq as (Q & O & Hon'). split; [done|]. split; [done|]. rewrite Hm. split; [|split].
    - intros q l' Hq. rewrite Hm in Hq. apply lookup_insert_Some in Hq as [[<- <-]|[Hne Hq]].
      + destruct (Hlv p l Hl) as [Hnd Hcl]. split; [|by auto]. apply NoDup_app. split; [done|]. split; [|apply NoDup_singleton].
        intros c' Hin ->%list_elem_of_singleton. destruct (Hcl (λ f, f) Hin) as [i Hi]. simpl in Hi.
        enough (IsOn ch p = true) by congruence. apply IsOn_spec. by rewrite Hi.
      + destruct (Hlv q l' Hq) as [Hnd Hcl]. split; [done|]. intros _ Hin. apply Hon'. left. by apply Hcl; [tauto|].
    - apply (lists_of_self c p l); [done|]. intros c' Hne. rewrite elem_of_app, list_elem_of_singleton. tauto.
    - rewrite lookup_insert_eq. intros l' [= <-] c' Hin. apply elem_of_app. by left. }
  destruct H as (Q & O & L & LL & HL). split; [|split; [|split]].
  - eapply sound_framed; try done. apply (quiet_name p ch x.1 Q).
  - by eapply framed_came_and_went.
  - destruct Hf as [cs ->]. simpl. intros c' Hc'. apply lookup_insert_is_Some. destruct (decide (c = c')); auto.
  - intros l0 l' E E'. rewrite Hl in E. injection E as <-. apply HL. destruct Hf as [cs ->]. exact E'.
Qed.

Lemma ends_LeaveChannel F c p send s ch l : sound s → m_channels s !! p = Some l → heap s !! c = Some ch →
  returns (LeaveChannel F c p send) s (λ _ s', ∃ x, framed c x s s' ∧ quiet p ch x.1 ∧ channel_ok x.1 ∧
    lists_of c (m_channels s) x.2 ∧ listed_but (λ q, q = p) c x ∧ (send = true ∨ c ∉ l → listed c x) ∧
    (send = false → x.2 = m_channels s)).
Proof.
  intros Hs Hl Hc. destruct (sound_channel s Hs c ch Hc) as (_ & Hok & _).
  pose proof (sound_listed_view s c ch Hs Hc) as Hlv.
  eapply ends_mono; [apply (runs_LeaveChannel c F p send ch (m_channels s) l Hl s); done|].
  intros _ s' (x & Hx & Hf). exists x. split; [done|]. destruct Hx as [[_ ->]|(Hon & Hm & Hx)].
  { split; [done|]. split; [done|]. split; [apply lists_of_refl|]. split; [|done].
    intros q l' Hq. destruct (Hlv q l' Hq) as [H1 H2]. split; [done|]. intros _. apply H2. tauto. }
  assert (H : quiet p ch x.1 ∧ channel_ok x.1 ∧ ∀ g, g ≠ p → is_Some (playersStore ch !! g) → is_Some (playersStore x.1 !! g)).
  { assert (Hlf : ∀ g, g ≠ p → is_Some (playersStore ch !! g) → is_Some (playersStore (left p ch) !! g)).
    { intros g Hg Hi. unfold left. simpl. by rewrite lookup_delete_ne. }
    destruct Hx as [->|(i & o & Hi & Ho & Hsc & ->)].
    - split; [apply left_quiet|]. split; [by apply left_ok|done].
    - split; [by eapply handed_over_quiet|]. split; [by apply handed_over_ok|]. intros g Hg Hgi.
      apply with_owner_on. left. apply changed_at_on. left. by apply Hlf. }
  destruct H as (Q & O & Hot). split; [done|]. split; [done|]. rewrite Hm. split; [|split; [|split; [|by intros ->]]].
  - destruct send; [|apply lists_of_refl]. apply (lists_of_self c p l); [done|]. intros c' Hne. rewrite list_elem_of_filter. tauto.
  - intros q l' Hq. rewrite Hm in Hq. destruct send.
    + apply lookup_insert_Some in Hq as [[<- <-]|[Hne Hq]]; [split; [apply NoDup_filter, (Hlv p l Hl)|done]|].
      destruct (Hlv q l' Hq) as [H1 H2]. split; [done|]. intros _ Hin. apply Hot; [done|]. by apply H2; [tauto|].
    + destruct (Hlv q l' Hq) as [H1 H2]. split; [done|]. intros Hne Hin. apply Hot; [done|]. by apply H2; [tauto|].
  - intros Hsend q l' Hq. rewrite Hm in Hq. destruct (decide (q = p)) as [->|Hne].
    + assert (Hnd : NoDup l) by apply (Hlv p l Hl). destruct send.
      * rewrite lookup_insert_eq in Hq. injection Hq as <-. split; [by apply NoDup_filter|]. intros _ Hin.
        apply list_elem_of_filter in Hin as [Hin _]. done.
      * rewrite Hl in Hq. injection Hq as <-. split; [done|]. intros _ Hin. destruct Hsend; done.
    + assert (Hq' : m_channels s !! q = Some l') by (destruct send; [by rewrite lookup_insert_ne in Hq|done]).
      destruct (Hlv q l' Hq') as [H1 H2]. split; [done|]. intros _ Hin. apply Hot; [done|]. by apply H2; [tauto|].
Qed.

(** Leaving, when the list is already right or the method puts it right. *)
Lemma ends_LeaveChannel_sound F c p send s l : sound s → m_channels s !! p = Some l → is_Some (heap s !! c) →
  send = true ∨ c ∉ l →
  returns (LeaveChannel F c p send) s (λ _ s', sound s' ∧ came_and_went p s s' ∧
    (∃ ch', heap s' !! c = Some ch' ∧ tame (_name ch') ∧ (send = false → m_channels s' = m_channels s)) ∧
    ∀ c' ch', heap s !! c' = Some ch' → c' ≠ c → heap s' !! c' = Some ch').
Proof.
  intros Hs Hl [ch Hc] Hsend. destruct (sound_channel s Hs c ch Hc) as (_ & _ & Hn).
  eapply ends_mono; [by eapply ends_LeaveChannel|]. intros _ s' (x & Hf & Q & O & LL & _ & HL & Hm).
  destruct (quiet_name p ch x.1 Q) as [En _]. split; [|split; [|split]].
  - apply (sound_framed c ch x s s'); auto.
  - by eapply framed_came_and_went.
  - apply framed_sees in Hf as [Hx1 Hx2]. exists x.1. split; [done|]. rewrite En. split; [done|]. intros E. by rewrite Hx2, (Hm E).
  - intros c' ch' H Hne. destruct Hf as [cs ->]. cbn [heap]. by rewrite lookup_insert_ne.
Qed.

(** Channels with members stay as they are, but for those of a list. *)
Definition untouched (l : list Z) (s s' : World) : Prop :=
  ∀ c ch, heap s !! c = Some ch → c ∉ l → playersStore ch ≠ ∅ → heap s' !! c = Some ch.

(** Logging out. *)
Lemma ends_CleanupChannels F p s : sound s → present s p →
  returns (CleanupChannels F p) s (λ _ s', sound s' ∧ came_and_went p s s' ∧ m_channels s' !! p = Some [] ∧ untouched (default [] (m_channels s !! p)) s s').
Proof.
  intros Hs [l Hl]. unfold CleanupChannels. apply ends_bind, ends_getX. rewrite Hl. cbn [default from_option id].
  revert s Hs Hl. induction l as [|c l IH]; intros s Hs Hl; cbn [length cleanup_loop]; apply ends_bind, ends_getX; rewrite Hl; [apply ends_ret; split; [done|]; split; [done|]; split; [done|by intros ???]|].
  unfold change_channels. apply ends_bind, ends_bind, ends_getX. rewrite Hl. apply ends_modifyX.
  set (s1 := set_m_channels _ _). destruct (sound_listed s Hs p (c :: l) Hl) as [[Hcl Hnd]%NoDup_cons Hin].
  assert (Hs1 : sound s1).
  { split; try apply Hs. intros q l' Hq. unfold s1 in Hq. cbn [m_channels set_m_channels] in Hq. apply lookup_insert_Some in Hq as [[<- <-]|[_ Hq]]; [|by apply (sound_listed s Hs)].
    split; [done|]. intros c' Hc'. apply Hin. by constructor. }
  assert (Hl1 : m_channels s1 !! p = Some l) by (cbn [m_channels s1 set_m_channels]; apply lookup_insert_eq).
  assert (Hcw : came_and_went p s s1).
  { split; [done| |intros c' ch' _ H; by exists ch']. intros q [l' Hq]. unfold present, s1. simpl. apply lookup_insert_is_Some. destruct (decide (p = q)); [by left|right; by rewrite Hq]. }
  destruct (Hin c ltac:(constructor)) as (ch & Hc & _).
  apply ends_bind. eapply ends_mono; [apply (ends_LeaveChannel_sound F c p false s1 l Hs1 Hl1); [by exists ch|by right]|].
  intros _ s2 (Hs2 & Hcw2 & (ch' & Hc' & Hn' & Hm2) & Hu2).
  assert (Hl2 : m_channels s2 !! p = Some l) by by rewrite (Hm2 eq_refl).
  apply ends_bind. apply ends_mono with (P := λ _ s3, sound s3 ∧ came_and_went p s2 s3 ∧ m_channels s3 !! p = Some l ∧ untouched [] s2 s3).
  { destruct (forTeam F (GetTeam F p)) as [m|]; [|apply ends_ret; split; [done|]; split; [done|]; split; [done|by intros ???]].
    unfold chan. apply ends_bind, ends_bind, ends_getX. rewrite Hc'. apply ends_ret. eapply ends_mono; [by apply ends_mgr_LeftChannel|]. intros _ s3 (Hs3 & Hsh). split; [done|].
    split; [by apply shrinks_came_and_went|]. destruct Hsh as (_ & -> & _ & Hk). split; [done|]. intros c' ch2 H _ Hne. by apply Hk. }
  intros _ s3 (Hs3 & Hcw3 & Hl3 & Hu3). eapply ends_mono; [by apply IH|]. intros _ s4 (Hs4 & Hcw4 & Hl4 & Hu4). split; [done|].
  split; [etrans; [exact Hcw|]; etrans; [exact Hcw2|]; by etrans|]. split; [done|].
  intros c' ch2 H Hni Hne. apply not_elem_of_cons in Hni as [Hne' Hni]. apply Hu4; [|done|done]. apply Hu3; [|apply not_elem_of_nil|done].
  by apply Hu2.
Qed.

(** ** Built-in channels *)

(** Patterns with at most one [%s] and no other conversion. *)
Definition stores_fine (D : Stores) : Prop :=
  (∀ id e, LookupEntry D id = Some e → tame (pattern e) ∧ ∃ r, format (pattern e) (Some []) = Ok r) ∧
  tame (LANG_CHANNEL_CITY D) ∧ (∀ a z, GetAreaEntryByAreaID D a = Some z → tame (area_name z)).

Lemma format_tame n pat arg r : (length pat ≤ n)%nat → tame pat → tame (default [] arg) →
  format pat ((λ _, []) <$> arg) = Ok r → ∃ r', format pat arg = Ok r' ∧ tame r'.
Proof.
  revert pat arg r. induction n as [|n IH]; intros [|c pat] arg r Hn Hp Ha; simpl in Hn; try lia;
    [by exists []; split; [|constructor]..|].
  apply Forall_cons in Hp as [Hc Hp]. cbn [format]. destruct (c =? 37).
  - destruct pat as [|d pat]; [done|]. apply Forall_cons in Hp as [Hd Hp]. simpl in Hn. destruct (d =? 37).
    + destruct (format pat _) as [r1|] eqn:E; [|done]. intros _. destruct (IH pat arg r1) as (r' & -> & Hr); [lia|done..|].
      eexists. split; [done|]. by constructor.
    + destruct (d =? 115); [|done]. destruct arg as [s|]; [|done]. cbn [fmap option_fmap option_map].
      destruct (format pat None) as [r1|] eqn:E; [|done]. intros _. destruct (IH pat None r1) as (r' & E' & Hr); [lia|done|constructor|done|].
      rewrite E in E'. injection E' as ->. eexists. split; [done|]. by apply Forall_app.
  - destruct (format pat _) as [r1|] eqn:E; [|done]. intros _. destruct (IH pat arg r1) as (r' & -> & Hr); [lia|done..|].
    eexists. split; [done|]. by constructor.
Qed.
Lemma snprintf_tame n pat arg : tame pat → tame arg → (∃ r, format pat (Some []) = Ok r) → ∃ r, snprintf n pat arg = Ok r ∧ tame r.
Proof.
  intros Hp Ha [r Hr]. destruct (format_tame (length pat) pat (Some arg) r) as (r' & E & Ht); [done..|].
  unfold snprintf. rewrite E. eexists. split; [done|]. by apply Forall_take.
Qed.

Lemma ends_used_channel l i s : (∀ c, c ∈ l → is_Some (heap s !! c)) →
  returns (used_channel l i) s (λ u s', s' = s ∧ ∀ c, u = Some c → c ∈ l).
Proof.
  induction l as [|c l IH]; intros H; cbn [used_channel]; [by apply ends_ret|].
  destruct (H c ltac:(constructor)) as [ch Hc]. unfold chan. apply ends_bind, ends_bind, ends_getX. rewrite Hc. apply ends_ret.
  destruct (_channelId ch =? i).
  - apply ends_ret. split; [done|]. intros c' [= <-]. constructor.
  - eapply ends_mono; [apply IH; intros c' Hc'; apply H; by constructor|]. intros u s' [-> Hu]. split; [done|].
    intros c' E. constructor. by apply Hu.
Qed.

(** The choice for one built-in channel: what is to be joined and left is there, and they differ. *)
Lemma ends_choose_channels D F m p channel zone used s : sound s → answers_stored F → stores_fine D →
  (∃ id, LookupEntry D id = Some channel) → tame (area_name zone) →
  returns (choose_channels D F m p channel zone used) s (λ r s', sound s' ∧ grows s s' ∧
    match r with
    | None => True
    | Some (join, remove, _) => (∀ c, join = Some c → is_Some (heap s' !! c)) ∧ (remove = None ∨ remove = used)
    end).
Proof.
  intros Hs Hf (Hst & Hcity & _) [id Hid] Hz. destruct (Hst id channel Hid) as [Hp Hfmt].
  assert (Hg : grows s s) by by split.
  unfold choose_channels. destruct (CanJoinConstantChannelInZone F p channel zone); [|apply ends_ret; split; [done|]; split; [done|]; split; [done|by right]].
  destruct (negb (has (entry_flags channel) CHANNEL_DBC_FLAG_GLOBAL)).
  - cbv zeta. destruct (_ && bool_decide _); [by apply ends_ret|].
    set (ext := if has _ _ then _ else _). assert (He : tame ext) by (subst ext; by destruct (has _ _)).
    destruct (snprintf_tame 100 (pattern channel) ext Hp He Hfmt) as (name & -> & Hname).
    apply ends_bind, ends_liftX, ends_bind. eapply ends_mono; [by apply ends_GetJoinChannel|]. intros c s1 (Hs1 & Hg1 & Hc).
    assert (Hj : ∀ c', Some c = Some c' → is_Some (heap s1 !! c')) by by intros c' [= <-].
    destruct used as [u|]; [destruct (negb (c =? u))|]; apply ends_ret; (split; [done|]; split; [done|]); (split; [done|auto]).
  - apply ends_bind. eapply ends_mono; [by apply ends_GetJoinChannel|]. intros c s1 (Hs1 & Hg1 & Hc). apply ends_ret.
    split; [done|]. split; [done|]. split; [by intros c' [= <-]|by left].
Qed.

(** Leaving a built-in channel: off the channel, then off the list, then perhaps deleted. *)
Lemma ends_leave_built_in F m c p send s : sound s → present s p → is_Some (heap s !! c) →
  returns (LeaveChannel F c p send;; ch ← chan c; LeftChannel p c;; mgr_LeftChannel m (_name ch)) s
    (λ _ s', sound s' ∧ came_and_went p s s').
Proof.
  intros Hs [l Hl] [ch Hc]. destruct (sound_channel s Hs c ch Hc) as (_ & _ & Hn).
  apply ends_bind. eapply ends_mono; [by eapply ends_LeaveChannel|]. intros _ s1 (x & Hf & Q & O & LL & HB & _).
  destruct (quiet_name p ch x.1 Q) as [En _]. pose proof (framed_sees _ _ _ _ Hf) as [Hx1 Hx2].
  unfold chan. apply ends_bind, ends_bind, ends_getX. rewrite Hx1. apply ends_ret.
  destruct (LL p) as [[E _]|(l0 & l1 & _ & El & _)]; [congruence|].
  set (x2 := (x.1, <[p := filter (λ c', c' ≠ c) l1]> x.2)).
  apply ends_bind. apply ends_mono with (P := λ _ s2, framed c x2 s s2).
  { eapply ends_mono; [apply (runs_change_channels c p (filter (λ c', c' ≠ c)) l1 x.1 x.2 (λ _ y, y = x2)); [done|done|by destruct x]|].
    intros _ s2 (y & -> & Hf2). by eapply framed_trans. }
  intros _ s2 Hf2. assert (HL2 : lists_of c (m_channels s) x2.2).
  { eapply lists_of_trans; [exact LL|]. apply (lists_of_self c p l1); [done|]. intros c' Hne. rewrite list_elem_of_filter. tauto. }
  assert (Hs2 : sound s2).
  { apply (sound_framed c ch x2 s s2); try done. intros q l' Hq. unfold x2 in Hq. cbn [snd] in Hq.
    apply lookup_insert_Some in Hq as [[<- <-]|[Hne Hq]].
    - split; [apply NoDup_filter, (HB p l1 El)|]. intros _ Hin. by apply list_elem_of_filter in Hin as [Hin _].
    - destruct (HB q l' Hq) as [H1 H2]. split; [done|]. intros _. apply H2. congruence. }
  rewrite En. eapply ends_mono; [by apply ends_mgr_LeftChannel|]. intros _ s3 [Hs3 Hsh]. split; [done|].
  etrans; [by apply (framed_came_and_went p c ch x2)|by apply shrinks_came_and_went].
Qed.

Lemma ends_local_channel D F m p zone i s : sound s → present s p → answers_stored F → stores_fine D → tame (area_name zone) →
  returns (local_channel D F m p zone i) s (λ _ s', sound s' ∧ came_and_went p s s').
Proof.
  intros Hs Hp Hf Hst Hz. unfold local_channel. destruct (LookupEntry D i) as [channel|] eqn:Ei; [|by apply ends_ret].
  apply ends_bind, ends_getX. pose proof Hp as [l Hl]. rewrite Hl. cbn [default from_option id].
  apply ends_bind. eapply ends_mono; [apply ends_used_channel|].
  { intros c Hc. destruct (sound_listed s Hs p l Hl) as [_ H]. destruct (H c Hc) as (ch & -> & _). done. }
  intros used s' [-> Hu]. apply ends_bind. eapply ends_mono; [apply ends_choose_channels; try done; by exists i|].
  intros [[[join remove] send]|] s1 (Hs1 & Hg & Hc); [|apply ends_ret; split; [done|by apply grows_came_and_went]].
  destruct Hc as [Hj Hr]. pose proof (grows_came_and_went p _ _ Hg) as Hcw1.
  apply ends_bind. apply ends_mono with (P := λ _ s2, sound s2 ∧ came_and_went p s1 s2 ∧ ∀ c', is_Some (heap s1 !! c') → is_Some (heap s2 !! c')).
  { destruct join as [c|]; [|by apply ends_ret]. eapply ends_mono; [apply ends_JoinChannel; [done|by apply Hcw1|by apply Hj]|].
    intros _ s2 (H1 & H2 & H3 & _). done. }
  intros _ s2 (Hs2 & Hcw2 & Hh2). assert (Hcw : came_and_went p s s2) by by etrans.
  destruct remove as [c|]; [|by apply ends_ret]. destruct Hr as [|Hr]; [done|]. symmetry in Hr. apply Hu in Hr.
  eapply ends_mono; [apply ends_leave_built_in; [done|by apply Hcw|]|].
  - apply Hh2. destruct (sound_listed s Hs p l Hl) as [_ H]. destruct (H c Hr) as (ch & E & _).
    destruct Hg as (_ & _ & Hg & _). by rewrite (Hg _ _ E).
  - intros _ s3 [Hs3 Hcw3]. split; [done|]. by etrans.
Qed.

Lemma ends_UpdateLocalChannels D F p newZone s : sound s → present s p → answers_stored F → stores_fine D →
  returns (UpdateLocalChannels D F p newZone) s (λ _ s', sound s' ∧ came_and_went p s s').
Proof.
  intros Hs Hp Hf Hst. unfold UpdateLocalChannels. destruct (_ && _); [by apply ends_ret|].
  destruct (GetAreaEntryByAreaID D newZone) as [zone|] eqn:Ez; [|by apply ends_ret].
  destruct (forTeam F (GetTeam F p)) as [m|]; [|by apply ends_ret].
  assert (Hz : tame (area_name zone)) by by eapply Hst. generalize 0 as i. revert s Hs Hp.
  induction (length (sChatChannelsStore D)) as [|n IH]; intros s Hs Hp i; cbn [local_channels]; [by apply ends_ret|].
  apply ends_bind. eapply ends_mono; [by apply ends_local_channel|]. intros _ s1 [Hs1 Hcw1].
  eapply ends_mono; [apply IH; [done|by apply Hcw1]|]. intros _ s2 [Hs2 Hcw2]. split; [done|]. by etrans.
Qed.

Lemma ends_LeaveLFGChannel F p s : sound s → present s p →
  returns (LeaveLFGChannel F p) s (λ _ s', sound s' ∧ came_and_went p s s').
Proof.
  intros Hs [l Hl]. unfold LeaveLFGChannel. apply ends_bind, ends_getX. rewrite Hl. cbn [default from_option id].
  assert (H : ∀ c, c ∈ l → is_Some (heap s !! c)).
  { intros c Hc. destruct (sound_listed s Hs p l Hl) as [_ H]. destruct (H c Hc) as (ch & -> & _). done. }
  assert (Hk : ∀ k, (∀ c, c ∈ k → c ∈ l) → returns (leave_lfg F k p) s (λ _ s', sound s' ∧ came_and_went p s s')).
  { induction k as [|c k IH]; intros Hk; cbn [leave_lfg]; [by apply ends_ret|]. destruct (H c) as [ch Hc]; [apply Hk; constructor|].
    unfold chan. apply ends_bind, ends_bind, ends_getX. rewrite Hc. apply ends_ret. destruct (IsLFG ch).
    - eapply ends_mono; [apply (ends_LeaveChannel_sound F c p true s l); auto|]. by intros _ s' (? & ? & _).
    - apply IH. intros c' Hc'. apply Hk. by constructor. }
  by apply Hk.
Qed.

(** ** Reading requests *)

(** A read method that is safe and whose result is in [P] when the packet has no octet from
    0xF0 on. *)
Definition reads_tame {A} (m : M ByteBuffer.t A) (P : A → Prop) : Prop :=
  safe m ∧ ∀ b a b', (ByteBuffer.rpos b ≤ ByteBuffer.size b)%nat → tame (ByteBuffer.storage b) → m b = Ok (a, b') → P a.

Create HintDb reads.

Lemma reads_any {A} (m : M ByteBuffer.t A) : safe m → reads_tame m (λ _, True).
Proof. intros H. by split. Qed.
Lemma reads_ret {A} (a : A) (P : A → Prop) : P a → reads_tame (mret a) P.
Proof. intros H. split; [apply safe_ret|]. by intros b a' b' _ _ [= <- _]. Qed.
Lemma reads_bind {A B} (m : M ByteBuffer.t A) (f : A → M ByteBuffer.t B) P Q :
  reads_tame m P → (∀ a, safe (f a)) → (∀ a, P a → reads_tame (f a) Q) → reads_tame (m ≫= f) Q.
Proof.
  intros [Hm HP] Hs Hf. split; [by apply safe_bind|]. intros b a b' Hb Ht H. apply bind_inv in H as (x & b1 & E1 & E2).
  pose proof (Hm b Hb) as Hs1. rewrite E1 in Hs1. destruct Hs1 as [Hr Hst].
  apply (Hf x (HP _ _ _ Hb Ht E1)) in E2; [done|exact (proj2 Hr)|by rewrite Hst].
Qed.
Lemma tame_c_string l : tame l → tame (ByteBuffer.c_string l).
Proof. induction 1 as [|c l Hc _ IH]; simpl; [constructor|]. destruct (c =? 0); by constructor. Qed.
Lemma reads_ReadString n : reads_tame (ByteBuffer.ReadString n) tame.
Proof.
  split; [apply safe_ReadString|]. intros b a b' Hb Ht. unfold ByteBuffer.ReadString. destruct (n =? 0)%nat; [intros [= <- _]; constructor|].
  intros H. apply bind_inv in H as (x & b1 & E1 & [= <- _]). unfold ByteBuffer.read_bytes in E1.
  destruct (_ <? _)%nat; [done|]. injection E1 as <- _. by apply tame_c_string, Forall_take, Forall_drop.
Qed.
Lemma reads_shr_string : reads_tame ByteBuffer.shr_string tame.
Proof.
  split; [apply safe_shr_string|]. intros b a b' _ Ht. unfold ByteBuffer.shr_string.
  assert (H : ∀ fuel b acc, tame (ByteBuffer.storage b) → tame acc → ByteBuffer.shr_string_loop fuel acc b = Ok (a, b') → tame a).
  { clear b Ht. induction fuel as [|n IH]; intros b acc Ht Ha; cbn [ByteBuffer.shr_string_loop]; [by intros [= <- _]|].
    destruct (_ <? _)%nat eqn:El; [|by intros [= <- _]]. unfold ByteBuffer.read, ByteBuffer.read_at.
    destruct (ByteBuffer.size b <? ByteBuffer.rpos b + 1)%nat; [done|]. cbn [mbind result_bind].
    set (c := le_val _). assert (Hc : 0 ≤ c < 0xF0 ∨ c = 0).
    { subst c. apply Nat.ltb_lt in El. unfold ByteBuffer.size in El. destruct (drop (ByteBuffer.rpos b) (ByteBuffer.storage b)) as [|x l] eqn:Ed.
      - right. reflexivity.
      - left. assert (Hx : tame (x :: l)) by (rewrite <-Ed; by apply Forall_drop). apply Forall_cons in Hx as [Hx _]. simpl. lia. }
    destruct (Z.eqb_spec c 0) as [Hz|Hz]; [by intros [= <- _]|]. apply IH; [done|]. apply Forall_app. split; [done|].
    constructor; [|constructor]. destruct Hc; [done|lia]. }
  apply H; [done|constructor].
Qed.
Lemma safe_ReadLength n : safe (ReadLength n).
Proof. apply safe_bind; [apply safe_ReadBits|intros; apply safe_ret]. Qed.
#[export] Hint Resolve safe_ReadLength safe_ReadString safe_ReadBits safe_shr_string : safe.

Definition both_tame (r : list Z * list Z) : Prop := tame r.1 ∧ tame r.2.
Lemma reads_two_strings b1 b2 swapped : reads_tame (two_strings b1 b2 swapped) both_tame.
Proof.
  unfold two_strings. apply reads_bind with (P := λ _, True); [by apply reads_any; auto with safe|intros; destruct swapped; auto 8 with safe|].
  intros n1 _. apply reads_bind with (P := λ _, True); [by apply reads_any; auto with safe|intros; destruct swapped; auto 8 with safe|].
  intros n2 _. destruct swapped; (eapply reads_bind; [apply reads_ReadString|intros; auto with safe|]; intros s1 H1;
    eapply reads_bind; [apply reads_ReadString|intros; auto with safe|]; intros s2 H2; apply reads_ret; by split).
Qed.
Lemma reads_one_string n : reads_tame (one_string n) tame.
Proof. eapply reads_bind; [apply reads_any; auto with safe|auto with safe|]. intros k _. apply reads_ReadString. Qed.
Lemma safe_two_strings b1 b2 swapped : safe (two_strings b1 b2 swapped).
Proof. apply reads_two_strings. Qed.
Lemma safe_one_string n : safe (one_string n).
Proof. apply (reads_one_string n). Qed.
#[export] Hint Resolve safe_two_strings safe_one_string : safe.

Lemma reads_join_request : reads_tame join_request (λ r, tame r.1.2 ∧ tame r.2).
Proof.
  unfold join_request. eapply reads_bind; [apply reads_any; apply safe_read|intros; auto 12 with safe|]. 2: intros id _.
  1: { apply safe_bind; [auto with safe|intros]. apply safe_bind; [auto with safe|intros]. apply safe_bind; [auto with safe|]. intros []. auto with safe. }
  eapply reads_bind; [apply reads_any; auto with safe|intros; apply safe_bind; [auto with safe|intros; apply safe_bind; [auto with safe|intros []; auto with safe]]|].
  intros u1 _. eapply reads_bind; [apply reads_any; auto with safe|intros; apply safe_bind; [auto with safe|intros []; auto with safe]|].
  intros u2 _. eapply reads_bind; [apply reads_two_strings|intros []; auto with safe|]. intros [n w] [H1 H2]. apply reads_ret. by split.
Qed.
Lemma reads_leave_request : reads_tame leave_request tame.
Proof. eapply reads_bind; [apply reads_any; apply safe_read|intros; auto with safe|]. intros u _. apply reads_one_string. Qed.
Lemma reads_list_request : reads_tame list_request both_tame.
Proof.
  unfold list_request. eapply reads_bind; [apply reads_any; apply safe_read|intros; auto 12 with safe|]. intros f _.
  eapply reads_bind; [apply reads_any; auto with safe|intros; auto 12 with safe|]. intros n _.
  eapply reads_bind; [apply reads_any; auto with safe|intros; auto 12 with safe|]. intros u _.
  eapply reads_bind; [apply reads_any; auto with safe|intros; auto 12 with safe|]. intros k _.
  eapply reads_bind; [apply reads_any; auto with safe|intros; auto 12 with safe|]. intros u' _.
  eapply reads_bind; [apply reads_ReadString|intros; auto with safe|]. intros s1 H1.
  eapply reads_bind; [apply reads_ReadString|intros; auto with safe|]. intros s2 H2. apply reads_ret. by split.
Qed.

(** ** What an event may do *)

(** What the channel [ch] may become when [p] does something. *)
Record allowed (F : Facts) (p : Z) (ch ch' : Channel) : Prop := {
  allowed_name : _name ch' = _name ch ∧ _channelId ch' = _channelId ch;
  allowed_change : quiet p ch ch' ∨ privileged F p ch;
  allowed_owner : _ownerGUID ch ≠ 0 →
    _ownerGUID ch' ≠ _ownerGUID ch ∨ playersStore ch' !! _ownerGUID ch ≠ playersStore ch !! _ownerGUID ch → sovereign F p ch }.

Definition after (F : Facts) (p : Z) (s s' : World) : Prop :=
  ∀ c ch', c < next s → heap s' !! c = Some ch' → ∃ ch, heap s !! c = Some ch ∧ allowed F p ch ch'.

Lemma quiet_allowed F p ch ch' : channel_ok ch → quiet p ch ch' → allowed F p ch ch'.
Proof.
  intros Hok Hq. split; [by eapply quiet_name|by left|]. intros H0 Hne. right. destruct (decide (p = _ownerGUID ch)) as [|Hp]; [done|].
  destruct (quiet_others _ _ _ Hq H0) as (E1 & E2 & _).
  - intros i Hi. destruct (Hok p i Hi) as (_ & _ & Ho). destruct (IsOwner i); [|done]. by destruct Ho.
  - destruct Hne as [Hne|Hne]; [done|]. by rewrite E2 in Hne.
Qed.
Lemma commanded_allowed F p c x x' : channel_ok x.1 → commanded F p c x x' → allowed F p x.1 x'.1.
Proof.
  intros Hok [H1 _ _ _ H2 H3]. split; [done| |by apply H3]. destruct H2 as [->|]; [by left|by right].
Qed.
Lemma allowed_refl F p ch : allowed F p ch ch.
Proof. split; [done|by left|]. intros _ [?|?]; congruence. Qed.

Lemma after_refl F p s : after F p s s.
Proof. intros c ch _ H. exists ch. split; [done|apply allowed_refl]. Qed.
Lemma came_and_went_after F p s s' : sound s → came_and_went p s s' → after F p s s'.
Proof.
  intros Hs [_ _ H] c ch' Hc Hch'. destruct (H c ch' Hc Hch') as (ch & E & Q). exists ch. split; [done|].
  apply quiet_allowed; [|done]. by eapply sound_channel.
Qed.

(** A command in a sound world. *)
Lemma ends_command F p c (m : X World unit) s ch : sound s → heap s !! c = Some ch →
  runs c m (ch, m_channels s) (λ _, commanded F p c (ch, m_channels s)) →
  returns m s (λ _ s', sound s' ∧ after F p s s').
Proof.
  intros Hs Hc H. destruct (sound_channel s Hs c ch Hc) as (Hlt & Hok & _).
  eapply ends_mono; [apply H; done|]. intros _ s' (x & Hx & Hf). destruct Hx as [Hn Hxo Hl Hll Ha Ho] eqn:Ex. clear Ex. split.
  - apply (sound_framed c ch x s s'); auto; [|apply Hn]. apply Hl. by apply sound_listed_view.
  - destruct Hf as [cs ->]. intros c' ch' _ E. cbn [heap] in E. apply lookup_insert_Some in E as [[<- <-]|[Hne E]].
    + exists ch. split; [done|]. apply (commanded_allowed F p c (ch, m_channels s) x Hok). by split.
    + exists ch'. split; [done|apply allowed_refl].
Qed.
(** A method that changes no channel. *)
Lemma ends_no_change F p c (m : X World unit) s : sound s → is_Some (heap s !! c) →
  (∀ x (Q : unit → view → Prop), Q tt x → runs c m x Q) → returns m s (λ _ s', sound s' ∧ after F p s s').
Proof.
  intros Hs [ch Hc] H. eapply ends_command; [done|done|]. apply H. apply commanded_refl.
Qed.

Lemma ends_GetChannel m name p pkt s : sound s → tame name →
  returns (GetChannel m name p pkt) s (λ r s', (∃ cs, s' = mkWorld (heap s) (next s) (alliance s) (horde s) (m_channels s) cs) ∧
    ∀ c, r = Some c → is_Some (heap s !! c)).
Proof.
  intros Hs Hn. destruct (key_tame name Hn) as [k Hk]. unfold GetChannel.
  assert (Es : ∃ cs, s = mkWorld (heap s) (next s) (alliance s) (horde s) (m_channels s) cs) by (exists (calls s); by destruct s).
  apply ends_bind, ends_liftX. rewrite Hk. apply ends_bind, ends_getX.
  destruct (channels (mgr m s) !! k) as [c|] eqn:Ek.
  - apply ends_ret. split; [done|]. intros c' [= <-]. destruct (sound_registry s Hs m k c Ek) as (ch & -> & _). done.
  - apply ends_bind, ends_when; intros _; [apply ends_modifyX|]; (apply ends_ret; split; [|done]); [by eexists|done].
Qed.
Lemma sound_calls s cs : sound s → sound (mkWorld (heap s) (next s) (alliance s) (horde s) (m_channels s) cs).
Proof.
  intros Hs. split; apply Hs.
Qed.

Lemma ends_on_channel F p name (f : Z → X World unit) s : sound s → tame name →
  (∀ c s, sound s → is_Some (heap s !! c) → returns (f c) s (λ _ s', sound s' ∧ after F p s s')) →
  returns (on_channel F p name f) s (λ _ s', sound s' ∧ after F p s s').
Proof.
  intros Hs Hn Hf. unfold on_channel. destruct (forTeam F (GetTeam F p)) as [m|]; [|apply ends_ret; split; [done|apply after_refl]].
  apply ends_bind. eapply ends_mono; [by apply ends_GetChannel|]. intros [c|] s1 [[cs ->] Hc].
  - eapply ends_mono; [apply Hf; [by apply sound_calls|by apply Hc]|]. by intros _ s' [? ?].
  - apply ends_ret. split; [by apply sound_calls|exact (after_refl F p s)].
Qed.

Lemma normalizePlayerName_tame n : tame n → ∃ r, Utf8.normalizePlayerName n = Ok r.
Proof.
  intros Hn. assert (Hb : Forall is_byte n) by (eapply Forall_impl; [exact Hn|]; unfold is_byte; simpl; lia).
  assert (Hl : Forall (λ b, b < 0xF0) n) by (eapply Forall_impl; [exact Hn|]; simpl; lia).
  unfold Utf8.normalizePlayerName. destruct (bool_decide (n = [])); [by eexists|].
  unfold Utf8.Utf8toWStr_buf. destruct (Utf8.distance n) as [len|] eqn:Ed; [|by eexists].
  destruct (Nat.ltb_spec Utf8.MAX_INTERNAL_PLAYER_NAME len) as [|Hle]; [by eexists|].
  destruct (Utf8.distance_spec n Hb) as (cps & Ht & Hd & Hu); [by rewrite Ed|]. rewrite Hu, Utf8.low_units by by apply (Utf8.low_text _ n).
  rewrite Ed in Hd. injection Hd as ->.
  replace (Utf8.MAX_INTERNAL_PLAYER_NAME + 1 <? length cps)%nat with false by (symmetry; apply Nat.ltb_ge; lia).
  simpl. destruct (take (length cps) cps); by eexists.
Qed.
Lemma ends_with_target F p name (f : list Z → X World unit) s : sound s → tame name →
  (∀ n, returns (f n) s (λ _ s', sound s' ∧ after F p s s')) →
  returns (with_target name f) s (λ _ s', sound s' ∧ after F p s s').
Proof.
  intros Hs Hn Hf. unfold with_target. destruct (normalizePlayerName_tame name Hn) as [r ->]. apply ends_bind, ends_liftX.
  destruct r as [n|]; [apply Hf|apply ends_ret; split; [done|apply after_refl]].
Qed.

(** ** Events *)

(** A method that ends in [Q], or finds the packet malformed before it has done anything. *)
Definition attempt (m : X World unit) (s : World) (Q : World → Prop) : Prop :=
  match m s with
  | (Ok _, s') => Q s'
  | (Throw e, s') => is_ByteBufferException e = true ∧ s' = s
  end.
Lemma attempt_returns m s Q : returns m s (λ _, Q) → attempt m s Q.
Proof. unfold ends, attempt. by destruct (m s) as [[?|e] s']. Qed.
Lemma attempt_parse {A} (m : M ByteBuffer.t A) (P : A → Prop) payload f s Q : reads_tame m P → tame payload →
  (∀ a, P a → returns (f a) s (λ _, Q)) → attempt (parse m payload ≫= f) s Q.
Proof.
  intros [Hm HP] Ht Hf. unfold attempt, parse, liftX, mbind, X_bind.
  pose proof (Hm (ByteBuffer.received payload) ltac:(simpl; lia)) as Hsafe.
  destruct (m (ByteBuffer.received payload)) as [[a b']|e] eqn:E.
  - assert (Ha : P a) by (apply (HP (ByteBuffer.received payload) a b'); [simpl; lia|exact Ht|exact E]). specialize (Hf a Ha). unfold ends in Hf.
    by destruct (f a s) as [[?|?] s'].
  - by subst e.
Qed.

Definition fine (F : Facts) (p : Z) (s s' : World) : Prop := sound s' ∧ after F p s s'.
Definition tame_event (e : event) : Prop :=
  match e with
  | Request _ payload => tame payload
  | Speak channel _ _ => tame channel
  | _ => True
  end.
Definition ready (s : World) (p : Z) (e : event) : Prop :=
  match e with Login => m_channels s !! p = None | _ => present s p end.

Section events.
Context (D : Stores) (F : Facts) (p : Z).

Lemma fine_refl s : sound s → fine F p s s.
Proof. split; [done|apply after_refl]. Qed.
Lemma after_same_heap s s1 s2 : heap s1 = heap s → next s1 = next s → after F p s1 s2 → after F p s s2.
Proof. intros E1 E2 H c ch' Hc Hch'. rewrite <-E2 in Hc. destruct (H c ch' Hc Hch') as (ch & E & A). rewrite E1 in E. eauto. Qed.

Lemma ends_join channelName password channelId s : sound s → present s p → answers_stored F → tame channelName →
  returns (if bool_decide (channelName = []) then mret tt
    else match forTeam F (GetTeam F p) with
         | None => mret tt
         | Some m => setTeam m (GetTeam F p);; channel ← GetJoinChannel D F m channelName channelId; JoinChannel F channel p password
         end) s (λ _, fine F p s).
Proof.
  intros Hs Hp Hf Hn. destruct (bool_decide _); [by apply ends_ret, fine_refl|].
  destruct (forTeam F (GetTeam F p)) as [m|]; [|by apply ends_ret, fine_refl].
  apply ends_bind, ends_modifyX. set (s1 := set_mgr m _ s).
  assert (Hs1 : sound s1) by by apply sound_setTeam.
  assert (E1 : heap s1 = heap s ∧ next s1 = next s ∧ m_channels s1 = m_channels s) by (subst s1; by rewrite heap_set_mgr, next_set_mgr, lists_set_mgr).
  destruct E1 as (E1 & E2 & E3). apply ends_bind. eapply ends_mono; [by apply ends_GetJoinChannel|]. intros c s2 (Hs2 & Hg & Hc).
  assert (Hp2 : present s2 p) by (destruct Hg as (_ & El & _); unfold present; by rewrite El, E3).
  eapply ends_mono; [by apply ends_JoinChannel|]. intros _ s3 (Hs3 & Hcw & _). split; [done|].
  apply (after_same_heap s s1); [done|done|]. apply came_and_went_after; [done|].
  etrans; [by apply grows_came_and_went|done].
Qed.

Lemma attempt_HandleJoinChannel payload s : sound s → present s p → answers_stored F → tame payload →
  attempt (HandleJoinChannel D F p payload) s (fine F p s).
Proof.
  intros Hs Hp Hf Ht. eapply attempt_parse; [apply reads_join_request|done|]. intros [[channelId name] password] [Hn _]. simpl in Hn.
  assert (Hj : ∀ id, returns (if bool_decide (name = []) then mret tt
    else match forTeam F (GetTeam F p) with
         | None => mret tt
         | Some m => setTeam m (GetTeam F p);; channel ← GetJoinChannel D F m name id; JoinChannel F channel p password
         end) s (λ _, fine F p s)) by (intros; by apply ends_join).
  cbv zeta. destruct (negb (channelId =? 0)); [|apply Hj].
  destruct (LookupEntry D channelId) as [channel|]; [|by apply ends_ret, fine_refl].
  destruct (GetAreaEntryByAreaID D (GetZoneId F p)) as [zone|]; [|by apply ends_ret, fine_refl].
  destruct (CanJoinConstantChannelInZone F p channel zone); [apply Hj|by apply ends_ret, fine_refl].
Qed.

Lemma attempt_HandleLeaveChannel payload s : sound s → present s p → tame payload →
  attempt (HandleLeaveChannel F p payload) s (fine F p s).
Proof.
  intros Hs [l Hl] Ht. eapply attempt_parse; [apply reads_leave_request|done|]. intros name Hn.
  destruct (bool_decide _); [by apply ends_ret, fine_refl|].
  destruct (forTeam F (GetTeam F p)) as [m|]; [|by apply ends_ret, fine_refl].
  apply ends_bind. eapply ends_mono; [by apply ends_GetChannel|]. intros c s1 [[cs ->] Hc].
  set (s1 := mkWorld _ _ _ _ _ cs). assert (Hs1 : sound s1) by by apply sound_calls.
  apply ends_bind. apply ends_mono with (P := λ _ s2, sound s2 ∧ came_and_went p s1 s2).
  { destruct c as [c|]; [|by apply ends_ret]. eapply ends_mono; [apply (ends_LeaveChannel_sound F c p true s1 l); auto|]. by intros _ s2 (? & ? & _). }
  intros _ s2 [Hs2 Hcw]. eapply ends_mono; [by apply ends_mgr_LeftChannel|]. intros _ s3 [Hs3 Hsh]. split; [done|].
  apply (after_same_heap s s1); [done|done|]. apply came_and_went_after; [done|]. etrans; [exact Hcw|by apply shrinks_came_and_went].
Qed.

(** The commands on a channel, and on a player there. *)
Lemma on_channel_command name (f : Z → X World unit) s : sound s → tame name →
  (∀ c ch l, runs c (f c) (ch, l) (λ _, commanded F p c (ch, l))) → returns (on_channel F p name f) s (λ _, fine F p s).
Proof. intros Hs Hn Hf. apply ends_on_channel; [done|done|]. intros c s1 Hs1 [ch Hc]. by eapply ends_command. Qed.
Lemma on_target_command name target (f : list Z → Z → X World unit) s : sound s → tame name → tame target →
  (∀ n c ch l, runs c (f n c) (ch, l) (λ _, commanded F p c (ch, l))) →
  returns (with_target target (λ n, on_channel F p name (f n))) s (λ _, fine F p s).
Proof. intros Hs Hn Ht Hf. apply ends_with_target; [done|done|]. intros n. by apply on_channel_command. Qed.
Lemma on_channel_no_change name (f : Z → X World unit) s : sound s → tame name →
  (∀ c x (Q : unit → view → Prop), Q tt x → runs c (f c) x Q) → returns (on_channel F p name f) s (λ _, fine F p s).
Proof. intros Hs Hn Hf. apply on_channel_command; [done|done|]. intros c ch l. apply Hf, commanded_refl. Qed.
Lemma on_target_no_change name target (f : list Z → Z → X World unit) s : sound s → tame name → tame target →
  (∀ n c x (Q : unit → view → Prop), Q tt x → runs c (f n c) x Q) →
  returns (with_target target (λ n, on_channel F p name (f n))) s (λ _, fine F p s).
Proof. intros Hs Hn Ht Hf. apply on_target_command; [done..|]. intros n c ch l. apply Hf, commanded_refl. Qed.

Lemma attempt_handle r payload s : sound s → present s p → answers_stored F → tame payload →
  attempt (handle D F p r payload) s (fine F p s).
Proof.
  intros Hs Hp Hf Ht.
  assert (Hlist : attempt (HandleChannelList F p payload) s (fine F p s)).
  { eapply attempt_parse; [apply reads_list_request|done|]. intros [? name] [_ Hn]. apply on_channel_no_change; [done|done|].
    intros. by apply runs_List. }
  destruct r; try exact Hlist; cbn [handle].
  - by apply attempt_HandleJoinChannel.
  - by apply attempt_HandleLeaveChannel.
  - eapply attempt_parse; [apply reads_two_strings|done|]. intros [name w] [Hn _]. apply on_channel_command; [done|done|].
    intros. apply runs_Password.
  - eapply attempt_parse; [apply reads_two_strings|done|]. intros [name w] [Hn Hw]. apply on_target_command; [done..|].
    intros. apply runs_SetOwner_player.
  - eapply attempt_parse; [apply reads_one_string|done|]. intros name Hn. apply on_channel_no_change; [done|done|].
    intros. by apply runs_SendWhoOwner.
  - eapply attempt_parse; [apply reads_two_strings|done|]. intros [name w] [Hn Hw]. apply on_target_command; [done..|].
    intros. apply runs_SetMode.
  - eapply attempt_parse; [apply reads_two_strings|done|]. intros [w name] [Hw Hn]. apply on_target_command; [done..|].
    intros. apply runs_SetMode.
  - eapply attempt_parse; [apply reads_two_strings|done|]. intros [name w] [Hn Hw]. apply on_target_command; [done..|].
    intros. apply runs_SetMode.
  - eapply attempt_parse; [apply reads_two_strings|done|]. intros [w name] [Hw Hn]. apply on_target_command; [done..|].
    intros. apply runs_SetMode.
  - eapply attempt_parse; [apply reads_two_strings|done|]. intros [w name] [Hw Hn]. apply on_target_no_change; [done..|].
    intros. by apply runs_Invite.
  - eapply attempt_parse; [apply reads_two_strings|done|]. intros [name w] [Hn Hw]. apply on_target_command; [done..|].
    intros. apply runs_KickOrBan.
  - eapply attempt_parse; [apply reads_two_strings|done|]. intros [name w] [Hn Hw]. apply on_target_command; [done..|].
    intros. apply runs_KickOrBan.
  - eapply attempt_parse; [apply reads_two_strings|done|]. intros [name w] [Hn Hw]. apply on_target_command; [done..|].
    intros. apply runs_UnBan.
  - eapply attempt_parse; [apply reads_one_string|done|]. intros name Hn. apply on_channel_command; [done|done|].
    intros. apply runs_Announce.
  - eapply attempt_parse; [apply reads_shr_string|done|]. intros name Hn. apply on_channel_no_change; [done|done|].
    intros c x Q HQ. runs. exact HQ.
  - eapply attempt_parse; [apply reads_shr_string|done|]. intros name Hn. by apply ends_ret, fine_refl.
Qed.

Lemma attempt_occur e s : sound s → ready s p e → answers_stored F → stores_fine D → tame_event e →
  attempt (occur D F p e) s (fine F p s).
Proof.
  intros Hs Hr Hf Hst Ht. destruct e as [|r payload|channel msg lang|zone| |]; cbn [occur ready tame_event] in *.
  - apply attempt_returns, ends_modifyX. split; [|intros c ch' _ H; exists ch'; split; [exact H|apply allowed_refl]].
    split; try apply Hs. intros q l Hq. cbn [m_channels set_m_channels] in Hq. apply lookup_insert_Some in Hq as [[<- <-]|[_ Hq]]; [|by apply Hs].
    split; [constructor|]. by intros c Hc%elem_of_nil.
  - by apply attempt_handle.
  - apply attempt_returns. unfold HandleMessagechat_channel. destruct (_ && _).
    { apply ends_modifyX. split; [by apply (sound_calls s)|exact (after_refl F p s)]. }
    destruct (forTeam F (GetTeam F p)) as [m|]; [|by apply ends_ret, fine_refl].
    apply ends_bind. eapply ends_mono; [by apply ends_GetChannel|]. intros [c|] s1 [[cs ->] Hc].
    + eapply ends_mono; [apply (ends_no_change F p c); [by apply sound_calls|by apply Hc|intros; by apply runs_Say]|]. by intros _ s' [? ?].
    + apply ends_ret. split; [by apply sound_calls|exact (after_refl F p s)].
  - apply attempt_returns. eapply ends_mono; [by apply ends_UpdateLocalChannels|]. intros _ s' [H1 H2]. split; [done|by apply came_and_went_after].
  - apply attempt_returns. eapply ends_mono; [by apply ends_LeaveLFGChannel|]. intros _ s' [H1 H2]. split; [done|by apply came_and_went_after].
  - apply attempt_returns. apply ends_bind. eapply ends_mono; [by apply ends_CleanupChannels|]. intros _ s1 (Hs1 & Hcw & _ & _).
    apply ends_modifyX. split; [|exact (came_and_went_after F p s s1 Hs Hcw)].
    split; try apply Hs1. intros q l Hq. cbn [m_channels set_m_channels] in Hq. apply lookup_delete_Some in Hq as [_ Hq]. by apply Hs1.
Qed.
End events.

(** ** Runs of the server *)

(** Everything that players did, one thing at a time; the rest of the server may answer
    differently each time. *)
Inductive reachable (D : Stores) : World → Prop :=
| reachable_new : reachable D new_World
| reachable_step F p e s r s' : reachable D s → answers_stored F → ready s p e → tame_event e →
    occur D F p e s = (r, s') → reachable D s'.

Lemma reachable_sound D s : stores_fine D → reachable D s → sound s.
Proof.
  intros Hst. induction 1 as [|F p e s r s' _ Hs Hf Hr Ht Hocc]; [apply sound_new|].
  pose proof (attempt_occur D F p e s Hs Hr Hf Hst Ht) as H. unfold attempt in H. rewrite Hocc in H.
  destruct r; [by destruct H|by destruct H as [_ ->]].
Qed.
