(* ===== verification/ChannelProps.v ===== *)
(** * ChannelProps: what holds of chat channels.

    Whatever players do, in any order, no pointer to a channel dangles and the managers and lists
    agree with the channels; only moderators change a channel for others, and only its owner or
    an administrator acts against the owner; a channel survives a restart of the server; who
    hears what is said; what becomes of an owner who kicks himself. *)
From S2P Require Import Prelude Bits ByteBuffer ObjectGuid FieldsText Utf8 Channel ChannelMgr ChannelHandler ChannelRuns ChannelSafety.
From stdpp Require Import strings gmap sets list sorting.
Open Scope Z_scope.
Import Channel ChannelMgr ChannelHandler.

(** ** A small world to look at *)

Module Small.

(** Players 1, 2 and 3 of the alliance, called "A", "B" and "C". *)
Definition facts (preserve : bool) (select : list call → list Z → Z → option ChannelRow) : Facts :=
  mkFacts [1; 2; 3] (λ _, true) (λ g, [64 + g]) (λ _, ALLIANCE) (λ _ _, false) (λ _, 0) (λ _ _, false) (λ _, false) (λ _, 0)
    (λ _, true) (λ _ _, true) (λ _, 0) (λ _, 1) (λ _, 80) (λ _, false) (λ _, false) (λ _, None)
    false preserve 0 false 0 0 select.
Definition F : Facts := facts false (λ _ _ _, None).
(** A zone, and a built-in channel "G-%s" of every zone. *)
Definition D : Stores :=
  mkStores [None; Some (mkChatChannelsEntry 1 0 [71; 45; 37; 115])] (λ _, Some (mkAreaTableEntry 0 [90])) [67].

(** Requests about the channel "x". *)
Definition join : event := Request CMSG_JOIN_CHANNEL [0; 0; 0; 0; 0; 64; 0; 120].
Definition kick (g : Z) : event := Request CMSG_CHANNEL_KICK [1; 2; 120; 64 + g].

Lemma F_answers : answers_stored F.
Proof. by intros cs name team row text. Qed.
Lemma D_fine : stores_fine D.
Proof.
  assert (H : ∀ l, forallb (λ b, (0 <=? b) && (b <? 0xF0)) l = true → tame l).
  { intros l. rewrite forallb_forall. intros H. apply List.Forall_forall. intros b Hb. specialize (H b Hb). lia. }
  split; [|split; [by apply H|intros a z [= <-]; by apply H]].
  intros id e He. assert (E : e = mkChatChannelsEntry 1 0 [71; 45; 37; 115]).
  { revert He. unfold LookupEntry. simpl. destruct (Z.of_nat 2 <=? id); [done|]. destruct (Z.to_nat id) as [|[|[|n]]]; simpl; try done. by intros [= <-]. }
  subst e. split; [by apply H|by eexists].
Qed.

(** Plays events one after the other, as far as they can happen. *)
Definition can (s : World) (p : Z) (e : event) : bool :=
  match e with
  | Login => bool_decide (m_channels s !! p = None)
  | Request _ l | Speak l _ _ => bool_decide (is_Some (m_channels s !! p)) && forallb (λ b, (0 <=? b) && (b <? 0xF0)) l
  | _ => bool_decide (is_Some (m_channels s !! p))
  end.
Fixpoint play (evs : list (Z * event)) (s : World) : World :=
  match evs with
  | [] => s
  | (p, e) :: evs => if can s p e then play evs (occur D F p e s).2 else s
  end.
Lemma play_reachable evs s : reachable D s → reachable D (play evs s).
Proof.
  revert s. induction evs as [|[p e] evs IH]; intros s Hs; [done|]. simpl. destruct (can s p e) eqn:Ec; [|done]. apply IH.
  destruct (occur D F p e s) as [r s'] eqn:Eo. apply (reachable_step D F p e s r s'); [done|apply F_answers| | |done].
  - destruct e; simpl in *; rewrite ?andb_true_iff, ?bool_decide_eq_true in Ec; unfold present; tauto.
  - assert (H : ∀ l, forallb (λ b, (0 <=? b) && (b <? 0xF0)) l = true → tame l).
    { intros l. rewrite forallb_forall. intros H. apply List.Forall_forall. intros b Hb. specialize (H b Hb). lia. }
    destruct e; simpl in *; try done; rewrite andb_true_iff in Ec; apply H; by destruct Ec.
Qed.
(** "A" makes the channel, "B" joins it. *)
Definition two : World := play [(1, Login); (2, Login); (1, join); (2, join)] new_World.
Lemma two_reachable : reachable D two.
Proof. apply play_reachable, reachable_new. Qed.
(** The channel at an address. *)
Definition channel_at (c : Z) (s : World) : Channel :=
  default (mkChannel false false false 0 0 0 0 [] [] ∅ ∅) (heap s !! c).

End Small.

(** ** Safety *)

(** C15. Channels are used safely, whatever players do and whatever the rest of the server answers:
    in every state that the server can reach, each pointer in a player's list is to a live channel
    that he is on; the managers point to live channels only, each under the key of its name, and
    every live channel is in a manager, so none is leaked; the owner flag is on the owner only.
    The next event runs to its end, or finds the packet shorter than it says and then has changed
    nothing: no dangling pointer is followed and nothing is undefined.  The condition is that the
    text in packets and in the client's data has no character outside the basic plane. *)
Theorem channels_sound D F p e s : stores_fine D → reachable D s → answers_stored F → ready s p e → tame_event e →
  (∀ q l c, m_channels s !! q = Some l → c ∈ l → ∃ ch, heap s !! c = Some ch ∧ is_Some (playersStore ch !! q)) ∧
  (∀ m k c, channels (mgr m s) !! k = Some c → ∃ ch, heap s !! c = Some ch ∧ key (_name ch) = Ok k) ∧
  (∀ c ch, heap s !! c = Some ch → ∃ m k, channels (mgr m s) !! k = Some c) ∧
  (∀ c ch g i, heap s !! c = Some ch → playersStore ch !! g = Some i → IsOwner i = true → g = _ownerGUID ch) ∧
  match occur D F p e s with
  | (Ok _, _) => True
  | (Throw x, s') => is_ByteBufferException x = true ∧ s' = s
  end.
Proof.
  intros Hst Hr Hf Hp Ht. pose proof (reachable_sound D s Hst Hr) as Hs. split; [|split; [|split; [|split]]].
  - intros q l c Hq. by apply (sound_listed s Hs q l).
  - apply (sound_registry s Hs).
  - intros c ch Hc. destruct (sound_registered s Hs c ch Hc) as (m & k & _ & H). by exists m, k.
  - intros c ch g i Hc Hi Ho. destruct (sound_channel s Hs c ch Hc) as (_ & Hok & _). by apply (Hok g i Hi).
  - pose proof (attempt_occur D F p e s Hs Hp Hf Hst Ht) as H. unfold attempt in H. by destruct (occur D F p e s) as [[u|x] s'].
Qed.
Lemma channels_sound_witness :
  stores_fine Small.D ∧ reachable Small.D Small.two ∧ ready Small.two 2 (Small.kick 1) ∧
  match occur Small.D Small.F 2 (Small.kick 1) Small.two with
  | (Ok _, _) => True
  | (Throw x, s') => is_ByteBufferException x = true ∧ s' = Small.two
  end.
Proof.
  split; [apply Small.D_fine|]. split; [apply Small.two_reachable|]. split; [by eexists|].
  apply (channels_sound Small.D Small.F 2 (Small.kick 1) Small.two); [apply Small.D_fine|apply Small.two_reachable|apply Small.F_answers|by eexists|].
  repeat constructor; done.
Defined.

(** C16. Who may change a channel.  Whatever a player who is not a privileged member of it does, be
    it a command or a way in or out: its name, password, bans and announcements stay, nobody else
    is put on it or thrown off, and if he is not its owner, nobody's flags change.  And whoever is
    neither its owner nor an administrator can neither depose the owner nor touch his entry. *)
Theorem channel_authority D F p e s r s' c ch ch' : stores_fine D → reachable D s → answers_stored F → ready s p e → tame_event e →
  occur D F p e s = (r, s') → heap s !! c = Some ch → heap s' !! c = Some ch' →
  (¬ privileged F p ch →
     settings ch' = settings ch ∧
     (∀ g, g ≠ p → g ≠ 0 → is_Some (playersStore ch' !! g) ↔ is_Some (playersStore ch !! g)) ∧
     (_ownerGUID ch ≠ 0 → p ≠ _ownerGUID ch → ∀ g, g ≠ p → playersStore ch' !! g = playersStore ch !! g)) ∧
  (_ownerGUID ch ≠ 0 → ¬ sovereign F p ch →
     _ownerGUID ch' = _ownerGUID ch ∧ playersStore ch' !! _ownerGUID ch = playersStore ch !! _ownerGUID ch).
Proof.
  intros Hst Hr Hf Hp Ht Ho Hc Hc'. pose proof (reachable_sound D s Hst Hr) as Hs.
  destruct (sound_channel s Hs c ch Hc) as (Hlt & Hok & _).
  pose proof (attempt_occur D F p e s Hs Hp Hf Hst Ht) as H. unfold attempt in H. rewrite Ho in H.
  assert (Ha : allowed F p ch ch').
  { destruct r as [u|x].
    - destruct H as [_ H]. destruct (H c ch' Hlt Hc') as (ch0 & E & A). rewrite Hc in E. by injection E as <-.
    - destruct H as [_ ->]. rewrite Hc in Hc'. injection Hc' as <-. apply allowed_refl. }
  destruct Ha as [_ Ha Hb]. split.
  - intros Hnp. destruct Ha as [[Q1 Q2 Q3]|]; [|done]. split; [done|]. split; [done|]. intros H0 Hne.
    apply (Q3 H0). intros i Hi. destruct (Hok p i Hi) as (_ & _ & Hoi). destruct (IsOwner i); [|done]. by destruct Hoi.
  - intros H0 Hns. destruct (decide (_ownerGUID ch' = _ownerGUID ch)) as [E1|E1]; [|by destruct Hns; auto]. split; [done|].
    destruct (decide (playersStore ch' !! _ownerGUID ch = playersStore ch !! _ownerGUID ch)) as [E2|E2]; [done|by destruct Hns; auto].
Qed.
Lemma channel_authority_witness :
  let s' := (occur Small.D Small.F 2 (Small.kick 1) Small.two).2 in
  let ch := Small.channel_at 1 Small.two in let ch' := Small.channel_at 1 s' in
  ¬ privileged Small.F 2 ch ∧ _ownerGUID ch ≠ 0 ∧ ¬ sovereign Small.F 2 ch ∧
  (¬ privileged Small.F 2 ch →
     settings ch' = settings ch ∧
     (∀ g, g ≠ 2 → g ≠ 0 → is_Some (playersStore ch' !! g) ↔ is_Some (playersStore ch !! g)) ∧
     (_ownerGUID ch ≠ 0 → 2 ≠ _ownerGUID ch → ∀ g, g ≠ 2 → playersStore ch' !! g = playersStore ch !! g)) ∧
  (_ownerGUID ch ≠ 0 → ¬ sovereign Small.F 2 ch →
     _ownerGUID ch' = _ownerGUID ch ∧ playersStore ch' !! _ownerGUID ch = playersStore ch !! _ownerGUID ch).
Proof.
  split; [intros (i & Hi & H); vm_compute in Hi; injection Hi as <-; vm_compute in H; naive_solver|].
  split; [by vm_compute|]. split; [intros H; vm_compute in H; naive_solver|].
  apply (channel_authority Small.D Small.F 2 (Small.kick 1) Small.two (Ok tt) (occur Small.D Small.F 2 (Small.kick 1) Small.two).2 1);
    [apply Small.D_fine|apply Small.two_reachable|apply Small.F_answers|by eexists|repeat constructor; done|vm_compute; reflexivity..].
Defined.

(** ** The owner who kicks himself *)

Lemma kicked_self p ch i : _ownerGUID ch = p → p ≠ 0 → playersStore (with_owner p (changed_at p (info_SetModerator true) (kicked false p ch))) !! p = i →
  i = Some (mkPlayerInfo 0 (Z.lor MEMBER_FLAG_MODERATOR MEMBER_FLAG_OWNER)).
Proof.
  intros Ho Hp. subst p. unfold with_owner. set (o := _ownerGUID ch) in *.
  assert (E : _ownerGUID (changed_at o (info_SetModerator true) (kicked false o ch)) = o) by done.
  rewrite E, (proj2 (Z.eqb_neq o 0)) by done. cbn [negb]. unfold changed_at. cbn [playersStore set_players set_ownerGUID kicked andb left].
  rewrite !lookup_insert_eq, lookup_alter_eq, lookup_insert_eq, lookup_delete_eq. by intros <-.
Qed.

Lemma FindPlayerByName_lists F s s' name : m_channels s' = m_channels s → FindPlayerByName F s' name = FindPlayerByName F s name.
Proof. intros E. unfold FindPlayerByName, FindPlayer. by rewrite E. Qed.

Lemma runs_self_kick F c p badname ch l m i s : sees c (ch, m) s → FindPlayerByName F s badname = Some p → m !! p = Some l →
  p ≠ 0 → _ownerGUID ch = p → _ownership ch = true → playersStore ch !! p = Some i → IsModerator i = true →
  (GetNumPlayers (kicked false p ch) =? 0)%nat = false →
  runs c (Kick F c p badname) (ch, m) (λ _ x, x =
    (with_owner p (changed_at p (info_SetModerator true) (kicked false p ch)), <[p := filter (λ c', c' ≠ c) l]> m)).
Proof.
  intros [_ Hs] Hf Hl Hp Ho Hown Hi Hm Hn. unfold Kick, KickOrBan, as_moderator, as_member.
  assert (Hon : IsOn ch p = true) by (apply IsOn_spec; by rewrite Hi).
  apply runs_chain, runs_chan. cbn [fst]. rewrite Hon. apply runs_chain, runs_at_key with (i := i); [done|]. rewrite Hm. cbn [negb andb].
  apply runs_chain, runs_getX. intros s1 [_ Hs1]. rewrite (FindPlayerByName_lists F s s1), Hf by (simpl in *; congruence).
  rewrite Hon, (proj2 (Z.eqb_neq p 0)) by done. cbv zeta. cbn [negb orb andb]. rewrite Ho, Z.eqb_refl, andb_false_r.
  apply runs_chain. apply runs_mono with (P := λ _ x, x = (ch, m)); [runs; done|]. intros _ x ->.
  apply runs_chain, runs_change. apply runs_chain. unfold LeftChannel. apply runs_change_channels with (l := l); [done|].
  apply runs_chain, runs_chan. cbn [fst]. change (set_players (delete p (playersStore ch)) ch) with (kicked false p ch).
  change (_ownership (kicked false p ch)) with (_ownership ch). rewrite Hown, Hn. cbn [negb andb]. runs. by apply runs_SetOwner.
Qed.


(** ** Who hears what *)

Definition add_calls (cs : list call) (s : World) : World :=
  mkWorld (heap s) (next s) (alliance s) (horde s) (m_channels s) (cs ++ calls s).

Lemma send_loop_spec F l data to s :
  send_loop F l data to s =
  (Ok tt, add_calls (reverse ((λ g, SendPacket g data) <$> filter (λ g, FindPlayer F s g && to g = true) l)) s).
Proof.
  revert s. induction l as [|g l IH]; intros s; [by destruct s|]. cbn [send_loop].
  rewrite (bindX_Ok _ _ s s s) by done. rewrite filter_cons.
  destruct (FindPlayer F s g && to g) eqn:E.
  - rewrite (bindX_Ok _ _ s tt (record_call (SendPacket g data) s)) by done. rewrite IH, decide_True by done.
    rewrite fmap_cons, reverse_cons. unfold add_calls. rewrite <-app_assoc. reflexivity.
  - rewrite (bindX_Ok _ _ s tt s) by done. rewrite IH, decide_False by done. done.
Qed.

Lemma members_spec ch g : g ∈ members ch ↔ is_Some (playersStore ch !! g).
Proof. unfold members, ascending. by rewrite merge_sort_Permutation, elem_of_elements, elem_of_dom. Qed.
Lemma StronglySorted_strict (l : list Z) : StronglySorted Z.le l → NoDup l → StronglySorted Z.lt l.
Proof.
  induction 1 as [|x l Hs IH Hx]; [constructor|]. intros [Hn Hnd]%NoDup_cons. constructor; [by apply IH|].
  apply Forall_forall. intros y Hy. rewrite Forall_forall in Hx. specialize (Hx y Hy).
  assert (x ≠ y) by (intros ->; done). lia.
Qed.
Lemma members_sorted ch : StronglySorted Z.lt (members ch).
Proof.
  apply StronglySorted_strict; [apply (StronglySorted_merge_sort Z.le); apply _|].
  unfold members, ascending. rewrite merge_sort_Permutation. apply NoDup_elements.
Qed.
Lemma StronglySorted_filtered (R : Z → Z → Prop) (P : Z → Prop) `{∀ x, Decision (P x)} l : StronglySorted R l → StronglySorted R (filter P l).
Proof.
  induction 1 as [|x l Hs IH Hx]; [constructor|]. rewrite filter_cons. destruct (decide (P x)); [|done].
  constructor; [done|]. apply Forall_forall. intros y [_ Hy]%list_elem_of_filter. rewrite Forall_forall in Hx. by apply Hx.
Qed.


(** ** Channels in the database *)

(** C35. A saved channel is the same after a restart of the server: from the row that
    [UpdateChannelInDB] writes, the constructor makes a channel with the same announcements,
    ownership, password and bans, the list of bans going through text, and with no members and
    no owner.  This holds for GUIDs below 2^63, which those of players are. *)
Theorem channel_survives_restart s c ch : heap s !! c = Some ch → _IsSaved ch = true → _channelId ch = 0 →
  _flags ch = CHANNEL_FLAG_CUSTOM → storable (bannedStore ch) →
  ∃ announce ownership password bans,
    UpdateChannelInDB c s = (Ok tt, add_calls [Execute (CHAR_UPD_CHANNEL announce ownership password bans (_name ch) (_Team ch))] s) ∧
    ∀ F s2, CONFIG_PRESERVE_CUSTOM_CHANNELS F = true →
      (∀ cs, select_channel F cs (_name ch) (_Team ch) = Some (mkChannelRow announce ownership password (Some bans))) →
      returns (new_Channel F None (_name ch) 0 (_Team ch)) s2 (λ ch' _,
        settings ch' = settings ch ∧ playersStore ch' = ∅ ∧ _ownerGUID ch' = 0).
Proof.
  intros Hc Hsv Hid Hfl Hb. eexists _, _, _, _. split.
  - unfold UpdateChannelInDB. assert (Hch : chan c s = (Ok ch, s)) by (unfold chan; rewrite (bindX_Ok _ _ s s s) by done; by rewrite Hc).
    rewrite (bindX_Ok _ _ s ch s), Hsv by done. reflexivity.
  - intros F s2 HF Hrow. unfold new_Channel. rewrite HF. apply ends_bind, ends_getX, ends_bind, ends_modifyX. rewrite Hrow.
    apply ends_bind, ends_liftX. cbn [row_bannedList row_announce row_ownership row_password].
    destruct (ban_text_loads (bannedStore ch) Hb) as [-> E]. cbn [mbind result_bind]. rewrite E. apply ends_ret.
    unfold settings. cbn. by rewrite Hsv, Hid, Hfl.
Qed.
Lemma channel_survives_restart_witness :
  let ch := mkChannel false true true CHANNEL_FLAG_CUSTOM 0 ALLIANCE 1 [120] [112; 119] {[1 := mkPlayerInfo 1 3]} {[7; 0x0180000000000005]} in
  let s := mkWorld {[1 := ch]} 2 (mkChannelMgr {[[120] := 1]} ALLIANCE) (mkChannelMgr ∅ 0) {[1 := [1]]} [] in
  ∃ announce ownership password bans,
    UpdateChannelInDB 1 s = (Ok tt, add_calls [Execute (CHAR_UPD_CHANNEL announce ownership password bans (_name ch) (_Team ch))] s) ∧
    ∀ F s2, CONFIG_PRESERVE_CUSTOM_CHANNELS F = true →
      (∀ cs, select_channel F cs (_name ch) (_Team ch) = Some (mkChannelRow announce ownership password (Some bans))) →
      returns (new_Channel F None (_name ch) 0 (_Team ch)) s2 (λ ch' _,
        settings ch' = settings ch ∧ playersStore ch' = ∅ ∧ _ownerGUID ch' = 0).
Proof.
  intros ch s. apply (channel_survives_restart s 1 ch); [reflexivity..|]. intros g Hg. unfold ch in Hg. cbn [bannedStore] in Hg.
  apply elem_of_union in Hg as [Hg|Hg]; apply elem_of_singleton in Hg as ->; lia.
Defined.

(** ** Succession *)

Lemma head_members ch g : is_Some (playersStore ch !! g) → (∀ g', is_Some (playersStore ch !! g') → g ≤ g') → head (members ch) = Some g.
Proof.
  intros Hg Hmin. pose proof (members_sorted ch) as Hs. apply members_spec in Hg.
  destruct (members ch) as [|x l] eqn:E; [by apply elem_of_nil in Hg|]. simpl. f_equal.
  assert (Hx : is_Some (playersStore ch !! x)) by (apply members_spec; rewrite E; constructor). specialize (Hmin x Hx).
  apply elem_of_cons in Hg as [->|Hg]; [done|]. inversion_clear Hs as [|?? _ Hall]. rewrite Forall_forall in Hall. specialize (Hall g Hg). lia.
Qed.

Lemma crowned j : 0 ≤ flags j < 256 →
  let i := info_SetOwner true (info_SetModerator true (info_SetModerator true j)) in
  player i = player j ∧ IsOwner i = true ∧ IsModerator i = true ∧ IsMuted i = IsMuted j.
Proof.
  intros Hr. split; [done|]. destruct j as [pl fl]. cbn [flags] in Hr.
  assert (H : forallb (λ fl, let i := info_SetOwner true (info_SetModerator true (info_SetModerator true (mkPlayerInfo pl fl))) in
    IsOwner i && IsModerator i && Bool.eqb (IsMuted i) (IsMuted (mkPlayerInfo pl fl))) (seqZ 0 256) = true) by (vm_compute; reflexivity).
  pose proof (for_all_bytes _ H fl Hr) as Hf. cbv beta zeta in Hf. rewrite !andb_true_iff in Hf. destruct Hf as [[H1 H2] H3].
  apply eqb_prop in H3. by repeat split.
Qed.

Lemma runs_handover c F p send ch m l i g j : m !! p = Some l → playersStore ch !! p = Some i → IsOwner i = true →
  _ownership ch = true → IsConstant ch = false → playersStore (left p ch) !! g = Some j → player j = g → head (members (left p ch)) = Some g →
  runs c (LeaveChannel F c p send) (ch, m) (λ _ x,
    x = (with_owner g (changed_at g (info_SetModerator true) (left p ch)), if send then <[p := filter (λ c', c' ≠ c) l]> m else m)).
Proof.
  intros Hl Hi Ho Hown Hcon Hj Hjg Hh. unfold LeaveChannel. apply runs_chain, runs_chan. cbn [fst].
  assert (Hon : IsOn ch p = true) by (apply IsOn_spec; by rewrite Hi). rewrite Hon, Hcon. cbn [negb]. apply runs_chain.
  apply runs_mono with (P := λ _ x, x = (ch, if send then <[p := filter (λ c', c' ≠ c) l]> m else m)).
  { apply runs_when; intros Es; rewrite Es; [|done]. runs. unfold LeftChannel. by apply runs_change_channels with (l := l). }
  intros _ x ->. apply runs_chain, runs_at_key with (i := i); [done|]. rewrite Ho. cbv zeta. cbn [andb].
  apply runs_chain, runs_change. fold (left p ch). apply runs_chain.
  apply runs_mono with (P := λ _ x, x = (left p ch, if send then <[p := filter (λ c', c' ≠ c) l]> m else m)).
  { apply runs_when; intros _; [by apply runs_SendToAll|done]. }
  intros _ x ->. apply runs_chain, runs_LeaveNotify, runs_chain, runs_UpdateChannelUseageInDB, runs_chain, runs_chan. cbn [fst].
  rewrite Hh. change (_ownership (left p ch)) with (_ownership ch). rewrite Hown.
  apply runs_chain, runs_at_key with (i := j); [done|]. rewrite Hjg. apply runs_chain, runs_change_at. by apply runs_SetOwner.
Qed.

