(* ===== verification/LfgRoles.v ===== *)
(** * LfgRoles: who is tank, healer and damage dealer.

    [LFGMgr::CheckGroupRoles] (game/DungeonFinding/DungeonLFGMgr.cpp) is given the roles that
    every player of a prospective group is willing to play, and looks for one role for each, by
    backtracking over the map that it was given.  Here it is proved to find an assignment
    whenever there is one, and to leave the map as it was otherwise. *)
From S2P Require Import Prelude.
From stdpp Require Import gmap sets list sorting.
Open Scope Z_scope.

Module LfgRoles.

(** ** Constants (DungeonLFG.h) *)

Definition LFG_TANKS_NEEDED : Z := 1.
Definition LFG_HEALERS_NEEDED : Z := 1.
Definition LFG_DPS_NEEDED : Z := 3.

Definition PLAYER_ROLE_NONE : Z := 0x00.
Definition PLAYER_ROLE_LEADER : Z := 0x01.
Definition PLAYER_ROLE_TANK : Z := 0x02.
Definition PLAYER_ROLE_HEALER : Z := 0x04.
Definition PLAYER_ROLE_DAMAGE : Z := 0x08.

(** ** Maps from GUIDs, walked in the order of [std::map] *)

Abbreviation LfgRolesMap := (gmap Z Z).
Definition keys {A} (m : gmap Z A) : list Z := merge_sort Z.le (elements (dom m)).

(** [it->second], and the test of a flag *)
Definition role_of (m : LfgRolesMap) (k : Z) : Z := default PLAYER_ROLE_NONE (m !! k).
Definition plays (v r : Z) : bool := negb (Z.land v r =? 0).

(** ** The search *)

(** What a block of the loop does: it returns from the function, or goes on with the map and a
    counter. *)
Inductive block : Type :=
| Return (found : bool) (m : LfgRolesMap)
| Go (m : LfgRolesMap) (count : Z).

Section search.
Context (self : LfgRolesMap → result (bool * LfgRolesMap)).

(** [if (it->second & r) ...] for one of the three roles *)
Definition try_role (k r needed : Z) (m : LfgRolesMap) (count : Z) : result block :=
  if plays (role_of m k) r then
    if negb (role_of m k =? r) then
      '(found, m') ← self (<[k := role_of m k - r]> m);
      if found : bool then Ok (Return true m') else Ok (Go (<[k := u8 (role_of m' k + r)]> m') count)
    else if count =? needed then Ok (Return false m)
    else Ok (Go m (u8 (count + 1)))
  else Ok (Go m count).

Definition and_then (b : result block) (f : LfgRolesMap → Z → result (bool * LfgRolesMap)) : result (bool * LfgRolesMap) :=
  b ← b; match b with Return found m => Ok (found, m) | Go m count => f m count end.

Fixpoint roles_loop (n : nat) (l : list Z) (m : LfgRolesMap) (damage healer tank : Z) : result (bool * LfgRolesMap) :=
  match l with
  | [] => Ok (tank + healer + damage =? u8 (Z.of_nat n), m)
  | k :: l =>
    if role_of m k =? PLAYER_ROLE_NONE then Ok (false, m)
    else
      and_then (try_role k PLAYER_ROLE_DAMAGE LFG_DPS_NEEDED m damage) (λ m damage,
      and_then (try_role k PLAYER_ROLE_HEALER LFG_HEALERS_NEEDED m healer) (λ m healer,
      and_then (try_role k PLAYER_ROLE_TANK LFG_TANKS_NEEDED m tank) (λ m tank,
      roles_loop n l m damage healer tank)))
  end.

End search.

(** [CheckGroupRoles(groles, false)]: each call takes a role away, of three that a player may
    have. *)
Fixpoint check_roles (fuel : nat) (m : LfgRolesMap) : result (bool * LfgRolesMap) :=
  match fuel with
  | O => Throw Diverges
  | S fuel =>
    if bool_decide (m = ∅) then Ok (false, m)
    else roles_loop (check_roles fuel) (size m) (keys m) m 0 0 0
  end.

Definition without_leader (m : LfgRolesMap) : LfgRolesMap := (λ v, Z.land v (Z.lnot PLAYER_ROLE_LEADER)) <$> m.

Definition CheckGroupRoles (groles : LfgRolesMap) : result (bool * LfgRolesMap) :=
  if bool_decide (groles = ∅) then Ok (false, groles)
  else check_roles (S (3 * size groles)) (without_leader groles).

(** ** What it looks for *)

Definition roles : list Z := [PLAYER_ROLE_TANK; PLAYER_ROLE_HEALER; PLAYER_ROLE_DAMAGE].
Definition needed (r : Z) : Z :=
  if r =? PLAYER_ROLE_TANK then LFG_TANKS_NEEDED
  else if r =? PLAYER_ROLE_HEALER then LFG_HEALERS_NEEDED else LFG_DPS_NEEDED.

(** How many of the players [l] play exactly [r]. *)
Definition count_of (a : LfgRolesMap) (r : Z) (l : list Z) : Z := Z.of_nat (length (filter (λ k, a !! k = Some r) l)).

(** [a] gives everyone of [m] one of the roles that he is willing to play, and no role to too
    many. *)
Record assignment (m a : LfgRolesMap) : Prop := {
  assignment_dom : dom a = dom m;
  assignment_plays : ∀ k r, a !! k = Some r → r ∈ roles ∧ plays (role_of m k) r = true;
  assignment_fits : ∀ r, r ∈ roles → count_of a r (keys a) ≤ needed r }.

(** Nothing but the flags of roles and leader: what clients send. *)
Definition known_roles (m : LfgRolesMap) : Prop := map_Forall (λ _ v, 0 ≤ v < 16) m.

(** ** Roles of one player *)

Definition byte (v : Z) : Prop := 0 ≤ v < 256.
Definition open_roles (v : Z) : nat := length (filter (λ r, plays v r = true) roles).

Definition bytes_check (P : Z → bool) : bool := forallb P (seqZ 0 256).
Lemma bytes_checked P v : bytes_check P = true → byte v → P v = true.
Proof. intros H Hv. apply (proj1 (forallb_forall _ _) H). apply list_elem_of_In, elem_of_seqZ. unfold byte in Hv. lia. Qed.

(** A role is taken away from a player who has others. *)
Definition removal_ok (r v : Z) : bool :=
  negb (plays v r && negb (v =? r)) ||
  ((0 <=? v - r) && (v - r <? 256) && (u8 (v - r + r) =? v) && (open_roles (v - r) <? open_roles v)%nat &&
   forallb (λ r', Bool.eqb (plays (v - r) r') (plays v r' && negb (r' =? r))) roles).
Lemma removal r v : r ∈ roles → byte v → plays v r = true → v ≠ r →
  byte (v - r) ∧ u8 (v - r + r) = v ∧ (open_roles (v - r) < open_roles v)%nat ∧
  ∀ r', r' ∈ roles → plays (v - r) r' = plays v r' && negb (r' =? r).
Proof.
  intros Hr Hv Hp Hne. assert (removal_ok r v = true) as H.
  { apply bytes_checked; [|done]. repeat (apply elem_of_cons in Hr as [->|Hr]; [vm_compute; reflexivity|]). by apply elem_of_nil in Hr. }
  unfold removal_ok in H. rewrite Hp, (proj2 (Z.eqb_neq v r) Hne) in H. cbn [negb orb andb] in H.
  rewrite !andb_true_iff in H. destruct H as [[[[H1 H2] H3] H4] H5]. unfold byte. split; [lia|]. split; [lia|].
  split; [by apply Nat.ltb_lt|]. intros r' Hr'. apply eqb_prop, (proj1 (forallb_forall _ _) H5). by apply list_elem_of_In.
Qed.

(** A player with a single role. *)
Lemma alone r r' : r ∈ roles → r' ∈ roles → plays r r' = (r' =? r).
Proof.
  unfold roles. intros Hr Hr'. repeat (apply elem_of_cons in Hr as [->|Hr]; [|try by apply elem_of_nil in Hr]);
  repeat (apply elem_of_cons in Hr' as [->|Hr']; [|try by apply elem_of_nil in Hr']); reflexivity.
Qed.

(** ** Keys and counts *)

Lemma elem_of_keys {A} (m : gmap Z A) k : k ∈ keys m ↔ is_Some (m !! k).
Proof. unfold keys. by rewrite (merge_sort_Permutation Z.le), elem_of_elements, elem_of_dom. Qed.
Lemma NoDup_keys {A} (m : gmap Z A) : NoDup (keys m).
Proof. unfold keys. rewrite (merge_sort_Permutation Z.le). apply NoDup_elements. Qed.
Lemma length_keys {A} (m : gmap Z A) : length (keys m) = size m.
Proof. unfold keys. rewrite (merge_sort_Permutation Z.le). change (length (elements (dom m))) with (size (dom m)). apply size_dom. Qed.
Lemma keys_dom {A B} (m : gmap Z A) (m' : gmap Z B) : dom m = dom m' → keys m = keys m'.
Proof. unfold keys. by intros ->. Qed.
Lemma role_of_Some m k v : m !! k = Some v → role_of m k = v.
Proof. unfold role_of. by intros ->. Qed.
Lemma role_of_insert m k v : role_of (<[k := v]> m) k = v.
Proof. unfold role_of. by rewrite lookup_insert_eq. Qed.
Lemma role_of_insert_ne m k k' v : k ≠ k' → role_of (<[k := v]> m) k' = role_of m k'.
Proof. intros H. unfold role_of. by rewrite lookup_insert_ne. Qed.

Lemma count_of_cons m r k l : count_of m r (k :: l) = (if bool_decide (m !! k = Some r) then 1 else 0) + count_of m r l.
Proof. unfold count_of. rewrite filter_cons. case_bool_decide; destruct (decide _); try done; simpl length; lia. Qed.
Lemma count_of_app m r l l' : count_of m r (l ++ l') = count_of m r l + count_of m r l'.
Proof. unfold count_of. rewrite filter_app, length_app. lia. Qed.
Lemma count_of_nonneg m r l : 0 ≤ count_of m r l.
Proof. unfold count_of. lia. Qed.
Lemma count_of_snoc m r k l : count_of m r (l ++ [k]) = count_of m r l + (if bool_decide (m !! k = Some r) then 1 else 0).
Proof. rewrite count_of_app, count_of_cons. change (count_of m r []) with 0. lia. Qed.
(** Who has no choice plays the same in an assignment. *)
Lemma count_of_mono m a r l : (∀ k, k ∈ l → m !! k = Some r → a !! k = Some r) → count_of m r l ≤ count_of a r l.
Proof.
  induction l as [|k l IH]; intros H; [done|]. rewrite !count_of_cons.
  assert (count_of m r l ≤ count_of a r l) by (apply IH; intros; apply H; [by constructor|done]).
  do 2 case_bool_decide; try lia. exfalso. eauto using list_elem_of_here.
Qed.

Definition all_counts (m : LfgRolesMap) (l : list Z) : Z :=
  count_of m PLAYER_ROLE_TANK l + count_of m PLAYER_ROLE_HEALER l + count_of m PLAYER_ROLE_DAMAGE l.
Lemma all_counts_le m l : all_counts m l ≤ Z.of_nat (length l).
Proof.
  unfold all_counts. induction l as [|k l IH]; [done|]. rewrite !count_of_cons. simpl length.
  destruct (m !! k) as [v|]; do 3 case_bool_decide; simplify_eq; lia.
Qed.
Lemma all_counts_full m l : all_counts m l = Z.of_nat (length l) ↔ ∀ k, k ∈ l → ∃ r, r ∈ roles ∧ m !! k = Some r.
Proof.
  induction l as [|k l IH]; [split; [by intros _ k ?%elem_of_nil|done]|].
  assert (all_counts m (k :: l) = all_counts m l + (if bool_decide (m !! k ∈ Some <$> roles) then 1 else 0)) as ->.
  { unfold all_counts, roles. rewrite !count_of_cons. case_bool_decide as E1; case_bool_decide as E2; case_bool_decide as E3;
      case_bool_decide as E4; try congruence; simpl in E4; rewrite ?E1, ?E2, ?E3 in E4; set_unfold; try lia; naive_solver. }
  pose proof (all_counts_le m l). simpl length. rewrite Nat2Z.inj_succ.
  assert (m !! k ∈ Some <$> roles ↔ ∃ r, r ∈ roles ∧ m !! k = Some r) as E by (rewrite list_elem_of_fmap; naive_solver).
  split.
  - case_bool_decide as E1; intros Hs; [|lia]. intros k' [->|Hk']%elem_of_cons; [by apply E|]. apply IH; [lia|done].
  - intros Hs. rewrite bool_decide_true by (apply E, Hs; constructor). rewrite (proj2 IH); [lia|]. intros. apply Hs. by constructor.
Qed.

(** ** What a search answers *)

Definition solvable (m : LfgRolesMap) : Prop := ∃ a, assignment m a.
Definition well (m : LfgRolesMap) : Prop := map_Forall (λ _ v, byte v) m.
(** Nothing but the flags of roles. *)
Definition clean (m : LfgRolesMap) : Prop := map_Forall (λ _ v, v ∈ [0; 2; 4; 6; 8; 10; 12; 14]) m.

Definition answers (m : LfgRolesMap) (o : result (bool * LfgRolesMap)) : Prop :=
  match o with
  | Ok (true, m') => assignment m m'
  | Ok (false, m') => m' = m ∧ (clean m → ¬ solvable m)
  | Throw _ => False
  end.

(** How many roles can be taken away. *)
Definition weight (m : LfgRolesMap) (l : list Z) : nat := sum_list_with (λ k, open_roles (role_of m k)) l.

Lemma weight_insert m k v l : NoDup l → k ∈ l → (open_roles v < open_roles (role_of m k))%nat →
  (weight (<[k := v]> m) l < weight m l)%nat.
Proof.
  intros Hnd Hk Hv. apply list_elem_of_split in Hk as (l1 & l2 & ->).
  apply NoDup_app in Hnd as (_ & H1 & H2). apply NoDup_cons in H2 as [H2 _].
  assert (∀ l', k ∉ l' → weight (<[k := v]> m) l' = weight m l') as E.
  { induction l' as [|k' l' IH]; [done|]. intros [Hk' Hl]%not_elem_of_cons. unfold weight in *. cbn [sum_list_with].
    by rewrite IH, role_of_insert_ne. }
  unfold weight in *. rewrite !sum_list_with_app. cbn [sum_list_with]. rewrite !E, role_of_insert; [lia|done|].
  intros Hk. apply (H1 k Hk). constructor.
Qed.

Lemma role_alone v : v ∈ [0; 2; 4; 6; 8; 10; 12; 14] → v ≠ 0 → v ∉ roles →
  ∃ r r', r ∈ roles ∧ r' ∈ roles ∧ r ≠ r' ∧ plays v r = true ∧ plays v r' = true.
Proof.
  intros Hv H0 Hn. unfold roles in *.
  assert (v = 6 ∨ v = 10 ∨ v = 12 ∨ v = 14) as [->|[->|[->| ->]]] by (cbv in Hn; set_unfold; lia).
  all: first [exists 2, 4; repeat split; [set_solver|set_solver|lia] | exists 2, 8; repeat split; [set_solver|set_solver|lia]
             | exists 4, 8; repeat split; [set_solver|set_solver|lia]].
Qed.

Lemma clean_removal m k v r : clean m → m !! k = Some v → r ∈ roles → plays v r = true → clean (<[k := v - r]> m).
Proof.
  intros Hcl Hk Hr Ep. apply map_Forall_insert_2; [|done]. specialize (Hcl k v Hk). cbv beta in Hcl |- *.
  unfold roles in Hr. repeat (apply elem_of_cons in Hcl as [->|Hcl]; [|try by apply elem_of_nil in Hcl]);
  repeat (apply elem_of_cons in Hr as [->|Hr]; [|try by apply elem_of_nil in Hr]); try discriminate Ep; set_solver.
Qed.

Section loop.
Context (m : LfgRolesMap) (self : LfgRolesMap → result (bool * LfgRolesMap)).
Hypothesis Hwell : well m.
Hypothesis Hself : ∀ m', dom m' = dom m → well m' → (clean m → clean m') →
  (weight m' (keys m) < weight m (keys m))%nat → answers m' (self m').

(** What is known of the player [k] after a block. *)
Inductive seen (k r count : Z) : Z → Prop :=
| seen_not : plays (role_of m k) r = false → seen k r count count
| seen_one : role_of m k = r → count ≠ needed r → seen k r count (count + 1)
| seen_more : role_of m k ≠ r → (clean m → ∀ a, assignment m a → a !! k = Some r) → seen k r count count.

Lemma try_role_answers k v r count :
  m !! k = Some v → r ∈ roles → 0 ≤ count ≤ needed r →
  match try_role self k r (needed r) m count with
  | Ok (Return true m') => assignment m m'
  | Ok (Return false m') => m' = m ∧ v = r ∧ count = needed r
  | Ok (Go m' count') => m' = m ∧ seen k r count count'
  | Throw _ => False
  end.
Proof using Hself Hwell.
  intros Hk Hr Hc. pose proof (role_of_Some _ _ _ Hk) as Hv. unfold try_role. rewrite Hv.
  destruct (plays v r) eqn:Ep; [|split; [done|]; apply seen_not; by rewrite Hv].
  destruct (v =? r) eqn:Ev; simpl negb; cbv iota.
  - apply Z.eqb_eq in Ev. destruct (count =? needed r) eqn:En; [by apply Z.eqb_eq in En|].
    split; [done|]. assert (u8 (count + 1) = count + 1) as ->.
    { apply Z.mod_small. assert (needed r ≤ 3); [|lia]. unfold needed, LFG_TANKS_NEEDED, LFG_HEALERS_NEEDED, LFG_DPS_NEEDED.
      repeat case_match; lia. }
    apply seen_one; [congruence|by apply Z.eqb_neq].
  - apply Z.eqb_neq in Ev. destruct (removal r v) as (Hb & Hu & Ho & Hp); [done|by apply (Hwell k)|done|done|].
    assert (answers (<[k := v - r]> m) (self (<[k := v - r]> m))) as Hans.
    { apply Hself.
      - apply dom_insert_lookup_L. by exists v.
      - by apply map_Forall_insert_2.
      - intros Hcl. by apply clean_removal.
      - apply weight_insert; [apply NoDup_keys|apply elem_of_keys; eauto|by rewrite Hv]. }
    assert (∀ a, assignment m a → a !! k ≠ Some r → assignment (<[k := v - r]> m) a) as Hless.
    { intros a [Hd Hpl Hf] Hne. split; [|..|done].
      - rewrite Hd. symmetry. apply dom_insert_lookup_L. by exists v.
      - intros k' r' Hk'. destruct (Hpl k' r' Hk') as [Hr' Hp']. split; [done|]. 
        destruct (decide (k' = k)) as [->|]; [|by rewrite role_of_insert_ne]. rewrite role_of_insert, Hp by done.
        rewrite Hv in Hp'. rewrite Hp'. simpl. apply negb_true_iff, Z.eqb_neq. congruence. }
    unfold mbind, result_bind. destruct (self _) as [[[] m']|]; [| |done]; cbn [answers] in Hans.
    + destruct Hans as [Hd Hpl Hf]. split; [|..|done].
      * rewrite Hd. apply dom_insert_lookup_L. by exists v.
      * intros k' r' Hk'. destruct (Hpl k' r' Hk') as [Hr' Hp']. split; [done|]. 
        destruct (decide (k' = k)) as [->|]; [|by rewrite role_of_insert_ne in Hp']. rewrite role_of_insert in Hp'.
        rewrite Hv. rewrite Hp in Hp' by done. by apply andb_true_iff in Hp' as [? _].
    + destruct Hans as [-> Hno]. cbv iota beta. rewrite role_of_insert, insert_insert_eq, Hu, insert_id by done.
      split; [done|]. apply seen_more; [congruence|]. intros Hcl a Ha. destruct (decide (a !! k = Some r)) as [|Hne]; [done|].
      exfalso. apply Hno; [by apply clean_removal|exists a; auto].
Qed.

Lemma and_then_answers b f :
  match b with
  | Ok (Return true m') => assignment m m'
  | Ok (Return false m') => m' = m ∧ (clean m → ¬ solvable m)
  | Ok (Go m' count) => m' = m ∧ answers m (f m count)
  | Throw _ => False
  end → answers m (and_then b f).
Proof using Type. destruct b as [[[] m'|m' count]|]; simpl; [done|done| |done]. by intros [-> ?]. Qed.

(** Too many players have no choice but [r]. *)
Lemma too_many r : r ∈ roles → needed r < count_of m r (keys m) → ¬ solvable m.
Proof using Type.
  intros Hr Hc [a [Hd Hp Hf]]. specialize (Hf r Hr). rewrite (keys_dom _ _ Hd) in Hf.
  pose proof (count_of_mono m a r (keys m)) as Hmono. cut (count_of m r (keys m) ≤ count_of a r (keys m)); [lia|].
  apply Hmono. intros k _ Hk. assert (is_Some (a !! k)) as [r' Hr'] by (apply elem_of_dom; rewrite Hd; apply elem_of_dom; eauto).
  destruct (Hp k r' Hr') as [Hin Hpl]. rewrite (role_of_Some _ _ _ Hk), alone in Hpl by done. apply Z.eqb_eq in Hpl. by subst.
Qed.

Lemma keys_self : (∀ k, k ∈ keys m → ∃ r, r ∈ roles ∧ m !! k = Some r) → (∀ r, r ∈ roles → count_of m r (keys m) ≤ needed r) →
  assignment m m.
Proof using Type.
  intros H1 H2. split; [done| |done]. intros k r Hk. destruct (H1 k) as (r' & Hr' & Hk'); [apply elem_of_keys; eauto|].
  assert (r' = r) as -> by congruence. split; [done|]. rewrite (role_of_Some _ _ _ Hk), alone by done. by apply Z.eqb_eq.
Qed.

(** One block, when [count] of the players before [k] have no choice but [r]. *)
Lemma block_answers k v r count f :
  m !! k = Some v → r ∈ roles → 0 ≤ count ≤ needed r →
  (v = r → count = needed r → ¬ solvable m) →
  (∀ count', seen k r count count' → answers m (f m count')) →
  answers m (and_then (try_role self k r (needed r) m count) f).
Proof using Hself Hwell.
  intros Hk Hr Hc Hfull Hf. apply and_then_answers. pose proof (try_role_answers k v r count Hk Hr Hc) as T.
  destruct (try_role _ _ _ _ _ _) as [[[] m'|m' c']|]; [done| | |done].
  - destruct T as (-> & Hv & He). auto.
  - destruct T as [-> T]. auto.
Qed.

Lemma seen_count k v r count count' done :
  m !! k = Some v → r ∈ roles → count = count_of m r done → count ≤ needed r → seen k r count count' →
  count' = count_of m r (done ++ [k]) ∧ count' ≤ needed r.
Proof using Type.
  intros Hk Hr -> Hn Hs. pose proof (role_of_Some _ _ _ Hk) as Hv. rewrite count_of_snoc.
  destruct Hs as [Hs|Hs Hs'|Hs _]; rewrite Hv in Hs; rewrite Hk.
  - rewrite bool_decide_false; [lia|]. intros [= ->]. by rewrite (alone r r Hr Hr), Z.eqb_refl in Hs.
  - rewrite bool_decide_true by congruence. lia.
  - rewrite bool_decide_false by congruence. lia.
Qed.

(** A choice that was tried and did not work out. *)
Lemma seen_forced k v r count count' a :
  m !! k = Some v → plays v r = true → v ∉ roles → r ∈ roles → seen k r count count' → clean m → assignment m a → a !! k = Some r.
Proof using Type.
  intros Hk Hp Hn Hr Hs. pose proof (role_of_Some _ _ _ Hk) as Hv.
  destruct Hs as [Hs|Hs Hs'|Hs Hs']; rewrite Hv in Hs; [congruence|by subst|by auto].
Qed.

(** After [done]: the counters count, and whoever had a choice has no role that works out. *)
Lemma loop_answers l done damage healer tank :
  keys m = done ++ l → (size m < 256)%nat →
  damage = count_of m PLAYER_ROLE_DAMAGE done → healer = count_of m PLAYER_ROLE_HEALER done → tank = count_of m PLAYER_ROLE_TANK done →
  damage ≤ LFG_DPS_NEEDED → healer ≤ LFG_HEALERS_NEEDED → tank ≤ LFG_TANKS_NEEDED →
  (∀ k, k ∈ done → role_of m k ∉ roles → clean m → ¬ solvable m) →
  answers m (roles_loop self (size m) l m damage healer tank).
Proof using Hself Hwell.
  revert done damage healer tank. induction l as [|k l IH]; intros done d h t Hks Hsz Hd Hh Ht Nd Nh Nt Hm; simpl.
  - rewrite app_nil_r in Hks. rewrite <-Hks in *.
    assert (tank_sum : t + h + d = all_counts m (keys m)) by (unfold all_counts; lia). rewrite tank_sum.
    unfold u8. rewrite <-(length_keys m) in *. rewrite Z.mod_small by lia. destruct (_ =? _) eqn:E; simpl.
    + apply Z.eqb_eq in E. apply keys_self; [by apply all_counts_full|]. unfold roles.
      intros r [->|[->|[->|[]%elem_of_nil]%elem_of_cons]%elem_of_cons]%elem_of_cons; cbv [needed]; simpl; lia.
    + split; [done|]. intros Hcl Hs. apply Z.eqb_neq in E. apply E, all_counts_full.
      intros k Hk. pose proof (proj1 (elem_of_keys _ _) Hk) as [v Hv]. exists v. split; [|done].
      destruct (decide (v ∈ roles)) as [|Hv']; [done|]. exfalso. apply (Hm k Hk); [by rewrite (role_of_Some _ _ _ Hv)|done|done].
  - assert (is_Some (m !! k)) as [v Hk] by (apply elem_of_keys; rewrite Hks; set_solver).
    pose proof (role_of_Some _ _ _ Hk) as Hv. rewrite Hv. destruct (v =? PLAYER_ROLE_NONE) eqn:Ev.
    { apply Z.eqb_eq in Ev. split; [done|]. intros _ [a [Ha1 Ha2 _]].
      assert (is_Some (a !! k)) as [r Hr] by (apply elem_of_dom; rewrite Ha1; apply elem_of_dom; eauto).
      destruct (Ha2 k r Hr) as [_ Hp]. rewrite Hv, Ev in Hp. by destruct r. }
    apply Z.eqb_neq in Ev.
    assert (PLAYER_ROLE_DAMAGE ∈ roles ∧ PLAYER_ROLE_HEALER ∈ roles ∧ PLAYER_ROLE_TANK ∈ roles) as (R8 & R4 & R2)
      by (unfold roles; set_solver).
    assert (∀ r, r ∈ roles → v = r → count_of m r done = needed r → ¬ solvable m) as Hfull.
    { intros r Hr -> Hc. apply (too_many r Hr). rewrite Hks, count_of_app, count_of_cons, bool_decide_true by done.
      pose proof (count_of_nonneg m r l). lia. }
    pose proof (count_of_nonneg m) as Hpos. subst d h t.
    apply (block_answers k v PLAYER_ROLE_DAMAGE); [done|done|by split; [apply Hpos|]|by apply Hfull|]. intros d S8.
    apply (block_answers k v PLAYER_ROLE_HEALER); [done|done|by split; [apply Hpos|]|by apply Hfull|]. intros h S4.
    apply (block_answers k v PLAYER_ROLE_TANK); [done|done|by split; [apply Hpos|]|by apply Hfull|]. intros t S2.
    destruct (seen_count _ _ _ _ _ done Hk R8 eq_refl Nd S8) as [C8 L8].
    destruct (seen_count _ _ _ _ _ done Hk R4 eq_refl Nh S4) as [C4 L4].
    destruct (seen_count _ _ _ _ _ done Hk R2 eq_refl Nt S2) as [C2 L2].
    apply (IH (done ++ [k])); try done; [by rewrite <-app_assoc|].
    intros k' [Hk'| ->%list_elem_of_singleton]%elem_of_app Hn Hcl; [by apply (Hm k')|]. rewrite Hv in Hn. intros [a Ha].
    destruct (role_alone v (Hcl k v Hk) Ev Hn) as (r & r' & Hr & Hr' & Hne & Hp & Hp').
    assert (∀ r, r ∈ roles → plays v r = true → a !! k = Some r) as Hforced; [|pose proof (Hforced r Hr Hp); pose proof (Hforced r' Hr' Hp'); congruence].
    intros r0 Hr0 Hp0. unfold roles in Hr0. apply elem_of_cons in Hr0 as [->|Hr0]; [by eapply (seen_forced k v)|].
    apply elem_of_cons in Hr0 as [->|Hr0]; [by eapply (seen_forced k v)|].
    apply list_elem_of_singleton in Hr0 as ->. by eapply (seen_forced k v).
Qed.

End loop.

Lemma check_answers fuel m : m ≠ ∅ → well m → (size m < 256)%nat → (weight m (keys m) < fuel)%nat → answers m (check_roles fuel m).
Proof.
  revert m. induction fuel as [|fuel IH]; intros m Hne Hw Hs Hf; [lia|]. cbn [check_roles]. rewrite bool_decide_false by done.
  apply (loop_answers m (check_roles fuel) Hw) with (done := []); try done; [|by intros k ?%elem_of_nil].
  intros m' Hd Hw' _ Hl. apply IH; [|done|by rewrite <-size_dom, Hd, size_dom|rewrite (keys_dom _ _ Hd); lia].
  intros ->. apply Hne, dom_empty_iff_L. rewrite <-Hd. apply dom_empty_L.
Qed.

Definition leader_ok (v : Z) : bool :=
  (0 <=? Z.land v (Z.lnot PLAYER_ROLE_LEADER)) && (Z.land v (Z.lnot PLAYER_ROLE_LEADER) <? 256) &&
  forallb (λ r, Bool.eqb (plays (Z.land v (Z.lnot PLAYER_ROLE_LEADER)) r) (plays v r)) roles &&
  ((16 <=? v) || bool_decide (Z.land v (Z.lnot PLAYER_ROLE_LEADER) ∈ [0; 2; 4; 6; 8; 10; 12; 14])).
Lemma leader v : byte v → byte (Z.land v (Z.lnot PLAYER_ROLE_LEADER)) ∧
  (∀ r, r ∈ roles → plays (Z.land v (Z.lnot PLAYER_ROLE_LEADER)) r = plays v r) ∧
  (v < 16 → Z.land v (Z.lnot PLAYER_ROLE_LEADER) ∈ [0; 2; 4; 6; 8; 10; 12; 14]).
Proof.
  intros Hv. assert (leader_ok v = true) as H by (apply bytes_checked; [vm_compute; reflexivity|done]).
  unfold leader_ok in H. rewrite !andb_true_iff, orb_true_iff, bool_decide_eq_true in H. destruct H as [[[H1 H2] H3] H4].
  split; [unfold byte; lia|]. split; [|intros; destruct H4; [lia|done]].
  intros r Hr. rewrite forallb_forall in H3. by apply eqb_prop, H3, list_elem_of_In.
Qed.

Lemma role_of_without_leader m k : role_of (without_leader m) k = Z.land (role_of m k) (Z.lnot PLAYER_ROLE_LEADER).
Proof. unfold role_of, without_leader. rewrite lookup_fmap. by destruct (m !! k). Qed.
Lemma plays_without_leader m k r : well m → r ∈ roles → plays (role_of (without_leader m) k) r = plays (role_of m k) r.
Proof.
  intros Hw Hr. rewrite role_of_without_leader. apply leader; [|done]. unfold role_of. destruct (m !! k) eqn:E; [by apply (Hw k)|].
  unfold byte, PLAYER_ROLE_NONE. simpl. lia.
Qed.
Lemma assignment_without_leader m a : well m → assignment (without_leader m) a ↔ assignment m a.
Proof.
  intros Hw. assert (dom (without_leader m) = dom m) as Hd by apply dom_fmap_L.
  split; intros [H1 H2 H3]; (split; [congruence| |done]); intros k r Hk; destruct (H2 k r Hk) as [Hr Hp];
    (split; [done|]); [by rewrite <-plays_without_leader|by rewrite plays_without_leader].
Qed.
Lemma known_bytes m : known_roles m → well m.
Proof. intros H k v Hk. specialize (H k v Hk). unfold byte. cbv beta in H. lia. Qed.

Lemma weight_le m l : (weight m l ≤ 3 * length l)%nat.
Proof.
  unfold weight. induction l as [|k l IH]; simpl; [done|]. assert (open_roles (role_of m k) ≤ 3)%nat; [|lia].
  unfold open_roles. etrans; [apply length_filter|done].
Qed.

(** The whole search. *)
Lemma CheckGroupRoles_answers m : m ≠ ∅ → well m → (size m < 256)%nat →
  match CheckGroupRoles m with
  | Ok (true, m') => assignment m m'
  | Ok (false, m') => m' = without_leader m ∧ (known_roles m → ¬ solvable m)
  | Throw _ => False
  end.
Proof.
  intros Hne Hw Hs. unfold CheckGroupRoles. rewrite bool_decide_false by done.
  assert (size (without_leader m) = size m) as Hsz by apply map_size_fmap.
  assert (well (without_leader m)) as Hw'.
  { intros k v Hk. unfold without_leader in Hk. rewrite lookup_fmap in Hk. destruct (m !! k) as [v0|] eqn:E; [|done].
    injection Hk as <-. apply leader. by apply (Hw k). }
  pose proof (check_answers (S (3 * size m)) (without_leader m)) as H.
  destruct (check_roles _ _) as [[[] m']|]; cbn [answers] in H.
  - apply assignment_without_leader; [done|]. apply H; [by intros ?%fmap_empty_inv|done|lia|].
    pose proof (weight_le (without_leader m) (keys (without_leader m))) as Hl. rewrite length_keys in Hl. lia.
  - destruct H as [-> H]; [by intros ?%fmap_empty_inv|done|lia| |].
    { pose proof (weight_le (without_leader m) (keys (without_leader m))) as Hl. rewrite length_keys in Hl. lia. }
    split; [done|]. intros Hk [a Ha]. apply H; [|exists a; by apply assignment_without_leader].
    intros k v Hv. unfold without_leader in Hv. rewrite lookup_fmap in Hv. destruct (m !! k) as [v0|] eqn:E; [|done].
    injection Hv as <-. pose proof (Hk k v0 E) as [? ?]. apply leader; [unfold byte; lia|lia].
  - apply H; [by intros ?%fmap_empty_inv|done|lia|].
    pose proof (weight_le (without_leader m) (keys (without_leader m))) as Hl. rewrite length_keys in Hl. lia.
Qed.

End LfgRoles.
