(* ===== verification/LfgQueue.v ===== *)
(** * LfgQueue: the queue of the dungeon finder.

    [game/DungeonFinding/DungeonLFGQueue.{h,cpp}], with the data that [LFGMgr] keeps of players,
    groups and proposals (DungeonLFGPlayerData, DungeonLFGGroupData, DungeonLFGMgr.h), which the
    queue asks for.  The elements of a queue are GUIDs of players or of groups.  The queue tries
    combinations of elements and caches what it finds under the text of their GUIDs; a
    combination of five players with the roles and a dungeon in common becomes a proposal.

    [operator[]] of a map makes an entry of defaults for a key that it does not know.  Where the
    entry cannot be told from none (the data of players and groups, the averages, that nothing
    walks through), the model reads the defaults without making the entry. *)
From S2P Require Import Prelude ObjectGuid FieldsText LfgRoles.
From stdpp Require Import gmap sets list sorting.
Open Scope Z_scope.
Import LfgRoles.

Module LfgQueue.

Definition MAXGROUPSIZE : Z := 5.
Definition LFG_TIME_PROPOSAL : Z := 45.

Inductive LfgState : Type :=
| LFG_STATE_NONE | LFG_STATE_ROLECHECK | LFG_STATE_QUEUED | LFG_STATE_PROPOSAL | LFG_STATE_BOOT
| LFG_STATE_DUNGEON | LFG_STATE_FINISHED_DUNGEON | LFG_STATE_RAIDBROWSER.
#[global] Instance LfgState_eq_dec : EqDecision LfgState.
Proof. solve_decision. Defined.

Inductive LfgAnswer : Type := LFG_ANSWER_PENDING | LFG_ANSWER_DENY | LFG_ANSWER_AGREE.
#[global] Instance LfgAnswer_eq_dec : EqDecision LfgAnswer.
Proof. solve_decision. Defined.

Inductive LfgCompatibility : Type :=
| LFG_COMPATIBILITY_PENDING | LFG_INCOMPATIBLES_WRONG_GROUP_SIZE | LFG_INCOMPATIBLES_TOO_MUCH_PLAYERS
| LFG_INCOMPATIBLES_MULTIPLE_LFG_GROUPS | LFG_INCOMPATIBLES_HAS_IGNORES | LFG_INCOMPATIBLES_NO_ROLES
| LFG_INCOMPATIBLES_NO_DUNGEONS | LFG_COMPATIBLES_WITH_LESS_PLAYERS | LFG_COMPATIBLES_BAD_STATES
| LFG_COMPATIBLES_MATCH.
#[global] Instance LfgCompatibility_eq_dec : EqDecision LfgCompatibility.
Proof. solve_decision. Defined.
(** [c < LFG_COMPATIBLES_WITH_LESS_PLAYERS] *)
Definition not_compatible (c : LfgCompatibility) : bool :=
  match c with LFG_COMPATIBLES_WITH_LESS_PLAYERS | LFG_COMPATIBLES_BAD_STATES | LFG_COMPATIBLES_MATCH => false | _ => true end.

(** ** Data *)

Record LfgPlayerData : Type := mkLfgPlayerData {
  p_State : LfgState; p_OldState : LfgState; m_LockedDungeons : gmap Z Z; m_Team : Z; m_Group : Z;
  m_Roles : Z; m_Comment : list Z; m_SelectedDungeons : gset Z }.
Definition new_LfgPlayerData : LfgPlayerData := mkLfgPlayerData LFG_STATE_NONE LFG_STATE_NONE ∅ 0 0 0 [] ∅.

Record LfgGroupData : Type := mkLfgGroupData {
  g_State : LfgState; g_OldState : LfgState; m_Leader : Z; m_Players : gset Z; m_Dungeon : Z; m_KicksLeft : Z }.
Definition LFG_GROUP_MAX_KICKS : Z := 3.
Definition new_LfgGroupData : LfgGroupData := mkLfgGroupData LFG_STATE_NONE LFG_STATE_NONE 0 ∅ 0 LFG_GROUP_MAX_KICKS.

Record LfgCompatibilityData : Type := mkLfgCompatibilityData { compatibility : LfgCompatibility; compatible_roles : LfgRolesMap }.

Record LfgQueueData : Type := mkLfgQueueData {
  joinTime : Z; tanks : Z; healers : Z; dps : Z; dungeons : gset Z; queue_roles : LfgRolesMap; bestCompatible : list Z }.
Definition new_LfgQueueData (_joinTime : Z) (_dungeons : gset Z) (_roles : LfgRolesMap) : LfgQueueData :=
  mkLfgQueueData _joinTime LFG_TANKS_NEEDED LFG_HEALERS_NEEDED LFG_DPS_NEEDED _dungeons _roles [].

Record LfgWaitTime : Type := mkLfgWaitTime { wt_time : Z; wt_number : Z }.
Definition new_LfgWaitTime : LfgWaitTime := mkLfgWaitTime (-1) 0.

Record LFGQueue : Type := mkLFGQueue {
  QueueDataStore : gmap Z LfgQueueData;
  CompatibleMapStore : gmap (list Z) LfgCompatibilityData;
  waitTimesAvgStore : gmap Z LfgWaitTime; waitTimesTankStore : gmap Z LfgWaitTime;
  waitTimesHealerStore : gmap Z LfgWaitTime; waitTimesDpsStore : gmap Z LfgWaitTime;
  currentQueueStore : list Z; newToQueueStore : list Z }.
Definition new_LFGQueue : LFGQueue := mkLFGQueue ∅ ∅ ∅ ∅ ∅ ∅ [] [].

Record LfgProposalPlayer : Type := mkLfgProposalPlayer { pp_role : Z; pp_accept : LfgAnswer; pp_group : Z }.
Inductive LfgProposalState : Type := LFG_PROPOSAL_INITIATING | LFG_PROPOSAL_FAILED | LFG_PROPOSAL_SUCCESS.
#[global] Instance LfgProposalState_eq_dec : EqDecision LfgProposalState.
Proof. solve_decision. Defined.

(** Without [encounters] and [showorder], which nothing sets. *)
Record LfgProposal : Type := mkLfgProposal {
  proposal_id : Z; dungeonId : Z; proposal_state : LfgProposalState; proposal_group : Z; proposal_leader : Z;
  proposal_cancelTime : Z; isNew : bool; queues : list Z; players : gmap Z LfgProposalPlayer }.

Inductive LfgRoleCheckState : Type :=
| LFG_ROLECHECK_DEFAULT | LFG_ROLECHECK_FINISHED | LFG_ROLECHECK_INITIALITING | LFG_ROLECHECK_MISSING_ROLE
| LFG_ROLECHECK_WRONG_ROLES | LFG_ROLECHECK_ABORTED | LFG_ROLECHECK_NO_ROLE.
#[global] Instance LfgRoleCheckState_eq_dec : EqDecision LfgRoleCheckState.
Proof. solve_decision. Defined.
Record LfgRoleCheck : Type := mkLfgRoleCheck {
  rc_cancelTime : Z; rc_roles : LfgRolesMap; rc_state : LfgRoleCheckState; rc_dungeons : gset Z; rDungeonId : Z; rc_leader : Z }.

Record LfgPlayerBoot : Type := mkLfgPlayerBoot {
  boot_cancelTime : Z; inProgress : bool; votes : gmap Z LfgAnswer; boot_victim : Z; reason : list Z }.

(** What a player is told about his place in the queue. *)
Record LfgQueueStatusData : Type := mkLfgQueueStatusData {
  qs_queueId : Z; qs_dungeonId : Z; qs_joinTime : Z; qs_waitTime : Z; qs_waitTimeAvg : Z; qs_waitTimeTank : Z;
  qs_waitTimeHealer : Z; qs_waitTimeDps : Z; qs_queuedTime : Z; qs_tanks : Z; qs_healers : Z; qs_dps : Z }.

(** ** The manager *)

Inductive LfgUpdateType : Type :=
| LFG_UPDATETYPE_JOIN_QUEUE | LFG_UPDATETYPE_ROLECHECK_FAILED | LFG_UPDATETYPE_REMOVED_FROM_QUEUE
| LFG_UPDATETYPE_PROPOSAL_FAILED | LFG_UPDATETYPE_PROPOSAL_DECLINED | LFG_UPDATETYPE_GROUP_FOUND
| LFG_UPDATETYPE_ADDED_TO_QUEUE | LFG_UPDATETYPE_PROPOSAL_BEGIN.
Inductive LfgJoinResult : Type :=
| LFG_JOIN_OK | LFG_JOIN_FAILED | LFG_JOIN_INTERNAL_ERROR | LFG_JOIN_NOT_MEET_REQS | LFG_JOIN_MIXED_RAID_DUNGEON
| LFG_JOIN_DISCONNECTED | LFG_JOIN_DUNGEON_INVALID | LFG_JOIN_DESERTER | LFG_JOIN_PARTY_DESERTER
| LFG_JOIN_RANDOM_COOLDOWN | LFG_JOIN_PARTY_RANDOM_COOLDOWN | LFG_JOIN_TOO_MUCH_MEMBERS
| LFG_JOIN_USING_BG_SYSTEM | LFG_JOIN_ROLE_CHECK_FAILED.
#[global] Instance LfgJoinResult_eq_dec : EqDecision LfgJoinResult.
Proof. solve_decision. Defined.

(** What the dungeon finder asks of the rest of the server. *)
Inductive call : Type :=
| Time
| Urand (min max : Z)
| SendLfgUpdateStatus (guid : Z) (type : LfgUpdateType) (ds : gset Z) (comment : list Z) (party : bool)
| SendLfgUpdateProposal (guid : Z) (proposal : LfgProposal)
| SendLfgRoleChosen (guid pguid roles : Z)
| SendLfgRoleCheckUpdate (guid : Z) (roleCheck : LfgRoleCheck)
| SendLfgJoinResult (guid : Z) (result : LfgJoinResult) (state : LfgRoleCheckState) (lockmap : gmap Z (gmap Z Z))
| SendLfgQueueStatus (guid : Z) (data : LfgQueueStatusData)
| SendLfgBootProposalUpdate (guid : Z) (boot : LfgPlayerBoot)
| MakeNewGroup (proposal : LfgProposal)
| RemoveFromGroup (gguid victim : Z).

Record LFGMgr : Type := mkLFGMgr {
  QueuesStore : gmap Z LFGQueue;
  RoleChecksStore : gmap Z LfgRoleCheck;
  ProposalsStore : gmap Z LfgProposal;
  BootsStore : gmap Z LfgPlayerBoot;
  PlayersStore : gmap Z LfgPlayerData;
  GroupsStore : gmap Z LfgGroupData;
  m_lfgProposalId : Z;
  m_QueueTimer : Z;
  calls : list call }.                         (* newest first *)

Definition set_QueuesStore x s := mkLFGMgr x (RoleChecksStore s) (ProposalsStore s) (BootsStore s) (PlayersStore s) (GroupsStore s) (m_lfgProposalId s) (m_QueueTimer s) (calls s).
Definition set_RoleChecksStore x s := mkLFGMgr (QueuesStore s) x (ProposalsStore s) (BootsStore s) (PlayersStore s) (GroupsStore s) (m_lfgProposalId s) (m_QueueTimer s) (calls s).
Definition set_ProposalsStore x s := mkLFGMgr (QueuesStore s) (RoleChecksStore s) x (BootsStore s) (PlayersStore s) (GroupsStore s) (m_lfgProposalId s) (m_QueueTimer s) (calls s).
Definition set_BootsStore x s := mkLFGMgr (QueuesStore s) (RoleChecksStore s) (ProposalsStore s) x (PlayersStore s) (GroupsStore s) (m_lfgProposalId s) (m_QueueTimer s) (calls s).
Definition set_PlayersStore x s := mkLFGMgr (QueuesStore s) (RoleChecksStore s) (ProposalsStore s) (BootsStore s) x (GroupsStore s) (m_lfgProposalId s) (m_QueueTimer s) (calls s).
Definition set_GroupsStore x s := mkLFGMgr (QueuesStore s) (RoleChecksStore s) (ProposalsStore s) (BootsStore s) (PlayersStore s) x (m_lfgProposalId s) (m_QueueTimer s) (calls s).
Definition set_lfgProposalId x s := mkLFGMgr (QueuesStore s) (RoleChecksStore s) (ProposalsStore s) (BootsStore s) (PlayersStore s) (GroupsStore s) x (m_QueueTimer s) (calls s).
Definition set_QueueTimer x s := mkLFGMgr (QueuesStore s) (RoleChecksStore s) (ProposalsStore s) (BootsStore s) (PlayersStore s) (GroupsStore s) (m_lfgProposalId s) x (calls s).
Definition record_call c s := mkLFGMgr (QueuesStore s) (RoleChecksStore s) (ProposalsStore s) (BootsStore s) (PlayersStore s) (GroupsStore s) (m_lfgProposalId s) (m_QueueTimer s) (c :: calls s).

Definition emit (c : call) : X LFGMgr unit := modifyX (record_call c).

Definition player_data (s : LFGMgr) (guid : Z) : LfgPlayerData := default new_LfgPlayerData (PlayersStore s !! guid).
Definition group_data (s : LFGMgr) (guid : Z) : LfgGroupData := default new_LfgGroupData (GroupsStore s !! guid).

Definition GetState (s : LFGMgr) (guid : Z) : LfgState :=
  if HighGuid.IS_GROUP_GUID guid then g_State (group_data s guid) else p_State (player_data s guid).
Definition GetOldState (s : LFGMgr) (guid : Z) : LfgState :=
  if HighGuid.IS_GROUP_GUID guid then g_OldState (group_data s guid) else p_OldState (player_data s guid).
Definition group_IsLfgGroup (d : LfgGroupData) : bool := negb (bool_decide (g_OldState d = LFG_STATE_NONE)).
Definition IsLfgGroup (s : LFGMgr) (guid : Z) : bool :=
  negb (guid =? 0) && HighGuid.IS_GROUP_GUID guid && group_IsLfgGroup (group_data s guid).
Definition AllQueued (s : LFGMgr) (check : list Z) : bool :=
  negb (bool_decide (check = [])) && forallb (λ g, bool_decide (GetState s g = LFG_STATE_QUEUED)) check.

(** ** Texts: GUIDs joined by a bar are the keys of the cache *)

Definition guid_text (g : Z) : list Z := decimal_loop 20 g [].
Definition bar : Z := 124.

(** A [std::set] sorts the GUIDs and drops repeated ones. *)
Definition guid_set (l : list Z) : list Z := merge_sort Z.le (elements (list_to_set l : gset Z)).
Definition ConcatenateGuids (check : list Z) : list Z :=
  match guid_set check with
  | [] => []
  | g :: l => guid_text g ++ concat ((λ g, bar :: guid_text g) <$> l)
  end.

(** [s.find(sub) != npos] *)
Fixpoint starts_with (sub s : list Z) : bool :=
  match sub, s with
  | [], _ => true
  | a :: sub, b :: s => (a =? b) && starts_with sub s
  | _, [] => false
  end.
Fixpoint contains (sub s : list Z) : bool :=
  starts_with sub s || match s with [] => false | _ :: s => contains sub s end.

(** The order of [std::string], in which a [std::map] is walked. *)
Fixpoint text_leb (a b : list Z) : bool :=
  match a, b with
  | [], _ => true
  | _ :: _, [] => false
  | x :: a, y :: b => (x <? y) || ((x =? y) && text_leb a b)
  end.
Definition text_le (a b : list Z) : Prop := text_leb a b = true.
#[global] Instance text_le_dec : RelDecision text_le.
Proof. intros a b. unfold text_le. apply _. Defined.
Definition texts {A} (m : gmap (list Z) A) : list (list Z) := merge_sort text_le (elements (dom m)).

(** ** The queue as a value *)

Definition set_data x Q := mkLFGQueue x (CompatibleMapStore Q) (waitTimesAvgStore Q) (waitTimesTankStore Q) (waitTimesHealerStore Q) (waitTimesDpsStore Q) (currentQueueStore Q) (newToQueueStore Q).
Definition set_compatibles x Q := mkLFGQueue (QueueDataStore Q) x (waitTimesAvgStore Q) (waitTimesTankStore Q) (waitTimesHealerStore Q) (waitTimesDpsStore Q) (currentQueueStore Q) (newToQueueStore Q).
Definition set_current x Q := mkLFGQueue (QueueDataStore Q) (CompatibleMapStore Q) (waitTimesAvgStore Q) (waitTimesTankStore Q) (waitTimesHealerStore Q) (waitTimesDpsStore Q) x (newToQueueStore Q).
Definition set_new x Q := mkLFGQueue (QueueDataStore Q) (CompatibleMapStore Q) (waitTimesAvgStore Q) (waitTimesTankStore Q) (waitTimesHealerStore Q) (waitTimesDpsStore Q) (currentQueueStore Q) x.

Definition AddToNewQueue (guid : Z) (Q : LFGQueue) : LFGQueue := set_new (newToQueueStore Q ++ [guid]) Q.
Definition RemoveFromNewQueue (guid : Z) (Q : LFGQueue) : LFGQueue := set_new (filter (λ g, g ≠ guid) (newToQueueStore Q)) Q.
Definition AddToCurrentQueue (guid : Z) (Q : LFGQueue) : LFGQueue := set_current (currentQueueStore Q ++ [guid]) Q.
Definition RemoveFromCurrentQueue (guid : Z) (Q : LFGQueue) : LFGQueue := set_current (filter (λ g, g ≠ guid) (currentQueueStore Q)) Q.

Definition AddToQueue (guid : Z) (Q : LFGQueue) : LFGQueue :=
  match QueueDataStore Q !! guid with None => Q | Some _ => AddToNewQueue guid Q end.
Definition AddQueueData (guid joinTime : Z) (ds : gset Z) (rolesMap : LfgRolesMap) (Q : LFGQueue) : LFGQueue :=
  AddToQueue guid (set_data (<[guid := new_LfgQueueData joinTime ds rolesMap]> (QueueDataStore Q)) Q).
Definition RemoveQueueData (guid : Z) (Q : LFGQueue) : LFGQueue := set_data (delete guid (QueueDataStore Q)) Q.

Definition RemoveFromCompatibles (guid : Z) (Q : LFGQueue) : LFGQueue :=
  set_compatibles (filter (λ kd, contains (guid_text guid) kd.1 = false) (CompatibleMapStore Q)) Q.
Definition SetCompatibilityData (key : list Z) (data : LfgCompatibilityData) (Q : LFGQueue) : LFGQueue :=
  set_compatibles (<[key := data]> (CompatibleMapStore Q)) Q.
Definition SetCompatibles (key : list Z) (c : LfgCompatibility) (Q : LFGQueue) : LFGQueue :=
  let rs := match CompatibleMapStore Q !! key with Some d => compatible_roles d | None => ∅ end in
  SetCompatibilityData key (mkLfgCompatibilityData c rs) Q.
Definition GetCompatibilityData (key : list Z) (Q : LFGQueue) : option LfgCompatibilityData := CompatibleMapStore Q !! key.
Definition GetCompatibles (key : list Z) (Q : LFGQueue) : LfgCompatibility :=
  match CompatibleMapStore Q !! key with Some d => compatibility d | None => LFG_COMPATIBILITY_PENDING end.

(** The best combination that an element of the queue is part of, and who is missing in it. *)
Definition set_bestCompatible x (d : LfgQueueData) : LfgQueueData :=
  mkLfgQueueData (joinTime d) (tanks d) (healers d) (dps d) (dungeons d) (queue_roles d) x.
Definition bars (key : list Z) : Z := Z.of_nat (length (filter (λ c, c = bar) key)).
Definition count_needed (n : Z * Z * Z) (role : Z) : Z * Z * Z :=
  let '(t, h, d) := n in
  if plays role PLAYER_ROLE_TANK then (u8 (t - 1), h, d)
  else if plays role PLAYER_ROLE_HEALER then (t, u8 (h - 1), d) else (t, h, u8 (d - 1)).
Definition UpdateBestCompatibleInQueue (key : list Z) (rs : LfgRolesMap) (d : LfgQueueData) : LfgQueueData :=
  let storedSize := match bestCompatible d with [] => 0 | _ => u8 (bars (bestCompatible d) + 1) end in
  if u8 (bars key + 1) <=? storedSize then d
  else
    let '(t, h, dd) := foldl count_needed (LFG_TANKS_NEEDED, LFG_HEALERS_NEEDED, LFG_DPS_NEEDED) (role_of rs <$> keys rs) in
    mkLfgQueueData (joinTime d) t h dd (dungeons d) (queue_roles d) key.
Definition FindBestCompatibleInQueue (Q : LFGQueue) (guid : Z) (d : LfgQueueData) : LfgQueueData :=
  foldl (λ d key,
    match CompatibleMapStore Q !! key with
    | Some c =>
      if bool_decide (compatibility c = LFG_COMPATIBLES_WITH_LESS_PLAYERS) && contains (guid_text guid) key
      then UpdateBestCompatibleInQueue key (compatible_roles c) d else d
    | None => d
    end) d (texts (CompatibleMapStore Q)).

(** [f] on the entry of [guid], if there is one. *)
Definition change_data (guid : Z) (f : LfgQueueData → LfgQueueData) (Q : LFGQueue) : LFGQueue :=
  set_data (alter f guid (QueueDataStore Q)) Q.

Definition forget (guid : Z) (Q : LFGQueue) (g : Z) (d : LfgQueueData) : LfgQueueData :=
  if negb (g =? guid) && contains (guid_text guid) (bestCompatible d)
  then FindBestCompatibleInQueue Q g (set_bestCompatible [] d) else d.
Definition RemoveFromQueue (guid : Z) (Q : LFGQueue) : LFGQueue :=
  let Q := RemoveFromCompatibles guid (RemoveFromCurrentQueue guid (RemoveFromNewQueue guid Q)) in
  set_data (delete guid (map_imap (λ g d, Some (forget guid Q g d)) (QueueDataStore Q))) Q.

(** Averages of waiting times: [int32] times [uint32] is [uint32]. *)
Definition UpdateWaitTime (waitTime : Z) (wt : LfgWaitTime) : result LfgWaitTime :=
  let old_number := wt_number wt in
  let number := u32 (old_number + 1) in
  if number =? 0 then Throw UndefinedBehaviour
  else Ok (mkLfgWaitTime (i32 (u32 (u32 (wt_time wt * old_number) + u32 waitTime) / number)) number).
Definition average (store : gmap Z LfgWaitTime) (waitTime dungeon : Z) : result (gmap Z LfgWaitTime) :=
  wt ← UpdateWaitTime waitTime (default new_LfgWaitTime (store !! dungeon)); Ok (<[dungeon := wt]> store).
Definition UpdateWaitTimeAvg (waitTime dungeon : Z) (Q : LFGQueue) : result LFGQueue :=
  w ← average (waitTimesAvgStore Q) waitTime dungeon;
  Ok (mkLFGQueue (QueueDataStore Q) (CompatibleMapStore Q) w (waitTimesTankStore Q) (waitTimesHealerStore Q) (waitTimesDpsStore Q) (currentQueueStore Q) (newToQueueStore Q)).
Definition UpdateWaitTimeTank (waitTime dungeon : Z) (Q : LFGQueue) : result LFGQueue :=
  w ← average (waitTimesTankStore Q) waitTime dungeon;
  Ok (mkLFGQueue (QueueDataStore Q) (CompatibleMapStore Q) (waitTimesAvgStore Q) w (waitTimesHealerStore Q) (waitTimesDpsStore Q) (currentQueueStore Q) (newToQueueStore Q)).
Definition UpdateWaitTimeHealer (waitTime dungeon : Z) (Q : LFGQueue) : result LFGQueue :=
  w ← average (waitTimesHealerStore Q) waitTime dungeon;
  Ok (mkLFGQueue (QueueDataStore Q) (CompatibleMapStore Q) (waitTimesAvgStore Q) (waitTimesTankStore Q) w (waitTimesDpsStore Q) (currentQueueStore Q) (newToQueueStore Q)).
Definition UpdateWaitTimeDps (waitTime dungeon : Z) (Q : LFGQueue) : result LFGQueue :=
  w ← average (waitTimesDpsStore Q) waitTime dungeon;
  Ok (mkLFGQueue (QueueDataStore Q) (CompatibleMapStore Q) (waitTimesAvgStore Q) (waitTimesTankStore Q) (waitTimesHealerStore Q) w (currentQueueStore Q) (newToQueueStore Q)).

(** ** Finding groups *)

(** What the rest of the server answers: players that are in the world, their lists of ignored
    players (the second by its low part), the clock and random numbers. *)
Record Facts : Type := mkFacts {
  FindPlayer : Z → bool;
  ignores : Z → Z → bool;
  time : list call → Z;
  urand : list call → Z → Z → Z }.

Section Queue.
Context (F : Facts).

Definition HasIgnore (guid1 guid2 : Z) : bool :=
  FindPlayer F guid1 && FindPlayer F guid2 &&
  (ignores F guid1 (HighGuid.GUID_LOPART guid2) || ignores F guid2 (HighGuid.GUID_LOPART guid1)).

Definition ask_time : X LFGMgr Z := s ← getX; emit Time;; mret (time F (calls s)).
Definition ask_urand (min max : Z) : X LFGMgr Z := s ← getX; emit (Urand min max);; mret (urand F (calls s) min max).
(** [if (Player* player = FindPlayer(guid)) player->GetSession()->Send...] *)
Definition send (guid : Z) (c : call) : X LFGMgr unit := when FindPlayer F guid do emit c.

Definition AddProposal (proposal : Z → LfgProposal) : X LFGMgr Z :=
  modifyX (λ s, set_lfgProposalId (u32 (m_lfgProposalId s + 1)) s);;
  s ← getX;
  modifyX (set_ProposalsStore (<[m_lfgProposalId s := proposal (m_lfgProposalId s)]> (ProposalsStore s)));;
  mret (m_lfgProposalId s).

(** The queue whose methods run. *)
Context (q : Z).

Definition queue_of (s : LFGMgr) : LFGQueue := default new_LFGQueue (QueuesStore s !! q).
Definition que : X LFGMgr LFGQueue := s ← getX; mret (queue_of s).
Definition change (f : LFGQueue → LFGQueue) : X LFGMgr unit :=
  modifyX (λ s, set_QueuesStore (<[q := f (queue_of s)]> (QueuesStore s)) s).
Definition try_change (f : LFGQueue → result LFGQueue) : X LFGMgr unit := Q ← que; Q' ← liftX (f Q); change (λ _, Q').

Definition data_at (Q : LFGQueue) (guid : Z) : LfgQueueData :=
  default (new_LfgQueueData 0 ∅ ∅) (QueueDataStore Q !! guid).

(** The loop over the elements: their players and how many of them are groups of the finder.
    It stops early when there are too many, and drops an element without data. *)
Record tally : Type := mkTally { numPlayers : Z; numLfgGroups : Z; proposalGroups : gmap Z Z; tally_group : Z }.
Fixpoint tally_loop (l : list Z) (n : tally) : X LFGMgr (option tally) :=
  match l with
  | [] => mret (Some n)
  | guid :: l =>
    if negb ((numLfgGroups n <? 2) && (numPlayers n <=? MAXGROUPSIZE)) then mret (Some n)
    else
      Q ← que;
      match QueueDataStore Q !! guid with
      | None => change (RemoveFromQueue guid);; mret None
      | Some d =>
        s ← getX;
        let isGroup := IsLfgGroup s guid in
        tally_loop l (mkTally
          (u8 (numPlayers n + Z.of_nat (size (queue_roles d))))
          (if isGroup then u8 (numLfgGroups n + 1) else numLfgGroups n)
          (foldl (λ gs p, <[p := if HighGuid.IS_GROUP_GUID guid then guid else 0]> gs) (proposalGroups n) (keys (queue_roles d)))
          (if isGroup && (numLfgGroups n =? 0) then guid else tally_group n))
      end
  end.

(** The players of an element join, unless they ignore one who joined before. *)
Definition join_player (rs roles : LfgRolesMap) (p : Z) : LfgRolesMap :=
  if existsb (λ o, negb (p =? o) && HasIgnore p o) (keys roles) then roles else <[p := role_of rs p]> roles.
Definition join_players (Q : LFGQueue) (check : list Z) : LfgRolesMap :=
  foldl (λ roles guid, let rs := queue_roles (data_at Q guid) in foldl (join_player rs) roles (keys rs)) ∅ check.

Definition common_dungeons (Q : LFGQueue) (check : list Z) : gset Z :=
  match check with
  | [] => ∅
  | guid :: l => foldl (λ ds g, ds ∩ dungeons (data_at Q g)) (dungeons (data_at Q guid)) l
  end.

(** [SelectRandomContainerElement]: the end of the container is not looked at. *)
Definition SelectRandomContainerElement (ds : gset Z) : X LFGMgr Z :=
  n ← ask_urand 0 (u32 (Z.of_nat (size ds) - 1));
  match merge_sort Z.le (elements ds) !! Z.to_nat n with Some d => mret d | None => throwX UndefinedBehaviour end.

(** Who leads: of those with the flag, if any, each with an even chance against the one before. *)
Fixpoint leader_loop (l : list (Z * Z)) (leader : bool) (who : Z) : X LFGMgr Z :=
  match l with
  | [] => mret who
  | (g, v) :: l =>
    if plays v PLAYER_ROLE_LEADER then
      take ← (if negb leader || (who =? 0) then mret true else n ← ask_urand 0 1; mret (z2b n));
      leader_loop l true (if take : bool then g else who)
    else
      take ← (if leader then mret false else if who =? 0 then mret true else n ← ask_urand 0 1; mret (z2b n));
      leader_loop l leader (if take : bool then g else who)
  end.

Definition proposal_player (isNew : bool) (group : Z) (groups : gmap Z Z) (g v : Z) : option LfgProposalPlayer :=
  gg ← groups !! g;
  Some (mkLfgProposalPlayer v
    (if negb isNew && negb (gg =? 0) && (gg =? group) then LFG_ANSWER_AGREE else LFG_ANSWER_PENDING) gg).

Definition propose (check : list Z) (strGuids : list Z) (roles : LfgRolesMap) (ds : gset Z) (n : tally) : X LFGMgr LfgCompatibility :=
  s ← getX;
  let gguid := default 0 (head check) in
  let isNew := negb (numLfgGroups n =? 1) || negb (bool_decide (GetOldState s gguid = LFG_STATE_DUNGEON)) in
  if negb (AllQueued s check) then
    change (SetCompatibles strGuids LFG_COMPATIBLES_BAD_STATES);; mret LFG_COMPATIBLES_BAD_STATES
  else
    now ← ask_time;
    dungeon ← SelectRandomContainerElement ds;
    leader ← leader_loop ((λ g, (g, role_of roles g)) <$> keys roles) false 0;
    if forallb (λ g, bool_decide (is_Some (proposalGroups n !! g))) (keys roles) then
      let players := map_imap (proposal_player isNew (tally_group n) (proposalGroups n)) roles in
      change (λ Q, foldl (λ Q g, RemoveFromCurrentQueue g (RemoveFromNewQueue g Q)) Q check);;
      AddProposal (λ id, mkLfgProposal id dungeon LFG_PROPOSAL_INITIATING (tally_group n) leader (now + LFG_TIME_PROPOSAL) isNew check players);;
      change (SetCompatibles strGuids LFG_COMPATIBLES_MATCH);;
      mret LFG_COMPATIBLES_MATCH
    else throwX UndefinedBehaviour.

Definition less_players (strGuids : list Z) (check : list Z) (roles : LfgRolesMap) : X LFGMgr LfgCompatibility :=
  change (λ Q, foldl (λ Q g, change_data g (UpdateBestCompatibleInQueue strGuids roles) Q) Q check);;
  change (SetCompatibilityData strGuids (mkLfgCompatibilityData LFG_COMPATIBLES_WITH_LESS_PLAYERS roles));;
  mret LFG_COMPATIBLES_WITH_LESS_PLAYERS.

(** The cache gets a reason why not. *)
Definition reject (strGuids : list Z) (c : LfgCompatibility) : X LFGMgr LfgCompatibility :=
  change (SetCompatibles strGuids c);; mret c.

(** What follows the check of all but the first element. *)
Definition check_elements (check : list Z) : X LFGMgr LfgCompatibility :=
  let strGuids := ConcatenateGuids check in
  n ← tally_loop check (mkTally 0 0 ∅ 0);
  match n with
  | None => mret LFG_COMPATIBILITY_PENDING
  | Some n =>
    Q ← que;
    if (length check =? 1)%nat && negb (numPlayers n =? MAXGROUPSIZE) then
      '(_, roles) ← liftX (CheckGroupRoles (queue_roles (data_at Q (default 0 (head check)))));
      less_players strGuids check roles
    else if 1 <? numLfgGroups n then reject strGuids LFG_INCOMPATIBLES_MULTIPLE_LFG_GROUPS
    else if MAXGROUPSIZE <? numPlayers n then reject strGuids LFG_INCOMPATIBLES_TOO_MUCH_PLAYERS
    else if (1 <? length check)%nat then
      let joined := join_players Q check in
      if negb (u8 (numPlayers n - Z.of_nat (size joined)) =? 0) then reject strGuids LFG_INCOMPATIBLES_HAS_IGNORES
      else
        '(fits, roles) ← liftX (CheckGroupRoles joined);
        if negb fits then reject strGuids LFG_INCOMPATIBLES_NO_ROLES
        else if bool_decide (common_dungeons Q check = ∅) then reject strGuids LFG_INCOMPATIBLES_NO_DUNGEONS
        else if negb (numPlayers n =? MAXGROUPSIZE) then less_players strGuids check roles
        else propose check strGuids roles (common_dungeons Q check) n
    else
      let d := data_at Q (default 0 (head check)) in
      '(_, roles) ← liftX (CheckGroupRoles (queue_roles d));
      if negb (numPlayers n =? MAXGROUPSIZE) then less_players strGuids check roles
      else propose check strGuids roles (dungeons d) n
  end.

Fixpoint CheckCompatibility (check : list Z) : X LFGMgr LfgCompatibility :=
  if (MAXGROUPSIZE <? Z.of_nat (length check)) || bool_decide (check = []) then mret LFG_INCOMPATIBLES_WRONG_GROUP_SIZE
  else
    match check with
    | _ :: ((_ :: _ :: _) as all_but_new) =>
      child_compatibles ← CheckCompatibility all_but_new;
      if not_compatible child_compatibles then reject (ConcatenateGuids check) child_compatibles
      else check_elements check
    | _ => check_elements check
    end.

(** The combinations of [check] with elements of [all], both of which the recursive call
    changes: what it has tried is not tried again by its caller. *)
Fixpoint FindNewGroups (fuel : nat) (check all : list Z) : X LFGMgr (LfgCompatibility * list Z * list Z) :=
  match fuel with
  | O => throwX Diverges
  | S fuel =>
    let strGuids := ConcatenateGuids check in
    Q ← que;
    compatibles ← (match GetCompatibles strGuids Q with
                   | LFG_COMPATIBILITY_PENDING => CheckCompatibility check
                   | c => mret c
                   end);
    s ← getX;
    if bool_decide (compatibles = LFG_COMPATIBLES_BAD_STATES) && AllQueued s check then
      change (SetCompatibles strGuids LFG_COMPATIBLES_MATCH);; mret (LFG_COMPATIBLES_MATCH, check, all)
    else if negb (bool_decide (compatibles = LFG_COMPATIBLES_WITH_LESS_PLAYERS)) then mret (compatibles, check, all)
    else
      (fix try_all (n : nat) (check all : list Z) : X LFGMgr (LfgCompatibility * list Z * list Z) :=
         match n, all with
         | _, [] => mret (compatibles, check, all)
         | O, _ => throwX Diverges
         | S n, g :: all =>
           '(subcompatibility, check, all) ← FindNewGroups fuel (check ++ [g]) all;
           if bool_decide (subcompatibility = LFG_COMPATIBLES_MATCH) then mret (LFG_COMPATIBLES_MATCH, check, all)
           else try_all n (removelast check) all
         end) fuel check all
  end.

(** One round per element that is new. *)
Fixpoint find_groups_loop (fuel : nat) (proposals : Z) : X LFGMgr Z :=
  Q ← que;
  match newToQueueStore Q with
  | [] => mret proposals
  | frontguid :: _ =>
    match fuel with
    | O => throwX Diverges
    | S fuel =>
      change (RemoveFromNewQueue frontguid);;
      Q ← que;
      '(compatibles, _, _) ← FindNewGroups (S (length (currentQueueStore Q))) [frontguid] (currentQueueStore Q);
      if bool_decide (compatibles = LFG_COMPATIBLES_MATCH) then find_groups_loop fuel (u8 (proposals + 1))
      else change (AddToCurrentQueue frontguid);; find_groups_loop fuel proposals
    end
  end.
Definition FindGroups : X LFGMgr Z := Q ← que; find_groups_loop (length (newToQueueStore Q)) 0.

(** ** Telling players how long it will take *)

Definition first_of (ds : gset Z) : result Z :=
  match merge_sort Z.le (elements ds) with d :: _ => Ok d | [] => Throw UndefinedBehaviour end.
Definition wait_of (store : gmap Z LfgWaitTime) (dungeon : Z) : Z := wt_time (default new_LfgWaitTime (store !! dungeon)).

Definition all_roles (rs : LfgRolesMap) : Z :=
  Z.land (foldl Z.lor PLAYER_ROLE_NONE (role_of rs <$> keys rs)) (Z.lnot PLAYER_ROLE_LEADER).

Fixpoint send_all (l : list Z) (c : Z → call) : X LFGMgr unit :=
  match l with [] => mret tt | g :: l => send g (c g);; send_all l c end.

Fixpoint timers_loop (l : list Z) (queueId currTime : Z) : X LFGMgr unit :=
  match l with
  | [] => mret tt
  | guid :: l =>
    Q ← que;
    let d := data_at Q guid in
    dungeon ← liftX (first_of (dungeons d));
    let wtTank := wait_of (waitTimesTankStore Q) dungeon in
    let wtHealer := wait_of (waitTimesHealerStore Q) dungeon in
    let wtDps := wait_of (waitTimesDpsStore Q) dungeon in
    let wtAvg := wait_of (waitTimesAvgStore Q) dungeon in
    let role := all_roles (queue_roles d) in
    let waitTime := if role =? PLAYER_ROLE_NONE then -1
                    else if role =? PLAYER_ROLE_TANK then wtTank
                    else if role =? PLAYER_ROLE_HEALER then wtHealer
                    else if role =? PLAYER_ROLE_DAMAGE then wtDps else wtAvg in
    let d := match bestCompatible d with [] => FindBestCompatibleInQueue Q guid d | _ => d end in
    change (change_data guid (λ _, d));;
    send_all (keys (queue_roles d)) (λ p, SendLfgQueueStatus p
      (mkLfgQueueStatusData queueId dungeon (joinTime d) waitTime wtAvg wtTank wtHealer wtDps
         (u32 (currTime - joinTime d)) (tanks d) (healers d) (dps d)));;
    timers_loop l queueId currTime
  end.
Definition UpdateQueueTimers (queueId currTime : Z) : X LFGMgr unit :=
  Q ← que; timers_loop (keys (QueueDataStore Q)) queueId currTime.

(** [QueueDataStore[guid].joinTime] makes an entry for an element that is not in the queue. *)
Definition GetJoinTime (guid : Z) : X LFGMgr Z :=
  Q ← que;
  match QueueDataStore Q !! guid with
  | Some d => mret (joinTime d)
  | None => now ← ask_time; change (λ Q, set_data (<[guid := new_LfgQueueData now ∅ ∅]> (QueueDataStore Q)) Q);; mret now
  end.

End Queue.

End LfgQueue.
