(* ===== verification/LfgMgr.v ===== *)
(** * LfgMgr: the manager of the dungeon finder.

    [game/DungeonFinding/DungeonLFGMgr.cpp] over the data of LfgQueue.v: joining and leaving,
    the role check of a group, the answers to a proposal, the vote to kick a player, and the
    update of the world's tick; with the callbacks of DungeonLFGScripts.cpp that only change its
    data.  The formation of a group after a proposal and the removal of a kicked player are done
    by classes that are not modelled: what they do to the manager's data (through callbacks) is
    an argument, as are the players and groups who join. *)
From S2P Require Import Prelude ObjectGuid FieldsText LfgRoles LfgQueue.
From stdpp Require Import gmap sets list sorting.
Open Scope Z_scope.
Import LfgRoles LfgQueue.

Module LfgMgr.

Definition IN_MILLISECONDS : Z := 1000.
Definition LFG_TIME_ROLECHECK : Z := 45 * IN_MILLISECONDS.
Definition LFG_TIME_BOOT : Z := 120.
Definition LFG_QUEUEUPDATE_INTERVAL : Z := 15 * IN_MILLISECONDS.
Definition LFG_GROUP_KICK_VOTES_NEEDED : Z := 3.

(** ** The data of a player and of a group *)

Definition player_SetState (state : LfgState) (d : LfgPlayerData) : LfgPlayerData :=
  match state with
  | LFG_STATE_NONE | LFG_STATE_FINISHED_DUNGEON =>
    mkLfgPlayerData state state (m_LockedDungeons d) (m_Team d) (m_Group d) 0 [] ∅
  | LFG_STATE_DUNGEON =>
    mkLfgPlayerData state state (m_LockedDungeons d) (m_Team d) (m_Group d) (m_Roles d) (m_Comment d) (m_SelectedDungeons d)
  | _ => mkLfgPlayerData state (p_OldState d) (m_LockedDungeons d) (m_Team d) (m_Group d) (m_Roles d) (m_Comment d) (m_SelectedDungeons d)
  end.
Definition player_RestoreState (d : LfgPlayerData) : LfgPlayerData :=
  if bool_decide (p_OldState d = LFG_STATE_NONE)
  then mkLfgPlayerData (p_OldState d) (p_OldState d) (m_LockedDungeons d) (m_Team d) (m_Group d) 0 (m_Comment d) ∅
  else mkLfgPlayerData (p_OldState d) (p_OldState d) (m_LockedDungeons d) (m_Team d) (m_Group d) (m_Roles d) (m_Comment d) (m_SelectedDungeons d).
Definition player_SetTeam x d := mkLfgPlayerData (p_State d) (p_OldState d) (m_LockedDungeons d) x (m_Group d) (m_Roles d) (m_Comment d) (m_SelectedDungeons d).
Definition player_SetGroup x d := mkLfgPlayerData (p_State d) (p_OldState d) (m_LockedDungeons d) (m_Team d) x (m_Roles d) (m_Comment d) (m_SelectedDungeons d).
Definition player_SetRoles x d := mkLfgPlayerData (p_State d) (p_OldState d) (m_LockedDungeons d) (m_Team d) (m_Group d) x (m_Comment d) (m_SelectedDungeons d).
Definition player_SetComment x d := mkLfgPlayerData (p_State d) (p_OldState d) (m_LockedDungeons d) (m_Team d) (m_Group d) (m_Roles d) x (m_SelectedDungeons d).
Definition player_SetSelectedDungeons x d := mkLfgPlayerData (p_State d) (p_OldState d) (m_LockedDungeons d) (m_Team d) (m_Group d) (m_Roles d) (m_Comment d) x.
Definition player_SetLockedDungeons x d := mkLfgPlayerData (p_State d) (p_OldState d) x (m_Team d) (m_Group d) (m_Roles d) (m_Comment d) (m_SelectedDungeons d).

Definition group_SetState (state : LfgState) (d : LfgGroupData) : LfgGroupData :=
  match state with
  | LFG_STATE_NONE => mkLfgGroupData state state (m_Leader d) (m_Players d) 0 LFG_GROUP_MAX_KICKS
  | LFG_STATE_FINISHED_DUNGEON | LFG_STATE_DUNGEON =>
    mkLfgGroupData state state (m_Leader d) (m_Players d) (m_Dungeon d) (m_KicksLeft d)
  | _ => mkLfgGroupData state (g_OldState d) (m_Leader d) (m_Players d) (m_Dungeon d) (m_KicksLeft d)
  end.
Definition group_RestoreState (d : LfgGroupData) : LfgGroupData :=
  mkLfgGroupData (g_OldState d) (g_OldState d) (m_Leader d) (m_Players d) (m_Dungeon d) (m_KicksLeft d).
Definition group_AddPlayer g d := mkLfgGroupData (g_State d) (g_OldState d) (m_Leader d) ({[g]} ∪ m_Players d) (m_Dungeon d) (m_KicksLeft d).
Definition group_RemovePlayer g d := mkLfgGroupData (g_State d) (g_OldState d) (m_Leader d) (m_Players d ∖ {[g]}) (m_Dungeon d) (m_KicksLeft d).
Definition group_SetLeader g d := mkLfgGroupData (g_State d) (g_OldState d) g (m_Players d) (m_Dungeon d) (m_KicksLeft d).
Definition group_SetDungeon x d := mkLfgGroupData (g_State d) (g_OldState d) (m_Leader d) (m_Players d) x (m_KicksLeft d).
Definition group_DecreaseKicksLeft d :=
  mkLfgGroupData (g_State d) (g_OldState d) (m_Leader d) (m_Players d) (m_Dungeon d) (if m_KicksLeft d =? 0 then 0 else m_KicksLeft d - 1).
Definition group_GetDungeon (asId : bool) d : Z := if asId then Z.land (m_Dungeon d) 0x00FFFFFF else m_Dungeon d.

(** ** Access by GUID *)

Definition on_player (guid : Z) (f : LfgPlayerData → LfgPlayerData) : X LFGMgr unit :=
  modifyX (λ s, set_PlayersStore (<[guid := f (player_data s guid)]> (PlayersStore s)) s).
Definition on_group (guid : Z) (f : LfgGroupData → LfgGroupData) : X LFGMgr unit :=
  modifyX (λ s, set_GroupsStore (<[guid := f (group_data s guid)]> (GroupsStore s)) s).

Definition SetState (guid : Z) (state : LfgState) : X LFGMgr unit :=
  if HighGuid.IS_GROUP_GUID guid then on_group guid (group_SetState state) else on_player guid (player_SetState state).
Definition RestoreState (guid : Z) : X LFGMgr unit :=
  if HighGuid.IS_GROUP_GUID guid then on_group guid group_RestoreState else on_player guid player_RestoreState.
Definition SetDungeon (guid dungeon : Z) : X LFGMgr unit := on_group guid (group_SetDungeon dungeon).
Definition SetRoles (guid roles : Z) : X LFGMgr unit := on_player guid (player_SetRoles roles).
Definition SetComment (guid : Z) (comment : list Z) : X LFGMgr unit := on_player guid (player_SetComment comment).
Definition SetSelectedDungeons (guid : Z) (ds : gset Z) : X LFGMgr unit := on_player guid (player_SetSelectedDungeons ds).
Definition SetLockedDungeons (guid : Z) (lock : gmap Z Z) : X LFGMgr unit := on_player guid (player_SetLockedDungeons lock).
Definition DecreaseKicksLeft (guid : Z) : X LFGMgr unit := on_group guid group_DecreaseKicksLeft.
Definition RemovePlayerData (guid : Z) : X LFGMgr unit := modifyX (λ s, set_PlayersStore (delete guid (PlayersStore s)) s).
Definition RemovePlayerFromGroup (gguid guid : Z) : X LFGMgr Z :=
  on_group gguid (group_RemovePlayer guid);; s ← getX; mret (u8 (Z.of_nat (size (m_Players (group_data s gguid))))).
Definition AddPlayerToGroup (gguid guid : Z) : X LFGMgr unit := on_group gguid (group_AddPlayer guid).
Definition SetLeader (gguid leader : Z) : X LFGMgr unit := on_group gguid (group_SetLeader leader).
Definition SetGroup (guid group : Z) : X LFGMgr unit := on_player guid (player_SetGroup group).

Definition GetDungeon (s : LFGMgr) (guid : Z) (asId : bool) : Z := group_GetDungeon asId (group_data s guid).
Definition GetRoles (s : LFGMgr) (guid : Z) : Z := m_Roles (player_data s guid).
Definition GetComment (s : LFGMgr) (guid : Z) : list Z := m_Comment (player_data s guid).
Definition GetSelectedDungeons (s : LFGMgr) (guid : Z) : gset Z := m_SelectedDungeons (player_data s guid).
Definition GetLockedDungeons (s : LFGMgr) (guid : Z) : gmap Z Z := m_LockedDungeons (player_data s guid).
Definition GetKicksLeft (s : LFGMgr) (guid : Z) : Z := m_KicksLeft (group_data s guid).
Definition GetTeam (s : LFGMgr) (guid : Z) : Z := m_Team (player_data s guid).
Definition GetGroup (s : LFGMgr) (guid : Z) : Z := m_Group (player_data s guid).
Definition GetPlayers (s : LFGMgr) (guid : Z) : gset Z := m_Players (group_data s guid).
Definition GetPlayerCount (s : LFGMgr) (guid : Z) : Z := u8 (Z.of_nat (size (m_Players (group_data s guid)))).
Definition GetLeader (s : LFGMgr) (guid : Z) : Z := m_Leader (group_data s guid).

Definition GetQueueId (s : LFGMgr) (guid : Z) : Z :=
  let pguid := default 0 (head (merge_sort Z.le (elements (GetPlayers s guid)))) in
  if HighGuid.IS_GROUP_GUID guid && negb (pguid =? 0) then GetTeam s pguid else GetTeam s guid.
(** The queue of an element, made if it is the first of its team. *)
Definition GetQueue (guid : Z) : X LFGMgr Z :=
  s ← getX; let q := GetQueueId s guid in change q (λ Q, Q);; mret q.

Fixpoint each {A} (l : list A) (f : A → X LFGMgr unit) : X LFGMgr unit :=
  match l with [] => mret tt | a :: l => f a;; each l f end.

Definition set_keys (s : gset Z) : list Z := merge_sort Z.le (elements s).

(** ** What the manager is told *)

Record LFGDungeonData : Type := mkLFGDungeonData { dungeon_type : Z; dungeon_group : Z; seasonal : bool }.
Definition LFG_TYPE_DUNGEON : Z := 1.
Definition LFG_TYPE_RAID : Z := 2.
Definition LFG_TYPE_HEROIC : Z := 5.
Definition LFG_TYPE_RANDOM : Z := 6.

(** Facts about players who join, the dungeons of the client's data, and what other classes do
    to the manager's data when a group is formed or a player kicked. *)
Record Surroundings : Type := mkSurroundings {
  facts : Facts;
  may_join : Z → bool;                         (* HasPermission(RBAC_PERM_JOIN_DUNGEON_FINDER) *)
  uses_bg : Z → bool;                          (* InBattleground || InArena || InBattlegroundQueue *)
  deserter : Z → bool;                         (* HasAura(LFG_SPELL_DUNGEON_DESERTER) *)
  cooldown : Z → bool;                         (* HasAura(LFG_SPELL_DUNGEON_COOLDOWN) *)
  LfgDungeonStore : gmap Z LFGDungeonData;
  CachedDungeonMapStore : Z → gset Z;
  CONFIG_ALLOW_TWO_SIDE_INTERACTION_GROUP : bool;
  isOptionEnabled : bool;                      (* dungeon finder or raid browser *)
  group_exists : Z → bool;                     (* GetGroupByGUID(GUID_LOPART(gguid)) *)
  form_group : LfgProposal → LFGMgr → LFGMgr;
  kick : Z → Z → LFGMgr → LFGMgr }.

Section Manager.
Context (W : Surroundings).

Definition GetLFGDungeon (id : Z) : option LFGDungeonData := LfgDungeonStore W !! id.
Definition GetDungeonType (id : Z) : Z := match GetLFGDungeon id with Some d => dungeon_type d | None => 0 end.
Definition GetDungeonsByRandom (id : Z) : gset Z :=
  CachedDungeonMapStore W (match GetLFGDungeon id with Some d => dungeon_group d | None => 0 end).

Definition SetTeam (guid team : Z) : X LFGMgr unit :=
  on_player guid (player_SetTeam (if CONFIG_ALLOW_TWO_SIDE_INTERACTION_GROUP W then 0 else team)).

Definition selectedRandomLfgDungeon (s : LFGMgr) (guid : Z) : bool :=
  negb (bool_decide (GetState s guid = LFG_STATE_NONE)) &&
  match set_keys (GetSelectedDungeons s guid) with
  | d :: _ => match GetLFGDungeon d with Some d => (dungeon_type d =? LFG_TYPE_RANDOM) || seasonal d | None => false end
  | [] => false
  end.

Definition SetupGroupMember (guid gguid : Z) : X LFGMgr unit :=
  s ← getX;
  SetSelectedDungeons guid {[ GetDungeon s gguid true ]};;
  s ← getX;
  SetState guid (GetState s gguid);;
  SetGroup guid gguid;;
  AddPlayerToGroup gguid guid.

Definition status (guid : Z) (type : LfgUpdateType) (party : bool) : X LFGMgr unit :=
  send (facts W) guid (SendLfgUpdateStatus guid type ∅ [] party).
(** With the dungeons and the comment of the player. *)
Definition own_status (guid : Z) (type : LfgUpdateType) (party : bool) : X LFGMgr unit :=
  s ← getX; send (facts W) guid (SendLfgUpdateStatus guid type (GetSelectedDungeons s guid) (GetComment s guid) party).

Definition RemoveGroupData (guid : Z) : X LFGMgr unit :=
  s ← getX;
  match GroupsStore s !! guid with
  | None => mret tt
  | Some d =>
    let state := GetState s guid in
    each (set_keys (m_Players d)) (λ g,
      SetGroup g 0;;
      when negb (bool_decide (state = LFG_STATE_PROPOSAL)) do
        (SetState g LFG_STATE_NONE;; status g LFG_UPDATETYPE_REMOVED_FROM_QUEUE true));;
    modifyX (λ s, set_GroupsStore (delete guid (GroupsStore s)) s)
  end.

(** ** Role checks *)

(** What the members are told, one after the other. *)
Definition role_check_member (gguid guid roles : Z) (sendRoleChosen : bool) (rc : LfgRoleCheck) (ds : gset Z) (pguid : Z) : X LFGMgr unit :=
  (when sendRoleChosen do send (facts W) pguid (SendLfgRoleChosen pguid guid roles));;
  send (facts W) pguid (SendLfgRoleCheckUpdate pguid rc);;
  match rc_state rc with
  | LFG_ROLECHECK_INITIALITING => mret tt
  | LFG_ROLECHECK_FINISHED =>
    SetState pguid LFG_STATE_QUEUED;;
    SetRoles pguid (role_of (rc_roles rc) pguid);;
    s ← getX;
    send (facts W) pguid (SendLfgUpdateStatus pguid LFG_UPDATETYPE_ADDED_TO_QUEUE ds (GetComment s pguid) true)
  | state =>
    (when rc_leader rc =? pguid do send (facts W) pguid (SendLfgJoinResult pguid LFG_JOIN_FAILED state ∅));;
    status pguid LFG_UPDATETYPE_ROLECHECK_FAILED true;;
    RestoreState pguid
  end.

(** The answer of [guid] (0: somebody left) as it changes the role check. *)
Definition answer_role_check (rc : LfgRoleCheck) (guid roles : Z) : result LfgRoleCheck :=
  let in_state st := mkLfgRoleCheck (rc_cancelTime rc) (rc_roles rc) st (rc_dungeons rc) (rDungeonId rc) (rc_leader rc) in
  if guid =? 0 then Ok (in_state LFG_ROLECHECK_ABORTED)
  else if roles <? PLAYER_ROLE_TANK then Ok (in_state LFG_ROLECHECK_NO_ROLE)
  else
    let rs := <[guid := roles]> (rc_roles rc) in
    st ← (if forallb (λ g, negb (role_of rs g =? PLAYER_ROLE_NONE)) (keys rs) then
            '(fits, _) ← CheckGroupRoles rs;
            Ok (if fits : bool then LFG_ROLECHECK_FINISHED else LFG_ROLECHECK_WRONG_ROLES)
          else Ok (rc_state rc));
    Ok (mkLfgRoleCheck (rc_cancelTime rc) rs st (rc_dungeons rc) (rDungeonId rc) (rc_leader rc)).

Definition UpdateRoleCheck (gguid guid roles : Z) : X LFGMgr unit :=
  s ← getX;
  if gguid =? 0 then mret tt
  else
    match RoleChecksStore s !! gguid with
    | None => mret tt
    | Some rc =>
      let sendRoleChosen := negb (bool_decide (rc_state rc = LFG_ROLECHECK_DEFAULT)) && negb (guid =? 0) in
      rc ← liftX (answer_role_check rc guid roles);
      modifyX (λ s, set_RoleChecksStore (<[gguid := rc]> (RoleChecksStore s)) s);;
      let ds := if negb (rDungeonId rc =? 0) then {[ rDungeonId rc ]} else rc_dungeons rc in
      each (keys (rc_roles rc)) (role_check_member gguid guid roles sendRoleChosen rc ds);;
      match rc_state rc with
      | LFG_ROLECHECK_FINISHED =>
        SetState gguid LFG_STATE_QUEUED;;
        q ← GetQueue gguid;
        now ← ask_time (facts W);
        change q (AddQueueData gguid now (rc_dungeons rc) (rc_roles rc));;
        modifyX (λ s, set_RoleChecksStore (delete gguid (RoleChecksStore s)) s)
      | LFG_ROLECHECK_INITIALITING => mret tt
      | _ =>
        RestoreState gguid;;
        modifyX (λ s, set_RoleChecksStore (delete gguid (RoleChecksStore s)) s)
      end
    end.

(** ** Proposals *)

Definition set_accept (a : LfgAnswer) (p : LfgProposalPlayer) : LfgProposalPlayer := mkLfgProposalPlayer (pp_role p) a (pp_group p).
Definition with_players (f : gmap Z LfgProposalPlayer → gmap Z LfgProposalPlayer) (st : LfgProposalState) (p : LfgProposal) : LfgProposal :=
  mkLfgProposal (proposal_id p) (dungeonId p) st (proposal_group p) (proposal_leader p) (proposal_cancelTime p) (isNew p) (queues p) (f (players p)).

(** Who did not agree: in time, all who did not deny are still asked. *)
Definition element_of (g : Z) (pp : LfgProposalPlayer) : Z := if pp_group pp =? 0 then g else pp_group pp.
Definition denies (failed : bool) (pp : LfgProposalPlayer) : bool :=
  match pp_accept pp with LFG_ANSWER_DENY => true | LFG_ANSWER_PENDING => failed | LFG_ANSWER_AGREE => false end.
Definition mark_denied (failed : bool) (pp : LfgProposalPlayer) : LfgProposalPlayer :=
  if denies failed pp then set_accept LFG_ANSWER_DENY pp else pp.
Definition to_remove (failed : bool) (ps : gmap Z LfgProposalPlayer) : list Z :=
  set_keys (list_to_set (omap (λ g, pp ← ps !! g; if denies failed pp then Some (element_of g pp) else None) (keys ps))).

Definition failed_type (failed : bool) : LfgUpdateType := if failed then LFG_UPDATETYPE_PROPOSAL_FAILED else LFG_UPDATETYPE_PROPOSAL_DECLINED.

Definition notify_removed (failed : bool) (removed : list Z) (p : LfgProposal) (g : Z) : X LFGMgr unit :=
  match players p !! g with
  | None => mret tt
  | Some pp =>
    let gguid := element_of g pp in
    send (facts W) g (SendLfgUpdateProposal g p);;
    if bool_decide (gguid ∈ removed) then
      let type := match pp_accept pp with LFG_ANSWER_DENY => failed_type failed | _ => LFG_UPDATETYPE_REMOVED_FROM_QUEUE end in
      RestoreState g;;
      if negb (gguid =? g) then (RestoreState (pp_group pp);; status g type true) else status g type false
    else
      SetState g LFG_STATE_QUEUED;;
      if negb (gguid =? g) then (SetState gguid LFG_STATE_QUEUED;; own_status g LFG_UPDATETYPE_ADDED_TO_QUEUE true)
      else own_status g LFG_UPDATETYPE_ADDED_TO_QUEUE false
  end.

(** [failed]: because time is up, and not because somebody declined. *)
Definition RemoveProposal (id : Z) (failed : bool) : X LFGMgr unit :=
  s ← getX;
  match ProposalsStore s !! id with
  | None => throwX UndefinedBehaviour
  | Some p =>
    let removed := to_remove failed (players p) in
    let p := with_players (fmap (mark_denied failed)) LFG_PROPOSAL_FAILED p in
    modifyX (λ s, set_ProposalsStore (<[id := p]> (ProposalsStore s)) s);;
    each (keys (players p)) (notify_removed failed removed p);;
    match keys (players p) with
    | [] => throwX UndefinedBehaviour
    | first :: _ =>
      q ← GetQueue first;
      each removed (λ g, change q (RemoveFromQueue g));;
      each (filter (λ g, g ∉ removed) (queues p)) (λ g, change q (AddToQueue g));;
      modifyX (λ s, set_ProposalsStore (delete id (ProposalsStore s)) s)
    end
  end.

(** What a player is told and counted for when the group is found; [type] is what the players
    before him were told last. *)
Definition found_player (q : Z) (sendUpdate : bool) (now : Z) (p : LfgProposal) (type : LfgUpdateType) (g : Z) (pp : LfgProposalPlayer) : X LFGMgr unit :=
  s ← getX;
  dungeon ← liftX (first_of (GetSelectedDungeons s g));
  (when sendUpdate do send (facts W) g (SendLfgUpdateProposal g p));;
  joined ← GetJoinTime (facts W) q (element_of g pp);
  let waitTime := i32 (Z.quot (now - joined) IN_MILLISECONDS) in
  status g type false;;
  status g LFG_UPDATETYPE_REMOVED_FROM_QUEUE true;;
  status g LFG_UPDATETYPE_REMOVED_FROM_QUEUE false;;
  s ← getX;
  let role := Z.land (GetRoles s g) (Z.lnot PLAYER_ROLE_LEADER) in
  try_change q (if role =? PLAYER_ROLE_DAMAGE then UpdateWaitTimeDps waitTime dungeon
                else if role =? PLAYER_ROLE_HEALER then UpdateWaitTimeHealer waitTime dungeon
                else if role =? PLAYER_ROLE_TANK then UpdateWaitTimeTank waitTime dungeon
                else UpdateWaitTimeAvg waitTime dungeon);;
  SetState g LFG_STATE_DUNGEON.
Fixpoint found_loop (l : list Z) (q : Z) (sendUpdate : bool) (now : Z) (p : LfgProposal) (type : LfgUpdateType) : X LFGMgr unit :=
  match l with
  | [] => mret tt
  | g :: l =>
    match players p !! g with
    | None => mret tt
    | Some pp => found_player q sendUpdate now p type g pp
    end;;
    found_loop l q sendUpdate now p LFG_UPDATETYPE_REMOVED_FROM_QUEUE
  end.

Definition agreed (pp : LfgProposalPlayer) : bool := bool_decide (pp_accept pp = LFG_ANSWER_AGREE).
Definition allAnswered (ps : gmap Z LfgProposalPlayer) : bool := forallb (λ gp, agreed gp.2) (map_to_list ps).

Definition UpdateProposal (id guid : Z) (accept : bool) : X LFGMgr unit :=
  s ← getX;
  match ProposalsStore s !! id with
  | None => mret tt
  | Some p =>
    match players p !! guid with
    | None => mret tt
    | Some pp =>
      let p := with_players (alter (set_accept (if accept then LFG_ANSWER_AGREE else LFG_ANSWER_DENY)) guid) (proposal_state p) p in
      modifyX (λ s, set_ProposalsStore (<[id := p]> (ProposalsStore s)) s);;
      if negb accept then RemoveProposal id false
      else if negb (allAnswered (players p)) then
        each (keys (players p)) (λ g, send (facts W) g (SendLfgUpdateProposal g p))
      else
        let sendUpdate := negb (bool_decide (proposal_state p = LFG_PROPOSAL_SUCCESS)) in
        let p := with_players (λ ps, ps) LFG_PROPOSAL_SUCCESS p in
        modifyX (λ s, set_ProposalsStore (<[id := p]> (ProposalsStore s)) s);;
        now ← ask_time (facts W);
        q ← GetQueue guid;
        found_loop (keys (players p)) q sendUpdate now p LFG_UPDATETYPE_GROUP_FOUND;;
        each (queues p) (λ g, change q (RemoveFromQueue g));;
        emit (MakeNewGroup p);;
        modifyX (form_group W p);;
        modifyX (λ s, set_ProposalsStore (delete id (ProposalsStore s)) s)
    end
  end.

(** ** Joining and leaving *)

(** The player's group, if any: its members, [None] for one who is not in the world. *)
Record GroupInfo : Type := mkGroupInfo { grp_guid : Z; isLFGGroup : bool; GetMembersCount : Z; members : list (option Z) }.

Fixpoint check_members (l : list (option Z)) (res : LfgJoinResult) (memberCount : Z) (ps : list Z) : LfgJoinResult * Z * list Z :=
  match l with
  | [] => (res, memberCount, ps)
  | m :: l =>
    if negb (bool_decide (res = LFG_JOIN_OK)) then (res, memberCount, ps)
    else
      match m with
      | None => check_members l res memberCount ps
      | Some g =>
        let res := if negb (may_join W g) then LFG_JOIN_INTERNAL_ERROR else res in
        let res := if deserter W g then LFG_JOIN_PARTY_DESERTER
                   else if cooldown W g then LFG_JOIN_PARTY_RANDOM_COOLDOWN
                   else if uses_bg W g then LFG_JOIN_USING_BG_SYSTEM else res in
        check_members l res (u8 (memberCount + 1)) (g :: ps)
      end
  end.

(** Restrictions of the players: the result so far and who joins. *)
Definition check_joiners (guid : Z) (grp : option GroupInfo) (ds : gset Z) : LfgJoinResult * list Z :=
  if negb (may_join W guid) then (LFG_JOIN_NOT_MEET_REQS, [])
  else if uses_bg W guid then (LFG_JOIN_USING_BG_SYSTEM, [])
  else if deserter W guid then (LFG_JOIN_DESERTER, [])
  else if cooldown W guid then (LFG_JOIN_RANDOM_COOLDOWN, [])
  else if bool_decide (ds = ∅) then (LFG_JOIN_NOT_MEET_REQS, [])
  else
    match grp with
    | None => (LFG_JOIN_OK, [guid])
    | Some gr =>
      if MAXGROUPSIZE <? GetMembersCount gr then (LFG_JOIN_TOO_MUCH_MEMBERS, [])
      else
        let '(res, count, ps) := check_members (members gr) LFG_JOIN_OK 0 [] in
        (if bool_decide (res = LFG_JOIN_OK) && negb (count =? GetMembersCount gr) then LFG_JOIN_DISCONNECTED else res, ps)
    end.

(** The kinds of dungeons; random ones, which must be alone, and raids. *)
Fixpoint check_dungeons (l : list Z) (ds : gset Z) (res : LfgJoinResult) (isDungeon isRaid : bool) (rDungeon : Z) : LfgJoinResult * bool * Z :=
  match l with
  | [] => (res, isRaid, rDungeon)
  | d :: l =>
    if negb (bool_decide (res = LFG_JOIN_OK)) then (res, isRaid, rDungeon)
    else
      let type := GetDungeonType d in
      if (type =? LFG_TYPE_RANDOM) || (type =? LFG_TYPE_HEROIC) || (type =? LFG_TYPE_DUNGEON) then
        let alone := negb (type =? LFG_TYPE_RANDOM) || (size ds <=? 1)%nat in
        let res := if alone then res else LFG_JOIN_DUNGEON_INVALID in
        let rDungeon := if (type =? LFG_TYPE_RANDOM) && alone then default 0 (head (set_keys ds)) else rDungeon in
        check_dungeons l ds (if isRaid then LFG_JOIN_MIXED_RAID_DUNGEON else res) true isRaid rDungeon
      else if type =? LFG_TYPE_RAID then
        check_dungeons l ds (if isDungeon then LFG_JOIN_MIXED_RAID_DUNGEON else res) isDungeon true rDungeon
      else check_dungeons l ds LFG_JOIN_DUNGEON_INVALID isDungeon isRaid rDungeon
  end.

(** The dungeons that no player is locked out of; if none is left, who is locked out and why. *)
Definition lock_out (s : LFGMgr) (x : gset Z * gmap Z (gmap Z Z)) (guid : Z) : gset Z * gmap Z (gmap Z Z) :=
  foldl (λ '(ds, lockMap) entry,
    let d := Z.land entry 0x00FFFFFF in
    if bool_decide (d ∈ ds)
    then (ds ∖ {[d]}, <[guid := <[d := role_of (GetLockedDungeons s guid) entry]> (default ∅ (lockMap !! guid))]> lockMap)
    else (ds, lockMap)) x (keys (GetLockedDungeons s guid)).
Definition GetCompatibleDungeons (s : LFGMgr) (ds : gset Z) (ps : gset Z) : gset Z * gmap Z (gmap Z Z) :=
  let '(ds, lockMap) := foldl (lock_out s) (ds, ∅) (set_keys ps) in
  (ds, if bool_decide (ds = ∅) then lockMap else ∅).

Definition begin_role_check (gguid guid : Z) (gr : GroupInfo) (isContinue : bool) (roles : Z) (ds : gset Z) (rDungeon : Z) (comment : list Z) : X LFGMgr unit :=
  now ← ask_time (facts W);
  s ← getX;
  let old := match RoleChecksStore s !! gguid with Some rc => rc_roles rc | None => ∅ end in
  let shown := if negb (rDungeon =? 0) then {[rDungeon]} else ds in
  SetState gguid LFG_STATE_ROLECHECK;;
  each (omap id (members gr)) (λ g,
    emit (SendLfgUpdateStatus g LFG_UPDATETYPE_JOIN_QUEUE shown comment true);;
    SetState g LFG_STATE_ROLECHECK;;
    when negb isContinue do SetSelectedDungeons g shown);;
  let rs := foldl (λ rs g, <[g := 0]> rs) old (omap id (members gr)) in
  modifyX (λ s, set_RoleChecksStore
    (<[gguid := mkLfgRoleCheck (now + LFG_TIME_ROLECHECK) rs LFG_ROLECHECK_INITIALITING ds rDungeon guid]> (RoleChecksStore s)) s);;
  UpdateRoleCheck gguid guid roles.

Definition join_alone (guid : Z) (isContinue : bool) (roles : Z) (ds : gset Z) (rDungeon : Z) (comment : list Z) : X LFGMgr unit :=
  q ← GetQueue guid;
  now ← ask_time (facts W);
  change q (AddQueueData guid now ds {[guid := roles]});;
  let shown := if negb isContinue && negb (rDungeon =? 0) then {[rDungeon]} else ds in
  (when negb isContinue do SetSelectedDungeons guid shown);;
  emit (SendLfgJoinResult guid LFG_JOIN_OK LFG_ROLECHECK_DEFAULT ∅);;
  emit (SendLfgUpdateStatus guid LFG_UPDATETYPE_JOIN_QUEUE shown comment false);;
  SetState guid LFG_STATE_QUEUED;;
  SetRoles guid roles.

Definition JoinLfg (guid : Z) (grp : option GroupInfo) (roles : Z) (ds : gset Z) (comment : list Z) : X LFGMgr unit :=
  if bool_decide (ds = ∅) then mret tt
  else
    s ← getX;
    let gguid := match grp with Some gr => grp_guid gr | None => guid end in
    let isContinue := match grp with
                      | Some gr => isLFGGroup gr && negb (bool_decide (GetState s gguid = LFG_STATE_FINISHED_DUNGEON))
                      | None => false
                      end in
    let ds := if isContinue then {[GetDungeon s gguid true]} else ds in
    (when bool_decide (GetState s gguid = LFG_STATE_QUEUED) do (q ← GetQueue gguid; change q (RemoveFromQueue gguid)));;
    s ← getX;
    let '(res, joiners) := check_joiners guid grp ds in
    let '(res, isRaid, rDungeon) :=
      if bool_decide (res = LFG_JOIN_OK) then check_dungeons (set_keys ds) ds LFG_JOIN_OK false false 0 else (res, false, 0) in
    let '(res, ds, lockmap) :=
      if bool_decide (res = LFG_JOIN_OK) then
        let '(ds, lockmap) := GetCompatibleDungeons s (if negb (rDungeon =? 0) then GetDungeonsByRandom rDungeon else ds) (list_to_set joiners) in
        (if bool_decide (ds = ∅) then match grp with Some _ => LFG_JOIN_INTERNAL_ERROR | None => LFG_JOIN_NOT_MEET_REQS end
         else res, ds, lockmap)
      else (res, ds, ∅) in
    if negb (bool_decide (res = LFG_JOIN_OK)) then
      emit (SendLfgJoinResult guid res LFG_ROLECHECK_DEFAULT (if bool_decide (ds = ∅) then lockmap else ∅))
    else
      SetComment guid comment;;
      if isRaid : bool then mret tt
      else
        match grp with
        | Some gr => begin_role_check gguid guid gr isContinue roles ds rDungeon comment
        | None => join_alone guid isContinue roles ds rDungeon comment
        end.

Definition proposal_with (s : LFGMgr) (pguid : Z) : option Z :=
  head (filter (λ id, is_Some (ProposalsStore s !! id ≫= λ p, players p !! pguid)) (keys (ProposalsStore s))).

Definition LeaveLfg (guid : Z) : X LFGMgr unit :=
  s ← getX;
  let gguid := if HighGuid.IS_GROUP_GUID guid then guid else GetGroup s guid in
  match GetState s guid with
  | LFG_STATE_QUEUED =>
    if negb (gguid =? 0) then
      q ← GetQueue gguid;
      change q (RemoveFromQueue gguid);;
      SetState gguid LFG_STATE_NONE;;
      s ← getX;
      each (set_keys (GetPlayers s gguid)) (λ g, SetState g LFG_STATE_NONE;; status g LFG_UPDATETYPE_REMOVED_FROM_QUEUE true)
    else
      q ← GetQueue guid;
      change q (RemoveFromQueue guid);;
      status guid LFG_UPDATETYPE_REMOVED_FROM_QUEUE false;;
      SetState guid LFG_STATE_NONE
  | LFG_STATE_ROLECHECK => when negb (gguid =? 0) do UpdateRoleCheck gguid 0 PLAYER_ROLE_NONE
  | LFG_STATE_PROPOSAL =>
    let pguid := if gguid =? guid then GetLeader s gguid else guid in
    match proposal_with s pguid with
    | None => mret tt
    | Some id =>
      modifyX (λ s, set_ProposalsStore
        (alter (λ p, with_players (alter (set_accept LFG_ANSWER_DENY) pguid) (proposal_state p) p) id (ProposalsStore s)) s);;
      RemoveProposal id false
    end
  | LFG_STATE_NONE | LFG_STATE_RAIDBROWSER => mret tt
  | LFG_STATE_DUNGEON | LFG_STATE_FINISHED_DUNGEON | LFG_STATE_BOOT =>
    when negb (guid =? gguid) do SetState guid LFG_STATE_NONE
  end.

(** ** Votes to kick a player *)

Definition InitBoot (gguid kicker victim : Z) (why : list Z) : X LFGMgr unit :=
  SetState gguid LFG_STATE_BOOT;;
  now ← ask_time (facts W);
  s ← getX;
  let ps := set_keys (GetPlayers s gguid) in
  let old := match BootsStore s !! gguid with Some b => votes b | None => ∅ end in
  each ps (λ g, SetState g LFG_STATE_BOOT);;
  let vs := <[kicker := LFG_ANSWER_AGREE]> (<[victim := LFG_ANSWER_DENY]> (foldl (λ vs g, <[g := LFG_ANSWER_PENDING]> vs) old ps)) in
  let boot := mkLfgPlayerBoot (now + LFG_TIME_BOOT) true vs victim why in
  modifyX (λ s, set_BootsStore (<[gguid := boot]> (BootsStore s)) s);;
  each ps (λ g, send (facts W) g (SendLfgBootProposalUpdate g boot)).

Definition count_votes (P : LfgAnswer → bool) (vs : gmap Z LfgAnswer) : Z :=
  Z.of_nat (length (filter (λ gv, P gv.2 = true) (map_to_list vs))).
Definition is_agree (a : LfgAnswer) : bool := bool_decide (a = LFG_ANSWER_AGREE).
Definition is_vote (a : LfgAnswer) : bool := negb (bool_decide (a = LFG_ANSWER_PENDING)).
Definition with_votes (vs : gmap Z LfgAnswer) (open_ : bool) (b : LfgPlayerBoot) : LfgPlayerBoot :=
  mkLfgPlayerBoot (boot_cancelTime b) open_ vs (boot_victim b) (reason b).

(** A key that [votes] does not have reads as the first value of the enumeration that is not
    negative, which is to deny, and stays. *)
Definition UpdateBoot (guid : Z) (accept : bool) : X LFGMgr unit :=
  s ← getX;
  let gguid := GetGroup s guid in
  if gguid =? 0 then mret tt
  else
    match BootsStore s !! gguid with
    | None => mret tt
    | Some boot =>
      match votes boot !! guid with
      | None => modifyX (λ s, set_BootsStore (<[gguid := with_votes (<[guid := LFG_ANSWER_DENY]> (votes boot)) (inProgress boot) boot]> (BootsStore s)) s)
      | Some LFG_ANSWER_PENDING =>
        let vs := <[guid := if accept then LFG_ANSWER_AGREE else LFG_ANSWER_DENY]> (votes boot) in
        let votesNum := u8 (count_votes is_vote vs) in
        let agreeNum := u8 (count_votes is_agree vs) in
        if (agreeNum <? LFG_GROUP_KICK_VOTES_NEEDED) && (votesNum - agreeNum <? LFG_GROUP_KICK_VOTES_NEEDED) then
          modifyX (λ s, set_BootsStore (<[gguid := with_votes vs (inProgress boot) boot]> (BootsStore s)) s)
        else
          let boot := with_votes vs false boot in
          modifyX (λ s, set_BootsStore (<[gguid := boot]> (BootsStore s)) s);;
          each (keys vs) (λ g,
            when negb (g =? boot_victim boot) do
              (SetState g LFG_STATE_DUNGEON;; send (facts W) g (SendLfgBootProposalUpdate g boot)));;
          SetState gguid LFG_STATE_DUNGEON;;
          (when agreeNum =? LFG_GROUP_KICK_VOTES_NEEDED do
             ((when group_exists W gguid do
                 (emit (RemoveFromGroup gguid (boot_victim boot));; modifyX (kick W gguid (boot_victim boot))));;
              DecreaseKicksLeft gguid));;
          modifyX (λ s, set_BootsStore (delete gguid (BootsStore s)) s)
      | Some _ => mret tt
      end
    end.

(** ** The tick of the world *)

Definition role_check_expires (currTime gguid : Z) : X LFGMgr unit :=
  s ← getX;
  match RoleChecksStore s !! gguid with
  | None => mret tt
  | Some rc =>
    when negb (currTime <? rc_cancelTime rc) do
      (let rc := mkLfgRoleCheck (rc_cancelTime rc) (rc_roles rc) LFG_ROLECHECK_MISSING_ROLE (rc_dungeons rc) (rDungeonId rc) (rc_leader rc) in
       each (keys (rc_roles rc)) (λ g,
         RestoreState g;;
         send (facts W) g (SendLfgRoleCheckUpdate g rc);;
         when g =? rc_leader rc do send (facts W) g (SendLfgJoinResult g LFG_JOIN_ROLE_CHECK_FAILED LFG_ROLECHECK_MISSING_ROLE ∅));;
       RestoreState gguid;;
       modifyX (λ s, set_RoleChecksStore (delete gguid (RoleChecksStore s)) s))
  end.
Definition proposal_expires (currTime id : Z) : X LFGMgr unit :=
  s ← getX;
  match ProposalsStore s !! id with
  | None => mret tt
  | Some p => when proposal_cancelTime p <? currTime do RemoveProposal id true
  end.
Definition boot_expires (currTime gguid : Z) : X LFGMgr unit :=
  s ← getX;
  match BootsStore s !! gguid with
  | None => mret tt
  | Some boot =>
    when boot_cancelTime boot <? currTime do
      (let boot := with_votes (votes boot) false boot in
       each (keys (votes boot)) (λ g,
         (when negb (g =? boot_victim boot) do send (facts W) g (SendLfgBootProposalUpdate g boot));;
         SetState g LFG_STATE_DUNGEON);;
       SetState gguid LFG_STATE_DUNGEON;;
       modifyX (λ s, set_BootsStore (delete gguid (BootsStore s)) s))
  end.

(** Proposals from the last one on, which is the only one. *)
Definition announce_player (p : LfgProposal) (g : Z) : X LFGMgr unit :=
  SetState g LFG_STATE_PROPOSAL;;
  s ← getX;
  let gguid := GetGroup s g in
  (if negb (gguid =? 0) then (SetState gguid LFG_STATE_PROPOSAL;; own_status g LFG_UPDATETYPE_PROPOSAL_BEGIN true)
   else own_status g LFG_UPDATETYPE_PROPOSAL_BEGIN false);;
  send (facts W) g (SendLfgUpdateProposal g p).
Definition announce (id : Z) : X LFGMgr unit :=
  s ← getX;
  match ProposalsStore s !! id with
  | None => throwX UndefinedBehaviour
  | Some p =>
    each (keys (players p)) (announce_player p);;
    when bool_decide (proposal_state p = LFG_PROPOSAL_SUCCESS) do
      (UpdateProposal id (default 0 (last (keys (players p)))) true;;
       s ← getX; when negb (bool_decide (is_Some (ProposalsStore s !! id))) do throwX UndefinedBehaviour)
  end.

Definition Update (diff : Z) : X LFGMgr unit :=
  if negb (isOptionEnabled W) then mret tt
  else
    currTime ← ask_time (facts W);
    s ← getX; each (keys (RoleChecksStore s)) (role_check_expires currTime);;
    s ← getX; each (keys (ProposalsStore s)) (proposal_expires currTime);;
    s ← getX; each (keys (BootsStore s)) (boot_expires currTime);;
    s ← getX;
    let lastProposalId := m_lfgProposalId s in
    each (keys (QueuesStore s)) (λ q, FindGroups (facts W) q;; mret tt);;
    s ← getX;
    (when negb (lastProposalId =? m_lfgProposalId s) && bool_decide (is_Some (ProposalsStore s !! m_lfgProposalId s)) do
       each (filter (λ id, m_lfgProposalId s ≤ id) (keys (ProposalsStore s))) announce);;
    s ← getX;
    if LFG_QUEUEUPDATE_INTERVAL <? m_QueueTimer s then
      modifyX (set_QueueTimer 0);;
      currTime ← ask_time (facts W);
      s ← getX; each (keys (QueuesStore s)) (λ q, UpdateQueueTimers (facts W) q q currTime)
    else modifyX (λ s, set_QueueTimer (u32 (m_QueueTimer s + diff)) s).

(** ** Callbacks of players and groups (DungeonLFGScripts.cpp) *)

Definition OnLogout (guid : Z) (in_group : bool) : X LFGMgr unit :=
  when isOptionEnabled W && negb in_group do LeaveLfg guid.
Definition OnAddMember (gguid leader guid : Z) : X LFGMgr unit :=
  when isOptionEnabled W do
    ((if leader =? guid then SetLeader gguid guid
      else
        s ← getX;
        let gstate := GetState s gguid in
        (when bool_decide (GetState s guid = LFG_STATE_QUEUED) do LeaveLfg guid);;
        when bool_decide (gstate = LFG_STATE_QUEUED) do LeaveLfg gguid);;
     SetGroup guid gguid;;
     AddPlayerToGroup gguid guid).
Definition OnDisband (gguid : Z) : X LFGMgr unit := when isOptionEnabled W do RemoveGroupData gguid.
Definition OnChangeLeader (gguid newLeader : Z) : X LFGMgr unit := when isOptionEnabled W do SetLeader gguid newLeader.
Definition OnInviteMember (gguid leader : Z) : X LFGMgr unit :=
  when isOptionEnabled W && negb (leader =? 0) && (gguid =? 0) do LeaveLfg leader.

End Manager.

End LfgMgr.
