(* ===== verification/LfgSafety.v ===== *)
(** * LfgSafety: the groups that the dungeon finder proposes.

    What makes a proposal of LfgQueue.v a sound one ([sound_proposal]), and the lemmas that
    [FindGroups] ends and makes no other, whatever is in the queue and in the cache. *)
From S2P Require Import Prelude ObjectGuid FieldsText LfgRoles LfgQueue.
From stdpp Require Import gmap sets list sorting.
Open Scope Z_scope.
Import LfgRoles LfgQueue.

#[local] Opaque HighGuid.IS_GROUP_GUID.

(** ** Who is meant by the elements of a queue *)

(** The players of some elements, with the roles that they are willing to play. *)
Definition players_of (Q : LFGQueue) (check : list Z) : list (Z * Z) :=
  concat ((λ e, let rs := queue_roles (data_at Q e) in (λ p, (p, role_of rs p)) <$> keys rs) <$> check).

Definition well_queued (Q : LFGQueue) : Prop :=
  map_Forall (λ _ d, queue_roles d ≠ ∅ ∧ (size (queue_roles d) ≤ 5)%nat ∧ well (queue_roles d) ∧
                     dungeons d ≠ ∅ ∧ Z.of_nat (size (dungeons d)) ≤ 2 ^ 32) (QueueDataStore Q).

Record sound_proposal (F : Facts) (q : Z) (s : LFGMgr) (p : LfgProposal) : Prop := {
  (* five players, each of one element *)
  sp_five : length (players_of (queue_of q s) (queues p)) = 5%nat;
  sp_once : NoDup (fst <$> players_of (queue_of q s) (queues p));
  sp_players : ∀ g, is_Some (players p !! g) ↔ g ∈ fst <$> players_of (queue_of q s) (queues p);
  (* who are still queued, for the dungeon among others *)
  sp_elements : ∀ e, e ∈ queues p → ∃ d,
    QueueDataStore (queue_of q s) !! e = Some d ∧ dungeonId p ∈ dungeons d ∧ GetState s e = LFG_STATE_QUEUED;
  sp_group : ∀ g pp, players p !! g = Some pp → ∃ e, e ∈ queues p ∧
    is_Some (queue_roles (data_at (queue_of q s) e) !! g) ∧ pp_group pp = if HighGuid.IS_GROUP_GUID e then e else 0;
  sp_one_lfg_group : (length (filter (λ e, IsLfgGroup s e = true) (queues p)) ≤ 1)%nat;
  sp_leader : is_Some (players p !! proposal_leader p);
  (* a new combination: roles that fit, and nobody ignores another *)
  sp_roles : (1 < length (queues p))%nat →
    assignment (list_to_map (players_of (queue_of q s) (queues p))) (pp_role <$> players p);
  sp_ignores : (1 < length (queues p))%nat → ∀ g g', is_Some (players p !! g) → is_Some (players p !! g') → g ≠ g' →
    HasIgnore F g g' = false }.

(** ** What the search leaves alone *)

(** The part of an entry that only joining decides. *)
Definition wishes (Q : LFGQueue) : gmap Z (gset Z * LfgRolesMap) := (λ d, (dungeons d, queue_roles d)) <$> QueueDataStore Q.

Record searched (F : Facts) (q : Z) (s s' : LFGMgr) : Prop := {
  sr_wishes : wishes (queue_of q s') = wishes (queue_of q s);
  sr_players : PlayersStore s' = PlayersStore s;
  sr_groups : GroupsStore s' = GroupsStore s;
  sr_new : newToQueueStore (queue_of q s') `sublist_of` newToQueueStore (queue_of q s);
  sr_current : currentQueueStore (queue_of q s') `sublist_of` currentQueueStore (queue_of q s);
  sr_proposals : ∀ id p, ProposalsStore s' !! id = Some p → ProposalsStore s !! id = Some p ∨ sound_proposal F q s p }.

(** The clock and random numbers keep their ranges. *)
Definition fair (F : Facts) : Prop := ∀ cs n, 0 ≤ n → 0 ≤ urand F cs 0 n ≤ n.

Lemma data_at_wishes Q Q' e : wishes Q = wishes Q' →
  dungeons (data_at Q e) = dungeons (data_at Q' e) ∧ queue_roles (data_at Q e) = queue_roles (data_at Q' e) ∧
  (is_Some (QueueDataStore Q !! e) ↔ is_Some (QueueDataStore Q' !! e)).
Proof.
  intros H. apply (f_equal (.!! e)) in H. unfold wishes in H. rewrite !lookup_fmap in H. unfold data_at.
  destruct (QueueDataStore Q !! e), (QueueDataStore Q' !! e); try done; simpl in *.
  injection H as H1 H2. done.
Qed.
Lemma players_of_wishes Q Q' check : wishes Q = wishes Q' → players_of Q check = players_of Q' check.
Proof.
  intros H. unfold players_of. f_equal. apply list_fmap_ext. intros _ e _. simpl.
  destruct (data_at_wishes Q Q' e H) as (_ & -> & _). done.
Qed.
Lemma well_queued_wishes Q Q' : wishes Q = wishes Q' → well_queued Q → well_queued Q'.
Proof.
  intros H Hw e d' Hd'. destruct (data_at_wishes Q Q' e H) as (H1 & H2 & H3).
  destruct (proj2 H3 (mk_is_Some _ _ Hd')) as [d Hd]. unfold data_at in H1, H2. rewrite Hd, Hd' in H1, H2. simpl in H1, H2.
  rewrite <-H1, <-H2. by apply (Hw e).
Qed.

Section searched.
Context (F : Facts) (q : Z).

Lemma GetState_same s s' g : PlayersStore s' = PlayersStore s → GroupsStore s' = GroupsStore s → GetState s' g = GetState s g.
Proof. intros H1 H2. unfold GetState, group_data, player_data. by rewrite H1, H2. Qed.
Lemma IsLfgGroup_same s s' g : GroupsStore s' = GroupsStore s → IsLfgGroup s' g = IsLfgGroup s g.
Proof. intros H. unfold IsLfgGroup, group_data. by rewrite H. Qed.

Lemma sound_proposal_same s s' p : wishes (queue_of q s') = wishes (queue_of q s) → PlayersStore s' = PlayersStore s →
  GroupsStore s' = GroupsStore s → sound_proposal F q s' p → sound_proposal F q s p.
Proof.
  intros Hw Hp Hg [H1 H2 H3 H4 H5 H6 H7 H8 H9].
  pose proof (players_of_wishes _ _ (queues p) Hw) as E. rewrite E in *. split; try done.
  - intros e He. destruct (H4 e He) as (d' & Hd' & Hin & Hs). destruct (data_at_wishes _ _ e Hw) as (E1 & _ & E3).
    destruct (proj1 E3 (mk_is_Some _ _ Hd')) as [d Hd]. exists d. split; [done|]. unfold data_at in E1. rewrite Hd, Hd' in E1. simpl in E1.
    split; [by rewrite <-E1|]. by rewrite <-(GetState_same s s').
  - intros g pp Hpp. destruct (H5 g pp Hpp) as (e & He & Hr & Hgr). exists e.
    destruct (data_at_wishes _ _ e Hw) as (_ & E2 & _). by rewrite <-E2.
  - etrans; [|exact H6]. apply Nat.eq_le_incl. f_equal. apply list_filter_iff. intros e. by rewrite (IsLfgGroup_same s s').
Qed.

#[export] Instance searched_preorder : PreOrder (searched F q).
Proof.
  split.
  - intros s. split; try done. auto.
  - intros s1 s2 s3 H12 H23. destruct H12 as [W1 P1 G1 N1 C1 S1], H23 as [W2 P2 G2 N2 C2 S2]. split; try congruence.
    + by etrans.
    + by etrans.
    + intros id p Hp. destruct (S2 id p Hp) as [Hp'|Hp']; [by apply S1|]. right. by eapply sound_proposal_same.
Qed.

(** Changes of the queue alone. *)
Lemma queue_of_change f s : queue_of q ((change q f s).2) = f (queue_of q s).
Proof. unfold change, modifyX, queue_of. simpl. by rewrite lookup_insert_eq. Qed.
Lemma searched_change f s :
  wishes (f (queue_of q s)) = wishes (queue_of q s) →
  newToQueueStore (f (queue_of q s)) `sublist_of` newToQueueStore (queue_of q s) →
  currentQueueStore (f (queue_of q s)) `sublist_of` currentQueueStore (queue_of q s) →
  searched F q s (change q f s).2.
Proof. intros H1 H2 H3. split; rewrite ?queue_of_change; try done. auto. Qed.

End searched.

(** ** Changes of a queue that leave the wishes alone *)

Lemma wishes_set_compatibles x Q : wishes (set_compatibles x Q) = wishes Q.
Proof. done. Qed.
Lemma wishes_change_data f g Q : (∀ d, dungeons (f d) = dungeons d ∧ queue_roles (f d) = queue_roles d) → wishes (change_data g f Q) = wishes Q.
Proof.
  intros Hf. unfold wishes, change_data. simpl. apply map_eq. intros e. rewrite !lookup_fmap.
  destruct (decide (e = g)) as [->|]; [rewrite lookup_alter_eq|by rewrite lookup_alter_ne].
  destruct (_ !! g) as [d|]; simpl; [|done]. destruct (Hf d) as [-> ->]. done.
Qed.
Lemma UpdateBest_wishes key rs d :
  dungeons (UpdateBestCompatibleInQueue key rs d) = dungeons d ∧ queue_roles (UpdateBestCompatibleInQueue key rs d) = queue_roles d.
Proof. unfold UpdateBestCompatibleInQueue. destruct (_ <=? _); [done|]. by destruct (foldl _ _ _) as [[t h] dd]. Qed.
Lemma FindBest_wishes Q g d :
  dungeons (FindBestCompatibleInQueue Q g d) = dungeons d ∧ queue_roles (FindBestCompatibleInQueue Q g d) = queue_roles d.
Proof.
  unfold FindBestCompatibleInQueue. generalize (texts (CompatibleMapStore Q)) as l. intros l. revert d.
  induction l as [|key l IH]; intros d; [done|]. cbn [foldl]. destruct (IH (match CompatibleMapStore Q !! key with
    | Some c => if bool_decide (compatibility c = LFG_COMPATIBLES_WITH_LESS_PLAYERS) && contains (guid_text g) key
                then UpdateBestCompatibleInQueue key (compatible_roles c) d else d
    | None => d end)) as [-> ->].
  destruct (CompatibleMapStore Q !! key) as [c|]; [|done]. destruct (_ && _); [apply UpdateBest_wishes|done].
Qed.
Lemma forget_wishes guid Q g d : dungeons (forget guid Q g d) = dungeons d ∧ queue_roles (forget guid Q g d) = queue_roles d.
Proof. unfold forget. destruct (_ && _); [|done]. by destruct (FindBest_wishes Q g (set_bestCompatible [] d)) as [-> ->]. Qed.
Lemma RemoveFromQueue_wishes guid Q : wishes (RemoveFromQueue guid Q) = delete guid (wishes Q).
Proof.
  unfold wishes, RemoveFromQueue. simpl. apply map_eq. intros e. rewrite !lookup_fmap.
  destruct (decide (e = guid)) as [->|Hne]; [by rewrite !lookup_delete_eq|]. rewrite !lookup_delete_ne, lookup_fmap, map_lookup_imap by done.
  destruct (_ !! e) as [d|]; simpl; [|done]. destruct (forget_wishes guid (RemoveFromCompatibles guid (RemoveFromCurrentQueue guid (RemoveFromNewQueue guid Q))) e d) as [-> ->]. done.
Qed.

(** Elements that leave the two lists. *)
Definition dequeue (check : list Z) (Q : LFGQueue) : LFGQueue := foldl (λ Q g, RemoveFromCurrentQueue g (RemoveFromNewQueue g Q)) Q check.
Lemma dequeue_spec check Q : wishes (dequeue check Q) = wishes Q ∧
  newToQueueStore (dequeue check Q) `sublist_of` newToQueueStore Q ∧ currentQueueStore (dequeue check Q) `sublist_of` currentQueueStore Q.
Proof.
  unfold dequeue. revert Q. induction check as [|g check IH]; intros Q; [done|]. cbn [foldl].
  destruct (IH (RemoveFromCurrentQueue g (RemoveFromNewQueue g Q))) as (-> & H2 & H3). split; [done|].
  split; (etrans; [eassumption|]); simpl; apply sublist_filter.
Qed.

Section steps.
Context (F : Facts) (q : Z).

Lemma searched_emit c s : searched F q s (record_call c s).
Proof. split; try done. auto. Qed.
Lemma returns_emit c s (Q : unit → LFGMgr → Prop) : Q tt (record_call c s) → returns (emit c) s Q.
Proof. done. Qed.

Lemma searched_less strGuids check roles s : searched F q s (less_players q strGuids check roles s).2.
Proof.
  unfold less_players. etrans; [|apply searched_change; done].
  apply searched_change.
  - generalize (queue_of q s) as Q. induction check as [|g check IH]; intros Q; [done|]. cbn [foldl]. rewrite IH.
    apply wishes_change_data, UpdateBest_wishes.
  - generalize (queue_of q s) as Q. induction check as [|g check IH]; intros Q; [done|]. cbn [foldl]. by rewrite IH.
  - generalize (queue_of q s) as Q. induction check as [|g check IH]; intros Q; [done|]. cbn [foldl]. by rewrite IH.
Qed.
Lemma less_players_runs strGuids check roles s :
  returns (less_players q strGuids check roles) s (λ c s', c = LFG_COMPATIBLES_WITH_LESS_PLAYERS ∧ searched F q s s').
Proof. split; [done|]. apply searched_less. Qed.
Lemma reject_runs strGuids c s : returns (reject q strGuids c) s (λ c' s', c' = c ∧ searched F q s s').
Proof. split; [done|]. by apply (searched_change F q (SetCompatibles strGuids c)). Qed.

(** ** Counting *)

(** What [tally_loop] has counted when it saw all of [l]. *)
Record tallied (s : LFGMgr) (l : list Z) (n : tally) : Prop := {
  ty_players : numPlayers n = Z.of_nat (length (players_of (queue_of q s) l));
  ty_groups : numLfgGroups n = Z.of_nat (length (filter (λ e, IsLfgGroup s e = true) l));
  ty_data : ∀ e, e ∈ l → is_Some (QueueDataStore (queue_of q s) !! e);
  ty_dom : ∀ g, g ∈ fst <$> players_of (queue_of q s) l → is_Some (proposalGroups n !! g);
  ty_group : ∀ g gg, proposalGroups n !! g = Some gg → ∃ e, e ∈ l ∧
    is_Some (queue_roles (data_at (queue_of q s) e) !! g) ∧ gg = if HighGuid.IS_GROUP_GUID e then e else 0 }.

Definition too_many (n : tally) : Prop := 2 ≤ numLfgGroups n ∨ MAXGROUPSIZE < numPlayers n.

Lemma players_of_app Q l l' : players_of Q (l ++ l') = players_of Q l ++ players_of Q l'.
Proof. unfold players_of. by rewrite fmap_app, concat_app. Qed.
Lemma players_of_one Q e : players_of Q [e] = (λ p, (p, role_of (queue_roles (data_at Q e)) p)) <$> keys (queue_roles (data_at Q e)).
Proof. unfold players_of. simpl. by rewrite app_nil_r. Qed.

Lemma groups_fold gg l (m : gmap Z Z) g :
  foldl (λ gs p, <[p := gg]> gs) m l !! g = if bool_decide (g ∈ l) then Some gg else m !! g.
Proof.
  revert m. induction l as [|p l IH]; intros m; [done|]. cbn [foldl]. rewrite IH.
  destruct (decide (g = p)) as [->|Hne].
  - rewrite (bool_decide_true (p ∈ p :: l)) by constructor. rewrite lookup_insert_eq. by case_bool_decide.
  - rewrite lookup_insert_ne by done. rewrite (bool_decide_ext (g ∈ p :: l) (g ∈ l)); [done|]. rewrite elem_of_cons. naive_solver.
Qed.

Lemma tally_runs l done n s : well_queued (queue_of q s) → tallied s done n →
  returns (tally_loop q l n) s (λ r s', searched F q s s' ∧
    match r with None => True | Some n' => s' = s ∧ (too_many n' ∨ tallied s (done ++ l) n') end).
Proof.
  intros Hw. revert done n. induction l as [|e l IH]; intros done n Hn; cbn [tally_loop].
  { apply ends_ret. split; [reflexivity|]. split; [done|]. right. by rewrite app_nil_r. }
  destruct (negb _) eqn:E.
  { apply ends_ret. split; [reflexivity|]. split; [done|]. left. apply negb_true_iff, andb_false_iff in E. unfold too_many. lia. }
  apply negb_false_iff, andb_true_iff in E as [E1 E2]. unfold que. apply ends_bind, ends_bind, ends_getX, ends_ret.
  destruct (QueueDataStore (queue_of q s) !! e) as [d|] eqn:Ed.
  - apply ends_bind, ends_getX. destruct (Hw e d Ed) as (Hne & Hsz & _).
    assert (data_at (queue_of q s) e = d) as Hd by (unfold data_at; by rewrite Ed).
    rewrite (cons_middle e done l), app_assoc. apply IH. destruct Hn as [N1 N2 N3 N4 N5]. unfold MAXGROUPSIZE in E2.
    split; cbn [numPlayers numLfgGroups proposalGroups].
    + rewrite players_of_app, players_of_one, length_app, length_fmap, Hd, length_keys. unfold u8. rewrite Z.mod_small; lia.
    + rewrite filter_app, length_app, filter_cons. unfold u8. destruct (IsLfgGroup s e) eqn:El; destruct (decide _); try done; simpl; [|lia].
      rewrite Z.mod_small; lia.
    + intros e' [He'| ->%list_elem_of_singleton]%elem_of_app; [by apply N3|]. by rewrite Ed.
    + intros g. rewrite players_of_app, fmap_app, elem_of_app, players_of_one, Hd, <-list_fmap_compose.
      intros Hg. rewrite groups_fold. case_bool_decide as Eg; [done|]. destruct Hg as [Hg|Hg]; [by apply N4|].
      exfalso. apply Eg. apply list_elem_of_fmap in Hg as (p & -> & Hp). done.
    + intros g gg. rewrite groups_fold. case_bool_decide as Eg.
      * intros [= <-]. exists e. rewrite Hd. split; [set_solver|]. split; [by apply elem_of_keys|done].
      * intros Hg. destruct (N5 g gg Hg) as (e' & He' & ?). exists e'. split; [set_solver|done].
  - apply ends_bind. unfold change. apply ends_modifyX. apply ends_ret. split; [|done].
    apply (searched_change F q (RemoveFromQueue e)).
    + rewrite RemoveFromQueue_wishes. apply delete_id. unfold wishes. by rewrite lookup_fmap, Ed.
    + simpl. apply sublist_filter.
    + simpl. apply sublist_filter.
Qed.

End steps.

(** ** Joining the players of the elements *)

Section joining.
Context (F : Facts).

Definition join (m : LfgRolesMap) (pv : Z * Z) : LfgRolesMap :=
  if existsb (λ o, negb (pv.1 =? o) && HasIgnore F pv.1 o) (keys m) then m else <[pv.1 := pv.2]> m.
Lemma join_players_flat Q check : join_players F Q check = foldl join ∅ (players_of Q check).
Proof.
  unfold join_players, players_of. generalize (∅ : LfgRolesMap) as m. induction check as [|e check IH]; intros m; [done|].
  cbn [foldl fmap list_fmap concat]. rewrite foldl_app, IH. f_equal. rewrite foldl_fmap. done.
Qed.

Definition quiet (m : LfgRolesMap) : Prop :=
  ∀ g g', is_Some (m !! g) → is_Some (m !! g') → g ≠ g' → HasIgnore F g g' = false.
Lemma HasIgnore_sym g g' : HasIgnore F g g' = HasIgnore F g' g.
Proof. unfold HasIgnore. by rewrite (andb_comm (FindPlayer F g)), (orb_comm (ignores F g _)). Qed.

Lemma join_size m pv : (size (join m pv) ≤ size m + 1)%nat.
Proof. unfold join. destruct (existsb _ _); [lia|]. rewrite map_size_insert. case_match; simpl; lia. Qed.
Lemma join_new m p v : size (join m (p, v)) = (size m + 1)%nat →
  join m (p, v) = <[p := v]> m ∧ m !! p = None ∧ (quiet m → quiet (<[p := v]> m)).
Proof.
  unfold join. cbn [fst snd]. destruct (existsb _ _) eqn:E; [lia|]. rewrite map_size_insert.
  destruct (m !! p) eqn:Ep; simpl; [lia|]. intros _. split; [done|]. split; [done|]. intros Hq.
  assert (∀ o, is_Some (m !! o) → p ≠ o → HasIgnore F p o = false) as Hp.
  { intros o Ho Hne. apply not_true_is_false. intros Hi. eapply eq_true_false_abs; [|exact E]. apply existsb_exists. exists o.
    split; [by apply list_elem_of_In, elem_of_keys|]. rewrite Hi, andb_true_r. by apply negb_true_iff, Z.eqb_neq. }
  intros g g' Hg Hg' Hne. destruct (decide (g = p)) as [->|].
  - apply Hp; [by rewrite lookup_insert_ne in Hg'|done].
  - rewrite lookup_insert_ne in Hg by done. destruct (decide (g' = p)) as [->|]; [rewrite HasIgnore_sym; by apply Hp|].
    rewrite lookup_insert_ne in Hg' by done. by apply Hq.
Qed.

Lemma joined_le ps m : (size (foldl join m ps) ≤ size m + length ps)%nat.
Proof.
  revert m. induction ps as [|pv ps IH]; intros m; simpl; [lia|]. etrans; [apply IH|]. pose proof (join_size m pv). lia.
Qed.
Lemma joined_all ps m : size (foldl join m ps) = (size m + length ps)%nat →
  NoDup ps.*1 ∧ (∀ p, p ∈ ps.*1 → m !! p = None) ∧ foldl join m ps = list_to_map ps ∪ m ∧ (quiet m → quiet (foldl join m ps)).
Proof.
  revert m. induction ps as [|[p v] ps IH]; intros m Hs.
  { simpl. split; [constructor|]. split; [by intros p ?%elem_of_nil|]. split; [by rewrite map_empty_union|done]. }
  cbn [foldl] in *. pose proof (joined_le ps (join m (p, v))) as Hl. pose proof (join_size m (p, v)) as Hj. simpl in Hs.
  destruct (join_new m p v) as (E & Hp & Hq); [lia|].
  destruct (IH (join m (p, v))) as (Hnd & Hnone & Heq & Hqq); [lia|]. rewrite E in *.
  assert (p ∉ ps.*1) as Hnin by (intros Hin; specialize (Hnone p Hin); by rewrite lookup_insert_eq in Hnone).
  split; [by constructor|]. split.
  - intros p' [->|Hp']%elem_of_cons; [done|]. specialize (Hnone p' Hp'). by apply lookup_insert_None in Hnone as [? _].
  - split; [|auto]. rewrite Heq. simpl. rewrite <-insert_union_l, <-insert_union_r; [done|]. by apply not_elem_of_list_to_map_1.
Qed.

End joining.

(** ** The proposal *)

Section proposing.
Context (F : Facts) (q : Z).
Hypothesis Hfair : fair F.

Lemma ask_time_runs s (Q : Z → LFGMgr → Prop) : (∀ t, Q t (record_call Time s)) → returns (ask_time F) s Q.
Proof using Type. intros H. unfold ask_time. apply ends_bind, ends_getX, ends_bind, returns_emit, ends_ret, H. Qed.
Lemma ask_urand_runs s n (Q : Z → LFGMgr → Prop) : 0 ≤ n → (∀ r, 0 ≤ r ≤ n → Q r (record_call (Urand 0 n) s)) → returns (ask_urand F 0 n) s Q.
Proof using Hfair. intros Hn H. unfold ask_urand. apply ends_bind, ends_getX, ends_bind, returns_emit, ends_ret, H. by apply Hfair. Qed.

Lemma random_runs ds s : ds ≠ ∅ → Z.of_nat (size ds) ≤ 2 ^ 32 →
  returns (SelectRandomContainerElement F ds) s (λ d s', d ∈ ds ∧ searched F q s s').
Proof using Hfair.
  intros Hne Hsz. unfold SelectRandomContainerElement. assert (0 < size ds)%nat as Hpos.
  { destruct (size ds) eqn:E; [|lia]. by apply size_empty_inv in E; set_solver. }
  apply ends_bind, ask_urand_runs; [by apply Z.mod_pos_bound|]. intros r Hr. unfold u32 in Hr. rewrite Z.mod_small in Hr by lia.
  assert (length (merge_sort Z.le (elements ds)) = size ds) as Hlen.
  { rewrite (merge_sort_Permutation Z.le). done. }
  destruct (lookup_lt_is_Some_2 (merge_sort Z.le (elements ds)) (Z.to_nat r)) as [d Hd]; [lia|]. rewrite Hd. apply ends_ret.
  split; [|apply searched_emit]. apply list_elem_of_lookup_2 in Hd. by rewrite (merge_sort_Permutation Z.le), elem_of_elements in Hd.
Qed.

Lemma leader_runs l leader who s :
  returns (leader_loop F l leader who) s (λ g s', (g = who ∨ g ∈ l.*1) ∧ (who = 0 → leader = false → l ≠ [] → g ∈ l.*1) ∧ searched F q s s').
Proof using Hfair.
  revert leader who s. induction l as [|[g v] l IH]; intros leader who s; cbn [leader_loop].
  { apply ends_ret. split; [by left|]. split; [done|reflexivity]. }
  assert (∀ (b : bool) leader' s', searched F q s s' → (who = 0 → leader = false → b = true) →
    returns (leader_loop F l leader' (if b then g else who)) s' (λ g' s'', (g' = who ∨ g' ∈ ((g, v) :: l).*1) ∧
      (who = 0 → leader = false → (g, v) :: l ≠ [] → g' ∈ ((g, v) :: l).*1) ∧ searched F q s s'')) as Hnext.
  { intros b leader' s' Hs Hb. eapply ends_mono; [apply IH|]. intros g' s'' (Hg & _ & Hs''). cbn [fmap list_fmap fst].
    split; [destruct b, Hg; subst; set_solver|]. split; [|by etrans]. intros Hw Hl _. rewrite (Hb Hw Hl) in Hg. destruct Hg; subst; set_solver. }
  destruct (plays v PLAYER_ROLE_LEADER); apply ends_bind.
  - destruct (negb leader || (who =? 0)) eqn:E; [apply ends_ret, (Hnext true); [reflexivity|done]|].
    apply ends_bind, ask_urand_runs; [lia|]. intros r _. apply ends_ret, Hnext; [apply searched_emit|]. by intros -> ->.
  - destruct leader; [apply ends_ret, (Hnext false); [reflexivity|done]|].
    destruct (who =? 0) eqn:E; [apply ends_ret, (Hnext true); [reflexivity|done]|].
    apply ends_bind, ask_urand_runs; [lia|]. intros r _. apply ends_ret, Hnext; [apply searched_emit|]. by intros ->.
Qed.

(** What is proposed when all checks are passed. *)
Record agreeable (s : LFGMgr) (check : list Z) (roles : LfgRolesMap) (ds : gset Z) (n : tally) : Prop := {
  ag_tally : tallied q s check n;
  ag_five : numPlayers n = MAXGROUPSIZE;
  ag_one : numLfgGroups n ≤ 1;
  ag_once : NoDup (fst <$> players_of (queue_of q s) check);
  ag_dom : ∀ g, is_Some (roles !! g) ↔ g ∈ fst <$> players_of (queue_of q s) check;
  ag_dungeons : ds ≠ ∅ ∧ Z.of_nat (size ds) ≤ 2 ^ 32 ∧ ∀ e, e ∈ check → ds ⊆ dungeons (data_at (queue_of q s) e);
  ag_roles : (1 < length check)%nat → assignment (list_to_map (players_of (queue_of q s) check)) roles ∧ quiet F roles }.

Lemma players_lookup isNew gr groups roles g :
  map_imap (proposal_player isNew gr groups) roles !! g = roles !! g ≫= proposal_player isNew gr groups g.
Proof using Type. apply map_lookup_imap. Qed.

Lemma sound_players s check roles ds n isNew : agreeable s check roles ds n → ∀ g,
  match roles !! g with
  | Some v => ∃ pp, map_imap (proposal_player isNew (tally_group n) (proposalGroups n)) roles !! g = Some pp ∧ pp_role pp = v ∧
                    proposalGroups n !! g = Some (pp_group pp)
  | None => map_imap (proposal_player isNew (tally_group n) (proposalGroups n)) roles !! g = None
  end.
Proof using Type.
  intros Ha g. rewrite players_lookup. destruct (roles !! g) as [v|] eqn:E; [|done]. simpl. unfold proposal_player.
  destruct (ty_dom q s check n (ag_tally _ _ _ _ _ Ha) g) as [gg Hgg]; [by apply (ag_dom _ _ _ _ _ Ha); eauto|].
  rewrite Hgg. simpl. eauto.
Qed.

Lemma proposal_sound s check roles ds n isNew id dungeon leader t :
  agreeable s check roles ds n → AllQueued s check = true → dungeon ∈ ds → leader ∈ keys roles →
  sound_proposal F q s (mkLfgProposal id dungeon LFG_PROPOSAL_INITIATING (tally_group n) leader t isNew check
    (map_imap (proposal_player isNew (tally_group n) (proposalGroups n)) roles)).
Proof using Type.
  intros Ha Hq Hd Hl. pose proof (sound_players s check roles ds n isNew Ha) as Hpl. destruct Ha as [At A5 A1 Ao Ad Ads Ar].
  assert (∀ g, is_Some (map_imap (proposal_player isNew (tally_group n) (proposalGroups n)) roles !! g) ↔ is_Some (roles !! g)) as Hdom.
  { intros g. specialize (Hpl g). destruct (roles !! g) as [v|]; [destruct Hpl as (pp & -> & _)|rewrite Hpl]; naive_solver. }
  split; cbn [queues players dungeonId proposal_leader].
  - rewrite (ty_players _ _ _ _ At) in A5. unfold MAXGROUPSIZE in A5. lia.
  - done.
  - intros g. by rewrite Hdom, Ad.
  - intros e He. destruct (ty_data _ _ _ _ At e He) as [d Hd']. exists d. split; [done|].
    destruct Ads as (_ & _ & Hds). specialize (Hds e He). unfold data_at in Hds. rewrite Hd' in Hds. simpl in Hds.
    split; [by apply Hds|]. unfold AllQueued in Hq. apply andb_true_iff in Hq as [_ Hq].
    eapply (proj1 (forallb_forall _ _)) in Hq; [by apply bool_decide_eq_true in Hq|by apply list_elem_of_In].
  - intros g pp Hpp. specialize (Hpl g). destruct (roles !! g) as [v|]; [|congruence]. destruct Hpl as (pp' & E & _ & Hg).
    rewrite E in Hpp. injection Hpp as <-. by apply (ty_group _ _ _ _ At).
  - rewrite (ty_groups _ _ _ _ At) in A1. lia.
  - apply Hdom. by apply elem_of_keys.
  - intros Hlen. destruct (Ar Hlen) as [Has _]. replace (pp_role <$> _) with roles; [done|]. apply map_eq. intros g.
    rewrite lookup_fmap. specialize (Hpl g). destruct (roles !! g) as [v|]; [destruct Hpl as (pp & -> & <- & _)|rewrite Hpl]; done.
  - intros Hlen g g' Hg Hg'. apply (proj2 (Ar Hlen)); by apply Hdom.
Qed.

Lemma propose_runs s check strGuids roles ds n : agreeable s check roles ds n →
  returns (propose F q check strGuids roles ds n) s (λ _ s', searched F q s s').
Proof using Hfair.
  intros Ha. unfold propose. apply ends_bind, ends_getX. destruct (AllQueued s check) eqn:Eq; cbn [negb].
  2:{ eapply ends_mono; [apply (reject_runs F)|]. by intros c s' [_ ?]. }
  apply ends_bind, ask_time_runs. intros now. apply ends_bind.
  eapply ends_mono; [apply random_runs; apply (ag_dungeons _ _ _ _ _ Ha)|]. intros dungeon s1 [Hd Hs1].
  assert (searched F q s s1) as Hs by (etrans; [apply searched_emit|exact Hs1]). apply ends_bind.
  eapply ends_mono; [apply leader_runs|]. intros leader s2 (_ & Hl & Hs2).
  assert (keys roles ≠ []) as Hne.
  { destruct (players_of (queue_of q s) check) as [|[g v] ps] eqn:E.
    - pose proof (ty_players _ _ _ _ (ag_tally _ _ _ _ _ Ha)) as H. rewrite E, (ag_five _ _ _ _ _ Ha) in H. done.
    - intros Hk. assert (g ∈ keys roles) as Hg by (apply elem_of_keys, (ag_dom _ _ _ _ _ Ha); rewrite E; set_solver).
      rewrite Hk in Hg. by apply elem_of_nil in Hg. }
  assert (leader ∈ keys roles) as Hlead.
  { specialize (Hl eq_refl eq_refl). rewrite <-list_fmap_compose, list_fmap_id in Hl. apply Hl. by destruct (keys roles). }
  assert (forallb (λ g, bool_decide (is_Some (proposalGroups n !! g))) (keys roles) = true) as ->.
  { apply forallb_forall. intros g Hg%list_elem_of_In. apply bool_decide_eq_true, (ty_dom _ _ _ _ (ag_tally _ _ _ _ _ Ha)).
    by apply (ag_dom _ _ _ _ _ Ha), elem_of_keys. }
  assert (searched F q s s2) as Hs' by (by etrans). set (p := λ id, mkLfgProposal _ _ _ _ _ _ _ _ _).
  apply ends_bind. unfold change at 1. apply ends_modifyX. set (s3 := set_QueuesStore _ _).
  assert (searched F q s s3) as Hs3.
  { etrans; [exact Hs'|]. destruct (dequeue_spec check (queue_of q s2)) as (W1 & W2 & W3). by apply (searched_change F q (dequeue check)). }
  apply ends_bind. unfold AddProposal. apply ends_bind, ends_modifyX, ends_bind, ends_getX, ends_bind, ends_modifyX, ends_ret.
  apply ends_bind, ends_modifyX, ends_ret. etrans; [exact Hs3|]. etrans; [|by apply searched_change].
  destruct Hs3 as [Q1 Q2 Q3 Q4 Q5 Q6]. split; try done. intros id pr. simpl. rewrite lookup_insert_Some.
  intros [[<- <-]|[_ Hpr]]; [|by left]. right. apply (sound_proposal_same F q s3 s); try done. unfold p. by eapply proposal_sound.
Qed.

End proposing.

(** ** Checking a combination *)

Section checking.
Context (F : Facts) (q : Z).
Hypothesis Hfair : fair F.

Lemma data_at_well Q e : well_queued Q →
  well (queue_roles (data_at Q e)) ∧ (size (queue_roles (data_at Q e)) ≤ 5)%nat ∧ Z.of_nat (size (dungeons (data_at Q e))) ≤ 2 ^ 32 ∧
  (is_Some (QueueDataStore Q !! e) → queue_roles (data_at Q e) ≠ ∅ ∧ dungeons (data_at Q e) ≠ ∅).
Proof using Type.
  intros Hw. unfold data_at. destruct (QueueDataStore Q !! e) as [d|] eqn:E; [by destruct (Hw e d E) as (? & ? & ? & ? & ?)|].
  cbn. split; [done|]. split; [rewrite map_size_empty; lia|]. split; [by rewrite size_empty|by intros []].
Qed.

(** The search for roles neither throws nor changes who is meant. *)
Lemma roles_found m : well m → (size m < 256)%nat → ∃ b m', CheckGroupRoles m = Ok (b, m') ∧ dom m' = dom m ∧
  (b = true → m ≠ ∅ → assignment m m').
Proof using Type.
  intros Hw Hs. destruct (decide (m = ∅)) as [->|Hne]; [by exists false, ∅|].
  pose proof (CheckGroupRoles_answers m Hne Hw Hs) as H. destruct (CheckGroupRoles m) as [[[] m']|]; [| |done].
  - exists true, m'. split; [done|]. split; [by destruct H|done].
  - destruct H as [-> _]. exists false, (without_leader m). split; [done|]. split; [apply dom_fmap_L|done].
Qed.

Lemma players_well Q check : well_queued Q → well (list_to_map (players_of Q check)).
Proof using Type.
  intros Hw g v Hv. apply elem_of_list_to_map_2 in Hv. unfold players_of in Hv.
  apply list_elem_of_In, in_concat in Hv as (l & Hl%list_elem_of_In & Hin%list_elem_of_In). apply list_elem_of_fmap in Hl as (e & -> & _).
  apply list_elem_of_fmap in Hin as (p & [= -> ->] & Hp). apply elem_of_keys in Hp as [v Hv]. rewrite (role_of_Some _ _ _ Hv).
  destruct (data_at_well Q e Hw) as [Hwell _]. by apply (Hwell p).
Qed.

Lemma common_subset Q check e : e ∈ check → common_dungeons Q check ⊆ dungeons (data_at Q e).
Proof using Type.
  clear Hfair. assert (∀ l ds, foldl (λ ds g, ds ∩ dungeons (data_at Q g)) ds l ⊆ ds) as Hsub.
  { induction l as [|g l IH]; intros ds; cbn [foldl]; [done|]. etrans; [apply IH|]. set_solver. }
  destruct check as [|e0 l]; [by intros ?%elem_of_nil|]. cbn [common_dungeons]. intros [->|He]%elem_of_cons; [apply Hsub|].
  generalize (dungeons (data_at Q e0)) as ds. induction l as [|g l IH]; intros ds; [by apply elem_of_nil in He|].
  cbn [foldl]. apply elem_of_cons in He as [->|He]; [etrans; [apply Hsub|]; set_solver|by apply IH].
Qed.

Lemma tallied_start s : tallied q s [] (mkTally 0 0 ∅ 0).
Proof using Type. split; try done; [by intros e ?%elem_of_nil|by intros g ?%elem_of_nil]. Qed.

(** Several elements whose players all joined. *)
Lemma joined_agree s check n roles : well_queued (queue_of q s) → tallied q s check n → numLfgGroups n ≤ 1 →
  (1 < length check)%nat → numPlayers n = MAXGROUPSIZE → size (join_players F (queue_of q s) check) = length (players_of (queue_of q s) check) →
  CheckGroupRoles (join_players F (queue_of q s) check) = Ok (true, roles) → common_dungeons (queue_of q s) check ≠ ∅ →
  agreeable F q s check roles (common_dungeons (queue_of q s) check) n.
Proof using Type.
  intros Hw Ht H1 Hlen H5 Hsz Hr Hds. rewrite join_players_flat in *.
  destruct (joined_all F (players_of (queue_of q s) check) ∅) as (Hnd & _ & Hj & Hq); [by rewrite map_size_empty|].
  rewrite map_union_empty in Hj. specialize (Hq ltac:(by intros g g' []%lookup_empty_is_Some)).
  pose proof (ty_players _ _ _ _ Ht) as Hn. unfold MAXGROUPSIZE in H5.
  rewrite Hj in *. destruct (roles_found (list_to_map (players_of (queue_of q s) check))) as (b & m' & E & Hdom & Has);
    [by apply players_well|lia|]. rewrite Hr in E. injection E as <- <-.
  assert (assignment (list_to_map (players_of (queue_of q s) check)) roles) as Hass.
  { apply Has; [done|]. intros E0. rewrite E0, map_size_empty in Hsz. lia. }
  assert (∀ g, is_Some (roles !! g) ↔ g ∈ fst <$> players_of (queue_of q s) check) as Hin.
  { intros g. by rewrite <-elem_of_dom, Hdom, dom_list_to_map, elem_of_list_to_set. }
  split; try done.
  - split; [done|]. split; [|intros e He; by apply common_subset]. destruct check as [|e check]; [simpl in Hlen; lia|].
    destruct (data_at_well (queue_of q s) e Hw) as (_ & _ & Hs & _). etrans; [|exact Hs].
    apply inj_le, subseteq_size, common_subset. constructor.
  - intros _. split; [done|]. intros g g' Hg Hg'. apply Hq; rewrite <-elem_of_dom, <-Hdom; by apply elem_of_dom.
Qed.

(** One element of five players. *)
Lemma alone_agree s e n b roles : well_queued (queue_of q s) → tallied q s [e] n → numLfgGroups n ≤ 1 →
  numPlayers n = MAXGROUPSIZE → CheckGroupRoles (queue_roles (data_at (queue_of q s) e)) = Ok (b, roles) →
  agreeable F q s [e] roles (dungeons (data_at (queue_of q s) e)) n.
Proof using Type.
  intros Hw Ht H1 H5 Hr. destruct (data_at_well (queue_of q s) e Hw) as (Hwell & Hs & Hds & Hne).
  destruct (Hne (ty_data _ _ _ _ Ht e ltac:(constructor))) as [_ Hd].
  destruct (roles_found (queue_roles (data_at (queue_of q s) e))) as (b' & m' & E & Hdom & _); [done|lia|].
  rewrite Hr in E. injection E as <- <-.
  assert ((fst <$> players_of (queue_of q s) [e]) = keys (queue_roles (data_at (queue_of q s) e))) as Hk.
  { by rewrite players_of_one, <-list_fmap_compose, list_fmap_id. }
  split; try done.
  - rewrite Hk. apply NoDup_keys.
  - intros g. by rewrite Hk, elem_of_keys, <-!elem_of_dom, Hdom.
  - split; [done|]. split; [done|]. intros e' He'. apply list_elem_of_singleton in He' as ->. done.
  - simpl. lia.
Qed.

Lemma check_elements_runs s check : well_queued (queue_of q s) → check ≠ [] →
  returns (check_elements F q check) s (λ _ s', searched F q s s').
Proof using Hfair.
  intros Hw Hne. unfold check_elements. apply ends_bind.
  eapply ends_mono; [apply (tally_runs F q check [] _ s Hw), tallied_start|]. intros [n|] s' [Hs' Hn]; [|by apply ends_ret].
  destruct Hn as [-> Hn]. clear Hs'. unfold que. apply ends_bind, ends_bind, ends_getX, ends_ret.
  assert (∀ sg rs, returns (less_players q sg check rs) s (λ _ s', searched F q s s')) as Hless.
  { intros sg rs. eapply ends_mono; [apply (less_players_runs F)|]. by intros ?? []. }
  assert (∀ sg c, returns (reject q sg c) s (λ _ s', searched F q s s')) as Hrej.
  { intros sg c. eapply ends_mono; [apply (reject_runs F)|]. by intros ?? []. }
  pose proof (data_at_well (queue_of q s) (default 0 (head check)) Hw) as (Hwell & Hs5 & _).
  destruct (roles_found (queue_roles (data_at (queue_of q s) (default 0 (head check))))) as (b & m & Em & _); [done|lia|].
  destruct ((length check =? 1)%nat && _) eqn:E1; [rewrite Em; apply ends_bind, Hless|].
  destruct (1 <? numLfgGroups n) eqn:E2; [apply Hrej|]. destruct (MAXGROUPSIZE <? numPlayers n) eqn:E3; [apply Hrej|].
  destruct Hn as [[Hn|Hn]|Hn]; [lia|lia|]. simpl in Hn. destruct (1 <? length check)%nat eqn:E4.
  - pose proof (joined_le F (players_of (queue_of q s) check) ∅) as Hle. rewrite <-join_players_flat, map_size_empty in Hle.
    pose proof (ty_players _ _ _ _ Hn) as Hnum. unfold MAXGROUPSIZE in E3.
    destruct (u8 _ =? 0) eqn:E5; [|apply Hrej]. cbn [negb]. apply Z.eqb_eq in E5. unfold u8 in E5. rewrite Z.mod_small in E5 by lia.
    assert (size (join_players F (queue_of q s) check) = length (players_of (queue_of q s) check)) as Hsz by lia.
    destruct (CheckGroupRoles (join_players F (queue_of q s) check)) as [[fits roles]|] eqn:Er.
    + apply ends_bind. cbn [liftX]. apply ends_ret. destruct fits; cbn [negb]; [|apply Hrej]. case_bool_decide as E6; [apply Hrej|].
      destruct (numPlayers n =? MAXGROUPSIZE) eqn:E7; cbn [negb]; [|apply Hless]. apply (propose_runs F q Hfair).
      apply joined_agree; try done; [lia|by apply Nat.ltb_lt|by apply Z.eqb_eq].
    + exfalso. rewrite join_players_flat in *. destruct (joined_all F (players_of (queue_of q s) check) ∅) as (_ & _ & Hj & _); [by rewrite map_size_empty|].
      rewrite map_union_empty in Hj. destruct (roles_found (foldl (join F) ∅ (players_of (queue_of q s) check))) as (b' & m' & E' & _);
        [rewrite Hj; by apply players_well|lia|congruence].
  - rewrite Em. apply ends_bind. cbn [liftX]. apply ends_ret. destruct (numPlayers n =? MAXGROUPSIZE) eqn:E7; cbn [negb]; [|apply Hless].
    apply (propose_runs F q Hfair). destruct check as [|e [|e' check]]; [done| |done]. simpl in Em |- *.
    eapply alone_agree; [done|done|lia|by apply Z.eqb_eq|exact Em].
Qed.

Lemma CheckCompatibility_runs check s : well_queued (queue_of q s) →
  returns (CheckCompatibility F q check) s (λ _ s', searched F q s s').
Proof using Hfair.
  revert s. induction check as [|e check IH]; intros s Hw; cbn [CheckCompatibility]; [by apply ends_ret|].
  destruct (_ || _); [by apply ends_ret|]. destruct check as [|e' [|e'' check]].
  1, 2: by apply check_elements_runs.
  apply ends_bind. eapply ends_mono; [apply IH, Hw|]. intros c s1 Hs1. destruct (not_compatible c).
  - eapply ends_mono; [apply (reject_runs F)|]. intros c' s2 [_ Hs2]. etrans; [exact Hs1|exact Hs2].
  - eapply ends_mono; [apply check_elements_runs; [|done]|intros c' s2 Hs2; etrans; [exact Hs1|exact Hs2]].
    eapply well_queued_wishes; [|exact Hw]. symmetry. apply (sr_wishes _ _ _ _ Hs1).
Qed.

End checking.

(** ** Searching *)

Section searching.
Context (F : Facts) (q : Z).
Hypothesis Hfair : fair F.

Lemma searched_well s s' : searched F q s s' → well_queued (queue_of q s) → well_queued (queue_of q s').
Proof using Type. intros H. apply well_queued_wishes. symmetry. apply (sr_wishes _ _ _ _ H). Qed.

Lemma FindNewGroups_runs fuel check all s : (length all < fuel)%nat → well_queued (queue_of q s) →
  returns (FindNewGroups F q fuel check all) s (λ r s', searched F q s s' ∧ (length r.2 ≤ length all)%nat).
Proof using Hfair.
  revert check all s. induction fuel as [|fuel IH]; intros check all s Hl Hw; [lia|]. cbn [FindNewGroups].
  unfold que. apply ends_bind, ends_bind, ends_getX, ends_ret, ends_bind.
  apply ends_mono with (P := λ _ s', searched F q s s').
  { destruct (GetCompatibles _ _); try (apply ends_ret; reflexivity). by apply CheckCompatibility_runs. }
  intros c s1 Hs1. apply ends_bind, ends_getX. destruct (bool_decide (c = LFG_COMPATIBLES_BAD_STATES) && _).
  { apply ends_bind, ends_modifyX, ends_ret. split; [|done]. etrans; [exact Hs1|by apply searched_change]. }
  destruct (negb _); [by apply ends_ret|].
  assert (∀ n check all' s2, (length all' ≤ n)%nat → (length all' ≤ length all)%nat → searched F q s s2 →
    returns ((fix try_all (n : nat) (check all : list Z) : X LFGMgr (LfgCompatibility * list Z * list Z) :=
         match n, all with
         | _, [] => mret (c, check, all)
         | O, _ => throwX Diverges
         | S n, g :: all =>
           '(subcompatibility, check, all) ← FindNewGroups F q fuel (check ++ [g]) all;
           if bool_decide (subcompatibility = LFG_COMPATIBLES_MATCH) then mret (LFG_COMPATIBLES_MATCH, check, all)
           else try_all n (removelast check) all
         end) n check all') s2 (λ r s', searched F q s s' ∧ (length r.2 ≤ length all)%nat)) as Hloop.
  { induction n as [|n IHn]; intros check' all' s2 Hn Ha Hs2; (destruct all' as [|g all']; [by apply ends_ret|]); simpl in Hn, Ha; [lia|].
    apply ends_bind. eapply ends_mono; [apply IH; [lia|by eapply searched_well]|]. intros [[c' check''] all''] s3 [Hs3 Hl3]. simpl in Hl3.
    assert (searched F q s s3) as Hs by (etrans; [exact Hs2|exact Hs3]).
    case_bool_decide; [apply ends_ret; split; [done|simpl; lia]|]. apply IHn; [lia|lia|done]. }
  apply Hloop; [lia|done|done].
Qed.

(** What a run over the new elements does. *)
Record grouped (s s' : LFGMgr) : Prop := {
  gr_wishes : wishes (queue_of q s') = wishes (queue_of q s);
  gr_players : PlayersStore s' = PlayersStore s;
  gr_groups : GroupsStore s' = GroupsStore s;
  gr_lists : ∀ e, e ∈ newToQueueStore (queue_of q s') ++ currentQueueStore (queue_of q s') →
                  e ∈ newToQueueStore (queue_of q s) ++ currentQueueStore (queue_of q s);
  gr_proposals : ∀ id p, ProposalsStore s' !! id = Some p → ProposalsStore s !! id = Some p ∨ sound_proposal F q s p }.

#[local] Instance grouped_preorder : PreOrder grouped.
Proof using Type.
  split; [split; auto|]. intros s1 s2 s3 [W1 P1 G1 L1 S1] [W2 P2 G2 L2 S2]. split; try congruence; [auto|].
  intros id p Hp. destruct (S2 id p Hp) as [Hp'|Hp']; [by apply S1|]. right. by eapply sound_proposal_same.
Qed.
Lemma searched_grouped s s' : searched F q s s' → grouped s s'.
Proof using Type.
  intros [H1 H2 H3 H4 H5 H6]. split; try done. intros e. rewrite !elem_of_app.
  intros [He|He]; [left|right]; (eapply elem_of_submseteq; [exact He|by apply sublist_submseteq]).
Qed.

Lemma find_groups_runs fuel n s : (length (newToQueueStore (queue_of q s)) ≤ fuel)%nat → well_queued (queue_of q s) →
  returns (find_groups_loop F q fuel n) s (λ _ s', grouped s s' ∧ newToQueueStore (queue_of q s') = []).
Proof using Hfair.
  revert n s. induction fuel as [|fuel IH]; intros n s Hl Hw; cbn [find_groups_loop]; unfold que;
    apply ends_bind, ends_bind, ends_getX, ends_ret; (destruct (newToQueueStore (queue_of q s)) as [|g new] eqn:En;
      [apply ends_ret; split; [reflexivity|done]|]); simpl in Hl; [lia|].
  apply ends_bind. unfold change at 1. apply ends_modifyX. set (s1 := set_QueuesStore _ _).
  assert (queue_of q s1 = RemoveFromNewQueue g (queue_of q s)) as E1 by (unfold queue_of at 1, s1; simpl; by rewrite lookup_insert_eq).
  assert (searched F q s s1) as Hs1.
  { apply (searched_change F q (RemoveFromNewQueue g)); [done| |done]. simpl. apply sublist_filter. }
  assert (length (newToQueueStore (queue_of q s1)) ≤ fuel)%nat as Hl1.
  { rewrite E1. simpl. rewrite En, filter_cons_False by (intros H; by apply H). etrans; [apply length_filter|]. lia. }
  apply ends_bind, ends_bind, ends_getX, ends_ret, ends_bind.
  eapply ends_mono; [apply FindNewGroups_runs; [lia|by eapply searched_well]|]. intros [[c check] all] s2 [Hs2 _].
  assert (searched F q s s2) as Hs by (etrans; [exact Hs1|exact Hs2]).
  assert (length (newToQueueStore (queue_of q s2)) ≤ fuel)%nat as Hl2.
  { etrans; [apply sublist_length, (sr_new _ _ _ _ Hs2)|done]. }
  case_bool_decide.
  - eapply ends_mono; [apply IH; [done|by eapply searched_well]|]. intros _ s3 [Hs3 H3]. split; [|done].
    etrans; [by apply searched_grouped|exact Hs3].
  - apply ends_bind. unfold change at 1. apply ends_modifyX. set (s3 := set_QueuesStore _ _).
    assert (queue_of q s3 = AddToCurrentQueue g (queue_of q s2)) as E3 by (unfold queue_of at 1, s3; simpl; by rewrite lookup_insert_eq).
    assert (grouped s s3) as Hs3.
    { destruct (searched_grouped _ _ Hs) as [W P G L S]. split; rewrite ?E3; try done. intros e. simpl. rewrite app_assoc, elem_of_app.
      intros [He| ->%list_elem_of_singleton]; [by apply L|]. rewrite En. constructor. }
    eapply ends_mono; [apply IH|].
    + by rewrite E3.
    + rewrite E3. by apply (searched_well s s2).
    + intros _ s4 [Hs4 H4]. split; [|done]. etrans; [exact Hs3|exact Hs4].
Qed.

Lemma FindGroups_runs s : well_queued (queue_of q s) →
  returns (FindGroups F q) s (λ _ s', grouped s s' ∧ newToQueueStore (queue_of q s') = []).
Proof using Hfair. intros Hw. unfold FindGroups, que. apply ends_bind, ends_bind, ends_getX, ends_ret. by apply find_groups_runs. Qed.

End searching.
