(* ===== verification/LfgProps.v ===== *)
(** * LfgProps: what the dungeon finder promises.

    Roles are found whenever they can be; every proposal is a sound one; a group queues exactly
    if its members have chosen roles that fit; who declines loses his place and the others get
    theirs back.  And a run in which players are in two proposals at once. *)
From S2P Require Import Prelude ObjectGuid FieldsText LfgRoles LfgQueue LfgMgr LfgSafety.
From stdpp Require Import gmap sets list sorting.
Open Scope Z_scope.
Import LfgRoles LfgQueue LfgMgr.

#[local] Opaque HighGuid.IS_GROUP_GUID.

(** ** What the manager does aside of its queues *)

(** Only the data of players and groups changes, and neither teams nor members; and calls. *)
Record aside (s s' : LFGMgr) : Prop := {
  as_queues : QueuesStore s' = QueuesStore s;
  as_checks : RoleChecksStore s' = RoleChecksStore s;
  as_proposals : ProposalsStore s' = ProposalsStore s;
  as_teams : ∀ g, GetTeam s' g = GetTeam s g;
  as_members : ∀ g, GetPlayers s' g = GetPlayers s g }.

#[export] Instance aside_preorder : PreOrder aside.
Proof. split; [by split|]. intros s1 s2 s3 [] []. split; try congruence; intros g; etrans; eauto. Qed.

Lemma aside_queue_id s s' g : aside s s' → GetQueueId s' g = GetQueueId s g.
Proof. intros H. unfold GetQueueId. by rewrite (as_members _ _ H), !(as_teams _ _ H). Qed.

Lemma aside_emit c : keeps aside (emit c).
Proof. by intros s. Qed.
Lemma aside_send F g c : keeps aside (send F g c).
Proof. unfold send. intros s. destruct (FindPlayer F g); [apply aside_emit|reflexivity]. Qed.
Lemma aside_on_player g f : (∀ d, m_Team (f d) = m_Team d) → keeps aside (on_player g f).
Proof.
  intros Hf s. split; try done. intros g'. unfold GetTeam, player_data. simpl. destruct (decide (g = g')) as [->|].
  - rewrite lookup_insert_eq. simpl. by rewrite Hf.
  - by rewrite lookup_insert_ne.
Qed.
Lemma aside_on_group g f : (∀ d, m_Players (f d) = m_Players d) → keeps aside (on_group g f).
Proof.
  intros Hf s. split; try done. intros g'. unfold GetPlayers, group_data. simpl. destruct (decide (g = g')) as [->|].
  - rewrite lookup_insert_eq. simpl. by rewrite Hf.
  - by rewrite lookup_insert_ne.
Qed.
Lemma aside_SetState g st : keeps aside (SetState g st).
Proof. unfold SetState. destruct (HighGuid.IS_GROUP_GUID g); [apply aside_on_group|apply aside_on_player]; by destruct st. Qed.
Lemma aside_RestoreState g : keeps aside (RestoreState g).
Proof.
  unfold RestoreState. destruct (HighGuid.IS_GROUP_GUID g); [by apply aside_on_group|apply aside_on_player].
  intros d. unfold player_RestoreState. by case_bool_decide.
Qed.
Lemma aside_SetRoles g r : keeps aside (SetRoles g r).
Proof. by apply aside_on_player. Qed.
#[export] Hint Resolve aside_emit aside_send aside_SetState aside_RestoreState aside_SetRoles : keeps.

Lemma aside_each {A} (l : list A) f : (∀ a, keeps aside (f a)) → keeps aside (each l f).
Proof. intros Hf. induction l as [|a l IH]; simpl; [apply keeps_ret, _|]. apply keeps_bind; [apply _|done|done]. Qed.

Lemma aside_member W gguid guid roles sent rc ds p : keeps aside (role_check_member W gguid guid roles sent rc ds p).
Proof. unfold role_check_member, status. keeps. Qed.
Lemma aside_notify W failed removed p g : keeps aside (notify_removed W failed removed p g).
Proof. unfold notify_removed, own_status, status. keeps. Qed.

(** These methods never throw. *)
Definition total {A} (m : X LFGMgr A) : Prop := ∀ s, ∃ a s', m s = (Ok a, s').
Lemma total_bind {A B} (m : X LFGMgr A) (f : A → X LFGMgr B) : total m → (∀ a, total (f a)) → total (m ≫= f).
Proof. intros Hm Hf s. destruct (Hm s) as (a & s1 & E). destruct (Hf a s1) as (b & s2 & E'). exists b, s2. unfold mbind, X_bind. by rewrite E. Qed.
Lemma total_ret {A} (a : A) : total (mret a).
Proof. intros s. by exists a, s. Qed.
Lemma total_modify f : total (modifyX f).
Proof. intros s. by exists tt, (f s). Qed.
Lemma total_getX : total getX.
Proof. intros s. by exists s, s. Qed.
Create HintDb total.
#[export] Hint Resolve total_ret total_modify total_getX : total.
Ltac total :=
  repeat (intros; match goal with
    | |- total (match ?x with _ => _ end) => destruct x
    | |- total (_ ≫= _) => apply total_bind
    | |- total (SetState _ _) => unfold SetState, on_group, on_player
    | |- total (RestoreState _) => unfold RestoreState, on_group, on_player
    | |- total (SetRoles _ _) => unfold SetRoles, on_player
    | |- total (send _ _ _) => unfold send, emit
    | |- total (emit _) => unfold emit
    | |- total _ => solve [eauto with total]
    end).
Lemma total_each {A} (l : list A) f : (∀ a, total (f a)) → total (each l f).
Proof. intros Hf. induction l; simpl; total. Qed.
Lemma total_member W gguid guid roles sent rc ds p : total (role_check_member W gguid guid roles sent rc ds p).
Proof. unfold role_check_member, status. total. Qed.
Lemma total_notify W failed removed p g : total (notify_removed W failed removed p g).
Proof. unfold notify_removed, own_status, status. total. Qed.

Lemma runs_aside {A} (m : X LFGMgr A) s : total m → keeps aside m → returns m s (λ _ s', aside s s').
Proof. intros Ht Hk. specialize (Hk s). unfold ends. destruct (Ht s) as (a & s' & E). by rewrite E in *. Qed.

(** ** Several changes of one queue *)

Record only_queue (q : Z) (s s' : LFGMgr) : Prop := {
  oq_others : ∀ q', q' ≠ q → QueuesStore s' !! q' = QueuesStore s !! q';
  oq_proposals : ProposalsStore s' = ProposalsStore s;
  oq_checks : RoleChecksStore s' = RoleChecksStore s;
  oq_players : PlayersStore s' = PlayersStore s;
  oq_groups : GroupsStore s' = GroupsStore s }.

Lemma change_runs q f s : returns (change q f) s (λ _ s', only_queue q s s' ∧ queue_of q s' = f (queue_of q s)).
Proof.
  unfold change. apply ends_modifyX. split; [|unfold queue_of at 1; simpl; by rewrite lookup_insert_eq].
  split; try done. intros q' Hq. simpl. by rewrite lookup_insert_ne.
Qed.
Lemma each_change q (f : Z → LFGQueue → LFGQueue) l s :
  returns (each l (λ g, change q (f g))) s (λ _ s', only_queue q s s' ∧ queue_of q s' = foldl (λ Q g, f g Q) (queue_of q s) l).
Proof.
  revert s. induction l as [|g l IH]; intros s; cbn [each]; [by apply ends_ret; split|].
  apply ends_bind. eapply ends_mono; [apply change_runs|]. intros _ s1 [[O1 P1 C1 L1 G1] Q1].
  eapply ends_mono; [apply IH|]. intros _ s2 [[O2 P2 C2 L2 G2] Q2]. cbn [foldl]. rewrite <-Q1. split; [|done].
  split; try congruence. intros q' Hq. by rewrite O2, O1.
Qed.

Lemma filter_not_nil (l : list Z) : filter (λ e, e ∉ []) l = l.
Proof. induction l as [|e l IH]; [done|]. rewrite filter_cons_True, IH; [done|apply not_elem_of_nil]. Qed.
Lemma remove_all l Q : let Q' := foldl (λ Q g, RemoveFromQueue g Q) Q l in
  wishes Q' = foldl (λ w g, delete g w) (wishes Q) l ∧
  newToQueueStore Q' = filter (λ e, e ∉ l) (newToQueueStore Q) ∧ currentQueueStore Q' = filter (λ e, e ∉ l) (currentQueueStore Q).
Proof.
  revert Q. induction l as [|g l IH]; intros Q; cbn [foldl].
  - split; [done|]. by rewrite !filter_not_nil.
  - destruct (IH (RemoveFromQueue g Q)) as (H1 & H2 & H3). rewrite H1, H2, H3, RemoveFromQueue_wishes. split; [done|].
    split; simpl; rewrite list_filter_filter; apply list_filter_iff; intros e; rewrite elem_of_cons; naive_solver.
Qed.
Lemma delete_all l (w : gmap Z (gset Z * LfgRolesMap)) e : foldl (λ w g, delete g w) w l !! e = if bool_decide (e ∈ l) then None else w !! e.
Proof.
  revert w. induction l as [|g l IH]; intros w; [done|]. cbn [foldl]. rewrite IH. destruct (decide (e = g)) as [->|].
  - rewrite (bool_decide_true (g ∈ g :: l)) by constructor. rewrite lookup_delete_eq. by case_bool_decide.
  - rewrite lookup_delete_ne by done. rewrite (bool_decide_ext (e ∈ g :: l) (e ∈ l)); [done|]. rewrite elem_of_cons. naive_solver.
Qed.
Lemma add_all l Q : let Q' := foldl (λ Q g, AddToQueue g Q) Q l in
  wishes Q' = wishes Q ∧ currentQueueStore Q' = currentQueueStore Q ∧
  newToQueueStore Q' = newToQueueStore Q ++ filter (λ e, is_Some (wishes Q !! e)) l.
Proof.
  revert Q. induction l as [|g l IH]; intros Q; cbn [foldl]; [by rewrite app_nil_r|].
  destruct (IH (AddToQueue g Q)) as (H1 & H2 & H3). rewrite H1, H2, H3. unfold AddToQueue.
  assert (wishes Q !! g = (λ d, (dungeons d, queue_roles d)) <$> QueueDataStore Q !! g) as Eg by apply lookup_fmap.
  destruct (QueueDataStore Q !! g) as [d|] eqn:E; simpl.
  - rewrite filter_cons_True by (rewrite Eg; simpl; eauto). by rewrite <-app_assoc.
  - rewrite filter_cons_False; [done|]. rewrite Eg. by intros [].
Qed.

(** ** The theorems *)

(** C18. The search for roles ends; it succeeds exactly if there is a way to give every player one
    of the roles that he is willing to play with at most one tank, one healer and three damage
    dealers, and then gives one; otherwise it leaves the roles as they were, but for the flags of
    leaders. *)
Theorem group_roles m : m ≠ ∅ → (size m < 256)%nat → known_roles m →
  ∃ found m', CheckGroupRoles m = Ok (found, m') ∧ (found = true ↔ ∃ a, assignment m a) ∧
    if found then assignment m m' else m' = without_leader m.
Proof.
  intros Hne Hs Hk. pose proof (CheckGroupRoles_answers m Hne (known_bytes m Hk) Hs) as H.
  destruct (CheckGroupRoles m) as [[[] m']|]; [| |done].
  - exists true, m'. split; [done|]. split; [|done]. split; [by exists m'|done].
  - destruct H as [-> Hno]. exists false, (without_leader m). split; [done|]. split; [|done]. split; [done|].
    intros Ha. by destruct (Hno Hk).
Qed.

Lemma group_roles_witness : let m := {[1 := 14; 2 := 6; 3 := 8; 4 := 9; 5 := 12]} : gmap Z Z in
  (∃ found m', CheckGroupRoles m = Ok (found, m') ∧ (found = true ↔ ∃ a, assignment m a) ∧
     if found then assignment m m' else m' = without_leader m) ∧
  CheckGroupRoles m = Ok (true, {[1 := 2; 2 := 4; 3 := 8; 4 := 8; 5 := 8]}).
Proof.
  split; [|vm_compute; reflexivity].
  apply (group_roles {[1 := 14; 2 := 6; 3 := 8; 4 := 9; 5 := 12]}); apply (bool_decide_unpack _); vm_compute; reflexivity.
Defined.

(** C17. Whatever is queued and cached, a run over the new elements of a queue ends, without
    undefined behaviour, leaves no new element unseen, and every proposal it makes is sound: five
    different players, each of one element that is still queued; a dungeon that all elements
    asked for; at most one group of the dungeon finder; a leader among them; and, if there are
    several elements, one tank, one healer and three damage dealers in roles that they chose,
    nobody of whom ignores another. *)
Theorem proposals_sound F q s : fair F → well_queued (queue_of q s) →
  returns (FindGroups F q) s (λ _ s',
    (∀ id p, ProposalsStore s' !! id = Some p → ProposalsStore s !! id = Some p ∨ sound_proposal F q s p) ∧
    newToQueueStore (queue_of q s') = [] ∧
    (∀ e, e ∈ currentQueueStore (queue_of q s') → e ∈ newToQueueStore (queue_of q s) ++ currentQueueStore (queue_of q s)) ∧
    wishes (queue_of q s') = wishes (queue_of q s)).
Proof.
  intros Hf Hw. eapply ends_mono; [by apply (FindGroups_runs F q Hf)|]. intros _ s' [[H1 H2 H3 H4 H5] H6].
  split; [done|]. split; [done|]. split; [|done]. intros e He. apply H4, elem_of_app. by right.
Qed.

(** ** A small server *)

Module LfgSmall.

Definition ds : gset Z := {[7; 9]}.
(** Player 1 ignores 2 and 4, and 8 ignores 1. *)
Definition ignore (a b : Z) : bool := bool_decide ((a, b) ∈ [(1, 2); (1, 4); (8, 1)]).
Definition W : Surroundings := mkSurroundings
  (mkFacts (λ _, true) ignore (λ _, 1000) (λ _ _ _, 0)) (λ _, true) (λ _, false) (λ _, false) (λ _, false)
  {[7 := mkLFGDungeonData LFG_TYPE_DUNGEON 1 false; 9 := mkLFGDungeonData LFG_TYPE_DUNGEON 1 false]} (λ _, ds)
  false true (λ _, true) (λ _ s, s) (λ _ _ s, s).

(** Players 5 and 6 are a group. *)
Definition pair : Z := HighGuid.MAKE_NEW_GUID 9 0 HighGuid.HIGHGUID_GROUP.
Definition pair_info : GroupInfo := mkGroupInfo pair false 2 [Some 5; Some 6].
Definition fresh : LFGMgr := mkLFGMgr ∅ ∅ ∅ ∅ ∅ {[pair := mkLfgGroupData LFG_STATE_NONE LFG_STATE_NONE 5 {[5; 6]} 0 3]} 1 0 [].

Definition alone (g roles : Z) : X LFGMgr unit := JoinLfg W g None roles ds [].
(** Joining, one after the other, and then a tick of the world. *)
Definition arrivals : X LFGMgr unit :=
  alone 1 PLAYER_ROLE_HEALER;; alone 2 PLAYER_ROLE_TANK;; alone 3 PLAYER_ROLE_HEALER;; alone 4 PLAYER_ROLE_DAMAGE;;
  JoinLfg W 5 (Some pair_info) PLAYER_ROLE_DAMAGE ds [];; UpdateRoleCheck W pair 6 PLAYER_ROLE_DAMAGE;;
  alone 7 PLAYER_ROLE_DAMAGE;; alone 8 PLAYER_ROLE_DAMAGE.
Definition evening : X LFGMgr unit := arrivals;; Update W 50.
Definition dusk : LFGMgr := (arrivals fresh).2.
Definition night : LFGMgr := (evening fresh).2.
(** Player 5 asks for the pair, and 6 has not chosen yet. *)
Definition noon : LFGMgr := (JoinLfg W 5 (Some pair_info) PLAYER_ROLE_DAMAGE ds [] fresh).2.
Definition pair_check : LfgRoleCheck := mkLfgRoleCheck 46000 {[5 := 8; 6 := 0]} LFG_ROLECHECK_INITIALITING ds 0 5.

Definition asked (s : LFGMgr) (id : Z) : list Z :=
  omap (λ c, match c with SendLfgUpdateProposal g p => if proposal_id p =? id then Some g else None | _ => None end) (calls s).
Definition members_of (s : LFGMgr) (id : Z) : list Z := match ProposalsStore s !! id with Some p => keys (players p) | None => [] end.

End LfgSmall.

Lemma proposals_sound_witness :
  returns (FindGroups (facts LfgSmall.W) 0) LfgSmall.dusk (λ _ s',
    (∀ id p, ProposalsStore s' !! id = Some p → ProposalsStore LfgSmall.dusk !! id = Some p ∨ sound_proposal (facts LfgSmall.W) 0 LfgSmall.dusk p) ∧
    newToQueueStore (queue_of 0 s') = [] ∧
    (∀ e, e ∈ currentQueueStore (queue_of 0 s') →
      e ∈ newToQueueStore (queue_of 0 LfgSmall.dusk) ++ currentQueueStore (queue_of 0 LfgSmall.dusk)) ∧
    wishes (queue_of 0 s') = wishes (queue_of 0 LfgSmall.dusk)) ∧
  keys (ProposalsStore (FindGroups (facts LfgSmall.W) 0 LfgSmall.dusk).2) = [2; 3].
Proof.
  split; [|vm_compute; reflexivity]. apply proposals_sound.
  - intros cs n Hn. simpl. lia.
  - unfold well_queued, well, byte. apply (bool_decide_unpack _). vm_compute. reflexivity.
Defined.


(** ** Answers to a proposal *)

Lemma aside_queue_of q s s' : aside s s' → queue_of q s' = queue_of q s.
Proof. intros H. unfold queue_of. by rewrite (as_queues _ _ H). Qed.

Lemma GetQueue_runs g s : returns (GetQueue g) s (λ q s', q = GetQueueId s g ∧ only_queue q s s' ∧ queue_of q s' = queue_of q s).
Proof.
  unfold GetQueue. apply ends_bind, ends_getX, ends_bind. eapply ends_mono; [apply change_runs|]. intros _ s' [H1 H2]. by apply ends_ret.
Qed.

Lemma to_remove_spec failed ps e : e ∈ to_remove failed ps ↔ ∃ g pp, ps !! g = Some pp ∧ denies failed pp = true ∧ element_of g pp = e.
Proof.
  unfold to_remove, set_keys. rewrite (merge_sort_Permutation Z.le), elem_of_elements, elem_of_list_to_set, list_elem_of_omap. split.
  - intros (g & _ & Hg). destruct (ps !! g) as [pp|] eqn:E; [|done]. simpl in Hg. destruct (denies failed pp) eqn:Ed; [|done].
    injection Hg as <-. by exists g, pp.
  - intros (g & pp & Hg & Hd & <-). exists g. split; [apply elem_of_keys; eauto|]. by rewrite Hg; simpl; rewrite Hd.
Qed.

(** Where the elements of a proposal are after [RemoveProposal]. *)
Record taken_back (failed : bool) (p : LfgProposal) (q : Z) (s s' : LFGMgr) : Prop := {
  tb_others : ∀ q', q' ≠ q → QueuesStore s' !! q' = QueuesStore s !! q';
  tb_wishes : ∀ e, wishes (queue_of q s') !! e = if bool_decide (e ∈ to_remove failed (players p)) then None else wishes (queue_of q s) !! e;
  tb_current : currentQueueStore (queue_of q s') = filter (λ e, e ∉ to_remove failed (players p)) (currentQueueStore (queue_of q s));
  tb_new : newToQueueStore (queue_of q s') = (filter (λ e, e ∉ to_remove failed (players p)) (newToQueueStore (queue_of q s))) ++
             filter (λ e, e ∉ to_remove failed (players p) ∧ is_Some (wishes (queue_of q s) !! e)) (queues p) }.

Lemma RemoveProposal_runs W failed id p s : ProposalsStore s !! id = Some p → players p ≠ ∅ →
  returns (RemoveProposal W id failed) s (λ _ s', ProposalsStore s' = delete id (ProposalsStore s) ∧
    taken_back failed p (GetQueueId s (default 0 (head (keys (players p))))) s s').
Proof.
  intros Hp Hne. unfold RemoveProposal. apply ends_bind, ends_getX. rewrite Hp. apply ends_bind, ends_modifyX.
  set (p' := with_players _ _ p). set (s1 := set_ProposalsStore _ s). apply ends_bind.
  eapply ends_mono; [apply runs_aside; [apply total_each; intros; apply total_notify|apply aside_each; intros; apply aside_notify]|].
  intros [] s2 Hs2. cbv beta in Hs2. assert (keys (players p') = keys (players p)) as Hk by (apply keys_dom, dom_fmap_L). rewrite Hk.
  destruct (keys (players p)) as [|g l] eqn:El.
  { exfalso. apply Hne, map_empty. intros g. destruct (players p !! g) eqn:E; [|done]. assert (g ∈ keys (players p)) by (apply elem_of_keys; eauto).
    rewrite El in *. by apply elem_of_nil in H. }
  change (default 0 (head (g :: l))) with g. apply ends_bind. eapply ends_mono; [apply GetQueue_runs|]. intros q s3 (-> & O3 & Q3).
  rewrite (aside_queue_id _ _ _ Hs2) in *. change (GetQueueId s1 g) with (GetQueueId s g) in *. set (q := GetQueueId s g) in *.
  pose proof (aside_queue_of q _ _ Hs2) as Q2. change (queue_of q s1) with (queue_of q s) in Q2. rewrite Q2 in Q3.
  apply ends_bind. eapply ends_mono; [apply each_change|]. intros _ s4 [O4 Q4]. rewrite Q3 in Q4.
  apply ends_bind. eapply ends_mono; [apply each_change|]. intros _ s5 [O5 Q5]. rewrite Q4 in Q5.
  apply ends_modifyX. destruct (remove_all (to_remove failed (players p)) (queue_of q s)) as (R1 & R2 & R3).
  destruct (add_all (filter (λ g, g ∉ to_remove failed (players p)) (queues p)) (foldl (λ Q g, RemoveFromQueue g Q) (queue_of q s) (to_remove failed (players p)))) as (A1 & A2 & A3).
  change (queues p') with (queues p) in Q5. set (s6 := set_ProposalsStore _ s5). assert (queue_of q s6 = queue_of q s5) as Q6 by done.
  rewrite Q5 in Q6.
  split.
  - change (delete id (ProposalsStore s5) = delete id (ProposalsStore s)).
    rewrite (oq_proposals _ _ _ O5), (oq_proposals _ _ _ O4), (oq_proposals _ _ _ O3), (as_proposals _ _ Hs2). simpl. apply delete_insert_eq.
  - split; rewrite ?Q6.
    + intros q' Hq. simpl. by rewrite (oq_others _ _ _ O5), (oq_others _ _ _ O4), (oq_others _ _ _ O3), (as_queues _ _ Hs2).
    + intros e. by rewrite A1, R1, delete_all.
    + by rewrite A2, R3.
    + rewrite A3, R2. f_equal. rewrite list_filter_filter. apply list_filter_iff. intros e. rewrite R1, delete_all.
      case_bool_decide; [|tauto]. split; [by intros [[]%is_Some_None ?]|by intros []].
Qed.



(** ** The role check of a group *)

Lemma all_chosen rs : forallb (λ g, negb (role_of rs g =? PLAYER_ROLE_NONE)) (keys rs) = true ↔ ∀ k, rs !! k ≠ Some PLAYER_ROLE_NONE.
Proof.
  rewrite forallb_forall. split; intros H k.
  - intros E. specialize (H k). rewrite (role_of_Some _ _ _ E) in H. discriminate H. apply list_elem_of_In, elem_of_keys. eauto.
  - intros Hk%list_elem_of_In. apply elem_of_keys in Hk as [v Hv]. rewrite (role_of_Some _ _ _ Hv). apply negb_true_iff, Z.eqb_neq.
    intros ->. by apply (H k).
Qed.

Definition with_roles (rs : LfgRolesMap) (st : LfgRoleCheckState) (rc : LfgRoleCheck) : LfgRoleCheck :=
  mkLfgRoleCheck (rc_cancelTime rc) rs st (rc_dungeons rc) (rDungeonId rc) (rc_leader rc).

(** The three outcomes of an answer. *)
Lemma answer_spec rc guid roles : guid ≠ 0 → PLAYER_ROLE_TANK ≤ roles < 16 → known_roles (rc_roles rc) → (size (rc_roles rc) < 255)%nat →
  let rs := <[guid := roles]> (rc_roles rc) in
  ∃ st, answer_role_check rc guid roles = Ok (with_roles rs st rc) ∧
    ((∃ k, rs !! k = Some PLAYER_ROLE_NONE) → st = rc_state rc) ∧
    ((∀ k, rs !! k ≠ Some PLAYER_ROLE_NONE) →
      (st = LFG_ROLECHECK_FINISHED ∧ solvable rs) ∨ (st = LFG_ROLECHECK_WRONG_ROLES ∧ ¬ solvable rs)).
Proof.
  intros Hg Hr Hk Hs rs. unfold answer_role_check, PLAYER_ROLE_TANK in *. rewrite (proj2 (Z.eqb_neq guid 0) Hg).
  rewrite (proj2 (Z.ltb_ge roles 2)) by lia. fold rs.
  assert (known_roles rs) as Hk' by (apply map_Forall_insert_2; [lia|done]).
  assert (rs ≠ ∅) as Hne by apply insert_non_empty.
  assert (size rs < 256)%nat as Hs' by (unfold rs; rewrite map_size_insert; case_match; simpl; lia).
  pose proof (CheckGroupRoles_answers rs Hne (known_bytes rs Hk') Hs') as Hans.
  destruct (forallb _ _) eqn:E.
  - pose proof (proj1 (all_chosen rs) E) as Hall.
    destruct (CheckGroupRoles rs) as [[[] m']|]; [| |done]; eexists; (split; [reflexivity|]);
      (split; [intros [k ?]; by destruct (Hall k)|]); intros _; [left|right]; (split; [done|]).
    + by exists m'.
    + by apply Hans.
  - exists (rc_state rc). split; [done|]. split; [done|]. intros Hall%all_chosen. congruence.
Qed.

Lemma GetState_group_same s s' g : HighGuid.IS_GROUP_GUID g = true → GroupsStore s' = GroupsStore s → GetState s' g = GetState s g.
Proof. intros Hg H. unfold GetState, group_data. by rewrite Hg, H. Qed.
Lemma SetState_group g st s : HighGuid.IS_GROUP_GUID g = true → returns (SetState g st) s (λ _ s', GetState s' g = st ∧ aside s s').
Proof.
  intros Hg. pose proof (aside_SetState g st s) as Ha. unfold SetState in *. rewrite Hg in *. unfold on_group in *. apply ends_modifyX. split; [|exact Ha].
  unfold GetState. rewrite Hg. unfold group_data. simpl. rewrite lookup_insert_eq. by destruct st.
Qed.


